(* ===== verification/_CoqProject ===== *)
-Q . S2P
Prelude.v
Buffer.v
BufferOps.v
CircList.v
PacketId.v
ReplayFilter.v
DataChannel.v
DataTunnel.v
TlsCrypt.v
Reliable.v
ReliableAck.v
ReliableStore.v
ControlChannel.v
ReliableNet.v
StreamBuf.v
Fragment.v
Base64.v
Proto.v
Mss.v
Mbuf.v
ClientNat.v
Dhcp.v
Vlan.v
PacketProto.v
ChunkBuffer.v
SocksClient.v
UdpGw.v
SocksUdpGw.v
UdpDevice.v
TcpClient.v
TcpRelay.v
ControlWrap.v
KeyExchange.v
TlsSessions.v
TlsProcess.v
TlsMulti.v
TlsTunnel.v
