(* ===== verification/Prelude.v ===== *)
(** * The native core of SmartTunnel: a verification development

    ** The program

    SmartTunnel is an Android VPN application.  Its native code has two
    engines, both under src/app/src/main/cpp/: an OpenVPN client
    (openvpn/src/openvpn, written OV below) and tun2socks of badvpn (badvpn,
    written BV), which turns the packets of a TUN device into TCP connections
    and UDP associations of a SOCKS server.  OpenSSL, mbed TLS, lwIP and the
    compression libraries are third-party code next to them.

    tun2socks takes UDP packets off the device (process_device_udp_packet of
    BV/tun2socks/tun2socks.c), hands DNS queries to a DNS gateway and other
    datagrams to the UDP gateway client (BV/udpgw_client/UdpGwClient.c), which
    shares one SOCKS connection (BV/socksclient) between all of them: packets
    wait in buffers (BV/flow/PacketBuffer.c), are framed by the PacketProto
    encoder and numbered per connection, and the answers come back as UDP
    packets of the device.  TCP packets go to lwIP; each connection that it
    accepts is a struct tcp_client of tun2socks.c, which relays its data over a
    SOCKS connection of its own.

    The life of an OpenVPN session: control packets carry a TLS conversation
    over UDP.  The reliability layer (OV/reliable.c) numbers, stores,
    acknowledges and retransmits them; OV/ssl.c moves ciphertext between it and
    the TLS library; OV/ssl_pkt.c gives each packet its opcode, session id and
    acknowledgements and wraps it with tls-auth or tls-crypt (OV/tls_crypt.c).
    A tunnel (struct tls_multi) has three sessions with two keys each, whose
    state machines start, renew and retire keys and pick them for packets.
    Data packets then flow through OV/clinat.c, OV/mss.c and OV/fragment.c to
    openvpn_encrypt and openvpn_decrypt of OV/crypto.c, which use the packet ids
    and the replay window of OV/packet_id.c.  Everything works in place on
    struct buffer of OV/buffer.h.

    ** Files

    Shared:
    - [Prelude]: the result type of C code, bytes and machine integers, slices
      of blocks, tactics, hint and rewrite databases;
    - [Buffer], [BufferOps]: OV/buffer.h, OV/buffer.c; [Buffer.holds] describes
      head room, content and tail room of a buffer and is the interface through
      which all other files reason about memory;
    - [CircList]: OV/circ_list.h and OV/integer.h.

    Data packets:
    - [PacketId]: OV/packet_id.c, and crypto_check_replay of OV/crypto.c;
      [ReplayFilter]: the filter with a complete memory that the replay window
      implements, for every window, age limit and in TCP mode;
    - [DataChannel], [DataTunnel]: openvpn_encrypt and openvpn_decrypt of
      OV/crypto.c, one end and both ends;
    - [Fragment]: OV/fragment.c;  [Mss]: OV/mss.c;  [ClientNat]: OV/clinat.c;
      [Dhcp]: OV/dhcp.c;  [Vlan]: OV/vlan.c;  [Proto]: OV/proto.h, OV/proto.c;
    - [Mbuf]: OV/mbuf.c, the queue of shared packets.

    Control packets:
    - [Reliable], [ReliableAck], [ReliableStore]: OV/reliable.c, its operations,
      the acknowledgement records, the packet stores;
    - [ControlChannel]: the parts of tls_process and tls_pre_decrypt of OV/ssl.c
      around the stores;  [ReliableNet]: both ends over a lossy network;
    - [TlsCrypt]: OV/tls_crypt.c;  [ControlWrap]: OV/ssl_pkt.c;
    - [TlsSessions]: struct tls_session and struct key_state of OV/ssl_common.h
      with the operations of OV/ssl.c that start and retire keys, the address
      checks of OV/socket.h, and the invariant [sess_inv] of a session;
    - [TlsProcess]: the state machine, tls_process and tls_process_state;
    - [TlsMulti]: struct tls_multi, tls_multi_process, tls_pre_decrypt,
      tls_pre_encrypt and what they call, with the invariant [multi_inv];
    - [TlsTunnel]: the reachable states of a tunnel, and a client and a server
      that exchange packets from the first one to data;
    - [Base64]: OV/base64.c, used by the authentication messages;
    - [KeyExchange]: key method 2 of OV/ssl.c, from the messages to the keys;
    - [StreamBuf]: the framing of packets on TCP connections, OV/socket.c.

    tun2socks:
    - [PacketProto]: BV/flow/PacketProtoEncoder.c and PacketProtoDecoder.c;
    - [ChunkBuffer]: BV/structure/ChunkBuffer2.h and BV/flow/PacketBuffer.c;
    - [SocksClient]: BV/socksclient/BSocksClient.c;
    - [UdpGw]: BV/udpgw_client/UdpGwClient.c;
    - [SocksUdpGw]: BV/tun2socks/SocksUdpGwClient.c;
    - [UdpDevice]: the UDP packets of the device in BV/tun2socks/tun2socks.c with
      the headers and checksums of BV/misc, on top of the two clients;
    - [TcpClient], [TcpRelay]: struct tcp_client of BV/tun2socks/tun2socks.c, its
      operations with the invariant [TcpClient.relay], and its callbacks and runs.

    ** How C is modelled

    A routine returns a value of [outcome]: [Ret], [Abort] for a failed ASSERT
    or a fatal message, [Fault] for memory outside a block or other undefined
    behaviour.  Structures are records, passed in and returned; a pointer into a
    block is an index.  Where aliasing matters the shared store is explicit:
    [Mbuf.heap] for reference-counted packets, and in [Proto.win] two buffer
    headers over one block.  Integers are [Z] with the wrap-around written out
    ([u8], [u16], [u32], [to_int16], ...) where the C type can wrap; where
    a range excludes wrapping, the invariant of the component says so.  The
    target is little-endian, as all Android ABIs are.

    Time, random bytes, the contents of fresh memory and whether an allocation
    succeeds are arguments, so theorems hold for all of them.  Log output and
    statistics counters are left out.

    Code outside the repository's own sources is a parameter with stated laws:
    ciphers and digests are the classes [DataChannel.CipherOps],
    [DataChannel.HmacOps] and [ControlWrap.KeyInit], with the laws
    [cipher_sane], [cipher_pair] (decryption undoes encryption), [stream_cipher],
    [stream_pair] and [stream_app] (counter mode), [key_init_ok] and
    [data_init_ok]; each
    witness instantiates them with a concrete cipher.  The TLS library is what it
    produces and accepts, the SOCKS server is an arbitrary byte stream, lwIP is
    the callbacks it makes and the results it gives; assertions of badvpn are
    checked although the Android build defines NDEBUG, but for one that is
    reached, the ASSERT(0) for EVENT_CONNECTED: [SocksClient.ASSERT_0] depends on
    the class [SocksClient.Build], which says whether NDEBUG is defined.  The
    theorems on TCP clients are for both builds; [SocksUdpGw] is in the build
    with NDEBUG.

    Loops are structural recursions where C iterates over an array; the others
    carry fuel that the callers derive from the length of the data (the bytes of
    an option area, the slots of a ring, the words of a packet), and the theorems
    state that the call returns, so the fuel suffices.  The loop of tls_process
    runs as long as its rounds change something; [TlsProcess.max_rounds] = 256 is
    proved to be enough by a measure on the state of the key, its stores and its
    buffers.  The invariants of a session carry a bound [b] on the packets sent,
    since the 32-bit ids of control packets are never renewed: a tunnel of up to
    2^27 operations stays below it.

    ** What is proved

    - Safety: on any input from the network, within the conditions that the
      theorems name, no assertion fires and no byte outside a block is touched:
      data packets ([data_channel_refines]), control
      packets ([control_read_any_sequence], [first_packet_checked]), key exchange
      messages ([key_method_2_any_message]), the whole TLS tunnel, whatever the
      TLS library answers ([tls_process_returns], [tunnel_never_fails]), TCP streams ([stream_any_input]),
      fragments ([fragment_incoming_safe]), DHCP ([dhcp_extract_any_packet]), the SOCKS
      handlers ([socks_handlers_safe]), the buffer type itself
      ([buffer_ops_preserve_wf]); the UDP path of tun2socks on any packets of the
      device and any answers ([tun_udp_answers], [socks_udpgw_total]); the TCP
      clients of tun2socks, whatever lwIP and the SOCKS server do
      ([tcp_client_never_fails]).
    - Refinement: the receiver of the data channel is a filter with a complete
      memory of all packet ids ([data_channel_refines],
      [replay_window_refines_history]); the ring of shared packets is a bounded
      queue whose reference counts are exact ([mbuf_refines_queue]); the chunk
      buffer of badvpn is a first-in first-out queue ([packet_buffer_fifo]) of
      which the capacity is known ([packet_buffer_capacity]); the trees, the list
      and the ids of the gateway client are a table of connections in the order
      of use ([udpgw_refines_table]); the walk
      over TCP options is the specification on bytes ([mss_fixup_packets]).
    - Round trips of both ends: [data_channel_roundtrip],
      [control_packet_roundtrip], [tls_crypt_v2_first_packet],
      [client_key_roundtrip], [key_exchange_tunnel], [data_header_roundtrip], [stream_roundtrip],
      [fragment_roundtrip], [ack_write_read_roundtrip], [base64_roundtrip],
      [vlan_tag_roundtrip], [udpgw_reply_roundtrip], [device_reply_roundtrip].
    - Delivery: the control channel delivers in order, each packet once
      ([control_channel_in_order]), and can always be drained
      ([control_channel_drains]); the packet stream decoder and the SOCKS
      handshake complete ([packetproto_completes], [socks_completes]); a TCP
      client relays in order and loses nothing that the other side can still take
      ([tcp_relay_in_order], [half_closed_client_drains]).
    - Keys: a key in use has its ciphers, a retired one a time to die, the ids
      of a session's keys differ ([tunnel_keys]), and a data packet is decrypted
      by the first usable key of its sender ([data_packet_key]).
    - Replay protection: [replay_no_duplicates], [sender_ids_unique],
      [data_channel_delivers_once], [data_channel_rejects_forgery].
    - Defects the modelling showed are theorems too: [persist_reload_replay],
      [base64_invalid_character_accepted], [mss_odd_offset_breaks_checksum],
      [session_id_cookie_inverted], [wrapped_key_alone_aborts],
      [failed_keys_abort], [dns_reply_source], [udp_checksum_ffff_refused],
      and lemmas next to them.

    ** Not modelled

    System calls and glue (OV/tun.c, OV/route.c, OV/init.c, OV/forward.c, most of
    OV/socket.c), option parsing (OV/options.c), the management interface, server
    mode apart from [Mbuf], key files, auth-token, and in badvpn the
    reactor, the AVL trees of BV/structure/BAVL.c (a tree is the set of its
    nodes), the start-up of tun2socks.c with the list of its TCP clients, and lwIP.  String formatting and gc arenas of
    OV/buffer.c are left out.
*)

From stdpp Require Import prelude.
From Stdlib Require Import ZArith Lia ZifyBool.

Local Open Scope Z_scope.

(** ** Outcomes of C code

    A C routine either returns ([Ret]), stops the process through a failed
    [ASSERT] or an [M_FATAL] message ([Abort]), or touches memory outside the
    block it was given ([Fault]).  Safety theorems show that the last two do
    not happen. *)

Inductive outcome (A : Type) : Type :=
| Ret (a : A)
| Abort
| Fault.
Arguments Ret {A} a.
Arguments Abort {A}.
Arguments Fault {A}.

#[global] Instance outcome_ret : MRet outcome := @Ret.
#[global] Instance outcome_bind : MBind outcome := fun A B f m =>
  match m with Ret a => f a | Abort => Abort | Fault => Fault end.

(** [ASSERT(b)] *)
Definition ASSERT (b : bool) : outcome () := if b then Ret () else Abort.

Lemma outcome_bind_assoc {A B C} (m : outcome A) (f : A -> outcome B) (g : B -> outcome C) :
  ((m ≫= f) ≫= g) = (m ≫= fun a => f a ≫= g).
Proof. by destruct m. Qed.

Lemma bind_Ret_inv {A B} (m : outcome A) (f : A -> outcome B) b :
  (m ≫= f) = Ret b -> exists a, m = Ret a /\ f a = Ret b.
Proof. destruct m; simpl; try discriminate. eauto. Qed.

Lemma ASSERT_true b : b = true -> ASSERT b = Ret ().
Proof. by intros ->. Qed.

(** A pointer that may be NULL. *)
Definition deref {A} (p : option A) : outcome A := match p with Some a => Ret a | None => Fault end.

(** ** Machine integers *)

Definition u8 (x : Z) : Z := x mod 2 ^ 8.
Definition u16 (x : Z) : Z := x mod 2 ^ 16.
Definition u32 (x : Z) : Z := x mod 2 ^ 32.

(** The [int] a 32-bit pattern is converted to (two's complement). *)
Definition to_int (x : Z) : Z :=
  if u32 x <? 2 ^ 31 then u32 x else u32 x - 2 ^ 32.

(** Linear arithmetic with division and modulo by constants. *)
Ltac mlia := Z.div_mod_to_equations; lia.

(** Case analysis on every boolean guard of goal and context, closing the
    contradictory branches by arithmetic. *)
Ltac guards :=
  change (Z.of_nat 0) with 0 in *;
  repeat (case_match; simplify_eq/=; try lia); try done.

Lemma u32_range x : 0 <= u32 x < 2 ^ 32.
Proof. apply Z.mod_pos_bound. lia. Qed.
Lemma u16_range x : 0 <= u16 x < 2 ^ 16.
Proof. apply Z.mod_pos_bound. lia. Qed.
Lemma u8_range x : 0 <= u8 x < 2 ^ 8.
Proof. apply Z.mod_pos_bound. lia. Qed.

Lemma u32_small x : 0 <= x < 2 ^ 32 -> u32 x = x.
Proof. apply Z.mod_small. Qed.
Lemma u16_small x : 0 <= x < 2 ^ 16 -> u16 x = x.
Proof. apply Z.mod_small. Qed.
Lemma u8_small x : 0 <= x < 2 ^ 8 -> u8 x = x.
Proof. apply Z.mod_small. Qed.

Lemma u32_idemp_sub_l x y : u32 (u32 x - y) = u32 (x - y).
Proof. unfold u32. by rewrite Zminus_mod_idemp_l. Qed.
Lemma u32_idemp_sub_r x y : u32 (x - u32 y) = u32 (x - y).
Proof. unfold u32. by rewrite Zminus_mod_idemp_r. Qed.
Lemma u32_idemp_add_l x y : u32 (u32 x + y) = u32 (x + y).
Proof. unfold u32. by rewrite Zplus_mod_idemp_l. Qed.

(** ** Bit fields *)

(** A field put above [n] bits that are in use adds up. *)
Lemma lor_field a b n : 0 <= n -> 0 <= a < 2 ^ n -> Z.lor a (Z.shiftl b n) = a + b * 2 ^ n.
Proof.
  intros Hn Ha. assert (H0 : Z.land a (Z.shiftl b n) = 0).
  { apply Z.bits_inj'. intros i Hi. rewrite Z.land_spec, Z.bits_0.
    destruct (decide (i < n)).
    - rewrite (Z.shiftl_spec_low b n i) by lia. apply andb_false_r.
    - rewrite <- (Z.mod_small a (2 ^ n)) by lia. rewrite Z.mod_pow2_bits_high by lia. done. }
  rewrite <- Z.lxor_lor, <- Z.add_nocarry_lxor by done. by rewrite Z.shiftl_mul_pow2.
Qed.

(** Reading a field of [w] bits. *)
Lemma land_field x n w mask :
  0 <= n -> 0 <= w -> mask = Z.ones w -> Z.land (Z.shiftr x n) mask = (x / 2 ^ n) mod 2 ^ w.
Proof. intros Hn Hw ->. by rewrite Z.land_ones, Z.shiftr_div_pow2. Qed.

Lemma land_low x w mask : 0 <= w -> mask = Z.ones w -> Z.land x mask = x mod 2 ^ w.
Proof. intros Hw ->. by apply Z.land_ones. Qed.

(** ** Bytes and byte strings *)

Definition is_byte (b : Z) : Prop := 0 <= b < 256.
Abbreviation bytes := (list Z).
Abbreviation zlen l := (Z.of_nat (length l)).

(** [n] bytes of [w], most significant first: what [htons]/[htonl] followed by
    a copy of the word puts in memory. *)
Fixpoint be_bytes (n : nat) (w : Z) : bytes :=
  match n with
  | O => []
  | S n' => (w / 256 ^ Z.of_nat n') mod 256 :: be_bytes n' w
  end.

(** The value of a big-endian byte string ([ntohs]/[ntohl] of a copied word). *)
Fixpoint be_val (l : bytes) : Z :=
  match l with
  | [] => 0
  | b :: l' => b * 256 ^ zlen l' + be_val l'
  end.

Lemma length_be_bytes n w : length (be_bytes n w) = n.
Proof. induction n; simpl; congruence. Qed.

Lemma be_bytes_is_byte n w : Forall is_byte (be_bytes n w).
Proof. induction n; simpl; constructor; auto. unfold is_byte. mlia. Qed.

Lemma be_val_bytes n w : be_val (be_bytes n w) = w mod 256 ^ Z.of_nat n.
Proof.
  induction n as [|n IH]; simpl.
  - by rewrite Z.mod_1_r.
  - rewrite IH, length_be_bytes, Nat2Z.inj_succ, Z.pow_succ_r by lia.
    assert (0 < 256 ^ Z.of_nat n) by (apply Z.pow_pos_nonneg; lia).
    rewrite (Z.mul_comm 256), Z.rem_mul_r by lia. lia.
Qed.

Lemma be_val_range l : Forall is_byte l -> 0 <= be_val l < 256 ^ zlen l.
Proof.
  induction 1 as [|b l Hb Hl IH]; simpl; [lia|].
  rewrite Nat2Z.inj_succ, Z.pow_succ_r by lia. unfold is_byte in Hb. nia.
Qed.

Lemma be_bytes_val l : Forall is_byte l -> be_bytes (length l) (be_val l) = l.
Proof.
  induction 1 as [|b l Hb Hl IH]; simpl; [done|].
  pose proof (be_val_range l Hl) as Hr. unfold is_byte in Hb.
  assert (Hdiv : (b * 256 ^ zlen l + be_val l) / 256 ^ zlen l = b).
  { rewrite Z.div_add_l by lia. rewrite Z.div_small; lia. }
  rewrite Hdiv, Z.mod_small by lia. f_equal.
  etransitivity; [|exact IH]. clear IH Hdiv Hb.
  assert (H : forall n v k, (n <= length l)%nat ->
    be_bytes n (k * 256 ^ zlen l + v) = be_bytes n v); [|by apply H].
  intros n v k. induction n as [|n IHn]; intros Hn; simpl; [done|].
  rewrite IHn by lia. f_equal.
  replace (256 ^ zlen l) with (256 ^ (zlen l - Z.of_nat n - 1) * 256 * 256 ^ Z.of_nat n).
  2:{ rewrite <- Z.mul_assoc, <- Z.pow_succ_r, <- Z.pow_add_r by lia. f_equal. lia. }
  rewrite !Z.mul_assoc, Z.div_add_l by (apply Z.pow_nonzero; lia).
  rewrite Z.add_comm, Z.mod_add by lia. done.
Qed.

Lemma be_val_u32 x : 0 <= x < 2 ^ 32 -> be_val (be_bytes 4 x) = x.
Proof. intros. rewrite be_val_bytes. by apply Z.mod_small. Qed.
Lemma be_val_u16 x : 0 <= x < 2 ^ 16 -> be_val (be_bytes 2 x) = x.
Proof. intros. rewrite be_val_bytes. by apply Z.mod_small. Qed.

Lemma be_bytes_1 x : be_bytes 1 x = [u8 x].
Proof. cbn [be_bytes]. by rewrite Z.div_1_r. Qed.
Lemma be_val_1 x : be_val [x] = x.
Proof. cbn. lia. Qed.

(** The digits stay folded: proofs use the round trips above. *)
Arguments be_bytes : simpl never.
Arguments be_val : simpl never.

(** ** Memory blocks

    A block of memory is the list of its bytes; [slice] and [splice] read and
    overwrite a range.  The C accesses are [mem_read] and [mem_write], which
    fault when the range leaves the block. *)

Definition slice {A} (l : list A) (p n : Z) : list A := take (Z.to_nat n) (drop (Z.to_nat p) l).
Definition splice {A} (l : list A) (p : Z) (bs : list A) : list A :=
  take (Z.to_nat p) l ++ bs ++ drop (Z.to_nat p + length bs) l.

Definition in_block (blk : bytes) (p n : Z) : bool :=
  (0 <=? p) && (0 <=? n) && (p + n <=? zlen blk).

Definition mem_read (blk : bytes) (p n : Z) : outcome bytes :=
  if in_block blk p n then Ret (slice blk p n) else Fault.
Definition mem_write (blk : bytes) (p : Z) (bs : bytes) : outcome bytes :=
  if in_block blk p (zlen bs) then Ret (splice blk p bs) else Fault.

Section slices.
Context {A : Type}.
Implicit Types l bs : list A.

Lemma zlen_slice l p n : 0 <= p -> 0 <= n -> p + n <= zlen l -> zlen (slice l p n) = n.
Proof. intros. unfold slice. rewrite length_take, length_drop. lia. Qed.

Lemma length_splice l p bs :
  0 <= p -> p + zlen bs <= zlen l -> length (splice l p bs) = length l.
Proof.
  intros. unfold splice. rewrite !length_app, length_take, length_drop. lia.
Qed.

Lemma lookup_slice l p n (i : nat) :
  slice l p n !! i = if decide (i < Z.to_nat n)%nat then l !! (Z.to_nat p + i)%nat else None.
Proof.
  unfold slice. case_decide.
  - by rewrite lookup_take_lt, lookup_drop.
  - by rewrite lookup_take_ge by lia.
Qed.

Lemma lookup_splice l p bs (i : nat) :
  p <= zlen l ->
  splice l p bs !! i =
    if decide (i < Z.to_nat p)%nat then l !! i
    else if decide (i < Z.to_nat p + length bs)%nat then bs !! (i - Z.to_nat p)%nat
    else l !! i.
Proof.
  intros Hp. unfold splice.
  assert (Hl : length (take (Z.to_nat p) l) = Z.to_nat p) by (rewrite length_take; lia).
  repeat case_decide.
  - rewrite lookup_app_l, lookup_take_lt by lia. done.
  - rewrite lookup_app_r, lookup_app_l, Hl by lia. done.
  - rewrite !lookup_app_r, lookup_drop, Hl by lia. f_equal. lia.
Qed.

Lemma lookup_splice_other l p bs (i : nat) :
  0 <= p <= zlen l -> ~ (p <= Z.of_nat i < p + zlen bs) -> splice l p bs !! i = l !! i.
Proof. intros Hp Hi. rewrite lookup_splice by lia. repeat case_decide; done || lia. Qed.

Lemma lookup_splice_in l p bs (i : nat) :
  0 <= p <= zlen l -> p <= Z.of_nat i < p + zlen bs -> splice l p bs !! i = bs !! (i - Z.to_nat p)%nat.
Proof. intros Hp Hi. rewrite lookup_splice by lia. repeat case_decide; done || lia. Qed.
End slices.

(** Equality of slices and splices, element by element. *)
Ltac slice_ext :=
  apply list_eq; intros ?i;
  repeat first
    [ rewrite lookup_slice
    | rewrite lookup_splice by (rewrite ?length_splice; lia)
    | rewrite lookup_app
    | case_decide; try lia
    | case_match ];
  try (f_equal; lia); try done.

Section slice_laws.
Context {A : Type}.
Implicit Types l bs : list A.

Lemma slice_0 l p : slice l p 0 = [].
Proof. done. Qed.

Lemma slice_full l n : n = zlen l -> slice l 0 n = l.
Proof. intros ->. unfold slice. simpl. rewrite drop_0, take_ge; [done|lia]. Qed.

Lemma slice_app_split l p n m :
  0 <= p -> 0 <= n -> 0 <= m -> slice l p (n + m) = slice l p n ++ slice l (p + n) m.
Proof.
  intros. unfold slice. rewrite !Z2Nat.inj_add by lia.
  rewrite <- drop_drop. symmetry. apply take_take_drop.
Qed.

Lemma slice_app_l (l1 l2 : list A) n : n = zlen l1 -> slice (l1 ++ l2) 0 n = l1.
Proof. intros ->. unfold slice. simpl. rewrite drop_0, Nat2Z.id, take_app_length. done. Qed.

Lemma slice_skip (l r : list A) p n : zlen l <= p -> slice (l ++ r) p n = slice r (p - zlen l) n.
Proof.
  intros Hp. unfold slice. rewrite drop_app_ge by lia. by replace (Z.to_nat p - length l)%nat with (Z.to_nat (p - zlen l)) by lia.
Qed.

Lemma slice_slice l p n q m :
  0 <= p -> 0 <= q -> 0 <= m -> q + m <= n -> slice (slice l p n) q m = slice l (p + q) m.
Proof. intros. slice_ext. Qed.

Lemma slice_splice_same l p bs n :
  0 <= p -> p + zlen bs <= zlen l -> n = zlen bs -> slice (splice l p bs) p n = bs.
Proof.
  intros Hp Hl ->. slice_ext. symmetry. apply lookup_ge_None. lia.
Qed.

Lemma splice_full (b m : bytes) : zlen m = zlen b -> splice b 0 m = m.
Proof.
  intros Hl. unfold splice. change (Z.to_nat 0) with 0%nat. rewrite take_0, drop_ge by lia. by rewrite app_nil_r.
Qed.

Lemma slice_splice_before l p bs q n :
  0 <= p -> p + zlen bs <= zlen l -> 0 <= q -> q + n <= p ->
  slice (splice l p bs) q n = slice l q n.
Proof. intros. slice_ext. Qed.

Lemma slice_splice_after l p bs q n :
  0 <= p -> p + zlen bs <= zlen l -> p + zlen bs <= q ->
  slice (splice l p bs) q n = slice l q n.
Proof. intros. slice_ext. Qed.

Lemma splice_splice_adj l p bs1 bs2 :
  0 <= p -> p + zlen bs1 + zlen bs2 <= zlen l ->
  splice (splice l p bs1) (p + zlen bs1) bs2 = splice l p (bs1 ++ bs2).
Proof.
  intros. apply list_eq; intros i.
  rewrite !lookup_splice, length_app by (rewrite ?length_splice; lia).
  repeat case_decide; try lia; try done.
  - rewrite lookup_app_l by lia. done.
  - rewrite lookup_app_r by lia. f_equal. lia.
Qed.

Lemma splice_nil l p : splice l p [] = l.
Proof. unfold splice. simpl. rewrite Nat.add_0_r. apply take_drop. Qed.
End slice_laws.

Section forall_slices.
Context {A : Type} (P : A -> Prop).

Lemma Forall_slice l p n : Forall P l -> Forall P (slice l p n).
Proof. intros. by apply Forall_take, Forall_drop. Qed.

Lemma Forall_splice l p bs : Forall P l -> Forall P bs -> Forall P (splice l p bs).
Proof.
  intros. apply Forall_app; split; [by apply Forall_take|].
  apply Forall_app; split; [done|by apply Forall_drop].
Qed.
End forall_slices.

Lemma mem_read_Ret blk p n :
  0 <= p -> 0 <= n -> p + n <= zlen blk -> mem_read blk p n = Ret (slice blk p n).
Proof. intros. unfold mem_read, in_block. guards. Qed.

Lemma mem_write_Ret blk p bs :
  0 <= p -> p + zlen bs <= zlen blk -> mem_write blk p bs = Ret (splice blk p bs).
Proof. intros. unfold mem_write, in_block. guards. Qed.

(** ** Arrays: indexed access that faults out of range *)

Definition arr_get {A} (l : list A) (i : Z) : outcome A :=
  if 0 <=? i then match l !! Z.to_nat i with Some x => Ret x | None => Fault end else Fault.
Definition arr_set {A} (l : list A) (i : Z) (x : A) : outcome (list A) :=
  if (0 <=? i) && (i <? zlen l) then Ret (<[Z.to_nat i := x]> l) else Fault.

Lemma arr_set_Ret {A} (l : list A) i x :
  0 <= i < zlen l -> arr_set l i x = Ret (<[Z.to_nat i := x]> l).
Proof. intros. unfold arr_set. guards. Qed.

Lemma arr_get_Ret {A} (l : list A) i x :
  0 <= i -> l !! Z.to_nat i = Some x -> arr_get l i = Ret x.
Proof. intros ? H. unfold arr_get. rewrite H. guards. Qed.

Lemma arr_get_returns {A} (l : list A) i :
  0 <= i < zlen l -> exists x, arr_get l i = Ret x /\ l !! Z.to_nat i = Some x.
Proof.
  intros H. destruct (lookup_lt_is_Some_2 l (Z.to_nat i)) as [x Hx]; [lia|].
  exists x. split; [|done]. apply arr_get_Ret; [lia|done].
Qed.

Lemma arr_get_mid {A} (pre post : list A) x i :
  i = zlen pre -> arr_get (pre ++ x :: post) i = Ret x.
Proof. intros ->. apply arr_get_Ret; [lia|]. rewrite Nat2Z.id. by apply list_lookup_middle. Qed.

Lemma arr_set_mid {A} (pre post : list A) x y i :
  i = zlen pre -> arr_set (pre ++ x :: post) i y = Ret (pre ++ y :: post).
Proof.
  intros ->. rewrite arr_set_Ret by (rewrite length_app; simpl; lia).
  rewrite Nat2Z.id, insert_app_r_alt, Nat.sub_diag by lia. done.
Qed.

Lemma filter_ne_absent {A} `{EqDecision A} (x : A) (l : list A) :
  x ∉ l -> filter (λ y, y ≠ x) l = l.
Proof.
  induction l as [|y l IH]; [done|]. intros Hn. rewrite filter_cons_True by set_solver.
  f_equal. apply IH. set_solver.
Qed.

Lemma elem_of_take_incl {A} (x : A) n l : x ∈ take n l -> x ∈ l.
Proof. intros H. eapply elem_of_sublist; [exact H|apply sublist_take]. Qed.

Lemma NoDup_take_incl {A} n (l : list A) : NoDup l -> NoDup (take n l).
Proof. intros H. eapply sublist_NoDup; [exact H|apply sublist_take]. Qed.

(** ** Linear search *)

Fixpoint find_index {A} (p : A -> bool) (l : list A) : option nat :=
  match l with
  | [] => None
  | x :: l' => if p x then Some O else S <$> find_index p l'
  end.

Lemma find_index_Some {A} (p : A -> bool) l i :
  find_index p l = Some i ->
  exists x, l !! i = Some x /\ p x = true /\
    forall j y, (j < i)%nat -> l !! j = Some y -> p y = false.
Proof.
  revert i. induction l as [|x l IH]; simpl; intros i Hi; [done|].
  destruct (p x) eqn:E; simplify_eq.
  - exists x. split_and!; [done|done|lia].
  - destruct (find_index p l) as [k|]; simplify_eq/=. destruct (IH k eq_refl) as (y & Hy & Hp & Hb).
    exists y. split_and!; [done|done|]. intros [|j] z Hj Hz; simplify_eq/=; [done|].
    eapply Hb; [|done]. lia.
Qed.

Lemma find_index_None {A} (p : A -> bool) l :
  find_index p l = None -> forall i x, l !! i = Some x -> p x = false.
Proof.
  induction l as [|x l IH]; simpl; intros Hn i y Hy; [done|].
  destruct (p x) eqn:E; [done|]. destruct (find_index p l); [done|].
  destruct i; simplify_eq/=; eauto.
Qed.

Lemma find_index_is_Some {A} (p : A -> bool) l i x :
  l !! i = Some x -> p x = true -> exists k, find_index p l = Some k.
Proof.
  intros Hi Hp. destruct (find_index p l) eqn:E; [eauto|].
  rewrite (find_index_None _ _ E _ _ Hi) in Hp. done.
Qed.

(** ** Invariants of step relations *)

Lemma rtc_preserve {A} (R : relation A) (P : A -> Prop) x y :
  (forall a b, P a -> R a b -> P b) -> rtc R x y -> P x -> P y.
Proof. intros HR Hxy. induction Hxy as [|x y z Hs _ IH]; eauto. Qed.

(** The facts about byte strings that most proofs use. *)
Create HintDb bytesdb.
Create Rewrite HintDb bytesdb.
#[export] Hint Resolve Forall_slice Forall_splice be_bytes_is_byte : bytesdb.
#[export] Hint Rewrite length_be_bytes : bytesdb.
