(* ===== verification/Buffer.v ===== *)
(** * struct buffer: bounded byte buffers with head room (openvpn buffer.h, buffer.c)

    [buffer] is the C record; its [bdata] is the malloc'd block the data
    pointer addresses ([None] for NULL), so a pointer into a buffer is an index
    into that block.  Every operation that copies memory goes through
    [mem_read]/[mem_write] and would fault outside the block.  [buf_wf] is the
    invariant, [content] the bytes a buffer holds; the lemmas say what each
    operation does to [content] and that none of them faults.  Sizes are
    mathematical integers: [buf_wf] keeps capacity below [BUF_SIZE_MAX], so the
    C [int] sums stay far below 2^31. *)

From S2P Require Import Prelude.
From stdpp Require Import prelude.
From Stdlib Require Import ZArith Lia ZifyBool.

Local Open Scope Z_scope.

(** ** Data *)

Record buffer := mkbuf {
  bcapacity : Z;          (** size of the allocated memory *)
  boffset : Z;            (** where the content starts in the block *)
  blen : Z;               (** length of the content *)
  bdata : option bytes    (** the block, or NULL *)
}.

Definition BUF_SIZE_MAX : Z := 1000000.

Definition clear_buf : buffer := mkbuf 0 0 0 None.

Definition set_len (b : buffer) (n : Z) : buffer := mkbuf (bcapacity b) (boffset b) n (bdata b).
Definition set_offset_len (b : buffer) (o n : Z) : buffer := mkbuf (bcapacity b) o n (bdata b).
Definition set_data (b : buffer) (d : bytes) : buffer :=
  mkbuf (bcapacity b) (boffset b) (blen b) (Some d).

(** ** Accessors and size tests *)

Definition buf_defined (b : buffer) : bool := if bdata b is Some _ then true else false.
Definition buf_valid (b : buffer) : bool := buf_defined b && (0 <=? blen b).
Definition buf_bptr (b : buffer) : option Z := if buf_valid b then Some (boffset b) else None.
Definition buf_len (b : buffer) : Z := if buf_valid b then blen b else 0.
Definition buf_blast (b : buffer) : option Z :=
  if 0 <? buf_len b then Some (boffset b + buf_len b - 1) else None.
Definition buf_size_valid (size : Z) : bool := (0 <=? size) && (size <? BUF_SIZE_MAX).
Definition buf_size_valid_signed (size : Z) : bool :=
  (- BUF_SIZE_MAX <=? size) && (size <? BUF_SIZE_MAX).

Definition buf_safe (b : buffer) (n : Z) : bool :=
  buf_valid b && buf_size_valid n && (boffset b + blen b + n <=? bcapacity b).
Definition buf_safe_bidir (b : buffer) (n : Z) : bool :=
  if buf_valid b && buf_size_valid_signed n then
    let newlen := blen b + n in
    (0 <=? newlen) && (boffset b + newlen <=? bcapacity b)
  else false.
Definition buf_forward_capacity (b : buffer) : Z :=
  if buf_valid b then
    let ret := bcapacity b - (boffset b + blen b) in if ret <? 0 then 0 else ret
  else 0.
Definition buf_forward_capacity_total (b : buffer) : Z :=
  if buf_valid b then
    let ret := bcapacity b - boffset b in if ret <? 0 then 0 else ret
  else 0.
Definition buf_reverse_capacity (b : buffer) : Z := if buf_valid b then boffset b else 0.

(** ** Allocation and positioning *)

(** [alloc_buf]: [calloc] gives a zeroed block; a size that is not valid stops
    the process in [buf_size_error]. *)
Definition alloc_buf (size : Z) : outcome buffer :=
  ASSERT (buf_size_valid size);;
  Ret (mkbuf size 0 0 (Some (replicate (Z.to_nat size) 0))).

Definition buf_reset (b : buffer) : buffer := mkbuf 0 0 0 None.
Definition buf_reset_len (b : buffer) : buffer := set_offset_len b 0 0.

Definition buf_init_dowork (b : buffer) (offset : Z) : buffer * bool :=
  if (offset <? 0) || (bcapacity b <? offset) || negb (buf_defined b) then (b, false)
  else (set_offset_len b offset 0, true).
Abbreviation buf_init := buf_init_dowork.

Definition buf_set_read (d : bytes) : outcome buffer :=
  ASSERT (buf_size_valid (zlen d));;
  Ret (mkbuf (zlen d) 0 (zlen d) (Some d)).

Definition buf_clear (b : buffer) : outcome buffer :=
  if 0 <? bcapacity b then
    match bdata b with
    | None => Fault
    | Some blk =>
        blk' ← mem_write blk 0 (replicate (Z.to_nat (bcapacity b)) 0);
        Ret (mkbuf (bcapacity b) 0 0 (Some blk'))
    end
  else Ret (set_offset_len b 0 0).

Definition buf_inc_len (b : buffer) (inc : Z) : buffer * bool :=
  if negb (buf_safe_bidir b inc) then (b, false) else (set_len b (blen b + inc), true).

Definition buf_prepend (b : buffer) (size : Z) : buffer * option Z :=
  if negb (buf_valid b) || (size <? 0) || (boffset b <? size) then (b, None)
  else let b' := set_offset_len b (boffset b - size) (blen b + size) in (b', buf_bptr b').

Definition buf_advance (b : buffer) (size : Z) : buffer * bool :=
  if negb (buf_valid b) || (size <? 0) || (blen b <? size) then (b, false)
  else (set_offset_len b (boffset b + size) (blen b - size), true).

Definition buf_write_alloc (b : buffer) (size : Z) : buffer * option Z :=
  if negb (buf_safe b size) then (b, None)
  else (set_len b (blen b + size), Some (boffset b + blen b)).

Definition buf_write_alloc_prepend (b : buffer) (size : Z) (prepend : bool) : buffer * option Z :=
  if prepend then buf_prepend b size else buf_write_alloc b size.

Definition buf_read_alloc (b : buffer) (size : Z) : buffer * option Z :=
  if (size <? 0) || (blen b <? size) then (b, None)
  else (set_offset_len b (boffset b + size) (blen b - size), buf_bptr b).

(** [ASSERT (f (&buf, ...))] for an operation that changes [buf]. *)
Definition ASSERT_ok (r : buffer * bool) : outcome buffer := ASSERT r.2;; Ret r.1.

Lemma ASSERT_ok_true b : ASSERT_ok (b, true) = Ret b.
Proof. done. Qed.

(** ** Copying *)

(** [memcpy] to and from the block a buffer points to. *)
Definition poke (b : buffer) (p : Z) (bs : bytes) : outcome buffer :=
  match bdata b with
  | None => Fault
  | Some blk => blk' ← mem_write blk p bs; Ret (set_data b blk')
  end.
Definition peek (b : buffer) (p n : Z) : outcome bytes :=
  match bdata b with None => Fault | Some blk => mem_read blk p n end.

Definition buf_write (dest : buffer) (src : bytes) : outcome (buffer * bool) :=
  match buf_write_alloc dest (zlen src) with
  | (d, None) => Ret (d, false)
  | (d, Some cp) => d' ← poke d cp src; Ret (d', true)
  end.

Definition buf_write_prepend (dest : buffer) (src : bytes) : outcome (buffer * bool) :=
  match buf_prepend dest (zlen src) with
  | (d, None) => Ret (d, false)
  | (d, Some cp) => d' ← poke d cp src; Ret (d', true)
  end.

Definition buf_write_u8 (dest : buffer) (v : Z) : outcome (buffer * bool) :=
  buf_write dest [u8 v].
Definition buf_write_u16 (dest : buffer) (v : Z) : outcome (buffer * bool) :=
  buf_write dest (be_bytes 2 (u16 v)).
Definition buf_write_u32 (dest : buffer) (v : Z) : outcome (buffer * bool) :=
  buf_write dest (be_bytes 4 (u32 v)).

(** [buf_read]: [None] when fewer than [size] bytes are left. *)
Definition buf_read (src : buffer) (size : Z) : outcome (buffer * option bytes) :=
  match buf_read_alloc src size with
  | (s, None) => Ret (s, None)
  | (s, Some cp) => d ← peek s cp size; Ret (s, Some d)
  end.

Definition buf_read_u8 (b : buffer) : outcome (buffer * Z) :=
  if buf_len b <? 1 then Ret (b, -1)
  else d ← peek b (boffset b) 1; Ret ((buf_advance b 1).1, be_val d).

Definition buf_read_u16 (b : buffer) : outcome (buffer * Z) :=
  '(b', d) ← buf_read b 2;
  Ret (b', match d with None => -1 | Some d => be_val d end).

(** The second component is [*good]. *)
Definition buf_read_u32 (b : buffer) : outcome (buffer * (Z * bool)) :=
  '(b', d) ← buf_read b 4;
  Ret (b', match d with None => (0, false) | Some d => (be_val d, true) end).

(** The bytes [BPTR(src)], [BLEN(src)] denote. *)
Definition buf_bytes (src : buffer) : outcome bytes :=
  if buf_len src =? 0 then Ret [] else peek src (boffset src) (buf_len src).

Definition buf_copy (dest src : buffer) : outcome (buffer * bool) :=
  d ← buf_bytes src; buf_write dest d.

(** [clone_buf]: the copy gets a block of its own; [junk] is what [malloc] left
    in it. *)
Definition clone_buf (junk : bytes) (b : buffer) : outcome buffer :=
  let ret := mkbuf (bcapacity b) (boffset b) (blen b) (Some junk) in
  d ← buf_bytes b;
  match d with
  | [] => Ret ret
  | _ => poke ret (boffset b) d
  end.

(** [buf_copy_n] also moves [src]; the result is (dest, src, ok). *)
Definition buf_copy_n (dest src : buffer) (n : Z) : outcome (buffer * buffer * bool) :=
  match buf_read_alloc src n with
  | (s, None) => Ret (dest, s, false)
  | (s, Some cp) => d ← peek s cp n; '(dest', ok) ← buf_write dest d; Ret (dest', s, ok)
  end.

(** An addition of C ints; overflow is undefined behaviour. *)
Definition int_add (a b : Z) : outcome Z := if (- 2 ^ 31 <=? a + b) && (a + b <? 2 ^ 31) then Ret (a + b) else Fault.

Definition buf_copy_range (dest : buffer) (dest_index : Z) (src : buffer) (src_index src_len : Z)
  : outcome (buffer * bool) :=
  if (src_index <? 0) || (src_len <? 0) then Ret (dest, false)
  else
    src_end ← int_add src_index src_len;
    if (blen src <? src_end) || (dest_index <? 0) then Ret (dest, false)
    else
      start ← int_add (boffset dest) dest_index;
      stop ← int_add start src_len;
      if bcapacity dest <? stop then Ret (dest, false)
      else
        d ← peek src (boffset src + src_index) src_len;
        dest' ← poke dest (boffset dest + dest_index) d;
        new_len ← int_add dest_index src_len;
        Ret (if blen dest' <? new_len then set_len dest' new_len else dest', true).

Lemma int_add_Ret a b : - 2 ^ 31 <= a + b < 2 ^ 31 -> int_add a b = Ret (a + b).
Proof. intros H. unfold int_add. rewrite (proj2 (Z.leb_le _ _)), (proj2 (Z.ltb_lt _ _)) by apply H. done. Qed.

(** [buf_copy_excess]: the result is (dest, src, ok). *)
Definition buf_copy_excess (dest src : buffer) (n : Z) : outcome (buffer * buffer * bool) :=
  if n <? 0 then Ret (dest, src, false)
  else if n <? blen src then
    match buf_advance src n with
    | (_, false) => Ret (dest, set_len src n, false)
    | (b, true) => '(dest', ok) ← buf_copy dest b; Ret (dest', set_len src n, ok)
    end
  else Ret (dest, src, true).

Definition buf_assign (dest src : buffer) : outcome (buffer * bool) :=
  match buf_init dest (boffset src) with
  | (d, false) => Ret (d, false)
  | (d, true) => s ← buf_bytes src; buf_write d s
  end.

(** [buf_sub] returns a second header for a range of [buf]'s own block.  The
    sub-buffer's block is the part of the parent's block from the pointer on;
    [buf_sub_merge] is the parent after writes through the sub-buffer, which
    are writes to the same memory. *)
Definition buf_sub (b : buffer) (size : Z) (prepend : bool) : buffer * option (Z * buffer) :=
  match buf_write_alloc_prepend b size prepend with
  | (b', None) => (b', None)
  | (b', Some p) =>
      (b', Some (p, mkbuf size 0 0 (drop (Z.to_nat p) <$> bdata b')))
  end.

Definition buf_sub_merge (b : buffer) (p : Z) (sub : buffer) : buffer :=
  match bdata b, bdata sub with
  | Some blk, Some sblk => set_data b (take (Z.to_nat p) blk ++ sblk)
  | _, _ => b
  end.

(** ** Invariant and abstract view

    [holds b hd c tl]: [b] is a defined, well-formed buffer with [hd] bytes of
    head room, content [c] and [tl] bytes of tail room. *)

Record buf_ok (b : buffer) (blk : bytes) : Prop := {
  ok_data : bdata b = Some blk;
  ok_offset : 0 <= boffset b;
  ok_len : 0 <= blen b;
  ok_cap : boffset b + blen b <= bcapacity b;
  ok_block : bcapacity b <= zlen blk;
  ok_max : bcapacity b < BUF_SIZE_MAX;
  ok_bytes : Forall is_byte blk
}.

Definition content (b : buffer) : bytes :=
  match bdata b with None => [] | Some blk => slice blk (boffset b) (blen b) end.

(** The invariant of every buffer: well formed, or the cleared record. *)
Definition buf_wf (b : buffer) : Prop := (exists blk, buf_ok b blk) \/ b = clear_buf.

Definition holds (b : buffer) (hd : Z) (c : bytes) (tl : Z) : Prop :=
  exists blk, buf_ok b blk /\ boffset b = hd /\ content b = c /\
              bcapacity b - boffset b - blen b = tl.

Lemma buf_ok_content b blk : buf_ok b blk -> content b = slice blk (boffset b) (blen b).
Proof. intros H. unfold content. by rewrite (ok_data _ _ H). Qed.

Lemma zlen_content b blk : buf_ok b blk -> zlen (content b) = blen b.
Proof.
  intros H. rewrite (buf_ok_content _ _ H). destruct H. apply zlen_slice; lia.
Qed.

Lemma holds_bounds b hd c tl :
  holds b hd c tl ->
  0 <= hd /\ 0 <= tl /\ blen b = zlen c /\ boffset b = hd /\ bcapacity b = hd + zlen c + tl /\
  bcapacity b < BUF_SIZE_MAX /\ buf_valid b = true /\ buf_defined b = true /\ Forall is_byte c.
Proof.
  intros (blk & H & Ho & Hc & Ht). pose proof (zlen_content _ _ H) as Hl.
  rewrite Hc in Hl. unfold buf_valid, buf_defined. rewrite (ok_data _ _ H).
  assert (Forall is_byte c).
  { rewrite <- Hc, (buf_ok_content _ _ H). apply Forall_slice, H. }
  destruct H. repeat split; try lia; done.
Qed.

Lemma holds_bytes b hd c tl : holds b hd c tl -> Forall is_byte c.
Proof.
  intros (blk & Hok & _ & <- & _). rewrite (buf_ok_content _ _ Hok). apply Forall_slice, Hok.
Qed.

Lemma holds_wf b hd c tl : holds b hd c tl -> buf_wf b.
Proof. intros (blk & H & _). left. eauto. Qed.

(** Facts about a represented buffer, put in the context. *)
Ltac holds_facts H :=
  let H0 := fresh "Hhd" in let H1 := fresh "Htl" in let H2 := fresh "Hlen" in
  let H3 := fresh "Hoff" in let H4 := fresh "Hcap" in let H5 := fresh "Hmax" in
  let H6 := fresh "Hval" in let H7 := fresh "Hdef" in let H8 := fresh "Hbytes" in
  destruct (holds_bounds _ _ _ _ H) as (H0 & H1 & H2 & H3 & H4 & H5 & H6 & H7 & H8).

(** Writing [s] at [p] through a header [b'] that shares [b]'s block. *)
Lemma poke_ok b blk p s :
  buf_ok b blk -> 0 <= p -> p + zlen s <= bcapacity b -> Forall is_byte s ->
  poke b p s = Ret (set_data b (splice blk p s)) /\
  buf_ok (set_data b (splice blk p s)) (splice blk p s).
Proof.
  intros [Hd Ho Hl Hc Hb Hm Hby] Hp Hs Hsb. unfold poke. rewrite Hd.
  rewrite mem_write_Ret by lia. split; [done|].
  split; simpl; try done. { rewrite length_splice; lia. } by apply Forall_splice.
Qed.

Lemma peek_ok b blk p n :
  buf_ok b blk -> 0 <= p -> 0 <= n -> p + n <= bcapacity b -> peek b p n = Ret (slice blk p n).
Proof. intros [] ???. unfold peek. rewrite ok_data0, mem_read_Ret; [done|lia..]. Qed.

Lemma holds_intro b blk hd c tl :
  buf_ok b blk -> boffset b = hd -> slice blk (boffset b) (blen b) = c ->
  bcapacity b - boffset b - blen b = tl -> holds b hd c tl.
Proof. intros H <- <- <-. exists blk. split_and!; auto using buf_ok_content. Qed.

Lemma holds_eq b hd c tl hd' c' tl' :
  holds b hd c tl -> hd = hd' -> c = c' -> tl = tl' -> holds b hd' c' tl'.
Proof. by intros ? -> -> ->. Qed.

Lemma alloc_buf_spec size :
  buf_size_valid size = true ->
  exists b, alloc_buf size = Ret b /\ holds b 0 [] size.
Proof.
  intros Hs. unfold alloc_buf. rewrite Hs. simpl. eexists; split; [done|].
  unfold buf_size_valid in Hs.
  eapply holds_intro; simpl; try done; [|lia].
  split; simpl; try done; try lia.
  - rewrite length_replicate. lia.
  - apply Forall_replicate. unfold is_byte. lia.
Qed.

Lemma buf_init_spec b hd c tl off :
  holds b hd c tl -> 0 <= off <= hd + zlen c + tl ->
  exists b', buf_init b off = (b', true) /\ holds b' off [] (hd + zlen c + tl - off).
Proof.
  intros H Hoff. holds_facts H. unfold buf_init.
  rewrite Hdef. destruct H as (blk & Hok & _).
  destruct (_ || _) eqn:E; [lia|]. eexists; split; [done|].
  destruct Hok. eapply holds_intro; simpl; try done; [|lia].
  split; simpl; try done; lia.
Qed.

Lemma buf_write_spec b hd c tl s :
  holds b hd c tl -> Forall is_byte s -> zlen s <= tl ->
  exists b', buf_write b s = Ret (b', true) /\ holds b' hd (c ++ s) (tl - zlen s).
Proof.
  intros H Hs Hfit. holds_facts H. destruct H as (blk & Hok & Ho & Hc & Ht).
  unfold buf_write, buf_write_alloc, buf_safe, buf_size_valid. rewrite Hval.
  destruct (negb _) eqn:E; [lia|]. clear E.
  assert (Hok' : buf_ok (set_len b (blen b + zlen s)) blk).
  { destruct Hok. split; simpl; try done; lia. }
  destruct (poke_ok _ _ (boffset b + blen b) s Hok') as [Hp Hok'']; simpl; try lia; try done.
  rewrite Hp. simpl. eexists; split; [done|].
  pose proof (ok_block _ _ Hok).
  eapply holds_intro; [done|done| |simpl; lia]. simpl.
  rewrite slice_app_split by lia. f_equal.
  - rewrite slice_splice_before by lia. by rewrite <- (buf_ok_content _ _ Hok).
  - rewrite slice_splice_same; done || lia.
Qed.

Lemma buf_write_full b hd c tl s :
  holds b hd c tl -> tl < zlen s -> buf_write b s = Ret (b, false).
Proof.
  intros H Hfit. holds_facts H.
  unfold buf_write, buf_write_alloc, buf_safe.
  destruct (negb _) eqn:E; [done|]. lia.
Qed.

Lemma buf_write_prepend_spec b hd c tl s :
  holds b hd c tl -> Forall is_byte s -> zlen s <= hd ->
  exists b', buf_write_prepend b s = Ret (b', true) /\ holds b' (hd - zlen s) (s ++ c) tl.
Proof.
  intros H Hs Hfit. holds_facts H. destruct H as (blk & Hok & Ho & Hc & Ht).
  unfold buf_write_prepend, buf_prepend. rewrite Hval.
  destruct (_ || _) eqn:E; [lia|]. clear E.
  set (b1 := set_offset_len b (boffset b - zlen s) (blen b + zlen s)).
  assert (Hok' : buf_ok b1 blk). { destruct Hok. split; simpl; try done; lia. }
  assert (Hv : buf_bptr b1 = Some (boffset b - zlen s)).
  { unfold buf_bptr, buf_valid, buf_defined. simpl. rewrite (ok_data _ _ Hok). simpl.
    destruct (0 <=? _) eqn:E; [done|lia]. }
  rewrite Hv. destruct (poke_ok _ _ (boffset b - zlen s) s Hok') as [Hp Hok'']; simpl; try lia; try done.
  rewrite Hp. simpl. eexists; split; [done|].
  pose proof (ok_block _ _ Hok).
  eapply holds_intro; [done|simpl; lia| |simpl; lia]. simpl.
  rewrite (Z.add_comm (blen b)), slice_app_split by lia. f_equal.
  - rewrite slice_splice_same; done || lia.
  - rewrite slice_splice_after by lia.
    replace (boffset b - zlen s + zlen s) with (boffset b) by lia.
    by rewrite <- (buf_ok_content _ _ Hok).
Qed.

Lemma buf_write_prepend_full b hd c tl s :
  holds b hd c tl -> hd < zlen s -> buf_write_prepend b s = Ret (b, false).
Proof.
  intros H Hfit. holds_facts H. unfold buf_write_prepend, buf_prepend.
  destruct (_ || _) eqn:E; [done|lia].
Qed.

Lemma holds_advance b blk n :
  buf_ok b blk -> 0 <= n <= blen b ->
  holds (set_offset_len b (boffset b + n) (blen b - n)) (boffset b + n)
        (drop (Z.to_nat n) (content b)) (bcapacity b - boffset b - blen b).
Proof.
  intros Hok Hn. pose proof (buf_ok_content _ _ Hok) as Hc. rewrite Hc.
  destruct Hok. eapply holds_intro with (blk := blk); simpl; [|done| |lia].
  - split; simpl; try done; lia.
  - replace (blen b) with (n + (blen b - n)) at 2 by lia.
    rewrite slice_app_split by lia. rewrite drop_app_length'; [done|].
    pose proof (zlen_slice blk (boffset b) n). lia.
Qed.

Lemma buf_read_spec b hd c tl n :
  holds b hd c tl -> 0 <= n <= zlen c ->
  exists b', buf_read b n = Ret (b', Some (take (Z.to_nat n) c)) /\
             holds b' (hd + n) (drop (Z.to_nat n) c) tl.
Proof.
  intros H Hn. holds_facts H. destruct H as (blk & Hok & Ho & Hc & Ht).
  unfold buf_read, buf_read_alloc, buf_bptr. rewrite Hval.
  destruct (_ || _) eqn:E; [lia|]. clear E.
  pose proof (holds_advance _ _ n Hok ltac:(lia)) as Hadv.
  rewrite Ht, Hc, Ho in Hadv. rewrite Ho.
  destruct Hadv as (blk' & Hok' & Hrest).
  assert (blk' = blk) as ->.
  { pose proof (ok_data _ _ Hok') as E. simpl in E. rewrite (ok_data _ _ Hok) in E. congruence. }
  rewrite (peek_ok _ _ _ _ Hok') by (simpl; lia). simpl. eexists; split.
  - f_equal. f_equal. f_equal. rewrite <- Hc, (buf_ok_content _ _ Hok).
    unfold slice. rewrite take_take. f_equal; [lia|]. f_equal. lia.
  - exists blk. done.
Qed.

Lemma buf_read_short b hd c tl n :
  holds b hd c tl -> zlen c < n -> buf_read b n = Ret (b, None).
Proof.
  intros H Hn. holds_facts H. unfold buf_read, buf_read_alloc.
  destruct (_ || _) eqn:E; [done|lia].
Qed.

Lemma buf_advance_spec b hd c tl n :
  holds b hd c tl -> 0 <= n <= zlen c ->
  exists b', buf_advance b n = (b', true) /\ holds b' (hd + n) (drop (Z.to_nat n) c) tl.
Proof.
  intros H Hn. holds_facts H. destruct H as (blk & Hok & Ho & Hc & Ht).
  unfold buf_advance. rewrite Hval. destruct (_ || _) eqn:E; [lia|].
  eexists; split; [done|]. pose proof (holds_advance _ _ n Hok ltac:(lia)) as Hadv.
  by rewrite Hc, Ht, Ho in Hadv; rewrite Ho.
Qed.

Lemma buf_bytes_spec b hd c tl : holds b hd c tl -> buf_bytes b = Ret c.
Proof.
  intros H. holds_facts H. destruct H as (blk & Hok & Ho & Hc & Ht).
  unfold buf_bytes, buf_len. rewrite Hval.
  destruct (_ =? _) eqn:E.
  - destruct c; [done|]. simpl in *. lia.
  - destruct Hok. erewrite peek_ok; [|split; done|lia..].
    rewrite <- Hc. unfold content. by rewrite ok_data0.
Qed.

Lemma buf_read_app b hd s c tl n :
  holds b hd (s ++ c) tl -> n = zlen s ->
  exists b', buf_read b n = Ret (b', Some s) /\ holds b' (hd + n) c tl.
Proof.
  intros H ->. destruct (buf_read_spec _ _ _ _ (zlen s) H) as (b' & Hr & Hb').
  { rewrite length_app. lia. }
  rewrite Nat2Z.id, take_app_length, drop_app_length in *. eauto.
Qed.

(** *** Writing through a sub-buffer

    [framed b b']: [b'] differs from [b] at most inside its capacity. *)
Definition framed (b b' : buffer) : Prop :=
  bcapacity b' = bcapacity b /\
  exists blk blk', bdata b = Some blk /\ bdata b' = Some blk' /\ length blk' = length blk /\
    forall i, (Z.to_nat (bcapacity b) <= i)%nat -> blk' !! i = blk !! i.

#[global] Instance framed_trans : Transitive framed.
Proof.
  intros b1 b2 b3 (Hc & k1 & k2 & H1 & H2 & Hl & Hf) (Hc' & k2' & k3 & H2' & H3 & Hl' & Hf').
  split; [congruence|]. exists k1, k3. assert (k2' = k2) as -> by congruence.
  split_and!; try done; [congruence|]. intros i Hi. rewrite Hf' by (rewrite Hc; done). by apply Hf.
Qed.

Lemma framed_refl b hd c tl : holds b hd c tl -> framed b b.
Proof.
  intros (blk & Hok & _). split; [done|]. exists blk, blk. pose proof (ok_data _ _ Hok). done.
Qed.

Lemma buf_write_framed b hd c tl s b' :
  holds b hd c tl -> buf_write b s = Ret (b', true) -> framed b b'.
Proof.
  intros H Hw. holds_facts H. destruct H as (blk & Hok & _).
  unfold buf_write, buf_write_alloc in Hw. destruct (negb (buf_safe b (zlen s))) eqn:E; [done|].
  unfold poke in Hw. simpl in Hw. rewrite (ok_data _ _ Hok) in Hw.
  unfold buf_safe in E. destruct Hok.
  rewrite mem_write_Ret in Hw by lia. simpl in Hw. simplify_eq. split; [done|].
  exists blk, (splice blk (boffset b + blen b) s). split_and!; try done.
  - apply length_splice; lia.
  - intros i Hi. rewrite lookup_splice by lia. repeat case_decide; done || lia.
Qed.

Lemma buf_sub_holds b blk p size :
  buf_ok b blk -> 0 <= p -> 0 <= size -> p + size <= bcapacity b ->
  holds (mkbuf size 0 0 (Some (drop (Z.to_nat p) blk))) 0 [] size.
Proof.
  intros [] Hp Hs Hc. eapply holds_intro; simpl; [|done|done|lia].
  split; simpl; try done; try lia; [rewrite length_drop; lia|by apply Forall_drop].
Qed.

Lemma buf_sub_merge_ok b blk p size sub' s :
  buf_ok b blk -> 0 <= p -> 0 <= size -> p + size <= bcapacity b ->
  framed (mkbuf size 0 0 (Some (drop (Z.to_nat p) blk))) sub' -> holds sub' 0 s 0 ->
  exists blk', buf_ok (buf_sub_merge b p sub') blk' /\ zlen s = size /\
    slice blk' p size = s /\
    (forall i, (i < Z.to_nat p)%nat \/ (Z.to_nat (p + size) <= i)%nat -> blk' !! i = blk !! i) /\
    boffset (buf_sub_merge b p sub') = boffset b /\ blen (buf_sub_merge b p sub') = blen b /\
    bcapacity (buf_sub_merge b p sub') = bcapacity b.
Proof.
  intros Hok Hp Hs Hc (Hcap & k1 & k2 & Hk1 & Hk2 & Hl & Hf) Hsub. simpl in *. simplify_eq.
  holds_facts Hsub. destruct Hsub as (k2' & Hok2 & _ & Hcont & _).
  assert (k2' = k2) as -> by (pose proof (ok_data _ _ Hok2); congruence).
  unfold content in Hcont. rewrite Hk2, Hoff in Hcont.
  unfold buf_sub_merge. rewrite (ok_data _ _ Hok), Hk2. rewrite length_drop in Hl.
  pose proof Hok as [Hd Ho Hlen' Hca Hb Hm Hby].
  assert (Htake : length (take (Z.to_nat p) blk) = Z.to_nat p) by (rewrite length_take; lia).
  exists (take (Z.to_nat p) blk ++ k2). split_and!; try done; try lia.
  - split; simpl; try done; [rewrite length_app; lia|].
    apply Forall_app; split; [by apply Forall_take|apply Hok2].
  - rewrite <- Hcont. replace (blen sub') with (bcapacity sub') by lia. unfold slice.
    rewrite drop_app_length' by lia. done.
  - intros i [Hi|Hi].
    + rewrite lookup_app_l, lookup_take_lt by lia. done.
    + rewrite lookup_app_r, Htake, Hf, lookup_drop by lia. f_equal. lia.
Qed.

Lemma slice_ext_eq (l l' : bytes) p n :
  (forall i, (Z.to_nat p <= i < Z.to_nat p + Z.to_nat n)%nat -> l !! i = l' !! i) ->
  slice l p n = slice l' p n.
Proof.
  intros H. apply list_eq. intros i. rewrite !lookup_slice. case_decide; [|done]. apply H. lia.
Qed.

Lemma buf_sub_spec b hd c tl size (prepend : bool) :
  holds b hd c tl -> 0 <= size -> size <= (if prepend then hd else tl) ->
  exists b' p sub, buf_sub b size prepend = (b', Some (p, sub)) /\ holds sub 0 [] size /\
    forall sub' s, framed sub sub' -> holds sub' 0 s 0 ->
      holds (buf_sub_merge b' p sub') (if prepend then hd - size else hd)
        (if prepend then s ++ c else c ++ s) (if prepend then tl else tl - size).
Proof.
  intros H Hs Hfit. holds_facts H. destruct H as (blk & Hok & Ho & Hc & Ht).
  unfold buf_sub, buf_write_alloc_prepend, buf_prepend, buf_write_alloc, buf_safe, buf_size_valid.
  rewrite Hval. rewrite <- Hc, (buf_ok_content _ _ Hok). destruct prepend.
  - destruct (_ || _) eqn:E; [lia|]. clear E.
    set (b1 := set_offset_len b (boffset b - size) (blen b + size)).
    assert (Hok1 : buf_ok b1 blk) by (destruct Hok; split; simpl; done || lia).
    assert (Hp1 : buf_bptr b1 = Some (boffset b - size)).
    { unfold buf_bptr, buf_valid, buf_defined. simpl. rewrite (ok_data _ _ Hok). simpl.
      destruct (0 <=? _) eqn:E; [done|lia]. }
    rewrite Hp1, (ok_data _ _ Hok1). eexists b1, _, _. split; [done|]. split.
    { eapply buf_sub_holds; [done|simpl; lia..]. }
    intros sub' s Hfr Hh.
    destruct (buf_sub_merge_ok b1 blk (boffset b - size) size sub' s Hok1) as
      (blk' & Hok' & Hls & Hsl & Hfr' & HO & HL & HC); simpl; try done; try lia.
    eapply holds_intro; [done|simpl in *; lia| |simpl in *; lia]. rewrite HO, HL. simpl.
    rewrite (Z.add_comm (blen b)), slice_app_split by lia. rewrite Hsl. f_equal.
    replace (boffset b - size + size) with (boffset b) by lia.
    apply slice_ext_eq. intros i Hi. apply Hfr'. lia.
  - destruct (negb _) eqn:E; [lia|]. clear E.
    set (b1 := set_len b (blen b + size)).
    assert (Hok1 : buf_ok b1 blk) by (destruct Hok; split; simpl; done || lia).
    rewrite (ok_data _ _ Hok1). eexists b1, _, _. split; [done|]. split.
    { eapply buf_sub_holds; [done|simpl; lia..]. }
    intros sub' s Hfr Hh.
    destruct (buf_sub_merge_ok b1 blk (boffset b + blen b) size sub' s Hok1) as
      (blk' & Hok' & Hls & Hsl & Hfr' & HO & HL & HC); simpl; try done; try lia.
    eapply holds_intro; [done|simpl in *; lia| |simpl in *; lia]. rewrite HO, HL. simpl.
    rewrite slice_app_split by lia. rewrite Hsl. f_equal.
    apply slice_ext_eq. intros i Hi. apply Hfr'. lia.
Qed.

Lemma buf_read_u8_spec b hd x c tl :
  holds b hd (x :: c) tl -> exists b', buf_read_u8 b = Ret (b', x) /\ holds b' (hd + 1) c tl.
Proof.
  intros Hb. destruct (buf_advance_spec _ _ _ _ 1 Hb) as (b' & Hadv & Hb'); [simpl; lia|]. exists b'. split; [|done].
  holds_facts Hb. destruct Hb as (blk & Hok & Ho & Hc & _). unfold buf_read_u8, buf_len. rewrite Hval, Hlen.
  rewrite (proj2 (Z.ltb_ge _ 1)) by (simpl; lia). simpl length in *. rewrite (peek_ok _ _ _ _ Hok) by lia.
  cbn [mbind outcome_bind]. rewrite Hadv. do 2 f_equal.
  rewrite (buf_ok_content _ _ Hok) in Hc. rewrite <- (Z.add_0_r (boffset b)), <- (slice_slice blk (boffset b) (blen b)) by lia.
  rewrite Hc. apply be_val_1.
Qed.

Lemma buf_copy_n_spec d hd c tl s hd' c' tl' n :
  holds d hd c tl -> holds s hd' c' tl' -> 0 <= n <= zlen c' -> n <= tl ->
  exists d' s', buf_copy_n d s n = Ret (d', s', true) /\
    holds d' hd (c ++ take (Z.to_nat n) c') (tl - n) /\ holds s' (hd' + n) (drop (Z.to_nat n) c') tl'.
Proof.
  intros Hd Hs Hn Hfit. destruct (buf_read_spec _ _ _ _ n Hs Hn) as (s' & Hr & Hs').
  unfold buf_read in Hr. unfold buf_copy_n. destruct (buf_read_alloc s n) as [s1 [cp|]] eqn:E; [|done].
  apply bind_Ret_inv in Hr as (d0 & Hp & Heq). simplify_eq. rewrite Hp. cbn [mbind outcome_bind].
  destruct (buf_write_spec _ _ _ _ (take (Z.to_nat n) c') Hd) as (d' & -> & Hd');
    [apply Forall_take; by eapply holds_bytes|rewrite length_take; lia|].
  cbn [mbind outcome_bind]. eexists _, _. split_and!; try done.
  rewrite length_take in Hd'. eapply holds_eq; [done|done|done|lia].
Qed.

Lemma buf_len_holds b hd c tl : holds b hd c tl -> buf_len b = zlen c /\ blen b = zlen c.
Proof.
  intros H. destruct (holds_bounds _ _ _ _ H) as (_ & _ & Hl & _ & _ & _ & Hv & _).
  unfold buf_len. rewrite Hv. lia.
Qed.

Lemma buf_copy_spec d hd c tl s hd' c' tl' :
  holds d hd c tl -> holds s hd' c' tl' ->
  (zlen c' <= tl -> exists d', buf_copy d s = Ret (d', true) /\ holds d' hd (c ++ c') (tl - zlen c')) /\
  (tl < zlen c' -> buf_copy d s = Ret (d, false)).
Proof.
  intros Hd Hs. unfold buf_copy. rewrite (buf_bytes_spec _ _ _ _ Hs). cbn [mbind outcome_bind]. split; intros.
  - eapply buf_write_spec; [done|by eapply holds_bytes|done].
  - by eapply buf_write_full.
Qed.

Lemma clone_buf_ok junk b blk :
  buf_ok b blk -> zlen junk = bcapacity b -> Forall is_byte junk ->
  exists c, clone_buf junk b = Ret c /\ holds c (boffset b) (content b) (bcapacity b - boffset b - blen b).
Proof.
  intros Hok Hj Hjb. assert (Hh : holds b (boffset b) (content b) (bcapacity b - boffset b - blen b)) by by exists blk.
  unfold clone_buf. rewrite (buf_bytes_spec _ _ _ _ Hh). cbn [mbind outcome_bind].
  pose proof (zlen_content _ _ Hok) as Hlen.
  set (ret := mkbuf _ _ _ _). assert (Hr : buf_ok ret junk) by (destruct Hok; split; simpl; done || lia).
  destruct (content b) as [|x c] eqn:Ec.
  - eexists; split; [done|]. eapply holds_intro; [done|done| |done]. simpl in *.
    replace (blen b) with 0 by lia. apply slice_0.
  - rewrite <- Ec in *. destruct (poke_ok ret junk (boffset b) (content b) Hr) as [-> Hok'];
      [apply Hok|simpl; destruct Hok; lia|rewrite Ec in *; by eapply holds_bytes|].
    eexists; split; [done|]. eapply holds_intro; [done|done| |done]. simpl.
    destruct Hok. rewrite slice_splice_same; done || lia.
Qed.

(** A buffer that is exactly the bytes [d], as [buf_set_read] makes it. *)
Definition buf_of (d : bytes) : buffer := mkbuf (zlen d) 0 (zlen d) (Some d).

Definition all_bytes (d : bytes) : bool := forallb (λ x, (0 <=? x) && (x <? 256)) d.

Lemma all_bytes_spec d : all_bytes d = true -> Forall is_byte d.
Proof.
  unfold all_bytes. rewrite forallb_forall. intros H. apply Forall_forall. intros x Hx%list_elem_of_In%H. unfold is_byte. lia.
Qed.

Lemma all_bytes_complete d : Forall is_byte d -> all_bytes d = true.
Proof.
  intros Hb. apply forallb_forall. intros x Hx%list_elem_of_In. assert (is_byte x) by (by eapply Forall_forall). unfold is_byte in *. lia.
Qed.

Lemma buf_of_holds d : all_bytes d = true -> (zlen d <? BUF_SIZE_MAX) = true -> holds (buf_of d) 0 d 0.
Proof.
  intros Hb Hl. eapply holds_intro with (blk := d); simpl; [|done| |lia]; [|by apply slice_full].
  split; simpl; try done; try lia. by apply all_bytes_spec.
Qed.
