(* ===== verification/BufferOps.v ===== *)
(** * The buffer type is preserved (openvpn buffer.h, buffer.c)

    [bop] lists the operations on a buffer with all their arguments.  With
    arguments as in [bop_ok], an operation on a well-formed buffer returns and
    leaves a well-formed buffer: contents stay inside the allocated block and
    refused requests change nothing that matters. *)

From S2P Require Import Prelude Buffer.
From stdpp Require Import prelude.
From Stdlib Require Import ZArith Lia ZifyBool.

Local Open Scope Z_scope.

#[local] Instance outcome_fmap : FMap outcome := fun A B f m => m ≫= fun a => Ret (f a).

(** ** Every operation keeps buffers well formed *)

Inductive bop :=
| BInit (offset : Z)
| BReset
| BResetLen
| BClear
| BIncLen (inc : Z)
| BPrepend (size : Z)
| BAdvance (size : Z)
| BWriteAlloc (size : Z)
| BReadAlloc (size : Z)
| BWrite (src : bytes)
| BWritePrepend (src : bytes)
| BRead (size : Z)
| BReadU8
| BReadU16
| BReadU32
| BWriteU8 (v : Z)
| BWriteU16 (v : Z)
| BWriteU32 (v : Z)
| BCopy (src : buffer)
| BCopyN (src : buffer) (n : Z)
| BCopyRange (dest_index : Z) (src : buffer) (src_index src_len : Z)
| BCopyExcess (src : buffer) (n : Z)
| BAssign (src : buffer).

(** The buffer after the operation, whatever its answer was. *)
Definition run_bop (op : bop) (b : buffer) : outcome buffer :=
  match op with
  | BInit off => Ret (buf_init b off).1
  | BReset => Ret (buf_reset b)
  | BResetLen => Ret (buf_reset_len b)
  | BClear => buf_clear b
  | BIncLen inc => Ret (buf_inc_len b inc).1
  | BPrepend n => Ret (buf_prepend b n).1
  | BAdvance n => Ret (buf_advance b n).1
  | BWriteAlloc n => Ret (buf_write_alloc b n).1
  | BReadAlloc n => Ret (buf_read_alloc b n).1
  | BWrite s => fst <$> buf_write b s
  | BWritePrepend s => fst <$> buf_write_prepend b s
  | BRead n => fst <$> buf_read b n
  | BReadU8 => fst <$> buf_read_u8 b
  | BReadU16 => fst <$> buf_read_u16 b
  | BReadU32 => fst <$> buf_read_u32 b
  | BWriteU8 v => fst <$> buf_write_u8 b v
  | BWriteU16 v => fst <$> buf_write_u16 b v
  | BWriteU32 v => fst <$> buf_write_u32 b v
  | BCopy s => fst <$> buf_copy b s
  | BCopyN s n => (fun r => r.1.1) <$> buf_copy_n b s n
  | BCopyRange di s si n => fst <$> buf_copy_range b di s si n
  | BCopyExcess s n => (fun r => r.1.1) <$> buf_copy_excess b s n
  | BAssign s => fst <$> buf_assign b s
  end.

(** Source buffers are well formed (and not the buffer itself), source strings are
    bytes, no more than an int counts; [buf_copy_range] does not look whether its
    buffers have memory or whether the sums of its indices are ints. *)
Definition bop_ok (b : buffer) (op : bop) : Prop :=
  match op with
  | BWrite s | BWritePrepend s => Forall is_byte s /\ zlen s < 2 ^ 31
  | BCopy s | BCopyN s _ | BCopyExcess s _ | BAssign s => buf_wf s
  | BCopyRange di s si n => buf_wf s /\ buf_defined s = true /\ buf_defined b = true /\ si + n < 2 ^ 31 /\ boffset b + di + n < 2 ^ 31
  | _ => True
  end.

(** [o] returns a well-formed buffer as its first component. *)
Definition keeps {A} (f : A -> buffer) (o : outcome A) : Prop := exists a, o = Ret a /\ buf_wf (f a).

Lemma keeps_fmap {A} (f : A -> buffer) (o : outcome A) : keeps f o -> keeps id (f <$> o).
Proof. intros (a & -> & Ha). exists (f a). done. Qed.

Lemma wf_set b blk o l :
  buf_ok b blk -> 0 <= o -> 0 <= l -> o + l <= bcapacity b -> buf_wf (set_offset_len b o l).
Proof. intros [] Ho Hl Hc. left. exists blk. split; simpl; done. Qed.

Lemma wf_set_len b blk l : buf_ok b blk -> 0 <= l -> boffset b + l <= bcapacity b -> buf_wf (set_len b l).
Proof. intros [] Hl Hc. left. exists blk. split; simpl; done. Qed.

Lemma ok_valid b blk : buf_ok b blk -> buf_valid b = true /\ buf_defined b = true.
Proof. intros [Hd Ho Hl _ _ _ _]. unfold buf_valid, buf_defined. rewrite Hd. split; [simpl; lia|done]. Qed.

Lemma wf_bytes b : buf_wf b -> exists d, buf_bytes b = Ret d /\ Forall is_byte d.
Proof.
  intros [(blk & Hok)| ->]; [|by exists []].
  assert (Hh : holds b (boffset b) (content b) (bcapacity b - boffset b - blen b)) by by exists blk.
  rewrite (buf_bytes_spec _ _ _ _ Hh). exists (content b). split; [done|by eapply holds_bytes].
Qed.

Lemma keeps_write b s : buf_wf b -> Forall is_byte s -> keeps fst (buf_write b s).
Proof.
  intros [(blk & Hok)| ->] Hs; [|exists (clear_buf, false); split; [done|by right]].
  assert (Hh : holds b (boffset b) (content b) (bcapacity b - boffset b - blen b)) by by exists blk.
  destruct (decide (zlen s <= bcapacity b - boffset b - blen b)).
  - destruct (buf_write_spec _ _ _ _ s Hh) as (b' & -> & Hh'); [done|done|]. exists (b', true). split; [done|by eapply holds_wf].
  - rewrite (buf_write_full _ _ _ _ s Hh) by lia. exists (b, false). split; [done|by left; exists blk].
Qed.

Lemma keeps_write_prepend b s : buf_wf b -> Forall is_byte s -> keeps fst (buf_write_prepend b s).
Proof.
  intros [(blk & Hok)| ->] Hs.
  - assert (Hh : holds b (boffset b) (content b) (bcapacity b - boffset b - blen b)) by by exists blk.
    destruct (decide (zlen s <= boffset b)).
    + destruct (buf_write_prepend_spec _ _ _ _ s Hh) as (b' & -> & Hh'); [done|done|]. exists (b', true). split; [done|by eapply holds_wf].
    + rewrite (buf_write_prepend_full _ _ _ _ s Hh) by lia. exists (b, false). split; [done|by left; exists blk].
  - exists (clear_buf, false). split; [|by right]. done.
Qed.

Lemma keeps_read_alloc b n : buf_wf b -> buf_wf (buf_read_alloc b n).1.
Proof.
  intros Hwf. unfold buf_read_alloc. destruct (_ || _) eqn:E; [done|]. destruct Hwf as [(blk & Hok)| ->]; simpl.
  - pose proof Hok as []. eapply wf_set; [done|lia..].
  - right. simpl in E. unfold set_offset_len, clear_buf. simpl. by replace n with 0 by lia.
Qed.

Lemma keeps_read b n : buf_wf b -> keeps fst (buf_read b n).
Proof.
  intros Hwf. unfold buf_read, buf_read_alloc. destruct (_ || _) eqn:E; [by exists (b, None)|].
  destruct Hwf as [(blk & Hok)| ->].
  - unfold buf_bptr. destruct (ok_valid _ _ Hok) as [-> _]. pose proof Hok as [].
    assert (Hok' : buf_ok (set_offset_len b (boffset b + n) (blen b - n)) blk) by (split; simpl; done || lia).
    rewrite (peek_ok _ _ _ _ Hok') by (simpl; lia). eexists. split; [done|]. by left; exists blk.
  - simpl in *. eexists. split; [done|]. right. unfold set_offset_len, clear_buf. simpl. by replace n with 0 by lia.
Qed.

Lemma keeps_ret {A} (f : A -> buffer) (a : A) : buf_wf (f a) -> keeps f (Ret a).
Proof. intros H. by exists a. Qed.

Lemma keeps_copy_range b di s si n :
  buf_wf b -> buf_wf s -> buf_defined s = true -> buf_defined b = true -> si + n < 2 ^ 31 -> boffset b + di + n < 2 ^ 31 ->
  keeps fst (buf_copy_range b di s si n).
Proof.
  intros Hb [(sblk & Hoks)| ->] Hds Hdb Hsi Hdi; try done. pose proof (keeps_ret fst (b, false) Hb) as Hno.
  destruct Hb as [(blk & Hok)| ->]; [|done]. unfold buf_copy_range. destruct (_ || _) eqn:E; [done|].
  rewrite (int_add_Ret si n) by lia. cbn [mbind outcome_bind]. destruct ((blen s <? si + n) || (di <? 0)) eqn:E1; [done|].
  pose proof Hok as []. pose proof Hoks as []. rewrite (int_add_Ret (boffset b) di) by lia. cbn [mbind outcome_bind]. rewrite (int_add_Ret (boffset b + di) n) by lia. cbn [mbind outcome_bind].
  destruct (bcapacity b <? _) eqn:E2; [done|]. rewrite (peek_ok _ _ _ _ Hoks) by lia. cbn [mbind outcome_bind].
  assert (Hl : zlen (slice sblk (boffset s + si) n) = n) by (apply zlen_slice; lia).
  destruct (poke_ok b blk (boffset b + di) (slice sblk (boffset s + si) n) Hok) as [-> Hok']; [lia|lia|by apply Forall_slice|].
  cbn [mbind outcome_bind]. rewrite (int_add_Ret di n) by lia. cbn [mbind outcome_bind]. eexists. split; [done|]. simpl. destruct (blen b <? di + n) eqn:E3; [|left; eexists; exact Hok'].
  eapply wf_set_len; [done|lia|simpl; lia].
Qed.

Lemma keeps_copy b s : buf_wf b -> buf_wf s -> keeps fst (buf_copy b s).
Proof.
  intros Hb Hs. destruct (wf_bytes s Hs) as (d & Hd & Hdb). unfold buf_copy. rewrite Hd. by apply keeps_write.
Qed.

Lemma keeps_copy_n b s n : buf_wf b -> buf_wf s -> keeps (fun r => r.1.1) (buf_copy_n b s n).
Proof.
  intros Hb Hs. destruct (keeps_read s n Hs) as ([s' d] & Hr & _). unfold buf_read in Hr. unfold buf_copy_n.
  assert (Hd : forall cp s1 bs, buf_read_alloc s n = (s1, Some cp) -> peek s1 cp n = Ret bs -> Forall is_byte bs).
  { intros cp s1 bs Hra Hp. pose proof (keeps_read_alloc s n Hs) as Hw. rewrite Hra in Hw. simpl in Hw.
    destruct Hw as [(blk & Hok)| ->]; [|done]. unfold peek in Hp. rewrite (ok_data _ _ Hok) in Hp.
    unfold mem_read in Hp. case_match; simplify_eq. apply Forall_slice, Hok. }
  destruct (buf_read_alloc s n) as [s1 [cp|]] eqn:E; [|apply keeps_ret; simpl; done].
  apply bind_Ret_inv in Hr as (bs & Hp & _). rewrite Hp. cbn [mbind outcome_bind].
  destruct (keeps_write b bs Hb (Hd _ _ _ eq_refl Hp)) as ([b' ok] & -> & Hw). by apply keeps_ret.
Qed.

Lemma keeps_copy_excess b s n : buf_wf b -> buf_wf s -> keeps (fun r => r.1.1) (buf_copy_excess b s n).
Proof.
  intros Hb Hs. unfold buf_copy_excess. destruct (n <? 0) eqn:E0; [by apply keeps_ret|].
  destruct (n <? blen s) eqn:E1; [|by apply keeps_ret].
  destruct Hs as [(blk & Hok)| ->]; [|simpl in E1; lia].
  assert (Hh : holds s (boffset s) (content s) (bcapacity s - boffset s - blen s)) by by exists blk.
  destruct (buf_advance_spec _ _ _ _ n Hh) as (s' & -> & Hs'). { pose proof (zlen_content _ _ Hok). lia. }
  destruct (keeps_copy b s' Hb (holds_wf _ _ _ _ Hs')) as ([b' ok] & -> & Hw). by apply keeps_ret.
Qed.

Lemma keeps_init b off : buf_wf b -> buf_wf (buf_init b off).1.
Proof.
  intros Hwf. unfold buf_init_dowork. destruct (_ || _) eqn:E; [done|]. destruct Hwf as [(blk & Hok)| ->].
  - pose proof Hok as []. eapply wf_set; [done|lia..].
  - unfold buf_defined in E. simpl in E. lia.
Qed.

Lemma keeps_assign b s : buf_wf b -> buf_wf s -> keeps fst (buf_assign b s).
Proof.
  intros Hb Hs. pose proof (keeps_init b (boffset s) Hb) as Hi. unfold buf_assign.
  destruct (buf_init b (boffset s)) as [d []]; [|by apply keeps_ret].
  destruct (wf_bytes s Hs) as (bs & -> & Hbs). by apply keeps_write.
Qed.

(** The operations that only move the content within the block. *)
Lemma keeps_moves b n :
  buf_wf b ->
  buf_wf (buf_inc_len b n).1 /\ buf_wf (buf_prepend b n).1 /\ buf_wf (buf_advance b n).1 /\ buf_wf (buf_write_alloc b n).1.
Proof.
  intros [(blk & Hok)| ->]; [|by split_and!; right].
  assert (Hwf : buf_wf b) by (left; by exists blk).
  pose proof (ok_valid _ _ Hok) as [Hv Hd]. pose proof Hok as [].
  unfold buf_inc_len, buf_prepend, buf_advance, buf_write_alloc, buf_safe_bidir, buf_safe, buf_size_valid. rewrite Hv.
  split_and!.
  - destruct (negb _) eqn:E; [done|]. destruct (true && buf_size_valid_signed n) eqn:E2; [|done].
    cbv zeta in E. eapply wf_set_len; [done|lia..].
  - destruct (_ || _) eqn:E; [done|]. eapply wf_set; [done|lia..].
  - destruct (_ || _) eqn:E; [done|]. eapply wf_set; [done|lia..].
  - destruct (negb _) eqn:E; [done|]. eapply wf_set_len; [done|lia..].
Qed.

Lemma keeps_clear b : buf_wf b -> keeps id (buf_clear b).
Proof.
  intros [(blk & Hok)| ->]; [|exists clear_buf; split; [done|by right]].
  pose proof Hok as [Hd Ho Hl Hc Hb Hm Hby]. unfold buf_clear. destruct (0 <? bcapacity b) eqn:E.
  - rewrite Hd. rewrite mem_write_Ret by (rewrite ?length_replicate; lia). eexists. split; [done|].
    left. eexists. split; simpl; try done; try lia.
    + rewrite length_splice; [done|lia|rewrite length_replicate; lia].
    + apply Forall_splice; [done|]. apply Forall_replicate. unfold is_byte. lia.
  - eexists. split; [done|]. eapply wf_set; [done|lia..].
Qed.

Lemma keeps_read_u8 b : buf_wf b -> keeps fst (buf_read_u8 b).
Proof.
  intros Hwf. unfold buf_read_u8. destruct (buf_len b <? 1) eqn:E; [by apply keeps_ret|].
  destruct Hwf as [(blk & Hok)| ->]; [|done]. pose proof Hok as [].
  unfold buf_len in E. rewrite (proj1 (ok_valid _ _ Hok)) in E.
  rewrite (peek_ok _ _ _ _ Hok) by lia. apply keeps_ret. simpl. apply keeps_moves. left. by exists blk.
Qed.

(** C36. The buffer type.  Every operation returns on a well-formed buffer and gives
    a well-formed buffer back: the content is defined bytes inside the allocated
    block.  Its arguments are any numbers, strings of bytes below 2^31 and other
    well-formed buffers; only [buf_copy_range] needs buffers with memory and
    indices whose sums are ints. *)
Theorem buffer_ops_preserve_wf b op :
  buf_wf b -> bop_ok b op -> exists b', run_bop op b = Ret b' /\ buf_wf b'.
Proof.
  intros Hb Hop. pose proof (fun n => keeps_moves b n Hb) as Hmv.
  assert (Hr16 : keeps fst (buf_read_u16 b)).
  { unfold buf_read_u16. destruct (keeps_read b 2 Hb) as ([b' d] & -> & Hw). by apply keeps_ret. }
  assert (Hr32 : keeps fst (buf_read_u32 b)).
  { unfold buf_read_u32. destruct (keeps_read b 4 Hb) as ([b' d] & -> & Hw). by apply keeps_ret. }
  assert (Hw1 : forall v, Forall is_byte [u8 v]) by (intros v; repeat constructor; apply u8_range).
  enough (keeps id (run_bop op b)) by done.
  destruct op; simpl in Hop |- *; try apply keeps_fmap; try apply keeps_ret; simpl;
    try (by apply Hmv); try done;
    auto using keeps_init, keeps_clear, keeps_read_alloc, keeps_write, keeps_write_prepend, keeps_read, keeps_read_u8,
      keeps_copy, keeps_copy_n, keeps_copy_excess, keeps_assign, be_bytes_is_byte.
  - by right.
  - destruct Hb as [(blk & Hok)| ->]; [|by right]. pose proof Hok as []. eapply wf_set; [done|lia..].
  - by apply keeps_write, Hop.
  - by apply keeps_write_prepend, Hop.
  - by apply keeps_write.
  - apply keeps_write; [done|]. apply be_bytes_is_byte.
  - apply keeps_write; [done|]. apply be_bytes_is_byte.
  - destruct Hop as (? & ? & ? & ? & ?). by apply keeps_copy_range.
Qed.

Lemma buffer_ops_preserve_wf_witness :
  exists b', run_bop (BCopyRange 1 (buf_of [7; 8]) 0 2) (buf_of [1; 2; 3]) = Ret b' /\ buf_wf b'.
Proof.
  apply (buffer_ops_preserve_wf (buf_of [1; 2; 3]) (BCopyRange 1 (buf_of [7; 8]) 0 2)).
  - eapply holds_wf, buf_of_holds; reflexivity.
  - split; [eapply holds_wf, buf_of_holds; reflexivity|done].
Defined.
