(* ===== verification/CircList.v ===== *)
(** * Circular lists (openvpn circ_list.h) and index arithmetic (integer.h)

    [circ_list A] is the struct the CIRC_LIST macro declares.  [cl_items] is
    the list a circular list stands for, most recent item first; the lemmas
    show that pushing, indexing and updating are the list operations, that the
    assertions in [modulo_add] and [index_verify] never fire on a well-formed
    list and that no array access leaves [x_list]. *)

From S2P Require Import Prelude.
From stdpp Require Import prelude.
From Stdlib Require Import ZArith Lia ZifyBool.

Local Open Scope Z_scope.

(** ** integer.h *)

Definition min_int (x y : Z) : Z := if x <? y then x else y.
Definition max_int (x y : Z) : Z := if y <? x then x else y.

Definition constrain_int (x min max : Z) : Z :=
  if max <? min then min
  else if x <? min then min
  else if max <? x then max
  else x.

Definition modulo_subtract (x y md : Z) : outcome Z :=
  let d1 := x - y in
  let d2 := (if y <? x then - md else md) + d1 in
  ASSERT ((0 <=? x) && (x <? md) && (0 <=? y) && (y <? md));;
  Ret (if Z.abs d2 <? Z.abs d1 then d2 else d1).

Definition modulo_add (x y md : Z) : outcome Z :=
  let sum := x + y in
  ASSERT ((0 <=? x) && (x <? md) && (- md <=? y) && (y <=? md));;
  let sum := if md <=? sum then sum - md else sum in
  let sum := if sum <? 0 then sum + md else sum in
  Ret sum.

Definition index_verify (index size : Z) : outcome Z :=
  ASSERT (negb ((index <? 0) || (size <=? index)));; Ret index.

(** [adjust_power_of_2]: the loop doubles [ret] until it reaches [u]; on a
    64-bit [size_t] the shift overflows to 0 past 2^63 and the assertion fires.
    64 steps of fuel cover every [size_t]. *)
Fixpoint adjust_power_of_2_loop (fuel : nat) (ret u : Z) : outcome Z :=
  match fuel with
  | O => Abort
  | S fuel' =>
      if ret <? u then
        let ret := (ret * 2) mod 2 ^ 64 in
        ASSERT (0 <? ret);; adjust_power_of_2_loop fuel' ret u
      else Ret ret
  end.
Definition adjust_power_of_2 (u : Z) : outcome Z := adjust_power_of_2_loop 65 1 u.

(** ** circ_list.h *)

Record circ_list (A : Type) := mkcl {
  x_head : Z;
  x_size : Z;
  x_cap : Z;
  x_list : list A
}.
Arguments mkcl {A}.
Arguments x_head {A}. Arguments x_size {A}. Arguments x_cap {A}. Arguments x_list {A}.

Section circ_list.
Context {A : Type}.
Implicit Types (obj : circ_list A) (x : A).

Definition CIRC_LIST_PUSH obj x : outcome (circ_list A) :=
  h ← modulo_add (x_head obj) (-1) (x_cap obj);
  l ← arr_set (x_list obj) h x;
  Ret (mkcl h (min_int (x_size obj + 1) (x_cap obj)) (x_cap obj) l).

Definition CIRC_LIST_SIZE obj : Z := x_size obj.

Definition CIRC_LIST_INDEX obj (index : Z) : outcome Z :=
  i ← index_verify index (x_size obj); modulo_add (x_head obj) i (x_cap obj).

Definition CIRC_LIST_ITEM obj (index : Z) : outcome A :=
  i ← CIRC_LIST_INDEX obj index; arr_get (x_list obj) i.

(** [CIRC_LIST_ITEM(obj, index) = x] *)
Definition CIRC_LIST_ITEM_set obj (index : Z) x : outcome (circ_list A) :=
  i ← CIRC_LIST_INDEX obj index;
  l ← arr_set (x_list obj) i x;
  Ret (mkcl (x_head obj) (x_size obj) (x_cap obj) l).

Definition CIRC_LIST_RESET obj : circ_list A := mkcl 0 0 (x_cap obj) (x_list obj).

(** [CIRC_LIST_ALLOC] with the array zeroed ([zero] is the all-zero item). *)
Definition CIRC_LIST_ALLOC (zero : A) (size : Z) : circ_list A :=
  mkcl 0 0 size (replicate (Z.to_nat size) zero).

(** *** Well-formedness and the list a circular list stands for *)

Record cl_wf obj : Prop := {
  cl_head : 0 <= x_head obj < x_cap obj;
  cl_size : 0 <= x_size obj <= x_cap obj;
  cl_list : zlen (x_list obj) = x_cap obj
}.

Definition cl_pos obj (i : Z) : Z :=
  if x_head obj + i <? x_cap obj then x_head obj + i else x_head obj + i - x_cap obj.

Definition cl_items obj : list A :=
  take (Z.to_nat (x_size obj))
    (drop (Z.to_nat (x_head obj)) (x_list obj) ++ take (Z.to_nat (x_head obj)) (x_list obj)).

Lemma length_cl_items obj : cl_wf obj -> zlen (cl_items obj) = x_size obj.
Proof.
  intros [Hh Hs Hl]. unfold cl_items.
  rewrite length_take, length_app, length_drop, length_take. lia.
Qed.

Lemma lookup_cl_items obj (i : nat) :
  cl_wf obj -> Z.of_nat i < x_size obj ->
  cl_items obj !! i = x_list obj !! Z.to_nat (cl_pos obj (Z.of_nat i)).
Proof.
  intros [Hh Hs Hl] Hi. unfold cl_items, cl_pos.
  rewrite lookup_take_lt by lia. case_match.
  - rewrite lookup_app_l, lookup_drop by (rewrite length_drop; lia). f_equal. lia.
  - rewrite lookup_app_r by (rewrite length_drop; lia).
    rewrite length_drop, lookup_take_lt by lia. f_equal. lia.
Qed.

Lemma modulo_add_pos obj i :
  cl_wf obj -> 0 <= i < x_cap obj -> modulo_add (x_head obj) i (x_cap obj) = Ret (cl_pos obj i).
Proof.
  intros [Hh Hs Hl] Hi. unfold modulo_add, cl_pos.
  rewrite ASSERT_true by lia. simpl. guards; f_equal; lia.
Qed.

Lemma cl_pos_range obj i :
  cl_wf obj -> 0 <= i < x_cap obj -> 0 <= cl_pos obj i < x_cap obj.
Proof. intros [] ?. unfold cl_pos. guards. Qed.

Lemma CIRC_LIST_INDEX_spec obj i :
  cl_wf obj -> 0 <= i < x_size obj -> CIRC_LIST_INDEX obj i = Ret (cl_pos obj i).
Proof.
  intros Hw Hi. unfold CIRC_LIST_INDEX, index_verify.
  rewrite ASSERT_true by lia. simpl. apply modulo_add_pos; [done|]. destruct Hw. lia.
Qed.

Lemma CIRC_LIST_ITEM_spec obj i :
  cl_wf obj -> 0 <= i < x_size obj ->
  exists x, CIRC_LIST_ITEM obj i = Ret x /\ cl_items obj !! Z.to_nat i = Some x.
Proof.
  intros Hw Hi. unfold CIRC_LIST_ITEM. rewrite CIRC_LIST_INDEX_spec by done. simpl.
  rewrite lookup_cl_items, Z2Nat.id by (done || lia).
  pose proof (cl_pos_range _ i Hw). destruct Hw. apply arr_get_returns. lia.
Qed.

Lemma CIRC_LIST_ITEM_set_spec obj i x :
  cl_wf obj -> 0 <= i < x_size obj ->
  exists obj', CIRC_LIST_ITEM_set obj i x = Ret obj' /\ cl_wf obj' /\
    x_size obj' = x_size obj /\ x_cap obj' = x_cap obj /\
    cl_items obj' = <[Z.to_nat i := x]> (cl_items obj).
Proof.
  intros Hw Hi. unfold CIRC_LIST_ITEM_set. rewrite CIRC_LIST_INDEX_spec by done. simpl.
  pose proof (cl_pos_range _ i Hw ltac:(destruct Hw; lia)) as Hp.
  pose proof Hw as [Hh Hs Hl].
  rewrite arr_set_Ret by lia. simpl.
  set (obj' := mkcl _ _ _ _).
  assert (Hw' : cl_wf obj') by (split; simpl; rewrite ?length_insert; lia).
  exists obj'. split_and!; try done.
  pose proof (length_cl_items obj Hw) as Hn. pose proof (length_cl_items obj' Hw') as Hn'.
  apply list_eq_same_length with (length (cl_items obj));
    [by rewrite length_insert|simpl in *; lia|].
  intros j y z Hj Hy Hz. simpl in Hn'.
  rewrite lookup_cl_items in Hy by (simpl; done || lia). simpl in Hy.
  change (cl_pos obj' (Z.of_nat j)) with (cl_pos obj (Z.of_nat j)) in Hy.
  destruct (decide (j = Z.to_nat i)) as [->|Hne].
  - rewrite Z2Nat.id, list_lookup_insert_eq in Hy by lia.
    rewrite list_lookup_insert_eq in Hz by lia. congruence.
  - rewrite list_lookup_insert_ne in Hz by done.
    rewrite lookup_cl_items in Hz by (done || lia).
    rewrite list_lookup_insert_ne in Hy; [congruence|].
    pose proof (cl_pos_range obj (Z.of_nat j) Hw ltac:(lia)).
    unfold cl_pos in *. guards.
Qed.

Lemma CIRC_LIST_PUSH_spec obj x :
  cl_wf obj ->
  exists obj', CIRC_LIST_PUSH obj x = Ret obj' /\ cl_wf obj' /\
    x_cap obj' = x_cap obj /\ x_size obj' = Z.min (x_size obj + 1) (x_cap obj) /\
    cl_items obj' = take (Z.to_nat (x_cap obj)) (x :: cl_items obj).
Proof.
  intros Hw. pose proof Hw as [Hh Hs Hl]. unfold CIRC_LIST_PUSH, modulo_add.
  rewrite ASSERT_true by lia. simpl.
  set (h := if _ <? 0 then _ else _).
  assert (Hh' : h = if x_head obj =? 0 then x_cap obj - 1 else x_head obj - 1)
    by (subst h; guards).
  clearbody h. assert (Hr : 0 <= h < x_cap obj) by guards.
  rewrite arr_set_Ret by lia. simpl.
  replace (min_int (x_size obj + 1) (x_cap obj)) with (Z.min (x_size obj + 1) (x_cap obj))
    by (unfold min_int; guards).
  set (obj' := mkcl _ _ _ _).
  assert (Hw' : cl_wf obj') by (split; simpl; rewrite ?length_insert; lia).
  exists obj'. split_and!; try done.
  pose proof (length_cl_items obj Hw) as Hn. pose proof (length_cl_items obj' Hw') as Hn'.
  simpl in Hn'.
  apply list_eq_same_length with (length (cl_items obj'));
    [rewrite length_take; simpl; lia|done|].
  intros j y z Hj Hy Hz.
  rewrite lookup_cl_items in Hy by (simpl; done || lia). simpl in Hy.
  rewrite lookup_take_lt in Hz by lia.
  destruct j as [|j].
  - simpl in Hz. assert (Hp0 : cl_pos obj' (Z.of_nat 0) = h)
      .
    { unfold cl_pos. simpl. clear -Hr. guards. }
    rewrite Hp0 in Hy. rewrite list_lookup_insert_eq in Hy by lia. congruence.
  - simpl in Hz. rewrite lookup_cl_items in Hz by (done || lia).
    replace (cl_pos obj' (Z.of_nat (S j))) with (cl_pos obj (Z.of_nat j)) in Hy.
    2:{ rewrite Nat2Z.inj_succ. unfold cl_pos. simpl. rewrite Hh'. guards. }
    rewrite list_lookup_insert_ne in Hy; [congruence|].
    pose proof (cl_pos_range obj (Z.of_nat j) Hw ltac:(lia)).
    unfold cl_pos in *. rewrite Hh'. guards.
Qed.

Lemma CIRC_LIST_RESET_spec obj :
  cl_wf obj -> cl_wf (CIRC_LIST_RESET obj) /\ cl_items (CIRC_LIST_RESET obj) = [].
Proof. intros []. repeat split; simpl; lia. Qed.

Lemma CIRC_LIST_ALLOC_spec zero size :
  0 < size ->
  cl_wf (CIRC_LIST_ALLOC zero size) /\ cl_items (CIRC_LIST_ALLOC zero size) = [].
Proof. intros. repeat split; simpl; rewrite ?length_replicate; lia. Qed.
End circ_list.
