(* ===== verification/PacketId.v ===== *)
(** * Packet ids and replay protection (openvpn packet_id.c, packet_id.h)

    The receiver's sliding window ([packet_id_rec]), the sender's counter
    ([packet_id_send]), their wire format, the persistence record, and
    [crypto_check_replay] of crypto.c, which ties test and add together.  The
    global clock [now] is an argument.  The name and unit fields, which only
    feed log messages, and the logging itself are left out. *)

From S2P Require Import Prelude Buffer CircList.
From stdpp Require Import prelude.
From Stdlib Require Import ZArith Lia ZifyBool Sorted.

Local Open Scope Z_scope.

(** ** Data *)

Definition SEQ_UNSEEN : Z := 0.
Definition SEQ_EXPIRED : Z := 1.
Definition PACKET_ID_MAX : Z := 2 ^ 32 - 1.
Definition PACKET_ID_WRAP_TRIGGER : Z := 0xFF000000.
Definition MIN_SEQ_BACKTRACK : Z := 0.
Definition MAX_SEQ_BACKTRACK : Z := 65536.
Definition MIN_TIME_BACKTRACK : Z := 0.
Definition MAX_TIME_BACKTRACK : Z := 600.
Definition SEQ_REAP_INTERVAL : Z := 5.

Record packet_id_rec := mkrec {
  rec_last_reap : Z;
  rec_time : Z;
  rec_id : Z;
  rec_seq_backtrack : Z;
  rec_time_backtrack : Z;
  rec_max_backtrack_stat : Z;
  rec_initialized : bool;
  rec_seq_list : option (circ_list Z)
}.

Record packet_id_send := mksend { send_id : Z; send_time : Z }.
Record packet_id_net := mknet { net_id : Z; net_time : Z }.
Record packet_id := mkpid { pid_send : packet_id_send; pid_rec : packet_id_rec }.

Record packet_id_persist := mkpersist {
  per_fd : Z;
  per_time : Z;
  per_id : Z;
  per_time_last_written : Z;
  per_id_last_written : Z
}.

(** struct packet_id_persist_file_image *)
Record file_image := mkimage { img_time : Z; img_id : Z }.

#[global] Instance packet_id_net_eq_dec : EqDecision packet_id_net.
Proof. solve_decision. Defined.

Definition rec_set_last_reap (p : packet_id_rec) (t : Z) : packet_id_rec :=
  mkrec t (rec_time p) (rec_id p) (rec_seq_backtrack p) (rec_time_backtrack p)
    (rec_max_backtrack_stat p) (rec_initialized p) (rec_seq_list p).
Definition rec_set_state (p : packet_id_rec) (time id : Z) (sl : option (circ_list Z))
  : packet_id_rec :=
  mkrec (rec_last_reap p) time id (rec_seq_backtrack p) (rec_time_backtrack p)
    (rec_max_backtrack_stat p) (rec_initialized p) sl.
Definition rec_set_stat (p : packet_id_rec) (s : Z) : packet_id_rec :=
  mkrec (rec_last_reap p) (rec_time p) (rec_id p) (rec_seq_backtrack p) (rec_time_backtrack p)
    s (rec_initialized p) (rec_seq_list p).

(** ** Receiver *)

Definition packet_id_init (seq_backtrack time_backtrack : Z) : outcome packet_id :=
  if negb (seq_backtrack =? 0) then
    ASSERT ((MIN_SEQ_BACKTRACK <=? seq_backtrack) && (seq_backtrack <=? MAX_SEQ_BACKTRACK));;
    ASSERT ((MIN_TIME_BACKTRACK <=? time_backtrack) && (time_backtrack <=? MAX_TIME_BACKTRACK));;
    Ret (mkpid (mksend 0 0)
           (mkrec 0 0 0 seq_backtrack time_backtrack 0 true
              (Some (CIRC_LIST_ALLOC SEQ_UNSEEN seq_backtrack))))
  else Ret (mkpid (mksend 0 0) (mkrec 0 0 0 0 0 0 true None)).

(** [while (p->id < pin->id) { CIRC_LIST_PUSH(...); ++p->id; }] with as many
    steps of fuel as the distance to go. *)
Fixpoint packet_id_add_loop (fuel : nat) (id target : Z) (sl : circ_list Z)
  : outcome (Z * circ_list Z) :=
  match fuel with
  | O => Ret (id, sl)
  | S fuel' =>
      if id <? target then
        sl' ← CIRC_LIST_PUSH sl SEQ_UNSEEN;
        packet_id_add_loop fuel' (u32 (id + 1)) target sl'
      else Ret (id, sl)
  end.

Definition packet_id_add (now : Z) (p : packet_id_rec) (pin : packet_id_net)
  : outcome packet_id_rec :=
  match rec_seq_list p with
  | Some sl =>
      let bt := u32 (rec_seq_backtrack p) in
      let reset := (CIRC_LIST_SIZE sl =? 0) || (rec_time p <? net_time pin)
                   || ((bt <=? net_id pin) && (rec_id p <? u32 (net_id pin - bt))) in
      let time1 := if reset then net_time pin else rec_time p in
      let id1 := if reset then (if bt <? net_id pin then u32 (net_id pin - bt) else 0)
                 else rec_id p in
      let sl1 := if reset then CIRC_LIST_RESET sl else sl in
      '(id2, sl2) ← packet_id_add_loop (Z.to_nat (net_id pin - id1)) id1 (net_id pin) sl1;
      let diff := u32 (id2 - net_id pin) in
      sl3 ← (if (diff <? u32 (CIRC_LIST_SIZE sl2)) && (SEQ_EXPIRED <? now)
             then CIRC_LIST_ITEM_set sl2 diff now else Ret sl2);
      Ret (rec_set_state p time1 id2 (Some sl3))
  | None => Ret (rec_set_state p (net_time pin) (net_id pin) None)
  end.

(** The loop of [packet_id_reap] from index [i] on ([n] indices left). *)
Fixpoint packet_id_reap_loop (n : nat) (i : Z) (expire : bool) (now time_backtrack : Z)
  (sl : circ_list Z) : outcome (circ_list Z) :=
  match n with
  | O => Ret sl
  | S n' =>
      t ← CIRC_LIST_ITEM sl i;
      if t =? SEQ_EXPIRED then Ret sl
      else
        let expire := expire || (negb (t =? 0) && (t + time_backtrack <? now)) in
        sl' ← (if expire then CIRC_LIST_ITEM_set sl i SEQ_EXPIRED else Ret sl);
        packet_id_reap_loop n' (i + 1) expire now time_backtrack sl'
  end.

Definition packet_id_reap (now : Z) (p : packet_id_rec) : outcome packet_id_rec :=
  sl ← (if negb (rec_time_backtrack p =? 0) then
          match rec_seq_list p with
          | None => Fault
          | Some sl =>
              sl' ← packet_id_reap_loop (Z.to_nat (CIRC_LIST_SIZE sl)) 0 false now
                      (rec_time_backtrack p) sl;
              Ret (Some sl')
          end
        else Ret (rec_seq_list p));
  Ret (rec_set_last_reap (rec_set_state p (rec_time p) (rec_id p) sl) now).

Definition packet_id_reap_test (now : Z) (p : packet_id_rec) : outcome packet_id_rec :=
  if rec_last_reap p + SEQ_REAP_INTERVAL <=? now then packet_id_reap now p else Ret p.

Definition packet_id_test (p : packet_id_rec) (pin : packet_id_net)
  : outcome (packet_id_rec * bool) :=
  ASSERT (rec_initialized p);;
  if net_id pin =? 0 then Ret (p, false)
  else if negb (rec_seq_backtrack p =? 0) then
    if net_time pin =? rec_time p then
      if rec_id p <? net_id pin then Ret (p, true)
      else
        let diff := u32 (rec_id p - net_id pin) in
        let p := if rec_max_backtrack_stat p <? to_int diff then rec_set_stat p (to_int diff)
                 else p in
        match rec_seq_list p with
        | None => Fault
        | Some sl =>
            if u32 (CIRC_LIST_SIZE sl) <=? diff then Ret (p, false)
            else v ← CIRC_LIST_ITEM sl diff; Ret (p, v =? 0)
        end
    else if net_time pin <? rec_time p then Ret (p, false)
    else Ret (p, true)
  else
    if net_time pin =? rec_time p then
      Ret (p, (rec_id p =? 0) || (net_id pin =? u32 (rec_id p + 1)))
    else if net_time pin <? rec_time p then Ret (p, false)
    else Ret (p, net_id pin =? 1).

(** ** Sender *)

Definition packet_id_send_update (now : Z) (p : packet_id_send) (long_form : bool)
  : packet_id_send * bool :=
  let time := if send_time p =? 0 then now else send_time p in
  if send_id p =? PACKET_ID_MAX then
    if negb long_form || (now <=? time) then (mksend (send_id p) time, false)
    else (mksend (u32 (0 + 1)) now, true)
  else (mksend (u32 (send_id p + 1)) time, true).

(** [packet_id_write]: the result is (sender, buffer, ok).  [htonpid]/[htontime]
    write the low 32 bits of id and time, most significant byte first. *)
Definition packet_id_write (now : Z) (p : packet_id_send) (buf : buffer) (long_form prepend : bool)
  : outcome (packet_id_send * buffer * bool) :=
  match packet_id_send_update now p long_form with
  | (p, false) => Ret (p, buf, false)
  | (p, true) =>
      let nid := be_bytes 4 (send_id p) in
      let ntime := be_bytes 4 (u32 (send_time p)) in
      if prepend then
        '(buf, ok) ← (if long_form then buf_write_prepend buf ntime else Ret (buf, true));
        if negb ok then Ret (p, buf, false)
        else '(buf, ok) ← buf_write_prepend buf nid; Ret (p, buf, ok)
      else
        '(buf, ok) ← buf_write buf nid;
        if negb ok then Ret (p, buf, false)
        else if long_form then '(buf, ok) ← buf_write buf ntime; Ret (p, buf, ok)
        else Ret (p, buf, true)
  end.

Definition packet_id_read (buf : buffer) (long_form : bool)
  : outcome (buffer * packet_id_net * bool) :=
  '(buf, d) ← buf_read buf 4;
  match d with
  | None => Ret (buf, mknet 0 0, false)
  | Some d =>
      if long_form then
        '(buf, t) ← buf_read buf 4;
        match t with
        | None => Ret (buf, mknet (be_val d) 0, false)
        | Some t => Ret (buf, mknet (be_val d) (be_val t), true)
        end
      else Ret (buf, mknet (be_val d) 0, true)
  end.

Definition reset_packet_id_send (p : packet_id_send) : packet_id_send := mksend 0 0.
Definition packet_id_size (long_form : bool) : Z := 4 + (if long_form then 4 else 0).
Definition packet_id_close_to_wrapping (p : packet_id_send) : bool :=
  PACKET_ID_WRAP_TRIGGER <=? send_id p.
Definition check_timestamp_delta (now remote max_delta : Z) : bool :=
  let abs := u32 (if remote <=? now then now - remote else remote - now) in
  abs <=? max_delta.

(** ** Persistence *)

Definition packet_id_persist_init : packet_id_persist := mkpersist (-1) 0 0 0 0.
Definition packet_id_persist_enabled (p : packet_id_persist) : bool := 0 <=? per_fd p.
Definition packet_id_persist_close (p : packet_id_persist) : packet_id_persist :=
  if packet_id_persist_enabled p then packet_id_persist_init else p.

(** [packet_id_persist_load]: the results of [open], [flock] and [read] are
    arguments; [image] is [Some] when a whole image was read.  A failed lock
    is fatal (M_ERR). *)
Definition packet_id_persist_load (open_fd : Z) (locked : bool) (image : option file_image)
  (p : packet_id_persist) : outcome packet_id_persist :=
  if packet_id_persist_enabled p then Ret p
  else if open_fd =? -1 then Ret (mkpersist (-1) (per_time p) (per_id p)
                                    (per_time_last_written p) (per_id_last_written p))
  else
    ASSERT locked;;
    Ret match image with
        | Some im => mkpersist open_fd (img_time im) (img_id im) (img_time im) (img_id im)
        | None => mkpersist open_fd (per_time p) (per_id p)
                    (per_time_last_written p) (per_id_last_written p)
        end.

(** [packet_id_persist_save]: returns the image written to the file, if any;
    [io_ok] says that seek and write succeeded. *)
Definition packet_id_persist_save (io_ok : bool) (p : packet_id_persist)
  : packet_id_persist * option file_image :=
  if packet_id_persist_enabled p && negb (per_time p =? 0)
     && (negb (per_time p =? per_time_last_written p) || negb (per_id p =? per_id_last_written p))
  then
    if io_ok then
      (mkpersist (per_fd p) (per_time p) (per_id p) (per_time p) (per_id p),
       Some (mkimage (per_time p) (per_id p)))
    else (p, None)
  else (p, None).

Definition packet_id_persist_load_obj (p : packet_id_persist) (pid : packet_id) : packet_id :=
  if packet_id_persist_enabled p && negb (per_time p =? 0) then
    mkpid (pid_send pid)
      (rec_set_state (pid_rec pid) (per_time p) (per_id p) (rec_seq_list (pid_rec pid)))
  else pid.

Definition packet_id_persist_save_obj (p : packet_id_persist) (pid : packet_id)
  : packet_id_persist :=
  if packet_id_persist_enabled p && negb (rec_time (pid_rec pid) =? 0) then
    mkpersist (per_fd p) (rec_time (pid_rec pid)) (rec_id (pid_rec pid))
      (per_time_last_written p) (per_id_last_written p)
  else p.

(** ** crypto_check_replay (crypto.c)

    The part of struct crypto_options the routine uses. *)
Record crypto_options := mkopt {
  opt_packet_id : packet_id;
  opt_pid_persist : option packet_id_persist;
  opt_long_form : bool      (** CO_PACKET_ID_LONG_FORM in flags *)
}.

Definition crypto_check_replay (now : Z) (opt : crypto_options) (pin : packet_id_net)
  : outcome (crypto_options * bool) :=
  let set_rec r := mkpid (pid_send (opt_packet_id opt)) r in
  r ← packet_id_reap_test now (pid_rec (opt_packet_id opt));
  '(r, ok) ← packet_id_test r pin;
  if (ok : bool) then
    r ← packet_id_add now r pin;
    let per := match opt_pid_persist opt with
               | Some per =>
                   Some (if opt_long_form opt then packet_id_persist_save_obj per (set_rec r)
                         else per)
               | None => None
               end in
    Ret (mkopt (set_rec r) per (opt_long_form opt), true)
  else Ret (mkopt (set_rec r) (opt_pid_persist opt) (opt_long_form opt), false).

(** A run of the receiver over a sequence of (clock, packet id) arrivals; the
    result lists the accepted ids, most recent first. *)
Fixpoint replay_run (opt : crypto_options) (arrivals : list (Z * packet_id_net))
  (accepted : list packet_id_net) : outcome (crypto_options * list packet_id_net) :=
  match arrivals with
  | [] => Ret (opt, accepted)
  | (now, pin) :: rest =>
      '(opt', ok) ← crypto_check_replay now opt pin;
      replay_run opt' rest (if (ok : bool) then pin :: accepted else accepted)
  end.

(** The ids a run accepts, when it returns. *)
Definition run_accepts (opt : crypto_options) (arrivals : list (Z * packet_id_net))
  : option (list packet_id_net) :=
  match replay_run opt arrivals [] with Ret (_, acc) => Some acc | _ => None end.

(** ** The window invariant

    [rec_inv p H]: the receiver [p] has accepted exactly the ids [H].  Nothing
    in [H] lies above (time, id) of [p], and an id of [H] that the window still
    covers is marked in it.  What the other slots hold is in [ReplayFilter]. *)

Definition u32_ok (x : Z) : Prop := 0 <= x < 2 ^ 32.

Record window_inv (p : packet_id_rec) (H : list packet_id_net) (sl : circ_list Z) : Prop := {
  wi_wf : cl_wf sl;
  wi_bt : 0 < rec_seq_backtrack p <= MAX_SEQ_BACKTRACK;
  wi_cap : x_cap sl = rec_seq_backtrack p;
  wi_size : x_size sl = Z.min (rec_id p) (rec_seq_backtrack p);
  wi_mark : forall q, q ∈ H -> net_time q = rec_time p -> rec_id p - net_id q < x_size sl ->
            exists v, cl_items sl !! Z.to_nat (rec_id p - net_id q) = Some v /\ v <> 0
}.

Record rec_inv (p : packet_id_rec) (H : list packet_id_net) : Prop := {
  ri_init : rec_initialized p = true;
  ri_id : u32_ok (rec_id p);
  ri_nil : rec_id p = 0 -> H = [];
  ri_below : forall q, q ∈ H ->
             1 <= net_id q /\ net_time q <= rec_time p /\
             (net_time q = rec_time p -> net_id q <= rec_id p);
  ri_mode : match rec_seq_list p with
            | None => rec_seq_backtrack p = 0 /\ rec_time_backtrack p = 0
            | Some sl => window_inv p H sl
            end
}.

(** *** The loops *)

Lemma take_push_zeros (c n : nat) (l : list Z) :
  take c (replicate n 0 ++ take c (0 :: l)) = take c (replicate (S n) 0 ++ l).
Proof.
  rewrite (replicate_S_end n), <- (assoc_L (++)). simpl.
  destruct (decide (c <= n)%nat).
  - rewrite !take_app_le by (rewrite length_replicate; lia). done.
  - rewrite !take_app, length_replicate, take_take. f_equal. f_equal. lia.
Qed.

Lemma packet_id_add_loop_spec n : forall id sl,
  cl_wf sl -> 0 <= id -> id + Z.of_nat n < 2 ^ 32 ->
  exists sl', packet_id_add_loop n id (id + Z.of_nat n) sl = Ret (id + Z.of_nat n, sl') /\
    cl_wf sl' /\ x_cap sl' = x_cap sl /\
    x_size sl' = Z.min (x_size sl + Z.of_nat n) (x_cap sl) /\
    cl_items sl' = take (Z.to_nat (x_cap sl)) (replicate n 0 ++ cl_items sl).
Proof.
  induction n as [|n IH]; intros id sl Hwf Hid Hlt.
  - exists sl. pose proof (length_cl_items _ Hwf) as Hl. destruct Hwf. simpl.
    rewrite Z.add_0_r. split_and!; try done; [lia|]. rewrite take_ge; [done|lia].
  - simpl. destruct (id <? _) eqn:E; [|lia].
    destruct (CIRC_LIST_PUSH_spec sl SEQ_UNSEEN Hwf) as (sl1 & -> & Hwf1 & Hc1 & Hs1 & Hi1).
    simpl. rewrite u32_small by lia.
    destruct (IH (id + 1) sl1 Hwf1) as (sl2 & Hrun & Hwf2 & Hc2 & Hs2 & Hi2); [lia..|].
    replace (id + Z.of_nat (S n)) with (id + 1 + Z.of_nat n) by lia.
    exists sl2. split_and!; try done; [congruence|lia|].
    rewrite Hi2, Hi1, Hc1. apply take_push_zeros.
Qed.

(** What the loop makes of the slots, from the newest id on. *)
Definition too_old (now tb t : Z) : bool := negb (t =? 0) && (t + tb <? now).
Fixpoint reap_items (now tb : Z) (expire : bool) (l : list Z) : list Z :=
  match l with
  | [] => []
  | t :: l' =>
      if t =? SEQ_EXPIRED then l
      else
        let expire := expire || too_old now tb t in
        (if expire then SEQ_EXPIRED else t) :: reap_items now tb expire l'
  end.

Lemma length_reap_items now tb l : forall e, length (reap_items now tb e l) = length l.
Proof. induction l as [|t l IH]; intros e; simpl; [done|]. case_match; simpl; by rewrite ?IH. Qed.

Lemma reap_items_mark now tb l : forall e d v, l !! d = Some v -> v <> 0 ->
  exists v', reap_items now tb e l !! d = Some v' /\ v' <> 0.
Proof.
  induction l as [|t l IH]; intros e d v Hd Hv; simpl; [done|]. case_match; [by exists v|].
  destruct d as [|d]; simpl in *; [|by apply (IH _ _ v)]. simplify_eq. eexists. split; [done|]. by case_match.
Qed.

Lemma packet_id_reap_loop_spec now tb n : forall i expire sl,
  cl_wf sl -> 0 <= i -> i + Z.of_nat n = x_size sl ->
  exists sl', packet_id_reap_loop n i expire now tb sl = Ret sl' /\ cl_wf sl' /\
    x_cap sl' = x_cap sl /\ x_size sl' = x_size sl /\
    cl_items sl' = take (Z.to_nat i) (cl_items sl) ++ reap_items now tb expire (drop (Z.to_nat i) (cl_items sl)).
Proof.
  induction n as [|n IH]; intros i expire sl Hwf Hi Hn; simpl.
  { exists sl. split_and!; try done. pose proof (length_cl_items _ Hwf). rewrite drop_ge by lia. simpl. by rewrite app_nil_r, take_ge by lia. }
  destruct (CIRC_LIST_ITEM_spec sl i Hwf) as (t & -> & Ht); [lia|]. simpl.
  rewrite (drop_S _ _ _ Ht). simpl. case_match.
  { exists sl. split_and!; try done. by rewrite <- (drop_S _ _ _ Ht), take_drop. }
  change (negb (t =? 0) && (t + tb <? now)) with (too_old now tb t).
  set (e := expire || _). pose proof (lookup_lt_Some _ _ _ Ht) as Hlt.
  assert (Hnext : Z.to_nat (i + 1) = S (Z.to_nat i)) by lia. destruct e.
  - destruct (CIRC_LIST_ITEM_set_spec sl i SEQ_EXPIRED Hwf)
      as (sl1 & -> & Hwf1 & Hs1 & Hc1 & Hi1); [lia|]. simpl.
    destruct (IH (i + 1) true sl1) as (sl2 & -> & Hwf2 & Hc2 & Hs2 & Hm2); [done|lia..|].
    exists sl2. split_and!; try done; [congruence..|]. rewrite Hm2, Hi1, Hnext.
    rewrite (take_S_r _ _ SEQ_EXPIRED) by (by apply list_lookup_insert_eq).
    rewrite take_insert_ge, drop_insert_lt by lia. by rewrite <- app_assoc.
  - simpl. destruct (IH (i + 1) false sl) as (sl2 & Hrun & ? & ? & ? & Hm2); [done|lia..|].
    rewrite Hrun. eexists. split_and!; try done. rewrite Hm2, Hnext, (take_S_r _ _ _ Ht), <- app_assoc. done.
Qed.

(** The slot of id [n] holds [v]. *)
Definition slot_at (p : packet_id_rec) (n v : Z) : Prop :=
  exists sl, rec_seq_list p = Some sl /\ n <= rec_id p /\ cl_items sl !! Z.to_nat (rec_id p - n) = Some v.

(** *** Every operation keeps the invariant *)

Lemma packet_id_init_inv sb tb :
  0 <= sb <= MAX_SEQ_BACKTRACK -> 0 <= tb <= MAX_TIME_BACKTRACK ->
  exists pid, packet_id_init sb tb = Ret pid /\ rec_inv (pid_rec pid) [] /\
    rec_seq_backtrack (pid_rec pid) = sb /\
    rec_time (pid_rec pid) = 0 /\ rec_id (pid_rec pid) = 0 /\
    (sb <> 0 -> rec_time_backtrack (pid_rec pid) = tb).
Proof.
  intros Hsb Htb. unfold packet_id_init.
  unfold MIN_SEQ_BACKTRACK, MAX_SEQ_BACKTRACK, MIN_TIME_BACKTRACK, MAX_TIME_BACKTRACK in *.
  destruct (negb (sb =? 0)) eqn:E.
  - rewrite !ASSERT_true by lia. simpl.
    destruct (CIRC_LIST_ALLOC_spec SEQ_UNSEEN sb) as [Hwf Hit]; [lia|].
    eexists; split; [done|]. simpl. split_and!; try done.
    split; simpl; try done; [set_solver|].
    split; simpl; try done; try (unfold MAX_SEQ_BACKTRACK; lia).
    set_solver.
  - eexists; split; [done|]. simpl. split_and!; try done; [|lia..].
    split; simpl; try done. set_solver.
Qed.

(** The slots after [packet_id_reap]. *)
Definition reaped_list (now tb : Z) (l l' : option (circ_list Z)) : Prop :=
  match l, l' with
  | Some sl, Some sl' => cl_items sl' = if tb =? 0 then cl_items sl else reap_items now tb false (cl_items sl)
  | None, None => True
  | _, _ => False
  end.

Lemma packet_id_reap_inv now p H :
  rec_inv p H ->
  exists p', packet_id_reap now p = Ret p' /\ rec_inv p' H /\
    rec_time p' = rec_time p /\ rec_id p' = rec_id p /\
    rec_seq_backtrack p' = rec_seq_backtrack p /\
    rec_time_backtrack p' = rec_time_backtrack p /\ rec_last_reap p' = now /\
    reaped_list now (rec_time_backtrack p) (rec_seq_list p) (rec_seq_list p').
Proof.
  intros [Hin Hid Hnil Hbel Hmode]. unfold packet_id_reap.
  destruct (rec_time_backtrack p =? 0) eqn:E; simpl.
  - eexists; split; [done|]. unfold reaped_list. simpl. rewrite ?E. split_and!; try done.
    + split; simpl; try done. destruct (rec_seq_list p) as [sl|]; [|done]. by destruct Hmode.
    + by destruct (rec_seq_list p).
  - destruct (rec_seq_list p) as [sl|]; [|lia].
    destruct Hmode as [Hwf Hbt Hcap Hsize Hmark].
    destruct (packet_id_reap_loop_spec now (rec_time_backtrack p) (Z.to_nat (x_size sl)) 0 false sl Hwf)
      as (sl' & Hrun & Hwf' & Hc' & Hs' & Hm'); [lia|destruct Hwf; lia|].
    unfold CIRC_LIST_SIZE. rewrite Hrun. simpl. change (Z.to_nat 0) with O in Hm'. simpl in Hm'.
    eexists; split; [done|]. simpl. rewrite E. split_and!; try done.
    split; simpl; try done. split; simpl; try done; try congruence.
    intros q Hq Ht Hd. rewrite Hs' in Hd. destruct (Hmark q Hq Ht Hd) as (v & Hv & Hv0). rewrite Hm'. by eapply reap_items_mark.
Qed.

Lemma packet_id_reap_test_inv now p H :
  rec_inv p H ->
  exists p', packet_id_reap_test now p = Ret p' /\ rec_inv p' H /\
    rec_time p' = rec_time p /\ rec_id p' = rec_id p /\
    rec_seq_backtrack p' = rec_seq_backtrack p /\
    rec_time_backtrack p' = rec_time_backtrack p /\
    (if rec_last_reap p + SEQ_REAP_INTERVAL <=? now
     then rec_last_reap p' = now /\ reaped_list now (rec_time_backtrack p) (rec_seq_list p) (rec_seq_list p')
     else p' = p).
Proof.
  intros Hinv. unfold packet_id_reap_test. case_match; [|by exists p].
  destruct (packet_id_reap_inv now p H Hinv) as (p' & ? & ? & ? & ? & ? & ? & ? & ?). exists p'. done.
Qed.

Lemma rec_set_stat_inv p H s : rec_inv p H -> rec_inv (rec_set_stat p s) H.
Proof.
  intros [Hin Hid Hnil Hbel Hmode]. split; simpl; try done.
  destruct (rec_seq_list p); [by destruct Hmode|done].
Qed.

(** What the window says about a packet id: above everything seen, or covered
    by the window and unmarked. *)
Definition fresh (p : packet_id_rec) (pin : packet_id_net) : Prop :=
  net_id pin <> 0 /\
  (rec_time p < net_time pin \/
   (net_time pin = rec_time p /\
    (rec_id p < net_id pin \/
     exists sl, rec_seq_list p = Some sl /\ rec_id p - net_id pin < x_size sl /\
       net_id pin <= rec_id p /\
       cl_items sl !! Z.to_nat (rec_id p - net_id pin) = Some 0))).

(** Without a window: the next id of the series, or the first one of a newer. *)
Definition in_sequence (p : packet_id_rec) (pin : packet_id_net) : bool :=
  negb (net_id pin =? 0) &&
  (if net_time pin =? rec_time p then (rec_id p =? 0) || (net_id pin =? rec_id p + 1)
   else (rec_time p <? net_time pin) && (net_id pin =? 1)).

Lemma packet_id_test_sequence p H pin :
  rec_inv p H -> u32_ok (net_id pin) -> rec_seq_backtrack p = 0 -> packet_id_test p pin = Ret (p, in_sequence p pin).
Proof.
  intros [Hin Hid Hnil Hbel Hmode] Hpin Hb. unfold packet_id_test, in_sequence, u32_ok in *. rewrite Hin, Hb. simpl.
  destruct (net_id pin =? 0) eqn:E0; [done|]. simpl. destruct (net_time pin =? rec_time p) eqn:Et.
  - do 2 f_equal. f_equal. destruct (decide (rec_id p = 2 ^ 32 - 1)) as [Hm|].
    + rewrite Hm. change (u32 (2 ^ 32 - 1 + 1)) with 0. lia.
    + by rewrite u32_small by lia.
  - destruct (net_time pin <? rec_time p) eqn:El; do 2 f_equal; lia.
Qed.

Lemma packet_id_test_spec p H pin :
  rec_inv p H -> u32_ok (net_id pin) ->
  exists p' b, packet_id_test p pin = Ret (p', b) /\ rec_inv p' H /\
    rec_time p' = rec_time p /\ rec_id p' = rec_id p /\
    rec_seq_backtrack p' = rec_seq_backtrack p /\
    rec_time_backtrack p' = rec_time_backtrack p /\ rec_seq_list p' = rec_seq_list p /\ rec_last_reap p' = rec_last_reap p /\
    (b = true -> fresh p pin) /\
    (0 < rec_seq_backtrack p -> fresh p pin -> b = true).
Proof.
  intros Hinv Hpin. pose proof Hinv as [Hin Hid Hnil Hbel Hmode].
  unfold packet_id_test, fresh, u32_ok in *. rewrite Hin. simpl.
  destruct (net_id pin =? 0) eqn:E0. { eexists _, _; split_and!; try done. lia. }
  destruct (negb (rec_seq_backtrack p =? 0)) eqn:Ebt.
  - destruct (rec_seq_list p) as [sl|] eqn:Esl; [|lia].
    destruct (net_time pin =? rec_time p) eqn:Et.
    2:{ destruct (net_time pin <? rec_time p) eqn:El;
        (eexists _, _; split_and!; try done; [..|]; lia). }
    destruct (rec_id p <? net_id pin) eqn:Eid.
    { eexists _, _; split_and!; try done; lia. }
    rewrite u32_small by lia.
    set (p1 := if _ <? _ then rec_set_stat p _ else p).
    assert (Hp1 : rec_inv p1 H /\ rec_seq_list p1 = Some sl /\ rec_time p1 = rec_time p /\
      rec_id p1 = rec_id p /\ rec_seq_backtrack p1 = rec_seq_backtrack p /\
      rec_time_backtrack p1 = rec_time_backtrack p /\ rec_last_reap p1 = rec_last_reap p).
    { subst p1. case_match; split_and!; try done; by apply rec_set_stat_inv. }
    destruct Hp1 as (Hinv1 & Hsl1 & Ht1 & Hid1 & Hb1 & Htb1 & Hlr1). rewrite Hsl1.
    destruct Hmode as [Hwf Hbt Hcap Hsize Hmark].
    unfold CIRC_LIST_SIZE, MAX_SEQ_BACKTRACK in *. rewrite u32_small by lia.
    destruct (x_size sl <=? _) eqn:Esz.
    { eexists _, _; split_and!; try done. intros _ [_ [|(?&[|(sl'&?&?&?)])]]; simplify_eq; lia. }
    destruct (CIRC_LIST_ITEM_spec sl (rec_id p - net_id pin) Hwf) as (v & -> & Hv); [lia|]. simpl.
    eexists _, _; split_and!; try done.
    + intros Hv0. split; [lia|]. right. split; [lia|]. right. exists sl.
      assert (v = 0) as -> by lia. split_and!; done || lia.
    + intros _ [_ [|(?&[|(sl'&?&?&?&?)])]]; simplify_eq; lia.
  - destruct (rec_seq_list p) as [sl|] eqn:Esl. { destruct Hmode. lia. }
    destruct (net_time pin =? rec_time p) eqn:Et.
    + pose proof (u32_range (rec_id p + 1)).
      eexists _, _; split_and!; try done; [|lia]. intros Hb. split; [lia|]. right. split; [lia|].
      left. destruct (decide (rec_id p = 2 ^ 32 - 1)) as [Hm|].
      { rewrite Hm in Hb. change (u32 (2 ^ 32 - 1 + 1)) with 0 in Hb. lia. }
      rewrite u32_small in Hb by lia. lia.
    + destruct (net_time pin <? rec_time p) eqn:El;
        (eexists _, _; split_and!; try done; [..|]; lia).
Qed.

Lemma fresh_not_seen p H pin : rec_inv p H -> fresh p pin -> pin ∉ H.
Proof.
  intros [Hin Hid Hnil Hbel Hmode] [Hnz Hf] Hmem.
  destruct (Hbel _ Hmem) as (H1 & Ht & Hle).
  destruct Hf as [Hf|(Heq & [Hf|(sl & Hsl & Hd & Hb & Hv)])]; [lia|lia|].
  rewrite Hsl in Hmode. destruct (wi_mark _ _ _ Hmode _ Hmem Heq Hd) as (v & Hv' & Hv0).
  congruence.
Qed.

(** [packet_id_add] on a window, as two lemmas: a new series or a jump beyond
    the window empties it; otherwise the window slides. *)

Lemma window_restart now p H pin sl :
  rec_inv p H -> rec_seq_list p = Some sl -> fresh p pin -> u32_ok (net_id pin) -> 1 < now ->
  (x_size sl = 0 \/ rec_time p < net_time pin \/ rec_id p < net_id pin - rec_seq_backtrack p) ->
  exists sl2 sl3,
    let id1 := Z.max 0 (net_id pin - rec_seq_backtrack p) in
    packet_id_add_loop (Z.to_nat (net_id pin - id1)) id1 (net_id pin) (CIRC_LIST_RESET sl)
      = Ret (net_id pin, sl2) /\
    0 < x_size sl2 <= MAX_SEQ_BACKTRACK /\
    CIRC_LIST_ITEM_set sl2 0 now = Ret sl3 /\
    cl_items sl3 = <[O := now]> (replicate (Z.to_nat (Z.min (net_id pin) (rec_seq_backtrack p))) 0) /\
    rec_inv (rec_set_state p (net_time pin) (net_id pin) (Some sl3)) (pin :: H).
Proof.
  intros [Hin Hid Hnil Hbel Hmode] Hsl [Hnz Hf] Hpin Hnow Hcase. rewrite Hsl in Hmode.
  destruct Hmode as [Hwf Hbt Hcap Hsize Hmark]. unfold u32_ok in *.
  destruct (CIRC_LIST_RESET_spec sl Hwf) as [Hwf0 Hit0].
  set (n := Z.to_nat (Z.min (net_id pin) (rec_seq_backtrack p))).
  destruct (packet_id_add_loop_spec n (Z.max 0 (net_id pin - rec_seq_backtrack p)) _ Hwf0)
    as (sl2 & Hrun & Hwf2 & Hc2 & Hs2 & Hi2); [lia..|]. simpl in Hc2, Hs2, Hi2.
  destruct (CIRC_LIST_ITEM_set_spec sl2 0 now Hwf2) as (sl3 & Hset & Hwf3 & Hs3 & Hc3 & Hi3); [lia|].
  rewrite Hit0, app_nil_r, take_ge in Hi2 by (rewrite length_replicate; lia).
  assert (Hnew : forall q, q ∈ H -> net_time q = net_time pin ->
            net_id q <= net_id pin /\ Z.min (net_id pin) (rec_seq_backtrack p) <= net_id pin - net_id q).
  { intros q Hq Hqt. destruct (Hbel q Hq) as (Hq1 & Hq2 & Hq3).
    destruct Hcase as [Hc|[Hc|Hc]]; [|lia|].
    - rewrite Hnil in Hq by lia. set_solver.
    - destruct Hf as [?|[? _]]; [lia|]. specialize (Hq3 ltac:(lia)). lia. }
  exists sl2, sl3. split_and!; [|lia..|done|by rewrite Hi3, Hi2|].
  { replace (Z.to_nat _) with n by lia.
    replace (net_id pin) with (Z.max 0 (net_id pin - rec_seq_backtrack p) + Z.of_nat n) at 2 3 by lia.
    done. }
  split; simpl; try done.
  - intros q [->|Hq]%elem_of_cons; [lia|]. destruct (Hbel q Hq) as (Hq1 & Hq2 & Hq3).
    split_and!; [done|destruct Hf; lia|]. intros Ht. by apply Hnew.
  - split; simpl; try done; try congruence; [lia|].
    intros q [->|Hq]%elem_of_cons Ht Hd.
    + exists now. split; [|lia]. rewrite Hi3, Z.sub_diag. simpl. rewrite Hi2.
      apply list_lookup_insert_eq. rewrite length_replicate. lia.
    + destruct (Hnew q Hq Ht). lia.
Qed.

Lemma window_slide now p H pin sl :
  rec_inv p H -> rec_seq_list p = Some sl -> fresh p pin -> u32_ok (net_id pin) -> 1 < now ->
  net_time pin = rec_time p -> 0 < x_size sl -> net_id pin - rec_seq_backtrack p <= rec_id p ->
  exists sl2 sl3,
    let id2 := Z.max (rec_id p) (net_id pin) in
    packet_id_add_loop (Z.to_nat (net_id pin - rec_id p)) (rec_id p) (net_id pin) sl
      = Ret (id2, sl2) /\
    0 <= id2 - net_id pin < x_size sl2 /\ x_size sl2 <= MAX_SEQ_BACKTRACK /\
    CIRC_LIST_ITEM_set sl2 (id2 - net_id pin) now = Ret sl3 /\
    cl_items sl3 = <[Z.to_nat (id2 - net_id pin) := now]>
      (take (Z.to_nat (rec_seq_backtrack p)) (replicate (Z.to_nat (id2 - rec_id p)) 0 ++ cl_items sl)) /\
    rec_inv (rec_set_state p (rec_time p) id2 (Some sl3)) (pin :: H).
Proof.
  intros [Hin Hid Hnil Hbel Hmode] Hsl [Hnz Hf] Hpin Hnow Ht Hpos Hnear. rewrite Hsl in Hmode.
  destruct Hmode as [Hwf Hbt Hcap Hsize Hmark]. unfold u32_ok in *.
  set (id2 := Z.max (rec_id p) (net_id pin)). set (n := Z.to_nat (id2 - rec_id p)).
  assert (Hloop : exists sl2,
    packet_id_add_loop (Z.to_nat (net_id pin - rec_id p)) (rec_id p) (net_id pin) sl = Ret (id2, sl2) /\
    cl_wf sl2 /\ x_cap sl2 = x_cap sl /\ x_size sl2 = Z.min id2 (rec_seq_backtrack p) /\
    cl_items sl2 = take (Z.to_nat (x_cap sl)) (replicate n 0 ++ cl_items sl)).
  { replace (Z.to_nat (net_id pin - rec_id p)) with n by lia.
    destruct (packet_id_add_loop_spec n (rec_id p) sl Hwf) as (sl2 & Hrun & ? & ? & Hs2 & ?); [lia..|].
    exists sl2. split_and!; try done; [|lia].
    destruct (decide (rec_id p <= net_id pin)).
    - replace (net_id pin) with (rec_id p + Z.of_nat n) at 1 by lia.
      rewrite Hrun. do 2 f_equal. lia.
    - replace n with O in * by lia. simpl in *. injection Hrun as _ <-.
      do 2 f_equal. lia. }
  destruct Hloop as (sl2 & Hrun & Hwf2 & Hc2 & Hs2 & Hi2).
  assert (Hdiff : 0 <= id2 - net_id pin < x_size sl2).
  { destruct Hf as [?|(_ & [?|(sl' & Hsl' & ?)])]; [lia..|]. assert (sl' = sl) by congruence.
    subst sl'. lia. }
  destruct (CIRC_LIST_ITEM_set_spec sl2 _ now Hwf2 Hdiff) as (sl3 & Hset & Hwf3 & Hs3 & Hc3 & Hi3).
  pose proof (length_cl_items _ Hwf2) as Hlen2. pose proof (length_cl_items _ Hwf) as Hlen.
  exists sl2, sl3. split_and!; [done|lia..|done|by rewrite Hi3, Hi2, Hcap|].
  split; simpl; try done.
  - unfold u32_ok. lia. 
  - intros. lia.
  - intros q [->|Hq]%elem_of_cons; [split_and!; lia|].
    destruct (Hbel q Hq) as (Hq1 & Hq2 & Hq3). split_and!; lia.
  - split; simpl; try done; try congruence.
    intros q [->|Hq]%elem_of_cons Hqt Hd.
    + exists now. split; [|lia]. rewrite Hi3. apply list_lookup_insert_eq. lia.
    + destruct (Hbel q Hq) as (Hq1 & Hq2 & Hq3). specialize (Hq3 ltac:(lia)).
      destruct (Hmark q Hq Hqt) as (v & Hv & Hv0); [lia|].
      rewrite Hi3. destruct (decide (Z.to_nat (id2 - net_id q) = Z.to_nat (id2 - net_id pin))) as [Heq|Hne].
      { rewrite Heq. exists now. split; [|lia]. apply list_lookup_insert_eq. lia. }
      exists v. split; [|done]. rewrite list_lookup_insert_ne by done.
      rewrite Hi2, lookup_take_lt, lookup_app_r, length_replicate
        by (rewrite ?length_replicate; lia).
      rewrite <- Hv. f_equal. lia.
Qed.

(** The slots after [packet_id_add]: that of the new id is marked, the others are
    new or as they were. *)
Definition added_slots (now : Z) (p : packet_id_rec) (pin : packet_id_net) (p' : packet_id_rec) : Prop :=
  forall n v, slot_at p' n v ->
    if decide (n = net_id pin) then v = now
    else v = 0 /\ (rec_time p < net_time pin \/ rec_id p < n) \/ net_time pin = rec_time p /\ slot_at p n v.

Lemma restart_slots now p pin (sl sl3 : circ_list Z) :
  (x_size sl = 0 -> rec_id p = 0) ->
  (x_size sl = 0 \/ rec_time p < net_time pin \/ rec_id p < net_id pin - rec_seq_backtrack p) ->
  cl_items sl3 = <[O := now]> (replicate (Z.to_nat (Z.min (net_id pin) (rec_seq_backtrack p))) 0) ->
  added_slots now p pin (rec_set_state p (net_time pin) (net_id pin) (Some sl3)).
Proof.
  intros Hz Hcase Hi n v (sl' & Hsl & Hn & Hv). simpl in *. injection Hsl as <-. rewrite Hi in Hv.
  pose proof (lookup_lt_Some _ _ _ Hv) as Hlt. rewrite length_insert, length_replicate in Hlt. case_decide as En.
  - subst n. rewrite Z.sub_diag in Hv. simpl in Hv. rewrite list_lookup_insert_eq in Hv; [congruence|rewrite length_replicate; lia].
  - rewrite list_lookup_insert_ne in Hv by lia. apply lookup_replicate in Hv as [-> _]. left. split; [done|].
    destruct Hcase as [Hc|[Hc|Hc]]; [right; rewrite Hz by done|by left|right]; lia.
Qed.

Lemma slide_slots now p pin (sl sl3 : circ_list Z) :
  rec_seq_list p = Some sl -> net_time pin = rec_time p ->
  let id2 := Z.max (rec_id p) (net_id pin) in
  cl_items sl3 = <[Z.to_nat (id2 - net_id pin) := now]>
      (take (Z.to_nat (rec_seq_backtrack p)) (replicate (Z.to_nat (id2 - rec_id p)) 0 ++ cl_items sl)) ->
  added_slots now p pin (rec_set_state p (rec_time p) id2 (Some sl3)).
Proof.
  intros Hsl Ht id2 Hi n v (sl' & Hsl' & Hn & Hv). simpl in *. injection Hsl' as <-. rewrite Hi in Hv.
  pose proof (lookup_lt_Some _ _ _ Hv) as Hlt. rewrite length_insert in Hlt. case_decide as En.
  - subst n. rewrite list_lookup_insert_eq in Hv by done. congruence.
  - rewrite list_lookup_insert_ne in Hv by lia. rewrite lookup_take_lt in Hv by (rewrite length_take in Hlt; lia).
    apply lookup_app_Some in Hv as [Hv|[Hd Hv]]; [apply lookup_replicate in Hv as [-> Hv]; left; split; [done|]; right; lia|].
    rewrite length_replicate in *. right. split; [done|]. exists sl. split; [done|]. split; [lia|]. rewrite <- Hv. f_equal. lia.
Qed.

Lemma packet_id_add_inv now p H pin :
  rec_inv p H -> fresh p pin -> u32_ok (net_id pin) -> 1 < now ->
  exists p', packet_id_add now p pin = Ret p' /\ rec_inv p' (pin :: H) /\
    rec_seq_backtrack p' = rec_seq_backtrack p /\
    rec_time_backtrack p' = rec_time_backtrack p /\
    rec_time p' = net_time pin /\
    rec_id p' = (if rec_time p <? net_time pin then net_id pin
                 else Z.max (rec_id p) (net_id pin)) /\
    rec_last_reap p' = rec_last_reap p /\ added_slots now p pin p'.
Proof.
  intros Hinv Hf Hpin Hnow. unfold packet_id_add.
  destruct (rec_seq_list p) as [sl|] eqn:Esl.
  - pose proof (ri_mode _ _ Hinv) as Hmode. rewrite Esl in Hmode.
    destruct Hmode as [Hwf Hbt Hcap Hsize _]. pose proof (ri_id _ _ Hinv) as Hid.
    unfold u32_ok, MAX_SEQ_BACKTRACK, CIRC_LIST_SIZE in *.
    rewrite (u32_small (rec_seq_backtrack p)) by lia.
    set (reset := _ || _).
    assert (Hr : reset = (x_size sl =? 0) || (rec_time p <? net_time pin)
                  || (rec_id p <? net_id pin - rec_seq_backtrack p)).
    { subst reset. f_equal. destruct (rec_seq_backtrack p <=? net_id pin) eqn:E; simpl; [|lia].
      rewrite u32_small by lia. done. }
    clearbody reset. destruct reset.
    + destruct (window_restart now p H pin sl) as (sl2 & sl3 & Hrun & Hs2 & Hset & Hi3 & Hinv');
        try done; [lia|].
      replace (if rec_seq_backtrack p <? net_id pin then u32 (net_id pin - rec_seq_backtrack p) else 0)
        with (Z.max 0 (net_id pin - rec_seq_backtrack p)).
      2:{ case_match; rewrite ?u32_small; lia. }
      rewrite Hrun. simpl. rewrite Z.sub_diag. change (u32 0) with 0.
      unfold MAX_SEQ_BACKTRACK, SEQ_EXPIRED in *. rewrite u32_small by lia.
      destruct (_ && _) eqn:E; [|lia]. rewrite Hset. simpl.
      eexists; split_and!; try done; [simpl; case_match; lia|]. apply (restart_slots now p pin sl); [lia|lia|exact Hi3].
    + destruct (window_slide now p H pin sl) as (sl2 & sl3 & Hrun & Hd & Hs2 & Hset & Hi3 & Hinv');
        try done; try lia.
      { destruct Hf as [_ [?|[? _]]]; lia. }
      rewrite Hrun. simpl. unfold MAX_SEQ_BACKTRACK, SEQ_EXPIRED in *.
      rewrite !u32_small by lia. destruct (_ && _) eqn:E; [|lia]. rewrite Hset. simpl.
      assert (Ht : net_time pin = rec_time p) by (destruct Hf as [_ [?|[? _]]]; lia).
      eexists; split_and!; try done; [simpl; case_match; lia|]. by eapply slide_slots.
  - destruct Hinv as [Hin Hid Hnil Hbel Hmode]. rewrite Esl in Hmode.
    eexists; split; [done|]. destruct Hf as [Hnz Hf]. unfold u32_ok in *.
    assert (Htop : rec_time p < net_time pin \/ net_time pin = rec_time p /\ rec_id p < net_id pin).
    { destruct Hf as [?|(? & [?|(sl & ? & _)])]; [lia|lia|congruence]. }
    split_and!; try done; [|simpl; case_match; lia|by intros n v (sl & ? & _)].
    split; simpl; try done.
    intros q [->|Hq]%elem_of_cons; [lia|]. destruct (Hbel q Hq) as (Hq1 & Hq2 & Hq3).
    lia.
Qed.

Definition opt_rec (opt : crypto_options) : packet_id_rec := pid_rec (opt_packet_id opt).

Definition arrival_ok (a : Z * packet_id_net) : Prop := 1 < a.1 /\ u32_ok (net_id a.2).

(** One arrival: the decision is sound, and the state it leaves is described
    by the invariant for the extended history. *)
Lemma crypto_check_replay_step opt H now pin :
  rec_inv (opt_rec opt) H -> arrival_ok (now, pin) ->
  exists opt' b, crypto_check_replay now opt pin = Ret (opt', b) /\
    rec_inv (opt_rec opt') (if (b : bool) then pin :: H else H) /\
    rec_seq_backtrack (opt_rec opt') = rec_seq_backtrack (opt_rec opt) /\
    rec_time_backtrack (opt_rec opt') = rec_time_backtrack (opt_rec opt) /\
    (b = true -> (pin ∉ H) /\ rec_time (opt_rec opt') = net_time pin /\
       rec_id (opt_rec opt') = (if rec_time (opt_rec opt) <? net_time pin then net_id pin
                                else Z.max (rec_id (opt_rec opt)) (net_id pin))) /\
    (b = false -> rec_time (opt_rec opt') = rec_time (opt_rec opt) /\
                  rec_id (opt_rec opt') = rec_id (opt_rec opt)) /\
    (exists p1, packet_id_reap_test now (opt_rec opt) = Ret p1 /\ rec_last_reap (opt_rec opt') = rec_last_reap p1 /\
       (0 < rec_seq_backtrack p1 -> b = true <-> fresh p1 pin) /\
       (rec_seq_backtrack p1 = 0 -> b = in_sequence p1 pin) /\
       if b then added_slots now p1 pin (opt_rec opt') else rec_seq_list (opt_rec opt') = rec_seq_list p1).
Proof.
  intros Hinv [Hnow Hpin]. simpl in *. unfold crypto_check_replay, opt_rec in *.
  destruct (packet_id_reap_test_inv now _ _ Hinv) as (p1 & Hreap & Hinv1 & Ht1 & Hi1 & Hb1 & Htb1 & _).
  rewrite Hreap. simpl.
  destruct (packet_id_test_spec p1 H pin Hinv1 Hpin)
    as (p2 & b & Htest & Hinv2 & Ht2 & Hi2 & Hb2 & Htb2 & Hs2 & Hl2 & Hsound & Hcompl).
  assert (Hseq : rec_seq_backtrack p1 = 0 -> b = in_sequence p1 pin).
  { intros Hz. rewrite (packet_id_test_sequence p1 H pin Hinv1 Hpin Hz) in Htest. congruence. }
  rewrite Htest. simpl. destruct b; simpl.
  - assert (Hf : fresh p2 pin).
    { specialize (Hsound eq_refl). unfold fresh in *. by rewrite Ht2, Hi2, Hs2. }
    destruct (packet_id_add_inv now p2 H pin Hinv2 Hf Hpin Hnow)
      as (p3 & -> & Hinv3 & Hb3 & Htb3 & Ht3 & Hi3 & Hl3 & Hsl3). simpl.
    eexists _, true. split; [done|]. split_and!; simpl; try done; try congruence.
    + intros _. split_and!; [by eapply fresh_not_seen|done|]. rewrite Hi3, Ht2, Hi2, Ht1, Hi1. done.
    + exists p1. split_and!; try done; [congruence|]. unfold added_slots, slot_at in *. by rewrite Hs2, Hi2, Ht2 in Hsl3.
  - eexists _, false. split; [done|]. split_and!; simpl; try done; try congruence.
    + intros _. split; congruence.
    + exists p1. split_and!; try done. intros Hbt. split; [done|]. intros Hf. by apply Hcompl.
Qed.

Lemma replay_run_inv arrivals : forall opt H,
  rec_inv (opt_rec opt) H -> NoDup H -> Forall arrival_ok arrivals ->
  exists opt' acc, replay_run opt arrivals H = Ret (opt', acc) /\
    rec_inv (opt_rec opt') acc /\ NoDup acc.
Proof.
  induction arrivals as [|[now pin] rest IH]; intros opt H Hinv Hnd Hall; simpl; [eauto|].
  apply Forall_cons in Hall as [Ha Hall].
  destruct (crypto_check_replay_step opt H now pin Hinv Ha)
    as (opt1 & b & -> & Hinv1 & _ & _ & Hnew & _). simpl.
  apply IH; [done| |done]. destruct b; [|done]. constructor; [|done]. by apply Hnew.
Qed.

(** ** Properties of the receiver *)

(** C9. Replay protection: whatever arrives at a freshly initialised receiver,
    in UDP (window) or TCP (sequential) mode, with or without expiry by age,
    no assertion fires, no memory is touched out of bounds and no (id, time)
    pair is accepted twice. *)
Theorem replay_no_duplicates sb tb per lf pid arrivals :
  0 <= sb <= MAX_SEQ_BACKTRACK -> 0 <= tb <= MAX_TIME_BACKTRACK ->
  packet_id_init sb tb = Ret pid -> Forall arrival_ok arrivals ->
  exists opt acc, replay_run (mkopt pid per lf) arrivals [] = Ret (opt, acc) /\ NoDup acc.
Proof.
  intros Hsb Htb Hinit Hall.
  destruct (packet_id_init_inv sb tb Hsb Htb) as (pid' & Hpid & Hinv & _).
  assert (pid' = pid) as -> by congruence.
  destruct (replay_run_inv arrivals (mkopt pid per lf) []) as (opt & acc & Hrun & _ & Hnd);
    [done|constructor|done|eauto].
Qed.

(** The receiver [packet_id_init] allocates, for the concrete runs below. *)
Definition demo_pid (sb tb : Z) : packet_id :=
  mkpid (mksend 0 0) (mkrec 0 0 0 sb tb 0 true (Some (CIRC_LIST_ALLOC 0 sb))).

Definition demo_arrivals : list (Z * packet_id_net) :=
  [(100, mknet 1 7); (100, mknet 3 7); (100, mknet 2 7); (101, mknet 3 7);
   (102, mknet 10 7); (102, mknet 6 7); (102, mknet 7 7); (102, mknet 1 8)].

Lemma demo_arrivals_ok : Forall arrival_ok demo_arrivals.
Proof. repeat constructor; simpl; lia. Qed.

Lemma replay_no_duplicates_witness :
  exists pid opt acc, packet_id_init 4 15 = Ret pid /\
    replay_run (mkopt pid None true) demo_arrivals [] = Ret (opt, acc) /\ NoDup acc.
Proof.
  exists (demo_pid 4 15). destruct (replay_no_duplicates 4 15 None true (demo_pid 4 15) demo_arrivals) as (opt & acc & H & Hn).
  - vm_compute. split; congruence.
  - vm_compute. split; congruence.
  - reflexivity.
  - exact demo_arrivals_ok.
  - exists opt, acc. split; [reflexivity|]. split; [exact H|exact Hn].
Defined.

(** ** Sender *)

Definition send_ok (p : packet_id_send) : Prop := u32_ok (send_id p) /\ u32_ok (send_time p).

(** What the id of a successful update looks like on the wire. *)
Definition wire_id (p : packet_id_send) (long_form : bool) : packet_id_net :=
  mknet (send_id p) (if long_form then u32 (send_time p) else 0).

(** A run of the sender over clock readings: the ids of the successful
    updates, in order. *)
Fixpoint send_run (p : packet_id_send) (long_form : bool) (clock : list Z) : list packet_id_net :=
  match clock with
  | [] => []
  | now :: rest =>
      let '(p', ok) := packet_id_send_update now p long_form in
      (if ok then [wire_id p' long_form] else []) ++ send_run p' long_form rest
  end.

(** Ids are ordered by time, then by number. *)
Definition net_lt (a b : packet_id_net) : Prop :=
  net_time a < net_time b \/ net_time a = net_time b /\ net_id a < net_id b.

#[global] Instance net_lt_trans : Transitive net_lt.
Proof. unfold net_lt. intros a b c. lia. Qed.

Lemma packet_id_send_update_spec now p lf :
  send_ok p -> u32_ok now ->
  let '(p', ok) := packet_id_send_update now p lf in
  send_ok p' /\ (send_time p <= send_time p') /\
  (if ok then net_lt (wire_id p lf) (wire_id p' lf)
   else send_id p' = send_id p).
Proof.
  intros [Hi Ht] Hn. unfold packet_id_send_update, send_ok, net_lt, wire_id, u32_ok, PACKET_ID_MAX in *.
  change (u32 (0 + 1)) with 1.
  repeat case_match; simplify_eq; simpl; rewrite ?u32_small by lia;
    split_and!; try lia.
Qed.

Lemma send_run_above clock : forall p lf,
  send_ok p -> Forall u32_ok clock ->
  Forall (fun q => net_lt (wire_id p lf) q) (send_run p lf clock) /\
  StronglySorted net_lt (send_run p lf clock).
Proof.
  induction clock as [|now rest IH]; intros p lf Hp Hall; simpl.
  { split; constructor. }
  apply Forall_cons in Hall as [Hn Hall].
  pose proof (packet_id_send_update_spec now p lf Hp Hn) as Hspec.
  destruct (packet_id_send_update now p lf) as [p' ok].
  destruct Hspec as (Hp' & Htime & Hok). destruct (IH p' lf Hp' Hall) as [Hab Hs].
  destruct ok; simpl.
  - split; [|by constructor]. constructor; [done|].
    eapply Forall_impl; [exact Hab|]. intros x Hx. by trans (wire_id p' lf).
  - split; [|done]. eapply Forall_impl; [exact Hab|].
    destruct Hp as [_ Hpt], Hp' as [_ Hpt']. unfold u32_ok in *.
    unfold net_lt, wire_id. simpl. intros x ?. destruct lf; simpl in *; [|lia].
    rewrite !u32_small in * by lia. lia.
Qed.

(** C27. A sender never puts the same packet id on the wire twice: over any
    sequence of clock readings the ids produced are strictly increasing by
    (time, id), across the roll-over at 2^32 - 1 too. *)
Theorem sender_ids_unique p lf clock :
  send_ok p -> Forall u32_ok clock ->
  StronglySorted net_lt (send_run p lf clock) /\ NoDup (send_run p lf clock).
Proof.
  intros Hp Hall. destruct (send_run_above clock p lf Hp Hall) as [_ Hs]. split; [done|].
  induction Hs as [|x l Hs IH Hx]; constructor; [|done].
  intros Hin. rewrite Forall_forall in Hx. specialize (Hx _ Hin). unfold net_lt in Hx. lia.
Qed.

Lemma sender_ids_unique_witness :
  send_run (mksend (2 ^ 32 - 2) 50) true [60; 60; 61] =
    [mknet (2 ^ 32 - 1) 50; mknet 1 60; mknet 2 60] /\
  NoDup (send_run (mksend (2 ^ 32 - 2) 50) true [60; 60; 61]).
Proof.
  split; [reflexivity|]. apply sender_ids_unique.
  - split; vm_compute; split; congruence.
  - repeat constructor; vm_compute; congruence.
Defined.

(** Short-form ids never roll over: once the counter is at its maximum the
    sender refuses, whatever the clock says. *)
Theorem short_form_never_wraps now p :
  send_id p = PACKET_ID_MAX ->
  exists p', packet_id_send_update now p false = (p', false) /\ send_id p' = PACKET_ID_MAX.
Proof.
  intros H. unfold packet_id_send_update. rewrite H, Z.eqb_refl. simpl. eauto.
Qed.

Lemma short_form_never_wraps_witness :
  exists p', packet_id_send_update 9999 (mksend (2 ^ 32 - 1) 5) false = (p', false) /\
             send_id p' = PACKET_ID_MAX.
Proof. apply short_form_never_wraps. reflexivity. Defined.

(** ** Wire format *)

Lemma packet_id_read_spec buf hd c tl id time :
  u32_ok id -> u32_ok time ->
  (holds buf hd (be_bytes 4 id ++ c) tl ->
   exists buf', packet_id_read buf false = Ret (buf', mknet id 0, true) /\ holds buf' (hd + 4) c tl) /\
  (holds buf hd (be_bytes 4 id ++ be_bytes 4 time ++ c) tl ->
   exists buf', packet_id_read buf true = Ret (buf', mknet id time, true) /\ holds buf' (hd + 8) c tl).
Proof.
  intros Hid Htm. split; intros Hb; unfold packet_id_read.
  - destruct (buf_read_app _ _ _ _ _ 4 Hb) as (b1 & -> & Hb1); [done|]. simpl.
    rewrite be_val_u32 by done. eauto.
  - destruct (buf_read_app _ _ _ _ _ 4 Hb) as (b1 & -> & Hb1); [done|]. simpl.
    destruct (buf_read_app _ _ _ _ _ 4 Hb1) as (b2 & -> & Hb2); [done|]. simpl.
    rewrite !be_val_u32 by done. exists b2. split; [done|].
    by replace (hd + 8) with (hd + 4 + 4) by lia.
Qed.

(** Round trip: a packet id prepended to a payload by [packet_id_write] is
    read back by [packet_id_read] with the number and the 32-bit time the
    sender used, and the payload follows it unchanged. *)
Theorem packet_id_roundtrip now p lf buf hd c tl p' :
  send_ok p -> u32_ok now -> holds buf hd c tl -> packet_id_size lf <= hd ->
  packet_id_send_update now p lf = (p', true) ->
  exists buf1 buf2, packet_id_write now p buf lf true = Ret (p', buf1, true) /\
    packet_id_read buf1 lf = Ret (buf2, wire_id p' lf, true) /\ holds buf2 hd c tl.
Proof.
  intros Hp Hn Hb Hroom Hupd.
  pose proof (packet_id_send_update_spec now p lf Hp Hn) as Hspec. rewrite Hupd in Hspec.
  destruct Hspec as ([Hid' Ht'] & _ & _). unfold packet_id_write, packet_id_size, wire_id in *.
  rewrite Hupd. unfold u32_ok in *. rewrite (u32_small (send_time p')) by lia.
  destruct lf; simpl.
  - destruct (buf_write_prepend_spec _ _ _ _ (be_bytes 4 (send_time p')) Hb) as (b1 & -> & Hb1);
      [apply be_bytes_is_byte|rewrite length_be_bytes; lia|]. simpl.
    destruct (buf_write_prepend_spec _ _ _ _ (be_bytes 4 (send_id p')) Hb1) as (b2 & -> & Hb2);
      [apply be_bytes_is_byte|rewrite !length_be_bytes; lia|]. simpl.
    rewrite !length_be_bytes in Hb2. apply packet_id_read_spec in Hb2 as (b3 & Hr & Hb3); [|done..].
    exists b2, b3. split_and!; [done|done|]. by replace hd with (hd - Z.of_nat 4 - Z.of_nat 4 + 8) by lia.
  - destruct (buf_write_prepend_spec _ _ _ _ (be_bytes 4 (send_id p')) Hb) as (b2 & -> & Hb2);
      [apply be_bytes_is_byte|rewrite length_be_bytes; lia|]. simpl.
    rewrite !length_be_bytes in Hb2. apply (packet_id_read_spec _ _ _ _ _ 0) in Hb2 as (b3 & Hr & Hb3); [|done..].
    exists b2, b3. split_and!; [done|done|]. by replace hd with (hd - Z.of_nat 4 + 4) by lia.
Qed.

Definition demo_buf : buffer := mkbuf 16 10 2 (Some (replicate 10 0 ++ [7; 9] ++ replicate 4 0)).

Lemma demo_buf_holds : holds demo_buf 10 [7; 9] 4.
Proof.
  apply holds_intro with (replicate 10 0 ++ [7; 9] ++ replicate 4 0); [|reflexivity..].
  split; simpl; try reflexivity; try (vm_compute; congruence).
  repeat constructor; vm_compute; congruence.
Qed.

Lemma packet_id_roundtrip_witness :
  exists p' buf1 buf2, packet_id_write 1000 (mksend 41 0) demo_buf true true = Ret (p', buf1, true) /\
    packet_id_read buf1 true = Ret (buf2, mknet 42 1000, true) /\ holds buf2 10 [7; 9] 4.
Proof.
  exists (mksend 42 1000).
  apply (packet_id_roundtrip 1000 (mksend 41 0) true demo_buf 10 [7; 9] 4 (mksend 42 1000)).
  - split; vm_compute; split; congruence.
  - vm_compute; split; congruence.
  - exact demo_buf_holds.
  - vm_compute. congruence.
  - reflexivity.
Defined.

(** ** Persistence across sessions *)

(** A receiver reloaded from the persistence record rejects, as its first
    packet, every id of the recorded series up to the recorded one. *)
Theorem persist_reload_rejects_recorded sb tb pid per lf now pin :
  0 < sb <= MAX_SEQ_BACKTRACK -> 0 <= tb <= MAX_TIME_BACKTRACK ->
  packet_id_init sb tb = Ret pid -> packet_id_persist_enabled per = true -> per_time per <> 0 ->
  u32_ok (per_id per) -> 0 <= net_id pin <= per_id per -> net_time pin = per_time per ->
  exists opt, crypto_check_replay now (mkopt (packet_id_persist_load_obj per pid) (Some per) lf) pin
                = Ret (opt, false).
Proof.
  intros Hsb Htb Hinit Hen Ht0 Hid Hpin Htime.
  unfold packet_id_init, MIN_SEQ_BACKTRACK, MIN_TIME_BACKTRACK in Hinit.
  unfold u32_ok in *.
  destruct (negb (sb =? 0)) eqn:E; [|lia]. rewrite !ASSERT_true in Hinit by lia.
  simpl in Hinit. simplify_eq. unfold packet_id_persist_load_obj. rewrite Hen.
  destruct (negb (per_time per =? 0)) eqn:E1; [|lia]. simpl.
  set (sl := CIRC_LIST_ALLOC _ _). set (p0 := rec_set_state _ _ _ _).
  assert (Hreap : exists p, packet_id_reap_test now p0 = Ret p /\
    rec_initialized p = true /\ rec_seq_backtrack p = sb /\
    rec_time p = per_time per /\ rec_id p = per_id per /\ rec_seq_list p = Some sl).
  { unfold packet_id_reap_test, packet_id_reap. simpl. case_match; [|eauto 10].
    case_match; eexists; split_and!; done. }
  destruct Hreap as (p & Hreap & Hp1 & Hp2 & Hp3 & Hp4 & Hp5).
  assert (Hcheck : exists p', packet_id_test p pin = Ret (p', false)).
  { unfold packet_id_test. rewrite Hp1. simpl. rewrite Hp2, E, Hp3, Hp4, Htime, Z.eqb_refl.
    destruct (net_id pin =? 0); [eauto|]. destruct (per_id per <? net_id pin) eqn:E2; [lia|].
    set (p1 := if _ <? _ then _ else _).
    assert (rec_seq_list p1 = Some sl) as -> by (subst p1; by case_match).
    change (u32 (CIRC_LIST_SIZE sl)) with 0. rewrite u32_small by lia.
    destruct (0 <=? _) eqn:E3; [eauto|lia]. }
  destruct Hcheck as [p' Hp']. unfold crypto_check_replay. simpl.
  rewrite Hreap. simpl. rewrite Hp'. simpl. eauto.
Qed.

Lemma persist_reload_rejects_recorded_witness :
  exists pid opt, packet_id_init 64 15 = Ret pid /\
    crypto_check_replay 200
      (mkopt (packet_id_persist_load_obj (mkpersist 3 7 100 7 100) pid) (Some (mkpersist 3 7 100 7 100)) true)
      (mknet 100 7) = Ret (opt, false).
Proof.
  exists (demo_pid 64 15).
  destruct (persist_reload_rejects_recorded 64 15 (demo_pid 64 15) (mkpersist 3 7 100 7 100) true 200 (mknet 100 7))
    as (opt & H); [vm_compute; split; congruence|vm_compute; split; congruence|reflexivity|reflexivity
    |vm_compute; congruence|vm_compute; split; congruence|vm_compute; split; congruence|reflexivity|].
  exists opt. split; [reflexivity|exact H].
Defined.

(** The protection of a reloaded receiver ends with the first packet it
    accepts: [packet_id_add] restarts the (empty) window below the new id, so
    ids of the recorded series that were accepted before the restart pass
    again.  Here the record says that 100 was seen; 100 is refused, 101 is
    accepted, and then 100 is accepted as well. *)
Theorem persist_reload_replay :
  let per := mkpersist 3 7 100 7 100 in
  packet_id_init 64 15 = Ret (demo_pid 64 15) /\
  let opt := mkopt (packet_id_persist_load_obj per (demo_pid 64 15)) (Some per) true in
  run_accepts opt [(200, mknet 100 7)] = Some [] /\
  run_accepts opt [(200, mknet 100 7); (200, mknet 101 7); (200, mknet 100 7)]
    = Some [mknet 100 7; mknet 101 7].
Proof. vm_compute. auto. Qed.

(** What is saved is what the next session loads: after a successful
    [packet_id_persist_save] of a pending change, loading the written image
    gives the same time and id, with nothing pending. *)
Theorem persist_save_load_roundtrip per per' im fd per0 :
  packet_id_persist_save true per = (per', Some im) ->
  packet_id_persist_enabled per0 = false -> fd <> -1 ->
  packet_id_persist_load fd true (Some im) per0 =
    Ret (mkpersist fd (per_time per) (per_id per) (per_time per) (per_id per)) /\
  packet_id_persist_save true per' = (per', None).
Proof.
  intros Hs Hd Hfd. unfold packet_id_persist_save, packet_id_persist_load in *. rewrite Hd.
  destruct (fd =? -1) eqn:E; [lia|]. case_match; simplify_eq. simpl. split; [done|].
  rewrite !Z.eqb_refl. simpl. by rewrite andb_false_r.
Qed.

Lemma persist_save_load_roundtrip_witness :
  exists per', packet_id_persist_save true (mkpersist 3 7 100 7 90) = (per', Some (mkimage 7 100)) /\
    packet_id_persist_load 5 true (Some (mkimage 7 100)) packet_id_persist_init
      = Ret (mkpersist 5 7 100 7 100).
Proof.
  eexists. split; [reflexivity|].
  apply (persist_save_load_roundtrip (mkpersist 3 7 100 7 90) (mkpersist 3 7 100 7 100)
           (mkimage 7 100) 5 packet_id_persist_init).
  - reflexivity.
  - reflexivity.
  - discriminate.
Defined.
