(* ===== verification/ReplayFilter.v ===== *)
(** * The replay filter: what the window decides

    The contract of the receiver of [PacketId] in terms of the whole history of
    accepted packet ids, in UDP mode with any window and any age limit, and in
    TCP mode, and the proof that [crypto_check_replay] implements it. *)

From S2P Require Import Prelude Buffer CircList PacketId.
From stdpp Require Import prelude.
From Stdlib Require Import ZArith Lia ZifyBool.

Local Open Scope Z_scope.

(** ** The filter

    [sp_window], [sp_age]: the options --replay-window, 0 for TCP mode and for no
    age limit.  [sp_log]: all accepted ids with the time of their arrival.
    [sp_time], [sp_id]: the newest.  [sp_floor]: an id of the current series that
    is not above it is too late. *)
Record replay_spec := mkspec {
  sp_window : Z;
  sp_age : Z;
  sp_reaped : Z;
  sp_time : Z;
  sp_id : Z;
  sp_floor : Z;
  sp_log : list (packet_id_net * Z)
}.
Implicit Types s : replay_spec.

Definition sp_seen s : list packet_id_net := fst <$> sp_log s.
Definition spec_init (window age : Z) : replay_spec := mkspec window (if window =? 0 then 0 else age) 0 0 0 0 [].

(** Every [SEQ_REAP_INTERVAL] seconds: what is not newer than an id that was
    accepted more than [sp_age] seconds ago has become too late. *)
Definition expires now s (e : packet_id_net * Z) : bool := (net_time e.1 =? sp_time s) && (e.2 + sp_age s <? now).
Definition floor_after now s : Z := foldr (fun e f => if expires now s e then Z.max (net_id e.1) f else f) (sp_floor s) (sp_log s).
Definition spec_reap now s : replay_spec :=
  if sp_reaped s + SEQ_REAP_INTERVAL <=? now then
    mkspec (sp_window s) (sp_age s) now (sp_time s) (sp_id s) (if sp_age s =? 0 then sp_floor s else floor_after now s) (sp_log s)
  else s.

(** UDP mode: an id is taken when it is newer than all others, or less than the
    window behind, not too late and not taken before.  TCP mode: the ids of a
    series follow each other, and a newer series starts with 1. *)
Definition spec_takes s (pin : packet_id_net) : bool :=
  negb (net_id pin =? 0) &&
  if sp_window s =? 0 then
    if net_time pin =? sp_time s then (sp_id s =? 0) || (net_id pin =? sp_id s + 1)
    else (sp_time s <? net_time pin) && (net_id pin =? 1)
  else
    (sp_time s <? net_time pin) ||
    ((net_time pin =? sp_time s) &&
     ((sp_id s <? net_id pin) ||
      ((sp_id s - net_id pin <? sp_window s) && (sp_floor s <? net_id pin) && bool_decide (pin ∉ sp_seen s)))).

Definition spec_accepts now s pin : bool := spec_takes (spec_reap now s) pin.

Definition spec_step now s pin : replay_spec :=
  let s := spec_reap now s in
  if spec_takes s pin then
    mkspec (sp_window s) (sp_age s) (sp_reaped s) (net_time pin)
      (if sp_time s <? net_time pin then net_id pin else Z.max (sp_id s) (net_id pin))
      (if sp_time s <? net_time pin then 0 else sp_floor s) ((pin, now) :: sp_log s)
  else s.

Definition spec_run s (arrivals : list (Z * packet_id_net)) : replay_spec := fold_left (fun s a => spec_step a.1 s a.2) arrivals s.

Lemma sp_seen_reap now s : sp_seen (spec_reap now s) = sp_seen s.
Proof. unfold spec_reap. by destruct (sp_reaped s + SEQ_REAP_INTERVAL <=? now). Qed.
Lemma sp_seen_step now s pin : sp_seen (spec_step now s pin) = if spec_accepts now s pin then pin :: sp_seen s else sp_seen s.
Proof.
  unfold spec_accepts, spec_step. rewrite <- (sp_seen_reap now s). by destruct (spec_takes (spec_reap now s) pin).
Qed.

(** ** What a slot of the window holds *)

Fixpoint log_time (pin : packet_id_net) (log : list (packet_id_net * Z)) : Z :=
  match log with [] => SEQ_UNSEEN | (q, t) :: log => if decide (q = pin) then t else log_time pin log end.
Definition slot_of s (n : Z) : Z := if n <=? sp_floor s then SEQ_EXPIRED else log_time (mknet n (sp_time s)) (sp_log s).

Lemma log_time_in q t log : NoDup (fst <$> log) -> (q, t) ∈ log -> log_time q log = t.
Proof.
  induction log as [|[q' t'] log IH]; simpl; [by intros _ ?%not_elem_of_nil|]. intros [Hn Hnd]%NoDup_cons [[= -> ->]|H]%elem_of_cons; [by rewrite decide_True|].
  rewrite decide_False; [by apply IH|]. intros ->. apply Hn. by apply (list_elem_of_fmap_2 fst) in H.
Qed.
Lemma log_time_not_in q log : q ∉ (fst <$> log) -> log_time q log = SEQ_UNSEEN.
Proof. induction log as [|[q' t'] log IH]; simpl; [done|]. intros [H1 H2]%not_elem_of_cons. rewrite decide_False by done. by apply IH. Qed.
Lemma log_time_found q log : log_time q log <> SEQ_UNSEEN -> (q, log_time q log) ∈ log.
Proof. induction log as [|[q' t'] log IH]; simpl; [done|]. case_decide; [subst; left|right; by apply IH]. Qed.

Lemma floor_after_spec now s n : n <= floor_after now s <-> n <= sp_floor s \/ exists e, e ∈ sp_log s /\ expires now s e = true /\ n <= net_id e.1.
Proof.
  unfold floor_after. induction (sp_log s) as [|e log IH]; simpl; [split; [by left|intros [?|(e & H & _)]; [done|by apply not_elem_of_nil in H]]|].
  destruct (expires now s e) eqn:E.
  - split.
    + intros H. destruct (decide (n <= net_id e.1)); [right; exists e; split; [left|done]|]. destruct IH as [IH _]. destruct IH as [?|(e' & ? & ?)]; [lia|by left|]. right. exists e'. split; [by right|done].
    + intros [H|(e' & [->|H1]%elem_of_cons & H2 & H3)]; [|lia|]; (transitivity (foldr (fun e f => if expires now s e then Z.max (net_id e.1) f else f) (sp_floor s) log); [apply IH|lia]); [by left|right; by exists e'].
  - rewrite IH. split; (intros [?|(e' & H1 & H2 & H3)]; [by left|right; exists e']).
    + split; [by right|done].
    + apply elem_of_cons in H1 as [->|?]; [congruence|done].
Qed.

(** ** The window stands for the filter *)

Record rec_sim (p : packet_id_rec) s : Prop := {
  rs_inv : rec_inv p (sp_seen s);
  rs_time : rec_time p = sp_time s;
  rs_id : rec_id p = sp_id s;
  rs_window : rec_seq_backtrack p = sp_window s;
  rs_age : rec_time_backtrack p = sp_age s;
  rs_reaped : rec_last_reap p = sp_reaped s;
  rs_floor : 0 <= sp_floor s <= sp_id s;
  rs_nodup : NoDup (sp_seen s);
  rs_times : Forall (fun e => 1 < e.2) (sp_log s);
  rs_slots : forall n v, slot_at p n v -> v = slot_of s n
}.
Definition replay_sim (opt : crypto_options) s : Prop := rec_sim (opt_rec opt) s.

Lemma init_sim sb tb : 0 <= sb <= MAX_SEQ_BACKTRACK -> 0 <= tb <= MAX_TIME_BACKTRACK ->
  exists pid, packet_id_init sb tb = Ret pid /\ rec_sim (pid_rec pid) (spec_init sb tb).
Proof.
  intros Hsb Htb. destruct (packet_id_init_inv sb tb Hsb Htb) as (pid & Hi & Hinv & _). exists pid. split; [done|]. revert Hi. unfold packet_id_init, spec_init.
  unfold MAX_SEQ_BACKTRACK, MAX_TIME_BACKTRACK in *. destruct (sb =? 0) eqn:E; cbn [negb].
  - intros [= <-]. split; simpl; try done; try lia; [by apply NoDup_nil|]. by intros n v (sl & ? & _).
  - rewrite !ASSERT_true by (unfold MIN_SEQ_BACKTRACK, MAX_SEQ_BACKTRACK, MIN_TIME_BACKTRACK, MAX_TIME_BACKTRACK; lia). cbn [mbind outcome_bind]. intros [= <-].
    split; simpl; try done; try lia; [by apply NoDup_nil|]. intros n v (sl & Hsl & Hn & Hv). simpl in *. injection Hsl as <-.
    destruct (CIRC_LIST_ALLOC_spec SEQ_UNSEEN sb) as [_ Hit]; [lia|]. by rewrite Hit in Hv.
Qed.

(** Every slot that [expire] reaches is expired, the others are left. *)
Lemma reap_items_lookup now tb l : (forall i j v, (i <= j)%nat -> l !! i = Some SEQ_EXPIRED -> l !! j = Some v -> v = SEQ_EXPIRED) ->
  forall e d v, l !! d = Some v ->
  exists v', reap_items now tb e l !! d = Some v' /\
    ((v = SEQ_EXPIRED \/ e = true \/ exists i t, (i <= d)%nat /\ l !! i = Some t /\ too_old now tb t = true) -> v' = SEQ_EXPIRED) /\
    (v <> SEQ_EXPIRED -> v' = v \/ v' = SEQ_EXPIRED /\ (e = true \/ exists i t, (i <= d)%nat /\ l !! i = Some t /\ too_old now tb t = true)).
Proof.
  induction l as [|t l IH]; intros Hl e d v Hd; [done|]. cbn [reap_items]. destruct (t =? SEQ_EXPIRED) eqn:Et.
  { exists v. split; [done|]. assert (v = SEQ_EXPIRED) as -> by (apply (Hl O d); [lia|simpl; f_equal; lia|done]). by auto. }
  destruct d as [|d]; simpl in Hd.
  - simplify_eq. simpl. eexists. split; [done|]. split.
    + intros [->|[->|(i & t & Hi & Ht & Ho)]]; [done|done|]. destruct i; [|lia]. simpl in Ht. simplify_eq. by rewrite Ho, orb_true_r.
    + intros _. destruct (e || too_old now tb v) eqn:Eo; [right|by left]. split; [done|]. apply orb_true_iff in Eo as [->|Ho]; [by left|right; exists O, v; split; [lia|done]].
  - destruct (IH) with (e := e || too_old now tb t) (d := d) (v := v) as (v' & Hv' & H1 & H2); [|done|].
    { intros i j w Hij Hi Hj. apply (Hl (S i) (S j)); [lia|done|done]. }
    exists v'. split; [done|]. split.
    + intros [->|[->|(i & w & Hi & Hw & Ho)]]; apply H1; [by left|by right; left|]. destruct i as [|i]; simpl in Hw; [simplify_eq; right; left; by rewrite Ho, orb_true_r|]. right; right. exists i, w. split; [lia|done].
    + intros Hn. destruct (H2 Hn) as [?|[? [Ho|(i & w & Hi & Hw & Ho)]]]; [by left|right|right]; (split; [done|]).
      * apply orb_true_iff in Ho as [?|Ho]; [by left|]. right. exists O, t. split; [lia|done].
      * right. exists (S i), w. split; [lia|done].
Qed.

Lemma slot_of_expired s n : Forall (fun e => 1 < e.2) (sp_log s) -> slot_of s n = SEQ_EXPIRED <-> n <= sp_floor s.
Proof.
  intros Ht. unfold slot_of. destruct (n <=? sp_floor s) eqn:E; [by split; intros; [lia|]|]. split; [|lia]. intros Hl. exfalso.
  assert (Hx : log_time (mknet n (sp_time s)) (sp_log s) <> SEQ_UNSEEN) by (by rewrite Hl). apply log_time_found in Hx. rewrite Hl in Hx. rewrite Forall_forall in Ht. specialize (Ht _ Hx). done.
Qed.

Lemma reap_sim now p s : rec_sim p s -> exists p', packet_id_reap_test now p = Ret p' /\ rec_sim p' (spec_reap now s).
Proof.
  intros [R1 R2 R3 R4 R5 R6 R7 R8 R9 R10]. destruct (packet_id_reap_test_inv now p _ R1) as (p' & Hrun & Hinv & Ht & Hi & Hb & Htb & Hx). exists p'. split; [done|].
  unfold spec_reap. rewrite <- R6. destruct (rec_last_reap p + SEQ_REAP_INTERVAL <=? now); [|by subst p'; split]. destruct Hx as [Hl Hx].
  assert (Hfl : 0 <= (if sp_age s =? 0 then sp_floor s else floor_after now s) <= sp_id s).
  { destruct (sp_age s =? 0); [done|]. split; [apply floor_after_spec; left; lia|]. destruct (floor_after_spec now s (floor_after now s)) as [[?|(e & H1 & H2 & H3)] _]; [lia|lia|].
    unfold expires in H2. apply andb_true_iff in H2 as [H2 _]. apply (list_elem_of_fmap_2 fst) in H1. destruct (ri_below _ _ R1 _ H1) as (_ & _ & Hle). lia. }
  split; simpl; try done; try congruence. intros n v (sl' & Hsl' & Hn & Hv). rewrite Hsl' in Hx. destruct (rec_seq_list p) as [sl|] eqn:Esl; [|done]. simpl in Hx. rewrite R5 in Hx. rewrite Hi in *.
  destruct (sp_age s =? 0) eqn:Ea; [apply R10; exists sl; split; [done|]; by rewrite <- Hx|].
  assert (Hall : forall i t, cl_items sl !! i = Some t -> t = slot_of s (rec_id p - Z.of_nat i)).
  { intros i t Hit. apply R10. exists sl. split; [done|]. split; [lia|]. rewrite <- Hit. f_equal. lia. }
  assert (Hd : exists v0, cl_items sl !! Z.to_nat (rec_id p - n) = Some v0).
  { apply lookup_lt_is_Some. rewrite <- (length_reap_items now (sp_age s) _ false), <- Hx. by eapply lookup_lt_Some. }
  destruct Hd as (v0 & Hd). pose proof (Hall _ _ Hd) as Hv0. replace (rec_id p - Z.of_nat (Z.to_nat (rec_id p - n))) with n in Hv0 by lia.
  destruct (reap_items_lookup now (sp_age s) (cl_items sl)) with (e := false) (d := Z.to_nat (rec_id p - n)) (v := v0) as (v' & Hv' & H1 & H2); [|done|].
  { intros i j w Hij Hei Hw. apply Hall in Hei. apply Hall in Hw. symmetry in Hei. rewrite slot_of_expired in Hei by done. rewrite Hw. apply slot_of_expired; [done|]. lia. }
  rewrite Hx, Hv' in Hv. injection Hv as <-.
  set (s' := mkspec _ _ _ _ _ _ _).
  assert (Hold : (exists i t, (i <= Z.to_nat (rec_id p - n))%nat /\ cl_items sl !! i = Some t /\ too_old now (sp_age s) t = true) -> n <= floor_after now s).
  { intros (i & t & Hi' & Hit & Ho). pose proof (Hall _ _ Hit) as Hts. apply floor_after_spec. unfold slot_of in Hts. destruct (_ <=? sp_floor s) eqn:Ef; [left; lia|]. right.
    unfold too_old in Ho. assert (log_time (mknet (rec_id p - Z.of_nat i) (sp_time s)) (sp_log s) <> SEQ_UNSEEN) as Hf%log_time_found by (unfold SEQ_UNSEEN; lia). rewrite <- Hts in Hf. eexists. split; [exact Hf|].
    split; [unfold expires; simpl; lia|simpl; lia]. }
  unfold slot_of, s'. simpl. destruct (n <=? floor_after now s) eqn:Ef.
  - apply H1. destruct (proj1 (floor_after_spec now s n)) as [?|([q t] & Hq & He & Hle)]; [lia| |].
    + left. rewrite Hv0. by apply slot_of_expired.
    + unfold expires in He. simpl in *. pose proof (list_elem_of_fmap_2 fst _ _ Hq) as Hs. destruct (ri_below _ _ R1 _ Hs) as (H0 & _ & Hle'). simpl in *.
      destruct (decide (v0 = SEQ_EXPIRED)) as [?|Hne]; [by left|]. right; right. exists (Z.to_nat (rec_id p - net_id q)).
      destruct (lookup_lt_is_Some_2 (cl_items sl) (Z.to_nat (rec_id p - net_id q))) as [w Hw]; [apply lookup_lt_Some in Hd; lia|]. exists w. split; [lia|]. split; [done|].
      apply Hall in Hw. replace (rec_id p - Z.of_nat (Z.to_nat (rec_id p - net_id q))) with (net_id q) in Hw by lia.
      assert (Hfl0 : sp_floor s < n) by (destruct (decide (n <= sp_floor s)) as [Hc|]; [|lia]; rewrite <- slot_of_expired in Hc by done; congruence).
      unfold slot_of in Hw. replace (net_id q <=? sp_floor s) with false in Hw by lia. replace (mknet (net_id q) (sp_time s)) with q in Hw by (destruct q; simpl in *; f_equal; lia). rewrite (log_time_in q t) in Hw by done. subst w.
      unfold too_old. rewrite Forall_forall in R9. specialize (R9 _ Hq). simpl in R9. lia.
  - assert (Hne : v0 <> SEQ_EXPIRED). { rewrite Hv0, slot_of_expired by done. intros Hc. apply Z.leb_gt in Ef. apply (Z.lt_irrefl n). eapply Z.le_lt_trans; [|exact Ef]. apply floor_after_spec. by left. }
    destruct (H2 Hne) as [->|[_ [?|Ho]]]; [|done|apply Hold in Ho; lia]. rewrite Hv0. unfold slot_of. destruct (n <=? sp_floor s) eqn:E; [|done]. exfalso. apply Hne. rewrite Hv0, slot_of_expired by done. lia.
Qed.

(** What the test looks at. *)
Lemma fresh_takes p s pin : rec_sim p s -> 0 < rec_seq_backtrack p -> u32_ok (net_id pin) -> PacketId.fresh p pin <-> spec_takes s pin = true.
Proof.
  intros [R1 R2 R3 R4 R5 R6 R7 R8 R9 R10] Hbt Hpin. unfold spec_takes, PacketId.fresh, u32_ok in *. rewrite <- R2, <- R3, <- R4. replace (rec_seq_backtrack p =? 0) with false by lia.
  destruct R1 as [Hin Hid Hnil Hbel Hmode]. destruct (rec_seq_list p) as [sl|] eqn:Esl; [|lia]. destruct Hmode as [Hwf _ Hcap Hsize Hmark].
  destruct (decide (net_id pin = 0)); [lia|]. destruct (decide (rec_time p < net_time pin)); [lia|].
  destruct (decide (net_time pin = rec_time p)) as [Ht|]; [|lia]. destruct (decide (rec_id p < net_id pin)); [lia|].
  destruct (decide (rec_id p - net_id pin < rec_seq_backtrack p)) as [Hd|Hd].
  2:{ split; [|lia]. intros [_ [?|(_ & [?|(sl' & ? & ? & _)])]]; simplify_eq; lia. }
  pose proof (length_cl_items _ Hwf) as Hlen. destruct (lookup_lt_is_Some_2 (cl_items sl) (Z.to_nat (rec_id p - net_id pin))) as [v Hv]; [lia|].
  assert (Hs : v = slot_of s (net_id pin)). { apply R10. exists sl. split; [done|]. split; [lia|done]. }
  assert (Hq : mknet (net_id pin) (sp_time s) = pin) by (destruct pin; simpl in *; f_equal; lia). unfold slot_of in Hs. rewrite Hq in Hs.
  destruct (decide (v = 0)) as [->|Hv0].
  - destruct (net_id pin <=? sp_floor s) eqn:Ef; [done|]. assert (Hns : pin ∉ sp_seen s).
    { intros ((q & t) & -> & He)%list_elem_of_fmap. rewrite (log_time_in _ t) in Hs by done. rewrite Forall_forall in R9. specialize (R9 _ He). simpl in R9. lia. }
    rewrite bool_decide_true by done. split; [lia|]. intros _. split; [done|]. right. split; [done|]. right. exists sl. split_and!; done || lia.
  - assert (Hno : net_id pin <= sp_floor s \/ pin ∈ sp_seen s).
    { destruct (net_id pin <=? sp_floor s) eqn:Ef; [left; lia|right]. rewrite Hs in Hv0. apply log_time_found in Hv0. by apply (list_elem_of_fmap_2 fst) in Hv0. }
    split; [intros [_ [?|(_ & [?|(sl' & ? & ? & ? & ?)])]]; simplify_eq; lia|]. destruct Hno as [?|Hno]; [lia|]. rewrite bool_decide_false by tauto. lia.
Qed.

Lemma slot_at_pos p H n v : rec_inv p H -> slot_at p n v -> 1 <= n.
Proof.
  intros [_ _ _ _ Hm] (sl & Hsl & Hn & Hv). rewrite Hsl in Hm. destruct Hm as [Hwf _ _ Hs _]. pose proof (length_cl_items _ Hwf). apply lookup_lt_Some in Hv. lia.
Qed.

Lemma replay_sim_step opt s now pin : replay_sim opt s -> arrival_ok (now, pin) ->
  exists opt', crypto_check_replay now opt pin = Ret (opt', spec_accepts now s pin) /\ replay_sim opt' (spec_step now s pin).
Proof.
  intros Hsim Ha. pose proof Ha as [Hnow Hpin]. simpl in Hnow, Hpin.
  destruct (crypto_check_replay_step opt _ now pin (rs_inv _ _ Hsim) Ha) as (opt' & b & Hrun & Hinv' & Hb' & Htb' & Htrue & Hfalse & p1 & Hreap & Hlr & Hudp & Htcp & Hsl).
  destruct (reap_sim now _ s Hsim) as (p1' & Hreap' & S1). rewrite Hreap in Hreap'. injection Hreap' as <-. unfold spec_accepts, spec_step.
  pose proof (sp_seen_reap now s) as Hseen.
  assert (Hsame : rec_time p1 = rec_time (opt_rec opt) /\ rec_id p1 = rec_id (opt_rec opt) /\ rec_seq_backtrack p1 = rec_seq_backtrack (opt_rec opt) /\ rec_time_backtrack p1 = rec_time_backtrack (opt_rec opt)).
  { destruct Hsim. rewrite (rs_time _ _ S1), (rs_id _ _ S1), (rs_window _ _ S1), (rs_age _ _ S1). unfold spec_reap. by destruct (sp_reaped s + SEQ_REAP_INTERVAL <=? now). }
  set (s1 := spec_reap now s) in *. clearbody s1. destruct Hsame as (Ht1 & Hi1 & Hw1 & Hg1).
  assert (Hdec : b = spec_takes s1 pin).
  { destruct (decide (rec_seq_backtrack p1 = 0)) as [Hz|Hz].
    - rewrite (Htcp Hz). unfold in_sequence, spec_takes. rewrite (rs_time _ _ S1), (rs_id _ _ S1), <- (rs_window _ _ S1), Hz. done.
    - assert (Hpos : 0 < rec_seq_backtrack p1).
      { pose proof (ri_mode _ _ (rs_inv _ _ S1)) as Hm. destruct (rec_seq_list p1); [destruct Hm|]; lia. }
      apply Bool.eq_true_iff_eq. rewrite (Hudp Hpos). by apply fresh_takes. }
  exists opt'. rewrite <- Hdec. split; [done|]. rewrite <- Hseen in *. destruct S1 as [R1 R2 R3 R4 R5 R6 R7 R8 R9 R10]. unfold replay_sim. destruct b.
  - destruct (Htrue eq_refl) as (Hnew & Ht & Hi). rewrite <- Ht1, <- Hi1, R2, R3 in Hi. assert (Hid : 1 <= net_id pin) by (apply (ri_below _ _ Hinv'); left).
    split; simpl; try done; try congruence; try lia.
    + destruct (sp_time s1 <? net_time pin); lia.
    + by apply NoDup_cons.
    + by apply Forall_cons.
    + assert (Hge : sp_time s1 <= net_time pin).
      { clear - Hdec. unfold spec_takes in Hdec. generalize dependent (bool_decide (pin ∉ sp_seen s1)). intros b Hb. destruct (sp_window s1 =? 0), (net_time pin =? sp_time s1) eqn:E; lia. }
      intros n v Hn. pose proof (Hsl n v Hn) as Hx. unfold slot_of. simpl. case_decide as En.
      * subst n v. rewrite decide_True by (by destruct pin). destruct (sp_time s1 <? net_time pin) eqn:El.
        -- replace (net_id pin <=? 0) with false by lia. done.
        -- destruct (net_id pin <=? sp_floor s1) eqn:Ef; [|done]. exfalso. destruct Hn as (sl' & Hsl' & _). pose proof (ri_mode _ _ Hinv') as Hm. rewrite Hsl' in Hm. apply wi_bt in Hm. unfold spec_takes in Hdec. replace (sp_window s1 =? 0) with false in Hdec by (clear - R4 Hb' Hw1 Hm; lia). generalize dependent (bool_decide (pin ∉ sp_seen s1)). intros b Hb. clear - Hb Ef El R7. destruct b; lia.
      * pose proof (slot_at_pos _ _ _ _ Hinv' Hn) as Hpos. destruct Hn as (sl' & _ & Hle & _). rewrite Hi in Hle. rewrite decide_False by (intros E; apply (f_equal net_id) in E; by apply En).
        destruct Hx as [[-> Hc]|[Heq Hat]].
        -- assert (Hni : mknet n (net_time pin) ∉ sp_seen s1).
           { intros Hm. destruct (ri_below _ _ R1 _ Hm) as (_ & H1 & H2). simpl in *. destruct (sp_time s1 <? net_time pin) eqn:El; lia. }
           rewrite log_time_not_in by done. destruct (sp_time s1 <? net_time pin) eqn:El; [by replace (n <=? 0) with false by lia|].
           by replace (n <=? sp_floor s1) with false by lia.
        -- replace (sp_time s1 <? net_time pin) with false by lia. rewrite Heq, R2. by apply R10.
  - destruct (Hfalse eq_refl) as [Ht Hi]. split; simpl; try done; try congruence. intros n v (sl & Hs & Hn & Hv). apply R10. exists sl. rewrite <- Hsl. split; [done|]. rewrite Hi1, <- Hi. done.
Qed.

Lemma replay_sim_run arrivals : forall opt s, replay_sim opt s -> Forall arrival_ok arrivals ->
  exists opt', replay_run opt arrivals (sp_seen s) = Ret (opt', sp_seen (spec_run s arrivals)) /\ replay_sim opt' (spec_run s arrivals).
Proof.
  induction arrivals as [|[now pin] rest IH]; intros opt s Hsim Hall; [by exists opt|]. apply Forall_cons in Hall as [Ha Hall].
  destruct (replay_sim_step opt s now pin Hsim Ha) as (opt1 & Hrun & Hsim1). cbn [replay_run]. rewrite Hrun. cbn [mbind outcome_bind].
  destruct (IH opt1 (spec_step now s pin)) as (opt' & Hrest & Hsim'); [done..|]. exists opt'. split; [|done]. change (spec_run s ((now, pin) :: rest)) with (spec_run (spec_step now s pin) rest). rewrite <- Hrest. f_equal.
  by rewrite sp_seen_step.
Qed.

(** C14. Refinement: for every window, every age limit and in TCP mode, a fresh
    receiver takes exactly the decisions of the filter that remembers the whole
    history, for every sequence of arrivals. *)
Theorem replay_window_refines_history sb tb per lf pid arrivals :
  0 <= sb <= MAX_SEQ_BACKTRACK -> 0 <= tb <= MAX_TIME_BACKTRACK -> packet_id_init sb tb = Ret pid -> Forall arrival_ok arrivals ->
  exists opt, replay_run (mkopt pid per lf) arrivals [] = Ret (opt, sp_seen (spec_run (spec_init sb tb) arrivals)).
Proof.
  intros Hsb Htb Hinit Hall. destruct (init_sim sb tb Hsb Htb) as (pid' & Hpid & Hsim). assert (pid' = pid) as -> by congruence.
  destruct (replay_sim_run arrivals (mkopt pid per lf) (spec_init sb tb) Hsim Hall) as (opt & Hrun & _). by exists opt.
Qed.

(** With the default age limit of 15 seconds: 7 is late, but 10 was accepted too
    long ago when it arrives. *)
Definition late_arrivals : list (Z * packet_id_net) := [(100, mknet 8 7); (100, mknet 10 7); (104, mknet 9 7); (130, mknet 7 7); (130, mknet 12 7); (131, mknet 11 7)].
Lemma replay_window_refines_history_witness :
  exists pid opt, packet_id_init 64 15 = Ret pid /\ replay_run (mkopt pid None true) late_arrivals [] = Ret (opt, sp_seen (spec_run (spec_init 64 15) late_arrivals)) /\
    sp_seen (spec_run (spec_init 64 15) late_arrivals) = [mknet 11 7; mknet 12 7; mknet 9 7; mknet 10 7; mknet 8 7].
Proof.
  exists (demo_pid 64 15). destruct (replay_window_refines_history 64 15 None true (demo_pid 64 15) late_arrivals) as (opt & H).
  - vm_compute. split; congruence.
  - vm_compute. split; congruence.
  - reflexivity.
  - repeat constructor; simpl; lia.
  - exists opt. split; [reflexivity|]. split; [exact H|reflexivity].
Defined.
