(* ===== verification/DataChannel.v ===== *)
(** * Data channel encryption and decryption (openvpn crypto.c)

    [openvpn_encrypt] and [openvpn_decrypt] with their AEAD and CBC/OFB/CFB
    (v1) variants, packet ids and replay protection included.  Ciphers and
    message digests belong to OpenSSL or mbed TLS: they are the operations of
    the classes [CipherOps] and [HmacOps], named after the functions of
    crypto_backend.h.  A context [K] holds a key; [cipher_ctx_reset] starts a
    [session] with an IV and discards the one before.  What the theorems
    rely on are the laws [cipher_sane] (sizes) and [cipher_pair] (decryption
    undoes encryption), which an instance discharges.

    [work] shares no memory with [buf]; on success [*buf] becomes the work
    buffer.  Logging is left out; a [goto err] sets the length to 0. *)

From S2P Require Import Prelude Buffer CircList PacketId.
From stdpp Require Import prelude.
From Stdlib Require Import ZArith Lia ZifyBool.

Local Open Scope Z_scope.

Definition OPENVPN_MAX_IV_LENGTH : Z := 16.
Definition OPENVPN_AEAD_TAG_LENGTH : Z := 16.
Definition OPENVPN_AEAD_MIN_IV_LEN : Z := 4 + 8.
Definition MAX_HMAC_KEY_LENGTH : Z := 64.

(** ** The crypto library *)

Inductive cipher_mode := MODE_CBC | MODE_OFB_CFB | MODE_AEAD | MODE_OTHER.
#[global] Instance cipher_mode_eq_dec : EqDecision cipher_mode.
Proof. solve_decision. Defined.

Class CipherOps (K : Type) := {
  session : Type;
  cipher_ctx_iv_length : K -> Z;
  cipher_ctx_block_size : K -> Z;
  cipher_ctx_mode : K -> cipher_mode;
  cipher_ctx_reset : K -> bytes -> option session;
  cipher_ctx_update_ad : session -> bytes -> option session;
  cipher_ctx_update : session -> bytes -> option (session * bytes);
  cipher_ctx_final : session -> option (session * bytes);
  cipher_ctx_get_tag : session -> Z -> option bytes;
  cipher_ctx_final_check_tag : session -> bytes -> option (session * bytes)
}.

(** [hmac_ctx_reset], [hmac_ctx_update] with one block and [hmac_ctx_final]. *)
Class HmacOps (M : Type) := {
  hmac_ctx_size : M -> Z;
  hmac_ctx_digest : M -> bytes -> bytes
}.

(** ** Data *)

Record key_ctx (K M : Type) := mkkey {
  kc_cipher : option K;
  kc_hmac : option M;
  kc_implicit_iv : bytes
}.
Arguments mkkey {K M}.
Arguments kc_cipher {K M}. Arguments kc_hmac {K M}. Arguments kc_implicit_iv {K M}.

(** struct crypto_options: the contexts and, in [co_replay], packet ids,
    persistence and the long form flag. *)
Record co (K M : Type) := mkco {
  co_encrypt : key_ctx K M;
  co_decrypt : key_ctx K M;
  co_replay : crypto_options;
  co_ignore_packet_id : bool      (** CO_IGNORE_PACKET_ID in flags *)
}.
Arguments mkco {K M}.
Arguments co_encrypt {K M}. Arguments co_decrypt {K M}. Arguments co_replay {K M}. Arguments co_ignore_packet_id {K M}.

(** ** Small helpers of the translation *)

(** [ASSERT(f(...))] for a call with a result. *)
Definition must {A} (o : option A) : outcome A := match o with Some a => Ret a | None => Abort end.

(** [buf_set_write(&b, data, size)] for an array [data]. *)
Definition buf_set_write (data : bytes) (size : Z) : outcome buffer :=
  ASSERT (buf_size_valid size);;
  Ret (mkbuf size 0 0 (Some (if 0 <? size then <[0%nat := 0]> data else data))).

(** [BEND(b)] *)
Definition buf_bend (b : buffer) : Z := boffset b + blen b.

(** The cipher's output written behind the content, and the length raised. *)
Definition put_out (work : buffer) (out : bytes) : outcome buffer :=
  work ← poke work (buf_bend work) out; ASSERT_ok (buf_inc_len work (zlen out)).

Section data_channel.
Context {K M : Type} `{!CipherOps K} `{!HmacOps M}.
Implicit Types opt : co K M.

Definition set_replay opt (r : crypto_options) : co K M :=
  mkco (co_encrypt opt) (co_decrypt opt) r (co_ignore_packet_id opt).
Definition set_pid_send opt (s : packet_id_send) : co K M :=
  let r := co_replay opt in
  set_replay opt (mkopt (mkpid s (pid_rec (opt_packet_id r))) (opt_pid_persist r) (opt_long_form r)).
Definition pid_of opt : packet_id := opt_packet_id (co_replay opt).
Definition packet_id_initialized (pid : packet_id) : bool := rec_initialized (pid_rec pid).

Definition cipher_ctx_mode_is (m : cipher_mode) (k : option K) : bool :=
  match k with Some k => bool_decide (cipher_ctx_mode k = m) | None => false end.

(** ** Encryption: the new [*buf] and the options *)

Definition crypt_fail (buf : buffer) opt : outcome (buffer * co K M) := Ret (set_len buf 0, opt).

Definition openvpn_encrypt_aead (now : Z) (buf work : buffer) opt : outcome (buffer * co K M) :=
  let ctx := co_encrypt opt in
  let mac_len := OPENVPN_AEAD_TAG_LENGTH in
  k ← must (kc_cipher ctx);
  ASSERT (packet_id_initialized (pid_of opt));;
  let iv_len := cipher_ctx_iv_length k in
  ASSERT ((OPENVPN_AEAD_MIN_IV_LEN <=? iv_len) && (iv_len <=? OPENVPN_MAX_IV_LENGTH));;
  ivb ← buf_set_write (replicate (Z.to_nat OPENVPN_MAX_IV_LENGTH) 0) iv_len;
  '(snd, ivb, ok) ← packet_id_write now (pid_send (pid_of opt)) ivb false false;
  let opt := set_pid_send opt snd in
  if negb ok then crypt_fail buf opt
  else
    r ← buf_write ivb (kc_implicit_iv ctx);
    ivb ← ASSERT_ok r;
    ASSERT (blen ivb =? iv_len);;
    iv ← peek ivb 0 iv_len;
    r ← buf_write work (take (Z.to_nat (iv_len - zlen (kc_implicit_iv ctx))) iv);
    work ← ASSERT_ok r;
    s ← must (cipher_ctx_reset k iv);
    match buf_write_alloc work mac_len with
    | (_, None) => Abort
    | (work, Some mac_out) =>
        if negb (buf_safe work (blen buf + cipher_ctx_block_size k)) then crypt_fail buf opt
        else
          ad ← peek work (boffset work) (buf_len work - mac_len);
          s ← must (cipher_ctx_update_ad s ad);
          d ← buf_bytes buf;
          '(s, out) ← must (cipher_ctx_update s d);
          work ← put_out work out;
          '(s, out) ← must (cipher_ctx_final s);
          work ← put_out work out;
          tag ← must (cipher_ctx_get_tag s mac_len);
          work ← poke work mac_out tag;
          Ret (work, opt)
    end.

(** The HMAC over [work] from [start] to its end, written to [mac_out]. *)
Definition hmac_sign (m : option M) (work : buffer) (start mac_out : Z) : outcome buffer :=
  match m with
  | None => Ret work
  | Some m => d ← peek work start (buf_bend work - start); poke work mac_out (hmac_ctx_digest m d)
  end.

(** The IV and the packet id: IV, buffer, options and whether an id was left.
    [rnd] is what [prng_bytes] delivers. *)
Definition encrypt_v1_iv (now : Z) (rnd : bytes) (k : K) (buf : buffer) opt : outcome (bytes * buffer * co K M * bool) :=
  let iv_size := cipher_ctx_iv_length k in
  match cipher_ctx_mode k with
  | MODE_CBC =>
      if packet_id_initialized (pid_of opt) then
        '(snd, buf, ok) ← packet_id_write now (pid_send (pid_of opt)) buf (opt_long_form (co_replay opt)) true;
        Ret (rnd, buf, set_pid_send opt snd, ok : bool)
      else Ret (rnd, buf, opt, true)
  | MODE_OFB_CFB =>
      ASSERT (packet_id_initialized (pid_of opt));;
      b ← buf_set_write (replicate (Z.to_nat OPENVPN_MAX_IV_LENGTH) 0) iv_size;
      '(snd, b, ok) ← packet_id_write now (pid_send (pid_of opt)) b true false;
      ASSERT ok;;
      iv ← peek b 0 iv_size;
      Ret (iv, buf, set_pid_send opt snd, true)
  | _ => Abort
  end.

(** From the IV on: [hmac_start] and [mac_out] are indices in [work]'s block. *)
Definition encrypt_v1_payload (k : K) (iv : bytes) (buf work : buffer) (hmac_start mac_out : Z) opt : outcome (buffer * co K M) :=
  r ← buf_write work iv;
  work ← ASSERT_ok r;
  s ← must (cipher_ctx_reset k iv);
  if negb (buf_safe work (blen buf + cipher_ctx_block_size k)) then crypt_fail buf opt
  else
    d ← buf_bytes buf;
    '(s, out) ← must (cipher_ctx_update s d);
    work ← put_out work out;
    '(s, out) ← must (cipher_ctx_final s);
    work ← put_out work out;
    ASSERT (negb (bool_decide (cipher_ctx_mode k = MODE_CBC)) || (zlen out =? cipher_ctx_iv_length k));;
    work ← hmac_sign (kc_hmac (co_encrypt opt)) work hmac_start mac_out;
    Ret (work, opt).

Definition encrypt_v1_cipher (now : Z) (rnd : bytes) (k : K) (buf work : buffer) opt : outcome (buffer * co K M) :=
  '(work, mac_out) ← match kc_hmac (co_encrypt opt) with
    | None => Ret (work, 0)
    | Some m => match buf_write_alloc work (hmac_ctx_size m) with
                | (_, None) => Abort
                | (work, Some p) => Ret (work, p)
                end
    end;
  let hmac_start := buf_bend work in
  '(iv, buf, opt, ok) ← encrypt_v1_iv now rnd k buf opt;
  if negb ok then crypt_fail buf opt
  else encrypt_v1_payload k iv buf work hmac_start mac_out opt.

Definition encrypt_v1_plain (now : Z) (buf work : buffer) opt : outcome (buffer * co K M) :=
  let ctx := co_encrypt opt in
  r ← (if packet_id_initialized (pid_of opt) then
         '(snd, buf, ok) ← packet_id_write now (pid_send (pid_of opt)) buf (opt_long_form (co_replay opt)) true;
         Ret (buf, set_pid_send opt snd, ok : bool)
       else Ret (buf, opt, true));
  let '(buf, opt, ok) := r in
  if negb ok then crypt_fail buf opt
  else
    let hmac_start := boffset buf in
    '(buf, mac_out) ← match kc_hmac ctx with
      | None => Ret (buf, 0)
      | Some m => match buf_prepend buf (hmac_ctx_size m) with
                  | (_, None) => Abort
                  | (buf, Some p) => Ret (buf, p)
                  end
      end;
    '(buf, _) ← (if buf_len work =? 0 then Ret (buf, true) else w ← buf_bytes work; buf_write_prepend buf w);
    work ← hmac_sign (kc_hmac ctx) buf hmac_start mac_out;
    Ret (work, opt).

Definition openvpn_encrypt_v1 (now : Z) (rnd : bytes) (buf work : buffer) (opt : option (co K M))
  : outcome (buffer * option (co K M)) :=
  match opt with
  | Some opt =>
      if 0 <? blen buf then
        '(b, opt) ← match kc_cipher (co_encrypt opt) with
                    | Some k => encrypt_v1_cipher now rnd k buf work opt
                    | None => encrypt_v1_plain now buf work opt
                    end;
        Ret (b, Some opt)
      else Ret (buf, Some opt)
  | None => Ret (buf, None)
  end.

Definition openvpn_encrypt (now : Z) (rnd : bytes) (buf work : buffer) (opt : option (co K M))
  : outcome (buffer * option (co K M)) :=
  match opt with
  | Some opt =>
      if 0 <? blen buf then
        if cipher_ctx_mode_is MODE_AEAD (kc_cipher (co_encrypt opt)) then
          '(b, opt) ← openvpn_encrypt_aead now buf work opt; Ret (b, Some opt)
        else openvpn_encrypt_v1 now rnd buf work (Some opt)
      else Ret (buf, Some opt)
  | None => Ret (buf, None)
  end.

(** ** Decryption: the new [*buf], the options and the result *)

Definition crypt_error (buf : buffer) opt : outcome (buffer * co K M * bool) := Ret (set_len buf 0, opt, false).

(** The replay check on the options. *)
Definition check_replay (now : Z) opt (pin : packet_id_net) : outcome (co K M * bool) :=
  '(r, ok) ← crypto_check_replay now (co_replay opt) pin; Ret (set_replay opt r, ok).

(** From the packet id on: the cipher session [s] was started with the IV. *)
Definition decrypt_aead_payload (now : Z) (k : K) (s : session) (buf work : buffer) opt (ad_start : Z)
  : outcome (buffer * co K M * bool) :=
  let tag_size := OPENVPN_AEAD_TAG_LENGTH in
  '(buf, pin, ok) ← packet_id_read buf false;
  if negb ok then crypt_error buf opt
  else if blen buf <? tag_size then crypt_error buf opt
  else
    let tag_ptr := boffset buf in
    buf ← ASSERT_ok (buf_advance buf tag_size);
    if blen buf <? 1 then crypt_error buf opt
    else if negb (buf_safe work (blen buf + cipher_ctx_block_size k)) then crypt_error buf opt
    else
      let ad_size := boffset buf - ad_start - tag_size in
      ad ← peek buf ad_start ad_size;
      s ← must (cipher_ctx_update_ad s ad);
      d ← buf_bytes buf;
      match cipher_ctx_update s d with
      | None => crypt_error buf opt
      | Some (s, out) =>
          work ← put_out work out;
          tag ← peek buf tag_ptr tag_size;
          match cipher_ctx_final_check_tag s tag with
          | None => crypt_error buf opt
          | Some (s, out) =>
              work ← put_out work out;
              '(opt, ok) ← check_replay now opt pin;
              if (ok : bool) then Ret (work, opt, true) else crypt_error buf opt
          end
      end.

(** [headroom] is [frame->buf.headroom], [ad_start] an index in [buf]'s block. *)
Definition openvpn_decrypt_aead (now headroom : Z) (buf work : buffer) opt (ad_start : Z)
  : outcome (buffer * co K M * bool) :=
  let ctx := co_decrypt opt in
  let impl := kc_implicit_iv ctx in
  ASSERT (0 <? blen buf);;
  k ← must (kc_cipher ctx);
  ASSERT ((0 <=? ad_start) && (ad_start <=? boffset buf));;
  work ← ASSERT_ok (buf_init work headroom);
  ASSERT (packet_id_initialized (pid_of opt));;
  let iv_len := cipher_ctx_iv_length k in
  ASSERT (zlen impl <=? iv_len);;
  if blen buf + zlen impl <? iv_len then crypt_error buf opt
  else
    ex ← peek buf (boffset buf) (iv_len - zlen impl);
    iv ← mem_write (replicate (Z.to_nat OPENVPN_MAX_IV_LENGTH) 0) 0 ex;
    iv ← mem_write iv (iv_len - zlen impl) impl;
    match cipher_ctx_reset k (take (Z.to_nat iv_len) iv) with
    | None => crypt_error buf opt
    | Some s => decrypt_aead_payload now k s buf work opt ad_start
    end.

(** Verification of the HMAC: [None] when it fails. *)
Definition hmac_verify (m : option M) (buf : buffer) : outcome (option buffer) :=
  match m with
  | None => Ret (Some buf)
  | Some m =>
      let hmac_len := hmac_ctx_size m in
      if blen buf <? hmac_len then Ret None
      else
        d ← peek buf (boffset buf + hmac_len) (buf_len buf - hmac_len);
        mac ← peek buf (boffset buf) hmac_len;
        local ← mem_write (replicate (Z.to_nat MAX_HMAC_KEY_LENGTH) 0) 0 (hmac_ctx_digest m d);
        if decide (take (Z.to_nat hmac_len) local = mac)
        then buf ← ASSERT_ok (buf_advance buf hmac_len); Ret (Some buf)
        else Ret None
  end.

(** Decryption with a cipher: what is left of [buf], and the plaintext with the
    packet id, if one is to be checked; [None] on an error. *)
Definition decrypt_v1_cipher (headroom : Z) (k : K) (buf work : buffer) opt
  : outcome (buffer * option (buffer * option packet_id_net)) :=
  let iv_size := cipher_ctx_iv_length k in
  work ← ASSERT_ok (buf_init work headroom);
  if blen buf <? iv_size then Ret (buf, None)
  else
    d ← peek buf (boffset buf) iv_size;
    ivb ← mem_write (replicate (Z.to_nat OPENVPN_MAX_IV_LENGTH) 0) 0 d;
    let iv := take (Z.to_nat iv_size) ivb in
    buf ← ASSERT_ok (buf_advance buf iv_size);
    if blen buf <? 1 then Ret (buf, None)
    else
      match cipher_ctx_reset k iv with
      | None => Ret (buf, None)
      | Some s =>
          if negb (buf_safe work (blen buf + cipher_ctx_block_size k)) then Ret (buf, None)
          else
            d ← buf_bytes buf;
            match cipher_ctx_update s d with
            | None => Ret (buf, None)
            | Some (s, out) =>
                work ← put_out work out;
                match cipher_ctx_final s with
                | None => Ret (buf, None)
                | Some (s, out) =>
                    work ← put_out work out;
                    match cipher_ctx_mode k with
                    | MODE_CBC =>
                        if packet_id_initialized (pid_of opt) then
                          '(work, pin, ok) ← packet_id_read work (opt_long_form (co_replay opt));
                          Ret (buf, if (ok : bool) then Some (work, Some pin) else None)
                        else Ret (buf, Some (work, None))
                    | MODE_OFB_CFB =>
                        ASSERT (packet_id_initialized (pid_of opt));;
                        b ← buf_set_read iv;
                        '(_, pin, ok) ← packet_id_read b true;
                        Ret (buf, if (ok : bool) then Some (work, Some pin) else None)
                    | _ => Abort
                    end
                end
            end
      end.

Definition decrypt_v1_plain (buf : buffer) opt : outcome (buffer * option (buffer * option packet_id_net)) :=
  if packet_id_initialized (pid_of opt) then
    '(work, pin, ok) ← packet_id_read buf (opt_long_form (co_replay opt));
    Ret (buf, if (ok : bool) then Some (work, if co_ignore_packet_id opt then None else Some pin) else None)
  else Ret (buf, Some (buf, None)).

Definition openvpn_decrypt_v1 (now headroom : Z) (buf work : buffer) opt : outcome (buffer * co K M * bool) :=
  if 0 <? blen buf then
    let ctx := co_decrypt opt in
    v ← hmac_verify (kc_hmac ctx) buf;
    match v with
    | None => crypt_error buf opt
    | Some buf =>
        '(buf, r) ← match kc_cipher ctx with
            | Some k => decrypt_v1_cipher headroom k buf work opt
            | None => decrypt_v1_plain buf opt
            end;
        match r with
        | None => crypt_error buf opt
        | Some (work, None) => Ret (work, opt, true)
        | Some (work, Some pin) =>
            '(opt, ok) ← check_replay now opt pin;
            if (ok : bool) then Ret (work, opt, true) else crypt_error buf opt
        end
    end
  else Ret (buf, opt, true).

Definition openvpn_decrypt (now headroom : Z) (buf work : buffer) (opt : option (co K M)) (ad_start : Z)
  : outcome (buffer * option (co K M) * bool) :=
  match opt with
  | Some opt =>
      if 0 <? blen buf then
        '(b, opt, ok) ← (if cipher_ctx_mode_is MODE_AEAD (kc_cipher (co_decrypt opt))
                         then openvpn_decrypt_aead now headroom buf work opt ad_start
                         else openvpn_decrypt_v1 now headroom buf work opt);
        Ret (b, Some opt, ok)
      else Ret (buf, Some opt, true)
  | None => Ret (buf, None, true)
  end.

(** ** Laws of the crypto library *)

(** What the sizes of a cipher are: outputs of one message exceed it by less
    than a block, and associated data is accepted after a reset. *)
Record cipher_sane (k : K) : Prop := {
  cs_iv : 0 <= cipher_ctx_iv_length k <= OPENVPN_MAX_IV_LENGTH;
  cs_block : 0 <= cipher_ctx_block_size k;
  cs_ad : forall iv s ad, cipher_ctx_reset k iv = Some s -> is_Some (cipher_ctx_update_ad s ad);
  cs_out : forall iv s0 s d s1 o1,
    cipher_ctx_reset k iv = Some s0 -> s = s0 \/ (exists ad, cipher_ctx_update_ad s0 ad = Some s) ->
    Forall is_byte d -> cipher_ctx_update s d = Some (s1, o1) ->
    Forall is_byte o1 /\ zlen o1 <= zlen d + cipher_ctx_block_size k /\
    (forall s2 o2, cipher_ctx_final s1 = Some (s2, o2) \/ (exists tag, cipher_ctx_final_check_tag s1 tag = Some (s2, o2)) ->
       Forall is_byte o2 /\ zlen o1 + zlen o2 <= zlen d + cipher_ctx_block_size k)
}.

(** ** Buffers with something in front of the content

    [behind b hd pre c tl]: [b] holds [c], and the bytes [pre] lie in front of
    it in the same block. *)

Definition behind (b : buffer) (hd : Z) (pre c : bytes) (tl : Z) : Prop :=
  boffset b = hd /\ blen b = zlen c /\
  holds (set_offset_len b (boffset b - zlen pre) (zlen pre + blen b)) (hd - zlen pre) (pre ++ c) tl.

Lemma behind_holds b hd pre c tl : behind b hd pre c tl -> holds b hd c tl.
Proof.
  intros (Ho & Hl & Hh). holds_facts Hh. destruct Hh as (blk & Hok & Ho2 & Hc & Ht).
  rewrite (buf_ok_content _ _ Hok) in Hc. destruct Hok as [Hd Hof Hle Hca Hbl Hm Hby]. simpl in *.
  eapply holds_intro with (blk := blk); [split; simpl; done || lia|done| |lia].
  rewrite Hl in Hc. rewrite slice_app_split in Hc by lia.
  apply app_inj_1 in Hc as [_ Hc]; [|apply Nat2Z.inj; rewrite zlen_slice; lia].
  rewrite Hl. by replace (boffset b) with (boffset b - zlen pre + zlen pre) by lia.
Qed.

Lemma behind_peek b hd pre c tl p n :
  behind b hd pre c tl -> 0 <= p -> 0 <= n -> p + n <= zlen pre + zlen c ->
  peek b (hd - zlen pre + p) n = Ret (slice (pre ++ c) p n).
Proof.
  intros (Ho & Hl & Hh) Hp Hn Hle. holds_facts Hh. destruct Hh as (blk & Hok & Ho2 & Hc & Ht).
  pose proof (peek_ok _ _ (hd - zlen pre + p) n Hok) as Hpk. rewrite length_app in *. simpl in *.
  unfold peek in *. simpl in Hpk. rewrite Hpk by lia. f_equal.
  rewrite <- Hc, (buf_ok_content _ _ Hok). simpl. rewrite slice_slice by lia. f_equal. lia.
Qed.

Lemma behind_peek_content b hd pre c tl p n :
  behind b hd pre c tl -> 0 <= p -> 0 <= n -> p + n <= zlen c ->
  peek b (boffset b + p) n = Ret (slice c p n).
Proof.
  intros Hb Hp Hn Hle. pose proof (behind_peek _ _ _ _ _ (zlen pre + p) n Hb) as H. destruct Hb as (Ho & _).
  replace (boffset b + p) with (hd - zlen pre + (zlen pre + p)) by lia. rewrite H by lia. f_equal.
  apply list_eq. intros i. rewrite !lookup_slice. case_decide; [|done].
  rewrite lookup_app_r by lia. f_equal. lia.
Qed.

Lemma behind_advance b hd pre c tl n :
  behind b hd pre c tl -> 0 <= n <= zlen c ->
  exists b', buf_advance b n = (b', true) /\ b' = set_offset_len b (boffset b + n) (blen b - n) /\
    behind b' (hd + n) (pre ++ take (Z.to_nat n) c) (drop (Z.to_nat n) c) tl.
Proof.
  intros Hb Hn. pose proof (behind_holds _ _ _ _ _ Hb) as Hh. holds_facts Hh. destruct Hb as (Ho & Hl & Hp).
  unfold buf_advance. rewrite Hval. destruct (_ || _) eqn:E; [lia|]. eexists. split; [done|]. split; [done|].
  split; simpl; [lia|]. split; [rewrite length_drop; lia|].
  rewrite length_app, length_take, <- app_assoc, take_drop.
  replace (hd + n - Z.of_nat (length pre + Z.to_nat n `min` length c)) with (hd - zlen pre) by lia.
  replace (boffset b + n - Z.of_nat (length pre + Z.to_nat n `min` length c)) with (boffset b - zlen pre) by lia.
  by replace (Z.of_nat (length pre + Z.to_nat n `min` length c) + (blen b - n)) with (zlen pre + blen b) by lia.
Qed.

Lemma put_out_spec work hd c tl out :
  holds work hd c tl -> Forall is_byte out -> zlen out <= tl ->
  exists work', put_out work out = Ret work' /\ holds work' hd (c ++ out) (tl - zlen out).
Proof.
  intros Hh Hb Hfit. pose proof Hh as Hh0. holds_facts Hh. destruct Hh as (blk & Hok & Ho & Hc & Ht).
  unfold put_out, buf_bend. pose proof Hok as [].
  destruct (poke_ok work blk (boffset work + blen work) out Hok) as [-> Hok']; [lia|lia|done|].
  cbn [mbind outcome_bind]. unfold buf_inc_len, buf_safe_bidir.
  assert (Hv : buf_valid (set_data work (splice blk (boffset work + blen work) out)) = true) by (unfold buf_valid; simpl; lia).
  rewrite Hv. unfold buf_size_valid_signed. cbn [boffset blen bcapacity set_data].
  destruct (true && _) eqn:E; [|unfold BUF_SIZE_MAX in *; lia]. cbv zeta.
  destruct (negb _) eqn:E2; [lia|]. unfold ASSERT_ok. cbn [fst snd ASSERT mbind outcome_bind].
  eexists. split; [done|]. eapply holds_intro with (blk := splice blk (boffset work + blen work) out); simpl.
  - split; simpl; try done; try lia; [rewrite length_splice; lia|by apply Forall_splice].
  - done.
  - rewrite slice_app_split by lia. f_equal.
    + rewrite slice_splice_before by lia. by rewrite <- (buf_ok_content _ _ Hok).
    + apply slice_splice_same; lia.
  - lia.
Qed.

(** ** What decryption computes: AEAD

    The packet behind the header [pre] is packet id, tag and ciphertext; [room]
    is the space for the plaintext. *)

Definition fits (room n : Z) : bool := (n <? BUF_SIZE_MAX) && (n <=? room).

Definition aead_payload (k : K) (s : session) (pre pkt : bytes) (room : Z) : option (bytes * option packet_id_net) :=
  if zlen pkt <? 4 + 16 + 1 then None
  else
    let ct := drop 20 pkt in
    if fits room (zlen ct + cipher_ctx_block_size k) then
      s ← cipher_ctx_update_ad s (pre ++ take 4 pkt);
      '(s, o1) ← cipher_ctx_update s ct;
      '(_, o2) ← cipher_ctx_final_check_tag s (take 16 (drop 4 pkt));
      Some (o1 ++ o2, Some (mknet (be_val (take 4 pkt)) 0))
    else None.

Definition aead_open (k : K) (impl pre pkt : bytes) (room : Z) : option (bytes * option packet_id_net) :=
  let n := cipher_ctx_iv_length k - zlen impl in
  if zlen pkt <? n then None
  else
    s ← cipher_ctx_reset k (take (Z.to_nat n) pkt ++ impl);
    aead_payload k s pre pkt room.

Lemma buf_safe_holds b hd c tl n : holds b hd c tl -> 0 <= n -> buf_safe b n = fits tl n.
Proof. intros H Hn. holds_facts H. unfold buf_safe, fits, buf_size_valid. rewrite Hval. lia. Qed.

Lemma packet_id_read_short buf hd pre c tl :
  behind buf hd pre c tl ->
  (zlen c < 4 -> packet_id_read buf false = Ret (buf, mknet 0 0, false)) /\
  (4 <= zlen c -> exists buf', packet_id_read buf false = Ret (buf', mknet (be_val (take 4 c)) 0, true) /\
     behind buf' (hd + 4) (pre ++ take 4 c) (drop 4 c) tl).
Proof.
  intros Hb. pose proof (behind_holds _ _ _ _ _ Hb) as Hh. unfold packet_id_read. split; intros Hl.
  - rewrite (buf_read_short _ _ _ _ 4 Hh) by lia. done.
  - destruct (behind_advance _ _ _ _ _ 4 Hb ltac:(lia)) as (b1 & _ & Hb1 & Hb1').
    destruct (buf_read_spec _ _ _ _ 4 Hh ltac:(lia)) as (b2 & Hr & _). rewrite Hr. cbn [mbind outcome_bind].
    exists b2. split; [done|]. assert (b2 = b1) as ->; [|exact Hb1'].
    unfold buf_read, buf_read_alloc in Hr. destruct (_ || _); [done|]. subst b1.
    destruct (buf_bptr buf); [|done]. apply bind_Ret_inv in Hr as (d & _ & Hr). by simplify_eq.
Qed.

(** An error leaves an empty buffer. *)
Definition failed (r : outcome (buffer * co K M * bool)) opt : Prop :=
  exists b, r = Ret (b, opt, false) /\ blen b = 0 /\ buf_wf b.

Lemma crypt_error_failed buf opt hd pre c tl : behind buf hd pre c tl -> failed (crypt_error buf opt) opt.
Proof.
  intros Hb. pose proof (behind_holds _ _ _ _ _ Hb) as (blk & Hok & _). eexists. split; [done|]. split; [done|].
  left. exists blk. destruct Hok. split; simpl; done || lia.
Qed.

Lemma iv_array (ex impl : bytes) n :
  n = zlen ex + zlen impl -> n <= OPENVPN_MAX_IV_LENGTH ->
  exists iv1 iv2, mem_write (replicate (Z.to_nat OPENVPN_MAX_IV_LENGTH) 0) 0 ex = Ret iv1 /\
    mem_write iv1 (n - zlen impl) impl = Ret iv2 /\ take (Z.to_nat n) iv2 = ex ++ impl.
Proof.
  intros -> Hn. unfold OPENVPN_MAX_IV_LENGTH in *.
  set (z := replicate _ 0). assert (Hz : zlen z = 16) by (subst z; rewrite length_replicate; lia).
  rewrite mem_write_Ret by lia. eexists _, _. split; [done|].
  replace (zlen ex + zlen impl - zlen impl) with (zlen ex) by lia.
  rewrite mem_write_Ret by (rewrite ?length_splice; lia). split; [done|].
  pose proof (splice_splice_adj z 0 ex impl ltac:(lia) ltac:(lia)) as Ha. rewrite Z.add_0_l in Ha. rewrite Ha.
  replace (take (Z.to_nat (zlen ex + zlen impl)) _) with (slice (splice z 0 (ex ++ impl)) 0 (zlen ex + zlen impl)) by done.
  apply slice_splice_same; rewrite ?length_app; lia.
Qed.

(** What is known of the options when a packet is decrypted. *)
Record dec_ready opt (H : list packet_id_net) : Prop := {
  dr_rec : rec_inv (opt_rec (co_replay opt)) H;
  dr_cipher : match kc_cipher (co_decrypt opt) with
              | Some k => cipher_sane k /\ zlen (kc_implicit_iv (co_decrypt opt)) <= cipher_ctx_iv_length k /\
                          cipher_ctx_mode k <> MODE_OTHER
              | None => True
              end;
  dr_impl : Forall is_byte (kc_implicit_iv (co_decrypt opt));
  dr_hmac : match kc_hmac (co_decrypt opt) with
            | Some m => 0 <= hmac_ctx_size m <= MAX_HMAC_KEY_LENGTH /\
                        forall d, zlen (hmac_ctx_digest m d) = hmac_ctx_size m
            | None => True
            end
}.

Lemma dec_ready_pid opt H : dec_ready opt H -> packet_id_initialized (pid_of opt) = true.
Proof. intros [Hr _ _ _]. apply Hr. Qed.

Lemma work_init work blk headroom :
  buf_ok work blk -> 0 <= headroom <= bcapacity work ->
  exists w, ASSERT_ok (buf_init work headroom) = Ret w /\ holds w headroom [] (bcapacity work - headroom).
Proof.
  intros Hok Hh. assert (Hw : holds work (boffset work) (content work) (bcapacity work - boffset work - blen work)) by by exists blk.
  pose proof (zlen_content _ _ Hok). destruct (buf_init_spec _ _ _ _ headroom Hw) as (w & -> & Hw'); [lia|].
  exists w. split; [done|]. eapply holds_eq; [done|done|done|lia].
Qed.

(** What a call of a decryption routine returns, given the plaintext and packet
    id its computation yields; without a packet id there is no replay check. *)
Definition decrypts (now : Z) opt (res : option (bytes * option packet_id_net))
  (r : outcome (buffer * co K M * bool)) : Prop :=
  match res with
  | None => failed r opt
  | Some (pt, None) => exists w hd tl, r = Ret (w, opt, true) /\ holds w hd pt tl
  | Some (pt, Some pin) =>
      forall opt' ok, check_replay now opt pin = Ret (opt', ok) ->
      if (ok : bool) then exists w hd tl, r = Ret (w, opt', true) /\ holds w hd pt tl else failed r opt'
  end.

Lemma decrypt_aead_payload_spec now headroom k iv s buf w room opt hd pre pkt tl :
  cipher_sane k -> cipher_ctx_reset k iv = Some s -> behind buf hd pre pkt tl -> holds w headroom [] room ->
  decrypts now opt (aead_payload k s pre pkt room)
    (decrypt_aead_payload now k s buf w opt (hd - zlen pre)).
Proof.
  intros Hsane Hreset Hb Hw. unfold aead_payload, decrypt_aead_payload.
  destruct (packet_id_read_short _ _ _ _ _ Hb) as [Hshort Hlong].
  destruct (decide (zlen pkt < 4)) as [Hl4|Hl4].
  { rewrite (Hshort Hl4). destruct (_ <? _) eqn:E; [by eapply crypt_error_failed|lia]. }
  destruct (Hlong ltac:(lia)) as (b1 & -> & Hb1). cbn [mbind outcome_bind negb]. clear Hshort Hlong.
  unfold OPENVPN_AEAD_TAG_LENGTH. destruct (blen b1 <? 16) eqn:E16.
  { pose proof Hb1 as (_ & Hl & _). rewrite length_drop in Hl.
    destruct (zlen pkt <? 4 + 16 + 1) eqn:E; [by eapply crypt_error_failed|lia]. }
  pose proof Hb1 as (Ho1 & Hl1 & _). rewrite length_drop in Hl1.
  destruct (behind_advance _ _ _ _ _ 16 Hb1) as (b2 & -> & _ & Hb2); [rewrite length_drop; lia|].
  change (Z.to_nat 16) with 16%nat in Hb2. rewrite drop_drop in Hb2. change (4 + 16)%nat with 20%nat in Hb2.
  unfold ASSERT_ok. cbn [fst snd ASSERT mbind outcome_bind]. pose proof Hb2 as (Ho2 & Hl2 & _).
  rewrite length_drop in Hl2. destruct (zlen pkt <? 4 + 16 + 1) eqn:E21.
  { destruct (blen b2 <? 1) eqn:E; [by eapply crypt_error_failed|lia]. }
  destruct (blen b2 <? 1) eqn:E1; [lia|]. pose proof (cs_block _ Hsane) as Hblk.
  rewrite (buf_safe_holds _ _ _ _ _ Hw), length_drop, Hl2 by lia.
  destruct (fits room _) eqn:Efit; cbn [negb]; [|by eapply crypt_error_failed].
  replace (boffset b2 - (hd - zlen pre) - 16) with (zlen (pre ++ take 4 pkt)) by (rewrite length_app, length_take; lia).
  pose proof (behind_peek _ _ _ _ _ 0 (zlen (pre ++ take 4 pkt)) Hb2) as Hpk. rewrite !length_app, !length_take in Hpk.
  replace (hd - zlen pre) with (hd + 4 + 16 - Z.of_nat (length pre + 4 `min` length pkt + 16 `min` length (drop 4 pkt)) + 0)
    by (rewrite length_drop; lia).
  rewrite length_app, length_take, Hpk by lia. clear Hpk. cbn [mbind outcome_bind].
  rewrite <- (length_take pkt 4), <- length_app, <- !app_assoc, app_assoc, slice_app_l by done.
  destruct (cs_ad _ Hsane _ _ (pre ++ take 4 pkt) Hreset) as (s1 & Hs1). rewrite Hs1. cbn [must mbind option_bind outcome_bind].
  rewrite (buf_bytes_spec _ _ _ _ (behind_holds _ _ _ _ _ Hb2)). cbn [mbind outcome_bind].
  assert (Hct : Forall is_byte (drop 20 pkt)) by (by eapply holds_bytes, behind_holds).
  destruct (cipher_ctx_update s1 (drop 20 pkt)) as [[s2 o1]|] eqn:Eu; cbn [mbind option_bind]; [|by eapply crypt_error_failed].
  destruct (cs_out _ Hsane iv s s1 _ s2 o1 Hreset ltac:(eauto) Hct Eu) as (Ho1b & Ho1l & Hfin).
  rewrite length_drop in *. unfold fits in Efit.
  destruct (put_out_spec _ _ _ _ o1 Hw Ho1b ltac:(lia)) as (w1 & -> & Hw1). cbn [mbind outcome_bind app] in *.
  pose proof (behind_peek _ _ _ _ _ (zlen pre + 4) 16 Hb2) as Hpk. rewrite !length_app, !length_take, !length_drop in Hpk.
  replace (boffset b1) with (hd + 4 + 16 - Z.of_nat (length pre + 4 `min` length pkt + 16 `min` (length pkt - 4)) + (zlen pre + 4)) by lia.
  rewrite Hpk by lia. clear Hpk. cbn [mbind outcome_bind].
  replace (slice (_ ++ drop 20 pkt) (zlen pre + 4) 16) with (take 16 (drop 4 pkt)).
  2:{ apply list_eq. intros i. rewrite lookup_slice. change (Z.to_nat 16) with 16%nat. case_decide.
      - rewrite lookup_take_lt by done. rewrite <- !app_assoc. rewrite lookup_app_r by lia.
        rewrite lookup_app_r by (rewrite length_take; lia). rewrite length_take.
        rewrite lookup_app_l by (rewrite length_take, length_drop; lia). rewrite lookup_take_lt by lia. f_equal. lia.
      - apply lookup_take_ge. lia. }
  destruct (cipher_ctx_final_check_tag s2 _) as [[s3 o2]|] eqn:Ef; cbn [mbind option_bind]; [|by eapply crypt_error_failed].
  destruct (Hfin s3 o2 ltac:(eauto)) as [Ho2b Ho2l].
  destruct (put_out_spec _ _ _ _ o2 Hw1 Ho2b ltac:(lia)) as (w2 & -> & Hw2). cbn [mbind outcome_bind].
  intros opt' ok Hchk. rewrite Hchk. cbn [mbind outcome_bind]. destruct ok; [by eexists _, _, _|by eapply crypt_error_failed].
Qed.

(** The AEAD routine is [aead_open] followed by the replay check. *)
Lemma decrypt_aead_spec now headroom buf work wblk opt H k hd pre pkt tl :
  dec_ready opt H -> kc_cipher (co_decrypt opt) = Some k ->
  behind buf hd pre pkt tl -> pkt <> [] -> buf_ok work wblk -> 0 <= headroom <= bcapacity work ->
  decrypts now opt (aead_open k (kc_implicit_iv (co_decrypt opt)) pre pkt (bcapacity work - headroom))
    (openvpn_decrypt_aead now headroom buf work opt (hd - zlen pre)).
Proof.
  intros Hready Hk Hb Hne Hwok Hhead. pose proof (dr_cipher _ _ Hready) as Hc. rewrite Hk in Hc.
  destruct Hc as (Hsane & Himpl & _). set (impl := kc_implicit_iv (co_decrypt opt)) in *.
  pose proof (behind_holds _ _ _ _ _ Hb) as Hh. holds_facts Hh. pose proof Hb as (_ & _ & Hh1).
  destruct (holds_bounds _ _ _ _ Hh1) as (Hpre & _).
  assert (Hpk : 0 < zlen pkt) by (destruct pkt; [done|cbn [length]; lia]).
  destruct (work_init _ _ _ Hwok Hhead) as (w & Hwi & Hw). pose proof (cs_iv _ Hsane) as Hiv.
  unfold openvpn_decrypt_aead. rewrite Hk, Hwi, (dec_ready_pid _ _ Hready). fold impl.
  rewrite (ASSERT_true (0 <? blen buf)), (ASSERT_true ((0 <=? hd - zlen pre) && (hd - zlen pre <=? boffset buf))) by lia.
  cbn [must mbind outcome_bind]. rewrite (ASSERT_true (zlen impl <=? _)) by lia. cbn [ASSERT mbind outcome_bind].
  unfold aead_open. set (n := cipher_ctx_iv_length k - zlen impl).
  replace (blen buf + zlen impl <? cipher_ctx_iv_length k) with (zlen pkt <? n) by lia.
  destruct (zlen pkt <? n) eqn:E1; [by eapply crypt_error_failed|].
  pose proof (behind_peek_content _ _ _ _ _ 0 n Hb) as Hpeek. rewrite Z.add_0_r in Hpeek. rewrite Hpeek by lia.
  cbn [mbind outcome_bind]. change (slice pkt 0 n) with (take (Z.to_nat n) pkt).
  destruct (iv_array (take (Z.to_nat n) pkt) impl (cipher_ctx_iv_length k)) as (iv1 & iv2 & -> & Hiv2 & Htake);
    [rewrite length_take; lia|lia|]. cbn [mbind outcome_bind]. unfold n. rewrite Hiv2. cbn [mbind outcome_bind]. rewrite Htake. fold n.
  destruct (cipher_ctx_reset k _) as [s|] eqn:Ereset; cbn [mbind option_bind]; [|by eapply crypt_error_failed].
  by eapply decrypt_aead_payload_spec.
Qed.

(** ** What decryption computes: CBC, OFB, CFB or no cipher *)

Definition v1_auth (m : option M) (pkt : bytes) : option bytes :=
  match m with
  | None => Some pkt
  | Some m =>
      let n := Z.to_nat (hmac_ctx_size m) in
      if zlen pkt <? hmac_ctx_size m then None
      else if decide (hmac_ctx_digest m (drop n pkt) = take n pkt) then Some (drop n pkt) else None
  end.

(** The packet id at the start of [pt]. *)
Definition take_pin (long_form : bool) (pt : bytes) : option (bytes * packet_id_net) :=
  if long_form then
    if zlen pt <? 8 then None
    else Some (drop 8 pt, mknet (be_val (take 4 pt)) (be_val (take 4 (drop 4 pt))))
  else if zlen pt <? 4 then None else Some (drop 4 pt, mknet (be_val (take 4 pt)) 0).

Definition v1_decipher (k : K) (long_form : bool) (pkt : bytes) (room : Z) : option (bytes * option packet_id_net) :=
  let n := Z.to_nat (cipher_ctx_iv_length k) in
  let ct := drop n pkt in
  if zlen pkt <? cipher_ctx_iv_length k + 1 then None
  else
    s ← cipher_ctx_reset k (take n pkt);
    if fits room (zlen ct + cipher_ctx_block_size k) then
      '(s, o1) ← cipher_ctx_update s ct;
      '(_, o2) ← cipher_ctx_final s;
      match cipher_ctx_mode k with
      | MODE_CBC => '(pt, pin) ← take_pin long_form (o1 ++ o2); Some (pt, Some pin)
      | _ => '(_, pin) ← take_pin true (take n pkt); Some (o1 ++ o2, Some pin)
      end
    else None.

Definition v1_open opt (pkt : bytes) (room : Z) : option (bytes * option packet_id_net) :=
  let ctx := co_decrypt opt in
  let lf := opt_long_form (co_replay opt) in
  rest ← v1_auth (kc_hmac ctx) pkt;
  match kc_cipher ctx with
  | Some k => v1_decipher k lf rest room
  | None => '(pt, pin) ← take_pin lf rest; Some (pt, if co_ignore_packet_id opt then None else Some pin)
  end.

Lemma hmac_verify_spec opt H buf hd pre pkt tl :
  dec_ready opt H -> behind buf hd pre pkt tl ->
  match v1_auth (kc_hmac (co_decrypt opt)) pkt with
  | None => hmac_verify (kc_hmac (co_decrypt opt)) buf = Ret None
  | Some rest => exists buf' hd' pre', hmac_verify (kc_hmac (co_decrypt opt)) buf = Ret (Some buf') /\ behind buf' hd' pre' rest tl
  end.
Proof.
  intros [_ _ _ Hm] Hb. unfold v1_auth, hmac_verify. destruct (kc_hmac (co_decrypt opt)) as [m|]; [|by eexists _, _, _].
  destruct Hm as [Hsz Hdig]. pose proof (behind_holds _ _ _ _ _ Hb) as Hh. pose proof (buf_len_holds _ _ _ _ Hh) as [Hbl Hl].
  rewrite Hl. destruct (zlen pkt <? hmac_ctx_size m) eqn:E; [done|].
  rewrite Hbl, (behind_peek_content _ _ _ _ _ (hmac_ctx_size m) (zlen pkt - hmac_ctx_size m) Hb) by lia. cbn [mbind outcome_bind].
  pose proof (behind_peek_content _ _ _ _ _ 0 (hmac_ctx_size m) Hb) as Hp. rewrite Z.add_0_r in Hp. rewrite Hp by lia.
  cbn [mbind outcome_bind]. change (slice pkt 0 (hmac_ctx_size m)) with (take (Z.to_nat (hmac_ctx_size m)) pkt).
  replace (slice pkt (hmac_ctx_size m) (zlen pkt - hmac_ctx_size m)) with (drop (Z.to_nat (hmac_ctx_size m)) pkt)
    by (unfold slice; rewrite take_ge; [done|rewrite length_drop; lia]).
  set (dg := hmac_ctx_digest m _). assert (Hdg : zlen dg = hmac_ctx_size m) by apply Hdig. unfold MAX_HMAC_KEY_LENGTH in *.
  rewrite mem_write_Ret by (rewrite ?length_replicate; lia). cbn [mbind outcome_bind].
  replace (take (Z.to_nat (hmac_ctx_size m)) (splice _ 0 dg)) with dg.
  2:{ symmetry. apply (slice_splice_same (replicate (Z.to_nat 64) 0) 0 dg); rewrite ?length_replicate; lia. }
  destruct (decide (dg = _)); [|done].
  destruct (behind_advance buf hd pre pkt tl (hmac_ctx_size m) Hb) as (b' & -> & _ & Hb'); [lia|].
  unfold ASSERT_ok. cbn [fst snd ASSERT mbind outcome_bind]. eexists _, _, _. done.
Qed.

Lemma take_pin_spec buf hd c tl lf :
  holds buf hd c tl ->
  match take_pin lf c with
  | None => exists b pin, packet_id_read buf lf = Ret (b, pin, false)
  | Some (rest, pin) => exists b hd', packet_id_read buf lf = Ret (b, pin, true) /\ holds b hd' rest tl
  end.
Proof.
  intros Hh. unfold take_pin, packet_id_read. destruct (decide (zlen c < 4)) as [H4|H4].
  { rewrite (buf_read_short _ _ _ _ 4 Hh) by lia. cbn [mbind outcome_bind].
    destruct lf; destruct (_ <? _) eqn:E; try lia; by eexists _, _. }
  destruct (buf_read_spec _ _ _ _ 4 Hh ltac:(lia)) as (b1 & -> & Hb1). change (Z.to_nat 4) with 4%nat in *. cbn [mbind outcome_bind].
  destruct lf; [|destruct (zlen c <? 4) eqn:E; [lia|by eexists _, _]].
  destruct (zlen c <? 8) eqn:E.
  - rewrite (buf_read_short _ _ _ _ 4 Hb1) by (rewrite length_drop; lia). by eexists _, _.
  - destruct (buf_read_spec _ _ _ _ 4 Hb1) as (b2 & -> & Hb2); [rewrite length_drop; lia|]. cbn [mbind outcome_bind].
    rewrite drop_drop in Hb2. by eexists _, _.
Qed.

Lemma decrypt_v1_cipher_spec opt H headroom k buf work wblk hd pre pkt tl :
  dec_ready opt H -> kc_cipher (co_decrypt opt) = Some k -> cipher_ctx_mode k <> MODE_AEAD ->
  behind buf hd pre pkt tl -> buf_ok work wblk -> 0 <= headroom <= bcapacity work ->
  exists buf' hd' pre' c',
    behind buf' hd' pre' c' tl /\
    match v1_decipher k (opt_long_form (co_replay opt)) pkt (bcapacity work - headroom) with
    | None => decrypt_v1_cipher headroom k buf work opt = Ret (buf', None)
    | Some (pt, pin) => exists w hd1 tl1, decrypt_v1_cipher headroom k buf work opt = Ret (buf', Some (w, pin)) /\ holds w hd1 pt tl1
    end.
Proof.
  intros Hready Hk Hmode Hb Hwok Hhead. pose proof (dr_cipher _ _ Hready) as Hc. rewrite Hk in Hc.
  destruct Hc as (Hsane & _ & Hmode2). pose proof (dec_ready_pid _ _ Hready) as Hpid.
  pose proof (cs_iv _ Hsane) as Hiv. pose proof (cs_block _ Hsane) as Hblk.
  destruct (work_init _ _ _ Hwok Hhead) as (w & Hwi & Hw). unfold decrypt_v1_cipher, v1_decipher. rewrite Hwi, Hpid.
  pose proof (behind_holds _ _ _ _ _ Hb) as Hh. pose proof (buf_len_holds _ _ _ _ Hh) as [_ Hl].
  set (n := cipher_ctx_iv_length k) in *. cbn [mbind outcome_bind]. rewrite Hl.
  destruct (zlen pkt <? n) eqn:E0.
  { destruct (zlen pkt <? n + 1) eqn:E1; [|lia]. by exists buf, hd, pre, pkt. }
  pose proof (behind_peek_content _ _ _ _ _ 0 n Hb) as Hp. rewrite Z.add_0_r in Hp. rewrite Hp by lia. clear Hp.
  cbn [mbind outcome_bind]. change (slice pkt 0 n) with (take (Z.to_nat n) pkt).
  destruct (iv_array (take (Z.to_nat n) pkt) [] n) as (iv1 & iv2 & -> & Hiv2 & Htake); [rewrite length_take; simpl; lia|lia|].
  assert (iv2 = iv1) as ->.
  { unfold mem_write in Hiv2. destruct (in_block _ _ _); simplify_eq. by rewrite splice_nil. }
  cbn [mbind outcome_bind]. rewrite Htake, app_nil_r.
  destruct (behind_advance buf hd pre pkt tl n Hb ltac:(lia)) as (b1 & -> & _ & Hb1).
  unfold ASSERT_ok. cbn [fst snd ASSERT mbind outcome_bind]. pose proof Hb1 as (_ & Hl1 & _). rewrite length_drop in Hl1.
  exists b1, (hd + n), (pre ++ take (Z.to_nat n) pkt), (drop (Z.to_nat n) pkt). split; [done|].
  destruct (zlen pkt <? n + 1) eqn:E1; [destruct (blen b1 <? 1) eqn:E2; [done|lia]|].
  destruct (blen b1 <? 1) eqn:E2; [lia|].
  destruct (cipher_ctx_reset k _) as [s|] eqn:Er; cbn [mbind option_bind]; [|done].
  rewrite (buf_safe_holds _ _ _ _ _ Hw), length_drop, Hl1 by lia.
  destruct (fits _ _) eqn:Efit; cbn [negb]; [|done].
  pose proof (behind_holds _ _ _ _ _ Hb1) as Hh1. rewrite (buf_bytes_spec _ _ _ _ Hh1). cbn [mbind outcome_bind].
  destruct (cipher_ctx_update s _) as [[s1 o1]|] eqn:Eu; cbn [mbind option_bind]; [|done].
  destruct (cs_out _ Hsane _ s s _ s1 o1 Er ltac:(by left) (holds_bytes _ _ _ _ Hh1) Eu) as (Ho1b & Ho1l & Hfin).
  rewrite length_drop in *. unfold fits in Efit.
  destruct (put_out_spec _ _ _ _ o1 Hw Ho1b ltac:(lia)) as (w1 & -> & Hw1). cbn [mbind outcome_bind app] in *.
  destruct (cipher_ctx_final s1) as [[s2 o2]|] eqn:Ef; cbn [mbind option_bind]; [|done].
  destruct (Hfin s2 o2 ltac:(by left)) as [Ho2b Ho2l].
  destruct (put_out_spec _ _ _ _ o2 Hw1 Ho2b ltac:(lia)) as (w2 & -> & Hw2). cbn [mbind outcome_bind].
  destruct (cipher_ctx_mode k) eqn:Em; try done.
  - pose proof (take_pin_spec _ _ _ _ (opt_long_form (co_replay opt)) Hw2) as Hpin.
    destruct (take_pin _ (o1 ++ o2)) as [[pt pin]|]; cbn [mbind option_bind].
    + destruct Hpin as (b & hd' & -> & Hb'). by eexists _, _, _.
    + destruct Hpin as (b & pin & ->). done.
  - cbn [ASSERT mbind outcome_bind]. set (iv := take (Z.to_nat n) pkt).
    assert (Hivh : holds (buf_of iv) 0 iv 0).
    { apply buf_of_holds; [|unfold iv; rewrite length_take; unfold OPENVPN_MAX_IV_LENGTH, BUF_SIZE_MAX in *; lia].
      apply all_bytes_complete, Forall_take. by eapply holds_bytes. }
    unfold buf_set_read. rewrite ASSERT_true; [|unfold buf_size_valid; holds_facts Hivh; simpl in *; lia].
    cbn [mbind outcome_bind]. fold (buf_of iv). pose proof (take_pin_spec _ _ _ _ true Hivh) as Hpin.
    destruct (take_pin true iv) as [[rest pin]|]; cbn [mbind option_bind].
    + destruct Hpin as (b & hd' & -> & Hb'). by eexists _, _, _.
    + destruct Hpin as (b & pin & ->). done.
Qed.

(** The v1 routine is [v1_open] followed by the replay check. *)
Lemma decrypt_v1_spec now headroom buf work opt H hd pre pkt tl :
  dec_ready opt H -> cipher_ctx_mode_is MODE_AEAD (kc_cipher (co_decrypt opt)) = false ->
  behind buf hd pre pkt tl -> pkt <> [] ->
  (kc_cipher (co_decrypt opt) <> None -> exists wblk, buf_ok work wblk /\ 0 <= headroom <= bcapacity work) ->
  decrypts now opt (v1_open opt pkt (bcapacity work - headroom)) (openvpn_decrypt_v1 now headroom buf work opt).
Proof.
  intros Hready Hmode Hb Hne Hwok. unfold openvpn_decrypt_v1, v1_open.
  pose proof (behind_holds _ _ _ _ _ Hb) as Hh. pose proof (buf_len_holds _ _ _ _ Hh) as [_ Hl].
  assert (Hpk : 0 < zlen pkt) by (destruct pkt; [done|cbn [length]; lia]).
  rewrite (proj2 (Z.ltb_lt 0 (blen buf))) by lia.
  pose proof (hmac_verify_spec _ _ _ _ _ _ _ Hready Hb) as Hv. destruct (v1_auth _ pkt) as [rest|] eqn:Ea.
  2:{ rewrite Hv. by eapply crypt_error_failed. }
  destruct Hv as (b1 & hd1 & pre1 & -> & Hb1). cbn [mbind outcome_bind option_bind].
  destruct (kc_cipher (co_decrypt opt)) as [k|] eqn:Ek.
  - assert (Hm : cipher_ctx_mode k <> MODE_AEAD) by (simpl in Hmode; by apply bool_decide_eq_false_1 in Hmode).
    destruct Hwok as (wblk & Hwok & Hhead); [done|].
    destruct (decrypt_v1_cipher_spec opt H headroom k b1 work wblk hd1 pre1 rest tl Hready Ek Hm Hb1 Hwok Hhead)
      as (b2 & hd2 & pre2 & c2 & Hb2 & Hres).
    destruct (v1_decipher k _ rest _) as [[pt [pin|]]|].
    + destruct Hres as (w & hd3 & tl3 & -> & Hw). cbn [mbind outcome_bind]. intros opt' ok Hchk. rewrite Hchk.
      cbn [mbind outcome_bind]. destruct ok; [by eexists _, _, _|by eapply crypt_error_failed].
    + destruct Hres as (w & hd3 & tl3 & -> & Hw). by eexists _, _, _.
    + rewrite Hres. by eapply crypt_error_failed.
  - unfold decrypt_v1_plain. rewrite (dec_ready_pid _ _ Hready).
    pose proof (take_pin_spec _ _ _ _ (opt_long_form (co_replay opt)) (behind_holds _ _ _ _ _ Hb1)) as Hpin.
    destruct (take_pin _ rest) as [[pt pin]|]; cbn [mbind option_bind].
    + destruct Hpin as (w & hd3 & -> & Hw). cbn [mbind outcome_bind]. destruct (co_ignore_packet_id opt); [by eexists _, _, _|].
      intros opt' ok Hchk. rewrite Hchk. cbn [mbind outcome_bind]. destruct ok; [by eexists _, _, _|by eapply crypt_error_failed].
    + destruct Hpin as (w & pin & ->). by eapply crypt_error_failed.
Qed.

(** ** What encryption produces *)

(** Decryption context [dk] undoes encryption context [ek]. *)
Record cipher_pair (ek dk : K) : Prop := {
  cp_iv : cipher_ctx_iv_length dk = cipher_ctx_iv_length ek;
  cp_mode : cipher_ctx_mode dk = cipher_ctx_mode ek;
  cp_aead : cipher_ctx_mode ek = MODE_AEAD -> forall iv ad pt,
    zlen iv = cipher_ctx_iv_length ek -> Forall is_byte pt ->
    exists s s1 s2 o1 s3 o2 tag, cipher_ctx_reset ek iv = Some s /\ cipher_ctx_update_ad s ad = Some s1 /\
      cipher_ctx_update s1 pt = Some (s2, o1) /\ cipher_ctx_final s2 = Some (s3, o2) /\
      cipher_ctx_get_tag s3 OPENVPN_AEAD_TAG_LENGTH = Some tag /\ zlen tag = OPENVPN_AEAD_TAG_LENGTH /\ Forall is_byte tag /\
      0 < zlen (o1 ++ o2) + (if decide (pt = []) then 1 else 0) /\
      exists d d1 d2 p1 d3 p2, cipher_ctx_reset dk iv = Some d /\ cipher_ctx_update_ad d ad = Some d1 /\
        cipher_ctx_update d1 (o1 ++ o2) = Some (d2, p1) /\ cipher_ctx_final_check_tag d2 tag = Some (d3, p2) /\ p1 ++ p2 = pt;
  cp_v1 : cipher_ctx_mode ek = MODE_CBC \/ cipher_ctx_mode ek = MODE_OFB_CFB -> forall iv pt,
    zlen iv = cipher_ctx_iv_length ek -> Forall is_byte pt ->
    exists s s2 o1 s3 o2, cipher_ctx_reset ek iv = Some s /\ cipher_ctx_update s pt = Some (s2, o1) /\
      cipher_ctx_final s2 = Some (s3, o2) /\ (cipher_ctx_mode ek = MODE_CBC -> zlen o2 = cipher_ctx_iv_length ek) /\
      0 < zlen (o1 ++ o2) + (if decide (pt = []) then 1 else 0) /\
      exists d d2 p1 d3 p2, cipher_ctx_reset dk iv = Some d /\
        cipher_ctx_update d (o1 ++ o2) = Some (d2, p1) /\ cipher_ctx_final d2 = Some (d3, p2) /\ p1 ++ p2 = pt
}.

(** Overwriting part of the content. *)
Lemma poke_content b hd c1 old c2 tl new :
  holds b hd (c1 ++ old ++ c2) tl -> zlen new = zlen old -> Forall is_byte new ->
  exists b', poke b (hd + zlen c1) new = Ret b' /\ holds b' hd (c1 ++ new ++ c2) tl.
Proof.
  intros Hh Hl Hn. holds_facts Hh. destruct Hh as (blk & Hok & Ho & Hc & Ht). rewrite !length_app in *.
  destruct (poke_ok b blk (hd + zlen c1) new Hok) as [-> Hok']; [lia|lia|done|]. eexists. split; [done|].
  eapply holds_intro; [done|done| |done]. simpl. rewrite (buf_ok_content _ _ Hok) in Hc. pose proof (ok_block _ _ Hok).
  rewrite Hlen, Ho in Hc |- *.
  replace (Z.of_nat (length c1 + (length old + length c2))) with (zlen c1 + (zlen old + zlen c2)) in * by lia.
  rewrite !slice_app_split in * by lia.
  apply app_inj_1 in Hc as [H1 Hc]; [|apply Nat2Z.inj; rewrite zlen_slice; lia].
  apply app_inj_1 in Hc as [H2 H3]; [|apply Nat2Z.inj; rewrite zlen_slice; lia].
  f_equal; [|f_equal].
  - rewrite slice_splice_before by lia. done.
  - rewrite <- Hl. apply slice_splice_same; lia.
  - rewrite slice_splice_after by lia. done.
Qed.

Lemma buf_write_alloc_spec b hd c tl n :
  holds b hd c tl -> 0 <= n <= tl ->
  exists b' junk, buf_write_alloc b n = (b', Some (hd + zlen c)) /\ holds b' hd (c ++ junk) (tl - n) /\ zlen junk = n.
Proof.
  intros Hh Hn. holds_facts Hh. destruct Hh as (blk & Hok & Ho & Hc & Ht).
  unfold buf_write_alloc, buf_safe, buf_size_valid. rewrite Hval. destruct (negb _) eqn:E; [lia|].
  pose proof Hok as [Hd Hof Hle Hca Hbl Hm Hby].
  exists (set_len b (blen b + n)), (slice blk (hd + zlen c) n). split_and!.
  - do 2 f_equal. lia.
  - eapply holds_intro with (blk := blk); simpl; [split; simpl; done || lia|done| |lia].
    rewrite slice_app_split by lia. rewrite <- (buf_ok_content _ _ Hok), Hc. do 2 f_equal. lia.
  - apply zlen_slice; lia.
Qed.

Lemma iv_buffer_spec n : 1 <= n <= 16 -> exists b, buf_set_write (replicate (Z.to_nat OPENVPN_MAX_IV_LENGTH) 0) n = Ret b /\ holds b 0 [] n.
Proof.
  intros Hn. unfold buf_set_write, buf_size_valid, BUF_SIZE_MAX. rewrite ASSERT_true by lia. cbn [mbind outcome_bind].
  destruct (0 <? n) eqn:E; [|lia]. set (blk := <[0%nat := 0]> (replicate (Z.to_nat OPENVPN_MAX_IV_LENGTH) 0)).
  assert (Hlen : zlen blk = 16) by done. assert (Hby : Forall is_byte blk) by by apply all_bytes_spec. clearbody blk.
  eexists. split; [done|]. eapply holds_intro with (blk := blk); simpl; [|done|done|lia].
  split; simpl; try done; unfold BUF_SIZE_MAX; lia.
Qed.

Lemma peek_all b hd c tl n : holds b hd c tl -> n = zlen c -> peek b hd n = Ret c.
Proof.
  intros Hh ->. holds_facts Hh. destruct Hh as (blk & Hok & Ho & Hc & Ht). rewrite (peek_ok _ _ _ _ Hok) by lia.
  rewrite (buf_ok_content _ _ Hok) in Hc. rewrite <- Hlen, <- Ho, Hc. done.
Qed.

Lemma peek_part b hd c1 c2 c3 tl p n :
  holds b hd (c1 ++ c2 ++ c3) tl -> p = hd + zlen c1 -> n = zlen c2 -> peek b p n = Ret c2.
Proof.
  intros Hh -> ->. holds_facts Hh. destruct Hh as (blk & Hok & Ho & Hc & Ht). rewrite !length_app in *.
  pose proof (ok_block _ _ Hok). rewrite (peek_ok _ _ _ _ Hok) by lia. f_equal. rewrite (buf_ok_content _ _ Hok), Ho, Hlen in Hc.
  replace (Z.of_nat (length c1 + (length c2 + length c3))) with (zlen c1 + (zlen c2 + zlen c3)) in Hc by lia.
  rewrite !slice_app_split in Hc by lia.
  apply app_inj_1 in Hc as [_ Hc]; [|apply Nat2Z.inj; rewrite zlen_slice; lia].
  apply app_inj_1 in Hc as [Hc _]; [done|apply Nat2Z.inj; rewrite zlen_slice; lia].
Qed.

(** What is known of the options when a packet is encrypted. *)
Record enc_ready opt : Prop := {
  er_pid : packet_id_initialized (pid_of opt) = true;
  er_send : send_ok (pid_send (pid_of opt));
  er_impl : Forall is_byte (kc_implicit_iv (co_encrypt opt));
  er_sane : forall k, kc_cipher (co_encrypt opt) = Some k -> cipher_sane k;
  er_hmac : forall m, kc_hmac (co_encrypt opt) = Some m ->
    0 <= hmac_ctx_size m <= MAX_HMAC_KEY_LENGTH /\
    forall d, zlen (hmac_ctx_digest m d) = hmac_ctx_size m /\ Forall is_byte (hmac_ctx_digest m d)
}.

(** The packet id written into the IV buffer, and the implicit part behind it. *)
Lemma iv_of_packet_id now p p' impl n :
  send_ok p -> u32_ok now -> packet_id_send_update now p false = (p', true) -> Forall is_byte impl ->
  12 <= n <= 16 -> zlen impl = n - 4 ->
  exists b0 b1 b2, buf_set_write (replicate (Z.to_nat OPENVPN_MAX_IV_LENGTH) 0) n = Ret b0 /\
    packet_id_write now p b0 false false = Ret (p', b1, true) /\ u32_ok (send_id p') /\
    buf_write b1 impl = Ret (b2, true) /\ blen b2 = n /\ peek b2 0 n = Ret (be_bytes 4 (send_id p') ++ impl).
Proof.
  intros Hp Hnow Hupd Hi Hn Hl. destruct (iv_buffer_spec n ltac:(lia)) as (b0 & Hb0 & Hh0).
  pose proof (packet_id_send_update_spec now p false Hp Hnow) as Hspec. rewrite Hupd in Hspec. destruct Hspec as ([Hid _] & _).
  destruct (buf_write_spec _ _ _ _ (be_bytes 4 (send_id p')) Hh0) as (b1 & Hb1 & Hh1);
    [apply be_bytes_is_byte|rewrite length_be_bytes; lia|].
  destruct (buf_write_spec _ _ _ _ impl Hh1 Hi) as (b2 & Hb2 & Hh2); [rewrite length_be_bytes; lia|].
  exists b0, b1, b2. unfold packet_id_write. rewrite Hupd, Hb1. cbn [mbind outcome_bind negb app] in *.
  pose proof (buf_len_holds _ _ _ _ Hh2) as [_ Hbl]. rewrite length_app, length_be_bytes in Hbl.
  split_and!; try done; [lia|]. eapply peek_all; [done|]. rewrite length_app, length_be_bytes. lia.
Qed.

(** The output of a cipher operation, appended in two pieces. *)
Lemma put_two b hd c tl o1 o2 :
  holds b hd c tl -> Forall is_byte o1 -> Forall is_byte o2 -> zlen o1 + zlen o2 <= tl ->
  exists b1 b2, put_out b o1 = Ret b1 /\ put_out b1 o2 = Ret b2 /\ holds b2 hd (c ++ o1 ++ o2) (tl - zlen (o1 ++ o2)).
Proof.
  intros Hh H1 H2 Hl. destruct (put_out_spec _ _ _ _ o1 Hh H1 ltac:(lia)) as (b1 & Hb1 & Hh1).
  destruct (put_out_spec _ _ _ _ o2 Hh1 H2 ltac:(lia)) as (b2 & Hb2 & Hh2). exists b1, b2. split_and!; [done|done|].
  rewrite <- app_assoc in Hh2. eapply holds_eq; [done|done|done|rewrite length_app; lia].
Qed.

Lemma aead_open_wire dk impl hdr id tag ct pt room d d1 d2 p1 d3 p2 :
  u32_ok id -> cipher_sane dk -> cipher_ctx_iv_length dk - zlen impl = 4 -> zlen tag = 16 -> 0 < zlen ct ->
  cipher_ctx_reset dk (be_bytes 4 id ++ impl) = Some d -> cipher_ctx_update_ad d (hdr ++ be_bytes 4 id) = Some d1 ->
  cipher_ctx_update d1 ct = Some (d2, p1) -> cipher_ctx_final_check_tag d2 tag = Some (d3, p2) -> p1 ++ p2 = pt ->
  fits room (zlen ct + cipher_ctx_block_size dk) = true ->
  aead_open dk impl hdr (be_bytes 4 id ++ tag ++ ct) room = Some (pt, Some (mknet id 0)).
Proof.
  intros Hid Hsane Hn Ht Hc Hr Had Hu Hf Hpt Hfit. unfold aead_open. rewrite Hn. change (Z.to_nat 4) with 4%nat.
  assert (Hl4 : length (be_bytes 4 id) = 4%nat) by apply length_be_bytes.
  destruct (_ <? 4) eqn:E; [rewrite !length_app in E; lia|].
  rewrite (take_app_length' (be_bytes 4 id)) by done. rewrite Hr. cbn [mbind option_bind].
  unfold aead_payload. destruct (_ <? 4 + 16 + 1) eqn:E2; [rewrite !length_app in E2; lia|].
  assert (Hd20 : drop 20 (be_bytes 4 id ++ tag ++ ct) = ct).
  { rewrite app_assoc. apply drop_app_length'. rewrite length_app. lia. }
  rewrite Hd20, Hfit, (take_app_length' (be_bytes 4 id)) by done. rewrite Had. cbn [mbind option_bind]. rewrite Hu. cbn [mbind option_bind].
  rewrite (drop_app_length' (be_bytes 4 id)) by done. rewrite (take_app_length' tag) by lia. rewrite Hf. cbn [mbind option_bind].
  rewrite be_val_u32 by done. by rewrite Hpt.
Qed.

Lemma encrypt_aead_spec now opt ek dk p' buf hd pt tl work hdw hdr tlw :
  enc_ready opt -> kc_cipher (co_encrypt opt) = Some ek -> cipher_ctx_mode ek = MODE_AEAD -> cipher_pair ek dk -> cipher_sane dk ->
  u32_ok now -> packet_id_send_update now (pid_send (pid_of opt)) false = (p', true) ->
  12 <= cipher_ctx_iv_length ek -> zlen (kc_implicit_iv (co_encrypt opt)) = cipher_ctx_iv_length ek - 4 ->
  holds buf hd pt tl -> pt <> [] -> holds work hdw hdr tlw ->
  4 + 16 + zlen pt + cipher_ctx_block_size ek <= tlw ->
  exists b rest, openvpn_encrypt_aead now buf work opt = Ret (b, set_pid_send opt p') /\
    holds b hdw (hdr ++ be_bytes 4 (send_id p') ++ rest) (tlw - 4 - zlen rest) /\
    forall room, zlen rest - 16 + cipher_ctx_block_size dk <= room -> room < BUF_SIZE_MAX ->
      aead_open dk (kc_implicit_iv (co_encrypt opt)) hdr (be_bytes 4 (send_id p') ++ rest) room =
      Some (pt, Some (mknet (send_id p') 0)).
Proof.
  intros [Hpid Hsend Hib Hes _] Hk Hmode Hpair Hsane Hnow Hupd Hiv Himpl Hb Hne Hw Hroom.
  pose proof (Hes _ Hk) as Hek. pose proof (cs_iv _ Hek) as Hiv16. pose proof (cs_block _ Hek) as Hblk. unfold OPENVPN_MAX_IV_LENGTH in Hiv16.
  set (impl := kc_implicit_iv (co_encrypt opt)) in *. pose proof (holds_bytes _ _ _ _ Hb) as Hptb.
  destruct (iv_of_packet_id now _ p' impl (cipher_ctx_iv_length ek) Hsend Hnow Hupd Hib ltac:(lia) Himpl)
    as (b0 & b1 & b2 & Hb0 & Hb1 & Hid & Hb2 & Hl2 & Hpk).
  set (nid := be_bytes 4 (send_id p')) in *. assert (Hnid : zlen nid = 4) by done.
  destruct (cp_aead _ _ Hpair Hmode (nid ++ impl) (hdr ++ nid) pt) as
    (s & s1 & s2 & o1 & s3 & o2 & tag & Hr & Had & Hu & Hf & Htag & Htl & Htb & Hpos & d & d1 & d2 & p1 & d3 & p2 & Hdr & Hdad & Hdu & Hdf & Hpt);
    [rewrite length_app; lia|done|]. unfold OPENVPN_AEAD_TAG_LENGTH in Htl.
  destruct (cs_out _ Hek _ _ _ _ _ _ Hr ltac:(right; eauto) Hptb Hu) as (Ho1 & _ & Hfin). destruct (Hfin _ _ ltac:(left; exact Hf)) as (Ho2 & Hol).
  unfold openvpn_encrypt_aead. rewrite Hk. cbn [must mbind outcome_bind]. rewrite Hpid.
  rewrite (ASSERT_true (_ && _)) by (unfold OPENVPN_AEAD_MIN_IV_LEN, OPENVPN_MAX_IV_LENGTH; lia).
  cbn [ASSERT mbind outcome_bind]. rewrite Hb0. cbn [mbind outcome_bind]. rewrite Hb1. cbn [mbind outcome_bind negb]. fold impl.
  rewrite Hb2. unfold ASSERT_ok. cbn [fst snd ASSERT mbind outcome_bind]. rewrite Hl2, Z.eqb_refl. cbn [ASSERT mbind outcome_bind].
  rewrite Hpk. cbn [mbind outcome_bind].
  replace (Z.to_nat (cipher_ctx_iv_length ek - zlen impl)) with (length nid) by lia. rewrite take_app_length.
  destruct (buf_write_spec _ _ _ _ nid Hw) as (w1 & -> & Hw1); [apply be_bytes_is_byte|lia|].
  cbn [fst snd ASSERT mbind outcome_bind]. rewrite Hr. cbn [must mbind outcome_bind].
  destruct (buf_write_alloc_spec _ _ _ _ 16 Hw1 ltac:(lia)) as (w2 & junk & Hal & Hw2 & Hj).
  change OPENVPN_AEAD_TAG_LENGTH with 16 in *. rewrite Hal. pose proof (buf_len_holds _ _ _ _ Hb) as [_ Hbl].
  rewrite (buf_safe_holds _ _ _ _ _ Hw2) by lia. destruct (holds_bounds _ _ _ _ Hw2) as (Hh2 & _ & _ & Hoff2 & Hcap2 & Hmax2 & _).
  assert (Hfit : fits (tlw - zlen nid - 16) (blen buf + cipher_ctx_block_size ek) = true) by (unfold fits; lia).
  rewrite Hfit. cbn [negb]. pose proof (buf_len_holds _ _ _ _ Hw2) as [Hwl _]. rewrite Hwl.
  rewrite Hoff2, (peek_part w2 hdw [] (hdr ++ nid) junk _ hdw _ Hw2) by (rewrite ?length_app; simpl; lia). cbn [mbind outcome_bind].
  rewrite Had. cbn [must mbind outcome_bind]. rewrite (buf_bytes_spec _ _ _ _ Hb). cbn [mbind outcome_bind].
  rewrite Hu. cbn [must mbind outcome_bind].
  destruct (put_two _ _ _ _ o1 o2 Hw2 Ho1 Ho2 ltac:(lia)) as (w3 & w4 & -> & Hw4 & Hh4). cbn [mbind outcome_bind].
  rewrite Hf. cbn [must mbind outcome_bind]. rewrite Hw4. cbn [mbind outcome_bind]. rewrite Htag. cbn [must mbind outcome_bind].
  rewrite <- (app_assoc (hdr ++ nid)) in Hh4.
  destruct (poke_content _ _ _ _ _ _ tag Hh4 ltac:(lia) Htb) as (w5 & Hw5 & Hh5). rewrite Hw5.
  cbn [mbind outcome_bind]. exists w5, (tag ++ o1 ++ o2). split_and!; [done| |].
  { rewrite <- (app_assoc hdr) in Hh5. eapply holds_eq; [done|done|done|]. rewrite (length_app tag). lia. }
  intros room Hr1 Hr2. rewrite (length_app tag) in Hr1.
  eapply aead_open_wire; try done; [rewrite (cp_iv _ _ Hpair); lia|by destruct pt; [done|rewrite decide_False in Hpos by done; lia]|].
  unfold fits. lia.
Qed.

(** *** CBC, OFB, CFB or no cipher *)

Definition hmac_pair (a b : option M) : Prop :=
  match a, b with
  | None, None => True
  | Some x, Some y => hmac_ctx_size x = hmac_ctx_size y /\ forall d, hmac_ctx_digest x d = hmac_ctx_digest y d
  | _, _ => False
  end.

Definition mac_size (m : option M) : Z := match m with None => 0 | Some m => hmac_ctx_size m end.

(** The HMAC over [d], which authenticates it. *)
Definition mac_of (m : option M) (d : bytes) : bytes := match m with None => [] | Some m => hmac_ctx_digest m d end.

Lemma mac_opens (a b : option M) d : hmac_pair a b ->
  (forall m, a = Some m -> forall d, zlen (hmac_ctx_digest m d) = hmac_ctx_size m) -> v1_auth b (mac_of a d ++ d) = Some d.
Proof.
  intros Hp Hl. destruct a as [x|], b as [y|]; try done. destruct Hp as [Hsz Hdg]. simpl.
  pose proof (Hl x eq_refl d) as Hd. rewrite <- Hsz, <- Hd, Nat2Z.id, drop_app_length, take_app_length, <- Hdg.
  rewrite (proj2 (Z.ltb_ge _ _)) by (rewrite length_app; lia). by rewrite decide_True.
Qed.

(** Signing fills the space reserved for the HMAC. *)
Lemma hmac_sign_spec opt work hd hdr junk d tl :
  enc_ready opt -> zlen junk = mac_size (kc_hmac (co_encrypt opt)) -> holds work hd (hdr ++ junk ++ d) tl ->
  exists w, (forall mac_out, (kc_hmac (co_encrypt opt) <> None -> mac_out = hd + zlen hdr) ->
      hmac_sign (kc_hmac (co_encrypt opt)) work (hd + zlen hdr + zlen junk) mac_out = Ret w) /\
    holds w hd (hdr ++ mac_of (kc_hmac (co_encrypt opt)) d ++ d) tl.
Proof.
  intros [_ _ _ _ Hm] Hj Hh. unfold hmac_sign, mac_of, mac_size in *. destruct (kc_hmac (co_encrypt opt)) as [m|].
  2:{ exists work. split; [done|]. destruct junk; [done|simpl in Hj; lia]. }
  destruct (Hm m eq_refl) as (Hsz & Hdig). destruct (Hdig d) as [Hdl Hdb].
  destruct (poke_content _ _ _ _ _ _ (hmac_ctx_digest m d) Hh) as (w & Hw & Hhw); [lia|done|]. exists w. split; [|done].
  intros mac_out Hmo. rewrite (Hmo ltac:(done)). holds_facts Hh. unfold buf_bend. rewrite Hoff, Hlen, !length_app.
  rewrite (peek_part work hd (hdr ++ junk) d [] tl) by (rewrite <- ?app_assoc, ?app_nil_r; done || (rewrite ?length_app; lia)).
  cbn [mbind outcome_bind]. done.
Qed.

Lemma encrypt_v1_payload_spec opt ek dk iv buf hd pt tl work hdw hdr junk tlw mac_out :
  enc_ready opt -> kc_cipher (co_encrypt opt) = Some ek -> cipher_pair ek dk ->
  cipher_ctx_mode ek = MODE_CBC \/ cipher_ctx_mode ek = MODE_OFB_CFB ->
  zlen iv = cipher_ctx_iv_length ek -> Forall is_byte iv -> holds buf hd pt tl -> pt <> [] ->
  zlen junk = mac_size (kc_hmac (co_encrypt opt)) -> (kc_hmac (co_encrypt opt) <> None -> mac_out = hdw + zlen hdr) ->
  holds work hdw (hdr ++ junk) tlw -> zlen iv + zlen pt + cipher_ctx_block_size ek <= tlw ->
  exists w ct, encrypt_v1_payload ek iv buf work (buf_bend work) mac_out opt = Ret (w, opt) /\ 0 < zlen ct /\
    holds w hdw (hdr ++ mac_of (kc_hmac (co_encrypt opt)) (iv ++ ct) ++ iv ++ ct) (tlw - zlen iv - zlen ct) /\
    exists d d2 p1 d3 p2, cipher_ctx_reset dk iv = Some d /\ cipher_ctx_update d ct = Some (d2, p1) /\
      cipher_ctx_final d2 = Some (d3, p2) /\ p1 ++ p2 = pt.
Proof.
  intros Hready Hk Hpair Hmode Hivl Hivb Hb Hne Hj Hmo Hw Hroom. pose proof (er_sane _ Hready _ Hk) as Hek.
  pose proof (holds_bytes _ _ _ _ Hb) as Hptb. pose proof (cs_block _ Hek) as Hblk.
  destruct (cp_v1 _ _ Hpair Hmode iv pt Hivl Hptb) as
    (s & s2 & o1 & s3 & o2 & Hr & Hu & Hf & Hcbc & Hpos & d & d2 & p1 & d3 & p2 & Hdec).
  destruct (cs_out _ Hek _ s s _ _ _ Hr ltac:(by left) Hptb Hu) as (Ho1 & _ & Hfin). destruct (Hfin _ _ ltac:(left; exact Hf)) as (Ho2 & Hol).
  unfold encrypt_v1_payload. destruct (holds_bounds _ _ _ _ Hw) as (_ & _ & Hwl & Hwo & _). unfold buf_bend at 1. rewrite Hwo, Hwl.
  destruct (buf_write_spec _ _ _ _ iv Hw Hivb ltac:(lia)) as (w1 & -> & Hw1). unfold ASSERT_ok. cbn [fst snd ASSERT mbind outcome_bind].
  rewrite Hr. cbn [must mbind outcome_bind]. pose proof (buf_len_holds _ _ _ _ Hb) as [_ Hbl].
  rewrite (buf_safe_holds _ _ _ _ _ Hw1) by lia. destruct (holds_bounds _ _ _ _ Hw1) as (Hh0 & _ & _ & _ & Hcap1 & Hmax1 & _).
  assert (Hfit : fits (tlw - zlen iv) (blen buf + cipher_ctx_block_size ek) = true) by (unfold fits; lia).
  rewrite Hfit. cbn [negb]. rewrite (buf_bytes_spec _ _ _ _ Hb). cbn [mbind outcome_bind]. rewrite Hu. cbn [must mbind outcome_bind].
  destruct (put_two _ _ _ _ o1 o2 Hw1 Ho1 Ho2 ltac:(lia)) as (w2 & w3 & -> & Hw3 & Hh3). cbn [mbind outcome_bind].
  rewrite Hf. cbn [must mbind outcome_bind]. rewrite Hw3. cbn [mbind outcome_bind].
  rewrite ASSERT_true by (destruct Hmode as [E|E]; rewrite E; simpl; [rewrite (Hcbc E); lia|done]). cbn [mbind outcome_bind].
  replace (((hdr ++ junk) ++ iv) ++ o1 ++ o2) with (hdr ++ junk ++ iv ++ o1 ++ o2) in Hh3 by by rewrite <- !app_assoc.
  destruct (hmac_sign_spec opt w3 hdw hdr junk (iv ++ o1 ++ o2) _ Hready Hj Hh3) as (w4 & Hs & Hh4).
  rewrite length_app. replace (hdw + Z.of_nat (length hdr + length junk)) with (hdw + zlen hdr + zlen junk) by lia.
  rewrite (Hs _ Hmo). cbn [mbind outcome_bind]. exists w4, (o1 ++ o2). split_and!; [done| |exact Hh4|by eauto 10].
  destruct pt; [done|rewrite decide_False in Hpos by done; lia].
Qed.

(** The packet id in front of a payload. *)
Definition pid_bytes (p : packet_id_send) (lf : bool) : bytes :=
  be_bytes 4 (send_id p) ++ if lf then be_bytes 4 (u32 (send_time p)) else [].

Lemma zlen_pid_bytes p lf : zlen (pid_bytes p lf) = packet_id_size lf.
Proof. unfold pid_bytes, packet_id_size. destruct lf; rewrite length_app, ?length_be_bytes; done. Qed.

Lemma take4_be w r : take 4 (be_bytes 4 w ++ r) = be_bytes 4 w.
Proof. apply take_app_length'. by rewrite length_be_bytes. Qed.
Lemma drop4_be w r : drop 4 (be_bytes 4 w ++ r) = r.
Proof. apply drop_app_length'. by rewrite length_be_bytes. Qed.

Lemma take_pin_bytes p lf pt : send_ok p -> take_pin lf (pid_bytes p lf ++ pt) = Some (pt, wire_id p lf).
Proof.
  intros [Hid Ht]. pose proof (zlen_pid_bytes p lf) as Hl. unfold take_pin. rewrite !length_app.
  unfold packet_id_size, pid_bytes, wire_id in *. destruct lf; rewrite <- app_assoc.
  - rewrite (proj2 (Z.ltb_ge _ _)) by lia. change 8%nat with (4 + 4)%nat.
    rewrite <- drop_drop, !take4_be, !drop4_be, !take4_be, !be_val_u32 by (done || apply u32_range).
    by rewrite (u32_small (send_time p)).
  - rewrite (proj2 (Z.ltb_ge _ _)) by lia. by rewrite take4_be, drop4_be, be_val_u32.
Qed.

Lemma packet_id_write_prepend now p p' lf buf hd c tl :
  packet_id_send_update now p lf = (p', true) -> holds buf hd c tl -> packet_id_size lf <= hd ->
  exists b, packet_id_write now p buf lf true = Ret (p', b, true) /\ holds b (hd - packet_id_size lf) (pid_bytes p' lf ++ c) tl.
Proof.
  intros Hupd Hh Hroom. unfold packet_id_write, packet_id_size, pid_bytes in *. rewrite Hupd. destruct lf.
  - destruct (buf_write_prepend_spec _ _ _ _ (be_bytes 4 (u32 (send_time p'))) Hh) as (b1 & -> & Hb1);
      [apply be_bytes_is_byte|rewrite length_be_bytes; lia|]. cbn [mbind outcome_bind negb].
    destruct (buf_write_prepend_spec _ _ _ _ (be_bytes 4 (send_id p')) Hb1) as (b2 & -> & Hb2);
      [apply be_bytes_is_byte|rewrite !length_be_bytes; lia|]. rewrite !length_be_bytes in Hb2.
    exists b2. split; [done|]. rewrite <- app_assoc. eapply holds_eq; [done|lia|done|done].
  - cbn [mbind outcome_bind negb].
    destruct (buf_write_prepend_spec _ _ _ _ (be_bytes 4 (send_id p')) Hh) as (b2 & -> & Hb2);
      [apply be_bytes_is_byte|rewrite length_be_bytes; lia|]. rewrite length_be_bytes in Hb2.
    exists b2. split; [done|]. rewrite app_nil_r. eapply holds_eq; [done|lia|done|done].
Qed.

Lemma packet_id_write_append now p p' buf hd c tl :
  packet_id_send_update now p true = (p', true) -> holds buf hd c tl -> 8 <= tl ->
  exists b, packet_id_write now p buf true false = Ret (p', b, true) /\ holds b hd (c ++ pid_bytes p' true) (tl - 8).
Proof.
  intros Hupd Hh Hroom. unfold packet_id_write. rewrite Hupd.
  destruct (buf_write_spec _ _ _ _ (be_bytes 4 (send_id p')) Hh) as (b1 & -> & Hb1);
    [apply be_bytes_is_byte|rewrite length_be_bytes; lia|]. rewrite length_be_bytes in Hb1. cbn [mbind outcome_bind negb].
  destruct (buf_write_spec _ _ _ _ (be_bytes 4 (u32 (send_time p'))) Hb1) as (b2 & -> & Hb2);
    [apply be_bytes_is_byte|rewrite length_be_bytes; lia|]. rewrite length_be_bytes in Hb2.
  exists b2. split; [done|]. unfold pid_bytes. rewrite <- app_assoc in Hb2. eapply holds_eq; [done|done|done|lia].
Qed.

(** In OFB and CFB mode the IV is the long form packet id, filled with zeros. *)
Lemma iv_of_long_id now p p' n :
  packet_id_send_update now p true = (p', true) -> 8 <= n <= 16 ->
  exists b0 b1 z, buf_set_write (replicate (Z.to_nat OPENVPN_MAX_IV_LENGTH) 0) n = Ret b0 /\
    packet_id_write now p b0 true false = Ret (p', b1, true) /\ peek b1 0 n = Ret (pid_bytes p' true ++ z) /\
    zlen z = n - 8 /\ Forall is_byte z.
Proof.
  intros Hupd Hn. destruct (iv_buffer_spec n ltac:(lia)) as (b0 & Hb0 & Hh0).
  destruct (packet_id_write_append now p p' _ _ _ _ Hupd Hh0 ltac:(lia)) as (b2 & Hb2 & Hh2). cbn [app] in Hh2.
  destruct (buf_write_alloc_spec _ _ _ _ (n - 8) Hh2 ltac:(lia)) as (b3 & z & Hal & Hh3 & Hz).
  exists b0, b2, z. split_and!; [done|done| |done|by apply holds_bytes, Forall_app in Hh3 as [_ ?]].
  assert (bdata b3 = bdata b2) as Hbd.
  { unfold buf_write_alloc in Hal. destruct (negb _); [done|]. by simplify_eq. }
  pose proof (zlen_pid_bytes p' true) as Hpl. change (packet_id_size true) with 8 in Hpl.
  unfold peek. rewrite <- Hbd. apply (peek_all b3 0 _ _ n Hh3). rewrite length_app. lia.
Qed.

(** Sender and receiver use the same packet id format, and the keys belong together. *)
Record peers (opt ropt : co K M) (ek dk : K) : Prop := {
  pe_enc : kc_cipher (co_encrypt opt) = Some ek;
  pe_dec : kc_cipher (co_decrypt ropt) = Some dk;
  pe_pair : cipher_pair ek dk;
  pe_sane : cipher_sane dk;
  pe_impl : kc_implicit_iv (co_decrypt ropt) = kc_implicit_iv (co_encrypt opt);
  pe_hmac : hmac_pair (kc_hmac (co_encrypt opt)) (kc_hmac (co_decrypt ropt));
  pe_form : opt_long_form (co_replay ropt) = opt_long_form (co_replay opt)
}.

Definition iv_pid_form opt (ek : K) : bool :=
  match cipher_ctx_mode ek with MODE_OFB_CFB => true | MODE_AEAD => false | _ => opt_long_form (co_replay opt) end.

Lemma v1_decipher_wire lf dk iv ct room d d2 p1 d3 p2 :
  zlen iv = cipher_ctx_iv_length dk -> 0 < zlen ct -> cipher_ctx_reset dk iv = Some d ->
  cipher_ctx_update d ct = Some (d2, p1) -> cipher_ctx_final d2 = Some (d3, p2) ->
  fits room (zlen ct + cipher_ctx_block_size dk) = true ->
  v1_decipher dk lf (iv ++ ct) room =
    match cipher_ctx_mode dk with
    | MODE_CBC => '(pt, pin) ← take_pin lf (p1 ++ p2); Some (pt, Some pin)
    | _ => '(_, pin) ← take_pin true iv; Some (p1 ++ p2, Some pin)
    end.
Proof.
  intros Hiv Hct Hr Hu Hf Hfit. unfold v1_decipher. rewrite <- Hiv, Nat2Z.id, drop_app_length, take_app_length.
  rewrite (proj2 (Z.ltb_ge _ _)) by (rewrite length_app; lia). rewrite Hr. cbn [mbind option_bind]. rewrite Hfit, Hu.
  cbn [mbind option_bind]. rewrite Hf. done.
Qed.

Lemma enc_ready_set_pid opt p : enc_ready opt -> send_ok p -> enc_ready (set_pid_send opt p).
Proof. intros [] Hp. by split. Qed.

(** The IV, and the plaintext that is encrypted under it. *)
Lemma encrypt_v1_iv_spec now rnd opt ek p' buf hd pt tl :
  enc_ready opt -> cipher_ctx_mode ek = MODE_CBC \/ cipher_ctx_mode ek = MODE_OFB_CFB ->
  packet_id_send_update now (pid_send (pid_of opt)) (iv_pid_form opt ek) = (p', true) -> send_ok p' ->
  zlen rnd = cipher_ctx_iv_length ek -> Forall is_byte rnd -> 8 <= cipher_ctx_iv_length ek <= 16 ->
  holds buf hd pt tl -> 8 <= hd ->
  exists iv buf' hd' pt', encrypt_v1_iv now rnd ek buf opt = Ret (iv, buf', set_pid_send opt p', true) /\
    zlen iv = cipher_ctx_iv_length ek /\ Forall is_byte iv /\ holds buf' hd' pt' tl /\ zlen pt <= zlen pt' <= zlen pt + 8 /\
    match cipher_ctx_mode ek with
    | MODE_CBC => '(pt, pin) ← take_pin (iv_pid_form opt ek) pt'; Some (pt, Some pin)
    | _ => '(_, pin) ← take_pin true iv; Some (pt', Some pin)
    end = Some (pt, Some (wire_id p' (iv_pid_form opt ek))).
Proof.
  intros Hready Hmode Hupd Hp' Hrl Hrb Hiv Hb Hhd. unfold encrypt_v1_iv, iv_pid_form in *. rewrite (er_pid _ Hready).
  destruct Hmode as [E|E]; rewrite E in *.
  - assert (Hsz : 0 <= packet_id_size (opt_long_form (co_replay opt)) <= 8) by (unfold packet_id_size; case_match; lia).
    destruct (packet_id_write_prepend _ _ _ _ _ _ _ _ Hupd Hb ltac:(lia)) as (b & -> & Hb'). cbn [mbind outcome_bind].
    exists rnd, b. eexists _, _. split_and!; [done|done|done|exact Hb'|rewrite length_app, Nat2Z.inj_add, zlen_pid_bytes; lia..|].
    by rewrite take_pin_bytes.
  - destruct (iv_of_long_id _ _ _ _ Hupd Hiv) as (b0 & b1 & z & -> & Hw & Hpk & Hz & Hzb). cbn [ASSERT mbind outcome_bind].
    rewrite Hw. cbn [ASSERT mbind outcome_bind]. rewrite Hpk. cbn [mbind outcome_bind].
    pose proof (zlen_pid_bytes p' true) as Hpl. change (packet_id_size true) with 8 in Hpl.
    eexists _, buf, hd, pt. split_and!; [done|rewrite length_app; lia| |done|lia|lia|].
    + apply Forall_app. split; [|done]. unfold pid_bytes. apply Forall_app. split; apply be_bytes_is_byte.
    + by rewrite take_pin_bytes.
Qed.

Lemma reserve_mac opt work hd hdr tl :
  enc_ready opt -> holds work hd hdr tl -> mac_size (kc_hmac (co_encrypt opt)) <= tl ->
  exists w mac_out junk, match kc_hmac (co_encrypt opt) with
    | None => Ret (work, 0)
    | Some m => match buf_write_alloc work (hmac_ctx_size m) with
                | (_, None) => Abort
                | (work, Some p) => Ret (work, p)
                end
    end = Ret (w, mac_out) /\ (kc_hmac (co_encrypt opt) <> None -> mac_out = hd + zlen hdr) /\
    zlen junk = mac_size (kc_hmac (co_encrypt opt)) /\ holds w hd (hdr ++ junk) (tl - mac_size (kc_hmac (co_encrypt opt))).
Proof.
  intros Hready Hw Hl. pose proof (er_hmac _ Hready) as Hm. unfold mac_size in *. destruct (kc_hmac (co_encrypt opt)) as [m|].
  - destruct (Hm m eq_refl) as [Hsz _]. destruct (buf_write_alloc_spec _ _ _ _ (hmac_ctx_size m) Hw) as (w & junk & -> & Hh & Hj); [lia|].
    by exists w, (hd + zlen hdr), junk.
  - exists work, 0, []. rewrite app_nil_r. split_and!; try done. eapply holds_eq; [done|done|done|lia].
Qed.

Lemma zlen_mac opt d : enc_ready opt -> zlen (mac_of (kc_hmac (co_encrypt opt)) d) = mac_size (kc_hmac (co_encrypt opt)).
Proof.
  intros [_ _ _ _ Hm]. unfold mac_of, mac_size. destruct (kc_hmac (co_encrypt opt)) as [m|]; [|done].
  by apply (Hm m eq_refl).
Qed.

Lemma encrypt_v1_cipher_spec now rnd opt ropt ek dk p' buf hd pt tl work hdw hdr tlw :
  enc_ready opt -> peers opt ropt ek dk -> cipher_ctx_mode ek = MODE_CBC \/ cipher_ctx_mode ek = MODE_OFB_CFB -> u32_ok now ->
  packet_id_send_update now (pid_send (pid_of opt)) (iv_pid_form opt ek) = (p', true) ->
  zlen rnd = cipher_ctx_iv_length ek -> Forall is_byte rnd -> 8 <= cipher_ctx_iv_length ek ->
  holds buf hd pt tl -> 8 <= hd -> pt <> [] -> holds work hdw hdr tlw ->
  mac_size (kc_hmac (co_encrypt opt)) + cipher_ctx_iv_length ek + 8 + zlen pt + cipher_ctx_block_size ek <= tlw ->
  exists w pkt, encrypt_v1_cipher now rnd ek buf work opt = Ret (w, set_pid_send opt p') /\
    holds w hdw (hdr ++ pkt) (tlw - zlen pkt) /\ pkt <> [] /\
    forall room, zlen pkt + cipher_ctx_block_size dk <= room -> room < BUF_SIZE_MAX ->
      v1_open ropt pkt room = Some (pt, Some (wire_id p' (iv_pid_form opt ek))).
Proof.
  intros Hready [Hek Hdk Hpair Hsane _ Hmac Hform] Hmode Hnow Hupd Hrl Hrb Hiv8 Hb Hhd Hne Hw Hroom.
  pose proof (er_sane _ Hready _ Hek) as Hes. pose proof (cs_iv _ Hes) as Hiv. unfold OPENVPN_MAX_IV_LENGTH in Hiv.
  pose proof (cs_block _ Hes) as Hblk. pose proof (cs_block _ Hsane) as Hblkd.
  pose proof (packet_id_send_update_spec now _ (iv_pid_form opt ek) (er_send _ Hready) Hnow) as Hspec. rewrite Hupd in Hspec.
  destruct Hspec as (Hp' & _). pose proof (enc_ready_set_pid _ _ Hready Hp') as Hready'.
  unfold encrypt_v1_cipher. destruct (reserve_mac _ _ _ _ _ Hready Hw) as (w & mo & junk & Hres & Hmo & Hj & Hw'); [lia|].
  rewrite Hres. cbn [mbind outcome_bind]. clear Hres.
  destruct (encrypt_v1_iv_spec now rnd opt ek p' buf hd pt tl Hready Hmode Hupd Hp' Hrl Hrb ltac:(lia) Hb Hhd)
    as (iv & b' & hd' & pt' & -> & Hivl & Hivb & Hb' & Hptl & Hpin). cbn [mbind outcome_bind negb].
  destruct (encrypt_v1_payload_spec (set_pid_send opt p') ek dk iv b' hd' pt' tl w hdw hdr junk _ mo Hready' Hek Hpair Hmode
              Hivl Hivb Hb' ltac:(destruct pt, pt'; simpl in *; done || lia) Hj Hmo Hw' ltac:(lia))
    as (w2 & ct & -> & Hct & Hw2 & d & d2 & p1 & d3 & p2 & Hr & Hu & Hf & Hpt).
  change (kc_hmac (co_encrypt (set_pid_send opt p'))) with (kc_hmac (co_encrypt opt)) in *.
  pose proof (zlen_mac opt (iv ++ ct) Hready) as Hml.
  eexists w2, _. split; [done|]. split; [|split].
  - eapply holds_eq; [exact Hw2|done|done|]. rewrite !length_app. lia.
  - intros E. apply (f_equal length) in E. rewrite !length_app in E. simpl in E. lia.
  - intros room Hr1 Hr2. unfold v1_open. rewrite (mac_opens _ _ _ Hmac) by (intros m Hm dd; by apply (er_hmac _ Hready m Hm)).
    cbn [mbind option_bind]. rewrite Hdk, Hform. rewrite !length_app in Hr1.
    rewrite (v1_decipher_wire _ dk iv ct room d d2 p1 d3 p2), (cp_mode _ _ Hpair), Hpt;
      [|rewrite (cp_iv _ _ Hpair); lia|done|done|done|done|unfold fits; lia].
    rewrite <- Hpin. unfold iv_pid_form. by destruct Hmode as [E|E]; rewrite E.
Qed.

Lemma buf_prepend_space b hd c tl n :
  holds b hd c tl -> 0 <= n <= hd ->
  exists b' junk, buf_prepend b n = (b', Some (hd - n)) /\ holds b' (hd - n) (junk ++ c) tl /\ zlen junk = n.
Proof.
  intros Hh Hn. holds_facts Hh. destruct Hh as (blk & Hok & Ho & Hc & Ht). pose proof Hok as [Hd Hof Hle Hca Hbl Hm Hby].
  unfold buf_prepend. rewrite Hval. destruct (_ || _) eqn:E; [lia|]. set (b' := set_offset_len _ _ _).
  assert (Hok' : buf_ok b' blk) by (split; simpl; done || lia).
  exists b', (slice blk (hd - n) n). split_and!.
  - f_equal. unfold buf_bptr, buf_valid, buf_defined. simpl. rewrite Hd. simpl. destruct (0 <=? _) eqn:E2; [by rewrite Ho|lia].
  - eapply holds_intro; [done|simpl; lia| |simpl; lia]. simpl. rewrite Ho, Z.add_comm, slice_app_split by lia.
    f_equal. replace (hd - n + n) with hd by lia. rewrite <- Ho. by rewrite <- (buf_ok_content _ _ Hok).
  - apply zlen_slice; lia.
Qed.

Lemma reserve_mac_front opt buf hd c tl :
  enc_ready opt -> holds buf hd c tl -> mac_size (kc_hmac (co_encrypt opt)) <= hd ->
  exists b mac_out junk, match kc_hmac (co_encrypt opt) with
    | None => Ret (buf, 0)
    | Some m => match buf_prepend buf (hmac_ctx_size m) with
                | (_, None) => Abort
                | (b, Some p) => Ret (b, p)
                end
    end = Ret (b, mac_out) /\ (kc_hmac (co_encrypt opt) <> None -> mac_out = hd - mac_size (kc_hmac (co_encrypt opt))) /\
    zlen junk = mac_size (kc_hmac (co_encrypt opt)) /\ holds b (hd - mac_size (kc_hmac (co_encrypt opt))) (junk ++ c) tl.
Proof.
  intros Hready Hb Hl. pose proof (er_hmac _ Hready) as Hm. unfold mac_size in *. destruct (kc_hmac (co_encrypt opt)) as [m|].
  - destruct (Hm m eq_refl) as [Hsz _]. destruct (buf_prepend_space _ _ _ _ (hmac_ctx_size m) Hb) as (b & junk & -> & Hh & Hj); [lia|].
    by exists b, (hd - hmac_ctx_size m), junk.
  - exists buf, 0, []. split_and!; try done. eapply holds_eq; [done|lia|done|done].
Qed.

(** What the work buffer contributes when nothing is encrypted. *)
Definition carries_header (work : buffer) (hdr : bytes) : Prop :=
  buf_len work = zlen hdr /\ Forall is_byte hdr /\ (hdr <> [] -> buf_bytes work = Ret hdr).

Lemma holds_carries work hd hdr tl : holds work hd hdr tl -> carries_header work hdr.
Proof.
  intros Hw. split; [by apply (buf_len_holds _ _ _ _ Hw)|]. split; [by eapply holds_bytes|]. intros _. by eapply buf_bytes_spec.
Qed.

Lemma prepend_header buf hd c tl work hdr :
  holds buf hd c tl -> carries_header work hdr -> zlen hdr <= hd ->
  exists b ok, (if buf_len work =? 0 then Ret (buf, true) else w ← buf_bytes work; buf_write_prepend buf w) = Ret (b, ok : bool) /\
    holds b (hd - zlen hdr) (hdr ++ c) tl.
Proof.
  intros Hb (Hwl & Hwb & Hw) Hl. rewrite Hwl. destruct (zlen hdr =? 0) eqn:E.
  - destruct hdr; [|simpl in E; lia]. exists buf, true. split; [done|]. eapply holds_eq; [done|simpl; lia|done|done].
  - rewrite Hw by (intros ->; simpl in E; lia). cbn [mbind outcome_bind].
    destruct (buf_write_prepend_spec _ _ _ _ hdr Hb Hwb Hl) as (b & -> & Hb'). by exists b, true.
Qed.

Lemma encrypt_v1_plain_spec now opt ropt p' buf hd pt tl work hdr :
  enc_ready opt -> kc_cipher (co_decrypt ropt) = None -> co_ignore_packet_id ropt = false ->
  hmac_pair (kc_hmac (co_encrypt opt)) (kc_hmac (co_decrypt ropt)) ->
  opt_long_form (co_replay ropt) = opt_long_form (co_replay opt) -> u32_ok now ->
  packet_id_send_update now (pid_send (pid_of opt)) (opt_long_form (co_replay opt)) = (p', true) ->
  holds buf hd pt tl -> carries_header work hdr -> zlen hdr + mac_size (kc_hmac (co_encrypt opt)) + 8 <= hd ->
  exists w pkt, encrypt_v1_plain now buf work opt = Ret (w, set_pid_send opt p') /\
    holds w (hd - zlen pkt + zlen pt - zlen hdr) (hdr ++ pkt) tl /\ pkt <> [] /\
    (exists mac, pkt = mac ++ pid_bytes p' (opt_long_form (co_replay opt)) ++ pt /\ zlen mac = mac_size (kc_hmac (co_encrypt opt))) /\
    forall room, v1_open ropt pkt room = Some (pt, Some (wire_id p' (opt_long_form (co_replay opt)))).
Proof.
  intros Hready Hdk Hign Hmac Hform Hnow Hupd Hb Hw Hroom. pose proof (er_hmac _ Hready) as Hms. set (lf := opt_long_form (co_replay opt)) in *.
  pose proof (packet_id_send_update_spec now _ lf (er_send _ Hready) Hnow) as Hspec. rewrite Hupd in Hspec.
  destruct Hspec as (Hp' & _). pose proof (enc_ready_set_pid _ _ Hready Hp') as Hready'.
  assert (Hsz : 0 < packet_id_size lf <= 8) by (unfold packet_id_size; case_match; lia).
  assert (Hms0 : 0 <= mac_size (kc_hmac (co_encrypt opt))).
  { unfold mac_size. destruct (kc_hmac (co_encrypt opt)) as [m|]; [|lia]. destruct (Hms m eq_refl). lia. }
  unfold encrypt_v1_plain. rewrite (er_pid _ Hready). fold lf.
  destruct (packet_id_write_prepend _ _ _ _ _ _ _ _ Hupd Hb ltac:(lia)) as (b1 & -> & Hb1). cbn [mbind outcome_bind negb].
  destruct (reserve_mac_front _ _ _ _ _ Hready Hb1) as (b2 & mo & junk & -> & Hmo & Hj & Hb2); [lia|]. cbn [mbind outcome_bind].
  destruct (prepend_header _ _ _ _ _ _ Hb2 Hw) as (b3 & ok & -> & Hb3); [lia|]. cbn [mbind outcome_bind].
  destruct (hmac_sign_spec (set_pid_send opt p') b3 _ hdr junk _ _ Hready' Hj Hb3) as (w & Hs & Hhw).
  change (kc_hmac (co_encrypt (set_pid_send opt p'))) with (kc_hmac (co_encrypt opt)) in *.
  holds_facts Hb1. specialize (Hs mo ltac:(intros Hne; rewrite (Hmo Hne); lia)).
  match type of Hs with hmac_sign _ _ ?x _ = _ => replace (boffset b1) with x by lia end. rewrite Hs. cbn [mbind outcome_bind].
  pose proof (zlen_pid_bytes p' lf) as Hpl. pose proof (zlen_mac opt (pid_bytes p' lf ++ pt) Hready) as Hml.
  eexists w, _. split; [done|]. split; [eapply holds_eq; [exact Hhw| |done|done]; rewrite !length_app; lia|]. split_and!.
  - intros E. apply (f_equal length) in E. rewrite !length_app in E. simpl in E. lia.
  - by eexists.
  - intros room. unfold v1_open. rewrite (mac_opens _ _ _ Hmac) by (intros m Hm dd; by apply (er_hmac _ Hready m Hm)).
    cbn [mbind option_bind]. rewrite Hdk, Hform, Hign. fold lf. by rewrite take_pin_bytes.
Qed.

End data_channel.
