(* ===== verification/DataTunnel.v ===== *)
(** * Both ends of the data channel (openvpn crypto.c)

    [openvpn_encrypt] at one end and [openvpn_decrypt] at the other: what a
    packet contains ([open_packet]), the receiver over any sequence of packets
    ([recv_run]) and its abstract description ([spec_recv]), the round trip, and
    what happens to forged packets.  The cipher and HMAC at the end show that
    the laws the theorems rely on can hold. *)

From S2P Require Import Prelude Buffer CircList PacketId ReplayFilter DataChannel.
From stdpp Require Import prelude.
From Stdlib Require Import ZArith Lia ZifyBool.

Local Open Scope Z_scope.

Section tunnel.
Context {K M : Type} `{!CipherOps K} `{!HmacOps M}.
Implicit Types opt ropt : co K M.

(** ** Both ends of a tunnel *)

(** What a packet [pkt] behind a header [pre] contains, for the holder of the
    keys in [opt] with [room] bytes for the plaintext. *)
Definition open_packet opt (pre pkt : bytes) (room : Z) : option (bytes * option packet_id_net) :=
  match kc_cipher (co_decrypt opt) with
  | Some k => if decide (cipher_ctx_mode k = MODE_AEAD) then aead_open k (kc_implicit_iv (co_decrypt opt)) pre pkt room
              else v1_open opt pkt room
  | None => v1_open opt pkt room
  end.

Lemma openvpn_decrypt_decrypts now headroom buf work wblk opt H hd pre pkt tl :
  dec_ready opt H -> behind buf hd pre pkt tl -> pkt <> [] -> buf_ok work wblk -> 0 <= headroom <= bcapacity work ->
  exists r, openvpn_decrypt now headroom buf work (Some opt) (hd - zlen pre) = ('(b, o, ok) ← r; Ret (b, Some o, ok)) /\
    decrypts now opt (open_packet opt pre pkt (bcapacity work - headroom)) r.
Proof.
  intros Hready Hb Hne Hw Hhead. unfold openvpn_decrypt, open_packet.
  pose proof (behind_holds _ _ _ _ _ Hb) as Hh. pose proof (buf_len_holds _ _ _ _ Hh) as [_ Hl].
  rewrite (proj2 (Z.ltb_lt 0 (blen buf))) by (destruct pkt; [done|cbn [length] in Hl; lia]).
  unfold cipher_ctx_mode_is. destruct (kc_cipher (co_decrypt opt)) as [k|] eqn:Ek.
  - destruct (decide (cipher_ctx_mode k = MODE_AEAD)) as [E|E].
    + rewrite bool_decide_true by done. eexists. split; [done|]. by eapply decrypt_aead_spec.
    + rewrite bool_decide_false by done. eexists. split; [done|]. eapply decrypt_v1_spec; try done; [|by exists wblk].
      rewrite Ek. by apply bool_decide_false.
  - eexists. split; [done|]. eapply decrypt_v1_spec; try done; rewrite Ek; done.
Qed.

(** Keys, packet id format and sizes at both ends fit together. *)
Definition tunnel opt ropt : Prop :=
  hmac_pair (kc_hmac (co_encrypt opt)) (kc_hmac (co_decrypt ropt)) /\
  opt_long_form (co_replay ropt) = opt_long_form (co_replay opt) /\ co_ignore_packet_id ropt = false /\
  kc_implicit_iv (co_decrypt ropt) = kc_implicit_iv (co_encrypt opt) /\
  match kc_cipher (co_encrypt opt), kc_cipher (co_decrypt ropt) with
  | Some ek, Some dk =>
      cipher_pair ek dk /\
      match cipher_ctx_mode ek with
      | MODE_AEAD => 12 <= cipher_ctx_iv_length ek /\ zlen (kc_implicit_iv (co_encrypt opt)) = cipher_ctx_iv_length ek - 4
      | MODE_OTHER => False
      | _ => 8 <= cipher_ctx_iv_length ek
      end
  | None, None => True
  | _, _ => False
  end.

(** The form of the packet ids [openvpn_encrypt] writes. *)
Definition pid_form opt : bool :=
  match kc_cipher (co_encrypt opt) with Some ek => iv_pid_form opt ek | None => opt_long_form (co_replay opt) end.

(** Space for what encryption adds, and the block decryption may need on top. *)
Definition overhead opt : Z :=
  mac_size (kc_hmac (co_encrypt opt)) +
  match kc_cipher (co_encrypt opt) with Some ek => cipher_ctx_iv_length ek + 8 + 16 + cipher_ctx_block_size ek | None => 8 end.
Definition slack opt : Z :=
  match kc_cipher (co_decrypt opt) with Some dk => cipher_ctx_block_size dk | None => 0 end.

(** [rnd] can be what [prng_bytes] delivers for the IV. *)
Definition iv_random opt (rnd : bytes) : Prop :=
  Forall is_byte rnd /\ match kc_cipher (co_encrypt opt) with Some ek => zlen rnd = cipher_ctx_iv_length ek | None => True end.

Lemma mac_size_nonneg opt : enc_ready opt -> 0 <= mac_size (kc_hmac (co_encrypt opt)).
Proof.
  intros [_ _ _ _ Hm]. unfold mac_size. destruct (kc_hmac (co_encrypt opt)) as [m|]; [|lia]. destruct (Hm m eq_refl). lia.
Qed.

Lemma encrypt_opens now rnd opt ropt H p' buf hd pt tl work hdw hdr tlw :
  enc_ready opt -> dec_ready ropt H -> tunnel opt ropt -> u32_ok now -> iv_random opt rnd ->
  packet_id_send_update now (pid_send (pid_of opt)) (pid_form opt) = (p', true) ->
  holds buf hd pt tl -> pt <> [] -> holds work hdw hdr tlw ->
  zlen hdr + overhead opt <= hd -> zlen pt + overhead opt <= tlw ->
  exists b hd' tl' pkt, openvpn_encrypt now rnd buf work (Some opt) = Ret (b, Some (set_pid_send opt p')) /\
    holds b hd' (hdr ++ pkt) tl' /\ pkt <> [] /\
    forall room, zlen pkt + slack ropt <= room -> room < BUF_SIZE_MAX ->
      open_packet ropt hdr pkt room = Some (pt, Some (wire_id p' (pid_form opt))).
Proof.
  intros Hready Hrr (Hmac & Hform & Hign & Himpl & Hc) Hnow [Hrb Hrl] Hupd Hb Hne Hw Hhd Htl.
  pose proof (mac_size_nonneg _ Hready) as Hms. pose proof (buf_len_holds _ _ _ _ Hb) as [_ Hl].
  pose proof (er_sane _ Hready) as Hes. pose proof (dr_cipher _ _ Hrr) as Hds.
  unfold openvpn_encrypt, openvpn_encrypt_v1, open_packet, overhead, slack, pid_form, cipher_ctx_mode_is in *.
  rewrite (proj2 (Z.ltb_lt 0 (blen buf))) by (destruct pt; [done|cbn [length] in Hl; lia]).
  destruct (kc_cipher (co_encrypt opt)) as [ek|] eqn:Ek, (kc_cipher (co_decrypt ropt)) as [dk|] eqn:Edk; try done.
  - destruct Hc as [Hpair Hsz], Hds as [Hsane _]. pose proof (cp_mode _ _ Hpair) as Em. pose proof (Hes _ eq_refl) as Hek.
    pose proof (cs_block _ Hek). pose proof (cs_iv _ Hek). rewrite Em.
    destruct (decide (cipher_ctx_mode ek = MODE_AEAD)) as [E|E].
    + rewrite bool_decide_true by done. unfold iv_pid_form in *. rewrite E in Hsz, Hupd |- *. destruct Hsz as [Hiv12 Hil].
      destruct (encrypt_aead_spec now opt ek dk p' buf hd pt tl work hdw hdr tlw Hready Ek E Hpair Hsane Hnow Hupd Hiv12 Hil Hb Hne Hw)
        as (b & rest & -> & Hb' & Hopen); [lia|]. cbn [mbind outcome_bind].
      eexists b, _, _, _. split; [done|]. split; [exact Hb'|]. split; [done|]. intros room Hr1 Hr2. rewrite Himpl. apply Hopen; [|done].
      rewrite length_app, length_be_bytes in Hr1. lia.
    + rewrite bool_decide_false by done.
      assert (Hmode : cipher_ctx_mode ek = MODE_CBC \/ cipher_ctx_mode ek = MODE_OFB_CFB) by (destruct (cipher_ctx_mode ek); auto; done).
      destruct (encrypt_v1_cipher_spec now rnd opt ropt ek dk p' buf hd pt tl work hdw hdr tlw) as (b & pkt & -> & Hb' & Hp & Hopen);
        try done; [destruct Hmode as [E'|E']; by rewrite E' in Hsz|lia|lia|]. cbn [mbind outcome_bind]. eexists b, _, _, _. by split.
  - destruct (encrypt_v1_plain_spec now opt ropt p' buf hd pt tl work hdr) as (b & pkt & -> & Hb' & Hp & _ & Hopen);
      try done; [by eapply holds_carries|lia|]. cbn [mbind outcome_bind]. eexists b, _, _, _. split_and!; [done|exact Hb'|done|]. auto.
Qed.

(** *** Packet ids of opened packets, and the replay check on the options *)

Lemma be_val_take4 l : Forall is_byte l -> u32_ok (be_val (take 4 l)).
Proof.
  intros Hl. pose proof (be_val_range (take 4 l) (Forall_take _ _ _ Hl)) as Hr.
  assert (256 ^ zlen (take 4 l) <= 256 ^ 4) by (apply Z.pow_le_mono_r; [lia|rewrite length_take; lia]).
  unfold u32_ok. change (2 ^ 32) with (256 ^ 4). lia.
Qed.

Lemma take_pin_u32 lf c rest pin : Forall is_byte c -> take_pin lf c = Some (rest, pin) -> u32_ok (net_id pin).
Proof.
  intros Hc Ht. unfold take_pin in Ht. pose proof (be_val_take4 c Hc).
  destruct lf; destruct (_ <? _) in Ht; [done| |done|]; by injection Ht as <- <-.
Qed.

Lemma v1_decipher_pin k lf pkt room pt pin :
  cipher_sane k -> Forall is_byte pkt -> v1_decipher k lf pkt room = Some (pt, Some pin) -> u32_ok (net_id pin).
Proof.
  intros Hsane Hb Ho. unfold v1_decipher in Ho. destruct (_ <? _) in Ho; [done|].
  apply bind_Some in Ho as (s & Hr & Ho). destruct (fits _ _) in Ho; [|done].
  apply bind_Some in Ho as ([s1 o1] & Hu & Ho). apply bind_Some in Ho as ([s2 o2] & Hf & Ho).
  destruct (cs_out _ Hsane _ s s _ s1 o1 Hr ltac:(by left) ltac:(by apply Forall_drop) Hu) as (Ho1 & _ & Hfin).
  destruct (Hfin s2 o2 ltac:(by left)) as [Ho2 _].
  assert (Forall is_byte (o1 ++ o2)) by (by apply Forall_app). assert (Forall is_byte (take (Z.to_nat (cipher_ctx_iv_length k)) pkt)) by (by apply Forall_take).
  destruct (cipher_ctx_mode k); apply bind_Some in Ho as ([c q] & Hp & Ho); injection Ho as <- <-; (eapply take_pin_u32; [|exact Hp]); done.
Qed.

Lemma open_packet_pin opt H pre pkt room pt pin :
  dec_ready opt H -> Forall is_byte pkt -> open_packet opt pre pkt room = Some (pt, Some pin) -> u32_ok (net_id pin).
Proof.
  intros Hready Hb Ho. pose proof (dr_cipher _ _ Hready) as Hc. unfold open_packet in Ho.
  assert (Hv1 : v1_open opt pkt room = Some (pt, Some pin) -> u32_ok (net_id pin)).
  { clear Ho. intros Ho. unfold v1_open in Ho. apply bind_Some in Ho as (rest & Ha & Ho).
    assert (Hrb : Forall is_byte rest).
    { unfold v1_auth in Ha. destruct (kc_hmac (co_decrypt opt)); [|by injection Ha as <-].
      destruct (_ <? _) in Ha; [done|]. case_decide; [|done]. injection Ha as <-. by apply Forall_drop. }
    destruct (kc_cipher (co_decrypt opt)); [by eapply v1_decipher_pin; [apply Hc| |]|].
    apply bind_Some in Ho as ([c q] & Hp & Ho). destruct (co_ignore_packet_id opt); [done|]. injection Ho as <- <-. (eapply take_pin_u32; [|exact Hp]); done. }
  destruct (kc_cipher (co_decrypt opt)) as [k|]; [|by apply Hv1]. case_decide; [|by apply Hv1].
  unfold aead_open in Ho. destruct (_ <? _) in Ho; [done|]. apply bind_Some in Ho as (s & _ & Ho). unfold aead_payload in Ho.
  destruct (_ <? _) in Ho; [done|]. destruct (fits _ _) in Ho; [|done]. apply bind_Some in Ho as (s1 & _ & Ho).
  apply bind_Some in Ho as ([s2 o1] & _ & Ho). apply bind_Some in Ho as ([s3 o2] & _ & Ho). injection Ho as <- <-. by apply be_val_take4.
Qed.

(** The two options differ in the replay state only. *)
Definition same_keys opt opt' : Prop :=
  co_decrypt opt' = co_decrypt opt /\ co_ignore_packet_id opt' = co_ignore_packet_id opt /\
  opt_long_form (co_replay opt') = opt_long_form (co_replay opt).

Lemma same_keys_open opt opt' pre pkt room : same_keys opt opt' -> open_packet opt' pre pkt room = open_packet opt pre pkt room.
Proof. intros (Hd & Hi & Hf). unfold open_packet, v1_open. by rewrite Hd, Hi, Hf. Qed.

Lemma check_replay_keys now opt pin opt' ok : check_replay now opt pin = Ret (opt', ok) -> same_keys opt opt'.
Proof.
  unfold check_replay, crypto_check_replay. intros H. apply bind_Ret_inv in H as ([r b] & H & E). injection E as <- <-.
  apply bind_Ret_inv in H as (r1 & _ & H). apply bind_Ret_inv in H as ([r2 ok2] & _ & H). destruct ok2.
  - apply bind_Ret_inv in H as (r3 & _ & H). by injection H as <- <-.
  - by injection H as <- <-.
Qed.

Lemma check_replay_step now opt H pin :
  dec_ready opt H -> arrival_ok (now, pin) ->
  exists opt' ok, check_replay now opt pin = Ret (opt', ok) /\ dec_ready opt' (if (ok : bool) then pin :: H else H) /\
    same_keys opt opt' /\ (ok = true -> pin ∉ H).
Proof.
  intros Hready Ha. destruct (crypto_check_replay_step _ _ now pin (dr_rec _ _ Hready) Ha)
    as (r & ok & Hrun & Hinv & _ & _ & Hok & _). exists (set_replay opt r), ok.
  assert (Hchk : check_replay now opt pin = Ret (set_replay opt r, ok)) by (unfold check_replay; by rewrite Hrun).
  pose proof (check_replay_keys _ _ _ _ _ Hchk) as Hk. destruct Hready. split_and!; [done|by split|done|intros; by apply Hok].
Qed.

(** ** A receiver over any sequence of packets

    Each arrival is the clock, the header in front of the packet (what AEAD
    authenticates with it) and the packet; the result is what is delivered. *)

Definition rx_buffer (hdr pkt : bytes) : buffer := mkbuf (zlen hdr + zlen pkt) (zlen hdr) (zlen pkt) (Some (hdr ++ pkt)).

Fixpoint recv_run (headroom : Z) (work : buffer) opt (arrivals : list (Z * bytes * bytes)) : outcome (co K M * list bytes) :=
  match arrivals with
  | [] => Ret (opt, [])
  | (now, hdr, pkt) :: rest =>
      '(b, o, ok) ← openvpn_decrypt now headroom (rx_buffer hdr pkt) work (Some opt) 0;
      opt ← must o;
      if (ok : bool) then
        d ← buf_bytes b;
        '(opt, out) ← recv_run headroom work opt rest;
        Ret (opt, d :: out)
      else recv_run headroom work opt rest
  end.

Definition packet_ok (a : Z * bytes * bytes) : Prop :=
  let '(now, hdr, pkt) := a in
  1 < now /\ Forall is_byte (hdr ++ pkt) /\ pkt <> [] /\ zlen hdr + zlen pkt < BUF_SIZE_MAX.

Lemma rx_buffer_behind now hdr pkt : packet_ok (now, hdr, pkt) -> behind (rx_buffer hdr pkt) (zlen hdr) hdr pkt 0.
Proof.
  intros (_ & Hb & _ & Hl). split; [done|]. split; [done|]. rewrite Z.sub_diag.
  eapply holds_intro with (blk := hdr ++ pkt); simpl; [|lia| |lia].
  - split; simpl; rewrite ?length_app; try done; lia.
  - apply slice_full. rewrite length_app. lia.
Qed.

(** One arrival: what is delivered, and what the receiver knows afterwards. *)
Lemma recv_one headroom work wblk opt H now hdr pkt :
  dec_ready opt H -> buf_ok work wblk -> 0 <= headroom <= bcapacity work -> packet_ok (now, hdr, pkt) ->
  let deliver pt opt' := exists b hd tl, openvpn_decrypt now headroom (rx_buffer hdr pkt) work (Some opt) 0 = Ret (b, Some opt', true) /\
                            holds b hd pt tl in
  let reject opt' := exists b, openvpn_decrypt now headroom (rx_buffer hdr pkt) work (Some opt) 0 = Ret (b, Some opt', false) /\ blen b = 0 in
  match open_packet opt hdr pkt (bcapacity work - headroom) with
  | None => reject opt
  | Some (pt, None) => deliver pt opt
  | Some (pt, Some pin) =>
      arrival_ok (now, pin) /\ exists opt' ok, check_replay now opt pin = Ret (opt', ok) /\ same_keys opt opt' /\
        dec_ready opt' (if (ok : bool) then pin :: H else H) /\ (ok = true -> pin ∉ H) /\
        if ok then deliver pt opt' else reject opt'
  end.
Proof.
  intros Hready Hw Hhead Hp. pose proof (rx_buffer_behind _ _ _ Hp) as Hb. destruct Hp as (Hnow & Hby & Hne & Hl).
  destruct (openvpn_decrypt_decrypts now headroom _ work wblk opt H _ _ _ _ Hready Hb Hne Hw Hhead) as (r & Hr & Hd).
  rewrite Z.sub_diag in Hr. cbv zeta. rewrite Hr. destruct (open_packet _ _ _ _) as [[pt [pin|]]|] eqn:Eo; simpl in Hd.
  - assert (Ha : arrival_ok (now, pin)).
    { split; [done|]. apply Forall_app in Hby as [_ Hby]. by eapply open_packet_pin. }
    split; [done|]. destruct (check_replay_step now opt H pin Hready Ha) as (opt' & ok & Hchk & Hr' & Hk & Hnew).
    exists opt', ok. split_and!; try done. specialize (Hd _ _ Hchk). destruct ok.
    + destruct Hd as (w & hd & tl & -> & Hh). by eexists _, _, _.
    + destruct Hd as (w & -> & Hl0 & _). by eexists _.
  - destruct Hd as (w & hd & tl & -> & Hh). by eexists _, _, _.
  - destruct Hd as (w & -> & Hl0 & _). by eexists _.
Qed.

(** What the receiver is for: packets that open and pass the filter that
    remembers the whole history are delivered, in the order of arrival. *)
Fixpoint spec_recv (s : replay_spec) opt (room : Z) (arrivals : list (Z * bytes * bytes)) : list bytes :=
  match arrivals with
  | [] => []
  | (now, hdr, pkt) :: rest =>
      match open_packet opt hdr pkt room with
      | Some (pt, Some pin) => (if spec_accepts now s pin then [pt] else []) ++ spec_recv (spec_step now s pin) opt room rest
      | Some (pt, None) => pt :: spec_recv s opt room rest
      | None => spec_recv s opt room rest
      end
  end.

Lemma spec_recv_keys opt opt' room arrivals : same_keys opt opt' ->
  forall s, spec_recv s opt' room arrivals = spec_recv s opt room arrivals.
Proof.
  intros Hk. induction arrivals as [|[[now hdr] pkt] rest IH]; intros s; simpl; [done|]. rewrite (same_keys_open _ _ _ _ _ Hk).
  destruct (open_packet opt hdr pkt room) as [[pt [pin|]]|]; rewrite ?IH; done.
Qed.

Lemma recv_run_spec headroom work wblk arrivals : forall opt s,
  dec_ready opt (sp_seen s) -> replay_sim (co_replay opt) s -> buf_ok work wblk -> 0 <= headroom <= bcapacity work -> Forall packet_ok arrivals ->
  exists opt', recv_run headroom work opt arrivals = Ret (opt', spec_recv s opt (bcapacity work - headroom) arrivals).
Proof.
  induction arrivals as [|[[now hdr] pkt] rest IH]; intros opt s Hready Hsim Hw Hhead Hall; [by eexists|].
  apply Forall_cons in Hall as [Hp Hall]. cbn [recv_run spec_recv].
  pose proof (recv_one headroom work wblk opt _ now hdr pkt Hready Hw Hhead Hp) as H1. cbv zeta in H1.
  destruct (open_packet _ _ _ _) as [[pt [pin|]]|].
  - destruct H1 as (Ha & opt1 & ok & Hchk & Hk & Hr1 & _ & H1).
    destruct (replay_sim_step _ s now pin Hsim Ha) as (r & Hrun & Hsim1).
    unfold check_replay in Hchk. rewrite Hrun in Hchk. cbn [mbind outcome_bind] in Hchk. injection Hchk as <- <-.
    destruct (IH (set_replay opt r) (spec_step now s pin)) as (opt' & Hrest); try done.
    { by rewrite sp_seen_step. }
    rewrite (spec_recv_keys _ _ _ _ Hk) in Hrest. destruct (spec_accepts now s pin).
    + destruct H1 as (b & hd & tl & -> & Hh). cbn [must mbind outcome_bind]. rewrite (buf_bytes_spec _ _ _ _ Hh). cbn [mbind outcome_bind].
      rewrite Hrest. cbn [mbind outcome_bind]. by eexists.
    + destruct H1 as (b & -> & _). cbn [must mbind outcome_bind]. rewrite Hrest. by eexists.
  - destruct H1 as (b & hd & tl & -> & Hh). cbn [must mbind outcome_bind]. rewrite (buf_bytes_spec _ _ _ _ Hh). cbn [mbind outcome_bind].
    destruct (IH opt s) as (opt' & ->); try done. by eexists.
  - destruct H1 as (b & -> & _). cbn [must mbind outcome_bind]. destruct (IH opt s) as (opt' & ->); try done. by eexists.
Qed.

(** Every delivered packet opened with the keys, and its id was new. *)
Lemma recv_run_safe headroom work wblk arrivals : forall opt H,
  dec_ready opt H -> co_ignore_packet_id opt = false -> buf_ok work wblk -> 0 <= headroom <= bcapacity work -> Forall packet_ok arrivals ->
  exists opt' acc, recv_run headroom work opt arrivals = Ret (opt', fst <$> acc) /\ NoDup (snd <$> acc) /\
    (forall pin, pin ∈ snd <$> acc -> pin ∉ H) /\
    Forall (fun d => exists now hdr pkt, (now, hdr, pkt) ∈ arrivals /\
              open_packet opt hdr pkt (bcapacity work - headroom) = Some (d.1, Some d.2)) acc.
Proof.
  induction arrivals as [|[[now hdr] pkt] rest IH]; intros opt H Hready Hign Hw Hhead Hall.
  { exists opt, []. split_and!; [done|constructor| |constructor]. intros pin []%elem_of_nil. }
  apply Forall_cons in Hall as [Hp Hall]. cbn [recv_run].
  assert (Hmono : forall opt1 (acc : list (bytes * packet_id_net)), same_keys opt opt1 ->
    Forall (fun d => exists now hdr pkt, (now, hdr, pkt) ∈ rest /\
              open_packet opt1 hdr pkt (bcapacity work - headroom) = Some (d.1, Some d.2)) acc ->
    Forall (fun d => exists now0 hdr0 pkt0, (now0, hdr0, pkt0) ∈ (now, hdr, pkt) :: rest /\
              open_packet opt hdr0 pkt0 (bcapacity work - headroom) = Some (d.1, Some d.2)) acc).
  { intros opt1 acc Hk Hf. eapply Forall_impl; [exact Hf|]. intros d (n & h & p & Hin & Ho). exists n, h, p. split; [by right|].
    by rewrite <- (same_keys_open _ _ _ _ _ Hk). }
  pose proof (recv_one headroom work wblk opt H now hdr pkt Hready Hw Hhead Hp) as H1. cbv zeta in H1.
  destruct (open_packet opt hdr pkt _) as [[pt [pin|]]|] eqn:Eo.
  - destruct H1 as (Ha & opt1 & ok & Hchk & Hk & Hr1 & Hnew & H1).
    destruct (IH opt1 _ Hr1 ltac:(by rewrite (proj1 (proj2 Hk))) Hw Hhead Hall) as (opt' & acc & Hrun & Hnd & Hout & Hacc). destruct ok.
    + destruct H1 as (b & hd & tl & -> & Hh). cbn [must mbind outcome_bind]. rewrite (buf_bytes_spec _ _ _ _ Hh). cbn [mbind outcome_bind].
      rewrite Hrun. cbn [mbind outcome_bind]. exists opt', ((pt, pin) :: acc). split_and!; [done| | |].
      * constructor; [|done]. intros Hin. apply (Hout _ Hin). by left.
      * intros q [->|Hin]%elem_of_cons; [by apply Hnew|]. intros Hq. by apply (Hout _ Hin), elem_of_cons; right.
      * constructor; [|by eapply Hmono]. exists now, hdr, pkt. split; [by left|done].
    + destruct H1 as (b & -> & _). cbn [must mbind outcome_bind]. rewrite Hrun. exists opt', acc. split_and!; try done. by eapply Hmono.
  - exfalso. clear -Eo Hign. unfold open_packet, aead_open, aead_payload, v1_open, v1_decipher in Eo. rewrite Hign in Eo.
    repeat case_match; repeat (apply bind_Some in Eo as (? & ? & Eo); repeat case_match); simplify_eq.
  - destruct H1 as (b & -> & _). cbn [must mbind outcome_bind].
    destruct (IH opt H Hready Hign Hw Hhead Hall) as (opt' & acc & Hrun & Hnd & Hout & Hacc). rewrite Hrun.
    exists opt', acc. split_and!; try done. eapply Hmono; [|exact Hacc]. done.
Qed.

(** ** Properties *)

(** C1. The whole data channel receiver, with every replay window and age limit
    and in TCP mode: whatever arrives, no assertion fires, and delivered are
    exactly the packets that open with the keys and whose ids the filter that
    remembers the whole history accepts. *)
Theorem data_channel_refines headroom work wblk sb tb pid opt arrivals :
  0 <= sb <= MAX_SEQ_BACKTRACK -> 0 <= tb <= MAX_TIME_BACKTRACK ->
  packet_id_init sb tb = Ret pid -> pid_rec (pid_of opt) = pid_rec pid -> dec_ready opt [] ->
  buf_ok work wblk -> 0 <= headroom <= bcapacity work -> Forall packet_ok arrivals ->
  exists opt', recv_run headroom work opt arrivals =
                 Ret (opt', spec_recv (spec_init sb tb) opt (bcapacity work - headroom) arrivals).
Proof.
  intros Hsb Htb Hinit Hpid Hready Hw Hhead Hall. destruct (init_sim sb tb Hsb Htb) as (pid' & Hpid' & Hsim).
  assert (pid' = pid) as -> by congruence. unfold pid_of in Hpid.
  eapply recv_run_spec; try done. unfold replay_sim, opt_rec. by rewrite Hpid.
Qed.

(** C13. Authenticity and replay protection of the data channel, in UDP and TCP
    mode: no assertion fires, every delivered plaintext is the content of an
    arrived packet that opened with the keys, and no packet id is delivered
    twice. *)
Theorem data_channel_delivers_once headroom work wblk opt arrivals :
  dec_ready opt [] -> co_ignore_packet_id opt = false -> buf_ok work wblk -> 0 <= headroom <= bcapacity work ->
  Forall packet_ok arrivals ->
  exists opt' acc, recv_run headroom work opt arrivals = Ret (opt', fst <$> acc) /\ NoDup (snd <$> acc) /\
    Forall (fun d => exists now hdr pkt, (now, hdr, pkt) ∈ arrivals /\
              open_packet opt hdr pkt (bcapacity work - headroom) = Some (d.1, Some d.2)) acc.
Proof.
  intros Hready Hign Hw Hhead Hall.
  destruct (recv_run_safe headroom work wblk arrivals opt [] Hready Hign Hw Hhead Hall) as (opt' & acc & Hrun & Hnd & _ & Hacc). eauto.
Qed.

(** C10. Round trip of the data channel, for AEAD, CBC, OFB/CFB and no cipher, with
    or without HMAC: what [openvpn_encrypt] makes of a packet behind a header,
    [openvpn_decrypt] at the other end turns back, provided the window accepts
    the packet id; the sender has used a new packet id and the receiver has
    recorded it. *)
Theorem data_channel_roundtrip now rnd opt p' buf hd pt tl work hdw hdr tlw now' ropt s :
  enc_ready opt -> dec_ready ropt (sp_seen s) -> tunnel opt ropt -> u32_ok now -> iv_random opt rnd ->
  packet_id_send_update now (pid_send (pid_of opt)) (pid_form opt) = (p', true) ->
  holds buf hd pt tl -> pt <> [] -> holds work hdw hdr tlw ->
  zlen hdr + overhead opt <= hd -> zlen pt + overhead opt <= tlw ->
  replay_sim (co_replay ropt) s -> 1 < now' -> spec_accepts now' s (wire_id p' (pid_form opt)) = true ->
  exists b hd' tl' pkt, openvpn_encrypt now rnd buf work (Some opt) = Ret (b, Some (set_pid_send opt p')) /\
    holds b hd' (hdr ++ pkt) tl' /\
    forall headroom rbuf rhd rtl rwork wblk, behind rbuf rhd hdr pkt rtl -> buf_ok rwork wblk -> 0 <= headroom ->
      headroom + zlen pkt + slack ropt <= bcapacity rwork ->
      exists w whd wtl ropt', openvpn_decrypt now' headroom rbuf rwork (Some ropt) (rhd - zlen hdr) = Ret (w, Some ropt', true) /\
        holds w whd pt wtl /\
        replay_sim (co_replay ropt') (spec_step now' s (wire_id p' (pid_form opt))).
Proof.
  intros Hready Hrr Htun Hnow Hrnd Hupd Hb Hne Hw Hhd Htl Hsim Hnow' Hacc.
  destruct (encrypt_opens now rnd opt ropt _ p' buf hd pt tl work hdw hdr tlw Hready Hrr Htun Hnow Hrnd Hupd Hb Hne Hw Hhd Htl)
    as (b & hd' & tl' & pkt & Henc & Hb' & Hpne & Hopen).
  exists b, hd', tl', pkt. split; [done|]. split; [done|]. intros headroom rbuf rhd rtl rwork wblk Hrb Hrw Hh0 Hroom.
  assert (Hsl : 0 <= slack ropt).
  { unfold slack. pose proof (dr_cipher _ _ Hrr) as Hc. destruct (kc_cipher (co_decrypt ropt)); [by apply cs_block, Hc|lia]. }
  destruct (openvpn_decrypt_decrypts now' headroom rbuf rwork wblk ropt _ _ _ _ _ Hrr Hrb Hpne Hrw ltac:(lia)) as (r & -> & Hd).
  rewrite Hopen in Hd; [|lia|pose proof (ok_max _ _ Hrw); lia].
  pose proof (packet_id_send_update_spec now _ (pid_form opt) (er_send _ Hready) Hnow) as Hspec. rewrite Hupd in Hspec.
  destruct Hspec as ([Hid _] & _).
  destruct (replay_sim_step _ s now' (wire_id p' (pid_form opt)) Hsim) as (ro & Hrun & Hsim1); [done|].
  rewrite Hacc in Hrun. destruct (Hd (set_replay ropt ro) true) as (w & whd & wtl & -> & Hwh); [unfold check_replay; by rewrite Hrun|].
  by eexists w, whd, wtl, _.
Qed.

(** A packet that fails authentication: the HMAC over what follows it, or the
    AEAD tag over header, packet id and ciphertext. *)
Definition forged opt (hdr pkt : bytes) : Prop :=
  match kc_cipher (co_decrypt opt) with
  | Some k =>
      if decide (cipher_ctx_mode k = MODE_AEAD) then
        forall s s1 s2 o, cipher_ctx_reset k (take (Z.to_nat (cipher_ctx_iv_length k - zlen (kc_implicit_iv (co_decrypt opt)))) pkt
                                                ++ kc_implicit_iv (co_decrypt opt)) = Some s ->
          cipher_ctx_update_ad s (hdr ++ take 4 pkt) = Some s1 -> cipher_ctx_update s1 (drop 20 pkt) = Some (s2, o) ->
          cipher_ctx_final_check_tag s2 (take 16 (drop 4 pkt)) = None
      else exists m, kc_hmac (co_decrypt opt) = Some m /\
             hmac_ctx_digest m (drop (Z.to_nat (hmac_ctx_size m)) pkt) <> take (Z.to_nat (hmac_ctx_size m)) pkt
  | None => exists m, kc_hmac (co_decrypt opt) = Some m /\
              hmac_ctx_digest m (drop (Z.to_nat (hmac_ctx_size m)) pkt) <> take (Z.to_nat (hmac_ctx_size m)) pkt
  end.

Lemma forged_v1 opt m pkt room :
  kc_hmac (co_decrypt opt) = Some m ->
  hmac_ctx_digest m (drop (Z.to_nat (hmac_ctx_size m)) pkt) <> take (Z.to_nat (hmac_ctx_size m)) pkt -> v1_open opt pkt room = None.
Proof. intros Hm Hd. unfold v1_open, v1_auth. rewrite Hm. destruct (_ <? _); [done|]. by rewrite decide_False. Qed.

(** C29. A packet that fails authentication is refused with an empty buffer and
    leaves the receiver as it was: a forger cannot move the replay window. *)
Theorem data_channel_rejects_forgery now headroom buf work wblk opt H hd hdr pkt tl :
  dec_ready opt H -> behind buf hd hdr pkt tl -> pkt <> [] -> buf_ok work wblk -> 0 <= headroom <= bcapacity work ->
  forged opt hdr pkt ->
  exists b, openvpn_decrypt now headroom buf work (Some opt) (hd - zlen hdr) = Ret (b, Some opt, false) /\ blen b = 0 /\ buf_wf b.
Proof.
  intros Hready Hb Hne Hw Hhead Hforged.
  destruct (openvpn_decrypt_decrypts now headroom buf work wblk opt H _ _ _ _ Hready Hb Hne Hw Hhead) as (r & -> & Hd).
  assert (Hn : open_packet opt hdr pkt (bcapacity work - headroom) = None).
  { unfold open_packet, forged in *. destruct (kc_cipher (co_decrypt opt)) as [k|]; [case_decide|];
      [|destruct Hforged as (m & ? & ?); by eapply forged_v1..].
    unfold aead_open, aead_payload. destruct (_ <? _); [done|]. destruct (cipher_ctx_reset k _) as [s|] eqn:Er; [|done].
    cbn [mbind option_bind]. destruct (_ <? _); [done|]. destruct (fits _ _); [|done].
    destruct (cipher_ctx_update_ad s _) as [s1|] eqn:Ea; [|done]. cbn [mbind option_bind].
    destruct (cipher_ctx_update s1 _) as [[s2 o]|] eqn:Eu; [|done]. cbn [mbind option_bind].
    by rewrite (Hforged _ _ _ _ eq_refl Ea Eu). }
  rewrite Hn in Hd. destruct Hd as (b & -> & Hl & Hwf). by eexists.
Qed.

End tunnel.

(** ** A cipher and an HMAC

    Bytes are shifted by the key; CBC encryption appends a block, the AEAD tag
    and the HMAC are sums.  A session keeps what the tag is computed over. *)

Record shift_key := mkshift { sk_mode : cipher_mode; sk_encrypt : bool; sk_key : Z }.

Definition shift_by (n : Z) (d : bytes) : bytes := (fun b => (b + n) mod 256) <$> d.
Definition byte_sum (d : bytes) : Z := foldr Z.add 0 d.
Definition shift_tag (t : bytes) : bytes := be_bytes 16 (byte_sum t).

Definition shift_update (s : shift_key * bytes) (d : bytes) : option ((shift_key * bytes) * bytes) :=
  let (k, t) := s in
  if sk_encrypt k then let o := shift_by (sk_key k) d in Some ((k, t ++ o), o)
  else
    match sk_mode k with
    | MODE_CBC => if zlen d <? 16 then None
                  else Some ((k, t ++ d), shift_by (- sk_key k) (take (length d - 16) d))
    | _ => Some ((k, t ++ d), shift_by (- sk_key k) d)
    end.

Definition shift_final (s : shift_key * bytes) : option ((shift_key * bytes) * bytes) :=
  Some (s, if sk_encrypt s.1 && bool_decide (sk_mode s.1 = MODE_CBC) then replicate 16 0 else []).

Definition shift_iv_length (k : shift_key) : Z := match sk_mode k with MODE_AEAD => 12 | _ => 16 end.

#[global] Instance shift_cipher : CipherOps shift_key := {|
  session := shift_key * bytes;
  cipher_ctx_iv_length := shift_iv_length;
  cipher_ctx_block_size _ := 16;
  cipher_ctx_mode := sk_mode;
  cipher_ctx_reset k iv := if zlen iv =? shift_iv_length k then Some (k, iv) else None;
  cipher_ctx_update_ad s ad := Some (s.1, s.2 ++ ad);
  cipher_ctx_update := shift_update;
  cipher_ctx_final := shift_final;
  cipher_ctx_get_tag s n := if n =? 16 then Some (shift_tag s.2) else None;
  cipher_ctx_final_check_tag s tag := if decide (tag = shift_tag s.2) then Some (s, []) else None
|}.

#[global] Instance sum_hmac : HmacOps Z := {|
  hmac_ctx_size _ := 32;
  hmac_ctx_digest key d := be_bytes 32 (key + byte_sum d)
|}.

Lemma shift_by_bytes n d : Forall is_byte (shift_by n d).
Proof. apply Forall_fmap, Forall_true. intros b. unfold compose, is_byte. pose proof (Z.mod_pos_bound (b + n) 256 ltac:(lia)). lia. Qed.

Lemma zlen_shift n d : zlen (shift_by n d) = zlen d.
Proof. unfold shift_by. by rewrite length_fmap. Qed.

Lemma shift_undo n d : Forall is_byte d -> shift_by (- n) (shift_by n d) = d.
Proof.
  induction 1 as [|b d Hb _ IH]; [done|]. unfold shift_by in *. rewrite !fmap_cons, IH. f_equal.
  rewrite Zplus_mod_idemp_l. replace (b + n + - n) with b by lia. apply Z.mod_small, Hb.
Qed.

Lemma shift_sane k : cipher_sane k.
Proof.
  split; simpl.
  - unfold shift_iv_length, OPENVPN_MAX_IV_LENGTH. case_match; lia.
  - lia.
  - intros. by eexists.
  - intros iv s0 s d s1 o1 _ _ Hd Hu.
    assert (Ho : Forall is_byte o1 /\ (if sk_encrypt s1.1 then zlen o1 = zlen d else zlen o1 <= zlen d)).
    { unfold shift_update in Hu. destruct s as [k' t].
      destruct (sk_encrypt k') eqn:E; [|destruct (sk_mode k'); [destruct (_ <? _); [done|]|..]]; injection Hu as <- <-; simpl; rewrite E, zlen_shift;
        (split; [apply shift_by_bytes|rewrite ?length_take; lia]). }
    destruct Ho as [Hob Hol]. split; [done|]. split; [destruct (sk_encrypt s1.1); lia|]. intros s2 o2 [Hf|(tag & Hf)].
    + unfold shift_final in Hf. injection Hf as <- <-. destruct (sk_encrypt s1.1); simpl; [case_bool_decide|];
        (split; [by apply all_bytes_spec|simpl; lia]).
    + case_decide; [|done]. injection Hf as <- <-. split; [constructor|]. destruct (sk_encrypt s1.1); simpl; lia.
Qed.

Lemma shift_pair m key : cipher_pair (mkshift m true key) (mkshift m false key).
Proof.
  split; simpl; [done|done| |].
  - intros -> iv ad pt Hiv Hpt. rewrite (proj2 (Z.eqb_eq _ _) Hiv). eexists _, _, _, _, _, _, _. split_and!; [done..| | |].
    + apply be_bytes_is_byte.
    + rewrite length_app, zlen_shift || rewrite length_app; unfold shift_by; rewrite length_fmap.
      destruct pt; simpl; lia.
    + change (shift_iv_length (mkshift MODE_AEAD false key)) with (shift_iv_length (mkshift MODE_AEAD true key)).
      rewrite (proj2 (Z.eqb_eq _ _) Hiv). rewrite app_nil_r. eexists _, _, _, _, _, _. split_and!; [done..| |].
      * simpl. by rewrite decide_True.
      * rewrite app_nil_r. by apply shift_undo.
  - intros Hm iv pt Hiv Hpt. change (shift_iv_length (mkshift m false key)) with (shift_iv_length (mkshift m true key)).
    rewrite (proj2 (Z.eqb_eq _ _) Hiv). unfold shift_final. simpl.
    eexists _, _, _, _, _. split_and!; [done..| | |].
    + intros ->. simpl. done.
    + rewrite length_app. unfold shift_by. rewrite length_fmap. destruct pt; simpl; lia.
    + destruct Hm as [-> | ->]; simpl.
      * eexists _, _, _, _, _. split_and!; [done| |done|]; [unfold shift_update; cbn [sk_encrypt sk_mode sk_key]|].
        { rewrite (proj2 (Z.ltb_ge _ _)) by (rewrite length_app; simpl; lia). done. }
        rewrite app_nil_r, take_app_length' by (rewrite length_app; simpl; lia). by apply shift_undo.
      * eexists _, _, _, _, _. split_and!; [done..|]. rewrite !app_nil_r. by apply shift_undo.
Qed.

(** *** A tunnel with these *)

Definition demo_end (m : cipher_mode) : co shift_key Z :=
  let hmac := match m with MODE_AEAD => None | _ => Some 99 end in
  let impl := [1; 2; 3; 4; 5; 6; 7; 8] in
  mkco (mkkey (Some (mkshift m true 7)) hmac impl) (mkkey (Some (mkshift m false 7)) hmac impl)
    (mkopt (demo_pid 64 15) None false) false.

Definition demo_plain (d : bytes) : buffer := mkbuf 300 100 (zlen d) (Some (replicate 100 0 ++ d ++ replicate 200 0)).
Definition demo_work : buffer := mkbuf 300 0 1 (Some (48 :: replicate 299 0)).

(** What the sender makes of the payloads, without the header. *)
Fixpoint demo_packets (opt : option (co shift_key Z)) (l : list bytes) : list bytes :=
  match l with
  | [] => []
  | d :: rest =>
      match openvpn_encrypt 1000 (replicate 16 5) (demo_plain d) demo_work opt with
      | Ret (b, opt) => drop 1 (content b) :: demo_packets opt rest
      | _ => []
      end
  end.

Definition demo_arrivals_of (m : cipher_mode) : list (Z * bytes * bytes) :=
  match demo_packets (Some (demo_end m)) [[104; 105]; [1; 2; 3]] with
  | [p; q] => [(1001, [48], q); (1001, [48], p); (1002, [48], q); (1002, [49], <[9%nat := 1]> p)]
  | _ => []
  end.

Lemma zlen_sum_hmac key d : zlen (hmac_ctx_digest key d) = hmac_ctx_size key.
Proof. cbn [hmac_ctx_digest hmac_ctx_size sum_hmac]. by rewrite length_be_bytes. Qed.

Lemma demo_dec_ready m : m <> MODE_OTHER -> dec_ready (demo_end m) [].
Proof.
  intros Hm. destruct (packet_id_init_inv 64 15) as (pid & Hp & Hinv & _); [vm_compute; split; congruence..|].
  assert (pid = demo_pid 64 15) as -> by (injection Hp as <-; done). split; [done| | |].
  - simpl. split; [apply shift_sane|]. split; [unfold shift_iv_length; case_match; simpl in *; lia|done].
  - by apply all_bytes_spec.
  - destruct m; try done; (split; [unfold MAX_HMAC_KEY_LENGTH; simpl; lia|intros d; exact (zlen_sum_hmac 99 d)]).
Qed.

Lemma demo_enc_ready m : enc_ready (demo_end m).
Proof.
  split; [done|by split|by apply all_bytes_spec|intros; apply shift_sane|].
  intros h Hh. simpl in Hh. split; [unfold MAX_HMAC_KEY_LENGTH; simpl; lia|]. intros d. split; [exact (zlen_sum_hmac h d)|apply be_bytes_is_byte].
Qed.

Lemma demo_tunnel m : m <> MODE_OTHER -> tunnel (demo_end m) (demo_end m).
Proof.
  intros Hm. split; [by destruct m|]. split; [done|]. split; [done|]. split; [done|]. simpl.
  split; [apply shift_pair|]. destruct m; simpl; unfold shift_iv_length; simpl; done || lia.
Qed.

Definition packet_okb (a : Z * bytes * bytes) : bool :=
  let '(now, hdr, pkt) := a in
  (1 <? now) && all_bytes (hdr ++ pkt) && bool_decide (pkt <> []) && (zlen hdr + zlen pkt <? BUF_SIZE_MAX).

Lemma packet_okb_spec l : forallb packet_okb l = true -> Forall packet_ok l.
Proof.
  intros H. apply Forall_forall. intros [[now hdr] pkt] Hin. apply list_elem_of_In in Hin.
  apply (proj1 (forallb_forall _ _) H) in Hin. unfold packet_okb in Hin. apply andb_true_iff in Hin as [Hin H4].
  apply andb_true_iff in Hin as [Hin H3]. apply andb_true_iff in Hin as [H1 H2]. apply bool_decide_eq_true_1 in H3.
  split; [lia|]. split; [by apply all_bytes_spec|]. split; [done|lia].
Qed.

Lemma demo_buf_ok b blk : bdata b = Some blk ->
  (0 <=? boffset b) && (0 <=? blen b) && (boffset b + blen b <=? bcapacity b) && (bcapacity b <=? zlen blk) &&
  (bcapacity b <? BUF_SIZE_MAX) && all_bytes blk = true -> buf_ok b blk.
Proof. intros Hd H. split; try lia; [done|]. apply all_bytes_spec. lia. Qed.

Definition demo_rwork : buffer := mkbuf 400 0 0 (Some (replicate 400 0)).

Lemma data_channel_refines_witness :
  exists opt', recv_run 100 demo_rwork (demo_end MODE_AEAD) (demo_arrivals_of MODE_AEAD) = Ret (opt', [[1; 2; 3]; [104; 105]]).
Proof.
  destruct (data_channel_refines 100 demo_rwork (replicate 400 0) 64 15 (demo_pid 64 15) (demo_end MODE_AEAD) (demo_arrivals_of MODE_AEAD)) as (opt' & H).
  - vm_compute. split; congruence.
  - vm_compute. split; congruence.
  - done.
  - done.
  - by apply demo_dec_ready.
  - by apply demo_buf_ok.
  - simpl. lia.
  - apply packet_okb_spec. by vm_compute.
  - exists opt'. rewrite H. by vm_compute.
Defined.

Lemma data_channel_delivers_once_witness :
  exists opt' (acc : list (bytes * packet_id_net)), recv_run 100 demo_rwork (demo_end MODE_CBC) (demo_arrivals_of MODE_CBC) = Ret (opt', fst <$> acc) /\ NoDup (snd <$> acc).
Proof.
  destruct (data_channel_delivers_once 100 demo_rwork (replicate 400 0) (demo_end MODE_CBC) (demo_arrivals_of MODE_CBC)) as (opt' & acc & H & Hn & _).
  - by apply demo_dec_ready.
  - done.
  - by apply demo_buf_ok.
  - simpl. lia.
  - apply packet_okb_spec. by vm_compute.
  - exists opt', acc. exact (conj H Hn).
Defined.

Lemma data_channel_roundtrip_witness :
  exists b opt' pkt w whd wtl ropt',
    openvpn_encrypt 1000 (replicate 16 5) (demo_plain [104; 105]) demo_work (Some (demo_end MODE_CBC)) = Ret (b, opt') /\
    content b = 48 :: pkt /\
    openvpn_decrypt 1001 100 (rx_buffer [48] pkt) demo_rwork (Some (demo_end MODE_CBC)) 0 = Ret (w, Some ropt', true) /\
    holds w whd [104; 105] wtl.
Proof.
  destruct (data_channel_roundtrip 1000 (replicate 16 5) (demo_end MODE_CBC) (mksend 1 1000) (demo_plain [104; 105]) 100 [104; 105] 198
    demo_work 0 [48] 299 1001 (demo_end MODE_CBC) (spec_init 64 15)) as (b & hd' & tl' & pkt & Henc & Hb & Hdec).
  - apply demo_enc_ready.
  - by apply demo_dec_ready.
  - by apply demo_tunnel.
  - unfold u32_ok. lia.
  - split; [by apply all_bytes_spec|done].
  - done.
  - eapply holds_intro; [by apply demo_buf_ok|done|done|done].
  - done.
  - eapply holds_intro; [by apply demo_buf_ok|done|done|done].
  - vm_compute. congruence.
  - vm_compute. congruence.
  - destruct (init_sim 64 15) as (pid & Hp & Hsim); [vm_compute; split; congruence..|].
    assert (pid = demo_pid 64 15) as -> by (injection Hp as <-; done). exact Hsim.
  - lia.
  - done.
  - pose proof Henc as Henc'. vm_compute in Henc'. injection Henc' as Eb. destruct Hb as (blk & _ & _ & Hc & _).
    pose proof Hc as Hc'. rewrite <- Eb in Hc'. vm_compute in Hc'. injection Hc' as Epkt.
    destruct (Hdec 100 (rx_buffer [48] pkt) 1 0 demo_rwork (replicate 400 0)) as (w & whd & wtl & ropt' & Hd & Hw & _).
    + apply (rx_buffer_behind 1001). rewrite <- Epkt. apply (Forall_singleton packet_ok), packet_okb_spec. by vm_compute.
    + by apply demo_buf_ok.
    + lia.
    + rewrite <- Epkt. vm_compute. congruence.
    + exists b. eexists. exists pkt, w, whd, wtl, ropt'. split; [exact Henc|]. split; [exact Hc|]. split; [exact Hd|exact Hw].
Defined.

(** Thirty equal bytes are no AEAD packet. *)
Lemma data_channel_rejects_forgery_witness :
  exists b, openvpn_decrypt 1002 100 (rx_buffer [49] (replicate 30 3)) demo_rwork (Some (demo_end MODE_AEAD)) 0 =
              Ret (b, Some (demo_end MODE_AEAD), false) /\ blen b = 0 /\ buf_wf b.
Proof.
  apply (data_channel_rejects_forgery 1002 100 (rx_buffer [49] (replicate 30 3)) demo_rwork (replicate 400 0) (demo_end MODE_AEAD) [] 1 [49] (replicate 30 3) 0).
  - by apply demo_dec_ready.
  - apply (rx_buffer_behind 1002). split; [lia|]. split; [by apply all_bytes_spec|]. split; [done|]. vm_compute. done.
  - done.
  - by apply demo_buf_ok.
  - simpl. lia.
  - unfold forged. simpl. intros s s1 s2 o Hs Hs1 Hs2. injection Hs as <-. injection Hs1 as <-. injection Hs2 as <- <-.
    vm_compute. done.
Defined.
