(* ===== verification/TlsCrypt.v ===== *)
(** * Encryption of control packets (openvpn tls_crypt.c)

    [tls_crypt_wrap] and [tls_crypt_unwrap]: a packet behind opcode and session
    id gets a packet id and an authentication tag over everything; the tag is
    the IV under which the payload is encrypted in counter mode.
    [tls_crypt_v2_wrap_client_key] and [tls_crypt_v2_unwrap_client_key] do the
    same for the client's own key under the server key.  Cipher and HMAC are
    those of [DataChannel]; [stream_cipher] and [stream_pair] state what counter
    mode promises.  Reading, writing and generating key files is left out. *)

From S2P Require Import Prelude Buffer CircList PacketId DataChannel DataTunnel.
From stdpp Require Import prelude.
From Stdlib Require Import ZArith Lia ZifyBool.

Local Open Scope Z_scope.

Definition TLS_CRYPT_TAG_SIZE : Z := 32.
Definition TLS_CRYPT_PID_SIZE : Z := 8.
Definition TLS_CRYPT_BLOCK_SIZE : Z := 16.
Definition TLS_CRYPT_OFF_PID : Z := 1 + 8.
Definition TLS_CRYPT_OFF_TAG : Z := TLS_CRYPT_OFF_PID + TLS_CRYPT_PID_SIZE.
Definition TLS_CRYPT_OFF_CT : Z := TLS_CRYPT_OFF_TAG + TLS_CRYPT_TAG_SIZE.
Definition TLS_CRYPT_V2_MAX_WKC_LEN : Z := 1024.
(** [sizeof(key2.keys)]: two keys of 64 bytes for the cipher and 64 for the HMAC. *)
Definition TLS_CRYPT_V2_CLIENT_KEY_LEN : Z := 256.

Definition tls_crypt_buf_overhead : Z := packet_id_size true + TLS_CRYPT_TAG_SIZE + TLS_CRYPT_BLOCK_SIZE.

Section tls_crypt.
Context {K M : Type} `{!CipherOps K} `{!HmacOps M}.
Implicit Types opt ropt : co K M.

(** The cipher's output written to the start of the content, and the length
    raised by its size. *)
Definition put_front (b : buffer) (out : bytes) : outcome buffer :=
  b ← poke b (boffset b) out; ASSERT_ok (buf_inc_len b (zlen out)).

(** The new [dst], the options and the result. *)
Definition tls_crypt_wrap (now : Z) (src dst : buffer) opt : outcome (buffer * co K M * bool) :=
  let ctx := co_encrypt opt in
  k ← must (kc_cipher ctx);
  m ← must (kc_hmac ctx);
  ASSERT (packet_id_initialized (pid_of opt));;
  ASSERT (hmac_ctx_size m =? 32);;
  '(snd, dst, ok) ← packet_id_write now (pid_send (pid_of opt)) dst true false;
  let opt := set_pid_send opt snd in
  if negb ok then Ret (set_len dst 0, opt, false)
  else if negb (buf_safe dst (buf_len src + TLS_CRYPT_BLOCK_SIZE + TLS_CRYPT_TAG_SIZE)) then Ret (set_len dst 0, opt, false)
  else
    ad ← buf_bytes dst;
    d ← buf_bytes src;
    match buf_write_alloc dst TLS_CRYPT_TAG_SIZE with
    | (_, None) => Abort
    | (dst, Some tag) =>
        dst ← poke dst tag (hmac_ctx_digest m (ad ++ d));
        iv ← peek dst tag (cipher_ctx_iv_length k);
        s ← must (cipher_ctx_reset k iv);
        '(s, out) ← must (cipher_ctx_update s d);
        dst ← put_out dst out;
        '(s, out) ← must (cipher_ctx_final s);
        dst ← put_front dst out;
        Ret (dst, opt, true)
    end.

(** The replay check on the packet id behind opcode and session id. *)
Definition unwrap_check_replay (now : Z) (src dst : buffer) opt : outcome (buffer * co K M * bool) :=
  if co_ignore_packet_id opt then Ret (dst, opt, true)
  else
    tmp ← ASSERT_ok (buf_advance src TLS_CRYPT_OFF_PID);
    '(_, pin, ok) ← packet_id_read tmp true;
    ASSERT ok;;
    '(opt, ok) ← check_replay now opt pin;
    if (ok : bool) then Ret (dst, opt, true) else crypt_error dst opt.

Definition tls_crypt_unwrap (now : Z) (src dst : buffer) opt : outcome (buffer * co K M * bool) :=
  let ctx := co_decrypt opt in
  ASSERT (0 <? blen src);;
  k ← must (kc_cipher ctx);
  ASSERT (packet_id_initialized (pid_of opt) || co_ignore_packet_id opt);;
  if buf_len src <? TLS_CRYPT_OFF_CT then crypt_error dst opt
  else if negb (buf_safe dst (buf_len src - TLS_CRYPT_OFF_CT + TLS_CRYPT_BLOCK_SIZE)) then crypt_error dst opt
  else
    iv ← peek src (boffset src + TLS_CRYPT_OFF_TAG) (cipher_ctx_iv_length k);
    match cipher_ctx_reset k iv with
    | None => crypt_error dst opt
    | Some s =>
        d ← peek src (boffset src + TLS_CRYPT_OFF_CT) (buf_len src - TLS_CRYPT_OFF_CT);
        match cipher_ctx_update s d with
        | None => crypt_error dst opt
        | Some (s, out) =>
            dst ← put_front dst out;
            match cipher_ctx_final s with
            | None => crypt_error dst opt
            | Some (s, out) =>
                dst ← put_front dst out;
                match kc_hmac ctx with
                | None => Fault
                | Some m =>
                    ad ← peek src (boffset src) TLS_CRYPT_OFF_TAG;
                    pt ← buf_bytes dst;
                    tag ← peek src (boffset src + TLS_CRYPT_OFF_TAG) TLS_CRYPT_TAG_SIZE;
                    tag_check ← mem_write (replicate (Z.to_nat TLS_CRYPT_TAG_SIZE) 0) 0 (hmac_ctx_digest m (ad ++ pt));
                    if decide (tag_check = tag) then unwrap_check_replay now src dst opt else crypt_error dst opt
                end
            end
        end
    end.

(** [alloc_buf_gc]: [junk] is what [malloc] left in the block. *)
Definition alloc_buf_gc (junk : bytes) (size : Z) : outcome buffer :=
  ASSERT (buf_size_valid size);;
  Ret (mkbuf size 0 0 (Some (if 0 <? size then <[0%nat := 0]> junk else junk))).

(** ** Client keys under the server key

    [keys] are the bytes of [key2.keys].  The result is the new [wkc]. *)
Definition tls_crypt_v2_wrap_client_key (junk : bytes) (wkc : buffer) (keys : bytes) (src_metadata : buffer) (server_key : key_ctx K M)
  : outcome (buffer * bool) :=
  match kc_cipher server_key, kc_hmac server_key with
  | Some k, Some m =>
      work ← alloc_buf_gc junk (TLS_CRYPT_V2_MAX_WKC_LEN + cipher_ctx_block_size k);
      match buf_write_alloc work TLS_CRYPT_TAG_SIZE with
      | (_, None) => Ret (wkc, false)
      | (work, Some tag) =>
          let net_len := be_bytes 2 (u16 (zlen keys + buf_len src_metadata + TLS_CRYPT_TAG_SIZE + 2)) in
          md ← buf_bytes src_metadata;
          work ← poke work tag (hmac_ctx_digest m (net_len ++ keys ++ md));
          iv ← peek work tag (cipher_ctx_iv_length k);
          s ← must (cipher_ctx_reset k iv);
          if buf_forward_capacity work <? zlen keys + buf_len src_metadata + 2 + cipher_ctx_block_size k then Ret (wkc, false)
          else
            '(s, out) ← must (cipher_ctx_update s keys);
            work ← put_out work out;
            '(s, out) ← must (cipher_ctx_update s md);
            work ← put_out work out;
            '(s, out) ← must (cipher_ctx_final s);
            work ← put_out work out;
            r ← buf_write work net_len;
            work ← ASSERT_ok r;
            buf_copy wkc work
      end
  | _, _ => Fault
  end.

(** From the tag check on: the keys, if they are authentic, and the metadata. *)
Definition unwrap_client_key_check (m : M) (net_len tag : bytes) (plaintext metadata : buffer) : outcome (option bytes * buffer) :=
  pt ← buf_bytes plaintext;
  tag_check ← mem_write (replicate (Z.to_nat TLS_CRYPT_TAG_SIZE) 0) 0 (hmac_ctx_digest m (net_len ++ pt));
  if negb (bool_decide (tag_check = tag)) then Ret (None, metadata)
  else if buf_len plaintext <? TLS_CRYPT_V2_CLIENT_KEY_LEN then Ret (None, metadata)
  else
    keys ← peek plaintext (boffset plaintext) TLS_CRYPT_V2_CLIENT_KEY_LEN;
    plaintext ← ASSERT_ok (buf_advance plaintext TLS_CRYPT_V2_CLIENT_KEY_LEN);
    '(metadata, ok) ← buf_copy metadata plaintext;
    Ret (if (ok : bool) then Some keys else None, metadata).

(** The keys, or [None] on an error, when [client_key] is cleared, and the
    metadata buffer. *)
Definition tls_crypt_v2_unwrap_client_key (metadata w : buffer) (server_key : key_ctx K M) : outcome (option bytes * buffer) :=
  match kc_cipher server_key, kc_hmac server_key with
  | Some k, Some m =>
      if TLS_CRYPT_V2_MAX_WKC_LEN <? buf_len w then Ret (None, metadata)
      else if buf_len w <? 2 then Ret (None, metadata)
      else
        net_len ← peek w (buf_bend w - 2) 2;
        if negb (be_val net_len =? buf_len w) then Ret (None, metadata)
        else
          let tag := boffset w in
          let w := (buf_inc_len w (-2)).1 in
          match buf_advance w TLS_CRYPT_TAG_SIZE with
          | (_, false) => Ret (None, metadata)
          | (w, true) =>
              iv ← peek w tag (cipher_ctx_iv_length k);
              match cipher_ctx_reset k iv with
              | None => Ret (None, metadata)
              | Some s =>
                  plaintext ← buf_set_write (replicate (Z.to_nat TLS_CRYPT_V2_MAX_WKC_LEN) 0) TLS_CRYPT_V2_MAX_WKC_LEN;
                  d ← buf_bytes w;
                  match cipher_ctx_update s d with
                  | None => Ret (None, metadata)
                  | Some (s, out) =>
                      plaintext ← put_front plaintext out;
                      match cipher_ctx_final s with
                      | None => Ret (None, metadata)
                      | Some (s, out) =>
                          plaintext ← put_out plaintext out;
                          t ← peek w tag TLS_CRYPT_TAG_SIZE;
                          unwrap_client_key_check m net_len t plaintext metadata
                      end
                  end
              end
          end
  | _, _ => Fault
  end.

(** ** What counter mode promises *)

(** Output as long as the input, nothing left at the end. *)
Record stream_cipher (k : K) : Prop := {
  st_iv : cipher_ctx_iv_length k = 16;
  st_block : 0 <= cipher_ctx_block_size k <= 16;
  st_out : forall iv s d s1 o1, cipher_ctx_reset k iv = Some s -> Forall is_byte d -> cipher_ctx_update s d = Some (s1, o1) ->
    Forall is_byte o1 /\ zlen o1 = zlen d /\ forall s2 o2, cipher_ctx_final s1 = Some (s2, o2) -> o2 = []
}.

(** [dk] decrypts what [ek] encrypts. *)
Definition stream_pair (ek dk : K) : Prop :=
  forall iv pt, zlen iv = 16 -> Forall is_byte pt ->
  exists s s1 ct s2 d d1 d2, cipher_ctx_reset ek iv = Some s /\ cipher_ctx_update s pt = Some (s1, ct) /\ cipher_ctx_final s1 = Some (s2, []) /\
    cipher_ctx_reset dk iv = Some d /\ cipher_ctx_update d ct = Some (d1, pt) /\ cipher_ctx_final d1 = Some (d2, []).

(** ** What unwrapping computes *)

Definition tls_tag (pkt : bytes) : bytes := slice pkt 17 32.
Definition tls_pin (pkt : bytes) : packet_id_net := mknet (be_val (slice pkt 9 4)) (be_val (slice pkt 13 4)).

(** The payload of a packet, for the holder of the keys [k] and [m]. *)
Definition tls_open (k : K) (m : M) (pkt : bytes) : option bytes :=
  if zlen pkt <? 49 then None
  else
    s ← cipher_ctx_reset k (slice pkt 17 16);
    '(s, pt) ← cipher_ctx_update s (drop 49 pkt);
    '(_, _) ← cipher_ctx_final s;
    if decide (hmac_ctx_digest m (take 17 pkt ++ pt) = tls_tag pkt) then Some pt else None.

Lemma put_front_empty b hd tl out :
  holds b hd [] tl -> Forall is_byte out -> zlen out <= tl ->
  exists b', put_front b out = Ret b' /\ holds b' hd out (tl - zlen out).
Proof.
  intros Hh Hb Hl. destruct (put_out_spec _ _ _ _ out Hh Hb Hl) as (b' & Hp & Hh'). exists b'. split; [|done].
  rewrite <- Hp. unfold put_front, put_out, buf_bend. holds_facts Hh. simpl in Hlen. by rewrite Hlen, Z.add_0_r.
Qed.

Lemma put_front_nil b hd c tl : holds b hd c tl -> put_front b [] = Ret b.
Proof.
  intros Hh. holds_facts Hh. destruct Hh as (blk & Hok & _). pose proof Hok as [].
  unfold put_front. destruct (poke_ok b blk (boffset b) [] Hok) as [-> _]; [lia|simpl; lia|constructor|].
  assert (Hd : set_data b blk = b) by (unfold set_data; rewrite <- ok_data; by destruct b).
  assert (Hs : buf_safe_bidir b 0 = true) by (unfold buf_safe_bidir, buf_size_valid_signed, BUF_SIZE_MAX; rewrite Hval; simpl; lia).
  cbn [mbind outcome_bind]. rewrite splice_nil, Hd. unfold buf_inc_len. change (zlen []) with 0. rewrite Hs, Z.add_0_r.
  unfold ASSERT_ok. simpl. by destruct b.
Qed.

Lemma holds_behind b hd c tl : holds b hd c tl -> behind b hd [] c tl.
Proof.
  intros Hh. holds_facts Hh. split; [done|]. split; [done|]. change (zlen []) with 0. rewrite !Z.sub_0_r, Z.add_0_l.
  assert (set_offset_len b (boffset b) (blen b) = b) as -> by by destruct b. done.
Qed.

Lemma peek_content b hd c tl p n :
  holds b hd c tl -> 0 <= p -> 0 <= n -> p + n <= zlen c -> peek b (boffset b + p) n = Ret (slice c p n).
Proof. intros Hh. by apply (behind_peek_content b hd [] c tl), holds_behind. Qed.

Lemma crypt_error_empty b opt hd c tl : holds b hd c tl -> failed (crypt_error b opt) opt.
Proof. intros Hh. by eapply crypt_error_failed, holds_behind. Qed.

(** What is known of the options when a packet is unwrapped. *)
Record tls_ready opt (H : list packet_id_net) (k : K) (m : M) : Prop := {
  tr_rec : rec_inv (opt_rec (co_replay opt)) H;
  tr_cipher : kc_cipher (co_decrypt opt) = Some k;
  tr_hmac : kc_hmac (co_decrypt opt) = Some m;
  tr_stream : stream_cipher k;
  tr_mac : forall d, zlen (hmac_ctx_digest m d) = 32
}.

(** Payload and packet id. *)
Definition tls_opened opt (k : K) (m : M) (pkt : bytes) : option (bytes * option packet_id_net) :=
  pt ← tls_open k m pkt; Some (pt, if co_ignore_packet_id opt then None else Some (tls_pin pkt)).

Lemma unwrap_check_replay_spec now opt src dst hd pkt tl hd2 pt tl2 :
  holds src hd pkt tl -> 49 <= zlen pkt -> holds dst hd2 pt tl2 ->
  decrypts now opt (Some (pt, if co_ignore_packet_id opt then None else Some (tls_pin pkt))) (unwrap_check_replay now src dst opt).
Proof.
  intros Hs Hl Hd. unfold unwrap_check_replay. destruct (co_ignore_packet_id opt); [by exists dst, hd2, tl2|].
  destruct (behind_advance _ _ _ _ _ 9 (holds_behind _ _ _ _ Hs) ltac:(lia)) as (b1 & E & _ & Hb1).
  change TLS_CRYPT_OFF_PID with 9. rewrite E. unfold ASSERT_ok. cbn [fst snd ASSERT mbind outcome_bind].
  pose proof (take_pin_spec _ _ _ _ true (behind_holds _ _ _ _ _ Hb1)) as Hp. unfold take_pin in Hp.
  destruct (_ <? 8) eqn:E8; [rewrite length_drop in E8; lia|]. destruct Hp as (b2 & hd' & -> & _). cbn [ASSERT mbind outcome_bind].
  replace (mknet _ _) with (tls_pin pkt).
  2:{ unfold tls_pin, slice. rewrite drop_drop. done. }
  intros opt' ok ->. cbn [mbind outcome_bind]. destruct ok; [by exists dst, hd2, tl2|by eapply crypt_error_empty].
Qed.

Lemma tls_crypt_unwrap_spec now src dst opt H k m hd pkt tl hd2 room :
  tls_ready opt H k m -> holds src hd pkt tl -> pkt <> [] -> holds dst hd2 [] room -> zlen pkt - 33 <= room ->
  decrypts now opt (tls_opened opt k m pkt) (tls_crypt_unwrap now src dst opt).
Proof.
  intros [Hrec Hk Hm [Hiv Hblk Hout] Hmac] Hs Hne Hd Hroom. unfold tls_crypt_unwrap, tls_opened, tls_open.
  pose proof (buf_len_holds _ _ _ _ Hs) as [Hbl Hl]. rewrite Hl, Hbl, Hk, Hm.
  change TLS_CRYPT_OFF_CT with 49. change TLS_CRYPT_OFF_TAG with 17. change TLS_CRYPT_BLOCK_SIZE with 16. change TLS_CRYPT_TAG_SIZE with 32.
  rewrite (ASSERT_true (0 <? zlen pkt)) by (destruct pkt; [done|cbn [length]; lia]). cbn [must mbind outcome_bind].
  rewrite (ri_init _ _ Hrec : packet_id_initialized (pid_of opt) = true). cbn [orb ASSERT mbind outcome_bind].
  destruct (zlen pkt <? 49) eqn:E49; [by eapply crypt_error_empty|].
  rewrite (buf_safe_holds _ _ _ _ _ Hd) by lia. pose proof (holds_bounds _ _ _ _ Hd) as (? & ? & ? & ? & ? & ? & _).
  assert (Hf : fits room (zlen pkt - 49 + 16) = true) by (unfold fits; lia). rewrite Hf. cbn [negb].
  rewrite Hiv, (peek_content _ _ _ _ 17 16 Hs) by lia. cbn [mbind outcome_bind].
  destruct (cipher_ctx_reset k _) as [s|] eqn:Er; cbn [mbind option_bind]; [|by eapply crypt_error_empty].
  rewrite (peek_content _ _ _ _ 49 (zlen pkt - 49) Hs) by lia. cbn [mbind outcome_bind].
  replace (slice pkt 49 (zlen pkt - 49)) with (drop 49 pkt) by (unfold slice; rewrite take_ge; [done|rewrite length_drop; lia]).
  assert (Hct : Forall is_byte (drop 49 pkt)) by (apply Forall_drop; by eapply holds_bytes).
  destruct (cipher_ctx_update s _) as [[s1 pt]|] eqn:Eu; cbn [mbind option_bind]; [|by eapply crypt_error_empty].
  destruct (Hout _ _ _ _ _ Er Hct Eu) as (Hpb & Hpl & Hfin). rewrite length_drop in Hpl.
  destruct (put_front_empty _ _ _ pt Hd Hpb ltac:(lia)) as (d1 & -> & Hd1). cbn [mbind outcome_bind].
  destruct (cipher_ctx_final s1) as [[s2 o2]|] eqn:Ef; cbn [mbind option_bind]; [|by eapply crypt_error_empty].
  rewrite (Hfin _ _ eq_refl), (put_front_nil _ _ _ _ Hd1). cbn [mbind outcome_bind].
  pose proof (peek_content _ _ _ _ 0 17 Hs) as Hp0. rewrite Z.add_0_r in Hp0. rewrite Hp0 by lia. cbn [mbind outcome_bind].
  rewrite (buf_bytes_spec _ _ _ _ Hd1). cbn [mbind outcome_bind]. rewrite (peek_content _ _ _ _ 17 32 Hs) by lia. cbn [mbind outcome_bind].
  change (slice pkt 0 17) with (take 17 pkt). set (dg := hmac_ctx_digest m _). assert (Hdg : zlen dg = 32) by apply Hmac.
  rewrite mem_write_Ret by (rewrite ?length_replicate; lia). cbn [mbind outcome_bind]. fold (tls_tag pkt).
  rewrite splice_full by (rewrite length_replicate; lia).
  destruct (decide (dg = tls_tag pkt)); cbn [mbind option_bind]; [|by eapply crypt_error_empty].
  eapply unwrap_check_replay_spec; [done|lia|done].
Qed.

(** ** What wrapping produces *)

Record tls_send opt (k : K) (m : M) : Prop := {
  tsn_pid : packet_id_initialized (pid_of opt) = true;
  tsn_send : send_ok (pid_send (pid_of opt));
  tsn_cipher : kc_cipher (co_encrypt opt) = Some k;
  tsn_hmac : kc_hmac (co_encrypt opt) = Some m;
  tsn_stream : stream_cipher k;
  tsn_size : hmac_ctx_size m = 32;
  tsn_mac : forall d, zlen (hmac_ctx_digest m d) = 32 /\ Forall is_byte (hmac_ctx_digest m d)
}.

(** The packet on the wire. *)
Definition tls_packet (m : M) (hdr pid pt ct : bytes) : bytes := hdr ++ pid ++ hmac_ctx_digest m (hdr ++ pid ++ pt) ++ ct.

Lemma tls_crypt_wrap_spec now src dst opt ek dk m p' hd pt tl hd2 hdr tl2 :
  tls_send opt ek m -> stream_pair ek dk -> u32_ok now -> packet_id_send_update now (pid_send (pid_of opt)) true = (p', true) ->
  holds src hd pt tl -> holds dst hd2 hdr tl2 -> 8 + 32 + 16 + zlen pt <= tl2 ->
  exists dst' ct, tls_crypt_wrap now src dst opt = Ret (dst', set_pid_send opt p', true) /\
    holds dst' hd2 (tls_packet m hdr (pid_bytes p' true) pt ct) (tl2 - 40 - zlen pt) /\ zlen ct = zlen pt /\
    exists iv d d1 d2, iv = take 16 (hmac_ctx_digest m (hdr ++ pid_bytes p' true ++ pt)) /\
      cipher_ctx_reset dk iv = Some d /\ cipher_ctx_update d ct = Some (d1, pt) /\ cipher_ctx_final d1 = Some (d2, []).
Proof.
  intros [Hpid Hsend Hk Hm [Hiv Hblk Hout] Hsz Hmac] Hpair Hnow Hupd Hs Hd Hroom.
  pose proof (holds_bytes _ _ _ _ Hs) as Hptb. unfold tls_crypt_wrap. rewrite Hk, Hm. cbn [must mbind outcome_bind]. rewrite Hpid, Hsz.
  cbn [ASSERT mbind outcome_bind Z.eqb Pos.eqb].
  destruct (packet_id_write_append _ _ _ _ _ _ _ Hupd Hd ltac:(lia)) as (d1 & -> & Hd1). cbn [mbind outcome_bind negb].
  pose proof (buf_len_holds _ _ _ _ Hs) as [Hbl _]. rewrite Hbl.
  change TLS_CRYPT_BLOCK_SIZE with 16. change TLS_CRYPT_TAG_SIZE with 32.
  rewrite (buf_safe_holds _ _ _ _ _ Hd1) by lia. pose proof (holds_bounds _ _ _ _ Hd1) as (? & ? & ? & ? & ? & ? & _).
  assert (Hf : fits (tl2 - 8) (zlen pt + 16 + 32) = true) by (unfold fits; lia). rewrite Hf. cbn [negb].
  rewrite (buf_bytes_spec _ _ _ _ Hd1), (buf_bytes_spec _ _ _ _ Hs). cbn [mbind outcome_bind].
  set (pid := pid_bytes p' true) in *. rewrite <- app_assoc. set (dg := hmac_ctx_digest m (hdr ++ pid ++ pt)) in *.
  destruct (Hmac (hdr ++ pid ++ pt)) as [Hdl Hdb]. fold dg in Hdl, Hdb.
  destruct (buf_write_alloc_spec _ _ _ _ 32 Hd1 ltac:(lia)) as (d2 & junk & -> & Hd2 & Hj).
  rewrite <- (app_nil_r junk) in Hd2.
  destruct (poke_content _ _ _ _ _ _ dg Hd2 ltac:(lia) Hdb) as (d3 & -> & Hd3). cbn [mbind outcome_bind]. rewrite app_nil_r in Hd3.
  assert (Hsplit : dg = take 16 dg ++ drop 16 dg) by by rewrite take_drop.
  assert (Hpk : peek d3 (hd2 + zlen (hdr ++ pid)) (cipher_ctx_iv_length ek) = Ret (take 16 dg)).
  { rewrite Hsplit in Hd3. eapply peek_part; [exact Hd3|done|]. rewrite Hiv, length_take. lia. }
  rewrite Hpk. cbn [mbind outcome_bind].
  destruct (Hpair (take 16 dg) pt) as (s & s1 & ct & s2 & e & e1 & e2 & Hr & Hu & Hfn & Hdec); [rewrite length_take; lia|done|].
  destruct (Hout _ _ _ _ _ Hr Hptb Hu) as (Hcb & Hcl & _).
  rewrite Hr. cbn [must mbind outcome_bind]. rewrite Hu. cbn [must mbind outcome_bind].
  destruct (put_out_spec _ _ _ _ ct Hd3 Hcb ltac:(lia)) as (d4 & -> & Hd4). cbn [mbind outcome_bind]. rewrite Hfn. cbn [must mbind outcome_bind].
  rewrite (put_front_nil _ _ _ _ Hd4). cbn [mbind outcome_bind]. exists d4, ct. split_and!; [done| |done|by eexists _, e, e1, e2].
  unfold tls_packet. fold dg. eapply holds_eq; [exact Hd4|done|by rewrite <- !app_assoc|lia].
Qed.

(** Where the parts of a packet are. *)
Lemma tls_packet_parts m hdr p pt ct :
  (forall d, zlen (hmac_ctx_digest m d) = 32) -> send_ok p -> zlen hdr = 9 ->
  let pkt := tls_packet m hdr (pid_bytes p true) pt ct in
  zlen pkt = 49 + zlen ct /\ take 17 pkt = hdr ++ pid_bytes p true /\ tls_tag pkt = hmac_ctx_digest m (hdr ++ pid_bytes p true ++ pt) /\
  drop 49 pkt = ct /\ tls_pin pkt = wire_id p true /\ slice pkt 17 16 = take 16 (tls_tag pkt).
Proof.
  intros Hmac Hp Hh. pose proof (zlen_pid_bytes p true) as Hpl. change (packet_id_size true) with 8 in Hpl.
  set (dg := hmac_ctx_digest m (hdr ++ pid_bytes p true ++ pt)). assert (Hdl : zlen dg = 32) by apply Hmac.
  intros pkt. assert (Hpkt : pkt = (hdr ++ pid_bytes p true) ++ dg ++ ct) by (unfold pkt, tls_packet; by rewrite <- app_assoc).
  assert (Htag : tls_tag pkt = dg).
  { unfold tls_tag. rewrite Hpkt, slice_skip by (rewrite length_app; lia). rewrite length_app.
    replace (17 - Z.of_nat (length hdr + length (pid_bytes p true))) with 0 by lia. by apply slice_app_l. }
  split_and!.
  - rewrite Hpkt, !length_app. lia.
  - rewrite Hpkt. apply take_app_length'. rewrite length_app. lia.
  - exact Htag.
  - rewrite Hpkt, app_assoc. apply drop_app_length'. rewrite !length_app. lia.
  - unfold tls_pin, pkt, tls_packet. rewrite !(slice_skip hdr) by lia. replace (9 - zlen hdr) with 0 by lia. replace (13 - zlen hdr) with 4 by lia.
    destruct Hp as [Hid Ht]. unfold wire_id, pid_bytes in *. rewrite <- app_assoc.
    rewrite slice_app_l by done. rewrite (slice_skip (be_bytes 4 _)) by (rewrite length_be_bytes; lia).
    rewrite length_be_bytes. change (4 - Z.of_nat 4) with 0. rewrite slice_app_l by done.
    rewrite !be_val_u32 by (done || apply u32_range). by rewrite u32_small.
  - rewrite Htag. unfold tls_tag in Htag. unfold slice in *. change (Z.to_nat 16) with 16%nat. change (Z.to_nat 32) with 32%nat in Htag.
    rewrite <- Htag, take_take. done.
Qed.

Lemma tls_open_packet dk m m' hdr p pt ct d d1 d2 :
  (forall x, zlen (hmac_ctx_digest m x) = 32) -> (forall x, hmac_ctx_digest m' x = hmac_ctx_digest m x) -> send_ok p -> zlen hdr = 9 ->
  cipher_ctx_reset dk (take 16 (hmac_ctx_digest m (hdr ++ pid_bytes p true ++ pt))) = Some d ->
  cipher_ctx_update d ct = Some (d1, pt) -> cipher_ctx_final d1 = Some (d2, []) ->
  tls_open dk m' (tls_packet m hdr (pid_bytes p true) pt ct) = Some pt.
Proof.
  intros Hmac Hsame Hp Hh Hr Hu Hf. destruct (tls_packet_parts m hdr p pt ct Hmac Hp Hh) as (Hl & Ht & Htag & Hct & _ & Hiv).
  unfold tls_open. rewrite (proj2 (Z.ltb_ge _ _)) by lia. rewrite Hiv, Htag, Hr. cbn [mbind option_bind]. rewrite Hct, Hu. cbn [mbind option_bind].
  rewrite Hf. cbn [mbind option_bind]. rewrite Ht, Hsame, <- app_assoc. by rewrite decide_True.
Qed.

(** ** Client keys *)

Lemma fresh_block_holds (junk : bytes) size :
  0 < size < BUF_SIZE_MAX -> size <= zlen junk -> Forall is_byte junk -> holds (mkbuf size 0 0 (Some (<[0%nat := 0]> junk))) 0 [] size.
Proof.
  intros Hs Hj Hb. eapply holds_intro with (blk := <[0%nat := 0]> junk); simpl; [|done|done|lia].
  split; simpl; try done; try lia; [rewrite length_insert; lia|]. apply Forall_insert; [done|unfold is_byte; lia].
Qed.

Lemma alloc_buf_gc_spec junk size :
  0 < size < BUF_SIZE_MAX -> size <= zlen junk -> Forall is_byte junk -> exists b, alloc_buf_gc junk size = Ret b /\ holds b 0 [] size.
Proof.
  intros Hs Hj Hb. unfold alloc_buf_gc, buf_size_valid. rewrite ASSERT_true by lia. cbn [mbind outcome_bind].
  rewrite (proj2 (Z.ltb_lt 0 size)) by lia. eexists. split; [done|]. by apply fresh_block_holds.
Qed.

(** The cipher works byte by byte: two updates are one. *)
Definition stream_app (k : K) : Prop :=
  forall iv s d1 d2, cipher_ctx_reset k iv = Some s -> cipher_ctx_update s (d1 ++ d2) =
    ('(s1, o1) ← cipher_ctx_update s d1; '(s2, o2) ← cipher_ctx_update s1 d2; Some (s2, o1 ++ o2)).

Lemma stream_split k iv s d1 d2 s2 o : stream_app k -> cipher_ctx_reset k iv = Some s -> cipher_ctx_update s (d1 ++ d2) = Some (s2, o) ->
  exists s1 o1 o2, cipher_ctx_update s d1 = Some (s1, o1) /\ cipher_ctx_update s1 d2 = Some (s2, o2) /\ o = o1 ++ o2.
Proof.
  intros Ha Hr Hu. rewrite (Ha iv s d1 d2 Hr) in Hu. apply bind_Some in Hu as ([s1 o1] & H1 & Hu). apply bind_Some in Hu as ([s2' o2] & H2 & Hu).
  injection Hu as -> <-. eauto 10.
Qed.

(** A wrapped client key. *)
Definition wkc_bytes (tag ct : bytes) : bytes := tag ++ ct ++ be_bytes 2 (zlen tag + zlen ct + 2).

(** The keys and the metadata in a wrapped client key. *)
Definition wkc_open (k : K) (m : M) (w : bytes) : option (bytes * bytes) :=
  if (1024 <? zlen w) || (zlen w <? 34) || negb (be_val (drop (length w - 2) w) =? zlen w) then None
  else
    s ← cipher_ctx_reset k (take 16 w);
    '(s, pt) ← cipher_ctx_update s (slice w 32 (zlen w - 34));
    '(_, _) ← cipher_ctx_final s;
    if bool_decide (hmac_ctx_digest m (drop (length w - 2) w ++ pt) = take 32 w) && (256 <=? zlen pt)
    then Some (take 256 pt, drop 256 pt) else None.

Lemma buf_inc_len_shrink b hd c tl n :
  holds b hd c tl -> 0 <= n <= zlen c -> holds (buf_inc_len b (- n)).1 hd (take (Z.to_nat (zlen c - n)) c) (tl + n).
Proof.
  intros Hh Hn. holds_facts Hh. destruct Hh as (blk & Hok & Ho & Hc & Ht). pose proof Hok as [Hd Hof Hle Hca Hbl Hm Hby].
  unfold buf_inc_len. assert (Hs : buf_safe_bidir b (- n) = true).
  { unfold buf_safe_bidir, buf_size_valid_signed. rewrite Hval. destruct (true && _) eqn:E; [lia|unfold BUF_SIZE_MAX in *; lia]. }
  rewrite Hs. simpl. eapply holds_intro with (blk := blk); simpl; [split; simpl; done || lia|done| |lia].
  replace (zlen c - n) with (blen b - n) by lia. rewrite <- Hc, (buf_ok_content _ _ Hok). unfold slice. rewrite take_take. f_equal. lia.
Qed.

Lemma unwrap_client_key_check_spec m net_len tag plaintext metadata hd pt tl hdm mroom :
  (forall d, zlen (hmac_ctx_digest m d) = 32) -> holds plaintext hd pt tl -> holds metadata hdm [] mroom ->
  if bool_decide (hmac_ctx_digest m (net_len ++ pt) = tag) && (256 <=? zlen pt) && (zlen (drop 256 pt) <=? mroom)
  then exists mb, unwrap_client_key_check m net_len tag plaintext metadata = Ret (Some (take 256 pt), mb) /\
         holds mb hdm (drop 256 pt) (mroom - zlen (drop 256 pt))
  else unwrap_client_key_check m net_len tag plaintext metadata = Ret (None, metadata).
Proof.
  intros Hmac Hp Hm. unfold unwrap_client_key_check. rewrite (buf_bytes_spec _ _ _ _ Hp). cbn [mbind outcome_bind].
  change TLS_CRYPT_TAG_SIZE with 32. change TLS_CRYPT_V2_CLIENT_KEY_LEN with 256.
  set (dg := hmac_ctx_digest m _). assert (Hdg : zlen dg = 32) by apply Hmac.
  rewrite mem_write_Ret by (rewrite ?length_replicate; lia). cbn [mbind outcome_bind]. rewrite splice_full by (rewrite length_replicate; lia).
  case_bool_decide; cbn [negb andb]; [|done]. pose proof (buf_len_holds _ _ _ _ Hp) as [-> _].
  destruct (256 <=? zlen pt) eqn:E; cbn [andb]; [|by rewrite (proj2 (Z.ltb_lt _ _)) by lia]. rewrite (proj2 (Z.ltb_ge _ _)) by lia.
  pose proof (peek_content _ _ _ _ 0 256 Hp) as Hpk. rewrite Z.add_0_r in Hpk. rewrite Hpk by lia. cbn [mbind outcome_bind].
  destruct (behind_advance _ _ _ _ _ 256 (holds_behind _ _ _ _ Hp) ltac:(lia)) as (p1 & -> & _ & Hp1).
  unfold ASSERT_ok. cbn [fst snd ASSERT mbind outcome_bind]. apply behind_holds in Hp1. change (Z.to_nat 256) with 256%nat in Hp1.
  destruct (buf_copy_spec _ _ _ _ _ _ _ _ Hm Hp1) as [Hfit Hfull]. destruct (_ <=? mroom) eqn:E2.
  - destruct (Hfit ltac:(lia)) as (mb & -> & Hmb). cbn [mbind outcome_bind]. by exists mb.
  - rewrite (Hfull ltac:(lia)). done.
Qed.

Lemma unwrap_client_key_spec metadata w sk k m hd c tl hdm mroom :
  kc_cipher sk = Some k -> kc_hmac sk = Some m -> stream_cipher k -> (forall d, zlen (hmac_ctx_digest m d) = 32) ->
  holds w hd c tl -> holds metadata hdm [] mroom ->
  match wkc_open k m c with
  | Some (keys, md) => if zlen md <=? mroom then exists mb, tls_crypt_v2_unwrap_client_key metadata w sk = Ret (Some keys, mb) /\
                                                    holds mb hdm md (mroom - zlen md)
                       else tls_crypt_v2_unwrap_client_key metadata w sk = Ret (None, metadata)
  | None => tls_crypt_v2_unwrap_client_key metadata w sk = Ret (None, metadata)
  end.
Proof.
  intros Hk Hm [Hiv Hblk Hout] Hmac Hw Hmd. unfold tls_crypt_v2_unwrap_client_key, wkc_open. rewrite Hk, Hm.
  pose proof (buf_len_holds _ _ _ _ Hw) as [Hbl Hl]. rewrite Hbl. change TLS_CRYPT_V2_MAX_WKC_LEN with 1024. change TLS_CRYPT_TAG_SIZE with 32.
  destruct (1024 <? zlen c) eqn:E1; cbn [orb]; [done|]. destruct (zlen c <? 2) eqn:E2.
  { by rewrite (proj2 (Z.ltb_lt (zlen c) 34)) by lia. }
  unfold buf_bend. rewrite Hl. replace (boffset w + zlen c - 2) with (boffset w + (zlen c - 2)) by lia.
  rewrite (peek_content _ _ _ _ (zlen c - 2) 2 Hw) by lia. cbn [mbind outcome_bind].
  replace (slice c (zlen c - 2) 2) with (drop (length c - 2) c).
  2:{ unfold slice. replace (Z.to_nat (zlen c - 2)) with (length c - 2)%nat by lia. rewrite take_ge; [done|rewrite length_drop; lia]. }
  set (nl := drop (length c - 2) c). destruct (be_val nl =? zlen c) eqn:E3; cbn [negb]; [|by rewrite orb_true_r]. rewrite orb_false_r.
  pose proof (buf_inc_len_shrink _ _ _ _ 2 Hw ltac:(lia)) as Hw1. change (- (2)) with (-2) in Hw1. set (w1 := (buf_inc_len w (-2)).1) in *.
  destruct (zlen c <? 34) eqn:E4.
  { destruct (buf_advance w1 32) as [w2 [|]] eqn:Ea; [exfalso|done]. unfold buf_advance in Ea.
    pose proof (buf_len_holds _ _ _ _ Hw1) as [_ Hl1]. rewrite length_take in Hl1. destruct (_ || _) eqn:E5 in Ea; [done|lia]. }
  destruct (behind_advance _ _ _ _ _ 32 (holds_behind _ _ _ _ Hw1)) as (w2 & -> & _ & Hw2); [rewrite length_take; lia|].
  cbn [app] in Hw2. change (Z.to_nat 32) with 32%nat in Hw2. set (c1 := take (Z.to_nat (zlen c - 2)) c) in *.
  assert (Hc1 : zlen c1 = zlen c - 2) by (unfold c1; rewrite length_take; lia).
  assert (Hpk : forall n, 0 <= n <= 32 -> peek w2 (boffset w) n = Ret (take (Z.to_nat n) c)).
  { intros n Hn. holds_facts Hw. pose proof (behind_peek _ _ _ _ _ 0 n Hw2) as Hp. rewrite take_drop, length_take in Hp.
    replace (hd + 32 - Z.of_nat (32 `min` length c1) + 0) with (boffset w) in Hp by lia. rewrite Hp; [|lia|lia|rewrite length_drop; lia].
    f_equal. unfold slice, c1. change (Z.to_nat 0) with 0%nat. rewrite drop_0, take_take. f_equal. lia. }
  rewrite Hiv, (Hpk 16) by lia. cbn [mbind outcome_bind]. change (Z.to_nat 16) with 16%nat.
  destruct (cipher_ctx_reset k _) as [s|] eqn:Er; cbn [mbind option_bind]; [|done].
  unfold buf_set_write, buf_size_valid. rewrite ASSERT_true by (unfold BUF_SIZE_MAX; lia). cbn [mbind outcome_bind Z.ltb Z.compare].
  assert (Hpl : holds (mkbuf 1024 0 0 (Some (<[0%nat := 0]> (replicate (Z.to_nat 1024) 0)))) 0 [] 1024).
  { apply fresh_block_holds; [unfold BUF_SIZE_MAX; lia|rewrite length_replicate; lia|]. apply Forall_replicate. unfold is_byte. lia. }
  apply behind_holds in Hw2 as Hw2'. rewrite (buf_bytes_spec _ _ _ _ Hw2'). cbn [mbind outcome_bind].
  replace (slice c 32 (zlen c - 34)) with (drop 32 c1).
  2:{ unfold slice, c1. rewrite skipn_firstn_comm. f_equal. lia. }
  destruct (cipher_ctx_update s _) as [[s1 pt]|] eqn:Eu; cbn [mbind option_bind]; [|done].
  destruct (Hout _ _ _ _ _ Er (holds_bytes _ _ _ _ Hw2') Eu) as (Hpb & Hptl & Hfin). rewrite length_drop in Hptl.
  destruct (put_front_empty _ _ _ pt Hpl Hpb ltac:(lia)) as (b1 & -> & Hb1). cbn [mbind outcome_bind].
  destruct (cipher_ctx_final s1) as [[s2 o2]|] eqn:Ef; cbn [mbind option_bind]; [|done]. rewrite (Hfin _ _ eq_refl).
  destruct (put_out_spec _ _ _ _ [] Hb1 ltac:(constructor) ltac:(simpl; lia)) as (b2 & -> & Hb2). cbn [mbind outcome_bind]. rewrite app_nil_r in Hb2.
  rewrite (Hpk 32) by lia. cbn [mbind outcome_bind]. change (Z.to_nat 32) with 32%nat.
  pose proof (unwrap_client_key_check_spec m nl (take 32 c) b2 metadata _ _ _ _ _ Hmac Hb2 Hmd) as Hchk.
  destruct (bool_decide _ && _) eqn:Eb; cbn [andb] in Hchk; [|exact Hchk].
  destruct (zlen (drop 256 pt) <=? mroom); exact Hchk.
Qed.

Lemma wrap_client_key_spec junk wkc keys src_md sk ek dk m hd c tl hds md tls :
  kc_cipher sk = Some ek -> kc_hmac sk = Some m -> stream_cipher ek -> stream_pair ek dk -> stream_app ek ->
  (forall d, zlen (hmac_ctx_digest m d) = 32 /\ Forall is_byte (hmac_ctx_digest m d)) ->
  Forall is_byte junk -> 1024 + cipher_ctx_block_size ek <= zlen junk ->
  zlen keys = 256 -> Forall is_byte keys -> holds src_md hds md tls -> zlen md <= 734 ->
  holds wkc hd c tl -> 290 + zlen md <= tl ->
  exists wkc' tag ct, tls_crypt_v2_wrap_client_key junk wkc keys src_md sk = Ret (wkc', true) /\
    holds wkc' hd (c ++ wkc_bytes tag ct) (tl - 290 - zlen md) /\ zlen tag = 32 /\ zlen ct = 256 + zlen md /\
    tag = hmac_ctx_digest m (be_bytes 2 (290 + zlen md) ++ keys ++ md) /\
    exists d d1 d2, cipher_ctx_reset dk (take 16 tag) = Some d /\ cipher_ctx_update d ct = Some (d1, keys ++ md) /\ cipher_ctx_final d1 = Some (d2, []).
Proof.
  intros Hk Hm [Hiv Hblk Hout] Hpair Happ Hmac Hjb Hjl Hkl Hkb Hs Hml Hw Hroom. unfold tls_crypt_v2_wrap_client_key. rewrite Hk, Hm.
  pose proof (holds_bytes _ _ _ _ Hs) as Hmb. pose proof (buf_len_holds _ _ _ _ Hs) as [Hbl _]. rewrite Hbl, Hkl.
  change TLS_CRYPT_V2_MAX_WKC_LEN with 1024. change TLS_CRYPT_TAG_SIZE with 32.
  destruct (alloc_buf_gc_spec junk (1024 + cipher_ctx_block_size ek)) as (w0 & -> & Hw0); [unfold BUF_SIZE_MAX; lia|lia|done|].
  cbn [mbind outcome_bind]. destruct (buf_write_alloc_spec _ _ _ _ 32 Hw0 ltac:(lia)) as (w1 & jk & -> & Hw1 & Hj). cbn [app] in Hw1.
  rewrite (buf_bytes_spec _ _ _ _ Hs). cbn [mbind outcome_bind].
  replace (256 + zlen md + 32 + 2) with (290 + zlen md) by lia. rewrite u16_small by lia. set (nl := be_bytes 2 (290 + zlen md)).
  destruct (Hmac (nl ++ keys ++ md)) as [Htl Htb]. set (tag := hmac_ctx_digest m (nl ++ keys ++ md)) in *.
  rewrite <- (app_nil_r jk) in Hw1. change (jk ++ []) with ([] ++ jk ++ []) in Hw1. change (zlen []) with 0 in *. rewrite Z.add_0_r.
  destruct (poke_content _ _ [] _ _ _ tag Hw1 ltac:(lia) Htb) as (w2 & Hp & Hw2). change (0 + zlen []) with 0 in Hp. rewrite Hp. clear Hp.
  cbn [mbind outcome_bind app] in *. rewrite app_nil_r in Hw2.
  assert (Hpk : peek w2 0 (cipher_ctx_iv_length ek) = Ret (take 16 tag)).
  { pose proof Hw2 as Hw2'. rewrite <- (take_drop 16 tag) in Hw2'. eapply (peek_part _ _ []); [exact Hw2'|done|]. rewrite Hiv, length_take. lia. }
  rewrite Hpk. cbn [mbind outcome_bind].
  assert (Hkm : Forall is_byte (keys ++ md)) by (by apply Forall_app).
  destruct (Hpair (take 16 tag) (keys ++ md)) as (s & s2 & ct & s3 & d & d1 & d2 & Hr & Hu & Hf & Hdec);
    [rewrite length_take; lia|done|].
  destruct (Hout _ _ _ _ _ Hr Hkm Hu) as (Hcb & Hcl & _). rewrite length_app in Hcl.
  destruct (stream_split _ _ _ _ _ _ _ Happ Hr Hu) as (s1 & o1 & o2 & Hu1 & Hu2 & ->). rewrite length_app in Hcl.
  apply Forall_app in Hcb as [Ho1 Ho2]. destruct (Hout _ _ _ _ _ Hr Hkb Hu1) as (_ & Ho1l & _).
  rewrite Hr. cbn [must mbind outcome_bind].
  assert (Hfw : buf_forward_capacity w2 = 992 + cipher_ctx_block_size ek).
  { unfold buf_forward_capacity. holds_facts Hw2. rewrite Hval, Hoff, Hlen, Hcap. cbv zeta. destruct (_ <? 0) eqn:E; lia. }
  rewrite Hfw, (proj2 (Z.ltb_ge _ _)) by lia. rewrite Hu1. cbn [must mbind outcome_bind].
  destruct (put_out_spec _ _ _ _ o1 Hw2 Ho1 ltac:(lia)) as (w3 & -> & Hw3). cbn [mbind outcome_bind]. rewrite Hu2. cbn [must mbind outcome_bind].
  destruct (put_out_spec _ _ _ _ o2 Hw3 Ho2 ltac:(lia)) as (w4 & -> & Hw4). cbn [mbind outcome_bind]. rewrite Hf. cbn [must mbind outcome_bind].
  destruct (put_out_spec _ _ _ _ [] Hw4 ltac:(constructor) ltac:(simpl; lia)) as (w5 & -> & Hw5). cbn [mbind outcome_bind]. rewrite app_nil_r in Hw5.
  change (zlen []) with 0 in Hw5.
  destruct (buf_write_spec _ _ _ _ nl Hw5) as (w6 & -> & Hw6); [apply be_bytes_is_byte|unfold nl; rewrite length_be_bytes; lia|].
  unfold ASSERT_ok. cbn [fst snd ASSERT mbind outcome_bind].
  destruct (proj1 (buf_copy_spec _ _ _ _ _ _ _ _ Hw Hw6)) as (wkc' & -> & Hwkc).
  { rewrite !length_app. unfold nl. rewrite length_be_bytes. lia. }
  exists wkc', tag, (o1 ++ o2). split; [done|]. split.
  - eapply holds_eq; [exact Hwkc|done| |].
    + unfold wkc_bytes. rewrite !length_app, <- !app_assoc. replace (zlen tag + Z.of_nat (length o1 + length o2) + 2) with (290 + zlen md) by lia. done.
    + rewrite !length_app. unfold nl. rewrite length_be_bytes. lia.
  - split; [done|]. split; [rewrite length_app; lia|]. split; [done|]. by exists d, d1, d2.
Qed.

Lemma wkc_open_bytes dk m m' tag ct keys md d d1 d2 :
  (forall x, hmac_ctx_digest m' x = hmac_ctx_digest m x) -> zlen tag = 32 -> zlen ct = 256 + zlen md -> zlen md <= 734 -> zlen keys = 256 ->
  tag = hmac_ctx_digest m (be_bytes 2 (290 + zlen md) ++ keys ++ md) ->
  cipher_ctx_reset dk (take 16 tag) = Some d -> cipher_ctx_update d ct = Some (d1, keys ++ md) -> cipher_ctx_final d1 = Some (d2, []) ->
  wkc_open dk m' (wkc_bytes tag ct) = Some (keys, md).
Proof.
  intros Hsame Htl Hcl Hml Hkl Htag Hr Hu Hf. unfold wkc_open, wkc_bytes.
  replace (zlen tag + zlen ct + 2) with (290 + zlen md) by lia. set (nl := be_bytes 2 (290 + zlen md)) in *.
  assert (Hnl : zlen nl = 2) by (unfold nl; rewrite length_be_bytes; lia).
  assert (Hl : zlen (tag ++ ct ++ nl) = 290 + zlen md) by (rewrite !length_app; lia). rewrite Hl.
  assert (Hd2 : drop (length (tag ++ ct ++ nl) - 2) (tag ++ ct ++ nl) = nl).
  { rewrite app_assoc. apply drop_app_length'. rewrite !length_app. lia. }
  rewrite Hd2. unfold nl at 1. rewrite be_val_u16, Z.eqb_refl by lia. destruct (_ || _) eqn:E; [lia|].
  assert (Ht16 : take 16 (tag ++ ct ++ nl) = take 16 tag) by (apply take_app_le; lia). rewrite Ht16, Hr. cbn [mbind option_bind].
  rewrite slice_skip by lia. replace (32 - zlen tag) with 0 by lia. replace (290 + zlen md - 34) with (zlen ct) by lia.
  rewrite slice_app_l by done. rewrite Hu. cbn [mbind option_bind]. rewrite Hf. cbn [mbind option_bind].
  assert (Ht32 : take 32 (tag ++ ct ++ nl) = tag) by (apply take_app_length'; lia). rewrite Ht32, Hsame, <- Htag. rewrite bool_decide_true by done. rewrite length_app.
  rewrite (proj2 (Z.leb_le _ _)) by lia. cbn [andb]. rewrite take_app_length', drop_app_length' by lia. done.
Qed.

(** A client key wrapped under the server key is unwrapped again, with its
    metadata, by a server that holds that key. *)
Theorem client_key_roundtrip junk wkc keys src_md sk ek m hd c tl hds md tls rsk dk m' :
  kc_cipher sk = Some ek -> kc_hmac sk = Some m -> kc_cipher rsk = Some dk -> kc_hmac rsk = Some m' ->
  stream_cipher ek -> stream_cipher dk -> stream_pair ek dk -> stream_app ek ->
  (forall d, zlen (hmac_ctx_digest m d) = 32 /\ Forall is_byte (hmac_ctx_digest m d)) -> (forall d, hmac_ctx_digest m' d = hmac_ctx_digest m d) ->
  Forall is_byte junk -> 1024 + cipher_ctx_block_size ek <= zlen junk ->
  zlen keys = 256 -> Forall is_byte keys -> holds src_md hds md tls -> zlen md <= 734 ->
  holds wkc hd c tl -> 290 + zlen md <= tl ->
  exists wkc' w tl', tls_crypt_v2_wrap_client_key junk wkc keys src_md sk = Ret (wkc', true) /\ holds wkc' hd (c ++ w) tl' /\ zlen w = 290 + zlen md /\
    forall b bhd btl metadata mhd room, holds b bhd w btl -> holds metadata mhd [] room -> zlen md <= room ->
      exists mb, tls_crypt_v2_unwrap_client_key metadata b rsk = Ret (Some keys, mb) /\ holds mb mhd md (room - zlen md).
Proof.
  intros Hek Hm Hdk Hm' Hse Hsd Hpair Happ Hmac Hsame Hjb Hjl Hkl Hkb Hs Hml Hw Hroom.
  destruct (wrap_client_key_spec junk wkc keys src_md sk ek dk m hd c tl hds md tls Hek Hm Hse Hpair Happ Hmac Hjb Hjl Hkl Hkb Hs Hml Hw Hroom)
    as (wkc' & tag & ct & Hwr & Hwh & Htl & Hcl & Htag & d & d1 & d2 & Hr & Hu & Hf).
  eexists wkc', _, _. split; [done|]. split; [exact Hwh|]. split; [unfold wkc_bytes; rewrite !length_app, length_be_bytes; lia|].
  intros b bhd btl metadata mhd room Hb Hmd Hrm.
  pose proof (unwrap_client_key_spec metadata b rsk dk m' _ _ _ _ _ Hdk Hm' Hsd ltac:(intros x; rewrite Hsame; apply Hmac) Hb Hmd) as Hun.
  rewrite (wkc_open_bytes dk m m' tag ct keys md d d1 d2 Hsame Htl Hcl Hml Hkl Htag Hr Hu Hf) in Hun.
  by rewrite (proj2 (Z.leb_le _ _)) in Hun by lia.
Qed.

End tls_crypt.

(** ** Counter mode with the cipher of [DataTunnel] *)

Definition ctr_key (key : Z) (enc : bool) : shift_key := mkshift MODE_OTHER enc key.

Lemma ctr_stream key enc : stream_cipher (ctr_key key enc).
Proof.
  split; [done|simpl; lia|]. intros iv s d s1 o1 Hr Hd Hu. simpl in *. destruct (_ =? _) in Hr; [|done]. injection Hr as <-.
  unfold shift_update in Hu. simpl in Hu. destruct enc; injection Hu as <- <-; rewrite zlen_shift; (split; [apply shift_by_bytes|]); (split; [done|]);
    intros s2 o2 Hf; unfold shift_final in Hf; simpl in Hf; by injection Hf as <- <-.
Qed.

Lemma ctr_pair key : stream_pair (ctr_key key true) (ctr_key key false).
Proof.
  intros iv pt Hiv Hpt. simpl. change (shift_iv_length _) with 16. rewrite Hiv. cbn [Z.eqb Pos.eqb].
  eexists _, _, _, _, _, _, _. split; [reflexivity|]. split; [reflexivity|]. split; [reflexivity|]. split; [reflexivity|].
  unfold shift_update. simpl. rewrite shift_undo by done. split; reflexivity.
Qed.

Lemma ctr_app key : stream_app (ctr_key key true).
Proof.
  intros iv s d1 d2 Hr. simpl in *. destruct (_ =? _) in Hr; [|done]. injection Hr as <-. unfold shift_update. simpl.
  unfold shift_by. rewrite fmap_app, app_assoc. done.
Qed.

Lemma sum_hmac_32 (key : Z) d : zlen (hmac_ctx_digest key d) = 32 /\ Forall is_byte (hmac_ctx_digest key d).
Proof. split; [apply (zlen_sum_hmac key d)|apply be_bytes_is_byte]. Qed.

Definition demo_server_key (enc : bool) : key_ctx shift_key Z := mkkey (Some (ctr_key 11 enc)) (Some 42) [].
Definition demo_keys : bytes := replicate 128 1 ++ replicate 128 2.

Lemma client_key_roundtrip_witness :
  exists wkc' w tl', tls_crypt_v2_wrap_client_key (replicate 1040 9) (demo_rwork) demo_keys (buf_of [1; 5]) (demo_server_key true) = Ret (wkc', true) /\
    holds wkc' 0 ([] ++ w) tl' /\ zlen w = 290 + zlen [1; 5] /\
    forall b bhd btl metadata mhd room, holds b bhd w btl -> holds metadata mhd [] room -> zlen [1; 5] <= room ->
      exists mb, tls_crypt_v2_unwrap_client_key metadata b (demo_server_key false) = Ret (Some demo_keys, mb) /\ holds mb mhd [1; 5] (room - zlen [1; 5]).
Proof.
  apply (client_key_roundtrip (replicate 1040 9) demo_rwork demo_keys (buf_of [1; 5]) (demo_server_key true) (ctr_key 11 true) 42 0 [] 400 0 [1; 5] 0
    (demo_server_key false) (ctr_key 11 false) 42).
  - done.
  - done.
  - done.
  - done.
  - apply ctr_stream.
  - apply ctr_stream.
  - apply ctr_pair.
  - apply ctr_app.
  - apply sum_hmac_32.
  - done.
  - by apply all_bytes_spec.
  - vm_compute. congruence.
  - done.
  - by apply all_bytes_spec.
  - by apply buf_of_holds.
  - simpl. lia.
  - eapply holds_intro; [by apply demo_buf_ok|done|done|done].
  - simpl. lia.
Defined.
