(* ===== verification/Reliable.v ===== *)
(** * The control channel's reliability layer (openvpn reliable.c, session_id.h)

    [reliable] is one direction's packet store, [reliable_ack] a list of
    packet ids to acknowledge.  A [struct buffer *] into a store is the index
    of its entry: the C loops that look for the entry whose [buf] has a given
    address find the entry at that index.  The clock [now] is an argument;
    logging is left out. *)

From S2P Require Import Prelude Buffer CircList PacketId.
From stdpp Require Import prelude.
From Stdlib Require Import ZArith Lia ZifyBool.

Local Open Scope Z_scope.

(** ** Data *)

Definition RELIABLE_ACK_SIZE : Z := 8.
Definition RELIABLE_CAPACITY : Z := 12.
Definition N_ACK_RETRANSMIT : Z := 3.
Definition BIG_TIMEOUT : Z := 60 * 60 * 24 * 7.
Definition SID_SIZE : Z := 8.

(** [ack_pid] is the whole array [packet_id[RELIABLE_ACK_SIZE]]. *)
Record reliable_ack := mkack { ack_len : Z; ack_pid : list Z }.

Record reliable_entry := mkent {
  e_active : bool;
  e_timeout : Z;
  e_next_try : Z;
  e_packet_id : Z;
  e_n_acks : Z;
  e_opcode : Z;
  e_buf : buffer
}.

Record reliable := mkrel {
  r_size : Z;
  r_initial_timeout : Z;
  r_packet_id : Z;
  r_offset : Z;
  r_hold : bool;
  r_array : list reliable_entry
}.

Definition ack_clear : reliable_ack := mkack 0 (replicate 8 0).
Definition ent_clear : reliable_entry := mkent false 0 0 0 0 0 clear_buf.

Definition ent_set_active (e : reliable_entry) (b : bool) : reliable_entry :=
  mkent b (e_timeout e) (e_next_try e) (e_packet_id e) (e_n_acks e) (e_opcode e) (e_buf e).
Definition ent_set_buf (e : reliable_entry) (b : buffer) : reliable_entry :=
  mkent (e_active e) (e_timeout e) (e_next_try e) (e_packet_id e) (e_n_acks e) (e_opcode e) b.
Definition rel_set_array (r : reliable) (a : list reliable_entry) : reliable :=
  mkrel (r_size r) (r_initial_timeout r) (r_packet_id r) (r_offset r) (r_hold r) a.
Definition rel_set_packet_id (r : reliable) (p : Z) : reliable :=
  mkrel (r_size r) (r_initial_timeout r) p (r_offset r) (r_hold r) (r_array r).

(** The entries the loops [for (i = 0; i < rel->size; ++i)] visit. *)
Definition entries (r : reliable) : list reliable_entry := take (Z.to_nat (r_size r)) (r_array r).

(** ** Packet id arithmetic modulo 2^32 *)

Definition subtract_pid (test base : Z) : Z := u32 (test - base).

Definition reliable_pid_in_range1 (test base extent : Z) : bool := subtract_pid test base <? extent.

Definition reliable_pid_in_range2 (test base extent : Z) : bool :=
  if base <=? u32 (base + extent) then test <? u32 (base + extent)
  else u32 (test + 0x80000000) <? u32 (u32 (base + 0x80000000) + extent).

Definition reliable_pid_min (p1 p2 : Z) : bool := negb (reliable_pid_in_range1 p1 p2 0x80000000).

(** ** Session ids: eight bytes *)

Definition session_id_equal (s1 s2 : bytes) : bool := bool_decide (s1 = s2).
Definition session_id_defined (s : bytes) : bool := negb (bool_decide (s = replicate 8 0)).
Definition session_id_read (b : buffer) : outcome (buffer * option bytes) := buf_read b SID_SIZE.
Definition session_id_write (s : bytes) (b : buffer) : outcome (buffer * bool) := buf_write b s.
Definition session_id_write_prepend (s : bytes) (b : buffer) : outcome (buffer * bool) :=
  buf_write_prepend b s.

(** ** Acknowledgement records *)

Definition reliable_ack_empty (a : reliable_ack) : bool := ack_len a =? 0.
Definition reliable_ack_outstanding (a : reliable_ack) : Z := ack_len a.

Fixpoint ack_present_loop (n : nat) (i : Z) (a : reliable_ack) (pid : Z) : outcome bool :=
  match n with
  | O => Ret false
  | S n' =>
      x ← arr_get (ack_pid a) i;
      if x =? pid then Ret true else ack_present_loop n' (i + 1) a pid
  end.
Definition reliable_ack_packet_id_present (a : reliable_ack) (pid : Z) : outcome bool :=
  ack_present_loop (Z.to_nat (ack_len a)) 0 a pid.

(** [ack->packet_id[ack->len++] = pid] *)
Definition ack_append (a : reliable_ack) (pid : Z) : outcome reliable_ack :=
  l ← arr_set (ack_pid a) (ack_len a) pid; Ret (mkack (ack_len a + 1) l).

Definition reliable_ack_read_packet_id (b : buffer) : outcome (buffer * option Z) :=
  '(b, d) ← buf_read b 4; Ret (b, option_map be_val d).

Definition reliable_ack_acknowledge_packet_id (a : reliable_ack) (pid : Z)
  : outcome (reliable_ack * bool) :=
  present ← reliable_ack_packet_id_present a pid;
  if negb present && (ack_len a <? RELIABLE_ACK_SIZE) then
    a' ← ack_append a pid; Ret (a', true)
  else Ret (a, false).

(** The loop of [reliable_ack_parse] over the announced ids. *)
Fixpoint ack_parse_loop (n : nat) (b : buffer) (a : reliable_ack)
  : outcome (buffer * reliable_ack * bool) :=
  match n with
  | O => Ret (b, a, true)
  | S n' =>
      '(b, d) ← buf_read b 4;
      match d with
      | None => Ret (b, a, false)
      | Some d =>
          if RELIABLE_ACK_SIZE <=? ack_len a then Ret (b, a, false)
          else a' ← ack_append a (be_val d); ack_parse_loop n' b a'
      end
  end.

(** The result is (buf, ack, session_id_remote, ok); the session id is the
    one passed in when none is read. *)
Definition reliable_ack_parse (b : buffer) (a : reliable_ack) (sid : bytes)
  : outcome (buffer * reliable_ack * bytes * bool) :=
  let a := mkack 0 (ack_pid a) in
  '(b, d) ← buf_read b 1;
  match d with
  | None => Ret (b, a, sid, false)
  | Some d =>
      let count := be_val d in
      '(b, a, ok) ← ack_parse_loop (Z.to_nat count) b a;
      if negb ok then Ret (b, a, sid, false)
      else if negb (count =? 0) then
        '(b, s) ← session_id_read b;
        match s with
        | None => Ret (b, a, sid, false)
        | Some s => Ret (b, a, s, true)
        end
      else Ret (b, a, sid, true)
  end.

(** [session_id_remote] is an uninitialised local in C; it is only looked at
    when an id was read, and then it was set.  [junk] is its initial value. *)
Definition reliable_ack_read (junk : bytes) (a : reliable_ack) (b : buffer) (sid : bytes)
  : outcome (buffer * reliable_ack * bool) :=
  '(b, a, remote, ok) ← reliable_ack_parse b a junk;
  if negb ok then Ret (b, a, false)
  else if (1 <=? ack_len a) && (negb (session_id_defined remote) || negb (session_id_equal remote sid))
  then Ret (b, a, false)
  else Ret (b, a, true).

(** The inner loop of [copy_acks_to_mru]: move the entries one to the right
    until [id] is found; the result is (mru array, move, idfound). *)
Fixpoint mru_shift (n : nat) (j : Z) (l : list Z) (move id : Z) : outcome (list Z * Z * bool) :=
  match n with
  | O => Ret (l, move, false)
  | S n' =>
      tmp ← arr_get l j;
      l ← arr_set l j move;
      if tmp =? id then Ret (l, tmp, true) else mru_shift n' (j + 1) l tmp id
  end.

Definition copy_ack_to_mru (id : Z) (mru : reliable_ack) : outcome reliable_ack :=
  mru ← (if ack_len mru =? 0 then l ← arr_set (ack_pid mru) 0 id; Ret (mkack 1 l) else Ret mru);
  '(l, move, found) ← mru_shift (Z.to_nat (ack_len mru)) 0 (ack_pid mru) id id;
  if negb found && (ack_len mru <? RELIABLE_ACK_SIZE) then ack_append (mkack (ack_len mru) l) move
  else Ret (mkack (ack_len mru) l).

(** for (i = n-1; i >= 0; i--) *)
Fixpoint copy_acks_loop (n : nat) (a mru : reliable_ack) : outcome reliable_ack :=
  match n with
  | O => Ret mru
  | S n' =>
      id ← arr_get (ack_pid a) (Z.of_nat n');
      mru ← copy_ack_to_mru id mru;
      copy_acks_loop n' a mru
  end.
Definition copy_acks_to_mru (a mru : reliable_ack) (n : Z) : outcome reliable_ack :=
  ASSERT (n <=? ack_len a);; copy_acks_loop (Z.to_nat n) a mru.

Definition ACK_SIZE (n : Z) : Z := 1 + (if n =? 0 then 0 else SID_SIZE) + 4 * n.

(** The ids [ack_mru->packet_id[i]], [i < n], written to [sub]. *)
Fixpoint ack_write_loop (n : nat) (i : Z) (mru : reliable_ack) (sub : buffer) : outcome buffer :=
  match n with
  | O => Ret sub
  | S n' =>
      pid ← arr_get (ack_pid mru) i;
      '(sub, ok) ← buf_write sub (be_bytes 4 pid);
      ASSERT ok;;
      ack_write_loop n' (i + 1) mru sub
  end.

(** for (i = 0, j = n; j < ack->len; ) ack->packet_id[i++] = ack->packet_id[j++] *)
Fixpoint ack_drop_loop (k : nat) (i j : Z) (l : list Z) : outcome (list Z) :=
  match k with
  | O => Ret l
  | S k' =>
      x ← arr_get l j;
      l ← arr_set l i x;
      ack_drop_loop k' (i + 1) (j + 1) l
  end.

(** The result is (ack, ack_mru, buf, ok). *)
Definition reliable_ack_write (a mru : reliable_ack) (b : buffer) (sid : bytes) (max : Z)
  (prepend : bool) : outcome (reliable_ack * reliable_ack * buffer * bool) :=
  let n := u8 (ack_len a) in
  let n := if max <? n then u8 max else n in
  mru ← copy_acks_to_mru a mru n;
  let total_acks := u8 (min_int max (ack_len mru)) in
  match buf_sub b (ACK_SIZE total_acks) prepend with
  | (b, None) => Ret (a, mru, b, false)
  | (b, Some (p, sub)) =>
      '(sub, ok) ← buf_write_u8 sub total_acks;
      ASSERT ok;;
      sub ← ack_write_loop (Z.to_nat total_acks) 0 mru sub;
      sub ← (if negb (total_acks =? 0) then
               ASSERT (session_id_defined sid);;
               '(sub, ok) ← session_id_write sid sub;
               ASSERT ok;; Ret sub
             else Ret sub);
      a ← (if negb (n =? 0) then
             let k := Z.max 0 (ack_len a - n) in
             l ← ack_drop_loop (Z.to_nat k) 0 n (ack_pid a);
             Ret (mkack k l)
           else Ret a);
      Ret (a, mru, buf_sub_merge b p sub, true)
  end.

(** ** The packet store *)

Fixpoint reliable_init_loop (n : nat) (buf_size offset : Z) : outcome (list reliable_entry) :=
  match n with
  | O => Ret []
  | S n' =>
      b ← alloc_buf buf_size;
      let '(b, ok) := buf_init b offset in
      ASSERT ok;;
      rest ← reliable_init_loop n' buf_size offset;
      Ret (ent_set_buf ent_clear b :: rest)
  end.

Definition reliable_init (buf_size offset array_size : Z) (hold : bool) : outcome reliable :=
  ASSERT ((0 <? array_size) && (array_size <=? RELIABLE_CAPACITY));;
  es ← reliable_init_loop (Z.to_nat array_size) buf_size offset;
  Ret (mkrel array_size 0 0 offset hold
         (es ++ replicate (Z.to_nat (RELIABLE_CAPACITY - array_size)) ent_clear)).

Definition reliable_set_timeout (r : reliable) (timeout : Z) : reliable :=
  mkrel (r_size r) timeout (r_packet_id r) (r_offset r) (r_hold r) (r_array r).

Definition reliable_empty (r : reliable) : bool := forallb (fun e => negb (e_active e)) (entries r).

(** What one acknowledged id does to one entry. *)
Definition purge_entry (pid : Z) (e : reliable_entry) : reliable_entry :=
  if e_active e && (e_packet_id e =? pid) then ent_set_active e false
  else if e_active e && (e_packet_id e <? pid) then
    mkent (e_active e) (e_timeout e) (e_next_try e) (e_packet_id e) (e_n_acks e + 1)
      (e_opcode e) (e_buf e)
  else e.

Definition purge_pid (r : reliable) (pid : Z) : reliable :=
  rel_set_array r (map (purge_entry pid) (entries r) ++ drop (Z.to_nat (r_size r)) (r_array r)).

Definition reliable_send_purge (r : reliable) (a : reliable_ack) : reliable :=
  fold_left purge_pid (take (Z.to_nat (ack_len a)) (ack_pid a)) r.

Definition reliable_can_get (r : reliable) : bool := existsb (fun e => negb (e_active e)) (entries r).

Definition reliable_not_replay (r : reliable) (id : Z) : bool :=
  if reliable_pid_min id (r_packet_id r) then false
  else negb (existsb (fun e => e_active e && (e_packet_id e =? id)) (entries r)).

Definition reliable_wont_break_sequentiality (r : reliable) (id : Z) : bool :=
  reliable_pid_in_range2 id (r_packet_id r) (r_size r).

Definition rel_entry (r : reliable) (i : nat) : outcome reliable_entry := arr_get (r_array r) (Z.of_nat i).
Definition rel_set_entry (r : reliable) (i : nat) (e : reliable_entry) : reliable :=
  rel_set_array r (<[i := e]> (r_array r)).

Definition reliable_get_buf (r : reliable) : outcome (reliable * option nat) :=
  match find_index (fun e => negb (e_active e)) (entries r) with
  | None => Ret (r, None)
  | Some i =>
      e ← rel_entry r i;
      let '(b, ok) := buf_init (e_buf e) (r_offset r) in
      ASSERT ok;; Ret (rel_set_entry r i (ent_set_buf e b), Some i)
  end.

(** The loop that finds the minimum active packet id. *)
Fixpoint min_active_id (l : list reliable_entry) (acc : option Z) : option Z :=
  match l with
  | [] => acc
  | e :: l' =>
      min_active_id l'
        (if e_active e then
           match acc with
           | None => Some (e_packet_id e)
           | Some m => if reliable_pid_min (e_packet_id e) m then Some (e_packet_id e) else acc
           end
         else acc)
  end.

Definition reliable_get_num_output_sequenced_available (r : reliable) : Z :=
  match min_active_id (entries r) None with
  | None => r_size r
  | Some m => to_int (r_size r - subtract_pid (r_packet_id r) m)
  end.

Definition reliable_get_buf_output_sequenced (r : reliable) : outcome (reliable * option nat) :=
  match min_active_id (entries r) None with
  | None => reliable_get_buf r
  | Some m =>
      if reliable_pid_in_range1 (r_packet_id r) m (r_size r) then reliable_get_buf r
      else Ret (r, None)
  end.

Definition reliable_get_entry_sequenced (r : reliable) : option nat :=
  find_index (fun e => e_active e && (e_packet_id e =? r_packet_id r)) (entries r).

(** Active and due for transmission. *)
Definition entry_due (now : Z) (e : reliable_entry) : bool :=
  e_active e && ((N_ACK_RETRANSMIT <=? e_n_acks e) || (e_next_try e <=? now)).

Definition reliable_can_send (now : Z) (r : reliable) : bool :=
  let n_current := length (List.filter (entry_due now) (entries r)) in
  (0 <? Z.of_nat n_current) && negb (r_hold r).

Fixpoint send_best (now : Z) (l : list reliable_entry) (i : nat) (best : option (nat * Z))
  : option (nat * Z) :=
  match l with
  | [] => best
  | e :: l' =>
      send_best now l' (S i)
        (if entry_due now e then
           match best with
           | None => Some (i, e_packet_id e)
           | Some (_, bp) => if reliable_pid_min (e_packet_id e) bp then Some (i, e_packet_id e) else best
           end
         else best)
  end.

(** [reliable_send] returns the entry's buffer and [*opcode]; the doubled
    timeout is an [int]. *)
Definition reliable_send (now : Z) (r : reliable) : outcome (reliable * option (nat * Z)) :=
  match send_best now (entries r) 0 None with
  | None => Ret (r, None)
  | Some (i, _) =>
      e ← rel_entry r i;
      let e' := mkent (e_active e) (to_int (e_timeout e * 2)) (now + e_timeout e) (e_packet_id e) 0
                  (e_opcode e) (e_buf e) in
      Ret (rel_set_entry r i e', Some (i, e_opcode e))
  end.

Definition schedule_entry (now timeout : Z) (e : reliable_entry) : reliable_entry :=
  if e_active e then
    mkent (e_active e) timeout now (e_packet_id e) (e_n_acks e) (e_opcode e) (e_buf e)
  else e.

Definition reliable_schedule_now (now : Z) (r : reliable) : reliable :=
  mkrel (r_size r) (r_initial_timeout r) (r_packet_id r) (r_offset r) false
    (map (schedule_entry now (r_initial_timeout r)) (entries r) ++ drop (Z.to_nat (r_size r)) (r_array r)).

Fixpoint send_timeout_loop (now : Z) (l : list reliable_entry) (ret : Z) : Z :=
  match l with
  | [] => ret
  | e :: l' =>
      if e_active e then
        if e_next_try e <=? now then 0
        else send_timeout_loop now l' (min_int ret (to_int (e_next_try e - now)))
      else send_timeout_loop now l' ret
  end.
Definition reliable_send_timeout (now : Z) (r : reliable) : Z :=
  send_timeout_loop now (entries r) BIG_TIMEOUT.

(** The entry whose buffer is [i]; [ASSERT(0)] when there is none. *)
Definition find_buf (r : reliable) (i : nat) : outcome reliable_entry :=
  ASSERT (Z.of_nat i <? r_size r);; rel_entry r i.

Definition reliable_mark_active_incoming (r : reliable) (i : nat) (pid opcode : Z) : outcome reliable :=
  e ← find_buf r i;
  ASSERT (negb (reliable_pid_min pid (r_packet_id r)));;
  Ret (rel_set_entry r i (mkent true 0 0 pid 0 opcode (e_buf e))).

Definition reliable_mark_active_outgoing (r : reliable) (i : nat) (opcode : Z) : outcome reliable :=
  e ← find_buf r i;
  let pid := r_packet_id r in
  let r := rel_set_packet_id r (u32 (r_packet_id r + 1)) in
  '(b, ok) ← buf_write_prepend (e_buf e) (be_bytes 4 pid);
  ASSERT ok;;
  Ret (rel_set_entry r i (mkent true (r_initial_timeout r) 0 pid (e_n_acks e) opcode b)).

Definition reliable_mark_deleted (r : reliable) (i : nat) : outcome reliable :=
  e ← find_buf r i;
  Ret (rel_set_packet_id (rel_set_entry r i (ent_set_active e false)) (u32 (e_packet_id e + 1))).

(** ** Packet id order *)

Lemma subtract_pid_u32 a b : 0 <= a - b < 2 ^ 32 -> subtract_pid (u32 a) (u32 b) = a - b.
Proof.
  intros. unfold subtract_pid. rewrite u32_idemp_sub_l, u32_idemp_sub_r. by apply u32_small.
Qed.

Lemma reliable_pid_min_spec a b :
  - 2 ^ 31 <= a - b < 2 ^ 31 -> reliable_pid_min (u32 a) (u32 b) = (a <? b).
Proof.
  intros H. unfold reliable_pid_min, reliable_pid_in_range1, subtract_pid.
  rewrite u32_idemp_sub_l, u32_idemp_sub_r.
  destruct (decide (b <= a)).
  - rewrite u32_small by lia. lia.
  - replace (u32 (a - b)) with (a - b + 2 ^ 32); [lia|].
    apply (Z.mod_unique _ _ (-1)); lia.
Qed.

(** ** Acknowledgement lists *)

Record ack_wf (a : reliable_ack) : Prop := {
  aw_len : 0 <= ack_len a <= RELIABLE_ACK_SIZE;
  aw_pid : zlen (ack_pid a) = RELIABLE_ACK_SIZE
}.

(** The ids in use. *)
Definition ids (a : reliable_ack) : list Z := take (Z.to_nat (ack_len a)) (ack_pid a).

Lemma zlen_ids a : ack_wf a -> zlen (ids a) = ack_len a.
Proof. intros []. unfold ids. rewrite length_take. lia. Qed.

Lemma ids_split a : ack_wf a -> exists post, ack_pid a = ids a ++ post /\ zlen post = 8 - ack_len a.
Proof.
  intros []. exists (drop (Z.to_nat (ack_len a)) (ack_pid a)). unfold ids.
  rewrite take_drop, length_drop. unfold RELIABLE_ACK_SIZE in *. split; [done|lia].
Qed.

Lemma ack_clear_wf : ack_wf ack_clear /\ ids ack_clear = [].
Proof. repeat split; simpl; unfold RELIABLE_ACK_SIZE; lia. Qed.

Lemma ack_present_loop_spec a pid l : forall pre post i,
  ack_pid a = pre ++ l ++ post -> i = zlen pre ->
  ack_present_loop (length l) i a pid = Ret (bool_decide (pid ∈ l)).
Proof.
  induction l as [|x l IH]; intros pre post i Heq Hi.
  { done. }
  cbn [ack_present_loop length]. rewrite Heq. cbn [app]. rewrite arr_get_mid by done. simpl.
  destruct (Z.eqb_spec x pid) as [->|Hne].
  - rewrite bool_decide_true; [done|]. set_solver.
  - rewrite (IH (pre ++ [x]) post) by (rewrite ?length_app, <- ?(assoc_L (++)); simpl; done || lia).
    f_equal. apply bool_decide_ext. set_solver.
Qed.

Lemma reliable_ack_packet_id_present_spec a pid :
  ack_wf a -> reliable_ack_packet_id_present a pid = Ret (bool_decide (pid ∈ ids a)).
Proof.
  intros Hw. destruct (ids_split a Hw) as (post & Heq & _).
  unfold reliable_ack_packet_id_present. pose proof (zlen_ids a Hw).
  replace (Z.to_nat (ack_len a)) with (length (ids a)) by lia.
  by apply (ack_present_loop_spec a pid (ids a) [] post).
Qed.

Lemma ack_append_spec a pid :
  ack_wf a -> ack_len a < RELIABLE_ACK_SIZE ->
  exists a', ack_append a pid = Ret a' /\ ack_wf a' /\ ids a' = ids a ++ [pid] /\
    ack_len a' = ack_len a + 1.
Proof.
  intros Hw Hlt. destruct (ids_split a Hw) as (post & Heq & Hpost).
  pose proof (zlen_ids a Hw) as Hl. destruct Hw as [Hw1 Hw2]. unfold RELIABLE_ACK_SIZE in *.
  unfold ack_append. rewrite Heq. destruct post as [|y post]; [simpl in Hpost; lia|].
  rewrite arr_set_mid by lia. simpl. eexists; split; [done|]. split_and!; [| |done].
  - split; simpl; [unfold RELIABLE_ACK_SIZE; lia|]. rewrite Heq, !length_app in *. simpl in *. done.
  - unfold ids at 1. simpl. rewrite (cons_middle pid), (assoc_L (++)).
    rewrite take_app_length'; [done|]. rewrite length_app. simpl. lia.
Qed.

(** [reliable_ack_acknowledge_packet_id] adds an id once, as long as there is
    room, and says whether it did. *)
Lemma acknowledge_spec a pid :
  ack_wf a ->
  exists a' ok, reliable_ack_acknowledge_packet_id a pid = Ret (a', ok) /\ ack_wf a' /\
    ids a' = (if ok then ids a ++ [pid] else ids a) /\
    ok = bool_decide (pid ∉ ids a) && (ack_len a <? RELIABLE_ACK_SIZE).
Proof.
  intros Hw. unfold reliable_ack_acknowledge_packet_id.
  rewrite reliable_ack_packet_id_present_spec by done. simpl.
  rewrite bool_decide_not. destruct (negb _ && _) eqn:E.
  - destruct (ack_append_spec a pid Hw) as (a' & -> & Hw' & Hi & _); [lia|]. simpl. eauto 10.
  - eauto 10.
Qed.

(** *** The most recently used list *)

Lemma mru_shift_spec id cur : forall pre post move j,
  j = zlen pre ->
  exists r mv f, mru_shift (length cur) j (pre ++ cur ++ post) move id = Ret (pre ++ r ++ post, mv, f) /\
    length r = length cur /\
    f = bool_decide (id ∈ cur) /\
    (NoDup cur -> if f then mv = id /\ r = move :: filter (λ x, x ≠ id) cur
                  else r ++ [mv] = move :: cur).
Proof.
  induction cur as [|x cur IH]; intros pre post move j Hj.
  { exists [], move, false. done. }
  cbn [mru_shift length app]. rewrite arr_get_mid by done. simpl. rewrite arr_set_mid by done. simpl.
  destruct (Z.eqb_spec x id) as [->|Hne].
  - exists (move :: cur), id, true. split_and!; [done|done|by rewrite bool_decide_true by set_solver|].
    intros Hnd. apply NoDup_cons in Hnd as [Hni _]. split; [done|]. f_equal.
    rewrite filter_cons_False by tauto. by rewrite filter_ne_absent.
  - destruct (IH (pre ++ [move]) post x (j + 1)) as (r & mv & f & Hrun & Hlen & Hf & Hres).
    { rewrite length_app. simpl. lia. }
    rewrite <- !(assoc_L (++)) in Hrun. simpl in Hrun. rewrite Hrun.
    exists (move :: r), mv, f. split_and!; [done|simpl; lia|subst f; apply bool_decide_ext; set_solver|].
    intros Hnd. apply NoDup_cons in Hnd as [Hni Hnd]. specialize (Hres Hnd). destruct f.
    + destruct Hres as [-> ->]. split; [done|]. by rewrite filter_cons_True by done.
    + simpl. by rewrite Hres.
Qed.
