(* ===== verification/ReliableAck.v ===== *)
(** * Acknowledgement records on the wire

    What [copy_acks_to_mru], [reliable_ack_write] and [reliable_ack_parse] do,
    in terms of the lists of ids, and the round trip between the last two. *)

From S2P Require Import Prelude Buffer CircList PacketId Reliable.
From stdpp Require Import prelude.
From Stdlib Require Import ZArith Lia ZifyBool.

Local Open Scope Z_scope.

(** ** The most recently used list

    Adding an id moves it to the front and keeps at most eight. *)
Definition mru_push (id : Z) (l : list Z) : list Z := take 8 (id :: filter (λ x, x ≠ id) l).

Lemma mru_push_NoDup id l : NoDup l -> NoDup (mru_push id l).
Proof.
  intros H. apply NoDup_take_incl, NoDup_cons. split; [|by apply NoDup_filter].
  intros Hin. by apply list_elem_of_filter in Hin as [? _].
Qed.

Lemma foldr_mru_push_NoDup l xs : NoDup l -> NoDup (foldr mru_push l xs).
Proof. intros H. induction xs; simpl; [done|]. by apply mru_push_NoDup. Qed.

Lemma foldr_mru_push_prefix xs l :
  NoDup xs -> (length xs <= 8)%nat ->
  exists rest, foldr mru_push l xs = xs ++ rest.
Proof.
  induction xs as [|x xs IH]; simpl; intros Hnd Hlen; [by exists l|].
  apply NoDup_cons in Hnd as [Hx Hnd]. destruct IH as (rest & ->); [done|lia|].
  unfold mru_push. rewrite filter_app, filter_ne_absent by done.
  exists (take (7 - length xs) (filter (λ y, y ≠ x) rest)). simpl. f_equal.
  rewrite take_app. rewrite take_ge by lia. done.
Qed.

Lemma copy_ack_to_mru_spec id mru :
  ack_wf mru -> NoDup (ids mru) ->
  exists mru', copy_ack_to_mru id mru = Ret mru' /\ ack_wf mru' /\
    ids mru' = mru_push id (ids mru).
Proof.
  intros Hw Hnd. unfold copy_ack_to_mru.
  assert (Hstart : exists m, (if ack_len mru =? 0 then l ← arr_set (ack_pid mru) 0 id; Ret (mkack 1 l)
                              else Ret mru) = Ret m /\ ack_wf m /\ NoDup (ids m) /\
            mru_push id (ids m) = mru_push id (ids mru) /\ 1 <= ack_len m).
  { destruct (ack_len mru =? 0) eqn:E.
    - destruct (ids_split mru Hw) as (post & Heq & Hp).
      assert (Hi : ids mru = []) by (unfold ids; by replace (ack_len mru) with 0 by lia).
      rewrite Heq, Hi. destruct post as [|y post]; [simpl in Hp; lia|].
      rewrite (arr_set_mid []) by done. simpl. eexists; split; [done|].
      assert (Hz : zlen (id :: post) = 8) by (simpl in *; lia).
      split_and!; [split; simpl; unfold RELIABLE_ACK_SIZE; simpl in *; lia|apply NoDup_singleton| |simpl; lia].
      unfold mru_push, ids. simpl. rewrite filter_cons_False by tauto. done.
    - exists mru. destruct Hw. split_and!; try done; lia. }
  destruct Hstart as (m & -> & Hwm & Hndm & Hpush & H1). cbn [mbind outcome_bind].
  destruct (ids_split m Hwm) as (post & Heq & Hp). pose proof (zlen_ids m Hwm) as Hl.
  rewrite Heq. replace (Z.to_nat (ack_len m)) with (length (ids m)) by lia.
  destruct (mru_shift_spec id (ids m) [] post id 0 eq_refl) as (r & mv & f & Hrun & Hlr & Hf & Hres).
  simpl in Hrun. rewrite Hrun. cbn [mbind outcome_bind]. specialize (Hres Hndm).
  pose proof Hwm as [Hwl Hwp].
  assert (Hwr : ack_wf (mkack (ack_len m) (r ++ post)) /\ ids (mkack (ack_len m) (r ++ post)) = r).
  { split; [split; simpl; [done|]; rewrite Heq, !length_app in *; lia|].
    unfold ids. simpl. apply take_app_length'. lia. }
  destruct Hwr as [Hwr Hir]. rewrite <- Hpush. unfold RELIABLE_ACK_SIZE in *.
  destruct f; simpl.
  - eexists; split; [done|]. split; [done|]. rewrite Hir. destruct Hres as [_ Hr].
    unfold mru_push. rewrite <- Hr. rewrite take_ge; [done|]. lia.
  - assert (Hni : id ∉ ids m) by (intros ?; rewrite bool_decide_true in Hf; done).
    unfold mru_push. rewrite filter_ne_absent by done. rewrite <- Hres. case_match.
    + destruct (ack_append_spec _ mv Hwr) as (a' & -> & Hw' & Hi' & _); [unfold RELIABLE_ACK_SIZE; simpl; lia|].
      exists a'. split_and!; try done. rewrite Hi', Hir, take_ge; [done|].
      rewrite length_app. simpl. lia.
    + eexists; split; [done|]. split; [done|]. rewrite Hir.
      rewrite take_app_length'; [done|]. lia.
Qed.

Lemma copy_acks_loop_spec n a : forall mru,
  ack_wf a -> (n <= length (ids a))%nat -> ack_wf mru -> NoDup (ids mru) ->
  exists mru', copy_acks_loop n a mru = Ret mru' /\ ack_wf mru' /\
    ids mru' = foldr mru_push (ids mru) (take n (ids a)).
Proof.
  induction n as [|n IH]; intros mru Ha Hn Hw Hnd; [by exists mru|].
  cbn [copy_acks_loop]. destruct (lookup_lt_is_Some_2 (ids a) n) as [x Hx]; [lia|].
  rewrite (arr_get_Ret _ _ x); [|lia|].
  2:{ destruct (ids_split a Ha) as (post & -> & _). rewrite Nat2Z.id. by rewrite lookup_app_l by lia. }
  cbn [mbind outcome_bind].
  destruct (copy_ack_to_mru_spec x mru Hw Hnd) as (m1 & -> & Hw1 & Hi1). cbn [mbind outcome_bind].
  destruct (IH m1) as (m2 & -> & Hw2 & Hi2); try done; [lia|rewrite Hi1; by apply mru_push_NoDup|].
  exists m2. split_and!; try done. rewrite Hi2, Hi1, (take_S_r _ _ x), foldr_app by done. done.
Qed.

Lemma copy_acks_to_mru_spec a mru n :
  ack_wf a -> 0 <= n <= ack_len a -> ack_wf mru -> NoDup (ids mru) ->
  exists mru', copy_acks_to_mru a mru n = Ret mru' /\ ack_wf mru' /\ NoDup (ids mru') /\
    ids mru' = foldr mru_push (ids mru) (take (Z.to_nat n) (ids a)).
Proof.
  intros Ha Hn Hw Hnd. unfold copy_acks_to_mru. rewrite ASSERT_true by lia.
  pose proof (zlen_ids a Ha).
  destruct (copy_acks_loop_spec (Z.to_nat n) a mru) as (m & Hrun & Hwm & Him); try done; [lia|].
  exists m. split_and!; try done. rewrite Him. by apply foldr_mru_push_NoDup.
Qed.

(** ** The loops over the arrays *)

Definition ack_bytes (l : list Z) : bytes := l ≫= be_bytes 4.

Lemma ack_bytes_cons x l : ack_bytes (x :: l) = be_bytes 4 x ++ ack_bytes l.
Proof. done. Qed.

Lemma length_ack_bytes l : zlen (ack_bytes l) = 4 * zlen l.
Proof.
  induction l as [|x l IH]; [done|]. rewrite ack_bytes_cons, length_app, length_be_bytes. simpl. lia.
Qed.

Lemma ack_bytes_ok l : Forall is_byte (ack_bytes l).
Proof.
  induction l; [constructor|]. rewrite ack_bytes_cons. apply Forall_app. auto with bytesdb.
Qed.

Lemma ack_write_loop_spec mru l : forall pre post i sub c tl,
  ack_pid mru = pre ++ l ++ post -> i = zlen pre ->
  holds sub 0 c tl -> 4 * zlen l <= tl ->
  exists sub', ack_write_loop (length l) i mru sub = Ret sub' /\ framed sub sub' /\
    holds sub' 0 (c ++ ack_bytes l) (tl - 4 * zlen l).
Proof.
  induction l as [|x l IH]; intros pre post i sub c tl Heq Hi Hh Hfit; cbn [ack_write_loop length].
  - exists sub. split; [done|]. split; [by eapply framed_refl|].
    cbn [ack_bytes mbind list_bind length]. rewrite app_nil_r. by rewrite Z.mul_0_r, Z.sub_0_r.
  - rewrite Heq. cbn [app]. rewrite arr_get_mid by done. cbn [mbind outcome_bind].
    destruct (buf_write_spec _ _ _ _ (be_bytes 4 x) Hh) as (s1 & Hw & Hh1);
      [apply be_bytes_is_byte|rewrite length_be_bytes; simpl in *; lia|].
    rewrite Hw. cbn [mbind outcome_bind ASSERT].
    rewrite length_be_bytes in Hh1.
    destruct (IH (pre ++ [x]) post (i + 1) s1 (c ++ be_bytes 4 x) (tl - Z.of_nat 4)) as (s2 & -> & Hfr & Hh2);
      [by rewrite <- (assoc_L (++))|rewrite length_app; simpl; lia|done|simpl in *; lia|].
    exists s2. split; [done|]. split.
    + trans s1; [|done]. by eapply buf_write_framed.
    + rewrite ack_bytes_cons, (assoc_L (++)). eapply holds_eq; [done|done|done|lia].
Qed.

Lemma ack_drop_loop_app suf : forall (out mid post : list Z),
  (length mid >= 1)%nat ->
  exists junk, ack_drop_loop (length suf) (zlen out) (zlen out + zlen mid) (out ++ mid ++ suf ++ post)
    = Ret (out ++ suf ++ junk ++ post) /\ length junk = length mid.
Proof.
  induction suf as [|x suf IH]; intros out mid post Hm; cbn [ack_drop_loop length].
  { by exists mid. }
  rewrite (assoc_L (++) out mid). cbn [app]. rewrite arr_get_mid by (rewrite length_app; lia).
  cbn [mbind outcome_bind]. destruct mid as [|y mid]; [simpl in *; lia|].
  rewrite <- (assoc_L (++)). cbn [app]. rewrite arr_set_mid by done. cbn [mbind outcome_bind].
  destruct (IH (out ++ [x]) (mid ++ [x]) post) as (junk & Hrun & Hlen); [rewrite length_app; simpl; lia|].
  exists junk. split; [|rewrite Hlen, length_app; simpl; lia].
  rewrite <- !(assoc_L (++)) in Hrun. cbn [app] in Hrun. rewrite <- Hrun.
  f_equal; rewrite ?length_app; simpl; lia.
Qed.

(** ** Writing a record *)

(** The bytes of a record: a count, the ids, and the peer's session id unless
    the count is zero. *)
Definition ack_record (l : list Z) (sid : bytes) : bytes :=
  be_bytes 1 (zlen l) ++ ack_bytes l ++ (if (zlen l =? 0) then [] else sid).

Definition sid_ok (sid : bytes) : Prop :=
  zlen sid = SID_SIZE /\ Forall is_byte sid /\ session_id_defined sid = true.

Lemma zlen_ack_record l sid : sid_ok sid -> zlen (ack_record l sid) = ACK_SIZE (zlen l).
Proof.
  intros (Hs & _). unfold ack_record, ACK_SIZE. rewrite !length_app, length_be_bytes, !Nat2Z.inj_add.
  rewrite length_ack_bytes. destruct (zlen l =? 0) eqn:E; simpl; lia.
Qed.

(** Filling the sub-buffer of the right size. *)
Lemma ack_fill_spec mru l post sid sub :
  ack_pid mru = l ++ post -> zlen l < 256 -> sid_ok sid -> holds sub 0 [] (ACK_SIZE (zlen l)) ->
  exists s1 s2 s3,
    buf_write_u8 sub (zlen l) = Ret (s1, true) /\
    ack_write_loop (length l) 0 mru s1 = Ret s2 /\
    (if negb (zlen l =? 0) then
       ASSERT (session_id_defined sid);;
       '(sub, ok) ← session_id_write sid s2;
       ASSERT ok;; Ret sub
     else Ret s2) = Ret s3 /\
    framed sub s3 /\ holds s3 0 (ack_record l sid) 0.
Proof.
  intros Heq Hl (Hs & Hby & Hdef) Hh.
  assert (HS : ACK_SIZE (zlen l) = 1 + 4 * zlen l + (if zlen l =? 0 then 0 else 8))
    by (unfold ACK_SIZE, SID_SIZE; destruct (zlen l =? 0); lia).
  destruct (buf_write_spec _ _ _ _ (be_bytes 1 (zlen l)) Hh) as (s1 & Hw1 & Hh1);
    [apply be_bytes_is_byte|rewrite length_be_bytes; case_match; lia|].
  rewrite length_be_bytes in Hh1. cbn [app] in Hh1.
  destruct (ack_write_loop_spec mru l [] post 0 s1 _ _ Heq eq_refl Hh1) as (s2 & Hw2 & Hf2 & Hh2);
    [case_match; lia|].
  assert (Hf1 : framed sub s2) by (trans s1; [by eapply buf_write_framed|done]).
  exists s1, s2. unfold buf_write_u8. rewrite <- be_bytes_1. unfold ack_record. destruct (zlen l =? 0) eqn:E; cbn [negb].
  - exists s2. split_and!; try done. rewrite app_nil_r. eapply holds_eq; [done|done|done|lia].
  - rewrite Hdef. unfold session_id_write. unfold SID_SIZE in Hs.
    destruct (buf_write_spec _ _ _ _ sid Hh2 Hby) as (s3 & Hw3 & Hh3); [lia|].
    exists s3. cbn [mbind outcome_bind ASSERT]. rewrite Hw3. split_and!; try done.
    + trans s2; [done|]. by eapply buf_write_framed.
    + rewrite <- (assoc_L (++)) in Hh3. eapply holds_eq; [done|done|done|lia].
Qed.

Lemma ack_drop_spec a n :
  ack_wf a -> 0 < n <= ack_len a ->
  exists l, ack_drop_loop (Z.to_nat (ack_len a - n)) 0 n (ack_pid a) = Ret l /\
    ack_wf (mkack (ack_len a - n) l) /\ ids (mkack (ack_len a - n) l) = drop (Z.to_nat n) (ids a).
Proof.
  intros Hw Hn. destruct (ids_split a Hw) as (post & Heq & Hp). pose proof (zlen_ids a Hw) as Hl.
  set (mid := take (Z.to_nat n) (ids a)). set (suf := drop (Z.to_nat n) (ids a)).
  assert (Hsuf : length suf = Z.to_nat (ack_len a - n)) by (unfold suf; rewrite length_drop; lia).
  assert (Hmid : zlen mid = n) by (unfold mid; rewrite length_take; lia).
  assert (Hspl : ids a = mid ++ suf) by (unfold mid, suf; by rewrite take_drop).
  destruct (ack_drop_loop_app suf [] mid post) as (junk & Hrun & Hj); [lia|]. simpl in Hrun.
  rewrite Hmid, Hsuf in Hrun. rewrite Heq, Hspl, <- (assoc_L (++)).
  eexists; split; [exact Hrun|]. destruct Hw as [Hw1 Hw2]. split.
  - split; simpl; [lia|]. rewrite !length_app in *. rewrite Heq, Hspl, !length_app in Hw2. lia.
  - unfold ids at 1. simpl. rewrite take_app_length'; [done|lia].
Qed.

Section write.
Context (a mru : reliable_ack) (b : buffer) (hd tl : Z) (c sid : bytes) (max : Z) (prepend : bool).
Hypotheses (Ha : ack_wf a) (Hmru : ack_wf mru) (Hnd : NoDup (ids mru)) (Hmax : 0 <= max < 256)
  (Hb : holds b hd c tl) (Hsid : sid_ok sid).

(** How many ids leave the list, and what goes into the record. *)
Definition ack_n : Z := Z.min max (ack_len a).
Definition ack_mru : list Z := foldr mru_push (ids mru) (take (Z.to_nat ack_n) (ids a)).
Definition ack_sent : list Z := take (Z.to_nat (Z.min max (zlen ack_mru))) ack_mru.

Lemma reliable_ack_write_spec :
  ACK_SIZE (zlen ack_sent) <= (if prepend then hd else tl) ->
  exists a' mru' b', reliable_ack_write a mru b sid max prepend = Ret (a', mru', b', true) /\
  ack_wf a' /\ ids a' = drop (Z.to_nat ack_n) (ids a) /\
  ack_wf mru' /\ NoDup (ids mru') /\ ids mru' = ack_mru /\
  holds b' (if prepend then hd - ACK_SIZE (zlen ack_sent) else hd)
    (if prepend then ack_record ack_sent sid ++ c else c ++ ack_record ack_sent sid)
    (if prepend then tl else tl - ACK_SIZE (zlen ack_sent)).
Proof.
  intros Hfit. pose proof Ha as [HaL _]. unfold RELIABLE_ACK_SIZE in HaL.
  assert (Hn : (if max <? u8 (ack_len a) then u8 max else u8 (ack_len a)) = ack_n).
  { unfold ack_n. rewrite !u8_small by lia. destruct (max <? ack_len a) eqn:E; lia. }
  unfold reliable_ack_write. rewrite Hn.
  destruct (copy_acks_to_mru_spec a mru ack_n Ha ltac:(unfold ack_n; lia) Hmru Hnd)
    as (mru' & -> & Hw' & Hnd' & Hi'). cbn [mbind outcome_bind]. fold ack_mru in Hi'.
  pose proof (zlen_ids mru' Hw') as Hl'. pose proof Hw' as [Hw'L _]. unfold RELIABLE_ACK_SIZE in Hw'L.
  assert (Hsl : zlen ack_sent = Z.min max (ack_len mru'))
    by (unfold ack_sent; rewrite length_take, <- Hl', Hi'; lia).
  assert (Ht : u8 (min_int max (ack_len mru')) = zlen ack_sent).
  { unfold min_int. rewrite Hsl. destruct (max <? ack_len mru') eqn:E; rewrite u8_small; lia. }
  rewrite Ht.
  destruct (buf_sub_spec b hd c tl (ACK_SIZE (zlen ack_sent)) prepend Hb) as (b1 & p & sub & -> & Hsub & Hmerge);
    [unfold ACK_SIZE, SID_SIZE; destruct (zlen ack_sent =? 0); lia|done|].
  assert (Hsplit : exists post, ack_pid mru' = ack_sent ++ post).
  { destruct (ids_split mru' Hw') as (post & -> & _). unfold ack_sent. rewrite <- Hi'.
    eexists. rewrite <- (take_drop (Z.to_nat (Z.min max (zlen (ids mru')))) (ids mru')) at 1.
    by rewrite <- (assoc_L (++)). }
  destruct Hsplit as [post Hpost].
  destruct (ack_fill_spec mru' ack_sent post sid sub Hpost) as (s1 & s2 & s3 & E1 & E2 & E3 & Hfr & Hh3);
    [lia|done|done|].
  rewrite E1. cbn [mbind outcome_bind ASSERT]. rewrite Nat2Z.id, E2. cbn [mbind outcome_bind].
  rewrite E3. cbn [mbind outcome_bind].
  assert (Hdrop : exists a', (if negb (ack_n =? 0) then
             l ← ack_drop_loop (Z.to_nat (Z.max 0 (ack_len a - ack_n))) 0 ack_n (ack_pid a);
             Ret (mkack (Z.max 0 (ack_len a - ack_n)) l)
           else Ret a) = Ret a' /\ ack_wf a' /\ ids a' = drop (Z.to_nat ack_n) (ids a)).
  { destruct (ack_n =? 0) eqn:E; cbn [negb].
    - exists a. replace ack_n with 0 by lia. done.
    - destruct (ack_drop_spec a ack_n Ha) as (l & Hl & Hwl & Hil); [unfold ack_n in *; lia|].
      rewrite Z.max_r by (unfold ack_n; lia). rewrite Hl. cbn [mbind outcome_bind]. eauto. }
  destruct Hdrop as (a' & -> & Hwa & Hia). cbn [mbind outcome_bind].
  eexists _, _, _. split; [done|]. split_and!; try done. by apply Hmerge.
Qed.

(** The ids that leave the list are the first ones of the record. *)
Lemma ack_sent_covers : NoDup (ids a) -> exists rest, ack_sent = take (Z.to_nat ack_n) (ids a) ++ rest.
Proof.
  intros Hnda. pose proof (zlen_ids a Ha) as Hl. destruct Ha as [HaL _]. unfold RELIABLE_ACK_SIZE in HaL.
  destruct (foldr_mru_push_prefix (take (Z.to_nat ack_n) (ids a)) (ids mru)) as (rest & Hr).
  { by apply NoDup_take_incl. }
  { rewrite length_take. lia. }
  unfold ack_sent, ack_mru. rewrite Hr.
  set (xs := take (Z.to_nat ack_n) (ids a)).
  assert (Hx : zlen xs = ack_n) by (unfold xs; rewrite length_take; unfold ack_n; lia).
  rewrite take_app. eexists. f_equal. rewrite take_ge; [done|]. rewrite length_app. unfold ack_n in *. lia.
Qed.
End write.

(** ** Reading a record *)

Lemma ack_parse_loop_spec l : forall a b hd c tl,
  ack_wf a -> ack_len a + zlen l <= 8 -> Forall (λ x, 0 <= x < 2 ^ 32) l ->
  holds b hd (ack_bytes l ++ c) tl ->
  exists b' a', ack_parse_loop (length l) b a = Ret (b', a', true) /\ ack_wf a' /\
    ids a' = ids a ++ l /\ holds b' (hd + 4 * zlen l) c tl.
Proof.
  induction l as [|x l IH]; intros a b hd c tl Hw Hlen Hr Hh; cbn [ack_parse_loop length].
  { exists b, a. rewrite app_nil_r. split_and!; try done. eapply holds_eq; [done|lia|done|done]. }
  rewrite ack_bytes_cons, <- (assoc_L (++)) in Hh. apply Forall_cons in Hr as [Hx Hr].
  destruct (buf_read_app _ _ _ _ _ 4 Hh) as (b1 & -> & Hh1); [by rewrite length_be_bytes|].
  cbn [mbind outcome_bind]. rewrite be_val_u32 by done.
  destruct (RELIABLE_ACK_SIZE <=? ack_len a) eqn:E; [unfold RELIABLE_ACK_SIZE in E; simpl in Hlen; lia|].
  destruct (ack_append_spec a x Hw) as (a1 & -> & Hw1 & Hi1 & Hl1); [lia|]. cbn [mbind outcome_bind].
  destruct (IH a1 b1 (hd + 4) c tl) as (b2 & a2 & -> & Hw2 & Hi2 & Hh2); try done; [simpl in Hlen; lia|].
  exists b2, a2. split_and!; try done.
  - by rewrite Hi2, Hi1, <- (assoc_L (++)).
  - eapply holds_eq; [done|lia|done|done].
Qed.

Lemma reset_wf a : ack_wf a -> ack_wf (mkack 0 (ack_pid a)).
Proof. intros []. split; simpl; [unfold RELIABLE_ACK_SIZE; lia|done]. Qed.

Lemma reliable_ack_parse_record a b hd l sid0 sid c tl :
  ack_wf a -> zlen l <= 8 -> Forall (λ x, 0 <= x < 2 ^ 32) l -> sid_ok sid ->
  holds b hd (ack_record l sid ++ c) tl ->
  exists b' a', reliable_ack_parse b a sid0 = Ret (b', a', if zlen l =? 0 then sid0 else sid, true) /\
    ack_wf a' /\ ids a' = l /\ holds b' (hd + ACK_SIZE (zlen l)) c tl.
Proof.
  intros Hw Hlen Hr (Hs & _) Hh. unfold reliable_ack_parse.
  unfold ack_record in Hh. rewrite <- !(assoc_L (++)) in Hh.
  destruct (buf_read_app _ _ _ _ _ 1 Hh) as (b1 & -> & Hh1); [by rewrite length_be_bytes|].
  cbn [mbind outcome_bind]. rewrite be_val_bytes, Z.mod_small by lia. rewrite Nat2Z.id.
  destruct (ack_parse_loop_spec l _ b1 (hd + 1) _ tl (reset_wf a Hw) Hlen Hr Hh1)
    as (b2 & a2 & -> & Hw2 & Hi2 & Hh2). cbn [mbind outcome_bind negb].
  unfold ACK_SIZE. destruct (zlen l =? 0) eqn:E; cbn [negb].
  - exists b2, a2. split_and!; try done. eapply holds_eq; [done|lia|done|done].
  - unfold session_id_read. destruct (buf_read_app _ _ _ _ _ SID_SIZE Hh2) as (b3 & -> & Hh3); [done|].
    exists b3, a2. split_and!; try done. eapply holds_eq; [done|lia|done|done].
Qed.

(** Reading at most [n] ids from any bytes: either all of them are there and
    the bytes are their encoding, or the record is refused. *)
Lemma ack_parse_loop_any n : forall a b hd c tl,
  ack_wf a -> holds b hd c tl ->
  exists b' a' ok, ack_parse_loop n b a = Ret (b', a', ok) /\ ack_wf a' /\
    (ok = true -> exists l c', length l = n /\ c = ack_bytes l ++ c' /\ ids a' = ids a ++ l /\
       holds b' (hd + 4 * zlen l) c' tl).
Proof.
  induction n as [|n IH]; intros a b hd c tl Hw Hh; cbn [ack_parse_loop].
  { exists b, a, true. split_and!; try done. intros _. exists [], c. rewrite app_nil_r.
    split_and!; try done. eapply holds_eq; [done|simpl; lia|done|done]. }
  destruct (decide (zlen c < 4)) as [Hs|Hs].
  { rewrite (buf_read_short _ _ _ _ _ Hh) by done. by eexists _, _, false. }
  destruct (buf_read_spec _ _ _ _ 4 Hh) as (b1 & -> & Hh1); [lia|]. cbn [mbind outcome_bind].
  destruct (RELIABLE_ACK_SIZE <=? ack_len a) eqn:E; [by eexists _, _, false|].
  set (d := take (Z.to_nat 4) c) in *.
  destruct (ack_append_spec a (be_val d) Hw) as (a1 & -> & Hw1 & Hi1 & Hl1); [lia|]. cbn [mbind outcome_bind].
  destruct (IH a1 b1 (hd + 4) _ tl Hw1 Hh1) as (b2 & a2 & ok & -> & Hw2 & Hres).
  eexists _, _, _. split_and!; try done. intros Hok.
  destruct (Hres Hok) as (l & c' & Hl & Hc & Hi & Hh2). exists (be_val d :: l), c'.
  assert (Hd : Forall is_byte d /\ length d = 4%nat).
  { split; [apply Forall_take; by apply (holds_bytes _ _ _ _ Hh)|]. unfold d. rewrite length_take. lia. }
  split_and!.
  - simpl. lia.
  - rewrite ack_bytes_cons. destruct Hd as [Hd Hdl]. rewrite <- Hdl at 1. rewrite be_bytes_val by done.
    rewrite <- (assoc_L (++)), <- Hc. unfold d. by rewrite take_drop.
  - by rewrite Hi, Hi1, <- (assoc_L (++)).
  - eapply holds_eq; [done|simpl; lia|done|done].
Qed.

Lemma ack_size_pos (l : list Z) : 0 <= ACK_SIZE (zlen l).
Proof. unfold ACK_SIZE, SID_SIZE. destruct (zlen l =? 0); lia. Qed.

Lemma ack_n_nonneg a max : ack_wf a -> 0 <= max -> 0 <= ack_n a max <= ack_len a.
Proof. intros [H _] ?. unfold ack_n. lia. Qed.

Lemma elem_of_mru_push id l x : x ∈ mru_push id l -> x = id \/ x ∈ l.
Proof.
  unfold mru_push. intros Hx%elem_of_take_incl.
  apply elem_of_cons in Hx as [->|Hx]; [by left|]. apply list_elem_of_filter in Hx as [_ Hx]. by right.
Qed.

Lemma elem_of_foldr_mru xs l x : x ∈ foldr mru_push l xs -> x ∈ xs \/ x ∈ l.
Proof.
  induction xs as [|y xs IH]; simpl; intros Hx; [by right|].
  apply elem_of_mru_push in Hx as [->|Hx]; [left; set_solver|]. destruct (IH Hx); set_solver.
Qed.

Lemma elem_of_ack_sent a mru max x : x ∈ ack_sent a mru max -> x ∈ ids a \/ x ∈ ids mru.
Proof.
  unfold ack_sent, ack_mru. intros Hx%elem_of_take_incl.
  apply elem_of_foldr_mru in Hx as [Hx%elem_of_take_incl|Hx]; auto.
Qed.

Lemma zlen_ack_sent a mru max :
  ack_wf mru -> zlen (ack_sent a mru max) <= 8.
Proof.
  intros Hm. pose proof (zlen_ids mru Hm) as Hl. destruct Hm as [Hm _]. unfold RELIABLE_ACK_SIZE in Hm.
  unfold ack_sent. rewrite length_take.
  assert (length (ack_mru a mru max) <= 8)%nat; [|lia].
  unfold ack_mru. destruct (take _ _); simpl; [lia|]. unfold mru_push. rewrite length_take. lia.
Qed.

(** Acknowledgements survive the wire.  Whatever ids are pending in [a]
    and however full the list [mru] of recently sent ids is, the record
    [reliable_ack_write] puts in front of a packet makes the peer's
    [reliable_ack_read] succeed with the packet behind it intact; every pending
    id is either still in the list or in the record the peer read, and the
    peer learns no id that was neither pending nor sent before. *)
Theorem ack_write_read_roundtrip a mru b hd c tl sid max junk a0 :
  ack_wf a -> ack_wf mru -> ack_wf a0 -> NoDup (ids a) -> NoDup (ids mru) ->
  Forall (λ x, 0 <= x < 2 ^ 32) (ids a ++ ids mru) ->
  0 <= max < 256 -> sid_ok sid -> holds b hd c tl -> ACK_SIZE RELIABLE_ACK_SIZE <= hd ->
  exists a' mru' b' b'' got,
    reliable_ack_write a mru b sid max true = Ret (a', mru', b', true) /\
    reliable_ack_read junk a0 b' sid = Ret (b'', got, true) /\
    ack_wf a' /\ ack_wf mru' /\ NoDup (ids mru') /\ content b'' = c /\
    (forall x, x ∈ ids a -> x ∈ ids a' \/ x ∈ ids got) /\
    (forall x, x ∈ ids got -> x ∈ ids a \/ x ∈ ids mru).
Proof.
  intros Ha Hm Ha0 Hnda Hndm Hr Hmax Hsid Hb Hfit.
  pose proof (zlen_ack_sent a mru max Hm) as Hsl.
  assert (HS : ACK_SIZE (zlen (ack_sent a mru max)) <= hd).
  { etrans; [|exact Hfit]. unfold ACK_SIZE, SID_SIZE, RELIABLE_ACK_SIZE. simpl.
    destruct (_ =? 0); lia. }
  destruct (reliable_ack_write_spec a mru b hd tl c sid max true Ha Hm Hndm Hmax Hb Hsid HS)
    as (a' & mru' & b' & Hw & Hwa & Hia & Hwm & Hndm' & Him & Hb').
  assert (Hrng : Forall (λ x, 0 <= x < 2 ^ 32) (ack_sent a mru max)).
  { apply Forall_forall. intros x Hx%elem_of_ack_sent. rewrite Forall_forall in Hr. apply Hr. set_solver. }
  destruct (reliable_ack_parse_record a0 b' _ _ junk sid c tl Ha0 Hsl Hrng Hsid Hb')
    as (b'' & got & Hp & Hwg & Hig & Hb'').
  exists a', mru', b', b'', got. split; [done|]. split.
  { unfold reliable_ack_read. rewrite Hp. cbn [mbind outcome_bind negb].
    pose proof (zlen_ids got Hwg) as Hgl. rewrite Hig in Hgl. rewrite <- Hgl.
    destruct (zlen _ =? 0) eqn:E; destruct (1 <=? zlen _) eqn:E'; try lia; cbn [andb]; [done|].
    destruct Hsid as (_ & _ & ->). unfold session_id_equal. by rewrite bool_decide_true. }
  split_and!; try done.
  - by destruct Hb'' as (? & ? & ? & ? & ?).
  - intros x Hx. rewrite Hia, Hig. destruct (ack_sent_covers a mru max Ha Hmax Hnda) as (rest & ->).
    rewrite <- (take_drop (Z.to_nat (ack_n a max)) (ids a)) in Hx. set_solver.
  - intros x Hx. rewrite Hig in Hx. by eapply elem_of_ack_sent.
Qed.

Definition demo_ack (l : list Z) : reliable_ack := mkack (zlen l) (l ++ replicate (8 - length l) 0).
Definition demo_buf (n off : Z) (c : bytes) : buffer :=
  mkbuf n off (zlen c) (Some (replicate (Z.to_nat off) 0 ++ c ++ replicate (Z.to_nat (n - off - zlen c)) 0)).

Lemma ack_write_read_roundtrip_witness : exists a' mru' b' b'' got,
    reliable_ack_write (demo_ack [3;4;5]) (demo_ack [2;4]) (demo_buf 60 50 [7;7]) [1;2;3;4;5;6;7;8] 2 true
      = Ret (a', mru', b', true) /\
    reliable_ack_read [] ack_clear b' [1;2;3;4;5;6;7;8] = Ret (b'', got, true) /\
    ack_wf a' /\ ack_wf mru' /\ NoDup (ids mru') /\ content b'' = [7;7] /\
    (forall x, x ∈ ids (demo_ack [3;4;5]) -> x ∈ ids a' \/ x ∈ ids got) /\
    (forall x, x ∈ ids got -> x ∈ ids (demo_ack [3;4;5]) \/ x ∈ ids (demo_ack [2;4])).
Proof.
  apply (ack_write_read_roundtrip _ _ _ 50 [7;7] 8 _ _ [] ack_clear).
  - by split.
  - by split.
  - by split.
  - by apply (bool_decide_unpack _); vm_compute.
  - by apply (bool_decide_unpack _); vm_compute.
  - simpl. repeat constructor; lia.
  - lia.
  - split_and!; [done| |done]. repeat constructor; done || lia.
  - eexists. split; [|by vm_compute]. split; try done; try lia.
    apply (bool_decide_unpack _); vm_compute; done.
  - vm_compute. done.
Defined.

(** On arbitrary bytes the parser returns; it accepts a record only, and the rest
    of the packet is left in the buffer. *)
Lemma ack_parse_any_input a b hd c tl sid0 :
  ack_wf a -> holds b hd c tl ->
  exists b' a' sid ok, reliable_ack_parse b a sid0 = Ret (b', a', sid, ok) /\ ack_wf a' /\
    (ok = true -> exists s c',
       c = be_bytes 1 (ack_len a') ++ ack_bytes (ids a') ++ s ++ c' /\ (exists hd', holds b' hd' c' tl) /\
       (if ack_len a' =? 0 then s = [] /\ sid = sid0 else zlen s = SID_SIZE /\ sid = s)).
Proof.
  intros Hw Hh. unfold reliable_ack_parse.
  destruct (decide (zlen c < 1)) as [Hs|Hs].
  { rewrite (buf_read_short _ _ _ _ _ Hh) by done. eexists _, _, _, false.
    split; [done|]. by split; [apply reset_wf|]. }
  destruct (buf_read_spec _ _ _ _ 1 Hh) as (b1 & -> & Hh1); [lia|]. cbn [mbind outcome_bind].
  pose proof (holds_bytes _ _ _ _ Hh) as Hby.
  destruct c as [|n c]; [simpl in Hs; lia|]. apply Forall_cons in Hby as [Hn _]. unfold is_byte in Hn.
  change (take (Z.to_nat 1) (n :: c)) with [n]. change (drop (Z.to_nat 1) (n :: c)) with c in Hh1.
  rewrite be_val_1.
  destruct (ack_parse_loop_any (Z.to_nat n) _ b1 _ c tl (reset_wf a Hw) Hh1)
    as (b2 & a2 & ok & -> & Hw2 & Hres). cbn [mbind outcome_bind].
  destruct ok; cbn [negb]; [|by eexists _, _, _, false].
  destruct (Hres eq_refl) as (l & c' & Hl & -> & Hi & Hh2). rewrite (eq_refl : ids (mkack 0 (ack_pid a)) = []) in Hi. cbn [app] in Hi.
  assert (Hl2 : ack_len a2 = n) by (rewrite <- (zlen_ids a2 Hw2), Hi; lia).
  assert (Hn1 : [n] = be_bytes 1 n) by (rewrite be_bytes_1, u8_small; done || lia).
  destruct (n =? 0) eqn:E; cbn [negb].
  { eexists b2, a2, sid0, true. split_and!; try done. intros _. exists [], c'. rewrite Hi, Hl2, E, <- Hn1.
    split_and!; try done. by eexists. }
  unfold session_id_read. destruct (decide (zlen c' < SID_SIZE)) as [Hs'|Hs'].
  { rewrite (buf_read_short _ _ _ _ _ Hh2) by done. by eexists _, _, _, false. }
  destruct (buf_read_spec _ _ _ _ SID_SIZE Hh2) as (b3 & -> & Hh3); [unfold SID_SIZE in *; lia|].
  cbn [mbind outcome_bind]. eexists b3, a2, _, true. split_and!; try done. intros _.
  eexists _, (drop (Z.to_nat SID_SIZE) c'). rewrite Hi, Hl2, E, <- Hn1. split_and!.
  - by rewrite (take_drop (Z.to_nat SID_SIZE) c').
  - by eexists.
  - rewrite length_take. unfold SID_SIZE in *. lia.
  - done.
Qed.
