(* ===== verification/ReliableStore.v ===== *)
(** * The packet store of the reliability layer

    The invariant of [struct reliable] and what each operation does to the
    set of active entries.  [act r i e] says that slot [i] of [r] is in use
    and holds [e]. *)

From S2P Require Import Prelude Buffer CircList PacketId Reliable.
From stdpp Require Import prelude.
From Stdlib Require Import ZArith Lia ZifyBool.

Local Open Scope Z_scope.

Definition slot (r : reliable) (i : nat) (e : reliable_entry) : Prop := entries r !! i = Some e.
Definition act (r : reliable) (i : nat) (e : reliable_entry) : Prop := slot r i e /\ e_active e = true.

(** Some active entry has the id. *)
Definition has_pid (r : reliable) (k : Z) : Prop := exists i e, act r i e /\ e_packet_id e = k.

Record rel_wf (cap : Z) (r : reliable) : Prop := {
  rw_size : 1 <= r_size r <= RELIABLE_CAPACITY;
  rw_array : zlen (r_array r) = RELIABLE_CAPACITY;
  rw_offset : 0 <= r_offset r <= cap;
  rw_bufs : forall i e, slot r i e -> exists hd c tl, holds (e_buf e) hd c tl /\ hd + zlen c + tl = cap;
  rw_unique : forall i j e f, act r i e -> act r j f -> e_packet_id e = e_packet_id f -> i = j
}.

(** The same packet, up to its retransmission state. *)
Definition same_packet (e f : reliable_entry) : Prop :=
  e_packet_id e = e_packet_id f /\ e_buf e = e_buf f /\ e_opcode e = e_opcode f.

Lemma same_packet_refl e : same_packet e e.
Proof. done. Qed.

(** ** Slots *)

Lemma slot_lt r i e : slot r i e -> (i < Z.to_nat (r_size r))%nat /\ r_array r !! i = Some e.
Proof.
  unfold slot, entries. intros H. assert (i < Z.to_nat (r_size r))%nat.
  { apply lookup_lt_Some in H. rewrite length_take in H. lia. }
  by rewrite lookup_take_lt in H.
Qed.

Lemma slot_intro r i e : (i < Z.to_nat (r_size r))%nat -> r_array r !! i = Some e -> slot r i e.
Proof. intros. unfold slot, entries. by rewrite lookup_take_lt. Qed.

Lemma length_entries cap r : rel_wf cap r -> zlen (entries r) = r_size r.
Proof. intros []. unfold entries. rewrite length_take. lia. Qed.

Lemma rel_entry_slot r i e : slot r i e -> rel_entry r i = Ret e.
Proof.
  intros [_ H]%slot_lt. unfold rel_entry. apply arr_get_Ret; [lia|]. by rewrite Nat2Z.id.
Qed.

Lemma find_buf_slot cap r i e : rel_wf cap r -> slot r i e -> find_buf r i = Ret e.
Proof.
  intros [] H. unfold find_buf. pose proof (slot_lt _ _ _ H) as [Hi _].
  rewrite ASSERT_true by lia. cbn [mbind outcome_bind]. by apply rel_entry_slot.
Qed.

(** Replacing the entry of a slot. *)
Lemma slot_set r i e0 e' j e :
  slot r i e0 ->
  slot (rel_set_entry r i e') j e <-> (j = i /\ e = e') \/ (j <> i /\ slot r j e).
Proof.
  intros [Hi Ha]%slot_lt. unfold slot, entries, rel_set_entry, rel_set_array. simpl.
  destruct (decide (j < Z.to_nat (r_size r))%nat) as [Hj|Hj].
  - rewrite !lookup_take_lt by done. destruct (decide (j = i)) as [->|Hne].
    + rewrite list_lookup_insert_eq by (by eapply lookup_lt_Some). naive_solver.
    + rewrite list_lookup_insert_ne by done. naive_solver.
  - rewrite !lookup_take_ge by lia. split; [done|]. intros [[-> _]|[_ ?]]; [lia|done].
Qed.

Lemma act_set r i e0 e' j e :
  slot r i e0 ->
  act (rel_set_entry r i e') j e <-> (j = i /\ e = e' /\ e_active e' = true) \/ (j <> i /\ act r j e).
Proof. intros H. unfold act. rewrite (slot_set _ _ _ _ _ _ H). naive_solver. Qed.

(** Setting an entry keeps the invariant if its buffer is of the right size
    and its id is not that of another active entry. *)
Lemma rel_wf_set cap r i e0 e' :
  rel_wf cap r -> slot r i e0 ->
  (exists hd c tl, holds (e_buf e') hd c tl /\ hd + zlen c + tl = cap) ->
  (e_active e' = true -> forall j f, j <> i -> act r j f -> e_packet_id f <> e_packet_id e') ->
  rel_wf cap (rel_set_entry r i e').
Proof.
  intros [] Hs Hb Hu. split; try done.
  - simpl. by rewrite length_insert.
  - intros j e Hj. rewrite (slot_set _ _ _ _ _ _ Hs) in Hj. destruct Hj as [[-> ->]|[_ Hj]]; [done|eauto].
  - intros j k e f Hj Hk Heq. rewrite (act_set _ _ _ _ _ _ Hs) in Hj. rewrite (act_set _ _ _ _ _ _ Hs) in Hk.
    destruct Hj as [(-> & -> & Ha)|[Hj1 Hj]], Hk as [(-> & -> & Ha')|[Hk1 Hk]]; [done| | |eauto].
    + by destruct (Hu Ha k f Hk1 Hk).
    + by destruct (Hu Ha' j e Hj1 Hj).
Qed.

Lemma act_set_packet_id r p i e : act (rel_set_packet_id r p) i e <-> act r i e.
Proof. done. Qed.

Lemma rel_wf_set_packet_id cap r p : rel_wf cap r -> rel_wf cap (rel_set_packet_id r p).
Proof. intros []. by split. Qed.

(** ** Operations *)

(** [reliable_init] gives a well-formed, empty store with ids from zero. *)
Lemma reliable_init_loop_spec n cap off :
  buf_size_valid cap = true -> 0 <= off <= cap ->
  exists es, reliable_init_loop n cap off = Ret es /\ length es = n /\
    Forall (λ e, e_active e = false /\ holds (e_buf e) off [] (cap - off)) es.
Proof.
  intros Hc Ho. induction n as [|n (es & Hes & Hl & Hf)]; cbn [reliable_init_loop]; [by exists []|].
  destruct (alloc_buf_spec cap Hc) as (b & -> & Hb). cbn [mbind outcome_bind].
  destruct (buf_init_spec b _ _ _ off Hb) as (b' & -> & Hb'); [simpl; lia|].
  cbn [mbind outcome_bind ASSERT]. rewrite Hes. cbn [mbind outcome_bind].
  eexists; split; [done|]. split; [simpl; lia|]. constructor; [|done]. split; [done|].
  eapply holds_eq; [exact Hb'|done|done|simpl; lia].
Qed.

Lemma reliable_init_spec cap off size hold :
  buf_size_valid cap = true -> 0 <= off <= cap -> 1 <= size <= RELIABLE_CAPACITY ->
  exists r, reliable_init cap off size hold = Ret r /\ rel_wf cap r /\
    r_size r = size /\ r_offset r = off /\ r_packet_id r = 0 /\ r_hold r = hold /\
    (forall i e, ~ act r i e).
Proof.
  intros Hc Ho Hs. unfold reliable_init. rewrite ASSERT_true by lia. cbn [mbind outcome_bind].
  destruct (reliable_init_loop_spec (Z.to_nat size) cap off Hc Ho) as (es & -> & Hl & Hf).
  cbn [mbind outcome_bind]. eexists; split; [done|].
  assert (He : entries (mkrel size 0 0 off hold (es ++ replicate (Z.to_nat (RELIABLE_CAPACITY - size)) ent_clear)) = es).
  { unfold entries. simpl. by apply take_app_length'. }
  assert (Hslot : forall i e, slot (mkrel size 0 0 off hold (es ++ replicate (Z.to_nat (RELIABLE_CAPACITY - size)) ent_clear)) i e
            -> e_active e = false /\ holds (e_buf e) off [] (cap - off)).
  { intros i e H. unfold slot in H. rewrite He in H. rewrite Forall_lookup in Hf. eauto. }
  split_and!; try done.
  - split; simpl; try done.
    + rewrite length_app, length_replicate. lia.
    + intros i e [_ Hh]%Hslot. eexists _, _, _. split; [done|]. simpl. lia.
    + intros i j e f [[Ha _]%Hslot Ha'] _. congruence.
  - intros i e [[Ha _]%Hslot Ha']. congruence.
Qed.

(** [reliable_get_buf]: a free slot with an empty buffer, if there is one. *)
Lemma reliable_get_buf_spec cap r :
  rel_wf cap r ->
  (exists i e e', reliable_get_buf r = Ret (rel_set_entry r i e', Some i) /\ slot r i e /\
     e_active e = false /\ e_active e' = false /\ holds (e_buf e') (r_offset r) [] (cap - r_offset r))
  \/ (reliable_get_buf r = Ret (r, None) /\ forall i e, slot r i e -> e_active e = true).
Proof.
  intros Hw. unfold reliable_get_buf.
  destruct (find_index _ _) as [i|] eqn:E.
  - left. destruct (find_index_Some _ _ _ E) as (e & He & Hp & _).
    rewrite (rel_entry_slot r i e He). cbn [mbind outcome_bind].
    destruct (rw_bufs _ _ Hw i e He) as (hd & c & tl & Hh & Hcap).
    destruct (buf_init_spec (e_buf e) hd c tl (r_offset r) Hh) as (b' & -> & Hb').
    { destruct Hw. lia. }
    cbn [mbind outcome_bind ASSERT]. apply negb_true_iff in Hp.
    exists i, e, (ent_set_buf e b'). split_and!; try done. simpl. by rewrite <- Hcap.
  - right. split; [done|]. intros i e Hs. pose proof (find_index_None _ _ E i e Hs) as H.
    by apply negb_false_iff in H.
Qed.

Lemma rel_wf_set_idle cap r i e e' hd c tl :
  rel_wf cap r -> slot r i e -> e_active e' = false -> holds (e_buf e') hd c tl ->
  hd + zlen c + tl = cap -> rel_wf cap (rel_set_entry r i e').
Proof.
  intros Hw Hs Ha Hh Hc. eapply rel_wf_set; try done; [by eexists _, _, _|]. congruence.
Qed.

Lemma act_set_idle r i e e' j f :
  slot r i e -> e_active e = false -> e_active e' = false ->
  act (rel_set_entry r i e') j f <-> act r j f.
Proof.
  intros Hs Ha Ha'. rewrite (act_set _ _ _ _ _ _ Hs). split.
  - intros [(_ & _ & ?)|[_ ?]]; [congruence|done].
  - intros Hj. right. split; [|done]. intros ->. destruct Hj as [Hj ?].
    unfold slot in *. congruence.
Qed.

(** Two updates of one slot. *)
Lemma rel_set_set r i e e' : rel_set_entry (rel_set_entry r i e) i e' = rel_set_entry r i e'.
Proof. unfold rel_set_entry, rel_set_array. simpl. by rewrite list_insert_insert_eq. Qed.

Lemma slot_set_eq r i e0 e' : slot r i e0 -> slot (rel_set_entry r i e') i e'.
Proof. intros H. apply (slot_set _ _ _ _ _ _ H). by left. Qed.

(** [reliable_can_get] tells whether [reliable_get_buf] finds a slot. *)
Lemma reliable_can_get_spec r :
  reliable_can_get r = true <-> exists i e, slot r i e /\ e_active e = false.
Proof.
  unfold reliable_can_get, slot. rewrite existsb_exists. split.
  - intros (e & [i Hi]%list_elem_of_In%list_elem_of_lookup & He). exists i, e. split; [done|].
    by apply negb_true_iff.
  - intros (i & e & Hi & He). exists e. split; [by eapply list_elem_of_In, list_elem_of_lookup_2|].
    by rewrite He.
Qed.

Lemma reliable_get_entry_sequenced_spec r i :
  reliable_get_entry_sequenced r = Some i ->
  exists e, act r i e /\ e_packet_id e = r_packet_id r.
Proof.
  intros (e & He & Hp & _)%find_index_Some. exists e. split; [|lia]. split; [done|]. lia.
Qed.

Lemma reliable_get_entry_sequenced_ready r :
  has_pid r (r_packet_id r) -> exists i, reliable_get_entry_sequenced r = Some i.
Proof.
  intros (i & e & [Hs Ha] & Hp). eapply find_index_is_Some; [exact Hs|]. rewrite Ha. lia.
Qed.

(** ** Purging *)

Lemma purge_pid_lookup cap r pid i e :
  rel_wf cap r -> slot (purge_pid r pid) i e <-> exists e0, slot r i e0 /\ e = purge_entry pid e0.
Proof.
  intros Hw. pose proof (length_entries _ _ Hw) as Hl. unfold slot, entries at 1, purge_pid, rel_set_array. simpl.
  rewrite take_app_length' by (rewrite length_map; lia). change (map ?f ?l) with (f <$> l).
  rewrite list_lookup_fmap, fmap_Some. done.
Qed.

Lemma purge_entry_spec pid e :
  e_active (purge_entry pid e) = (if e_packet_id e =? pid then false else e_active e) /\
  e_packet_id (purge_entry pid e) = e_packet_id e /\ e_buf (purge_entry pid e) = e_buf e /\
  e_opcode (purge_entry pid e) = e_opcode e.
Proof.
  unfold purge_entry. destruct (e_active e) eqn:Ha, (e_packet_id e =? pid) eqn:E1,
    (e_packet_id e <? pid) eqn:E2; simpl; auto.
Qed.

Lemma purge_pid_wf cap r pid : rel_wf cap r -> rel_wf cap (purge_pid r pid).
Proof.
  intros Hw. pose proof (length_entries _ _ Hw) as Hl. pose proof Hw as []. split; try done.
  - simpl. rewrite length_app, length_map, length_drop. lia.
  - intros i e (e0 & Hs & ->)%(purge_pid_lookup cap r pid i e Hw).
    destruct (purge_entry_spec pid e0) as (_ & _ & -> & _). eauto.
  - intros i j e f [(e0 & Hs & ->)%(purge_pid_lookup cap r pid i _ Hw) Ha]
      [(f0 & Hf & ->)%(purge_pid_lookup cap r pid j _ Hw) Hb].
    destruct (purge_entry_spec pid e0) as (Ea & -> & _), (purge_entry_spec pid f0) as (Eb & -> & _).
    rewrite Ea in Ha. rewrite Eb in Hb. do 2 case_match; try done.
    apply rw_unique0; by split.
Qed.

Lemma purge_pid_act cap r pid i e :
  rel_wf cap r -> act (purge_pid r pid) i e ->
  exists e0, act r i e0 /\ same_packet e e0 /\ e_packet_id e <> pid.
Proof.
  intros Hw [(e0 & Hs & ->)%(purge_pid_lookup cap r pid i e Hw) Ha].
  destruct (purge_entry_spec pid e0) as (Ea & Ep & Eb & Eo). rewrite Ea in Ha.
  case_match; [done|]. exists e0. split_and!; try done. rewrite Ep. lia.
Qed.

Lemma purge_pid_keeps cap r pid k :
  rel_wf cap r -> has_pid (purge_pid r pid) k <-> has_pid r k /\ k <> pid.
Proof.
  intros Hw. split.
  - intros (i & e & Ha & <-). destruct (purge_pid_act _ _ _ _ _ Hw Ha) as (e0 & Ha0 & (Hp & _ & _) & Hne).
    split; [|done]. by exists i, e0.
  - intros [(i & e & [Hs Ha] & <-) Hne]. destruct (purge_entry_spec pid e) as (Ea & Ep & _).
    exists i, (purge_entry pid e). split; [|done]. split.
    + apply (purge_pid_lookup cap); eauto.
    + rewrite Ea. case_match; [lia|done].
Qed.

Lemma purge_pids_spec cap l : forall r,
  rel_wf cap r ->
  let r' := fold_left purge_pid l r in
  rel_wf cap r' /\ r_size r' = r_size r /\ r_packet_id r' = r_packet_id r /\ r_offset r' = r_offset r /\
  r_initial_timeout r' = r_initial_timeout r /\
  (forall i e, act r' i e -> exists e0, act r i e0 /\ same_packet e e0) /\
  (forall k, has_pid r' k <-> has_pid r k /\ k ∉ l).
Proof.
  induction l as [|pid l IH]; intros r Hw; simpl.
  - split_and!; try done; [eauto using same_packet_refl|]. intros k. split; [|naive_solver]. intros ?. split; [done|set_solver].
  - destruct (IH _ (purge_pid_wf cap r pid Hw)) as (Hw' & Hs & Hp & Ho & Ht & Ha & Hk).
    split_and!; try done.
    + intros i e He. destruct (Ha i e He) as (e1 & He1 & H1 & H2 & H3).
      destruct (purge_pid_act _ _ _ _ _ Hw He1) as (e0 & He0 & (H4 & H5 & H6) & _). exists e0.
      split; [done|]. split_and!; congruence.
    + intros k. rewrite Hk, (purge_pid_keeps cap) by done. set_solver.
Qed.

(** Rescheduling all packets changes their timers only. *)
Lemma schedule_now_spec cap r now :
  rel_wf cap r ->
  let r' := reliable_schedule_now now r in
  rel_wf cap r' /\ r_size r' = r_size r /\ r_packet_id r' = r_packet_id r /\ r_offset r' = r_offset r /\
  (forall i e, act r' i e -> exists e0, act r i e0 /\ same_packet e e0) /\
  (forall k, has_pid r k -> has_pid r' k) /\
  (forall i e, act r' i e -> e_timeout e = r_initial_timeout r /\ e_next_try e = now).
Proof.
  intros Hw r'. pose proof (length_entries _ _ Hw) as Hl. pose proof Hw as []. set (g := schedule_entry now (r_initial_timeout r)).
  assert (Hg : forall e, e_active (g e) = e_active e /\ same_packet (g e) e)
    by (intros e; unfold g, schedule_entry; destruct (e_active e) eqn:Ee; simpl; done).
  assert (Hsl : forall i e, slot r' i e <-> exists e0, slot r i e0 /\ e = g e0).
  { intros i e. unfold slot, entries at 1, r', reliable_schedule_now. simpl.
    rewrite take_app_length' by (rewrite length_map; lia). change (map ?f ?l) with (f <$> l).
    by rewrite list_lookup_fmap, fmap_Some. }
  assert (Ha : forall i e, act r' i e -> exists e0, act r i e0 /\ same_packet e e0).
  { intros i e [(e0 & Hs & ->)%Hsl He]. destruct (Hg e0) as (H1 & H2). exists e0. split; [|done]. split; [done|congruence]. }
  split_and!; try done.
  - split; try done.
    + simpl. rewrite length_app, length_map, length_drop. lia.
    + intros i e (e0 & Hs & ->)%Hsl. destruct (Hg e0) as (_ & _ & -> & _). eauto.
    + intros i j e f (e0 & He & -> & _)%Ha (f0 & Hf & -> & _)%Ha. eauto.
  - intros k (i & e & [Hs He] & <-). destruct (Hg e) as (H1 & H2 & _). exists i, (g e). split; [|done].
    split; [apply Hsl; eauto|congruence].
  - intros i e [(e0 & Hs & ->)%Hsl He]. unfold g, schedule_entry in *. destruct (e_active e0) eqn:E0; [done|congruence].
Qed.

(** ** Choosing the minimum id

    [unw lo k p]: the id [p] stands for the unwrapped sequence number [k],
    which is less than half the number space above [lo]. *)
Definition unw (lo k p : Z) : Prop := p = u32 k /\ lo <= k < lo + 2 ^ 31.

Lemma unw_min lo k k' p p' : unw lo k p -> unw lo k' p' -> reliable_pid_min p p' = (k <? k').
Proof. intros [-> ?] [-> ?]. apply reliable_pid_min_spec. lia. Qed.

Lemma unw_inj lo k k' p : unw lo k p -> unw lo k' p -> k = k'.
Proof.
  intros [-> ?] [Heq ?]. unfold u32 in Heq.
  pose proof (Z.div_mod k (2 ^ 32)). pose proof (Z.div_mod k' (2 ^ 32)). mlia.
Qed.

(** The two searches of the store, for the entries that satisfy [p]:
    [reliable_send] looks for the best due entry, the window computations for
    the best active one. *)
Definition better (p : reliable_entry -> bool) (i : nat) (e : reliable_entry) (best : option (nat * Z))
  : option (nat * Z) :=
  if p e then
    match best with
    | None => Some (i, e_packet_id e)
    | Some (_, bp) => if reliable_pid_min (e_packet_id e) bp then Some (i, e_packet_id e) else best
    end
  else best.

Fixpoint best_by (p : reliable_entry -> bool) (l : list reliable_entry) (i : nat) (best : option (nat * Z)) :=
  match l with
  | [] => best
  | e :: l' => best_by p l' (S i) (better p i e best)
  end.

Lemma send_best_by now l : forall i best, send_best now l i best = best_by (entry_due now) l i best.
Proof. induction l as [|e l IH]; intros i best; [done|]. apply IH. Qed.

Lemma min_active_best l : forall i best, min_active_id l (snd <$> best) = snd <$> best_by e_active l i best.
Proof.
  induction l as [|e l IH]; intros i best; [done|]. cbn [min_active_id best_by].
  rewrite <- IH. f_equal. unfold better. destruct best as [[j q]|]; simpl; by repeat case_match.
Qed.

(** [best] is the position and id of the entry of [l] that comes first. *)
Definition is_best (lo : Z) (p : reliable_entry -> bool) (l : list reliable_entry) (best : option (nat * Z)) : Prop :=
  match best with
  | None => Forall (λ e, p e = false) l
  | Some (i, q) => exists e m, l !! i = Some e /\ p e = true /\ e_packet_id e = q /\ unw lo m q /\
      Forall (λ f, p f = true -> forall k, unw lo k (e_packet_id f) -> m <= k) l
  end.

Lemma better_spec lo p l e best :
  (p e = true -> exists k, unw lo k (e_packet_id e)) ->
  is_best lo p l best -> is_best lo p (l ++ [e]) (better p (length l) e best).
Proof.
  intros He Hb. unfold better. destruct (p e) eqn:Ep.
  - destruct (He eq_refl) as (k & Hk).
    assert (Hnew : forall j, unw lo j (e_packet_id e) -> k <= j)
      by (intros j Hj; rewrite (unw_inj _ _ _ _ Hj Hk); lia).
    destruct best as [[i q]|]; simpl in *.
    + destruct Hb as (f & m & Hf & Hpf & Hq & Hm & Hall). rewrite (unw_min _ _ _ _ _ Hk Hm).
      destruct (k <? m) eqn:E.
      * exists e, k. rewrite list_lookup_middle by done. split_and!; try done. apply Forall_app. split.
        -- eapply Forall_impl; [exact Hall|]. simpl. intros g Hg Hpg j Hj. specialize (Hg Hpg j Hj). lia.
        -- constructor; [auto|constructor].
      * exists f, m. rewrite lookup_app_l by (by eapply lookup_lt_Some). split_and!; try done.
        apply Forall_app. split; [done|]. constructor; [|constructor]. intros _ j Hj. specialize (Hnew j Hj). lia.
    + exists e, k. rewrite list_lookup_middle by done. split_and!; try done. apply Forall_app. split.
      * eapply Forall_impl; [exact Hb|]. simpl. intros g Hg Hg'. congruence.
      * constructor; [auto|constructor].
  - destruct best as [[i q]|]; simpl in *.
    + destruct Hb as (f & m & Hf & Hpf & Hq & Hm & Hall). exists f, m.
      rewrite lookup_app_l by (by eapply lookup_lt_Some). split_and!; try done.
      apply Forall_app. split; [done|]. constructor; [congruence|constructor].
    + apply Forall_app. by split; [|constructor].
Qed.

Lemma best_by_spec lo p l2 : forall l1 best,
  Forall (λ e, p e = true -> exists k, unw lo k (e_packet_id e)) l2 ->
  is_best lo p l1 best -> is_best lo p (l1 ++ l2) (best_by p l2 (length l1) best).
Proof.
  induction l2 as [|e l2 IH]; intros l1 best Hall Hb; cbn [best_by]; [by rewrite app_nil_r|].
  apply Forall_cons in Hall as [He Hall]. rewrite cons_middle, (assoc_L (++)).
  replace (S (length l1)) with (length (l1 ++ [e])) by (rewrite length_app; simpl; lia).
  apply IH; [done|]. by apply better_spec.
Qed.

(** ** The sender's window

    [n] packets were submitted so far; the active ones are among the last
    [r_size r], each under its number modulo 2^32. *)
Definition send_window (r : reliable) (n : Z) : Prop :=
  r_packet_id r = u32 n /\
  forall i e, act r i e -> exists k, e_packet_id e = u32 k /\ n - r_size r <= k < n.

Lemma window_unw cap r n i e : rel_wf cap r -> send_window r n -> act r i e ->
  exists k, unw (n - r_size r) k (e_packet_id e) /\ n - r_size r <= k < n.
Proof.
  intros [] [_ Hw] Ha. destruct (Hw i e Ha) as (k & Hp & Hk). exists k. unfold unw, RELIABLE_CAPACITY in *.
  split_and!; try done; lia.
Qed.

Lemma send_best_spec cap r n now :
  rel_wf cap r -> send_window r n ->
  is_best (n - r_size r) (entry_due now) (entries r) (send_best now (entries r) 0 None).
Proof.
  intros Hw Hs. rewrite send_best_by. apply (best_by_spec _ _ (entries r) [] None); [|by constructor].
  apply Forall_lookup. intros i e He Hd. unfold entry_due in Hd.
  destruct (window_unw cap r n i e) as (k & Hk & _); [done|done|split; [done|lia]|eauto].
Qed.

Lemma min_active_spec cap r n :
  rel_wf cap r -> send_window r n ->
  exists best, is_best (n - r_size r) e_active (entries r) best /\ min_active_id (entries r) None = snd <$> best.
Proof.
  intros Hw Hs. exists (best_by e_active (entries r) 0 None). split; [|apply (min_active_best _ 0 None)].
  apply (best_by_spec _ _ (entries r) [] None); [|by constructor].
  apply Forall_lookup. intros i e He Hd.
  destruct (window_unw cap r n i e) as (k & Hk & _); [done|done|by split|eauto].
Qed.

(** The distance from the oldest active packet. *)
Lemma min_active_cases cap r n :
  rel_wf cap r -> send_window r n ->
  (min_active_id (entries r) None = None /\ forall i e, ~ act r i e) \/
  (exists m, min_active_id (entries r) None = Some (u32 m) /\ n - r_size r <= m < n /\
     has_pid r (u32 m) /\ subtract_pid (r_packet_id r) (u32 m) = n - m /\
     forall i e k, act r i e -> e_packet_id e = u32 k -> n - r_size r <= k < n -> m <= k).
Proof.
  intros Hw Hs. destruct (min_active_spec cap r n Hw Hs) as (best & Hb & ->).
  destruct best as [[i q]|]; simpl in Hb |- *.
  - right. destruct Hb as (e & m & He & Hae & <- & Hm & Hall).
    destruct (window_unw cap r n i e Hw Hs) as (k & Hk & Hkn); [by split|].
    pose proof (unw_inj _ _ _ _ Hm Hk) as ->. exists k. split_and!; try lia.
    + by rewrite (proj1 Hk).
    + exists i, e. split; [by split|]. apply Hk.
    + rewrite (proj1 Hs), <- (proj1 Hk). rewrite (proj1 Hk). apply subtract_pid_u32.
      destruct Hw. unfold RELIABLE_CAPACITY in *. lia.
    + intros j f k' [Hf Haf] Hp Hk'. rewrite Forall_lookup in Hall. apply (Hall j f Hf Haf). split; [done|].
      destruct Hw. unfold RELIABLE_CAPACITY in *. lia.
  - left. split; [done|]. intros i e [He Ha]. rewrite Forall_lookup in Hb. specialize (Hb i e He). congruence.
Qed.

(** Distinct ids of a window of width [d] fill at most [d] slots. *)
Lemma all_active_count cap r n m :
  rel_wf cap r -> (forall i e, slot r i e -> e_active e = true) ->
  (forall i e, act r i e -> exists k, e_packet_id e = u32 k /\ m <= k < n) -> m <= n -> r_size r <= n - m.
Proof.
  intros Hw Hall Hwin Hmn. rewrite <- (length_entries cap r Hw).
  assert (Hsub : (e_packet_id <$> entries r) ⊆+ (u32 <$> seqZ m (n - m))).
  { apply NoDup_submseteq.
    - apply NoDup_fmap_2_strong; [|apply NoDup_alt].
      + intros e f He Hf Heq. apply list_elem_of_lookup in He as [i Hi]. apply list_elem_of_lookup in Hf as [j Hj].
        assert (i = j) as ->; [|congruence]. eapply (rw_unique _ _ Hw); [by split; eauto..|done].
      + intros i j e Hi Hj. eapply (rw_unique _ _ Hw i j e e); [by split; eauto..|done].
    - intros x Hx. apply list_elem_of_fmap in Hx as (e & -> & He). apply list_elem_of_lookup in He as [i Hi].
      destruct (Hwin i e) as (k & -> & Hk); [by split; eauto|]. apply list_elem_of_fmap. exists k. split; [done|].
      apply elem_of_seqZ. lia. }
  apply submseteq_length in Hsub. rewrite !length_fmap, length_seqZ in Hsub. lia.
Qed.

Definition avail (r : reliable) : Z := reliable_get_num_output_sequenced_available r.

Lemma to_int_small x : - 2 ^ 31 <= x < 2 ^ 31 -> to_int x = x.
Proof. intros. unfold to_int, u32. destruct (_ <? _) eqn:E; mlia. Qed.

(** The number the sender computes: the window size less the span of the
    unacknowledged packets. *)
Lemma avail_spec cap r n :
  rel_wf cap r -> send_window r n ->
  exists m, avail r = r_size r - (n - m) /\ n - r_size r <= m <= n /\
    (forall i e k, act r i e -> e_packet_id e = u32 k -> n - r_size r <= k < n -> m <= k) /\
    ((m = n /\ forall i e, ~ act r i e) \/ has_pid r (u32 m)).
Proof.
  intros Hw Hs. unfold avail, reliable_get_num_output_sequenced_available. pose proof (rw_size _ _ Hw).
  unfold RELIABLE_CAPACITY in *.
  destruct (min_active_cases cap r n Hw Hs) as [[-> Hn]|(m & -> & Hm & Hhas & Hsub & Hmin)].
  - exists n. split_and!; [lia|lia|lia| |by left]. intros i e k Ha. by destruct (Hn i e).
  - exists m. rewrite Hsub. rewrite to_int_small by lia. split_and!; try done; lia || by right.
Qed.

(** [reliable_get_buf_output_sequenced] finds a slot whenever that number is
    positive, and says so when it is not. *)
Lemma get_buf_output_spec cap r n :
  rel_wf cap r -> send_window r n ->
  (0 < avail r -> exists i e e', reliable_get_buf_output_sequenced r = Ret (rel_set_entry r i e', Some i) /\
     slot r i e /\ e_active e = false /\ e_active e' = false /\
     holds (e_buf e') (r_offset r) [] (cap - r_offset r)) /\
  (avail r = 0 -> reliable_get_buf_output_sequenced r = Ret (r, None)).
Proof.
  intros Hw Hs. pose proof (rw_size _ _ Hw). unfold RELIABLE_CAPACITY in *.
  unfold avail, reliable_get_num_output_sequenced_available, reliable_get_buf_output_sequenced.
  destruct (min_active_cases cap r n Hw Hs) as [[-> Hn]|(m & -> & Hm & Hhas & Hsub & Hmin)].
  - split; [|lia]. intros _. destruct (reliable_get_buf_spec cap r Hw) as [?|[_ Hall]]; [done|].
    destruct (lookup_lt_is_Some_2 (entries r) 0) as [e He]; [pose proof (length_entries _ _ Hw); lia|].
    destruct (Hn 0%nat e). split; [done|]. by eapply Hall.
  - unfold reliable_pid_in_range1. rewrite Hsub. rewrite to_int_small by lia. split.
    + intros Hpos. destruct (n - m <? r_size r) eqn:E; [|lia].
      destruct (reliable_get_buf_spec cap r Hw) as [?|[_ Hall]]; [done|].
      assert (r_size r <= n - m); [|lia]. eapply (all_active_count cap); try done; [|lia].
      intros i e Ha. destruct (proj2 Hs i e Ha) as (k & Hk & Hkn). exists k. split; [done|].
      split; [by eapply Hmin|lia].
    + intros Hz. destruct (n - m <? r_size r) eqn:E; [lia|done].
Qed.

Lemma u32_inj_near k k' : u32 k = u32 k' -> - 2 ^ 31 < k - k' < 2 ^ 31 -> k = k'.
Proof.
  intros Heq Hd. apply (unw_inj (Z.min k k') k k' (u32 k)); split; try done; lia.
Qed.

(** The number depends on the ids of the active entries only; it grows when
    packets leave. *)
Lemma avail_mono cap r r' n :
  rel_wf cap r -> rel_wf cap r' -> send_window r n -> send_window r' n -> r_size r' = r_size r ->
  (forall k, has_pid r' k -> has_pid r k) -> avail r <= avail r'.
Proof.
  intros Hw Hw' Hwin Hwin' Hs Hp. pose proof (rw_size _ _ Hw). unfold RELIABLE_CAPACITY in *.
  destruct (avail_spec cap r n Hw Hwin) as (m & -> & Hm & Hmin & Hc).
  destruct (avail_spec cap r' n Hw' Hwin') as (m' & -> & Hm' & _ & Hc'). rewrite Hs in *. enough (m <= m') by lia.
  destruct Hc' as [[-> _]|Hh]; [lia|]. destruct (Hp _ Hh) as (i & e & He & Hpid).
  destruct (proj2 Hwin i e He) as (k & Hk & Hkn).
  assert (k = m') as -> by (apply u32_inj_near; [congruence|lia]). by eapply Hmin.
Qed.

Lemma avail_pids cap r r' n :
  rel_wf cap r -> rel_wf cap r' -> send_window r n -> send_window r' n -> r_size r' = r_size r ->
  (forall k, has_pid r' k <-> has_pid r k) -> avail r' = avail r.
Proof.
  intros Hw Hw' Hwin Hwin' Hs Hp. apply Z.le_antisymm; eapply (avail_mono cap); try done; intros k; by apply Hp.
Qed.

Lemma avail_same cap r r' n :
  rel_wf cap r -> rel_wf cap r' -> send_window r n -> r_size r' = r_size r -> r_packet_id r' = r_packet_id r ->
  (forall i e, act r' i e <-> act r i e) -> avail r' = avail r.
Proof.
  intros Hw Hw' Hwin Hs Hp Ha. apply (avail_pids cap r r' n); try done.
  - split; [rewrite Hp; apply Hwin|]. intros i e He. rewrite Hs. apply (proj2 Hwin i e), Ha, He.
  - intros k. split; intros (i & e & He & Hk); exists i, e; (split; [by apply Ha|done]).
Qed.

Lemma avail_range cap r n : rel_wf cap r -> send_window r n -> 0 <= avail r <= r_size r.
Proof. intros Hw Hwin. destruct (avail_spec cap r n Hw Hwin) as (m & -> & Hm & _). lia. Qed.

(** ** How many packets are stored *)

Fixpoint count_true (l : list bool) : Z :=
  match l with [] => 0 | b :: l' => (if b then 1 else 0) + count_true l' end.
Definition stored_count (r : reliable) : Z := count_true (map e_active (entries r)).

Lemma count_true_range l : 0 <= count_true l <= zlen l.
Proof. induction l as [|[] l IH]; simpl; lia. Qed.

Lemma count_true_mono l : forall l', length l' = length l -> (forall j, l' !! j = Some true -> l !! j = Some true) ->
  count_true l' <= count_true l /\ (forall i, l !! i = Some true -> l' !! i = Some false -> count_true l' < count_true l).
Proof.
  induction l as [|b l IH]; intros [|b' l'] Hl Hj; simpl in Hl; try lia; [by split|].
  destruct (IH l') as [IH1 IH2]; [lia|intros j Hx; exact (Hj (S j) Hx)|]. assert (b' = true -> b = true) by (intros ->; specialize (Hj 0%nat eq_refl); by injection Hj).
  cbn [count_true]. split; [destruct b, b'; try lia; by specialize (H eq_refl)|].
  intros [|i] H1 H2; simpl in H1, H2; [injection H1 as ->; injection H2 as ->; lia|].
  specialize (IH2 i H1 H2). destruct b, b'; try lia; by specialize (H eq_refl).
Qed.

Lemma flag_act r i : map e_active (entries r) !! i = Some true <-> exists e, act r i e.
Proof.
  rewrite list_lookup_fmap. unfold act, slot. split.
  - intros H. apply fmap_Some in H as (e & He & Ha). by exists e.
  - intros (e & -> & Ha). simpl. by rewrite Ha.
Qed.

Lemma stored_count_range cap r : rel_wf cap r -> 0 <= stored_count r <= r_size r.
Proof. intros Hw. unfold stored_count. pose proof (count_true_range (map e_active (entries r))) as H. rewrite length_map in H. by rewrite (length_entries cap r Hw) in H. Qed.

Lemma stored_count_le cap r r' :
  rel_wf cap r -> rel_wf cap r' -> r_size r' = r_size r -> (forall j e, act r' j e -> exists e', act r j e') ->
  stored_count r' <= stored_count r /\ (forall i e, act r i e -> (forall f, ~ act r' i f) -> stored_count r' < stored_count r).
Proof.
  intros Hw Hw' Hs Hj. pose proof (length_entries _ _ Hw). pose proof (length_entries _ _ Hw').
  destruct (count_true_mono (map e_active (entries r)) (map e_active (entries r'))) as [H1 H2].
  - rewrite !length_map. lia.
  - intros j Hx. apply flag_act in Hx as (e & He). apply flag_act. by eapply Hj.
  - split; [done|]. intros i e Ha Hno. apply (H2 i); [apply flag_act; by exists e|].
    destruct (map e_active (entries r') !! i) as [[]|] eqn:E; [|done|].
    + apply flag_act in E as (f & Hf). by destruct (Hno f).
    + apply lookup_ge_None in E. rewrite length_map in E. destruct Ha as [Ha _]. apply lookup_lt_Some in Ha. lia.
Qed.

(** ** Submitting a packet *)

Section mark_outgoing.
Context (cap n hd tl op : Z) (r : reliable) (i : nat) (e : reliable_entry) (data : bytes).
Hypotheses (Hw : rel_wf cap r) (Hwin : send_window r n) (Hav : 0 < avail r)
  (Hslot : slot r i e) (Hidle : e_active e = false)
  (Hbuf : holds (e_buf e) hd data tl) (Hhd : 4 <= hd) (Hcap : hd + zlen data + tl = cap).

(** The entry that [reliable_mark_active_outgoing] leaves in slot [i]. *)
Definition outgoing_entry (b : buffer) : reliable_entry :=
  mkent true (r_initial_timeout r) 0 (u32 n) (e_n_acks e) op b.

Definition outgoing_store (b : buffer) : reliable :=
  rel_set_entry (rel_set_packet_id r (u32 (n + 1))) i (outgoing_entry b).

Lemma idle_not_act f : ~ act r i f.
Proof using Hslot Hidle. intros [Hf Ha]. unfold slot in *. congruence. Qed.

Lemma outgoing_act b j f : act (outgoing_store b) j f <-> (j = i /\ f = outgoing_entry b) \/ act r j f.
Proof using Hslot Hidle.
  unfold outgoing_store. rewrite (act_set (rel_set_packet_id r _) i e) by exact Hslot.
  rewrite act_set_packet_id. split; [intros [(-> & -> & _)|[_ ?]]; [by left|by right]|].
  intros [[-> ->]|Ha]; [by left|right]. split; [|done].
  intros ->. by destruct (idle_not_act f).
Qed.

Lemma oldest_in_window k j f : act r j f -> e_packet_id f = u32 k -> n - r_size r <= k < n -> n + 1 - r_size r <= k.
Proof.
  intros Ha Hp Hk. destruct (avail_spec cap r n Hw Hwin) as (m & Hm & _ & Hmin & _).
  specialize (Hmin j f k Ha Hp Hk). lia.
Qed.

Lemma outgoing_window b : send_window (outgoing_store b) (n + 1).
Proof.
  split; [done|]. intros j f Ha. apply outgoing_act in Ha as [[-> ->]|Ha].
  - exists n. pose proof (rw_size _ _ Hw). split; [done|]. simpl. lia.
  - destruct (proj2 Hwin j f Ha) as (k & Hp & Hk). exists k. split; [done|].
    pose proof (oldest_in_window k j f Ha Hp Hk). simpl. lia.
Qed.

Lemma outgoing_wf b hd' c' tl' :
  holds b hd' c' tl' -> hd' + zlen c' + tl' = cap -> rel_wf cap (outgoing_store b).
Proof.
  intros Hb Hc. eapply rel_wf_set; [by apply rel_wf_set_packet_id|exact Hslot|by eexists _, _, _|].
  intros _ j f Hj Ha Heq. destruct (proj2 Hwin j f Ha) as (k & Hp & Hk). simpl in Heq.
  pose proof (rw_size _ _ Hw). unfold RELIABLE_CAPACITY in *.
  assert (k = n); [|lia]. apply u32_inj_near; [congruence|lia].
Qed.

Lemma outgoing_avail b hd' c' tl' :
  holds b hd' c' tl' -> hd' + zlen c' + tl' = cap -> avail (outgoing_store b) = avail r - 1.
Proof.
  intros Hb Hc. pose proof (outgoing_wf b hd' c' tl' Hb Hc) as Hw'. pose proof (outgoing_window b) as Hwin'.
  pose proof (rw_size _ _ Hw) as Hsz. unfold RELIABLE_CAPACITY in *.
  destruct (avail_spec cap r n Hw Hwin) as (m & -> & Hm & Hmin & Hcase).
  destruct (avail_spec cap _ _ Hw' Hwin') as (m' & -> & Hm' & Hmin' & Hcase').
  change (r_size (outgoing_store b)) with (r_size r) in *.
  enough (m' = m) by lia.
  assert (Hle : m' <= m).
  { destruct Hcase as [[-> _]|(j & f & Ha & Hp)].
    - apply (Hmin' i (outgoing_entry b)); [apply outgoing_act; by left|done|lia].
    - destruct (proj2 Hwin j f Ha) as (k & Hp' & Hk).
      assert (k = m) as -> by (apply u32_inj_near; [congruence|lia]).
      pose proof (oldest_in_window m j f Ha Hp' Hk).
      apply (Hmin' j f); [apply outgoing_act; by right|done|lia]. }
  destruct Hcase' as [[-> Hno]|(j & f & Ha & Hp)].
  - destruct (Hno i (outgoing_entry b)). apply outgoing_act. by left.
  - apply outgoing_act in Ha as [[-> ->]|Ha].
    + simpl in Hp. assert (n = m') by (apply u32_inj_near; [done|lia]). lia.
    + destruct (proj2 Hwin j f Ha) as (k & Hp' & Hk).
      assert (k = m') as -> by (apply u32_inj_near; [congruence|lia]).
      specialize (Hmin j f m' Ha Hp' Hk). lia.
Qed.

Lemma mark_outgoing_spec :
  exists b, reliable_mark_active_outgoing r i op = Ret (outgoing_store b) /\
    holds b (hd - 4) (be_bytes 4 (u32 n) ++ data) tl /\
    rel_wf cap (outgoing_store b) /\ send_window (outgoing_store b) (n + 1) /\
    avail (outgoing_store b) = avail r - 1.
Proof.
  unfold reliable_mark_active_outgoing. rewrite (find_buf_slot cap r i e Hw Hslot). cbn [mbind outcome_bind].
  rewrite (proj1 Hwin).
  destruct (buf_write_prepend_spec _ _ _ _ (be_bytes 4 (u32 n)) Hbuf) as (b & -> & Hb);
    [apply be_bytes_is_byte|rewrite length_be_bytes; lia|].
  cbn [mbind outcome_bind ASSERT]. exists b.
  assert (Hst : outgoing_store b = rel_set_entry (rel_set_packet_id r (u32 (u32 n + 1))) i
    (mkent true (r_initial_timeout r) 0 (u32 n) (e_n_acks e) op b)).
  { unfold outgoing_store. by rewrite u32_idemp_add_l. }
  rewrite Hst. split; [done|]. rewrite <- Hst. rewrite length_be_bytes in Hb.
  assert (Hc : (hd - 4) + zlen (be_bytes 4 (u32 n) ++ data) + tl = cap)
    by (rewrite length_app, length_be_bytes; lia).
  split_and!; [done|by eapply outgoing_wf|apply outgoing_window|by eapply outgoing_avail].
Qed.
End mark_outgoing.

(** ** Sending *)

(** The entry as [reliable_send] leaves it. *)
Definition resent (now : Z) (e : reliable_entry) : reliable_entry :=
  mkent (e_active e) (to_int (e_timeout e * 2)) (now + e_timeout e) (e_packet_id e) 0 (e_opcode e) (e_buf e).

Lemma can_send_due now r :
  reliable_can_send now r = true <-> r_hold r = false /\ exists i e, slot r i e /\ entry_due now e = true.
Proof.
  unfold reliable_can_send, slot. rewrite andb_true_iff, negb_true_iff, Z.ltb_lt.
  assert (H : 0 < zlen (List.filter (entry_due now) (entries r)) <->
              exists i e, entries r !! i = Some e /\ entry_due now e = true); [|tauto].
  split.
  - destruct (List.filter _ _) as [|e l] eqn:E; simpl; [lia|]. intros _.
    assert (He : In e (List.filter (entry_due now) (entries r))) by (rewrite E; by left).
    apply filter_In in He as [He Hd]. apply list_elem_of_In, list_elem_of_lookup in He as [i Hi]. eauto.
  - intros (i & e & Hi & Hd). assert (He : In e (List.filter (entry_due now) (entries r))).
    { apply filter_In. split; [|done]. by eapply list_elem_of_In, list_elem_of_lookup_2. }
    destruct (List.filter _ _); [done|]. simpl. lia.
Qed.

Lemma due_active now e : entry_due now e = true -> e_active e = true.
Proof. unfold entry_due. lia. Qed.

(** What [reliable_send] does on any store. *)
Lemma reliable_send_spec cap r n now :
  rel_wf cap r -> send_window r n ->
  (reliable_send now r = Ret (r, None) /\ forall i e, slot r i e -> entry_due now e = false) \/
  (exists i e, reliable_send now r = Ret (rel_set_entry r i (resent now e), Some (i, e_opcode e)) /\
     act r i e /\ entry_due now e = true /\
     forall j f k k', act r j f -> entry_due now f = true ->
       e_packet_id e = u32 k -> n - r_size r <= k < n ->
       e_packet_id f = u32 k' -> n - r_size r <= k' < n -> k <= k').
Proof.
  intros Hw Hs. pose proof (send_best_spec cap r n now Hw Hs) as Hb. unfold reliable_send.
  pose proof (rw_size _ _ Hw). unfold RELIABLE_CAPACITY in *.
  destruct (send_best _ _ _ _) as [[i q]|]; simpl in Hb.
  - right. destruct Hb as (e & m & He & Hd & <- & Hm & Hall). rewrite (rel_entry_slot _ _ _ He). simpl.
    exists i, e. split_and!; try done; [by split; [|eapply due_active]|].
    intros j f k k' [Hf _] Hdf Hp Hk Hp' Hk'. rewrite Forall_lookup in Hall.
    assert (k = m) as -> by (apply u32_inj_near; destruct Hm; [congruence|lia]).
    apply (Hall j f Hf Hdf). split; [done|lia].
  - left. split; [done|]. rewrite Forall_lookup in Hb. intros i e Hs'. by eapply Hb.
Qed.

(** Rescheduling touches no id and no buffer. *)
Lemma resent_wf cap r i e now : rel_wf cap r -> act r i e -> rel_wf cap (rel_set_entry r i (resent now e)).
Proof.
  intros Hw [Hs Ha]. eapply rel_wf_set; try done; [exact (rw_bufs _ _ Hw i e Hs)|].
  intros _ j f Hj Hf Heq. apply Hj. eapply (rw_unique _ _ Hw); [done|by split|done].
Qed.

Lemma resent_act r i e now j f :
  act r i e -> act (rel_set_entry r i (resent now e)) j f ->
  exists f0, act r j f0 /\ same_packet f f0.
Proof.
  intros [Hs Ha] Hf. rewrite (act_set _ _ _ _ _ _ Hs) in Hf. destruct Hf as [(-> & -> & _)|[_ Hf]]; [|eauto using same_packet_refl].
  exists e. by split; [split|].
Qed.

(** [reliable_can_send] and [reliable_send] agree: when the first says
    yes, the second returns a due packet, the oldest one of the window; the
    store only changes in that entry's timer, so every unacknowledged packet
    is still there under the same id with the same bytes; and when nothing is
    due it returns no packet. *)
Theorem reliable_send_oldest_due cap r n now :
  rel_wf cap r -> send_window r n ->
  exists r' res, reliable_send now r = Ret (r', res) /\
    rel_wf cap r' /\ send_window r' n /\
    (forall i f, act r' i f -> exists f0, act r i f0 /\ same_packet f f0) /\
    (forall k, has_pid r' k <-> has_pid r k) /\
    (reliable_can_send now r = true -> exists i op, res = Some (i, op)) /\
    (forall i op, res = Some (i, op) -> exists e k, act r i e /\ entry_due now e = true /\ op = e_opcode e /\
       e_packet_id e = u32 k /\ n - r_size r <= k < n /\
       forall j f k', act r j f -> entry_due now f = true ->
         e_packet_id f = u32 k' -> n - r_size r <= k' < n -> k <= k').
Proof.
  intros Hw Hs. destruct (reliable_send_spec cap r n now Hw Hs) as [[-> Hno]|(i & e & -> & Ha & Hd & Hmin)].
  - eexists _, _. split; [done|]. split_and!; try done; [eauto using same_packet_refl|].
    intros [_ (i & e & Hi & He)]%can_send_due. by rewrite (Hno i e Hi) in He.
  - pose proof Ha as [Hsl Hact]. eexists _, _. split; [done|]. split_and!.
    + by apply resent_wf.
    + split; [apply Hs|]. intros j f Hf. destruct (resent_act r i e now j f Ha Hf) as (f0 & Hf0 & -> & _).
      by apply (proj2 Hs j).
    + intros j f. by apply resent_act.
    + intros k. split.
      * intros (j & f & Hf & <-). destruct (resent_act r i e now j f Ha Hf) as (f0 & Hf0 & Hp & _). by exists j, f0.
      * intros (j & f & Hf & <-). destruct (decide (j = i)) as [->|Hne].
        -- exists i, (resent now e). split; [by apply (act_set _ _ _ _ _ _ Hsl); left|].
           destruct Hf as [Hf _]. unfold slot in *. simplify_eq. done.
        -- exists j, f. split; [|done]. apply (act_set _ _ _ _ _ _ Hsl). by right.
    + eauto.
    + intros i' op [= <- <-]. destruct (proj2 Hs i e Ha) as (k & Hk & Hkn). exists e, k.
      split_and!; try done; try lia. intros j f k' Hf Hdf Hp' Hk'. by eapply (Hmin j f).
Qed.

(** ** The receive window *)

Lemma in_range2_small id base extent :
  0 <= base -> 0 <= extent -> base + extent < 2 ^ 32 ->
  reliable_pid_in_range2 id base extent = (id <? base + extent).
Proof.
  intros. unfold reliable_pid_in_range2. rewrite u32_small by lia.
  destruct (base <=? base + extent) eqn:E; [done|lia].
Qed.

Lemma pid_min_small a b : 0 <= a < 2 ^ 32 -> 0 <= b < 2 ^ 31 -> a - b < 2 ^ 31 -> reliable_pid_min a b = (a <? b).
Proof. intros. rewrite <- (reliable_pid_min_spec a b) by lia. by rewrite !u32_small by lia. Qed.

Lemma stored_iff r id :
  existsb (fun e => e_active e && (e_packet_id e =? id)) (entries r) = true <-> has_pid r id.
Proof.
  rewrite existsb_exists. split.
  - intros (e & [i Hi]%list_elem_of_In%list_elem_of_lookup & He). exists i, e. split; [split; [done|]|]; lia.
  - intros (i & e & [Hi Ha] & Hp). exists e. split; [by eapply list_elem_of_In, list_elem_of_lookup_2|]. rewrite Ha. lia.
Qed.

(** As long as fewer than 2^31 packets were delivered, the two tests of an
    incoming id are the window and the absence of the id. *)
Lemma receive_tests cap r id :
  rel_wf cap r -> 0 <= id < 2 ^ 32 -> 0 <= r_packet_id r < 2 ^ 31 - RELIABLE_CAPACITY ->
  reliable_wont_break_sequentiality r id = (id <? r_packet_id r + r_size r) /\
  (id < r_packet_id r + r_size r ->
   (reliable_not_replay r id = true <-> r_packet_id r <= id /\ ~ has_pid r id)).
Proof.
  intros Hw Hid Hb. pose proof (rw_size _ _ Hw). unfold RELIABLE_CAPACITY in *.
  unfold reliable_wont_break_sequentiality, reliable_not_replay. rewrite in_range2_small by lia.
  split; [done|]. intros Hlt. rewrite <- stored_iff, pid_min_small by lia. destruct (existsb _ _).
  - split; [by destruct (id <? _)|tauto].
  - destruct (id <? r_packet_id r) eqn:E; split; intros H1; try done; [lia|]. split; [lia|done].
Qed.

(** ** Witnesses *)

(** A store of 60-byte buffers with [n] packets submitted and none acknowledged. *)
Definition demo_entry (active : bool) (k : Z) : reliable_entry :=
  mkent active 2 0 k 0 4 (mkbuf 60 20 0 (Some (replicate 60 0))).
Definition demo_rel (n : Z) (act : list bool) : reliable :=
  mkrel 6 2 n 20 false (imap (λ i b, demo_entry b (Z.of_nat i)) act).
Definition demo_send : reliable :=
  demo_rel 2 [true; true; false; false; false; false; false; false; false; false; false; false].

Lemma demo_send_cases i e :
  slot demo_send i e -> (i < 6)%nat /\ e = demo_entry (bool_decide (i < 2)%nat) (Z.of_nat i).
Proof.
  unfold slot, entries, demo_send, demo_rel. simpl. intros H.
  do 6 (destruct i as [|i]; [simpl in H; simplify_eq; split; [lia|done]|]). done.
Qed.

Lemma demo_holds : holds (mkbuf 60 20 0 (Some (replicate 60 0))) 20 [] 40.
Proof.
  eapply holds_intro; [|done|done|done]. split; simpl; try done; try lia.
  apply (bool_decide_unpack _); vm_compute; done.
Qed.

Lemma demo_send_wf : rel_wf 60 demo_send.
Proof.
  split; simpl; unfold RELIABLE_CAPACITY; try lia.
  - intros i e [_ ->]%demo_send_cases. eexists _, _, _. split; [apply demo_holds|]. done.
  - intros i j e f [[_ ->]%demo_send_cases _] [[_ ->]%demo_send_cases _]. simpl. lia.
Qed.

Lemma demo_send_window : send_window demo_send 2.
Proof.
  split; [done|]. intros i e [[Hi ->]%demo_send_cases Ha]. simpl in *.
  apply bool_decide_eq_true in Ha. exists (Z.of_nat i). rewrite u32_small by lia. lia.
Qed.

Lemma reliable_send_oldest_due_witness : exists r' res,
    reliable_send 10 demo_send = Ret (r', res) /\ rel_wf 60 r' /\ send_window r' 2 /\
    (forall i f, act r' i f -> exists f0, act demo_send i f0 /\ same_packet f f0) /\
    (forall k, has_pid r' k <-> has_pid demo_send k) /\
    (reliable_can_send 10 demo_send = true -> exists i op, res = Some (i, op)) /\
    (forall i op, res = Some (i, op) -> exists e k, act demo_send i e /\ entry_due 10 e = true /\ op = e_opcode e /\
       e_packet_id e = u32 k /\ 2 - r_size demo_send <= k < 2 /\
       forall j f k', act demo_send j f -> entry_due 10 f = true ->
         e_packet_id f = u32 k' -> 2 - r_size demo_send <= k' < 2 -> k <= k').
Proof. apply (reliable_send_oldest_due 60 demo_send 2 10); [apply demo_send_wf|apply demo_send_window]. Defined.

(** Past 2^31 packets the window test no longer bounds the id: a receiver
    that expects [r_packet_id r > 2^31] takes every id below
    [r_packet_id r - 2^31] for a packet of its window, although such an id is
    far outside the window: the slot it occupies is not freed before billions of
    further packets are delivered.  The comment above [reliable_wont_break_sequentiality] says the
    test keeps an id from deadlocking the receive buffer. *)
Theorem receive_window_accepts_far_ids r id :
  2 ^ 31 < r_packet_id r < 2 ^ 32 - RELIABLE_CAPACITY -> 1 <= r_size r <= RELIABLE_CAPACITY ->
  reliable_empty r = true -> 0 <= id < r_packet_id r - 2 ^ 31 ->
  reliable_wont_break_sequentiality r id = true /\ reliable_not_replay r id = true /\
  r_size r < subtract_pid id (r_packet_id r).
Proof.
  unfold RELIABLE_CAPACITY. intros Hb Hs He Hid.
  assert (Hsub : subtract_pid id (r_packet_id r) = id - r_packet_id r + 2 ^ 32).
  { unfold subtract_pid, u32. symmetry. apply (Z.mod_unique _ _ (-1)); lia. }
  rewrite Hsub. split_and!; try lia.
  - unfold reliable_wont_break_sequentiality. rewrite in_range2_small by lia. lia.
  - unfold reliable_not_replay, reliable_pid_min, reliable_pid_in_range1. rewrite Hsub.
    destruct (_ <? 0x80000000) eqn:E; [|lia]. simpl. apply negb_true_iff, not_true_iff_false.
    rewrite existsb_exists. intros (e & Hin & Ha). unfold reliable_empty in He.
    rewrite forallb_forall in He. specialize (He e Hin). lia.
Qed.

Lemma receive_window_accepts_far_ids_witness :
  let r := demo_rel 0x90000000 (replicate 12 false) in
  reliable_wont_break_sequentiality r 5 = true /\ reliable_not_replay r 5 = true /\ r_size r < subtract_pid 5 (r_packet_id r).
Proof. apply receive_window_accepts_far_ids; simpl; unfold RELIABLE_CAPACITY; done || lia. Defined.
