(* ===== verification/ControlChannel.v ===== *)
(** * The control channel around the reliability layer (openvpn ssl.c)

    How [tls_process] and [tls_pre_decrypt] use the packet stores: splitting
    TLS ciphertext into packets, accepting packets from the network, handing
    them to the TLS library in order.  The TLS library is a parameter: what it
    produces and whether it takes a packet. *)

From S2P Require Import Prelude Buffer CircList PacketId TlsCrypt Reliable ReliableAck ReliableStore.
From stdpp Require Import prelude.
From Stdlib Require Import ZArith Lia ZifyBool.

Local Open Scope Z_scope.

Definition TLS_CHANNEL_BUF_SIZE : Z := 2048.
Definition TLS_CHANNEL_MTU_MIN : Z := 154.
Definition CONTROL_SEND_ACK_MAX : Z := 4.
Definition TLS_RELIABLE_N_SEND_BUFFERS : Z := 6.
Definition TLS_RELIABLE_N_REC_BUFFERS : Z := 12.
Definition P_CONTROL_V1 : Z := 4.
Definition P_ACK_V1 : Z := 5.
Definition P_CONTROL_WKC_V1 : Z := 11.

(** ** Frame sizes *)

Record frame := mkframe {
  f_tun_mtu : Z;
  f_headroom : Z;
  f_payload_size : Z;
  f_tailroom : Z
}.
Definition BUF_SIZE (f : frame) : Z := f_headroom f + f_payload_size f + f_tailroom f.

(** [max_hmac] is the crypto library's OPENVPN_MAX_HMAC_SIZE. *)
Definition tls_init_control_channel_frame_parameters (max_hmac tls_mtu : Z) : frame :=
  let overhead := 10 + max_int tls_crypt_buf_overhead (packet_id_size true + max_hmac) + 3
                  + ACK_SIZE RELIABLE_ACK_SIZE in
  let mtu := max_int (min_int tls_mtu TLS_CHANNEL_BUF_SIZE) TLS_CHANNEL_MTU_MIN in
  mkframe mtu overhead (max_int 1500 tls_mtu + 100) overhead.

(** [session->tls_wrap.mode], with the HMAC's size for tls-auth. *)
Inductive tls_wrap_mode :=
| TLS_WRAP_NONE
| TLS_WRAP_AUTH (hmac_size : Z)
| TLS_WRAP_CRYPT.

Definition datagram_overhead (inet udp : bool) : Z := (if udp then 8 else 20) + (if inet then 20 else 40).

Record key_state := mkks {
  ks_send_reliable : reliable;
  ks_rec_reliable : reliable;
  ks_rec_ack : reliable_ack;
  ks_lru_acks : reliable_ack;
  ks_resend_wkc : bool
}.
Definition ks_set_send (ks : key_state) (r : reliable) : key_state :=
  mkks r (ks_rec_reliable ks) (ks_rec_ack ks) (ks_lru_acks ks) (ks_resend_wkc ks).

Definition calc_control_channel_frame_overhead (mode : tls_wrap_mode) (inet : bool) (ks : key_state) : Z :=
  let ackstosend := reliable_ack_outstanding (ks_rec_ack ks) + ack_len (ks_lru_acks ks) in
  1 + SID_SIZE + ACK_SIZE (min_int ackstosend CONTROL_SEND_ACK_MAX) + 4
  + match mode with
    | TLS_WRAP_NONE => 0
    | TLS_WRAP_AUTH h => h + packet_id_size true
    | TLS_WRAP_CRYPT => tls_crypt_buf_overhead
    end
  + datagram_overhead inet true.

(** ** Outgoing ciphertext *)

Definition control_packet_needs_wkc (resend_wkc : bool) (send : reliable) : bool :=
  resend_wkc && (r_packet_id send =? 1).

(** The packet store's part of [session_move_pre_start]: the session's first,
    empty packet; false when there is no slot. *)
Definition session_move_pre_start (send : reliable) (initial_opcode : Z) (skip_initial_send : bool)
  : outcome (reliable * bool) :=
  '(send, i) ← reliable_get_buf_output_sequenced send;
  match i with
  | None => Ret (send, false)
  | Some i =>
      send ← reliable_mark_active_outgoing send i initial_opcode;
      send ← (if skip_initial_send then reliable_mark_deleted send i else Ret send);
      Ret (send, true)
  end.

(** One round of the loop that splits the ciphertext [tmp] into packets. *)
Definition write_one_packet (max_pkt_len : Z) (wkc : option Z) (resend_wkc : bool) (r : reliable) (tmp : buffer)
  : outcome (reliable * buffer) :=
  let needs := control_packet_needs_wkc resend_wkc r in
  let opcode := if needs then P_CONTROL_WKC_V1 else P_CONTROL_V1 in
  len ← (if needs then wkc_len ← deref wkc; Ret (max_int 0 (max_pkt_len - wkc_len)) else Ret max_pkt_len);
  let len := min_int len (blen tmp) in
  '(r, i) ← reliable_get_buf_output_sequenced r;
  match i with
  | None => Abort
  | Some i =>
      e ← rel_entry r i;
      '(b, tmp, _) ← buf_copy_n (e_buf e) tmp len;
      r ← reliable_mark_active_outgoing (rel_set_entry r i (ent_set_buf e b)) i opcode;
      Ret (r, tmp)
  end.

(** while (tmp.len > 0); a store of [RELIABLE_CAPACITY] slots fails the
    assertion of the round after the last free slot. *)
Fixpoint write_ciphertext_loop (fuel : nat) (max_pkt_len : Z) (wkc : option Z) (resend_wkc : bool) (r : reliable)
  (tmp : buffer) : outcome reliable :=
  if blen tmp <=? 0 then Ret r
  else match fuel with
       | O => Abort
       | S fuel' =>
           '(r, tmp) ← write_one_packet max_pkt_len wkc resend_wkc r tmp;
           write_ciphertext_loop fuel' max_pkt_len wkc resend_wkc r tmp
       end.

(** What [key_state_read_ciphertext] reports. *)
Inductive cipher_read := ReadError | ReadNothing | ReadData (data : bytes).

(** The result is (key state, return value, state_change).  [wkc] is the length
    of the wrapped client key, [None] when tls_crypt_v2_wkc is NULL. *)
Definition write_outgoing_tls_ciphertext (f : frame) (mode : tls_wrap_mode) (inet : bool) (wkc : option Z)
  (read_ciphertext : Z -> cipher_read) (ks : key_state) : outcome (key_state * bool * bool) :=
  let rel_avail := reliable_get_num_output_sequenced_available (ks_send_reliable ks) in
  if rel_avail =? 0 then Ret (ks, true, false)
  else
    let max_pkt_len := min_int TLS_CHANNEL_BUF_SIZE (f_tun_mtu f)
                       - calc_control_channel_frame_overhead mode inet ks in
    let maxlen := max_pkt_len * rel_avail in
    maxlen ← (if control_packet_needs_wkc (ks_resend_wkc ks) (ks_send_reliable ks)
              then wkc_len ← deref wkc; Ret (maxlen - wkc_len) else Ret maxlen);
    let '(maxlen, max_pkt_len) := if maxlen <? 16 then (16, TLS_CHANNEL_BUF_SIZE) else (maxlen, max_pkt_len) in
    tmp ← alloc_buf maxlen;
    match read_ciphertext maxlen with
    | ReadError => Ret (ks, false, false)
    | ReadNothing => Ret (ks, true, false)
    | ReadData data =>
        '(tmp, _) ← buf_write tmp data;
        r ← write_ciphertext_loop (S (Z.to_nat RELIABLE_CAPACITY)) max_pkt_len wkc (ks_resend_wkc ks)
              (ks_send_reliable ks) tmp;
        Ret (ks_set_send ks r, true, 0 <? blen tmp)
    end.

(** ** Incoming packets *)

(** Saving the packet to a free slot; false when it does not fit. *)
Definition store_packet (op : Z) (rec : reliable) (id : Z) (b : buffer) : outcome (reliable * bool) :=
  '(rec, i) ← reliable_get_buf rec;
  match i with
  | None => Abort
  | Some i =>
      e ← rel_entry rec i;
      '(eb, ok) ← buf_copy (e_buf e) b;
      let rec := rel_set_entry rec i (ent_set_buf e eb) in
      if (ok : bool) then rec ← reliable_mark_active_incoming rec i id op; Ret (rec, true)
      else Ret (rec, false)
  end.

(** The part of [tls_pre_decrypt] behind the authentication: acknowledgements
    are purged from the send store, then the packet is stored and
    acknowledged.  The last component is false on [goto error]. *)
Definition receive_packet (op : Z) (rec : reliable) (rec_ack : reliable_ack) (b : buffer)
  : outcome (reliable * reliable_ack * bool) :=
  if negb (op =? P_ACK_V1) && reliable_can_get rec then
    '(b, id) ← reliable_ack_read_packet_id b;
    match id with
    | None => Ret (rec, rec_ack, true)
    | Some id =>
        if reliable_wont_break_sequentiality rec id then
          '(rec, ok) ←
            (if reliable_not_replay rec id then store_packet op rec id b
             else Ret (rec, true));
          if (ok : bool) then
            '(rec_ack, _) ← reliable_ack_acknowledge_packet_id rec_ack id;
            Ret (rec, rec_ack, true)
          else Ret (rec, rec_ack, false)
        else Ret (rec, rec_ack, true)
    end
  else Ret (rec, rec_ack, true).

(** The acknowledgement record and the packet of one datagram; [junk] as in
    [reliable_ack_read]. *)
Definition receive_control (junk : bytes) (op : Z) (session_id : bytes) (ks : key_state) (b : buffer)
  : outcome (key_state * bool) :=
  '(b, send_ack, ok) ← reliable_ack_read junk ack_clear b session_id;
  if negb ok then Ret (ks, false)
  else
    let send := reliable_send_purge (ks_send_reliable ks) send_ack in
    '(rec, rec_ack, ok) ← receive_packet op (ks_rec_reliable ks) (ks_rec_ack ks) b;
    Ret (mkks send rec rec_ack (ks_lru_acks ks) (ks_resend_wkc ks), ok).

(** ** Delivery to the TLS library *)

(** [bio_write_post]: a buffer the library has taken is erased. *)
Definition bio_write_post (status : Z) (b : buffer) : outcome buffer :=
  if status =? 1 then
    b ← poke b (boffset b) (replicate (Z.to_nat (buf_len b)) 0); Ret (set_len b 0)
  else Ret b.

Definition P_CONTROL_HARD_RESET_CLIENT_V2 : Z := 7.
Definition P_CONTROL_HARD_RESET_SERVER_V2 : Z := 8.
Definition P_CONTROL_HARD_RESET_CLIENT_V3 : Z := 10.
Definition is_hard_reset_method2 (op : Z) : bool :=
  (op =? P_CONTROL_HARD_RESET_CLIENT_V2) || (op =? P_CONTROL_HARD_RESET_SERVER_V2)
  || (op =? P_CONTROL_HARD_RESET_CLIENT_V3).

(** The loop of [parse_early_negotiation_tlvs]; every round takes at least
    four bytes, so [fuel] rounds are enough for fewer than [4 * fuel] bytes.
    The result is (buffer, CO_RESEND_WKC set, well formed). *)
Fixpoint parse_tlvs (fuel : nat) (b : buffer) (wkc : bool) : outcome (buffer * bool * bool) :=
  if blen b <=? 0 then Ret (b, wkc, true)
  else match fuel with
       | O => Abort
       | S fuel' =>
           if buf_len b <? 4 then Ret (b, wkc, false)
           else
             '(b, type) ← buf_read_u16 b;
             '(b, len) ← buf_read_u16 b;
             let type := u16 type in
             let len := u16 len in
             if buf_len b <? len then Ret (b, wkc, false)
             else if type =? 1 then
               if negb (len =? 2) then Ret (b, wkc, false)
               else
                 '(b, flags) ← buf_read_u16 b;
                 parse_tlvs fuel' b (wkc || Z.testbit (u16 flags) 0)
             else parse_tlvs fuel' (fst (buf_advance b len)) wkc
       end.

(** The step of [tls_process_state] that takes the next packet in sequence:
    the first packet of a session carries TLVs, any other is given to the TLS
    library; [accept] is [key_state_write_ciphertext]'s status for the
    packet's bytes (1 taken, 0 later, -1 error).  The result is (store,
    CO_RESEND_WKC, packet taken, return value). *)
Definition deliver_next (accept : bytes -> Z) (rec : reliable) (wkc : bool)
  : outcome (reliable * bool * option bytes * bool) :=
  match reliable_get_entry_sequenced rec with
  | None => Ret (rec, wkc, None, true)
  | Some i =>
      e ← rel_entry rec i;
      d ← buf_bytes (e_buf e);
      if (e_packet_id e =? 0) && is_hard_reset_method2 (e_opcode e) then
        '(b, wkc, ok) ← parse_tlvs (S (length d)) (e_buf e) wkc;
        let rec := rel_set_entry rec i (ent_set_buf e b) in
        if (ok : bool) then rec ← reliable_mark_deleted rec i; Ret (rec, wkc, Some d, true)
        else Ret (rec, wkc, None, false)
      else
        let status := if blen (e_buf e) =? 0 then 1 else accept d in
        b ← (if blen (e_buf e) =? 0 then Ret (e_buf e) else bio_write_post status (e_buf e));
        let rec := rel_set_entry rec i (ent_set_buf e b) in
        if status =? -1 then Ret (rec, wkc, None, false)
        else if status =? 1 then rec ← reliable_mark_deleted rec i; Ret (rec, wkc, Some d, true)
        else Ret (rec, wkc, None, true)
  end.

(** ** Splitting ciphertext *)

(** [write_one_packet] puts the next [len] bytes of the ciphertext into a free
    slot under the next id. *)
Lemma write_one_packet_spec cap r n mpl wkc wkc_len resend tmp hd data tl len :
  (control_packet_needs_wkc resend r = true -> wkc = Some wkc_len) ->
  rel_wf cap r -> send_window r n -> 0 < avail r -> 4 <= r_offset r ->
  holds tmp hd data tl -> 0 <= mpl ->
  len = Z.min (if control_packet_needs_wkc resend r then Z.max 0 (mpl - wkc_len) else mpl) (zlen data) ->
  len <= cap - r_offset r ->
  exists r' tmp' i e, write_one_packet mpl wkc resend r tmp = Ret (r', tmp') /\
    rel_wf cap r' /\ send_window r' (n + 1) /\ avail r' = avail r - 1 /\ r_offset r' = r_offset r /\ r_size r' = r_size r /\
    r_initial_timeout r' = r_initial_timeout r /\
    holds tmp' (hd + len) (drop (Z.to_nat len) data) tl /\
    act r' i e /\ e_packet_id e = u32 n /\ content (e_buf e) = be_bytes 4 (u32 n) ++ take (Z.to_nat len) data /\ boffset (e_buf e) = r_offset r - 4 /\
    e_opcode e = (if control_packet_needs_wkc resend r then P_CONTROL_WKC_V1 else P_CONTROL_V1) /\
    (forall j f, act r' j f <-> (j = i /\ f = e) \/ act r j f).
Proof.
  intros Hwk Hw Hwin Hav Hoff Htmp Hmpl Hlen Hfit. unfold write_one_packet.
  destruct (buf_len_holds _ _ _ _ Htmp) as [_ ->].
  set (need := control_packet_needs_wkc resend r) in *.
  assert (Hlen' : min_int (if need then max_int 0 (mpl - wkc_len) else mpl) (zlen data) = len).
  { rewrite Hlen. unfold min_int, max_int. destruct need; repeat case_match; lia. }
  assert (Hln : 0 <= len <= zlen data) by (rewrite Hlen; destruct need; lia).
  replace (if need then wkc_len0 ← deref wkc; Ret (max_int 0 (mpl - wkc_len0)) else Ret mpl)
    with (Ret (if need then max_int 0 (mpl - wkc_len) else mpl)) by (destruct need; [by rewrite Hwk|done]).
  cbn [mbind outcome_bind]. rewrite Hlen'. clear Hlen Hlen'.
  destruct (proj1 (get_buf_output_spec cap r n Hw Hwin) Hav) as (i & e & e' & -> & Hs & Hia & Hia' & Hbuf).
  cbn [mbind outcome_bind]. rewrite (rel_entry_slot _ i e') by (by eapply slot_set_eq).
  cbn [mbind outcome_bind].
  destruct (buf_copy_n_spec _ _ _ _ _ _ _ _ len Hbuf Htmp) as (b & tmp' & -> & Hb & Htmp'); [lia|lia|].
  cbn [mbind outcome_bind]. rewrite rel_set_set. cbn [app] in Hb.
  set (r1 := rel_set_entry r i (ent_set_buf e' b)).
  assert (Hcap1 : r_offset r + zlen (take (Z.to_nat len) data) + (cap - r_offset r - len) = cap)
    by (rewrite length_take; lia).
  assert (Hact1 : forall j f, act r1 j f <-> act r j f) by (intros j f; by eapply act_set_idle).
  assert (Hw1 : rel_wf cap r1) by (by eapply rel_wf_set_idle).
  assert (Hwin1 : send_window r1 n) by (split; [apply Hwin|]; intros j f Ha; apply (proj2 Hwin j f), Hact1, Ha).
  assert (Hs1 : slot r1 i (ent_set_buf e' b)) by (by eapply slot_set_eq).
  assert (Hav1 : avail r1 = avail r) by (by eapply avail_same).
  destruct (mark_outgoing_spec cap n _ _ (if need then P_CONTROL_WKC_V1 else P_CONTROL_V1) r1 i _ _
              Hw1 Hwin1 ltac:(lia) Hs1 Hia' Hb Hoff Hcap1) as (b' & -> & Hb' & Hw2 & Hwin2 & Hav2).
  cbn [mbind outcome_bind]. eexists _, _, i, _. split; [done|]. split_and!; try done.
  - lia.
  - apply (outgoing_act n _ r1 i _ Hs1 Hia'). left. done.
  - done.
  - by destruct Hb' as (? & ? & ? & ? & ?).
  - by destruct Hb' as (? & ? & ? & ? & ?).
  - done.
  - intros j f. rewrite (outgoing_act n _ r1 i _ Hs1 Hia'). by rewrite Hact1.
Qed.

Lemma session_move_pre_start_spec cap r n op :
  rel_wf cap r -> send_window r n -> 0 < avail r -> 4 <= r_offset r ->
  exists r' i e, session_move_pre_start r op false = Ret (r', true) /\
    rel_wf cap r' /\ send_window r' (n + 1) /\ r_offset r' = r_offset r /\ r_size r' = r_size r /\ avail r' = avail r - 1 /\
    r_initial_timeout r' = r_initial_timeout r /\
    act r' i e /\ e_packet_id e = u32 n /\ content (e_buf e) = be_bytes 4 (u32 n) /\ boffset (e_buf e) = r_offset r - 4 /\ e_opcode e = op /\
    (forall j f, act r' j f <-> (j = i /\ f = e) \/ act r j f).
Proof.
  intros Hw Hwin Hav Hoff. unfold session_move_pre_start.
  destruct (proj1 (get_buf_output_spec cap r n Hw Hwin) Hav) as (i & e & e' & -> & Hs & Hia & Hia' & Hbuf).
  cbn [mbind outcome_bind]. set (r1 := rel_set_entry r i e').
  assert (Hcap1 : r_offset r + zlen (@nil Z) + (cap - r_offset r) = cap) by (simpl; lia).
  assert (Hact1 : forall j f, act r1 j f <-> act r j f) by (intros j f; by eapply act_set_idle).
  assert (Hw1 : rel_wf cap r1) by (by eapply rel_wf_set_idle).
  assert (Hwin1 : send_window r1 n) by (split; [apply Hwin|]; intros j f Ha; apply (proj2 Hwin j f), Hact1, Ha).
  assert (Hs1 : slot r1 i e') by (by eapply slot_set_eq).
  assert (Hav1 : avail r1 = avail r) by (by eapply avail_same).
  destruct (mark_outgoing_spec cap n _ _ op r1 i _ _
              Hw1 Hwin1 ltac:(lia) Hs1 Hia' Hbuf Hoff Hcap1) as (b' & -> & Hb' & Hw2 & Hwin2 & Hav2).
  cbn [mbind outcome_bind]. eexists _, i, _. split; [done|]. split_and!; try done.
  - lia.
  - apply (outgoing_act n _ r1 i _ Hs1 Hia'). by left.
  - done.
  - simpl. destruct Hb' as (? & ? & ? & -> & ?). apply app_nil_r.
  - by destruct Hb' as (? & ? & ? & ? & ?).
  - done.
  - intros j f. rewrite (outgoing_act n _ r1 i _ Hs1 Hia'). by rewrite Hact1.
Qed.

(** The packets numbered from [n] carry the chunks of [cs]. *)
Definition carries (r : reliable) (n : Z) (cs : list bytes) : Prop :=
  forall (j : nat) c, cs !! j = Some c ->
    exists i e, act r i e /\ e_packet_id e = u32 (n + Z.of_nat j) /\
                content (e_buf e) = be_bytes 4 (u32 (n + Z.of_nat j)) ++ c.

Lemma carries_cons r n c cs i e :
  act r i e -> e_packet_id e = u32 n -> content (e_buf e) = be_bytes 4 (u32 n) ++ c ->
  carries r (n + 1) cs -> carries r n (c :: cs).
Proof.
  intros Ha Hp Hc Hcs [|j] c'; simpl.
  - intros [= <-]. exists i, e. by rewrite Z.add_0_r.
  - intros Hj. destruct (Hcs j c' Hj) as (i' & e' & H). exists i', e'.
    by replace (n + Z.of_nat (S j)) with (n + 1 + Z.of_nat j) by lia.
Qed.

(** The space of [avail] packets; the first one of the session may have to
    carry a wrapped key. *)
Definition room (mpl wkc_len : Z) (resend : bool) (r : reliable) : Z :=
  if control_packet_needs_wkc resend r
  then Z.max 0 (mpl - wkc_len) + mpl * (avail r - 1) else mpl * avail r.

(** What a packet of the loop is: [c] bytes of ciphertext behind the id. *)
Definition chunk_entry (resend : bool) (off mpl wkc_len dlen : Z) (e : reliable_entry) : Prop :=
  exists c, boffset (e_buf e) = off - 4 /\ zlen (content (e_buf e)) = 4 + c /\ 0 <= c <= dlen /\
    ((e_opcode e = P_CONTROL_V1 /\ c <= mpl) \/ (e_opcode e = P_CONTROL_WKC_V1 /\ c <= Z.max 0 (mpl - wkc_len) /\ resend = true)).

Lemma write_ciphertext_loop_spec cap mpl wkc wkc_len resend fuel : (resend = true -> wkc = Some wkc_len) -> forall r n tmp hd data tl,
  rel_wf cap r -> send_window r n -> 0 < n < 2 ^ 32 - avail r -> 4 <= r_offset r -> 0 < mpl -> 0 <= wkc_len ->
  holds tmp hd data tl -> Z.min mpl (zlen data) <= cap - r_offset r ->
  zlen data <= room mpl wkc_len resend r -> avail r <= Z.of_nat fuel ->
  exists r' cs, write_ciphertext_loop fuel mpl wkc resend r tmp = Ret r' /\
    rel_wf cap r' /\ send_window r' (n + zlen cs) /\ r_offset r' = r_offset r /\ r_size r' = r_size r /\
    concat cs = data /\ avail r' = avail r - zlen cs /\ carries r' n cs /\
    (forall j f, act r j f -> act r' j f) /\
    (forall j f, act r' j f -> act r j f \/ chunk_entry resend (r_offset r) mpl wkc_len (zlen data) f).
Proof.
  intros Hwk. induction fuel as [|fuel IH]; intros r n tmp hd data tl Hw Hwin Hn Hoff Hmpl Hwkc Htmp Hfit Hroom Hfuel;
    cbn [write_ciphertext_loop]; destruct (buf_len_holds _ _ _ _ Htmp) as [_ ->];
    (destruct (zlen data <=? 0) eqn:E;
     [destruct data; [|simpl in E; lia]; exists r, []; rewrite Z.add_0_r; split_and!; try done; [simpl; lia|auto]|]);
    destruct (avail_spec cap r n Hw Hwin) as (m & Hav & Hm & _).
  { unfold room in Hroom. destruct (control_packet_needs_wkc _ _); nia. }
  set (need := control_packet_needs_wkc resend r) in *.
  assert (Hpos : 0 < avail r) by (unfold room in Hroom; destruct (control_packet_needs_wkc _ _); nia).
  set (len := Z.min (if need then Z.max 0 (mpl - wkc_len) else mpl) (zlen data)).
  assert (Hneed : need = true -> wkc = Some wkc_len) by (unfold need, control_packet_needs_wkc; destruct resend; [auto|done]).
  destruct (write_one_packet_spec cap r n mpl wkc wkc_len resend tmp hd data tl len)
    as (r1 & tmp1 & i & e & -> & Hw1 & Hwin1 & Hav1 & Hoff1 & Hsz1 & _ & Htmp1 & Ha & Hp & Hc & Hbo & Hop & Hact); try done; try lia.
  { unfold len. destruct need; lia. }
  cbn [mbind outcome_bind].
  assert (Hlen : zlen (drop (Z.to_nat len) data) = zlen data - len)
    by (rewrite length_drop; unfold len; destruct need; lia).
  destruct (IH r1 (n + 1) tmp1 _ _ _ Hw1 Hwin1 ltac:(lia) ltac:(lia) Hmpl Hwkc Htmp1) as
    (r' & cs & -> & Hw' & Hwin' & Hoff' & Hsz' & Hcat & Hav' & Hcar & Hkeep & Hnew).
  - rewrite Hlen, Hoff1. unfold len in *. destruct need; lia.
  - rewrite Hlen. unfold room in *. rewrite Hav1. unfold len. fold need in Hroom.
    assert (Hnext : control_packet_needs_wkc resend r1 = false).
    { unfold control_packet_needs_wkc. rewrite (proj1 Hwin1), u32_small by lia. destruct resend; simpl; lia. }
    rewrite Hnext. destruct need; lia.
  - lia.
  - exists r', (take (Z.to_nat len) data :: cs). split; [done|].
    split_and!; try done.
    + by replace (n + zlen (_ :: cs)) with (n + 1 + zlen cs) by (simpl; lia).
    + congruence.
    + congruence.
    + simpl. rewrite Hcat. apply take_drop.
    + simpl. lia.
    + eapply carries_cons; [|done..]. apply Hkeep, Hact. by left.
    + intros j f Hf. apply Hkeep, Hact. by right.
    + assert (Hl : 0 <= len <= zlen data) by (unfold len; destruct need; lia).
      intros j f Hf. destruct (Hnew j f Hf) as [Hf1|(c & Hc0 & Hc1 & Hc2 & Hc3)]; [|right; exists c; split_and!; [lia|done|lia|lia|done]].
      apply Hact in Hf1 as [[-> ->]|Hf1]; [right|by left]. exists len. split; [done|]. rewrite Hc, length_app, length_be_bytes, length_take. split; [lia|]. split; [lia|].
      fold need in Hop. unfold len. destruct need eqn:En; [right|left; split; [done|lia]]. split; [done|]. split; [lia|].
      unfold need, control_packet_needs_wkc in En. by destruct resend.
Qed.

Lemma overhead_bounds mode inet ks :
  ack_wf (ks_rec_ack ks) -> ack_wf (ks_lru_acks ks) ->
  match mode with TLS_WRAP_AUTH h => 0 <= h | _ => True end ->
  0 <= calc_control_channel_frame_overhead mode inet ks.
Proof.
  intros [H1 _] [H2 _] Hm. unfold calc_control_channel_frame_overhead.
  set (k := min_int _ _). assert (0 <= k).
  { unfold k, min_int, reliable_ack_outstanding, CONTROL_SEND_ACK_MAX. clear Hm; case_match; lia. }
  assert (0 <= ACK_SIZE k) by (clear Hm; unfold ACK_SIZE, SID_SIZE; case_match; lia).
  assert (0 <= tls_crypt_buf_overhead /\ 0 <= packet_id_size true) by done.
  unfold SID_SIZE, datagram_overhead. destruct mode, inet; lia.
Qed.

(** The frame sizes that [tls_init_control_channel_frame_parameters] computes. *)
Definition frame_ok (f : frame) : Prop :=
  110 <= f_headroom f <= 1000 /\ f_tailroom f = f_headroom f /\ 154 <= f_tun_mtu f <= 2048 /\
  f_tun_mtu f <= f_payload_size f /\ 1600 <= f_payload_size f <= 65636.

Lemma init_frame_ok max_hmac tls_mtu :
  0 <= max_hmac <= 64 -> 0 <= tls_mtu < 65536 ->
  let f := tls_init_control_channel_frame_parameters max_hmac tls_mtu in frame_ok f /\ 62 + max_hmac <= f_headroom f.
Proof.
  intros Hhm Hmtu f. unfold frame_ok, f, tls_init_control_channel_frame_parameters, tls_crypt_buf_overhead, TLS_CRYPT_TAG_SIZE, TLS_CRYPT_BLOCK_SIZE,
    packet_id_size, ACK_SIZE, RELIABLE_ACK_SIZE, SID_SIZE, TLS_CHANNEL_BUF_SIZE, TLS_CHANNEL_MTU_MIN, max_int, min_int. simpl.
  repeat case_match; mlia.
Qed.

(** What a packet of the send store adds to the frame: its payload, and the
    wrapped client key if the packet carries it. *)
Definition wkc_part (opcode wkc_len : Z) : Z :=
  if (opcode =? P_CONTROL_HARD_RESET_CLIENT_V3) || (opcode =? P_CONTROL_WKC_V1) then wkc_len else 0.
Definition sendable (f : frame) (wkc_len : Z) (e : reliable_entry) : Prop :=
  boffset (e_buf e) = f_headroom f - 4 /\ 4 <= zlen (content (e_buf e)) /\ zlen (content (e_buf e)) + wkc_part (e_opcode e) wkc_len <= 4 + f_payload_size f /\ 0 <= e_opcode e < 32.

Section write_outgoing.
Context (f : frame) (mode : tls_wrap_mode) (inet : bool) (wkc : option Z) (wkc_len : Z) (read : Z -> cipher_read) (ks : key_state) (n : Z).
Hypotheses (Hf : frame_ok f) (Hwkc : 0 <= wkc_len <= TLS_CRYPT_V2_MAX_WKC_LEN) (Hwk : ks_resend_wkc ks = true -> wkc = Some wkc_len)
  (Hmode : match mode with TLS_WRAP_AUTH h => 0 <= h | _ => True end) (Hra : ack_wf (ks_rec_ack ks)) (Hla : ack_wf (ks_lru_acks ks))
  (Hw : rel_wf (BUF_SIZE f) (ks_send_reliable ks)) (Hoff : r_offset (ks_send_reliable ks) = f_headroom f)
  (Hwin : send_window (ks_send_reliable ks) n) (Hn : 0 < n < 2 ^ 31)
  (Hread : forall maxlen data, read maxlen = ReadData data -> zlen data <= maxlen /\ Forall is_byte data).

Lemma write_outgoing_spec :
  exists r' ret change, write_outgoing_tls_ciphertext f mode inet wkc read ks = Ret (ks_set_send ks r', ret, change) /\
    exists cs, rel_wf (BUF_SIZE f) r' /\ send_window r' (n + zlen cs) /\ carries r' n cs /\
      r_offset r' = r_offset (ks_send_reliable ks) /\ r_size r' = r_size (ks_send_reliable ks) /\
      avail r' = avail (ks_send_reliable ks) - zlen cs /\ (change = true -> cs <> []) /\
      (forall j e, act (ks_send_reliable ks) j e -> act r' j e) /\
      (forall j e, act r' j e -> act (ks_send_reliable ks) j e \/ (sendable f wkc_len e /\ (e_opcode e = P_CONTROL_V1 \/ ks_resend_wkc ks = true))) /\
      (ret = true -> cs = [] \/ exists maxlen, read maxlen = ReadData (concat cs)).
Proof using All.
  destruct Hf as (Hhead & Htail & Hmt & Hpl & Hpl'). set (r := ks_send_reliable ks) in *.
  pose proof (rw_size _ _ Hw) as Hsz. unfold RELIABLE_CAPACITY in Hsz.
  destruct (avail_spec _ r n Hw Hwin) as (m & Hav & Hm & _).
  pose proof (overhead_bounds mode inet ks Hra Hla Hmode) as Hov. clear Hmode.
  assert (Hdone : forall ret, exists r' ret' change, Ret (ks, ret, false) = Ret (ks_set_send ks r', ret', change) /\
    exists cs, rel_wf (BUF_SIZE f) r' /\ send_window r' (n + zlen cs) /\ carries r' n cs /\ r_offset r' = r_offset r /\ r_size r' = r_size r /\
      avail r' = avail r - zlen cs /\ (change = true -> cs <> []) /\ (forall j e, act r j e -> act r' j e) /\
      (forall j e, act r' j e -> act r j e \/ (sendable f wkc_len e /\ (e_opcode e = P_CONTROL_V1 \/ ks_resend_wkc ks = true))) /\
      (ret' = true -> cs = [] \/ exists maxlen, read maxlen = ReadData (concat cs))).
  { intros ret. exists r, ret, false. split; [by destruct ks|]. exists []. rewrite Z.add_0_r. split_and!; try done; [simpl; lia|auto|auto]. }
  unfold write_outgoing_tls_ciphertext. fold r. change (reliable_get_num_output_sequenced_available r) with (avail r).
  destruct (avail r =? 0) eqn:E0; [apply Hdone|].
  set (mpl := min_int TLS_CHANNEL_BUF_SIZE (f_tun_mtu f) - _).
  assert (Hmpl : mpl <= f_payload_size f /\ mpl <= 2048) by (unfold mpl, min_int, TLS_CHANNEL_BUF_SIZE; case_match; lia).
  clearbody mpl. set (maxlen := if control_packet_needs_wkc (ks_resend_wkc ks) r then mpl * avail r - wkc_len else mpl * avail r).
  replace (if control_packet_needs_wkc (ks_resend_wkc ks) r then wkc_len0 ← deref wkc; Ret (mpl * avail r - wkc_len0) else Ret (mpl * avail r)) with (Ret maxlen).
  2:{ unfold maxlen. destruct (control_packet_needs_wkc _ r) eqn:E; [|done]. unfold control_packet_needs_wkc in E. apply andb_true_iff in E as [E _]. by rewrite (Hwk E). }
  cbn [mbind outcome_bind].
  destruct (if maxlen <? 16 then (16, TLS_CHANNEL_BUF_SIZE) else (maxlen, mpl)) as [ml pl] eqn:Epl.
  assert (Hpl2 : 0 < pl /\ 16 <= ml < 1000000 /\ Z.min pl ml <= BUF_SIZE f - r_offset r /\ (pl <= f_payload_size f \/ ml = 16) /\
    ml <= room pl wkc_len (ks_resend_wkc ks) r).
  { unfold room, BUF_SIZE, TLS_CRYPT_V2_MAX_WKC_LEN, TLS_CHANNEL_BUF_SIZE in *. rewrite Hoff. unfold maxlen in Epl.
    destruct (control_packet_needs_wkc _ r), (_ <? 16) eqn:Esm in Epl; simplify_eq; split_and!; try nia; auto. }
  destruct Hpl2 as (Hp0 & Hm0 & Hp1 & Hp3 & Hp2).
  destruct (alloc_buf_spec ml) as (tmp & -> & Htmp); [unfold buf_size_valid, BUF_SIZE_MAX; lia|].
  cbn [mbind outcome_bind]. destruct (read ml) as [| |data] eqn:Er; [apply Hdone..|].
  destruct (Hread ml data Er) as [Hdl Hdb].
  destruct (buf_write_spec _ _ _ _ data Htmp Hdb Hdl) as (tmp' & -> & Htmp'). cbn [mbind outcome_bind app] in *.
  destruct (write_ciphertext_loop_spec (BUF_SIZE f) pl wkc wkc_len (ks_resend_wkc ks)
    (S (Z.to_nat RELIABLE_CAPACITY)) Hwk r n tmp' 0 data (ml - zlen data) Hw Hwin) as
    (r' & cs & -> & Hw' & Hwin' & Hoff' & Hsz' & Hcat & Hav' & Hcar & Hkeep & Hnew); try done; try lia.
  { unfold RELIABLE_CAPACITY. lia. }
  cbn [mbind outcome_bind]. eexists r', _, _. split; [done|]. exists cs. split_and!; try done.
  - intros Hch ->. simpl in Hcat. subst data. destruct (buf_len_holds _ _ _ _ Htmp') as [_ Hl]. rewrite Hl in Hch. done.
  - intros j e He. destruct (Hnew j e He) as [|(c & Hbo & Hc & Hcd & Hcase)]; [by left|right]. rewrite Hoff in Hbo. unfold sendable, wkc_part, P_CONTROL_HARD_RESET_CLIENT_V3 in *.
    unfold P_CONTROL_V1, P_CONTROL_WKC_V1, TLS_CRYPT_V2_MAX_WKC_LEN in *. rewrite Hc. destruct Hcase as [[-> Hcm]|(-> & Hcm & Hrs)]; cbn; (split; [lia|]); auto.
  - intros _. right. exists ml. by rewrite Hcat.
Qed.
End write_outgoing.

(** Handing TLS ciphertext to the reliability layer never trips the
    assertion that a send slot is free, which the code justifies by having
    asked for the number of available slots before: with the buffer sizes the
    control channel is set up with, for every state of the send window, every
    wrapping mode and every ciphertext the TLS library returns within the
    length it was given, the routine succeeds, and the ciphertext is exactly
    the concatenation of the new packets, which carry consecutive ids. *)
Theorem write_outgoing_never_asserts max_hmac tls_mtu mode inet wkc_len read ks n :
  let f := tls_init_control_channel_frame_parameters max_hmac tls_mtu in
  0 <= max_hmac <= 64 -> 0 <= tls_mtu < 65536 -> 0 <= wkc_len <= TLS_CRYPT_V2_MAX_WKC_LEN ->
  match mode with TLS_WRAP_AUTH h => 0 <= h | _ => True end ->
  ack_wf (ks_rec_ack ks) -> ack_wf (ks_lru_acks ks) ->
  rel_wf (BUF_SIZE f) (ks_send_reliable ks) -> r_offset (ks_send_reliable ks) = f_headroom f ->
  send_window (ks_send_reliable ks) n -> 0 < n < 2 ^ 31 ->
  (forall maxlen data, read maxlen = ReadData data -> zlen data <= maxlen /\ Forall is_byte data) ->
  exists ks' ret change,
    write_outgoing_tls_ciphertext f mode inet (Some wkc_len) read ks = Ret (ks', ret, change) /\
    exists cs, rel_wf (BUF_SIZE f) (ks_send_reliable ks') /\
      send_window (ks_send_reliable ks') (n + zlen cs) /\
      carries (ks_send_reliable ks') n cs /\
      (forall j e, act (ks_send_reliable ks) j e -> act (ks_send_reliable ks') j e) /\
      (ret = true -> cs = [] \/ exists maxlen, read maxlen = ReadData (concat cs)).
Proof.
  intros f Hhm Hmtu Hwkc Hmode Hra Hla Hw Hoff Hwin Hn Hread. destruct (init_frame_ok max_hmac tls_mtu Hhm Hmtu) as [Hf _].
  destruct (write_outgoing_spec f mode inet (Some wkc_len) wkc_len read ks n) as (r' & ret & change & -> & cs & H1 & H2 & H3 & _ & _ & _ & _ & H4 & _ & H5);
    try done. eexists _, ret, change. split; [done|]. by exists cs.
Qed.

(** ** Receiving *)

(** [receive_packet] keeps the invariant, and either leaves the active packets
    alone or adds the packet that arrived. *)
Definition stored (rec rec' : reliable) (op id : Z) (d : bytes) : Prop :=
  exists i e, (forall j f, act rec' j f <-> (j = i /\ f = e) \/ act rec j f) /\
    act rec' i e /\ e_packet_id e = id /\ e_opcode e = op /\ content (e_buf e) = d.

Definition same_active (rec rec' : reliable) : Prop := forall j f, act rec' j f <-> act rec j f.

Section receive.
Context (cap : Z) (rec : reliable) (id : Z) (d : bytes) (b : buffer) (hd tl : Z) (op : Z).
Hypotheses (Hw : rel_wf cap rec) (Hid : 0 <= id < 2 ^ 32) (Hbase : 0 <= r_packet_id rec < 2 ^ 31 - RELIABLE_CAPACITY)
  (Hb : holds b hd d tl).

(** The branch that takes a slot for a new packet. *)
Lemma store_packet_spec :
  reliable_can_get rec = true -> reliable_not_replay rec id = true -> ~ has_pid rec id ->
  exists rec' ok,
    store_packet op rec id b = Ret (rec', ok) /\
    rel_wf cap rec' /\ r_size rec' = r_size rec /\ r_packet_id rec' = r_packet_id rec /\ r_offset rec' = r_offset rec /\
    ok = (zlen d <=? cap - r_offset rec) /\
    (if ok then stored rec rec' op id d else same_active rec rec').
Proof.
  intros Hget Hnr Hno. unfold store_packet. destruct (reliable_get_buf_spec cap rec Hw) as [(i & e & e' & -> & Hs & Ha & Ha' & Hbuf)|[_ Hall]].
  2:{ apply reliable_can_get_spec in Hget as (i & e & Hs & He). by rewrite (Hall i e Hs) in He. }
  cbn [mbind outcome_bind]. rewrite (rel_entry_slot _ i e') by (by eapply slot_set_eq). cbn [mbind outcome_bind].
  destruct (buf_copy_spec _ _ _ _ _ _ _ _ Hbuf Hb) as [Hfit Hover].
  destruct (zlen d <=? cap - r_offset rec) eqn:E.
  - destruct Hfit as (eb & -> & Heb); [lia|]. cbn [mbind outcome_bind app]. rewrite rel_set_set. cbn [app] in Heb.
    set (r1 := rel_set_entry rec i (ent_set_buf e' eb)).
    assert (Hs1 : slot r1 i (ent_set_buf e' eb)) by (by eapply slot_set_eq).
    assert (Hw1 : rel_wf cap r1) by (eapply rel_wf_set_idle; [done|exact Hs|done|exact Heb|simpl in *; lia]).
    unfold reliable_mark_active_incoming. rewrite (find_buf_slot cap r1 i _ Hw1 Hs1). cbn [mbind outcome_bind].
    change (r_packet_id r1) with (r_packet_id rec).
    assert (Hmin : reliable_pid_min id (r_packet_id rec) = false)
      by (unfold reliable_not_replay in Hnr; by destruct (reliable_pid_min _ _)).
    rewrite Hmin. cbn [negb ASSERT mbind outcome_bind]. unfold r1. rewrite rel_set_set.
    set (e2 := mkent true 0 0 id 0 op (e_buf (ent_set_buf e' eb))).
    assert (Hact : forall j f, act (rel_set_entry rec i e2) j f <-> (j = i /\ f = e2) \/ act rec j f).
    { intros j f. rewrite (act_set _ _ _ _ _ _ Hs). split; [intros [(-> & -> & _)|[_ ?]]; auto|].
      intros [[-> ->]|Hj]; [by left|right]. split; [|done]. intros ->. destruct Hj as [Hj ?]. unfold slot in *. congruence. }
    eexists _, true. split; [done|]. split_and!; try done.
    + eapply rel_wf_set; [done|exact Hs|eexists _, _, _; split; [exact Heb|simpl in *; lia]|].
      intros _ j f Hj Hf Heq. apply Hno. by exists j, f.
    + exists i, e2. split_and!; try done; [apply Hact; by left|].
      by destruct Heb as (? & ? & ? & ? & ?).
  - rewrite Hover by lia. cbn [mbind outcome_bind app]. rewrite rel_set_set. eexists _, false. split; [done|].
    split_and!; try done.
    + eapply rel_wf_set_idle; [done|exact Hs|done|exact Hbuf|simpl; lia].
    + intros j f. by eapply act_set_idle.
Qed.
End receive.

Lemma receive_packet_spec cap rec id d b hd tl op a :
  rel_wf cap rec -> 0 <= id < 2 ^ 32 -> 0 <= r_packet_id rec < 2 ^ 31 - RELIABLE_CAPACITY ->
  ack_wf a -> holds b hd (be_bytes 4 id ++ d) tl ->
  exists rec' a' ok, receive_packet op rec a b = Ret (rec', a', ok) /\
    rel_wf cap rec' /\ r_size rec' = r_size rec /\ r_packet_id rec' = r_packet_id rec /\ r_offset rec' = r_offset rec /\
    ack_wf a' /\
    (same_active rec rec' \/
     (stored rec rec' op id d /\ r_packet_id rec <= id < r_packet_id rec + r_size rec /\ ~ has_pid rec id)) /\
    (ids a' = ids a \/ (ids a' = ids a ++ [id] /\ (id < r_packet_id rec \/ has_pid rec' id))) /\
    (op <> P_ACK_V1 -> reliable_can_get rec = true -> zlen d <= cap - r_offset rec ->
     r_packet_id rec <= id < r_packet_id rec + r_size rec -> has_pid rec' id).
Proof.
  intros Hw Hid Hbase Ha Hb. unfold receive_packet.
  assert (Hsame : exists rec' a' ok, Ret (rec, a, true) = Ret (rec', a', ok) /\
    rel_wf cap rec' /\ r_size rec' = r_size rec /\ r_packet_id rec' = r_packet_id rec /\ r_offset rec' = r_offset rec /\
    ack_wf a' /\
    (same_active rec rec' \/
     (stored rec rec' op id d /\ r_packet_id rec <= id < r_packet_id rec + r_size rec /\ ~ has_pid rec id)) /\
    (ids a' = ids a \/ (ids a' = ids a ++ [id] /\ (id < r_packet_id rec \/ has_pid rec' id))) /\ rec' = rec).
  { exists rec, a, true. split_and!; try done; [by left|by left]. }
  destruct (negb (op =? P_ACK_V1) && reliable_can_get rec) eqn:E1.
  2:{ destruct Hsame as (r' & a' & ok & He & H1 & H2 & H3 & H4 & H5 & H6 & H7 & _). exists r', a', ok.
      split_and!; try done. lia. }
  unfold reliable_ack_read_packet_id.
  destruct (buf_read_app _ _ _ _ _ 4 Hb) as (b1 & -> & Hb1); [by rewrite length_be_bytes|].
  cbn [mbind outcome_bind option_map]. rewrite be_val_u32 by done.
  destruct (receive_tests cap rec id Hw Hid Hbase) as [Hseq Hnr]. rewrite Hseq.
  destruct (id <? r_packet_id rec + r_size rec) eqn:E2.
  2:{ destruct Hsame as (r' & a' & ok & He & H1 & H2 & H3 & H4 & H5 & H6 & H7 & _). exists r', a', ok.
      split_and!; try done. lia. }
  specialize (Hnr ltac:(lia)). destruct (acknowledge_spec a id Ha) as (a' & got & Hack & Hwa' & Hi' & _).
  assert (Hids : forall r', id < r_packet_id rec \/ has_pid r' id ->
    ids a' = ids a \/ (ids a' = ids a ++ [id] /\ (id < r_packet_id rec \/ has_pid r' id)))
    by (intros r' Hr; destruct got; [right|left]; auto).
  destruct (reliable_not_replay rec id) eqn:E3.
  - destruct (proj1 Hnr eq_refl) as [Hge Hno].
    destruct (store_packet_spec cap rec id d b1 _ _ op Hw Hb1 ltac:(lia) E3 Hno)
      as (rec' & ok & -> & Hw' & Hsz & Hpid & Hoff & Hok & Hst). cbn [mbind outcome_bind].
    destruct ok.
    + rewrite Hack. cbn [mbind outcome_bind]. exists rec', a', true.
      assert (has_pid rec' id) by (destruct Hst as (i & e & _ & ? & ? & _); by exists i, e).
      split_and!; try done; [right; split_and!; done || lia|by apply Hids; right].
    + exists rec', a, false. split_and!; try done; [by left|by left|lia].
  - cbn [mbind outcome_bind]. rewrite Hack. cbn [mbind outcome_bind]. exists rec, a', true.
    assert (id < r_packet_id rec \/ has_pid rec id).
    { destruct (decide (id < r_packet_id rec)); [by left|]. right. rewrite <- stored_iff.
      destruct (existsb _ _) eqn:E4; [done|]. destruct (proj2 Hnr); [|done]. split; [lia|].
      rewrite <- stored_iff, E4. done. }
    split_and!; try done; [by left|by apply Hids|]. intros _ _ _ Hr. destruct H; [lia|done].
Qed.

(** Whatever the packet contains and however far the ids have run. *)
Lemma receive_packet_safe cap rec b hd c tl op a :
  rel_wf cap rec -> ack_wf a -> NoDup (ids a) -> holds b hd c tl ->
  exists rec' a' ok, receive_packet op rec a b = Ret (rec', a', ok) /\
    rel_wf cap rec' /\ r_size rec' = r_size rec /\ r_packet_id rec' = r_packet_id rec /\ r_offset rec' = r_offset rec /\
    ack_wf a' /\ NoDup (ids a') /\ (same_active rec rec' \/ exists id d, stored rec rec' op id d).
Proof.
  intros Hw Ha Hnd Hb. unfold receive_packet.
  assert (Hsame : exists rec' a' ok, Ret (rec, a, true) = Ret (rec', a', ok) /\
    rel_wf cap rec' /\ r_size rec' = r_size rec /\ r_packet_id rec' = r_packet_id rec /\ r_offset rec' = r_offset rec /\
    ack_wf a' /\ NoDup (ids a') /\ (same_active rec rec' \/ exists id d, stored rec rec' op id d)).
  { exists rec, a, true. split_and!; try done. by left. }
  destruct (negb (op =? P_ACK_V1) && reliable_can_get rec) eqn:E1; [|done]. apply andb_true_iff in E1 as [_ Hget].
  unfold reliable_ack_read_packet_id. destruct (decide (4 <= zlen c)) as [Hl|Hl].
  2:{ rewrite (buf_read_short _ _ _ _ 4 Hb) by lia. done. }
  destruct (buf_read_spec _ _ _ _ 4 Hb) as (b1 & -> & Hb1); [lia|]. cbn [mbind outcome_bind option_map].
  set (id := be_val _). destruct (reliable_wont_break_sequentiality rec id); [|done].
  destruct (acknowledge_spec a id Ha) as (a' & got & Hack & Hwa' & Hi' & Hgot).
  assert (Hnd' : NoDup (ids a')).
  { rewrite Hi'. destruct got; [|done]. apply NoDup_app. split; [done|]. split; [|apply NoDup_singleton].
    symmetry in Hgot. apply andb_true_iff in Hgot as [Hgot _]. apply bool_decide_eq_true in Hgot. set_solver. }
  destruct (reliable_not_replay rec id) eqn:E3.
  - assert (Hno : ~ has_pid rec id).
    { unfold reliable_not_replay in E3. destruct (reliable_pid_min _ _); [done|]. intros Hh. apply stored_iff in Hh. by rewrite Hh in E3. }
    destruct (store_packet_spec cap rec id _ b1 _ _ op Hw Hb1 Hget E3 Hno) as (rec' & ok & -> & Hw' & Hsz & Hpid & Hoff & Hok & Hst).
    cbn [mbind outcome_bind]. destruct ok.
    + rewrite Hack. cbn [mbind outcome_bind]. exists rec', a', true. split_and!; try done. right. by eexists _, _.
    + exists rec', a, false. split_and!; try done. by left.
  - cbn [mbind outcome_bind]. rewrite Hack. cbn [mbind outcome_bind]. exists rec, a', true. split_and!; try done. by left.
Qed.

(** A datagram with any content: acknowledged packets leave the send store, a
    packet may be stored and noted for acknowledgement. *)
Lemma receive_control_safe cap junk op sid ks b hd c tl n :
  rel_wf cap (ks_send_reliable ks) -> send_window (ks_send_reliable ks) n -> rel_wf cap (ks_rec_reliable ks) ->
  ack_wf (ks_rec_ack ks) -> NoDup (ids (ks_rec_ack ks)) -> holds b hd c tl ->
  exists ks' ok, receive_control junk op sid ks b = Ret (ks', ok) /\
    (rel_wf cap (ks_send_reliable ks') /\ send_window (ks_send_reliable ks') n /\ r_offset (ks_send_reliable ks') = r_offset (ks_send_reliable ks) /\
     r_size (ks_send_reliable ks') = r_size (ks_send_reliable ks) /\
     forall i e, act (ks_send_reliable ks') i e -> exists e0, act (ks_send_reliable ks) i e0 /\ same_packet e e0) /\
    rel_wf cap (ks_rec_reliable ks') /\ ack_wf (ks_rec_ack ks') /\ NoDup (ids (ks_rec_ack ks')) /\
    ks_lru_acks ks' = ks_lru_acks ks /\ ks_resend_wkc ks' = ks_resend_wkc ks.
Proof.
  intros Hs Hwin Hr Ha Hnd Hb. unfold receive_control, reliable_ack_read.
  destruct (ack_parse_any_input ack_clear b hd c tl junk (proj1 ack_clear_wf) Hb) as (b' & a' & remote & ok & -> & Hwa & Hok). cbn [mbind outcome_bind].
  assert (Hstay : exists ks' ok, Ret (ks, false) = Ret (ks', ok) /\
    (rel_wf cap (ks_send_reliable ks') /\ send_window (ks_send_reliable ks') n /\ r_offset (ks_send_reliable ks') = r_offset (ks_send_reliable ks) /\
     r_size (ks_send_reliable ks') = r_size (ks_send_reliable ks) /\
     forall i e, act (ks_send_reliable ks') i e -> exists e0, act (ks_send_reliable ks) i e0 /\ same_packet e e0) /\
    rel_wf cap (ks_rec_reliable ks') /\ ack_wf (ks_rec_ack ks') /\ NoDup (ids (ks_rec_ack ks')) /\
    ks_lru_acks ks' = ks_lru_acks ks /\ ks_resend_wkc ks' = ks_resend_wkc ks).
  { exists ks, false. split_and!; try done. intros i e He. by exists e. }
  destruct ok; cbn [negb]; [|exact Hstay]. destruct (Hok eq_refl) as (s & c' & _ & (hd' & Hb') & _). destruct (_ && _); cbn [mbind outcome_bind negb]; [exact Hstay|]. clear Hstay.
  destruct (purge_pids_spec cap (take (Z.to_nat (ack_len a')) (ack_pid a')) _ Hs) as (Hs' & Hsz & Hp & Ho & _ & Hact & _). fold (reliable_send_purge (ks_send_reliable ks) a') in *.
  assert (Hwin' : send_window (reliable_send_purge (ks_send_reliable ks) a') n).
  { split; [rewrite Hp; apply Hwin|]. intros i e He. destruct (Hact i e He) as (e0 & He0 & Hpk & _). rewrite Hpk, Hsz. by apply (proj2 Hwin i e0). }
  destruct (receive_packet_safe cap (ks_rec_reliable ks) b' hd' c' tl op (ks_rec_ack ks) Hr Ha Hnd Hb') as (rec & ra & ok & -> & Hr' & _ & _ & _ & Ha' & Hnd' & _).
  cbn [mbind outcome_bind]. eexists _, ok. split; [done|]. cbn [ks_send_reliable ks_rec_reliable ks_rec_ack ks_lru_acks ks_resend_wkc].
  split; [|by split_and!]. split; [done|]. split; [exact Hwin'|]. by split_and!.
Qed.

(** ** Delivering *)

Lemma buf_read_u16_spec b hd c tl :
  holds b hd c tl -> 2 <= zlen c ->
  exists b' v, buf_read_u16 b = Ret (b', v) /\ holds b' (hd + 2) (drop 2 c) tl /\ v = be_val (take 2 c).
Proof.
  intros Hb Hl. unfold buf_read_u16. destruct (buf_read_spec _ _ _ _ 2 Hb) as (b' & -> & Hb'); [lia|].
  cbn [mbind outcome_bind]. eauto.
Qed.

(** The parser of the early negotiation returns on every input. *)
Lemma parse_tlvs_returns fuel : forall b hd c tl wkc,
  holds b hd c tl -> zlen c < 4 * Z.of_nat fuel ->
  exists b' c' hd' wkc' ok, parse_tlvs fuel b wkc = Ret (b', wkc', ok) /\ holds b' hd' c' tl /\
    hd' + zlen c' = hd + zlen c.
Proof.
  induction fuel as [|fuel IH]; intros b hd c tl wkc Hb Hf; [simpl in Hf; lia|].
  cbn [parse_tlvs]. destruct (buf_len_holds _ _ _ _ Hb) as [Hl1 Hl2]. rewrite Hl2, Hl1.
  destruct (zlen c <=? 0) eqn:E0; [by eexists _, _, _, _, _|].
  destruct (zlen c <? 4) eqn:E1; [by eexists _, _, _, _, _|].
  destruct (buf_read_u16_spec _ _ _ _ Hb) as (b1 & v1 & -> & Hb1 & Hv1); [lia|]. cbn [mbind outcome_bind].
  destruct (buf_read_u16_spec _ _ _ _ Hb1) as (b2 & v2 & -> & Hb2 & Hv2); [rewrite length_drop; lia|].
  cbn [mbind outcome_bind]. destruct (buf_len_holds _ _ _ _ Hb2) as [Hl3 _]. rewrite Hl3.
  rewrite drop_drop, length_drop in *. pose proof (u16_range v2).
  destruct (_ <? u16 v2) eqn:E2; [eexists _, _, _, _, _; split; [done|]; split; [done|]; rewrite length_drop; lia|].
  destruct (u16 v1 =? 1).
  - destruct (negb (u16 v2 =? 2)) eqn:E3; [eexists _, _, _, _, _; split; [done|]; split; [done|]; rewrite length_drop; lia|].
    destruct (buf_read_u16_spec _ _ _ _ Hb2) as (b3 & v3 & -> & Hb3 & _); [rewrite length_drop; lia|].
    cbn [mbind outcome_bind]. rewrite drop_drop in Hb3.
    destruct (IH b3 _ _ _ (wkc || Z.testbit (u16 v3) 0) Hb3) as (b' & c' & hd' & w' & ok & -> & Hh & Hs);
      [rewrite length_drop; lia|]. eexists _, _, _, _, _. split; [done|]. split; [done|]. rewrite length_drop in Hs. lia.
  - destruct (buf_advance_spec _ _ _ _ (u16 v2) Hb2) as (b3 & -> & Hb3); [rewrite length_drop; lia|].
    cbn [fst]. rewrite drop_drop in Hb3.
    destruct (IH b3 _ _ _ wkc Hb3) as (b' & c' & hd' & w' & ok & -> & Hh & Hs);
      [rewrite length_drop; lia|]. eexists _, _, _, _, _. split; [done|]. split; [done|]. rewrite length_drop in Hs. lia.
Qed.

Lemma set_buf_wf cap rec i e b hd c tl :
  rel_wf cap rec -> act rec i e -> holds b hd c tl -> hd + zlen c + tl = cap ->
  rel_wf cap (rel_set_entry rec i (ent_set_buf e b)).
Proof.
  intros Hw [Hs Ha] Hb Hc. eapply rel_wf_set; [done|exact Hs|by eexists _, _, _|].
  intros _ j f Hj Hf Heq. apply Hj. eapply (rw_unique _ _ Hw); [done|by split|done].
Qed.

Lemma mark_deleted_spec cap rec i e b hd c tl :
  rel_wf cap rec -> act rec i e -> holds b hd c tl -> hd + zlen c + tl = cap ->
  exists rec', reliable_mark_deleted (rel_set_entry rec i (ent_set_buf e b)) i = Ret rec' /\
    rel_wf cap rec' /\ r_size rec' = r_size rec /\ r_offset rec' = r_offset rec /\
    r_packet_id rec' = u32 (e_packet_id e + 1) /\
    (forall j f, act rec' j f <-> j <> i /\ act rec j f).
Proof.
  intros Hw Ha Hb Hc. pose proof Ha as [Hs _]. set (e1 := ent_set_buf e b).
  assert (Hw1 : rel_wf cap (rel_set_entry rec i e1)) by (by eapply set_buf_wf).
  assert (Hs1 : slot (rel_set_entry rec i e1) i e1) by (by eapply slot_set_eq).
  unfold reliable_mark_deleted. rewrite (find_buf_slot cap _ i e1 Hw1 Hs1). cbn [mbind outcome_bind].
  rewrite rel_set_set. eexists. split; [done|]. split_and!; try done.
  - apply rel_wf_set_packet_id. eapply rel_wf_set_idle; [done|exact Hs|done|exact Hb|done].
  - intros j f. rewrite act_set_packet_id, (act_set _ _ _ _ _ _ Hs). split; [|by right].
    by intros [(_ & _ & ?)|?].
Qed.

Lemma bio_write_post_spec status b hd c tl :
  holds b hd c tl -> exists b' c' tl', bio_write_post status b = Ret b' /\ holds b' hd c' tl' /\
    zlen c' + tl' = zlen c + tl /\ (status <> 1 -> b' = b).
Proof.
  intros Hb. unfold bio_write_post. destruct (status =? 1) eqn:E; [|eexists _, _, _; split_and!; done].
  destruct (buf_len_holds _ _ _ _ Hb) as [-> Hl2]. holds_facts Hb. destruct Hb as (blk & Hok & Ho & Hc & Ht).
  destruct (poke_ok b blk (boffset b) (replicate (Z.to_nat (zlen c)) 0) Hok) as [-> Hok'].
  { destruct Hok; lia. } { rewrite length_replicate. lia. } { apply Forall_replicate. unfold is_byte. lia. }
  cbn [mbind outcome_bind]. eexists _, [], (zlen c + tl). split; [done|]. split_and!; [|simpl; lia|lia].
  eapply holds_intro with (blk := splice blk (boffset b) (replicate (Z.to_nat (zlen c)) 0)); [|done|done|simpl; lia].
  destruct Hok'. split; simpl in *; try done; lia.
Qed.

Lemma bio_write_post_empty b b' : bio_write_post 1 b = Ret b' -> blen b' = 0.
Proof. unfold bio_write_post. cbn [Z.eqb Pos.eqb]. intros H. by apply bind_Ret_inv in H as (x & _ & [= <-]). Qed.

(** [deliver_next] returns whatever the library answers; a packet it takes is
    the expected one, and it is the only one to leave the store. *)
Definition deliver_post (cap : Z) (rec : reliable) (o : outcome (reliable * bool * option bytes * bool)) : Prop :=
  exists rec' wkc' res ok, o = Ret (rec', wkc', res, ok) /\
    rel_wf cap rec' /\ r_size rec' = r_size rec /\ r_offset rec' = r_offset rec /\
    match res with
    | Some d => ok = true /\ exists i e, act rec i e /\ e_packet_id e = r_packet_id rec /\
        content (e_buf e) = d /\ r_packet_id rec' = u32 (r_packet_id rec + 1) /\
        (forall j f, act rec' j f <-> j <> i /\ act rec j f)
    | None => r_packet_id rec' = r_packet_id rec /\ (ok = true -> same_active rec rec')
    end.

Lemma take_packet_post cap rec i e b hd c tl wkc :
  rel_wf cap rec -> act rec i e -> e_packet_id e = r_packet_id rec ->
  holds b hd c tl -> hd + zlen c + tl = cap ->
  deliver_post cap rec (rec ← reliable_mark_deleted (rel_set_entry rec i (ent_set_buf e b)) i;
                        Ret (rec, wkc, Some (content (e_buf e)), true)).
Proof.
  intros Hw Ha Hp Hb Hc.
  destruct (mark_deleted_spec cap rec i e b hd c tl Hw Ha Hb Hc) as (rec' & -> & Hw' & Hz & Ho & Hpid & Hact).
  eexists _, _, _, _. split; [done|]. split_and!; try done.
  exists i, e. rewrite <- Hp. by split_and!.
Qed.

(** The library's answer other than 1 leaves the entry as it was. *)
Lemma same_active_refresh rec i e : act rec i e -> same_active rec (rel_set_entry rec i (ent_set_buf e (e_buf e))).
Proof.
  intros [Hs Ha] j f. assert (ent_set_buf e (e_buf e) = e) as -> by (by destruct e).
  rewrite (act_set _ _ _ _ _ _ Hs). split.
  - intros [(-> & -> & _)|[_ ?]]; done.
  - intros Hf. destruct (decide (j = i)) as [->|]; [left|by right]. destruct Hf as [Hf ?]. unfold slot in *.
    split_and!; congruence.
Qed.

Lemma deliver_next_spec cap rec wkc accept : rel_wf cap rec -> deliver_post cap rec (deliver_next accept rec wkc).
Proof.
  intros Hw. unfold deliver_next. destruct (reliable_get_entry_sequenced rec) as [i|] eqn:E.
  2:{ exists rec, wkc, None, true. by split_and!. }
  destruct (reliable_get_entry_sequenced_spec rec i E) as (e & Ha & Hp). pose proof Ha as [Hs _].
  rewrite (rel_entry_slot _ _ _ Hs). cbn [mbind outcome_bind].
  destruct (rw_bufs _ _ Hw i e Hs) as (hd & c & tl & Hb & Hcap).
  assert (Hcont : content (e_buf e) = c) by (by destruct Hb as (? & ? & ? & ? & ?)).
  rewrite (buf_bytes_spec _ _ _ _ Hb). cbn [mbind outcome_bind]. subst c.
  destruct (_ && is_hard_reset_method2 _).
  - destruct (parse_tlvs_returns (S (length (content (e_buf e)))) (e_buf e) hd _ tl wkc Hb) as (b' & c' & hd' & w' & ok & -> & Hb' & Hsum); [lia|].
    cbn [mbind outcome_bind]. destruct ok; [eapply take_packet_post; [done|done|done|exact Hb'|lia]|].
    eexists _, _, None, false. split; [done|]. split_and!; try done. eapply set_buf_wf; [done|done|exact Hb'|lia].
  - set (status := if blen (e_buf e) =? 0 then 1 else accept _).
    assert (Hpost : exists b c' tl', (if blen (e_buf e) =? 0 then Ret (e_buf e) else bio_write_post status (e_buf e)) = Ret b /\
              holds b hd c' tl' /\ hd + zlen c' + tl' = cap /\ (status <> 1 -> b = e_buf e)).
    { destruct (blen (e_buf e) =? 0); [eexists _, _, _; by split_and!|].
      destruct (bio_write_post_spec status _ _ _ _ Hb) as (b & c' & tl' & -> & Hb' & Hsum & Hsm).
      exists b, c', tl'. split_and!; try done. lia. }
    destruct Hpost as (b & c' & tl' & -> & Hb' & Hc' & Hsm). cbn [mbind outcome_bind].
    assert (Hwf : rel_wf cap (rel_set_entry rec i (ent_set_buf e b))) by (by eapply set_buf_wf).
    destruct (status =? -1) eqn:E1; [eexists _, _, None, false; split_and!; done|].
    destruct (status =? 1) eqn:E2; [eapply take_packet_post; [done|done|done|exact Hb'|lia]|].
    eexists _, _, None, true. split_and!; try done. intros _. rewrite Hsm by lia. by apply same_active_refresh.
Qed.

(** An empty reset packet asks for nothing. *)
Lemma deliver_next_flag cap accept rec wkc rec' wkc' res ok :
  rel_wf cap rec -> (forall i e, act rec i e -> is_hard_reset_method2 (e_opcode e) = true -> content (e_buf e) = []) ->
  deliver_next accept rec wkc = Ret (rec', wkc', res, ok) -> wkc' = wkc.
Proof.
  intros Hw Hop. unfold deliver_next. destruct (reliable_get_entry_sequenced rec) as [i|] eqn:E; [|by intros [= <- <- <- <-]].
  destruct (reliable_get_entry_sequenced_spec rec i E) as (e & Ha & Hp). pose proof Ha as [Hs _].
  rewrite (rel_entry_slot _ _ _ Hs). cbn [mbind outcome_bind]. destruct (rw_bufs _ _ Hw i e Hs) as (hd & c & tl & Hb & _).
  rewrite (buf_bytes_spec _ _ _ _ Hb). cbn [mbind outcome_bind]. destruct (_ && is_hard_reset_method2 _) eqn:Eh.
  - apply andb_true_iff in Eh as [_ Eh]. specialize (Hop i e Ha Eh). destruct (buf_len_holds _ _ _ _ Hb) as [_ Hl].
    assert (Hc : content (e_buf e) = c) by (by destruct Hb as (? & ? & ? & ? & ?)). rewrite Hop in Hc. subst c.
    cbn [parse_tlvs]. rewrite Hl. change (zlen (@nil Z) <=? 0) with true. cbn [mbind outcome_bind].
    intros H. apply bind_Ret_inv in H as (x & _ & [= <- <- <- <-]). done.
  - intros H. apply bind_Ret_inv in H as (b & _ & H). destruct (_ =? -1); [by injection H|].
    destruct (_ =? 1); [|by injection H]. apply bind_Ret_inv in H as (x & _ & [= <- <- <- <-]). done.
Qed.

(** A library that takes every packet takes the expected one. *)
Lemma deliver_next_takes cap rec wkc :
  rel_wf cap rec -> has_pid rec (r_packet_id rec) ->
  (forall i e, act rec i e -> is_hard_reset_method2 (e_opcode e) = true -> content (e_buf e) = []) ->
  exists rec' d, deliver_next (λ _, 1) rec wkc = Ret (rec', wkc, Some d, true).
Proof.
  intros Hw Hhas Hop. unfold deliver_next.
  destruct (reliable_get_entry_sequenced_ready rec Hhas) as [i E]. rewrite E.
  destruct (reliable_get_entry_sequenced_spec rec i E) as (e & Ha & Hp). pose proof Ha as [Hs _].
  rewrite (rel_entry_slot _ _ _ Hs). cbn [mbind outcome_bind].
  destruct (rw_bufs _ _ Hw i e Hs) as (hd & c & tl & Hb & Hcap).
  assert (Hcont : content (e_buf e) = c) by (by destruct Hb as (? & ? & ? & ? & ?)).
  destruct (buf_len_holds _ _ _ _ Hb) as [_ Hl].
  rewrite (buf_bytes_spec _ _ _ _ Hb). cbn [mbind outcome_bind].
  assert (Hdel : forall b hd' c' tl', holds b hd' c' tl' -> hd' + zlen c' + tl' = cap ->
    exists rec', reliable_mark_deleted (rel_set_entry rec i (ent_set_buf e b)) i = Ret rec').
  { intros b hd' c' tl' Hb' Hc'. destruct (mark_deleted_spec cap rec i e b hd' c' tl' Hw Ha Hb' Hc') as (r' & Hr & _). eauto. }
  destruct (_ && is_hard_reset_method2 _) eqn:Eh.
  - specialize (Hop i e Ha ltac:(lia)). rewrite Hop in Hcont. subst c. cbn [parse_tlvs]. rewrite Hl.
    cbn [mbind outcome_bind]. change (zlen (@nil Z) <=? 0) with true. cbn [mbind outcome_bind].
    destruct (Hdel _ _ _ _ Hb Hcap) as (r' & ->). cbn [mbind outcome_bind]. eauto.
  - assert (Hpost : exists b c' tl', (if blen (e_buf e) =? 0 then Ret (e_buf e)
        else bio_write_post (if blen (e_buf e) =? 0 then 1 else 1) (e_buf e)) = Ret b /\ holds b hd c' tl' /\ hd + zlen c' + tl' = cap).
    { destruct (blen (e_buf e) =? 0); [eexists _, _, _; by split_and!|].
      destruct (bio_write_post_spec 1 _ _ _ _ Hb) as (b & c' & tl' & -> & Hb' & Hsum & _). exists b, c', tl'.
      split_and!; try done. lia. }
    destruct Hpost as (b & c' & tl' & -> & Hb' & Hc'). cbn [mbind outcome_bind].
    assert ((if blen (e_buf e) =? 0 then 1 else 1) = 1) as -> by (destruct (blen (e_buf e) =? 0); reflexivity).
    change (1 =? -1) with false. change (1 =? 1) with true. cbv iota.
    destruct (Hdel _ _ _ _ Hb' Hc') as (r' & ->). cbn [mbind outcome_bind]. eauto.
Qed.

(** A send store after the session's first packet was acknowledged. *)
Definition demo_frame : frame := tls_init_control_channel_frame_parameters 64 1250.
Definition demo_store : reliable :=
  match reliable_init (BUF_SIZE demo_frame) (f_headroom demo_frame) TLS_RELIABLE_N_SEND_BUFFERS false with
  | Ret r => rel_set_packet_id r 1
  | _ => mkrel 0 0 0 0 false []
  end.
Definition demo_ks : key_state := mkks demo_store demo_store ack_clear ack_clear true.

Lemma demo_store_ok :
  rel_wf (BUF_SIZE demo_frame) demo_store /\ r_offset demo_store = f_headroom demo_frame /\ send_window demo_store 1.
Proof.
  destruct (reliable_init_spec (BUF_SIZE demo_frame) (f_headroom demo_frame) TLS_RELIABLE_N_SEND_BUFFERS false)
    as (r & Hr & Hw & _ & Ho & _ & _ & Hn); [done|vm_compute; split; congruence|done|].
  unfold demo_store. rewrite Hr. split; [by apply rel_wf_set_packet_id|]. split; [done|].
  split; [done|]. intros i e He. by destruct (Hn i e).
Qed.

(** A TLS library that always fills the buffer. *)
Definition demo_read (maxlen : Z) : cipher_read :=
  if maxlen <? 0 then ReadNothing else ReadData (replicate (Z.to_nat maxlen) 7).

Lemma write_outgoing_never_asserts_witness : exists ks' ret change,
    write_outgoing_tls_ciphertext demo_frame TLS_WRAP_CRYPT true (Some 600) demo_read demo_ks = Ret (ks', ret, change) /\
    exists cs, rel_wf (BUF_SIZE demo_frame) (ks_send_reliable ks') /\
      send_window (ks_send_reliable ks') (1 + zlen cs) /\ carries (ks_send_reliable ks') 1 cs /\
      (forall j e, act (ks_send_reliable demo_ks) j e -> act (ks_send_reliable ks') j e) /\
      (ret = true -> cs = [] \/ exists maxlen, demo_read maxlen = ReadData (concat cs)).
Proof.
  destruct demo_store_ok as (Hw & Ho & Hwin).
  apply (write_outgoing_never_asserts 64 1250 TLS_WRAP_CRYPT true 600 demo_read demo_ks 1);
    try done; try apply ack_clear_wf.
  intros maxlen data. unfold demo_read. destruct (maxlen <? 0) eqn:E; intros [= <-].
  split; [rewrite length_replicate; lia|]. apply Forall_replicate. unfold is_byte. lia.
Defined.
