(* ===== verification/ReliableNet.v ===== *)
(** * The control channel over a lossy network

    Sender and receiver of one direction, run by an arbitrary sequence of
    events: packets are submitted, (re)transmitted, arrive in any order any
    number of times or never, acknowledgements likewise, and the receiver
    hands packets to the TLS library.  Every event runs the operations of
    [ControlChannel], [Reliable] and [ReliableAck]. *)

From S2P Require Import Prelude Buffer CircList PacketId Reliable ReliableAck ReliableStore ControlChannel.
From stdpp Require Import prelude.
From Stdlib Require Import ZArith Lia ZifyBool.

Local Open Scope Z_scope.

Record net := mknet {
  n_snd : reliable;            (* sender: ks->send_reliable *)
  n_rcv : reliable;            (* receiver: ks->rec_reliable *)
  n_ack : reliable_ack;        (* receiver: ks->rec_ack *)
  n_mru : reliable_ack;        (* receiver: ks->lru_acks *)
  n_wkc : bool;                (* receiver: CO_RESEND_WKC *)
  n_dead : bool;               (* the session was given up after an error *)
  n_wire : list (Z * bytes);   (* opcode and bytes of every packet ever sent *)
  n_acked : list Z;            (* every id the receiver ever acknowledged *)
  n_submitted : list bytes;
  n_delivered : list bytes
}.

Inductive event :=
| EvReset (op : Z)                                   (* session_move_pre_start *)
| EvWrite (mpl wkc_len : Z) (resend : bool) (data : bytes)  (* one round of the ciphertext loop *)
| EvSend (now : Z)                                   (* reliable_send *)
| EvSchedule (now : Z)                               (* reliable_schedule_now *)
| EvArrive (k : nat)                                 (* the k-th packet ever sent reaches the receiver *)
| EvFlush (max : Z)                                  (* the receiver sends an acknowledgement record *)
| EvAck (ks : list nat)                              (* a record with these acknowledgements reaches the sender *)
| EvDeliver (status : Z).                            (* the TLS library's answer for the next packet *)

(** A buffer with exactly the given bytes, with room in front. *)
Definition packet_buf (room : Z) (p : bytes) : outcome buffer :=
  b ← alloc_buf (room + zlen p);
  let '(b, ok) := buf_init b room in
  ASSERT ok;;
  '(b, ok) ← buf_write b p;
  ASSERT ok;; Ret b.

Definition ack_of (l : list Z) : reliable_ack :=
  let l := take 8 l in mkack (zlen l) (l ++ replicate (8 - length l) 0).

Definition set_snd (s : net) (r : reliable) (sub : list bytes) : net :=
  mknet r (n_rcv s) (n_ack s) (n_mru s) (n_wkc s) (n_dead s) (n_wire s) (n_acked s) sub (n_delivered s).

Section system.
(** The session id the acknowledgement records carry. *)
Context (sid : bytes).

Definition exec (ev : event) (s : net) : outcome net :=
  if n_dead s then Ret s else
  match ev with
  | EvReset op =>
      '(r, ok) ← session_move_pre_start (n_snd s) op false;
      Ret (set_snd s r (if ok : bool then n_submitted s ++ [[]] else n_submitted s))
  | EvWrite mpl wkc_len resend data =>
      if reliable_get_num_output_sequenced_available (n_snd s) =? 0 then Ret s
      else
        tmp ← packet_buf 0 data;
        '(r, tmp) ← write_one_packet mpl (Some wkc_len) resend (n_snd s) tmp;
        Ret (set_snd s r (n_submitted s ++ [take (length data - Z.to_nat (blen tmp)) data]))
  | EvSend now =>
      if negb (reliable_can_send now (n_snd s)) then Ret s else
      '(r, res) ← reliable_send now (n_snd s);
      match res with
      | None => Abort
      | Some (i, op) =>
          e ← rel_entry r i;
          p ← buf_bytes (e_buf e);
          Ret (mknet r (n_rcv s) (n_ack s) (n_mru s) (n_wkc s) (n_dead s) (n_wire s ++ [(op, p)]) (n_acked s)
                 (n_submitted s) (n_delivered s))
      end
  | EvSchedule now => Ret (set_snd s (reliable_schedule_now now (n_snd s)) (n_submitted s))
  | EvArrive k =>
      match n_wire s !! k with
      | None => Ret s
      | Some (op, p) =>
          b ← packet_buf 0 p;
          '(r, a, _) ← receive_packet op (n_rcv s) (n_ack s) b;
          Ret (mknet (n_snd s) r a (n_mru s) (n_wkc s) (n_dead s) (n_wire s) (n_acked s ++ ids a)
                 (n_submitted s) (n_delivered s))
      end
  | EvFlush max =>
      b ← packet_buf (ACK_SIZE RELIABLE_ACK_SIZE) [];
      '(a, mru, _, _) ← reliable_ack_write (n_ack s) (n_mru s) b sid max true;
      Ret (mknet (n_snd s) (n_rcv s) a mru (n_wkc s) (n_dead s) (n_wire s) (n_acked s)
             (n_submitted s) (n_delivered s))
  | EvAck ks =>
      let got := ack_of (omap (λ k, n_acked s !! k) ks) in
      Ret (set_snd s (reliable_send_purge (n_snd s) got) (n_submitted s))
  | EvDeliver status =>
      '(r, wkc, res, ok) ← deliver_next (λ _, status) (n_rcv s) (n_wkc s);
      if negb ok then
        Ret (mknet (n_snd s) (n_rcv s) (n_ack s) (n_mru s) (n_wkc s) true (n_wire s) (n_acked s)
               (n_submitted s) (n_delivered s))
      else
        Ret (mknet (n_snd s) r (n_ack s) (n_mru s) wkc (n_dead s) (n_wire s) (n_acked s) (n_submitted s)
               (match res with None => n_delivered s | Some d => n_delivered s ++ [d] end))
  end.

Fixpoint run (evs : list event) (s : net) : outcome net :=
  match evs with
  | [] => Ret s
  | ev :: evs' => s ← exec ev s; run evs' s
  end.

(** ** The invariant *)

Context (cap off tls_timeout : Z).

(** Packet [k] was submitted with the bytes [d]. *)
Definition submitted (s : net) (k : Z) (d : bytes) : Prop :=
  0 <= k /\ n_submitted s !! Z.to_nat k = Some d.

(** Control packets are not bare acknowledgements, and reset packets are empty. *)
Definition op_ok (op : Z) (d : bytes) : Prop :=
  op <> P_ACK_V1 /\ (is_hard_reset_method2 op = true -> d = []).

Record inv (s : net) : Prop := {
  i_bound : zlen (n_submitted s) < 2 ^ 31 - RELIABLE_CAPACITY;
  i_swf : rel_wf cap (n_snd s);
  i_swin : send_window (n_snd s) (zlen (n_submitted s));
  i_soff : r_offset (n_snd s) = off /\ 4 <= off;
  i_tmo : r_initial_timeout (n_snd s) = tls_timeout;
  i_fit : Forall (λ d, zlen d <= cap - off) (n_submitted s);
  i_roff : r_offset (n_rcv s) = off;
  i_sact : forall i e, act (n_snd s) i e -> exists d, submitted s (e_packet_id e) d /\
             op_ok (e_opcode e) d /\ content (e_buf e) = be_bytes 4 (e_packet_id e) ++ d;
  i_rwf : rel_wf cap (n_rcv s);
  i_rpid : r_packet_id (n_rcv s) = zlen (n_delivered s);
  i_ract : forall i e, act (n_rcv s) i e ->
             zlen (n_delivered s) <= e_packet_id e < zlen (n_delivered s) + r_size (n_rcv s) /\
             submitted s (e_packet_id e) (content (e_buf e)) /\ op_ok (e_opcode e) (content (e_buf e));
  i_wire : forall op p, (op, p) ∈ n_wire s -> zlen p < BUF_SIZE_MAX /\ Forall is_byte p /\
             exists k d, submitted s k d /\ op_ok op d /\ p = be_bytes 4 k ++ d;
  i_del : n_delivered s `prefix_of` n_submitted s;
  i_awf : ack_wf (n_ack s) /\ ack_wf (n_mru s) /\ NoDup (ids (n_mru s));
  i_pend : forall x, x ∈ ids (n_ack s) -> x ∈ n_acked s;
  i_acked : forall x, x ∈ n_acked s -> 0 <= x < zlen (n_delivered s) \/ has_pid (n_rcv s) x;
  i_kept : forall k, 0 <= k < zlen (n_submitted s) ->
             k < zlen (n_delivered s) \/ has_pid (n_rcv s) k \/ has_pid (n_snd s) k
}.

Lemma packet_buf_spec room p :
  0 <= room -> room + zlen p < BUF_SIZE_MAX -> Forall is_byte p ->
  exists b, packet_buf room p = Ret b /\ holds b room p 0.
Proof.
  intros Hr Hs Hp. unfold packet_buf.
  destruct (alloc_buf_spec (room + zlen p)) as (b & -> & Hb); [unfold buf_size_valid; lia|]. cbn [mbind outcome_bind].
  destruct (buf_init_spec _ _ _ _ room Hb) as (b1 & -> & Hb1); [simpl; lia|]. cbn [mbind outcome_bind ASSERT].
  destruct (buf_write_spec _ _ _ _ p Hb1 Hp) as (b2 & -> & Hb2); [simpl; lia|]. cbn [mbind outcome_bind ASSERT app] in *.
  exists b2. split; [done|]. eapply holds_eq; [done|done|done|simpl; lia].
Qed.

Lemma submitted_lt s k d : submitted s k d -> 0 <= k < zlen (n_submitted s).
Proof. intros [? H]. apply lookup_lt_Some in H. lia. Qed.

Lemma submitted_app s l k d r : submitted s k d -> submitted (set_snd s r (n_submitted s ++ l)) k d.
Proof. intros [? H]. split; [done|]. simpl. rewrite lookup_app_l; [done|]. by eapply lookup_lt_Some. Qed.

(** *** Events that only concern the sender *)

Lemma inv_submit s r' i e d :
  inv s -> zlen (n_submitted s) + 1 < 2 ^ 31 - RELIABLE_CAPACITY ->
  rel_wf cap r' -> send_window r' (zlen (n_submitted s) + 1) -> r_offset r' = r_offset (n_snd s) ->
  r_initial_timeout r' = r_initial_timeout (n_snd s) -> zlen d <= cap - off ->
  act r' i e -> e_packet_id e = u32 (zlen (n_submitted s)) -> op_ok (e_opcode e) d ->
  content (e_buf e) = be_bytes 4 (u32 (zlen (n_submitted s))) ++ d ->
  (forall j f, act r' j f <-> (j = i /\ f = e) \/ act (n_snd s) j f) ->
  inv (set_snd s r' (n_submitted s ++ [d])).
Proof.
  intros [] Hb Hw Hwin Hoff Htm Hfit Ha Hp Hopk Hc Hact. rewrite u32_small in * by (unfold RELIABLE_CAPACITY in *; lia).
  split; simpl; try done.
  - rewrite length_app. simpl. lia.
  - by rewrite length_app, Nat2Z.inj_add.
  - by rewrite Hoff.
  - by rewrite Htm.
  - apply Forall_app. split; [done|]. by constructor.
  - intros j f [[-> ->]|Hf]%Hact.
    + exists d. rewrite Hp. split; [|done]. split; [lia|]. simpl. rewrite Nat2Z.id. by apply list_lookup_middle.
    + destruct (i_sact0 j f Hf) as (d' & Hd & Hc'). exists d'. split; [by apply submitted_app|done].
  - intros j f Hf. destruct (i_ract0 j f Hf) as (? & ? & ?). split; [done|]. split; [by apply submitted_app|done].
  - intros op p Hop. destruct (i_wire0 op p Hop) as (Hl & Hby & k & d' & Hd & Hod & ->). split_and!; try done.
    exists k, d'. split; [by apply submitted_app|done].
  - by apply prefix_app_r.
  - intros k Hk. rewrite length_app in Hk. simpl in Hk.
    destruct (decide (k = zlen (n_submitted s))) as [->|Hne].
    + right. right. by exists i, e.
    + destruct (i_kept0 k) as [?|[?|(j & f & Hf & Hfp)]]; [lia|auto..]. right. right. exists j, f.
      split; [apply Hact; by right|done].
Qed.

Lemma inv_snd s r' :
  inv s -> rel_wf cap r' -> send_window r' (zlen (n_submitted s)) -> r_offset r' = r_offset (n_snd s) ->
  r_initial_timeout r' = r_initial_timeout (n_snd s) ->
  (forall i e, act r' i e -> exists e0, act (n_snd s) i e0 /\ same_packet e e0) ->
  (forall k, has_pid (n_snd s) k -> has_pid r' k \/ k ∈ n_acked s) ->
  inv (set_snd s r' (n_submitted s)).
Proof.
  intros [] Hw Hwin Hoff Htm Hact Hpid. split; simpl; try done.
  - by rewrite Hoff.
  - by rewrite Htm.
  - intros i e He. destruct (Hact i e He) as (e0 & He0 & -> & -> & ->). by eapply i_sact0.
  - intros k Hk. destruct (i_kept0 k Hk) as [?|[?|Hs]]; [auto..|].
    destruct (Hpid k Hs) as [?|Hack]; [auto|]. destruct (i_acked0 k Hack); [left; lia|auto].
Qed.

Lemma window_same r r' n :
  send_window r n -> r_packet_id r' = r_packet_id r -> r_size r' = r_size r ->
  (forall i e, act r' i e -> exists e0, act r i e0 /\ same_packet e e0) ->
  send_window r' n.
Proof.
  intros [Hp Hw] Hp' Hs Hact. split; [congruence|]. intros i e He. rewrite Hs.
  destruct (Hact i e He) as (e0 & He0 & -> & _). by apply (Hw i).
Qed.

Lemma inv_schedule s now : inv s -> inv (set_snd s (reliable_schedule_now now (n_snd s)) (n_submitted s)).
Proof.
  intros Hi. pose proof Hi as []. destruct (schedule_now_spec cap _ now i_swf0) as (Hw & Hs & Hp & Ho & Ha & Hk & _).
  apply inv_snd; try done; [by eapply window_same|]. auto.
Qed.

Lemma ids_ack_of l : ids (ack_of l) = take 8 l.
Proof. unfold ack_of, ids. simpl. rewrite Nat2Z.id. apply take_app_length. Qed.

Lemma inv_ack s ks :
  inv s ->
  inv (set_snd s (reliable_send_purge (n_snd s) (ack_of (omap (λ k, n_acked s !! k) ks))) (n_submitted s)).
Proof.
  intros Hi. pose proof Hi as []. unfold reliable_send_purge. set (l := omap _ ks).
  change (take (Z.to_nat (ack_len (ack_of l))) (ack_pid (ack_of l))) with (ids (ack_of l)). rewrite ids_ack_of.
  destruct (purge_pids_spec cap (take 8 l) (n_snd s) i_swf0) as (Hw & Hs & Hp & Ho & Ht & Ha & Hk).
  apply inv_snd; try done; [by eapply window_same|].
  intros k Hhas. destruct (decide (k ∈ take 8 l)) as [Hin|Hin]; [right|left; by apply Hk].
  apply elem_of_take_incl in Hin. unfold l in Hin. apply list_elem_of_omap in Hin as (n & _ & Hn).
  by eapply list_elem_of_lookup_2.
Qed.

(** What [EvSend] does when a packet is due. *)
Lemma exec_send s now :
  inv s -> n_dead s = false -> reliable_can_send now (n_snd s) = true ->
  exists i e, act (n_snd s) i e /\ entry_due now e = true /\
    let s' := mknet (rel_set_entry (n_snd s) i (resent now e)) (n_rcv s) (n_ack s) (n_mru s) (n_wkc s) (n_dead s)
                (n_wire s ++ [(e_opcode e, content (e_buf e))]) (n_acked s) (n_submitted s) (n_delivered s) in
    exec (EvSend now) s = Ret s' /\ inv s'.
Proof.
  intros Hi Hdead Hcan. unfold exec. rewrite Hdead, Hcan. cbn [negb]. pose proof Hi as [].
  apply can_send_due in Hcan as [_ (i0 & e0 & Hs0 & Hd0)].
  destruct (reliable_send_spec cap _ _ now i_swf0 i_swin0) as [[_ Hno]|(i & e & -> & Ha & Hd & _)]; cbn [mbind outcome_bind].
  { by rewrite (Hno i0 e0 Hs0) in Hd0. }
  exists i, e. split; [done|]. split; [done|]. cbv zeta.
  pose proof Ha as [Hs Hact]. rewrite (rel_entry_slot _ i (resent now e)) by (by eapply slot_set_eq).
  cbn [mbind outcome_bind]. destruct (rw_bufs _ _ i_swf0 i e Hs) as (hd & c & tl & Hb & Hc).
  assert (Hcc : content (e_buf e) = c) by (by destruct Hb as (? & ? & ? & ? & ?)).
  change (e_buf (resent now e)) with (e_buf e). rewrite (buf_bytes_spec _ _ _ _ Hb), Hcc. cbn [mbind outcome_bind].
  split; [done|].
  assert (Hinv : inv (set_snd s (rel_set_entry (n_snd s) i (resent now e)) (n_submitted s))).
  { apply inv_snd; try done.
    - by apply resent_wf.
    - eapply window_same; [exact i_swin0|done|done|]. intros j f. by apply resent_act.
    - intros j f. by apply resent_act.
    - intros k (j & f & Hf & <-). left. destruct (decide (j = i)) as [->|Hne].
      + exists i, (resent now e). split; [by apply (act_set _ _ _ _ _ _ Hs); left|].
        destruct Hf as [Hf _]. unfold slot in *. simplify_eq. done.
      + exists j, f. split; [|done]. apply (act_set _ _ _ _ _ _ Hs). by right. }
  destruct Hinv as []. split; simpl in *; try done.
  intros op p [Hin|Hin%list_elem_of_singleton]%elem_of_app; [by eapply i_wire0|]. simplify_eq.
  destruct (i_sact0 i e Ha) as (d & Hd' & Hod & Hcd). destruct (holds_bounds _ _ _ _ Hb) as (? & ? & _ & _ & Hcp & Hmx & _).
  split; [lia|]. split; [by eapply holds_bytes|]. exists (e_packet_id e), d. by split_and!.
Qed.

Lemma inv_send s now :
  inv s -> exists s', exec (EvSend now) s = Ret s' /\ inv s' /\ n_submitted s' = n_submitted s.
Proof.
  intros Hi. destruct (n_dead s) eqn:Hdead; [unfold exec; rewrite Hdead; eauto|].
  destruct (reliable_can_send now (n_snd s)) eqn:Hcan.
  - destruct (exec_send s now Hi Hdead Hcan) as (i & e & _ & _ & -> & Hinv). eexists. by split_and!.
  - unfold exec. rewrite Hdead, Hcan. cbn [negb]. eauto.
Qed.

(** *** Submitting *)

Definition below (s : net) (n : Z) : Prop := zlen (n_submitted s) + n < 2 ^ 31 - RELIABLE_CAPACITY.

Lemma inv_reset s op :
  inv s -> below s 1 -> op <> P_ACK_V1 ->
  exists s', exec (EvReset op) s = Ret s' /\ inv s' /\ (length (n_submitted s') <= S (length (n_submitted s)))%nat.
Proof.
  intros Hi Hbel Hop. unfold exec. destruct (n_dead s) eqn:Hdead; [eauto|]. pose proof Hi as [].
  destruct (avail_spec cap _ _ i_swf0 i_swin0) as (m & Hav & Hm & _).
  destruct (decide (avail (n_snd s) = 0)) as [E|E].
  - unfold session_move_pre_start. rewrite (proj2 (get_buf_output_spec cap _ _ i_swf0 i_swin0) E).
    cbn [mbind outcome_bind]. eexists. split; [done|]. split; [apply inv_snd; eauto using same_packet_refl|simpl; lia].
  - destruct (session_move_pre_start_spec cap _ _ op i_swf0 i_swin0) as
      (r' & i & e & -> & Hw & Hwin & Ho & _ & _ & Htm & Ha & Hp & Hc & _ & Hope & Hact); [lia|lia|].
    cbn [mbind outcome_bind]. eexists. split; [done|]. split; [|simpl; rewrite length_app; simpl; lia].
    eapply inv_submit; try done; [simpl; pose proof (rw_offset _ _ i_swf0); lia|]. by rewrite Hope.
Qed.

Lemma inv_write s mpl wkc_len resend data :
  inv s -> below s 1 ->
  0 <= mpl -> 0 <= wkc_len -> Forall is_byte data -> zlen data < BUF_SIZE_MAX -> Z.min mpl (zlen data) <= cap - off ->
  exists s', exec (EvWrite mpl wkc_len resend data) s = Ret s' /\ inv s' /\
    (length (n_submitted s') <= S (length (n_submitted s)))%nat.
Proof.
  intros Hi Hbel Hmpl Hwkc Hby Hmax Hfit. unfold exec. destruct (n_dead s) eqn:Hdead; [eauto|]. pose proof Hi as [].
  destruct (_ =? 0) eqn:E; [eauto|]. fold (avail (n_snd s)) in E.
  destruct (avail_spec cap _ _ i_swf0 i_swin0) as (m & Hav & Hm & _).
  destruct (packet_buf_spec 0 data) as (tmp & -> & Htmp); [lia|lia|done|]. cbn [mbind outcome_bind].
  destruct i_soff0 as [Hoff0 Hoff4].
  set (len := Z.min (if control_packet_needs_wkc resend (n_snd s) then Z.max 0 (mpl - wkc_len) else mpl) (zlen data)).
  destruct (write_one_packet_spec cap _ _ mpl (Some wkc_len) wkc_len resend tmp 0 data 0 len ltac:(done) i_swf0 i_swin0 ltac:(lia) ltac:(lia) Htmp Hmpl eq_refl)
    as (r' & tmp' & i & e & -> & Hw & Hwin & _ & Ho & _ & Htm & Htmp' & Ha & Hp & Hc & _ & Hope & Hact).
  { rewrite Hoff0. unfold len. destruct (control_packet_needs_wkc _ _); lia. }
  cbn [mbind outcome_bind].
  assert (Hlen : 0 <= len <= zlen data) by (unfold len; destruct (control_packet_needs_wkc _ _); lia).
  destruct (buf_len_holds _ _ _ _ Htmp') as [_ ->]. eexists. split; [done|].
  split; [|simpl; rewrite length_app; simpl; lia].
  replace (length data - Z.to_nat (zlen (drop (Z.to_nat len) data)))%nat with (Z.to_nat len)
    by (rewrite length_drop; lia).
  eapply inv_submit; try done.
  - rewrite length_take. unfold len. destruct (control_packet_needs_wkc _ _); lia.
  - rewrite Hope. by destruct (control_packet_needs_wkc _ _).
Qed.

(** *** Events that only concern the receiver *)

Definition set_rcv (s : net) (r : reliable) (a mru : reliable_ack) (wkc : bool) (acked : list Z) (del : list bytes) : net :=
  mknet (n_snd s) r a mru wkc (n_dead s) (n_wire s) acked (n_submitted s) del.

Lemma inv_arrive s k :
  inv s -> exists s', exec (EvArrive k) s = Ret s' /\ inv s' /\ n_submitted s' = n_submitted s.
Proof.
  intros Hi. unfold exec. destruct (n_dead s) eqn:Hdead; [eauto|]. pose proof Hi as [].
  destruct (n_wire s !! k) as [[op p]|] eqn:Hk; [|eauto]. apply list_elem_of_lookup_2 in Hk.
  destruct (i_wire0 op p Hk) as (Hl & Hby & id & d & Hd & Hod & ->).
  pose proof (submitted_lt s id d Hd) as Hid. unfold RELIABLE_CAPACITY in *.
  pose proof (prefix_length _ _ i_del0) as Hpre.
  destruct (packet_buf_spec 0 (be_bytes 4 id ++ d)) as (b & -> & Hb); [lia|lia|done|]. cbn [mbind outcome_bind].
  destruct (receive_packet_spec cap (n_rcv s) id d b 0 0 op (n_ack s)) as
    (r' & a' & ok & -> & Hw & Hsz & Hpid & Ho & Hwa & Hst & Hids & _); try done; try apply i_awf0; try lia.
  { rewrite i_rpid0. unfold RELIABLE_CAPACITY. lia. }
  cbn [mbind outcome_bind]. eexists. split; [done|]. split; [|done]. rewrite i_rpid0 in *.
  assert (Hgrow : forall x, has_pid (n_rcv s) x -> has_pid r' x).
  { intros x (j & f & Hf & Hx). exists j, f. split; [|done].
    destruct Hst as [Hst|((i & e & Hst & _) & _)]; apply Hst; auto. }
  split; simpl; try done.
  - congruence.
  - intros j f Hf. rewrite Hsz. destruct Hst as [Hst|((i & e & Hst & Hae & Hpe & Hoe & Hce) & Hr & _)].
    + apply Hst in Hf. by apply (i_ract0 j).
    + apply Hst in Hf as [[-> ->]|Hf]; [|by apply (i_ract0 j)]. rewrite Hpe, Hoe, Hce. split; [lia|done].
  - split; [done|apply i_awf0].
  - intros x Hx. apply elem_of_app. by right.
  - assert (Hnew : forall x, x ∈ n_acked s -> 0 <= x < zlen (n_delivered s) \/ has_pid r' x)
      by (intros x Hx; destruct (i_acked0 x Hx); auto).
    intros x [Hx|Hx]%elem_of_app; [auto|]. destruct Hids as [Hids|[Hids Hnow]]; rewrite Hids in Hx; [auto|].
    apply elem_of_app in Hx as [Hx|Hx%list_elem_of_singleton]; [auto|]. subst x.
    destruct Hnow; [left; lia|auto].
  - intros x Hx. destruct (i_kept0 x Hx) as [?|[?|?]]; auto.
Qed.

Lemma inv_flush s max :
  inv s -> 0 <= max < 256 -> sid_ok sid ->
  exists s', exec (EvFlush max) s = Ret s' /\ inv s' /\ n_submitted s' = n_submitted s.
Proof.
  intros Hi Hmax Hsid. unfold exec. destruct (n_dead s) eqn:Hdead; [eauto|]. pose proof Hi as [].
  destruct (packet_buf_spec (ACK_SIZE RELIABLE_ACK_SIZE) []) as (b & -> & Hb); [done|done|done|]. cbn [mbind outcome_bind].
  destruct i_awf0 as (Ha & Hm & Hnd).
  destruct (reliable_ack_write_spec (n_ack s) (n_mru s) b _ _ _ sid max true Ha Hm Hnd Hmax Hb Hsid) as
    (a' & mru' & b' & -> & Hwa & Hia & Hwm & Hndm & _).
  { pose proof (zlen_ack_sent (n_ack s) (n_mru s) max Hm). unfold ACK_SIZE, SID_SIZE, RELIABLE_ACK_SIZE. simpl.
    destruct (_ =? 0); lia. }
  cbn [mbind outcome_bind]. eexists. split; [done|]. split; [|done]. split; simpl; try done.
  intros x Hx. apply i_pend0. rewrite Hia in Hx. eapply elem_of_sublist; [exact Hx|apply sublist_drop].
Qed.

Lemma inv_deliver s status :
  inv s -> exists s', exec (EvDeliver status) s = Ret s' /\ inv s' /\ n_submitted s' = n_submitted s.
Proof.
  intros Hi. unfold exec. destruct (n_dead s) eqn:Hdead; [eauto|]. pose proof Hi as [].
  destruct (deliver_next_spec cap (n_rcv s) (n_wkc s) (λ _, status) i_rwf0) as
    (r' & wkc' & res & ok & -> & Hw & Hsz & Ho & Hres). cbn [mbind outcome_bind].
  pose proof (prefix_length _ _ i_del0) as Hpre. unfold RELIABLE_CAPACITY in *.
  destruct ok; cbn [negb]; [|eexists; split; [done|]; split; [by split|done]].
  eexists. split; [done|]. split; [|done]. destruct res as [d|].
  - destruct Hres as (_ & i & e & Ha & Hp & Hc & Hpid & Hact). rewrite i_rpid0 in *.
    rewrite u32_small in Hpid by lia.
    destruct (i_ract0 i e Ha) as (_ & [Hk0 Hk] & _). rewrite Hp, Nat2Z.id, Hc in Hk.
    assert (Hlen : zlen (n_delivered s ++ [d]) = zlen (n_delivered s) + 1) by (rewrite length_app; simpl; lia).
    assert (Hold : forall x, has_pid (n_rcv s) x -> x = zlen (n_delivered s) \/ has_pid r' x).
    { intros x (j & f & Hf & Hx). destruct (decide (j = i)) as [->|Hne].
      - left. destruct Ha as [Ha _], Hf as [Hf _]. unfold slot in *. congruence.
      - right. exists j, f. split; [by apply Hact|done]. }
    split; simpl; rewrite ?Hlen; try done.
    + congruence.
    + intros j f [Hne Hf]%Hact. rewrite Hsz. destruct (i_ract0 j f Hf) as [Hr Hs]. split; [|done].
      assert (e_packet_id f <> zlen (n_delivered s)); [|lia]. intros Heq. apply Hne.
      eapply (rw_unique _ _ i_rwf0); [done|exact Ha|congruence].
    + destruct i_del0 as [rest Hrest]. rewrite Hrest in Hk.
      rewrite lookup_app_r, Nat.sub_diag in Hk by lia. destruct rest as [|d' rest]; simplify_eq/=.
      exists rest. rewrite Hrest. by rewrite <- (assoc_L (++)).
    + intros x Hx. destruct (i_acked0 x Hx) as [?|Hh]; [left; lia|]. destruct (Hold x Hh); [left; lia|auto].
    + intros x Hx. destruct (i_kept0 x Hx) as [?|[Hh|?]]; [left; lia| |auto]. destruct (Hold x Hh); [left; lia|auto].
  - destruct Hres as [Hpid Hsame]. specialize (Hsame eq_refl).
    assert (Hold : forall x, has_pid (n_rcv s) x -> has_pid r' x)
      by (intros x (j & f & Hf & Hx); exists j, f; split; [by apply Hsame|done]).
    split; simpl; try done.
    + congruence.
    + by rewrite Hpid.
    + intros j f Hf%Hsame. rewrite Hsz. by apply (i_ract0 j).
    + intros x Hx. destruct (i_acked0 x Hx); auto.
    + intros x Hx. destruct (i_kept0 x Hx) as [?|[?|?]]; auto.
Qed.

(** ** Runs *)

(** What the caller of each operation guarantees: the ciphertext is bytes and
    a packet of it fits a buffer (see [write_outgoing_tls_ciphertext]), the
    acknowledgement limit is a byte, control packets have a control opcode. *)
Definition ev_ok (ev : event) : Prop :=
  match ev with
  | EvReset op => op <> P_ACK_V1
  | EvWrite mpl wkc_len _ data =>
      0 <= mpl /\ 0 <= wkc_len /\ Forall is_byte data /\ zlen data < BUF_SIZE_MAX /\
      Z.min mpl (zlen data) <= cap - off
  | EvFlush max => 0 <= max < 256
  | _ => True
  end.

Lemma inv_exec ev s :
  sid_ok sid -> ev_ok ev -> inv s -> below s 1 ->
  exists s', exec ev s = Ret s' /\ inv s' /\ (length (n_submitted s') <= S (length (n_submitted s)))%nat.
Proof.
  intros Hsid Hok Hi Hb.
  assert (Hsame : (exists s', exec ev s = Ret s' /\ inv s' /\ n_submitted s' = n_submitted s) ->
    exists s', exec ev s = Ret s' /\ inv s' /\ (length (n_submitted s') <= S (length (n_submitted s)))%nat).
  { intros (s' & H1 & H2 & H3). exists s'. rewrite H3. split_and!; try done. lia. }
  destruct ev; simpl in Hok.
  - by apply inv_reset.
  - destruct Hok as (? & ? & ? & ? & ?). by apply inv_write.
  - by apply Hsame, inv_send.
  - apply Hsame. unfold exec. destruct (n_dead s); [eauto|]. eexists. split; [done|]. by split; [apply inv_schedule|].
  - by apply Hsame, inv_arrive.
  - by apply Hsame, inv_flush.
  - apply Hsame. unfold exec. destruct (n_dead s); [eauto|]. eexists. split; [done|]. by split; [apply inv_ack|].
  - by apply Hsame, inv_deliver.
Qed.

Lemma inv_run evs : forall s,
  sid_ok sid -> Forall ev_ok evs -> inv s -> below s (zlen evs) ->
  exists s', run evs s = Ret s' /\ inv s'.
Proof.
  induction evs as [|ev evs IH]; intros s Hsid Hok Hi Hb; [by exists s|].
  apply Forall_cons in Hok as [Hev Hok]. cbn [run]. unfold below in *. simpl in Hb.
  destruct (inv_exec ev s Hsid Hev Hi) as (s1 & -> & Hi1 & Hl); [unfold below; lia|]. cbn [mbind outcome_bind].
  apply IH; try done. lia.
Qed.

Lemma run_app evs1 evs2 s : run (evs1 ++ evs2) s = (s ← run evs1 s; run evs2 s).
Proof.
  revert s. induction evs1 as [|ev evs1 IH]; intros s; [done|]. simpl.
  destruct (exec ev s) as [s1| |]; [apply IH|done..].
Qed.

(** The stores as [key_state_init] sets them up. *)
Definition init_net (hold : bool) : outcome net :=
  snd ← reliable_init cap off TLS_RELIABLE_N_SEND_BUFFERS hold;
  rcv ← reliable_init cap off TLS_RELIABLE_N_REC_BUFFERS false;
  Ret (mknet (reliable_set_timeout snd tls_timeout) rcv ack_clear ack_clear false false [] [] [] []).

Lemma init_net_inv hold :
  buf_size_valid cap = true -> 4 <= off <= cap ->
  exists s, init_net hold = Ret s /\ inv s /\ n_submitted s = [] /\ n_delivered s = [] /\ n_dead s = false.
Proof.
  intros Hc Ho. unfold init_net.
  destruct (reliable_init_spec cap off TLS_RELIABLE_N_SEND_BUFFERS hold Hc ltac:(lia)) as
    (r1 & -> & Hw1 & Hs1 & Ho1 & Hp1 & _ & Hn1); [done|]. cbn [mbind outcome_bind].
  destruct (reliable_init_spec cap off TLS_RELIABLE_N_REC_BUFFERS false Hc ltac:(lia)) as
    (r2 & -> & Hw2 & Hs2 & Ho2 & Hp2 & _ & Hn2); [done|]. cbn [mbind outcome_bind].
  eexists. split; [done|]. split; [|done].
  assert (Hset : forall i e, act (reliable_set_timeout r1 tls_timeout) i e <-> act r1 i e) by done.
  split; simpl; try done.
  - destruct Hw1. by split.
  - split; [exact Hp1|]. intros i e He%Hset. by destruct (Hn1 i e).
  - split; [done|lia].
  - intros i e He%Hset. by destruct (Hn1 i e).
  - intros i e He. by destruct (Hn2 i e).
  - intros op p Hp. by apply elem_of_nil in Hp.
  - split_and!; try apply ack_clear_wf. apply NoDup_nil_2.
  - intros x Hx. by apply elem_of_nil in Hx.
  - lia.
Qed.

(** ** Progress *)

Lemma filter_insert_length (P : reliable_entry -> bool) l : forall i x x',
  l !! i = Some x -> P x = true -> P x' = false ->
  S (length (List.filter P (<[i := x']> l))) = length (List.filter P l).
Proof.
  induction l as [|y l IH]; intros [|i] x x' Hi Hx Hx'; simplify_eq/=.
  - by rewrite Hx, Hx'.
  - specialize (IH i x x' Hi Hx Hx'). destruct (P y); simpl; lia.
Qed.

(** Nothing but the sender's timers and the wire changed. *)
Definition quiet (s s' : net) : Prop :=
  n_rcv s' = n_rcv s /\ n_dead s' = n_dead s /\ n_submitted s' = n_submitted s /\ n_delivered s' = n_delivered s.

(** At a fixed time every due packet is sent, oldest first, so any given one
    gets its turn. *)
Lemma transmit now i0 e0 m : forall s,
  inv s -> n_dead s = false -> r_hold (n_snd s) = false ->
  (forall i e, slot (n_snd s) i e -> entry_due now e = true -> 0 < e_timeout e) ->
  act (n_snd s) i0 e0 -> entry_due now e0 = true ->
  (length (List.filter (entry_due now) (entries (n_snd s))) <= m)%nat ->
  exists evs s', run evs s = Ret s' /\ Forall ev_ok evs /\ inv s' /\ quiet s s' /\
    (e_opcode e0, content (e_buf e0)) ∈ n_wire s'.
Proof.
  induction m as [|m IH]; intros s Hi Hdead Hhold Htmo Ha0 Hd0 Hm.
  { destruct Ha0 as [Hs0 _]. exfalso. unfold slot in Hs0.
    assert (Hin : In e0 (List.filter (entry_due now) (entries (n_snd s))))
      by (apply filter_In; split; [by eapply list_elem_of_In, list_elem_of_lookup_2|done]).
    destruct (List.filter _ _); [done|simpl in Hm; lia]. }
  assert (Hcan : reliable_can_send now (n_snd s) = true)
    by (apply can_send_due; split; [done|exists i0, e0; split; [apply Ha0|done]]).
  destruct (exec_send s now Hi Hdead Hcan) as (i & e & Ha & Hd & Hex & Hinv).
  pose proof Ha as [Hs Hact]. destruct (slot_lt _ _ _ Hs) as [Hlt _].
  assert (Hnot : entry_due now (resent now e) = false).
  { specialize (Htmo i e Hs Hd). unfold entry_due, resent, N_ACK_RETRANSMIT. simpl. lia. }
  destruct (decide (i = i0)) as [->|Hne].
  - exists [EvSend now]. eexists. cbn [run]. rewrite Hex. cbn [mbind outcome_bind run]. split; [done|].
    split; [by constructor|]. split; [done|]. split; [done|]. simpl. apply elem_of_app. right.
    destruct Ha0 as [Hs0 _]. unfold slot in *. simplify_eq. by apply list_elem_of_singleton.
  - edestruct IH as (evs & s' & Hrun & Hok & Hi' & Hq & Hw); [exact Hinv|done|done| | | | |].
    + simpl. intros j f Hf Hdf. rewrite (slot_set _ _ _ _ _ _ Hs) in Hf. destruct Hf as [[-> ->]|[_ Hf]]; [congruence|].
      by eapply Htmo.
    + simpl. apply (act_set _ _ _ _ _ _ Hs). right. split; [done|exact Ha0].
    + done.
    + simpl. unfold entries, rel_set_entry, rel_set_array. simpl. rewrite take_insert_lt by done.
      pose proof (filter_insert_length (entry_due now) (entries (n_snd s)) i e _ Hs Hd Hnot). unfold entries in *. lia.
    + exists (EvSend now :: evs), s'. cbn [run]. rewrite Hex. cbn [mbind outcome_bind]. split; [done|].
      split; [by constructor|]. split; [done|]. split; [|done]. destruct Hq as (? & ? & ? & ?). by split_and!.
Qed.

Lemma take_next s :
  inv s -> n_dead s = false -> has_pid (n_rcv s) (zlen (n_delivered s)) ->
  exists s', exec (EvDeliver 1) s = Ret s' /\ inv s' /\ n_dead s' = false /\ n_submitted s' = n_submitted s /\
    length (n_delivered s') = S (length (n_delivered s)).
Proof.
  intros Hi Hdead Hhas. pose proof Hi as [].
  destruct (inv_deliver s 1 Hi) as (s' & Hex & Hinv & Hsub).
  destruct (deliver_next_takes cap (n_rcv s) (n_wkc s) i_rwf0) as (r' & d & Hd).
  { by rewrite i_rpid0. } { intros i e Ha. by apply (i_ract0 i e Ha). }
  exists s'. unfold exec in Hex. rewrite Hdead, Hd in Hex. cbn [mbind outcome_bind negb] in Hex.
  split; [unfold exec; rewrite Hdead, Hd; exact Hex|]. simplify_eq. split_and!; try done. simpl.
  rewrite length_app. simpl. lia.
Qed.

(** Without the packet it waits for, the receiver has a free slot. *)
Lemma next_has_room s :
  inv s -> ~ has_pid (n_rcv s) (zlen (n_delivered s)) -> reliable_can_get (n_rcv s) = true.
Proof.
  intros [] Hno. apply reliable_can_get_spec. pose proof (prefix_length _ _ i_del0). unfold RELIABLE_CAPACITY in *.
  destruct (reliable_get_buf_spec cap _ i_rwf0) as [(i & e & _ & _ & Hs & He & _)|[_ Hall]]; [eauto|]. exfalso.
  pose proof (rw_size _ _ i_rwf0) as Hsz. set (R := zlen (n_delivered s)) in *.
  assert (r_size (n_rcv s) <= (R + r_size (n_rcv s)) - (R + 1)); [|lia].
  eapply (all_active_count cap); [done|done| |lia].
  intros i e Ha. destruct (i_ract0 i e Ha) as (Hr & Hsub & _). apply submitted_lt in Hsub.
  exists (e_packet_id e). rewrite u32_small by lia. split; [done|].
  assert (e_packet_id e <> R); [|lia]. intros Heq. apply Hno. by exists i, e.
Qed.

(** The receiver stores the packet it waits for, whatever else it holds. *)
Lemma arrive_next s k op d :
  inv s -> n_dead s = false -> n_wire s !! k = Some (op, be_bytes 4 (zlen (n_delivered s)) ++ d) ->
  zlen (n_delivered s) < zlen (n_submitted s) -> ~ has_pid (n_rcv s) (zlen (n_delivered s)) ->
  exists s', exec (EvArrive k) s = Ret s' /\ inv s' /\ n_dead s' = false /\ n_submitted s' = n_submitted s /\
    n_delivered s' = n_delivered s /\ has_pid (n_rcv s') (zlen (n_delivered s)).
Proof.
  intros Hi Hdead Hk Hlt Hno. pose proof Hi as [].
  destruct (inv_arrive s k Hi) as (s' & Hex & Hinv & Hsub).
  destruct (i_wire0 op _ (list_elem_of_lookup_2 _ _ _ Hk)) as (Hl & Hby & id & d' & Hd & Hod & Heq).
  pose proof (submitted_lt s id d' Hd) as Hid. unfold RELIABLE_CAPACITY in *.
  apply app_inj_1 in Heq as [Hid' <-]; [|by rewrite !length_be_bytes].
  apply (f_equal be_val) in Hid'. rewrite !be_val_u32 in Hid' by lia. subst id.
  destruct (packet_buf_spec 0 (be_bytes 4 (zlen (n_delivered s)) ++ d)) as (b & Hpb & Hb); [lia|lia|done|].
  pose proof (rw_size _ _ i_rwf0) as Hsz.
  destruct (receive_packet_spec cap (n_rcv s) (zlen (n_delivered s)) d b 0 0 op (n_ack s)) as
    (r' & a' & ok & Hrx & _ & _ & _ & _ & _ & _ & _ & Hgot); try done; try apply i_awf0; try lia.
  { rewrite i_rpid0. unfold RELIABLE_CAPACITY. lia. }
  exists s'. unfold exec in Hex. rewrite Hdead, Hk, Hpb in Hex. cbn [mbind outcome_bind] in Hex.
  rewrite Hrx in Hex. cbn [mbind outcome_bind] in Hex.
  split; [unfold exec; rewrite Hdead, Hk, Hpb; cbn [mbind outcome_bind]; rewrite Hrx; exact Hex|].
  simplify_eq. split_and!; try done. simpl. apply Hgot; [apply Hod|by apply next_has_room| |rewrite i_rpid0; lia].
  rewrite i_roff0. destruct Hd as [_ Hd]. rewrite Forall_lookup in i_fit0. by eapply i_fit0.
Qed.

(** One more packet can always be delivered. *)
Lemma one_more s :
  0 < tls_timeout -> inv s -> n_dead s = false -> zlen (n_delivered s) < zlen (n_submitted s) ->
  exists evs s', run evs s = Ret s' /\ Forall ev_ok evs /\ inv s' /\ n_dead s' = false /\
    n_submitted s' = n_submitted s /\ length (n_delivered s') = S (length (n_delivered s)).
Proof.
  intros Ht Hi Hdead Hlt.
  assert (Hready : forall s, inv s -> n_dead s = false -> has_pid (n_rcv s) (zlen (n_delivered s)) ->
    exists evs s', run evs s = Ret s' /\ Forall ev_ok evs /\ inv s' /\ n_dead s' = false /\
      n_submitted s' = n_submitted s /\ length (n_delivered s') = S (length (n_delivered s))).
  { intros s0 Hi0 Hd0 Hh0. destruct (take_next s0 Hi0 Hd0 Hh0) as (s' & Hex & H). exists [EvDeliver 1], s'.
    cbn [run]. rewrite Hex. cbn [mbind outcome_bind run]. split; [done|]. by split; [constructor|]. }
  destruct (decide (reliable_get_entry_sequenced (n_rcv s) = None)) as [Hnone|Hsome].
  2:{ destruct (reliable_get_entry_sequenced (n_rcv s)) as [i|] eqn:E; [|done].
      destruct (reliable_get_entry_sequenced_spec _ _ E) as (e & Ha & Hp). apply Hready; try done.
      rewrite <- (i_rpid s Hi). by exists i, e. }
  assert (Hno : ~ has_pid (n_rcv s) (zlen (n_delivered s))).
  { rewrite <- (i_rpid s Hi). intros Hh. destruct (reliable_get_entry_sequenced_ready _ Hh). congruence. }
  set (s1 := set_snd s (reliable_schedule_now 0 (n_snd s)) (n_submitted s)).
  assert (Hi1 : inv s1) by (by apply inv_schedule).
  destruct (schedule_now_spec cap _ 0 (i_swf s Hi)) as (_ & _ & _ & _ & _ & Hkeep & Htm).
  destruct (i_kept s Hi (zlen (n_delivered s))) as [?|[?|Hsnd]]; [lia|lia|done|].
  destruct (Hkeep _ Hsnd) as (i0 & e0 & Ha0 & Hp0).
  destruct (transmit 0 i0 e0 (length (List.filter (entry_due 0) (entries (n_snd s1)))) s1 Hi1) as
    (evs2 & s2 & Hrun2 & Hok2 & Hi2 & (Hq1 & Hq2 & Hq3 & Hq4) & Hw2); try done.
  { intros i e Hs Hd. destruct (Htm i e) as [-> _]; [split; [done|by eapply due_active]|]. by rewrite (i_tmo s Hi). }
  { destruct (Htm i0 e0 Ha0) as [_ Hn]. destruct Ha0 as [_ Hact]. unfold entry_due. rewrite Hact, Hn. lia. }
  destruct (i_sact s1 Hi1 i0 e0 Ha0) as (d0 & _ & _ & Hc0). rewrite Hp0 in Hc0. rewrite Hc0 in Hw2.
  apply list_elem_of_lookup in Hw2 as [k Hk].
  change (n_delivered s) with (n_delivered s1) in *. rewrite <- Hq4 in *.
  destruct (arrive_next s2 k (e_opcode e0) d0 Hi2) as (s3 & Hex3 & Hi3 & Hdd3 & Hsub3 & Hdel3 & Hhas3); try done.
  { by rewrite Hq2. } { by rewrite Hq3. } { by rewrite Hq1. }
  destruct (Hready s3 Hi3 Hdd3) as (evs4 & s4 & Hrun4 & Hok4 & Hi4 & Hdd4 & Hsub4 & Hdel4); [by rewrite Hdel3|].
  exists (EvSchedule 0 :: evs2 ++ EvArrive k :: evs4), s4. split.
  { cbn [run]. unfold exec at 1. rewrite Hdead. cbn [mbind outcome_bind]. fold s1. rewrite run_app, Hrun2.
    cbn [mbind outcome_bind run]. rewrite Hex3. cbn [mbind outcome_bind]. done. }
  split_and!; try done.
  - constructor; [done|]. apply Forall_app. split; [done|]. by constructor.
  - rewrite Hsub4, Hsub3, Hq3. done.
  - rewrite Hdel4, Hdel3. done.
Qed.

Lemma drain n : forall s,
  0 < tls_timeout -> inv s -> n_dead s = false -> (length (n_submitted s) - length (n_delivered s) = n)%nat ->
  exists evs s', run evs s = Ret s' /\ Forall ev_ok evs /\ n_submitted s' = n_submitted s /\
    n_delivered s' = n_submitted s.
Proof.
  induction n as [|n IH]; intros s Ht Hi Hdead Hn; pose proof (prefix_length _ _ (i_del s Hi)) as Hle.
  - exists [], s. split_and!; try done. destruct (i_del s Hi) as [rest Hrest]. rewrite Hrest, length_app in Hn.
    destruct rest; [by rewrite app_nil_r in Hrest|simpl in Hn; lia].
  - destruct (one_more s Ht Hi Hdead) as (evs1 & s1 & Hrun1 & Hok1 & Hi1 & Hd1 & Hs1 & Hl1); [lia|].
    destruct (IH s1 Ht Hi1 Hd1) as (evs2 & s2 & Hrun2 & Hok2 & Hs2 & Hl2); [rewrite Hs1; lia|].
    exists (evs1 ++ evs2), s2. rewrite run_app, Hrun1. split; [done|]. split; [by apply Forall_app|].
    split; congruence.
Qed.
End system.

(** ** The theorems *)

(** C3. The control channel over any network: from freshly initialised
    stores, for every sequence of submissions, transmissions, losses,
    duplications, reorderings, acknowledgements and deliveries, no assertion
    fails and no memory access is out of range; what the TLS library has been
    given is a prefix of what was submitted, in order and unaltered; and every
    packet not yet delivered is still held by the receiver or by the sender. *)
Theorem control_channel_in_order sid cap off tls_timeout hold evs :
  sid_ok sid -> buf_size_valid cap = true -> 4 <= off <= cap ->
  Forall (ev_ok cap off) evs -> zlen evs < 2 ^ 31 - RELIABLE_CAPACITY ->
  exists s, (s ← init_net cap off tls_timeout hold; run sid evs s) = Ret s /\
    n_delivered s `prefix_of` n_submitted s /\
    forall k, zlen (n_delivered s) <= k < zlen (n_submitted s) ->
      has_pid (n_rcv s) k \/ has_pid (n_snd s) k.
Proof.
  intros Hsid Hcap Hoff Hok Hlen.
  destruct (init_net_inv cap off tls_timeout hold Hcap Hoff) as (s0 & -> & Hi0 & Hs0 & _). cbn [mbind outcome_bind].
  destruct (inv_run sid cap off tls_timeout evs s0 Hsid Hok Hi0) as (s & -> & Hi).
  { unfold below. rewrite Hs0. simpl. lia. }
  exists s. split; [done|]. split; [apply Hi|]. intros k Hk.
  destruct (i_kept _ _ _ _ Hi k); [lia|lia|done].
Qed.

Definition demo_events : list event :=
  [EvReset 7; EvWrite 3 0 false [10;11;12;13]; EvSend 5; EvSend 5; EvArrive 1; EvArrive 1; EvArrive 0;
   EvFlush 4; EvAck [0;1]%nat; EvDeliver 1; EvDeliver 1].

Lemma demo_events_ok : Forall (ev_ok 100 50) demo_events.
Proof.
  unfold demo_events. repeat constructor; simpl; unfold is_byte, BUF_SIZE_MAX, P_ACK_V1; try lia.
Qed.

Definition demo_sid : bytes := [1;2;3;4;5;6;7;8].

Lemma demo_sid_ok : sid_ok demo_sid.
Proof. split_and!; [done| |done]. unfold demo_sid. repeat constructor; unfold is_byte; lia. Qed.

Lemma control_channel_in_order_witness :
  exists s, (s ← init_net 100 50 2 false; run demo_sid demo_events s) = Ret s /\
    n_delivered s `prefix_of` n_submitted s /\
    forall k, zlen (n_delivered s) <= k < zlen (n_submitted s) ->
      has_pid (n_rcv s) k \/ has_pid (n_snd s) k.
Proof.
  apply control_channel_in_order; [apply demo_sid_ok|done|lia|apply demo_events_ok|done].
Defined.

(** C11. No packet is stuck: whatever happened before, as long as the session
    was not given up, there is a continuation (retransmissions, arrivals and
    deliveries, no new submissions) after which the TLS library has been given
    everything that was submitted. *)
Theorem control_channel_drains sid cap off tls_timeout hold evs s :
  sid_ok sid -> buf_size_valid cap = true -> 4 <= off <= cap -> 0 < tls_timeout ->
  Forall (ev_ok cap off) evs -> zlen evs < 2 ^ 31 - RELIABLE_CAPACITY ->
  (s ← init_net cap off tls_timeout hold; run sid evs s) = Ret s -> n_dead s = false ->
  exists evs' s', run sid evs' s = Ret s' /\ Forall (ev_ok cap off) evs' /\
    n_submitted s' = n_submitted s /\ n_delivered s' = n_submitted s.
Proof.
  intros Hsid Hcap Hoff Htmo Hok Hlen Hrun Hdead.
  destruct (init_net_inv cap off tls_timeout hold Hcap Hoff) as (s0 & Hs & Hi0 & Hs0 & _).
  rewrite Hs in Hrun. cbn [mbind outcome_bind] in Hrun.
  destruct (inv_run sid cap off tls_timeout evs s0 Hsid Hok Hi0) as (s1 & Hrun' & Hi).
  { unfold below. rewrite Hs0. simpl. lia. }
  assert (s1 = s) as -> by congruence. by eapply (drain sid cap off tls_timeout).
Qed.

(** Two packets were submitted and sent, and nothing has arrived. *)
Definition demo_stuck : list event := [EvReset 7; EvWrite 3 0 false [10;11;12;13]; EvSend 5; EvSend 5].
Definition demo_stuck_state : net :=
  match (s ← init_net 100 50 2 false; run demo_sid demo_stuck s) with
  | Ret s => s
  | _ => mknet demo_send demo_send ack_clear ack_clear false false [] [] [] []
  end.

Lemma control_channel_drains_witness :
  exists evs' s', run demo_sid evs' demo_stuck_state = Ret s' /\ Forall (ev_ok 100 50) evs' /\
    n_submitted s' = n_submitted demo_stuck_state /\ n_delivered s' = n_submitted demo_stuck_state.
Proof.
  apply (control_channel_drains demo_sid 100 50 2 false demo_stuck);
    [apply demo_sid_ok|done|lia|lia| |done|vm_compute; reflexivity|vm_compute; reflexivity].
  unfold demo_stuck. repeat constructor; simpl; unfold is_byte, BUF_SIZE_MAX, P_ACK_V1; try lia.
Defined.

(** The demo run delivers both packets. *)
Example demo_run_delivers :
  match (s ← init_net 100 50 2 false; run demo_sid demo_events s) with
  | Ret s => n_delivered s = [[]; [10;11;12]] /\ n_submitted s = n_delivered s
  | _ => False
  end.
Proof. vm_compute. done. Qed.
