(* ===== verification/StreamBuf.v ===== *)
(** * Packets over a TCP connection (openvpn socket.c, mtu.c)

    Over TCP every packet has a 16-bit length in front.  [struct stream_buf]
    cuts the byte stream into packets: [buf_init], [buf] and [next] are headers
    over one block of memory ([sb_mem]), [residual] has memory of its own and
    keeps what was read beyond the end of a packet.  A packet handed out by
    [link_socket_read_tcp] still lies in [sb_mem], so the caller may overwrite
    that memory between two reads.

    [recv] is an argument: what the system call returned or put in memory.  The
    port sharing code is not part of the build (PORT_SHARE is 0). *)

From S2P Require Import Prelude Buffer CircList PacketId Reliable ReliableAck ReliableStore ControlChannel.
From stdpp Require Import prelude.
From Stdlib Require Import ZArith Lia ZifyBool.

Local Open Scope Z_scope.

(** ** Data *)

(** A struct buffer without its memory. *)
Record header := mkhdr { h_capacity : Z; h_offset : Z; h_len : Z }.

Record stream_buf := mksb {
  sb_mem : option bytes;      (** the block behind buf_init, buf and next *)
  sb_buf_init : header;
  sb_residual : buffer;
  sb_maxlen : Z;
  sb_residual_fully_formed : bool;
  sb_buf : header;
  sb_next : option header;    (** [None]: the data pointer is NULL *)
  sb_len : Z;                 (** -1 if not yet known *)
  sb_error : bool
}.

Definition header_of (b : buffer) : header := mkhdr (bcapacity b) (boffset b) (blen b).
Definition view (sb : stream_buf) (h : header) : buffer := mkbuf (h_capacity h) (h_offset h) (h_len h) (sb_mem sb).

Definition sb_set_mem sb (m : option bytes) : stream_buf :=
  mksb m (sb_buf_init sb) (sb_residual sb) (sb_maxlen sb) (sb_residual_fully_formed sb) (sb_buf sb) (sb_next sb) (sb_len sb) (sb_error sb).
Definition sb_set_buf sb (h : header) : stream_buf :=
  mksb (sb_mem sb) (sb_buf_init sb) (sb_residual sb) (sb_maxlen sb) (sb_residual_fully_formed sb) h (sb_next sb) (sb_len sb) (sb_error sb).
Definition sb_set_next sb (h : header) : stream_buf :=
  mksb (sb_mem sb) (sb_buf_init sb) (sb_residual sb) (sb_maxlen sb) (sb_residual_fully_formed sb) (sb_buf sb) (Some h) (sb_len sb) (sb_error sb).
Definition sb_set_residual sb (r : buffer) : stream_buf :=
  mksb (sb_mem sb) (sb_buf_init sb) r (sb_maxlen sb) (sb_residual_fully_formed sb) (sb_buf sb) (sb_next sb) (sb_len sb) (sb_error sb).
Definition sb_set_len sb (n : Z) : stream_buf :=
  mksb (sb_mem sb) (sb_buf_init sb) (sb_residual sb) (sb_maxlen sb) (sb_residual_fully_formed sb) (sb_buf sb) (sb_next sb) n (sb_error sb).
Definition sb_set_formed sb (v : bool) : stream_buf :=
  mksb (sb_mem sb) (sb_buf_init sb) (sb_residual sb) (sb_maxlen sb) v (sb_buf sb) (sb_next sb) (sb_len sb) (sb_error sb).
Definition sb_set_error sb : stream_buf :=
  mksb (sb_mem sb) (sb_buf_init sb) (sb_residual sb) (sb_maxlen sb) (sb_residual_fully_formed sb) (sb_buf sb) (sb_next sb) (sb_len sb) true.

(** ** Operations *)

Definition alloc_buf_sock_tun (f : frame) : outcome buffer :=
  b ← alloc_buf (BUF_SIZE f);
  b ← ASSERT_ok (buf_init b (f_headroom f));
  let b := set_len b (f_payload_size f) in
  ASSERT (buf_safe b 0);;
  Ret b.

Definition stream_buf_reset sb : stream_buf :=
  mksb (sb_mem sb) (sb_buf_init sb) (sb_residual sb) (sb_maxlen sb) false (sb_buf_init sb) None (-1) (sb_error sb).

Definition stream_buf_init (buf : buffer) : outcome stream_buf :=
  let maxlen := blen buf in
  let bi := mkhdr (bcapacity buf) (boffset buf) 0 in
  residual ← alloc_buf maxlen;
  Ret (stream_buf_reset (mksb (bdata buf) bi residual maxlen false bi None (-1) false)).

Definition stream_buf_set_next sb : outcome stream_buf :=
  let b := sb_buf sb in
  let n := (if 0 <=? sb_len sb then sb_len sb else sb_maxlen sb) - h_len b in
  let sb := sb_set_next sb (mkhdr (h_capacity b) (h_offset b + h_len b) n) in
  ASSERT (0 <? n);;
  ASSERT (buf_safe (view sb (sb_buf sb)) n);;
  Ret sb.

Definition stream_buf_get_final sb : outcome buffer :=
  ASSERT (buf_defined (view sb (sb_buf sb)));;
  Ret (view sb (sb_buf sb)).

Definition stream_buf_get_next sb : outcome buffer :=
  match sb_next sb with
  | Some h => ASSERT (buf_defined (view sb h));; Ret (view sb h)
  | None => Abort
  end.

(** The length prefix, once its two bytes are there; [None] when the length is
    refused. *)
Definition stream_buf_take_len sb : outcome (option stream_buf) :=
  if (sb_len sb <? 0) && (2 <=? h_len (sb_buf sb)) then
    '(b, net_size) ← buf_read (view sb (sb_buf sb)) 2;
    match net_size with
    | None => Abort
    | Some net_size =>
        let sb := sb_set_len (sb_set_buf sb (header_of b)) (be_val net_size) in
        if (sb_len sb <? 1) || (sb_maxlen sb <? sb_len sb) then Ret None else Ret (Some sb)
    end
  else Ret (Some sb).

(** Is the packet complete?  What follows it goes to [residual]. *)
Definition stream_buf_complete sb : outcome (stream_buf * bool) :=
  if (0 <? sb_len sb) && (sb_len sb <=? h_len (sb_buf sb)) then
    residual ← ASSERT_ok (buf_init (sb_residual sb) 0);
    let sb := sb_set_residual sb residual in
    if sb_len sb <? h_len (sb_buf sb) then
      '(residual, b, ok) ← buf_copy_excess (sb_residual sb) (view sb (sb_buf sb)) (sb_len sb);
      ASSERT ok;;
      Ret (sb_set_residual (sb_set_buf sb (header_of b)) residual, true)
    else Ret (sb, true)
  else sb ← stream_buf_set_next sb; Ret (sb, false).

Definition stream_buf_added sb (length_added : Z) : outcome (stream_buf * bool) :=
  let b := sb_buf sb in
  let sb := if 0 <? length_added then sb_set_buf sb (mkhdr (h_capacity b) (h_offset b) (h_len b + length_added)) else sb in
  r ← stream_buf_take_len sb;
  match r with
  | None => Ret (sb_set_error (stream_buf_reset sb), false)
  | Some sb => stream_buf_complete sb
  end.

(** The result says that the socket has to be read. *)
Definition stream_buf_read_setup_dowork sb : outcome (stream_buf * bool) :=
  sb ← (if negb (blen (sb_residual sb) =? 0) && negb (sb_residual_fully_formed sb) then
          '(b, ok) ← buf_copy (view sb (sb_buf sb)) (sb_residual sb);
          ASSERT ok;;
          let sb := sb_set_buf (sb_set_mem sb (bdata b)) (header_of b) in
          residual ← ASSERT_ok (buf_init (sb_residual sb) 0);
          '(sb, formed) ← stream_buf_added (sb_set_residual sb residual) 0;
          Ret (sb_set_formed sb formed)
        else Ret sb);
  sb ← (if negb (sb_residual_fully_formed sb) then stream_buf_set_next sb else Ret sb);
  Ret (sb, negb (sb_residual_fully_formed sb)).

(** [recv]: a result that is not positive, or the bytes it stored. *)
Inductive recv_result := RecvNone (n : Z) | RecvData (d : bytes).

Record link_socket := mksock {
  sk_stream_buf : stream_buf;
  sk_stream_reset : bool;
  sk_sd_defined : bool       (** sd != SOCKET_UNDEFINED *)
}.

Definition sk_set_sb sk (sb : stream_buf) : link_socket := mksock sb (sk_stream_reset sk) (sk_sd_defined sk).

(** The packet, if it is complete; [buf] otherwise, with length 0. *)
Definition link_socket_finish sk (buf : buffer) (len : Z) : outcome (link_socket * buffer * Z) :=
  let sb := sk_stream_buf sk in
  '(sb, ok) ← (if sb_residual_fully_formed sb then Ret (sb, true) else stream_buf_added sb len);
  if (ok : bool) then
    buf ← stream_buf_get_final sb;
    Ret (sk_set_sb sk (stream_buf_reset sb), buf, blen buf)
  else Ret (sk_set_sb sk sb, set_len buf 0, 0).

Definition link_socket_read_tcp sk (r : recv_result) (buf : buffer) : outcome (link_socket * buffer * Z) :=
  let sb := sk_stream_buf sk in
  if negb (sb_residual_fully_formed sb) then
    if negb (sk_sd_defined sk) then Ret (mksock sb true false, set_len buf 0, 0)
    else
      frag ← stream_buf_get_next sb;
      match r with
      | RecvNone n => Ret (mksock sb (if n =? 0 then true else sk_stream_reset sk) true, set_len buf n, n)
      | RecvData d =>
          frag ← poke frag (boffset frag) d;
          link_socket_finish (sk_set_sb sk (sb_set_mem sb (bdata frag))) buf (zlen d)
      end
  else link_socket_finish sk buf 0.

(** What [link_socket_write_tcp] hands to [send]. *)
Definition link_socket_write_tcp sk (buf : buffer) : outcome buffer :=
  let len := u16 (buf_len buf) in
  ASSERT (len <=? sb_maxlen (sk_stream_buf sk));;
  r ← buf_write_prepend buf (be_bytes 2 len);
  ASSERT_ok r.

(** ** The invariant *)

Lemma holds_shrink b hd c tl n :
  holds b hd c tl -> 0 <= n <= zlen c -> holds (set_len b n) hd (take (Z.to_nat n) c) (tl + zlen c - n).
Proof.
  intros H Hn. holds_facts H. destruct H as (blk & Hok & Ho & Hc & Ht).
  eapply holds_intro with (blk := blk); simpl; [|done| |lia].
  - destruct Hok. split; simpl; try done; lia.
  - rewrite <- Hc, (buf_ok_content _ _ Hok). unfold slice. rewrite take_take. f_equal. lia.
Qed.

Lemma buf_copy_excess_spec d hd c tl s hd' c' tl' n :
  holds d hd c tl -> holds s hd' c' tl' -> 0 <= n < zlen c' -> zlen c' - n <= tl ->
  exists d', buf_copy_excess d s n = Ret (d', set_len s n, true) /\ holds d' hd (c ++ drop (Z.to_nat n) c') (tl - (zlen c' - n)).
Proof.
  intros Hd Hs Hn Hr. destruct (buf_len_holds _ _ _ _ Hs) as [_ Hl].
  unfold buf_copy_excess. rewrite (proj2 (Z.ltb_ge n 0)), (proj2 (Z.ltb_lt n (blen s))) by lia.
  destruct (buf_advance_spec _ _ _ _ n Hs) as (b & -> & Hb); [lia|].
  destruct (buf_copy_spec _ _ _ _ _ _ _ _ Hd Hb) as [Hcp _].
  destruct Hcp as (d' & -> & Hd'); [rewrite length_drop; lia|]. exists d'. split; [done|].
  eapply holds_eq; [exact Hd'|done|done|]. rewrite length_drop. lia.
Qed.

Lemma view_of sb b hd c tl : bdata b = sb_mem sb -> holds b hd c tl -> holds (view sb (header_of b)) hd c tl.
Proof. intros E H. unfold view. simpl. rewrite <- E. by destruct b. Qed.

(** What stays the same: memory block sizes, the start of [buf] and the limit. *)
Record sb_ok sb : Prop := {
  so_mem : exists blk, sb_mem sb = Some blk /\ h_capacity (sb_buf_init sb) <= zlen blk /\ Forall is_byte blk;
  so_start : 0 <= h_offset (sb_buf_init sb);
  so_empty : h_len (sb_buf_init sb) = 0;
  so_room : h_offset (sb_buf_init sb) + sb_maxlen sb + 2 <= h_capacity (sb_buf_init sb);
  so_size : h_capacity (sb_buf_init sb) < BUF_SIZE_MAX;
  so_max : 2 <= sb_maxlen sb
}.

(** [buf] holds [c], [d] bytes behind the start of the payload area. *)
Definition buf_at sb (d : Z) (c : bytes) : Prop :=
  holds (view sb (sb_buf sb)) (h_offset (sb_buf_init sb) + d) c
    (h_capacity (sb_buf_init sb) - h_offset (sb_buf_init sb) - d - zlen c).
Definition residual_is sb (r : bytes) : Prop := holds (sb_residual sb) 0 r (sb_maxlen sb - zlen r).

Definition enc (p : bytes) : bytes := be_bytes 2 (zlen p) ++ p.
Definition len_ok sb (n : Z) : Prop := 1 <= n <= sb_maxlen sb.

(** What is known of the packet being read: less than the length prefix, or the
    length and a part of the packet. *)
Inductive partial sb : bytes -> Prop :=
| partial_short c : sb_len sb = -1 -> buf_at sb 0 c -> zlen c < 2 -> partial sb c
| partial_known h c : sb_len sb = h -> len_ok sb h -> h < 2 ^ 16 -> buf_at sb 2 c -> zlen c < h -> partial sb (be_bytes 2 h ++ c).

(** The bytes received and not yet delivered. *)
Inductive pending sb : bytes -> Prop :=
| pending_residual r : residual_is sb r -> r <> [] -> sb_buf sb = sb_buf_init sb -> sb_len sb = -1 ->
    sb_residual_fully_formed sb = false -> pending sb r
| pending_partial c : residual_is sb [] -> partial sb c -> sb_residual_fully_formed sb = false -> pending sb c
| pending_formed p r : residual_is sb r -> len_ok sb (zlen p) -> zlen p < 2 ^ 16 -> buf_at sb 2 p ->
    sb_residual_fully_formed sb = true -> pending sb (enc p ++ r).

(** A stream that continues with a length the receiver refuses. *)
Definition bad_stream sb (s : bytes) : Prop := exists h rest, s = be_bytes 2 h ++ rest /\ 0 <= h < 2 ^ 16 /\ ~ len_ok sb h.

(** [sb'] differs from [sb] only in what the operations below change. *)
Record keeps sb sb' : Prop := {
  kp_ok : sb_ok sb';
  kp_init : sb_buf_init sb' = sb_buf_init sb;
  kp_max : sb_maxlen sb' = sb_maxlen sb
}.

Lemma keeps_refl sb : sb_ok sb -> keeps sb sb.
Proof. by split. Qed.
Lemma keeps_trans sb1 sb2 sb3 : keeps sb1 sb2 -> keeps sb2 sb3 -> keeps sb1 sb3.
Proof. intros [? ? ?] [? ? ?]. split; congruence. Qed.

Lemma reset_buf_at sb : sb_ok sb -> sb_buf sb = sb_buf_init sb -> buf_at sb 0 [].
Proof.
  intros [(blk & Hm & Hc & Hb) Hs He Hr Hz Hx] E. unfold buf_at, view. rewrite E, He, Hm.
  eapply holds_intro with (blk := blk); simpl; [|lia|done|lia]. split; simpl; try done; lia.
Qed.

(** [stream_buf_set_next] finds room behind what is there. *)
Lemma set_next_spec sb d c :
  sb_ok sb -> buf_at sb d c -> 0 <= d <= 2 -> (sb_len sb = -1 /\ zlen c < sb_maxlen sb \/ len_ok sb (sb_len sb) /\ zlen c < sb_len sb) ->
  exists n, stream_buf_set_next sb = Ret (sb_set_next sb (mkhdr (h_capacity (sb_buf_init sb)) (h_offset (sb_buf_init sb) + d + zlen c) n)) /\
    1 <= n /\ zlen c + n <= (if 0 <=? sb_len sb then sb_len sb else sb_maxlen sb).
Proof.
  intros Hok Hb Hd Hlen. unfold buf_at in Hb. holds_facts Hb. simpl in Hlen0, Hoff, Hcap, Hmax.
  unfold stream_buf_set_next. set (n := (if 0 <=? sb_len sb then _ else _) - _). exists n.
  destruct Hok as [_ Hs _ Hr Hz Hx]. unfold len_ok in Hlen.
  assert (Hn : 1 <= n /\ zlen c + n <= (if 0 <=? sb_len sb then sb_len sb else sb_maxlen sb) /\ zlen c + n <= sb_maxlen sb).
  { subst n. destruct Hlen as [[-> Hl]|[[Hl0 Hl1] Hl]]; simpl; [lia|]. rewrite (proj2 (Z.leb_le 0 (sb_len sb))) by lia. lia. }
  rewrite (proj2 (Z.ltb_lt 0 n)) by lia.
  assert (Hsafe : buf_safe (view sb (sb_buf sb)) n = true).
  { unfold buf_safe, buf_size_valid. rewrite Hval. simpl. unfold BUF_SIZE_MAX in *. lia. }
  change (view (sb_set_next sb _) _) with (view sb (sb_buf sb)). rewrite Hsafe. simpl. split; [|lia].
  do 2 f_equal. f_equal; lia.
Qed.

(** Outcome of [stream_buf_added] when [held] is what was received: a packet and
    what follows it, more to wait for, or a refused length. *)
Definition added_post sb (held : bytes) sb' (ok : bool) : Prop :=
  keeps sb sb' /\ sb_residual_fully_formed sb' = false /\
  if ok then exists p r, held = enc p ++ r /\ len_ok sb' (zlen p) /\ zlen p < 2 ^ 16 /\ buf_at sb' 2 p /\ residual_is sb' r /\ sb_error sb' = sb_error sb
  else (sb_error sb' = sb_error sb /\ partial sb' held /\ residual_is sb' []) \/
       (sb_error sb' = true /\ bad_stream sb' held /\ partial sb' [] /\ residual_is sb' []).

Lemma added_post_from sb sb1 held sb' ok :
  keeps sb sb1 -> sb_error sb1 = sb_error sb -> added_post sb1 held sb' ok -> added_post sb held sb' ok.
Proof.
  intros Hk He (Hk' & Hf & Hpost). split; [by eapply keeps_trans|]. split; [done|]. by rewrite <- He.
Qed.

Lemma complete_spec sb c :
  sb_ok sb -> len_ok sb (sb_len sb) -> sb_len sb < 2 ^ 16 -> buf_at sb 2 c -> zlen c <= sb_len sb + sb_maxlen sb -> residual_is sb [] ->
  sb_residual_fully_formed sb = false ->
  exists sb' ok, stream_buf_complete sb = Ret (sb', ok) /\ added_post sb (be_bytes 2 (sb_len sb) ++ c) sb' ok.
Proof.
  intros Hok Hl Hw Hb Hc Hr Hf. assert (Hlen : h_len (sb_buf sb) = zlen c) by (apply (buf_len_holds _ _ _ _ Hb)).
  unfold stream_buf_complete. rewrite Hlen. unfold len_ok in Hl. rewrite (proj2 (Z.ltb_lt 0 (sb_len sb))) by lia. cbn [andb].
  destruct (sb_len sb <=? zlen c) eqn:E.
  - destruct (buf_init_spec _ _ _ _ 0 Hr) as (r & -> & Hr'); [lia|]. rewrite ASSERT_ok_true. cbn [mbind outcome_bind].
    cbn [sb_len sb_set_residual sb_buf sb_residual]. rewrite Hlen. destruct (sb_len sb <? zlen c) eqn:E'.
    + destruct (buf_copy_excess_spec _ _ _ _ (view sb (sb_buf sb)) _ _ _ (sb_len sb) Hr' Hb) as (r2 & Hcp & Hr2); [lia|simpl; lia|].
      change (view (sb_set_residual sb r) (sb_buf sb)) with (view sb (sb_buf sb)). rewrite Hcp. cbn [mbind outcome_bind].
      eexists _, true. split; [done|]. split; [split; [by destruct Hok|done|done]|]. split; [done|].
      exists (take (Z.to_nat (sb_len sb)) c), (drop (Z.to_nat (sb_len sb)) c).
      assert (Hz : zlen (take (Z.to_nat (sb_len sb)) c) = sb_len sb) by (rewrite length_take; lia).
      unfold enc. rewrite Hz, <- app_assoc, take_drop. split; [done|]. split; [done|]. split; [done|]. split.
      * unfold buf_at. apply view_of; [done|]. eapply holds_eq; [apply (holds_shrink _ _ _ _ (sb_len sb) Hb); lia|done|done|].
        simpl. rewrite Hz. lia.
      * split; [|done]. unfold residual_is. simpl. eapply holds_eq; [exact Hr2|done|done|]. rewrite length_drop. simpl. lia.
    + eexists _, true. split; [done|]. split; [split; [by destruct Hok|done|done]|]. split; [done|].
      exists c, []. unfold enc. replace (zlen c) with (sb_len sb) by lia. rewrite app_nil_r.
      split; [done|]. split; [done|]. split; [done|]. split; [done|]. split; [|done]. eapply holds_eq; [exact Hr'|done|done|simpl; lia].
  - destruct (set_next_spec sb 2 c Hok Hb) as (n & -> & _); [lia|right; unfold len_ok; lia|]. cbn [mbind outcome_bind].
    eexists _, false. split; [done|]. split; [split; [by destruct Hok|done|done]|]. split; [done|].
    left. split; [done|]. split; [|done]. apply partial_known; [done|done|done|done|lia].
Qed.

Lemma added_unknown sb c :
  sb_ok sb -> sb_len sb = -1 -> buf_at sb 0 c -> zlen c <= sb_maxlen sb -> residual_is sb [] ->
  sb_residual_fully_formed sb = false ->
  exists sb' ok, stream_buf_added sb 0 = Ret (sb', ok) /\ added_post sb c sb' ok.
Proof.
  intros Hok Hl Hb Hc Hr Hf. assert (Hlen : h_len (sb_buf sb) = zlen c) by (apply (buf_len_holds _ _ _ _ Hb)).
  unfold stream_buf_added, stream_buf_take_len. cbn [Z.ltb Z.compare]. rewrite Hlen, Hl. change (-1 <? 0) with true. cbn [andb].
  destruct (2 <=? zlen c) eqn:E.
  - destruct (buf_read_spec _ _ _ _ 2 Hb) as (b & Hrd & Hb2); [lia|]. rewrite Hrd. cbn [mbind outcome_bind].
    change (Z.to_nat 2) with 2%nat in *.
    assert (Hmem : bdata b = sb_mem sb).
    { unfold buf_read, buf_read_alloc in Hrd. destruct (_ || _) in Hrd; [done|]. destruct (buf_bptr _) as [cp|] in Hrd; [|done].
      destruct (peek _ cp 2) in Hrd; cbn [mbind outcome_bind] in Hrd; by simplify_eq. }
    pose proof (holds_bytes _ _ _ _ Hb) as Hby. set (h := be_val (take 2 c)).
    assert (Hh : 0 <= h < 2 ^ 16).
    { pose proof (be_val_range (take 2 c) ltac:(by apply Forall_take)) as Hx. rewrite length_take in Hx.
      replace (Z.of_nat (2 `min` length c)) with 2 in Hx by lia. done. }
    assert (Hcc : c = be_bytes 2 h ++ drop 2 c).
    { unfold h. pose proof (be_bytes_val (take 2 c) ltac:(by apply Forall_take)) as Hx. rewrite length_take in Hx.
      replace (2 `min` length c)%nat with 2%nat in Hx by lia. by rewrite Hx, take_drop. }
    cbn [sb_len sb_set_len sb_maxlen sb_set_buf]. destruct ((h <? 1) || (sb_maxlen sb <? h)) eqn:Eb; cbn [mbind outcome_bind].
    + eexists _, false. split; [done|]. split; [split; [by destruct Hok|done|done]|]. split; [done|]. right. split; [done|].
      split; [exists h, (drop 2 c); split; [done|]; unfold len_ok; simpl; lia|]. split; [|done].
      apply partial_short; [done| |simpl; lia]. apply reset_buf_at; [by destruct Hok|done].
    + set (sb1 := sb_set_len (sb_set_buf sb (header_of b)) h).
      destruct (complete_spec sb1 (drop 2 c)) as (sb' & ok & Hrun & Hpost); try done.
      * by destruct Hok.
      * unfold len_ok. simpl. lia.
      * simpl. lia.
      * unfold buf_at. apply view_of; [done|]. eapply holds_eq; [exact Hb2|simpl; lia|done|]. rewrite length_drop. simpl. lia.
      * rewrite length_drop. simpl. lia.
      * exists sb', ok. split; [exact Hrun|]. replace c with (be_bytes 2 (sb_len sb1) ++ drop 2 c) by (symmetry; exact Hcc). by eapply added_post_from; [split; [destruct Hok|..]| |exact Hpost].
  - cbn [mbind outcome_bind]. unfold stream_buf_complete. rewrite Hl. change (0 <? -1) with false. cbn [andb].
    destruct (set_next_spec sb 0 c Hok Hb) as (n & -> & _); [lia|left; destruct Hok; lia|]. cbn [mbind outcome_bind].
    eexists _, false. split; [done|]. split; [split; [by destruct Hok|done|done]|]. split; [done|]. left. split; [done|].
    split; [|done]. apply partial_short; [done|done|lia].
Qed.

Lemma added_known sb c :
  sb_ok sb -> len_ok sb (sb_len sb) -> sb_len sb < 2 ^ 16 -> buf_at sb 2 c -> zlen c <= sb_len sb -> residual_is sb [] ->
  sb_residual_fully_formed sb = false ->
  exists sb' ok, stream_buf_added sb 0 = Ret (sb', ok) /\ added_post sb (be_bytes 2 (sb_len sb) ++ c) sb' ok.
Proof.
  intros Hok Hl Hw Hb Hc Hr Hf. unfold stream_buf_added, stream_buf_take_len. cbn [Z.ltb Z.compare].
  rewrite (proj2 (Z.ltb_ge (sb_len sb) 0)) by (unfold len_ok in Hl; lia). cbn [andb mbind outcome_bind].
  apply complete_spec; try done. destruct Hok. lia.
Qed.

(** The header of the next read starts behind [buf] and ends within the packet
    or the block. *)
Definition ready sb (held : bytes) : Prop :=
  residual_is sb [] /\ partial sb held /\ sb_residual_fully_formed sb = false /\
  exists n, sb_next sb = Some (mkhdr (h_capacity (sb_buf_init sb)) (h_offset (sb_buf sb) + h_len (sb_buf sb)) n) /\
    1 <= n /\ h_len (sb_buf sb) + n <= (if 0 <=? sb_len sb then sb_len sb else sb_maxlen sb).

Lemma partial_set_next sb h held : partial sb held -> partial (sb_set_next sb h) held.
Proof. by intros [c H1 H2 H3|k c H1 H2 H3 H4 H5]; [apply partial_short|apply partial_known]. Qed.

Lemma set_next_ready sb held :
  sb_ok sb -> partial sb held -> residual_is sb [] -> sb_residual_fully_formed sb = false ->
  exists sb', stream_buf_set_next sb = Ret sb' /\ keeps sb sb' /\ ready sb' held /\ sb_error sb' = sb_error sb.
Proof.
  intros Hok Hp Hr Hf.
  assert (Hx : exists d c, buf_at sb d c /\ 0 <= d <= 2 /\ (sb_len sb = -1 /\ zlen c < sb_maxlen sb \/ len_ok sb (sb_len sb) /\ zlen c < sb_len sb)).
  { destruct Hp as [c H1 H2 H3|k c H1 H2 H3 H4 H5]; [exists 0, c|exists 2, c].
    - split; [done|]. split; [lia|]. left. destruct Hok. lia.
    - split; [done|]. split; [lia|]. right. by rewrite H1. }
  destruct Hx as (d & c & Hb & Hd & Hl). destruct (set_next_spec sb d c Hok Hb Hd Hl) as (n & -> & Hn & Hle).
  holds_facts Hb. simpl in Hoff, Hlen.
  eexists. split; [done|]. split; [split; [by destruct Hok|done|done]|]. split; [|done].
  split; [done|]. split; [by apply partial_set_next|]. split; [done|]. exists n. cbn [sb_next sb_set_next sb_buf_init sb_buf sb_len sb_maxlen].
  split; [|lia]. do 2 f_equal. lia.
Qed.

(** Outcome of [stream_buf_read_setup_dowork]. *)
Definition setup_post sb (held : bytes) sb' (need : bool) : Prop :=
  keeps sb sb' /\
  if need then (sb_error sb' = false /\ ready sb' held) \/ (sb_error sb' = true /\ bad_stream sb' held /\ ready sb' [])
  else sb_error sb' = false /\ sb_residual_fully_formed sb' = true /\ pending sb' held.

Lemma setup_spec sb held :
  sb_ok sb -> pending sb held -> sb_error sb = false ->
  exists sb' need, stream_buf_read_setup_dowork sb = Ret (sb', need) /\ setup_post sb held sb' need.
Proof.
  intros Hok Hp He. unfold stream_buf_read_setup_dowork.
  destruct Hp as [r Hr Hne Hbuf Hlen Hf|c Hr Hc Hf|p r Hr Hl Hw Hb Hf].
  - destruct (buf_len_holds _ _ _ _ Hr) as [_ Hbl]. rewrite Hbl, Hf.
    rewrite (proj2 (Z.eqb_neq (zlen r) 0)) by (destruct r; [done|simpl; lia]). cbn [negb andb].
    pose proof (reset_buf_at sb Hok Hbuf) as Hb. pose proof Hok as [(blk & Hm & Hcap & Hby) Hs He0 Hroom Hz Hx].
    assert (Hlr : zlen r <= sb_maxlen sb) by (holds_facts Hr; lia).
    destruct (buf_copy_spec _ _ _ _ _ _ _ _ Hb Hr) as [Hcp _]. destruct Hcp as (b & -> & Hb'); [simpl; lia|].
    cbn [mbind outcome_bind]. change (ASSERT true) with (Ret ()). cbn [mbind outcome_bind].
    destruct (buf_init_spec _ _ _ _ 0 Hr) as (r' & Hri & Hr'); [lia|]. cbn [sb_residual sb_set_buf sb_set_mem]. rewrite Hri, ASSERT_ok_true.
    cbn [mbind outcome_bind]. set (sb1 := sb_set_residual _ r'). holds_facts Hb'.
    destruct (added_unknown sb1 r) as (sb' & ok & -> & Hk & Hf' & Hpost); try done.
    { destruct Hb' as (blk' & Hok' & _). split; simpl; try done. exists blk'. destruct Hok'. split; [done|]. simpl in *. split; [lia|done]. }
    { unfold buf_at. apply view_of; [done|]. eapply holds_eq; [exact Hb'|done|done|simpl; lia]. }
    { unfold residual_is. eapply holds_eq; [exact Hr'|done|done|simpl; lia]. }
    assert (Hk1 : keeps sb sb') by (destruct Hk; by split).
    destruct ok; cbn [mbind outcome_bind sb_set_formed sb_residual_fully_formed negb].
    + destruct Hpost as (p & r2 & -> & Hl & Hw & Hp & Hr2 & He2). eexists _, false. split; [done|].
      split; [destruct Hk1 as [[] ? ?]; by split|]. split; [simpl; rewrite He2; exact He|]. split; [done|]. by apply pending_formed.
    + assert (Hready : forall hx, partial sb' hx -> residual_is sb' [] -> exists sb2, stream_buf_set_next (sb_set_formed sb' false) = Ret sb2 /\
        keeps sb sb2 /\ ready sb2 hx /\ sb_error sb2 = sb_error sb').
      { intros hx Hpx Hrx. destruct (set_next_ready (sb_set_formed sb' false) hx) as (sb2 & Hrun & Hk2 & Hrd & He2); try done.
        - by destruct Hk1 as [[] ? ?].
        - by destruct Hpx as [c H1 H2 H3|k c H1 H2 H3 H4 H5]; [apply partial_short|apply partial_known].
        - exists sb2. split; [exact Hrun|]. split; [|done]. eapply keeps_trans; [exact Hk1|]. destruct Hk2. by split. }
      destruct Hpost as [(He2 & Hpp & Hrr)|(He2 & Hbad & Hpp & Hrr)];
        destruct (Hready _ Hpp Hrr) as (sb2 & -> & Hk2 & Hrd & He3); cbn [mbind outcome_bind]; eexists _, true.
      * split; [destruct Hrd as (_ & _ & -> & _); done|]. split; [done|]. left. split; [rewrite He3, He2; exact He|done].
      * split; [destruct Hrd as (_ & _ & -> & _); done|]. split; [done|]. right. split; [congruence|]. split; [|done].
        destruct Hbad as (h & rest & -> & Hh & Hn). exists h, rest. split; [done|]. split; [done|].
        unfold len_ok in *. destruct Hk1, Hk2. congruence.
  - destruct (buf_len_holds _ _ _ _ Hr) as [_ Hbl]. rewrite Hbl. change (zlen [] =? 0) with true. cbn [negb andb mbind outcome_bind]. rewrite Hf. cbn [negb mbind outcome_bind].
    destruct (set_next_ready sb c Hok Hc Hr Hf) as (sb2 & -> & Hk2 & Hrd & He2). cbn [mbind outcome_bind]. eexists _, true.
    split; [destruct Hrd as (_ & _ & -> & _); done|]. split; [done|]. left. split; [congruence|done].
  - rewrite Hf. cbn [negb]. rewrite andb_false_r. cbn [mbind outcome_bind]. rewrite Hf. cbn [negb mbind outcome_bind]. rewrite Hf.
    eexists _, false. split; [done|]. split; [by apply keeps_refl|]. split; [done|]. split; [done|]. by apply pending_formed.
Qed.

(** Bytes stored behind [buf] become part of it. *)
Lemma grow_spec sb d0 c d frag :
  sb_ok sb -> buf_at sb d0 c -> 0 <= d0 -> Forall is_byte d -> d0 + zlen c + zlen d <= sb_maxlen sb + 2 -> bdata frag = sb_mem sb ->
  boffset frag = h_offset (sb_buf sb) + h_len (sb_buf sb) ->
  exists frag' h, poke frag (boffset frag) d = Ret frag' /\ h = mkhdr (h_capacity (sb_buf sb)) (h_offset (sb_buf sb)) (h_len (sb_buf sb) + zlen d) /\
    keeps sb (sb_set_buf (sb_set_mem sb (bdata frag')) h) /\ buf_at (sb_set_buf (sb_set_mem sb (bdata frag')) h) d0 (c ++ d).
Proof.
  intros Hok Hb Hd0 Hd Hfit Hdata Hoff0. holds_facts Hb. simpl in Hlen, Hoff, Hcap.
  destruct Hok as [(blk & Hm & Hcp & Hby) Hs He Hroom Hz Hx].
  unfold poke. rewrite Hdata, Hm, mem_write_Ret by lia. cbn [mbind outcome_bind]. eexists _, _. split; [done|]. split; [done|].
  cbn [bdata set_data]. set (blk' := splice blk (boffset frag) d).
  assert (Hl' : zlen blk' = zlen blk) by (unfold blk'; rewrite length_splice; lia).
  assert (Hby' : Forall is_byte blk') by (by apply Forall_splice).
  split; [split; [split; simpl; [exists blk'; split; [done|]; split; [lia|done]|done..]|done|done]|].
  unfold buf_at. destruct Hb as (blk0 & Hok & _ & Hc & _).
  assert (blk0 = blk) as -> by (destruct Hok as [Hx0 _ _ _ _ _ _]; simpl in Hx0; congruence).
  eapply holds_intro with (blk := blk'); simpl; [|lia| |rewrite length_app; lia].
  - split; simpl; try done; lia.
  - rewrite <- Hc, (buf_ok_content _ _ Hok). simpl. rewrite slice_app_split by lia. f_equal.
    + apply slice_splice_before; lia.
    + unfold blk'. rewrite Hoff0. apply slice_splice_same; lia.
Qed.

Lemma added_grow sb n : 0 < n ->
  stream_buf_added sb n = stream_buf_added (sb_set_buf sb (mkhdr (h_capacity (sb_buf sb)) (h_offset (sb_buf sb)) (h_len (sb_buf sb) + n))) 0.
Proof. intros Hn. unfold stream_buf_added. by rewrite (proj2 (Z.ltb_lt 0 n)). Qed.

(** Data arrives where the next read points to. *)
Lemma read_data sb held d :
  sb_ok sb -> ready sb held -> Forall is_byte d ->
  1 <= zlen d -> (forall h, sb_next sb = Some h -> zlen d <= h_len h) ->
  exists frag frag' sb' ok, stream_buf_get_next sb = Ret frag /\ poke frag (boffset frag) d = Ret frag' /\
    stream_buf_added (sb_set_mem sb (bdata frag')) (zlen d) = Ret (sb', ok) /\ added_post sb (held ++ d) sb' ok.
Proof.
  intros Hok (Hr & Hp & Hf & n & Hnext & Hn & Hle) Hd Hd1 Hfit. specialize (Hfit _ Hnext). simpl in Hfit.
  unfold stream_buf_get_next. rewrite Hnext. destruct (so_mem _ Hok) as (blk & Hm & _).
  unfold buf_defined, view. simpl. rewrite Hm. set (frag := mkbuf _ _ _ _).
  assert (Hgo : forall d0 c, buf_at sb d0 c -> 0 <= d0 -> d0 + zlen c + zlen d <= sb_maxlen sb + 2 ->
    (forall sb1, keeps sb sb1 -> sb_len sb1 = sb_len sb -> sb_residual sb1 = sb_residual sb -> sb_residual_fully_formed sb1 = false -> sb_error sb1 = sb_error sb ->
       buf_at sb1 d0 (c ++ d) -> exists sb' ok, stream_buf_added sb1 0 = Ret (sb', ok) /\ added_post sb1 (held ++ d) sb' ok) ->
    exists frag' sb' ok, poke frag (boffset frag) d = Ret frag' /\
      stream_buf_added (sb_set_mem sb (bdata frag')) (zlen d) = Ret (sb', ok) /\ added_post sb (held ++ d) sb' ok).
  { intros d0 c Hb Hd0 Hroom Hadd. destruct (grow_spec sb d0 c d frag Hok Hb Hd0 Hd Hroom) as (frag' & h & Hpk & -> & Hk & Hb'); [done|done|].
    destruct (Hadd _ Hk) as (sb' & ok & Hrun & Hpost); try done. exists frag', sb', ok. split; [done|]. split.
    - by rewrite added_grow by lia.
    - by eapply added_post_from. }
  destruct Hp as [c H1 H2 H3|h c H1 H2 H3 H4 H5].
  - destruct (Hgo 0 c H2) as (frag' & sb' & ok & ? & ? & ?); [lia| | |by exists frag, frag', sb', ok].
    + holds_facts H2. simpl in Hlen. rewrite H1 in Hle. simpl in Hle. lia.
    + intros sb1 Hk Hl Hrr Hff Hee Hb1. apply added_unknown; try done; [by destruct Hk|congruence| |].
      * holds_facts H2. simpl in Hlen. rewrite H1 in Hle. simpl in Hle. rewrite length_app. destruct Hk. lia.
      * unfold residual_is. destruct Hk. by rewrite Hrr, kp_max0.
  - rewrite H1, (proj2 (Z.leb_le 0 h)) in Hle by (unfold len_ok in H2; lia).
    assert (Hlc : h_len (sb_buf sb) = zlen c) by (holds_facts H4; done). unfold len_ok in H2.
    destruct (Hgo 2 c H4) as (frag' & sb' & ok & ? & ? & ?); [lia|lia| |by exists frag, frag', sb', ok].
    intros sb1 Hk Hl Hrr Hff Hee Hb1. rewrite <- app_assoc, <- H1, <- Hl. destruct Hk as [Hk1 Hk2 Hk3].
    apply added_known; try done; unfold len_ok; rewrite ?Hk3, ?Hl, ?H1; try lia.
    + rewrite length_app. lia.
    + unfold residual_is. by rewrite Hrr, Hk3.
Qed.

(** ** A connection *)

Definition socket_connection_reset sk (status : Z) (econnreset : bool) : bool :=
  sk_stream_reset sk || sb_error (sk_stream_buf sk) || ((status <? 0) && econnreset).

Inductive read_event := Reset | Quiet | Packet (p : bytes).

(** One turn of the event loop with [inp] on its way: [recv] returns at most
    [size] bytes of it; after a packet was handed out its memory is overwritten
    by [junk]. *)
Definition read_cycle sk (inp : bytes) (size : Z) (junk : bytes) : outcome (link_socket * bytes * read_event) :=
  '(sb, need) ← stream_buf_read_setup_dowork (sk_stream_buf sk);
  let sk := sk_set_sb sk sb in
  let room := match sb_next sb with Some h => h_len h | None => 0 end in
  let got := if (need : bool) then take (Z.to_nat (Z.min size room)) inp else [] in
  if need && bool_decide (got = []) then Ret (sk, inp, if socket_connection_reset sk 0 false then Reset else Quiet)
  else
    '(sk, buf, status) ← link_socket_read_tcp sk (RecvData got) clear_buf;
    let inp := drop (length got) inp in
    if socket_connection_reset sk status false then Ret (sk, inp, Reset)
    else if 0 <? status then Ret (sk_set_sb sk (sb_set_mem (sk_stream_buf sk) (Some junk)), inp, Packet (content buf))
    else Ret (sk, inp, Quiet).

(** Turns until the input of [turns] is used up or the connection is reset: the
    packets handed out, what is left of the stream and whether it was reset. *)
Fixpoint read_run (turns : list (Z * bytes)) sk (inp : bytes) : outcome (link_socket * bytes * list bytes * bool) :=
  match turns with
  | [] => Ret (sk, inp, [], false)
  | (size, junk) :: turns =>
      '(sk, inp, e) ← read_cycle sk inp size junk;
      match e with
      | Reset => Ret (sk, inp, [], true)
      | Quiet => read_run turns sk inp
      | Packet p => '(sk, inp, out, r) ← read_run turns sk inp; Ret (sk, inp, p :: out, r)
      end
  end.

(** Between two turns: [held] was received and not handed out. *)
Record live sk (held : bytes) : Prop := {
  lv_ok : sb_ok (sk_stream_buf sk);
  lv_pending : pending (sk_stream_buf sk) held;
  lv_error : sb_error (sk_stream_buf sk) = false;
  lv_reset : sk_stream_reset sk = false;
  lv_sd : sk_sd_defined sk = true
}.

Definition turn_ok sb (t : Z * bytes) : Prop := 1 <= t.1 /\ h_capacity (sb_buf_init sb) <= zlen t.2 /\ Forall is_byte t.2.

Lemma keeps_len_ok sb sb' n : keeps sb sb' -> len_ok sb' n <-> len_ok sb n.
Proof. intros [_ _ E]. unfold len_ok. by rewrite E. Qed.
Lemma keeps_turn sb sb' t : keeps sb sb' -> turn_ok sb t -> turn_ok sb' t.
Proof. intros [_ E _]. unfold turn_ok. by rewrite E. Qed.
Lemma bad_stream_app sb s s' : bad_stream sb s -> bad_stream sb (s ++ s').
Proof. intros (h & rest & -> & Hh & Hn). exists h, (rest ++ s'). by rewrite app_assoc. Qed.
Lemma bad_stream_keeps sb sb' s : keeps sb sb' -> bad_stream sb' s -> bad_stream sb s.
Proof. intros Hk (h & rest & -> & Hh & Hn). exists h, rest. split; [done|]. split; [done|]. by rewrite <- (keeps_len_ok _ _ _ Hk). Qed.

(** Handing out a packet leaves what followed it. *)
Lemma hand_out_live sk sb p r junk :
  sb_ok sb -> buf_at sb 2 p -> residual_is sb r -> sb_error sb = false -> sk_stream_reset sk = false -> sk_sd_defined sk = true ->
  turn_ok sb junk ->
  stream_buf_get_final sb = Ret (view sb (sb_buf sb)) /\ content (view sb (sb_buf sb)) = p /\ blen (view sb (sb_buf sb)) = zlen p /\
  keeps sb (sb_set_mem (stream_buf_reset sb) (Some junk.2)) /\
  live (sk_set_sb sk (sb_set_mem (stream_buf_reset sb) (Some junk.2))) r.
Proof.
  intros Hok Hb Hr He Hrs Hsd (_ & Hj & Hjb). holds_facts Hb. simpl in Hlen.
  assert (Hk : keeps sb (sb_set_mem (stream_buf_reset sb) (Some junk.2))).
  { destruct Hok. split; [split; simpl; try done|done|done]. by exists junk.2. }
  split. { unfold stream_buf_get_final. by rewrite Hdef. }
  split. { by destruct Hb as (? & ? & ? & ? & ?). }
  split; [done|]. split; [done|]. split; simpl; try done; [apply Hk|].
  destruct r as [|x r].
  - apply pending_partial; [done| |done]. apply partial_short; [done| |simpl; lia]. apply reset_buf_at; [apply Hk|done].
  - by apply pending_residual.
Qed.

Lemma length_enc p : length (enc p) = (2 + length p)%nat.
Proof. unfold enc. by rewrite length_app, length_be_bytes. Qed.

Lemma enc_nonempty p s : enc p ++ s <> [].
Proof. intros E. apply (f_equal length) in E. rewrite length_app, length_enc in E. simpl in E. lia. Qed.

(** No complete packet at the start of [s]. *)
Definition incomplete (s : bytes) : Prop := forall p rest, zlen p < 2 ^ 16 -> s <> enc p ++ rest.

Lemma enc_prefix_inj p q s t : zlen p < 2 ^ 16 -> zlen q < 2 ^ 16 -> enc p ++ s = enc q ++ t -> p = q /\ s = t.
Proof.
  intros Hp Hq E. unfold enc in E. rewrite <- !app_assoc in E. apply app_inj_1 in E as [Hh E]; [|by rewrite !length_be_bytes].
  assert (Hl : zlen p = zlen q) by (rewrite <- (be_val_u16 (zlen p)), <- (be_val_u16 (zlen q)), Hh; [done|lia..]).
  by apply app_inj_1 in E; [|lia].
Qed.

Lemma partial_incomplete sb held : partial sb held -> incomplete held.
Proof.
  intros [c H1 H2 H3|h c H1 H2 H3 H4 H5] p rest Hp E.
  - apply (f_equal length) in E. unfold enc in E. rewrite !length_app, length_be_bytes in E. lia.
  - unfold enc in E. rewrite <- app_assoc in E. apply app_inj_1 in E as [Hh E]; [|by rewrite !length_be_bytes]. unfold len_ok in H2.
    assert (Hl : h = zlen p) by (rewrite <- (be_val_u16 h), <- (be_val_u16 (zlen p)), Hh; [done|lia..]).
    apply (f_equal length) in E. rewrite length_app in E. lia.
Qed.

(** Outcome of a turn. *)
Definition cycle_post sk (held inp : bytes) sk' (inp' : bytes) (e : read_event) : Prop :=
  exists got, inp = got ++ inp' /\ keeps (sk_stream_buf sk) (sk_stream_buf sk') /\
  match e with
  | Reset => bad_stream (sk_stream_buf sk) (held ++ got)
  | Quiet => live sk' (held ++ got) /\ incomplete (held ++ got) /\ (got = [] -> inp = [])
  | Packet p => exists held', held ++ got = enc p ++ held' /\ len_ok (sk_stream_buf sk) (zlen p) /\ zlen p < 2 ^ 16 /\ live sk' held'
  end.

Lemma cycle_formed sk held inp junk :
  live sk held -> sb_residual_fully_formed (sk_stream_buf sk) = true -> turn_ok (sk_stream_buf sk) (1, junk) ->
  exists sk1 buf n, link_socket_read_tcp sk (RecvData []) clear_buf = Ret (sk1, buf, n) /\ socket_connection_reset sk1 n false = false /\
    1 <= n /\ cycle_post sk held inp (sk_set_sb sk1 (sb_set_mem (sk_stream_buf sk1) (Some junk))) inp (Packet (content buf)).
Proof.
  intros [Hok Hp He Hrs Hsd] Hf Ht. unfold link_socket_read_tcp, link_socket_finish. rewrite Hf. cbn [negb mbind outcome_bind].
  destruct Hp as [r Hr Hne Hbuf Hlen Hf'|c Hr Hc Hf'|p r Hr Hl Hw Hb _]; [congruence..|].
  destruct (hand_out_live sk _ p r (1, junk) Hok Hb Hr He Hrs Hsd Ht) as (-> & Hc & Hz & Hk & Hlive). cbn [mbind outcome_bind].
  eexists _, _, _. split; [done|]. split; [|split].
  - unfold socket_connection_reset. simpl. rewrite Hrs, He. simpl. by rewrite andb_false_r.
  - rewrite Hz. apply Hl.
  - exists []. split; [done|]. split; [done|]. rewrite Hc, app_nil_r. by exists r.
Qed.

Lemma cycle_data sk held got junk :
  sb_ok (sk_stream_buf sk) -> ready (sk_stream_buf sk) held -> sk_stream_reset sk = false -> sk_sd_defined sk = true ->
  Forall is_byte got -> 1 <= zlen got -> (forall h, sb_next (sk_stream_buf sk) = Some h -> zlen got <= h_len h) ->
  turn_ok (sk_stream_buf sk) (1, junk) ->
  exists sk1 buf n, link_socket_read_tcp sk (RecvData got) clear_buf = Ret (sk1, buf, n) /\ keeps (sk_stream_buf sk) (sk_stream_buf sk1) /\
    if socket_connection_reset sk1 n false then sb_error (sk_stream_buf sk) = true \/ bad_stream (sk_stream_buf sk) (held ++ got)
    else sb_error (sk_stream_buf sk) = false /\ if 0 <? n then
      let sk2 := sk_set_sb sk1 (sb_set_mem (sk_stream_buf sk1) (Some junk)) in
      keeps (sk_stream_buf sk) (sk_stream_buf sk2) /\ exists held', held ++ got = enc (content buf) ++ held' /\
        len_ok (sk_stream_buf sk) (zlen (content buf)) /\ zlen (content buf) < 2 ^ 16 /\ live sk2 held'
    else live sk1 (held ++ got) /\ incomplete (held ++ got).
Proof.
  intros Hok Hrd Hrs Hsd Hb H1 Hfit Ht. unfold link_socket_read_tcp, link_socket_finish. pose proof Hrd as (_ & _ & Hf & _).
  rewrite Hf, Hsd. cbn [negb mbind outcome_bind].
  destruct (read_data _ held got Hok Hrd Hb H1 Hfit) as (frag & frag' & sb' & ok & -> & Hpk & Hrun & Hk & Hf' & Hpost).
  cbn [mbind outcome_bind]. rewrite Hpk. cbn [mbind outcome_bind sk_stream_buf sk_set_sb sb_residual_fully_formed sb_set_mem]. rewrite Hf.
  rewrite Hrun. cbn [mbind outcome_bind]. destruct ok.
  - destruct Hpost as (p & r & Hpr & Hl & Hw & Hbp & Hrp & He).
    destruct (sb_error sb') eqn:E.
    + destruct (holds_bounds _ _ _ _ Hbp) as (_ & _ & _ & _ & _ & _ & _ & Hdef & _).
      unfold stream_buf_get_final. rewrite Hdef. cbn [mbind outcome_bind]. eexists _, _, _. split; [done|].
      split; [destruct Hk as [[] ? ?]; by split|]. unfold socket_connection_reset. simpl. rewrite Hrs, E. simpl. by left.
    + destruct (hand_out_live sk sb' p r (1, junk)) as (-> & Hc & Hz & Hk2 & Hlive); try done; [apply Hk|by eapply keeps_turn|].
      cbn [mbind outcome_bind]. eexists _, _, _. split; [done|]. split; [destruct Hk as [[] ? ?]; by split|].
      unfold socket_connection_reset. simpl. rewrite Hrs, E. simpl. rewrite andb_false_r.
      change (h_len (sb_buf sb')) with (blen (view sb' (sb_buf sb'))). rewrite Hz, Hc. apply (keeps_len_ok _ _ _ Hk) in Hl.
      rewrite (proj2 (Z.ltb_lt 0 (zlen p))) by (unfold len_ok in Hl; lia).
      split; [congruence|]. split; [by eapply keeps_trans|]. by exists r.
  - eexists _, _, _. split; [done|]. split; [done|]. unfold socket_connection_reset. simpl. rewrite Hrs. simpl.
    destruct Hpost as [(He & Hp & Hr)|(He & Hbad & _)]; [|rewrite He; right; by eapply bad_stream_keeps].
    destruct (sb_error sb') eqn:E; simpl; [by left|]. split; [done|].
    split; [split; simpl; try done; [apply Hk|by apply pending_partial]|]. by eapply partial_incomplete.
Qed.

Lemma cycle_spec sk held inp size junk :
  live sk held -> Forall is_byte inp -> turn_ok (sk_stream_buf sk) (size, junk) ->
  exists sk' inp' e, read_cycle sk inp size junk = Ret (sk', inp', e) /\ cycle_post sk held inp sk' inp' e.
Proof.
  intros [Hok Hp He Hrs Hsd] Hin Ht. unfold read_cycle.
  destruct (setup_spec _ held Hok Hp He) as (sb & need & -> & Hk & Hpost). cbn [mbind outcome_bind].
  assert (Ht1 : turn_ok sb (1, junk)) by (destruct Ht as (Hsz & Hj); destruct Hk; split; simpl in *; [lia|by rewrite kp_init0]).
  assert (Hup : forall i sk' i' e, cycle_post (sk_set_sb sk sb) held i sk' i' e -> cycle_post sk held i sk' i' e).
  { intros i sk' i' e (got & -> & Hk' & Hm). exists got. split; [done|]. split; [by eapply keeps_trans|].
    destruct e; [by eapply bad_stream_keeps|done|]. destruct Hm as (h' & Hm1 & Hm2 & Hm3). exists h'. split; [done|]. split; [|done].
    by apply (keeps_len_ok _ _ _ Hk). }
  destruct need; [|destruct Hpost as (He1 & Hf1 & Hp1); cbn [andb]].
  - assert (Hrd : exists hx, ready sb hx) by (destruct Hpost as [(_ & ?)|(_ & _ & ?)]; eauto).
    destruct Hrd as (hx & _ & _ & _ & n & Hnext & Hn & _). rewrite Hnext. cbn [h_len andb].
    set (got := take (Z.to_nat (Z.min size n)) inp). case_bool_decide as Eg.
    + eexists _, _, _. split; [done|]. exists []. split; [done|]. split; [exact Hk|]. unfold socket_connection_reset. simpl. rewrite Hrs.
      assert (inp = []) by (destruct inp; [done|]; unfold got in Eg; destruct (Z.to_nat (Z.min size n)) eqn:Ez; [destruct Ht; simpl in *; lia|done]).
      rewrite app_nil_r. destruct Hpost as [(He1 & Hrd)|(He1 & Hbad & _)]; rewrite He1; simpl; [|by eapply bad_stream_keeps].
      destruct Hrd as (Hr & Hpp & Hf & _). split; [|split; [by eapply partial_incomplete|done]].
      split; simpl; try done; [apply Hk|by apply pending_partial].
    + assert (Hg1 : 1 <= zlen got) by (destruct got; [done|simpl; lia]).
      assert (Hgn : forall h, sb_next sb = Some h -> zlen got <= h_len h).
      { intros h Hh. rewrite Hnext in Hh. injection Hh as <-. unfold got. simpl. rewrite length_take. lia. }
      assert (Hinp : inp = got ++ drop (length got) inp).
      { rewrite <- (take_drop (length got) inp) at 1. f_equal. unfold got. rewrite length_take.
        destruct (decide (Z.to_nat (Z.min size n) <= length inp)%nat); [by rewrite Nat.min_l|rewrite Nat.min_r by lia; by rewrite !take_ge by lia]. }
      assert (Hgo : forall hx', ready sb hx' -> _) by (intros hx' Hrd; exact (cycle_data (sk_set_sb sk sb) hx' got junk ltac:(apply Hk) Hrd Hrs Hsd ltac:(by apply Forall_take) Hg1 Hgn Ht1)).
      destruct Hpost as [(He1 & Hrd)|(He1 & Hbad & Hrd)]; destruct (Hgo _ Hrd) as (sk1 & buf & m & -> & Hk1 & Hres); clear Hgo; cbn [mbind outcome_bind].
      * simpl in Hres. destruct (socket_connection_reset sk1 m false) eqn:Er.
        { eexists _, _, _. split; [done|]. apply Hup. exists got. split; [done|]. split; [done|]. destruct Hres as [Hres|Hres]; [congruence|exact Hres]. }
        destruct Hres as [_ Hres]. destruct (0 <? m) eqn:Em; eexists _, _, _; (split; [done|]); apply Hup; exists got; (split; [done|]).
        { destruct Hres as (Hk2 & Hres). split; [exact Hk2|exact Hres]. }
        { split; [exact Hk1|]. destruct Hres as [Hlv Hinc]. split; [exact Hlv|]. split; [exact Hinc|]. intros E. done. }
      * assert (Hr1 : socket_connection_reset sk1 m false = true).
        { destruct (socket_connection_reset sk1 m false) eqn:Er; [done|]. simpl in Hres. destruct Hres as [Hx _]. congruence. }
        rewrite Hr1. eexists _, _, _. split; [done|]. apply Hup. exists got. split; [done|]. split; [done|]. by apply bad_stream_app.
  - destruct (cycle_formed (sk_set_sb sk sb) held inp junk) as (sk1 & buf & m & -> & Hr & Hm & Hc); [by split; [apply Hk|..]|done|done|].
    cbn [mbind outcome_bind length]. rewrite drop_0, Hr, (proj2 (Z.ltb_lt 0 m)) by lia. eexists _, _, _. split; [done|]. by apply Hup.
Qed.

Definition valid_packet sb (p : bytes) : Prop := len_ok sb (zlen p) /\ zlen p < 2 ^ 16.

Lemma run_spec turns : forall sk held inp,
  live sk held -> Forall is_byte inp -> Forall (turn_ok (sk_stream_buf sk)) turns ->
  exists sk' inp' out r got held', read_run turns sk inp = Ret (sk', inp', out, r) /\ Forall (valid_packet (sk_stream_buf sk)) out /\
    inp = got ++ inp' /\ held ++ got = concat (enc <$> out) ++ held' /\
    if (r : bool) then bad_stream (sk_stream_buf sk) held' else live sk' held'.
Proof.
  induction turns as [|[size junk] turns IH]; intros sk held inp Hl Hin Ht; cbn [read_run].
  { exists sk, inp, [], false, [], held. by rewrite app_nil_r. }
  apply Forall_cons in Ht as [Ht1 Ht].
  destruct (cycle_spec sk held inp size junk Hl Hin Ht1) as (sk1 & inp1 & e & -> & got & -> & Hk & Hpost). cbn [mbind outcome_bind].
  apply Forall_app in Hin as [_ Hin]. assert (Ht' : Forall (turn_ok (sk_stream_buf sk1)) turns) by (eapply Forall_impl; [exact Ht|]; intros; by eapply keeps_turn).
  assert (Hv : forall out, Forall (valid_packet (sk_stream_buf sk1)) out -> Forall (valid_packet (sk_stream_buf sk)) out).
  { intros out Ho. eapply Forall_impl; [exact Ho|]. intros p [H1 H2]. split; [by apply (keeps_len_ok _ _ _ Hk)|done]. }
  assert (Hbad : forall (r : bool) sk' h, (if r then bad_stream (sk_stream_buf sk1) h else live sk' h) -> if r then bad_stream (sk_stream_buf sk) h else live sk' h).
  { intros [] sk' h H; [by eapply bad_stream_keeps|done]. }
  destruct e as [| |p].
  - exists sk1, inp1, [], true, got, (held ++ got). done.
  - destruct Hpost as (Hlv & _ & _). destruct (IH sk1 _ inp1 Hlv Hin Ht') as (sk' & inp' & out & r & g & h & -> & Ho & -> & Hc & Hr).
    exists sk', inp', out, r, (got ++ g), h. rewrite !app_assoc. split; [done|]. split; [by apply Hv|]. split; [done|]. split; [done|]. by apply Hbad.
  - destruct Hpost as (h1 & Hh & Hlen & Hw & Hlv). destruct (IH sk1 _ inp1 Hlv Hin Ht') as (sk' & inp' & out & r & g & h & -> & Ho & -> & Hc & Hr).
    cbn [mbind outcome_bind]. exists sk', inp', (p :: out), r, (got ++ g), h.
    split; [done|]. split; [constructor; [done|by apply Hv]|]. split; [by rewrite app_assoc|]. split; [|by apply Hbad].
    rewrite app_assoc, Hh, <- app_assoc, Hc, fmap_cons. cbn [concat]. by rewrite app_assoc.
Qed.

(** With enough turns every packet of a complete stream is handed out. *)
Lemma run_complete turns : forall sk held inp pkts,
  live sk held -> Forall is_byte inp -> Forall (turn_ok (sk_stream_buf sk)) turns -> Forall (valid_packet (sk_stream_buf sk)) pkts ->
  held ++ inp = concat (enc <$> pkts) -> (2 * length inp + length held <= length turns)%nat ->
  exists sk', read_run turns sk inp = Ret (sk', [], pkts, false).
Proof.
  induction turns as [|[size junk] turns IH]; intros sk held inp pkts Hl Hin Ht Hv Heq Hn; cbn [read_run]; simpl in Hn.
  { assert (held = [] /\ inp = []) as [-> ->] by (destruct held, inp; simpl in Hn; (done || lia)). destruct pkts; [eauto|].
    exfalso. symmetry in Heq. by apply enc_nonempty in Heq. }
  apply Forall_cons in Ht as [Ht1 Ht].
  destruct (cycle_spec sk held inp size junk Hl Hin Ht1) as (sk1 & inp1 & e & -> & got & -> & Hk & Hpost). cbn [mbind outcome_bind].
  apply Forall_app in Hin as [_ Hin]. assert (Ht' : Forall (turn_ok (sk_stream_buf sk1)) turns) by (eapply Forall_impl; [exact Ht|]; intros; by eapply keeps_turn).
  assert (Hv' : Forall (valid_packet (sk_stream_buf sk1)) pkts).
  { eapply Forall_impl; [exact Hv|]. intros p [H1 H2]. split; [by apply (keeps_len_ok _ _ _ Hk)|done]. }
  rewrite app_assoc in Heq. rewrite length_app in Hn. destruct e as [| |p].
  - exfalso. destruct Hpost as (h & rest & Hs & Hh & Hnl). rewrite Hs, <- app_assoc in Heq. destruct pkts as [|q pkts].
    { apply (f_equal length) in Heq. rewrite length_app, length_be_bytes in Heq. simpl in Heq. lia. }
    cbn [fmap list_fmap concat] in Heq. unfold enc in Heq at 1. rewrite <- app_assoc in Heq. apply app_inj_1 in Heq as [Hx _]; [|by rewrite !length_be_bytes].
    apply Forall_cons in Hv as [[Hq1 Hq2] _]. apply Hnl. rewrite <- (be_val_u16 h), Hx, be_val_u16; [done|unfold len_ok in Hq1; lia..].
  - destruct Hpost as (Hlv & Hinc & Hg). destruct (decide (got = [])) as [->|Hne].
    + assert (inp1 = []) as -> by (specialize (Hg eq_refl); by simpl in Hg). rewrite !app_nil_r in *.
      destruct pkts as [|q pkts]; [|exfalso; apply Forall_cons in Hv as [[_ Hq] _]; by apply (Hinc q (concat (enc <$> pkts)) Hq)].
      simpl in Heq. subst held. apply (IH sk1 [] [] []); try done; simpl; lia.
    + assert (length got <> 0)%nat by (by destruct got). apply (IH sk1 (held ++ got) inp1 pkts); try done. rewrite length_app. lia.
  - destruct Hpost as (h1 & Hh & Hlen & Hw & Hlv). rewrite Hh, <- app_assoc in Heq.
    assert (Hlh : length (held ++ got) = (2 + length p + length h1)%nat) by (rewrite Hh, length_app, length_enc; lia).
    rewrite length_app in Hlh. destruct pkts as [|q pkts].
    { by apply enc_nonempty in Heq. }
    apply Forall_cons in Hv' as [[Hq1 Hq2] Hv']. cbn [fmap list_fmap concat] in Heq. apply enc_prefix_inj in Heq as [<- Heq]; [|done..].
    destruct (IH sk1 h1 inp1 pkts) as (sk' & ->); try done; [lia|]. cbn [mbind outcome_bind]. eauto.
Qed.

(** A connection as [socket_frame_init] leaves it. *)
Definition open_stream (f : frame) : outcome link_socket :=
  b ← alloc_buf_sock_tun f;
  sb ← stream_buf_init b;
  Ret (mksock sb false true).

Record stream_frame (f : frame) : Prop := {
  sf_headroom : 0 <= f_headroom f;
  sf_payload : 2 <= f_payload_size f < 2 ^ 16;
  sf_tailroom : 2 <= f_tailroom f;
  sf_size : BUF_SIZE f < BUF_SIZE_MAX
}.

Lemma open_stream_live f : stream_frame f -> exists sk, open_stream f = Ret sk /\ live sk [] /\ sb_maxlen (sk_stream_buf sk) = f_payload_size f /\
  h_capacity (sb_buf_init (sk_stream_buf sk)) = BUF_SIZE f.
Proof.
  intros [Hh Hp Ht Hs]. unfold BUF_SIZE in *. unfold open_stream, alloc_buf_sock_tun.
  destruct (alloc_buf_spec (BUF_SIZE f)) as (b & -> & Hb); [unfold BUF_SIZE, buf_size_valid; lia|]. cbn [mbind outcome_bind].
  destruct (buf_init_spec _ _ _ _ (f_headroom f) Hb) as (b' & -> & Hb'); [unfold BUF_SIZE; simpl; lia|]. rewrite ASSERT_ok_true. cbn [mbind outcome_bind].
  holds_facts Hb'. destruct Hb' as (blk & Hok & _). unfold BUF_SIZE in *. simpl in Hcap, Htl.
  assert (Hsafe : buf_safe (set_len b' (f_payload_size f)) 0 = true).
  { unfold buf_safe, buf_valid, buf_defined, buf_size_valid. simpl. rewrite (ok_data _ _ Hok). unfold BUF_SIZE_MAX in *. lia. }
  rewrite Hsafe. change (ASSERT true) with (Ret ()). cbn [mbind outcome_bind]. unfold stream_buf_init. cbn [blen set_len boffset bcapacity bdata].
  destruct (alloc_buf_spec (f_payload_size f)) as (r & -> & Hr); [unfold buf_size_valid, BUF_SIZE_MAX in *; lia|]. cbn [mbind outcome_bind].
  eexists. split; [done|]. destruct Hok. cbn [sk_stream_buf stream_buf_reset sb_maxlen sb_buf_init h_capacity]. split; [|split; [done|lia]].
  set (sk := mksock _ _ _). assert (Hsb : sb_ok (sk_stream_buf sk)) by (split; simpl; try done; try lia; exists blk; split; [done|]; split; [lia|done]).
  split; try done. apply pending_partial; [|apply partial_short; [done|by apply reset_buf_at|simpl; lia]|done].
  unfold residual_is. eapply holds_eq; [exact Hr|done|done|simpl; lia].
Qed.

Lemma write_tcp_spec sk b hd p tl :
  holds b hd p tl -> 2 <= hd -> zlen p < 2 ^ 16 -> zlen p <= sb_maxlen (sk_stream_buf sk) ->
  exists b', link_socket_write_tcp sk b = Ret b' /\ holds b' (hd - 2) (enc p) tl.
Proof.
  intros Hb Hh Hp Hm. destruct (buf_len_holds _ _ _ _ Hb) as [Hl _]. unfold link_socket_write_tcp. rewrite Hl, u16_small by lia.
  rewrite (proj2 (Z.leb_le (zlen p) _)) by lia. change (ASSERT true) with (Ret ()). cbn [mbind outcome_bind].
  destruct (buf_write_prepend_spec _ _ _ _ (be_bytes 2 (zlen p)) Hb) as (b' & -> & Hb'); [apply be_bytes_is_byte|rewrite length_be_bytes; lia|].
  cbn [mbind outcome_bind]. rewrite ASSERT_ok_true. exists b'. split; [done|]. by rewrite length_be_bytes in Hb'.
Qed.

(** What a sequence of [link_socket_write_tcp] calls puts on the wire. *)
Definition write_packets sk (bufs : list buffer) : outcome (list bytes) :=
  mapM (fun b => b' ← link_socket_write_tcp sk b; Ret (content b')) bufs.

Definition writable sk (b : buffer) (p : bytes) : Prop :=
  valid_packet (sk_stream_buf sk) p /\ exists hd tl, holds b hd p tl /\ 2 <= hd.

Lemma write_packets_spec sk bufs pkts : Forall2 (writable sk) bufs pkts -> write_packets sk bufs = Ret (enc <$> pkts).
Proof.
  induction 1 as [|b p bufs pkts [[Hl Hw] (hd & tl & Hb & Hh)] _ IH]; [done|]. unfold write_packets in *. cbn [mapM].
  destruct (write_tcp_spec sk b hd p tl Hb Hh Hw) as (b' & -> & Hb'); [apply Hl|]. cbn [mbind outcome_bind]. rewrite IH. cbn [mbind outcome_bind].
  assert (content b' = enc p) as -> by (by destruct Hb' as (? & ? & ? & ? & ?)). done.
Qed.

(** ** Properties *)

Definition turns_ok (f : frame) (turns : list (Z * bytes)) : Prop :=
  Forall (fun t => 1 <= t.1 /\ BUF_SIZE f <= zlen t.2 /\ Forall is_byte t.2) turns.

(** Whatever bytes a TCP peer sends and however they arrive, reading never
    fails an assertion or leaves a block; the packets handed out are, length
    prefixes included, the beginning of the stream, all of an acceptable length,
    and the connection is reset only where the stream continues with a length
    that is not acceptable. *)
Theorem stream_any_input f turns inp :
  stream_frame f -> turns_ok f turns -> Forall is_byte inp ->
  exists sk sk' inp' out r rest, open_stream f = Ret sk /\ read_run turns sk inp = Ret (sk', inp', out, r) /\
    inp = concat (enc <$> out) ++ rest ++ inp' /\ Forall (fun p => 1 <= zlen p <= f_payload_size f) out /\
    (r = true -> exists h t, rest = be_bytes 2 h ++ t /\ 0 <= h < 2 ^ 16 /\ ~ 1 <= h <= f_payload_size f).
Proof.
  intros Hf Ht Hin. destruct (open_stream_live f Hf) as (sk & Ho & Hl & Hm & Hc).
  destruct (run_spec turns sk [] inp Hl Hin) as (sk' & inp' & out & r & got & rest & Hrun & Hv & -> & Hg & Hr).
  { eapply Forall_impl; [exact Ht|]. unfold turn_ok. by rewrite Hc. }
  exists sk, sk', inp', out, r, rest. split; [done|]. split; [done|]. split; [simpl in Hg; by rewrite Hg, <- app_assoc|]. split.
  - eapply Forall_impl; [exact Hv|]. intros p [Hp _]. unfold len_ok in Hp. lia.
  - intros ->. destruct Hr as (h & t & -> & Hh & Hn). exists h, t. unfold len_ok in Hn. by rewrite Hm in Hn.
Qed.

(** C23. Packets written to a TCP connection come out at the other end complete, in
    order and nothing else, however the stream is cut into reads; twice as many
    turns as bytes are enough. *)
Theorem stream_roundtrip f wsk bufs pkts turns :
  stream_frame f -> sb_maxlen (sk_stream_buf wsk) = f_payload_size f -> Forall2 (writable wsk) bufs pkts -> turns_ok f turns ->
  (2 * length (concat (enc <$> pkts)) <= length turns)%nat ->
  exists wire sk sk', write_packets wsk bufs = Ret wire /\ open_stream f = Ret sk /\ read_run turns sk (concat wire) = Ret (sk', [], pkts, false).
Proof.
  intros Hf Hw Hb Ht Hn. destruct (open_stream_live f Hf) as (sk & Ho & Hl & Hm & Hc). exists (enc <$> pkts), sk.
  assert (Hv : Forall (valid_packet (sk_stream_buf sk)) pkts).
  { clear - Hb Hw Hm. induction Hb as [|b p bufs pkts [[H1 H2] _] _ IH]; [done|]. constructor; [|done]. split; [|done]. unfold len_ok in *. lia. }
  assert (Hin : Forall is_byte (concat (enc <$> pkts))).
  { clear - Hb. induction Hb as [|b p bufs pkts [_ (hd & tl & Hh & _)] _ IH]; [constructor|]. cbn [fmap list_fmap concat]. unfold enc at 1.
    rewrite !Forall_app. split; [split; [apply be_bytes_is_byte|by eapply holds_bytes]|done]. }
  destruct (run_complete turns sk [] (concat (enc <$> pkts)) pkts Hl Hin) as (sk' & Hrun); [|done|done|simpl; lia|].
  { eapply Forall_impl; [exact Ht|]. unfold turn_ok. by rewrite Hc. }
  exists sk'. split; [by apply write_packets_spec|]. by split.
Qed.

(** ** Two packets, read three bytes at a time *)

Definition demo_frame : frame := mkframe 1500 10 20 5.
Definition demo_turns : list (Z * bytes) := replicate 20 (3, replicate 35 0).
Definition demo_writer : link_socket :=
  match open_stream demo_frame with Ret sk => sk | _ => mksock (mksb None (mkhdr 0 0 0) clear_buf 0 false (mkhdr 0 0 0) None 0 false) true false end.
Definition demo_out (p : bytes) : buffer := mkbuf 35 10 (zlen p) (Some (splice (replicate 35 0) 10 p)).

Lemma demo_frame_ok : stream_frame demo_frame.
Proof. split; unfold BUF_SIZE, BUF_SIZE_MAX; simpl; lia. Qed.

Lemma demo_turns_ok : turns_ok demo_frame demo_turns.
Proof.
  apply Forall_forall. intros t Ht%elem_of_replicate_inv. subst t. simpl. split; [lia|]. split; [done|]. by apply all_bytes_spec.
Qed.

Lemma demo_writable p : (1 <=? zlen p) && (zlen p <=? 20) = true -> all_bytes p = true -> writable demo_writer (demo_out p) p.
Proof.
  intros Hl Hb. apply andb_true_iff in Hl as [H1 H2]. split; [split; [unfold len_ok; simpl; lia|lia]|]. exists 10, (25 - zlen p). split; [|lia].
  apply all_bytes_spec in Hb. assert (Hr : length (replicate 35 0) = 35%nat) by apply length_replicate. unfold demo_out.
  assert (Hz : Forall is_byte (replicate 35 0)) by (apply Forall_replicate; unfold is_byte; lia). revert Hr Hz. generalize (replicate 35 0). intros blk Hr Hz.
  eapply holds_intro with (blk := splice blk 10 p); simpl; [|done| |lia].
  - split; simpl; try done; try lia; [rewrite length_splice; lia|by apply Forall_splice].
  - apply slice_splice_same; lia.
Qed.

Lemma stream_any_input_witness :
  exists sk sk' inp' out r rest, open_stream demo_frame = Ret sk /\ read_run demo_turns sk [0; 2; 7; 8; 0; 99; 1] = Ret (sk', inp', out, r) /\
    [0; 2; 7; 8; 0; 99; 1] = concat (enc <$> out) ++ rest ++ inp' /\ Forall (fun p => 1 <= zlen p <= 20) out /\
    (r = true -> exists h t, rest = be_bytes 2 h ++ t /\ 0 <= h < 2 ^ 16 /\ ~ 1 <= h <= 20).
Proof.
  apply (stream_any_input demo_frame demo_turns); [apply demo_frame_ok|apply demo_turns_ok|by apply all_bytes_spec].
Defined.

Lemma stream_roundtrip_witness :
  exists wire sk sk', write_packets demo_writer [demo_out [1; 2; 3]; demo_out [4]] = Ret wire /\ open_stream demo_frame = Ret sk /\
    read_run demo_turns sk (concat wire) = Ret (sk', [], [[1; 2; 3]; [4]], false).
Proof.
  apply (stream_roundtrip demo_frame demo_writer); [apply demo_frame_ok|done| |apply demo_turns_ok|simpl; lia].
  constructor; [by apply demo_writable|]. constructor; [by apply demo_writable|constructor].
Defined.
