(* ===== verification/Fragment.v ===== *)
(** * Datagram fragmentation (openvpn fragment.c)

    [fragment_outgoing] and [fragment_ready_to_send] cut a datagram into
    parts with a four-byte header each; [fragment_incoming] puts the parts of
    up to [N_FRAG_BUF] datagrams back together.  The [frame] of the C code
    contributes its head room and [max_fragment_size]; the clock [now] is an
    argument. *)

From S2P Require Import Prelude Buffer CircList.
From stdpp Require Import prelude.
From Stdlib Require Import ZArith Lia ZifyBool.

Local Open Scope Z_scope.

(** ** Data *)

Definition N_FRAG_BUF : Z := 25.
Definition N_SEQ_ID : Z := 256.
Definition MAX_FRAGS : Z := 32.
Definition FRAG_TTL_SEC : Z := 10.
Definition FRAG_MAP_MASK : Z := 0xFFFFFFFF.

Definition FRAG_TYPE_MASK : Z := 0x3.
Definition FRAG_WHOLE : Z := 0.
Definition FRAG_YES_NOTLAST : Z := 1.
Definition FRAG_YES_LAST : Z := 2.
Definition FRAG_TEST : Z := 3.
Definition FRAG_SEQ_ID_MASK : Z := 0xff.
Definition FRAG_SEQ_ID_SHIFT : Z := 2.
Definition FRAG_ID_MASK : Z := 0x1f.
Definition FRAG_ID_SHIFT : Z := 10.
Definition FRAG_SIZE_MASK : Z := 0x3fff.
Definition FRAG_SIZE_SHIFT : Z := 15.
Definition FRAG_SIZE_ROUND_SHIFT : Z := 2.
Definition FRAG_SIZE_ROUND_MASK : Z := 3.

Record fragment := mkfrag {
  fr_defined : bool;
  fr_max_frag_size : Z;
  fr_map : Z;
  fr_timestamp : Z;
  fr_buf : buffer
}.

Record fragment_list := mkfl {
  fl_seq_id : Z;
  fl_index : Z;
  fl_fragments : list fragment
}.

Record fragment_master := mkfm {
  fm_outgoing_seq_id : Z;
  fm_outgoing_frag_size : Z;
  fm_outgoing_frag_id : Z;
  fm_outgoing : buffer;
  fm_outgoing_return : buffer;
  fm_incoming : fragment_list
}.

Definition frag_undef (fr : fragment) : fragment :=
  mkfrag false (fr_max_frag_size fr) (fr_map fr) (fr_timestamp fr) (fr_buf fr).
Definition fm_set_incoming (f : fragment_master) (l : fragment_list) : fragment_master :=
  mkfm (fm_outgoing_seq_id f) (fm_outgoing_frag_size f) (fm_outgoing_frag_id f) (fm_outgoing f)
    (fm_outgoing_return f) l.

(** ** Setting up *)

Fixpoint fragment_list_buf_init (n : nat) (buf_size : Z) : outcome (list fragment) :=
  match n with
  | O => Ret []
  | S n' =>
      b ← alloc_buf buf_size;
      rest ← fragment_list_buf_init n' buf_size;
      Ret (mkfrag false 0 0 0 b :: rest)
  end.

(** [random] is the result of get_random. *)
Definition fragment_init (random : Z) : fragment_master :=
  mkfm (Z.land random (N_SEQ_ID - 1)) 0 0 clear_buf clear_buf (mkfl 0 0 []).

Definition fragment_frame_init (f : fragment_master) (buf_size : Z) : outcome fragment_master :=
  frs ← fragment_list_buf_init (Z.to_nat N_FRAG_BUF) buf_size;
  out ← alloc_buf buf_size;
  ret ← alloc_buf buf_size;
  Ret (mkfm (fm_outgoing_seq_id f) (fm_outgoing_frag_size f) (fm_outgoing_frag_id f) out ret
         (mkfl (fl_seq_id (fm_incoming f)) (fl_index (fm_incoming f)) frs)).

(** ** The receive window *)

(** while (diff > 0) *)
Fixpoint frag_advance (n : nat) (l : fragment_list) : outcome fragment_list :=
  match n with
  | O => Ret l
  | S n' =>
      index ← modulo_add (fl_index l) 1 N_FRAG_BUF;
      fr ← arr_get (fl_fragments l) index;
      frs ← arr_set (fl_fragments l) index (frag_undef fr);
      seq ← modulo_add (fl_seq_id l) 1 N_SEQ_ID;
      frag_advance n' (mkfl seq index frs)
  end.

(** The result is the list and the index of the fragment buffer. *)
Definition fragment_list_get_buf (l : fragment_list) (seq_id : Z) : outcome (fragment_list * Z) :=
  diff ← modulo_subtract seq_id (fl_seq_id l) N_SEQ_ID;
  let '(l, diff) :=
    if N_FRAG_BUF <=? Z.abs diff then (mkfl seq_id 0 (map frag_undef (fl_fragments l)), 0) else (l, diff) in
  l ← frag_advance (Z.to_nat diff) l;
  i ← modulo_add (fl_index l) (if 0 <? diff then 0 else diff) N_FRAG_BUF;
  Ret (l, i).

(** ** Receiving *)

(** The part of [fragment_incoming] for a fragment; the result is the slot's
    new state and the buffer handed on, [None] on FRAG_ERR. *)
Definition fragment_store (now headroom : Z) (last : bool) (n size : Z) (fr : fragment) (buf : buffer)
  : outcome (fragment * option buffer) :=
  if negb (Z.land size FRAG_SIZE_ROUND_MASK =? 0) then Ret (fr, None)
  else
    fr ← (if negb (fr_defined fr) || negb (fr_max_frag_size fr =? size) then
            let '(b, ok) := buf_init (fr_buf fr) headroom in
            ASSERT ok;; Ret (mkfrag true size 0 (fr_timestamp fr) b)
          else Ret fr);
    '(b, ok) ← buf_copy_range (fr_buf fr) (n * size) buf 0 (blen buf);
    if negb ok then Ret (mkfrag (fr_defined fr) (fr_max_frag_size fr) (fr_map fr) (fr_timestamp fr) b, None)
    else
      let map := Z.lor (fr_map fr) (u32 (Z.shiftl (if last then FRAG_MAP_MASK else 1) n)) in
      if Z.land map FRAG_MAP_MASK =? FRAG_MAP_MASK then
        Ret (mkfrag false (fr_max_frag_size fr) map now b, Some b)
      else Ret (mkfrag (fr_defined fr) (fr_max_frag_size fr) map now b, Some (set_len buf 0)).

Definition fragment_incoming (now headroom : Z) (f : fragment_master) (buf : buffer)
  : outcome (fragment_master * buffer) :=
  if blen buf <=? 0 then Ret (f, buf)
  else
    '(buf, flags) ← buf_read buf 4;
    match flags with
    | None => Ret (f, set_len buf 0)
    | Some flags =>
        let flags := be_val flags in
        let frag_type := Z.land flags FRAG_TYPE_MASK in
        if frag_type =? FRAG_WHOLE then
          if negb (Z.land flags (Z.lor FRAG_SEQ_ID_MASK FRAG_ID_MASK) =? 0) then Ret (f, set_len buf 0)
          else Ret (f, buf)
        else if (frag_type =? FRAG_YES_NOTLAST) || (frag_type =? FRAG_YES_LAST) then
          let seq_id := Z.land (Z.shiftr flags FRAG_SEQ_ID_SHIFT) FRAG_SEQ_ID_MASK in
          let n := Z.land (Z.shiftr flags FRAG_ID_SHIFT) FRAG_ID_MASK in
          let last := frag_type =? FRAG_YES_LAST in
          let size := if last
            then Z.shiftl (Z.land (Z.shiftr flags FRAG_SIZE_SHIFT) FRAG_SIZE_MASK) FRAG_SIZE_ROUND_SHIFT
            else blen buf in
          '(l, i) ← fragment_list_get_buf (fm_incoming f) seq_id;
          fr ← arr_get (fl_fragments l) i;
          '(fr, out) ← fragment_store now headroom last n size fr buf;
          frs ← arr_set (fl_fragments l) i fr;
          Ret (fm_set_incoming f (mkfl (fl_seq_id l) (fl_index l) frs),
               match out with Some b => b | None => set_len buf 0 end)
        else Ret (f, set_len buf 0)
    end.

(** ** Sending *)

Definition fragment_flags (type seq_id frag_id frag_size : Z) : Z :=
  let flags := Z.lor (Z.lor (Z.land type FRAG_TYPE_MASK)
                        (Z.shiftl (Z.land seq_id FRAG_SEQ_ID_MASK) FRAG_SEQ_ID_SHIFT))
                     (Z.shiftl (Z.land frag_id FRAG_ID_MASK) FRAG_ID_SHIFT) in
  if (type =? FRAG_WHOLE) || (type =? FRAG_YES_NOTLAST) then flags
  else Z.lor flags (Z.shiftl (Z.land (Z.shiftr frag_size FRAG_SIZE_ROUND_SHIFT) FRAG_SIZE_MASK) FRAG_SIZE_SHIFT).

Definition fragment_prepend_flags (buf : buffer) (type seq_id frag_id frag_size : Z) : outcome buffer :=
  '(buf, ok) ← buf_write_prepend buf (be_bytes 4 (u32 (fragment_flags type seq_id frag_id frag_size)));
  ASSERT ok;; Ret buf.

(** C's [/] and [%] truncate; the arguments are not negative.  A zero divisor
    is undefined behaviour. *)
Definition optimal_fragment_size (len max_frag_size : Z) : outcome Z :=
  let mfs_aligned := Z.land max_frag_size (Z.lnot FRAG_SIZE_ROUND_MASK) in
  if mfs_aligned =? 0 then Fault
  else
    let div := Z.quot len mfs_aligned in
    let md := Z.rem len mfs_aligned in
    if (0 <? div) && (0 <? md) && (md <? Z.quot (mfs_aligned * 3) 4) then
      Ret (min_int mfs_aligned
             (Z.land (max_frag_size - Z.quot (max_frag_size - md) (div + 1) + FRAG_SIZE_ROUND_MASK)
                     (Z.lnot FRAG_SIZE_ROUND_MASK)))
    else Ret mfs_aligned.

Definition fragment_outgoing_defined (f : fragment_master) : bool := 0 <? blen (fm_outgoing f).

(** [None]: nothing to send.  The returned buffer shares [outgoing_return]'s
    memory, which is initialised anew for every fragment. *)
Definition fragment_ready_to_send (headroom : Z) (f : fragment_master) : outcome (fragment_master * option buffer) :=
  if fragment_outgoing_defined f then
    let last := blen (fm_outgoing f) <=? fm_outgoing_frag_size f in
    let size := if last then blen (fm_outgoing f) else fm_outgoing_frag_size f in
    let '(buf, ok) := buf_init (fm_outgoing_return f) headroom in
    ASSERT ok;;
    '(buf, out, ok) ← buf_copy_n buf (fm_outgoing f) size;
    ASSERT ok;;
    buf ← fragment_prepend_flags buf (if last then FRAG_YES_LAST else FRAG_YES_NOTLAST)
            (fm_outgoing_seq_id f) (fm_outgoing_frag_id f) (fm_outgoing_frag_size f);
    ASSERT (negb last || (blen out =? 0));;
    Ret (mkfm (fm_outgoing_seq_id f) (fm_outgoing_frag_size f) (fm_outgoing_frag_id f + 1) out
           (fm_outgoing_return f) (fm_incoming f), Some buf)
  else Ret (f, None).

Definition fragment_outgoing (headroom max_fragment_size : Z) (f : fragment_master) (buf : buffer)
  : outcome (fragment_master * buffer) :=
  if blen buf <=? 0 then Ret (f, buf)
  else if max_fragment_size <? blen buf then
    size ← optimal_fragment_size (blen buf) max_fragment_size;
    let f := mkfm (fm_outgoing_seq_id f) size (fm_outgoing_frag_id f) (fm_outgoing f) (fm_outgoing_return f)
               (fm_incoming f) in
    if size * MAX_FRAGS <? blen buf then Ret (f, set_len buf 0)
    else
      let '(out, ok) := buf_init (fm_outgoing f) headroom in
      ASSERT ok;;
      '(out, ok) ← buf_copy out buf;
      ASSERT ok;;
      seq ← modulo_add (fm_outgoing_seq_id f) 1 N_SEQ_ID;
      '(f, b) ← fragment_ready_to_send headroom (mkfm seq size 0 out (fm_outgoing_return f) (fm_incoming f));
      match b with
      | None => Abort
      | Some b => Ret (f, b)
      end
  else
    buf ← fragment_prepend_flags buf FRAG_WHOLE 0 0 0;
    Ret (f, buf).

(** ** Streams of packets *)

(** The packets of one datagram: [fragment_outgoing], then
    [fragment_ready_to_send] while there is something to send; [MAX_FRAGS]
    rounds are enough. *)
Fixpoint fragment_drain (fuel : nat) (headroom : Z) (f : fragment_master) : outcome (fragment_master * list buffer) :=
  match fuel with
  | O => if fragment_outgoing_defined f then Abort else Ret (f, [])
  | S fuel' =>
      '(f, b) ← fragment_ready_to_send headroom f;
      match b with
      | None => Ret (f, [])
      | Some b => '(f, bs) ← fragment_drain fuel' headroom f; Ret (f, b :: bs)
      end
  end.

Definition fragment_send (headroom max_fragment_size : Z) (f : fragment_master) (buf : buffer)
  : outcome (fragment_master * list buffer) :=
  '(f, b) ← fragment_outgoing headroom max_fragment_size f buf;
  '(f, bs) ← fragment_drain (Z.to_nat MAX_FRAGS) headroom f;
  Ret (f, b :: bs).

(** The receiver fed with packets one after the other. *)
Fixpoint fragment_receive (now headroom : Z) (f : fragment_master) (bs : list buffer)
  : outcome (fragment_master * list buffer) :=
  match bs with
  | [] => Ret (f, [])
  | b :: bs' =>
      '(f, out) ← fragment_incoming now headroom f b;
      '(f, outs) ← fragment_receive now headroom f bs';
      Ret (f, out :: outs)
  end.

(** ** Housekeeping *)

Definition frag_reap (now : Z) (fr : fragment) : fragment :=
  if fr_defined fr && (fr_timestamp fr + FRAG_TTL_SEC <=? now) then frag_undef fr else fr.
Definition fragment_ttl_reap (now : Z) (f : fragment_master) : fragment_master :=
  fm_set_incoming f (mkfl (fl_seq_id (fm_incoming f)) (fl_index (fm_incoming f))
                       (map (frag_reap now) (fl_fragments (fm_incoming f)))).
Definition fragment_wakeup (now : Z) (f : fragment_master) : fragment_master := fragment_ttl_reap now f.

(** ** Headers *)

Lemma land_round x : Z.land x (Z.lnot FRAG_SIZE_ROUND_MASK) = x - x mod 4.
Proof.
  change (Z.lnot FRAG_SIZE_ROUND_MASK) with (Z.lnot (Z.ones 2)). rewrite <- Z.ldiff_land.
  rewrite Z.ldiff_ones_r, Z.shiftl_mul_pow2, Z.shiftr_div_pow2 by lia. change (2 ^ 2) with 4. mlia.
Qed.

(** A fragment's header as a number. *)
Lemma fragment_flags_value type seq id size :
  (type = FRAG_YES_NOTLAST \/ type = FRAG_YES_LAST) -> 0 <= seq < 256 -> 0 <= id < 32 ->
  0 <= size < 65536 -> size mod 4 = 0 ->
  fragment_flags type seq id size
    = type + 4 * seq + 1024 * id + (if type =? FRAG_YES_LAST then 8192 * size else 0).
Proof.
  intros Ht Hseq Hid Hsize Hmod. unfold fragment_flags.
  rewrite (land_low seq 8), (land_low id 5), (land_low type 2) by done.
  rewrite !Z.mod_small by (destruct Ht; subst; unfold FRAG_YES_NOTLAST, FRAG_YES_LAST; lia).
  unfold FRAG_SEQ_ID_SHIFT, FRAG_ID_SHIFT, FRAG_SIZE_SHIFT, FRAG_WHOLE, FRAG_YES_NOTLAST, FRAG_YES_LAST, FRAG_SIZE_ROUND_SHIFT in *.
  rewrite (lor_field type), (lor_field (type + _)) by lia.
  destruct Ht as [-> | ->]; simpl; [lia|].
  rewrite (land_field size 2 14) by done. change (2 ^ 2) with 4. change (2 ^ 14) with 16384.
  rewrite Z.mod_small by mlia. rewrite lor_field by lia. mlia.
Qed.

(** The fields [fragment_incoming] extracts. *)
Definition hdr_type (flags : Z) : Z := Z.land flags FRAG_TYPE_MASK.
Definition hdr_seq (flags : Z) : Z := Z.land (Z.shiftr flags FRAG_SEQ_ID_SHIFT) FRAG_SEQ_ID_MASK.
Definition hdr_id (flags : Z) : Z := Z.land (Z.shiftr flags FRAG_ID_SHIFT) FRAG_ID_MASK.
Definition hdr_size (flags : Z) : Z :=
  Z.shiftl (Z.land (Z.shiftr flags FRAG_SIZE_SHIFT) FRAG_SIZE_MASK) FRAG_SIZE_ROUND_SHIFT.

Lemma header_fields type seq id size :
  (type = FRAG_YES_NOTLAST \/ type = FRAG_YES_LAST) -> 0 <= seq < 256 -> 0 <= id < 32 ->
  0 <= size < 65536 -> size mod 4 = 0 ->
  let w := fragment_flags type seq id size in
  0 <= w < 2 ^ 32 /\ hdr_type w = type /\ hdr_seq w = seq /\ hdr_id w = id /\
  (type = FRAG_YES_LAST -> hdr_size w = size).
Proof.
  intros Ht Hseq Hid Hsize Hmod w. subst w. rewrite fragment_flags_value by done.
  unfold hdr_type, hdr_seq, hdr_id, hdr_size, FRAG_SEQ_ID_SHIFT, FRAG_ID_SHIFT, FRAG_SIZE_SHIFT, FRAG_SIZE_ROUND_SHIFT.
  rewrite (land_low _ 2), (land_field _ 2 8), (land_field _ 10 5), (land_field _ 15 14), Z.shiftl_mul_pow2 by done.
  unfold FRAG_YES_NOTLAST, FRAG_YES_LAST in *.
  change (2 ^ 2) with 4. change (2 ^ 8) with 256. change (2 ^ 10) with 1024. change (2 ^ 5) with 32.
  change (2 ^ 15) with 32768. change (2 ^ 14) with 16384. change (2 ^ 32) with 4294967296.
  destruct Ht as [-> | ->]; simpl; (split_and!; [mlia..|]); intros; mlia.
Qed.

(** Every extracted field is in range. *)
Lemma header_ranges w :
  0 <= hdr_seq w < N_SEQ_ID /\ 0 <= hdr_id w < MAX_FRAGS /\ 0 <= hdr_size w < 65536 /\ hdr_size w mod 4 = 0.
Proof.
  unfold hdr_seq, hdr_id, hdr_size, FRAG_SEQ_ID_SHIFT, FRAG_ID_SHIFT, FRAG_SIZE_SHIFT, FRAG_SIZE_ROUND_SHIFT,
    N_SEQ_ID, MAX_FRAGS.
  rewrite (land_field _ 2 8), (land_field _ 10 5), (land_field _ 15 14), Z.shiftl_mul_pow2 by done.
  change (2 ^ 8) with 256. change (2 ^ 5) with 32. change (2 ^ 14) with 16384. change (2 ^ 2) with 4.
  split_and!; mlia.
Qed.

Lemma round_mask x : 0 <= x -> (Z.land x FRAG_SIZE_ROUND_MASK =? 0) = (x mod 4 =? 0).
Proof. intros. by rewrite (land_low x 2) by done. Qed.

(** ** Fragment sizes *)

(** Number of parts of size [s] a datagram of [len] bytes is cut into. *)
Definition n_frags (len s : Z) : Z := (len + s - 1) / s.

Lemma n_frags_unique len s k : 0 < s -> s * (k - 1) < len <= s * k -> n_frags len s = k.
Proof. intros Hs Hk. unfold n_frags. symmetry. apply (Z.div_unique _ _ _ (len + s - 1 - s * k)); nia. Qed.

Lemma n_frags_bounds len s : 0 < s -> 0 < len -> s * (n_frags len s - 1) < len <= s * n_frags len s /\ 0 < n_frags len s.
Proof.
  intros Hs Hl. unfold n_frags. pose proof (Z.div_mod (len + s - 1) s). pose proof (Z.mod_pos_bound (len + s - 1) s). nia.
Qed.

Lemma optimal_fragment_size_spec len m :
  0 < len -> 4 <= m ->
  exists s, optimal_fragment_size len m = Ret s /\ 0 < s <= m /\ s mod 4 = 0 /\
    n_frags len s = n_frags len (m - m mod 4).
Proof.
  intros Hlen Hm. unfold optimal_fragment_size. rewrite !land_round. set (a := m - m mod 4).
  assert (Ha : 4 <= a <= m /\ a mod 4 = 0) by (unfold a; mlia).
  destruct (a =? 0) eqn:E; [lia|]. clear E.
  rewrite !Z.quot_div_nonneg, Z.rem_mod_nonneg by lia.
  set (div := len / a). set (md := len mod a).
  assert (Hdm : len = a * div + md /\ 0 <= md < a /\ 0 <= div).
  { unfold div, md. pose proof (Z.div_mod len a). pose proof (Z.mod_pos_bound len a).
    pose proof (Z.div_pos len a). lia. }
  clearbody div md. destruct (_ && _) eqn:E; [|exists a; by split_and!; try lia].
  rewrite Z.quot_div_nonneg by lia. unfold FRAG_SIZE_ROUND_MASK.
  set (q := (m - md) / (div + 1)).
  assert (Hq : q * (div + 1) <= m - md /\ 0 <= q).
  { unfold q. pose proof (Z.mul_div_le (m - md) (div + 1)). pose proof (Z.div_pos (m - md) (div + 1)). lia. }
  clearbody q. set (x := m - q). assert (Hx : len <= x * (div + 1) /\ 0 < x) by (unfold x; nia).
  clearbody x. set (r := x + 3 - (x + 3) mod 4).
  assert (Hr : x <= r /\ r mod 4 = 0) by (unfold r; mlia).
  clearbody r. exists (min_int a r).
  assert (Hs : 0 < min_int a r <= a /\ (min_int a r = a \/ min_int a r = r) /\ min_int a r mod 4 = 0)
    by (unfold min_int; destruct (a <? r) eqn:?; lia).
  destruct Hs as (Hs1 & Hs2 & Hs3). set (s := min_int a r) in *. clearbody s.
  split_and!; try done; try lia.
  rewrite (n_frags_unique len a (div + 1)), (n_frags_unique len s (div + 1)); nia.
Qed.

(** [optimal_fragment_size] gives a size that fits the limit and the
    header's granularity, and, as its comment promises, does not change the
    number of fragments: it is the number that the largest aligned size
    needs. *)
Theorem optimal_fragment_size_keeps_count len max_frag_size :
  0 < len -> 4 <= max_frag_size ->
  exists s, optimal_fragment_size len max_frag_size = Ret s /\ 0 < s <= max_frag_size /\ s mod 4 = 0 /\
    n_frags len s = n_frags len (max_frag_size - max_frag_size mod 4).
Proof. apply optimal_fragment_size_spec. Qed.

Lemma optimal_fragment_size_keeps_count_witness :
  exists s, optimal_fragment_size 1400 1001 = Ret s /\ 0 < s <= 1001 /\ s mod 4 = 0 /\
    n_frags 1400 s = n_frags 1400 (1001 - 1001 mod 4).
Proof. apply (optimal_fragment_size_keeps_count 1400 1001); lia. Defined.

Example optimal_1400 : optimal_fragment_size 1400 1001 = Ret 704.
Proof. reflexivity. Qed.

(** ** The receive window *)

Record fl_wf (cap : Z) (l : fragment_list) : Prop := {
  lw_seq : 0 <= fl_seq_id l < N_SEQ_ID;
  lw_index : 0 <= fl_index l < N_FRAG_BUF;
  lw_len : zlen (fl_fragments l) = N_FRAG_BUF;
  lw_bufs : Forall (λ fr, exists hd c tl, holds (fr_buf fr) hd c tl /\ hd + zlen c + tl = cap) (fl_fragments l)
}.

Lemma modulo_add_spec x y md :
  0 <= x < md -> - md <= y <= md ->
  exists z, modulo_add x y md = Ret z /\ 0 <= z < md /\ z = (x + y) mod md.
Proof.
  intros Hx Hy. unfold modulo_add. rewrite ASSERT_true by lia. cbn [mbind outcome_bind].
  eexists; split; [done|].
  destruct (md <=? x + y) eqn:E1.
  - destruct (x + y - md <? 0) eqn:E2; [lia|]. split; [lia|]. apply (Z.mod_unique _ _ 1); lia.
  - destruct (x + y <? 0) eqn:E2.
    + split; [lia|]. apply (Z.mod_unique _ _ (-1)); lia.
    + split; [lia|]. rewrite Z.mod_small; lia.
Qed.

Lemma modulo_subtract_spec x y md :
  0 <= x < md -> 0 <= y < md ->
  exists d, modulo_subtract x y md = Ret d /\ (y + d) mod md = x /\ Z.abs d * 2 <= md.
Proof.
  intros Hx Hy. unfold modulo_subtract. rewrite ASSERT_true by lia. cbn [mbind outcome_bind].
  assert (Hm : forall q, (x + q * md) mod md = x) by (intros q; rewrite Z.mod_add, Z.mod_small; lia).
  set (d2 := (if y <? x then - md else md) + (x - y)).
  assert (Hd2 : (y < x /\ d2 = x - y - md) \/ (x <= y /\ d2 = x - y + md)).
  { unfold d2. destruct (y <? x) eqn:E; [left|right]; lia. }
  clearbody d2. eexists; split; [done|]. destruct (Z.abs d2 <? Z.abs (x - y)) eqn:E; (split; [|lia]).
  - destruct Hd2 as [[_ ->]|[_ ->]]; [rewrite <- (Hm (-1)) at 2|rewrite <- (Hm 1) at 2]; f_equal; lia.
  - rewrite <- (Hm 0) at 2. f_equal. lia.
Qed.

Lemma fl_wf_set cap l i fr :
  fl_wf cap l -> (exists hd c tl, holds (fr_buf fr) hd c tl /\ hd + zlen c + tl = cap) ->
  fl_wf cap (mkfl (fl_seq_id l) (fl_index l) (<[Z.to_nat i := fr]> (fl_fragments l))).
Proof.
  intros [] Hb. split; simpl; try done; [by rewrite length_insert|].
  rewrite list_insert_alter. destruct (decide (Z.to_nat i < length (fl_fragments l))%nat) as [Hi|Hi].
  - apply Forall_lookup. intros j x Hx. rewrite <- list_insert_alter in Hx.
    destruct (decide (j = Z.to_nat i)) as [->|Hne].
    + rewrite list_lookup_insert_eq in Hx by done. by simplify_eq.
    + rewrite list_lookup_insert_ne in Hx by done. rewrite Forall_lookup in lw_bufs0. eauto.
  - rewrite <- list_insert_alter. by rewrite list_insert_ge by lia.
Qed.

(** The newest slot holds nothing. *)
Definition newest_free (l : fragment_list) : Prop :=
  exists fr, fl_fragments l !! Z.to_nat (fl_index l) = Some fr /\ fr_defined fr = false.

(** Advancing moves the newest slot and forgets what it held. *)
Lemma frag_advance_spec cap n : forall l,
  fl_wf cap l -> exists l', frag_advance n l = Ret l' /\ fl_wf cap l' /\
    fl_seq_id l' = (fl_seq_id l + Z.of_nat n) mod N_SEQ_ID /\
    ((n > 0)%nat \/ newest_free l -> newest_free l').
Proof.
  unfold N_SEQ_ID. induction n as [|n IH]; intros l Hw; pose proof Hw as [Hs Hi Hl Hb]; unfold N_SEQ_ID, N_FRAG_BUF in *.
  { exists l. split; [done|]. split; [done|]. split; [|intros [?|?]; [lia|done]]. rewrite Z.add_0_r, Z.mod_small; lia. }
  cbn [frag_advance]. unfold N_SEQ_ID, N_FRAG_BUF.
  destruct (modulo_add_spec (fl_index l) 1 25) as (ix & -> & Hix & _); [lia|lia|]. cbn [mbind outcome_bind].
  destruct (arr_get_returns (fl_fragments l) ix) as (fr & -> & Hfr); [lia|]. cbn [mbind outcome_bind].
  rewrite arr_set_Ret by lia. cbn [mbind outcome_bind].
  destruct (modulo_add_spec (fl_seq_id l) 1 256) as (sq & -> & Hsq & Hsqm); [lia|lia|]. cbn [mbind outcome_bind].
  set (l1 := mkfl sq ix (<[Z.to_nat ix := frag_undef fr]> (fl_fragments l))).
  assert (Hw1 : fl_wf cap l1).
  { rewrite Forall_lookup in Hb. pose proof (Hb _ _ Hfr) as Hbf.
    destruct (fl_wf_set cap l ix (frag_undef fr) Hw Hbf). split; simpl in *; unfold N_SEQ_ID, N_FRAG_BUF; try done; lia. }
  assert (Hfree : newest_free l1).
  { exists (frag_undef fr). simpl. split; [|done]. rewrite list_lookup_insert_eq; [done|lia]. }
  destruct (IH l1 Hw1) as (l' & -> & Hw' & Hseq' & Hund). exists l'. split; [done|]. split; [done|]. split; [|auto].
  rewrite Hseq'. simpl. rewrite Hsqm, Zplus_mod_idemp_l. f_equal. lia.
Qed.

(** [fragment_list_get_buf] returns a slot; asking again for the same number,
    whatever was stored meanwhile, returns the same slot and moves nothing. *)
Lemma get_buf_spec cap l seq :
  fl_wf cap l -> 0 <= seq < N_SEQ_ID ->
  exists l' i fr, fragment_list_get_buf l seq = Ret (l', i) /\ fl_wf cap l' /\ 0 <= i < N_FRAG_BUF /\
    fl_fragments l' !! Z.to_nat i = Some fr /\
    forall frs, fragment_list_get_buf (mkfl (fl_seq_id l') (fl_index l') frs) seq
      = Ret (mkfl (fl_seq_id l') (fl_index l') frs, i).
Proof.
  intros Hw Hseq. pose proof Hw as [Hs Hi Hl Hb]. unfold fragment_list_get_buf, N_SEQ_ID, N_FRAG_BUF in *.
  destruct (modulo_subtract_spec seq (fl_seq_id l) 256) as (d & Hsub & Hd & Hab); [lia|lia|].
  rewrite Hsub. cbn [mbind outcome_bind].
  assert (Hlook : forall l' i, fl_wf cap l' -> 0 <= i < 25 -> exists fr, fl_fragments l' !! Z.to_nat i = Some fr).
  { intros l' i [_ _ Hl' _] Hi'. unfold N_FRAG_BUF in Hl'. apply lookup_lt_is_Some_2. lia. }
  assert (Hself : forall l', fl_wf cap l' -> fl_seq_id l' = seq -> forall frs,
    (diff ← modulo_subtract seq (fl_seq_id l') 256;
     (let '(l0, diff0) := if 25 <=? Z.abs diff then (mkfl seq 0 (map frag_undef frs), 0)
        else (mkfl (fl_seq_id l') (fl_index l') frs, diff) in
      l1 ← frag_advance (Z.to_nat diff0) l0;
      i ← modulo_add (fl_index l1) (if 0 <? diff0 then 0 else diff0) 25; Ret (l1, i)))
    = Ret (mkfl (fl_seq_id l') (fl_index l') frs, fl_index l')).
  { intros l' [_ Hi' _ _] -> frs. unfold N_FRAG_BUF in Hi'. unfold modulo_subtract at 1. rewrite ASSERT_true by lia.
    cbn [mbind outcome_bind]. replace (seq - seq) with 0 by lia. rewrite Z.ltb_irrefl, Z.add_0_r.
    change (Z.abs 0) with 0. destruct (Z.abs 256 <? 0) eqn:E; [lia|].
    change (25 <=? Z.abs 0) with false. cbv iota. change (Z.to_nat 0) with 0%nat. cbn [frag_advance mbind outcome_bind fl_index].
    change (if 0 <? 0 then 0 else 0) with 0.
    destruct (modulo_add_spec (fl_index l') 0 25) as (z & -> & _ & Hz); [lia|lia|]. cbn [mbind outcome_bind].
    rewrite Hz, Z.add_0_r, Z.mod_small by lia. done. }
  destruct (25 <=? Z.abs d) eqn:E1.
  - set (l1 := mkfl seq 0 (map frag_undef (fl_fragments l))).
    assert (Hw1 : fl_wf cap l1).
    { split; simpl; unfold N_SEQ_ID, N_FRAG_BUF; try lia; [by rewrite length_map|].
      apply Forall_fmap. eapply Forall_impl; [exact Hb|]. done. }
    change (Z.to_nat 0) with 0%nat. cbn [frag_advance mbind outcome_bind].
    destruct (modulo_add_spec (fl_index l1) 0 25) as (z & Hz1 & Hz2 & Hz); [simpl; lia|lia|].
    change (if 0 <? 0 then 0 else 0) with 0. rewrite Hz1. cbn [mbind outcome_bind].
    assert (z = fl_index l1) as -> by (rewrite Hz, Z.add_0_r, Z.mod_small; simpl; lia).
    destruct (Hlook l1 (fl_index l1) Hw1 Hz2) as [fr Hfr]. exists l1, (fl_index l1), fr.
    split_and!; try done; try lia. intros frs. exact (Hself l1 Hw1 eq_refl frs).
  - destruct (0 <? d) eqn:E2.
    + destruct (frag_advance_spec cap (Z.to_nat d) l Hw) as (l' & -> & Hw' & Hsq & _). cbn [mbind outcome_bind].
      pose proof Hw' as [_ Hi' _ _]. unfold N_FRAG_BUF, N_SEQ_ID in *.
      destruct (modulo_add_spec (fl_index l') 0 25) as (z & -> & Hz2 & Hz); [lia|lia|]. cbn [mbind outcome_bind].
      assert (z = fl_index l') as -> by (rewrite Hz, Z.add_0_r, Z.mod_small; lia).
      destruct (Hlook l' (fl_index l') Hw' Hz2) as [fr Hfr]. exists l', (fl_index l'), fr.
      split_and!; try done; try lia. intros frs.
      refine (Hself l' Hw' _ frs). rewrite Hsq, Z2Nat.id by lia. done.
    + replace (Z.to_nat d) with 0%nat by lia. cbn [frag_advance mbind outcome_bind].
      destruct (modulo_add_spec (fl_index l) d 25) as (z & Hz1 & Hz2 & Hz); [lia|lia|]. rewrite Hz1. cbn [mbind outcome_bind].
      destruct (Hlook l z Hw Hz2) as [fr Hfr]. exists l, z, fr. split_and!; try done; try lia.
      intros frs. cbn [fl_seq_id]. rewrite Hsub. cbn [mbind outcome_bind]. rewrite E1.
      replace (Z.to_nat d) with 0%nat by lia. cbn [frag_advance mbind outcome_bind fl_index]. by rewrite E2, Hz1.
Qed.

(** ** The reassembly map *)

Definition map_full (m : Z) : Prop := forall i, 0 <= i < MAX_FRAGS -> Z.testbit m i = true.

Lemma map_full_spec m :
  0 <= m < 2 ^ 32 -> (Z.land m FRAG_MAP_MASK =? FRAG_MAP_MASK) = true <-> map_full m.
Proof.
  intros Hm. change FRAG_MAP_MASK with (Z.ones 32). rewrite Z.land_ones, Z.mod_small by lia. rewrite Z.eqb_eq. split.
  - intros -> i Hi. unfold MAX_FRAGS in Hi. apply Z.ones_spec_low. lia.
  - intros Hf. apply Z.bits_inj'. intros i Hi. destruct (decide (i < 32)).
    + rewrite Hf by (unfold MAX_FRAGS; lia). by rewrite Z.ones_spec_low by lia.
    + rewrite Z.ones_spec_high by lia. rewrite <- (Z.mod_small m (2 ^ 32)) by lia. by rewrite Z.mod_pow2_bits_high by lia.
Qed.

(** The bits one fragment adds: its own, and for the last one all above. *)
Lemma map_bits (last : bool) n i :
  0 <= n < MAX_FRAGS -> 0 <= i < MAX_FRAGS ->
  Z.testbit (u32 (Z.shiftl (if last then FRAG_MAP_MASK else 1) n)) i = if last then n <=? i else n =? i.
Proof.
  intros Hn Hi. unfold MAX_FRAGS in *. unfold u32. rewrite Z.mod_pow2_bits_low, Z.shiftl_spec by lia. destruct last.
  - change FRAG_MAP_MASK with (Z.ones 32). destruct (n <=? i) eqn:E.
    + apply Z.ones_spec_low. lia.
    + apply Z.testbit_neg_r. lia.
  - destruct (n =? i) eqn:E.
    + by replace (i - n) with 0 by lia.
    + destruct (decide (i < n)); [apply Z.testbit_neg_r; lia|]. apply (Z.bits_above_log2 1); simpl; lia.
Qed.

Lemma lor_u32_range a b : 0 <= a < 2 ^ 32 -> 0 <= Z.lor a (u32 b) < 2 ^ 32.
Proof.
  intros Ha. pose proof (u32_range b) as Hb.
  assert (H : Z.lor a (u32 b) = Z.lor a (u32 b) mod 2 ^ 32).
  { apply Z.bits_inj'. intros i Hi. destruct (decide (i < 32)).
    - by rewrite Z.mod_pow2_bits_low by lia.
    - rewrite (Z.mod_pow2_bits_high _ 32) by lia. rewrite Z.lor_spec.
      rewrite <- (Z.mod_small a (2 ^ 32)), <- (Z.mod_small (u32 b) (2 ^ 32)) by lia.
      by rewrite !Z.mod_pow2_bits_high by lia. }
  rewrite H. apply Z.mod_pos_bound. lia.
Qed.

(** ** Reassembling one datagram *)

Lemma BUF_SIZE_int : 2 * BUF_SIZE_MAX < 2 ^ 31.
Proof. done. Qed.

(** Writing the payload of [src] into a buffer at [di]. *)
Lemma buf_copy_range_spec dst blk src hd' c tl' di :
  buf_ok dst blk -> holds src hd' c tl' -> 0 <= di -> boffset dst + di + zlen c <= bcapacity dst ->
  exists dst', buf_copy_range dst di src 0 (blen src) = Ret (dst', true) /\
    buf_ok dst' (splice blk (boffset dst + di) c) /\ boffset dst' = boffset dst /\
    bcapacity dst' = bcapacity dst /\ blen dst' = Z.max (blen dst) (di + zlen c).
Proof.
  intros Hok Hs Hdi Hfit. holds_facts Hs. destruct Hs as (sblk & Hsok & Hso & Hsc & _).
  pose proof Hok as [Hd1 Ho1 Hl1 Hc1 Hb1 Hm1 Hby1]. pose proof BUF_SIZE_int as Hint. unfold buf_copy_range. rewrite Z.add_0_r.
  destruct (_ || _) eqn:E; [lia|]. clear E. rewrite (int_add_Ret 0 (blen src)) by lia. cbn [mbind outcome_bind].
  destruct (_ || _) eqn:E; [lia|]. clear E. rewrite (int_add_Ret (boffset dst) di) by lia. cbn [mbind outcome_bind]. rewrite (int_add_Ret (boffset dst + di) (blen src)) by lia. cbn [mbind outcome_bind].
  rewrite (proj2 (Z.ltb_ge _ _)) by lia. unfold peek. rewrite (ok_data _ _ Hsok). pose proof Hsok as [Hd2 Ho2 Hl2 Hc2 Hb2 Hm2 Hby2].
  rewrite mem_read_Ret by lia. cbn [mbind outcome_bind].
  rewrite <- (buf_ok_content _ _ Hsok), Hsc.
  destruct (poke_ok dst blk (boffset dst + di) c Hok) as [-> Hok']; [lia|lia|done|]. cbn [mbind outcome_bind]. rewrite (int_add_Ret di (blen src)) by lia. cbn [mbind outcome_bind].
  eexists. split; [done|]. replace (blen src) with (zlen c) by lia. cbn [set_data blen].
  destruct (blen dst <? di + zlen c) eqn:E; (split; [|simpl; split_and!; try done; lia]).
  - destruct Hok' as [Hd3 Ho3 Hl3 Hc3 Hb3 Hm3 Hby3]. split; simpl in *; try done; lia.
  - done.
Qed.

Section reassembly.
Context (cap hr s : Z) (d : bytes).
(** [s] is the fragment size, [k] the number of fragments. *)
Let L := zlen d.
Let k := n_frags L s.
Hypotheses (Hs : 0 < s) (Hs4 : s mod 4 = 0) (HL : 0 < L) (Hk : k <= MAX_FRAGS) (Hhr : 0 <= hr)
  (Hcap : hr + L <= cap).

Definition chunk (j : Z) : bytes := slice d (j * s) (Z.min s (L - j * s)).

(** What a slot holds after the fragments of [seen] arrived. *)
Record holding (seen : list Z) (fr : fragment) : Prop := {
  hd_def : fr_defined fr = true;
  hd_size : fr_max_frag_size fr = s;
  hd_maprange : 0 <= fr_map fr < 2 ^ 32;
  hd_map : forall i, 0 <= i < MAX_FRAGS -> Z.testbit (fr_map fr) i = true <-> (i ∈ seen \/ (k - 1 ∈ seen /\ k - 1 <= i));
  hd_buf : exists blk, buf_ok (fr_buf fr) blk /\ bcapacity (fr_buf fr) = cap /\ boffset (fr_buf fr) = hr /\
    0 <= blen (fr_buf fr) <= L /\ (k - 1 ∈ seen -> blen (fr_buf fr) = L) /\
    forall p, 0 <= p < L -> p / s ∈ seen -> blk !! Z.to_nat (hr + p) = d !! Z.to_nat p
}.

Lemma k_bounds : s * (k - 1) < L <= s * k /\ 0 < k.
Proof. by apply n_frags_bounds. Qed.

Lemma zlen_chunk j : 0 <= j < k -> zlen (chunk j) = Z.min s (L - j * s) /\ 0 < zlen (chunk j).
Proof.
  intros Hj. pose proof k_bounds. unfold chunk. rewrite zlen_slice by (fold L; nia). nia.
Qed.

Lemma lookup_chunk j (p : Z) : 0 <= j < k -> 0 <= p < L -> p / s = j ->
  chunk j !! Z.to_nat (p - j * s) = d !! Z.to_nat p.
Proof.
  intros Hj Hp Hd. unfold chunk. rewrite lookup_slice.
  pose proof (Z.div_mod p s). pose proof (Z.mod_pos_bound p s).
  case_decide; [|lia]. f_equal. nia.
Qed.

(** A fragment's position in the datagram. *)
Lemma pos_in_chunk j p : 0 <= j -> 0 <= p < L -> (j * s <= p < j * s + zlen (chunk j)) <-> (p / s = j /\ 0 <= j < k).
Proof.
  intros Hj Hp. pose proof k_bounds. pose proof (Z.div_mod p s). pose proof (Z.mod_pos_bound p s).
  split.
  - intros Hr. assert (Hlt : zlen (chunk j) <= s) by (unfold chunk, slice; rewrite length_take; lia).
    assert (p / s = j) by nia. split; [done|]. nia.
  - intros [Hd Hjk]. destruct (zlen_chunk j Hjk) as [-> _]. nia.
Qed.

(** Initialising a slot for the datagram. *)
Definition fresh_slot (fr : fragment) (b : buffer) : fragment := mkfrag true s 0 (fr_timestamp fr) b.

Lemma holding_init fr hd c tl :
  holds (fr_buf fr) hd c tl -> hd + zlen c + tl = cap ->
  exists b, buf_init (fr_buf fr) hr = (b, true) /\ holding [] (fresh_slot fr b).
Proof.
  intros Hb Hc. destruct (buf_init_spec _ _ _ _ hr Hb) as (b & Hi & Hb'); [lia|]. exists b. split; [done|].
  holds_facts Hb'. destruct Hb' as (blk & Hok & Ho & _ & Ht). split; simpl; try done; try lia.
  - intros i Hi'. rewrite Z.bits_0. split; [done|]. intros [H|[H _]]; by apply elem_of_nil in H.
  - exists blk. simpl in *. split_and!; try done; try lia.
    + intros H. by apply elem_of_nil in H.
    + intros p _ H. by apply elem_of_nil in H.
Qed.

(** Adding fragment [j]. *)
Lemma holding_add seen fr blk j (now : Z) b :
  0 <= j < k -> Forall (λ i, 0 <= i < k) seen -> holding seen fr ->
  buf_ok (fr_buf fr) blk ->
  buf_ok b (splice blk (hr + j * s) (chunk j)) -> boffset b = hr -> bcapacity b = cap ->
  blen b = Z.max (blen (fr_buf fr)) (j * s + zlen (chunk j)) ->
  let map := Z.lor (fr_map fr) (u32 (Z.shiftl (if j =? k - 1 then FRAG_MAP_MASK else 1) j)) in
  holding (j :: seen) (mkfrag true s map now b).
Proof.
  intros Hj Hseen [] Hblk Hok Ho Hc Hl map. pose proof k_bounds as [Hkb Hk0]. assert (Hk32 : k <= 32) by exact Hk. unfold MAX_FRAGS in *.
  destruct hd_buf0 as (blk' & Hok' & Hc' & Ho' & Hl' & Hlast & Hdat).
  assert (blk' = blk) as -> by (pose proof (ok_data _ _ Hok'); pose proof (ok_data _ _ Hblk); congruence).
  destruct (zlen_chunk j Hj) as [Hzl Hz0]. pose proof (ok_block _ _ Hblk) as Hbl. pose proof (ok_cap _ _ Hok) as Hcp.
  split; simpl; try done.
  - by apply lor_u32_range.
  - intros i Hi. unfold MAX_FRAGS in Hi. unfold map. rewrite Z.lor_spec, orb_true_iff, hd_map0, map_bits by (unfold MAX_FRAGS; lia).
    destruct (j =? k - 1) eqn:E.
    + assert (j = k - 1) as -> by lia. split.
      * intros [[?|[? ?]]|?]; [left; set_solver|right; split; [set_solver|lia]|right; split; [set_solver|lia]].
      * intros [[->|?]%elem_of_cons|[_ ?]]; [right; lia|auto|right; lia].
    + split.
      * intros [[?|[? ?]]|?]; [left; set_solver|right; split; [set_solver|lia]|left; assert (i = j) as -> by lia; set_solver].
      * intros [[->|?]%elem_of_cons|[[?|?]%elem_of_cons ?]]; [right; lia|auto|lia|auto].
  - exists (splice blk (hr + j * s) (chunk j)). split_and!; try done; try lia.
    + intros [<-|Hin]%elem_of_cons; [rewrite Hl, Hzl; nia|]. specialize (Hlast Hin). nia.
    + intros p Hp Hin. rewrite lookup_splice by nia.
      pose proof (pos_in_chunk j p ltac:(lia) Hp) as Hpc.
      destruct (decide (p / s = j)) as [Hpj|Hpj].
      * apply proj2 in Hpc. specialize (Hpc (conj Hpj Hj)). repeat case_decide; [lia| |lia].
        rewrite <- (lookup_chunk j p Hj Hp Hpj). f_equal. lia.
      * assert (Hout : ~ (j * s <= p < j * s + zlen (chunk j))) by (intros H; apply Hpc in H; tauto).
        assert (p / s ∈ seen) by (apply elem_of_cons in Hin as [?|?]; [congruence|done]).
        repeat case_decide; [by apply Hdat|lia|by apply Hdat].
Qed.

(** All fragments have been seen. *)
Definition complete (seen : list Z) : Prop := forall j, 0 <= j < k -> j ∈ seen.

Lemma holding_complete seen fr :
  Forall (λ i, 0 <= i < k) seen -> holding seen fr -> map_full (fr_map fr) <-> complete seen.
Proof.
  intros Hseen []. pose proof k_bounds as [Hkb Hk0]. assert (Hk32 : k <= 32) by exact Hk. unfold MAX_FRAGS in *. split.
  - intros Hf j Hj. specialize (Hf j ltac:(unfold MAX_FRAGS; lia)). apply hd_map0 in Hf; [|unfold MAX_FRAGS; lia].
    destruct Hf as [?|[? ?]]; [done|]. by assert (j = k - 1) as -> by lia.
  - intros Hc i Hi. unfold MAX_FRAGS in Hi. apply hd_map0; [unfold MAX_FRAGS; lia|].
    destruct (decide (i < k)); [left; apply Hc; lia|]. right. split; [apply Hc; lia|lia].
Qed.

Lemma holding_content seen fr : holding seen fr -> complete seen -> content (fr_buf fr) = d.
Proof.
  intros [] Hc. pose proof k_bounds as [Hkb Hk0]. destruct hd_buf0 as (blk & Hok & Hcp & Ho & _ & Hlast & Hdat).
  rewrite (buf_ok_content _ _ Hok), Ho, Hlast by (apply Hc; lia). apply list_eq. intros i. rewrite lookup_slice.
  case_decide as Hi.
  - specialize (Hdat (Z.of_nat i) ltac:(lia)). rewrite Nat2Z.id in Hdat.
    replace (Z.to_nat hr + i)%nat with (Z.to_nat (hr + Z.of_nat i)) by lia. apply Hdat. apply Hc.
    pose proof (Z.div_mod (Z.of_nat i) s). pose proof (Z.mod_pos_bound (Z.of_nat i) s). nia.
  - symmetry. apply lookup_ge_None. unfold L in Hi. lia.
Qed.

(** The state of the datagram's slot after the fragments of [seen]. *)
Definition slot_state (seen : list Z) (fr : fragment) : Prop :=
  (seen = [] /\ fr_defined fr = false /\ exists hd c tl, holds (fr_buf fr) hd c tl /\ hd + zlen c + tl = cap)
  \/ holding seen fr.

Lemma holding_wf seen fr : holding seen fr -> exists hd c tl, holds (fr_buf fr) hd c tl /\ hd + zlen c + tl = cap.
Proof.
  intros []. destruct hd_buf0 as (blk & Hok & Hc & Ho & _). eexists _, _, _. split.
  - eapply holds_intro; [exact Hok|done|done|done].
  - rewrite <- (buf_ok_content _ _ Hok), (zlen_content _ _ Hok). lia.
Qed.

Lemma slot_state_wf seen fr : slot_state seen fr -> exists hd c tl, holds (fr_buf fr) hd c tl /\ hd + zlen c + tl = cap.
Proof. intros [(_ & _ & H)|H]; [done|by eapply holding_wf]. Qed.

Lemma fragment_store_spec now fr seen j buf bhd btl :
  slot_state seen fr -> Forall (λ i, 0 <= i < k) seen -> 0 <= j < k -> holds buf bhd (chunk j) btl ->
  exists fr' out, fragment_store now hr (j =? k - 1) j s fr buf = Ret (fr', Some out) /\
    (exists hd c tl, holds (fr_buf fr') hd c tl /\ hd + zlen c + tl = cap) /\
    ((complete (j :: seen) /\ content out = d /\ fr_defined fr' = false) \/
     (~ complete (j :: seen) /\ blen out = 0 /\ holding (j :: seen) fr')).
Proof.
  intros Hst Hseen Hj Hb. unfold fragment_store. rewrite round_mask, Hs4 by lia. cbn [Z.eqb negb].
  pose proof k_bounds as [Hkb Hk0]. destruct (zlen_chunk j Hj) as [Hzl Hz0].
  assert (Hready : exists fr1, (if negb (fr_defined fr) || negb (fr_max_frag_size fr =? s) then
            let '(b, ok) := buf_init (fr_buf fr) hr in
            ASSERT ok;; Ret (mkfrag true s 0 (fr_timestamp fr) b)
          else Ret fr) = Ret fr1 /\ holding seen fr1).
  { destruct Hst as [(-> & -> & hd & c & tl & Hbf & Hc)|Hh].
    - destruct (holding_init fr hd c tl Hbf Hc) as (b & Hi & Hh). cbn [negb orb]. rewrite Hi. cbn [mbind outcome_bind ASSERT].
      eexists. by split.
    - exists fr. split; [|done]. pose proof Hh as []. rewrite hd_def0, hd_size0, Z.eqb_refl. done. }
  destruct Hready as (fr1 & -> & Hh). cbn [mbind outcome_bind]. pose proof Hh as [Hdef Hsize Hmr _ (blk & Hok & Hcp & Ho & _)].
  destruct (buf_copy_range_spec (fr_buf fr1) blk buf bhd (chunk j) btl (j * s) Hok Hb) as
    (b' & -> & Hok' & Ho' & Hcp' & Hl'); [nia|rewrite Ho, Hcp, Hzl; lia|].
  cbn [mbind outcome_bind negb]. rewrite Hdef, Hsize. rewrite Ho in Hok', Ho'. rewrite Hcp in Hcp'.
  pose proof (holding_add seen fr1 blk j now b' Hj Hseen Hh Hok Hok' Ho' Hcp' Hl') as Hh'. cbv zeta in Hh'.
  set (m := Z.lor _ _) in *.
  assert (Hseen' : Forall (λ i, 0 <= i < k) (j :: seen)) by (by constructor).
  pose proof (holding_complete _ _ Hseen' Hh') as Hcomp. cbn [fr_map] in Hcomp.
  assert (Hm : 0 <= m < 2 ^ 32) by apply (hd_maprange _ _ Hh').
  destruct (Z.land m FRAG_MAP_MASK =? FRAG_MAP_MASK) eqn:E.
  - eexists _, _. split; [done|]. split; [exact (holding_wf _ _ Hh')|]. left.
    assert (Hc : complete (j :: seen)) by (apply Hcomp, (map_full_spec m Hm), E). split; [done|]. split; [|done].
    exact (holding_content _ _ Hh' Hc).
  - eexists _, _. split; [done|]. split; [exact (holding_wf _ _ Hh')|]. right. split; [|by split].
    intros Hc. apply Hcomp, (map_full_spec m Hm) in Hc. congruence.
Qed.

(** ** Arrival of the datagram's fragments *)

(** What the [j]-th fragment looks like on the wire. *)
Definition frag_packet (seq j : Z) : bytes :=
  be_bytes 4 (fragment_flags (if j =? k - 1 then FRAG_YES_LAST else FRAG_YES_NOTLAST) seq j s) ++ chunk j.

(** The receiver is working on the datagram numbered [seq] in slot [i]. *)
Record receiving (seq : Z) (i : Z) (seen : list Z) (l : fragment_list) : Prop := {
  rc_wf : fl_wf cap l;
  rc_slot : exists fr, fl_fragments l !! Z.to_nat i = Some fr /\ slot_state seen fr;
  rc_get : forall frs, fragment_list_get_buf (mkfl (fl_seq_id l) (fl_index l) frs) seq
             = Ret (mkfl (fl_seq_id l) (fl_index l) frs, i)
}.

(** The receiver knows nothing of the number [seq] yet. *)
Definition unused_seq (l : fragment_list) (seq : Z) : Prop :=
  exists l' i fr, fragment_list_get_buf l seq = Ret (l', i) /\
    fl_fragments l' !! Z.to_nat i = Some fr /\ fr_defined fr = false.

Hypotheses (Hs16 : s < 65536).

Lemma fragment_incoming_step now f b seq j bhd btl l i seen :
  0 <= seq < N_SEQ_ID -> 0 <= j < k -> Forall (λ i, 0 <= i < k) seen ->
  holds b bhd (frag_packet seq j) btl ->
  fragment_list_get_buf (fm_incoming f) seq = Ret (l, i) -> 0 <= i -> receiving seq i seen l ->
  exists f' out, fragment_incoming now hr f b = Ret (f', out) /\
    ((complete (j :: seen) /\ content out = d /\ fl_wf cap (fm_incoming f')) \/
     (~ complete (j :: seen) /\ blen out = 0 /\ receiving seq i (j :: seen) (fm_incoming f') /\
      fragment_list_get_buf (fm_incoming f') seq = Ret (fm_incoming f', i))).
Proof.
  intros Hseq Hj Hseen Hb Hget Hi [Hw (fr & Hfr & Hst) Hagain]. unfold fragment_incoming.
  set (ty := if j =? k - 1 then FRAG_YES_LAST else FRAG_YES_NOTLAST) in *.
  assert (Hty : ty = FRAG_YES_NOTLAST \/ ty = FRAG_YES_LAST) by (unfold ty; destruct (j =? k - 1); auto).
  assert (Hj32 : 0 <= j < 32) by (unfold MAX_FRAGS in Hk; lia).
  destruct (header_fields ty seq j s Hty Hseq Hj32 ltac:(lia) Hs4) as (Hwr & Ht & Hsq & Hid & Hsz).
  unfold frag_packet in Hb. fold ty in Hb. set (w := fragment_flags ty seq j s) in *.
  destruct (holds_bounds _ _ _ _ Hb) as (_ & _ & Hbl & _). rewrite length_app, length_be_bytes in Hbl.
  destruct (blen b <=? 0) eqn:E; [lia|]. clear E.
  destruct (buf_read_app _ _ _ _ _ 4 Hb) as (b1 & -> & Hb1); [by rewrite length_be_bytes|].
  cbn [mbind outcome_bind]. rewrite be_val_u32 by done. fold (hdr_type w). rewrite Ht.
  assert ((ty =? FRAG_WHOLE) = false) as -> by (by destruct Hty as [-> | ->]).
  assert ((ty =? FRAG_YES_NOTLAST) || (ty =? FRAG_YES_LAST) = true) as -> by (by destruct Hty as [-> | ->]).
  fold (hdr_seq w) (hdr_id w) (hdr_size w). rewrite Hsq, Hid.
  assert (Hlast : (ty =? FRAG_YES_LAST) = (j =? k - 1)) by (unfold ty; by destruct (j =? k - 1)). rewrite Hlast.
  assert (Hsize : (if j =? k - 1 then hdr_size w else blen b1) = s).
  { destruct (holds_bounds _ _ _ _ Hb1) as (_ & _ & Hl1 & _). destruct (zlen_chunk j Hj) as [Hzl _].
    destruct (j =? k - 1) eqn:E; [apply Hsz; unfold ty; done|]. pose proof k_bounds as [Hkb _]. nia. }
  rewrite Hsize, Hget. cbn [mbind outcome_bind]. rewrite (arr_get_Ret _ _ fr) by done. cbn [mbind outcome_bind].
  destruct (fragment_store_spec now fr seen j b1 _ _ Hst Hseen Hj Hb1) as (fr' & out & -> & Hwf' & Hres).
  cbn [mbind outcome_bind]. pose proof (lookup_lt_Some _ _ _ Hfr) as Hlt. rewrite arr_set_Ret by lia.
  cbn [mbind outcome_bind]. eexists _, _. split; [done|]. cbn [fm_incoming fm_set_incoming].
  pose proof (fl_wf_set cap l i fr' Hw Hwf') as Hw'.
  destruct Hres as [(Hc & Hcont & _)|(Hc & Hl & Hh)]; [by left|right]. split; [done|]. split; [done|].
  split; [|apply Hagain]. split; [done| |apply Hagain].
  exists fr'. cbn [fl_fragments]. split; [by apply list_lookup_insert_eq|by right].
Qed.

Definition is_packet (seq : Z) (b : buffer) (j : Z) : Prop :=
  0 <= j < k /\ exists hd tl, holds b hd (frag_packet seq j) tl.

(** Up to the fragment that completes the datagram nothing comes out; then the
    datagram does. *)
Lemma fragment_receive_rest now seq i bs js : forall f seen b j l,
  0 <= seq < N_SEQ_ID -> Forall (λ i, 0 <= i < k) seen -> Forall2 (is_packet seq) bs js -> is_packet seq b j ->
  fragment_list_get_buf (fm_incoming f) seq = Ret (l, i) -> 0 <= i -> receiving seq i seen l ->
  ~ complete (reverse js ++ seen) -> complete (j :: reverse js ++ seen) ->
  exists f' outs out, fragment_receive now hr f (bs ++ [b]) = Ret (f', outs ++ [out]) /\
    Forall (λ o, blen o = 0) outs /\ length outs = length bs /\ content out = d /\ fl_wf cap (fm_incoming f').
Proof.
  revert js. induction bs as [|b0 bs IH]; intros js f seen b j l Hseq Hseen Hall [Hj (hd & tl & Hb)] Hget Hi Hrc Hno Hyes.
  - apply Forall2_nil_inv_l in Hall as ->. cbn [app fragment_receive].
    destruct (fragment_incoming_step now f b seq j hd tl l i seen Hseq Hj Hseen Hb Hget Hi Hrc) as
      (f' & out & -> & [(_ & Hc & Hw)|(Hn & _)]); [|by destruct Hn].
    cbn [mbind outcome_bind]. exists f', [], out. by split_and!.
  - apply Forall2_cons_inv_l in Hall as (j0 & js' & [Hj0 (hd0 & tl0 & Hb0)] & Hall & ->).
    rewrite reverse_cons, <- (assoc_L (++)) in Hno, Hyes. cbn [app] in Hno, Hyes. cbn [app fragment_receive].
    destruct (fragment_incoming_step now f b0 seq j0 hd0 tl0 l i seen Hseq Hj0 Hseen Hb0 Hget Hi Hrc) as
      (f1 & out1 & -> & [(Hc & _)|(_ & Hl1 & Hrc1 & Hget1)]).
    { exfalso. apply Hno. intros x Hx. apply elem_of_app. right. by apply Hc. }
    cbn [mbind outcome_bind].
    destruct (IH js' f1 (j0 :: seen) b j (fm_incoming f1)) as (f' & outs & out & -> & Hz & Hlen & Hcont & Hw);
      try done; [by constructor|by split; [|exists hd, tl]|].
    cbn [mbind outcome_bind]. exists f', (out1 :: outs), out. split_and!; try done; [by constructor|simpl; lia].
Qed.
End reassembly.

(** ** Cutting a datagram *)

Section cutting.
Context (cap hr s : Z) (d : bytes).
Let L := zlen d.
Let k := n_frags L s.
Hypotheses (Hs : 0 < s) (Hs4 : s mod 4 = 0) (Hs16 : s < 65536) (HL : 0 < L) (Hk : k <= MAX_FRAGS)
  (Hhr : 4 <= hr) (Hcap : hr + L <= cap).

(** The sender has [j] fragments behind it. *)
Record sending (seq j : Z) (f : fragment_master) : Prop := {
  sd_seq : fm_outgoing_seq_id f = seq;
  sd_size : fm_outgoing_frag_size f = s;
  sd_id : fm_outgoing_frag_id f = j;
  sd_out : exists hd tl, holds (fm_outgoing f) hd (drop (Z.to_nat (j * s)) d) tl;
  sd_ret : exists hd c tl, holds (fm_outgoing_return f) hd c tl /\ hd + zlen c + tl = cap
}.

Lemma cut_bounds : s * (k - 1) < L <= s * k /\ 0 < k.
Proof. by apply n_frags_bounds. Qed.

Lemma fragment_ready_spec f seq j :
  sending seq j f -> 0 <= seq < N_SEQ_ID -> 0 <= j <= k ->
  (j = k /\ fragment_ready_to_send hr f = Ret (f, None)) \/
  (j < k /\ exists f' b, fragment_ready_to_send hr f = Ret (f', Some b) /\ sending seq (j + 1) f' /\
     is_packet s d seq b j).
Proof.
  intros [Hseq Hsize Hid (ohd & otl & Ho) (rhd & rc & rtl & Hr & Hrc)] Hsq Hj.
  pose proof cut_bounds as [Hkb Hk0]. unfold fragment_ready_to_send, fragment_outgoing_defined.
  destruct (holds_bounds _ _ _ _ Ho) as (_ & _ & Hol & _). rewrite length_drop in Hol.
  destruct (decide (j = k)) as [->|Hne].
  { left. split; [done|]. destruct (0 <? blen (fm_outgoing f)) eqn:E; [|done]. unfold L in *. nia. }
  right. split; [lia|].
  assert (Hpos : blen (fm_outgoing f) = L - j * s /\ 0 < L - j * s) by (unfold L in *; nia).
  destruct Hpos as [Hbl Hpos]. rewrite Hbl, Hsize.
  destruct (0 <? L - j * s) eqn:E; [|lia]. clear E.
  assert (Hlast : (L - j * s <=? s) = (j =? k - 1)) by (destruct (j =? k - 1) eqn:E; nia). rewrite Hlast.
  assert (Hsz : (if j =? k - 1 then L - j * s else s) = Z.min s (L - j * s)) by (destruct (j =? k - 1); lia).
  rewrite Hsz.
  destruct (buf_init_spec _ _ _ _ hr Hr) as (rb & -> & Hrb); [unfold L in *; lia|]. cbn [mbind outcome_bind ASSERT].
  destruct (buf_copy_n_spec _ _ _ _ _ _ _ _ (Z.min s (L - j * s)) Hrb Ho) as (rb1 & ob1 & -> & Hrb1 & Hob1);
    [rewrite length_drop; unfold L in *; lia|unfold L in *; nia|].
  cbn [mbind outcome_bind ASSERT app] in *.
  assert (Hch : take (Z.to_nat (Z.min s (L - j * s))) (drop (Z.to_nat (j * s)) d) = chunk s d j) by done.
  rewrite Hch in Hrb1. unfold fragment_prepend_flags. rewrite Hseq, Hid.
  set (ty := if j =? k - 1 then FRAG_YES_LAST else FRAG_YES_NOTLAST).
  assert (Hty : ty = FRAG_YES_NOTLAST \/ ty = FRAG_YES_LAST) by (unfold ty; destruct (j =? k - 1); auto).
  assert (Hj32 : 0 <= j < 32) by (unfold MAX_FRAGS in Hk; lia).
  destruct (header_fields ty seq j s Hty Hsq Hj32 ltac:(lia) Hs4) as (Hwr & _). rewrite u32_small by done.
  destruct (buf_write_prepend_spec _ _ _ _ (be_bytes 4 (fragment_flags ty seq j s)) Hrb1) as (rb2 & -> & Hrb2);
    [apply be_bytes_is_byte|rewrite length_be_bytes; lia|]. cbn [mbind outcome_bind ASSERT].
  destruct (buf_len_holds _ _ _ _ Hob1) as [_ Hobl]. rewrite drop_drop in Hob1, Hobl. rewrite length_drop in Hobl.
  rewrite ASSERT_true by (rewrite Hobl; destruct (j =? k - 1) eqn:E; [unfold L in *; lia|done]).
  cbn [mbind outcome_bind]. eexists _, _. split; [done|]. split.
  - split; try done; cbn [fm_outgoing fm_outgoing_return]; [|by exists rhd, rc, rtl].
    eexists _, _. replace (drop (Z.to_nat ((j + 1) * s)) d)
      with (drop (Z.to_nat (j * s) + Z.to_nat (Z.min s (L - j * s))) d); [exact Hob1|].
    destruct (decide (s <= L - j * s)).
    + f_equal. nia.
    + rewrite !drop_ge; [done|unfold L in *; nia..].
  - split; [unfold k, L in *; lia|]. eexists _, _. exact Hrb2.
Qed.

(** The packets come out in order, numbered from [j]. *)
Lemma fragment_drain_spec fuel : forall f seq j,
  sending seq j f -> 0 <= seq < N_SEQ_ID -> 0 <= j <= k -> k - j <= Z.of_nat fuel ->
  exists f' bs, fragment_drain fuel hr f = Ret (f', bs) /\ sending seq k f' /\
    Forall2 (is_packet s d seq) bs (seqZ j (k - j)).
Proof.
  induction fuel as [|fuel IH]; intros f seq j Hsd Hseq Hj Hf; cbn [fragment_drain].
  - assert (j = k) as -> by lia. destruct (fragment_ready_spec f seq k Hsd Hseq Hj) as [[_ Hr]|[? _]]; [|lia].
    unfold fragment_ready_to_send in Hr. destruct (fragment_outgoing_defined f) eqn:E.
    + repeat (apply bind_Ret_inv in Hr as (? & _ & Hr) || (destruct (buf_init _ _)) || case_match); done.
    + exists f, []. rewrite Z.sub_diag. by split_and!.
  - destruct (fragment_ready_spec f seq j Hsd Hseq Hj) as [[-> ->]|[Hlt (f1 & b & -> & Hsd1 & Hp)]]; cbn [mbind outcome_bind].
    + exists f, []. rewrite Z.sub_diag. by split_and!.
    + destruct (IH f1 seq (j + 1) Hsd1 Hseq) as (f' & bs & -> & Hsd' & Hall); [lia|lia|]. cbn [mbind outcome_bind].
      exists f', (b :: bs). split_and!; try done. rewrite seqZ_cons by lia. constructor; [done|].
      by replace (Z.pred (k - j)) with (k - (j + 1)) by lia; replace (Z.succ j) with (j + 1) by lia.
Qed.
End cutting.

(** ** The round trip *)

Record sender_wf (cap : Z) (f : fragment_master) : Prop := {
  sw_seq : 0 <= fm_outgoing_seq_id f < N_SEQ_ID;
  sw_out : exists hd c tl, holds (fm_outgoing f) hd c tl /\ hd + zlen c + tl = cap;
  sw_ret : exists hd c tl, holds (fm_outgoing_return f) hd c tl /\ hd + zlen c + tl = cap
}.

(** The sequence number the next fragmented datagram gets. *)
Definition next_seq (f : fragment_master) : Z := (fm_outgoing_seq_id f + 1) mod N_SEQ_ID.

Lemma fragment_send_spec cap hr max d f buf bhd btl :
  sender_wf cap f -> 4 <= hr -> hr + zlen d <= cap -> 4 <= max < 65536 -> max < zlen d ->
  n_frags (zlen d) (max - max mod 4) <= MAX_FRAGS -> holds buf bhd d btl ->
  exists s f' pkts, fragment_send hr max f buf = Ret (f', pkts) /\
    0 < s < 65536 /\ s mod 4 = 0 /\ n_frags (zlen d) s <= MAX_FRAGS /\ zlen pkts = n_frags (zlen d) s /\
    Forall2 (is_packet s d (next_seq f)) pkts (seqZ 0 (n_frags (zlen d) s)).
Proof.
  intros [Hseq (ohd & oc & otl & Ho & Hoc) Hret] Hhr Hcap Hmax Hbig Hn Hb. unfold fragment_send, fragment_outgoing.
  destruct (buf_len_holds _ _ _ _ Hb) as [_ Hbl]. rewrite Hbl.
  destruct (zlen d <=? 0) eqn:E; [lia|]. clear E. destruct (max <? zlen d) eqn:E; [|lia]. clear E.
  destruct (optimal_fragment_size_spec (zlen d) max) as (s & -> & Hs & Hs4 & Hcount); [lia|lia|].
  cbn [mbind outcome_bind fm_outgoing fm_outgoing_seq_id fm_outgoing_return fm_incoming].
  destruct (n_frags_bounds (zlen d) s) as [Hkb Hk0]; [lia|lia|]. unfold MAX_FRAGS in *.
  destruct (s * 32 <? zlen d) eqn:E; [nia|]. clear E.
  destruct (buf_init_spec _ _ _ _ hr Ho) as (ob & -> & Hob); [lia|]. cbn [mbind outcome_bind ASSERT].
  destruct (buf_copy_spec _ _ _ _ _ _ _ _ Hob Hb) as [Hcopy _].
  destruct Hcopy as (ob1 & -> & Hob1); [lia|]. cbn [mbind outcome_bind ASSERT app] in *.
  destruct (modulo_add_spec (fm_outgoing_seq_id f) 1 N_SEQ_ID) as (sq & -> & Hsq & Hsqm); [lia|unfold N_SEQ_ID; lia|].
  cbn [mbind outcome_bind]. fold (next_seq f) in Hsqm. subst sq.
  set (f1 := mkfm (next_seq f) s 0 ob1 (fm_outgoing_return f) (fm_incoming f)).
  assert (Hsd : sending cap s d (next_seq f) 0 f1).
  { split; try done. eexists _, _. cbn [fm_outgoing f1]. rewrite Z.mul_0_l. exact Hob1. }
  assert (H16 : s < 65536) by lia. assert (HL : 0 < zlen d) by lia.
  assert (Hk : n_frags (zlen d) s <= MAX_FRAGS) by (unfold MAX_FRAGS; lia).
  destruct (fragment_ready_spec cap hr s d ltac:(lia) Hs4 H16 HL Hk Hhr Hcap f1 (next_seq f) 0 Hsd Hsq) as
    [[? _]|[_ (f2 & b & -> & Hsd2 & Hp)]]; [lia|lia|]. cbn [mbind outcome_bind].
  destruct (fragment_drain_spec cap hr s d ltac:(lia) Hs4 H16 HL Hk Hhr Hcap (Z.to_nat 32) f2 (next_seq f) (0 + 1) Hsd2 Hsq)
    as (f3 & bs & -> & _ & Hall); [lia|lia|]. cbn [mbind outcome_bind].
  exists s, f3, (b :: bs). split; [done|]. split; [lia|]. split; [done|]. split; [lia|].
  assert (Hlen := Forall2_length _ _ _ Hall). rewrite length_seqZ in Hlen. split; [simpl; lia|].
  rewrite seqZ_cons by lia. constructor; [done|].
  by replace (Z.pred (n_frags (zlen d) s)) with (n_frags (zlen d) s - (0 + 1)) by lia.
Qed.

(** The packets picked by a list of positions. *)
Definition pick (pkts : list buffer) (ixs : list nat) : list buffer := omap (λ i, pkts !! i) ixs.
Definition covers (pkts : list buffer) (ixs : list nat) : Prop := forall i, (i < length pkts)%nat -> i ∈ ixs.

Lemma pick_packets s d seq pkts ixs :
  Forall2 (is_packet s d seq) pkts (seqZ 0 (n_frags (zlen d) s)) -> Forall (λ i, (i < length pkts)%nat) ixs ->
  Forall2 (is_packet s d seq) (pick pkts ixs) (Z.of_nat <$> ixs).
Proof.
  intros Hall. induction 1 as [|i ixs Hi _ IH]; [constructor|]. unfold pick. cbn [omap list_omap].
  destruct (lookup_lt_is_Some_2 pkts i Hi) as [b Hb]. rewrite Hb. constructor; [|exact IH].
  destruct (Forall2_lookup_l _ _ _ _ _ Hall Hb) as (j & Hj & Hp). apply lookup_seqZ in Hj as [-> _]. done.
Qed.

Lemma covers_complete pkts ixs d s :
  zlen pkts = n_frags (zlen d) s -> covers pkts ixs <-> complete s d (reverse (Z.of_nat <$> ixs) ++ []).
Proof.
  intros Hlen. rewrite app_nil_r. unfold covers, complete. split.
  - intros Hc j Hj. apply elem_of_reverse, list_elem_of_fmap. exists (Z.to_nat j). split; [lia|]. apply Hc. lia.
  - intros Hc i Hi. specialize (Hc (Z.of_nat i) ltac:(lia)). apply elem_of_reverse, list_elem_of_fmap in Hc as (n & Hn & Hin).
    by assert (i = n) as -> by lia.
Qed.

(** C24. Fragmentation is transparent.  A datagram too large for one packet is
    sent as a number of fragments; the receiver may get them in any order and
    some of them more than once: as long as one is missing nothing is handed
    on, and when the missing one arrives the original datagram comes out,
    byte for byte. *)
Theorem fragment_roundtrip cap hr max d snd rcv buf bhd btl now :
  sender_wf cap snd -> fl_wf cap (fm_incoming rcv) -> unused_seq (fm_incoming rcv) (next_seq snd) ->
  4 <= hr -> hr + zlen d <= cap -> 4 <= max < 65536 -> max < zlen d ->
  n_frags (zlen d) (max - max mod 4) <= MAX_FRAGS -> holds buf bhd d btl ->
  exists snd' pkts, fragment_send hr max snd buf = Ret (snd', pkts) /\
    forall order last,
      Forall (λ i, (i < length pkts)%nat) (order ++ [last]) ->
      ~ covers pkts order -> covers pkts (order ++ [last]) ->
      exists rcv' outs out, fragment_receive now hr rcv (pick pkts (order ++ [last])) = Ret (rcv', outs ++ [out]) /\
        Forall (λ o, blen o = 0) outs /\ length outs = length order /\ content out = d.
Proof.
  intros Hsw Hfw (l' & i & fr & Hget & Hfr & Hundef) Hhr Hcap Hmax Hbig Hn Hb.
  destruct (fragment_send_spec cap hr max d snd buf bhd btl Hsw Hhr Hcap Hmax Hbig Hn Hb)
    as (s & snd' & pkts & Hsend & Hs & Hs4 & Hk & Hlen & Hpk).
  exists snd', pkts. split; [done|]. intros order last Hord Hno Hyes.
  assert (Hseq : 0 <= next_seq snd < N_SEQ_ID) by (apply Z.mod_pos_bound; done).
  destruct (get_buf_spec cap (fm_incoming rcv) (next_seq snd) Hfw Hseq) as (l1 & i1 & fr1 & Hget1 & Hw1 & Hi1 & Hfr1 & Hagain).
  assert (l1 = l' /\ i1 = i) as [-> ->] by (split; congruence).
  apply Forall_app in Hord as [Hord Hlast].
  pose proof (pick_packets _ _ _ _ _ Hpk Hord) as Hpo. pose proof (pick_packets _ _ _ _ _ Hpk Hlast) as Hpl.
  unfold pick in *. rewrite omap_app. cbn [omap list_omap] in *.
  apply Forall_cons in Hlast as [Hlast _]. destruct (lookup_lt_is_Some_2 pkts last Hlast) as [b Hbl]. rewrite Hbl in *.
  apply Forall2_cons in Hpl as [Hpl _].
  destruct (fragment_receive_rest cap hr s d ltac:(lia) Hs4 ltac:(lia) Hk ltac:(lia) Hcap ltac:(lia) now (next_seq snd) i
    _ _ rcv [] b (Z.of_nat last) l' Hseq (Forall_nil_2 _) Hpo Hpl Hget) as (rcv' & outs & out & Hrun & Hz & Hlo & Hc & _).
  - lia.
  - split; [done| |done]. exists fr. split; [done|]. left. split; [done|]. split; [done|].
    pose proof (lw_bufs _ _ Hw1) as Hbufs. rewrite Forall_lookup in Hbufs. by eapply Hbufs.
  - by rewrite <- (covers_complete pkts).
  - apply (covers_complete pkts _ d s Hlen) in Hyes. rewrite fmap_app, reverse_app in Hyes. exact Hyes.
  - exists rcv', outs, out. split_and!; try done. rewrite Hlo. apply Forall2_length in Hpo. by rewrite length_fmap in Hpo.
Qed.

(** ** A fresh pair *)

Lemma fragment_list_buf_init_spec cap n :
  buf_size_valid cap = true ->
  exists frs, fragment_list_buf_init n cap = Ret frs /\ length frs = n /\
    Forall (λ fr, fr_defined fr = false /\ holds (fr_buf fr) 0 [] cap) frs.
Proof.
  intros Hc. induction n as [|n (frs & Hf & Hl & Hall)]; cbn [fragment_list_buf_init]; [by exists []|].
  destruct (alloc_buf_spec cap Hc) as (b & -> & Hb). cbn [mbind outcome_bind]. rewrite Hf. cbn [mbind outcome_bind].
  eexists. split; [done|]. split; [simpl; lia|]. by constructor.
Qed.

Lemma fragment_frame_init_spec cap random :
  buf_size_valid cap = true ->
  exists f, fragment_frame_init (fragment_init random) cap = Ret f /\ sender_wf cap f /\ fl_wf cap (fm_incoming f) /\
    fm_outgoing_seq_id f = random mod 256 /\ Forall (λ fr, fr_defined fr = false) (fl_fragments (fm_incoming f)).
Proof.
  intros Hc. unfold fragment_frame_init.
  destruct (fragment_list_buf_init_spec cap (Z.to_nat N_FRAG_BUF) Hc) as (frs & -> & Hl & Hall). cbn [mbind outcome_bind].
  destruct (alloc_buf_spec cap Hc) as (b & -> & Hb). cbn [mbind outcome_bind].
  assert (Hr : Z.land random (N_SEQ_ID - 1) = random mod 256) by (by apply (land_low random 8)).
  eexists. split; [done|]. cbn. rewrite Hr. split_and!.
  - split; cbn; [apply Z.mod_pos_bound; done|eexists _, _, _; split; [done|simpl; lia]..].
  - split; cbn; try done; [by rewrite Hl|]. eapply Forall_impl; [exact Hall|]. simpl. intros fr [_ H]. eexists _, _, _. split; [done|]. simpl. lia.
  - done.
  - eapply Forall_impl; [exact Hall|]. by intros fr [? _].
Qed.

Definition demo_fm (random : Z) : fragment_master :=
  match fragment_frame_init (fragment_init random) 100 with Ret f => f | _ => fragment_init 0 end.

Lemma demo_fm_ok random :
  sender_wf 100 (demo_fm random) /\ fl_wf 100 (fm_incoming (demo_fm random)).
Proof.
  unfold demo_fm. destruct (fragment_frame_init_spec 100 random) as (f & -> & Hs & Hw & _); done.
Qed.

Definition demo_data : bytes := [1;2;3;4;5;6;7;8;9;10;11;12;13;14;15;16;17;18;19;20].
Definition demo_datagram : buffer := mkbuf 30 5 20 (Some (replicate 5 0 ++ demo_data ++ replicate 5 0)).

Lemma fragment_roundtrip_witness :
  exists snd' pkts, fragment_send 10 9 (demo_fm 255) demo_datagram = Ret (snd', pkts) /\
    forall order last,
      Forall (λ i, (i < length pkts)%nat) (order ++ [last]) ->
      ~ covers pkts order -> covers pkts (order ++ [last]) ->
      exists rcv' outs out, fragment_receive 0 10 (demo_fm 3) (pick pkts (order ++ [last])) = Ret (rcv', outs ++ [out]) /\
        Forall (λ o, blen o = 0) outs /\ length outs = length order /\ content out = demo_data.
Proof.
  apply (fragment_roundtrip 100 10 9 demo_data (demo_fm 255) (demo_fm 3) demo_datagram 5 5 0).
  - apply demo_fm_ok.
  - apply demo_fm_ok.
  - eexists _, _, _. vm_compute. split_and!; reflexivity.
  - lia.
  - unfold demo_data; simpl; lia.
  - lia.
  - unfold demo_data; simpl; lia.
  - vm_compute. congruence.
  - eexists. split; [|by vm_compute]. split; try done; try lia.
    apply (bool_decide_unpack _); vm_compute; done.
Defined.

(** The three fragments, the last one first and the middle one twice. *)
Example demo_reassembly :
  match ('(_, pkts) ← fragment_send 10 9 (demo_fm 255) demo_datagram;
         fragment_receive 0 10 (demo_fm 3) (pick pkts [2; 1; 1; 0]%nat)) with
  | Ret (_, outs) => content <$> outs = [[]; []; []; demo_data]
  | _ => False
  end.
Proof. vm_compute. done. Qed.

(** ** Arbitrary input *)

Lemma set_len_0_ok b blk : buf_ok b blk -> buf_ok (set_len b 0) blk.
Proof. intros []. split; simpl; try done; lia. Qed.

Lemma fragment_store_safe cap now hr last n size fr buf bhd c btl :
  (exists hd c tl, holds (fr_buf fr) hd c tl /\ hd + zlen c + tl = cap) -> 0 <= hr <= cap ->
  0 <= n < MAX_FRAGS -> 0 <= size < BUF_SIZE_MAX -> holds buf bhd c btl ->
  exists fr' out, fragment_store now hr last n size fr buf = Ret (fr', out) /\
    (exists hd c tl, holds (fr_buf fr') hd c tl /\ hd + zlen c + tl = cap) /\
    (forall b, out = Some b -> exists blk, buf_ok b blk).
Proof.
  intros (fhd & fc & ftl & Hf & Hfc) Hhr Hn Hsz Hb. unfold fragment_store.
  destruct (negb (Z.land size _ =? 0)); [eexists _, None; split; [done|]; split; [by eexists _, _, _|done]|].
  assert (Hready : exists fr1 hd1 c1 tl1, (if negb (fr_defined fr) || negb (fr_max_frag_size fr =? size) then
            let '(b, ok) := buf_init (fr_buf fr) hr in
            ASSERT ok;; Ret (mkfrag true size 0 (fr_timestamp fr) b)
          else Ret fr) = Ret fr1 /\ holds (fr_buf fr1) hd1 c1 tl1 /\ hd1 + zlen c1 + tl1 = cap).
  { destruct (_ || _); [|by eexists _, _, _, _].
    destruct (buf_init_spec _ _ _ _ hr Hf) as (b & -> & Hb'); [lia|]. cbn [mbind outcome_bind ASSERT].
    eexists _, _, _, _. split; [done|]. split; [exact Hb'|simpl; lia]. }
  destruct Hready as (fr1 & hd1 & c1 & tl1 & -> & Hf1 & Hc1). cbn [mbind outcome_bind].
  destruct (buf_len_holds _ _ _ _ Hb) as [_ Hbl]. holds_facts Hf1.
  destruct Hf1 as (blk1 & Hok1 & Ho1 & Hcont1 & Ht1).
  destruct (decide (boffset (fr_buf fr1) + n * size + zlen c <= bcapacity (fr_buf fr1))) as [Hfit|Hfit].
  - destruct (buf_copy_range_spec (fr_buf fr1) blk1 buf bhd c btl (n * size) Hok1 Hb) as
      (b' & -> & Hok' & Ho' & Hcp' & Hl'); [nia|done|]. cbn [mbind outcome_bind negb].
    assert (Hwf : exists hd c tl, holds b' hd c tl /\ hd + zlen c + tl = cap).
    { eexists _, _, _. split; [eapply holds_intro; [exact Hok'|done|done|done]|].
      rewrite <- (buf_ok_content _ _ Hok'), (zlen_content _ _ Hok'). lia. }
    destruct (_ =? FRAG_MAP_MASK); (eexists _, (Some _); split; [done|]; split; [exact Hwf|]); intros b [= <-]; [eauto|].
    destruct Hb as (blk & Hok & _). exists blk. by apply set_len_0_ok.
  - assert (buf_copy_range (fr_buf fr1) (n * size) buf 0 (blen buf) = Ret (fr_buf fr1, false)) as ->.
    { pose proof (ok_max _ _ Hok1). pose proof (holds_bounds _ _ _ _ Hb). unfold MAX_FRAGS in Hn. unfold BUF_SIZE_MAX in *. assert (0 <= n * size < 32 * 1000000) by nia.
      unfold buf_copy_range. destruct (_ || _) eqn:E; [done|]. clear E.
      rewrite (int_add_Ret 0 (blen buf)) by lia. cbn [mbind outcome_bind]. destruct (_ || _) eqn:E; [done|]. clear E.
      rewrite (int_add_Ret (boffset (fr_buf fr1)) (n * size)) by lia. cbn [mbind outcome_bind]. rewrite (int_add_Ret (boffset (fr_buf fr1) + n * size) (blen buf)) by lia. cbn [mbind outcome_bind].
      by rewrite (proj2 (Z.ltb_lt _ _)) by lia. }
    cbn [mbind outcome_bind negb]. eexists _, None. split; [done|]. split; [|done]. cbn [fr_buf].
    eexists _, _, _. split; [exists blk1; by split_and!|]. lia.
Qed.

(** Whatever bytes arrive, [fragment_incoming] returns: no assertion
    fails, nothing is written outside a reassembly buffer, the receive window
    stays well formed and the buffer handed on is well formed. *)
Theorem fragment_incoming_safe cap now hr f b bhd c btl :
  fl_wf cap (fm_incoming f) -> 0 <= hr <= cap -> holds b bhd c btl ->
  exists f' out blk, fragment_incoming now hr f b = Ret (f', out) /\ fl_wf cap (fm_incoming f') /\ buf_ok out blk.
Proof.
  intros Hw Hhr Hb. unfold fragment_incoming. pose proof Hb as (blk0 & Hok0 & _).
  destruct (blen b <=? 0) eqn:E0; [by eexists _, _, _|]. destruct (buf_len_holds _ _ _ _ Hb) as [_ Hbl].
  destruct (decide (4 <= zlen c)) as [H4|H4].
  2:{ rewrite (buf_read_short _ _ _ _ _ Hb) by lia. eexists _, _, _. split_and!; [done..|by apply set_len_0_ok]. }
  destruct (buf_read_spec _ _ _ _ 4 Hb) as (b1 & -> & Hb1); [lia|]. cbn [mbind outcome_bind].
  pose proof Hb1 as (blk1 & Hok1 & _). set (w := be_val _). fold (hdr_type w).
  pose proof (header_ranges w) as (Hsq & Hid & Hsz & _).
  destruct (hdr_type w =? FRAG_WHOLE).
  { destruct (negb _); (eexists _, _, _; split_and!; [done..|]); [by apply set_len_0_ok|done]. }
  destruct (_ || _) eqn:Ety; [|eexists _, _, _; split_and!; [done..|by apply set_len_0_ok]].
  fold (hdr_seq w) (hdr_id w) (hdr_size w).
  destruct (get_buf_spec cap (fm_incoming f) (hdr_seq w) Hw Hsq) as (l & i & fr & -> & Hwl & Hi & Hfr & _).
  cbn [mbind outcome_bind]. rewrite (arr_get_Ret _ _ fr) by (lia || done). cbn [mbind outcome_bind].
  pose proof (lw_bufs _ _ Hwl) as Hbufs. rewrite Forall_lookup in Hbufs.
  destruct (buf_len_holds _ _ _ _ Hb1) as [_ Hbl1].
  set (last := hdr_type w =? FRAG_YES_LAST).
  destruct (fragment_store_safe cap now hr last (hdr_id w) (if last then hdr_size w else blen b1) fr b1 _ _ _
    (Hbufs _ _ Hfr) Hhr ltac:(lia) ltac:(pose proof (ok_max _ _ Hok1); pose proof (holds_bounds _ _ _ _ Hb1); unfold BUF_SIZE_MAX in *; destruct last; lia) Hb1) as (fr' & out & -> & Hwf' & Hout).
  cbn [mbind outcome_bind]. pose proof (lookup_lt_Some _ _ _ Hfr). rewrite arr_set_Ret by lia. cbn [mbind outcome_bind].
  assert (Ho : exists blk, buf_ok (match out with Some b => b | None => set_len b1 0 end) blk)
    by (destruct out; [by apply Hout|eexists; by apply set_len_0_ok]).
  destruct Ho as [blk Ho]. eexists _, _, blk. split; [done|]. split; [|done]. by apply fl_wf_set.
Qed.

Lemma fragment_incoming_safe_witness :
  exists f' out blk, fragment_incoming 0 10 (demo_fm 3) demo_datagram = Ret (f', out) /\
    fl_wf 100 (fm_incoming f') /\ buf_ok out blk.
Proof.
  apply (fragment_incoming_safe 100 0 10 (demo_fm 3) demo_datagram 5 demo_data 5); [apply demo_fm_ok|lia|].
  eexists. split; [|by vm_compute]. split; try done; try lia.
  apply (bool_decide_unpack _); vm_compute; done.
Defined.

(** The check for "spurious FRAG_WHOLE flags" masks the header with the
    unshifted [FRAG_SEQ_ID_MASK | FRAG_ID_MASK], that is with its low eight
    bits: a whole packet whose fragment id field or upper two sequence id bits
    are set passes, for every receiver. *)
Theorem whole_flags_unchecked now hr f b bhd c btl seq id :
  0 <= seq < 4 -> 0 <= id < 32 -> 0 < zlen c ->
  holds b bhd (be_bytes 4 (FRAG_WHOLE + 4 * (64 * seq) + 1024 * id) ++ c) btl ->
  exists out, fragment_incoming now hr f b = Ret (f, out) /\ content out = c.
Proof.
  intros Hseq Hid Hc Hb. unfold fragment_incoming. destruct (buf_len_holds _ _ _ _ Hb) as [_ Hbl].
  rewrite length_app, length_be_bytes in Hbl. destruct (blen b <=? 0) eqn:E; [lia|]. clear E. unfold FRAG_WHOLE in *.
  destruct (buf_read_app _ _ _ _ _ 4 Hb) as (b1 & -> & Hb1); [by rewrite length_be_bytes|].
  cbn [mbind outcome_bind]. rewrite be_val_u32 by lia.
  rewrite (land_low _ 2), (land_low _ 8) by done. change (2 ^ 2) with 4. change (2 ^ 8) with 256.
  assert ((0 + 4 * (64 * seq) + 1024 * id) mod 4 = 0) as -> by mlia.
  assert ((0 + 4 * (64 * seq) + 1024 * id) mod 256 = 0) as -> by mlia.
  exists b1. split; [done|]. by destruct Hb1 as (? & ? & ? & ? & ?).
Qed.

Definition demo_whole : buffer := mkbuf 20 5 5 (Some ([0;0;0;0;0] ++ [0;0;4;0;9] ++ replicate 10 0)).

Lemma whole_flags_unchecked_witness :
  exists out, fragment_incoming 0 10 (demo_fm 3) demo_whole = Ret (demo_fm 3, out) /\ content out = [9].
Proof.
  apply (whole_flags_unchecked 0 10 (demo_fm 3) demo_whole 5 [9] 10 0 1); [lia|lia|simpl; lia|].
  eexists. split; [|by vm_compute]. split; try done; try lia.
  apply (bool_decide_unpack _); vm_compute; done.
Defined.
