(* ===== verification/Base64.v ===== *)
(** * Base 64 (openvpn base64.c)

    A C string is the list of its characters without the terminating NUL.
    [malloc] is taken to succeed. *)

From S2P Require Import Prelude.
From stdpp Require Import prelude.
From Stdlib Require Import ZArith Lia ZifyBool.

Local Open Scope Z_scope.

(** "A..Za..z0..9+/" *)
Definition base64_chars : list Z :=
  Eval vm_compute in seqZ 65 26 ++ seqZ 97 26 ++ seqZ 48 10 ++ [43; 47].
Definition EQ : Z := 61.  (* '=' *)

Definition b64_char (i : Z) : outcome Z := arr_get base64_chars i.

(** ** Encoding *)

(** The four characters of a 24-bit group [c]. *)
Definition encode_group (c : Z) : outcome (list Z) :=
  p0 ← b64_char (Z.shiftr (Z.land c 0x00fc0000) 18);
  p1 ← b64_char (Z.shiftr (Z.land c 0x0003f000) 12);
  p2 ← b64_char (Z.shiftr (Z.land c 0x00000fc0) 6);
  p3 ← b64_char (Z.shiftr (Z.land c 0x0000003f) 0);
  Ret [p0; p1; p2; p3].

(** The loop from index [i]. *)
Fixpoint base64_encode_from (fuel : nat) (q : bytes) (size i : Z) : outcome (list Z) :=
  match fuel with
  | O => Fault
  | S fuel =>
      if i <? size then
        c ← arr_get q i;
        let i := i + 1 in
        let c := c * 256 in
        c ← (if i <? size then v ← arr_get q i; Ret (c + v) else Ret c);
        let i := i + 1 in
        let c := c * 256 in
        c ← (if i <? size then v ← arr_get q i; Ret (c + v) else Ret c);
        let i := i + 1 in
        p ← encode_group c;
        let p := if size <? i then <[3%nat := EQ]> p else p in
        let p := if size + 1 <? i then <[2%nat := EQ]> p else p in
        rest ← base64_encode_from fuel q size i;
        Ret (p ++ rest)
      else Ret []
  end.

(** The argument [size * 4] of the allocation must not overflow an [int], and
    the block of [size * 4 / 3 + 4] bytes has to hold the string and its NUL. *)
Definition openvpn_base64_encode (data : bytes) (size : Z) : outcome (option (list Z)) :=
  if size <? 0 then Ret None
  else if 2 ^ 31 <=? size * 4 then Fault
  else
    s ← base64_encode_from (S (Z.to_nat size)) data size 0;
    if size * 4 / 3 + 4 <? zlen s + 1 then Fault else Ret (Some s).

(** ** Decoding *)

Definition pos (c : Z) : Z :=
  match find_index (λ x, x =? c) base64_chars with Some i => Z.of_nat i | None => -1 end.

Definition DECODE_ERROR : Z := 0xffffffff.

(** The loop of [token_decode]; [None] is an early return of DECODE_ERROR. *)
Fixpoint token_loop (l : list Z) (val marker : Z) : option (Z * Z) :=
  match l with
  | [] => Some (val, marker)
  | t :: l' =>
      let val := u32 (val * 64) in
      if t =? EQ then token_loop l' val (marker + 1)
      else if 0 <? marker then None
      else token_loop l' (u32 (val + pos t)) marker
  end.

(** A string that ends within the token has a NUL among the four. *)
Definition token_decode (token : list Z) : Z :=
  if zlen token <? 4 then DECODE_ERROR
  else
    match token_loop (take 4 token) 0 0 with
    | None => DECODE_ERROR
    | Some (val, marker) => if 2 <? marker then DECODE_ERROR else Z.lor (Z.shiftl marker 24) val
    end.

(** Appending a byte; [None] is the overflow return.  A negative [size] means
    no limit. *)
Definition put (size : Z) (out : bytes) (v : Z) : option bytes :=
  if (0 <=? size) && (size <=? zlen out) then None else Some (out ++ [v]).

Definition put_token (size : Z) (out : bytes) (val : Z) : option bytes :=
  let marker := Z.land (Z.shiftr val 24) 0xff in
  if val =? DECODE_ERROR then None
  else
    out ← put size out (Z.land (Z.shiftr val 16) 0xff);
    out ← (if marker <? 2 then put size out (Z.land (Z.shiftr val 8) 0xff) else Some out);
    if marker <? 1 then put size out (Z.land val 0xff) else Some out.

Fixpoint base64_decode_loop (p : list Z) (size : Z) (out : bytes) : option bytes :=
  match p with
  | [] => Some out
  | a :: p1 =>
      if (a =? EQ) || bool_decide (a ∈ base64_chars) then
        match put_token size out (token_decode p) with
        | None => None
        | Some out =>
            match p1 with
            | _ :: _ :: _ :: p' => base64_decode_loop p' size out
            | _ => None
            end
        end
      else Some out
  end.

(** [None] is -1. *)
Definition openvpn_base64_decode (str : list Z) (size : Z) : option bytes := base64_decode_loop str size [].

(** ** Reference encoding

    RFC 4648: three bytes to four characters, the last group padded. *)

Fixpoint base64_encode_loop (q : bytes) : outcome (list Z) :=
  match q with
  | [] => Ret []
  | [a] =>
      p ← encode_group (a * 256 * 256);
      Ret (take 2 p ++ [EQ; EQ])
  | [a; b] =>
      p ← encode_group ((a * 256 + b) * 256);
      Ret (take 3 p ++ [EQ])
  | a :: b :: c :: q' =>
      p ← encode_group ((a * 256 + b) * 256 + c);
      rest ← base64_encode_loop q';
      Ret (p ++ rest)
  end.

(** ** Characters *)

Lemma b64_char_spec i :
  0 <= i < 64 -> exists x, b64_char i = Ret x /\ pos x = i /\ x <> EQ /\ x ∈ base64_chars.
Proof.
  intros Hi. destruct (arr_get_returns base64_chars i) as (x & Hx & Hl); [exact Hi|].
  exists x. split; [done|].
  assert (Hall : forallb (λ i, match base64_chars !! i with
     | Some x => (pos x =? Z.of_nat i) && negb (x =? EQ) | None => false end) (seq 0 64) = true) by (vm_compute; done).
  rewrite forallb_forall in Hall. specialize (Hall (Z.to_nat i)). rewrite Hl in Hall.
  specialize (Hall ltac:(apply in_seq; lia)). split_and!; [lia|lia|]. by eapply list_elem_of_lookup_2.
Qed.

Lemma field_18 c : Z.shiftr (Z.land c 0x00fc0000) 18 = (c / 2 ^ 18) mod 64.
Proof. change 0x00fc0000 with (Z.shiftl 63 18). by rewrite Z.shiftr_land, Z.shiftr_shiftl_l, Z.shiftl_0_r, (land_field c 18 6). Qed.
Lemma field_12 c : Z.shiftr (Z.land c 0x0003f000) 12 = (c / 2 ^ 12) mod 64.
Proof. change 0x0003f000 with (Z.shiftl 63 12). by rewrite Z.shiftr_land, Z.shiftr_shiftl_l, Z.shiftl_0_r, (land_field c 12 6). Qed.
Lemma field_6 c : Z.shiftr (Z.land c 0x00000fc0) 6 = (c / 2 ^ 6) mod 64.
Proof. change 0x00000fc0 with (Z.shiftl 63 6). by rewrite Z.shiftr_land, Z.shiftr_shiftl_l, Z.shiftl_0_r, (land_field c 6 6). Qed.
Lemma field_0 c : Z.shiftr (Z.land c 0x0000003f) 0 = c mod 64.
Proof. by rewrite Z.shiftr_0_r, (land_low c 6). Qed.

(** A group's four characters and their values. *)
Lemma encode_group_spec c :
  exists p0 p1 p2 p3, encode_group c = Ret [p0; p1; p2; p3] /\
    Forall (λ x, x <> EQ /\ x ∈ base64_chars) [p0; p1; p2; p3] /\
    pos p0 = (c / 2 ^ 18) mod 64 /\ pos p1 = (c / 2 ^ 12) mod 64 /\ pos p2 = (c / 2 ^ 6) mod 64 /\ pos p3 = c mod 64.
Proof.
  unfold encode_group. rewrite field_18, field_12, field_6, field_0.
  destruct (b64_char_spec ((c / 2 ^ 18) mod 64)) as (p0 & -> & Hp0 & Hc0); [apply Z.mod_pos_bound; lia|].
  destruct (b64_char_spec ((c / 2 ^ 12) mod 64)) as (p1 & -> & Hp1 & Hc1); [apply Z.mod_pos_bound; lia|].
  destruct (b64_char_spec ((c / 2 ^ 6) mod 64)) as (p2 & -> & Hp2 & Hc2); [apply Z.mod_pos_bound; lia|].
  destruct (b64_char_spec (c mod 64)) as (p3 & -> & Hp3 & Hc3); [apply Z.mod_pos_bound; lia|].
  exists p0, p1, p2, p3. cbn [mbind outcome_bind]. split; [done|]. split; [|done]. by repeat (apply Forall_cons; split).
Qed.

(** ** Tokens *)

Definition digits (p0 p1 p2 p3 : Z) : Z := ((p0 * 64 + p1) * 64 + p2) * 64 + p3.

(** The value of a token with [m] padding characters. *)
Lemma token_value p0 p1 p2 p3 rest :
  Forall (λ x, x <> EQ /\ x ∈ base64_chars) [p0; p1; p2; p3] ->
  0 <= pos p0 < 64 -> 0 <= pos p1 < 64 -> 0 <= pos p2 < 64 -> 0 <= pos p3 < 64 ->
  token_decode (p0 :: p1 :: p2 :: p3 :: rest) = digits (pos p0) (pos p1) (pos p2) (pos p3) /\
  token_decode (p0 :: p1 :: p2 :: EQ :: rest) = 1 * 2 ^ 24 + digits (pos p0) (pos p1) (pos p2) 0 /\
  token_decode (p0 :: p1 :: EQ :: EQ :: rest) = 2 * 2 ^ 24 + digits (pos p0) (pos p1) 0 0.
Proof.
  intros Hall H0 H1 H2 H3. rewrite !Forall_cons in Hall. destruct Hall as ([E0 _] & [E1 _] & [E2 _] & [E3 _] & _).
  unfold token_decode. cbn [take].
  destruct (zlen _ <? 4) eqn:L1; [simpl in L1; lia|]. clear L1.
  destruct (zlen (p0 :: p1 :: p2 :: EQ :: rest) <? 4) eqn:L1; [simpl in L1; lia|]. clear L1.
  destruct (zlen (p0 :: p1 :: EQ :: EQ :: rest) <? 4) eqn:L1; [simpl in L1; lia|]. clear L1.
  cbn [token_loop]. rewrite !(proj2 (Z.eqb_neq _ _)) by done. change (0 <? 0) with false. cbv iota.
  rewrite Z.eqb_refl, take_0. cbn [token_loop]. unfold digits. change (u32 (0 * 64)) with 0.
  rewrite (u32_small (0 + pos p0)), (u32_small ((0 + pos p0) * 64)) by lia.
  rewrite (u32_small ((0 + pos p0) * 64 + pos p1)), (u32_small (((0 + pos p0) * 64 + pos p1) * 64)) by lia.
  rewrite (u32_small (((0 + pos p0) * 64 + pos p1) * 64 + pos p2)) by lia.
  rewrite (u32_small ((((0 + pos p0) * 64 + pos p1) * 64 + pos p2) * 64)) by lia.
  rewrite (u32_small ((((0 + pos p0) * 64 + pos p1) * 64) * 64)) by lia.
  rewrite u32_small by lia.
  split_and!.
  - change (2 <? 0) with false. cbv iota. rewrite Z.lor_comm, lor_field by lia. lia.
  - change (2 <? 0 + 1) with false. cbv iota. change (0 + 1) with 1. rewrite Z.lor_comm, lor_field by lia. lia.
  - change (2 <? 0 + 1 + 1) with false. cbv iota. change (0 + 1 + 1) with 2. rewrite Z.lor_comm, lor_field by lia. lia.
Qed.

Lemma put_ok size out v : size < 0 \/ zlen out < size -> put size out v = Some (out ++ [v]).
Proof. intros H. unfold put. destruct (_ && _) eqn:E; [lia|done]. Qed.

Lemma put_token_spec size out (m : nat) c :
  (m <= 2)%nat -> 0 <= c < 2 ^ 24 -> size < 0 \/ zlen out + (3 - Z.of_nat m) <= size ->
  put_token size out (Z.of_nat m * 2 ^ 24 + c) = Some (out ++ take (3 - m) (be_bytes 3 c)).
Proof.
  intros Hm Hc Hfit. unfold put_token. set (val := Z.of_nat m * 2 ^ 24 + c).
  assert (Hb : be_bytes 3 c = [(c / 65536) mod 256; (c / 256) mod 256; (c / 1) mod 256]) by done.
  rewrite (land_field val 24 8), (land_field val 16 8), (land_field val 8 8), (land_low val 8) by done.
  change (2 ^ 8) with 256. change (2 ^ 16) with 65536.
  assert (Hmk : (val / 2 ^ 24) mod 256 = Z.of_nat m) by (unfold val; rewrite Z.div_add_l, Z.div_small by lia; rewrite Z.mod_small; lia).
  assert (Hx : (val / 65536) mod 256 = (c / 65536) mod 256 /\ (val / 256) mod 256 = (c / 256) mod 256 /\ val mod 256 = (c / 1) mod 256)
    by (unfold val; split_and!; mlia).
  destruct Hx as (-> & -> & ->). rewrite Hmk, Hb. clear Hmk Hb.
  destruct (val =? DECODE_ERROR) eqn:E; [unfold val, DECODE_ERROR in E; lia|]. clear E val.
  rewrite put_ok by lia. cbn [mbind option_bind].
  destruct m as [|[|[|m]]]; [| | |lia]; simpl.
  - rewrite put_ok by (rewrite length_app; simpl; lia). cbn [mbind option_bind].
    rewrite put_ok by (rewrite !length_app; simpl; lia). by rewrite <- !(assoc_L (++)).
  - rewrite put_ok by (rewrite length_app; simpl; lia). cbn [mbind option_bind]. by rewrite <- !(assoc_L (++)).
  - done.
Qed.

Lemma digits_value c : 0 <= c < 2 ^ 24 ->
  digits ((c / 2 ^ 18) mod 64) ((c / 2 ^ 12) mod 64) ((c / 2 ^ 6) mod 64) (c mod 64) = c.
Proof. intros. unfold digits. change (2 ^ 18) with 262144. change (2 ^ 12) with 4096. change (2 ^ 6) with 64. mlia. Qed.

(** ** The round trip *)

(** Lists three bytes at a time. *)
Lemma triple_ind (P : bytes -> Prop) :
  P [] -> (forall a, P [a]) -> (forall a b, P [a; b]) -> (forall a b c l, P l -> P (a :: b :: c :: l)) -> forall l, P l.
Proof.
  intros H0 H1 H2 H3 l. assert (H : P l /\ (forall x, P (x :: l)) /\ (forall x y, P (x :: y :: l))); [|apply H].
  induction l as [|a l (IH1 & IH2 & IH3)]; [auto|]. split_and!; auto.
Qed.

Lemma base64_encode_loop_spec data : forall size out,
  Forall is_byte data -> size < 0 \/ zlen out + zlen data <= size ->
  exists s, base64_encode_loop data = Ret s /\ zlen s = 4 * ((zlen data + 2) / 3) /\
    base64_decode_loop s size out = Some (out ++ data).
Proof.
  induction data as [|a|a b|a b c data IH] using triple_ind; intros size out Hby Hfit.
  - exists []. split_and!; try done. simpl. by rewrite app_nil_r.
  - apply Forall_cons in Hby as [Ha _]. unfold is_byte in Ha. cbn [base64_encode_loop].
    destruct (encode_group_spec (a * 256 * 256)) as (p0 & p1 & p2 & p3 & -> & Hall & E0 & E1 & E2 & E3).
    cbn [mbind outcome_bind take app]. eexists. split; [done|]. split; [done|].
    cbn [base64_decode_loop]. pose proof Hall as Hall'. apply Forall_cons in Hall' as [[_ Hp0] _].
    rewrite bool_decide_true by done. rewrite orb_true_r.
    destruct (token_value p0 p1 p2 p3 [] Hall) as (_ & _ & ->); try (rewrite ?E0, ?E1, ?E2, ?E3; apply Z.mod_pos_bound; lia).
    replace (digits (pos p0) (pos p1) 0 0) with (a * 256 * 256).
    2:{ rewrite E0, E1. rewrite <- (digits_value (a * 256 * 256)) at 1 by lia. f_equal; mlia. }
    change (2 * 2 ^ 24) with (Z.of_nat 2 * 2 ^ 24). rewrite (put_token_spec size out 2 (a * 256 * 256)) by (simpl in Hfit; lia). simpl.
    do 2 f_equal. unfold be_bytes. f_equal. mlia.
  - rewrite !Forall_cons in Hby. destruct Hby as (Ha & Hb & _). unfold is_byte in Ha, Hb. cbn [base64_encode_loop].
    destruct (encode_group_spec ((a * 256 + b) * 256)) as (p0 & p1 & p2 & p3 & -> & Hall & E0 & E1 & E2 & E3).
    cbn [mbind outcome_bind take app]. eexists. split; [done|]. split; [done|].
    cbn [base64_decode_loop]. pose proof Hall as Hall'. apply Forall_cons in Hall' as [[_ Hp0] _].
    rewrite bool_decide_true by done. rewrite orb_true_r.
    destruct (token_value p0 p1 p2 p3 [] Hall) as (_ & -> & _); try (rewrite ?E0, ?E1, ?E2, ?E3; apply Z.mod_pos_bound; lia).
    replace (digits (pos p0) (pos p1) (pos p2) 0) with ((a * 256 + b) * 256).
    2:{ rewrite E0, E1, E2. rewrite <- (digits_value ((a * 256 + b) * 256)) at 1 by lia. f_equal; mlia. }
    change (1 * 2 ^ 24) with (Z.of_nat 1 * 2 ^ 24). rewrite (put_token_spec size out 1 ((a * 256 + b) * 256)) by (simpl in Hfit; lia). simpl.
    do 2 f_equal. unfold be_bytes. simpl. f_equal; [mlia|]. f_equal. mlia.
  - rewrite !Forall_cons in Hby. destruct Hby as (Ha & Hb & Hc & Hby). unfold is_byte in Ha, Hb, Hc. cbn [base64_encode_loop].
    set (v := (a * 256 + b) * 256 + c).
    destruct (encode_group_spec v) as (p0 & p1 & p2 & p3 & -> & Hall & E0 & E1 & E2 & E3).
    cbn [mbind outcome_bind]. cbn [length] in Hfit.
    destruct (IH size (out ++ [a; b; c]) Hby) as (s & -> & Hlen & Hdec); [rewrite length_app; simpl; lia|].
    cbn [mbind outcome_bind app]. eexists. split; [done|]. split; [cbn [length]; mlia|].
    cbn [base64_decode_loop]. pose proof Hall as Hall'. apply Forall_cons in Hall' as [[_ Hp0] _].
    rewrite bool_decide_true by done. rewrite orb_true_r.
    destruct (token_value p0 p1 p2 p3 s Hall) as (-> & _ & _); try (rewrite ?E0, ?E1, ?E2, ?E3; apply Z.mod_pos_bound; lia).
    rewrite E0, E1, E2, E3. unfold v. rewrite digits_value by lia.
    assert (Hput := put_token_spec size out 0 v). unfold v in Hput. rewrite Z.mul_0_l, Z.add_0_l in Hput.
    rewrite Hput by lia. change (take (3 - 0) ?l) with l.
    replace (be_bytes 3 ((a * 256 + b) * 256 + c)) with [a; b; c].
    2:{ unfold be_bytes. simpl. f_equal; [mlia|]. f_equal; [mlia|]. f_equal. mlia. }
    rewrite Hdec. by rewrite <- (assoc_L (++)).
Qed.

(** The loop of the source computes the reference encoding of what is left. *)
Lemma base64_encode_from_eq fuel data i q :
  0 <= i -> drop (Z.to_nat i) data = q -> zlen data - i < Z.of_nat fuel -> 0 < Z.of_nat fuel ->
  base64_encode_from fuel data (zlen data) i = base64_encode_loop q.
Proof.
  revert i q. induction fuel as [|fuel IH]; intros i q Hi Hq Hf Hf0; [lia|]. cbn [base64_encode_from].
  assert (Hget : forall k x, q !! k = Some x -> arr_get data (i + Z.of_nat k) = Ret x).
  { intros k x Hk. subst q. rewrite lookup_drop in Hk. apply arr_get_Ret; [lia|].
    replace (Z.to_nat (i + Z.of_nat k)) with (Z.to_nat i + k)%nat by lia. done. }
  assert (Hlen : zlen data - i <= zlen q /\ (q <> [] -> zlen q = zlen data - i)).
  { subst q. rewrite length_drop. split; [lia|]. intros Hne. destruct (decide (Z.to_nat i < length data)%nat); [lia|].
    by rewrite drop_ge in Hne by lia. }
  destruct Hlen as [Hle Hlen].
  destruct q as [|a q]; [destruct (i <? zlen data) eqn:E; [simpl in Hle; lia|done]|].
  specialize (Hlen ltac:(done)). cbn [length] in Hlen, Hle.
  pose proof (Hget 0%nat a eq_refl) as Ha. rewrite Z.add_0_r in Ha.
  destruct (i <? zlen data) eqn:E0; [|lia]. rewrite Ha. cbn [mbind outcome_bind].
  replace (i + 1 + 1) with (i + 2) by lia. replace (i + 2 + 1) with (i + 3) by lia.
  destruct q as [|b q].
  { simpl in Hlen. destruct (i + 1 <? _) eqn:E1; [lia|]. destruct (i + 2 <? _) eqn:E2; [lia|]. cbn [mbind outcome_bind base64_encode_loop].
    destruct (encode_group_spec (a * 256 * 256)) as (p0 & p1 & p2 & p3 & -> & _). cbn [mbind outcome_bind].
    destruct (zlen data <? i + 3) eqn:E3; [|lia]. destruct (zlen data + 1 <? i + 3) eqn:E4; [|lia].
    rewrite (IH (i + 3) []); [done|lia|apply drop_ge; lia|lia|lia]. }
  pose proof (Hget 1%nat b eq_refl) as Hb. change (Z.of_nat 1) with 1 in Hb. cbn [length] in Hlen.
  destruct (i + 1 <? _) eqn:E1; [|lia]. rewrite Hb. cbn [mbind outcome_bind].
  destruct q as [|c q].
  { simpl in Hlen. destruct (i + 2 <? _) eqn:E2; [lia|]. cbn [mbind outcome_bind base64_encode_loop].
    destruct (encode_group_spec ((a * 256 + b) * 256)) as (p0 & p1 & p2 & p3 & -> & _). cbn [mbind outcome_bind].
    destruct (zlen data <? i + 3) eqn:E3; [|lia]. destruct (zlen data + 1 <? i + 3) eqn:E4; [lia|].
    rewrite (IH (i + 3) []); [done|lia|apply drop_ge; lia|lia|lia]. }
  pose proof (Hget 2%nat c eq_refl) as Hc. change (Z.of_nat 2) with 2 in Hc. cbn [length] in Hlen.
  destruct (i + 2 <? _) eqn:E2; [|lia]. rewrite Hc. cbn [mbind outcome_bind base64_encode_loop].
  destruct (encode_group _) as [p| |]; [|done..]. cbn [mbind outcome_bind].
  destruct (zlen data <? i + 3) eqn:E3; [lia|]. destruct (zlen data + 1 <? i + 3) eqn:E4; [lia|].
  rewrite (IH (i + 3) q); [done|lia| |lia|lia].
  replace (Z.to_nat (i + 3)) with (Z.to_nat i + 3)%nat by lia. by rewrite <- drop_drop, Hq.
Qed.

(** Base 64 round trip: for every byte string shorter than 2^29 bytes,
    [openvpn_base64_encode] stays within the block it allocates and returns a
    string of 4*ceil(n/3) characters, which [openvpn_base64_decode] turns back
    into the same bytes in any buffer that can hold them (or with no limit). *)
Theorem base64_roundtrip data size :
  Forall is_byte data -> zlen data < 2 ^ 29 -> size < 0 \/ zlen data <= size ->
  exists s, openvpn_base64_encode data (zlen data) = Ret (Some s) /\
    zlen s = 4 * ((zlen data + 2) / 3) /\ openvpn_base64_decode s size = Some data.
Proof.
  intros Hby Hsz Hfit. unfold openvpn_base64_encode, openvpn_base64_decode.
  destruct (base64_encode_loop_spec data size [] Hby Hfit) as (s & Henc & Hlen & Hdec).
  destruct (zlen data <? 0) eqn:E1; [lia|]. destruct (2 ^ 31 <=? _) eqn:E2; [lia|].
  rewrite (base64_encode_from_eq _ _ 0 data), Henc by (done || lia). cbn [mbind outcome_bind].
  destruct (_ <? zlen s + 1) eqn:E3; [mlia|]. by exists s.
Qed.

Lemma base64_roundtrip_witness :
  exists s, openvpn_base64_encode [77; 97; 110; 0; 255] 5 = Ret (Some s) /\
    zlen s = 8 /\ openvpn_base64_decode s 5 = Some [77; 97; 110; 0; 255].
Proof.
  apply (base64_roundtrip [77; 97; 110; 0; 255] 5); [|simpl; lia|simpl; lia].
  repeat (apply Forall_cons; split; [unfold is_byte; lia|]). apply Forall_nil_2.
Defined.

(** ** Arbitrary input *)

Lemma put_bounded size out v out' :
  put size out v = Some out' -> size < 0 \/ zlen out <= size -> is_byte v -> Forall is_byte out ->
  (size < 0 \/ zlen out' <= size) /\ Forall is_byte out'.
Proof.
  unfold put. intros H Hs Hv Ho. destruct (_ && _) eqn:E; [done|]. injection H as <-. rewrite length_app. simpl.
  split; [lia|]. apply Forall_app. split; [done|]. by apply Forall_singleton.
Qed.

Lemma land_ff_byte x : is_byte (Z.land x 0xff).
Proof. rewrite (land_low x 8) by done. unfold is_byte. change 256 with (2 ^ 8). apply Z.mod_pos_bound. lia. Qed.

Lemma put_token_bounded size out val out' :
  put_token size out val = Some out' -> size < 0 \/ zlen out <= size -> Forall is_byte out ->
  (size < 0 \/ zlen out' <= size) /\ Forall is_byte out'.
Proof.
  unfold put_token. intros H Hs Ho. destruct (_ =? _); [done|].
  apply bind_Some in H as (o1 & H1 & H). apply put_bounded in H1 as [Hs1 Ho1]; [|done|apply land_ff_byte|done].
  apply bind_Some in H as (o2 & H2 & H).
  assert ((size < 0 \/ zlen o2 <= size) /\ Forall is_byte o2) as [Hs2 Ho2].
  { destruct (_ <? 2); [|by simplify_eq]. eapply put_bounded; [exact H2|done|apply land_ff_byte|done]. }
  destruct (_ <? 1); [|by simplify_eq]. eapply put_bounded; [exact H|done|apply land_ff_byte|done].
Qed.

(** Whatever the string, a successful [openvpn_base64_decode] has stored at
    most [size] bytes (when [size] is not negative, the caller's limit). *)
Theorem base64_decode_bounded str size out :
  openvpn_base64_decode str size = Some out -> (size < 0 \/ zlen out <= size) /\ Forall is_byte out.
Proof.
  unfold openvpn_base64_decode. intros H.
  enough (forall n str o, (length str < n)%nat -> base64_decode_loop str size o = Some out ->
    size < 0 \/ zlen o <= size -> Forall is_byte o -> (size < 0 \/ zlen out <= size) /\ Forall is_byte out) as HH.
  { apply (HH (S (length str)) str []); [lia|done|simpl; lia|by apply Forall_nil]. }
  clear str H. induction n as [|n IH]; intros str o Hn H Hs Ho; [lia|].
  destruct str as [|a p1]; cbn [base64_decode_loop] in H; [by simplify_eq|].
  destruct (_ || _); [|by simplify_eq]. destruct (put_token _ _ _) as [o'|] eqn:Hp; [|done].
  apply put_token_bounded in Hp as [Hs' Ho']; [|done..].
  destruct p1 as [|x [|y [|z p']]]; [done..|]. eapply (IH p' o'); [simpl in Hn; lia|done..].
Qed.

Lemma base64_decode_bounded_witness :
  openvpn_base64_decode [84; 87; 70; 117] 3 = Some [77; 97; 110] /\ ((3 < 0 \/ 3 <= 3) /\ Forall is_byte [77; 97; 110]).
Proof.
  split; [vm_compute; done|]. apply (base64_decode_bounded [84; 87; 70; 117] 3 [77; 97; 110]). vm_compute. done.
Defined.

(** A character outside the alphabet is not rejected inside a token:
    [token_decode] adds [pos] of it, which is -1, to the value, and the sum
    does not equal DECODE_ERROR unless it is the last character.  So "A?AA"
    decodes to the single byte 255 for every such character. *)
Theorem base64_invalid_character_accepted c size :
  c <> EQ -> c ∉ base64_chars -> size < 0 \/ 1 <= size ->
  openvpn_base64_decode [65; c; 65; 65] size = Some [255].
Proof.
  intros He Hc Hs. unfold openvpn_base64_decode. cbn [base64_decode_loop].
  assert (Hpos : pos c = -1).
  { unfold pos. destruct (find_index _ _) as [i|] eqn:Hf; [|done]. exfalso.
    apply find_index_Some in Hf as (x & Hx & Hxc & _). apply Hc. apply list_elem_of_lookup. exists i. rewrite Hx. f_equal. lia. }
  assert (Ht : token_decode [65; c; 65; 65] = 0xfffff000).
  { unfold token_decode. cbn [take token_loop]. rewrite (proj2 (Z.eqb_neq c EQ)), Hpos by done. vm_compute. done. }
  rewrite Ht. rewrite bool_decide_true by (vm_compute; set_solver). rewrite orb_true_r.
  assert (put_token size [] 0xfffff000 = Some [255]) as ->; [|done].
  unfold put_token, put. simpl. destruct (_ && _) eqn:E; [lia|]. done.
Qed.

Lemma base64_invalid_character_accepted_witness : openvpn_base64_decode [65; 42; 65; 65] 3 = Some [255].
Proof.
  apply (base64_invalid_character_accepted 42 3); [done| |lia].
  intros H. apply (bool_decide_eq_true_2 _) in H. vm_compute in H. discriminate.
Defined.

(** ** Equivalence with RFC 4648

    The standard's definition, on the bit string: the bits of the bytes, most
    significant first, in groups of six, the last group filled with zero bits,
    each group the index of a character, and the text filled up with padding
    to a multiple of four. *)

Definition bits8 (b : Z) : list bool := Z.testbit b <$> [7; 6; 5; 4; 3; 2; 1; 0].
Definition bit_string (data : bytes) : list bool := concat (bits8 <$> data).

Definition val6 (a b c d e f : bool) : Z :=
  32 * Z.b2z a + 16 * Z.b2z b + 8 * Z.b2z c + 4 * Z.b2z d + 2 * Z.b2z e + Z.b2z f.

Fixpoint sextets (l : list bool) : list Z :=
  match l with
  | [] => []
  | [a] => [val6 a false false false false false]
  | [a; b] => [val6 a b false false false false]
  | [a; b; c] => [val6 a b c false false false]
  | [a; b; c; d] => [val6 a b c d false false]
  | [a; b; c; d; e] => [val6 a b c d e false]
  | a :: b :: c :: d :: e :: f :: l' => val6 a b c d e f :: sextets l'
  end.

Definition alphabet (i : Z) : Z := default 0 (base64_chars !! Z.to_nat i).

Definition rfc4648 (data : bytes) : list Z :=
  let s := alphabet <$> sextets (bit_string data) in
  s ++ replicate ((4 - length s mod 4) mod 4) EQ.

Lemma encode_group_chars c :
  encode_group c = Ret (alphabet <$> [(c / 2 ^ 18) mod 64; (c / 2 ^ 12) mod 64; (c / 2 ^ 6) mod 64; c mod 64]).
Proof.
  unfold encode_group. rewrite field_18, field_12, field_6, field_0.
  assert (Hc : forall i, b64_char (i mod 64) = Ret (alphabet (i mod 64))).
  { intros i. unfold b64_char, alphabet. pose proof (Z.mod_pos_bound i 64 ltac:(lia)).
    destruct (arr_get_returns base64_chars (i mod 64)) as (x & -> & ->); [exact H|done]. }
  by rewrite !Hc.
Qed.

(** The four sextets of three bytes. *)
Lemma sextets_value a b c :
  is_byte a -> is_byte b -> is_byte c ->
  let v := (a * 256 + b) * 256 + c in
  let t := Z.testbit in
  val6 (t a 7) (t a 6) (t a 5) (t a 4) (t a 3) (t a 2) = (v / 2 ^ 18) mod 64 /\
  val6 (t a 1) (t a 0) (t b 7) (t b 6) (t b 5) (t b 4) = (v / 2 ^ 12) mod 64 /\
  val6 (t b 3) (t b 2) (t b 1) (t b 0) (t c 7) (t c 6) = (v / 2 ^ 6) mod 64 /\
  val6 (t c 5) (t c 4) (t c 3) (t c 2) (t c 1) (t c 0) = v mod 64.
Proof.
  intros Ha Hb Hc. cbv zeta. unfold is_byte in *. unfold val6. rewrite !Z.testbit_spec' by lia.
  change (2 ^ 18) with 262144. change (2 ^ 12) with 4096. 
  change (2 ^ 7) with 128. change (2 ^ 6) with 64. change (2 ^ 5) with 32. change (2 ^ 4) with 16.
  change (2 ^ 3) with 8. change (2 ^ 2) with 4. change (2 ^ 1) with 2. change (2 ^ 0) with 1. rewrite !Z.div_1_r.
  split_and!; mlia.
Qed.

Lemma pad_cons4 s (x0 x1 x2 x3 : Z) :
  [x0; x1; x2; x3] ++ s ++ replicate ((4 - length s mod 4) mod 4) EQ =
  ([x0; x1; x2; x3] ++ s) ++ replicate ((4 - length ([x0; x1; x2; x3] ++ s) mod 4) mod 4) EQ.
Proof.
  rewrite <- app_assoc. do 5 f_equal. change (length ([x0; x1; x2; x3] ++ s)) with (4 + length s)%nat.
  by rewrite <- (Nat.Div0.add_mod_idemp_l 4).
Qed.

Lemma encode_loop_rfc data : Forall is_byte data -> base64_encode_loop data = Ret (rfc4648 data).
Proof.
  induction data as [|a|a b|a b c data IH] using triple_ind; intros Hby; [done|..]; rewrite ?Forall_cons in Hby.
  - destruct Hby as [Ha _]. destruct (sextets_value a 0 0 Ha) as (H0 & H1 & _); [unfold is_byte; lia..|].
    cbn [base64_encode_loop]. rewrite encode_group_chars. cbn [mbind outcome_bind]. f_equal. unfold rfc4648. simpl.
    rewrite !Z.add_0_r in *. rewrite <- H0, <- H1. rewrite !Z.bits_0. done.
  - destruct Hby as (Ha & Hb & _). destruct (sextets_value a b 0 Ha Hb) as (H0 & H1 & H2 & _); [unfold is_byte; lia..|].
    cbn [base64_encode_loop]. rewrite encode_group_chars. cbn [mbind outcome_bind]. f_equal. unfold rfc4648. simpl.
    rewrite !Z.add_0_r in *. rewrite <- H0, <- H1, <- H2. rewrite !Z.bits_0. done.
  - destruct Hby as (Ha & Hb & Hc & Hby). destruct (sextets_value a b c Ha Hb Hc) as (H0 & H1 & H2 & H3).
    cbn [base64_encode_loop]. rewrite encode_group_chars, (IH Hby). cbn [mbind outcome_bind]. f_equal.
    rewrite <- H0, <- H1, <- H2, <- H3. unfold rfc4648. rewrite !fmap_cons, fmap_nil, pad_cons4. done.
Qed.

(** C37. The encoder is RFC 4648: for every byte string (below the 2^29 bytes its
    [int] arithmetic allows) its shift-and-mask loop returns exactly the text
    the standard defines on the bit string. *)
Theorem base64_encode_is_rfc4648 data :
  Forall is_byte data -> zlen data < 2 ^ 29 ->
  openvpn_base64_encode data (zlen data) = Ret (Some (rfc4648 data)).
Proof.
  intros Hby Hsz. unfold openvpn_base64_encode.
  destruct (base64_encode_loop_spec data (zlen data) [] Hby) as (s & Henc & Hlen & _); [simpl; lia|].
  destruct (zlen data <? 0) eqn:E1; [lia|]. destruct (2 ^ 31 <=? _) eqn:E2; [lia|].
  rewrite (base64_encode_from_eq _ _ 0 data), Henc by (done || lia). cbn [mbind outcome_bind].
  destruct (_ <? zlen s + 1) eqn:E3; [mlia|]. rewrite encode_loop_rfc in Henc by done. by simplify_eq.
Qed.

Lemma base64_encode_is_rfc4648_witness :
  openvpn_base64_encode [102; 111; 111; 98] 4 = Ret (Some (rfc4648 [102; 111; 111; 98])) /\
  rfc4648 [102; 111; 111; 98] = [90; 109; 57; 118; 89; 103; 61; 61].
Proof.
  split; [|vm_compute; reflexivity]. apply (base64_encode_is_rfc4648 [102; 111; 111; 98]); [|simpl; lia].
  repeat (apply Forall_cons; split; [unfold is_byte; lia|]). apply Forall_nil_2.
Defined.
