(* ===== verification/Proto.v ===== *)
(** * IP and Ethernet headers, internet checksums (openvpn proto.h, proto.c)

    Header fields are read at their byte offsets.  The target is little-endian
    (all Android ABIs are), so a 16- or 32-bit load of a network-order field
    is its little-endian value and [htons]/[ntohs] swap the two bytes; a load
    followed by [ntohs]/[ntohl] is the big-endian value ([be_val]).
    [word_sum] is the sum of the 16-bit words of RFC 1071; [checksum_ok] says
    that a packet carries a correct checksum.  [win] describes writes inside
    the content of a buffer, including through a second header of its block. *)

From S2P Require Import Prelude Buffer.
From stdpp Require Import prelude.
From Stdlib Require Import ZArith Lia ZifyBool.

Local Open Scope Z_scope.

Definition DEV_TYPE_TUN : Z := 2.
Definition DEV_TYPE_TAP : Z := 3.

Definition SIZEOF_ETHHDR : Z := 14.
Definition SIZEOF_8021QHDR : Z := 18.
Definition SIZEOF_IPHDR : Z := 20.
Definition SIZEOF_IPV6HDR : Z := 40.
Definition SIZEOF_UDPHDR : Z := 8.
Definition SIZEOF_TCPHDR : Z := 20.

Definition OPENVPN_ETH_P_IPV4 : Z := 0x0800.
Definition OPENVPN_ETH_P_IPV6 : Z := 0x86DD.
Definition OPENVPN_ETH_P_8021Q : Z := 0x8100.
Definition OPENVPN_IPPROTO_TCP : Z := 6.
Definition OPENVPN_IPPROTO_UDP : Z := 17.
Definition OPENVPN_IP_OFFMASK : Z := 0x1fff.

Definition OPENVPN_IPH_GET_VER (v : Z) : Z := Z.land (Z.shiftr v 4) 0x0F.
Definition OPENVPN_IPH_GET_LEN (v : Z) : Z := Z.shiftl (Z.land v 0x0F) 2.
Definition OPENVPN_TCPH_GET_DOFF (d : Z) : Z := Z.shiftr (Z.land d 0xF0) 2.
Definition OPENVPN_TCPH_SYN_MASK : Z := Z.shiftl 1 1.

(** Offsets of the fields the code uses. *)
Definition ETH_PROTO : Z := 12.
Definition ETH_8021Q_PROTO : Z := 16.
Definition IPH_TOT_LEN : Z := 2.
Definition IPH_FRAG_OFF : Z := 6.
Definition IPH_PROTOCOL : Z := 9.
Definition IPH_CHECK : Z := 10.
Definition IPH_SADDR : Z := 12.
Definition IPH_DADDR : Z := 16.
Definition IP6H_PAYLOAD_LEN : Z := 4.
Definition IP6H_NEXTHDR : Z := 6.
Definition TCPH_DOFF_RES : Z := 12.
Definition TCPH_FLAGS : Z := 13.
Definition TCPH_CHECK : Z := 16.
Definition UDPH_CHECK : Z := 6.

(** ** Loads and stores *)

Definition le_val (l : bytes) : Z := be_val (rev l).
Definition le_bytes (n : nat) (v : Z) : bytes := rev (be_bytes n v).

(** [htons], which is also [ntohs]. *)
Definition htons (x : Z) : Z := (x mod 256) * 256 + (x / 256) mod 256.

(** A byte access, a 16-bit load through [ntohs], and plain 16- and 32-bit
    loads and stores. *)
Definition get_u8 (b : buffer) (p : Z) : outcome Z := d ← peek b p 1; Ret (be_val d).
Definition get_n16 (b : buffer) (p : Z) : outcome Z := d ← peek b p 2; Ret (be_val d).
Definition get_h16 (b : buffer) (p : Z) : outcome Z := d ← peek b p 2; Ret (le_val d).
Definition get_h32 (b : buffer) (p : Z) : outcome Z := d ← peek b p 4; Ret (le_val d).
Definition put_u8 (b : buffer) (p v : Z) : outcome buffer := poke b p [u8 v].
Definition put_h16 (b : buffer) (p v : Z) : outcome buffer := poke b p (le_bytes 2 v).
Definition put_h32 (b : buffer) (p v : Z) : outcome buffer := poke b p (le_bytes 4 v).

(** A buffer header keeps its fields when its block changes through another
    header of the same block. *)
Definition share_block (b other : buffer) : buffer :=
  mkbuf (bcapacity b) (boffset b) (blen b) (bdata other).

(** ** Checksum macros *)

Definition ADJUST_CHECKSUM (acc cksum : Z) : Z :=
  let _acc := acc + cksum in
  if _acc <? 0 then
    let _acc := - _acc in
    let _acc := Z.shiftr _acc 16 + Z.land _acc 0xffff in
    let _acc := _acc + Z.shiftr _acc 16 in
    u16 (Z.lnot _acc)
  else
    let _acc := Z.shiftr _acc 16 + Z.land _acc 0xffff in
    let _acc := _acc + Z.shiftr _acc 16 in
    u16 _acc.

Definition ADD_CHECKSUM_32 (acc w : Z) : Z := acc + Z.land w 0xffff + Z.shiftr w 16.
Definition SUB_CHECKSUM_32 (acc w : Z) : Z := acc - Z.land w 0xffff - Z.shiftr w 16.

(** ** is_ipv4, is_ipv6 *)

Definition is_ipv_X (tunnel_type : Z) (buf : buffer) (ip_ver : Z) : outcome (buffer * bool) :=
  let at_offset (offset : Z) : outcome (buffer * bool) :=
    version_len ← get_u8 buf (boffset buf + offset);
    if OPENVPN_IPH_GET_VER version_len =? ip_ver then Ret (buf_advance buf offset) else Ret (buf, false) in
  if tunnel_type =? DEV_TYPE_TUN then
    if buf_len buf <? SIZEOF_IPHDR then Ret (buf, false) else at_offset 0
  else if tunnel_type =? DEV_TYPE_TAP then
    if buf_len buf <? SIZEOF_ETHHDR + SIZEOF_IPHDR then Ret (buf, false)
    else
      proto ← get_n16 buf (boffset buf + ETH_PROTO);
      if proto =? OPENVPN_ETH_P_8021Q then
        if buf_len buf <? SIZEOF_ETHHDR + SIZEOF_IPHDR then Ret (buf, false)
        else
          proto ← get_n16 buf (boffset buf + ETH_8021Q_PROTO);
          if negb (proto =? (if ip_ver =? 6 then OPENVPN_ETH_P_IPV6 else OPENVPN_ETH_P_IPV4)) then Ret (buf, false)
          else at_offset SIZEOF_8021QHDR
      else if negb (proto =? (if ip_ver =? 6 then OPENVPN_ETH_P_IPV6 else OPENVPN_ETH_P_IPV4)) then Ret (buf, false)
      else at_offset SIZEOF_ETHHDR
  else Ret (buf, false).

Definition is_ipv4 (tunnel_type : Z) (buf : buffer) : outcome (buffer * bool) := is_ipv_X tunnel_type buf 4.
Definition is_ipv6 (tunnel_type : Z) (buf : buffer) : outcome (buffer * bool) := is_ipv_X tunnel_type buf 6.

(** ** ip_checksum *)

(** [for (i = 0; i < len; i += 2) sum += ...] over a byte range. *)
Fixpoint sum_words (l : bytes) (sum : Z) : Z :=
  match l with
  | [] => sum
  | [a] => u32 (sum + u16 (Z.land (Z.shiftl a 8) 0xFF00 + 0))
  | a :: b :: l' => sum_words l' (u32 (sum + u16 (Z.land (Z.shiftl a 8) 0xFF00 + Z.land b 0xFF)))
  end.

(** [while (sum >> 16)]; a 32-bit sum is folded in at most two rounds. *)
Fixpoint fold_carries (fuel : nat) (sum : Z) : outcome Z :=
  if Z.shiftr sum 16 =? 0 then Ret sum
  else match fuel with
  | O => Fault
  | S fuel => fold_carries fuel (u32 (Z.land sum 0xFFFF + Z.shiftr sum 16))
  end.

(** [af_inet] is [af == AF_INET]; the addresses are read to their length. *)
Definition ip_checksum (af_inet : bool) (payload src_addr dest_addr : bytes) (proto : Z) : outcome Z :=
  let addr_len := if af_inet then 4 else 16 in
  let sum := sum_words payload 0 in
  src ← mem_read src_addr 0 addr_len;
  dst ← mem_read dest_addr 0 addr_len;
  let sum := sum_words src sum in
  let sum := sum_words dst sum in
  let sum := u32 (sum + u16 (zlen payload)) in
  let sum := u32 (sum + u16 proto) in
  sum ← fold_carries 2 sum;
  Ret (u16 (Z.lnot sum)).

(** ** Writing inside the content of a buffer

    [win b blk c] is [b], whose block is [blk], with its content overwritten
    by [c]. *)

Definition win (b : buffer) (blk c : bytes) : buffer := set_data b (splice blk (boffset b) c).

Lemma win_peek b blk c o n :
  buf_ok b blk -> zlen c = blen b -> 0 <= o -> 0 <= n -> o + n <= zlen c ->
  peek (win b blk c) (boffset b + o) n = Ret (slice c o n).
Proof.
  intros [] Hc Ho Hn Hon. unfold peek, win. simpl.
  rewrite mem_read_Ret by (rewrite ?length_splice; lia). f_equal. slice_ext.
Qed.

Lemma win_poke b blk c o s :
  buf_ok b blk -> zlen c = blen b -> 0 <= o -> o + zlen s <= zlen c ->
  poke (win b blk c) (boffset b + o) s = Ret (win b blk (splice c o s)).
Proof.
  intros [] Hc Ho Hon. unfold poke, win. simpl.
  rewrite mem_write_Ret by (rewrite ?length_splice; lia). unfold set_data. simpl. do 3 f_equal.
  apply list_eq. intros i. rewrite !lookup_splice by (rewrite ?length_splice; lia).
  rewrite !length_splice by lia. repeat case_decide; try lia; try done. f_equal. lia.
Qed.

Lemma win_id b blk : buf_ok b blk -> win b blk (content b) = b.
Proof.
  intros Hok. pose proof (zlen_content _ _ Hok) as Hl. pose proof (buf_ok_content _ _ Hok) as Hc.
  unfold win. destruct Hok. destruct b as [cap off len d]. simpl in *. subst d. unfold set_data. simpl. do 2 f_equal.
  apply list_eq. intros i. rewrite lookup_splice by lia.
  repeat case_decide; try done. rewrite Hc, lookup_slice. rewrite decide_True by lia. f_equal. lia.
Qed.

Lemma win_ok b blk c :
  buf_ok b blk -> zlen c = blen b -> Forall is_byte c -> buf_ok (win b blk c) (splice blk (boffset b) c).
Proof.
  intros [] Hc Hby. split; simpl; try done. { rewrite length_splice; lia. } by apply Forall_splice.
Qed.

Lemma win_content b blk c : buf_ok b blk -> zlen c = blen b -> content (win b blk c) = c.
Proof. intros [] Hc. unfold content, win. simpl. apply slice_splice_same; lia. Qed.

(** Writes through a header that was advanced by [n]. *)
Lemma win_advance b blk n c :
  buf_ok b blk -> 0 <= n <= blen b -> zlen c = blen b - n ->
  share_block b (win (set_offset_len b (boffset b + n) (blen b - n)) blk c) =
  win b blk (take (Z.to_nat n) (content b) ++ c).
Proof.
  intros Hok Hn Hc. pose proof (zlen_content _ _ Hok) as Hl. pose proof (buf_ok_content _ _ Hok) as Hcont.
  destruct Hok. unfold share_block, win, set_data. simpl. do 2 f_equal. apply list_eq. intros i.
  rewrite !lookup_splice by lia. rewrite length_app, length_take.
  repeat case_decide; try lia; try done.
  - rewrite lookup_app_l, lookup_take_lt by (rewrite ?length_take; lia). rewrite Hcont, lookup_slice.
    rewrite decide_True by lia. f_equal. lia.
  - rewrite lookup_app_r by (rewrite length_take; lia). rewrite length_take. f_equal. lia.
Qed.

(** ** Sums of 16-bit words *)

Fixpoint word_sum (l : bytes) : Z :=
  match l with
  | [] => 0
  | [a] => a * 256
  | a :: b :: l' => a * 256 + b + word_sum l'
  end.

(** Induction two bytes at a time. *)
Lemma pair_ind (P : bytes -> Prop) :
  P [] -> (forall a, P [a]) -> (forall a b l, P l -> P (a :: b :: l)) -> forall l, P l.
Proof.
  intros H0 H1 H2 l. assert (H : P l /\ forall x, P (x :: l)); [|apply H].
  induction l as [|a l [IH1 IH2]]; auto.
Qed.

Lemma word_sum_app l1 l2 : Nat.even (length l1) = true -> word_sum (l1 ++ l2) = word_sum l1 + word_sum l2.
Proof. induction l1 as [| |a b l IH] using pair_ind; simpl; intros He; [done|done|]. rewrite IH by done. lia. Qed.

Lemma word_sum_bounds l : Forall is_byte l -> 0 <= word_sum l <= 65535 * ((zlen l + 1) / 2).
Proof.
  unfold is_byte. induction l as [|a|a b l IH] using pair_ind; rewrite ?Forall_cons; cbn [word_sum length].
  - intros _. mlia.
  - intros [? _]. mlia.
  - intros (? & ? & Hl). specialize (IH Hl). mlia.
Qed.

(** Equality of 1's complement sums. *)
Definition eq1c (a b : Z) : Prop := exists k, a - b = 65535 * k.

#[global] Instance eq1c_equiv : Equivalence eq1c.
Proof.
  split.
  - intros a. exists 0. lia.
  - intros a b [k H]. exists (- k). lia.
  - intros a b c [k H] [k' H']. exists (k + k'). lia.
Qed.

#[global] Instance eq1c_add : Proper (eq1c ==> eq1c ==> eq1c) Z.add.
Proof. intros a b [k H] c d [k' H']. exists (k + k'). lia. Qed.
#[global] Instance eq1c_sub : Proper (eq1c ==> eq1c ==> eq1c) Z.sub.
Proof. intros a b [k H] c d [k' H']. exists (k - k'). lia. Qed.
#[global] Instance eq1c_mul n : Proper (eq1c ==> eq1c) (Z.mul n).
Proof. intros a b [k H]. exists (n * k). nia. Qed.

(** Swapping the bytes of a word multiplies it by 256. *)
Lemma htons_eq1c x : 0 <= x < 65536 -> eq1c (htons x) (256 * x).
Proof. intros Hx. unfold htons. exists (- (x / 256)). mlia. Qed.

Lemma eq1c_htons x y : 0 <= x < 65536 -> 0 <= y < 65536 -> eq1c (256 * x) y -> eq1c x (htons y).
Proof.
  intros Hx Hy [k H]. rewrite htons_eq1c by done. exists (256 * k - x). lia.
Qed.

(** Two rounds of adding the carry give a 16-bit word with the same sum. *)
Lemma adjust_fold a : 0 <= a < 2 ^ 31 ->
  let f := Z.shiftr a 16 + Z.land a 0xffff in
  let g := f + Z.shiftr f 16 in
  0 <= g < 2 ^ 17 /\ eq1c (u16 g) a /\ (0 < a -> 0 < u16 g).
Proof.
  intros Ha. cbn zeta. rewrite (land_low a 16) by done. rewrite !Z.shiftr_div_pow2 by lia.
  change (2 ^ 16) with 65536. change (2 ^ 31) with 2147483648 in Ha. change (2 ^ 17) with 131072. unfold u16.
  change (2 ^ 16) with 65536.
  set (f := a / 65536 + a mod 65536). assert (Hf : 0 <= f < 98304) by (subst f; mlia).
  assert (Hfa : a = f + 65535 * (a / 65536)) by (subst f; mlia).
  split; [mlia|]. split; [|subst f; mlia].
  exists (- (a / 65536) - (if decide (f < 65536) then 0 else 1)). destruct (decide _); mlia.
Qed.

(** What [ADJUST_CHECKSUM] computes: the 1's complement sum of both. *)
Lemma ADJUST_CHECKSUM_spec acc ck :
  0 <= ck < 65536 -> - 2 ^ 30 <= acc <= 2 ^ 30 ->
  0 <= ADJUST_CHECKSUM acc ck < 65536 /\ eq1c (ADJUST_CHECKSUM acc ck) (acc + ck).
Proof.
  intros Hck Hacc. unfold ADJUST_CHECKSUM. destruct (acc + ck <? 0) eqn:E.
  - destruct (adjust_fold (- (acc + ck))) as (Hg & Heq & _); [lia|].
    split; [unfold u16; mlia|]. set (g := _ + Z.shiftr _ 16) in *.
    assert (Hn : u16 (Z.lnot g) = 65535 - u16 g) by (unfold u16, Z.lnot; mlia).
    rewrite Hn. destruct Heq as [k Hk]. exists (1 - k). lia.
  - destruct (adjust_fold (acc + ck)) as (Hg & Heq & _); [lia|]. split; [unfold u16; mlia|done].
Qed.

(** ** The checksum of a packet *)

(** The sum over a packet and its pseudo header. *)
Definition packet_sum (payload src dst : bytes) (proto : Z) : Z :=
  word_sum payload + word_sum src + word_sum dst + zlen payload + proto.

(** The receiver's test: the words, the checksum field included, sum to
    minus zero. *)
Definition checksum_ok (payload src dst : bytes) (proto : Z) : Prop := eq1c (packet_sum payload src dst proto) 0.

Lemma sum_words_spec l : forall sum,
  Forall is_byte l -> 0 <= sum -> sum + word_sum l < 2 ^ 32 -> sum_words l sum = sum + word_sum l.
Proof.
  unfold is_byte. induction l as [|a|a b l IH] using pair_ind; intros sum Hl Hs Hb; simpl.
  - lia.
  - apply Forall_cons in Hl as [Ha _]. simpl in Hb. assert (Hx : Z.land (Z.shiftl a 8) 0xFF00 = a * 256).
    { change 0xFF00 with (Z.shiftl 0xff 8). rewrite <- Z.shiftl_land, (land_low a 8), Z.shiftl_mul_pow2 by done. rewrite Z.mod_small; lia. }
    rewrite Hx. unfold u16. rewrite Z.add_0_r, Z.mod_small by lia. apply u32_small. lia.
  - rewrite !Forall_cons in Hl. destruct Hl as (Ha & Hb' & Hl). simpl in Hb.
    pose proof (word_sum_bounds l Hl).
    assert (Hx : Z.land (Z.shiftl a 8) 0xFF00 = a * 256).
    { change 0xFF00 with (Z.shiftl 0xff 8). rewrite <- Z.shiftl_land, (land_low a 8), Z.shiftl_mul_pow2 by done. rewrite Z.mod_small; lia. }
    rewrite Hx, (land_low b 8), (Z.mod_small b) by done. unfold u16. rewrite (Z.mod_small _ (2 ^ 16)) by lia.
    rewrite u32_small by lia. rewrite IH by (done || lia). lia.
Qed.

Lemma fold_step s : 0 <= s < 2 ^ 32 ->
  u32 (Z.land s 0xFFFF + Z.shiftr s 16) = s mod 65536 + s / 65536.
Proof.
  intros Hs. rewrite (land_low s 16), Z.shiftr_div_pow2 by done. change (2 ^ 16) with 65536.
  apply u32_small. change (2 ^ 32) with 4294967296 in *. mlia.
Qed.

Lemma fold_carries_spec s :
  0 <= s < 2 ^ 32 -> exists r, fold_carries 2 s = Ret r /\ 0 <= r < 65536 /\ eq1c r s /\ (0 < s -> 0 < r).
Proof.
  intros Hs. cbn [fold_carries]. rewrite !fold_step by (rewrite ?fold_step; change (2 ^ 32) with 4294967296 in *; mlia).
  rewrite !Z.shiftr_div_pow2 by lia. change (2 ^ 16) with 65536. change (2 ^ 32) with 4294967296 in *.
  set (s1 := s mod 65536 + s / 65536). set (s2 := s1 mod 65536 + s1 / 65536).
  assert (H1 : s = s1 + 65535 * (s / 65536) /\ 0 <= s1 <= 131070) by (subst s1; mlia).
  assert (H2 : s1 = s2 + 65535 * (s1 / 65536) /\ 0 <= s2 < 65536) by (subst s2; mlia).
  destruct (s / 65536 =? 0) eqn:E1; [|destruct (s1 / 65536 =? 0) eqn:E2].
  - exists s. split; [done|]. split; [mlia|]. done.
  - exists s1. split; [done|]. split; [mlia|]. split; [exists (- (s / 65536)); lia|subst s1; mlia].
  - destruct (s2 / 65536 =? 0) eqn:E3; [|mlia].
    exists s2. split; [done|]. split; [lia|]. split; [exists (- (s / 65536) - s1 / 65536); lia|subst s1 s2; mlia].
Qed.

(** [ip_checksum] returns the complement of the sum, and zero exactly for a
    packet whose checksum is right. *)
Lemma ip_checksum_spec (v4 : bool) payload src dst proto :
  Forall is_byte payload -> Forall is_byte src -> Forall is_byte dst ->
  zlen payload < 65536 -> zlen src = (if v4 then 4 else 16) -> zlen dst = (if v4 then 4 else 16) -> 0 < proto < 256 ->
  exists r, ip_checksum v4 payload src dst proto = Ret r /\ 0 <= r < 65535 /\
    eq1c (r + packet_sum payload src dst proto) 0 /\ (r = 0 <-> checksum_ok payload src dst proto).
Proof.
  intros Hp Hs Hd Hlen Hls Hld Hpr. unfold ip_checksum.
  rewrite !mem_read_Ret by (destruct v4; lia). cbn [mbind outcome_bind]. rewrite !slice_full by (destruct v4; lia).
  pose proof (word_sum_bounds _ Hp) as Bp. pose proof (word_sum_bounds _ Hs) as Bs. pose proof (word_sum_bounds _ Hd) as Bd.
  assert (Hcap : word_sum payload <= 65535 * 32768 /\ word_sum src <= 65535 * 8 /\ word_sum dst <= 65535 * 8)
    by (destruct v4; mlia). clear Bp Bs Bd.
  pose proof (proj1 (word_sum_bounds _ Hp)). pose proof (proj1 (word_sum_bounds _ Hs)). pose proof (proj1 (word_sum_bounds _ Hd)).
  rewrite (sum_words_spec payload), (sum_words_spec src), (sum_words_spec dst) by (done || lia).
  assert (Hu : u16 (zlen payload) = zlen payload /\ u16 proto = proto) by (unfold u16; split; apply Z.mod_small; lia).
  destruct Hu as [-> ->].
  rewrite !u32_small by (rewrite ?u32_small; lia).
  replace (0 + word_sum payload + word_sum src + word_sum dst + zlen payload + proto)
    with (packet_sum payload src dst proto) by (unfold packet_sum; lia).
  set (s := packet_sum _ _ _ _). assert (Hbs : 0 < s < 2 ^ 32) by (unfold s, packet_sum; lia).
  destruct (fold_carries_spec s) as (r & -> & Hr & Hrs & Hpos); [lia|]. cbn [mbind outcome_bind].
  assert (Hn : u16 (Z.lnot r) = 65535 - r) by (unfold u16, Z.lnot; mlia). rewrite Hn. exists (65535 - r).
  specialize (Hpos ltac:(lia)). destruct Hrs as [k Hk]. split; [done|]. split; [lia|]. split; [exists (1 - k); lia|].
  unfold checksum_ok. fold s. split; [intros; exists (1 - k); lia|]. intros [k' Hk']. lia.
Qed.

(** Replacing the two bytes of a word. *)
Lemma word_sum_splice l o x y x' y' :
  Nat.even o = true -> l !! o = Some x -> l !! S o = Some y ->
  word_sum (splice l (Z.of_nat o) [x'; y']) = word_sum l - (x * 256 + y) + (x' * 256 + y').
Proof.
  intros He Hx Hy. unfold splice. rewrite Nat2Z.id. cbn [length].
  assert (Hl : l = take o l ++ [x; y] ++ drop (o + 2) l).
  { rewrite <- (take_drop_middle l o x Hx) at 1. f_equal. cbn [app]. f_equal.
    rewrite (drop_S l y (S o) Hy). f_equal. f_equal. lia. }
  assert (Hlt : length (take o l) = o) by (apply length_take_le; apply lookup_lt_Some in Hx; lia).
  rewrite Hl at 3. rewrite !word_sum_app by (rewrite ?Hlt; done). simpl. lia.
Qed.

(** ** Field accesses inside a window *)

Lemma slice_1 (c : bytes) o : 0 <= o -> o + 1 <= zlen c -> exists x, c !! Z.to_nat o = Some x /\ slice c o 1 = [x].
Proof.
  intros Ho Hl. destruct (lookup_lt_is_Some_2 c (Z.to_nat o)) as [x Hx]; [lia|]. exists x. split; [done|].
  unfold slice. change (Z.to_nat 1) with 1%nat. rewrite (drop_S _ _ _ Hx). simpl. by rewrite take_0.
Qed.

Lemma slice_2 (c : bytes) o :
  0 <= o -> o + 2 <= zlen c ->
  exists x y, c !! Z.to_nat o = Some x /\ c !! S (Z.to_nat o) = Some y /\ slice c o 2 = [x; y].
Proof.
  intros Ho Hl. destruct (lookup_lt_is_Some_2 c (Z.to_nat o)) as [x Hx]; [lia|].
  destruct (lookup_lt_is_Some_2 c (S (Z.to_nat o))) as [y Hy]; [lia|]. exists x, y. split; [done|]. split; [done|].
  unfold slice. change (Z.to_nat 2) with 2%nat. rewrite (drop_S _ _ _ Hx), (drop_S _ _ _ Hy). simpl. by rewrite take_0.
Qed.

Lemma be_val_2 x y : be_val [x; y] = x * 256 + y.
Proof. unfold be_val. simpl. lia. Qed.
Lemma le_val_2 x y : le_val [x; y] = y * 256 + x.
Proof. unfold le_val. simpl. apply be_val_2. Qed.

Lemma be_bytes_2 v : be_bytes 2 v = [(v / 256) mod 256; v mod 256].
Proof. unfold be_bytes. simpl. by rewrite Z.div_1_r. Qed.
Lemma le_bytes_2 v : le_bytes 2 v = [v mod 256; (v / 256) mod 256].
Proof. unfold le_bytes. by rewrite be_bytes_2. Qed.

Lemma length_le_bytes n v : length (le_bytes n v) = n.
Proof. unfold le_bytes. by rewrite length_rev, length_be_bytes. Qed.
Lemma le_bytes_is_byte n v : Forall is_byte (le_bytes n v).
Proof. unfold le_bytes. apply Forall_rev, be_bytes_is_byte. Qed.

Section window.
Context (b : buffer) (blk : bytes) (Hok : buf_ok b blk).

Lemma win_get_u8 c o x :
  zlen c = blen b -> 0 <= o -> c !! Z.to_nat o = Some x -> get_u8 (win b blk c) (boffset b + o) = Ret x.
Proof.
  intros Hc Ho Hx. pose proof (lookup_lt_Some _ _ _ Hx). unfold get_u8. rewrite (win_peek b blk) by (done || lia).
  destruct (slice_1 c o) as (x' & Hx' & ->); [lia..|]. cbn [mbind outcome_bind]. rewrite be_val_1. congruence.
Qed.

Lemma win_get_n16 c o :
  zlen c = blen b -> 0 <= o -> o + 2 <= zlen c -> get_n16 (win b blk c) (boffset b + o) = Ret (be_val (slice c o 2)).
Proof. intros. unfold get_n16. by rewrite (win_peek b blk) by (done || lia). Qed.

Lemma win_get_h16 c o :
  zlen c = blen b -> 0 <= o -> o + 2 <= zlen c -> get_h16 (win b blk c) (boffset b + o) = Ret (le_val (slice c o 2)).
Proof. intros. unfold get_h16. by rewrite (win_peek b blk) by (done || lia). Qed.

Lemma win_get_h32 c o :
  zlen c = blen b -> 0 <= o -> o + 4 <= zlen c -> get_h32 (win b blk c) (boffset b + o) = Ret (le_val (slice c o 4)).
Proof. intros. unfold get_h32. by rewrite (win_peek b blk) by (done || lia). Qed.

Lemma win_put_u8 c o v :
  zlen c = blen b -> 0 <= o -> o + 1 <= zlen c -> put_u8 (win b blk c) (boffset b + o) v = Ret (win b blk (splice c o [u8 v])).
Proof. intros. unfold put_u8. by rewrite (win_poke b blk) by (simpl; done || lia). Qed.

Lemma win_put_h16 c o v :
  zlen c = blen b -> 0 <= o -> o + 2 <= zlen c ->
  put_h16 (win b blk c) (boffset b + o) v = Ret (win b blk (splice c o (le_bytes 2 v))).
Proof. intros. unfold put_h16. by rewrite (win_poke b blk) by (rewrite ?length_le_bytes; done || lia). Qed.

Lemma win_put_h32 c o v :
  zlen c = blen b -> 0 <= o -> o + 4 <= zlen c ->
  put_h32 (win b blk c) (boffset b + o) v = Ret (win b blk (splice c o (le_bytes 4 v))).
Proof. intros. unfold put_h32. by rewrite (win_poke b blk) by (rewrite ?length_le_bytes; done || lia). Qed.
End window.

Lemma even_to_nat o : 0 <= o -> Z.even o = true -> Nat.even (Z.to_nat o) = true.
Proof. intros Ho He. apply Z.even_spec in He as [k Hk]. apply Nat.even_spec. exists (Z.to_nat k). lia. Qed.

(** Adjusting a 16-bit field at an even offset changes the sum of the words by
    the accumulated difference, in the other byte order. *)
Lemma adjust_field c o acc :
  Forall is_byte c -> 0 <= o -> Z.even o = true -> o + 2 <= zlen c -> - 2 ^ 30 <= acc <= 2 ^ 30 ->
  eq1c (word_sum (splice c o (le_bytes 2 (ADJUST_CHECKSUM acc (le_val (slice c o 2)))))) (word_sum c + 256 * acc).
Proof.
  intros Hc Ho He Hl Hacc. destruct (slice_2 c o) as (x & y & Hx & Hy & ->); [lia..|].
  pose proof (Forall_lookup_1 _ _ _ _ Hc Hx) as Bx. pose proof (Forall_lookup_1 _ _ _ _ Hc Hy) as By. unfold is_byte in Bx, By.
  rewrite le_val_2, le_bytes_2. destruct (ADJUST_CHECKSUM_spec acc (y * 256 + x)) as [Hr Heq]; [lia|done|].
  set (r := ADJUST_CHECKSUM _ _) in *.
  rewrite <- (Z2Nat.id o Ho) at 1. rewrite (word_sum_splice c (Z.to_nat o) x y) by (done || by apply even_to_nat).
  change (r mod 256 * 256 + (r / 256) mod 256) with (htons r).
  assert (H : eq1c (htons r) (256 * acc + (x * 256 + y))).
  { rewrite htons_eq1c by done. destruct Heq as [k Hk]. exists (256 * k + y). lia. }
  rewrite H. exists 0. lia.
Qed.

(** Overwriting a word at an even offset. *)
Lemma replace_word c o v :
  Forall is_byte c -> 0 <= o -> Z.even o = true -> o + 2 <= zlen c -> 0 <= v < 65536 ->
  word_sum (splice c o (be_bytes 2 v)) = word_sum c - be_val (slice c o 2) + v.
Proof.
  intros Hc Ho He Hl Hv. destruct (slice_2 c o) as (x & y & Hx & Hy & ->); [lia..|]. rewrite be_val_2, be_bytes_2.
  rewrite <- (Z2Nat.id o Ho) at 1. rewrite (word_sum_splice c (Z.to_nat o) x y) by (done || by apply even_to_nat).
  mlia.
Qed.

(** A field of the packet as the code reads it. *)
Definition field8 (pkt : bytes) (o : Z) : Z := be_val (slice pkt o 1).
Definition field16 (pkt : bytes) (o : Z) : Z := be_val (slice pkt o 2).

Lemma holds_get_u8 b hd c tl o :
  holds b hd c tl -> 0 <= o -> o + 1 <= zlen c -> get_u8 b (boffset b + o) = Ret (field8 c o).
Proof.
  intros (blk & Hok & _ & Hc & _) Ho Hl. rewrite <- (win_id _ _ Hok), Hc at 1. subst c.
  destruct (slice_1 (content b) o) as (x & Hx & Hsl); [lia..|]. unfold field8. rewrite Hsl, be_val_1.
  apply (win_get_u8 b blk Hok); [by apply (zlen_content _ blk)|done|done].
Qed.

Lemma holds_get_n16 b hd c tl o :
  holds b hd c tl -> 0 <= o -> o + 2 <= zlen c -> get_n16 b (boffset b + o) = Ret (field16 c o).
Proof.
  intros (blk & Hok & _ & Hc & _) Ho Hl. rewrite <- (win_id _ _ Hok), Hc at 1. subst c.
  apply (win_get_n16 b blk Hok); [by apply (zlen_content _ blk)|done|done].
Qed.

Lemma field8_drop pkt h o : 0 <= h -> 0 <= o -> field8 (drop (Z.to_nat h) pkt) o = field8 pkt (h + o).
Proof. intros. unfold field8, slice. rewrite drop_drop. do 3 f_equal. lia. Qed.

(** Replacing an even number of bytes at an even offset. *)
Lemma word_sum_replace c o bs :
  0 <= o -> Z.even o = true -> o + zlen bs <= zlen c -> Nat.even (length bs) = true ->
  word_sum (splice c o bs) = word_sum c - word_sum (slice c o (zlen bs)) + word_sum bs.
Proof.
  intros Ho He Hl Hb. unfold splice, slice. rewrite Nat2Z.id.
  assert (Hlt : length (take (Z.to_nat o) c) = Z.to_nat o) by (apply length_take_le; lia).
  assert (Hls : length (take (length bs) (drop (Z.to_nat o) c)) = length bs) by (apply length_take_le; rewrite length_drop; lia).
  assert (Hc : word_sum c = word_sum (take (Z.to_nat o) c ++ take (length bs) (drop (Z.to_nat o) c) ++ drop (Z.to_nat o + length bs) c))
    by (by rewrite <- drop_drop, !take_drop).
  rewrite Hc, !word_sum_app by (rewrite ?Hlt, ?Hls; done || by apply even_to_nat). lia.
Qed.

(** The two halves of a 32-bit load. *)
Lemma word_sum_4 l :
  Forall is_byte l -> length l = 4%nat ->
  eq1c (word_sum l) (256 * (Z.land (le_val l) 0xffff + Z.shiftr (le_val l) 16)) /\ 0 <= le_val l < 2 ^ 32.
Proof.
  intros Hby Hl. do 5 (destruct l as [|? l]; try done). rewrite !Forall_cons in Hby. unfold is_byte in Hby.
  rewrite (land_low _ 16), Z.shiftr_div_pow2 by done. change (2 ^ 16) with 65536. change (2 ^ 32) with 4294967296.
  assert (Hv : le_val [z; z0; z1; z2] = z + 256 * z0 + 65536 * (z1 + 256 * z2)) by (unfold le_val, be_val; simpl; lia).
  rewrite Hv. assert (Hm : (z + 256 * z0 + 65536 * (z1 + 256 * z2)) mod 65536 = z + 256 * z0 /\
    (z + 256 * z0 + 65536 * (z1 + 256 * z2)) / 65536 = z1 + 256 * z2) by mlia.
  destruct Hm as [-> ->]. split; [|lia]. cbn [word_sum]. exists (- (z0 + z2)). lia.
Qed.

Lemma le_val_bytes n v : le_val (le_bytes n v) = v mod 256 ^ Z.of_nat n.
Proof. unfold le_val, le_bytes. by rewrite rev_involutive, be_val_bytes. Qed.

Lemma le_bytes_val l : Forall is_byte l -> le_bytes (length l) (le_val l) = l.
Proof.
  intros H. unfold le_val, le_bytes. rewrite <- length_rev, be_bytes_val by (by apply Forall_rev). apply rev_involutive.
Qed.

(** Writing the computed checksum into its zeroed field at an even offset. *)
Lemma checksum_seal (v4 : bool) payload src dst proto o r :
  Forall is_byte payload -> Forall is_byte src -> Forall is_byte dst ->
  zlen payload < 65536 -> zlen src = (if v4 then 4 else 16) -> zlen dst = (if v4 then 4 else 16) -> 0 < proto < 256 ->
  0 <= o -> Z.even o = true -> o + 2 <= zlen payload -> field16 payload o = 0 ->
  ip_checksum v4 payload src dst proto = Ret r ->
  0 <= r < 65535 /\ checksum_ok (splice payload o (be_bytes 2 r)) src dst proto.
Proof.
  intros Hp Hs Hd Hlen Hls Hld Hpr Ho He Hl H0 Hr.
  destruct (ip_checksum_spec v4 payload src dst proto) as (r' & Hr' & Hb & Hsum & _); [done..|].
  rewrite Hr in Hr'. injection Hr' as <-. split; [done|]. unfold checksum_ok, packet_sum in *.
  rewrite replace_word by (done || lia). unfold field16 in H0. rewrite H0.
  rewrite length_splice by (rewrite ?length_be_bytes; lia). destruct Hsum as [k Hk]. exists k. lia.
Qed.

(** The checksum [ip_checksum] computes over a packet whose checksum field
    is zero makes the packet verify once it is stored there in network order:
    [ip_checksum] over the result and its pseudo header is zero. *)
Theorem ip_checksum_seals (v4 : bool) payload src dst proto o :
  Forall is_byte payload -> Forall is_byte src -> Forall is_byte dst ->
  zlen payload < 65536 -> zlen src = (if v4 then 4 else 16) -> zlen dst = (if v4 then 4 else 16) -> 0 < proto < 256 ->
  0 <= o -> Z.even o = true -> o + 2 <= zlen payload -> field16 payload o = 0 ->
  exists r, ip_checksum v4 payload src dst proto = Ret r /\
    ip_checksum v4 (splice payload o (be_bytes 2 r)) src dst proto = Ret 0.
Proof.
  intros Hp Hs Hd Hlen Hls Hld Hpr Ho He Hl H0.
  destruct (ip_checksum_spec v4 payload src dst proto) as (r & Hr & _); [done..|]. exists r. split; [done|].
  destruct (checksum_seal v4 payload src dst proto o r) as [_ Hok]; [done..|].
  destruct (ip_checksum_spec v4 (splice payload o (be_bytes 2 r)) src dst proto) as (r' & Hr' & _ & _ & Hiff);
    [apply Forall_splice; [done|apply be_bytes_is_byte]|done|done|rewrite length_splice; rewrite ?length_be_bytes; lia|done..|].
  rewrite Hr'. f_equal. by apply Hiff.
Qed.

Lemma ip_checksum_seals_witness :
  exists r, ip_checksum true [1; 2; 0; 0; 7] [10; 0; 0; 1] [10; 0; 0; 2] 17 = Ret r /\
    ip_checksum true (splice [1; 2; 0; 0; 7] 2 (be_bytes 2 r)) [10; 0; 0; 1] [10; 0; 0; 2] 17 = Ret 0.
Proof.
  apply (ip_checksum_seals true [1; 2; 0; 0; 7] [10; 0; 0; 1] [10; 0; 0; 2] 17 2); try (apply all_bytes_spec; vm_compute; done);
    try (vm_compute; done); lia.
Defined.

(** On arbitrary bytes [is_ipv_X] returns, reads inside the packet only,
    and either leaves the buffer alone and answers no, or moves it to an IP
    header (behind no, an Ethernet or an 802.1Q header) of the version asked
    for. *)
Theorem is_ipv_X_safe tunnel_type b hd pkt tl ver :
  holds b hd pkt tl ->
  is_ipv_X tunnel_type b ver = Ret (b, false) \/
  exists b' off, is_ipv_X tunnel_type b ver = Ret (b', true) /\ off ∈ [0; 14; 18] /\
    holds b' (hd + off) (drop (Z.to_nat off) pkt) tl /\ OPENVPN_IPH_GET_VER (field8 pkt off) = ver.
Proof.
  intros Hh. destruct (buf_len_holds _ _ _ _ Hh) as [Hbl _].
  assert (Hat : forall off, off ∈ [0; 14; 18] -> off + 1 <= zlen pkt ->
    (version_len ← get_u8 b (boffset b + off);
     if OPENVPN_IPH_GET_VER version_len =? ver then Ret (buf_advance b off) else Ret (b, false)) = Ret (b, false) \/
    exists b' o, (version_len ← get_u8 b (boffset b + off);
      if OPENVPN_IPH_GET_VER version_len =? ver then Ret (buf_advance b off) else Ret (b, false)) = Ret (b', true) /\
      o ∈ [0; 14; 18] /\ holds b' (hd + o) (drop (Z.to_nat o) pkt) tl /\ OPENVPN_IPH_GET_VER (field8 pkt o) = ver).
  { intros off Hin Hl. assert (0 <= off) by (repeat (apply elem_of_cons in Hin as [->|Hin]; [lia|]); by apply elem_of_nil in Hin).
    rewrite (holds_get_u8 _ _ _ _ _ Hh) by lia. cbn [mbind outcome_bind].
    destruct (_ =? ver) eqn:E; [|by left]. right.
    destruct (buf_advance_spec _ _ _ _ off Hh) as (b' & -> & Hb'); [lia|]. exists b', off. split_and!; try done. lia. }
  unfold is_ipv_X. rewrite Hbl. unfold SIZEOF_IPHDR, SIZEOF_ETHHDR, SIZEOF_8021QHDR, ETH_PROTO, ETH_8021Q_PROTO.
  destruct (tunnel_type =? _).
  { destruct (_ <? 20) eqn:E; [by left|]. apply Hat; [set_solver|lia]. }
  destruct (tunnel_type =? _); [|by left]. destruct (_ <? 14 + 20) eqn:E; [by left|].
  rewrite !(holds_get_n16 _ _ _ _ _ Hh) by lia. cbn [mbind outcome_bind].
  destruct (_ =? OPENVPN_ETH_P_8021Q); (destruct (negb _); [by left|]); apply Hat; set_solver || lia.
Qed.

Lemma is_ipv_X_safe_witness :
  let pkt := replicate 12 0 ++ [8; 0] ++ [69] ++ replicate 19 0 in
  is_ipv_X DEV_TYPE_TAP (buf_of pkt) 4 = Ret (buf_of pkt, false) \/
  exists b' off, is_ipv_X DEV_TYPE_TAP (buf_of pkt) 4 = Ret (b', true) /\ off ∈ [0; 14; 18] /\
    holds b' (0 + off) (drop (Z.to_nat off) pkt) 0 /\ OPENVPN_IPH_GET_VER (field8 pkt off) = 4.
Proof. cbv zeta. apply is_ipv_X_safe. apply buf_of_holds; vm_compute; done. Defined.
