(* ===== verification/Mss.v ===== *)
(** * Clamping the TCP maximum segment size (openvpn mss.c)

    [mss_fixup_dowork] walks the options of a SYN segment and lowers every
    maximum segment size option above the limit in place, adjusting the TCP
    checksum.  [mss_options] is the walk as a specification: the offsets of
    the well-formed options in a segment.  [mss_fix_spec] is what the whole
    loop does to the bytes of the segment. *)

From S2P Require Import Prelude Buffer Proto.
From stdpp Require Import prelude.
From Stdlib Require Import ZArith Lia ZifyBool Sorting.Sorted.

Local Open Scope Z_scope.

Definition OPENVPN_TCPOPT_EOL : Z := 0.
Definition OPENVPN_TCPOPT_NOP : Z := 1.
Definition OPENVPN_TCPOPT_MAXSEG : Z := 2.
Definition OPENVPN_TCPOLEN_MAXSEG : Z := 4.

(** The body of the loop for a maximum segment size option at [opt]; [tc] is
    the start of the TCP header. *)
Definition mss_option (buf : buffer) (tc opt optlen maxmss : Z) : outcome buffer :=
  if negb (optlen =? OPENVPN_TCPOLEN_MAXSEG) then Ret buf
  else
    o2 ← get_u8 buf (opt + 2);
    o3 ← get_u8 buf (opt + 3);
    let mssval := u16 (Z.shiftl o2 8 + o3) in
    if maxmss <? mssval then
      let accumulate := htons mssval in
      buf ← put_u8 buf (opt + 2) (Z.land (Z.shiftr maxmss 8) 0xff);
      buf ← put_u8 buf (opt + 3) (Z.land maxmss 0xff);
      let accumulate := accumulate - htons maxmss in
      check ← get_h16 buf (tc + TCPH_CHECK);
      put_h16 buf (tc + TCPH_CHECK) (ADJUST_CHECKSUM accumulate check)
    else Ret buf.

Fixpoint mss_loop (fuel : nat) (buf : buffer) (tc opt olen maxmss : Z) : outcome buffer :=
  match fuel with
  | O => Fault
  | S fuel =>
      if 1 <? olen then
        kind ← get_u8 buf opt;
        if kind =? OPENVPN_TCPOPT_EOL then Ret buf
        else if kind =? OPENVPN_TCPOPT_NOP then mss_loop fuel buf tc (opt + 1) (olen - 1) maxmss
        else
          optlen ← get_u8 buf (opt + 1);
          if (optlen <=? 0) || (olen <? optlen) then Ret buf
          else
            buf ← (if kind =? OPENVPN_TCPOPT_MAXSEG then mss_option buf tc opt optlen maxmss else Ret buf);
            mss_loop fuel buf tc (opt + optlen) (olen - optlen) maxmss
      else Ret buf
  end.

(** Every round moves on by at least one byte, so [olen] rounds are enough. *)
Definition mss_fixup_dowork (buf : buffer) (maxmss : Z) : outcome buffer :=
  if buf_len buf <? SIZEOF_TCPHDR then Ret buf
  else
    let tc := boffset buf in
    doff_res ← get_u8 buf (tc + TCPH_DOFF_RES);
    let hlen := OPENVPN_TCPH_GET_DOFF doff_res in
    if (hlen <=? SIZEOF_TCPHDR) || (buf_len buf <? hlen) then Ret buf
    else
      let olen := hlen - SIZEOF_TCPHDR in
      mss_loop (S (Z.to_nat olen)) buf tc (tc + SIZEOF_TCPHDR) olen maxmss.

(** The writes of [mss_fixup_dowork] go through [newbuf], a copy of the header
    of [buf]: they change the block both point to. *)
Definition mss_fixup_ipv4 (buf : buffer) (maxmss : Z) : outcome buffer :=
  if buf_len buf <? SIZEOF_IPHDR then Ret buf
  else
    let pip := boffset buf in
    version_len ← get_u8 buf pip;
    let hlen := OPENVPN_IPH_GET_LEN version_len in
    protocol ← get_u8 buf (pip + IPH_PROTOCOL);
    tot_len ← get_n16 buf (pip + IPH_TOT_LEN);
    frag_off ← get_n16 buf (pip + IPH_FRAG_OFF);
    if (protocol =? OPENVPN_IPPROTO_TCP) && (tot_len =? buf_len buf)
       && (Z.land frag_off OPENVPN_IP_OFFMASK =? 0)
       && (hlen <=? buf_len buf) && (SIZEOF_TCPHDR <=? buf_len buf - hlen)
    then
      match buf_advance buf hlen with
      | (newbuf, true) =>
          flags ← get_u8 newbuf (boffset newbuf + TCPH_FLAGS);
          if negb (Z.land flags OPENVPN_TCPH_SYN_MASK =? 0) then
            newbuf ← mss_fixup_dowork newbuf (u16 maxmss);
            Ret (share_block buf newbuf)
          else Ret buf
      | (_, false) => Ret buf
      end
    else Ret buf.

Definition mss_fixup_ipv6 (buf : buffer) (maxmss : Z) : outcome buffer :=
  if buf_len buf <? SIZEOF_IPV6HDR then Ret buf
  else
    let pip6 := boffset buf in
    payload_len ← get_n16 buf (pip6 + IP6H_PAYLOAD_LEN);
    if negb (buf_len buf =? payload_len + 40) then Ret buf
    else
      nexthdr ← get_u8 buf (pip6 + IP6H_NEXTHDR);
      if negb (nexthdr =? OPENVPN_IPPROTO_TCP) then Ret buf
      else
        match buf_advance buf 40 with
        | (newbuf, true) =>
            if SIZEOF_TCPHDR <=? buf_len newbuf then
              flags ← get_u8 newbuf (boffset newbuf + TCPH_FLAGS);
              if negb (Z.land flags OPENVPN_TCPH_SYN_MASK =? 0) then
                newbuf ← mss_fixup_dowork newbuf (u16 (u16 maxmss - 20));
                Ret (share_block buf newbuf)
              else Ret buf
            else Ret buf
        | (_, false) => Ret buf
        end.

(** ** Specification *)

(** The offsets of the maximum segment size options of length four, in the
    [olen] option bytes from offset [pos] of the segment. *)
Fixpoint mss_options (fuel : nat) (seg : bytes) (pos olen : Z) : list Z :=
  match fuel with
  | O => []
  | S fuel =>
      if 1 <? olen then
        match seg !! Z.to_nat pos, seg !! Z.to_nat (pos + 1) with
        | Some kind, Some optlen =>
            if kind =? 0 then []
            else if kind =? 1 then mss_options fuel seg (pos + 1) (olen - 1)
            else if (optlen <=? 0) || (olen <? optlen) then []
            else
              (if (kind =? 2) && (optlen =? 4) then [pos] else []) ++
              mss_options fuel seg (pos + optlen) (olen - optlen)
        | _, _ => []
        end
      else []
  end.

(** The options of a segment: none unless its header length is plausible. *)
Definition segment_mss_options (seg : bytes) : list Z :=
  match seg !! Z.to_nat TCPH_DOFF_RES with
  | Some d =>
      let hlen := OPENVPN_TCPH_GET_DOFF d in
      if (zlen seg <? SIZEOF_TCPHDR) || (hlen <=? SIZEOF_TCPHDR) || (zlen seg <? hlen) then []
      else mss_options (S (Z.to_nat (hlen - SIZEOF_TCPHDR))) seg SIZEOF_TCPHDR (hlen - SIZEOF_TCPHDR)
  | None => []
  end.

(** The value of the option at [o]. *)
Definition mss_value (seg : bytes) (o : Z) : Z := be_val (slice seg (o + 2) 2).

(** One option lowered. *)
Definition clamp (maxmss : Z) (seg : bytes) (o : Z) : bytes :=
  if maxmss <? mss_value seg o then
    let seg' := splice seg (o + 2) (be_bytes 2 maxmss) in
    splice seg' TCPH_CHECK
      (le_bytes 2 (ADJUST_CHECKSUM (htons (mss_value seg o) - htons maxmss) (le_val (slice seg' TCPH_CHECK 2))))
  else seg.

Definition mss_fix_spec (maxmss : Z) (seg : bytes) : bytes := foldl (clamp maxmss) seg (segment_mss_options seg).

(** ** The loop implements the specification *)

Lemma clamp_length maxmss c o : 16 <= o -> o + 4 <= zlen c -> length (clamp maxmss c o) = length c.
Proof.
  intros Ho Hl. unfold clamp. destruct (_ <? _); [|done]. unfold TCPH_CHECK.
  assert (Hi : length (splice c (o + 2) (be_bytes 2 maxmss)) = length c) by (apply length_splice; rewrite ?length_be_bytes; lia).
  rewrite length_splice; rewrite ?Hi, ?length_le_bytes; lia.
Qed.

Lemma clamp_bytes maxmss c o : Forall is_byte c -> Forall is_byte (clamp maxmss c o).
Proof.
  intros Hc. unfold clamp. destruct (_ <? _); [|done].
  apply Forall_splice; [apply Forall_splice; [done|apply be_bytes_is_byte]|apply le_bytes_is_byte].
Qed.

(** [clamp] writes the checksum and the option's value only. *)
Lemma clamp_lookup maxmss c o i :
  16 <= o -> o + 4 <= zlen c -> ~ (16 <= Z.of_nat i < 18) -> ~ (o + 2 <= Z.of_nat i < o + 4) ->
  clamp maxmss c o !! i = c !! i.
Proof.
  intros Ho Hl Hn1 Hn2. unfold clamp. destruct (_ <? _); [|done]. unfold TCPH_CHECK.
  assert (Hi : length (splice c (o + 2) (be_bytes 2 maxmss)) = length c) by (apply length_splice; rewrite ?length_be_bytes; lia).
  rewrite lookup_splice_other by (rewrite ?length_le_bytes; lia).
  by rewrite lookup_splice_other by (rewrite ?length_be_bytes; lia).
Qed.

Lemma mss_options_ext fuel : forall c c' pos olen,
  0 <= pos -> (forall i, (Z.to_nat pos <= i)%nat -> c !! i = c' !! i) ->
  mss_options fuel c pos olen = mss_options fuel c' pos olen.
Proof.
  induction fuel as [|fuel IH]; intros c c' pos olen Hpos H; [done|]. cbn [mss_options].
  rewrite <- !H by lia. destruct (1 <? olen); [|done].
  destruct (c !! Z.to_nat pos) as [kind|]; [|done]. destruct (c !! Z.to_nat (pos + 1)) as [optlen|]; [|done].
  destruct (kind =? 0); [done|]. destruct (kind =? 1); [apply IH; [lia|]; intros; apply H; lia|].
  destruct (_ || _) eqn:E; [done|]. f_equal. apply IH; [lia|]. intros. apply H. lia.
Qed.

(** The options lie in the option area, one behind the other. *)
Lemma mss_options_bounds fuel : forall c pos olen o,
  o ∈ mss_options fuel c pos olen -> pos <= o /\ o + 4 <= pos + olen.
Proof.
  induction fuel as [|fuel IH]; intros c pos olen o; cbn [mss_options]; [by intros ?%elem_of_nil|].
  destruct (1 <? olen) eqn:E0; [|by intros ?%elem_of_nil].
  destruct (c !! Z.to_nat pos) as [kind|]; [|by intros ?%elem_of_nil].
  destruct (c !! Z.to_nat (pos + 1)) as [optlen|]; [|by intros ?%elem_of_nil].
  destruct (kind =? 0); [by intros ?%elem_of_nil|]. destruct (kind =? 1); [intros H%IH; lia|].
  destruct (_ || _) eqn:E; [by intros ?%elem_of_nil|]. rewrite elem_of_app. intros [H|H%IH]; [|lia].
  destruct (_ && _) eqn:E2; [|by apply elem_of_nil in H]. apply list_elem_of_singleton in H. subst. lia.
Qed.

Lemma mss_options_sorted fuel : forall c pos olen, StronglySorted (λ o o', o + 4 <= o') (mss_options fuel c pos olen).
Proof.
  induction fuel as [|fuel IH]; intros c pos olen; cbn [mss_options]; [constructor|].
  destruct (1 <? olen) eqn:E0; [|constructor].
  destruct (c !! Z.to_nat pos) as [kind|]; [|constructor]. destruct (c !! Z.to_nat (pos + 1)) as [optlen|]; [|constructor].
  destruct (kind =? 0); [constructor|]. destruct (kind =? 1); [apply IH|].
  destruct (_ || _) eqn:E; [constructor|]. destruct (_ && _) eqn:E2; [|apply IH].
  cbn [app]. constructor; [apply IH|]. apply Forall_forall. intros o Ho. apply mss_options_bounds in Ho. lia.
Qed.

Section dowork.
Context (b : buffer) (blk : bytes) (Hok : buf_ok b blk) (maxmss : Z) (Hmax : 0 <= maxmss < 65536).

Lemma mss_option_win c o :
  zlen c = blen b -> Forall is_byte c -> 16 <= o -> o + 4 <= zlen c ->
  mss_option (win b blk c) (boffset b) (boffset b + o) 4 maxmss = Ret (win b blk (clamp maxmss c o)).
Proof using Hok Hmax.
  intros Hc Hby Ho Hl. unfold mss_option. change (negb (4 =? OPENVPN_TCPOLEN_MAXSEG)) with false. cbv iota.
  destruct (slice_2 c (o + 2)) as (x & y & Hx & Hy & Hsl); [lia..|].
  rewrite <- !Z.add_assoc. rewrite (win_get_u8 b blk Hok c (o + 2) x) by (done || lia).
  rewrite (win_get_u8 b blk Hok c (o + 3) y); [|done|lia|replace (Z.to_nat (o + 3)) with (S (Z.to_nat (o + 2))) by lia; done].
  cbn [mbind outcome_bind].
  pose proof (Forall_lookup_1 _ _ _ _ Hby Hx) as Bx. pose proof (Forall_lookup_1 _ _ _ _ Hby Hy) as By. unfold is_byte in Bx, By.
  assert (Hv : u16 (Z.shiftl x 8 + y) = mss_value c o).
  { unfold mss_value. rewrite Hsl, be_val_2, Z.shiftl_mul_pow2 by lia. unfold u16. apply Z.mod_small. lia. }
  rewrite Hv. unfold clamp. destruct (maxmss <? mss_value c o); [|done].
  rewrite (win_put_u8 b blk) by (done || lia). cbn [mbind outcome_bind].
  assert (L1 : forall v, length (splice c (o + 2) [v]) = length c) by (intros; apply length_splice; simpl; lia).
  rewrite (win_put_u8 b blk) by (rewrite ?L1; done || lia). cbn [mbind outcome_bind].
  replace (o + 3) with (o + 2 + zlen [u8 (Z.land (Z.shiftr maxmss 8) 255)]) by (simpl; lia).
  rewrite splice_splice_adj by (simpl; lia). cbn [app].
  assert (Hbb : [u8 (Z.land (Z.shiftr maxmss 8) 255); u8 (Z.land maxmss 255)] = be_bytes 2 maxmss).
  { rewrite be_bytes_2, (land_field maxmss 8 8), (land_low maxmss 8) by done. unfold u8. change (2 ^ 8) with 256.
    by rewrite !Z.mod_mod by lia. }
  rewrite Hbb. set (seg' := splice c (o + 2) (be_bytes 2 maxmss)).
  assert (L2 : length seg' = length c) by (apply length_splice; rewrite ?length_be_bytes; lia).
  rewrite (win_get_h16 b blk) by (unfold TCPH_CHECK; rewrite ?L2; done || lia). cbn [mbind outcome_bind].
  rewrite (win_put_h16 b blk) by (unfold TCPH_CHECK; rewrite ?L2; done || lia). done.
Qed.

Lemma mss_loop_win fuel : forall c pos olen,
  zlen c = blen b -> Forall is_byte c -> 18 <= pos -> pos + olen <= zlen c -> olen < Z.of_nat fuel -> (0 < fuel)%nat ->
  mss_loop fuel (win b blk c) (boffset b) (boffset b + pos) olen maxmss =
  Ret (win b blk (foldl (clamp maxmss) c (mss_options fuel c pos olen))).
Proof using Hok Hmax.
  induction fuel as [|fuel IH]; intros c pos olen Hc Hby Hpos Hl Hf Hf0; [lia|]. cbn [mss_loop mss_options].
  destruct (1 <? olen) eqn:E0; [|done].
  destruct (lookup_lt_is_Some_2 c (Z.to_nat pos)) as [kind Hk]; [lia|].
  destruct (lookup_lt_is_Some_2 c (Z.to_nat (pos + 1))) as [optlen Hol]; [lia|].
  rewrite Hk, Hol, (win_get_u8 b blk Hok c pos kind) by (done || lia). cbn [mbind outcome_bind].
  change OPENVPN_TCPOPT_EOL with 0. change OPENVPN_TCPOPT_NOP with 1. change OPENVPN_TCPOPT_MAXSEG with 2.
  rewrite <- !Z.add_assoc. destruct (kind =? 0); [done|]. destruct (kind =? 1); [rewrite <- ?Z.add_assoc; apply IH; done || lia|].
  rewrite (win_get_u8 b blk Hok c (pos + 1) optlen) by (done || lia). cbn [mbind outcome_bind].
  destruct ((optlen <=? 0) || (olen <? optlen)) eqn:E1; [done|].
  destruct (kind =? 2) eqn:E2; cbn [andb].
  - destruct (decide (optlen = 4)) as [->|Hne].
    + rewrite mss_option_win by (done || lia). cbn [mbind outcome_bind]. rewrite Z.eqb_refl. cbn [app foldl].
      rewrite (mss_options_ext fuel c (clamp maxmss c pos)) by (lia || (intros; symmetry; apply clamp_lookup; lia)).
      rewrite <- ?Z.add_assoc; apply IH; rewrite ?clamp_length by lia; try done; try lia. by apply clamp_bytes.
    + unfold mss_option. rewrite (proj2 (Z.eqb_neq optlen OPENVPN_TCPOLEN_MAXSEG)) by done. cbn [negb mbind outcome_bind].
      rewrite (proj2 (Z.eqb_neq optlen 4)) by done. rewrite <- ?Z.add_assoc; apply IH; done || lia.
  - cbn [mbind outcome_bind app]. rewrite <- ?Z.add_assoc; apply IH; done || lia.
Qed.
End dowork.

(** [mss_fixup_dowork] rewrites the segment as [mss_fix_spec] says and touches
    no other byte of the block. *)
Lemma mss_fixup_dowork_win b blk maxmss :
  buf_ok b blk -> 0 <= maxmss < 65536 ->
  mss_fixup_dowork b maxmss = Ret (win b blk (mss_fix_spec maxmss (content b))).
Proof.
  intros Hok Hmax. pose proof (zlen_content _ _ Hok) as Hc. pose proof (win_id _ _ Hok) as Hid.
  assert (Hby : Forall is_byte (content b)) by (rewrite (buf_ok_content _ _ Hok); apply Forall_slice, Hok).
  assert (Hbl : buf_len b = zlen (content b)).
  { unfold buf_len, buf_valid, buf_defined. rewrite (ok_data _ _ Hok). pose proof (ok_len _ _ Hok). simpl. rewrite Hc. guards. }
  unfold mss_fixup_dowork, mss_fix_spec, segment_mss_options. rewrite Hbl. set (c := content b) in *.
  destruct (zlen c <? SIZEOF_TCPHDR) eqn:E0.
  { destruct (c !! _); simpl; by rewrite Hid. }
  unfold SIZEOF_TCPHDR in *.
  destruct (lookup_lt_is_Some_2 c (Z.to_nat TCPH_DOFF_RES)) as [d Hd]; [unfold TCPH_DOFF_RES; lia|]. rewrite Hd.
  assert (Hg : get_u8 b (boffset b + TCPH_DOFF_RES) = Ret d)
    by (rewrite <- Hid; apply (win_get_u8 b blk Hok c); [done|done|exact Hd]).
  rewrite Hg. cbn [mbind outcome_bind orb]. set (hlen := OPENVPN_TCPH_GET_DOFF d).
  destruct ((hlen <=? 20) || (zlen c <? hlen)) eqn:E1; [simpl; by rewrite Hid|].
  rewrite <- Hid at 1. apply (mss_loop_win b blk Hok maxmss Hmax); done || lia.
Qed.

(** ** What the specification means *)

Lemma mss_value_ext c c' o :
  0 <= o -> (forall i, o + 2 <= Z.of_nat i < o + 4 -> c !! i = c' !! i) -> mss_value c o = mss_value c' o.
Proof. intros Ho H. unfold mss_value. f_equal. apply slice_ext_eq. intros i Hi. apply H. lia. Qed.

Lemma clamp_value maxmss c o :
  Forall is_byte c -> 0 <= maxmss < 65536 -> 16 <= o -> o + 4 <= zlen c ->
  mss_value (clamp maxmss c o) o = Z.min (mss_value c o) maxmss.
Proof.
  intros Hby Hm Ho Hl. unfold clamp. destruct (_ <? _) eqn:E; [|lia]. unfold TCPH_CHECK.
  set (s := splice c (o + 2) _).
  assert (Hi : length s = length c) by (apply length_splice; rewrite ?length_be_bytes; lia).
  rewrite (mss_value_ext _ s); [|lia|].
  2:{ intros i Hii. apply lookup_splice_other; rewrite ?length_le_bytes; lia. }
  unfold mss_value in *. unfold s. rewrite slice_splice_same by (rewrite ?length_be_bytes; lia). rewrite be_val_u16; lia.
Qed.

Lemma clamp_value_other maxmss c o o' :
  16 <= o -> 16 <= o' -> o + 4 <= zlen c -> o + 4 <= o' \/ o' + 4 <= o ->
  mss_value (clamp maxmss c o) o' = mss_value c o'.
Proof. intros. apply mss_value_ext; [lia|]. intros i Hi. apply clamp_lookup; lia. Qed.

Lemma clamp_sum maxmss c o :
  Forall is_byte c -> 0 <= maxmss < 65536 -> 16 <= o -> o + 4 <= zlen c -> Z.even o = true ->
  eq1c (word_sum (clamp maxmss c o)) (word_sum c).
Proof.
  intros Hby Hm Ho Hl He. unfold clamp. destruct (_ <? _) eqn:E; [|done]. unfold TCPH_CHECK.
  set (s := splice c (o + 2) _).
  assert (Hi : length s = length c) by (apply length_splice; rewrite ?length_be_bytes; lia).
  assert (Hbs : Forall is_byte s) by (apply Forall_splice; [done|apply be_bytes_is_byte]).
  assert (Hv : 0 <= mss_value c o < 65536).
  { unfold mss_value. pose proof (be_val_range (slice c (o + 2) 2) (Forall_slice _ _ _ _ Hby)) as Hr.
    rewrite zlen_slice in Hr by lia. change (256 ^ 2) with 65536 in Hr. done. }
  assert (Hh : forall v, 0 <= v < 65536 -> 0 <= htons v < 65536) by (intros v ?; unfold htons; mlia).
  pose proof (Hh _ Hm). pose proof (Hh _ Hv).
  rewrite (adjust_field s 16) by (done || lia). unfold s. rewrite replace_word; [|done|lia| |lia|done].
  2:{ by rewrite Z.even_add, He. }
  fold (mss_value c o). destruct (htons_eq1c _ Hm) as [k Hk]. destruct (htons_eq1c _ Hv) as [k' Hk'].
  exists (256 * k' - 256 * k + mss_value c o - maxmss). lia.
Qed.

(** The whole walk over a list of options that do not overlap. *)
Record mss_fixed (maxmss : Z) (c : bytes) (os : list Z) (c' : bytes) : Prop := {
  mf_length : length c' = length c;
  mf_bytes : Forall is_byte c';
  mf_other : forall i, ~ (16 <= Z.of_nat i < 18) -> (forall o, o ∈ os -> ~ (o + 2 <= Z.of_nat i < o + 4)) -> c' !! i = c !! i;
  mf_value : forall o, o ∈ os -> mss_value c' o = Z.min (mss_value c o) maxmss;
  mf_sum : (forall o, o ∈ os -> Z.even o = true) -> eq1c (word_sum c') (word_sum c)
}.

Lemma clamp_all_fixed maxmss os : forall c,
  Forall is_byte c -> 0 <= maxmss < 65536 -> StronglySorted (λ o o', o + 4 <= o') os ->
  (forall o, o ∈ os -> 20 <= o /\ o + 4 <= zlen c) -> mss_fixed maxmss c os (foldl (clamp maxmss) c os).
Proof.
  induction os as [|o os IH]; intros c Hby Hm Hs Hb; cbn [foldl].
  { split; try done. by intros o ?%elem_of_nil. }
  apply StronglySorted_inv in Hs as [Hs Hgap]. rewrite Forall_forall in Hgap.
  destruct (Hb o) as [Ho Hol]; [constructor|].
  assert (Hl : length (clamp maxmss c o) = length c) by (apply clamp_length; lia).
  destruct (IH (clamp maxmss c o)) as [L B O V S]; [by apply clamp_bytes|done|done| |].
  { intros o' Ho'. rewrite Hl. apply Hb. by constructor. }
  split.
  - congruence.
  - done.
  - intros i H1 H2. rewrite O by (done || (intros; apply H2; by constructor)).
    apply clamp_lookup; try lia. apply H2. constructor.
  - intros o' [->|Ho']%elem_of_cons.
    + rewrite <- (clamp_value maxmss c o) by (done || lia). apply mss_value_ext; [lia|].
      intros i Hi. apply O; [lia|]. intros o' Ho'. specialize (Hgap o' Ho'). simpl in Hgap. lia.
    + rewrite V by done. specialize (Hgap o' Ho'). simpl in Hgap. rewrite clamp_value_other; [done|lia..].
  - intros He. rewrite S by (intros; apply He; by constructor).
    apply clamp_sum; try done; try lia. apply He. constructor.
Qed.

Lemma mss_fix_spec_fixed maxmss seg :
  Forall is_byte seg -> 0 <= maxmss < 65536 -> mss_fixed maxmss seg (segment_mss_options seg) (mss_fix_spec maxmss seg).
Proof.
  intros Hby Hm. apply clamp_all_fixed; try done; unfold segment_mss_options; destruct (seg !! _) as [d|];
    try (by constructor); try (by intros o ?%elem_of_nil); destruct (_ || _) eqn:E; try (by constructor); try (by intros o ?%elem_of_nil).
  - apply mss_options_sorted.
  - intros o Ho%mss_options_bounds. unfold SIZEOF_TCPHDR in *. lia.
Qed.

Lemma mss_fixup_dowork_holds b hd seg tl maxmss :
  holds b hd seg tl -> 0 <= maxmss < 65536 ->
  exists b', mss_fixup_dowork b maxmss = Ret b' /\ holds b' hd (mss_fix_spec maxmss seg) tl.
Proof.
  intros Hh Hm. pose proof (holds_bytes _ _ _ _ Hh) as Hby. destruct (mss_fix_spec_fixed maxmss seg Hby Hm) as [L B _ _ _].
  destruct Hh as (blk & Hok & Ho & Hc & Ht). pose proof (zlen_content _ _ Hok) as Hl. rewrite Hc in Hl.
  eexists. split; [by apply mss_fixup_dowork_win|]. rewrite Hc.
  exists (splice blk (boffset b) (mss_fix_spec maxmss seg)). split; [apply win_ok; [done|lia|done]|].
  split; [done|]. split; [apply win_content; [done|lia]|done].
Qed.

(** MSS clamping on arbitrary bytes: [mss_fixup_dowork] returns, writes
    inside the segment only, keeps its length, gives every maximum segment
    size option found by the option walk the minimum of its value and the
    limit, and changes no byte but those values and the checksum. *)
Theorem mss_fixup_clamps b hd seg tl maxmss :
  holds b hd seg tl -> 0 <= maxmss < 65536 ->
  exists b' seg', mss_fixup_dowork b maxmss = Ret b' /\ holds b' hd seg' tl /\ length seg' = length seg /\
    (forall o, o ∈ segment_mss_options seg -> mss_value seg' o = Z.min (mss_value seg o) maxmss) /\
    (forall i, ~ (16 <= Z.of_nat i < 18) ->
       (forall o, o ∈ segment_mss_options seg -> ~ (o + 2 <= Z.of_nat i < o + 4)) -> seg' !! i = seg !! i).
Proof.
  intros Hh Hm. pose proof (holds_bytes _ _ _ _ Hh) as Hby. destruct (mss_fix_spec_fixed maxmss seg Hby Hm) as [L B O V _].
  destruct (mss_fixup_dowork_holds _ _ _ _ maxmss Hh Hm) as (b' & Hd & Hb'). eauto 10.
Qed.

(** MSS clamping keeps the TCP checksum: when the options lie at even
    offsets, the segment verifies after the change ([ip_checksum] over it and
    the pseudo header is zero) exactly when it did before. *)
Theorem mss_fixup_keeps_checksum b hd seg tl maxmss (v4 : bool) src dst :
  holds b hd seg tl -> 0 <= maxmss < 65536 -> zlen seg < 65536 ->
  (forall o, o ∈ segment_mss_options seg -> Z.even o = true) ->
  Forall is_byte src -> Forall is_byte dst -> zlen src = (if v4 then 4 else 16) -> zlen dst = (if v4 then 4 else 16) ->
  exists b' seg', mss_fixup_dowork b maxmss = Ret b' /\ holds b' hd seg' tl /\
    (ip_checksum v4 seg' src dst OPENVPN_IPPROTO_TCP = Ret 0 <-> ip_checksum v4 seg src dst OPENVPN_IPPROTO_TCP = Ret 0).
Proof.
  intros Hh Hm Hsz He Hs Hd Hls Hld. pose proof (holds_bytes _ _ _ _ Hh) as Hby.
  destruct (mss_fix_spec_fixed maxmss seg Hby Hm) as [L B _ _ S].
  destruct (mss_fixup_dowork_holds _ _ _ _ maxmss Hh Hm) as (b' & Hdo & Hb'). exists b', (mss_fix_spec maxmss seg).
  split; [done|]. split; [done|].
  destruct (ip_checksum_spec v4 seg src dst 6) as (r & Hr & _ & _ & Hr0); [done..|lia|].
  destruct (ip_checksum_spec v4 (mss_fix_spec maxmss seg) src dst 6) as (r' & Hr' & _ & _ & Hr0'); [done|done|done|lia|done|done|lia|].
  unfold OPENVPN_IPPROTO_TCP. rewrite Hr, Hr'.
  assert (Hiff : checksum_ok (mss_fix_spec maxmss seg) src dst 6 <-> checksum_ok seg src dst 6).
  { unfold checksum_ok, packet_sum. rewrite L, (S He). done. }
  split; intros [= ->]; f_equal; tauto.
Qed.

(** ** IPv4 and IPv6 packets *)

(** Where the TCP header of an IPv4 SYN packet starts: only for a complete,
    unfragmented packet with room for a TCP header. *)
Definition ipv4_syn (pkt : bytes) : option Z :=
  let hlen := OPENVPN_IPH_GET_LEN (field8 pkt 0) in
  if (SIZEOF_IPHDR <=? zlen pkt) && (field8 pkt IPH_PROTOCOL =? OPENVPN_IPPROTO_TCP) && (field16 pkt IPH_TOT_LEN =? zlen pkt)
     && (Z.land (field16 pkt IPH_FRAG_OFF) OPENVPN_IP_OFFMASK =? 0) && (SIZEOF_TCPHDR <=? zlen pkt - hlen)
     && negb (Z.land (field8 pkt (hlen + TCPH_FLAGS)) OPENVPN_TCPH_SYN_MASK =? 0)
  then Some hlen else None.

Definition ipv6_syn (pkt : bytes) : option Z :=
  if (SIZEOF_IPV6HDR + SIZEOF_TCPHDR <=? zlen pkt) && (field16 pkt IP6H_PAYLOAD_LEN =? zlen pkt - SIZEOF_IPV6HDR)
     && (field8 pkt IP6H_NEXTHDR =? OPENVPN_IPPROTO_TCP)
     && negb (Z.land (field8 pkt (SIZEOF_IPV6HDR + TCPH_FLAGS)) OPENVPN_TCPH_SYN_MASK =? 0)
  then Some SIZEOF_IPV6HDR else None.

(** The packet with the options of its SYN segment lowered. *)
Definition fix_packet (syn : option Z) (limit : Z) (pkt : bytes) : bytes :=
  match syn with
  | Some h => take (Z.to_nat h) pkt ++ mss_fix_spec limit (drop (Z.to_nat h) pkt)
  | None => pkt
  end.

(** Clamping through a header advanced by [h] rewrites the rest of the packet. *)
Lemma fixup_advanced b hd pkt tl h limit newbuf :
  holds b hd pkt tl -> 0 <= h <= zlen pkt -> 0 <= limit < 65536 -> buf_advance b h = (newbuf, true) ->
  exists nb, mss_fixup_dowork newbuf limit = Ret nb /\
    holds (share_block b nb) hd (take (Z.to_nat h) pkt ++ mss_fix_spec limit (drop (Z.to_nat h) pkt)) tl.
Proof.
  intros Hh Hhl Hm Ha. destruct (buf_advance_spec _ _ _ _ h Hh Hhl) as (nb & Ha' & Hnb). rewrite Ha in Ha'. injection Ha' as <-.
  pose proof (holds_bytes _ _ _ _ Hh) as Hby. pose proof (holds_bytes _ _ _ _ Hnb) as Hbn.
  destruct (mss_fix_spec_fixed limit _ Hbn Hm) as [L B _ _ _].
  destruct Hh as (blk & Hok & Ho & Hc & Ht). pose proof (zlen_content _ _ Hok) as Hl. rewrite Hc in Hl.
  unfold buf_advance in Ha. destruct (_ || _) eqn:E; [done|]. injection Ha as <-.
  assert (Hokn : buf_ok (set_offset_len b (boffset b + h) (blen b - h)) blk) by (destruct Hok; split; simpl; done || lia).
  destruct Hnb as (blkn & Hokn' & _ & Hcn & _). eexists. split; [by apply (mss_fixup_dowork_win _ blk)|]. rewrite Hcn.
  rewrite length_drop in L. rewrite (win_advance b blk h) by (done || lia). rewrite Hc.
  set (c' := _ ++ _). assert (Hlc : zlen c' = blen b) by (unfold c'; rewrite length_app, length_take; lia).
  exists (splice blk (boffset b) c').
  split; [apply win_ok; [done|done|]; apply Forall_app; split; [by apply Forall_take|done]|].
  split; [done|]. split; [by apply win_content|done].
Qed.

Lemma iph_len_range v : 0 <= OPENVPN_IPH_GET_LEN v <= 60.
Proof. unfold OPENVPN_IPH_GET_LEN. rewrite (land_low v 4), Z.shiftl_mul_pow2 by done. change (2 ^ 4) with 16. change (2 ^ 2) with 4. mlia. Qed.

Ltac header_sizes :=
  unfold SIZEOF_IPHDR, SIZEOF_TCPHDR, SIZEOF_IPV6HDR, IPH_PROTOCOL, IPH_TOT_LEN, IPH_FRAG_OFF, TCPH_FLAGS,
    IP6H_PAYLOAD_LEN, IP6H_NEXTHDR in *.

Lemma mss_fixup_ipv4_holds b hd pkt tl maxmss :
  holds b hd pkt tl ->
  exists b', mss_fixup_ipv4 b maxmss = Ret b' /\ holds b' hd (fix_packet (ipv4_syn pkt) (u16 maxmss) pkt) tl.
Proof.
  intros Hh. destruct (buf_len_holds _ _ _ _ Hh) as [Hbl _]. unfold mss_fixup_ipv4, ipv4_syn. rewrite Hbl. header_sizes.
  destruct (zlen pkt <? 20) eqn:E0.
  { exists b. split; [done|]. destruct (20 <=? zlen pkt) eqn:E1; [lia|]. done. }
  destruct (20 <=? zlen pkt) eqn:E1; [|lia]. clear E0.
  cbv zeta. replace (get_u8 b (boffset b)) with (get_u8 b (boffset b + 0)) by (f_equal; lia).
  rewrite !(holds_get_u8 _ _ _ _ _ Hh), !(holds_get_n16 _ _ _ _ _ Hh) by lia.
  cbn [mbind outcome_bind andb]. set (hlen := OPENVPN_IPH_GET_LEN _). pose proof (iph_len_range (field8 pkt 0)) as Hhl. fold hlen in Hhl.
  destruct (field8 pkt 9 =? _); [|by eauto]. destruct (field16 pkt 2 =? zlen pkt) eqn:Etot; [|by eauto].
  destruct (Z.land (field16 pkt 6) _ =? 0); [|by eauto]. cbn [andb].
  destruct (20 <=? zlen pkt - hlen) eqn:E2; [|rewrite andb_false_r; by eauto].
  destruct (hlen <=? zlen pkt) eqn:E3; [|lia]. cbn [andb].
  destruct (buf_advance_spec _ _ _ _ hlen Hh ltac:(lia)) as (nb & Ha & Hnb). rewrite Ha.
  rewrite (holds_get_u8 _ _ _ _ _ Hnb), field8_drop by (rewrite ?length_drop; lia). cbn [mbind outcome_bind].
  destruct (negb _); [|by eauto].
  destruct (fixup_advanced _ _ _ _ hlen (u16 maxmss) nb Hh ltac:(lia) (u16_range _) Ha) as (nb' & -> & Hr). by eauto.
Qed.

Lemma mss_fixup_ipv6_holds b hd pkt tl maxmss :
  holds b hd pkt tl ->
  exists b', mss_fixup_ipv6 b maxmss = Ret b' /\ holds b' hd (fix_packet (ipv6_syn pkt) (u16 (u16 maxmss - 20)) pkt) tl.
Proof.
  intros Hh. destruct (buf_len_holds _ _ _ _ Hh) as [Hbl _]. unfold mss_fixup_ipv6, ipv6_syn. rewrite Hbl. header_sizes.
  destruct (zlen pkt <? 40) eqn:E0.
  { exists b. split; [done|]. destruct (40 + 20 <=? zlen pkt) eqn:E1; [lia|]. done. }
  rewrite (holds_get_n16 _ _ _ _ _ Hh) by lia. cbn [mbind outcome_bind].
  replace (field16 pkt 4 =? zlen pkt - 40) with (zlen pkt =? field16 pkt 4 + 40) by lia.
  destruct (zlen pkt =? _) eqn:E1; cbn [negb]; [|exists b; rewrite andb_false_r; by eauto].
  rewrite (holds_get_u8 _ _ _ _ _ Hh) by lia. cbn [mbind outcome_bind].
  destruct (field8 pkt 6 =? _) eqn:E2; cbn [negb]; [|exists b; rewrite andb_false_r; by eauto].
  destruct (buf_advance_spec _ _ _ _ 40 Hh ltac:(lia)) as (nb & Ha & Hnb). rewrite Ha.
  destruct (buf_len_holds _ _ _ _ Hnb) as [-> _]. rewrite length_drop.
  replace (20 <=? Z.of_nat (length pkt - Z.to_nat 40)) with (40 + 20 <=? zlen pkt) by lia.
  destruct (40 + 20 <=? zlen pkt) eqn:E3; cbn [andb]; [|by eauto].
  rewrite (holds_get_u8 _ _ _ _ _ Hnb), field8_drop by (rewrite ?length_drop; lia). cbn [mbind outcome_bind].
  destruct (negb _); [|by eauto].
  destruct (fixup_advanced _ _ _ _ 40 (u16 (u16 maxmss - 20)) nb Hh ltac:(lia) (u16_range _) Ha) as (nb' & -> & Hr). by eauto.
Qed.

(** On arbitrary bytes [mss_fixup_ipv4] and [mss_fixup_ipv6] return and
    lower the options of complete, unfragmented TCP SYN packets, in place
    behind the IP header; every other packet is left as it is.  The limit for
    IPv6 is 20 bytes lower. *)
Theorem mss_fixup_packets b hd pkt tl maxmss :
  holds b hd pkt tl ->
  (exists b', mss_fixup_ipv4 b maxmss = Ret b' /\ holds b' hd (fix_packet (ipv4_syn pkt) (u16 maxmss) pkt) tl) /\
  (exists b', mss_fixup_ipv6 b maxmss = Ret b' /\ holds b' hd (fix_packet (ipv6_syn pkt) (u16 (u16 maxmss - 20)) pkt) tl).
Proof.
  intros Hh. split; [by apply mss_fixup_ipv4_holds|by apply mss_fixup_ipv6_holds].
Qed.

(** ** Concrete segments *)

(** A SYN segment with checksum bytes [ck] and options [opts] (a multiple of
    four bytes), from port 1 to port 2. *)
Definition syn_segment (ck opts : bytes) : bytes :=
  [0; 1; 0; 2; 0; 0; 0; 0; 0; 0; 0; 0; u8 ((20 + zlen opts) * 4); 2; 255; 255] ++ ck ++ [0; 0] ++ opts.

Definition demo_syn : bytes := syn_segment [9; 9] [2; 4; 5; 180].

Lemma mss_fixup_clamps_witness :
  exists b' seg', mss_fixup_dowork (buf_of demo_syn) 1000 = Ret b' /\ holds b' 0 seg' 0 /\ length seg' = length demo_syn /\
    (forall o, o ∈ segment_mss_options demo_syn -> mss_value seg' o = Z.min (mss_value demo_syn o) 1000) /\
    (forall i, ~ (16 <= Z.of_nat i < 18) ->
       (forall o, o ∈ segment_mss_options demo_syn -> ~ (o + 2 <= Z.of_nat i < o + 4)) -> seg' !! i = demo_syn !! i).
Proof. apply (mss_fixup_clamps _ 0 demo_syn 0); [apply buf_of_holds; vm_compute; done|lia]. Defined.

Example demo_syn_options : segment_mss_options demo_syn = [20] /\ mss_value demo_syn 20 = 1460.
Proof. vm_compute. done. Qed.

Definition demo_src : bytes := [10; 0; 0; 1].
Definition demo_dst : bytes := [10; 0; 0; 2].

Lemma mss_fixup_keeps_checksum_witness :
  let seg := syn_segment [132; 33] [2; 4; 5; 180] in
  ip_checksum true seg demo_src demo_dst OPENVPN_IPPROTO_TCP = Ret 0 /\
  exists b' seg', mss_fixup_dowork (buf_of seg) 1000 = Ret b' /\ holds b' 0 seg' 0 /\
    (ip_checksum true seg' demo_src demo_dst OPENVPN_IPPROTO_TCP = Ret 0 <->
     ip_checksum true seg demo_src demo_dst OPENVPN_IPPROTO_TCP = Ret 0).
Proof.
  split; [vm_compute; done|].
  apply (mss_fixup_keeps_checksum _ 0 (syn_segment [132; 33] [2; 4; 5; 180]) 0).
  - apply buf_of_holds; vm_compute; done.
  - lia.
  - vm_compute. done.
  - intros o Ho. change (segment_mss_options _) with [20] in Ho. apply list_elem_of_singleton in Ho. by subst.
  - apply all_bytes_spec. vm_compute. done.
  - apply all_bytes_spec. vm_compute. done.
  - done.
  - done.
Defined.

(** An IPv4 packet that carries a segment. *)
Definition ipv4_packet (seg : bytes) : bytes :=
  [69; 0] ++ be_bytes 2 (20 + zlen seg) ++ [0; 0; 64; 0; 64; 6; 0; 0] ++ demo_src ++ demo_dst ++ seg.

Lemma mss_fixup_packets_witness :
  let pkt := ipv4_packet demo_syn in
  ipv4_syn pkt = Some 20 /\
  (exists b', mss_fixup_ipv4 (buf_of pkt) 1000 = Ret b' /\ holds b' 0 (fix_packet (ipv4_syn pkt) (u16 1000) pkt) 0) /\
  (exists b', mss_fixup_ipv6 (buf_of pkt) 1000 = Ret b' /\ holds b' 0 (fix_packet (ipv6_syn pkt) (u16 (u16 1000 - 20)) pkt) 0).
Proof.
  split; [vm_compute; done|]. apply (mss_fixup_packets _ 0 (ipv4_packet demo_syn) 0). apply buf_of_holds; vm_compute; done.
Defined.

(** An option at an odd offset, here behind a no-operation byte, breaks the
    checksum: its value straddles two words, but the adjustment treats it as
    one word, so a segment that verifies no longer does once its option has
    been lowered. *)
Theorem mss_odd_offset_breaks_checksum :
  let seg := syn_segment [193; 203] [1; 2; 4; 5; 180; 1; 1; 1] in
  ip_checksum true seg demo_src demo_dst OPENVPN_IPPROTO_TCP = Ret 0 /\
  exists b', mss_fixup_dowork (buf_of seg) 1000 = Ret b' /\ mss_value (content b') 21 = 1000 /\
    ip_checksum true (content b') demo_src demo_dst OPENVPN_IPPROTO_TCP = Ret 51765.
Proof. split; [vm_compute; done|]. eexists. split; [vm_compute; done|]. split; vm_compute; done. Qed.
