(* ===== verification/Mbuf.v ===== *)
(** * mbuf: the queue of shared packets between client instances (openvpn mbuf.h, mbuf.c)

    A broadcast packet is stored once and queued for every recipient, so the
    queue slots share reference-counted buffers.  The shared store is [heap],
    a finite map from addresses to [mbuf_buffer]s; freeing removes the entry
    and every access to a missing entry faults, so a use after free or a double
    free shows up as [Fault].  The queue is a ring of [mbuf_item]s in an array
    whose size is a power of two; cells [malloc] left unwritten are [None] and
    fault when read.

    The specification is a bounded list of slots ([qadd], [qpop], [qderef],
    [qpeek]), together with the number of references each client of the queue
    holds ([own]).  [mstate_ok] ties the two: every stored buffer's count is
    the number of references to it, from clients and from queue slots. *)

From S2P Require Import Prelude Buffer CircList.
From stdpp Require Import prelude gmap.
From Stdlib Require Import ZArith Lia ZifyBool.

Local Open Scope Z_scope.

(** ** Data *)

Abbreviation ptr := positive.

Record mbuf_buffer := mkmb {
  mb_buf : buffer;
  mb_refcount : Z;
  mb_flags : Z
}.

Record mbuf_item := mkitem {
  it_buffer : option ptr;     (** [None] is NULL *)
  it_instance : option ptr
}.

Record mbuf_set := mkms {
  ms_head : Z;
  ms_len : Z;
  ms_capacity : Z;
  ms_max_queued : Z;
  ms_array : list (option mbuf_item)
}.

#[global] Instance mbuf_item_eq_dec : EqDecision mbuf_item.
Proof. solve_decision. Defined.

Abbreviation heap := (gmap ptr mbuf_buffer).

Definition INT_MAX : Z := 2 ^ 31 - 1.

(** ** Buffers *)

Definition mbuf_alloc_buf (h : heap) (junk : bytes) (b : buffer) : outcome (heap * ptr) :=
  c ← clone_buf junk b;
  let p := fresh (dom h) in
  Ret (<[p := mkmb c 1 0]> h, p).

Definition mbuf_free_buf (h : heap) (mb : option ptr) : outcome heap :=
  match mb with
  | None => Ret h
  | Some p =>
      match h !! p with
      | None => Fault
      | Some b =>
          let r := mb_refcount b - 1 in
          if r <=? 0 then Ret (delete p h) else Ret (<[p := mkmb (mb_buf b) r (mb_flags b)]> h)
      end
  end.

(** [++item->buffer->refcount]; the C [int] must not overflow. *)
Definition ref_buf (h : heap) (mb : option ptr) : outcome heap :=
  match mb with
  | None => Fault
  | Some p =>
      match h !! p with
      | None => Fault
      | Some b =>
          if mb_refcount b <? INT_MAX
          then Ret (<[p := mkmb (mb_buf b) (mb_refcount b + 1) (mb_flags b)]> h) else Fault
      end
  end.

(** ** The queue *)

(** [MBUF_INDEX(head, offset, size)], in [unsigned int]. *)
Definition MBUF_INDEX (head offset size : Z) : Z := Z.land (u32 (head + offset)) (u32 (size - 1)).

Definition mbuf_init (size : Z) : outcome mbuf_set :=
  c ← adjust_power_of_2 size;
  let cap := u32 c in
  Ret (mkms 0 0 cap 0 (replicate (Z.to_nat cap) None)).

Definition get_slot (ms : mbuf_set) (i : Z) : outcome mbuf_item :=
  c ← arr_get (ms_array ms) i;
  match c with Some it => Ret it | None => Fault end.

Definition set_slot (ms : mbuf_set) (i : Z) (it : mbuf_item) : outcome mbuf_set :=
  a ← arr_set (ms_array ms) i (Some it);
  Ret (mkms (ms_head ms) (ms_len ms) (ms_capacity ms) (ms_max_queued ms) a).

(** The [while (ms->len)] loop of [mbuf_extract_item]; [fuel] is the length. *)
Fixpoint mbuf_extract_loop (fuel : nat) (ms : mbuf_set) (item : mbuf_item)
  : outcome (mbuf_set * mbuf_item * bool) :=
  match fuel with
  | O => Ret (ms, item, false)
  | S fuel' =>
      if ms_len ms =? 0 then Ret (ms, item, false) else
      item ← get_slot ms (ms_head ms);
      let ms := mkms (MBUF_INDEX (ms_head ms) 1 (ms_capacity ms)) (u32 (ms_len ms - 1))
                     (ms_capacity ms) (ms_max_queued ms) (ms_array ms) in
      if it_instance item is Some _ then Ret (ms, item, true) else mbuf_extract_loop fuel' ms item
  end.

Definition mbuf_extract_item (ms : option mbuf_set) (item : mbuf_item)
  : outcome (option mbuf_set * mbuf_item * bool) :=
  match ms with
  | None => Ret (None, item, false)
  | Some ms =>
      '(ms', item', ret) ← mbuf_extract_loop (Z.to_nat (ms_len ms)) ms item;
      Ret (Some ms', item', ret)
  end.

(** The part of [mbuf_add_item] after the queue has room. *)
Definition mbuf_enqueue (h : heap) (ms : mbuf_set) (item : mbuf_item) : outcome (heap * mbuf_set) :=
  ASSERT (ms_len ms <? ms_capacity ms);;
  ms ← set_slot ms (MBUF_INDEX (ms_head ms) (ms_len ms) (ms_capacity ms)) item;
  let len := u32 (ms_len ms + 1) in
  let mq := if ms_max_queued ms <? len then len else ms_max_queued ms in
  h ← ref_buf h (it_buffer item);
  Ret (h, mkms (ms_head ms) len (ms_capacity ms) mq (ms_array ms)).

Definition mbuf_add_item (h : heap) (ms : option mbuf_set) (item : mbuf_item)
  : outcome (heap * mbuf_set) :=
  match ms with
  | None => Abort
  | Some ms =>
      if ms_len ms =? ms_capacity ms then
        '(ms', rm, ret) ← mbuf_extract_item (Some ms) (mkitem None None);
        ASSERT ret;;
        h ← mbuf_free_buf h (it_buffer rm);
        match ms' with None => Abort | Some ms => mbuf_enqueue h ms item end
      else mbuf_enqueue h ms item
  end.

(** The loops [for (i = 0; i < (int) ms->len; ++i)]: [n] is the number of
    iterations left. *)
Fixpoint mbuf_peek_loop (n : nat) (ms : mbuf_set) (i : Z) : outcome (option ptr) :=
  match n with
  | O => Ret None
  | S n' =>
      item ← get_slot ms (MBUF_INDEX (ms_head ms) i (ms_capacity ms));
      match it_instance item with
      | Some mi => Ret (Some mi)
      | None => mbuf_peek_loop n' ms (i + 1)
      end
  end.

Definition mbuf_peek_dowork (ms : option mbuf_set) : outcome (option ptr) :=
  match ms with
  | None => Ret None
  | Some ms => mbuf_peek_loop (Z.to_nat (to_int (ms_len ms))) ms 0
  end.

Definition mbuf_defined (ms : option mbuf_set) : bool :=
  match ms with None => false | Some ms => negb (ms_len ms =? 0) end.

Definition mbuf_len (ms : mbuf_set) : Z := ms_len ms.
Definition mbuf_maximum_queued (ms : mbuf_set) : Z := to_int (ms_max_queued ms).

Definition mbuf_peek (ms : option mbuf_set) : outcome (option ptr) :=
  if mbuf_defined ms then mbuf_peek_dowork ms else Ret None.

Fixpoint mbuf_deref_loop (n : nat) (h : heap) (ms : mbuf_set) (mi : option ptr) (i : Z)
  : outcome (heap * mbuf_set) :=
  match n with
  | O => Ret (h, ms)
  | S n' =>
      let ix := MBUF_INDEX (ms_head ms) i (ms_capacity ms) in
      item ← get_slot ms ix;
      if decide (it_instance item = mi) then
        h ← mbuf_free_buf h (it_buffer item);
        ms ← set_slot ms ix (mkitem None None);
        mbuf_deref_loop n' h ms mi (i + 1)
      else mbuf_deref_loop n' h ms mi (i + 1)
  end.

Definition mbuf_dereference_instance (h : heap) (ms : option mbuf_set) (mi : option ptr)
  : outcome (heap * option mbuf_set) :=
  match ms with
  | None => Ret (h, None)
  | Some ms =>
      '(h, ms) ← mbuf_deref_loop (Z.to_nat (to_int (ms_len ms))) h ms mi 0;
      Ret (h, Some ms)
  end.

Fixpoint mbuf_free_loop (n : nat) (h : heap) (ms : mbuf_set) (i : Z) : outcome heap :=
  match n with
  | O => Ret h
  | S n' =>
      item ← get_slot ms (MBUF_INDEX (ms_head ms) i (ms_capacity ms));
      h ← mbuf_free_buf h (it_buffer item);
      mbuf_free_loop n' h ms (i + 1)
  end.

Definition mbuf_free (h : heap) (ms : option mbuf_set) : outcome heap :=
  match ms with
  | None => Ret h
  | Some ms => mbuf_free_loop (Z.to_nat (to_int (ms_len ms))) h ms 0
  end.

(** ** Specification: a bounded list of slots

    A slot is a packet for an instance, or [None] after the instance went
    away. *)

Abbreviation slot := (option (ptr * ptr)).

Fixpoint qpop (q : list slot) : option (ptr * ptr) * list slot :=
  match q with
  | [] => (None, [])
  | None :: q' => qpop q'
  | Some x :: q' => (Some x, q')
  end.

Definition qpeek (q : list slot) : option ptr := snd <$> (qpop q).1.

(** [None]: the queue is full and holds no packet, which stops the process. *)
Definition qadd (cap : Z) (x : ptr * ptr) (q : list slot) : option (list slot) :=
  if decide (zlen q = cap) then
    match qpop q with (None, _) => None | (Some _, q') => Some (q' ++ [Some x]) end
  else Some (q ++ [Some x]).

Definition kill (mi : ptr) (s : slot) : slot :=
  match s with Some (p, i) => if decide (i = mi) then None else s | None => None end.
Definition qderef (mi : ptr) (q : list slot) : list slot := kill mi <$> q.

Definition item_of (s : slot) : mbuf_item :=
  match s with Some (p, i) => mkitem (Some p) (Some i) | None => mkitem None None end.

(** Number of slots that hold buffer [p]. *)
Definition srefs (p : ptr) (s : slot) : Z :=
  match s with Some (p', _) => if decide (p' = p) then 1 else 0 | None => 0 end.
Fixpoint qrefs (p : ptr) (q : list slot) : Z :=
  match q with [] => 0 | s :: q' => srefs p s + qrefs p q' end.

(** ** The ring stands for a list of slots *)

Record ring_ok (ms : mbuf_set) (q : list slot) : Prop := {
  ro_cap : exists k, 0 <= k <= 30 /\ ms_capacity ms = 2 ^ k;
  ro_head : 0 <= ms_head ms < ms_capacity ms;
  ro_len : ms_len ms = zlen q;
  ro_fit : zlen q <= ms_capacity ms;
  ro_arr : zlen (ms_array ms) = ms_capacity ms;
  ro_max : 0 <= ms_max_queued ms <= ms_capacity ms;
  ro_slots : forall i s, q !! i = Some s ->
    ms_array ms !! Z.to_nat ((ms_head ms + Z.of_nat i) mod ms_capacity ms) = Some (Some (item_of s))
}.

Lemma ring_cap_bound ms q : ring_ok ms q -> 0 < ms_capacity ms <= 2 ^ 30.
Proof.
  intros H. destruct (ro_cap _ _ H) as (k & Hk & ->).
  pose proof (Z.pow_pos_nonneg 2 k). pose proof (Z.pow_le_mono_r 2 k 30). lia.
Qed.

(** Masking with a power of two less one is the remainder. *)
Lemma MBUF_INDEX_mod ms q off :
  ring_ok ms q -> 0 <= off <= 2 ^ 30 ->
  MBUF_INDEX (ms_head ms) off (ms_capacity ms) = (ms_head ms + off) mod ms_capacity ms.
Proof.
  intros H Hoff. pose proof (ring_cap_bound _ _ H). pose proof (ro_head _ _ H).
  destruct (ro_cap _ _ H) as (k & Hk & Hc). unfold MBUF_INDEX.
  rewrite !u32_small by lia. rewrite Hc. apply land_low; [lia|]. rewrite Z.ones_equiv. lia.
Qed.

Lemma ring_index ms q (i : nat) :
  ring_ok ms q -> (i <= length q)%nat ->
  MBUF_INDEX (ms_head ms) (Z.of_nat i) (ms_capacity ms) =
    (ms_head ms + Z.of_nat i) mod ms_capacity ms.
Proof.
  intros H Hi. pose proof (ring_cap_bound _ _ H). pose proof (ro_fit _ _ H).
  eapply MBUF_INDEX_mod; [done|lia].
Qed.

Lemma ring_get ms q i s :
  ring_ok ms q -> q !! i = Some s ->
  get_slot ms (MBUF_INDEX (ms_head ms) (Z.of_nat i) (ms_capacity ms)) = Ret (item_of s).
Proof.
  intros H Hi. pose proof (lookup_lt_Some _ _ _ Hi). pose proof (ring_cap_bound _ _ H).
  rewrite (ring_index _ _ _ H) by lia. unfold get_slot.
  erewrite arr_get_Ret; [|apply Z.mod_pos_bound; lia|by eapply ro_slots]. done.
Qed.

(** Distinct positions of the queue are distinct cells. *)
Lemma ring_inj h (i j c : Z) :
  0 <= i < c -> 0 <= j < c -> (h + i) mod c = (h + j) mod c -> i = j.
Proof.
  intros Hi Hj E. assert (E' : (h + i - (h + j)) mod c = 0) by (rewrite Zminus_mod, E, Z.sub_diag; apply Z.mod_0_l; lia).
  replace (h + i - (h + j)) with (i - j) in E' by lia.
  apply Z.mod_divide in E' as [z Hz]; [|lia].
  destruct (decide (z = 0)) as [->|]; [lia|]. assert (c <= Z.abs (z * c)) by (rewrite Z.abs_mul; nia). lia.
Qed.

Lemma ring_set ms q (i : nat) s :
  ring_ok ms q -> (i <= length q)%nat -> Z.of_nat i < ms_capacity ms ->
  exists ms', set_slot ms (MBUF_INDEX (ms_head ms) (Z.of_nat i) (ms_capacity ms)) (item_of s) = Ret ms' /\
    ms_head ms' = ms_head ms /\ ms_len ms' = ms_len ms /\ ms_capacity ms' = ms_capacity ms /\
    ms_max_queued ms' = ms_max_queued ms /\ length (ms_array ms') = length (ms_array ms) /\
    ms_array ms' !! Z.to_nat ((ms_head ms + Z.of_nat i) mod ms_capacity ms) = Some (Some (item_of s)) /\
    forall j : nat, j <> i -> Z.of_nat j < ms_capacity ms ->
      ms_array ms' !! Z.to_nat ((ms_head ms + Z.of_nat j) mod ms_capacity ms) =
      ms_array ms !! Z.to_nat ((ms_head ms + Z.of_nat j) mod ms_capacity ms).
Proof.
  intros H Hi Hc. pose proof (ring_cap_bound _ _ H). pose proof (ro_arr _ _ H) as Harr.
  rewrite (ring_index _ _ _ H Hi). unfold set_slot.
  pose proof (Z.mod_pos_bound (ms_head ms + Z.of_nat i) (ms_capacity ms) ltac:(lia)).
  rewrite arr_set_Ret by lia. eexists. split; [done|]. simpl. split_and!; try done.
  - apply length_insert.
  - apply list_lookup_insert_eq. lia.
  - intros j Hj Hjc. apply list_lookup_insert_ne. intros E.
    pose proof (Z.mod_pos_bound (ms_head ms + Z.of_nat j) (ms_capacity ms) ltac:(lia)).
    apply Z2Nat.inj in E; [|lia..]. apply ring_inj in E; lia.
Qed.

Lemma ring_update ms q i s0 s :
  ring_ok ms q -> q !! i = Some s0 ->
  exists ms', set_slot ms (MBUF_INDEX (ms_head ms) (Z.of_nat i) (ms_capacity ms)) (item_of s) = Ret ms' /\
    ring_ok ms' (<[i := s]> q) /\ ms_head ms' = ms_head ms /\ ms_capacity ms' = ms_capacity ms.
Proof.
  intros H Hi. pose proof (lookup_lt_Some _ _ _ Hi) as Hl. pose proof (ro_fit _ _ H).
  destruct (ring_set _ _ i s H ltac:(lia) ltac:(lia)) as
    (ms' & Hs & Eh & El & Ec & Em & Ea & Hat & Hoth). exists ms'. split_and!; try done.
  destruct H. split; rewrite ?Eh, ?El, ?Ec, ?Em, ?Ea, ?length_insert; try done.
  intros j t Hj. destruct (decide (j = i)) as [->|Hne].
  - rewrite list_lookup_insert_eq in Hj by done. by simplify_eq.
  - rewrite list_lookup_insert_ne in Hj by done. pose proof (lookup_lt_Some _ _ _ Hj).
    rewrite Hoth by (done || lia). by apply ro_slots0.
Qed.

Lemma ring_pop ms s q :
  ring_ok ms (s :: q) ->
  ring_ok (mkms (MBUF_INDEX (ms_head ms) 1 (ms_capacity ms)) (u32 (ms_len ms - 1))
                (ms_capacity ms) (ms_max_queued ms) (ms_array ms)) q.
Proof.
  intros H. pose proof (ring_cap_bound _ _ H) as Hb. pose proof H as [Hc Hh Hl Hf Ha Hm Hs].
  rewrite (MBUF_INDEX_mod _ _ 1 H) by lia. cbn [length] in *.
  split; cbn [ms_head ms_len ms_capacity ms_max_queued ms_array]; try done; try lia.
  - apply Z.mod_pos_bound. lia.
  - rewrite u32_small; lia.
  - intros i t Hi. rewrite Zplus_mod_idemp_l. rewrite <- Z.add_assoc.
    specialize (Hs (S i) t Hi). rewrite Nat2Z.inj_succ in Hs.
    by replace (1 + Z.of_nat i) with (Z.succ (Z.of_nat i)) by lia.
Qed.

Lemma ring_push ms q s :
  ring_ok ms q -> zlen q < ms_capacity ms ->
  exists ms', set_slot ms (MBUF_INDEX (ms_head ms) (ms_len ms) (ms_capacity ms)) (item_of s) = Ret ms' /\
    ms_len ms' = ms_len ms /\ ms_capacity ms' = ms_capacity ms /\
    let len := u32 (ms_len ms' + 1) in
    ring_ok (mkms (ms_head ms') len (ms_capacity ms')
               (if ms_max_queued ms' <? len then len else ms_max_queued ms') (ms_array ms')) (q ++ [s]).
Proof.
  intros H Hfit. pose proof (ring_cap_bound _ _ H) as Hb.
  rewrite (ro_len _ _ H).
  destruct (ring_set _ _ (length q) s H ltac:(lia) ltac:(lia)) as
    (ms' & Hs & Eh & El & Ec & Em & Ea & Hat & Hoth). exists ms'. split_and!; try done.
  { rewrite El. apply H. }
  destruct H. cbv zeta. rewrite El, ro_len0, u32_small by lia.
  split; cbn [ms_head ms_len ms_capacity ms_max_queued ms_array];
    rewrite ?Eh, ?El, ?Ec, ?Em, ?Ea, ?length_app; cbn [length]; try done; try lia.
  - case_match; lia.
  - intros j t Hj. apply lookup_app_Some in Hj as [Hj|[Hge Hj]].
    + pose proof (lookup_lt_Some _ _ _ Hj). rewrite Hoth by lia. by apply ro_slots0.
    + apply list_lookup_singleton_Some in Hj as [Hj ->].
      by assert (j = length q) as -> by lia.
Qed.

(** ** References

    [own p] is the number of references to buffer [p] its clients hold, [data p]
    the bytes of the packet it was made from. *)

Record astate := mka { a_own : ptr -> Z; a_data : ptr -> bytes; a_q : list slot }.

Definition upd {A} (f : ptr -> A) (p : ptr) (v : A) : ptr -> A := fun x => if decide (x = p) then v else f x.
Definition give (own : ptr -> Z) (s : slot) : ptr -> Z := fun x => own x + srefs x s.

Definition counts_ok (own : ptr -> Z) (data : ptr -> bytes) (q : list slot) (h : heap) : Prop :=
  forall p, 0 <= own p /\
    match h !! p with
    | Some mb => mb_refcount mb = own p + qrefs p q /\ 0 < mb_refcount mb /\ content (mb_buf mb) = data p
    | None => own p + qrefs p q = 0
    end.

Record mstate_ok (cap : Z) (a : astate) (h : heap) (ms : mbuf_set) : Prop := {
  so_cap : ms_capacity ms = cap;
  so_ring : ring_ok ms (a_q a);
  so_counts : counts_ok (a_own a) (a_data a) (a_q a) h
}.

Lemma upd_eq {A} (f : ptr -> A) p v : upd f p v p = v.
Proof. unfold upd. by case_decide. Qed.
Lemma upd_ne {A} (f : ptr -> A) p v x : x <> p -> upd f p v x = f x.
Proof. unfold upd. by case_decide. Qed.

Lemma qrefs_app p q1 q2 : qrefs p (q1 ++ q2) = qrefs p q1 + qrefs p q2.
Proof. induction q1; simpl; lia. Qed.

Lemma qrefs_insert p q i s0 s :
  q !! i = Some s0 -> qrefs p (<[i := s]> q) = qrefs p q - srefs p s0 + srefs p s.
Proof.
  revert i. induction q as [|t q IH]; intros [|i] Hi; simplify_eq/=; [lia|].
  rewrite (IH _ Hi). lia.
Qed.

Lemma srefs_bound p s : 0 <= srefs p s <= 1.
Proof. unfold srefs. repeat case_match; lia. Qed.
Lemma qrefs_bound p q : 0 <= qrefs p q <= zlen q.
Proof. induction q as [|s q IH]; simpl; [lia|]. pose proof (srefs_bound p s). lia. Qed.

Lemma srefs_self p i : srefs p (Some (p, i)) = 1.
Proof. simpl. by case_decide. Qed.
Lemma srefs_ne p x i : x <> p -> srefs x (Some (p, i)) = 0.
Proof. simpl. intros. case_decide; congruence. Qed.

(** Giving back one reference, held by a client or by a slot. *)
Lemma mbuf_free_buf_ok own data q h p own' q' :
  counts_ok own data q h ->
  (forall x, 0 <= own' x) -> 0 <= own' p + qrefs p q' ->
  own' p + qrefs p q' = own p + qrefs p q - 1 ->
  (forall x, x <> p -> own' x + qrefs x q' = own x + qrefs x q) ->
  exists h', mbuf_free_buf h (Some p) = Ret h' /\ counts_ok own' data q' h'.
Proof.
  intros Hc Hown Hp0 Hp Hx. unfold mbuf_free_buf. destruct (Hc p) as [_ Hcp].
  destruct (h !! p) as [mb|] eqn:E; [|lia]. destruct Hcp as (Hr & Hpos & Hb).
  assert (Hoth : forall x (m : heap), x <> p -> m !! x = h !! x ->
    match m !! x with
    | Some mb => mb_refcount mb = own' x + qrefs x q' /\ 0 < mb_refcount mb /\ content (mb_buf mb) = data x
    | None => own' x + qrefs x q' = 0 end).
  { intros x m Hne ->. rewrite (Hx x Hne). apply (Hc x). }
  destruct (_ <=? 0) eqn:Ez; eexists; (split; [done|]); intros x; (split; [done|]);
    (destruct (decide (x = p)) as [->|Hne]; [|apply Hoth; [done|]]).
  - rewrite lookup_delete_eq. lia.
  - by rewrite lookup_delete_ne.
  - rewrite lookup_insert_eq. simpl. split_and!; [lia..|done].
  - by rewrite lookup_insert_ne.
Qed.

Lemma ref_buf_ok own data q h p i :
  counts_ok own data q h -> 0 < own p -> own p + qrefs p q < INT_MAX ->
  exists h', ref_buf h (Some p) = Ret h' /\ counts_ok own data (q ++ [Some (p, i)]) h'.
Proof.
  intros Hc Hp Hmax. unfold ref_buf. destruct (Hc p) as [_ Hcp].
  destruct (h !! p) as [mb|] eqn:E; [|pose proof (qrefs_bound p q); lia].
  destruct Hcp as (Hr & Hpos & Hb). destruct (_ <? _) eqn:El; [|lia].
  eexists; split; [done|]. intros x. split; [apply Hc|]. rewrite qrefs_app. cbn [qrefs].
  destruct (decide (x = p)) as [->|Hne].
  - rewrite lookup_insert_eq, srefs_self. simpl. split_and!; [lia..|done].
  - rewrite lookup_insert_ne, srefs_ne by done. rewrite !Z.add_0_r. apply Hc.
Qed.

(** *** The loops *)

Lemma mbuf_extract_loop_ok q ms item n :
  ring_ok ms q -> (length q <= n)%nat ->
  exists ms' item', mbuf_extract_loop n ms item = Ret (ms', item', bool_decide (is_Some (qpop q).1)) /\
    ring_ok ms' (qpop q).2 /\ ms_capacity ms' = ms_capacity ms /\
    forall x, (qpop q).1 = Some x -> item' = item_of (Some x).
Proof.
  revert ms item n. induction q as [|s q IH]; intros ms item n Hr Hn.
  - exists ms, item. split_and!; try done.
    destruct n; simpl; [done|]. pose proof (ro_len _ _ Hr) as Hl. by rewrite Hl.
  - destruct n as [|n]; simpl in Hn; [lia|]. cbn [mbuf_extract_loop].
    rewrite (ro_len _ _ Hr). cbn [length]. destruct (_ =? 0) eqn:E; [lia|].
    pose proof (ring_get _ _ 0%nat s Hr eq_refl) as Hg.
    rewrite (MBUF_INDEX_mod _ _ _ Hr), Z.add_0_r, Z.mod_small in Hg by (apply (ro_head _ _ Hr) || lia).
    rewrite Hg. cbn [mbind outcome_bind]. pose proof (ring_pop _ _ _ Hr) as Hr'.
    rewrite (ro_len _ _ Hr) in Hr'. cbn [length] in Hr'.
    destruct s as [[p i]|]; cbn [item_of it_instance qpop fst snd].
    + eexists _, _. split_and!; [done|done|done|]. intros x [= <-]. done.
    + destruct (IH _ (mkitem None None) n Hr' ltac:(lia)) as (ms' & it' & -> & H1 & H2 & H3).
      exists ms', it'. split_and!; done.
Qed.

Lemma mbuf_extract_item_ok q ms item :
  ring_ok ms q ->
  exists ms' item', mbuf_extract_item (Some ms) item = Ret (Some ms', item', bool_decide (is_Some (qpop q).1)) /\
    ring_ok ms' (qpop q).2 /\ ms_capacity ms' = ms_capacity ms /\
    forall x, (qpop q).1 = Some x -> item' = item_of (Some x).
Proof.
  intros Hr. unfold mbuf_extract_item. pose proof (ro_len _ _ Hr).
  destruct (mbuf_extract_loop_ok q ms item (Z.to_nat (ms_len ms)) Hr ltac:(lia)) as (ms' & it & -> & H1 & H2 & H3).
  exists ms', it. by split_and!.
Qed.

Lemma mbuf_peek_loop_ok q ms n (i : nat) :
  ring_ok ms q -> (i + n)%nat = length q -> mbuf_peek_loop n ms (Z.of_nat i) = Ret (qpeek (drop i q)).
Proof.
  intros Hr. revert i. induction n as [|n IH]; intros i Hn.
  - by rewrite drop_ge by lia.
  - destruct (lookup_lt_is_Some_2 q i ltac:(lia)) as [s Hs]. cbn [mbuf_peek_loop].
    rewrite (ring_get _ _ _ _ Hr Hs). cbn [mbind outcome_bind].
    rewrite (drop_S _ _ _ Hs). destruct s as [[p mi]|]; [done|].
    cbn [item_of it_instance]. replace (Z.of_nat i + 1) with (Z.of_nat (S i)) by lia.
    rewrite IH by lia. done.
Qed.

(** [mbuf_free_loop] and [mbuf_deref_loop] give up the references of the slots they pass. *)
Lemma to_int_len ms q : ring_ok ms q -> Z.to_nat (to_int (ms_len ms)) = length q.
Proof.
  intros Hr. pose proof (ring_cap_bound _ _ Hr). pose proof (ro_fit _ _ Hr). rewrite (ro_len _ _ Hr).
  unfold to_int. rewrite u32_small by lia. destruct (_ <? _) eqn:E; lia.
Qed.

Lemma mbuf_deref_loop_ok mi own data n (i : nat) h ms q :
  ring_ok ms q -> counts_ok own data q h -> (i + n)%nat = length q ->
  exists h' ms', mbuf_deref_loop n h ms (Some mi) (Z.of_nat i) = Ret (h', ms') /\
    ring_ok ms' (take i q ++ qderef mi (drop i q)) /\ ms_capacity ms' = ms_capacity ms /\
    counts_ok own data (take i q ++ qderef mi (drop i q)) h'.
Proof.
  revert i h ms q. induction n as [|n IH]; intros i h ms q Hr Hc Hn.
  - exists h, ms. rewrite drop_ge, take_ge, app_nil_r by lia. done.
  - destruct (lookup_lt_is_Some_2 q i ltac:(lia)) as [s Hs]. cbn [mbuf_deref_loop].
    rewrite (ring_get _ _ _ _ Hr Hs). cbn [mbind outcome_bind].
    rewrite (drop_S _ _ _ Hs). unfold qderef at 1 2. rewrite fmap_cons.
    replace (take i q ++ kill mi s :: (kill mi <$> drop (S i) q))
      with (take (S i) (<[i := kill mi s]> q) ++ qderef mi (drop (S i) (<[i := kill mi s]> q))).
    2:{ rewrite drop_insert_lt by lia.
        rewrite (take_S_r _ _ (kill mi s)), take_insert_ge by (lia || (apply list_lookup_insert_eq; lia)).
        by rewrite <- app_assoc. }
    replace (Z.of_nat i + 1) with (Z.of_nat (S i)) by lia.
    destruct s as [[p mj]|]; cbn [item_of it_instance it_buffer kill].
    2:{ case_decide; [done|]. rewrite list_insert_id by done. apply IH; [done|done|lia]. }
    destruct (decide (mj = mi)) as [->|Hne].
    2:{ rewrite decide_False by congruence. rewrite list_insert_id by done. apply IH; [done|done|lia]. }
    rewrite decide_True by done.
    assert (Hq : forall x, qrefs x (<[i := None]> q) = qrefs x q - srefs x (Some (p, mi))).
    { intros x. rewrite (qrefs_insert _ _ _ _ _ Hs). simpl. lia. }
    destruct (mbuf_free_buf_ok own data q h p own (<[i := None]> q) Hc) as (h' & -> & Hc').
    { apply Hc. } { destruct (Hc p). pose proof (qrefs_bound p (<[i := None]> q)). lia. }
    { rewrite Hq, srefs_self. lia. } { intros x Hx. rewrite Hq, srefs_ne by done. lia. }
    cbn [mbind outcome_bind]. destruct (ring_update _ _ _ _ None Hr Hs) as (ms' & Hset & Hr' & Eh & Ec).
    cbn [item_of] in Hset. rewrite Hset. cbn [mbind outcome_bind].
    destruct (IH (S i) h' ms' _ Hr' Hc') as (h2 & ms2 & -> & H1 & H2 & H3); [rewrite length_insert; lia|].
    exists h2, ms2. split_and!; [done|done|congruence|done].
Qed.

Lemma mbuf_free_loop_ok own data n (i : nat) h ms q :
  ring_ok ms q -> counts_ok own data (drop i q) h -> (i + n)%nat = length q ->
  exists h', mbuf_free_loop n h ms (Z.of_nat i) = Ret h' /\ counts_ok own data [] h'.
Proof.
  intros Hr. revert i h. induction n as [|n IH]; intros i h Hc Hn.
  - exists h. by rewrite drop_ge in Hc by lia.
  - destruct (lookup_lt_is_Some_2 q i ltac:(lia)) as [s Hs]. cbn [mbuf_free_loop].
    rewrite (ring_get _ _ _ _ Hr Hs). cbn [mbind outcome_bind].
    rewrite (drop_S _ _ _ Hs) in Hc. replace (Z.of_nat i + 1) with (Z.of_nat (S i)) by lia.
    destruct s as [[p mj]|]; cbn [item_of it_buffer]; [|apply IH; [exact Hc|lia]].
    destruct (mbuf_free_buf_ok own data _ h p own (drop (S i) q) Hc) as (h' & -> & Hc').
    { apply Hc. } { destruct (Hc p). pose proof (qrefs_bound p (drop (S i) q)). lia. }
    { cbn [qrefs]. rewrite srefs_self. lia. } { intros x Hx. cbn [qrefs]. rewrite srefs_ne by done. lia. }
    cbn [mbind outcome_bind]. apply IH; [done|lia].
Qed.

(** ** What a client of the queue does *)

Inductive mop :=
| OAlloc (junk : bytes) (b : buffer)    (** make a shared packet *)
| OFree (p : ptr)                       (** give up a reference *)
| OAdd (p mi : ptr)                     (** queue packet [p] for instance [mi] *)
| OExtract                              (** take the next packet *)
| OPeek                                 (** the instance it is for *)
| ODeref (mi : ptr).                    (** the instance goes away *)

Inductive mres :=
| RUnit
| RPtr (p : ptr)
| RItem (x : option (ptr * ptr))
| RInst (mi : option ptr).

Definition exec (op : mop) (h : heap) (ms : mbuf_set) : outcome (mres * heap * mbuf_set) :=
  match op with
  | OAlloc junk b => '(h, p) ← mbuf_alloc_buf h junk b; Ret (RPtr p, h, ms)
  | OFree p => h ← mbuf_free_buf h (Some p); Ret (RUnit, h, ms)
  | OAdd p mi =>
      '(h, ms) ← mbuf_add_item h (Some ms) (mkitem (Some p) (Some mi)); Ret (RUnit, h, ms)
  | OExtract =>
      '(ms', it, ret) ← mbuf_extract_item (Some ms) (mkitem None None);
      match ms' with
      | None => Fault
      | Some ms' =>
          Ret (RItem (if ret : bool then
                        match it_buffer it, it_instance it with Some p, Some mi => Some (p, mi) | _, _ => None end
                      else None), h, ms')
      end
  | OPeek => r ← mbuf_peek (Some ms); Ret (RInst r, h, ms)
  | ODeref mi =>
      '(h, ms') ← mbuf_dereference_instance h (Some ms) (Some mi);
      match ms' with None => Fault | Some ms' => Ret (RUnit, h, ms') end
  end.

(** The specification: what each call may answer and how the slots and the
    references change. *)
Inductive spec_step (cap : Z) : astate -> mop -> mres -> astate -> Prop :=
| sp_alloc own data q junk b p :
    own p + qrefs p q = 0 ->
    spec_step cap (mka own data q) (OAlloc junk b) (RPtr p) (mka (upd own p 1) (upd data p (content b)) q)
| sp_free own data q p :
    spec_step cap (mka own data q) (OFree p) RUnit (mka (upd own p (own p - 1)) data q)
| sp_add own data q p mi q' :
    qadd cap (p, mi) q = Some q' ->
    spec_step cap (mka own data q) (OAdd p mi) RUnit (mka own data q')
| sp_extract own data q :
    spec_step cap (mka own data q) OExtract (RItem (qpop q).1) (mka (give own (qpop q).1) data (qpop q).2)
| sp_peek own data q :
    spec_step cap (mka own data q) OPeek (RInst (qpeek q)) (mka own data q)
| sp_deref own data q mi :
    spec_step cap (mka own data q) (ODeref mi) RUnit (mka own data (qderef mi q)).

(** What a client must respect: it releases and queues only packets it holds a
    reference to (and holds fewer than 2^30 of them). *)
Definition permitted (cap : Z) (a : astate) (op : mop) : Prop :=
  match op with
  | OAlloc junk b => (exists blk, buf_ok b blk) /\ zlen junk = bcapacity b /\ Forall is_byte junk
  | OFree p => 0 < a_own a p
  | OAdd p mi => 0 < a_own a p < 2 ^ 30
  | _ => True
  end.

(** Queueing into a full queue of abandoned slots: there is no oldest packet to
    drop. *)
Definition abandoned (cap : Z) (a : astate) (op : mop) : bool :=
  match op with OAdd _ _ => bool_decide (a_q a = replicate (Z.to_nat cap) None) | _ => false end.

Lemma qpop_refs p q : qrefs p (qpop q).2 + srefs p (qpop q).1 = qrefs p q.
Proof. induction q as [|[[x i]|] q IH]; simpl in *; lia. Qed.

Lemma qpop_none q : (qpop q).1 = None -> q = replicate (length q) None.
Proof. induction q as [|[x|] q IH]; simpl; [done|done|]. intros H. by rewrite <- IH. Qed.
Lemma qpop_replicate n : (qpop (replicate n None)).1 = None.
Proof. by induction n. Qed.

Lemma qadd_some cap x q : q <> replicate (Z.to_nat cap) None -> exists q', qadd cap x q = Some q'.
Proof.
  intros Hq. unfold qadd. destruct (decide (zlen q = cap)) as [E|E]; [|eauto].
  destruct (qpop q) as [[y|] q'] eqn:Ep; [eauto|]. destruct Hq. pose proof (qpop_none q) as Hn. rewrite Ep in Hn. rewrite <- E, Nat2Z.id. by apply Hn.
Qed.

Lemma qpop_length q : (length (qpop q).2 <= length q)%nat.
Proof. induction q as [|[[x i]|] q IH]; simpl in *; lia. Qed.

Lemma qpop_some_length q x q' : qpop q = (Some x, q') -> (length q' < length q)%nat.
Proof.
  intros E. induction q as [|[y|] q IH]; simpl in *; simplify_eq; [lia|]. specialize (IH E). lia.
Qed.

Lemma mbuf_enqueue_ok own data q h ms p mi :
  ring_ok ms q -> counts_ok own data q h -> zlen q < ms_capacity ms -> 0 < own p < 2 ^ 30 ->
  exists h' ms', mbuf_enqueue h ms (item_of (Some (p, mi))) = Ret (h', ms') /\
    ring_ok ms' (q ++ [Some (p, mi)]) /\ ms_capacity ms' = ms_capacity ms /\
    counts_ok own data (q ++ [Some (p, mi)]) h'.
Proof.
  intros Hr Hc Hfit Hown. unfold mbuf_enqueue. rewrite ASSERT_true by (rewrite (ro_len _ _ Hr); lia).
  cbn [mbind outcome_bind]. destruct (ring_push _ _ (Some (p, mi)) Hr Hfit) as (ms' & -> & _ & Ec & Hr').
  cbn [mbind outcome_bind]. destruct (ref_buf_ok own data q h p mi Hc) as (h' & Hh & Hc'); [lia| |].
  { pose proof (qrefs_bound p q). pose proof (ring_cap_bound _ _ Hr). unfold INT_MAX. lia. }
  cbn [item_of it_buffer]. rewrite Hh. cbn [mbind outcome_bind].
  eexists _, _. split_and!; [done|exact Hr'|done|done].
Qed.

Lemma mbuf_add_item_ok cap own data q q' h ms p mi :
  mstate_ok cap (mka own data q) h ms -> 0 < own p < 2 ^ 30 -> qadd cap (p, mi) q = Some q' ->
  exists h' ms', mbuf_add_item h (Some ms) (item_of (Some (p, mi))) = Ret (h', ms') /\
    mstate_ok cap (mka own data q') h' ms'.
Proof.
  intros [<- Hr Hc] Hown Hq. cbn [a_own a_data a_q] in *. unfold mbuf_add_item, qadd in *. rewrite (ro_len _ _ Hr).
  destruct (decide (zlen q = ms_capacity ms)) as [E|E].
  - rewrite (proj2 (Z.eqb_eq _ _) E).
    destruct (mbuf_extract_item_ok q ms (mkitem None None) Hr) as (ms1 & it & -> & Hr1 & Ec & Hit).
    cbn [mbind outcome_bind]. destruct (qpop q) as [[[x j]|] q1] eqn:Ep; [|done]. simplify_eq/=.
    rewrite (Hit _ eq_refl). cbn [item_of it_buffer].
    pose proof (fun y => qpop_refs y q) as Hrefs. rewrite Ep in Hrefs. cbn [fst snd] in Hrefs.
    destruct (mbuf_free_buf_ok own data q h x own q1 Hc) as (h1 & -> & Hc1).
    { apply Hc. } { destruct (Hc x). pose proof (qrefs_bound x q1). lia. }
    { specialize (Hrefs x). rewrite srefs_self in Hrefs. lia. }
    { intros y Hy. specialize (Hrefs y). rewrite srefs_ne in Hrefs by done. lia. }
    cbn [mbind outcome_bind]. pose proof (qpop_some_length _ _ _ Ep).
    destruct (mbuf_enqueue_ok own data q1 h1 ms1 p mi Hr1 Hc1 ltac:(lia) Hown) as (h' & ms' & He & H1 & H2 & H3).
    exists h', ms'. split; [exact He|]. split; simpl; [congruence|done|done].
  - rewrite (proj2 (Z.eqb_neq _ _) E). simplify_eq. pose proof (ro_fit _ _ Hr).
    destruct (mbuf_enqueue_ok own data q h ms p mi Hr Hc ltac:(lia) Hown) as (h' & ms' & He & H1 & H2 & H3).
    exists h', ms'. split; [exact He|]. split; simpl; [congruence|done|done].
Qed.

Lemma alloc_ok cap own data q h ms junk b :
  mstate_ok cap (mka own data q) h ms -> permitted cap (mka own data q) (OAlloc junk b) ->
  exists h' p, mbuf_alloc_buf h junk b = Ret (h', p) /\ own p + qrefs p q = 0 /\
    mstate_ok cap (mka (upd own p 1) (upd data p (content b)) q) h' ms.
Proof.
  intros [Hcap Hr Hc] ((blk & Hok) & Hj & Hjb). cbn [a_own a_data a_q] in *. unfold mbuf_alloc_buf.
  destruct (clone_buf_ok junk b blk Hok Hj Hjb) as (c & -> & Hh). cbn [mbind outcome_bind].
  set (p := fresh (dom h)). assert (Hp : h !! p = None) by (apply not_elem_of_dom, is_fresh).
  destruct (Hc p) as [Hp0 Hpz]. rewrite Hp in Hpz. pose proof (qrefs_bound p q).
  eexists _, p. split_and!; [done|done|]. destruct Hh as (blk1 & _ & _ & Hcont & _).
  split; cbn [a_own a_data a_q]; [done|done|]. intros x. destruct (decide (x = p)) as [->|Hne].
  - rewrite !upd_eq, lookup_insert_eq. simpl. split_and!; done || lia.
  - rewrite !upd_ne, lookup_insert_ne by done. apply Hc.
Qed.

Lemma extract_ok cap own data q h ms :
  mstate_ok cap (mka own data q) h ms ->
  exists ms', exec OExtract h ms = Ret (RItem (qpop q).1, h, ms') /\
    mstate_ok cap (mka (give own (qpop q).1) data (qpop q).2) h ms'.
Proof.
  intros [Hcap Hr Hc]. cbn [a_own a_data a_q] in *. cbn [exec].
  destruct (mbuf_extract_item_ok q ms (mkitem None None) Hr) as (ms' & it & -> & Hr' & Ec & Hit).
  cbn [mbind outcome_bind]. exists ms'. split.
  { destruct (qpop q).1 as [[x j]|] eqn:E; [|done]. by rewrite (Hit _ eq_refl). }
  split; cbn [a_own a_data a_q]; [congruence|done|].
  intros x. pose proof (qpop_refs x q). destruct (Hc x) as [H0 H1]. unfold give.
  pose proof (srefs_bound x (qpop q).1). split; [lia|].
  by replace (own x + srefs x (qpop q).1 + qrefs x (qpop q).2) with (own x + qrefs x q) by lia.
Qed.

Lemma mbuf_peek_ok ms q : ring_ok ms q -> mbuf_peek (Some ms) = Ret (qpeek q).
Proof.
  intros Hr. unfold mbuf_peek, mbuf_defined, mbuf_peek_dowork. rewrite (to_int_len _ _ Hr), (ro_len _ _ Hr).
  destruct q as [|s q]; [done|]. cbn [length]. destruct (_ =? 0) eqn:E; [lia|]. cbn [negb].
  by rewrite (mbuf_peek_loop_ok _ ms _ 0%nat Hr).
Qed.

(** One call of a client that keeps to [permitted] returns, answers what the
    specification says and leaves queue and counts consistent. *)
Lemma exec_ok cap a h ms op :
  mstate_ok cap a h ms -> permitted cap a op -> abandoned cap a op = false ->
  exists r h' ms' a', exec op h ms = Ret (r, h', ms') /\ spec_step cap a op r a' /\ mstate_ok cap a' h' ms'.
Proof.
  destruct a as [own data q]. intros Hok Hp Hab. pose proof Hok as [Hcap Hr Hc].
  cbn [a_own a_data a_q] in Hcap, Hr, Hc.
  destruct op as [junk b|p|p mi| | |mi]; cbn [exec].
  - destruct (alloc_ok _ _ _ _ _ _ _ _ Hok Hp) as (h' & p & -> & H0 & Hok').
    eexists _, _, _, _. split_and!; [done|by apply sp_alloc|done].
  - simpl in Hp. destruct (mbuf_free_buf_ok own data q h p (upd own p (own p - 1)) q Hc) as (h' & -> & Hc').
    { intros x. destruct (decide (x = p)) as [->|]; [rewrite upd_eq; lia|rewrite upd_ne by done; apply Hc]. }
    { rewrite upd_eq. pose proof (qrefs_bound p q). lia. } { rewrite upd_eq. lia. }
    { intros x Hx. by rewrite upd_ne. }
    eexists _, _, _, _. split_and!; [done|apply sp_free|by split].
  - cbn [permitted abandoned a_own a_q] in *. rename Hp into Hown. apply bool_decide_eq_false_1 in Hab. destruct (qadd_some cap (p, mi) q Hab) as [q' Hq].
    destruct (mbuf_add_item_ok _ _ _ _ _ _ _ _ _ Hok Hown Hq) as (h' & ms' & He & Hok').
    cbn [item_of] in He. rewrite He. eexists _, _, _, _. split_and!; [done|by apply sp_add|done].
  - destruct (extract_ok _ _ _ _ _ _ Hok) as (ms' & He & Hok'). cbn [exec] in He. rewrite He.
    eexists _, _, _, _. split_and!; [done|apply sp_extract|done].
  - rewrite (mbuf_peek_ok _ _ Hr). cbn [mbind outcome_bind].
    eexists _, _, _, _. split_and!; [done|apply sp_peek|done].
  - unfold mbuf_dereference_instance. rewrite (to_int_len _ _ Hr).
    destruct (mbuf_deref_loop_ok mi own data (length q) 0%nat h ms q Hr Hc eq_refl) as (h' & ms' & He & Hr' & Ec & Hc').
    change (Z.of_nat 0) with 0 in He. rewrite He. cbn [mbind outcome_bind].
    rewrite take_0, drop_0 in *. eexists _, _, _, _. split_and!; [done|apply sp_deref|].
    split; simpl; [congruence|done|done].
Qed.

Lemma adjust_power_of_2_loop_ok fuel j u :
  0 <= j <= 30 -> u <= 2 ^ 30 -> (31 - Z.to_nat j <= fuel)%nat ->
  exists k, j <= k <= 30 /\ u <= 2 ^ k /\ adjust_power_of_2_loop fuel (2 ^ j) u = Ret (2 ^ k).
Proof.
  revert j. induction fuel as [|fuel IH]; intros j Hj Hu Hf; [lia|]. cbn [adjust_power_of_2_loop].
  destruct (_ <? _) eqn:E; [|exists j; split_and!; lia || done].
  assert (j < 30) by (destruct (decide (j = 30)) as [->|]; lia).
  pose proof (Z.pow_le_mono_r 2 (j + 1) 30 ltac:(lia) ltac:(lia)).
  pose proof (Z.pow_pos_nonneg 2 (j + 1) ltac:(lia) ltac:(lia)).
  replace (2 ^ j * 2) with (2 ^ (j + 1)) by (rewrite Z.pow_add_r by lia; lia).
  rewrite Z.mod_small by lia. rewrite ASSERT_true by lia. cbn [mbind outcome_bind].
  destruct (IH (j + 1)) as (k & Hk & Huk & Hres); [lia..|]. exists k. split_and!; [lia..|done].
Qed.

Definition no_refs : astate := mka (fun _ => 0) (fun _ => []) [].

Lemma mbuf_init_ok size :
  0 <= size <= 2 ^ 30 ->
  exists ms, mbuf_init size = Ret ms /\ size <= ms_capacity ms /\ mstate_ok (ms_capacity ms) no_refs ∅ ms.
Proof.
  intros Hs. unfold mbuf_init, adjust_power_of_2.
  destruct (adjust_power_of_2_loop_ok 65 0 size) as (k & Hk & Hsk & Hl); [lia..|].
  change (2 ^ 0) with 1 in Hl. rewrite Hl. cbn [mbind outcome_bind].
  pose proof (Z.pow_le_mono_r 2 k 30 ltac:(lia) ltac:(lia)).
  pose proof (Z.pow_pos_nonneg 2 k ltac:(lia) ltac:(lia)).
  rewrite u32_small by lia. eexists; split_and!; [done|done|]. split; [done| |].
  - split; simpl; rewrite ?length_replicate; try lia; [exists k; lia|done].
  - intros p. by rewrite lookup_empty.
Qed.

(** ** Runs of a client *)

Inductive reach (size : Z) : astate -> heap -> mbuf_set -> Prop :=
| reach_init ms : mbuf_init size = Ret ms -> reach size no_refs ∅ ms
| reach_step a h ms op r h' ms' a' :
    reach size a h ms -> permitted (ms_capacity ms) a op -> exec op h ms = Ret (r, h', ms') ->
    spec_step (ms_capacity ms) a op r a' -> reach size a' h' ms'.

Lemma spec_step_fun cap a op r a1 a2 : spec_step cap a op r a1 -> spec_step cap a op r a2 -> a1 = a2.
Proof. destruct 1; inversion 1; simplify_eq; done. Qed.

Lemma reach_ok size a h ms :
  0 <= size <= 2 ^ 30 -> reach size a h ms -> mstate_ok (ms_capacity ms) a h ms.
Proof.
  intros Hs Hre. induction Hre as [ms Hi|a h ms op r h' ms' a' _ IH Hp He Hsp].
  - destruct (mbuf_init_ok _ Hs) as (ms2 & Hi2 & _ & Hok).
    assert (ms2 = ms) as -> by congruence. done.
  - assert (Hab : abandoned (ms_capacity ms) a op = false).
    { destruct op; try done. apply bool_decide_eq_false_2. intros Hq. inversion Hsp as [| |own data q p0 mi0 q' Hadd| | |]; subst. cbn [a_q] in *. subst q.
      unfold qadd in Hadd. pose proof (qpop_replicate (Z.to_nat (ms_capacity ms))) as Hn. destruct (decide _) as [E|E].
      - destruct (qpop _) as [[y|] q1]; [done|done].
      - destruct E. rewrite length_replicate. pose proof (ring_cap_bound _ _ (so_ring _ _ _ _ IH)). lia. }
    destruct (exec_ok _ _ _ _ _ IH Hp Hab) as (r2 & h2 & ms2 & a2 & He2 & Hsp2 & Hok).
    assert ((r2, h2, ms2) = (r, h', ms')) as [= -> -> ->] by congruence.
    rewrite (spec_step_fun _ _ _ _ _ _ Hsp Hsp2). by rewrite (so_cap _ _ _ _ Hok).
Qed.

Lemma add_aborts_when_abandoned cap a h ms p mi :
  mstate_ok cap a h ms -> a_q a = replicate (Z.to_nat cap) None -> mbuf_add_item h (Some ms) (mkitem (Some p) (Some mi)) = Abort.
Proof.
  intros [<- Hr _] Hq. pose proof (ring_cap_bound _ _ Hr). unfold mbuf_add_item. rewrite (ro_len _ _ Hr).
  assert (Hl : zlen (a_q a) = ms_capacity ms) by (rewrite Hq, length_replicate; lia). rewrite Hl, Z.eqb_refl.
  destruct (mbuf_extract_item_ok _ ms (mkitem None None) Hr) as (ms1 & it & -> & _).
  pose proof (qpop_replicate (Z.to_nat (ms_capacity ms))) as Hn. rewrite <- Hq in Hn. by rewrite Hn.
Qed.

(** C28. Queue refinement.  After any run of a client that releases and queues only
    packets it holds, queueing into a full queue whose packets were all abandoned
    stops the process; every other call returns: the ring with its shared
    counted buffers answers exactly as the bounded list of slots does, packets
    come out with the bytes they were made from, and the buffers in memory are
    those that are still referenced. *)
Theorem mbuf_refines_queue size a h ms op :
  0 <= size <= 2 ^ 30 -> reach size a h ms -> permitted (ms_capacity ms) a op ->
  if abandoned (ms_capacity ms) a op then exec op h ms = Abort
  else exists r h' ms' a', exec op h ms = Ret (r, h', ms') /\ spec_step (ms_capacity ms) a op r a' /\
    reach size a' h' ms' /\
    (forall p, is_Some (h' !! p) <-> 0 < a_own a' p + qrefs p (a_q a')) /\
    (forall p mb, h' !! p = Some mb -> content (mb_buf mb) = a_data a' p).
Proof.
  intros Hs Hre Hp. pose proof (reach_ok _ _ _ _ Hs Hre) as Hok. destruct (abandoned _ _ _) eqn:Hab.
  { destruct op as [| |p mi| | |]; try done. apply bool_decide_eq_true_1 in Hab. cbn [exec]. by rewrite (add_aborts_when_abandoned _ _ _ _ p mi Hok Hab). }
  destruct (exec_ok _ _ _ _ _ Hok Hp Hab) as (r & h' & ms' & a' & He & Hsp & Hok').
  exists r, h', ms', a'. split_and!; [done|done|by eapply reach_step| |].
  - intros p. destruct (so_counts _ _ _ _ Hok' p) as [H0 H1]. pose proof (qrefs_bound p (a_q a')).
    destruct (h' !! p) as [mb|] eqn:E; split; intros H2; [lia|by eexists|by apply is_Some_None in H2|lia].
  - intros p mb E. destruct (so_counts _ _ _ _ Hok' p) as [_ H1]. rewrite E in H1. tauto.
Qed.

(** No leak: when the clients have released their references, freeing the queue
    releases every buffer. *)
Theorem mbuf_free_releases_all size a h ms :
  0 <= size <= 2 ^ 30 -> reach size a h ms -> (forall p, a_own a p = 0) ->
  mbuf_free h (Some ms) = Ret ∅.
Proof.
  intros Hs Hre H0. pose proof (reach_ok _ _ _ _ Hs Hre) as [_ Hr Hc]. unfold mbuf_free.
  rewrite (to_int_len _ _ Hr).
  destruct (mbuf_free_loop_ok (a_own a) (a_data a) (length (a_q a)) 0%nat h ms (a_q a) Hr) as (h' & He & Hc').
  { by rewrite drop_0. } { done. }
  change (Z.of_nat 0) with 0 in He. rewrite He. f_equal. apply map_eq. intros p. rewrite lookup_empty.
  destruct (Hc' p) as [_ H1]. rewrite H0 in H1. destruct (h' !! p); [simpl in H1; lia|done].
Qed.

(** ** Concrete runs *)

Definition demo_packet : buffer := buf_of [69; 0; 1; 2].

(** Room for two packets; one packet queued twice for instance 7, which then
    goes away. *)
Definition demo_a : astate :=
  let p := 1%positive in
  mka (upd (fun _ => 0) p 1) (upd (fun _ => []) p (content demo_packet))
      (qderef 7 [Some (p, 7%positive); Some (p, 7%positive)]).

Lemma demo_reach : exists h ms, reach 2 demo_a h ms /\ ms_capacity ms = 2.
Proof.
  assert (Hp : permitted 2 no_refs (OAlloc [0; 0; 0; 0] demo_packet)).
  { split_and!; [|done|by apply all_bytes_spec]. exists [69; 0; 1; 2].
    split; simpl; try done. by apply all_bytes_spec. }
  eexists _, _. split; cycle 1; [|
  eapply reach_step with (op := ODeref 7);
  [eapply reach_step with (op := OAdd 1 7);
   [eapply reach_step with (op := OAdd 1 7);
    [eapply reach_step with (op := OAlloc [0; 0; 0; 0] demo_packet);
     [apply reach_init; vm_compute; reflexivity|exact Hp|vm_compute; reflexivity|by apply sp_alloc]
    |by vm_compute|vm_compute; reflexivity|by apply sp_add]
   |by vm_compute|vm_compute; reflexivity|by apply sp_add]
  |done|vm_compute; reflexivity|apply sp_deref]].
  done.
Qed.

(** Giving up the packet empties the memory; queueing another one instead stops
    the process. *)
Lemma mbuf_refines_queue_witness :
  exists h ms r h' ms' a', exec (OFree 1) h ms = Ret (r, h', ms') /\ spec_step 2 demo_a (OFree 1) r a' /\ h' !! 1%positive = None /\
    exec (OAdd 1 8) h ms = Abort.
Proof.
  destruct demo_reach as (h & ms & Hr & Hc).
  pose proof (mbuf_refines_queue 2 demo_a h ms (OFree 1) ltac:(lia) Hr ltac:(by vm_compute)) as (r & h' & ms' & a' & He & Hsp & _ & Hh & _).
  pose proof (mbuf_refines_queue 2 demo_a h ms (OAdd 1 8) ltac:(lia) Hr ltac:(by vm_compute)) as Hx. rewrite Hc in Hx. cbn in Hx.
  exists h, ms, r, h', ms', a'. rewrite <- Hc. split_and!; [done|done| |exact Hx].
  inversion Hsp; subst. apply eq_None_not_Some. rewrite Hh. by vm_compute.
Defined.

Lemma mbuf_free_releases_all_witness :
  exists h ms, mbuf_init 2 = Ret ms /\ h = ∅ /\ mbuf_free h (Some ms) = Ret ∅.
Proof.
  eexists ∅, _. split_and!; [vm_compute; reflexivity|done|].
  apply (mbuf_free_releases_all 2 no_refs); [lia|apply reach_init; reflexivity|done].
Defined.
