(* ===== verification/ClientNat.v ===== *)
(** * Client NAT (openvpn clinat.c)

    The table is the list of its entries ([n] is its length).  Addresses are
    the 32-bit words the code loads, that is in network order on a
    little-endian machine.  [nat_addr] is the specification: the first rule of
    the table that matches an address translates it, once.  The debugging
    output ([print_client_nat_list], [print_pkt]) is left out, and the results
    of the three [getaddr] calls are arguments of
    [add_client_nat_to_option_list]. *)

From S2P Require Import Prelude Buffer Proto.
From stdpp Require Import prelude.
From Stdlib Require Import ZArith Lia ZifyBool.

Local Open Scope Z_scope.

Definition MAX_CLIENT_NAT : Z := 64.
Definition CN_OUTGOING : Z := 0.
Definition CN_INCOMING : Z := 1.
Definition CN_SNAT : Z := 0.
Definition CN_DNAT : Z := 1.

Record client_nat_entry := mkcn {
  cn_type : Z;
  network : Z;
  netmask : Z;
  foreign_network : Z
}.

Abbreviation client_nat_option_list := (list client_nat_entry).

(** ** The table *)

Definition new_client_nat_list : client_nat_option_list := [].

Definition add_entry (dest : client_nat_option_list) (e : client_nat_entry) : client_nat_option_list * bool :=
  if MAX_CLIENT_NAT <=? zlen dest then (dest, false) else (dest ++ [e], true).

Fixpoint copy_client_nat_option_list (dest src : client_nat_option_list) : client_nat_option_list :=
  match src with
  | [] => dest
  | e :: src' =>
      match add_entry dest e with
      | (dest, false) => dest
      | (dest, true) => copy_client_nat_option_list dest src'
      end
  end.

Inductive nat_keyword := KW_snat | KW_dnat | KW_other.

Definition add_client_nat_to_option_list (dest : client_nat_option_list) (type : nat_keyword)
    (net mask foreign : option Z) : client_nat_option_list :=
  match type, net, mask, foreign with
  | KW_snat, Some n, Some m, Some f => (add_entry dest (mkcn CN_SNAT n m f)).1
  | KW_dnat, Some n, Some m, Some f => (add_entry dest (mkcn CN_DNAT n m f)).1
  | _, _, _, _ => dest
  end.

(** ** Translation *)

(** One round of the loop; [h] is the address of the IP header. *)
Definition nat_rule (h direction : Z) (e : client_nat_entry) (buf : buffer) (accumulate alog : Z)
    : outcome (buffer * Z * Z) :=
  let addr_ptr := if negb (Z.lxor (cn_type e) direction =? 0) then h + IPH_DADDR else h + IPH_SADDR in
  let amask := if negb (Z.lxor (cn_type e) direction =? 0) then 2 else 1 in
  addr ← get_h32 buf addr_ptr;
  let from := if negb (direction =? 0) then foreign_network e else network e in
  let to := if negb (direction =? 0) then network e else foreign_network e in
  if (Z.land addr (netmask e) =? from) && (Z.land amask alog =? 0) then
    let accumulate := ADD_CHECKSUM_32 accumulate addr in
    let addr := Z.lor (Z.land addr (u32 (Z.lnot (netmask e)))) to in
    let accumulate := SUB_CHECKSUM_32 accumulate addr in
    buf ← put_h32 buf addr_ptr addr;
    Ret (buf, accumulate, Z.lor alog amask)
  else Ret (buf, accumulate, alog).

Fixpoint nat_rules (h direction : Z) (l : client_nat_option_list) (buf : buffer) (accumulate alog : Z)
    : outcome (buffer * Z * Z) :=
  match l with
  | [] => Ret (buf, accumulate, alog)
  | e :: l' =>
      '(buf, accumulate, alog) ← nat_rule h direction e buf accumulate alog;
      nat_rules h direction l' buf accumulate alog
  end.

Definition adjust_at (buf : buffer) (p accumulate : Z) : outcome buffer :=
  check ← get_h16 buf p; put_h16 buf p (ADJUST_CHECKSUM accumulate check).

Definition client_nat_transform (l : client_nat_option_list) (ipbuf : buffer) (direction : Z) : outcome buffer :=
  let h := boffset ipbuf in
  '(ipbuf, accumulate, alog) ← nat_rules h direction l ipbuf 0 0;
  if negb (alog =? 0) then
    ipbuf ← adjust_at ipbuf (h + IPH_CHECK) accumulate;
    protocol ← get_u8 ipbuf (h + IPH_PROTOCOL);
    if protocol =? OPENVPN_IPPROTO_TCP then
      if SIZEOF_IPHDR + SIZEOF_TCPHDR <=? buf_len ipbuf
      then adjust_at ipbuf (h + SIZEOF_IPHDR + TCPH_CHECK) accumulate else Ret ipbuf
    else if protocol =? OPENVPN_IPPROTO_UDP then
      if SIZEOF_IPHDR + SIZEOF_UDPHDR <=? buf_len ipbuf
      then adjust_at ipbuf (h + SIZEOF_IPHDR + UDPH_CHECK) accumulate else Ret ipbuf
    else Ret ipbuf
  else Ret ipbuf.

(** ** Specification *)

(** Which address a rule is about: the destination, or the source. *)
Definition about_dst (direction : Z) (e : client_nat_entry) : bool := negb (Z.lxor (cn_type e) direction =? 0).
Definition rule_from (direction : Z) (e : client_nat_entry) : Z :=
  if negb (direction =? 0) then foreign_network e else network e.
Definition rule_to (direction : Z) (e : client_nat_entry) : Z :=
  if negb (direction =? 0) then network e else foreign_network e.
Definition translate (direction : Z) (e : client_nat_entry) (addr : Z) : Z :=
  Z.lor (Z.land addr (u32 (Z.lnot (netmask e)))) (rule_to direction e).

(** The first rule for this address that matches it. *)
Fixpoint nat_addr (direction : Z) (dst : bool) (l : client_nat_option_list) (addr : Z) : Z :=
  match l with
  | [] => addr
  | e :: l' =>
      if eqb (about_dst direction e) dst && (Z.land addr (netmask e) =? rule_from direction e)
      then translate direction e addr
      else nat_addr direction dst l' addr
  end.

(** The words of the table are 32-bit. *)
Definition entry_wf (e : client_nat_entry) : Prop :=
  0 <= network e < 2 ^ 32 /\ 0 <= netmask e < 2 ^ 32 /\ 0 <= foreign_network e < 2 ^ 32.

Definition saddr (pkt : bytes) : Z := le_val (slice pkt IPH_SADDR 4).
Definition daddr (pkt : bytes) : Z := le_val (slice pkt IPH_DADDR 4).

(** ** The loop in the window of the packet *)

Definition addr_off (dst : bool) : Z := if dst then IPH_DADDR else IPH_SADDR.
Definition addr_mask (dst : bool) : Z := if dst then 2 else 1.

(** One rule applied to the bytes of the packet. *)
Definition nat_step (direction : Z) (st : bytes * Z * Z) (e : client_nat_entry) : bytes * Z * Z :=
  let '(c, acc, alog) := st in
  let dst := about_dst direction e in
  let addr := le_val (slice c (addr_off dst) 4) in
  if (Z.land addr (netmask e) =? rule_from direction e) && (Z.land (addr_mask dst) alog =? 0) then
    let addr' := translate direction e addr in
    (splice c (addr_off dst) (le_bytes 4 addr'), SUB_CHECKSUM_32 (ADD_CHECKSUM_32 acc addr) addr', Z.lor alog (addr_mask dst))
  else (c, acc, alog).

Lemma addr_off_range dst : addr_off dst = 12 \/ addr_off dst = 16.
Proof. destruct dst; [right|left]; done. Qed.

Lemma addr_off_even dst : Z.even (addr_off dst) = true.
Proof. by destruct dst. Qed.

Lemma nat_step_length direction c acc alog e :
  20 <= zlen c -> length (nat_step direction (c, acc, alog) e).1.1 = length c.
Proof.
  intros Hl. unfold nat_step. destruct (_ && _); [|done]. simpl.
  destruct (addr_off_range (about_dst direction e)) as [->| ->]; apply length_splice; rewrite ?length_le_bytes; lia.
Qed.

Section loop.
Context (b : buffer) (blk : bytes) (Hok : buf_ok b blk) (direction : Z).

Lemma nat_rule_win c acc alog e :
  zlen c = blen b -> 20 <= zlen c ->
  nat_rule (boffset b) direction e (win b blk c) acc alog =
  let '(c', acc', alog') := nat_step direction (c, acc, alog) e in Ret (win b blk c', acc', alog').
Proof using Hok.
  intros Hc Hl. unfold nat_rule, nat_step. fold (about_dst direction e). set (d := about_dst direction e).
  assert (Hp : (if d then boffset b + IPH_DADDR else boffset b + IPH_SADDR) = boffset b + addr_off d) by (by destruct d).
  rewrite Hp. change (if d then 2 else 1) with (addr_mask d).
  assert (Hr : 0 <= addr_off d /\ addr_off d + 4 <= zlen c) by (destruct (addr_off_range d); lia).
  rewrite (win_get_h32 b blk) by (done || lia). cbn [mbind outcome_bind].
  fold (rule_from direction e). fold (rule_to direction e). fold (translate direction e (le_val (slice c (addr_off d) 4))).
  destruct (_ && _); [|done]. rewrite (win_put_h32 b blk) by (done || lia). done.
Qed.

Lemma nat_rules_win l : forall c acc alog,
  zlen c = blen b -> 20 <= zlen c ->
  nat_rules (boffset b) direction l (win b blk c) acc alog =
  let '(c', acc', alog') := foldl (nat_step direction) (c, acc, alog) l in Ret (win b blk c', acc', alog').
Proof using Hok.
  induction l as [|e l IH]; intros c acc alog Hc Hl; [done|]. cbn [nat_rules foldl].
  rewrite nat_rule_win by done. pose proof (nat_step_length direction c acc alog e Hl) as Hlen.
  destruct (nat_step direction (c, acc, alog) e) as [[c' acc'] alog']. simpl in Hlen. cbn [mbind outcome_bind].
  apply IH; lia.
Qed.

Lemma adjust_at_win c o acc :
  zlen c = blen b -> 0 <= o -> o + 2 <= zlen c ->
  adjust_at (win b blk c) (boffset b + o) acc =
  Ret (win b blk (splice c o (le_bytes 2 (ADJUST_CHECKSUM acc (le_val (slice c o 2)))))).
Proof using Hok.
  intros Hc Ho Hl. unfold adjust_at. rewrite (win_get_h16 b blk) by done. cbn [mbind outcome_bind].
  by rewrite (win_put_h16 b blk) by done.
Qed.
End loop.

(** ** What the loop does to addresses and sums *)

Definition addr_at (dst : bool) (c : bytes) : Z := le_val (slice c (addr_off dst) 4).
Definition logged (dst : bool) (alog : Z) : bool := negb (Z.land (addr_mask dst) alog =? 0).
Definition logged_count (alog : Z) : Z := Z.b2z (logged false alog) + Z.b2z (logged true alog).

Lemma log_cases alog : 0 <= alog <= 3 -> alog = 0 \/ alog = 1 \/ alog = 2 \/ alog = 3.
Proof. lia. Qed.

Lemma log_add alog dst :
  0 <= alog <= 3 -> logged dst alog = false ->
  0 <= Z.lor alog (addr_mask dst) <= 3 /\ logged dst (Z.lor alog (addr_mask dst)) = true /\
  logged (negb dst) (Z.lor alog (addr_mask dst)) = logged (negb dst) alog /\
  logged_count (Z.lor alog (addr_mask dst)) = logged_count alog + 1.
Proof.
  intros Ha. destruct (log_cases alog Ha) as [->|[->|[->| ->]]]; destruct dst; vm_compute; intros; try done;
    (split; [split; discriminate|done]).
Qed.

Lemma lor_u32 x y : 0 <= x < 2 ^ 32 -> 0 <= y < 2 ^ 32 -> 0 <= Z.lor x y < 2 ^ 32.
Proof.
  intros Hx Hy. assert (H : Z.lor x y = Z.lor x y mod 2 ^ 32).
  { rewrite <- !Z.land_ones, Z.land_lor_distr_l, !Z.land_ones, !Z.mod_small by lia. done. }
  rewrite H. apply Z.mod_pos_bound. lia.
Qed.

Lemma land_u32 x y : 0 <= x -> 0 <= y < 2 ^ 32 -> 0 <= Z.land x y < 2 ^ 32.
Proof.
  intros Hx Hy. assert (H : Z.land x y = Z.land x y mod 2 ^ 32).
  { rewrite <- !Z.land_ones, <- Z.land_assoc, !Z.land_ones, (Z.mod_small y) by lia. done. }
  rewrite H. apply Z.mod_pos_bound. lia.
Qed.

Lemma translate_range direction e addr :
  entry_wf e -> 0 <= addr < 2 ^ 32 -> 0 <= translate direction e addr < 2 ^ 32.
Proof.
  intros (Hn & Hm & Hf) Ha. unfold translate. apply lor_u32.
  - apply land_u32; [lia|]. apply u32_range.
  - unfold rule_to. destruct (negb _); done.
Qed.

Lemma half_sum x : 0 <= x < 2 ^ 32 -> 0 <= Z.land x 0xffff + Z.shiftr x 16 <= 131070.
Proof.
  intros Hx. rewrite (land_low x 16), Z.shiftr_div_pow2 by done. change (2 ^ 16) with 65536.
  change (2 ^ 32) with 4294967296 in Hx. mlia.
Qed.

Record nat_inv (c0 c : bytes) (acc alog : Z) : Prop := {
  ni_length : length c = length c0;
  ni_bytes : Forall is_byte c;
  ni_other : forall i, ~ (12 <= Z.of_nat i < 20) -> c !! i = c0 !! i;
  ni_sum : eq1c (word_sum c + 256 * acc) (word_sum c0);
  ni_hdr : eq1c (word_sum (take 20 c) + 256 * acc) (word_sum (take 20 c0));
  ni_acc : - (131070 * logged_count alog) <= acc <= 131070 * logged_count alog;
  ni_log : 0 <= alog <= 3;
  ni_none : alog = 0 -> c = c0
}.

Lemma take_splice {A} (c : list A) o bs n :
  0 <= o -> o + zlen bs <= n -> n <= zlen c -> take (Z.to_nat n) (splice c o bs) = splice (take (Z.to_nat n) c) o bs.
Proof.
  intros Ho Hb Hn. apply list_eq. intros i. assert (Hl : length (take (Z.to_nat n) c) = Z.to_nat n) by (apply length_take_le; lia).
  rewrite lookup_splice by lia. destruct (decide (i < Z.to_nat n)%nat).
  - rewrite !lookup_take_lt, lookup_splice by lia. done.
  - rewrite !lookup_take_ge by lia. repeat case_decide; try lia; done.
Qed.

(** The sum of the words changes by the difference of the two addresses. *)
Lemma replace_addr c o addr addr' :
  Forall is_byte c -> 0 <= o -> Z.even o = true -> o + 4 <= zlen c -> addr = le_val (slice c o 4) -> 0 <= addr' < 2 ^ 32 ->
  eq1c (word_sum (splice c o (le_bytes 4 addr')) + 256 * SUB_CHECKSUM_32 (ADD_CHECKSUM_32 0 addr) addr') (word_sum c).
Proof.
  intros Hby Ho He Hl -> Ha'. rewrite word_sum_replace by (rewrite ?length_le_bytes; done).
  rewrite length_le_bytes. change (Z.of_nat 4) with 4.
  destruct (word_sum_4 (slice c o 4)) as [[k1 H1] _]; [by apply Forall_slice|pose proof (zlen_slice c o 4); lia|].
  destruct (word_sum_4 (le_bytes 4 addr')) as [[k2 H2] _]; [apply le_bytes_is_byte|apply length_le_bytes|].
  rewrite le_val_bytes, Z.mod_small in H2 by done. unfold SUB_CHECKSUM_32, ADD_CHECKSUM_32. exists (k2 - k1). lia.
Qed.

Lemma nat_step_inv direction e c0 c acc alog :
  entry_wf e -> 20 <= zlen c0 -> nat_inv c0 c acc alog ->
  let '(c', acc', alog') := nat_step direction (c, acc, alog) e in nat_inv c0 c' acc' alog'.
Proof.
  intros He Hl Hinv. pose proof Hinv as [L B O S SH A G N]. unfold nat_step. set (d := about_dst direction e).
  destruct (_ && _) eqn:E; [|done]. apply andb_true_iff in E as [_ E].
  assert (Hlog : logged d alog = false) by (unfold logged; by rewrite E). clear E.
  destruct (log_add alog d G Hlog) as (G' & G1 & _ & G3).
  assert (Hr : 12 <= addr_off d /\ addr_off d + 4 <= 20) by (destruct (addr_off_range d); lia).
  set (addr := le_val (slice c (addr_off d) 4)).
  assert (Hlen4 : length (slice c (addr_off d) 4) = 4%nat) by (pose proof (zlen_slice c (addr_off d) 4); lia).
  assert (Ha : 0 <= addr < 2 ^ 32) by (apply word_sum_4; [by apply Forall_slice|done]).
  pose proof (translate_range direction e addr He Ha) as Ht. set (t := translate direction e addr) in *.
  assert (Hacc : SUB_CHECKSUM_32 (ADD_CHECKSUM_32 acc addr) t = acc + SUB_CHECKSUM_32 (ADD_CHECKSUM_32 0 addr) t)
    by (unfold SUB_CHECKSUM_32, ADD_CHECKSUM_32; lia).
  split.
  - rewrite length_splice; rewrite ?length_le_bytes; lia.
  - apply Forall_splice; [done|apply le_bytes_is_byte].
  - intros i Hi. rewrite lookup_splice_other by (rewrite ?length_le_bytes; lia). by apply O.
  - rewrite Hacc. pose proof (replace_addr c (addr_off d) addr t B ltac:(lia) (addr_off_even d) ltac:(lia) eq_refl Ht) as [k Hk].
    destruct S as [k' Hk']. exists (k + k'). lia.
  - rewrite Hacc. change 20%nat with (Z.to_nat 20). rewrite take_splice by (rewrite ?length_le_bytes; lia).
    assert (Hsl : slice (take (Z.to_nat 20) c) (addr_off d) 4 = slice c (addr_off d) 4).
    { change (take (Z.to_nat 20) c) with (slice c 0 20). rewrite slice_slice by lia. done. }
    assert (H20 : length (take (Z.to_nat 20) c) = Z.to_nat 20) by (apply length_take_le; lia).
    pose proof (replace_addr (take (Z.to_nat 20) c) (addr_off d) addr t (Forall_take _ _ _ B) ltac:(lia) (addr_off_even d)
      ltac:(lia) ltac:(by rewrite Hsl) Ht) as [k Hk].
    destruct SH as [k' Hk']. exists (k + k'). change (Z.to_nat 20) with 20%nat in *. lia.
  - rewrite G3, Hacc. pose proof (half_sum addr Ha). pose proof (half_sum t Ht).
    unfold SUB_CHECKSUM_32, ADD_CHECKSUM_32. lia.
  - done.
  - intros H0. rewrite H0 in G1. by destruct d.
Qed.

Lemma nat_fold_inv direction l c0 : forall c acc alog,
  Forall entry_wf l -> 20 <= zlen c0 -> nat_inv c0 c acc alog ->
  let '(c', acc', alog') := foldl (nat_step direction) (c, acc, alog) l in nat_inv c0 c' acc' alog'.
Proof.
  induction l as [|e l IH]; intros c acc alog Hwf Hl Hinv; [done|]. apply Forall_cons in Hwf as [He Hwf].
  cbn [foldl]. pose proof (nat_step_inv direction e _ _ _ _ He Hl Hinv) as Hs.
  destruct (nat_step direction (c, acc, alog) e) as [[c' acc'] alog']. by apply IH.
Qed.

Lemma addr_at_splice_same dst c v : 20 <= zlen c -> 0 <= v < 2 ^ 32 -> addr_at dst (splice c (addr_off dst) (le_bytes 4 v)) = v.
Proof.
  intros Hl Hv. unfold addr_at. rewrite slice_splice_same by (destruct (addr_off_range dst); rewrite ?length_le_bytes; lia).
  rewrite le_val_bytes. by apply Z.mod_small.
Qed.

Lemma addr_at_splice_other dst c v : 20 <= zlen c -> addr_at dst (splice c (addr_off (negb dst)) (le_bytes 4 v)) = addr_at dst c.
Proof.
  intros Hl. unfold addr_at. f_equal. apply slice_ext_eq. intros i Hi.
  apply lookup_splice_other; destruct dst; simpl in *; unfold IPH_SADDR, IPH_DADDR in *; rewrite ?length_le_bytes; lia.
Qed.

Lemma addr_at_range dst c : Forall is_byte c -> 20 <= zlen c -> 0 <= addr_at dst c < 2 ^ 32.
Proof.
  intros Hby Hl. apply word_sum_4; [by apply Forall_slice|].
  pose proof (zlen_slice c (addr_off dst) 4). destruct (addr_off_range dst); lia.
Qed.

(** Each address is translated at most once, by the first rule that matches. *)
Lemma nat_fold_addr direction dst l : forall c acc alog,
  Forall entry_wf l -> 20 <= zlen c -> Forall is_byte c -> 0 <= alog <= 3 ->
  addr_at dst (foldl (nat_step direction) (c, acc, alog) l).1.1 =
  (if logged dst alog then addr_at dst c else nat_addr direction dst l (addr_at dst c)).
Proof.
  induction l as [|e l IH]; intros c acc alog Hwf Hl Hby Hal; cbn [foldl nat_addr].
  { by destruct (logged dst alog). }
  apply Forall_cons in Hwf as [He Hwf]. unfold nat_step at 2. set (d := about_dst direction e).
  fold (addr_at d c).
  destruct ((Z.land (addr_at d c) (netmask e) =? rule_from direction e) && (Z.land (addr_mask d) alog =? 0)) eqn:E.
  - apply andb_true_iff in E as [Em El].
    assert (Hlog : logged d alog = false) by (unfold logged; by rewrite El).
    destruct (log_add alog d Hal Hlog) as (G & G1 & G2 & _).
    pose proof (translate_range direction e _ He (addr_at_range d c Hby Hl)) as Ht.
    rewrite IH; [|done| | |done].
    2:{ rewrite length_splice; destruct (addr_off_range d); rewrite ?length_le_bytes; lia. }
    2:{ apply Forall_splice; [done|apply le_bytes_is_byte]. }
    destruct (decide (dst = d)) as [->|Hne].
    + rewrite G1, Hlog, eqb_reflx, Em. cbn [andb]. by apply addr_at_splice_same.
    + assert (Hd : d = negb dst) by (by destruct d, dst). rewrite Hd in *. rewrite negb_involutive in G2.
      rewrite G2, addr_at_splice_other by done. destruct (logged dst alog); [done|]. by destruct dst.
  - rewrite IH by done. destruct (logged dst alog) eqn:Hlog; [done|].
    destruct (eqb d dst) eqn:Ed; [|done]. apply eqb_prop in Ed. rewrite Ed in *. cbn [andb].
    unfold logged in Hlog. rewrite negb_false_iff in Hlog. rewrite Hlog, andb_true_r in E. by rewrite E.
Qed.

(** The checksum fields the code adjusts, as offsets in the packet. *)
Definition l4_check (pkt : bytes) : option Z :=
  if field8 pkt IPH_PROTOCOL =? OPENVPN_IPPROTO_TCP then
    if SIZEOF_IPHDR + SIZEOF_TCPHDR <=? zlen pkt then Some 36 else None
  else if field8 pkt IPH_PROTOCOL =? OPENVPN_IPPROTO_UDP then
    if SIZEOF_IPHDR + SIZEOF_UDPHDR <=? zlen pkt then Some 26 else None
  else None.

Definition adjust (acc : Z) (c : bytes) (o : Z) : bytes := splice c o (le_bytes 2 (ADJUST_CHECKSUM acc (le_val (slice c o 2)))).

(** The packet after the whole function. *)
Definition nat_packet (direction : Z) (l : client_nat_option_list) (pkt : bytes) : bytes :=
  let '(c, acc, alog) := foldl (nat_step direction) (pkt, 0, 0) l in
  if alog =? 0 then c
  else
    let c := adjust acc c IPH_CHECK in
    match l4_check pkt with Some o => adjust acc c o | None => c end.

Lemma adjust_length acc c o : 0 <= o -> o + 2 <= zlen c -> length (adjust acc c o) = length c.
Proof. intros. unfold adjust. apply length_splice; rewrite ?length_le_bytes; lia. Qed.

Lemma adjust_bytes acc c o : Forall is_byte c -> Forall is_byte (adjust acc c o).
Proof. intros. apply Forall_splice; [done|apply le_bytes_is_byte]. Qed.

Lemma adjust_lookup acc c o i : 0 <= o -> o + 2 <= zlen c -> ~ (o <= Z.of_nat i < o + 2) -> adjust acc c o !! i = c !! i.
Proof. intros. apply lookup_splice_other; rewrite ?length_le_bytes; lia. Qed.

Lemma l4_check_range pkt o : l4_check pkt = Some o -> (o = 36 \/ o = 26) /\ o + 2 <= zlen pkt.
Proof.
  unfold l4_check, SIZEOF_IPHDR, SIZEOF_TCPHDR, SIZEOF_UDPHDR. intros H.
  destruct (_ =? _); [destruct (_ <=? _) eqn:E; simplify_eq; lia|].
  destruct (_ =? _); [destruct (_ <=? _) eqn:E; simplify_eq; lia|done].
Qed.

Lemma nat_inv_start pkt : Forall is_byte pkt -> nat_inv pkt pkt 0 0.
Proof. intros H. split; try done. - exists 0; lia. - exists 0; lia. Qed.

(** [client_nat_transform] rewrites the packet as [nat_packet] says. *)
Lemma client_nat_transform_holds l b hd pkt tl direction :
  holds b hd pkt tl -> 20 <= zlen pkt -> Forall entry_wf l ->
  exists b', client_nat_transform l b direction = Ret b' /\ holds b' hd (nat_packet direction l pkt) tl.
Proof.
  intros Hh Hl Hwf. pose proof (holds_bytes _ _ _ _ Hh) as Hby. destruct Hh as (blk & Hok & Ho & Hc & Ht).
  pose proof (zlen_content _ _ Hok) as Hcl. rewrite Hc in Hcl.
  assert (Hwin : forall c, length c = length pkt -> Forall is_byte c -> holds (win b blk c) hd c tl).
  { intros c Hlc Hbc. exists (splice blk (boffset b) c). split; [apply win_ok; [done|lia|done]|].
    split; [done|]. split; [apply win_content; [done|lia]|done]. }
  unfold client_nat_transform, nat_packet. rewrite <- (win_id _ _ Hok), Hc.
  change (boffset (win b blk pkt)) with (boffset b). rewrite (nat_rules_win b blk Hok) by done.
  pose proof (nat_fold_inv direction l pkt pkt 0 0 Hwf Hl (nat_inv_start pkt Hby)) as Hinv.
  destruct (foldl _ _ l) as [[c acc] alog]. destruct Hinv as [L B O S SH A G N]. cbn [mbind outcome_bind].
  destruct (alog =? 0); cbn [negb]; [eexists; split; [done|]; by apply Hwin|].
  unfold IPH_CHECK. rewrite (adjust_at_win b blk Hok) by lia. fold (adjust acc c 10). cbn [mbind outcome_bind].
  assert (L1 : length (adjust acc c 10) = length pkt) by (rewrite adjust_length; lia).
  assert (B1 : Forall is_byte (adjust acc c 10)) by (by apply adjust_bytes).
  assert (Hp : get_u8 (win b blk (adjust acc c 10)) (boffset b + IPH_PROTOCOL) = Ret (field8 pkt IPH_PROTOCOL)).
  { destruct (slice_1 pkt IPH_PROTOCOL) as (x & Hx & Hsl); [done|unfold IPH_PROTOCOL; lia|]. unfold field8. rewrite Hsl, be_val_1.
    apply (win_get_u8 b blk Hok); [lia|done|]. unfold IPH_PROTOCOL in *. rewrite adjust_lookup, O by lia. done. }
  rewrite Hp. cbn [mbind outcome_bind].
  destruct (buf_len_holds _ _ _ _ (Hwin _ L1 B1)) as [-> _]. rewrite L1. unfold l4_check.
  assert (Hadj : forall o, 0 <= o -> o + 2 <= zlen pkt -> exists b',
    adjust_at (win b blk (adjust acc c 10)) (boffset b + o) acc = Ret b' /\ holds b' hd (adjust acc (adjust acc c 10) o) tl).
  { intros o Ho0 Hol. rewrite (adjust_at_win b blk Hok) by lia. eexists. split; [done|].
    apply Hwin; [rewrite adjust_length; lia|by apply adjust_bytes]. }
  unfold SIZEOF_IPHDR, SIZEOF_TCPHDR, SIZEOF_UDPHDR, TCPH_CHECK, UDPH_CHECK. rewrite <- !Z.add_assoc.
  destruct (_ =? OPENVPN_IPPROTO_TCP); [destruct (_ <=? _) eqn:E; [apply Hadj; lia|eauto]|].
  destruct (_ =? OPENVPN_IPPROTO_UDP); [destruct (_ <=? _) eqn:E; [apply Hadj; lia|eauto]|eauto].
Qed.

(** ** Theorems *)

Lemma adjust_hdr acc c o :
  Forall is_byte c -> 20 <= zlen c -> - 2 ^ 30 <= acc <= 2 ^ 30 -> 0 <= o -> o + 2 <= zlen c -> Z.even o = true ->
  (o + 2 <= 20 -> eq1c (word_sum (take 20 (adjust acc c o))) (word_sum (take 20 c) + 256 * acc)) /\
  (20 <= o -> take 20 (adjust acc c o) = take 20 c /\
              eq1c (word_sum (drop 20 (adjust acc c o))) (word_sum (drop 20 c) + 256 * acc)).
Proof.
  intros Hby Hl Hacc Ho Hol He. unfold adjust. split; intros H20.
  - change 20%nat with (Z.to_nat 20). rewrite take_splice by (rewrite ?length_le_bytes; lia).
    replace (slice c o 2) with (slice (take (Z.to_nat 20) c) o 2)
      by (change (take (Z.to_nat 20) c) with (slice c 0 20); rewrite slice_slice by lia; done).
    apply adjust_field; try done; [by apply Forall_take|]. rewrite length_take. lia.
  - set (bs := le_bytes 2 _). assert (Hbs : length bs = 2%nat) by apply length_le_bytes. split.
    + apply list_eq. intros i. destruct (decide (i < 20)%nat); [|by rewrite !lookup_take_ge by lia].
      rewrite !lookup_take_lt, lookup_splice_other by lia. done.
    + assert (Hd : drop 20 (splice c o bs) = splice (drop 20 c) (o - 20) bs).
      { apply list_eq. intros i. rewrite lookup_drop, !lookup_splice by (rewrite ?length_drop; lia). rewrite lookup_drop, Hbs.
        repeat case_decide; try lia; try done. f_equal. lia. }
      rewrite Hd. unfold bs. replace (slice c o 2) with (slice (drop 20 c) (o - 20) 2).
      2:{ unfold slice. rewrite drop_drop. do 2 f_equal. lia. }
      apply adjust_field; [by apply Forall_drop|lia|by rewrite Z.even_sub, He|rewrite length_drop; lia|done].
Qed.

(** The header of a packet: twelve bytes and the two addresses. *)
Lemma hdr_sum c : 20 <= zlen c -> word_sum (take 20 c) = word_sum (take 12 c) + word_sum (slice c 12 4) + word_sum (slice c 16 4).
Proof.
  intros Hl. assert (H : take 20 c = take 12 c ++ slice c 12 4 ++ slice c 16 4).
  { change (take 20 c) with (slice c 0 (12 + (4 + 4))). change (take 12 c) with (slice c 0 12).
    rewrite !slice_app_split by lia. done. }
  pose proof (zlen_slice c 12 4). assert (length (take 12 c) = 12%nat) by (apply length_take_le; lia).
  rewrite H, !word_sum_app; [lia| |].
  - replace (length (slice c 12 4)) with 4%nat by lia. done.
  - replace (length (take 12 c)) with 12%nat by lia. done.
Qed.

Record nat_result (direction : Z) (l : client_nat_option_list) (pkt pkt' : bytes) : Prop := {
  nr_length : length pkt' = length pkt;
  nr_bytes : Forall is_byte pkt';
  nr_src : saddr pkt' = nat_addr direction false l (saddr pkt);
  nr_dst : daddr pkt' = nat_addr direction true l (daddr pkt);
  nr_other : forall i, ~ (10 <= Z.of_nat i < 20) ->
    (forall o, l4_check pkt = Some o -> ~ (o <= Z.of_nat i < o + 2)) -> pkt' !! i = pkt !! i;
  nr_header : eq1c (word_sum (take 20 pkt')) (word_sum (take 20 pkt));
  nr_l4 : forall o, l4_check pkt = Some o ->
    eq1c (word_sum (drop 20 pkt') + word_sum (slice pkt' 12 4) + word_sum (slice pkt' 16 4))
         (word_sum (drop 20 pkt) + word_sum (slice pkt 12 4) + word_sum (slice pkt 16 4))
}.

Lemma addr_of_ext c c' dst : (forall i, 12 <= Z.of_nat i < 20 -> c !! i = c' !! i) -> addr_at dst c = addr_at dst c'.
Proof.
  intros H. unfold addr_at. f_equal. apply slice_ext_eq. intros i Hi. apply H. destruct (addr_off_range dst) as [E|E]; rewrite E in Hi; lia.
Qed.

Lemma nat_packet_result direction l pkt :
  Forall is_byte pkt -> 20 <= zlen pkt -> Forall entry_wf l -> nat_result direction l pkt (nat_packet direction l pkt).
Proof.
  intros Hby Hl Hwf. unfold nat_packet.
  pose proof (nat_fold_inv direction l pkt pkt 0 0 Hwf Hl (nat_inv_start pkt Hby)) as Hinv.
  pose proof (nat_fold_addr direction false l pkt 0 0 Hwf Hl Hby ltac:(lia)) as Hsrc.
  pose proof (nat_fold_addr direction true l pkt 0 0 Hwf Hl Hby ltac:(lia)) as Hdst.
  destruct (foldl _ _ l) as [[c acc] alog]. destruct Hinv as [L B O S SH A G N]. simpl in Hsrc, Hdst.
  destruct (alog =? 0) eqn:E0.
  { rewrite N in * by lia. by split. }
  assert (Hacc : - 2 ^ 30 <= acc <= 2 ^ 30).
  { unfold logged_count in A. destruct (logged false alog), (logged true alog); simpl in A; lia. }
  unfold IPH_CHECK. set (c1 := adjust acc c 10).
  assert (L1 : length c1 = length pkt) by (unfold c1; rewrite adjust_length; lia).
  assert (B1 : Forall is_byte c1) by (by apply adjust_bytes).
  assert (O1 : forall i, ~ (10 <= Z.of_nat i < 12) -> c1 !! i = c !! i) by (intros; apply adjust_lookup; lia).
  assert (H1 : eq1c (word_sum (take 20 c1)) (word_sum (take 20 pkt))).
  { destruct (adjust_hdr acc c 10) as [Ha _]; [done|lia|done|lia|lia|done|]. unfold c1. rewrite Ha by lia. done. }
  assert (A1 : forall dst, addr_at dst c1 = addr_at dst c) by (intros; apply addr_of_ext; intros; apply O1; lia).
  destruct (l4_check pkt) as [o|] eqn:El4.
  2:{ split; try done.
      - etransitivity; [apply (A1 false)|done].
      - etransitivity; [apply (A1 true)|done].
      - intros i H10 _. rewrite O1, O by lia. done.
      - intros o Hsome. congruence. }
  destruct (l4_check_range _ _ El4) as [Ho Hol]. set (c2 := adjust acc c1 o).
  assert (O2 : forall i, ~ (o <= Z.of_nat i < o + 2) -> c2 !! i = c1 !! i) by (intros; apply adjust_lookup; lia).
  assert (A2 : forall dst, addr_at dst c2 = addr_at dst c1) by (intros; apply addr_of_ext; intros; apply O2; lia).
  destruct (adjust_hdr acc c1 o) as [_ Hh]; [done|lia|done|lia|lia|by destruct Ho as [-> | ->]|].
  destruct Hh as [Ht Hd]; [lia|]. fold c2 in Ht, Hd. split.
  - unfold c2. rewrite adjust_length; lia.
  - by apply adjust_bytes.
  - etransitivity; [apply (A2 false)|]. etransitivity; [apply (A1 false)|done].
  - etransitivity; [apply (A2 true)|]. etransitivity; [apply (A1 true)|done].
  - intros i H10 Hoo. rewrite O2, O1, O by (lia || by apply Hoo). done.
  - by rewrite Ht.
  - intros o' Ho'. assert (o' = o) as -> by congruence. rewrite Hd.
    assert (Hd1 : drop 20 c1 = drop 20 pkt).
    { apply list_eq. intros i. rewrite !lookup_drop, O1, O by lia. done. }
    assert (Hs1 : forall p, p = 12 \/ p = 16 -> slice c2 p 4 = slice c p 4).
    { intros p Hp. apply slice_ext_eq. intros i Hi. rewrite O2, O1 by lia. done. }
    rewrite Hd1, !Hs1 by lia. rewrite (hdr_sum c), (hdr_sum pkt) in SH by lia.
    assert (Ht12 : take 12 c = take 12 pkt).
    { apply list_eq. intros i. destruct (decide (i < 12)%nat); [|by rewrite !lookup_take_ge by lia].
      rewrite !lookup_take_lt by lia. apply O. lia. }
    rewrite Ht12 in SH. destruct SH as [k Hk]. exists k. lia.
Qed.

(** Client NAT: on any packet with a full IP header, [client_nat_transform]
    returns and gives each of the two addresses the translation of the first
    rule that matches it (none: unchanged); every other byte outside the
    checksum fields is kept, and the header checksum verifies exactly as
    before. *)
Theorem client_nat_translates l b hd pkt tl direction :
  holds b hd pkt tl -> 20 <= zlen pkt -> Forall entry_wf l ->
  exists b' pkt', client_nat_transform l b direction = Ret b' /\ holds b' hd pkt' tl /\ length pkt' = length pkt /\
    saddr pkt' = nat_addr direction false l (saddr pkt) /\ daddr pkt' = nat_addr direction true l (daddr pkt) /\
    (forall i, ~ (10 <= Z.of_nat i < 20) ->
       (forall o, l4_check pkt = Some o -> ~ (o <= Z.of_nat i < o + 2)) -> pkt' !! i = pkt !! i) /\
    eq1c (word_sum (take 20 pkt')) (word_sum (take 20 pkt)).
Proof.
  intros Hh Hl Hwf. pose proof (holds_bytes _ _ _ _ Hh) as Hby.
  destruct (nat_packet_result direction l pkt Hby Hl Hwf) as [L B S D O H _].
  destruct (client_nat_transform_holds l _ _ _ _ direction Hh Hl Hwf) as (b' & Hb & Hh'). eauto 12.
Qed.

(** The transport segment of an IPv4 packet, where its header puts it, and its
    checksum with the pseudo header of the addresses in that header. *)
Definition ip_segment (pkt : bytes) : bytes :=
  let header := 4 * Z.land (field8 pkt 0) 15 in slice pkt header (field16 pkt IPH_TOT_LEN - header).
Definition transport_verifies (pkt : bytes) : Prop :=
  ip_checksum true (ip_segment pkt) (slice pkt IPH_SADDR 4) (slice pkt IPH_DADDR 4) (field8 pkt IPH_PROTOCOL) = Ret 0.

(** A whole TCP or UDP packet: no IP options, as long as its header says, no
    fragment, with a complete transport header and, in UDP, a checksum. *)
Definition whole_segment (pkt : bytes) : Prop :=
  field8 pkt 0 = 69 /\ field16 pkt IPH_TOT_LEN = zlen pkt /\ Z.land (field16 pkt IPH_FRAG_OFF) 16383 = 0 /\
  ((field8 pkt IPH_PROTOCOL = OPENVPN_IPPROTO_TCP /\ SIZEOF_IPHDR + SIZEOF_TCPHDR <= zlen pkt) \/
   (field8 pkt IPH_PROTOCOL = OPENVPN_IPPROTO_UDP /\ SIZEOF_IPHDR + SIZEOF_UDPHDR <= zlen pkt /\ field16 pkt (SIZEOF_IPHDR + UDPH_CHECK) <> 0)).

Lemma whole_segment_check pkt : whole_segment pkt -> exists o, l4_check pkt = Some o.
Proof.
  intros (_ & _ & _ & [[Hp Hl]|(Hp & Hl & _)]); unfold l4_check; rewrite Hp; cbn [Z.eqb Pos.eqb OPENVPN_IPPROTO_TCP OPENVPN_IPPROTO_UDP];
    rewrite (proj2 (Z.leb_le _ _) Hl); eauto.
Qed.

Lemma whole_segment_drop pkt : field8 pkt 0 = 69 -> field16 pkt IPH_TOT_LEN = zlen pkt -> ip_segment pkt = drop 20 pkt.
Proof. intros H0 Ht. unfold ip_segment. rewrite H0, Ht. change (4 * Z.land 69 15) with 20. unfold slice. rewrite take_ge; [done|]. rewrite length_drop. lia. Qed.

(** C34. Client NAT keeps the TCP or UDP checksum: a packet without IP options that
    is no fragment, has a complete transport header and, in UDP, carries a
    checksum, verifies against the translated addresses exactly when it verified
    against the original ones. *)
Theorem client_nat_keeps_transport_checksum l b hd pkt tl direction :
  holds b hd pkt tl -> Forall entry_wf l -> whole_segment pkt ->
  exists b' pkt', client_nat_transform l b direction = Ret b' /\ holds b' hd pkt' tl /\
    saddr pkt' = nat_addr direction false l (saddr pkt) /\ daddr pkt' = nat_addr direction true l (daddr pkt) /\
    (transport_verifies pkt' <-> transport_verifies pkt).
Proof.
  intros Hh Hwf Hwhole. pose proof (holds_bytes _ _ _ _ Hh) as Hby. destruct (whole_segment_check _ Hwhole) as (o & Ho).
  destruct Hwhole as (Hv & Htot & _ & _). destruct (l4_check_range _ _ Ho) as [Ho2 Hlo].
  assert (Hl : 20 <= zlen pkt < 65536).
  { pose proof (be_val_range (slice pkt IPH_TOT_LEN 2) ltac:(by apply Forall_slice)) as Hr. fold (field16 pkt IPH_TOT_LEN) in Hr.
    rewrite zlen_slice in Hr by (unfold IPH_TOT_LEN; lia). change (256 ^ 2) with 65536 in Hr. lia. }
  destruct (nat_packet_result direction l pkt Hby ltac:(lia) Hwf) as [L B Hsrc Hdst Hoth _ S]. specialize (S o Ho).
  destruct (client_nat_transform_holds l _ _ _ _ direction Hh ltac:(lia) Hwf) as (b' & Hb & Hh').
  exists b', (nat_packet direction l pkt). split; [done|]. split; [done|]. set (pkt' := nat_packet direction l pkt) in *. split; [done|]. split; [done|].
  assert (Hfield : forall p n, 0 <= p -> p + n <= 10 -> slice pkt' p n = slice pkt p n).
  { intros p n Hp0 Hn. apply slice_ext_eq. intros i Hi. apply Hoth; [lia|]. intros o' Ho'. assert (o' = o) by congruence. lia. }
  unfold transport_verifies. rewrite !whole_segment_drop; try done.
  2:{ unfold field8. rewrite Hfield by lia. done. }
  2:{ unfold field16. rewrite Hfield by (unfold IPH_TOT_LEN; lia). by rewrite L. }
  assert (Hp8 : field8 pkt' IPH_PROTOCOL = field8 pkt IPH_PROTOCOL) by (unfold field8; rewrite Hfield by (unfold IPH_PROTOCOL; lia); done).
  rewrite Hp8. unfold IPH_SADDR, IPH_DADDR.
  assert (Hpr : 0 < field8 pkt IPH_PROTOCOL < 256).
  { unfold l4_check, OPENVPN_IPPROTO_TCP, OPENVPN_IPPROTO_UDP in Ho. destruct (_ =? 6) eqn:E1; [lia|]. destruct (_ =? 17) eqn:E2; [lia|done]. }
  clear Hfield Hoth Hp8. set (proto := field8 pkt IPH_PROTOCOL) in *.
  destruct (ip_checksum_spec true (drop 20 pkt) (slice pkt 12 4) (slice pkt 16 4) proto) as (r & Hr & _ & _ & Hr0);
    [by apply Forall_drop|by apply Forall_slice|by apply Forall_slice|rewrite length_drop; lia|apply zlen_slice; lia|apply zlen_slice; lia|done|].
  destruct (ip_checksum_spec true (drop 20 pkt') (slice pkt' 12 4) (slice pkt' 16 4) proto) as (r' & Hr' & _ & _ & Hr0');
    [by apply Forall_drop|by apply Forall_slice|by apply Forall_slice|rewrite length_drop; lia|apply zlen_slice; lia|apply zlen_slice; lia|done|].
  rewrite Hr, Hr'. assert (Hiff : checksum_ok (drop 20 pkt') (slice pkt' 12 4) (slice pkt' 16 4) proto <->
    checksum_ok (drop 20 pkt) (slice pkt 12 4) (slice pkt 16 4) proto).
  { unfold checksum_ok, packet_sum. rewrite !length_drop, L. rewrite S. done. }
  split; intros [= ->]; f_equal; tauto.
Qed.

(** Copying a table into another appends its entries in order up to the
    capacity of 64 and drops the rest. *)
Theorem copy_client_nat_bounded dest src :
  zlen dest <= MAX_CLIENT_NAT ->
  copy_client_nat_option_list dest src = dest ++ take (64 - length dest) src /\
  zlen (copy_client_nat_option_list dest src) <= MAX_CLIENT_NAT.
Proof.
  unfold MAX_CLIENT_NAT. intros Hd. assert (H : copy_client_nat_option_list dest src = dest ++ take (64 - length dest) src).
  { revert dest Hd. induction src as [|e src IH]; intros dest Hd; cbn [copy_client_nat_option_list].
    { by rewrite take_nil, app_nil_r. }
    unfold add_entry, MAX_CLIENT_NAT. destruct (64 <=? zlen dest) eqn:E.
    - replace (64 - length dest)%nat with 0%nat by lia. by rewrite take_0, app_nil_r.
    - rewrite IH by (rewrite length_app; simpl; lia). rewrite length_app, <- (assoc_L (++)). f_equal. simpl.
      replace (64 - length dest)%nat with (S (64 - (length dest + 1)))%nat by lia. done. }
  split; [done|]. rewrite H, length_app, length_take. lia.
Qed.

(** Translating an address back: the host bits are kept, the network bits are
    those of the rule. *)
Lemma translate_inverse e a :
  entry_wf e -> 0 <= a < 2 ^ 32 -> Z.land a (netmask e) = network e -> Z.land (foreign_network e) (netmask e) = foreign_network e ->
  let t := translate 0 e a in Z.land t (netmask e) = foreign_network e /\ translate 1 e t = a.
Proof.
  intros (Hn & Hm & Hf) Ha Hna Hff. unfold translate, rule_to. cbn [Z.eqb negb].
  assert (Hbits : forall x i, 0 <= x < 2 ^ 32 -> 0 <= i -> Z.testbit x i = Z.testbit x i && (i <? 32)).
  { intros x i Hx Hi. destruct (i <? 32) eqn:E; [by rewrite andb_true_r|]. rewrite <- (Z.mod_small x (2 ^ 32)) by done.
    rewrite Z.mod_pow2_bits_high by lia. done. }
  assert (Hnot : forall i, 0 <= i -> Z.testbit (u32 (Z.lnot (netmask e))) i = negb (Z.testbit (netmask e) i) && (i <? 32)).
  { intros i Hi. unfold u32. destruct (i <? 32) eqn:E.
    - rewrite Z.mod_pow2_bits_low, Z.lnot_spec by lia. by rewrite andb_true_r.
    - rewrite Z.mod_pow2_bits_high by lia. by rewrite andb_false_r. }
  split; apply Z.bits_inj'; intros i Hi; repeat (rewrite Z.land_spec || rewrite Z.lor_spec); rewrite !Hnot by done;
    apply (f_equal (λ z, Z.testbit z i)) in Hna, Hff; rewrite Z.land_spec in Hna, Hff.
  - rewrite <- Hff. destruct (Z.testbit (netmask e) i), (Z.testbit a i), (Z.testbit (foreign_network e) i), (i <? 32); done.
  - rewrite <- Hna, <- Hff. rewrite (Hbits a i) by done.
    destruct (Z.testbit (netmask e) i), (Z.testbit a i), (Z.testbit (foreign_network e) i), (i <? 32); done.
Qed.

(** Source NAT is undone on the way back: with one rule whose networks
    have no host bits, the source address of an outgoing packet in the
    client's network is translated to the foreign one, and a reply addressed
    to the translated address is delivered to the original address. *)
Theorem client_nat_reply_roundtrip e b hd pkt tl b2 hd2 reply tl2 :
  entry_wf e -> cn_type e = CN_SNAT -> Z.land (foreign_network e) (netmask e) = foreign_network e ->
  holds b hd pkt tl -> 20 <= zlen pkt -> Z.land (saddr pkt) (netmask e) = network e ->
  holds b2 hd2 reply tl2 -> 20 <= zlen reply ->
  exists b' pkt', client_nat_transform [e] b CN_OUTGOING = Ret b' /\ holds b' hd pkt' tl /\
    Z.land (saddr pkt') (netmask e) = foreign_network e /\
    (daddr reply = saddr pkt' ->
     exists b2' reply', client_nat_transform [e] b2 CN_INCOMING = Ret b2' /\ holds b2' hd2 reply' tl2 /\
       daddr reply' = saddr pkt).
Proof.
  intros He Ht Hff Hh Hl Hn Hh2 Hl2. pose proof (holds_bytes _ _ _ _ Hh) as Hby. pose proof (holds_bytes _ _ _ _ Hh2) as Hby2.
  assert (Hwf : Forall entry_wf [e]) by (by apply Forall_singleton).
  destruct (nat_packet_result CN_OUTGOING [e] pkt Hby Hl Hwf) as [_ _ S _ _ _ _].
  destruct (client_nat_transform_holds [e] _ _ _ _ CN_OUTGOING Hh Hl Hwf) as (b' & Hb & Hh').
  destruct (nat_packet_result CN_INCOMING [e] reply Hby2 Hl2 Hwf) as [_ _ _ D _ _ _].
  destruct (client_nat_transform_holds [e] _ _ _ _ CN_INCOMING Hh2 Hl2 Hwf) as (b2' & Hb2 & Hh2').
  assert (Hsr : 0 <= saddr pkt < 2 ^ 32) by (apply (addr_at_range false); done).
  destruct (translate_inverse e (saddr pkt) He Hsr Hn Hff) as [Hm Hinv].
  assert (Hs0 : eqb (about_dst CN_OUTGOING e) false = true) by (unfold about_dst; by rewrite Ht).
  assert (Hd1 : eqb (about_dst CN_INCOMING e) true = true) by (unfold about_dst; by rewrite Ht).
  cbn [nat_addr] in S, D. rewrite Hs0 in S. rewrite Hd1 in D. cbn [andb] in S, D.
  change (rule_from CN_OUTGOING e) with (network e) in S. change (rule_from CN_INCOMING e) with (foreign_network e) in D.
  rewrite Hn, Z.eqb_refl in S. cbv zeta in Hm, Hinv. change CN_OUTGOING with 0 in *. change CN_INCOMING with 1 in *.
  exists b', (nat_packet 0 [e] pkt). split; [done|]. split; [done|]. rewrite S. split; [done|].
  intros Hd. exists b2', (nat_packet 1 [e] reply). split; [done|]. split; [done|].
  rewrite D, Hd, Hm, Z.eqb_refl. done.
Qed.

(** ** Concrete packets *)

(** 192.168.1.0/24 is shown as 10.64.1.0/24. *)
Definition demo_rule : client_nat_entry :=
  mkcn CN_SNAT (le_val [192; 168; 1; 0]) (le_val [255; 255; 255; 0]) (le_val [10; 64; 1; 0]).

(** An IPv4 packet from 192.168.1.5 to 8.8.8.8. *)
Definition demo_packet (frag_off : bytes) (proto : Z) (payload : bytes) : bytes :=
  [69; 0] ++ be_bytes 2 (20 + zlen payload) ++ [0; 0] ++ frag_off ++ [64; proto; 0; 0] ++ [192; 168; 1; 5; 8; 8; 8; 8] ++ payload.

Definition demo_udp (ck : bytes) : bytes := demo_packet [0; 0] 17 ([0; 1; 0; 2; 0; 8] ++ ck).
Definition demo_reply : bytes := [69; 0; 0; 20; 0; 0; 0; 0; 64; 1; 0; 0; 8; 8; 8; 8; 10; 64; 1; 5].

Lemma demo_rule_wf : entry_wf demo_rule.
Proof. repeat split; vm_compute; congruence. Qed.

Lemma client_nat_translates_witness :
  exists b' pkt', client_nat_transform [demo_rule] (buf_of (demo_udp [1; 2])) 0 = Ret b' /\ holds b' 0 pkt' 0 /\
    length pkt' = length (demo_udp [1; 2]) /\
    saddr pkt' = nat_addr 0 false [demo_rule] (saddr (demo_udp [1; 2])) /\
    daddr pkt' = nat_addr 0 true [demo_rule] (daddr (demo_udp [1; 2])) /\
    (forall i, ~ (10 <= Z.of_nat i < 20) ->
       (forall o, l4_check (demo_udp [1; 2]) = Some o -> ~ (o <= Z.of_nat i < o + 2)) -> pkt' !! i = demo_udp [1; 2] !! i) /\
    eq1c (word_sum (take 20 pkt')) (word_sum (take 20 (demo_udp [1; 2]))).
Proof.
  apply (client_nat_translates [demo_rule] _ 0 (demo_udp [1; 2]) 0 0).
  - apply buf_of_holds; vm_compute; done.
  - vm_compute. congruence.
  - apply Forall_singleton, demo_rule_wf.
Defined.

Lemma copy_client_nat_bounded_witness :
  copy_client_nat_option_list (replicate 63 demo_rule) [demo_rule; demo_rule] =
    replicate 63 demo_rule ++ take (64 - length (replicate 63 demo_rule)) [demo_rule; demo_rule] /\
  zlen (copy_client_nat_option_list (replicate 63 demo_rule) [demo_rule; demo_rule]) <= MAX_CLIENT_NAT.
Proof. apply copy_client_nat_bounded. vm_compute. congruence. Defined.

Lemma client_nat_keeps_transport_checksum_witness :
  exists b' pkt', client_nat_transform [demo_rule] (buf_of (demo_udp [46; 30])) 0 = Ret b' /\ holds b' 0 pkt' 0 /\
    saddr pkt' = le_val [10; 64; 1; 5] /\ transport_verifies pkt'.
Proof.
  destruct (client_nat_keeps_transport_checksum [demo_rule] (buf_of (demo_udp [46; 30])) 0 (demo_udp [46; 30]) 0 0) as (b' & pkt' & H1 & H2 & H3 & _ & H4).
  - apply buf_of_holds; vm_compute; done.
  - apply Forall_singleton, demo_rule_wf.
  - split_and!; [by vm_compute..|]. right. vm_compute. split_and!; congruence.
  - exists b', pkt'. split; [exact H1|]. split; [exact H2|]. split; [rewrite H3; by vm_compute|]. apply H4. by vm_compute.
Defined.

Lemma client_nat_reply_roundtrip_witness :
  exists b' pkt', client_nat_transform [demo_rule] (buf_of (demo_udp [1; 2])) CN_OUTGOING = Ret b' /\ holds b' 0 pkt' 0 /\
    Z.land (saddr pkt') (netmask demo_rule) = foreign_network demo_rule /\
    (daddr demo_reply = saddr pkt' ->
     exists b2' reply', client_nat_transform [demo_rule] (buf_of demo_reply) CN_INCOMING = Ret b2' /\ holds b2' 0 reply' 0 /\
       daddr reply' = saddr (demo_udp [1; 2])).
Proof.
  apply (client_nat_reply_roundtrip demo_rule _ 0 (demo_udp [1; 2]) 0 _ 0 demo_reply 0);
    try (apply buf_of_holds; vm_compute; done); try (vm_compute; done); try (vm_compute; congruence).
Defined.

(** A UDP datagram without checksum gets one: a zero checksum field means
    that the sender computed none, but the adjustment is applied to it all the
    same, and the result is not the checksum of the datagram. *)
Theorem client_nat_udp_without_checksum :
  let pkt := demo_udp [0; 0] in
  field16 pkt 26 = 0 /\
  exists b', client_nat_transform [demo_rule] (buf_of pkt) CN_OUTGOING = Ret b' /\
    let pkt' := content b' in
    field16 pkt' 26 = 46696 /\
    ip_checksum true (drop 20 pkt') (slice pkt' IPH_SADDR 4) (slice pkt' IPH_DADDR 4) OPENVPN_IPPROTO_UDP <> Ret 0.
Proof. split; [vm_compute; done|]. eexists. split; [vm_compute; done|]. split; [vm_compute; done|]. vm_compute. congruence. Qed.

(** The payload of a later fragment is modified: the code adjusts bytes 36
    and 37 of any TCP packet of at least 40 bytes, without looking at the
    fragment offset (or at the length of the IP header). *)
Theorem client_nat_modifies_fragment_payload :
  let pkt := demo_packet [0; 185] 6 (replicate 20 7) in
  negb (Z.land (field16 pkt IPH_FRAG_OFF) OPENVPN_IP_OFFMASK =? 0) = true /\
  exists b', client_nat_transform [demo_rule] (buf_of pkt) CN_OUTGOING = Ret b' /\
    drop 20 pkt = replicate 20 7 /\ drop 20 (content b') <> replicate 20 7.
Proof. split; [vm_compute; done|]. eexists. split; [vm_compute; done|]. split; [vm_compute; done|]. vm_compute. congruence. Qed.
