(* ===== verification/Dhcp.v ===== *)
(** * Router option of DHCP replies (openvpn dhcp.c)

    [dhcp_extract_router_msg] looks at a UDP packet from port 67 to port 68;
    from an acknowledgement or offer it takes the router address, deletes all
    router options in place and seals the packet with a new UDP checksum.
    [extract_opts] is the deletion on the bytes of the option area alone;
    [items] describes well-formed option areas. *)

From S2P Require Import Prelude Buffer Proto.
From stdpp Require Import prelude.
From Stdlib Require Import ZArith Lia ZifyBool.

Local Open Scope Z_scope.

Definition DHCP_PAD : Z := 0.
Definition DHCP_ROUTER : Z := 3.
Definition DHCP_MSG_TYPE : Z := 53.
Definition DHCP_END : Z := 255.
Definition DHCPOFFER : Z := 2.
Definition DHCPACK : Z := 5.
Definition BOOTPS_PORT : Z := 67.
Definition BOOTPC_PORT : Z := 68.
Definition BOOTREPLY : Z := 2.
Definition SIZEOF_DHCP : Z := 240.

(** [p] is the start of the options. *)
Fixpoint message_type_loop (fuel : nat) (b : buffer) (p i optlen : Z) : outcome Z :=
  match fuel with
  | O => Fault
  | S fuel =>
      if i <? optlen then
        type ← get_u8 b (p + i);
        let room := optlen - i in
        if type =? DHCP_END then Ret (-1)
        else if type =? DHCP_PAD then message_type_loop fuel b p (i + 1) optlen
        else if type =? DHCP_MSG_TYPE then
          if 3 <=? room then
            l ← get_u8 b (p + (i + 1));
            if l =? 1 then get_u8 b (p + (i + 2)) else Ret (-1)
          else Ret (-1)
        else if 2 <=? room then
          len ← get_u8 b (p + (i + 1));
          message_type_loop fuel b p (i + (len + 1) + 1) optlen
        else message_type_loop fuel b p (i + 1) optlen
      else Ret (-1)
  end.

Definition get_dhcp_message_type (b : buffer) (dhcp optlen : Z) : outcome Z :=
  message_type_loop (S (Z.to_nat optlen)) b (dhcp + SIZEOF_DHCP) 0 optlen.

(** Deleting the option of [len] data bytes at [i]. *)
Definition delete_router (b : buffer) (p i len optlen : Z) : outcome buffer :=
  let dest := p + i in
  let owlen := len + 2 in
  let src := dest + owlen in
  let end_ := p + optlen in
  let movlen := end_ - src in
  b ← (if 0 <? movlen then d ← peek b src movlen; poke b dest d else Ret b);
  poke b (end_ - owlen) (replicate (Z.to_nat owlen) DHCP_PAD).

Fixpoint extract_loop (fuel : nat) (b : buffer) (p i optlen ret : Z) : outcome (buffer * Z) :=
  match fuel with
  | O => Fault
  | S fuel =>
      if i <? optlen then
        type ← get_u8 b (p + i);
        let room := optlen - i in
        if type =? DHCP_END then Ret (b, ret)
        else if type =? DHCP_PAD then extract_loop fuel b p (i + 1) optlen ret
        else if type =? DHCP_ROUTER then
          if 2 <=? room then
            len ← get_u8 b (p + (i + 1));
            if len <=? room - 2 then
              ret ← (if (ret =? 0) && (4 <=? len) && (Z.land len 3 =? 0)
                     then d ← peek b (p + (i + 2)) 4; Ret (be_val d) else Ret ret);
              b ← delete_router b p i len optlen;
              extract_loop fuel b p i optlen ret
            else Ret (b, ret)
          else Ret (b, ret)
        else if 2 <=? room then
          len ← get_u8 b (p + (i + 1));
          extract_loop fuel b p (i + (len + 2)) optlen ret
        else Ret (b, ret)
      else Ret (b, ret)
  end.

(** Every round moves on or deletes an option: twice the length is enough. *)
Definition do_extract (b : buffer) (dhcp optlen : Z) : outcome (buffer * Z) :=
  extract_loop (S (2 * Z.to_nat optlen)) b (dhcp + SIZEOF_DHCP) 0 optlen 0.

(** "recompute the UDP checksum": clear the field, then store [htons] of the
    checksum over the datagram. *)
Definition recompute_udp_checksum (ipbuf : buffer) (df udp optlen : Z) : outcome buffer :=
  ipbuf ← poke ipbuf (udp + UDPH_CHECK) (be_bytes 2 0);
  payload ← peek ipbuf udp (SIZEOF_UDPHDR + SIZEOF_DHCP + optlen);
  saddr ← peek ipbuf (df + IPH_SADDR) 4;
  daddr ← peek ipbuf (df + IPH_DADDR) 4;
  check ← ip_checksum true payload saddr daddr OPENVPN_IPPROTO_UDP;
  poke ipbuf (udp + UDPH_CHECK) (be_bytes 2 check).

(** The router address is 0 when there is none to report. *)
Definition dhcp_extract_router_msg (ipbuf : buffer) : outcome (buffer * Z) :=
  let df := boffset ipbuf in
  let udp := df + SIZEOF_IPHDR in
  let dhcp := udp + SIZEOF_UDPHDR in
  let optlen := buf_len ipbuf - (SIZEOF_IPHDR + SIZEOF_UDPHDR + SIZEOF_DHCP) in
  if 0 <=? optlen then
    protocol ← get_u8 ipbuf (df + IPH_PROTOCOL);
    source ← get_n16 ipbuf (udp + 0);
    dest ← get_n16 ipbuf (udp + 2);
    op ← get_u8 ipbuf (dhcp + 0);
    if (protocol =? OPENVPN_IPPROTO_UDP) && (source =? BOOTPS_PORT) && (dest =? BOOTPC_PORT) && (op =? BOOTREPLY) then
      message_type ← get_dhcp_message_type ipbuf dhcp optlen;
      if (message_type =? DHCPACK) || (message_type =? DHCPOFFER) then
        '(ipbuf, ret) ← do_extract ipbuf dhcp optlen;
        ipbuf ← recompute_udp_checksum ipbuf df udp optlen;
        if message_type =? DHCPACK then Ret (ipbuf, ret) else Ret (ipbuf, 0)
      else Ret (ipbuf, 0)
    else Ret (ipbuf, 0)
  else Ret (ipbuf, 0).

(** ** The option area alone *)

Definition delete_at (opts : bytes) (i owlen : nat) : bytes :=
  take i opts ++ drop (i + owlen) opts ++ replicate owlen DHCP_PAD.

Definition router_of (ret len : Z) (d : bytes) : Z :=
  if (ret =? 0) && (4 <=? len) && (Z.land len 3 =? 0) then be_val d else ret.

Fixpoint extract_opts (fuel : nat) (opts : bytes) (i : nat) (ret : Z) : option (bytes * Z) :=
  match fuel with
  | O => None
  | S fuel =>
      match opts !! i with
      | None => Some (opts, ret)
      | Some type =>
          if type =? DHCP_END then Some (opts, ret)
          else if type =? DHCP_PAD then extract_opts fuel opts (S i) ret
          else
            match opts !! S i with
            | None => Some (opts, ret)
            | Some len =>
                if type =? DHCP_ROUTER then
                  if len <=? zlen opts - Z.of_nat i - 2 then
                    extract_opts fuel (delete_at opts i (Z.to_nat len + 2)) i
                      (router_of ret len (slice opts (Z.of_nat i + 2) 4))
                  else Some (opts, ret)
                else extract_opts fuel opts (i + (Z.to_nat len + 2)) ret
            end
      end
  end.

(** The message type of an option area, -1 when it has none. *)
Fixpoint msg_opts (fuel : nat) (opts : bytes) (i : nat) : Z :=
  match fuel with
  | O => -1
  | S fuel =>
      match opts !! i with
      | None => -1
      | Some type =>
          if type =? DHCP_END then -1
          else if type =? DHCP_PAD then msg_opts fuel opts (S i)
          else if type =? DHCP_MSG_TYPE then
            match opts !! S i, opts !! S (S i) with
            | Some l, Some v => if l =? 1 then v else -1
            | _, _ => -1
            end
          else match opts !! S i with
               | Some len => msg_opts fuel opts (i + (Z.to_nat len + 2))
               | None => -1
               end
      end
  end.

Definition message_type_of (opts : bytes) : Z := msg_opts (S (length opts)) opts 0.

Lemma delete_at_length opts i n : (i + n <= length opts)%nat -> length (delete_at opts i n) = length opts.
Proof. intros. unfold delete_at. rewrite !length_app, length_take, length_drop, length_replicate. lia. Qed.

Lemma delete_at_bytes opts i n : Forall is_byte opts -> Forall is_byte (delete_at opts i n).
Proof.
  intros H. unfold delete_at. rewrite !Forall_app. split_and!; [by apply Forall_take|by apply Forall_drop|].
  apply Forall_replicate. unfold is_byte, DHCP_PAD. lia.
Qed.

(** [extract_opts] keeps length and bytes. *)
Lemma extract_opts_wf fuel : forall opts i ret opts' ret',
  Forall is_byte opts -> extract_opts fuel opts i ret = Some (opts', ret') ->
  length opts' = length opts /\ Forall is_byte opts'.
Proof.
  induction fuel as [|fuel IH]; intros opts i ret opts' ret' Hby H; [done|]. cbn [extract_opts] in H.
  destruct (opts !! i) as [type|] eqn:Ht; [|by simplify_eq].
  destruct (type =? DHCP_END); [by simplify_eq|]. destruct (type =? DHCP_PAD); [by eapply IH|].
  destruct (opts !! S i) as [len|] eqn:Hlen; [|by simplify_eq].
  destruct (type =? DHCP_ROUTER); [|by eapply IH]. destruct (_ <=? _) eqn:E; [|by simplify_eq].
  pose proof (Forall_lookup_1 _ _ _ _ Hby Hlen) as Hl. unfold is_byte in Hl.
  apply IH in H as [HL HB]; [|by apply delete_at_bytes]. rewrite delete_at_length in HL by lia. done.
Qed.

(** A deletion takes one router byte out of the rest of the area. *)
Definition routers (l : bytes) : nat := length (filter (λ x, x = DHCP_ROUTER) l).

Lemma routers_app l1 l2 : routers (l1 ++ l2) = (routers l1 + routers l2)%nat.
Proof. unfold routers. by rewrite filter_app, length_app. Qed.

Lemma routers_drop n l : (routers (drop n l) <= routers l)%nat.
Proof. rewrite <- (take_drop n l) at 2. rewrite routers_app. lia. Qed.

Lemma routers_pad n : routers (replicate n DHCP_PAD) = 0%nat.
Proof. induction n as [|n IH]; [done|]. cbn [replicate]. unfold routers in *. by rewrite filter_cons_False. Qed.

Lemma routers_delete opts i n :
  (i <= length opts)%nat -> (0 < n)%nat -> opts !! i = Some DHCP_ROUTER ->
  (routers (drop i (delete_at opts i n)) < routers (drop i opts))%nat.
Proof.
  intros Hi Hn Hx. unfold delete_at. rewrite drop_app_length' by (rewrite length_take; lia).
  rewrite routers_app, routers_pad, (drop_S _ _ _ Hx). replace (i + n)%nat with (S i + (n - 1))%nat by lia.
  rewrite <- drop_drop. pose proof (routers_drop (n - 1) (drop (S i) opts)).
  assert (Hc : routers (DHCP_ROUTER :: drop (S i) opts) = S (routers (drop (S i) opts))).
  { unfold routers. by rewrite filter_cons_True. }
  rewrite Hc. lia.
Qed.

Lemma extract_opts_total fuel : forall opts i ret,
  Forall is_byte opts -> (length opts - i + routers (drop i opts) < fuel)%nat ->
  exists r, extract_opts fuel opts i ret = Some r.
Proof.
  induction fuel as [|fuel IH]; intros opts i ret Hby Hf; [lia|]. cbn [extract_opts].
  destruct (opts !! i) as [type|] eqn:Ht; [|eauto]. pose proof (lookup_lt_Some _ _ _ Ht) as Hi.
  destruct (type =? DHCP_END); [eauto|].
  assert (Hadv : forall k, (0 < k)%nat -> (length opts - (i + k) + routers (drop (i + k) opts) < fuel)%nat).
  { intros k Hk. rewrite <- drop_drop. pose proof (routers_drop k (drop i opts)). lia. }
  destruct (type =? DHCP_PAD); [apply IH; [done|]; specialize (Hadv 1%nat ltac:(lia)); by rewrite Nat.add_1_r in Hadv|].
  destruct (opts !! S i) as [len|] eqn:Hlen; [|eauto].
  destruct (type =? DHCP_ROUTER) eqn:Er; [|apply IH; [done|]; apply Hadv; lia].
  destruct (_ <=? _) eqn:E; [|eauto]. pose proof (Forall_lookup_1 _ _ _ _ Hby Hlen) as Hl. unfold is_byte in Hl.
  apply IH; [by apply delete_at_bytes|]. rewrite delete_at_length by lia.
  pose proof (routers_delete opts i (Z.to_nat len + 2) ltac:(lia) ltac:(lia)) as Hd.
  rewrite Ht in Hd. assert (type = DHCP_ROUTER) as -> by lia. specialize (Hd eq_refl). lia.
Qed.

(** ** The loops in the window of the packet

    The packet is [pre ++ opts]. *)
Section options.
Context (b : buffer) (blk : bytes) (Hok : buf_ok b blk) (pre : bytes).
Let p := boffset b + zlen pre.

Lemma opt_get opts (i : nat) x z :
  zlen (pre ++ opts) = blen b -> opts !! i = Some x -> z = Z.of_nat i ->
  get_u8 (win b blk (pre ++ opts)) (p + z) = Ret x.
Proof using Hok.
  intros Hc Hx ->. unfold p. rewrite <- Z.add_assoc. apply (win_get_u8 b blk Hok); [done|lia|].
  rewrite lookup_app_r by lia. rewrite <- Hx. f_equal. lia.
Qed.

Lemma opt_peek opts z n :
  zlen (pre ++ opts) = blen b -> 0 <= z -> 0 <= n -> z + n <= zlen opts ->
  peek (win b blk (pre ++ opts)) (p + z) n = Ret (slice opts z n).
Proof using Hok.
  intros Hc Hz Hn Hl. unfold p. rewrite <- Z.add_assoc. rewrite (win_peek b blk) by (done || (rewrite ?length_app; lia)).
  f_equal. unfold slice. f_equal. replace (Z.to_nat (zlen pre + z)) with (length pre + Z.to_nat z)%nat by lia.
  rewrite drop_app_add. done.
Qed.

Lemma splice_suffix {A} (l1 l2 : list A) z s :
  0 <= z -> splice (l1 ++ l2) (zlen l1 + z) s = l1 ++ splice l2 z s.
Proof.
  intros Hz. unfold splice. replace (Z.to_nat (zlen l1 + z)) with (length l1 + Z.to_nat z)%nat by lia.
  rewrite take_app_add, <- Nat.add_assoc, drop_app_add. by rewrite <- (assoc_L (++)).
Qed.

Lemma opt_poke opts z s :
  zlen (pre ++ opts) = blen b -> 0 <= z -> z + zlen s <= zlen opts ->
  poke (win b blk (pre ++ opts)) (p + z) s = Ret (win b blk (pre ++ splice opts z s)).
Proof using Hok.
  intros Hc Hz Hl. unfold p. rewrite <- Z.add_assoc. rewrite (win_poke b blk) by (done || (rewrite ?length_app; lia)).
  by rewrite splice_suffix.
Qed.

Lemma delete_router_win opts (i : nat) len :
  zlen (pre ++ opts) = blen b -> 0 <= len -> Z.of_nat i + len + 2 <= zlen opts ->
  delete_router (win b blk (pre ++ opts)) p (Z.of_nat i) len (zlen opts) =
  Ret (win b blk (pre ++ delete_at opts i (Z.to_nat len + 2))).
Proof using Hok.
  intros Hc Hlen Hl. unfold delete_router. set (ow := (Z.to_nat len + 2)%nat).
  replace (Z.to_nat (len + 2)) with ow by lia.
  replace (p + Z.of_nat i + (len + 2)) with (p + (Z.of_nat i + Z.of_nat ow)) by lia.
  replace (p + zlen opts - (p + (Z.of_nat i + Z.of_nat ow))) with (zlen opts - Z.of_nat i - Z.of_nat ow) by lia.
  replace (p + zlen opts - (len + 2)) with (p + (zlen opts - Z.of_nat ow)) by lia.
  assert (Hmid : exists o1, (if 0 <? zlen opts - Z.of_nat i - Z.of_nat ow
     then d ← peek (win b blk (pre ++ opts)) (p + (Z.of_nat i + Z.of_nat ow)) (zlen opts - Z.of_nat i - Z.of_nat ow);
          poke (win b blk (pre ++ opts)) (p + Z.of_nat i) d
     else Ret (win b blk (pre ++ opts))) = Ret (win b blk (pre ++ o1)) /\ length o1 = length opts /\
     take (length opts - ow) o1 = take i opts ++ drop (i + ow) opts).
  { destruct (0 <? _) eqn:E.
    - rewrite opt_peek by lia. cbn [mbind outcome_bind]. set (d := slice _ _ _).
      assert (Hd : d = drop (i + ow) opts).
      { unfold d, slice. rewrite take_ge by (rewrite length_drop; lia). f_equal. lia. }
      assert (Hdl : length d = (length opts - i - ow)%nat) by (rewrite Hd, length_drop; lia).
      rewrite opt_poke by lia. eexists. split; [done|]. split; [apply length_splice; lia|].
      unfold splice. rewrite Nat2Z.id, (assoc_L (++)), take_app_length'; [by rewrite Hd|].
      rewrite length_app, length_take. lia.
    - exists opts. split; [done|]. split; [done|]. rewrite (drop_ge _ (i + ow)) by lia. rewrite app_nil_r. f_equal. lia. }
  destruct Hmid as (o1 & -> & Hl1 & Ht1). cbn [mbind outcome_bind].
  assert (Hc1 : zlen (pre ++ o1) = blen b) by (rewrite length_app in *; lia).
  rewrite opt_poke by (rewrite ?length_replicate; done || lia). do 3 f_equal. unfold splice, delete_at.
  replace (Z.to_nat (zlen opts - Z.of_nat ow)) with (length opts - ow)%nat by lia. rewrite Ht1, length_replicate.
  rewrite (drop_ge o1) by lia. by rewrite app_nil_r, <- (assoc_L (++)).
Qed.

Lemma extract_loop_win fuel : forall opts (i : nat) ret opts' ret',
  zlen (pre ++ opts) = blen b -> Forall is_byte opts -> extract_opts fuel opts i ret = Some (opts', ret') ->
  extract_loop fuel (win b blk (pre ++ opts)) p (Z.of_nat i) (zlen opts) ret = Ret (win b blk (pre ++ opts'), ret').
Proof using Hok.
  induction fuel as [|fuel IH]; intros opts i ret opts' ret' Hc Hby H; [done|]. cbn [extract_opts] in H. cbn [extract_loop].
  destruct (opts !! i) as [type|] eqn:Ht.
  2:{ apply lookup_ge_None in Ht. destruct (_ <? _) eqn:E; [lia|]. by simplify_eq. }
  pose proof (lookup_lt_Some _ _ _ Ht) as Hi. destruct (_ <? _) eqn:E; [|lia]. clear E.
  rewrite (opt_get opts i type (Z.of_nat i) Hc Ht eq_refl). cbn [mbind outcome_bind].
  destruct (type =? DHCP_END); [by simplify_eq|].
  destruct (type =? DHCP_PAD). { replace (Z.of_nat i + 1) with (Z.of_nat (S i)) by lia. by apply IH. }
  destruct (opts !! S i) as [len|] eqn:Hlen.
  2:{ apply lookup_ge_None in Hlen. destruct (2 <=? _) eqn:E; [lia|]. simplify_eq. by destruct (type =? DHCP_ROUTER). }
  pose proof (lookup_lt_Some _ _ _ Hlen) as Hi2. destruct (2 <=? zlen opts - Z.of_nat i) eqn:E; [|lia]. clear E.
  pose proof (Forall_lookup_1 _ _ _ _ Hby Hlen) as Hl. unfold is_byte in Hl.
  rewrite (opt_get opts (S i) len (Z.of_nat i + 1) Hc Hlen ltac:(lia)). cbn [mbind outcome_bind].
  destruct (type =? DHCP_ROUTER).
  2:{ replace (Z.of_nat i + (len + 2)) with (Z.of_nat (i + (Z.to_nat len + 2))) by lia. by apply IH. }
  destruct (len <=? _) eqn:E; [|by simplify_eq].
  assert (Hr : (if (ret =? 0) && (4 <=? len) && (Z.land len 3 =? 0)
      then d ← peek (win b blk (pre ++ opts)) (p + (Z.of_nat i + 2)) 4; Ret (be_val d) else Ret ret) =
      Ret (router_of ret len (slice opts (Z.of_nat i + 2) 4))).
  { unfold router_of. destruct (_ && _) eqn:E2; [|done]. by rewrite opt_peek by lia. }
  rewrite Hr. cbn [mbind outcome_bind]. rewrite delete_router_win by (done || lia). cbn [mbind outcome_bind].
  assert (Hdl : length (delete_at opts i (Z.to_nat len + 2)) = length opts) by (apply delete_at_length; lia).
  rewrite <- Hdl. apply IH; [rewrite length_app in *; lia|by apply delete_at_bytes|done].
Qed.

Lemma message_type_loop_win fuel : forall opts (i : nat),
  zlen (pre ++ opts) = blen b -> Forall is_byte opts -> (length opts - i < fuel)%nat ->
  message_type_loop fuel (win b blk (pre ++ opts)) p (Z.of_nat i) (zlen opts) = Ret (msg_opts fuel opts i).
Proof using Hok.
  induction fuel as [|fuel IH]; intros opts i Hc Hby Hf; [lia|]. cbn [message_type_loop msg_opts].
  destruct (opts !! i) as [type|] eqn:Ht.
  2:{ apply lookup_ge_None in Ht. destruct (_ <? _) eqn:E; [lia|]. done. }
  pose proof (lookup_lt_Some _ _ _ Ht) as Hi. destruct (_ <? _) eqn:E; [|lia]. clear E.
  rewrite (opt_get opts i type (Z.of_nat i) Hc Ht eq_refl). cbn [mbind outcome_bind].
  destruct (type =? DHCP_END); [done|].
  destruct (type =? DHCP_PAD). { replace (Z.of_nat i + 1) with (Z.of_nat (S i)) by lia. apply IH; done || lia. }
  destruct (type =? DHCP_MSG_TYPE).
  - destruct (opts !! S i) as [l|] eqn:Hl.
    2:{ apply lookup_ge_None in Hl. destruct (3 <=? _) eqn:E; [lia|done]. }
    destruct (opts !! S (S i)) as [v|] eqn:Hv.
    2:{ apply lookup_ge_None in Hv. destruct (3 <=? _) eqn:E; [lia|done]. }
    pose proof (lookup_lt_Some _ _ _ Hv). destruct (3 <=? _) eqn:E; [|lia].
    rewrite (opt_get opts (S i) l (Z.of_nat i + 1) Hc Hl ltac:(lia)). cbn [mbind outcome_bind].
    destruct (l =? 1); [|done]. by rewrite (opt_get opts (S (S i)) v (Z.of_nat i + 2) Hc Hv ltac:(lia)).
  - destruct (opts !! S i) as [len|] eqn:Hlen.
    2:{ apply lookup_ge_None in Hlen. destruct (2 <=? _) eqn:E; [lia|]. clear E.
        destruct fuel as [|fuel]; [lia|]. cbn [message_type_loop]. destruct (_ <? _) eqn:E; [lia|done]. }
    pose proof (lookup_lt_Some _ _ _ Hlen). destruct (2 <=? _) eqn:E; [|lia]. clear E.
    pose proof (Forall_lookup_1 _ _ _ _ Hby Hlen) as Hl. unfold is_byte in Hl.
    rewrite (opt_get opts (S i) len (Z.of_nat i + 1) Hc Hlen ltac:(lia)). cbn [mbind outcome_bind].
    replace (Z.of_nat i + (len + 1) + 1) with (Z.of_nat (i + (Z.to_nat len + 2))) by lia. apply IH; done || lia.
Qed.
End options.

(** ** The whole packet *)

(** A DHCP reply to the client that carries an acknowledgement or an offer. *)
Definition dhcp_reply (pkt : bytes) : bool :=
  (268 <=? zlen pkt) && (field8 pkt IPH_PROTOCOL =? OPENVPN_IPPROTO_UDP) && (field16 pkt 20 =? BOOTPS_PORT)
  && (field16 pkt 22 =? BOOTPC_PORT) && (field8 pkt 28 =? BOOTREPLY)
  && ((message_type_of (drop 268 pkt) =? DHCPACK) || (message_type_of (drop 268 pkt) =? DHCPOFFER)).

(** The packet with the option area [opts'] and the new checksum. *)
Definition sealed (pkt opts' pkt' : bytes) : Prop :=
  drop 268 pkt' = opts' /\ (forall i, (i < 268)%nat -> i <> 26%nat -> i <> 27%nat -> pkt' !! i = pkt !! i) /\
  ip_checksum true (drop 20 pkt') (slice pkt' IPH_SADDR 4) (slice pkt' IPH_DADDR 4) OPENVPN_IPPROTO_UDP = Ret 0.

Lemma slice_drop_all (c : bytes) o : 0 <= o <= zlen c -> slice c o (zlen c - o) = drop (Z.to_nat o) c.
Proof. intros. unfold slice. apply take_ge. rewrite length_drop. lia. Qed.

Lemma recompute_udp_checksum_win b blk c :
  buf_ok b blk -> zlen c = blen b -> Forall is_byte c -> 268 <= zlen c < 65536 ->
  exists c', recompute_udp_checksum (win b blk c) (boffset b) (boffset b + 20) (zlen c - 268) = Ret (win b blk c') /\
    length c' = length c /\ Forall is_byte c' /\ sealed c (drop 268 c) c'.
Proof.
  intros Hok Hc Hby Hl. unfold recompute_udp_checksum, UDPH_CHECK, SIZEOF_UDPHDR, SIZEOF_DHCP.
  rewrite <- !Z.add_assoc. change (20 + 6) with 26. replace (8 + (240 + (zlen c - 268))) with (zlen c - 20) by lia.
  rewrite (win_poke b blk) by (rewrite ?length_be_bytes; done || lia). cbn [mbind outcome_bind].
  set (c0 := splice c 26 (be_bytes 2 0)).
  assert (L0 : length c0 = length c) by (apply length_splice; rewrite ?length_be_bytes; lia).
  assert (B0 : Forall is_byte c0) by (apply Forall_splice; [done|apply be_bytes_is_byte]).
  rewrite !(win_peek b blk) by (unfold IPH_SADDR, IPH_DADDR; rewrite ?L0; done || lia). cbn [mbind outcome_bind].
  replace (zlen c - 20) with (zlen c0 - 20) by lia. rewrite slice_drop_all by lia. change (Z.to_nat 20) with 20%nat.
  destruct (ip_checksum_spec true (drop 20 c0) (slice c0 IPH_SADDR 4) (slice c0 IPH_DADDR 4) 17) as (r & Hr & _);
    [by apply Forall_drop|by apply Forall_slice|by apply Forall_slice|rewrite length_drop; lia
    |apply zlen_slice; unfold IPH_SADDR; lia|apply zlen_slice; unfold IPH_DADDR; lia|lia|].
  change OPENVPN_IPPROTO_UDP with 17. rewrite Hr. cbn [mbind outcome_bind].
  rewrite (win_poke b blk) by (rewrite ?length_be_bytes, ?L0; done || lia). set (c1 := splice c0 26 (be_bytes 2 r)).
  assert (L1 : length c1 = length c0) by (apply length_splice; rewrite ?length_be_bytes; lia).
  assert (B1 : Forall is_byte c1) by (apply Forall_splice; [done|apply be_bytes_is_byte]).
  assert (O1 : forall i, i <> 26%nat -> i <> 27%nat -> c1 !! i = c !! i).
  { intros i H1 H2. unfold c1. rewrite lookup_splice_other by (rewrite ?length_be_bytes; lia).
    apply lookup_splice_other; rewrite ?length_be_bytes; lia. }
  exists c1. split; [done|]. split; [lia|]. split; [done|]. split; [|split].
  - apply list_eq. intros i. rewrite !lookup_drop. apply O1; lia.
  - intros i _ H1 H2. by apply O1.
  - assert (Hd : drop 20 c1 = splice (drop 20 c0) 6 (be_bytes 2 r)).
    { apply list_eq. intros i. unfold c1.
      rewrite lookup_drop, !lookup_splice by (rewrite ?length_drop; lia).
      rewrite lookup_drop, !length_be_bytes. repeat case_decide; done || lia || (f_equal; lia). }
    assert (Hs : forall p, 12 <= p <= 16 -> slice c1 p 4 = slice c0 p 4).
    { intros p Hp. apply slice_ext_eq. intros i Hi. unfold c1. apply lookup_splice_other; rewrite ?length_be_bytes; lia. }
    unfold IPH_SADDR, IPH_DADDR in *. rewrite Hd, !Hs by lia. change OPENVPN_IPPROTO_UDP with 17.
    assert (Hf0 : field16 (drop 20 c0) 6 = 0).
    { unfold field16, c0. replace (slice (drop 20 _) 6 2) with (slice (splice c 26 (be_bytes 2 0)) 26 2).
      - rewrite slice_splice_same by (rewrite ?length_be_bytes; lia). done.
      - unfold slice. rewrite drop_drop. done. }
    destruct (checksum_seal true (drop 20 c0) (slice c0 12 4) (slice c0 16 4) 17 6 r) as [_ Hck];
      [by apply Forall_drop|by apply Forall_slice|by apply Forall_slice|rewrite length_drop; lia
      |apply zlen_slice; lia|apply zlen_slice; lia|lia|lia|done|rewrite length_drop; lia|done|done|].
    destruct (ip_checksum_spec true (splice (drop 20 c0) 6 (be_bytes 2 r)) (slice c0 12 4) (slice c0 16 4) 17) as (r' & Hr' & _ & _ & Hiff);
      [apply Forall_splice; [by apply Forall_drop|apply be_bytes_is_byte]|by apply Forall_slice|by apply Forall_slice
      |rewrite length_splice; rewrite ?length_be_bytes, ?length_drop; lia|apply zlen_slice; lia|apply zlen_slice; lia|lia|].
    rewrite Hr'. f_equal. by apply Hiff.
Qed.

(** On arbitrary packets [dhcp_extract_router_msg] returns, whatever the
    option lengths in it claim, and touches nothing outside the packet.  A
    DHCP acknowledgement or offer gets the option area that [extract_opts]
    gives, the rest unchanged, and a UDP checksum that verifies; only an
    acknowledgement reports the router.  Any other packet is left alone. *)
Theorem dhcp_extract_any_packet b hd pkt tl :
  holds b hd pkt tl -> zlen pkt < 65536 ->
  exists b' pkt' ret, dhcp_extract_router_msg b = Ret (b', ret) /\ holds b' hd pkt' tl /\ length pkt' = length pkt /\
    if dhcp_reply pkt then
      exists opts' router, extract_opts (S (2 * (length pkt - 268))) (drop 268 pkt) 0 0 = Some (opts', router) /\
        sealed pkt opts' pkt' /\ ret = (if message_type_of (drop 268 pkt) =? DHCPACK then router else 0)
    else pkt' = pkt /\ ret = 0.
Proof.
  intros Hh Hsz. pose proof (holds_bytes _ _ _ _ Hh) as Hby. destruct (buf_len_holds _ _ _ _ Hh) as [Hbl _].
  unfold dhcp_extract_router_msg, dhcp_reply. rewrite Hbl. change (SIZEOF_IPHDR + SIZEOF_UDPHDR + SIZEOF_DHCP) with 268.
  destruct (268 <=? zlen pkt) eqn:E0.
  2:{ destruct (0 <=? zlen pkt - 268) eqn:E1; [lia|]. by exists b, pkt, 0. }
  destruct (0 <=? zlen pkt - 268) eqn:E1; [|lia]. clear E1. cbn [andb].
  change SIZEOF_IPHDR with 20. change SIZEOF_UDPHDR with 8. rewrite <- !Z.add_assoc. change (20 + (8 + 0)) with 28.
  change (20 + 0) with 20. change (20 + 2) with 22.
  rewrite !(holds_get_u8 _ _ _ _ _ Hh), !(holds_get_n16 _ _ _ _ _ Hh) by (unfold IPH_PROTOCOL; lia). cbn [mbind outcome_bind].
  destruct ((field8 pkt IPH_PROTOCOL =? _) && _ && _ && _) eqn:Econd; cbn [andb]; [|by exists b, pkt, 0].
  set (pre := take 268 pkt). set (opts := drop 268 pkt).
  assert (Hpo : pkt = pre ++ opts) by (symmetry; apply take_drop).
  assert (Hpl : zlen pre = 268) by (unfold pre; rewrite length_take; lia).
  assert (Hol : zlen opts = zlen pkt - 268) by (unfold opts; rewrite length_drop; lia).
  destruct Hh as (blk & Hok & Ho & Hc & Ht). pose proof (zlen_content _ _ Hok) as Hcl. rewrite Hc in Hcl.
  assert (Hcw : zlen (pre ++ opts) = blen b) by (by rewrite <- Hpo).
  assert (Hbo : Forall is_byte opts) by (by apply Forall_drop). assert (Hbp : Forall is_byte pre) by (by apply Forall_take).
  assert (Hwin : forall c, length c = length pkt -> Forall is_byte c -> holds (win b blk c) hd c tl).
  { intros c Hlc Hbc. exists (splice blk (boffset b) c). split; [apply win_ok; [done|lia|done]|].
    split; [done|]. split; [apply win_content; [done|lia]|done]. }
  assert (Hbw : b = win b blk (pre ++ opts)) by (rewrite <- Hpo, <- Hc; symmetry; by apply win_id).
  pose proof (message_type_loop_win b blk Hok pre (S (length opts)) opts 0 Hcw Hbo ltac:(lia)) as Hmsg.
  destruct (extract_opts_total (S (2 * length opts)) opts 0 0 Hbo) as [[opts' router] Hex].
  { rewrite drop_0. pose proof (length_filter (λ x, x = DHCP_ROUTER) opts). unfold routers. lia. }
  pose proof (extract_loop_win b blk Hok pre _ opts 0 0 opts' router Hcw Hbo Hex) as Hloop.
  destruct (extract_opts_wf _ _ _ _ _ _ Hbo Hex) as [Hol' Hbo'].
  rewrite <- Hbw in Hmsg, Hloop. unfold get_dhcp_message_type, do_extract. change SIZEOF_DHCP with 240.
  replace (boffset b + (20 + 8) + 240) with (boffset b + zlen pre) by lia. rewrite <- Hol, Nat2Z.id.
  change (Z.of_nat 0) with 0 in Hmsg. rewrite Hmsg. cbn [mbind outcome_bind]. fold (message_type_of opts).
  destruct ((message_type_of opts =? DHCPACK) || (message_type_of opts =? DHCPOFFER)) eqn:Emt.
  2:{ exists b, pkt, 0. split; [done|]. split; [|done]. by exists blk. }
  change (Z.of_nat 0) with 0 in Hloop. rewrite Hloop. cbn [mbind outcome_bind].
  assert (Hl' : length (pre ++ opts') = length pkt) by (rewrite Hpo, !length_app; lia).
  destruct (recompute_udp_checksum_win b blk (pre ++ opts') Hok) as (c' & Hseal & Hlc & Hbc & Hs);
    [lia|by apply Forall_app|lia|].
  replace (zlen (pre ++ opts') - 268) with (zlen opts) in Hseal by lia. rewrite Hseal. cbn [mbind outcome_bind].
  exists (win b blk c'), c', (if message_type_of opts =? DHCPACK then router else 0).
  split; [by destruct (message_type_of opts =? DHCPACK)|]. split; [apply Hwin; [lia|done]|]. split; [lia|].
  exists opts', router. split; [|split; [|done]].
  - by replace (length pkt - 268)%nat with (length opts) by lia.
  - destruct Hs as (Hd & Hother & Hck). rewrite drop_app_length' in Hd by lia. split; [done|]. split; [|done].
    intros i Hi H1 H2. rewrite Hother by done. rewrite Hpo, !lookup_app_l by lia. done.
Qed.

(** ** Well-formed options *)

Inductive item := Pad | Opt (type : Z) (data : bytes).

Definition item_wf (it : item) : Prop :=
  match it with
  | Pad => True
  | Opt t d => 0 < t < 255 /\ zlen d < 256 /\ Forall is_byte d
  end.

Definition enc_item (it : item) : bytes := match it with Pad => [0] | Opt t d => t :: zlen d :: d end.
Definition enc (l : list item) : bytes := concat (map enc_item l).

Definition is_router (it : item) : bool := match it with Opt t _ => t =? 3 | Pad => false end.
Definition kept (l : list item) : list item := base.filter (λ it, is_router it = false) l.
Fixpoint removed (l : list item) : nat :=
  match l with
  | [] => 0
  | it :: l' => (if is_router it then length (enc_item it) else 0) + removed l'
  end.

(** The address reported: of the first router option with an address that is
    not 0.0.0.0. *)
Fixpoint first_router (l : list item) (ret : Z) : Z :=
  match l with
  | [] => ret
  | Opt 3 d :: l' => first_router l' (router_of ret (zlen d) (take 4 d))
  | _ :: l' => first_router l' ret
  end.

Lemma extract_items items : forall fuel done_ rest ret,
  Forall item_wf items -> (length items < fuel)%nat ->
  extract_opts fuel (done_ ++ enc items ++ 255 :: rest) (length done_) ret =
  Some (done_ ++ enc (kept items) ++ 255 :: rest ++ replicate (removed items) 0, first_router items ret).
Proof.
  induction items as [|it items IH]; intros fuel done_ rest ret Hwf Hf.
  { destruct fuel as [|fuel]; [simpl in Hf; lia|]. cbn [extract_opts enc map concat kept app].
    rewrite list_lookup_middle by done. simpl. by rewrite app_nil_r. }
  apply Forall_cons in Hwf as [Hit Hwf]. destruct fuel as [|fuel]; [simpl in Hf; lia|]. simpl in Hf.
  cbn [extract_opts]. change (enc (it :: items)) with (enc_item it ++ enc items).
  destruct it as [|t d]; cbn [enc_item].
  - rewrite <- (assoc_L (++)). cbn [app]. rewrite list_lookup_middle by done. cbn [Z.eqb DHCP_END DHCP_PAD].
    replace (done_ ++ 0 :: enc items ++ 255 :: rest) with ((done_ ++ [0]) ++ enc items ++ 255 :: rest) by (by rewrite <- (assoc_L (++))).
    replace (S (length done_)) with (length (done_ ++ [0])) by (rewrite length_app; simpl; lia).
    unfold kept. rewrite filter_cons_True by done. change (enc (Pad :: ?l)) with (0 :: enc l). cbn [removed first_router is_router].
    etransitivity; [apply IH; [done|lia]|]. by rewrite <- !(assoc_L (++)).
  - destruct Hit as (Ht & Hd & Hdb). rewrite <- (assoc_L (++)). cbn [app]. rewrite list_lookup_middle by done.
    destruct (t =? DHCP_END) eqn:E1; [unfold DHCP_END in E1; lia|]. destruct (t =? DHCP_PAD) eqn:E2; [unfold DHCP_PAD in E2; lia|].
    assert (Hl : (done_ ++ t :: zlen d :: d ++ enc items ++ 255 :: rest) !! S (length done_) = Some (zlen d)).
    { rewrite lookup_app_r by lia. by replace (S (length done_) - length done_)%nat with 1%nat by lia. }
    rewrite Hl, Nat2Z.id. clear Hl. change (t =? DHCP_ROUTER) with (t =? 3). destruct (t =? 3) eqn:E3.
    + assert (t = 3) as -> by lia. clear E1 E2 E3.
      destruct (_ <=? _) eqn:E; [|rewrite !length_app in E; simpl in E; rewrite !length_app in E; lia]. clear E.
      assert (Hdel : delete_at (done_ ++ 3 :: zlen d :: d ++ enc items ++ 255 :: rest) (length done_) (length d + 2) =
        done_ ++ enc items ++ 255 :: (rest ++ replicate (length d + 2) 0)).
      { unfold delete_at. rewrite take_app_length. f_equal. rewrite drop_app_add.
        replace (length d + 2)%nat with (2 + length d)%nat by lia. rewrite <- drop_drop. cbn [drop].
        rewrite drop_0, drop_app_length. rewrite <- (assoc_L (++)). done. }
      rewrite Hdel, IH by (done || lia). unfold kept. rewrite filter_cons_False by done.
      cbn [removed first_router is_router enc_item length Z.eqb]. do 2 f_equal; [|].
      * do 2 f_equal. f_equal. rewrite <- (assoc_L (++)), <- replicate_add. do 2 f_equal. simpl. lia.
      * f_equal. unfold router_of. destruct (_ && _) eqn:E; [|done]. f_equal.
        unfold slice. replace (Z.to_nat (zlen done_ + 2)) with (length done_ + 2)%nat by lia. rewrite drop_app_add. cbn [drop].
        change (Z.to_nat 4) with 4%nat. rewrite drop_0, take_app_le by lia. done.
    + replace (done_ ++ t :: zlen d :: d ++ enc items ++ 255 :: rest)
        with ((done_ ++ enc_item (Opt t d)) ++ enc items ++ 255 :: rest) by (cbn [enc_item]; rewrite <- !(assoc_L (++)); done).
      replace (length done_ + (length d + 2))%nat with (length (done_ ++ enc_item (Opt t d))) by (rewrite length_app; simpl; lia).
      unfold kept. rewrite filter_cons_True by done. change (enc (Opt t d :: ?l)) with (enc_item (Opt t d) ++ enc l).
      cbn [removed is_router]. rewrite E3. etransitivity; [apply IH; [done|lia]|]. rewrite <- !(assoc_L (++)).
      f_equal. f_equal. destruct t as [|[[]|[]|]|]; done || lia.
Qed.

(** C35. On a well-formed option area [do_extract] deletes exactly the router
    options: the other options, the end marker and what follows it stay in
    order, moved up, with padding at the end; and it reports the address of
    the first router option that has one. *)
Theorem do_extract_removes_routers b hd pkt tl items rest :
  holds b hd pkt tl -> 268 <= zlen pkt -> Forall item_wf items -> drop 268 pkt = enc items ++ 255 :: rest ->
  exists b', do_extract b (boffset b + 28) (zlen pkt - 268) = Ret (b', first_router items 0) /\
    holds b' hd (take 268 pkt ++ enc (kept items) ++ 255 :: rest ++ replicate (removed items) 0) tl.
Proof.
  intros Hh Hl Hwf Hopts. pose proof (holds_bytes _ _ _ _ Hh) as Hby.
  destruct Hh as (blk & Hok & Ho & Hc & Ht). pose proof (zlen_content _ _ Hok) as Hcl. rewrite Hc in Hcl.
  assert (Hpl : zlen (take 268 pkt) = 268) by (rewrite length_take; lia).
  assert (Hol : zlen (drop 268 pkt) = zlen pkt - 268) by (rewrite length_drop; lia).
  assert (Hcw : zlen (take 268 pkt ++ drop 268 pkt) = blen b) by (by rewrite take_drop).
  assert (Hbo : Forall is_byte (drop 268 pkt)) by (by apply Forall_drop).
  assert (Hcount : forall l, (length l <= length (enc l))%nat).
  { induction l as [|[|t d] l IH]; [done|simpl; unfold enc in IH; lia|]. unfold enc in *. simpl. rewrite length_app. lia. }
  assert (Hex : extract_opts (S (2 * length (drop 268 pkt))) (drop 268 pkt) 0 0 =
    Some (enc (kept items) ++ 255 :: rest ++ replicate (removed items) 0, first_router items 0)).
  { rewrite Hopts. apply (extract_items items _ []); [done|]. rewrite length_app. pose proof (Hcount items). lia. }
  destruct (extract_opts_wf _ _ _ _ _ _ Hbo Hex) as [Hlen' Hby'].
  pose proof (extract_loop_win b blk Hok (take 268 pkt) _ _ 0 0 _ _ Hcw Hbo Hex) as Hloop.
  rewrite take_drop in Hloop. rewrite <- Hc, (win_id _ _ Hok), Hc in Hloop.
  unfold do_extract. replace (boffset b + 28 + SIZEOF_DHCP) with (boffset b + zlen (take 268 pkt)) by (unfold SIZEOF_DHCP; lia).
  rewrite <- Hol, Nat2Z.id. eexists. split; [exact Hloop|]. set (o' := enc (kept items) ++ _) in *.
  eexists. split; [apply win_ok; [done| |apply Forall_app; split; [by apply Forall_take|done]]|].
  { rewrite length_app in *. lia. }
  split; [done|]. split; [apply win_content; [done|]; rewrite length_app in *; lia|done].
Qed.

(** A DHCP reply with the given options. *)
Definition demo_dhcp (opts : bytes) : bytes :=
  [69; 0; 0; 0; 0; 0; 0; 0; 64; 17; 0; 0; 10; 0; 0; 1; 10; 0; 0; 9] ++ [0; 67; 0; 68; 0; 0; 0; 0] ++ [2] ++ replicate 239 0 ++ opts.

Definition demo_items : list item := [Opt 53 [5]; Opt 3 [10; 0; 0; 1]; Pad; Opt 1 [255; 255; 255; 0]].
Definition demo_offer : bytes := demo_dhcp (enc demo_items ++ [255; 0]).

Lemma demo_offer_holds : holds (buf_of demo_offer) 0 demo_offer 0.
Proof. apply buf_of_holds; vm_compute; done. Qed.

Lemma do_extract_removes_routers_witness :
  exists b', do_extract (buf_of demo_offer) (0 + 28) (zlen demo_offer - 268) = Ret (b', first_router demo_items 0) /\
    holds b' 0 (take 268 demo_offer ++ enc (kept demo_items) ++ 255 :: [0] ++ replicate (removed demo_items) 0) 0.
Proof.
  apply (do_extract_removes_routers (buf_of demo_offer) 0 demo_offer 0 demo_items [0]).
  - apply demo_offer_holds.
  - vm_compute. congruence.
  - repeat (apply Forall_cons; split; [first [exact I | split; [lia|]; split; [simpl; lia|apply all_bytes_spec; vm_compute; done]]|]).
    by apply Forall_nil.
  - vm_compute. done.
Defined.

Lemma dhcp_extract_any_packet_witness :
  dhcp_reply demo_offer = true /\
  exists b' pkt' ret, dhcp_extract_router_msg (buf_of demo_offer) = Ret (b', ret) /\ holds b' 0 pkt' 0 /\
    length pkt' = length demo_offer /\
    if dhcp_reply demo_offer then
      exists opts' router, extract_opts (S (2 * (length demo_offer - 268))) (drop 268 demo_offer) 0 0 = Some (opts', router) /\
        sealed demo_offer opts' pkt' /\ ret = (if message_type_of (drop 268 demo_offer) =? DHCPACK then router else 0)
    else pkt' = demo_offer /\ ret = 0.
Proof.
  split; [vm_compute; done|]. apply (dhcp_extract_any_packet (buf_of demo_offer) 0 demo_offer 0).
  - apply demo_offer_holds.
  - vm_compute. done.
Defined.

Example demo_router : (λ r, match r with Ret (_, a) => a | _ => -1 end) (dhcp_extract_router_msg (buf_of demo_offer)) = 0x0a000001.
Proof. vm_compute. done. Qed.
