(* ===== verification/Vlan.v ===== *)
(** * 802.1Q tagging (openvpn vlan.c)

    The frame is the content of a buffer; a tag is put in front of it in the
    buffer's head room and taken off again in place.  The options of the
    context the functions read ([vlan_accept], [vlan_pvid]) are arguments. *)

From S2P Require Import Prelude Buffer Proto.
From stdpp Require Import prelude.
From Stdlib Require Import ZArith Lia ZifyBool.

Local Open Scope Z_scope.

Inductive vlan_acceptable_frames := VLAN_ONLY_TAGGED | VLAN_ONLY_UNTAGGED_OR_PRIORITY | VLAN_ALL.

#[global] Instance vlan_accept_eq_dec : EqDecision vlan_acceptable_frames.
Proof. solve_decision. Defined.

Definition SIZE_ETH_TO_8021Q_HDR : Z := SIZEOF_8021QHDR - SIZEOF_ETHHDR.
Definition OPENVPN_8021Q_MASK_VID : Z := htons 0x0FFF.
Definition PCP_CFI_VID : Z := 14.

(** The [int16_t] the functions return. *)
Definition to_int16 (x : Z) : Z := if u16 x <? 2 ^ 15 then u16 x else u16 x - 2 ^ 16.

(** [hdr] is the address of the 802.1Q header. *)
Definition vlanhdr_get_vid (b : buffer) (hdr : Z) : outcome Z :=
  w ← get_h16 b (hdr + PCP_CFI_VID);
  Ret (htons (Z.land w OPENVPN_8021Q_MASK_VID)).

Definition vlanhdr_set_vid (b : buffer) (hdr vid : Z) : outcome buffer :=
  w ← get_h16 b (hdr + PCP_CFI_VID);
  put_h16 b (hdr + PCP_CFI_VID)
    (Z.lor (Z.land w (Z.lnot OPENVPN_8021Q_MASK_VID)) (Z.land (htons vid) OPENVPN_8021Q_MASK_VID)).

(** The second component is the returned VID, -1 for a dropped frame. *)
Definition vlan_decapsulate (vlan_accept : vlan_acceptable_frames) (vlan_pvid : Z) (buf : buffer) : outcome (buffer * Z) :=
  let drop := Ret (set_len buf 0, -1) in
  if buf_len buf <? SIZEOF_ETHHDR then drop
  else
    let ethhdr := boffset buf in
    proto ← get_n16 buf (ethhdr + ETH_PROTO);
    if negb (proto =? OPENVPN_ETH_P_8021Q) then
      if bool_decide (vlan_accept = VLAN_ONLY_TAGGED) then drop else Ret (buf, to_int16 vlan_pvid)
    else if buf_len buf <? SIZEOF_8021QHDR then drop
    else
      let vlanhdr := boffset buf in
      vid ← vlanhdr_get_vid buf vlanhdr;
      if bool_decide (vlan_accept = VLAN_ONLY_UNTAGGED_OR_PRIORITY) && negb (vid =? 0) then drop
      else if vid =? 0 then Ret (buf, to_int16 vlan_pvid)
      else
        proto ← get_h16 buf (vlanhdr + ETH_8021Q_PROTO);
        let buf := (buf_advance buf SIZE_ETH_TO_8021Q_HDR).1 in
        d ← peek buf vlanhdr SIZEOF_ETHHDR;
        buf ← poke buf (boffset buf) d;
        buf ← put_h16 buf (boffset buf + ETH_PROTO) proto;
        Ret (buf, to_int16 vid).

(** "Initialise VLAN/802.1q header": move the Ethernet header and assign the
    other fields. *)
Definition init_vlanhdr (buf : buffer) (ethhdr vlanhdr : Z) : outcome buffer :=
  proto ← get_h16 buf (ethhdr + ETH_PROTO);
  d ← peek buf ethhdr SIZEOF_ETHHDR;
  buf ← poke buf vlanhdr d;
  buf ← put_h16 buf (vlanhdr + ETH_PROTO) (htons OPENVPN_ETH_P_8021Q);
  buf ← put_h16 buf (vlanhdr + PCP_CFI_VID) 0;
  put_h16 buf (vlanhdr + ETH_8021Q_PROTO) proto.

Definition vlan_encapsulate (vlan_pvid : Z) (buf : buffer) : outcome buffer :=
  let drop := Ret (set_len buf 0) in
  if buf_len buf <? SIZEOF_ETHHDR then drop
  else
    let ethhdr := boffset buf in
    proto ← get_n16 buf (ethhdr + ETH_PROTO);
    if proto =? OPENVPN_ETH_P_8021Q then
      if buf_len buf <? SIZEOF_8021QHDR then drop
      else
        let vlanhdr := boffset buf in
        vid ← vlanhdr_get_vid buf vlanhdr;
        if negb (vid =? 0) then drop
        else vlanhdr_set_vid buf vlanhdr vlan_pvid
    else
      if buf_reverse_capacity buf <? SIZE_ETH_TO_8021Q_HDR then drop
      else
        match buf_prepend buf SIZE_ETH_TO_8021Q_HDR with
        | (_, None) => Fault
        | (buf, Some vlanhdr) =>
            buf ← init_vlanhdr buf ethhdr vlanhdr;
            vlanhdr_set_vid buf vlanhdr vlan_pvid
        end.

Definition vlan_is_tagged (buf : buffer) : outcome bool :=
  if buf_len buf <? SIZEOF_8021QHDR then Ret false
  else
    tpid ← get_n16 buf (boffset buf + ETH_PROTO);
    if negb (tpid =? OPENVPN_ETH_P_8021Q) then Ret false
    else
      vid ← vlanhdr_get_vid buf (boffset buf);
      Ret (negb (vid =? 0)).

(** [top_*] are the options of the server, [mi_pvid] and [to_tun] belong to the
    client instance. *)
Definition vlan_process_outgoing_tun (top_tagging : bool) (top_accept : vlan_acceptable_frames)
    (top_pvid mi_pvid : Z) (to_tun : buffer) : outcome buffer :=
  if negb top_tagging then Ret to_tun
  else match top_accept with
  | VLAN_ONLY_UNTAGGED_OR_PRIORITY => Ret (if negb (top_pvid =? mi_pvid) then set_len to_tun 0 else to_tun)
  | VLAN_ALL => if negb (top_pvid =? mi_pvid) then vlan_encapsulate mi_pvid to_tun else Ret to_tun
  | VLAN_ONLY_TAGGED => vlan_encapsulate mi_pvid to_tun
  end.

(** ** Frames *)

(** A frame: the two addresses, then type and payload. *)
Definition tagged (vid : Z) (frame : bytes) : bytes :=
  take 12 frame ++ be_bytes 2 OPENVPN_ETH_P_8021Q ++ be_bytes 2 vid ++ drop 12 frame.

(** The VID of a tagged frame. *)
Definition frame_vid (frame : bytes) : Z := field16 frame PCP_CFI_VID mod 4096.

Definition untagged (frame : bytes) : bytes := take 12 frame ++ drop 16 frame.

Lemma htons_be x y : is_byte x -> is_byte y -> htons (le_val [x; y]) = be_val [x; y].
Proof. intros. unfold is_byte in *. rewrite le_val_2, be_val_2. unfold htons. mlia. Qed.

(** The VID bits of a tag as the little-endian machine sees them, and the
    other bits. *)
Lemma mask_vid x y : is_byte x -> is_byte y -> Z.land (y * 256 + x) OPENVPN_8021Q_MASK_VID = y * 256 + x mod 16.
Proof.
  intros Hx Hy. unfold is_byte in *. change OPENVPN_8021Q_MASK_VID with (Z.lor 15 (Z.shiftl 255 8)). rewrite Z.land_lor_distr_r.
  rewrite (land_low _ 4) by done.
  assert (H2 : Z.land (y * 256 + x) (Z.shiftl 255 8) = Z.shiftl y 8).
  { replace (y * 256 + x) with (Z.lor x (Z.shiftl y 8)) by (rewrite lor_field; lia).
    rewrite Z.land_lor_distr_l. rewrite <- Z.shiftl_land, (land_low y 8), (Z.mod_small y) by (done || lia).
    assert (Z.land x (Z.shiftl 255 8) = 0) as ->; [|by rewrite Z.lor_0_l].
    rewrite <- (Z.mod_small x (2 ^ 8)) by lia. rewrite <- Z.land_ones, <- Z.land_assoc by lia.
    change (Z.land (Z.ones 8) (Z.shiftl 255 8)) with 0. apply Z.land_0_r. }
  rewrite H2. rewrite lor_field; change (2 ^ 4) with 16; change (2 ^ 8) with 256; mlia.
Qed.

Lemma mask_pcp x y : is_byte x -> is_byte y -> Z.land (y * 256 + x) (Z.lnot OPENVPN_8021Q_MASK_VID) = x / 16 * 16.
Proof.
  intros Hx Hy. rewrite <- Z.ldiff_land. pose proof (mask_vid x y Hx Hy) as Hm.
  pose proof (Z.lor_ldiff_and (y * 256 + x) OPENVPN_8021Q_MASK_VID) as Hs.
  rewrite <- Z.add_nocarry_lor, Hm in Hs; [unfold is_byte in *; mlia|].
  rewrite (Z.land_comm (y * 256 + x)), Z.land_assoc, Z.land_ldiff. done.
Qed.

Lemma vid_bits x y : is_byte x -> is_byte y -> htons (Z.land (le_val [x; y]) OPENVPN_8021Q_MASK_VID) = be_val [x; y] mod 4096.
Proof.
  intros Hx Hy. rewrite le_val_2, be_val_2, mask_vid by done. unfold is_byte, htons in *. mlia.
Qed.

(** Storing a VID keeps the priority bits. *)
Lemma set_vid_bits x y vid :
  is_byte x -> is_byte y -> 0 <= vid < 4096 ->
  le_bytes 2 (Z.lor (Z.land (le_val [x; y]) (Z.lnot OPENVPN_8021Q_MASK_VID)) (Z.land (htons vid) OPENVPN_8021Q_MASK_VID)) =
  [x / 16 * 16 + vid / 256; vid mod 256].
Proof.
  intros Hx Hy Hv. rewrite le_val_2, mask_pcp by done.
  assert (Hh : htons vid = vid mod 256 * 256 + vid / 256) by (unfold htons; mlia).
  rewrite Hh, mask_vid by (unfold is_byte in *; mlia). rewrite (Z.mod_small (vid / 256)) by mlia.
  assert (Hl : Z.lor (x / 16 * 16) (vid mod 256 * 256 + vid / 256) = vid mod 256 * 256 + (x / 16 * 16 + vid / 256)).
  { unfold is_byte in *.
    assert (E1 : vid mod 256 * 256 + vid / 256 = Z.lor (vid / 256) (Z.shiftl (vid mod 256) 8))
      by (rewrite lor_field; change (2 ^ 8) with 256; mlia).
    assert (E2 : Z.lor (x / 16 * 16) (vid / 256) = x / 16 * 16 + vid / 256).
    { rewrite Z.lor_comm. replace (x / 16 * 16) with (Z.shiftl (x / 16) 4) by (rewrite Z.shiftl_mul_pow2; lia).
      rewrite lor_field, Z.shiftl_mul_pow2; change (2 ^ 4) with 16; mlia. }
    rewrite E1, Z.lor_assoc, E2, lor_field; change (2 ^ 8) with 256; mlia. }
  rewrite Hl, le_bytes_2. unfold is_byte in *. f_equal; [mlia|]. f_equal. mlia.
Qed.

(** ** Tagging *)

(** The first fourteen bytes of a frame, one by one. *)
Lemma frame_cons (c : bytes) n : (n <= length c)%nat -> exists pre rest, c = pre ++ rest /\ length pre = n.
Proof. intros H. exists (take n c), (drop n c). split; [by rewrite take_drop|]. rewrite length_take. lia. Qed.

Lemma win_get_vid b blk c x y :
  buf_ok b blk -> zlen c = blen b -> Forall is_byte c -> 18 <= zlen c -> slice c 14 2 = [x; y] ->
  vlanhdr_get_vid (win b blk c) (boffset b) = Ret (be_val [x; y] mod 4096).
Proof.
  intros Hok Hc Hby Hl Hs. unfold vlanhdr_get_vid, PCP_CFI_VID. rewrite (win_get_h16 b blk) by (done || lia).
  cbn [mbind outcome_bind]. rewrite Hs. assert (Hxy : Forall is_byte [x; y]) by (rewrite <- Hs; by apply Forall_slice).
  rewrite !Forall_cons in Hxy. by rewrite vid_bits by tauto.
Qed.

Lemma win_set_vid b blk c x y vid :
  buf_ok b blk -> zlen c = blen b -> Forall is_byte c -> 18 <= zlen c -> slice c 14 2 = [x; y] -> 0 <= vid < 4096 ->
  vlanhdr_set_vid (win b blk c) (boffset b) vid = Ret (win b blk (splice c 14 [x / 16 * 16 + vid / 256; vid mod 256])).
Proof.
  intros Hok Hc Hby Hl Hs Hv. unfold vlanhdr_set_vid, PCP_CFI_VID. rewrite (win_get_h16 b blk) by (done || lia).
  cbn [mbind outcome_bind]. rewrite Hs. assert (Hxy : Forall is_byte [x; y]) by (rewrite <- Hs; by apply Forall_slice).
  rewrite !Forall_cons in Hxy. rewrite (win_put_h16 b blk) by (done || lia). by rewrite set_vid_bits by tauto.
Qed.

(** The bytes [vlan_encapsulate] writes over the frame moved up by four. *)
Definition tag_steps (c : bytes) : bytes :=
  let proto := slice c 16 2 in
  let c := splice c 0 (slice c 4 14) in
  let c := splice c 12 (be_bytes 2 OPENVPN_ETH_P_8021Q) in
  let c := splice c 14 [0; 0] in
  splice c 16 proto.

Lemma tag_steps_spec (p frame : bytes) :
  length p = 4%nat -> (14 <= length frame)%nat -> tag_steps (p ++ frame) = tagged 0 frame.
Proof.
  intros Hp Hf. destruct (frame_cons frame 14 Hf) as (f14 & rest & -> & Hl).
  do 5 (destruct p as [|? p]; try done). do 15 (destruct f14 as [|? f14]; try done).
Qed.

Lemma tagged_set_vid frame vid :
  (14 <= length frame)%nat -> splice (tagged 0 frame) 14 (be_bytes 2 vid) = tagged vid frame.
Proof.
  intros Hf. destruct (frame_cons frame 14 Hf) as (f14 & rest & -> & Hl). do 15 (destruct f14 as [|? f14]; try done).
Qed.

Lemma tagged_length vid frame : (14 <= length frame)%nat -> length (tagged vid frame) = (length frame + 4)%nat.
Proof. intros. unfold tagged. rewrite !length_app, !length_be_bytes, length_take, length_drop. lia. Qed.

Lemma tagged_bytes vid frame : Forall is_byte frame -> Forall is_byte (tagged vid frame).
Proof.
  intros. unfold tagged. rewrite !Forall_app. split_and!; try apply be_bytes_is_byte; [by apply Forall_take|by apply Forall_drop].
Qed.

Lemma le_htons_bytes v : 0 <= v < 65536 -> le_bytes 2 (htons v) = be_bytes 2 v.
Proof. intros H. rewrite le_bytes_2, be_bytes_2. unfold htons. f_equal; [mlia|]. f_equal. mlia. Qed.

Lemma init_vlanhdr_win b blk c :
  buf_ok b blk -> zlen c = blen b -> Forall is_byte c -> 18 <= zlen c ->
  init_vlanhdr (win b blk c) (boffset b + 4) (boffset b) = Ret (win b blk (tag_steps c)).
Proof.
  intros Hok Hc Hby Hl. unfold init_vlanhdr, tag_steps, ETH_PROTO, ETH_8021Q_PROTO, PCP_CFI_VID, SIZEOF_ETHHDR.
  rewrite <- Z.add_assoc. change (4 + 12) with 16. assert (Hs14 : zlen (slice c 4 14) = 14) by (apply zlen_slice; lia).
  assert (Hs2 : le_bytes 2 (le_val (slice c 16 2)) = slice c 16 2).
  { pose proof (le_bytes_val (slice c 16 2) (Forall_slice _ _ _ _ Hby)) as H. pose proof (zlen_slice c 16 2).
    by replace (length (slice c 16 2)) with 2%nat in H by lia. }
  rewrite (win_get_h16 b blk) by (done || lia). cbn [mbind outcome_bind].
  rewrite (win_peek b blk) by (done || lia). cbn [mbind outcome_bind].
  rewrite <- (Z.add_0_r (boffset b)) at 1. rewrite (win_poke b blk) by (done || lia). cbn [mbind outcome_bind].
  set (c2 := splice c 0 _). assert (L2 : length c2 = length c) by (apply length_splice; lia).
  rewrite (win_put_h16 b blk) by (done || lia). cbn [mbind outcome_bind]. rewrite le_htons_bytes by done.
  set (c3 := splice c2 12 _). assert (L3 : length c3 = length c2) by (apply length_splice; rewrite ?length_be_bytes; lia).
  rewrite (win_put_h16 b blk) by (done || lia). cbn [mbind outcome_bind]. change (le_bytes 2 0) with [0; 0].
  set (c4 := splice c3 14 _). assert (L4 : length c4 = length c3) by (apply length_splice; simpl; lia).
  rewrite (win_put_h16 b blk) by (done || lia). by rewrite Hs2.
Qed.

Lemma vlan_encapsulate_holds b hd frame tl pvid :
  holds b hd frame tl -> 14 <= zlen frame -> field16 frame 12 <> OPENVPN_ETH_P_8021Q -> 4 <= hd -> 0 <= pvid < 4096 ->
  exists b', vlan_encapsulate pvid b = Ret b' /\ holds b' (hd - 4) (tagged pvid frame) tl.
Proof.
  intros Hh Hl Hp Hhd Hv. destruct (buf_len_holds _ _ _ _ Hh) as [Hbl _]. pose proof Hh as Hh0. holds_facts Hh0. clear Hh0.
  unfold vlan_encapsulate. rewrite Hbl. destruct (zlen frame <? SIZEOF_ETHHDR) eqn:E; [unfold SIZEOF_ETHHDR in E; lia|]. clear E.
  unfold ETH_PROTO. rewrite (holds_get_n16 _ _ _ _ _ Hh) by lia. cbn [mbind outcome_bind].
  rewrite (proj2 (Z.eqb_neq _ _)) by done. unfold buf_reverse_capacity. rewrite Hval.
  change SIZE_ETH_TO_8021Q_HDR with 4. destruct (boffset b <? 4) eqn:E; [lia|].
  unfold buf_prepend. rewrite Hval, E. cbn [negb orb Z.ltb Z.compare]. clear E.
  destruct Hh as (blk & Hok & Ho & Hc & Ht). set (b1 := set_offset_len b (boffset b - 4) (blen b + 4)).
  assert (Hok1 : buf_ok b1 blk) by (destruct Hok; split; simpl; done || lia).
  assert (Hptr : buf_bptr b1 = Some (boffset b1)).
  { unfold buf_bptr, buf_valid, buf_defined. simpl. rewrite (ok_data _ _ Hok). simpl. destruct (0 <=? _) eqn:E; [done|lia]. }
  rewrite Hptr. clear Hptr.
  assert (Hc1 : exists p, length p = 4%nat /\ content b1 = p ++ frame).
  { exists (slice blk (boffset b - 4) 4). pose proof (ok_block _ _ Hok).
    split; [pose proof (zlen_slice blk (boffset b - 4) 4); lia|]. rewrite (buf_ok_content _ _ Hok1). simpl.
    rewrite (Z.add_comm (blen b)), slice_app_split by lia. f_equal. rewrite <- Hc, (buf_ok_content _ _ Hok). f_equal. lia. }
  destruct Hc1 as (p & Hp4 & Hc1). pose proof (win_id _ _ Hok1) as Hid. pose proof (zlen_content _ _ Hok1) as Hl1.
  assert (Hby1 : Forall is_byte (content b1)) by (rewrite (buf_ok_content _ _ Hok1); apply Forall_slice, Hok).
  assert (Hlc : 18 <= zlen (content b1)) by (rewrite Hc1, length_app; lia).
  pose proof (init_vlanhdr_win b1 blk (content b1) Hok1 Hl1 Hby1 Hlc) as Hinit. rewrite Hid in Hinit.
  replace (boffset b) with (boffset b1 + 4) by (simpl; lia). rewrite Hinit. cbn [mbind outcome_bind].
  rewrite Hc1, tag_steps_spec by lia. rewrite Hc1, length_app in Hl1.
  rewrite (win_set_vid b1 blk (tagged 0 frame) 0 0); [|done|rewrite tagged_length; lia|by apply tagged_bytes|rewrite tagged_length; lia| |done].
  2:{ destruct (frame_cons frame 14 ltac:(lia)) as (f14 & rest & -> & Hl14). do 15 (destruct f14 as [|? f14]; try done). }
  eexists. split; [done|].
  replace [0 / 16 * 16 + pvid / 256; pvid mod 256] with (be_bytes 2 pvid) by (rewrite be_bytes_2; f_equal; mlia).
  rewrite tagged_set_vid by lia. eexists. split; [apply win_ok; [done|rewrite tagged_length; lia|by apply tagged_bytes]|].
  split; [simpl; lia|]. split; [apply win_content; [done|rewrite tagged_length; lia]|simpl; lia].
Qed.

(** ** Removing a tag *)

Lemma untag_steps (frame : bytes) :
  (18 <= length frame)%nat ->
  splice (splice (drop 4 frame) 0 (take 14 frame)) 12 (slice frame 16 2) = untagged frame.
Proof.
  intros Hf. destruct (frame_cons frame 18 Hf) as (f18 & rest & -> & Hl). do 19 (destruct f18 as [|? f18]; try done).
Qed.

Lemma to_int16_small x : 0 <= x < 2 ^ 15 -> to_int16 x = x.
Proof. intros H. unfold to_int16, u16. rewrite Z.mod_small by lia. destruct (_ <? _) eqn:E; lia. Qed.

(** The frame a decapsulation leaves, with the head room it gains and the VID;
    [None] for a dropped frame. *)
Definition decap_spec (accept : vlan_acceptable_frames) (pvid : Z) (frame : bytes) : option (Z * bytes * Z) :=
  if zlen frame <? 14 then None
  else if negb (field16 frame 12 =? OPENVPN_ETH_P_8021Q) then
    if bool_decide (accept = VLAN_ONLY_TAGGED) then None else Some (0, frame, pvid)
  else if zlen frame <? 18 then None
  else if frame_vid frame =? 0 then Some (0, frame, pvid)
  else if bool_decide (accept = VLAN_ONLY_UNTAGGED_OR_PRIORITY) then None
  else Some (4, untagged frame, frame_vid frame).

Lemma vlan_decapsulate_holds accept pvid b hd frame tl :
  holds b hd frame tl -> 0 <= pvid < 4096 ->
  exists b' v, vlan_decapsulate accept pvid b = Ret (b', v) /\
    match decap_spec accept pvid frame with
    | None => blen b' = 0 /\ v = -1
    | Some (n, frame', vid) => holds b' (hd + n) frame' tl /\ v = vid
    end.
Proof.
  intros Hh Hp. destruct (buf_len_holds _ _ _ _ Hh) as [Hbl Hbl']. pose proof (holds_bytes _ _ _ _ Hh) as Hby.
  unfold vlan_decapsulate, decap_spec. rewrite Hbl, (to_int16_small pvid) by lia.
  change SIZEOF_ETHHDR with 14. change SIZEOF_8021QHDR with 18. change ETH_PROTO with 12.
  destruct (zlen frame <? 14) eqn:E0; [by eauto|]. rewrite (holds_get_n16 _ _ _ _ _ Hh) by lia. cbn [mbind outcome_bind].
  destruct (negb (field16 frame 12 =? _)).
  { destruct (bool_decide _); [by eauto|]. exists b, pvid. split; [done|]. split; [|done]. by rewrite Z.add_0_r. }
  destruct (zlen frame <? 18) eqn:E1; [by eauto|].
  destruct Hh as (blk & Hok & Ho & Hc & Ht). pose proof (win_id _ _ Hok) as Hid. rewrite Hc in Hid.
  destruct (slice_2 frame 14) as (x & y & _ & _ & Hxy); [lia..|].
  pose proof (win_get_vid b blk frame x y Hok ltac:(lia) Hby ltac:(lia) Hxy) as Hvid. rewrite Hid in Hvid. rewrite Hvid.
  assert (Hfv : be_val [x; y] mod 4096 = frame_vid frame) by (unfold frame_vid, field16, PCP_CFI_VID; by rewrite Hxy).
  rewrite Hfv. clear Hvid. cbn [mbind outcome_bind].
  assert (Hvr : 0 <= frame_vid frame < 4096) by (unfold frame_vid; apply Z.mod_pos_bound; lia).
  destruct (frame_vid frame =? 0) eqn:Ev; cbn [negb].
  { rewrite andb_false_r. exists b, pvid. split; [done|]. split; [|done]. rewrite Z.add_0_r. by exists blk. }
  rewrite andb_true_r. destruct (bool_decide _); [by eauto|].
  pose proof (win_get_h16 b blk Hok frame 16 ltac:(lia) ltac:(lia) ltac:(lia)) as Hproto. rewrite Hid in Hproto.
  unfold ETH_8021Q_PROTO. rewrite Hproto. cbn [mbind outcome_bind]. change SIZE_ETH_TO_8021Q_HDR with 4.
  assert (Hv : buf_valid b = true) by (unfold buf_valid, buf_defined; rewrite (ok_data _ _ Hok); pose proof (ok_len _ _ Hok); simpl; lia).
  unfold buf_advance. rewrite Hv. cbn [negb orb Z.ltb Z.compare]. destruct (blen b <? 4) eqn:E2; [lia|]. cbn [fst].
  set (b2 := set_offset_len b (boffset b + 4) (blen b - 4)).
  assert (Hok2 : buf_ok b2 blk) by (destruct Hok; split; simpl; done || lia).
  pose proof (ok_cap _ _ Hok) as Hcap. pose proof (ok_offset _ _ Hok) as Hoff.
  rewrite (peek_ok b2 blk) by (done || (simpl; lia)). cbn [mbind outcome_bind].
  assert (H14 : slice blk (boffset b) 14 = take 14 frame).
  { rewrite <- Hc, (buf_ok_content _ _ Hok). change (take 14 ?l) with (slice l 0 14). rewrite slice_slice by lia. f_equal. lia. }
  rewrite H14. pose proof (win_id _ _ Hok2) as Hid2.
  assert (Hc2 : content b2 = drop 4 frame).
  { pose proof (holds_advance b blk 4 Hok ltac:(lia)) as (blk2 & _ & _ & Hcc & _). rewrite Hc in Hcc. exact Hcc. }
  rewrite Hc2 in Hid2.
  assert (L2 : zlen (drop 4 frame) = blen b2) by (rewrite length_drop; simpl; lia).
  assert (L14 : zlen (take 14 frame) = 14) by (rewrite length_take; lia).
  pose proof (win_poke b2 blk (drop 4 frame) 0 (take 14 frame) Hok2 L2 ltac:(lia) ltac:(simpl in L2; lia)) as Hpoke.
  rewrite Hid2, Z.add_0_r in Hpoke. rewrite Hpoke. cbn [mbind outcome_bind].
  set (c3 := splice (drop 4 frame) 0 (take 14 frame)).
  assert (L3 : length c3 = length (drop 4 frame)) by (apply length_splice; simpl in L2; lia).
  change (boffset (win b2 blk c3)) with (boffset b2).
  rewrite (win_put_h16 b2 blk Hok2 c3 12) by (rewrite ?L3; rewrite ?length_drop in *; lia). cbn [mbind outcome_bind].
  assert (Hs2 : le_bytes 2 (le_val (slice frame 16 2)) = slice frame 16 2).
  { pose proof (le_bytes_val (slice frame 16 2) (Forall_slice _ _ _ _ Hby)) as H. pose proof (zlen_slice frame 16 2).
    by replace (length (slice frame 16 2)) with 2%nat in H by lia. }
  rewrite Hs2. unfold c3. rewrite untag_steps by lia.
  assert (Lu : zlen (untagged frame) = blen b2) by (unfold untagged; rewrite length_app, length_take, length_drop; change (blen b2) with (blen b - 4); lia).
  eexists _, _. split; [done|]. split; [|rewrite to_int16_small by lia; lia].
  eexists. split; [apply win_ok; [done|done|apply Forall_app; split; [by apply Forall_take|by apply Forall_drop]]|].
  split; [simpl; lia|]. split; [by apply win_content|simpl; lia].
Qed.

(** ** Theorems *)

Lemma tagged_fields vid frame :
  (14 <= length frame)%nat -> 0 <= vid < 4096 ->
  field16 (tagged vid frame) 12 = OPENVPN_ETH_P_8021Q /\ frame_vid (tagged vid frame) = vid /\ untagged (tagged vid frame) = frame.
Proof.
  intros Hf Hv. destruct (frame_cons frame 14 Hf) as (f14 & rest & -> & Hl). do 15 (destruct f14 as [|? f14]; try done).
  split; [done|]. split; [|done]. unfold frame_vid, field16, PCP_CFI_VID.
  assert (H : slice (tagged vid ([z; z0; z1; z2; z3; z4; z5; z6; z7; z8; z9; z10; z11; z12] ++ rest)) 14 2 = be_bytes 2 vid) by done.
  rewrite H, be_val_u16 by lia. apply Z.mod_small. lia.
Qed.

(** 802.1Q round trip: an untagged frame with four bytes of head room, once
    tagged with a VID, is recognised as tagged, and removing the tag on a port
    that accepts tagged frames gives back the VID and the same frame in the
    same place. *)
Theorem vlan_tag_roundtrip b hd frame tl vid accept pvid :
  holds b hd frame tl -> 14 <= zlen frame -> field16 frame 12 <> OPENVPN_ETH_P_8021Q -> 4 <= hd ->
  0 < vid < 4096 -> 0 <= pvid < 4096 -> accept <> VLAN_ONLY_UNTAGGED_OR_PRIORITY ->
  exists b1 b2, vlan_encapsulate vid b = Ret b1 /\ vlan_is_tagged b1 = Ret true /\
    vlan_decapsulate accept pvid b1 = Ret (b2, vid) /\ holds b2 hd frame tl.
Proof.
  intros Hh Hl Hp Hhd Hv Hpv Ha.
  destruct (vlan_encapsulate_holds b hd frame tl vid Hh Hl Hp Hhd ltac:(lia)) as (b1 & He & Hh1).
  destruct (tagged_fields vid frame ltac:(lia) ltac:(lia)) as (Ht & Hfv & Hu).
  assert (Hlt : zlen (tagged vid frame) = zlen frame + 4) by (rewrite tagged_length; lia).
  destruct (vlan_decapsulate_holds accept pvid b1 _ _ _ Hh1 Hpv) as (b2 & v & Hd & Hspec).
  unfold decap_spec in Hspec. rewrite Hlt, Ht, Hfv, Hu, Z.eqb_refl in Hspec. cbn [negb] in Hspec.
  rewrite bool_decide_false in Hspec by done.
  destruct (_ <? 14) eqn:E1 in Hspec; [lia|]. destruct (_ <? 18) eqn:E2 in Hspec; [lia|]. destruct (vid =? 0) eqn:E3 in Hspec; [lia|].
  destruct Hspec as [Hh2 ->]. exists b1, b2. split; [done|]. split.
  - destruct (buf_len_holds _ _ _ _ Hh1) as [Hbl _]. unfold vlan_is_tagged. rewrite Hbl, Hlt. change SIZEOF_8021QHDR with 18. rewrite E2.
    unfold ETH_PROTO. rewrite (holds_get_n16 _ _ _ _ _ Hh1) by lia. rewrite Ht. cbn [mbind outcome_bind]. rewrite Z.eqb_refl. cbn [negb].
    pose proof (holds_bytes _ _ _ _ Hh1) as Hby1. destruct (slice_2 (tagged vid frame) 14) as (x & y & _ & _ & Hxy); [lia..|].
    destruct Hh1 as (blk & Hok & _ & Hc & _). pose proof (zlen_content _ _ Hok) as Hcl. rewrite Hc in Hcl.
    pose proof (win_get_vid b1 blk _ x y Hok Hcl Hby1 ltac:(lia) Hxy) as Hg. rewrite <- Hc, (win_id _ _ Hok) in Hg.
    rewrite Hg. cbn [mbind outcome_bind]. unfold frame_vid, field16, PCP_CFI_VID in Hfv. rewrite Hxy in Hfv. by rewrite Hfv, E3.
  - split; [done|]. by replace (hd - 4 + 4) with hd in Hh2 by lia.
Qed.

(** On arbitrary frames [vlan_decapsulate] returns, reads and writes inside
    the frame only, and does what the port mode asks for: [decap_spec] says
    which frames are dropped, passed on with the port's VID, or stripped of
    their tag. *)
Theorem vlan_decapsulate_any accept pvid b hd frame tl :
  holds b hd frame tl -> 0 <= pvid < 4096 ->
  exists b' v, vlan_decapsulate accept pvid b = Ret (b', v) /\
    match decap_spec accept pvid frame with
    | None => blen b' = 0 /\ v = -1
    | Some (n, frame', vid) => holds b' (hd + n) frame' tl /\ v = vid
    end.
Proof. apply vlan_decapsulate_holds. Qed.

(** A priority-tagged frame (VID 0), which is not VLAN-tagged, is accepted
    unchanged on a port that only accepts tagged frames. *)
Theorem vlan_only_tagged_accepts_priority pvid b hd frame tl :
  holds b hd frame tl -> 0 <= pvid < 4096 -> 18 <= zlen frame -> field16 frame 12 = OPENVPN_ETH_P_8021Q -> frame_vid frame = 0 ->
  exists b', vlan_decapsulate VLAN_ONLY_TAGGED pvid b = Ret (b', pvid) /\ holds b' hd frame tl.
Proof.
  intros Hh Hp Hl Ht Hv. destruct (vlan_decapsulate_holds VLAN_ONLY_TAGGED pvid _ _ _ _ Hh Hp) as (b' & v & Hd & Hs).
  unfold decap_spec in Hs. rewrite Ht, Hv, Z.eqb_refl in Hs. cbn [negb Z.eqb] in Hs.
  destruct (_ <? 14) eqn:E1 in Hs; [lia|]. destruct (_ <? 18) eqn:E2 in Hs; [lia|]. destruct Hs as [Hh' ->].
  exists b'. split; [done|]. by rewrite Z.add_0_r in Hh'.
Qed.

(** ** Concrete frames *)

Definition demo_frame : bytes := [1; 2; 3; 4; 5; 6; 7; 8; 9; 10; 11; 12; 8; 0; 69; 0].
Definition demo_frame_buf : buffer := mkbuf 30 6 16 (Some (replicate 6 0 ++ demo_frame ++ replicate 8 0)).
Definition demo_priority : bytes := take 12 demo_frame ++ [129; 0; 32; 0] ++ drop 12 demo_frame.

Lemma demo_frame_holds : holds demo_frame_buf 6 demo_frame 8.
Proof.
  apply holds_intro with (blk := replicate 6 0 ++ demo_frame ++ replicate 8 0); [|done|vm_compute; done|vm_compute; done].
  split; try (vm_compute; done); try (simpl; lia). apply all_bytes_spec. vm_compute. done.
Qed.

Lemma vlan_tag_roundtrip_witness :
  exists b1 b2, vlan_encapsulate 7 demo_frame_buf = Ret b1 /\ vlan_is_tagged b1 = Ret true /\
    vlan_decapsulate VLAN_ALL 1 b1 = Ret (b2, 7) /\ holds b2 6 demo_frame 8.
Proof.
  apply (vlan_tag_roundtrip demo_frame_buf 6 demo_frame 8 7 VLAN_ALL 1); try lia; try done.
  apply demo_frame_holds.
Defined.

Lemma vlan_decapsulate_any_witness :
  exists b' v, vlan_decapsulate VLAN_ALL 1 (buf_of demo_priority) = Ret (b', v) /\
    match decap_spec VLAN_ALL 1 demo_priority with
    | None => blen b' = 0 /\ v = -1
    | Some (n, frame', vid) => holds b' (0 + n) frame' 0 /\ v = vid
    end.
Proof. apply vlan_decapsulate_any; [apply buf_of_holds; vm_compute; done|lia]. Defined.

Lemma vlan_only_tagged_accepts_priority_witness :
  exists b', vlan_decapsulate VLAN_ONLY_TAGGED 1 (buf_of demo_priority) = Ret (b', 1) /\ holds b' 0 demo_priority 0.
Proof.
  apply vlan_only_tagged_accepts_priority; [apply buf_of_holds; vm_compute; done|lia|vm_compute; congruence|vm_compute; done|vm_compute; done].
Defined.
