(* ===== verification/PacketProto.v ===== *)
(** * PacketProto: packets over a byte stream (badvpn flow/PacketProtoEncoder.c, flow/PacketProtoDecoder.c)

    The protocol between tun2socks and its UDP gateway: each packet is a
    16-bit little-endian length followed by that many bytes.  The decoder
    reassembles packets from stream reads of any size.  What it asks of the
    two interfaces it is connected to is the [io] value of a handler: a read
    of [len] bytes into its buffer at [off], or a packet to send.  [step] is
    the decoder together with a stream that fills each read with any positive
    number of bytes and an output that finishes each packet. *)

From S2P Require Import Prelude Buffer Proto.
From stdpp Require Import prelude.
From Stdlib Require Import ZArith Lia ZifyBool.

Local Open Scope Z_scope.

Definition SIZEOF_PP_HEADER : Z := 2.
Definition PACKETPROTO_ENCLEN (len : Z) : Z := SIZEOF_PP_HEADER + len.
Definition PACKETPROTO_MAXPAYLOAD : Z := 65535.

(** ** Encoder *)

(** [output_packet] of the encoder: the block offered by the receiver. *)
Record PacketProtoEncoder := mkenc { output_packet : option bytes }.

(** Where the input is asked to put the payload. *)
Definition output_handler_recv (enc : PacketProtoEncoder) (data : bytes) : outcome (PacketProtoEncoder * Z) :=
  ASSERT (match output_packet enc with None => true | Some _ => false end);;
  Ret (mkenc (Some data), SIZEOF_PP_HEADER).

(** [input_handler_done]: the finished block and its length. *)
Definition enc_input_handler_done (enc : PacketProtoEncoder) (in_len : Z) : outcome (PacketProtoEncoder * (bytes * Z)) :=
  match output_packet enc with
  | None => Abort
  | Some blk =>
      blk ← mem_write blk 0 (le_bytes 2 (u16 in_len));
      Ret (mkenc None, (blk, PACKETPROTO_ENCLEN in_len))
  end.

(** ** Decoder *)

Record PacketProtoDecoder := mkdec {
  output_mtu : Z;
  buf_size : Z;
  buf_start : Z;
  buf_used : Z;
  buf : bytes
}.

Inductive io := Receiving (off len : Z) | Sending (pkt : bytes).

(** [StreamRecvInterface_Receiver_Recv] *)
Definition Receiver_Recv (off len : Z) : outcome io := ASSERT (0 <? len);; Ret (Receiving off len).

(** The result says what was requested and whether the error handler ran. *)
Definition process_data (d : PacketProtoDecoder) : outcome (PacketProtoDecoder * io * bool) :=
  let receive (d : PacketProtoDecoder) (was_error : bool) : outcome (PacketProtoDecoder * io * bool) :=
    i ← Receiver_Recv (buf_start d + buf_used d) (buf_size d - (buf_start d + buf_used d));
    Ret (d, i, was_error) in
  let not_complete : outcome (PacketProtoDecoder * io * bool) :=
    if buf_start d + buf_used d =? buf_size d then
      w ← mem_read (buf d) (buf_start d) (buf_used d);
      blk ← mem_write (buf d) 0 w;
      receive (mkdec (output_mtu d) (buf_size d) 0 (buf_used d) blk) false
    else receive d false in
  let data := buf_start d in
  let left := buf_used d in
  if left <? SIZEOF_PP_HEADER then not_complete
  else
    header ← mem_read (buf d) data SIZEOF_PP_HEADER;
    let data := data + SIZEOF_PP_HEADER in
    let left := left - SIZEOF_PP_HEADER in
    let data_len := le_val header in
    if output_mtu d <? data_len then
      receive (mkdec (output_mtu d) (buf_size d) 0 0 (buf d)) true
    else if left <? data_len then not_complete
    else
      pkt ← mem_read (buf d) data data_len;
      Ret (mkdec (output_mtu d) (buf_size d) (buf_start d + (SIZEOF_PP_HEADER + data_len))
             (buf_used d - (SIZEOF_PP_HEADER + data_len)) (buf d), Sending pkt, false).

Definition dec_input_handler_done (d : PacketProtoDecoder) (data_len : Z) : outcome (PacketProtoDecoder * io * bool) :=
  ASSERT (0 <? data_len);;
  ASSERT (data_len <=? buf_size d - (buf_start d + buf_used d));;
  process_data (mkdec (output_mtu d) (buf_size d) (buf_start d) (buf_used d + data_len) (buf d)).

Definition output_handler_done (d : PacketProtoDecoder) : outcome (PacketProtoDecoder * io * bool) := process_data d.

(** [mtu] is the MTU of the output. *)
Definition PacketProtoDecoder_Init (mtu : Z) : outcome (PacketProtoDecoder * io) :=
  let output_mtu := Z.min mtu PACKETPROTO_MAXPAYLOAD in
  let buf_size := PACKETPROTO_ENCLEN output_mtu in
  i ← Receiver_Recv 0 buf_size;
  Ret (mkdec output_mtu buf_size 0 0 (replicate (Z.to_nat buf_size) 0), i).

Definition PacketProtoDecoder_Reset (d : PacketProtoDecoder) : PacketProtoDecoder :=
  mkdec (output_mtu d) (buf_size d) (buf_start d + buf_used d) 0 (buf d).

(** ** The decoder between a stream and an output *)

Record config := mkcfg {
  dec : PacketProtoDecoder;
  pending : io;
  stream : bytes;        (** bytes not read yet *)
  sent : list bytes;     (** packets submitted so far *)
  errors : nat           (** calls of the error handler *)
}.

(** A handler's result as the next configuration. *)
Definition next (r : PacketProtoDecoder * io * bool) (rest : bytes) (c : config) : config :=
  let '(d, i, e) := r in
  mkcfg d i rest (sent c ++ match i with Sending p => [p] | Receiving _ _ => [] end) (errors c + (if e then 1 else 0)).

(** What a handler does when the next [chunk] of the stream arrives, or when
    the output is done. *)
Definition on_chunk (c : config) (off : Z) (chunk : bytes) : outcome (PacketProtoDecoder * io * bool) :=
  let d := dec c in
  blk ← mem_write (buf d) off chunk;
  dec_input_handler_done (mkdec (output_mtu d) (buf_size d) (buf_start d) (buf_used d) blk) (zlen chunk).

Inductive step : config -> config -> Prop :=
  | step_input c off len chunk rest r :
      pending c = Receiving off len -> stream c = chunk ++ rest -> chunk <> [] -> zlen chunk <= len ->
      on_chunk c off chunk = Ret r -> step c (next r rest c)
  | step_output c p r :
      pending c = Sending p -> output_handler_done (dec c) = Ret r -> step c (next r (stream c) c).

(** ** Invariant *)

Record dec_wf (d : PacketProtoDecoder) : Prop := {
  dw_mtu : 0 <= output_mtu d <= 65535;
  dw_size : buf_size d = 2 + output_mtu d;
  dw_block : zlen (buf d) = buf_size d;
  dw_start : 0 <= buf_start d;
  dw_used : 0 <= buf_used d;
  dw_end : buf_start d + buf_used d <= buf_size d;
  dw_bytes : Forall is_byte (buf d)
}.

Definition window (d : PacketProtoDecoder) : bytes := slice (buf d) (buf_start d) (buf_used d).

(** The read the decoder waits for. *)
Definition recv_ok (d : PacketProtoDecoder) (i : io) : Prop :=
  match i with
  | Receiving off len => off = buf_start d + buf_used d /\ len = buf_size d - off /\ 0 < len
  | Sending _ => True
  end.

(** A window that holds no complete packet. *)
Definition incomplete (w : bytes) : Prop := zlen w < 2 \/ zlen w - 2 < le_val (take 2 w).

Lemma le_val_range l : Forall is_byte l -> 0 <= le_val l < 256 ^ zlen l.
Proof. intros H. unfold le_val. rewrite <- length_rev. apply be_val_range. by apply Forall_rev. Qed.

Lemma window_length d : dec_wf d -> zlen (window d) = buf_used d.
Proof. intros []. unfold window. apply zlen_slice; lia. Qed.

Lemma take_window d n : 0 <= n <= buf_used d -> take (Z.to_nat n) (window d) = slice (buf d) (buf_start d) n.
Proof. intros Hn. unfold window, slice. rewrite take_take. f_equal. lia. Qed.

(** Waiting for more: the rest of a packet is moved to the front when the
    buffer is used up, and there is always room for at least one byte. *)
Lemma wait_spec d :
  dec_wf d -> buf_used d < buf_size d ->
  exists d' i,
    (if buf_start d + buf_used d =? buf_size d then
       w ← mem_read (buf d) (buf_start d) (buf_used d);
       blk ← mem_write (buf d) 0 w;
       i ← Receiver_Recv (0 + buf_used d) (buf_size d - (0 + buf_used d));
       Ret (mkdec (output_mtu d) (buf_size d) 0 (buf_used d) blk, i, false)
     else
       i ← Receiver_Recv (buf_start d + buf_used d) (buf_size d - (buf_start d + buf_used d));
       Ret (d, i, false)) = Ret (d', i, false) /\
    dec_wf d' /\ recv_ok d' i /\ output_mtu d' = output_mtu d /\ window d' = window d /\ exists off len, i = Receiving off len.
Proof.
  intros Hwf Hlt. pose proof (window_length d Hwf) as Hwl. destruct Hwf as [Hm Hs Hb Hst Hu He Hby].
  destruct (_ =? _) eqn:E.
  - rewrite mem_read_Ret by lia. cbn [mbind outcome_bind]. fold (window d). rewrite mem_write_Ret by lia. cbn [mbind outcome_bind].
    unfold Receiver_Recv. rewrite ASSERT_true by lia. cbn [mbind outcome_bind]. eexists _, _. split; [done|].
    assert (L : length (splice (buf d) 0 (window d)) = length (buf d)) by (apply length_splice; lia).
    split; [|split; [|split; [done|split; [|eauto]]]].
    + split; simpl; try done; try lia. apply Forall_splice; [done|by apply Forall_slice].
    + simpl. lia.
    + unfold window at 1. simpl. apply slice_splice_same; lia.
  - unfold Receiver_Recv. rewrite ASSERT_true by lia. cbn [mbind outcome_bind]. eexists _, _. split; [done|].
    split; [by split|]. split; [simpl; lia|]. eauto.
Qed.

(** [process_data] returns from every well-formed state; one of three cases. *)
Lemma process_data_spec d :
  dec_wf d ->
  exists d' i e, process_data d = Ret (d', i, e) /\ dec_wf d' /\ recv_ok d' i /\ output_mtu d' = output_mtu d /\
    ((exists p, i = Sending p /\ e = false /\ window d = le_bytes 2 (zlen p) ++ p ++ window d' /\ zlen p <= output_mtu d) \/
     (exists off len, i = Receiving off len /\ e = false /\ window d' = window d /\ incomplete (window d)) \/
     (exists off len, i = Receiving off len /\ e = true /\ window d' = [] /\ 2 <= zlen (window d) /\
        output_mtu d < le_val (take 2 (window d)))).
Proof.
  intros Hwf. pose proof (window_length d Hwf) as Hwl. pose proof Hwf as [Hm Hs Hb Hst Hu He Hby].
  unfold process_data, SIZEOF_PP_HEADER. cbv zeta. cbn [buf_start buf_used buf_size].
  destruct (buf_used d <? 2) eqn:E0.
  { destruct (wait_spec d Hwf ltac:(lia)) as (d' & i & -> & Hd' & Hr & Hmt & Hw & off & len & ->).
    exists d', (Receiving off len), false. split_and!; try done. right. left. exists off, len. split_and!; try done. left. lia. }
  rewrite (mem_read_Ret _ (buf_start d) 2) by lia. cbn [mbind outcome_bind]. rewrite <- take_window by lia. change (Z.to_nat 2) with 2%nat.
  set (len := le_val (take 2 (window d))).
  assert (Hlen : 0 <= len < 65536).
  { unfold len. pose proof (le_val_range (take 2 (window d))) as H. rewrite length_take in H.
    replace (2 `min` length (window d))%nat with 2%nat in H by lia. apply H. apply Forall_take. by apply Forall_slice. }
  destruct (output_mtu d <? len) eqn:E1.
  { unfold Receiver_Recv. rewrite ASSERT_true by lia. cbn [mbind outcome_bind]. eexists _, _, _. split; [reflexivity|].
    split; [split; simpl; done || lia|]. split; [simpl; lia|]. split; [done|]. right. right. eexists _, _. split_and!; try done; lia. }
  destruct (buf_used d - 2 <? len) eqn:E2.
  { destruct (wait_spec d Hwf ltac:(lia)) as (d' & i & -> & Hd' & Hr & Hmt & Hw & off & l & ->).
    exists d', (Receiving off l), false. split_and!; try done. right. left. exists off, l. split_and!; try done. right. fold len. lia. }
  rewrite (mem_read_Ret _ (buf_start d + 2) len) by lia. cbn [mbind outcome_bind]. set (p := slice (buf d) (buf_start d + 2) len).
  assert (Hp : zlen p = len) by (apply zlen_slice; lia).
  eexists _, _, _. split; [done|]. split; [split; simpl; done || lia|]. split; [done|]. split; [done|].
  left. exists p. split; [done|]. split; [done|]. split; [|lia]. rewrite Hp.
  assert (Hhd : le_bytes 2 len = take 2 (window d)).
  { unfold len. pose proof (le_bytes_val (take 2 (window d))) as H. rewrite length_take in H.
    replace (2 `min` length (window d))%nat with 2%nat in H by lia. apply H. apply Forall_take. by apply Forall_slice. }
  rewrite Hhd. change 2%nat with (Z.to_nat 2). rewrite take_window by lia. unfold window, p. cbn [buf buf_start buf_used].
  replace (buf_used d) with (2 + (len + (buf_used d - (2 + len)))) at 1 by lia. rewrite !slice_app_split by lia.
  do 2 f_equal. f_equal. lia.
Qed.

(** The encoding of a packet, and of a sequence of packets. *)
Definition enc_packet (p : bytes) : bytes := le_bytes 2 (zlen p) ++ p.
Definition enc_stream (ps : list bytes) : bytes := concat (map enc_packet ps).

(** Two encodings that start alike start with the same packet. *)
Lemma enc_packet_prefix p q r s :
  zlen p < 65536 -> zlen q < 65536 -> enc_packet p ++ r = enc_packet q ++ s -> p = q /\ r = s.
Proof.
  intros Hp Hq H. unfold enc_packet in H. rewrite <- !(assoc_L (++)) in H.
  apply app_inj_1 in H as [Hl H]; [|by rewrite !length_le_bytes]. apply (f_equal le_val) in Hl.
  rewrite !le_val_bytes, !Z.mod_small in Hl by (change (256 ^ Z.of_nat 2) with 65536; lia).
  apply app_inj_1 in H; [done|lia].
Qed.

(** What holds of every configuration, whatever the stream contains. *)
Record safe (c : config) : Prop := {
  safe_dec : dec_wf (dec c);
  safe_recv : recv_ok (dec c) (pending c);
  safe_bytes : Forall is_byte (stream c)
}.

(** [inv ps c]: the packets sent are a prefix of [ps], and the encoding of the
    others is what lies in the decoder's window and in the stream. *)
Record inv (ps : list bytes) (c : config) : Prop := {
  inv_safe : safe c;
  inv_mtu : Forall (λ p, zlen p <= output_mtu (dec c)) ps;
  inv_sent : exists todo, ps = sent c ++ todo /\ enc_stream todo = window (dec c) ++ stream c;
  inv_wait : forall off len, pending c = Receiving off len -> incomplete (window (dec c));
  inv_errors : errors c = 0%nat
}.

(** Writing a chunk extends the window. *)
Lemma chunk_window c off len chunk rest :
  safe c -> pending c = Receiving off len -> stream c = chunk ++ rest -> chunk <> [] -> zlen chunk <= len ->
  exists d, on_chunk c off chunk = process_data d /\ dec_wf d /\ window d = window (dec c) ++ chunk /\
    output_mtu d = output_mtu (dec c) /\ Forall is_byte rest.
Proof.
  intros [[Hm Hs Hb Hst Hu He Hby] Hr Hsb] Hp Hstr Hne Hlen. rewrite Hp in Hr. destruct Hr as (Hoff & Hl & _).
  rewrite Hstr, Forall_app in Hsb. destruct Hsb as [Hcb Hrb].
  assert (Hpos : 0 < zlen chunk) by (destruct chunk; [done|simpl; lia]).
  unfold on_chunk, dec_input_handler_done. rewrite mem_write_Ret by lia. cbn [mbind outcome_bind buf_size buf_start buf_used output_mtu buf].
  rewrite !ASSERT_true by lia. cbn [mbind outcome_bind]. eexists. split; [done|].
  assert (L : length (splice (buf (dec c)) off chunk) = length (buf (dec c))) by (apply length_splice; lia).
  split; [|split; [|split; [done|done]]].
  - split; simpl; try done; try lia. by apply Forall_splice.
  - unfold window. cbn [buf buf_start buf_used]. rewrite slice_app_split by lia. f_equal.
    + apply slice_splice_before; lia.
    + rewrite <- Hoff. apply slice_splice_same; lia.
Qed.

Lemma next_safe d r rest c :
  dec_wf d -> process_data d = Ret r -> Forall is_byte rest -> safe (next r rest c).
Proof.
  intros Hd Hr Hb. destruct (process_data_spec d Hd) as (d' & i & e & Hr' & Hd' & Hok & _).
  rewrite Hr in Hr'. injection Hr' as ->. by split.
Qed.

(** The first packet of an encoding. *)
Lemma enc_stream_cons p ps : enc_stream (p :: ps) = enc_packet p ++ enc_stream ps.
Proof. done. Qed.

Lemma take_2_enc p l : zlen p < 65536 -> le_val (take 2 (enc_packet p ++ l)) = zlen p.
Proof.
  intros Hp. unfold enc_packet. rewrite <- (assoc_L (++)), take_app_length' by (by rewrite length_le_bytes).
  rewrite le_val_bytes. apply Z.mod_small. change (256 ^ Z.of_nat 2) with 65536. lia.
Qed.

Lemma take_2_window {A} (w l : list A) : (2 <= length w)%nat -> take 2 (w ++ l) = take 2 w.
Proof. intros. by rewrite take_app_le. Qed.

(** [process_data] keeps the invariant on a stream of encoded packets. *)
Lemma process_inv ps d rest c todo :
  dec_wf d -> Forall is_byte rest -> Forall (λ p, zlen p <= output_mtu d) ps ->
  ps = sent c ++ todo -> enc_stream todo = window d ++ rest -> errors c = 0%nat ->
  exists r, process_data d = Ret r /\ inv ps (next r rest c).
Proof.
  intros Hd Hb Hmtu Hps Henc Herr. destruct (process_data_spec d Hd) as (d' & i & e & Hr & Hd' & Hok & Hm & Hcase).
  pose proof (dw_mtu _ Hd) as Hm65. pose proof (window_length d Hd) as Hwl. pose proof (dw_used _ Hd) as Hu.
  assert (Htodo : Forall (λ p, zlen p <= output_mtu d) todo) by (rewrite Hps, Forall_app in Hmtu; apply Hmtu).
  exists (d', i, e). split; [done|]. pose proof (next_safe d (d', i, e) rest c Hd Hr Hb) as Hsafe.
  assert (Hmtu' : Forall (λ p, zlen p <= output_mtu d') ps) by (by rewrite Hm).
  destruct Hcase as [(p & -> & -> & Hw & Hpm)|[(off & len & -> & -> & Hw & Hinc)|(off & len & -> & -> & _ & Hw2 & Hbig)]].
  - split; [done|done| |done|simpl; lia]. rewrite Hw in Henc. destruct todo as [|q todo].
    { apply (f_equal length) in Henc. rewrite !length_app, length_le_bytes in Henc. simpl in Henc. lia. }
    apply Forall_cons in Htodo as [Hq _]. rewrite enc_stream_cons in Henc.
    replace ((le_bytes 2 (zlen p) ++ p ++ window d') ++ rest) with (enc_packet p ++ (window d' ++ rest)) in Henc
      by (unfold enc_packet; by rewrite <- !(assoc_L (++))).
    apply enc_packet_prefix in Henc as [-> Henc]; [|lia|lia]. exists todo. simpl. by rewrite <- (assoc_L (++)).
  - split; [done|done| |simpl; intros; by rewrite Hw|simpl; lia]. exists todo. simpl. rewrite app_nil_r. by rewrite Hw.
  - exfalso. destruct todo as [|q todo].
    { apply (f_equal length) in Henc. rewrite length_app in Henc. simpl in Henc. lia. }
    apply Forall_cons in Htodo as [Hq _]. rewrite enc_stream_cons in Henc.
    rewrite <- (take_2_window _ rest), <- Henc, take_2_enc in Hbig by lia. lia.
Qed.

Lemma step_inv ps c c' : inv ps c -> step c c' -> inv ps c'.
Proof.
  intros [Hs Hm (todo & Hps & Henc) Hw He] Hstep. inversion Hstep as [c0 off len chunk rest r Hp Hstr Hne Hl Hon|c0 p r Hp Hon]; subst c0 c'.
  - destruct (chunk_window c off len chunk rest Hs Hp Hstr Hne Hl) as (d & Heq & Hd & Hwin & Hmt & Hb).
    destruct (process_inv ps d rest c todo) as (r' & Hr' & Hinv); try done.
    + by rewrite Hmt.
    + rewrite Hwin, <- (assoc_L (++)), <- Hstr. done.
    + rewrite Heq, Hr' in Hon. injection Hon as <-. done.
  - destruct (process_inv ps (dec c) (stream c) c todo) as (r' & Hr' & Hinv); try done; try apply Hs.
    unfold output_handler_done in Hon. rewrite Hr' in Hon. injection Hon as <-. done.
Qed.

(** When the decoder waits and the stream is empty, everything was sent. *)
Lemma drained ps c off len : inv ps c -> pending c = Receiving off len -> stream c = [] -> sent c = ps.
Proof.
  intros [[Hd _ _] Hm (todo & Hps & Henc) Hw _] Hp Hstr. specialize (Hw off len Hp). rewrite Hstr, app_nil_r in Henc.
  destruct todo as [|q todo]; [by rewrite app_nil_r in Hps|]. exfalso.
  pose proof (dw_mtu _ Hd) as Hm65. rewrite Hps, Forall_app, Forall_cons in Hm. destruct Hm as (_ & Hq & _).
  rewrite enc_stream_cons in Henc. unfold incomplete in Hw. rewrite <- Henc, take_2_enc in Hw by lia.
  unfold enc_packet in Hw. rewrite !length_app, length_le_bytes in Hw. lia.
Qed.

(** Every event the environment may produce is handled. *)
Lemma progress c :
  safe c ->
  match pending c with
  | Receiving off len =>
      forall chunk rest, stream c = chunk ++ rest -> chunk <> [] -> zlen chunk <= len -> exists r, on_chunk c off chunk = Ret r
  | Sending _ => exists r, output_handler_done (dec c) = Ret r
  end.
Proof.
  intros Hs. destruct (pending c) as [off len|p] eqn:Hp.
  - intros chunk rest Hstr Hne Hl. destruct (chunk_window c off len chunk rest Hs Hp Hstr Hne Hl) as (d & -> & Hd & _).
    destruct (process_data_spec d Hd) as (d' & i & e & -> & _). eauto.
  - destruct (process_data_spec (dec c) (safe_dec _ Hs)) as (d' & i & e & Hr & _). unfold output_handler_done. eauto.
Qed.

Lemma init_spec mtu :
  0 <= mtu -> exists d, PacketProtoDecoder_Init mtu = Ret (d, Receiving 0 (buf_size d)) /\ dec_wf d /\
    output_mtu d = Z.min mtu 65535 /\ recv_ok d (Receiving 0 (buf_size d)) /\ window d = [].
Proof.
  intros Hm. unfold PacketProtoDecoder_Init, PACKETPROTO_ENCLEN, SIZEOF_PP_HEADER, PACKETPROTO_MAXPAYLOAD, Receiver_Recv.
  rewrite ASSERT_true by lia. cbn [mbind outcome_bind].
  exists (mkdec (mtu `min` 65535) (2 + mtu `min` 65535) 0 0 (replicate (Z.to_nat (2 + mtu `min` 65535)) 0)).
  split; [done|]. split; [|split; [done|split; [simpl; lia|done]]].
  split; simpl; try lia. - rewrite length_replicate. lia. - apply Forall_replicate. unfold is_byte. lia.
Qed.

Lemma enc_stream_bytes ps : Forall (Forall is_byte) ps -> Forall is_byte (enc_stream ps).
Proof.
  induction 1 as [|p ps Hp _ IH]; [done|]. rewrite enc_stream_cons. unfold enc_packet. rewrite !Forall_app.
  split_and!; [apply le_bytes_is_byte|done|done].
Qed.

Lemma init_inv mtu ps d :
  0 <= mtu -> Forall (Forall is_byte) ps -> Forall (λ p, zlen p <= Z.min mtu 65535) ps ->
  PacketProtoDecoder_Init mtu = Ret (d, Receiving 0 (buf_size d)) -> inv ps (mkcfg d (Receiving 0 (buf_size d)) (enc_stream ps) [] 0).
Proof.
  intros Hm Hb Hl Hi. destruct (init_spec mtu Hm) as (d' & Hi' & Hd & Hmt & Hr & Hw). rewrite Hi in Hi'. injection Hi' as -> _.
  split; simpl; [split; [done|done|by apply enc_stream_bytes]|by rewrite Hmt| |intros; left; rewrite Hw; simpl; lia|done].
  exists ps. by rewrite Hw.
Qed.

(** From every configuration the rest of the packets can be delivered. *)
Lemma can_finish ps n : forall c,
  inv ps c -> (2 * length (stream c) + 2 * (length ps - length (sent c)) + (if pending c is Sending _ then 1 else 0) < n)%nat ->
  exists c', rtc step c c' /\ sent c' = ps /\ stream c' = [].
Proof.
  induction n as [|n IH]; intros c Hinv Hn; [lia|]. pose proof (progress c (inv_safe _ _ Hinv)) as Hprog.
  assert (Hgo : forall c', step c c' -> (2 * length (stream c') + 2 * (length ps - length (sent c')) +
      (if pending c' is Sending _ then 1 else 0) < n)%nat -> exists c'', rtc step c c'' /\ sent c'' = ps /\ stream c'' = []).
  { intros c' Hs Hlt. destruct (IH c' (step_inv _ _ _ Hinv Hs) Hlt) as (c'' & Hr & Hd). exists c''. split; [by eapply rtc_l|done]. }
  assert (Hmore : forall r rest, inv ps (next r rest c) -> (length (sent (next r rest c)) <= length ps)%nat).
  { intros r rest [_ _ (todo & Hps & _) _ _]. apply (f_equal length) in Hps. rewrite length_app in Hps. lia. }
  destruct (pending c) as [off len|p] eqn:Hp.
  - destruct (stream c) as [|x rest] eqn:Hstr.
    { exists c. split; [done|]. split; [by eapply drained|done]. }
    pose proof (safe_recv _ (inv_safe _ _ Hinv)) as Hr. rewrite Hp in Hr. destruct Hr as (_ & _ & Hlen).
    destruct (Hprog [x] rest eq_refl ltac:(done) ltac:(simpl; lia)) as (r & Hon).
    assert (Hs : step c (next r rest c)) by (apply (step_input c off len [x] rest r Hp Hstr); [done|simpl; lia|done]). apply (Hgo _ Hs).
    pose proof (Hmore r rest (step_inv _ _ _ Hinv Hs)) as Hle. destruct r as [[d i] e]. cbn [next stream sent pending length] in *.
    rewrite length_app in *. destruct i; simpl in *; lia.
  - destruct Hprog as (r & Hon). assert (Hs : step c (next r (stream c) c)) by (by eapply step_output). apply (Hgo _ Hs).
    pose proof (Hmore r _ (step_inv _ _ _ Hinv Hs)) as Hle. destruct r as [[d i] e]. cbn [next stream sent pending] in *.
    rewrite length_app in *. destruct i; simpl in *; lia.
Qed.

(** ** Theorems *)

(** The decoder with resets at any time. *)
Inductive step_or_reset : config -> config -> Prop :=
  | sr_step c c' : step c c' -> step_or_reset c c'
  | sr_reset c : step_or_reset c (mkcfg (PacketProtoDecoder_Reset (dec c)) (pending c) (stream c) (sent c) (errors c)).

Lemma step_safe c c' : safe c -> step_or_reset c c' -> safe c'.
Proof.
  intros Hs Hstep. inversion Hstep as [c0 c1 Hst|c0]; subst.
  - inversion Hst as [c0 off len chunk rest r Hp Hstr Hne Hl Hon|c0 p r Hp Hon]; subst.
    + destruct (chunk_window c off len chunk rest Hs Hp Hstr Hne Hl) as (d & Heq & Hd & _ & _ & Hb).
      rewrite Heq in Hon. by eapply next_safe.
    + eapply next_safe; [apply Hs|exact Hon|apply Hs].
  - destruct Hs as [[] Hr Hb]. split; simpl; [split; simpl; try done; lia| |done].
    destruct (pending c); [|done]. simpl in *. lia.
Qed.

(** C33. Packets over a stream: the encodings of packets no longer than the
    output's MTU, read in pieces of any size, are handed to the output as
    exactly those packets in order.  In every reachable configuration what was
    sent is a prefix, no error was reported, the pending read asks for at least
    one byte inside the buffer, every event is handled, and when the stream is
    used up and the decoder waits, everything has been sent. *)
Theorem packetproto_delivers mtu ps d i c :
  0 <= mtu -> Forall (Forall is_byte) ps -> Forall (λ p, zlen p <= Z.min mtu 65535) ps ->
  PacketProtoDecoder_Init mtu = Ret (d, i) -> rtc step (mkcfg d i (enc_stream ps) [] 0) c ->
  (exists todo, ps = sent c ++ todo) /\ errors c = 0%nat /\
  match pending c with
  | Receiving off len =>
      0 < len /\ 0 <= off /\ off + len <= zlen (buf (dec c)) /\ (stream c = [] -> sent c = ps) /\
      forall chunk rest, stream c = chunk ++ rest -> chunk <> [] -> zlen chunk <= len -> exists r, on_chunk c off chunk = Ret r
  | Sending _ => exists r, output_handler_done (dec c) = Ret r
  end.
Proof.
  intros Hm Hb Hl Hi Hr. destruct (init_spec mtu Hm) as (d' & Hi' & _). rewrite Hi in Hi'. injection Hi' as -> ->.
  pose proof (init_inv mtu ps d' Hm Hb Hl Hi) as Hinv0.
  assert (Hinv : inv ps c) by (by apply (rtc_preserve step (inv ps) _ _ (step_inv ps) Hr)). clear Hr Hinv0.
  pose proof (progress c (inv_safe _ _ Hinv)) as Hprog. pose proof (inv_safe _ _ Hinv) as [[] Hrecv _].
  pose proof (inv_sent _ _ Hinv) as (todo & Hps & _). split; [eauto|]. split; [apply Hinv|].
  destruct (pending c) as [off len|p] eqn:Hp; [|done]. destruct Hrecv as (-> & -> & Hlen).
  split; [done|]. split; [lia|]. split; [lia|]. split; [|done]. by eapply drained.
Qed.

(** Delivery completes: from the start, and from every configuration that
    can be reached, the system can run on to one where all packets have been
    handed over and the stream is used up. *)
Theorem packetproto_completes mtu ps d i c :
  0 <= mtu -> Forall (Forall is_byte) ps -> Forall (λ p, zlen p <= Z.min mtu 65535) ps ->
  PacketProtoDecoder_Init mtu = Ret (d, i) -> rtc step (mkcfg d i (enc_stream ps) [] 0) c ->
  exists c', rtc step c c' /\ sent c' = ps /\ stream c' = [].
Proof.
  intros Hm Hb Hl Hi Hr. destruct (init_spec mtu Hm) as (d' & Hi' & _). rewrite Hi in Hi'. injection Hi' as -> ->.
  pose proof (init_inv mtu ps d' Hm Hb Hl Hi) as Hinv0.
  assert (Hinv : inv ps c) by (by apply (rtc_preserve step (inv ps) _ _ (step_inv ps) Hr)). eapply can_finish; [done|apply Nat.lt_succ_diag_r].
Qed.

(** The decoder is safe on arbitrary input: whatever bytes arrive, in
    whatever pieces, and with resets at any time, its handlers return, the
    buffer indices stay inside the buffer and a pending read asks for at least
    one byte. *)
Theorem packetproto_any_stream mtu input d i c :
  0 <= mtu -> Forall is_byte input -> PacketProtoDecoder_Init mtu = Ret (d, i) ->
  rtc step_or_reset (mkcfg d i input [] 0) c ->
  dec_wf (dec c) /\ recv_ok (dec c) (pending c) /\
  match pending c with
  | Receiving off len =>
      forall chunk rest, stream c = chunk ++ rest -> chunk <> [] -> zlen chunk <= len -> exists r, on_chunk c off chunk = Ret r
  | Sending _ => exists r, output_handler_done (dec c) = Ret r
  end.
Proof.
  intros Hm Hb Hi Hr. destruct (init_spec mtu Hm) as (d' & Hi' & Hd & _ & Hrc & _). rewrite Hi in Hi'. injection Hi' as -> ->.
  assert (Hs0 : safe (mkcfg d' (Receiving 0 (buf_size d')) input [] 0)) by (by split).
  assert (Hs : safe c) by (by apply (rtc_preserve step_or_reset safe _ _ step_safe Hr)).
  split; [apply Hs|]. split; [apply Hs|]. by apply progress.
Qed.

(** The encoder writes the encoding the decoder expects: given a block with
    room for header and payload, and the payload read in behind the header,
    the finished block starts with the packet's encoding, of the length
    reported. *)
Theorem packetproto_encodes enc blk p :
  output_packet enc = None -> zlen p <= PACKETPROTO_MAXPAYLOAD -> PACKETPROTO_ENCLEN (zlen p) <= zlen blk ->
  exists enc1 off blk1 enc2 blk2 n,
    output_handler_recv enc blk = Ret (enc1, off) /\ mem_write blk off p = Ret blk1 /\
    enc_input_handler_done (mkenc (Some blk1)) (zlen p) = Ret (enc2, (blk2, n)) /\
    output_packet enc2 = None /\ slice blk2 0 n = enc_packet p.
Proof.
  unfold PACKETPROTO_MAXPAYLOAD, PACKETPROTO_ENCLEN, SIZEOF_PP_HEADER. intros He Hp Hl.
  unfold output_handler_recv. rewrite He. cbn [ASSERT mbind outcome_bind]. unfold enc_input_handler_done. cbn [output_packet].
  assert (Hu : u16 (zlen p) = zlen p) by (unfold u16; apply Z.mod_small; lia).
  assert (L : length (splice blk 2 p) = length blk) by (apply length_splice; lia).
  eexists _, _, _, _, _, _. split; [done|]. split; [apply mem_write_Ret; unfold SIZEOF_PP_HEADER; lia|].
  rewrite mem_write_Ret by (rewrite ?length_le_bytes; unfold SIZEOF_PP_HEADER; lia). cbn [mbind outcome_bind]. split; [done|]. split; [done|].
  unfold PACKETPROTO_ENCLEN, SIZEOF_PP_HEADER. rewrite Hu, slice_app_split by lia. unfold enc_packet.
  rewrite slice_splice_same by (rewrite ?length_le_bytes; lia). f_equal.
  rewrite slice_splice_after by (rewrite ?length_le_bytes; lia). apply slice_splice_same; lia.
Qed.

(** ** Concrete runs *)

Definition demo_packets : list bytes := [[1; 2; 3]; []; [7]].

Lemma demo_init : PacketProtoDecoder_Init 4 = Ret (mkdec 4 6 0 0 (replicate 6 0), Receiving 0 6).
Proof. vm_compute. done. Qed.

Lemma demo_packets_ok : Forall (Forall is_byte) demo_packets /\ Forall (λ p, zlen p <= Z.min 4 65535) demo_packets.
Proof.
  split; repeat (apply Forall_cons; split); try apply Forall_nil_2;
    first [unfold is_byte; lia | vm_compute; congruence].
Qed.

Lemma packetproto_delivers_witness :
  let c := mkcfg (mkdec 4 6 0 0 (replicate 6 0)) (Receiving 0 6) (enc_stream demo_packets) [] 0 in
  (exists todo, demo_packets = sent c ++ todo) /\ errors c = 0%nat /\
  match pending c with
  | Receiving off len =>
      0 < len /\ 0 <= off /\ off + len <= zlen (buf (dec c)) /\ (stream c = [] -> sent c = demo_packets) /\
      forall chunk rest, stream c = chunk ++ rest -> chunk <> [] -> zlen chunk <= len -> exists r, on_chunk c off chunk = Ret r
  | Sending _ => exists r, output_handler_done (dec c) = Ret r
  end.
Proof.
  apply (packetproto_delivers 4 demo_packets (mkdec 4 6 0 0 (replicate 6 0)) (Receiving 0 6));
    [lia|apply demo_packets_ok|apply demo_packets_ok|apply demo_init|apply rtc_refl].
Defined.

Lemma packetproto_completes_witness :
  exists c', rtc step (mkcfg (mkdec 4 6 0 0 (replicate 6 0)) (Receiving 0 6) (enc_stream demo_packets) [] 0) c' /\
    sent c' = demo_packets /\ stream c' = [].
Proof.
  apply (packetproto_completes 4 demo_packets (mkdec 4 6 0 0 (replicate 6 0)) (Receiving 0 6));
    [lia|apply demo_packets_ok|apply demo_packets_ok|apply demo_init|apply rtc_refl].
Defined.

Lemma packetproto_any_stream_witness :
  let c := mkcfg (mkdec 4 6 0 0 (replicate 6 0)) (Receiving 0 6) [255; 255; 9] [] 0 in
  dec_wf (dec c) /\ recv_ok (dec c) (pending c) /\
  match pending c with
  | Receiving off len =>
      forall chunk rest, stream c = chunk ++ rest -> chunk <> [] -> zlen chunk <= len -> exists r, on_chunk c off chunk = Ret r
  | Sending _ => exists r, output_handler_done (dec c) = Ret r
  end.
Proof.
  apply (packetproto_any_stream 4 [255; 255; 9] (mkdec 4 6 0 0 (replicate 6 0)) (Receiving 0 6));
    [lia|apply all_bytes_spec; vm_compute; done|apply demo_init|apply rtc_refl].
Defined.

Lemma packetproto_encodes_witness :
  exists enc1 off blk1 enc2 blk2 n,
    output_handler_recv (mkenc None) (replicate 8 0) = Ret (enc1, off) /\ mem_write (replicate 8 0) off [1; 2; 3] = Ret blk1 /\
    enc_input_handler_done (mkenc (Some blk1)) 3 = Ret (enc2, (blk2, n)) /\
    output_packet enc2 = None /\ slice blk2 0 n = enc_packet [1; 2; 3].
Proof. apply (packetproto_encodes (mkenc None) (replicate 8 0) [1; 2; 3]); vm_compute; congruence. Defined.
