(* ===== verification/ChunkBuffer.v ===== *)
(** * The packet buffers of badvpn (structure/ChunkBuffer2.h, flow/PacketBuffer.c)

    [ChunkBuffer2] is a ring of blocks of four bytes that holds packets of any
    size: a header block with the length and the packet behind it, each packet
    in one piece.  Space at the end of the ring that cannot take a packet of
    full size is left out ([wrap]).  [PacketBuffer] connects it to a source and
    a sink of packets, which write and read the ring in place while the other
    side works. *)

From S2P Require Import Prelude Buffer Proto.
From stdpp Require Import prelude.
From Stdlib Require Import ZArith Lia ZifyBool.

Local Open Scope Z_scope.

(** sizeof(struct ChunkBuffer2_block) *)
Abbreviation BLOCK := 4.
Definition INT_MAX : Z := 2 ^ 31 - 1.

Definition bdivide_up (a b : Z) : Z := if 0 <? a mod b then a / b + 1 else a / b.

(** Pointers into the ring are offsets of bytes; [None] is NULL. *)
Record ChunkBuffer2 := mkcb {
  cb_buffer : bytes;
  cb_size : Z;
  cb_wrap : Z;
  cb_start : Z;
  cb_used : Z;
  cb_mtu : Z;
  cb_input_dest : option Z;
  cb_input_avail : Z;
  cb_output_dest : option Z;
  cb_output_avail : Z
}.
Implicit Types b : ChunkBuffer2.

Definition cb_set_buffer b (m : bytes) : ChunkBuffer2 :=
  mkcb m (cb_size b) (cb_wrap b) (cb_start b) (cb_used b) (cb_mtu b) (cb_input_dest b) (cb_input_avail b) (cb_output_dest b) (cb_output_avail b).
Definition cb_set_ring b (wrap start used : Z) : ChunkBuffer2 :=
  mkcb (cb_buffer b) (cb_size b) wrap start used (cb_mtu b) (cb_input_dest b) (cb_input_avail b) (cb_output_dest b) (cb_output_avail b).
Definition cb_set_input b (dest : option Z) (avail : Z) : ChunkBuffer2 :=
  mkcb (cb_buffer b) (cb_size b) (cb_wrap b) (cb_start b) (cb_used b) (cb_mtu b) dest avail (cb_output_dest b) (cb_output_avail b).
Definition cb_set_output b (dest : option Z) (avail : Z) : ChunkBuffer2 :=
  mkcb (cb_buffer b) (cb_size b) (cb_wrap b) (cb_start b) (cb_used b) (cb_mtu b) (cb_input_dest b) (cb_input_avail b) dest avail.

(** buffer[i].len *)
Definition block_len b (i : Z) : outcome Z := h ← mem_read (cb_buffer b) (BLOCK * i) BLOCK; Ret (to_int (le_val h)).
Definition set_block_len b (i len : Z) : outcome ChunkBuffer2 :=
  m ← mem_write (cb_buffer b) (BLOCK * i) (le_bytes 4 (u32 len)); Ret (cb_set_buffer b m).

Definition ChunkBuffer2_end b : Z :=
  if cb_wrap b - cb_start b <=? cb_used b then cb_used b - (cb_wrap b - cb_start b) else cb_start b + cb_used b.

Definition ChunkBuffer2_assert_buffer b : outcome unit :=
  ASSERT (0 <? cb_size b);; ASSERT (0 <? cb_wrap b);; ASSERT (cb_wrap b <=? cb_size b);;
  ASSERT (0 <=? cb_start b);; ASSERT (cb_start b <? cb_wrap b);; ASSERT (0 <=? cb_used b);; ASSERT (cb_used b <=? cb_wrap b);;
  ASSERT ((cb_wrap b =? cb_size b) || (cb_wrap b - cb_start b <=? cb_used b));; ASSERT (0 <=? cb_mtu b).

(** What [_ChunkBuffer2_update_input] stores and [_ChunkBuffer2_assert_io]
    expects. *)
Definition cb_free b : Z := if cb_wrap b - cb_start b <=? cb_used b then cb_start b - ChunkBuffer2_end b else cb_size b - ChunkBuffer2_end b.
Definition cb_input b : option Z * Z :=
  if cb_size b - ChunkBuffer2_end b - 1 <? cb_mtu b then (None, -1)
  else if 0 <? cb_free b then (Some (BLOCK * (ChunkBuffer2_end b + 1)), to_int ((cb_free b - 1) * BLOCK))
  else (None, -1).

Definition ChunkBuffer2_assert_io b : outcome unit :=
  ASSERT (bool_decide ((cb_input_dest b, cb_input_avail b) = cb_input b));;
  if 0 <? cb_used b then
    datalen ← block_len b (cb_start b);
    ASSERT (0 <=? datalen);;
    let blocklen := bdivide_up datalen BLOCK in
    ASSERT (blocklen <=? cb_used b - 1);; ASSERT (blocklen <=? cb_wrap b - cb_start b - 1);;
    ASSERT (bool_decide (cb_output_dest b = Some (BLOCK * (cb_start b + 1))));; ASSERT (cb_output_avail b =? datalen)
  else ASSERT (bool_decide (cb_output_dest b = None));; ASSERT (cb_output_avail b =? -1).

Definition ChunkBuffer2_update_input b : ChunkBuffer2 := cb_set_input b (fst (cb_input b)) (snd (cb_input b)).

Definition ChunkBuffer2_update_output b : outcome ChunkBuffer2 :=
  if 0 <? cb_used b then
    datalen ← block_len b (cb_start b);
    ASSERT (0 <=? datalen);;
    let blocklen := bdivide_up datalen BLOCK in
    ASSERT (blocklen <=? cb_used b - 1);; ASSERT (blocklen <=? cb_wrap b - cb_start b - 1);;
    Ret (cb_set_output b (Some (BLOCK * (cb_start b + 1))) datalen)
  else Ret (cb_set_output b None (-1)).

Definition ChunkBuffer2_calc_blocks (chunk_len num : Z) : Z :=
  let chunk_data_blocks := bdivide_up chunk_len BLOCK in
  if INT_MAX - 1 <? chunk_data_blocks then -1
  else
    let chunk_blocks := 1 + chunk_data_blocks in
    if INT_MAX - 1 <? num then -1
    else
      let num_chunks := num + 1 in
      if INT_MAX / num_chunks <? chunk_blocks then -1 else chunk_blocks * num_chunks.

Definition ChunkBuffer2_Init (buffer : bytes) (blocks mtu : Z) : outcome ChunkBuffer2 :=
  ASSERT (0 <? blocks);; ASSERT (0 <=? mtu);;
  let b := mkcb buffer blocks blocks 0 0 (bdivide_up mtu BLOCK) None 0 None 0 in
  ChunkBuffer2_assert_buffer b;;
  b ← ChunkBuffer2_update_output (ChunkBuffer2_update_input b);
  ChunkBuffer2_assert_io b;;
  Ret b.

Definition ChunkBuffer2_SubmitPacket b (len : Z) : outcome ChunkBuffer2 :=
  ASSERT (bool_decide (is_Some (cb_input_dest b)));; ASSERT (0 <=? len);; ASSERT (len <=? cb_input_avail b);;
  ChunkBuffer2_assert_buffer b;; ChunkBuffer2_assert_io b;;
  let fin := ChunkBuffer2_end b in
  let blocklen := bdivide_up len BLOCK in
  ASSERT (blocklen <=? cb_size b - fin - 1);;
  ASSERT ((cb_used b <? cb_wrap b - cb_start b) || (blocklen <=? cb_start b - fin - 1));;
  b ← set_block_len b fin len;
  let used := cb_used b + (1 + blocklen) in
  let wrap := if (used <=? cb_wrap b - cb_start b) && (cb_size b - (fin + 1 + blocklen) - 1 <? cb_mtu b) then fin + 1 + blocklen else cb_wrap b in
  let b := cb_set_ring b wrap (cb_start b) used in
  ChunkBuffer2_assert_buffer b;;
  let b := ChunkBuffer2_update_input b in
  b ← (if cb_used b =? 1 + blocklen then ChunkBuffer2_update_output b else Ret b);
  ChunkBuffer2_assert_io b;;
  Ret b.

Definition ChunkBuffer2_ConsumePacket b : outcome ChunkBuffer2 :=
  ASSERT (bool_decide (is_Some (cb_output_dest b)));;
  ChunkBuffer2_assert_buffer b;; ChunkBuffer2_assert_io b;;
  ASSERT (1 <=? cb_wrap b - cb_start b);; ASSERT (1 <=? cb_used b);;
  datalen ← block_len b (cb_start b);
  let blocklen := bdivide_up datalen BLOCK in
  ASSERT (blocklen <=? cb_wrap b - cb_start b - 1);; ASSERT (blocklen <=? cb_used b - 1);;
  let data_wrapped := cb_wrap b - cb_start b <=? cb_used b in
  let start := cb_start b + (1 + blocklen) in
  let used := cb_used b - (1 + blocklen) in
  let b := if start =? cb_wrap b then cb_set_ring b (cb_size b) 0 used else cb_set_ring b (cb_wrap b) start used in
  ChunkBuffer2_assert_buffer b;;
  let b := if data_wrapped then ChunkBuffer2_update_input b else b in
  b ← ChunkBuffer2_update_output b;
  ChunkBuffer2_assert_io b;;
  Ret b.

(** ** PacketBuffer

    [pb_recv] is the destination of the receive operation that is under way,
    [pb_send] the packet that the sink is working on. *)
Record PacketBuffer := mkpb { pb_buf : ChunkBuffer2; pb_input_mtu : Z; pb_recv : option Z; pb_send : option (Z * Z) }.
Implicit Types p : PacketBuffer.

Definition pb_set_buf p (b : ChunkBuffer2) : PacketBuffer := mkpb b (pb_input_mtu p) (pb_recv p) (pb_send p).

(** [PacketRecvInterface_Receiver_Recv] and [PacketPassInterface_Sender_Send]:
    one operation at a time. *)
Definition start_recv p : outcome PacketBuffer :=
  ASSERT (bool_decide (pb_recv p = None));; dest ← deref (cb_input_dest (pb_buf p)); Ret (mkpb (pb_buf p) (pb_input_mtu p) (Some dest) (pb_send p)).
Definition start_send p : outcome PacketBuffer :=
  ASSERT (bool_decide (pb_send p = None));; dest ← deref (cb_output_dest (pb_buf p));
  Ret (mkpb (pb_buf p) (pb_input_mtu p) (pb_recv p) (Some (dest, cb_output_avail (pb_buf p)))).

(** The source is done, with a packet of [in_len] bytes. *)
Definition input_handler_done p (in_len : Z) : outcome PacketBuffer :=
  ASSERT (bool_decide (is_Some (pb_recv p)));;
  let p := mkpb (pb_buf p) (pb_input_mtu p) None (pb_send p) in
  ASSERT (0 <=? in_len);; ASSERT (in_len <=? pb_input_mtu p);;
  let was_empty := cb_output_avail (pb_buf p) <? 0 in
  b ← ChunkBuffer2_SubmitPacket (pb_buf p) in_len;
  let p := pb_set_buf p b in
  p ← (if pb_input_mtu p <=? cb_input_avail b then start_recv p else Ret p);
  if was_empty then start_send p else Ret p.

(** The sink is done with the packet. *)
Definition pb_output_handler_done p : outcome PacketBuffer :=
  ASSERT (bool_decide (is_Some (pb_send p)));;
  let p := mkpb (pb_buf p) (pb_input_mtu p) (pb_recv p) None in
  let was_full := cb_input_avail (pb_buf p) <? pb_input_mtu p in
  b ← ChunkBuffer2_ConsumePacket (pb_buf p);
  let p := pb_set_buf p b in
  p ← (if was_full && (pb_input_mtu p <=? cb_input_avail b) then start_recv p else Ret p);
  if 0 <=? cb_output_avail b then start_send p else Ret p.

(** [alloc] is the block from the heap; [None] when there is none. *)
Definition PacketBuffer_Init (alloc : Z -> option bytes) (input_mtu output_mtu num_packets : Z) : outcome (option PacketBuffer) :=
  ASSERT (input_mtu <=? output_mtu);; ASSERT (0 <? num_packets);;
  let num_blocks := ChunkBuffer2_calc_blocks input_mtu num_packets in
  if num_blocks <? 0 then Ret None
  else match alloc (num_blocks * BLOCK) with
       | None => Ret None
       | Some m => b ← ChunkBuffer2_Init m num_blocks input_mtu; p ← start_recv (mkpb b input_mtu None None); Ret (Some p)
       end.

(** ** The layout of the ring *)

Lemma bdivide_up_spec a : 0 <= a -> 0 <= bdivide_up a BLOCK /\ a <= 4 * bdivide_up a BLOCK < a + 4.
Proof. intros Ha. unfold bdivide_up. destruct (0 <? a mod 4) eqn:E; mlia. Qed.

Definition blocks (d : bytes) : Z := bdivide_up (zlen d) BLOCK.

Lemma blocks_spec d : 0 <= blocks d /\ zlen d <= 4 * blocks d < zlen d + 4.
Proof. apply bdivide_up_spec. lia. Qed.

(** The packets [q] from block [pos] to block [fin], none of them beginning
    behind block [lim]. *)
Fixpoint laid (m : bytes) (lim pos : Z) (q : list bytes) (fin : Z) : Prop :=
  match q with
  | [] => pos = fin
  | d :: q' => pos <= lim /\ slice m (BLOCK * pos) BLOCK = le_bytes 4 (zlen d) /\ slice m (BLOCK * pos + BLOCK) (zlen d) = d /\
               laid m lim (pos + (1 + blocks d)) q' fin
  end.

Lemma laid_le m lim pos q fin : laid m lim pos q fin -> pos + Z.of_nat (length q) <= fin.
Proof. revert pos. induction q as [|d q IH]; simpl; intros pos H; [lia|]. destruct H as (_ & _ & _ & H). apply IH in H. pose proof (blocks_spec d). lia. Qed.

Lemma laid_app m lim pos q r fin : laid m lim pos (q ++ r) fin <-> exists mid, laid m lim pos q mid /\ laid m lim mid r fin.
Proof.
  revert pos. induction q as [|d q IH]; simpl; intros pos.
  - split; [by eexists|]. by intros (mid & -> & H).
  - rewrite IH. naive_solver.
Qed.

(** Only the bytes of the packets count. *)
Lemma laid_frame m m' lim pos q fin :
  laid m lim pos q fin -> (forall x n, BLOCK * pos <= x -> x + n <= BLOCK * fin -> slice m' x n = slice m x n) -> laid m' lim pos q fin.
Proof.
  revert pos. induction q as [|d q IH]; simpl; intros pos H Hm; [done|]. destruct H as (H1 & H2 & H3 & H4).
  pose proof (laid_le _ _ _ _ _ H4) as Hle. pose proof (blocks_spec d) as Hd. split_and!; [done| | |].
  - rewrite Hm; [done|lia|lia].
  - rewrite Hm; [done|lia|lia].
  - apply IH; [done|]. intros x n Hx Hn. apply Hm; lia.
Qed.

Lemma laid_splice m lim pos q fin x d :
  laid m lim pos q fin -> 0 <= pos -> 0 <= x -> x + zlen d <= zlen m -> (x + zlen d <= BLOCK * pos \/ BLOCK * fin <= x) -> laid (splice m x d) lim pos q fin.
Proof.
  intros H Hp Hx Hd Hout. apply (laid_frame m); [done|]. intros y n Hy Hn. destruct Hout as [Hout|Hout].
  - apply slice_splice_after; lia.
  - apply slice_splice_before; lia.
Qed.

Lemma laid_one m lim pos d : pos <= lim -> slice m (BLOCK * pos) BLOCK = le_bytes 4 (zlen d) -> slice m (BLOCK * pos + BLOCK) (zlen d) = d ->
  laid m lim pos [d] (pos + (1 + blocks d)).
Proof. by intros. Qed.

(** The packets in the ring: in one piece, or around its end. *)
Inductive ring (b : ChunkBuffer2) (q : list bytes) : Prop :=
| ring_flat : cb_wrap b = cb_size b -> laid (cb_buffer b) (cb_size b - cb_mtu b - 1) (cb_start b) q (cb_start b + cb_used b) ->
    cb_start b + cb_used b <= cb_size b - cb_mtu b - 1 -> ring b q
| ring_wrapped d q1 q2 fin : q = d :: q1 ++ q2 -> laid (cb_buffer b) (cb_size b - cb_mtu b - 1) (cb_start b) (d :: q1) (cb_wrap b) ->
    laid (cb_buffer b) (cb_size b - cb_mtu b - 1) 0 q2 fin -> fin <= cb_start b -> cb_used b = cb_wrap b - cb_start b + fin ->
    cb_size b - cb_mtu b - 1 < cb_wrap b <= cb_size b -> ring b q.

Definition cb_output b (q : list bytes) : option Z * Z :=
  match q with [] => (None, -1) | d :: _ => (Some (BLOCK * (cb_start b + 1)), zlen d) end.

Record cb_inv b (q : list bytes) : Prop := {
  ci_mtu : 0 <= cb_mtu b;
  ci_size : zlen (cb_buffer b) = BLOCK * cb_size b /\ BLOCK * cb_size b < 2 ^ 31;
  ci_start : 0 <= cb_start b;
  ci_ring : ring b q;
  ci_input : (cb_input_dest b, cb_input_avail b) = cb_input b;
  ci_output : (cb_output_dest b, cb_output_avail b) = cb_output b q
}.

(** Where the next packet goes, in either case. *)
Lemma ring_end b q : 0 <= cb_mtu b -> 0 <= cb_start b -> ring b q ->
  0 <= ChunkBuffer2_end b /\ 0 <= cb_used b /\ (cb_used b = 0 -> q = []) /\ (0 < cb_used b -> q <> []) /\ cb_start b < cb_wrap b <= cb_size b /\ cb_used b <= cb_wrap b /\
  ChunkBuffer2_end b <= cb_size b - cb_mtu b - 1 /\
  (cb_wrap b - cb_start b <= cb_used b /\ ChunkBuffer2_end b = cb_used b - (cb_wrap b - cb_start b) /\ ChunkBuffer2_end b <= cb_start b \/
   cb_used b < cb_wrap b - cb_start b /\ cb_wrap b = cb_size b /\ ChunkBuffer2_end b = cb_start b + cb_used b).
Proof.
  intros Hm Hs [H1 H2 H3|d q1 q2 fin -> H2 H3 H4 H5 H6].
  - pose proof (laid_le _ _ _ _ _ H2) as Hle. unfold ChunkBuffer2_end. rewrite (proj2 (Z.leb_gt _ _)) by lia. split_and!; try lia.
    + intros Hu. destruct q; [done|]. simpl in Hle. lia.
    + intros Hu ->. simpl in H2. lia.
  - pose proof (laid_le _ _ _ _ _ H2) as Hle. pose proof (laid_le _ _ _ _ _ H3) as Hle2. destruct H2 as [Hlim _]. simpl in Hle.
    unfold ChunkBuffer2_end. rewrite (proj2 (Z.leb_le _ _)) by lia. split_and!; try lia; done.
Qed.

Lemma cons_of {A} (l : list A) : l <> [] -> exists x l', l = x :: l'.
Proof. destruct l; [done|eauto]. Qed.

Section ring.
Context (b : ChunkBuffer2) (q : list bytes).
Hypotheses (Hmtu : 0 <= cb_mtu b) (Hsize : zlen (cb_buffer b) = BLOCK * cb_size b /\ BLOCK * cb_size b < 2 ^ 31) (Hstart : 0 <= cb_start b) (Hring : ring b q).

Lemma assert_buffer_ok : ChunkBuffer2_assert_buffer b = Ret tt.
Proof using Hmtu Hstart Hring.
  destruct (ring_end b q Hmtu Hstart Hring) as (H1 & H2 & _ & _ & H3 & H4 & _ & H5). unfold ChunkBuffer2_assert_buffer.
  replace (0 <? cb_size b) with true by lia. replace (0 <? cb_wrap b) with true by lia. replace (cb_wrap b <=? cb_size b) with true by lia.
  replace (0 <=? cb_start b) with true by lia. replace (cb_start b <? cb_wrap b) with true by lia. replace (0 <=? cb_used b) with true by lia.
  replace (cb_used b <=? cb_wrap b) with true by lia. replace ((cb_wrap b =? cb_size b) || (cb_wrap b - cb_start b <=? cb_used b)) with true by lia.
  by replace (0 <=? cb_mtu b) with true by lia.
Qed.

(** The header of the first packet. *)
Lemma head_spec d q' : q = d :: q' ->
  block_len b (cb_start b) = Ret (zlen d) /\ 1 + blocks d <= cb_used b /\ 1 + blocks d <= cb_wrap b - cb_start b /\ slice (cb_buffer b) (BLOCK * (cb_start b + 1)) (zlen d) = d.
Proof using Hmtu Hsize Hstart Hring.
  intros E. destruct Hsize as [Hz Hmax]. assert (H : exists fin, cb_start b + (1 + blocks d) <= fin <= cb_size b /\ fin - cb_start b <= cb_used b /\ fin <= cb_wrap b /\
    slice (cb_buffer b) (BLOCK * cb_start b) BLOCK = le_bytes 4 (zlen d) /\ slice (cb_buffer b) (BLOCK * cb_start b + BLOCK) (zlen d) = d).
  { destruct Hring as [H1 H2 H3|d0 q1 q2 fin E2 H2 H3 H4 H5 H6].
    - rewrite E in H2. simpl in H2. destruct H2 as (_ & L1 & L2 & L3). apply laid_le in L3. exists (cb_start b + cb_used b). split_and!; done || lia.
    - rewrite E in E2. injection E2 as <- _. simpl in H2. destruct H2 as (_ & L1 & L2 & L3). apply laid_le in L3. apply laid_le in H3. exists (cb_wrap b). split_and!; done || lia. }
  destruct H as (fin & F1 & F2 & F3 & F4 & F5). pose proof (blocks_spec d) as Hd. split_and!; [|lia|lia|rewrite <- F5 at 2; f_equal; lia].
  unfold block_len. rewrite mem_read_Ret by lia. cbn [mbind outcome_bind]. rewrite F4, le_val_bytes. change (256 ^ Z.of_nat 4) with (2 ^ 32).
  rewrite Z.mod_small by lia. f_equal. unfold to_int, u32. rewrite Z.mod_small by lia. by rewrite (proj2 (Z.ltb_lt _ _)) by lia.
Qed.

Lemma update_output_ok : ChunkBuffer2_update_output b = Ret (cb_set_output b (fst (cb_output b q)) (snd (cb_output b q))).
Proof using Hmtu Hsize Hstart Hring.
  destruct (ring_end b q Hmtu Hstart Hring) as (_ & H2 & H0 & H1 & _). unfold ChunkBuffer2_update_output. destruct (0 <? cb_used b) eqn:E.
  - destruct (cons_of q (H1 ltac:(lia))) as (d & q' & Eq). destruct (head_spec d q' Eq) as (-> & F2 & F3 & _). cbn [mbind outcome_bind].
    fold (blocks d). pose proof (blocks_spec d). replace (0 <=? zlen d) with true by lia. replace (blocks d <=? cb_used b - 1) with true by lia.
    replace (blocks d <=? cb_wrap b - cb_start b - 1) with true by lia. rewrite Eq. done.
  - rewrite (H0 ltac:(lia)). done.
Qed.

Lemma assert_io_ok : (cb_input_dest b, cb_input_avail b) = cb_input b -> (cb_output_dest b, cb_output_avail b) = cb_output b q -> ChunkBuffer2_assert_io b = Ret tt.
Proof using Hmtu Hsize Hstart Hring.
  intros Hi Hout. destruct (ring_end b q Hmtu Hstart Hring) as (_ & H2 & H0 & H1 & _). unfold ChunkBuffer2_assert_io. rewrite (bool_decide_eq_true_2 _ Hi).
  cbn [ASSERT mbind outcome_bind]. destruct (0 <? cb_used b) eqn:E.
  - destruct (cons_of q (H1 ltac:(lia))) as (d & q' & Eq). destruct (head_spec d q' Eq) as (-> & F2 & F3 & _). cbn [mbind outcome_bind].
    fold (blocks d). pose proof (blocks_spec d). replace (0 <=? zlen d) with true by lia. replace (blocks d <=? cb_used b - 1) with true by lia.
    replace (blocks d <=? cb_wrap b - cb_start b - 1) with true by lia. rewrite Eq in Hout. injection Hout as -> ->. rewrite bool_decide_eq_true_2 by done.
    by rewrite Z.eqb_refl.
  - rewrite (H0 ltac:(lia)) in Hout. injection Hout as -> ->. rewrite bool_decide_eq_true_2 by done. done.
Qed.

End ring.

(** The space for the next packet. *)
Lemma input_space b q dest : cb_inv b q -> cb_input_dest b = Some dest ->
  dest = BLOCK * (ChunkBuffer2_end b + 1) /\ cb_input_avail b = (cb_free b - 1) * BLOCK /\ 0 < cb_free b /\
  ChunkBuffer2_end b + cb_free b <= cb_size b /\ ChunkBuffer2_end b <= cb_size b - cb_mtu b - 1.
Proof.
  intros [Hm [Hz Hmax] Hs Hr Hi Ho] Hd. destruct (ring_end b q Hm Hs Hr) as (H1 & H2 & _ & _ & H3 & H4 & H5 & H6). rewrite Hd in Hi. unfold cb_input in Hi.
  destruct (_ <? cb_mtu b); [done|]. destruct (0 <? cb_free b) eqn:E; [|done]. injection Hi as -> ->.
  assert (Hfree : ChunkBuffer2_end b + cb_free b <= cb_size b) by (unfold cb_free; destruct (_ <=? _) eqn:E2; lia).
  split_and!; try lia. unfold to_int, u32. rewrite Z.mod_small by lia. by rewrite (proj2 (Z.ltb_lt _ _)) by lia.
Qed.

(** Writing into the free blocks leaves the packets alone. *)
Lemma ring_write b q x d :
  0 <= cb_mtu b -> 0 <= cb_start b -> ring b q -> zlen (cb_buffer b) = BLOCK * cb_size b ->
  BLOCK * ChunkBuffer2_end b <= x -> x + zlen d <= BLOCK * (ChunkBuffer2_end b + cb_free b) -> ring (cb_set_buffer b (splice (cb_buffer b) x d)) q.
Proof.
  intros Hm Hs Hr Hz Hx Hd. destruct (ring_end b q Hm Hs Hr) as (H1 & H2 & _ & _ & H3 & _ & _ & H6). unfold cb_free in *.
  destruct Hr as [R1 R2 R3|d0 q1 q2 fin -> R2 R3 R4 R5 R6].
  - pose proof (laid_le _ _ _ _ _ R2). rewrite (proj2 (Z.leb_gt _ _)) in Hd by lia. apply ring_flat; [done| |done]. cbn [cb_buffer cb_size cb_mtu cb_start cb_used cb_set_buffer].
    apply laid_splice; [done|lia|lia|lia|right; lia].
  - pose proof (laid_le _ _ _ _ _ R2). pose proof (laid_le _ _ _ _ _ R3). rewrite (proj2 (Z.leb_le _ _)) in Hd by lia.
    apply (ring_wrapped _ _ d0 q1 q2 fin); cbn [cb_buffer cb_size cb_mtu cb_start cb_used cb_wrap cb_set_buffer]; try done.
    + apply laid_splice; [done|lia|lia|lia|left; lia].
    + apply laid_splice; [done|lia|lia|lia|right; lia].
Qed.

(** The source writes its packet. *)
Lemma put_inv b q dest d :
  cb_inv b q -> cb_input_dest b = Some dest -> zlen d <= cb_input_avail b ->
  mem_write (cb_buffer b) dest d = Ret (splice (cb_buffer b) dest d) /\ cb_inv (cb_set_buffer b (splice (cb_buffer b) dest d)) q /\
  slice (splice (cb_buffer b) dest d) dest (zlen d) = d.
Proof.
  intros Hi Hdest Hd. destruct (input_space b q dest Hi Hdest) as (-> & Ha & Hf & Hle & _). destruct Hi as [Hm [Hz Hmax] Hs Hr Hin Hout].
  destruct (ring_end b q Hm Hs Hr) as (H1 & _). split_and!.
  - apply mem_write_Ret; lia.
  - split; cbn [cb_mtu cb_buffer cb_size cb_start cb_set_buffer]; try done; [split; [rewrite length_splice by lia; lia|done]|]. apply ring_write; done || lia.
  - apply slice_splice_same; lia.
Qed.

(** What the operations do at their end. *)
Lemma refresh_ok b q (ci co : bool) :
  0 <= cb_mtu b -> zlen (cb_buffer b) = BLOCK * cb_size b /\ BLOCK * cb_size b < 2 ^ 31 -> 0 <= cb_start b -> ring b q ->
  (ci = false -> (cb_input_dest b, cb_input_avail b) = cb_input b) -> (co = false -> (cb_output_dest b, cb_output_avail b) = cb_output b q) ->
  exists b', (let b := if ci then ChunkBuffer2_update_input b else b in
              b ← (if co then ChunkBuffer2_update_output b else Ret b); ChunkBuffer2_assert_io b;; Ret b) = Ret b' /\ cb_inv b' q /\
    cb_buffer b' = cb_buffer b /\ cb_size b' = cb_size b /\ cb_mtu b' = cb_mtu b /\ cb_start b' = cb_start b /\ cb_input b' = cb_input b.
Proof.
  intros Hm Hz Hs Hr Hci Hco. cbv zeta. set (b1 := if ci then ChunkBuffer2_update_input b else b).
  assert (H1 : cb_buffer b1 = cb_buffer b /\ cb_size b1 = cb_size b /\ cb_mtu b1 = cb_mtu b /\ cb_start b1 = cb_start b /\ cb_input b1 = cb_input b /\
    (cb_input_dest b1, cb_input_avail b1) = cb_input b /\ cb_output b1 q = cb_output b q /\ (cb_output_dest b1, cb_output_avail b1) = (cb_output_dest b, cb_output_avail b) /\ ring b1 q).
  { unfold b1. destruct ci; [|by split_and!; try done; apply Hci]. split_and!; try done; [symmetry; apply surjective_pairing|]. destruct Hr as [R1 R2 R3|d q1 q2 fin R1 R2 R3 R4 R5 R6]; [by apply ring_flat|by eapply ring_wrapped]. }
  destruct H1 as (E1 & E2 & E3 & E4 & E5 & E6 & E7 & E8 & Hr1). clearbody b1. rewrite <- E3 in Hm. rewrite <- E1, <- E2 in Hz. rewrite <- E4 in Hs.
  assert (H2 : exists b2, (if co then ChunkBuffer2_update_output b1 else Ret b1) = Ret b2 /\ cb_buffer b2 = cb_buffer b1 /\ cb_size b2 = cb_size b1 /\ cb_mtu b2 = cb_mtu b1 /\
    cb_start b2 = cb_start b1 /\ cb_input b2 = cb_input b1 /\ (cb_input_dest b2, cb_input_avail b2) = cb_input b1 /\ (cb_output_dest b2, cb_output_avail b2) = cb_output b2 q /\ ring b2 q).
  { destruct co.
    - rewrite (update_output_ok b1 q Hm Hz Hs Hr1). eexists. split; [done|]. split_and!; try done; [by rewrite E5|symmetry; apply surjective_pairing|].
      destruct Hr1 as [R1 R2 R3|d q1 q2 fin R1 R2 R3 R4 R5 R6]; [by apply ring_flat|by eapply ring_wrapped].
    - exists b1. split_and!; try done; [by rewrite E5|]. by rewrite E8, E7, Hco. }
  destruct H2 as (b2 & -> & F1 & F2 & F3 & F4 & F5 & F6 & F7 & Hr2). cbn [mbind outcome_bind]. rewrite <- F3 in Hm. rewrite <- F1, <- F2 in Hz. rewrite <- F4 in Hs. rewrite <- F5 in F6.
  rewrite (assert_io_ok b2 q Hm Hz Hs Hr2 F6 F7). exists b2. split; [done|]. split; [by split|]. split_and!; congruence.
Qed.

Definition cb_submitted b (len : Z) : ChunkBuffer2 :=
  let fin := ChunkBuffer2_end b + (1 + bdivide_up len BLOCK) in
  let used := cb_used b + (1 + bdivide_up len BLOCK) in
  cb_set_ring (cb_set_buffer b (splice (cb_buffer b) (BLOCK * ChunkBuffer2_end b) (le_bytes 4 (u32 len))))
    (if (used <=? cb_wrap b - cb_start b) && (cb_size b - fin - 1 <? cb_mtu b) then fin else cb_wrap b) (cb_start b) used.

Lemma ring_submitted b q len :
  0 <= cb_mtu b -> zlen (cb_buffer b) = BLOCK * cb_size b /\ BLOCK * cb_size b < 2 ^ 31 -> 0 <= cb_start b -> ring b q ->
  0 <= len <= (cb_free b - 1) * BLOCK -> ring (cb_submitted b len) (q ++ [slice (cb_buffer b) (BLOCK * (ChunkBuffer2_end b + 1)) len]).
Proof.
  intros Hm [Hz Hmax] Hs Hr Hlen. destruct (ring_end b q Hm Hs Hr) as (H1 & H2 & _ & _ & H3 & H4 & H5 & H6). destruct (bdivide_up_spec len ltac:(lia)) as [Hb1 Hb2].
  assert (Hfree : ChunkBuffer2_end b + cb_free b <= cb_size b) by (unfold cb_free; destruct (_ <=? _) eqn:E2; lia).
  set (d := slice _ _ len). assert (Hd : zlen d = len) by (apply zlen_slice; lia). set (h := le_bytes 4 (u32 len)). assert (Hh : zlen h = 4) by (unfold h; by rewrite length_le_bytes).
  pose proof (ring_write b q (BLOCK * ChunkBuffer2_end b) h Hm Hs Hr Hz ltac:(lia) ltac:(lia)) as Hr1. set (m := splice _ _ h) in Hr1.
  assert (Hone : laid m (cb_size b - cb_mtu b - 1) (ChunkBuffer2_end b) [d] (ChunkBuffer2_end b + (1 + bdivide_up len BLOCK))).
  { replace (bdivide_up len BLOCK) with (blocks d) by (unfold blocks; by rewrite Hd). apply laid_one; [lia| |].
    - unfold m. rewrite slice_splice_same by lia. unfold h. rewrite Hd. f_equal. unfold u32. apply Z.mod_small. lia.
    - unfold m. rewrite slice_splice_after by lia. rewrite Hd. unfold d. f_equal. lia. }
  unfold cb_submitted. fold h m. set (k := bdivide_up len BLOCK) in *. set (e := ChunkBuffer2_end b) in *.
  destruct Hr1 as [R1 R2 R3|d0 q1 q2 fin -> R2 R3 R4 R5 R6]; cbn [cb_buffer cb_size cb_mtu cb_start cb_used cb_wrap cb_set_buffer] in *.
  - destruct H6 as [H6|(W1 & W2 & W3)]; [lia|]. replace (_ <=? _) with true by (unfold cb_free in Hlen; rewrite (proj2 (Z.leb_gt _ _)) in Hlen by lia; fold e in Hlen; lia).
    cbn [andb]. assert (Hall : laid m (cb_size b - cb_mtu b - 1) (cb_start b) (q ++ [d]) (e + (1 + k))) by (apply laid_app; exists e; split; [by rewrite W3|done]).
    destruct (_ <? _) eqn:E.
    + destruct (cons_of (q ++ [d])) as (d0 & q1 & Eq); [by destruct q|]. apply (ring_wrapped _ _ d0 q1 [] 0); cbn [cb_buffer cb_size cb_mtu cb_start cb_used cb_wrap cb_set_ring cb_set_buffer]; try done.
      * by rewrite app_nil_r.
      * by rewrite <- Eq.
      * lia.
      * lia.
    + apply ring_flat; cbn [cb_buffer cb_size cb_mtu cb_start cb_used cb_wrap cb_set_ring cb_set_buffer]; [done| |lia]. replace (cb_start b + (cb_used b + (1 + k))) with (e + (1 + k)) by lia. done.
  - pose proof (laid_le _ _ _ _ _ R3). destruct H6 as [(W1 & W2 & W3)|H6]; [|lia]. replace (_ <=? _) with false by lia. cbn [andb].
    assert (fin = e) by lia. subst fin. unfold cb_free in Hlen. rewrite (proj2 (Z.leb_le _ _)) in Hlen by lia. fold e in Hlen.
    apply (ring_wrapped _ _ d0 q1 (q2 ++ [d]) (e + (1 + k))); cbn [cb_buffer cb_size cb_mtu cb_start cb_used cb_wrap cb_set_ring cb_set_buffer]; try done; try lia.
    + simpl. by rewrite <- (assoc_L (++)).
    + apply laid_app. by exists e.
Qed.

Lemma submit_ok b q dest len :
  cb_inv b q -> cb_input_dest b = Some dest -> 0 <= len <= cb_input_avail b ->
  exists b', ChunkBuffer2_SubmitPacket b len = Ret b' /\ cb_inv b' (q ++ [slice (cb_buffer b) dest len]) /\
    cb_size b' = cb_size b /\ cb_mtu b' = cb_mtu b /\ cb_start b' = cb_start b.
Proof.
  intros Hi Hdest Hlen. destruct (input_space b q dest Hi Hdest) as (-> & Ha & Hf & Hle & Hfit). pose proof Hi as [Hm [Hz Hmax] Hs Hr Hin Hout].
  destruct (ring_end b q Hm Hs Hr) as (H1 & H2 & H0 & _ & H3 & H4 & _ & H6). destruct (bdivide_up_spec len ltac:(lia)) as [Hb1 Hb2].
  pose proof (ring_submitted b q len Hm (conj Hz Hmax) Hs Hr ltac:(lia)) as Hr1.
  unfold ChunkBuffer2_SubmitPacket. rewrite Hdest, bool_decide_eq_true_2 by done. replace (0 <=? len) with true by lia. replace (len <=? cb_input_avail b) with true by lia.
  cbn [ASSERT mbind outcome_bind]. rewrite (assert_buffer_ok b q Hm Hs Hr), (assert_io_ok b q Hm (conj Hz Hmax) Hs Hr Hin Hout). cbn [mbind outcome_bind].
  set (k := bdivide_up len BLOCK) in *. replace (k <=? cb_size b - ChunkBuffer2_end b - 1) with true by lia. cbn [ASSERT mbind outcome_bind].
  assert (Hspace : (cb_used b <? cb_wrap b - cb_start b) || (k <=? cb_start b - ChunkBuffer2_end b - 1) = true).
  { destruct H6 as [(W1 & _)|(W1 & _)]; [|lia]. unfold cb_free in *. rewrite (proj2 (Z.leb_le _ _) W1) in *. lia. }
  rewrite Hspace. cbn [ASSERT mbind outcome_bind]. unfold set_block_len. rewrite mem_write_Ret; [|lia|rewrite length_le_bytes; lia]. cbn [mbind outcome_bind].
  cbn [cb_buffer cb_size cb_mtu cb_start cb_used cb_wrap cb_set_buffer]. replace (ChunkBuffer2_end b + 1 + k) with (ChunkBuffer2_end b + (1 + k)) by lia.
  change (cb_set_ring (cb_set_buffer b _) _ _ _) with (cb_submitted b len). set (b1 := cb_submitted b len) in *.
  assert (Hz1 : zlen (cb_buffer b1) = BLOCK * cb_size b1) by (cbn [b1 cb_submitted cb_buffer cb_set_ring cb_set_buffer cb_size]; rewrite length_splice; [done|lia|rewrite length_le_bytes; lia]).
  rewrite (assert_buffer_ok b1 _ Hm Hs Hr1). cbn [mbind outcome_bind]. change (cb_used (ChunkBuffer2_update_input b1)) with (cb_used b + (1 + k)).
  destruct (refresh_ok b1 _ true (cb_used b + (1 + k) =? 1 + k) Hm (conj Hz1 Hmax) Hs Hr1) as (b' & Hb' & Hi' & _ & E2 & E3 & E4 & _); [done| |].
  - intros Hu. destruct (cons_of q) as (d & q' & ->); [intros ->; apply ring_end in Hr as (_ & _ & _ & Hr & _); [|done|done]; destruct (decide (0 < cb_used b)); [by apply Hr|lia]|]. done.
  - exists b'. split; [exact Hb'|]. split_and!; done.
Qed.

Definition cb_consumed b (k : Z) : ChunkBuffer2 :=
  if cb_start b + (1 + k) =? cb_wrap b then cb_set_ring b (cb_size b) 0 (cb_used b - (1 + k)) else cb_set_ring b (cb_wrap b) (cb_start b + (1 + k)) (cb_used b - (1 + k)).

(** The end of the data stays where it is, and more space is free behind it. *)
Lemma ring_consumed b d q :
  0 <= cb_mtu b -> 0 <= cb_start b -> ring b (d :: q) ->
  let b' := cb_consumed b (blocks d) in
  ring b' q /\ 0 <= cb_start b' /\ cb_buffer b' = cb_buffer b /\ cb_size b' = cb_size b /\ cb_mtu b' = cb_mtu b /\
  ChunkBuffer2_end b' = ChunkBuffer2_end b /\ cb_free b <= cb_free b' <= cb_size b /\ (cb_used b < cb_wrap b - cb_start b -> cb_free b' = cb_free b).
Proof.
  intros Hm Hs Hr b'. destruct (ring_end b _ Hm Hs Hr) as (H1 & H2 & _ & _ & H3 & H4 & H5 & H6). pose proof (blocks_spec d) as Hd.
  assert (Hr' : ring b' q /\ 0 <= cb_start b' /\ cb_buffer b' = cb_buffer b /\ cb_size b' = cb_size b /\ cb_mtu b' = cb_mtu b /\ 1 + blocks d <= cb_used b /\ 1 + blocks d <= cb_wrap b - cb_start b).
  { unfold b', cb_consumed. destruct Hr as [R1 R2 R3|d0 q1 q2 fin Eq R2 R3 R4 R5 R6].
    - simpl in R2. destruct R2 as (L1 & _ & _ & L4). pose proof (laid_le _ _ _ _ _ L4). rewrite (proj2 (Z.eqb_neq _ _)) by lia.
      split; [|cbn [cb_set_ring cb_start]; split_and!; done || lia]. apply ring_flat; cbn [cb_buffer cb_size cb_mtu cb_start cb_used cb_wrap cb_set_ring]; [done| |lia].
      replace (cb_start b + (1 + blocks d) + (cb_used b - (1 + blocks d))) with (cb_start b + cb_used b) by lia. done.
    - injection Eq as -> ->. simpl in R2. destruct R2 as (L1 & _ & _ & L4). pose proof (laid_le _ _ _ _ _ L4). pose proof (laid_le _ _ _ _ _ R3).
      destruct q1 as [|d1 q1].
      + simpl in L4. rewrite (proj2 (Z.eqb_eq _ _)) by lia. split; [|cbn [cb_set_ring cb_start]; split_and!; done || lia].
        apply ring_flat; cbn [cb_buffer cb_size cb_mtu cb_start cb_used cb_wrap cb_set_ring]; [done| |lia]. replace (0 + (cb_used b - (1 + blocks d0))) with fin by lia. done.
      + simpl length in *. rewrite (proj2 (Z.eqb_neq _ _)) by lia. split; [|cbn [cb_set_ring cb_start]; split_and!; done || lia].
        apply (ring_wrapped _ _ d1 q1 q2 fin); cbn [cb_buffer cb_size cb_mtu cb_start cb_used cb_wrap cb_set_ring]; done || lia. }
  destruct Hr' as (Hr' & Hs' & E1 & E2 & E3 & Hu & Hw). split_and!; try done; [..|].
  all: rewrite <- E3 in Hm; destruct (ring_end b' q Hm Hs' Hr') as (_ & U2 & _ & _ & U3 & U4 & U5 & U6); unfold b', cb_consumed in *; clear Hr Hr'; unfold cb_free, ChunkBuffer2_end in *.
  all: destruct (cb_start b + (1 + blocks d) =? cb_wrap b) eqn:E; cbn [cb_buffer cb_size cb_mtu cb_start cb_used cb_wrap cb_set_ring] in *.
  all: destruct (cb_wrap b - cb_start b <=? cb_used b) eqn:W; repeat match goal with |- context [?x <=? ?y] => destruct (x <=? y) eqn:? end; lia.
Qed.

Lemma consume_ok b d q :
  cb_inv b (d :: q) -> exists b', ChunkBuffer2_ConsumePacket b = Ret b' /\ cb_inv b' q /\ cb_buffer b' = cb_buffer b /\ cb_size b' = cb_size b /\ cb_mtu b' = cb_mtu b /\
    (forall dest, cb_input_dest b = Some dest -> cb_input_dest b' = Some dest /\ cb_input_avail b <= cb_input_avail b').
Proof.
  intros Hi. pose proof Hi as [Hm [Hz Hmax] Hs Hr Hin Hout]. destruct (ring_consumed b d q Hm Hs Hr) as (Hr1 & Hs1 & E1 & E2 & E3 & E4 & [E5 E5'] & E6).
  destruct (head_spec b _ Hm (conj Hz Hmax) Hs Hr d q eq_refl) as (Hlen & F2 & F3 & _). destruct (ring_end b _ Hm Hs Hr) as (H1 & _ & _ & _ & H3 & _ & H5 & _). pose proof (blocks_spec d).
  unfold ChunkBuffer2_ConsumePacket. injection Hout as Hod Hoa. rewrite Hod, bool_decide_eq_true_2 by done. cbn [ASSERT mbind outcome_bind].
  rewrite (assert_buffer_ok b _ Hm Hs Hr), (assert_io_ok b (d :: q) Hm (conj Hz Hmax) Hs Hr Hin) by (by rewrite Hod, Hoa). cbn [mbind outcome_bind].
  replace (1 <=? cb_wrap b - cb_start b) with true by lia. replace (1 <=? cb_used b) with true by lia. cbn [ASSERT mbind outcome_bind]. rewrite Hlen. cbn [mbind outcome_bind]. fold (blocks d).
  replace (blocks d <=? cb_wrap b - cb_start b - 1) with true by lia. replace (blocks d <=? cb_used b - 1) with true by lia. cbn [ASSERT mbind outcome_bind].
  fold (cb_consumed b (blocks d)). set (b1 := cb_consumed b (blocks d)) in *. rewrite <- E3 in Hm. rewrite <- E1, <- E2 in Hz. rewrite <- E2 in Hmax.
  rewrite (assert_buffer_ok b1 q Hm Hs1 Hr1). cbn [mbind outcome_bind].
  assert (Hio : (cb_input_dest b1, cb_input_avail b1) = (cb_input_dest b, cb_input_avail b)) by (unfold b1, cb_consumed; by destruct (_ =? _)).
  destruct (refresh_ok b1 q (cb_wrap b - cb_start b <=? cb_used b) true Hm (conj Hz Hmax) Hs1 Hr1) as (b' & Hb' & Hi' & G1 & G2 & G3 & _ & G5); [|done|].
  { intros Hw. rewrite Hio, Hin. unfold cb_input. by rewrite E2, E3, E4, E6 by lia. }
  exists b'. split; [exact Hb'|]. split; [done|]. split_and!; [congruence..|]. intros dest Hdest. pose proof (ci_input _ _ Hi') as Hin'. rewrite G5 in Hin'.
  destruct (input_space b _ dest Hi Hdest) as (-> & Ha & Hf & _). rewrite Hdest, Ha in Hin. unfold cb_input in Hin, Hin'. rewrite E2, E3, E4 in Hin'.
  destruct (_ <? cb_mtu b); [done|]. rewrite (proj2 (Z.ltb_lt 0 _)) in Hin' by lia. injection Hin' as -> ->. split; [done|]. rewrite Ha. unfold to_int, u32. rewrite Z.mod_small by lia.
  rewrite (proj2 (Z.ltb_lt _ _)) by lia. lia.
Qed.

Lemma init_ok m n mtu :
  0 <= mtu -> zlen m = BLOCK * n /\ BLOCK * n < 2 ^ 31 -> bdivide_up mtu BLOCK + 1 <= n ->
  exists b, ChunkBuffer2_Init m n mtu = Ret b /\ cb_inv b [] /\ cb_size b = n /\ cb_mtu b = bdivide_up mtu BLOCK /\ cb_buffer b = m.
Proof.
  intros Hmtu Hz Hn. destruct (bdivide_up_spec mtu Hmtu) as [Hb _]. unfold ChunkBuffer2_Init. replace (0 <? n) with true by lia. replace (0 <=? mtu) with true by lia. cbn [ASSERT mbind outcome_bind].
  set (b0 := mkcb m n n 0 0 _ None 0 None 0). assert (Hr : ring b0 []) by (apply ring_flat; [done|done|cbn [b0 cb_start cb_used cb_size cb_mtu]; lia]).
  rewrite (assert_buffer_ok b0 [] Hb ltac:(done) Hr). cbn [mbind outcome_bind].
  destruct (refresh_ok b0 [] true true Hb Hz ltac:(done) Hr) as (b & Hb' & Hi & E1 & E2 & E3 & _); [done|done|]. exists b. split; [exact Hb'|]. done.
Qed.

(** ** Capacity *)

Lemma laid_blocks m lim k pos q fin : laid m lim pos q fin -> Forall (fun d => blocks d <= k) q -> fin - pos <= (k + 1) * Z.of_nat (length q).
Proof.
  revert pos. induction q as [|d q IH]; simpl; intros pos H Hk; [lia|]. destruct H as (_ & _ & _ & H). rewrite Forall_cons in Hk. destruct Hk as [Hd Hk].
  specialize (IH _ H Hk). nia.
Qed.

Lemma used_blocks b q k : ring b q -> Forall (fun d => blocks d <= k) q -> cb_used b <= (k + 1) * Z.of_nat (length q).
Proof.
  intros [R1 R2 R3|d q1 q2 fin -> R2 R3 R4 R5 R6] Hk.
  - pose proof (laid_blocks _ _ k _ _ _ R2 Hk). lia.
  - change (d :: q1 ++ q2) with ((d :: q1) ++ q2) in *. rewrite Forall_app in Hk. destruct Hk as [Hk1 Hk2].
    pose proof (laid_blocks _ _ k _ _ _ R2 Hk1). pose proof (laid_blocks _ _ k _ _ _ R3 Hk2). rewrite length_app. lia.
Qed.

(** With fewer than [num] packets a full-sized one still fits. *)
Lemma input_ready b q num :
  cb_inv b q -> Forall (fun d => blocks d <= cb_mtu b) q -> cb_size b = (cb_mtu b + 1) * (num + 1) -> Z.of_nat (length q) < num ->
  exists dest, cb_input_dest b = Some dest /\ BLOCK * cb_mtu b <= cb_input_avail b.
Proof.
  intros [Hm [Hz Hmax] Hs Hr Hin _] Hq Hsize Hn. pose proof (used_blocks b q (cb_mtu b) Hr Hq) as Hu. destruct (ring_end b q Hm Hs Hr) as (H1 & H2 & _ & _ & H3 & H4 & H5 & H6).
  assert (Hfree : cb_mtu b + 1 <= cb_free b <= cb_size b).
  { unfold cb_free. destruct H6 as [(W1 & W2 & W3)|(W1 & W2 & W3)].
    - rewrite (proj2 (Z.leb_le _ _) W1). assert (cb_size b - cb_mtu b - 1 < cb_wrap b) by (destruct Hr as [R1|? ? ? ? ? ? ? ? ? R6]; lia). nia.
    - rewrite (proj2 (Z.leb_gt _ _)) by lia. lia. }
  unfold cb_input in Hin. rewrite (proj2 (Z.ltb_ge _ _)), (proj2 (Z.ltb_lt 0 _)) in Hin by lia. injection Hin as -> ->. eexists. split; [done|].
  unfold to_int, u32. rewrite Z.mod_small by lia. rewrite (proj2 (Z.ltb_lt _ _)) by lia. lia.
Qed.

Lemma calc_blocks_spec mtu num : 0 <= mtu -> 0 < num -> 0 <= ChunkBuffer2_calc_blocks mtu num ->
  ChunkBuffer2_calc_blocks mtu num = (bdivide_up mtu BLOCK + 1) * (num + 1) /\ ChunkBuffer2_calc_blocks mtu num <= INT_MAX.
Proof.
  intros Hm Hn. destruct (bdivide_up_spec mtu Hm) as [Hb _]. unfold ChunkBuffer2_calc_blocks, INT_MAX in *. destruct (_ <? bdivide_up _ _) eqn:E1; [lia|]. destruct (_ <? num) eqn:E2; [lia|].
  destruct (_ <? 1 + _) eqn:E3; [lia|]. intros _. apply Z.ltb_ge in E3. split; [lia|]. pose proof (Z.mul_div_le (2 ^ 31 - 1) (num + 1) ltac:(lia)). nia.
Qed.

(** ** A buffer between a source and a sink *)

Record pb_inv (num : Z) p (q : list bytes) : Prop := {
  pi_ring : cb_inv (pb_buf p) q;
  pi_mtu : 0 <= pb_input_mtu p /\ cb_mtu (pb_buf p) = bdivide_up (pb_input_mtu p) BLOCK;
  pi_size : cb_size (pb_buf p) = (cb_mtu (pb_buf p) + 1) * (num + 1);
  pi_packets : Forall (fun d => zlen d <= pb_input_mtu p) q;
  pi_recv : pb_recv p = if pb_input_mtu p <=? cb_input_avail (pb_buf p) then cb_input_dest (pb_buf p) else None;
  pi_send : pb_send p = match q with [] => None | d :: _ => Some (BLOCK * (cb_start (pb_buf p) + 1), zlen d) end
}.

Lemma avail_dest b q : cb_inv b q -> 0 <= cb_input_avail b -> exists dest, cb_input_dest b = Some dest.
Proof.
  intros [_ _ _ _ Hin _] Ha. unfold cb_input in Hin. destruct (_ <? cb_mtu b); [injection Hin as _ Hx; lia|]. destruct (0 <? cb_free b); [injection Hin as -> _; eauto|injection Hin as _ Hx; lia].
Qed.

Lemma recv_space num p q dest : pb_inv num p q -> pb_recv p = Some dest -> cb_input_dest (pb_buf p) = Some dest /\ pb_input_mtu p <= cb_input_avail (pb_buf p).
Proof. intros [P1 P2 P3 P4 P5 P6] Hd. rewrite P5 in Hd. destruct (_ <=? _) eqn:E; [|done]. split; [done|lia]. Qed.

(** The source works on its packet. *)
Lemma source_write num p q dest d :
  pb_inv num p q -> pb_recv p = Some dest -> zlen d <= pb_input_mtu p ->
  mem_write (cb_buffer (pb_buf p)) dest d = Ret (splice (cb_buffer (pb_buf p)) dest d) /\
  pb_inv num (pb_set_buf p (cb_set_buffer (pb_buf p) (splice (cb_buffer (pb_buf p)) dest d))) q.
Proof.
  intros Hp Hd Hlen. destruct (recv_space num p q dest Hp Hd) as [Hdest Ha]. destruct Hp as [P1 P2 P3 P4 P5 P6].
  destruct (put_inv (pb_buf p) q dest d P1 Hdest ltac:(lia)) as (Hw & Hi & _). split; [exact Hw|]. by split.
Qed.

Lemma start_recv_ok p q : cb_inv (pb_buf p) q -> pb_recv p = None -> pb_input_mtu p <= cb_input_avail (pb_buf p) -> 0 <= pb_input_mtu p ->
  start_recv p = Ret (mkpb (pb_buf p) (pb_input_mtu p) (cb_input_dest (pb_buf p)) (pb_send p)).
Proof.
  intros Hi Hn Ha Hm. destruct (avail_dest _ _ Hi ltac:(lia)) as (dest & Hd). unfold start_recv. rewrite Hn, Hd. done.
Qed.

Lemma start_send_ok p d q : cb_inv (pb_buf p) (d :: q) -> pb_send p = None ->
  start_send p = Ret (mkpb (pb_buf p) (pb_input_mtu p) (pb_recv p) (Some (BLOCK * (cb_start (pb_buf p) + 1), zlen d))).
Proof. intros [_ _ _ _ _ Ho] Hn. injection Ho as Hd Ha. unfold start_send. rewrite Hn, Hd, Ha. done. Qed.

Lemma input_done_ok num p q dest len :
  pb_inv num p q -> pb_recv p = Some dest -> 0 <= len <= pb_input_mtu p ->
  exists p', input_handler_done p len = Ret p' /\ pb_inv num p' (q ++ [slice (cb_buffer (pb_buf p)) dest len]).
Proof.
  intros Hp Hd Hlen. destruct (recv_space num p q dest Hp Hd) as [Hdest Ha]. destruct Hp as [P1 P2 P3 P4 P5 P6]. unfold input_handler_done. rewrite Hd, bool_decide_eq_true_2 by done.
  cbn [ASSERT mbind outcome_bind pb_buf pb_input_mtu]. replace (0 <=? len) with true by lia. replace (len <=? pb_input_mtu p) with true by lia. cbn [ASSERT mbind outcome_bind].
  destruct (submit_ok (pb_buf p) q dest len P1 Hdest ltac:(lia)) as (b & -> & Hi & E1 & E2 & E3). cbn [mbind outcome_bind]. set (d := slice _ dest len) in *.
  set (p1 := pb_set_buf _ b). assert (Hd' : zlen d = len).
  { destruct (input_space _ _ _ P1 Hdest) as (-> & Ha' & Hf & Hle & _). destruct P1 as [Hm [Hz _] Hs Hr _ _]. destruct (ring_end _ _ Hm Hs Hr) as (H1 & _). apply zlen_slice; lia. }
  assert (Hr : exists p2, (if pb_input_mtu p1 <=? cb_input_avail b then start_recv p1 else Ret p1) = Ret p2 /\ pb_buf p2 = b /\ pb_input_mtu p2 = pb_input_mtu p /\ pb_send p2 = pb_send p /\
    pb_recv p2 = (if pb_input_mtu p <=? cb_input_avail b then cb_input_dest b else None)).
  { cbn [p1 pb_input_mtu pb_set_buf]. destruct (pb_input_mtu p <=? cb_input_avail b) eqn:E; [|by exists p1]. rewrite (start_recv_ok p1 _ Hi); [by eexists|done|cbn [p1 pb_buf pb_set_buf pb_input_mtu]; lia|cbn [p1 pb_input_mtu pb_set_buf]; lia]. }
  destruct Hr as (p2 & -> & F1 & F2 & F3 & F4). cbn [mbind outcome_bind].
  assert (Hq : Forall (fun d => zlen d <= pb_input_mtu p) (q ++ [d])) by (apply Forall_app; split; [done|constructor; [lia|constructor]]).
  pose proof (ci_output _ _ P1) as Ho. destruct q as [|d0 q].
  - injection Ho as _ ->. change (-1 <? 0) with true. cbv iota. rewrite (start_send_ok p2 d []); [|by rewrite F1|by rewrite F3, P6]. eexists. split; [done|].
    split; cbn [pb_buf pb_input_mtu pb_recv pb_send]; rewrite ?F1, ?F2; try done. + by rewrite E2. + by rewrite E1, E2.
  - injection Ho as _ ->. replace (zlen d0 <? 0) with false by lia. exists p2. split; [done|]. split; rewrite ?F1, ?F2; try done; [by rewrite E2|by rewrite E1, E2|]. by rewrite F3, P6, E3.
Qed.

Lemma output_done_ok num p d q :
  pb_inv num p (d :: q) -> exists p', pb_output_handler_done p = Ret p' /\ pb_inv num p' q.
Proof.
  intros [P1 P2 P3 P4 P5 P6]. unfold pb_output_handler_done. rewrite P6, bool_decide_eq_true_2 by done. cbn [ASSERT mbind outcome_bind pb_buf pb_input_mtu].
  destruct (consume_ok (pb_buf p) d q P1) as (b & -> & Hi & E0 & E1 & E2 & Hgrow). cbn [mbind outcome_bind]. set (p1 := pb_set_buf _ b).
  apply Forall_cons in P4 as [_ Hq].
  assert (Hr : exists p2, (if (cb_input_avail (pb_buf p) <? pb_input_mtu p) && (pb_input_mtu p1 <=? cb_input_avail b) then start_recv p1 else Ret p1) = Ret p2 /\ pb_buf p2 = b /\
    pb_input_mtu p2 = pb_input_mtu p /\ pb_send p2 = None /\ pb_recv p2 = (if pb_input_mtu p <=? cb_input_avail b then cb_input_dest b else None)).
  { cbn [p1 pb_input_mtu pb_set_buf]. destruct (cb_input_avail (pb_buf p) <? pb_input_mtu p) eqn:Ef; cbn [andb].
    - rewrite (proj2 (Z.leb_gt _ _)) in P5 by lia. destruct (pb_input_mtu p <=? cb_input_avail b) eqn:E; [|by exists p1]. rewrite (start_recv_ok p1 _ Hi); [by eexists|done|cbn [p1 pb_buf pb_set_buf pb_input_mtu]; lia|cbn [p1 pb_input_mtu pb_set_buf]; lia].
    - exists p1. split_and!; try done. cbn [p1 pb_recv pb_set_buf]. rewrite (proj2 (Z.leb_le _ _)) in P5 by lia. destruct (avail_dest _ _ P1 ltac:(lia)) as (dest & Hd).
      destruct (Hgrow dest Hd) as [-> Hg]. rewrite (proj2 (Z.leb_le _ _)) by lia. by rewrite P5, Hd. }
  destruct Hr as (p2 & -> & F1 & F2 & F3 & F4). cbn [mbind outcome_bind]. pose proof (ci_output _ _ Hi) as Ho. destruct q as [|d1 q].
  - injection Ho as _ ->. change (0 <=? -1) with false. exists p2. split; [done|]. split; rewrite ?F1, ?F2; try done; [by rewrite E2|by rewrite E1, E2].
  - injection Ho as _ ->. replace (0 <=? zlen d1) with true by lia. rewrite (start_send_ok p2 d1 q); [|by rewrite F1|done]. eexists. split; [done|].
    split; cbn [pb_buf pb_input_mtu pb_recv pb_send]; rewrite ?F1, ?F2; try done; [by rewrite E2|by rewrite E1, E2].
Qed.

(** [pb_reach mtu num p accepted sent]: the states of a buffer for [num]
    packets of [mtu] bytes.  The source writes whatever it likes while a
    receive operation is under way, the sink reads the packet it was given
    until it is done. *)
Inductive pb_reach (mtu num : Z) : PacketBuffer -> list bytes -> list bytes -> Prop :=
| pb_init alloc output_mtu p :
    (forall n m, 0 <= n -> alloc n = Some m -> zlen m = n) -> PacketBuffer_Init alloc mtu output_mtu num = Ret (Some p) -> pb_reach mtu num p [] []
| pb_write p accepted sent dest d m :
    pb_reach mtu num p accepted sent -> pb_recv p = Some dest -> zlen d <= mtu -> mem_write (cb_buffer (pb_buf p)) dest d = Ret m ->
    pb_reach mtu num (pb_set_buf p (cb_set_buffer (pb_buf p) m)) accepted sent
| pb_accept p accepted sent dest len p' :
    pb_reach mtu num p accepted sent -> pb_recv p = Some dest -> 0 <= len <= mtu -> input_handler_done p len = Ret p' ->
    pb_reach mtu num p' (accepted ++ [slice (cb_buffer (pb_buf p)) dest len]) sent
| pb_done p accepted sent dest len p' :
    pb_reach mtu num p accepted sent -> pb_send p = Some (dest, len) -> pb_output_handler_done p = Ret p' ->
    pb_reach mtu num p' accepted (sent ++ [slice (cb_buffer (pb_buf p)) dest len]).

Lemma packet_buffer_init_ok alloc mtu output_mtu num p :
  0 <= mtu -> 0 < num -> BLOCK * ChunkBuffer2_calc_blocks mtu num < 2 ^ 31 -> (forall n m, 0 <= n -> alloc n = Some m -> zlen m = n) ->
  PacketBuffer_Init alloc mtu output_mtu num = Ret (Some p) -> pb_inv num p [] /\ pb_input_mtu p = mtu.
Proof.
  intros Hm Hn Hmax Halloc. unfold PacketBuffer_Init. destruct (_ <=? output_mtu); [|done]. replace (0 <? num) with true by lia. cbn [ASSERT mbind outcome_bind].
  destruct (_ <? 0) eqn:E; [done|]. destruct (calc_blocks_spec mtu num Hm Hn ltac:(lia)) as [Hc _]. destruct (alloc _) as [m|] eqn:Ea; [|done]. apply Halloc in Ea; [|lia].
  destruct (bdivide_up_spec mtu Hm) as [Hb Hb']. destruct (init_ok m (ChunkBuffer2_calc_blocks mtu num) mtu Hm) as (b & -> & Hi & E1 & E2 & _); [lia|nia|]. cbn [mbind outcome_bind].
  destruct (input_ready b [] num Hi) as (dest & Hd & Ha); [constructor|by rewrite E1, E2, Hc|simpl; lia|]. set (p0 := mkpb b mtu None None).
  rewrite (start_recv_ok p0 [] Hi); [|done|cbn [p0 pb_buf pb_input_mtu]; rewrite E2 in Ha; lia|done]. intros [= <-]. split; [|done]. split; cbn [pb_buf pb_input_mtu pb_recv pb_send p0]; try done.
  - by rewrite E1, E2, Hc.
  - rewrite (proj2 (Z.leb_le _ _)) by (rewrite E2 in Ha; lia). done.
Qed.

Lemma start_recv_mtu p p' : start_recv p = Ret p' -> pb_input_mtu p' = pb_input_mtu p.
Proof. unfold start_recv. intros H. apply bind_Ret_inv in H as (_ & _ & H). by apply bind_Ret_inv in H as (? & _ & [= <-]). Qed.
Lemma start_send_mtu p p' : start_send p = Ret p' -> pb_input_mtu p' = pb_input_mtu p.
Proof. unfold start_send. intros H. apply bind_Ret_inv in H as (_ & _ & H). by apply bind_Ret_inv in H as (? & _ & [= <-]). Qed.
Lemma starts_mtu p p' (r s : bool) :
  (p ← (if r then start_recv p else Ret p); if s then start_send p else Ret p) = Ret p' -> pb_input_mtu p' = pb_input_mtu p.
Proof.
  intros H. apply bind_Ret_inv in H as (p1 & H1 & H2). transitivity (pb_input_mtu p1).
  - destruct s; [by apply start_send_mtu|by injection H2 as ->].
  - destruct r; [by apply start_recv_mtu|by injection H1 as ->].
Qed.

Lemma input_done_mtu p len p' : input_handler_done p len = Ret p' -> pb_input_mtu p' = pb_input_mtu p.
Proof.
  unfold input_handler_done. intros H. apply bind_Ret_inv in H as (_ & _ & H). apply bind_Ret_inv in H as (_ & _ & H). apply bind_Ret_inv in H as (_ & _ & H).
  apply bind_Ret_inv in H as (b & _ & H). by apply starts_mtu in H.
Qed.
Lemma output_done_mtu p p' : pb_output_handler_done p = Ret p' -> pb_input_mtu p' = pb_input_mtu p.
Proof.
  unfold pb_output_handler_done. intros H. apply bind_Ret_inv in H as (_ & _ & H). apply bind_Ret_inv in H as (b & _ & H). by apply starts_mtu in H.
Qed.

Lemma pb_reach_inv mtu num p accepted sent :
  0 <= mtu -> 0 < num -> BLOCK * ChunkBuffer2_calc_blocks mtu num < 2 ^ 31 -> pb_reach mtu num p accepted sent ->
  exists q, accepted = sent ++ q /\ pb_inv num p q /\ pb_input_mtu p = mtu.
Proof.
  intros Hm Hn Hmax. induction 1 as [alloc om p Ha Hp|p a s dest d m _ IH Hd Hl Hw|p a s dest len p' _ IH Hd Hl Hr|p a s dest len p' _ IH Hs Hr].
  - exists []. split; [done|]. by eapply packet_buffer_init_ok.
  - destruct IH as (q & -> & Hp & <-). exists q. destruct (source_write num p q dest d Hp Hd Hl) as [Hw' Hp']. rewrite Hw in Hw'. injection Hw' as ->. done.
  - destruct IH as (q & -> & Hp & <-). destruct (input_done_ok num p q dest len Hp Hd Hl) as (p1 & Hr' & Hp'). rewrite Hr in Hr'. injection Hr' as <-.
    eexists. split; [by rewrite <- (assoc_L (++))|]. split; [done|]. apply input_done_mtu in Hr. done.
  - destruct IH as (q & -> & Hp & <-). pose proof (pi_send _ _ _ Hp) as Hs'. rewrite Hs in Hs'. destruct q as [|d q]; [done|]. injection Hs' as -> ->.
    destruct (output_done_ok num p d q Hp) as (p1 & Hr' & Hp'). rewrite Hr in Hr'. injection Hr' as <-. exists q. split; [|split; [done|by eapply output_done_mtu]].
    destruct (pi_ring _ _ _ Hp) as [C1 C2 C3 C4 _ _]. destruct (head_spec _ _ C1 C2 C3 C4 d q eq_refl) as (_ & _ & _ & ->). by rewrite <- (assoc_L (++)).
Qed.

(** C25. A packet buffer is a queue: whatever the source writes and however
    source and sink take turns, the sink is given exactly the packets that
    were accepted, in order and unchanged while it reads them, and no
    assertion of the ring fails. *)
Theorem packet_buffer_fifo mtu num p accepted sent :
  0 <= mtu -> 0 < num -> BLOCK * ChunkBuffer2_calc_blocks mtu num < 2 ^ 31 -> pb_reach mtu num p accepted sent ->
  exists q, accepted = sent ++ q /\
    match q with
    | [] => pb_send p = None
    | d :: _ => exists dest, pb_send p = Some (dest, zlen d) /\ mem_read (cb_buffer (pb_buf p)) dest (zlen d) = Ret d /\ exists p', pb_output_handler_done p = Ret p'
    end /\
    (forall dest, pb_recv p = Some dest ->
       (forall d, zlen d <= mtu -> exists m, mem_write (cb_buffer (pb_buf p)) dest d = Ret m) /\
       (forall len, 0 <= len <= mtu -> exists p', input_handler_done p len = Ret p')).
Proof.
  intros Hm Hn Hmax Hr. destruct (pb_reach_inv _ _ _ _ _ Hm Hn Hmax Hr) as (q & Hq & Hp & <-). exists q. split; [done|]. split.
  - pose proof (pi_send _ _ _ Hp) as Hs. destruct q as [|d q]; [done|]. eexists. split; [done|]. destruct (output_done_ok num p d q Hp) as (p' & Hd & _). split; [|eauto].
    destruct (pi_ring _ _ _ Hp) as [C1 [C2 C2'] C3 C4 _ _]. destruct (head_spec _ _ C1 (conj C2 C2') C3 C4 d q eq_refl) as (_ & H1 & H2 & H3). pose proof (blocks_spec d).
    destruct (ring_end _ _ C1 C3 C4) as (_ & _ & _ & _ & H4 & _). rewrite mem_read_Ret by lia. by rewrite H3.
  - intros dest Hd. split.
    + intros d Hl. destruct (source_write num p q dest d Hp Hd Hl) as [Hw _]. eauto.
    + intros len Hl. destruct (input_done_ok num p q dest len Hp Hd Hl) as (p' & Hr' & _). eauto.
Qed.

(** C38. A buffer for [num] packets takes [num] packets: as long as fewer are in
    it, whatever their sizes and wherever the ring wraps, a receive operation
    with space for [mtu] bytes is under way. *)
Theorem packet_buffer_capacity mtu num p accepted sent :
  0 <= mtu -> 0 < num -> BLOCK * ChunkBuffer2_calc_blocks mtu num < 2 ^ 31 -> pb_reach mtu num p accepted sent ->
  zlen accepted - zlen sent < num -> exists dest, pb_recv p = Some dest /\ 0 <= dest /\ dest + mtu <= zlen (cb_buffer (pb_buf p)).
Proof.
  intros Hm Hn Hmax Hr Hlen. destruct (pb_reach_inv _ _ _ _ _ Hm Hn Hmax Hr) as (q & -> & Hp & <-). rewrite length_app in Hlen. pose proof Hp as [P1 [P2 P2'] P3 P4 P5 P6].
  destruct (input_ready _ q num P1) as (dest & Hd & Ha); [|done|lia|].
  { eapply Forall_impl; [exact P4|]. intros d Hd. rewrite P2'. destruct (bdivide_up_spec _ P2). pose proof (blocks_spec d). cbv beta in Hd. lia. }
  destruct (bdivide_up_spec _ P2). exists dest. split; [by rewrite P5, (proj2 (Z.leb_le _ _)) by lia|]. destruct (input_space _ _ _ P1 Hd) as (-> & Ha' & Hf & Hle & _).
  destruct P1 as [C1 [C2 C2'] C3 C4 _ _]. destruct (ring_end _ _ C1 C3 C4) as (H1 & _). lia.
Qed.

(** ** A run *)

Inductive pb_event := EvWrite (d : bytes) | EvAccept (len : Z) | EvSent.

(** The state with the packets accepted and sent so far; [None] when the event
    is not possible or fails. *)
Definition pb_exec (mtu : Z) (x : PacketBuffer * list bytes * list bytes) (ev : pb_event) : option (PacketBuffer * list bytes * list bytes) :=
  let '(p, accepted, sent) := x in
  match ev, pb_recv p, pb_send p with
  | EvWrite d, Some dest, _ =>
      if zlen d <=? mtu then match mem_write (cb_buffer (pb_buf p)) dest d with Ret m => Some (pb_set_buf p (cb_set_buffer (pb_buf p) m), accepted, sent) | _ => None end else None
  | EvAccept len, Some dest, _ =>
      if (0 <=? len) && (len <=? mtu) then match input_handler_done p len with Ret p' => Some (p', accepted ++ [slice (cb_buffer (pb_buf p)) dest len], sent) | _ => None end else None
  | EvSent, _, Some (dest, len) => match pb_output_handler_done p with Ret p' => Some (p', accepted, sent ++ [slice (cb_buffer (pb_buf p)) dest len]) | _ => None end
  | _, _, _ => None
  end.
Fixpoint pb_run (mtu : Z) (x : PacketBuffer * list bytes * list bytes) (l : list pb_event) : option (PacketBuffer * list bytes * list bytes) :=
  match l with [] => Some x | ev :: l' => match pb_exec mtu x ev with Some y => pb_run mtu y l' | None => None end end.

Lemma pb_exec_reach mtu num x ev y : pb_reach mtu num x.1.1 x.1.2 x.2 -> pb_exec mtu x ev = Some y -> pb_reach mtu num y.1.1 y.1.2 y.2.
Proof.
  destruct x as [[p a] s]. cbn [fst snd pb_exec]. intros Hr. destruct ev as [d|len|].
  - destruct (pb_recv p) as [dest|] eqn:Ed; [|done]. destruct (_ <=? mtu) eqn:El; [|done]. destruct (mem_write _ _ _) as [m| |] eqn:Ew; intros [= <-]. apply (pb_write mtu num p a s dest d m Hr Ed); [lia|done].
  - destruct (pb_recv p) as [dest|] eqn:Ed; [|done]. destruct (_ && _) eqn:El; [|done]. apply andb_true_iff in El as [El1 El2]. destruct (input_handler_done p len) as [p'| |] eqn:Ei; intros [= <-].
    apply (pb_accept mtu num p a s dest len p' Hr Ed); [lia|done].
  - destruct (pb_send p) as [[dest len]|] eqn:Es; [|by destruct (pb_recv p)].
    assert (E : match pb_recv p with _ => match pb_output_handler_done p with Ret p' => Some (p', a, s ++ [slice (cb_buffer (pb_buf p)) dest len]) | _ => None end end = Some y -> pb_reach mtu num y.1.1 y.1.2 y.2).
    { destruct (pb_output_handler_done p) as [p'| |] eqn:Eo; intros [= <-]. exact (pb_done mtu num p a s dest len p' Hr Es Eo). }
    destruct (pb_recv p); exact E.
Qed.

Lemma pb_run_reach mtu num l : forall x y, pb_reach mtu num x.1.1 x.1.2 x.2 -> pb_run mtu x l = Some y -> pb_reach mtu num y.1.1 y.1.2 y.2.
Proof.
  induction l as [|ev l IH]; intros x y Hr; simpl; [by intros [= <-]|]. destruct (pb_exec mtu x ev) as [z|] eqn:E; [|done]. apply IH. by eapply pb_exec_reach.
Qed.

Definition demo_alloc (n : Z) : option bytes := Some (replicate (Z.to_nat n) 0).
Definition demo_ring : PacketBuffer :=
  match PacketBuffer_Init demo_alloc 5 5 2 with Ret (Some p) => p | _ => mkpb (mkcb [] 0 0 0 0 0 None 0 None 0) 0 None None end.
(** Three packets through a ring for two. *)
Definition demo_pb_events : list pb_event := [EvWrite [1; 2; 3]; EvAccept 3; EvWrite [9; 8; 7; 6; 5]; EvAccept 5; EvSent; EvWrite [4]; EvAccept 1].
Definition demo_pb_end : PacketBuffer * list bytes * list bytes := default (demo_ring, [], []) (pb_run 5 (demo_ring, [], []) demo_pb_events).

Lemma demo_pb_reach : pb_reach 5 2 demo_pb_end.1.1 [[1; 2; 3]; [9; 8; 7; 6; 5]; [4]] [[1; 2; 3]].
Proof.
  assert (H0 : pb_reach 5 2 demo_ring [] []).
  { apply (pb_init 5 2 demo_alloc 5); [|by vm_compute]. intros n m Hn [= <-]. rewrite length_replicate. lia. }
  apply (pb_run_reach 5 2 demo_pb_events (demo_ring, [], []) demo_pb_end); [exact H0|by vm_compute].
Qed.

Lemma packet_buffer_fifo_witness : exists dest, pb_send demo_pb_end.1.1 = Some (dest, 5) /\ mem_read (cb_buffer (pb_buf demo_pb_end.1.1)) dest 5 = Ret [9; 8; 7; 6; 5].
Proof.
  destruct (packet_buffer_fifo 5 2 demo_pb_end.1.1 [[1; 2; 3]; [9; 8; 7; 6; 5]; [4]] [[1; 2; 3]] ltac:(lia) ltac:(lia) ltac:(done) demo_pb_reach) as (q & Hq & Hs & _).
  injection Hq as <-. destruct Hs as (dest & H1 & H2 & _). exists dest. split; [exact H1|exact H2].
Defined.

Lemma packet_buffer_capacity_witness : exists dest, pb_recv demo_ring = Some dest /\ 0 <= dest /\ dest + 5 <= zlen (cb_buffer (pb_buf demo_ring)).
Proof.
  apply (packet_buffer_capacity 5 2 demo_ring [] []); [lia|lia|done| |simpl; lia]. apply (pb_init 5 2 demo_alloc 5); [|by vm_compute]. intros n m Hn [= <-]. rewrite length_replicate. lia.
Defined.
