(* ===== verification/SocksClient.v ===== *)
(** * SOCKS5 client handshake (badvpn socksclient/BSocksClient.c, misc/bsize.h, misc/socks_proto.h)

    tun2socks opens every TCP connection, and every UDP association, through
    this state machine.  It is event driven: the connector, the continue job,
    the stream interfaces and the connection call the handlers; each handler
    changes the object and may start one send or one receive operation, kept
    in [send_op] and [recv_op] as the range of the buffer they use.  Handlers
    end with at most one report to the user ([event]).  An allocation is an
    argument [mem]: [None] when it fails, otherwise the bytes found in fresh
    memory.  Addresses and ports are the bytes they have in memory, which is
    network order.

    [handle] is the object together with its environment: the server's bytes
    arrive in pieces of any size, sends complete at any time.  [reach] are the
    configurations such an environment can bring about. *)

From S2P Require Import Prelude Buffer.
From stdpp Require Import prelude.
From Stdlib Require Import ZArith Lia ZifyBool.

Local Open Scope Z_scope.

(** ** Sizes with overflow detection (bsize.h), for a 32-bit [size_t] *)

Definition SIZE_MAX : Z := 2 ^ 32 - 1.

Record bsize_t := mkbsize { is_overflow : bool; value : Z }.

Definition bsize_fromsize (v : Z) : bsize_t := mkbsize false v.
Definition bsize_add (s1 s2 : bsize_t) : bsize_t :=
  mkbsize (is_overflow s1 || is_overflow s2 || (SIZE_MAX - value s1 <? value s2)) (u32 (value s1 + value s2)).
Definition bsize_max (s1 s2 : bsize_t) : bsize_t :=
  mkbsize (is_overflow s1 || is_overflow s2) (if value s2 <? value s1 then value s1 else value s2).
Definition bsize_mul (s1 s2 : bsize_t) : bsize_t :=
  mkbsize (is_overflow s1 || is_overflow s2 || (negb (value s1 =? 0) && (SIZE_MAX / value s1 <? value s2)))
          (u32 (value s1 * value s2)).

(** ** The protocol's constants and message sizes *)

Definition SOCKS_VERSION : Z := 5.
Definition SOCKS_METHOD_NO_AUTHENTICATION_REQUIRED : Z := 0.
Definition SOCKS_METHOD_USERNAME_PASSWORD : Z := 2.
Definition SOCKS_CMD_CONNECT : Z := 1.
Definition SOCKS_CMD_UDP_ASSOCIATE : Z := 3.
Definition SOCKS_ATYP_IPV4 : Z := 1.
Definition SOCKS_ATYP_IPV6 : Z := 4.
Definition SOCKS_REP_SUCCEEDED : Z := 0.

Definition SIZEOF_hello_header : Z := 2.
Definition SIZEOF_hello_method : Z := 1.
Definition SIZEOF_server_hello : Z := 2.
Definition SIZEOF_request_header : Z := 4.
Definition SIZEOF_reply_header : Z := 4.
Definition SIZEOF_addr_ipv4 : Z := 6.
Definition SIZEOF_addr_ipv6 : Z := 18.

(** ** Data *)

Definition BADDR_TYPE_NONE : Z := 0.
Definition BADDR_TYPE_IPV4 : Z := 1.
Definition BADDR_TYPE_IPV6 : Z := 2.

Record BAddr := mkaddr { ba_type : Z; ba_ip : bytes; ba_port : bytes }.

Record auth_info := mkauth { auth_type : Z; username : bytes; password : bytes }.

Inductive sstate :=
| STATE_CONNECTING | STATE_CONNECTED_HANDLER | STATE_SENDING_HELLO | STATE_SENT_HELLO
| STATE_SENDING_PASSWORD | STATE_SENT_PASSWORD | STATE_SENDING_REQUEST | STATE_SENT_REQUEST
| STATE_RECEIVED_REPLY_HEADER | STATE_UP.
#[global] Instance sstate_eq_dec : EqDecision sstate.
Proof. solve_decision. Defined.

Inductive event := EVENT_ERROR | EVENT_UP | EVENT_ERROR_CLOSED | EVENT_CONNECTED.

(** The users of the client expect the first three events and have ASSERT(0) for
    the last one.  What that does depends on the build, of which [ndebug] says
    whether NDEBUG is defined: with NDEBUG nothing is left of ASSERT(0).
    CMakeLists.txt defines it for tun2socks. *)
Class Build := ndebug : bool.
Definition NDEBUG : Build := true.
Definition ASSERT_0 {build : Build} {A} (r : A) : outcome A := if ndebug then Ret r else Abort.

(** Which asynchronous interfaces of the connection are set up. *)
Inductive con_io := NoIO | ControlIO | UpIO.
#[global] Instance con_io_eq_dec : EqDecision con_io.
Proof. solve_decision. Defined.

Record BSocksClient := mkclient {
  auth : list auth_info;
  dest_addr : BAddr;
  udp : bool;
  bind_addr : BAddr;
  st : sstate;
  cbuf : option bytes;            (** [buffer] *)
  recv_dest : Z;                  (** offset in [buffer] *)
  recv_len : Z;
  recv_total : Z;
  continue_job : bool;            (** the job is set *)
  con : con_io;
  send_op : option Z;             (** bytes of [buffer] being sent *)
  recv_op : option (Z * Z)        (** range of [buffer] being filled *)
}.

Definition set_st (o : BSocksClient) (s : sstate) : BSocksClient :=
  mkclient (auth o) (dest_addr o) (udp o) (bind_addr o) s (cbuf o) (recv_dest o) (recv_len o) (recv_total o)
    (continue_job o) (con o) (send_op o) (recv_op o).
Definition set_cbuf (o : BSocksClient) (b : option bytes) : BSocksClient :=
  mkclient (auth o) (dest_addr o) (udp o) (bind_addr o) (st o) b (recv_dest o) (recv_len o) (recv_total o)
    (continue_job o) (con o) (send_op o) (recv_op o).
Definition set_recv (o : BSocksClient) (dest len total : Z) : BSocksClient :=
  mkclient (auth o) (dest_addr o) (udp o) (bind_addr o) (st o) (cbuf o) dest len total
    (continue_job o) (con o) (send_op o) (recv_op o).
Definition set_job (o : BSocksClient) (j : bool) : BSocksClient :=
  mkclient (auth o) (dest_addr o) (udp o) (bind_addr o) (st o) (cbuf o) (recv_dest o) (recv_len o) (recv_total o)
    j (con o) (send_op o) (recv_op o).
Definition set_io (o : BSocksClient) (c : con_io) (s : option Z) (r : option (Z * Z)) : BSocksClient :=
  mkclient (auth o) (dest_addr o) (udp o) (bind_addr o) (st o) (cbuf o) (recv_dest o) (recv_len o) (recv_total o)
    (continue_job o) c s r.
Definition set_dest (o : BSocksClient) (a : BAddr) : BSocksClient :=
  mkclient (auth o) a (udp o) (bind_addr o) (st o) (cbuf o) (recv_dest o) (recv_len o) (recv_total o)
    (continue_job o) (con o) (send_op o) (recv_op o).
Definition set_bind (o : BSocksClient) (a : BAddr) : BSocksClient :=
  mkclient (auth o) (dest_addr o) (udp o) a (st o) (cbuf o) (recv_dest o) (recv_len o) (recv_total o)
    (continue_job o) (con o) (send_op o) (recv_op o).

(** ** Interfaces the client uses *)

(** The stream and packet interfaces accept an operation only when idle. *)
Definition PacketPassInterface_Sender_Send (o : BSocksClient) (len : Z) : outcome BSocksClient :=
  ASSERT (0 <=? len);;
  ASSERT (len <=? 2 ^ 31 - 1);;
  ASSERT (bool_decide (cbuf o <> None));;
  ASSERT (bool_decide (send_op o = None));;
  ASSERT (bool_decide (con o = ControlIO));;
  Ret (set_io o (con o) (Some len) (recv_op o)).

Definition StreamRecvInterface_Receiver_Recv (o : BSocksClient) (off len : Z) : outcome BSocksClient :=
  ASSERT (0 <? len);;
  ASSERT (bool_decide (cbuf o <> None));;
  ASSERT (bool_decide (recv_op o = None));;
  ASSERT (bool_decide (con o = ControlIO));;
  Ret (set_io o (con o) (send_op o) (Some (off, len))).

Definition init_control_io (o : BSocksClient) : outcome BSocksClient :=
  ASSERT (bool_decide (con o = NoIO));; Ret (set_io o ControlIO None None).
Definition free_control_io (o : BSocksClient) : outcome BSocksClient :=
  ASSERT (bool_decide (con o = ControlIO));; Ret (set_io o NoIO None None).
Definition init_up_io (o : BSocksClient) : outcome BSocksClient :=
  ASSERT (bool_decide (con o = NoIO));; Ret (set_io o UpIO None None).
Definition free_up_io (o : BSocksClient) : outcome BSocksClient :=
  ASSERT (bool_decide (con o = UpIO));; Ret (set_io o NoIO None None).

(** [realloc] keeps the common prefix; the rest is [junk]. *)
Definition BRealloc (m : option bytes) (junk : bytes) (size : Z) : bytes :=
  let old := default [] m in
  let n := if size =? 0 then 1%nat else Z.to_nat size in
  resize n 0 (old ++ drop (length old) junk).

Definition reserve_buffer (mem : option bytes) (o : BSocksClient) (size : bsize_t) : BSocksClient * bool :=
  if is_overflow size then (o, false)
  else match mem with
       | None => (o, false)
       | Some junk => (set_cbuf o (Some (BRealloc (cbuf o) junk (value size))), true)
       end.

Definition buf_put (o : BSocksClient) (p : Z) (bs : bytes) : outcome BSocksClient :=
  match cbuf o with
  | None => Fault
  | Some b => b' ← mem_write b p bs; Ret (set_cbuf o (Some b'))
  end.
Definition buf_get (o : BSocksClient) (p n : Z) : outcome bytes :=
  match cbuf o with None => Fault | Some b => mem_read b p n end.

(** ** Handlers: the new object and what was reported to the user *)

Abbreviation result := (outcome (BSocksClient * option event)).

Definition report_error (o : BSocksClient) (e : event) : result := Ret (o, Some e).

Definition do_receive (o : BSocksClient) : outcome BSocksClient :=
  ASSERT (recv_len o <? recv_total o);;
  StreamRecvInterface_Receiver_Recv o (recv_dest o + recv_len o) (recv_total o - recv_len o).

Definition start_receive (o : BSocksClient) (dest total : Z) : outcome BSocksClient :=
  ASSERT (0 <? total);; do_receive (set_recv o dest 0 total).

Definition connector_handler (o : BSocksClient) (is_error con_ok : bool) : result :=
  ASSERT (bool_decide (st o = STATE_CONNECTING));;
  if is_error then report_error o EVENT_ERROR
  else if negb con_ok then report_error o EVENT_ERROR
  else
    o ← init_control_io o;
    Ret (set_job (set_st o STATE_CONNECTED_HANDLER) true, Some EVENT_CONNECTED).

Inductive con_event := BCONNECTION_EVENT_ERROR | BCONNECTION_EVENT_RECVCLOSED.

Definition connection_handler (o : BSocksClient) (e : con_event) : result :=
  ASSERT (bool_decide (st o <> STATE_CONNECTING));;
  match st o, e with
  | STATE_UP, BCONNECTION_EVENT_RECVCLOSED => report_error o EVENT_ERROR_CLOSED
  | _, _ => report_error o EVENT_ERROR
  end.

Fixpoint write_methods (o : BSocksClient) (p : Z) (l : list auth_info) : outcome BSocksClient :=
  match l with
  | [] => Ret o
  | a :: l' =>
      o ← buf_put o p [u8 (auth_type a)];
      write_methods o (p + SIZEOF_hello_method) l'
  end.

Definition continue_job_handler (mem : option bytes) (o : BSocksClient) : result :=
  ASSERT (bool_decide (st o = STATE_CONNECTED_HANDLER));;
  let n := zlen (auth o) in
  if (n =? 0) || (255 <? n) then report_error o EVENT_ERROR
  else
    let size := bsize_add (bsize_fromsize SIZEOF_hello_header)
                  (bsize_mul (bsize_fromsize n) (bsize_fromsize SIZEOF_hello_method)) in
    match reserve_buffer mem o size with
    | (o, false) => report_error o EVENT_ERROR
    | (o, true) =>
        o ← buf_put o 0 [u8 SOCKS_VERSION; u8 n];
        o ← write_methods o SIZEOF_hello_header (auth o);
        o ← PacketPassInterface_Sender_Send o (value size);
        Ret (set_st o STATE_SENDING_HELLO, None)
    end.

Definition auth_finished (mem : option bytes) (o : BSocksClient) : result :=
  let size := bsize_fromsize SIZEOF_request_header in
  let size :=
    if ba_type (dest_addr o) =? BADDR_TYPE_IPV4 then bsize_add size (bsize_fromsize SIZEOF_addr_ipv4)
    else if ba_type (dest_addr o) =? BADDR_TYPE_IPV6 then bsize_add size (bsize_fromsize SIZEOF_addr_ipv6)
    else size in
  match reserve_buffer mem o size with
  | (o, false) => report_error o EVENT_ERROR
  | (o, true) =>
      let cmd := if udp o then SOCKS_CMD_UDP_ASSOCIATE else SOCKS_CMD_CONNECT in
      let addr := ba_ip (dest_addr o) ++ ba_port (dest_addr o) in
      atyp ← (if ba_type (dest_addr o) =? BADDR_TYPE_IPV4 then Ret SOCKS_ATYP_IPV4
              else if ba_type (dest_addr o) =? BADDR_TYPE_IPV6 then Ret SOCKS_ATYP_IPV6
              else Abort);
      o ← buf_put o SIZEOF_request_header addr;
      o ← buf_put o 0 [u8 SOCKS_VERSION; u8 cmd; 0; u8 atyp];
      o ← PacketPassInterface_Sender_Send o (value size);
      Ret (set_st o STATE_SENDING_REQUEST, None)
  end.

(** The password packet, written through a moving pointer. *)
Definition send_password (mem : option bytes) (o : BSocksClient) (ai : auth_info) : result :=
  let ul := zlen (username ai) in
  let pl := zlen (password ai) in
  if (ul =? 0) || (255 <? ul) || (pl =? 0) || (255 <? pl) then report_error o EVENT_ERROR
  else
    let size := bsize_fromsize (1 + 1 + ul + 1 + pl) in
    match reserve_buffer mem o size with
    | (o, false) => report_error o EVENT_ERROR
    | (o, true) =>
        o ← buf_put o 0 [1];
        o ← buf_put o 1 [u8 ul];
        o ← buf_put o 2 (username ai);
        o ← buf_put o (2 + ul) [u8 pl];
        o ← buf_put o (3 + ul) (password ai);
        o ← PacketPassInterface_Sender_Send o (value size);
        Ret (set_st o STATE_SENDING_PASSWORD, None)
    end.

Definition received_hello (mem : option bytes) (o : BSocksClient) : result :=
  imsg ← buf_get o 0 SIZEOF_server_hello;
  ver ← arr_get imsg 0;
  method ← arr_get imsg 1;
  if negb (ver =? SOCKS_VERSION) then report_error o EVENT_ERROR
  else match find_index (fun a => auth_type a =? method) (auth o) with
       | None => report_error o EVENT_ERROR
       | Some i =>
           ai ← arr_get (auth o) (Z.of_nat i);
           if auth_type ai =? SOCKS_METHOD_NO_AUTHENTICATION_REQUIRED then auth_finished mem o
           else if auth_type ai =? SOCKS_METHOD_USERNAME_PASSWORD then send_password mem o ai
           else Abort
       end.

Definition received_reply_header (o : BSocksClient) : result :=
  imsg ← buf_get o 0 SIZEOF_reply_header;
  ver ← arr_get imsg 0;
  rep ← arr_get imsg 1;
  atyp ← arr_get imsg 3;
  if negb (ver =? SOCKS_VERSION) then report_error o EVENT_ERROR
  else if negb (rep =? SOCKS_REP_SUCCEEDED) then report_error o EVENT_ERROR
  else
    let set_type t := mkaddr t (ba_ip (bind_addr o)) (ba_port (bind_addr o)) in
    if atyp =? SOCKS_ATYP_IPV4 then
      o ← start_receive (set_bind o (set_type BADDR_TYPE_IPV4)) SIZEOF_reply_header SIZEOF_addr_ipv4;
      Ret (set_st o STATE_RECEIVED_REPLY_HEADER, None)
    else if atyp =? SOCKS_ATYP_IPV6 then
      o ← start_receive (set_bind o (set_type BADDR_TYPE_IPV6)) SIZEOF_reply_header SIZEOF_addr_ipv6;
      Ret (set_st o STATE_RECEIVED_REPLY_HEADER, None)
    else report_error o EVENT_ERROR.

Definition received_password_reply (mem : option bytes) (o : BSocksClient) : result :=
  imsg ← buf_get o 0 2;
  b0 ← arr_get imsg 0;
  b1 ← arr_get imsg 1;
  if negb (b0 =? 1) then report_error o EVENT_ERROR
  else if negb (b1 =? 0) then report_error o EVENT_ERROR
  else auth_finished mem o.

Definition received_reply_rest (o : BSocksClient) : result :=
  let t := ba_type (bind_addr o) in
  a ← (if t =? BADDR_TYPE_IPV4 then
         ip ← buf_get o SIZEOF_reply_header 4; port ← buf_get o (SIZEOF_reply_header + 4) 2;
         Ret (mkaddr t ip port)
       else if t =? BADDR_TYPE_IPV6 then
         ip ← buf_get o SIZEOF_reply_header 16; port ← buf_get o (SIZEOF_reply_header + 16) 2;
         Ret (mkaddr t ip port)
       else Abort);
  o ← free_control_io (set_cbuf (set_bind o a) None);
  o ← init_up_io o;
  Ret (set_st o STATE_UP, Some EVENT_UP).

(** The [switch] on the state when a message is complete. *)
Definition received (mem : option bytes) (o : BSocksClient) : result :=
  match st o with
  | STATE_SENT_HELLO => received_hello mem o
  | STATE_SENT_REQUEST => received_reply_header o
  | STATE_SENT_PASSWORD => received_password_reply mem o
  | STATE_RECEIVED_REPLY_HEADER => received_reply_rest o
  | _ => Abort
  end.

Definition recv_handler_done (mem : option bytes) (o : BSocksClient) (data_len : Z) : result :=
  ASSERT (0 <=? data_len);;
  ASSERT (data_len <=? recv_total o - recv_len o);;
  let o := set_recv o (recv_dest o) (recv_len o + data_len) (recv_total o) in
  if recv_len o <? recv_total o then o ← do_receive o; Ret (o, None)
  else received mem o.

Definition send_handler_done (mem : option bytes) (o : BSocksClient) : result :=
  ASSERT (bool_decide (cbuf o <> None));;
  let receive size total s : result :=
    match reserve_buffer mem o size with
    | (o, false) => report_error o EVENT_ERROR
    | (o, true) => o ← start_receive o 0 total; Ret (set_st o s, None)
    end in
  match st o with
  | STATE_SENDING_HELLO =>
      receive (bsize_fromsize SIZEOF_server_hello) SIZEOF_server_hello STATE_SENT_HELLO
  | STATE_SENDING_REQUEST =>
      receive (bsize_add (bsize_fromsize SIZEOF_reply_header)
                 (bsize_max (bsize_fromsize SIZEOF_addr_ipv4) (bsize_fromsize SIZEOF_addr_ipv6)))
              SIZEOF_reply_header STATE_SENT_REQUEST
  | STATE_SENDING_PASSWORD => receive (bsize_fromsize 2) 2 STATE_SENT_PASSWORD
  | _ => Abort
  end.

(** ** The user's calls *)

Definition BSocksClient_auth_none : auth_info :=
  mkauth SOCKS_METHOD_NO_AUTHENTICATION_REQUIRED [] [].
Definition BSocksClient_auth_password (name pass : bytes) : auth_info :=
  mkauth SOCKS_METHOD_USERNAME_PASSWORD name pass.

(** [connector_ok]: whether the connector could be started. *)
Definition BSocksClient_Init (server_addr : BAddr) (l : list auth_info) (dest : BAddr) (is_udp : bool)
  (connector_ok : bool) : outcome (option BSocksClient) :=
  ASSERT (negb (ba_type server_addr =? BADDR_TYPE_NONE));;
  ASSERT (forallb (fun a => (auth_type a =? SOCKS_METHOD_NO_AUTHENTICATION_REQUIRED) ||
                            (auth_type a =? SOCKS_METHOD_USERNAME_PASSWORD)) l);;
  if connector_ok then
    Ret (Some (mkclient l dest is_udp (mkaddr BADDR_TYPE_NONE [] []) STATE_CONNECTING None 0 0 0 false NoIO None None))
  else Ret None.

Definition BSocksClient_SetDestAddr (o : BSocksClient) (a : BAddr) : outcome BSocksClient :=
  ASSERT (bool_decide (st o = STATE_CONNECTING \/ st o = STATE_CONNECTED_HANDLER));; Ret (set_dest o a).

Definition BSocksClient_GetBindAddr (o : BSocksClient) : outcome BAddr :=
  ASSERT (bool_decide (st o = STATE_UP));; Ret (bind_addr o).

(** The object is gone afterwards; the result is what remains allocated. *)
Definition BSocksClient_Free (o : BSocksClient) : outcome BSocksClient :=
  o ← (if decide (st o = STATE_CONNECTING) then Ret o
       else if decide (st o = STATE_UP) then free_up_io o else free_control_io o);
  Ret (set_cbuf (set_job o false) None).

(** ** The object and its environment *)

Inductive input :=
| InConnector (is_error con_ok : bool)      (** the connection attempt ended *)
| InSetDest (a : BAddr)                     (** the user overrides the destination *)
| InContinue (mem : option bytes)           (** the continue job runs *)
| InSent (mem : option bytes)               (** the send operation ended *)
| InRecv (mem : option bytes) (chunk : bytes) (** bytes of the server arrived *)
| InConnection (e : con_event).             (** the connection failed or was closed *)

(** [sent] and [rcvd] are the bytes exchanged with the server so far. *)
Record config := mkcfg { cl : BSocksClient; sent : bytes; rcvd : bytes; reported : list event }.

Definition report (c : config) (o : BSocksClient) (e : option event) : config :=
  mkcfg o (sent c) (rcvd c) (reported c ++ option_list e).

Definition handle (c : config) (i : input) : outcome config :=
  let o := cl c in
  match i with
  | InConnector is_error con_ok => '(o, e) ← connector_handler o is_error con_ok; Ret (report c o e)
  | InSetDest a => o ← BSocksClient_SetDestAddr o a; Ret (report c o None)
  | InContinue mem => '(o, e) ← continue_job_handler mem (set_job o false); Ret (report c o e)
  | InSent mem =>
      msg ← buf_get o 0 (default 0 (send_op o));
      '(o, e) ← send_handler_done mem (set_io o (con o) None (recv_op o));
      Ret (report (mkcfg o (sent c ++ msg) (rcvd c) (reported c)) o e)
  | InRecv mem chunk =>
      o ← buf_put o (fst (default (0, 0) (recv_op o))) chunk;
      '(o, e) ← recv_handler_done mem (set_io o (con o) (send_op o) None) (zlen chunk);
      Ret (report (mkcfg o (sent c) (rcvd c ++ chunk) (reported c)) o e)
  | InConnection e => '(o, e) ← connection_handler o e; Ret (report c o e)
  end.

Definition addr_wf (a : BAddr) : Prop :=
  (ba_type a = BADDR_TYPE_IPV4 /\ length (ba_ip a) = 4%nat \/ ba_type a = BADDR_TYPE_IPV6 /\ length (ba_ip a) = 16%nat) /\
  length (ba_port a) = 2%nat /\ Forall is_byte (ba_ip a) /\ Forall is_byte (ba_port a).

(** After an error report the user frees the object and nothing more happens. *)
Definition is_error_event (e : event) : bool :=
  match e with EVENT_ERROR | EVENT_ERROR_CLOSED => true | _ => false end.
Definition alive (c : config) : bool := negb (existsb is_error_event (reported c)).

Definition mem_wf (mem : option bytes) : Prop := match mem with Some l => Forall is_byte l | None => True end.

(** What the environment may do: each handler is called only when the thing it
    handles is under way; the user sets the destination only until the
    continue job has run. *)
Definition enabled (c : config) (i : input) : Prop :=
  alive c = true /\
  match i with
  | InConnector _ _ => st (cl c) = STATE_CONNECTING
  | InSetDest a => (st (cl c) = STATE_CONNECTING \/ st (cl c) = STATE_CONNECTED_HANDLER) /\ addr_wf a
  | InContinue mem => continue_job (cl c) = true /\ mem_wf mem
  | InSent mem => send_op (cl c) <> None /\ mem_wf mem
  | InRecv mem chunk =>
      (exists off len, recv_op (cl c) = Some (off, len) /\ 0 < zlen chunk <= len) /\ Forall is_byte chunk /\ mem_wf mem
  | InConnection _ => st (cl c) <> STATE_CONNECTING
  end.

Definition auth_wf (a : auth_info) : Prop := Forall is_byte (username a) /\ Forall is_byte (password a).

Inductive reach (l : list auth_info) (is_udp : bool) : config -> Prop :=
| reach_init server dest o :
    addr_wf dest -> Forall auth_wf l ->
    BSocksClient_Init server l dest is_udp true = Ret (Some o) -> reach l is_udp (mkcfg o [] [] [])
| reach_step c i c' : reach l is_udp c -> enabled c i -> handle c i = Ret c' -> reach l is_udp c'.

(** ** The messages *)

Definition hello_msg (l : list auth_info) : bytes := [5; zlen l] ++ (auth_type <$> l).
Definition password_msg (ai : auth_info) : bytes :=
  [1; zlen (username ai)] ++ username ai ++ [zlen (password ai)] ++ password ai.
Definition atyp_of (a : BAddr) : Z := if ba_type a =? BADDR_TYPE_IPV4 then SOCKS_ATYP_IPV4 else SOCKS_ATYP_IPV6.
Definition request_msg (is_udp : bool) (a : BAddr) : bytes :=
  [5; if is_udp then 3 else 1; 0; atyp_of a] ++ ba_ip a ++ ba_port a.

Definition offered (l : list auth_info) : Prop :=
  0 < zlen l <= 255 /\ Forall (fun a => auth_type a = 0 \/ auth_type a = 2) l.

Definition password_ok (ai : auth_info) : Prop :=
  0 < zlen (username ai) <= 255 /\ 0 < zlen (password ai) <= 255.

(** A finished authentication: what was sent and what the server answered. *)
Inductive authenticated (l : list auth_info) : bytes -> bytes -> Prop :=
| auth_by_none i a :
    find_index (fun a => auth_type a =? 0) l = Some i -> l !! i = Some a ->
    authenticated l (hello_msg l) [5; 0]
| auth_by_password i ai :
    find_index (fun a => auth_type a =? 2) l = Some i -> l !! i = Some ai -> password_ok ai ->
    authenticated l (hello_msg l ++ password_msg ai) ([5; 2] ++ [1; 0]).

(** An answer of the server that the client must refuse. *)
Inductive bad_answer (l : list auth_info) : bytes -> Prop :=
| bad_version v m : v <> 5 -> bad_answer l [v; m]
| bad_method v m : find_index (fun a => auth_type a =? m) l = None -> bad_answer l [v; m]
| bad_password i ai :
    find_index (fun a => auth_type a =? 2) l = Some i -> l !! i = Some ai -> ~ password_ok ai -> bad_answer l [5; 2]
| bad_password_reply v x : v <> 1 \/ x <> 0 -> bad_answer l ([5; 2] ++ [v; x])
| bad_reply s0 r0 v p x t :
    authenticated l s0 r0 -> v <> 5 \/ p <> 0 \/ (t <> 1 /\ t <> 4) -> bad_answer l (r0 ++ [v; p; x; t]).

(** A receive under way: [got] has arrived of the [total] bytes for [off]. *)
Record receiving (o : BSocksClient) (b : bytes) (off total : Z) (got : bytes) : Prop := {
  rv_buf : cbuf o = Some b;
  rv_dest : recv_dest o = off;
  rv_total : recv_total o = total;
  rv_len : recv_len o = zlen got;
  rv_more : zlen got < total;
  rv_op : recv_op o = Some (off + zlen got, total - zlen got);
  rv_send : send_op o = None;
  rv_con : con o = ControlIO;
  rv_off : 0 <= off;
  rv_fit : off + total <= zlen b;
  rv_got : slice b off (zlen got) = got;
  rv_bytes : Forall is_byte b
}.

(** A send under way of the whole message [m]. *)
Record sending (o : BSocksClient) (m : bytes) : Prop := {
  sn_buf : cbuf o = Some m;
  sn_op : send_op o = Some (zlen m);
  sn_recv : recv_op o = None;
  sn_con : con o = ControlIO;
  sn_bytes : Forall is_byte m
}.

Definition reply_head (r : Z) (a : BAddr) : bytes := [5; 0; r; atyp_of a].

(** What holds in each state, of the object and of the bytes exchanged. *)
Definition state_inv (o : BSocksClient) (s r : bytes) : Prop :=
  let l := auth o in
  match st o with
  | STATE_CONNECTING =>
      con o = NoIO /\ cbuf o = None /\ send_op o = None /\ recv_op o = None /\ s = [] /\ r = []
  | STATE_CONNECTED_HANDLER =>
      con o = ControlIO /\ cbuf o = None /\ send_op o = None /\ recv_op o = None /\ s = [] /\ r = []
  | STATE_SENDING_HELLO => offered l /\ sending o (hello_msg l) /\ s = [] /\ r = []
  | STATE_SENT_HELLO =>
      offered l /\ s = hello_msg l /\ exists b, receiving o b 0 2 r
  | STATE_SENDING_PASSWORD =>
      s = hello_msg l /\ r = [5; 2] /\
      exists i ai, find_index (fun a => auth_type a =? 2) l = Some i /\ l !! i = Some ai /\ password_ok ai /\
        sending o (password_msg ai)
  | STATE_SENT_PASSWORD =>
      exists i ai got b, find_index (fun a => auth_type a =? 2) l = Some i /\ l !! i = Some ai /\ password_ok ai /\
        s = hello_msg l ++ password_msg ai /\ r = [5; 2] ++ got /\ receiving o b 0 2 got
  | STATE_SENDING_REQUEST =>
      authenticated l s r /\ sending o (request_msg (udp o) (dest_addr o))
  | STATE_SENT_REQUEST =>
      exists s0 r0 got b, authenticated l s0 r0 /\ s = s0 ++ request_msg (udp o) (dest_addr o) /\
        r = r0 ++ got /\ receiving o b 0 4 got /\ 22 <= zlen b
  | STATE_RECEIVED_REPLY_HEADER =>
      exists s0 r0 rsv got b, authenticated l s0 r0 /\ s = s0 ++ request_msg (udp o) (dest_addr o) /\
        r = r0 ++ reply_head rsv (bind_addr o) ++ got /\
        ((ba_type (bind_addr o) = 1 /\ receiving o b 4 6 got) \/ (ba_type (bind_addr o) = 2 /\ receiving o b 4 18 got))
  | STATE_UP =>
      con o = UpIO /\ cbuf o = None /\ send_op o = None /\ recv_op o = None /\ addr_wf (bind_addr o) /\
      exists s0 r0 rsv, authenticated l s0 r0 /\ s = s0 ++ request_msg (udp o) (dest_addr o) /\
        r = r0 ++ reply_head rsv (bind_addr o) ++ ba_ip (bind_addr o) ++ ba_port (bind_addr o)
  end.

Definition events_of (s : sstate) : list event :=
  match s with STATE_CONNECTING => [] | STATE_UP => [EVENT_CONNECTED; EVENT_UP] | _ => [EVENT_CONNECTED] end.

Record inv (l : list auth_info) (is_udp : bool) (c : config) : Prop := {
  iv_auth : auth (cl c) = l;
  iv_auth_wf : Forall auth_wf l;
  iv_types : Forall (fun a => auth_type a = 0 \/ auth_type a = 2) l;
  iv_udp : udp (cl c) = is_udp;
  iv_dest : addr_wf (dest_addr (cl c));
  iv_events : reported c = events_of (st (cl c));
  iv_job : continue_job (cl c) = bool_decide (st (cl c) = STATE_CONNECTED_HANDLER);
  iv_state : state_inv (cl c) (sent c) (rcvd c)
}.

(** ** Buffer lemmas *)

Lemma reserve_ok mem o size :
  mem_wf mem -> (forall b, cbuf o = Some b -> Forall is_byte b) -> is_overflow size = false -> 0 < value size ->
  (reserve_buffer mem o size = (o, false) /\ mem = None) \/
  exists b, reserve_buffer mem o size = (set_cbuf o (Some b), true) /\ zlen b = value size /\ Forall is_byte b.
Proof.
  intros Hm Hb Ho Hv. unfold reserve_buffer. rewrite Ho. destruct mem as [junk|]; [right|by left].
  eexists. split; [done|]. unfold BRealloc. rewrite (proj2 (Z.eqb_neq _ _)) by lia. split.
  - rewrite length_resize. lia.
  - apply Forall_resize; [unfold is_byte; lia|]. apply Forall_app; split; [|by apply Forall_drop].
    destruct (cbuf o) as [b|]; simpl; [by apply Hb|done].
Qed.

Lemma buf_put_ok o b p bs :
  cbuf o = Some b -> 0 <= p -> p + zlen bs <= zlen b ->
  buf_put o p bs = Ret (set_cbuf o (Some (splice b p bs))).
Proof. intros Hb Hp Hl. unfold buf_put. rewrite Hb, mem_write_Ret by done. done. Qed.

Lemma buf_get_ok o b p n :
  cbuf o = Some b -> 0 <= p -> 0 <= n -> p + n <= zlen b -> buf_get o p n = Ret (slice b p n).
Proof. intros Hb Hp Hn Hl. unfold buf_get. rewrite Hb. by apply mem_read_Ret. Qed.

(** A header written in front of what was already placed behind it. *)
Lemma splice_behind (b hd tl : bytes) :
  zlen hd + zlen tl = zlen b -> splice (splice b (zlen hd) tl) 0 hd = hd ++ tl.
Proof.
  intros Hl. apply list_eq. intros i.
  rewrite !lookup_splice by (rewrite ?length_splice; lia). change (Z.to_nat 0) with 0%nat. rewrite Nat2Z.id, Nat.sub_0_r.
  repeat case_decide; try lia.
  - by rewrite lookup_app_l by lia.
  - by rewrite lookup_app_r by lia.
  - rewrite !lookup_ge_None_2; [done|rewrite length_app; lia|lia].
Qed.

(** Appending to what was written at the start of the buffer. *)
Lemma buf_put_app o b m bs p :
  cbuf o = Some (splice b 0 m) -> p = zlen m -> zlen m + zlen bs <= zlen b ->
  buf_put o p bs = Ret (set_cbuf o (Some (splice b 0 (m ++ bs)))).
Proof.
  intros Hb -> Hl. rewrite (buf_put_ok _ _ _ _ Hb) by (rewrite ?length_splice; lia).
  do 3 f_equal. rewrite <- splice_splice_adj by lia. done.
Qed.

Lemma write_methods_ok l o b m p :
  cbuf o = Some (splice b 0 m) -> p = zlen m -> zlen m + zlen l <= zlen b ->
  Forall (fun a => auth_type a = 0 \/ auth_type a = 2) l ->
  write_methods o p l = Ret (set_cbuf o (Some (splice b 0 (m ++ (auth_type <$> l))))).
Proof.
  revert o m p. induction l as [|a l IH]; intros o m p Hb Hp Hl Ht; cbn [write_methods].
  - rewrite app_nil_r, <- Hb. by destruct o.
  - inversion Ht; subst. cbn [length] in Hl. rewrite (buf_put_app _ _ _ _ _ Hb) by (cbn [length]; lia).
    cbn [mbind outcome_bind]. rewrite IH with (m := m ++ [u8 (auth_type a)]); [..|done];
      [|done|rewrite length_app; unfold SIZEOF_hello_method; cbn [length]; lia|rewrite length_app; cbn [length]; lia].
    rewrite <- app_assoc, u8_small by lia. done.
Qed.

(** ** The handlers keep the invariant *)

(** Between two operations, after authentication settings were checked. *)
Record idle (l : list auth_info) (u : bool) (o : BSocksClient) : Prop := {
  id_auth : auth o = l;
  id_auth_wf : Forall auth_wf l;
  id_types : Forall (fun a => auth_type a = 0 \/ auth_type a = 2) l;
  id_udp : udp o = u;
  id_dest : addr_wf (dest_addr o);
  id_job : continue_job o = false;
  id_con : con o = ControlIO;
  id_send : send_op o = None;
  id_recv : recv_op o = None;
  id_buf : forall b, cbuf o = Some b -> Forall is_byte b
}.

(** A handler's result: an error report for the reason [W], or the invariant
    again. *)
Definition good (l : list auth_info) (u : bool) (s r : bytes) (evs : list event) (W : Prop) (res : result) : Prop :=
  exists o e, res = Ret (o, e) /\
    ((exists x, e = Some x /\ is_error_event x = true /\ W) \/ inv l u (mkcfg o s r (evs ++ option_list e))).

Lemma good_error l u s r evs (W : Prop) o : W -> good l u s r evs W (report_error o EVENT_ERROR).
Proof. intros HW. eexists _, _. split; [done|]. left. eauto. Qed.

Lemma good_mono l u s r evs (W W' : Prop) res : (W -> W') -> good l u s r evs W res -> good l u s r evs W' res.
Proof. intros HW (o & e & He & [(x & Hx & Hy & Hw)|Hi]); exists o, e; (split; [done|]); [left; eauto|by right]. Qed.

(** Starting to send the message that fills the buffer. *)
Lemma send_ok o m (n : Z) :
  cbuf o = Some m -> n = zlen m -> zlen m < 2 ^ 31 -> send_op o = None -> con o = ControlIO ->
  PacketPassInterface_Sender_Send o n = Ret (set_io o ControlIO (Some (zlen m)) (recv_op o)).
Proof.
  intros Hb -> Hm Hs Hc. unfold PacketPassInterface_Sender_Send.
  rewrite (ASSERT_true (0 <=? zlen m)), (ASSERT_true (zlen m <=? 2 ^ 31 - 1)) by lia.
  rewrite !ASSERT_true by (rewrite bool_decide_eq_true; congruence). by rewrite Hc.
Qed.

Lemma recv_start_ok o off len :
  cbuf o <> None -> 0 < len -> recv_op o = None -> con o = ControlIO ->
  StreamRecvInterface_Receiver_Recv o off len = Ret (set_io o ControlIO (send_op o) (Some (off, len))).
Proof.
  intros Hb Hl Hr Hc. unfold StreamRecvInterface_Receiver_Recv. rewrite (ASSERT_true (0 <? len)) by lia.
  rewrite !ASSERT_true by (rewrite bool_decide_eq_true; congruence). by rewrite Hc.
Qed.

Lemma start_receive_ok o b off total :
  cbuf o = Some b -> 0 <= off -> 0 < total -> off + total <= zlen b -> Forall is_byte b ->
  recv_op o = None -> send_op o = None -> con o = ControlIO ->
  exists o', start_receive o off total = Ret o' /\ receiving o' b off total [] /\
    o' = set_io (set_recv o off 0 total) ControlIO None (Some (off, total)).
Proof.
  intros Hb Ho Ht Hf Hby Hr Hs Hc. unfold start_receive, do_receive. simpl.
  rewrite !ASSERT_true by lia. cbn [mbind outcome_bind].
  rewrite recv_start_ok by (simpl; rewrite ?Hb; done || lia). simpl. rewrite Hs, Z.add_0_r, Z.sub_0_r.
  eexists. split; [done|]. split; [|done].
  split; simpl; try done; try lia. by rewrite Z.add_0_r, Z.sub_0_r.
Qed.

Lemma request_ok u a : addr_wf a ->
  Forall is_byte (request_msg u a) /\ zlen (request_msg u a) = if ba_type a =? 1 then 10 else 22.
Proof.
  intros (Hty & Hp & Hi & Hpb). unfold request_msg, atyp_of, BADDR_TYPE_IPV4, BADDR_TYPE_IPV6, SOCKS_ATYP_IPV4, SOCKS_ATYP_IPV6 in *. split.
  - apply Forall_app; split; [|by apply Forall_app].
    repeat constructor; unfold is_byte; repeat case_match; lia.
  - rewrite !length_app, Hp. simpl. destruct Hty as [[-> ->]|[-> ->]]; done.
Qed.

Lemma idle_set_cbuf l u o b : idle l u o -> Forall is_byte b -> idle l u (set_cbuf o (Some b)).
Proof. intros [] Hb. split; try done. simpl. by intros ? [= <-]. Qed.

(** An idle object that starts to send [m] satisfies the invariant of the
    sending state [s']. *)
Lemma idle_send l u o m (n : Z) (s' : sstate) s r (W : Prop) :
  idle l u o -> cbuf o = Some m -> n = zlen m -> zlen m < 2 ^ 31 ->
  events_of s' = [EVENT_CONNECTED] -> s' <> STATE_CONNECTED_HANDLER ->
  (forall o', sending o' m -> auth o' = l -> udp o' = u -> dest_addr o' = dest_addr o -> st o' = s' -> state_inv o' s r) ->
  good l u s r [EVENT_CONNECTED] W
    (o ← PacketPassInterface_Sender_Send o n; Ret (set_st o s', None)).
Proof.
  intros Hid Hb Hn Hm Hev Hs' Hst. rewrite (send_ok o m n) by (done || apply Hid).
  cbn [mbind outcome_bind]. eexists _, _. split; [done|]. right.
  pose proof Hid as []. split; simpl; try done; [by rewrite bool_decide_eq_false_2|].
  apply Hst; try done. split; simpl; try done. by eapply id_buf0.
Qed.

Lemma auth_finished_ok mem l u o s r :
  idle l u o -> mem_wf mem -> authenticated l s r -> good l u s r [EVENT_CONNECTED] (mem = None) (auth_finished mem o).
Proof.
  intros Hid Hm Ha. pose proof (id_dest _ _ _ Hid) as Hd. pose proof (request_ok u _ Hd) as [Hrb Hrl].
  unfold auth_finished. set (size := if _ =? BADDR_TYPE_IPV4 then _ else _).
  assert (Hsz : is_overflow size = false /\ value size = zlen (request_msg u (dest_addr o)) /\ 0 < value size).
  { rewrite Hrl. subst size. destruct Hd as ([[-> _]|[-> _]] & _); done. }
  destruct Hsz as (Hov & Hval & Hpos). clearbody size.
  destruct (reserve_ok mem o size Hm (id_buf _ _ _ Hid) Hov Hpos) as [[-> Hnm]|(b & -> & Hbl & Hbb)]; [by apply good_error|].
  cbn [dest_addr udp set_cbuf]. set (atyp := if _ =? _ then Ret _ else _).
  assert (Hat : atyp = Ret (atyp_of (dest_addr o))).
  { subst atyp. unfold atyp_of. destruct Hd as ([[-> _]|[-> _]] & _); done. }
  rewrite Hat. cbn [mbind outcome_bind]. clear atyp Hat.
  set (addr := ba_ip (dest_addr o) ++ ba_port (dest_addr o)).
  assert (Hla : zlen addr = zlen b - 4).
  { subst addr. rewrite Hbl, Hval. unfold request_msg. rewrite !length_app. simpl. lia. }
  change SIZEOF_request_header with 4 in *.
  rewrite (buf_put_ok _ b) by (done || lia). cbn [mbind outcome_bind].
  rewrite (buf_put_ok _ (splice b 4 addr)) by (done || rewrite ?length_splice; simpl; lia). cbn [mbind outcome_bind].
  set (m := splice _ 0 _).
  assert (Hmsg : m = request_msg u (dest_addr o)).
  { subst m. rewrite (splice_behind b [_; _; _; _]) by (simpl; lia).
    unfold request_msg, atyp_of. rewrite (id_udp _ _ _ Hid). by destruct u, (ba_type (dest_addr o) =? BADDR_TYPE_IPV4). }
  eapply idle_send with (m := request_msg u (dest_addr o)).
  - apply (idle_set_cbuf _ _ _ m). 2:{ by rewrite Hmsg. }
    apply (idle_set_cbuf _ _ _ (splice b 4 addr)); [by apply idle_set_cbuf|].
    apply Forall_splice; [done|]. apply Forall_app. split; apply Hd.
  - simpl. by rewrite Hmsg.
  - done.
  - rewrite Hrl. case_match; lia.
  - done.
  - done.
  - intros o' Hs Ea Eu Ed Est. unfold state_inv. rewrite Est, Ea, Eu, Ed. done.
Qed.

Lemma send_password_ok mem l u o ai i :
  idle l u o -> mem_wf mem -> find_index (fun a => auth_type a =? 2) l = Some i -> l !! i = Some ai ->
  good l u (hello_msg l) [5; 2] [EVENT_CONNECTED] (mem = None \/ ~ password_ok ai) (send_password mem o ai).
Proof.
  intros Hid Hm Hf Hai. unfold send_password.
  destruct (_ || _) eqn:E; [apply good_error; right; unfold password_ok; lia|].
  assert (Hpw : password_ok ai) by (unfold password_ok; lia). destruct Hpw as [Hul Hpl].
  set (ul := zlen (username ai)) in *. set (pl := zlen (password ai)) in *.
  assert (Hab : auth_wf ai) by (eapply Forall_lookup_1; [apply Hid|done]).
  assert (Hlen : zlen (password_msg ai) = 1 + 1 + ul + 1 + pl).
  { unfold password_msg. rewrite !length_app. simpl. lia. }
  destruct (reserve_ok mem o (bsize_fromsize (1 + 1 + ul + 1 + pl)) Hm (id_buf _ _ _ Hid) eq_refl) as
    [[-> Hnm]|(b & -> & Hbl & Hbb)]; [simpl; lia|apply good_error; by left|]. cbn [value bsize_fromsize] in *.
  rewrite (buf_put_ok _ b) by (done || simpl; lia). cbn [mbind outcome_bind].
  rewrite (buf_put_app _ b [1]) by (done || simpl; lia). cbn [mbind outcome_bind].
  rewrite (buf_put_app _ b ([1] ++ [u8 ul])) by (done || simpl; lia). cbn [mbind outcome_bind].
  rewrite (buf_put_app _ b (([1] ++ [u8 ul]) ++ username ai)) by (done || (rewrite ?length_app; simpl; lia)). cbn [mbind outcome_bind].
  rewrite (buf_put_app _ b ((([1] ++ [u8 ul]) ++ username ai) ++ [u8 pl])) by (done || (rewrite ?length_app; simpl; lia)).
  cbn [mbind outcome_bind].
  set (m := (((([1] ++ [u8 ul]) ++ username ai) ++ [u8 pl]) ++ password ai)).
  assert (Hmsg : splice b 0 m = password_msg ai).
  { assert (m = password_msg ai) as ->; [|apply splice_full; lia].
    subst m. unfold password_msg. rewrite !u8_small by lia. by rewrite <- !app_assoc. }
  assert (Hmb : Forall is_byte (password_msg ai)).
  { unfold password_msg. destruct Hab. repeat (apply Forall_app; split); try done; repeat constructor; unfold is_byte; lia. }
  eapply idle_send with (m := password_msg ai); [|by simpl; rewrite Hmsg|lia|lia|done|done|].
  - destruct Hid. split; try done. simpl. intros ? [= <-]. by rewrite Hmsg.
  - intros o' Hs Ea Eu Ed Est. unfold state_inv. rewrite Est, Ea. split_and!; [done|done|].
    exists i, ai. done.
Qed.

Lemma received_hello_ok mem l u o b r :
  idle l u o -> mem_wf mem -> cbuf o = Some b -> 2 <= zlen b -> slice b 0 2 = r ->
  good l u (hello_msg l) r [EVENT_CONNECTED] (mem = None \/ bad_answer l r) (received_hello mem o).
Proof.
  intros Hid Hm Hb Hl <-. unfold received_hello. rewrite (buf_get_ok _ _ _ _ Hb) by (unfold SIZEOF_server_hello; lia).
  cbn [mbind outcome_bind]. change SIZEOF_server_hello with 2.
  destruct b as [|v [|m b]]; [simpl in Hl; lia..|]. change (slice (v :: m :: b) 0 2) with [v; m].
  change (arr_get [v; m] 0) with (Ret v). change (arr_get [v; m] 1) with (Ret m). cbn [mbind outcome_bind].
  destruct (negb (v =? SOCKS_VERSION)) eqn:Ev;
    [apply good_error; right; apply bad_version; unfold SOCKS_VERSION in Ev; lia|]. unfold SOCKS_VERSION in Ev. assert (v = 5) as -> by lia.
  rewrite (id_auth _ _ _ Hid). destruct (find_index _ l) as [i|] eqn:Ei; [|apply good_error; right; by apply bad_method].
  destruct (find_index_Some _ _ _ Ei) as (ai & Hai & Hty & _).
  rewrite (arr_get_Ret _ _ ai) by (rewrite ?Nat2Z.id; done || lia). cbn [mbind outcome_bind].
  assert (auth_type ai = m) as Hm2 by lia. rewrite <- Hm2 in *.
  pose proof (Forall_lookup_1 _ _ _ _ (id_types _ _ _ Hid) Hai) as Ht. simpl in Ht.
  destruct Ht as [Ht|Ht]; rewrite Ht in *; simpl.
  - eapply good_mono; [by left|]. apply auth_finished_ok; [done|done|]. by eapply auth_by_none.
  - eapply good_mono; [|by eapply send_password_ok]. intros [?|?]; [by left|right; by eapply bad_password].
Qed.

Lemma received_password_reply_ok mem l u o b i ai r :
  idle l u o -> mem_wf mem -> cbuf o = Some b -> 2 <= zlen b -> slice b 0 2 = r ->
  find_index (fun a => auth_type a =? 2) l = Some i -> l !! i = Some ai -> password_ok ai ->
  good l u (hello_msg l ++ password_msg ai) ([5; 2] ++ r) [EVENT_CONNECTED]
    (mem = None \/ bad_answer l ([5; 2] ++ r)) (received_password_reply mem o).
Proof.
  intros Hid Hm Hb Hl <- Hi Hai Hpw. unfold received_password_reply.
  rewrite (buf_get_ok _ _ _ _ Hb) by lia. cbn [mbind outcome_bind].
  destruct b as [|v [|m b]]; [simpl in Hl; lia..|]. change (slice (v :: m :: b) 0 2) with [v; m].
  change (arr_get [v; m] 0) with (Ret v). change (arr_get [v; m] 1) with (Ret m). cbn [mbind outcome_bind].
  destruct (negb (v =? 1)) eqn:Ev; [apply good_error; right; apply bad_password_reply; lia|].
  destruct (negb (m =? 0)) eqn:Em; [apply good_error; right; apply bad_password_reply; lia|].
  assert (v = 1) as -> by lia. assert (m = 0) as -> by lia.
  eapply good_mono; [by left|]. apply auth_finished_ok; [done|done|]. by eapply auth_by_password.
Qed.

(** The header of the reply decides how much is still to be received. *)
Lemma reply_rest_ok l u o b s0 r0 rsv t total (W : Prop) :
  idle l u o -> cbuf o = Some b -> 22 <= zlen b -> authenticated l s0 r0 ->
  ((t = BADDR_TYPE_IPV4 /\ total = 6) \/ (t = BADDR_TYPE_IPV6 /\ total = 18)) ->
  good l u (s0 ++ request_msg u (dest_addr o))
    (r0 ++ [5; 0; rsv; if t =? BADDR_TYPE_IPV4 then SOCKS_ATYP_IPV4 else SOCKS_ATYP_IPV6]) [EVENT_CONNECTED] W
    (o ← start_receive (set_bind o (mkaddr t (ba_ip (bind_addr o)) (ba_port (bind_addr o)))) SIZEOF_reply_header total;
     Ret (set_st o STATE_RECEIVED_REPLY_HEADER, None)).
Proof.
  intros Hid Hb Hl Ha Ht. pose proof Hid as [].
  destruct (start_receive_ok (set_bind o (mkaddr t (ba_ip (bind_addr o)) (ba_port (bind_addr o)))) b SIZEOF_reply_header total)
    as (o' & -> & Hr & ->); simpl; try done; unfold SIZEOF_reply_header in *; try lia; [by eapply id_buf0|].
  cbn [mbind outcome_bind]. eexists _, _. split; [done|]. right.
  split; simpl; try done. unfold state_inv. simpl. rewrite id_auth0, id_udp0.
  exists s0, r0, rsv, [], b. split_and!; [done|done|done|].
  destruct Ht as [[-> ->]|[-> ->]]; [left|right]; (split; [done|]); destruct Hr; by split.
Qed.

Lemma received_reply_header_ok l u o b s0 r0 r :
  idle l u o -> cbuf o = Some b -> 22 <= zlen b -> slice b 0 4 = r -> authenticated l s0 r0 ->
  good l u (s0 ++ request_msg u (dest_addr o)) (r0 ++ r) [EVENT_CONNECTED] (bad_answer l (r0 ++ r)) (received_reply_header o).
Proof.
  intros Hid Hb Hl <- Ha. unfold received_reply_header.
  rewrite (buf_get_ok _ _ _ _ Hb) by (unfold SIZEOF_reply_header; lia).
  cbn [mbind outcome_bind]. change (slice b 0 SIZEOF_reply_header) with (slice b 0 4).
  assert (Hs : exists v p x t, slice b 0 4 = [v; p; x; t]).
  { destruct b as [|v [|p [|x [|t b]]]]; [simpl in Hl; lia..|]. by exists v, p, x, t. }
  destruct Hs as (v & p & x & t & ->).
  change (arr_get [v; p; x; t] 0) with (Ret v). change (arr_get [v; p; x; t] 1) with (Ret p).
  change (arr_get [v; p; x; t] 3) with (Ret t). cbn [mbind outcome_bind].
  unfold SOCKS_VERSION, SOCKS_REP_SUCCEEDED, SOCKS_ATYP_IPV4, SOCKS_ATYP_IPV6.
  destruct (negb (v =? 5)) eqn:Ev; [apply good_error; eapply bad_reply; [done|lia]|].
  destruct (negb (p =? 0)) eqn:Ep; [apply good_error; eapply bad_reply; [done|lia]|].
  assert (v = 5) as -> by lia. assert (p = 0) as -> by lia.
  destruct (t =? 1) eqn:E4; [|destruct (t =? 4) eqn:E6; [|apply good_error; eapply bad_reply; [done|lia]]].
  - apply Z.eqb_eq in E4 as ->. eapply reply_rest_ok with (t := BADDR_TYPE_IPV4); eauto.
  - apply Z.eqb_eq in E6 as ->. eapply reply_rest_ok with (t := BADDR_TYPE_IPV6); eauto.
Qed.

Lemma received_reply_rest_ok l u o b s0 r0 rsv n got :
  idle l u o -> cbuf o = Some b -> 4 + n + 2 <= zlen b -> slice b 4 (n + 2) = got -> authenticated l s0 r0 ->
  ((ba_type (bind_addr o) = 1 /\ n = 4) \/ (ba_type (bind_addr o) = 2 /\ n = 16)) ->
  good l u (s0 ++ request_msg u (dest_addr o)) (r0 ++ reply_head rsv (bind_addr o) ++ got) [EVENT_CONNECTED]
    False (received_reply_rest o).
Proof.
  intros Hid Hb Hl <- Ha Ht. pose proof Hid as []. unfold received_reply_rest.
  set (a := if _ =? _ then _ else _).
  assert (Haddr : a = Ret (mkaddr (ba_type (bind_addr o)) (slice b 4 n) (slice b (4 + n) 2))).
  { subst a. unfold SIZEOF_reply_header.
    destruct Ht as [[-> ->]|[-> ->]]; simpl; rewrite !(buf_get_ok _ _ _ _ Hb) by lia; done. }
  rewrite Haddr. cbn [mbind outcome_bind]. unfold free_control_io, init_up_io.
  rewrite ASSERT_true by (simpl; by rewrite id_con0, bool_decide_eq_true_2).
  cbn [mbind outcome_bind]. rewrite ASSERT_true by (by rewrite bool_decide_eq_true). cbn [mbind outcome_bind].
  eexists _, _. split; [done|]. right. specialize (id_buf0 _ Hb).
  split; simpl; try done. unfold state_inv. simpl. rewrite id_auth0, id_udp0. split_and!; try done.
  - unfold addr_wf. simpl. split_and!; try by apply Forall_slice.
    + destruct Ht as [[-> ->]|[-> ->]]; [left|right]; (split; [done|]);
        apply Nat2Z.inj; rewrite zlen_slice; lia.
    + apply Nat2Z.inj. rewrite zlen_slice; lia.
  - exists s0, r0, rsv. split_and!; [done|done|]. unfold reply_head, atyp_of. simpl.
    by rewrite slice_app_split by lia.
Qed.

(** *** Arrival of bytes *)

Lemma recv_put o b off total got chunk :
  receiving o b off total got -> 0 < zlen chunk -> zlen got + zlen chunk <= total -> Forall is_byte chunk ->
  exists b', buf_put o (fst (default (0, 0) (recv_op o))) chunk = Ret (set_cbuf o (Some b')) /\
    zlen b' = zlen b /\ Forall is_byte b' /\ slice b' off (zlen (got ++ chunk)) = got ++ chunk.
Proof.
  intros [] Hc Hle Hcb. rewrite rv_op0. simpl fst.
  exists (splice b (off + zlen got) chunk). rewrite (buf_put_ok _ _ _ _ rv_buf0) by lia.
  split_and!; [done|rewrite length_splice; lia|by apply Forall_splice|].
  rewrite length_app, Nat2Z.inj_add, slice_app_split by lia. f_equal.
  - rewrite slice_splice_before by lia. done.
  - apply slice_splice_same; lia.
Qed.

(** The object after [chunk] was stored and counted. *)
Definition counted (o : BSocksClient) (b' : bytes) (n : Z) : BSocksClient :=
  set_recv (set_io (set_cbuf o (Some b')) ControlIO None None) (recv_dest o) n (recv_total o).

Lemma recv_more_ok mem o b b' off total got chunk :
  receiving o b off total got -> 0 < zlen chunk -> zlen got + zlen chunk < total ->
  zlen b' = zlen b -> Forall is_byte b' -> slice b' off (zlen (got ++ chunk)) = got ++ chunk ->
  let o' := set_io (counted o b' (zlen (got ++ chunk))) ControlIO None
              (Some (off + zlen (got ++ chunk), total - zlen (got ++ chunk))) in
  recv_handler_done mem (set_io (set_cbuf o (Some b')) (con o) (send_op o) None) (zlen chunk) = Ret (o', None) /\
  receiving o' b' off total (got ++ chunk).
Proof.
  intros [] Hc Hlt Hl Hb Hs o'. unfold recv_handler_done. cbn [recv_total recv_len recv_dest set_io set_cbuf set_recv].
  rewrite rv_con0, rv_send0, rv_total0, rv_len0, rv_dest0. rewrite !ASSERT_true by lia. cbn [mbind outcome_bind].
  destruct (_ <? _) eqn:E; [|lia].
  assert (Hn : zlen (got ++ chunk) = zlen got + zlen chunk) by (rewrite length_app; lia).
  unfold do_receive. cbn [recv_total recv_len recv_dest set_io set_cbuf set_recv]. rewrite ASSERT_true by lia.
  cbn [mbind outcome_bind]. rewrite recv_start_ok by (simpl; done || lia). cbn [mbind outcome_bind].
  split; [subst o'; unfold counted; simpl; rewrite ?rv_dest0, ?rv_total0, Hn; done|].
  subst o'. split; simpl; rewrite ?Hn in *; try done; lia.
Qed.

Lemma recv_all_ok mem o b b' off total got (chunk : bytes) :
  receiving o b off total got -> 0 < zlen chunk -> zlen got + zlen chunk = total ->
  recv_handler_done mem (set_io (set_cbuf o (Some b')) (con o) (send_op o) None) (zlen chunk) =
  received mem (counted o b' total).
Proof.
  intros [] Hc Heq. unfold recv_handler_done, counted. cbn [recv_total recv_len recv_dest set_io set_cbuf set_recv].
  rewrite rv_con0, rv_send0, rv_total0, rv_len0, rv_dest0, Heq.
  rewrite !ASSERT_true by lia. cbn [mbind outcome_bind]. destruct (_ <? _) eqn:E; [lia|]. done.
Qed.

Lemma counted_idle l u c b' n :
  inv l u c -> st (cl c) <> STATE_CONNECTED_HANDLER -> Forall is_byte b' -> idle l u (counted (cl c) b' n).
Proof.
  intros [] Hs Hb. split; simpl; try done.
  - rewrite iv_job0. by apply bool_decide_eq_false_2.
  - by intros ? [= <-].
Qed.

(** The step of one chunk, given what the completed message leads to. *)
Lemma recv_step_ok mem l u c chunk b off total got r0 (W : bytes -> Prop) :
  inv l u c -> receiving (cl c) b off total got -> rcvd c = r0 ++ got ->
  st (cl c) <> STATE_CONNECTED_HANDLER -> reported c = [EVENT_CONNECTED] ->
  0 < zlen chunk <= total - zlen got -> Forall is_byte chunk ->
  (forall o' b' got', receiving o' b' off total got' -> zlen b' = zlen b -> st o' = st (cl c) -> auth o' = auth (cl c) ->
     udp o' = udp (cl c) -> dest_addr o' = dest_addr (cl c) -> bind_addr o' = bind_addr (cl c) ->
     state_inv o' (sent c) (r0 ++ got')) ->
  (forall b', zlen b' = zlen b -> Forall is_byte b' -> slice b' off total = got ++ chunk ->
     good l u (sent c) (r0 ++ got ++ chunk) [EVENT_CONNECTED] (W (r0 ++ got ++ chunk))
       (received mem (counted (cl c) b' total))) ->
  exists c', handle c (InRecv mem chunk) = Ret c' /\ ((alive c' = false /\ W (rcvd c')) \/ inv l u c').
Proof.
  intros Hinv Hrv Hr Hst Hev Hc Hcb Hmore Hall. cbn [handle].
  destruct (recv_put _ _ _ _ _ chunk Hrv ltac:(lia) ltac:(lia) Hcb) as (b' & -> & Hlb & Hbb & Hsl).
  cbn [mbind outcome_bind]. destruct (decide (zlen got + zlen chunk < total)) as [Hlt|Hge].
  - destruct (recv_more_ok mem _ _ b' _ _ _ chunk Hrv ltac:(lia) Hlt Hlb Hbb Hsl) as [He Hrv'].
    simpl in He. simpl. rewrite He. cbn [mbind outcome_bind]. eexists. split; [done|]. right.
    rewrite Hr, <- app_assoc. destruct Hinv. split; simpl; try done; [by rewrite app_nil_r|].
    apply (Hmore _ b'); done.
  - assert (Ht : zlen got + zlen chunk = total) by lia.
    pose proof (recv_all_ok mem _ _ b' _ _ _ chunk Hrv ltac:(lia) Ht) as He. simpl in He. simpl. rewrite He.
    destruct (Hall b' Hlb Hbb) as (o' & e & He' & Hg). { by rewrite <- Ht, <- Hsl, length_app, Nat2Z.inj_add. }
    rewrite He'. cbn [mbind outcome_bind].
    eexists. split; [done|]. destruct Hg as [(x & -> & Hx & HW)|Hg].
    + left. split; [|cbn [report rcvd]; by rewrite Hr, <- app_assoc]. unfold alive, report. cbn [reported]. rewrite existsb_app. cbn. by rewrite Hx, orb_true_r.
    + right. unfold report. cbn [reported sent rcvd]. rewrite Hr, Hev, <- app_assoc. done.
Qed.

(** *** Completion of a send, the continue job and the other inputs *)

Lemma receive_begin mem l u o size total s' s r :
  idle l u o -> mem_wf mem -> is_overflow size = false -> 0 < total <= value size ->
  events_of s' = [EVENT_CONNECTED] -> s' <> STATE_CONNECTED_HANDLER ->
  (forall o' b, receiving o' b 0 total [] -> zlen b = value size -> st o' = s' -> auth o' = l -> udp o' = u ->
     dest_addr o' = dest_addr o -> state_inv o' s r) ->
  good l u s r [EVENT_CONNECTED] (mem = None)
    (match reserve_buffer mem o size with
     | (o, false) => report_error o EVENT_ERROR
     | (o, true) => o ← start_receive o 0 total; Ret (set_st o s', None)
     end).
Proof.
  intros Hid Hm Hov Ht Hev Hs' Hst.
  destruct (reserve_ok mem o size Hm (id_buf _ _ _ Hid) Hov ltac:(lia)) as [[-> Hnm]|(b & -> & Hbl & Hbb)]; [by apply good_error|].
  pose proof Hid as [].
  destruct (start_receive_ok (set_cbuf o (Some b)) b 0 total) as (o' & -> & Hr & ->); simpl; try done; try lia.
  cbn [mbind outcome_bind]. eexists _, _. split; [done|]. right.
  split; simpl; try done; [by rewrite bool_decide_eq_false_2|].
  apply (Hst _ b); try done. destruct Hr. by split.
Qed.

Lemma sent_ok mem l u c m :
  inv l u c -> sending (cl c) m -> st (cl c) <> STATE_CONNECTED_HANDLER -> reported c = [EVENT_CONNECTED] ->
  (idle l u (set_io (cl c) ControlIO None None) ->
   good l u (sent c ++ m) (rcvd c) [EVENT_CONNECTED] (mem = None) (send_handler_done mem (set_io (cl c) ControlIO None None))) ->
  exists c', handle c (InSent mem) = Ret c' /\ ((alive c' = false /\ mem = None) \/ inv l u c').
Proof.
  intros Hinv [] Hst Hev Hg. cbn [handle]. rewrite sn_op0. simpl default.
  rewrite (buf_get_ok _ _ _ _ sn_buf0) by lia. rewrite slice_full by done. cbn [mbind outcome_bind].
  rewrite sn_con0, sn_recv0. destruct Hg as (o' & e & -> & Hg).
  { destruct Hinv. split; simpl; try done; [rewrite iv_job0; by apply bool_decide_eq_false_2|].
    rewrite sn_buf0. by intros ? [= <-]. }
  cbn [mbind outcome_bind]. eexists. split; [done|]. destruct Hg as [(x & -> & Hx & HW)|Hg].
  - left. split; [|done]. unfold alive, report. cbn [reported]. rewrite existsb_app. cbn. by rewrite Hx, orb_true_r.
  - right. unfold report. cbn [reported sent rcvd]. rewrite Hev. done.
Qed.

(** Takes a state's invariant apart. *)
Ltac open_inv :=
  repeat match goal with
  | H : _ /\ _ |- _ => destruct H
  | H : exists _, _ |- _ => destruct H
  | H : _ \/ _ |- _ => destruct H
  | H : receiving _ _ _ _ _ |- _ => destruct H
  | H : sending _ _ |- _ => destruct H
  end.

Lemma sending_states o s r :
  state_inv o s r -> send_op o <> None ->
  st o = STATE_SENDING_HELLO \/ st o = STATE_SENDING_PASSWORD \/ st o = STATE_SENDING_REQUEST.
Proof. unfold state_inv. destruct (st o); intros; auto; open_inv; congruence. Qed.

Lemma receiving_states o s r x :
  state_inv o s r -> recv_op o = Some x ->
  st o = STATE_SENT_HELLO \/ st o = STATE_SENT_PASSWORD \/ st o = STATE_SENT_REQUEST \/ st o = STATE_RECEIVED_REPLY_HEADER.
Proof. unfold state_inv. destruct (st o); intros; auto; open_inv; congruence. Qed.

Lemma handle_sent_ok mem l u c :
  inv l u c -> mem_wf mem -> send_op (cl c) <> None ->
  exists c', handle c (InSent mem) = Ret c' /\ ((alive c' = false /\ mem = None) \/ inv l u c').
Proof.
  intros Hinv Hm Hs. pose proof Hinv as [Ha _ _ Hu _ Hev _ Hst].
  pose proof (sending_states _ _ _ Hst Hs) as Hcase. unfold state_inv in Hst.
  assert (Hbuf : forall m, sending (cl c) m ->
    ASSERT (bool_decide (cbuf (set_io (cl c) ControlIO None None) <> None)) = Ret ()).
  { intros m Hsn. apply ASSERT_true. simpl. rewrite (sn_buf _ _ Hsn). by apply bool_decide_eq_true_2. }
  destruct Hcase as [E|[E|E]]; rewrite E in Hst; rewrite E in Hev.
  - destruct Hst as (Hof & Hsn & Es & Er). eapply sent_ok; [done|done|by rewrite E|done|].
    intros Hid. unfold send_handler_done. rewrite (Hbuf _ Hsn).
    cbn [mbind outcome_bind st set_io]. rewrite E. eapply receive_begin; try done.
    intros o' b Hr Hb Est Ea Eu Ed. unfold state_inv. rewrite Est, Ea, Es, Er, <- Ha. by eauto.
  - destruct Hst as (Es & Er & i & ai & Hi & Hai & Hpw & Hsn). eapply sent_ok; [done|done|by rewrite E|done|].
    intros Hid. unfold send_handler_done. rewrite (Hbuf _ Hsn).
    cbn [mbind outcome_bind st set_io]. rewrite E. eapply receive_begin; try done.
    intros o' b Hr Hb Est Ea Eu Ed. unfold state_inv. rewrite Est, Ea, Es, Er, <- Ha.
    exists i, ai, [], b. done.
  - destruct Hst as (Hau & Hsn). eapply sent_ok; [done|done|by rewrite E|done|].
    intros Hid. unfold send_handler_done. rewrite (Hbuf _ Hsn).
    cbn [mbind outcome_bind st set_io]. rewrite E. eapply receive_begin; try done.
    intros o' b Hr Hb Est Ea Eu Ed. unfold state_inv. rewrite Est, Ea, Eu, Ed, <- Ha, <- Hu. simpl.
    exists (sent c), (rcvd c), [], b. rewrite app_nil_r. split_and!; try done. rewrite Hb. done.
Qed.

Lemma handle_recv_ok mem l u c chunk off len :
  inv l u c -> mem_wf mem -> recv_op (cl c) = Some (off, len) -> 0 < zlen chunk <= len -> Forall is_byte chunk ->
  exists c', handle c (InRecv mem chunk) = Ret c' /\ ((alive c' = false /\ (mem = None \/ bad_answer l (rcvd c'))) \/ inv l u c').
Proof.
  intros Hinv Hm Hop Hc Hcb. pose proof Hinv as [Ha _ _ Hu _ Hev _ Hst].
  pose proof (receiving_states _ _ _ _ Hst Hop) as Hcase. unfold state_inv in Hst.
  assert (Hlen : forall b o total got, receiving (cl c) b o total got -> zlen chunk <= total - zlen got).
  { intros b o total got Hr. pose proof (rv_op _ _ _ _ _ Hr). simplify_eq. lia. }
  assert (Hid : forall b' n, Forall is_byte b' -> st (cl c) <> STATE_CONNECTED_HANDLER -> idle l u (counted (cl c) b' n))
    by (intros; by apply counted_idle).
  set (W := fun r => mem = None \/ bad_answer l r).
  destruct Hcase as [E|[E|[E|E]]]; rewrite E in Hst; rewrite E in Hev.
  - destruct Hst as (Hof & Es & b & Hr). pose proof (Hlen _ _ _ _ Hr). pose proof (rv_fit _ _ _ _ _ Hr).
    eapply (recv_step_ok mem l u c chunk b 0 2 (rcvd c) [] W); try done; [by rewrite E|lia| |].
    + intros o' b' got' Hr' Hb' Est Ea Eu Ed Eb. unfold state_inv. rewrite Est, E, Ea. by eauto.
    + intros b' Hl Hb Hsl. unfold received. cbn [counted st set_recv set_io set_cbuf]. rewrite E, Es, Ha.
      eapply received_hello_ok; [apply Hid; [exact Hb|by rewrite ?E]|done|done|lia|done].
  - destruct Hst as (i & ai & got & b & Hi & Hai & Hpw & Es & Er & Hr).
    pose proof (Hlen _ _ _ _ Hr). pose proof (rv_fit _ _ _ _ _ Hr).
    eapply (recv_step_ok mem l u c chunk b 0 2 got [5; 2] W); try done; [by rewrite E|lia| |].
    + intros o' b' got' Hr' Hb' Est Ea Eu Ed Eb. unfold state_inv. rewrite Est, E, Ea. by exists i, ai, got', b'.
    + intros b' Hl Hb Hsl. unfold received. cbn [counted st set_recv set_io set_cbuf]. rewrite E, Es, Ha in *.
      eapply received_password_reply_ok; [apply Hid; [exact Hb|by rewrite ?E]|done|done|lia|done..].
  - destruct Hst as (s0 & r0 & got & b & Hau & Es & Er & Hr & Hb22).
    pose proof (Hlen _ _ _ _ Hr). pose proof (rv_fit _ _ _ _ _ Hr).
    eapply (recv_step_ok mem l u c chunk b 0 4 got r0 W); try done; [by rewrite E|lia| |].
    + intros o' b' got' Hr' Hb' Est Ea Eu Ed Eb. unfold state_inv. rewrite Est, E, Ea, Eu, Ed.
      exists s0, r0, got', b'. rewrite Hb'. done.
    + intros b' Hl Hb Hsl. unfold received. cbn [counted st set_recv set_io set_cbuf]. rewrite E, Es, Ha, Hu in *.
      eapply good_mono; [by right|]. eapply (received_reply_header_ok l u (counted (cl c) b' 4)); [apply Hid; [exact Hb|by rewrite ?E]|done|lia|done|done].
  - destruct Hst as (s0 & r0 & rsv & got & b & Hau & Es & Er & Hor).
    assert (Hx : exists n, ((ba_type (bind_addr (cl c)) = 1 /\ n = 4) \/ (ba_type (bind_addr (cl c)) = 2 /\ n = 16)) /\
      receiving (cl c) b 4 (n + 2) got) by (destruct Hor as [[Hty Hr]|[Hty Hr]]; [exists 4|exists 16]; auto).
    clear Hor. destruct Hx as (n & Hn & Hr).
    pose proof (Hlen _ _ _ _ Hr). pose proof (rv_fit _ _ _ _ _ Hr).
    eapply (recv_step_ok mem l u c chunk b 4 (n + 2) got (r0 ++ reply_head rsv (bind_addr (cl c))) W);
      try done; [by rewrite Er, app_assoc|by rewrite E|lia| |].
    + intros o' b' got' Hr' Hb' Est Ea Eu Ed Eb. unfold state_inv. rewrite Est, E, Ea, Eu, Ed, Eb.
      exists s0, r0, rsv, got', b'. rewrite app_assoc. split_and!; try done.
      destruct Hn as [[-> ->]|[-> ->]]; auto.
    + intros b' Hl Hb Hsl. unfold received. cbn [counted st set_recv set_io set_cbuf]. rewrite E, Es, <- app_assoc, Ha, Hu in *.
      apply (good_mono _ _ _ _ _ False); [done|].
      eapply (received_reply_rest_ok l u (counted (cl c) b' (n + 2)) b' s0 r0 rsv n);
        [apply Hid; [exact Hb|by rewrite ?E]|done|lia|done..].
Qed.

Lemma hello_ok l : offered l -> Forall is_byte (hello_msg l) /\ zlen (hello_msg l) = 2 + zlen l.
Proof.
  intros [Hn Ht]. unfold hello_msg. split.
  - apply Forall_app; split; [repeat constructor; unfold is_byte; lia|].
    apply Forall_fmap. eapply Forall_impl; [done|]. simpl. unfold is_byte. lia.
  - rewrite length_app, length_fmap. simpl. lia.
Qed.

Lemma continue_ok mem l u c :
  inv l u c -> mem_wf mem -> continue_job (cl c) = true ->
  good l u (sent c) (rcvd c) (reported c) (mem = None \/ ~ (0 < zlen l <= 255))
    (continue_job_handler mem (set_job (cl c) false)).
Proof.
  intros Hinv Hm Hj. pose proof Hinv as [Ha Haw Ht Hu Hd Hev Hjob Hst].
  rewrite Hj in Hjob. symmetry in Hjob. apply bool_decide_eq_true_1 in Hjob.
  unfold state_inv in Hst. rewrite Hjob in Hst. destruct Hst as (Hcon & Hb & Hs & Hr & Es & Er).
  unfold continue_job_handler. rewrite ASSERT_true by (simpl; by rewrite bool_decide_eq_true).
  cbn [mbind outcome_bind auth set_job]. rewrite Ha.
  destruct (_ || _) eqn:E; [apply good_error; right; lia|].
  assert (Hof : offered l) by (split; [lia|done]). pose proof (hello_ok l Hof) as [Hhb Hhl].
  set (size := bsize_add _ _).
  assert (Hsz : is_overflow size = false /\ value size = 2 + zlen l).
  { subst size. unfold bsize_add, bsize_mul, bsize_fromsize, SIZEOF_hello_header, SIZEOF_hello_method, SIZE_MAX.
    cbn [is_overflow value orb]. rewrite Z.mul_1_r, !u32_small by (rewrite ?u32_small; lia). split; [|lia].
    rewrite (proj2 (Z.eqb_neq _ _)) by lia. cbn [negb andb].
    assert (1 <= (2 ^ 32 - 1) / zlen l) by (apply Z.div_le_lower_bound; lia). lia. }
  destruct Hsz as [Hov Hval]. clearbody size.
  destruct (reserve_ok mem (set_job (cl c) false) size Hm) as [[-> Hnm]|(b & -> & Hbl & Hbb)];
    [simpl; by rewrite Hb|done|lia|apply good_error; by left|].
  rewrite (buf_put_ok _ b) by (done || simpl; lia). cbn [mbind outcome_bind auth set_cbuf set_job]. rewrite Ha.
  rewrite (write_methods_ok l _ b [u8 SOCKS_VERSION; u8 (zlen l)]) by (done || simpl; lia). cbn [mbind outcome_bind].
  set (m := _ ++ _). assert (Hmsg : splice b 0 m = hello_msg l).
  { assert (m = hello_msg l) as ->; [|apply splice_full; lia]. subst m. unfold hello_msg. by rewrite (u8_small (zlen l)) by lia. }
  rewrite Hev, Hjob. eapply idle_send with (m := hello_msg l); [|by simpl; rewrite Hmsg|lia|lia|done|done|].
  - split; simpl; try done. intros ? [= <-]. by rewrite Hmsg.
  - intros o' Hsn Ea Eu Ed Est. unfold state_inv. rewrite Est, Ea. done.
Qed.

(** Why an error was reported on input [i]. *)
Definition reason (l : list auth_info) (i : input) (c' : config) : Prop :=
  match i with
  | InConnector is_error con_ok => is_error = true \/ con_ok = false
  | InSetDest _ => False
  | InContinue mem => mem = None \/ ~ (0 < zlen l <= 255)
  | InSent mem => mem = None
  | InRecv mem _ => mem = None \/ bad_answer l (rcvd c')
  | InConnection _ => True
  end.

Lemma alive_snoc c o e : is_error_event e = true -> alive (report c o (Some e)) = false.
Proof. intros He. unfold alive, report. cbn [reported]. rewrite existsb_app. cbn. by rewrite He, orb_true_r. Qed.

Lemma inv_alive l u c : inv l u c -> alive c = true.
Proof. intros []. unfold alive. rewrite iv_events0. by destruct (st (cl c)). Qed.

Lemma connector_ok l u c is_error con_ok :
  inv l u c -> st (cl c) = STATE_CONNECTING ->
  exists c', handle c (InConnector is_error con_ok) = Ret c' /\
    ((alive c' = false /\ (is_error = true \/ con_ok = false)) \/ inv l u c').
Proof.
  intros Hinv Hs. pose proof Hinv as [Ha Haw Ht Hu Hd Hev Hjob Hst].
  unfold state_inv in Hst. rewrite Hs in Hst. destruct Hst as (Hcon & Hb & Hsn & Hr & Es & Er).
  cbn [handle]. unfold connector_handler. rewrite ASSERT_true by (by rewrite bool_decide_eq_true).
  cbn [mbind outcome_bind]. destruct is_error; [|destruct con_ok]; cbn [negb].
  - eexists. split; [done|]. left. split; [by apply alive_snoc|by left].
  - unfold init_control_io. rewrite ASSERT_true by (by rewrite bool_decide_eq_true). cbn [mbind outcome_bind].
    eexists. split; [done|]. right. split; simpl; try done; by rewrite Hev, Hs.
  - eexists. split; [done|]. left. split; [by apply alive_snoc|by right].
Qed.

Lemma handle_ok l u c i :
  inv l u c -> enabled c i -> exists c', handle c i = Ret c' /\ ((alive c' = false /\ reason l i c') \/ inv l u c').
Proof.
  intros Hinv [_ Hen]. destruct i as [ie co|a|mem|mem|mem chunk|e].
  - by apply connector_ok.
  - destruct Hen as [Hs Ha]. cbn [handle]. unfold BSocksClient_SetDestAddr.
    rewrite ASSERT_true by (by rewrite bool_decide_eq_true). cbn [mbind outcome_bind]. eexists. split; [done|]. right.
    destruct Hinv. split; simpl; try done; [by rewrite app_nil_r|].
    unfold state_inv in *. simpl. by destruct Hs as [Hs|Hs]; rewrite Hs in *.
  - destruct Hen as [Hj Hm]. destruct (continue_ok mem l u c Hinv Hm Hj) as (o & e & He & Hg).
    cbn [handle]. rewrite He. cbn [mbind outcome_bind]. eexists. split; [done|].
    destruct Hg as [(x & -> & Hx & HW)|Hg]; [left; split; [by apply alive_snoc|done]|by right].
  - destruct Hen as [Hs Hm]. by apply handle_sent_ok.
  - destruct Hen as ((off & len & Hop & Hl) & Hb & Hm). by eapply handle_recv_ok.
  - cbn [handle]. unfold connection_handler. rewrite ASSERT_true by (by rewrite bool_decide_eq_true). cbn [mbind outcome_bind].
    destruct (st (cl c)) eqn:E, e; try done; (eexists; split; [done|]; left; split; [by apply alive_snoc|done]).
Qed.

Lemma reach_inv l u c : reach l u c -> alive c = true -> inv l u c.
Proof.
  intros Hr. induction Hr as [server dest o Hd Ha Hi|c i c' Hr IH Hen Hh].
  - intros _. unfold BSocksClient_Init in Hi. destruct (negb _); [|done]. cbn [ASSERT mbind outcome_bind] in Hi.
    destruct (forallb _ l) eqn:Ef; [|done]. cbn [ASSERT mbind outcome_bind] in Hi. injection Hi as <-.
    split; simpl; try done. apply Forall_forall. intros a Ha1. apply list_elem_of_In in Ha1.
    rewrite forallb_forall in Ef. specialize (Ef _ Ha1).
    unfold SOCKS_METHOD_NO_AUTHENTICATION_REQUIRED, SOCKS_METHOD_USERNAME_PASSWORD in Ef. lia.
  - intros Hal. destruct (handle_ok l u c i (IH (proj1 Hen)) Hen) as (c2 & Hh2 & [[Hd _]|Hi]); simplify_eq; congruence || done.
Qed.

(** ** Completion against an accepting server *)

Inductive accepting (l : list auth_info) : bytes -> Prop :=
| accepting_intro s0 r0 rsv a :
    authenticated l s0 r0 -> addr_wf a -> is_byte rsv ->
    accepting l (r0 ++ reply_head rsv a ++ ba_ip a ++ ba_port a).

Definition sstep (c c' : config) : Prop := exists i, enabled c i /\ handle c i = Ret c' /\ alive c' = true.

Lemma authenticated_answer l s0 r0 : authenticated l s0 r0 -> r0 = [5; 0] \/ r0 = [5; 2; 1; 0].
Proof. destruct 1; auto. Qed.

(** Two answers that agree as far as one of them goes have the same parts. *)
Lemma answer_prefix l s0 r0 s1 r1 x0 x1 a0 a1 t0 t1 :
  authenticated l s0 r0 -> authenticated l s1 r1 ->
  (r1 ++ reply_head x1 a1 ++ t1) `prefix_of` (r0 ++ reply_head x0 a0 ++ t0) ->
  r1 = r0 /\ atyp_of a1 = atyp_of a0 /\ t1 `prefix_of` t0.
Proof.
  intros H0%authenticated_answer H1%authenticated_answer [k Hk]. unfold reply_head in Hk.
  destruct H0 as [-> | ->], H1 as [-> | ->]; simplify_eq/=; rewrite <- ?app_assoc in *; split_and!; try done; by eexists.
Qed.

Lemma atyp_len a : addr_wf a -> zlen (ba_ip a ++ ba_port a) = if atyp_of a =? 1 then 6 else 18.
Proof.
  intros (Hty & Hp & _). rewrite length_app, Hp. unfold atyp_of.
  destruct Hty as [[-> ->]|[-> ->]]; done.
Qed.

Lemma not_refused l R r : accepting l R -> r `prefix_of` R -> bad_answer l r -> False.
Proof.
  intros [s0 r0 rsv a Ha Hwf _] Hp Hb. inversion Hb as [v m Hv|v m Hf|i ai Hi Hai Hn|v x Hv|s1 r1 v p x t Ha1 Hv]; subst r.
  - destruct Hp as [k Hk]. destruct Ha; simplify_eq/=.
  - destruct Hp as [k Hk]. destruct Ha as [i b Hi Hb1|i b Hi Hb1 _]; simplify_eq/=; congruence.
  - destruct Hp as [k Hk]. destruct Ha as [j b Hj Hb1|j b Hj Hb1 Hok]; simplify_eq/=. congruence.
  - destruct Hp as [k Hk]. destruct Ha as [j b Hj Hb1|j b Hj Hb1 Hok]; simplify_eq/=. naive_solver.
  - destruct Hp as [k Hk]. unfold reply_head, atyp_of, SOCKS_ATYP_IPV4, SOCKS_ATYP_IPV6 in Hk.
    apply authenticated_answer in Ha, Ha1. destruct Ha as [-> | ->], Ha1 as [-> | ->]; simplify_eq/=.
    all: destruct Hv as [Hv|[Hv|Hv]]; try done; destruct (_ =? _); naive_solver.
Qed.

Lemma accepting_bytes l R : accepting l R -> Forall is_byte R.
Proof.
  intros [s0 r0 rsv a Ha (Hty & _ & Hi & Hp) Hr]. apply Forall_app; split.
  - apply authenticated_answer in Ha as [-> | ->]; repeat constructor; unfold is_byte; lia.
  - apply Forall_app; split; [|by apply Forall_app]. unfold reply_head, atyp_of, SOCKS_ATYP_IPV4, SOCKS_ATYP_IPV6.
    repeat constructor; unfold is_byte in *; try lia; case_match; lia.
Qed.

(** While the client waits for bytes the server has more of them. *)
Lemma more_to_come l u c R x :
  inv l u c -> accepting l R -> rcvd c `prefix_of` R -> recv_op (cl c) = Some x -> rcvd c <> R.
Proof.
  intros Hinv HR Hp Hop E. pose proof Hinv as [Ha _ _ _ _ _ _ Hst].
  assert (HlR : 12 <= zlen R).
  { destruct HR as [s0 r0 rsv a Hau Hwf _]. rewrite app_assoc, length_app. pose proof (atyp_len _ Hwf) as Hl.
    unfold reply_head. rewrite length_app. apply authenticated_answer in Hau as [-> | ->]; simpl; destruct (_ =? 1); lia. }
  pose proof (receiving_states _ _ _ _ Hst Hop) as Hcase. unfold state_inv in Hst.
  destruct Hcase as [Es|[Es|[Es|Es]]]; rewrite Es in Hst.
  - destruct Hst as (_ & _ & b & Hr). pose proof (rv_more _ _ _ _ _ Hr). rewrite E in *. lia.
  - destruct Hst as (i & ai & got & b & _ & _ & _ & _ & Er & Hr). pose proof (rv_more _ _ _ _ _ Hr).
    rewrite E in Er. rewrite Er in HlR. simpl in HlR. lia.
  - destruct Hst as (s0 & r0 & got & b & Hau & _ & Er & Hr & _). pose proof (rv_more _ _ _ _ _ Hr).
    rewrite E in Er. rewrite Er, length_app in HlR. apply authenticated_answer in Hau as [-> | ->]; simpl in HlR; lia.
  - destruct Hst as (s0 & r0 & rsv & got & b & Hau & _ & Er & Hor). destruct HR as [s1 r1 x1 a Ha1 Hwf _].
    rewrite Er in Hp. rewrite Ha in *. destruct (answer_prefix l _ _ _ _ _ _ _ _ _ _ Ha1 Hau Hp) as (-> & Hat & [k Hk]).
    pose proof (atyp_len _ Hwf) as Hl. rewrite <- Hat in Hl. rewrite Er in E. do 2 apply app_inj_1 in E as [_ E]; try done.
    rewrite <- E in Hl. unfold atyp_of, BADDR_TYPE_IPV4 in Hl.
    destruct Hor as [[Ht Hr]|[Ht Hr]]; pose proof (rv_more _ _ _ _ _ Hr); rewrite Ht in Hl; simpl in Hl; lia.
Qed.

Lemma authenticated_sent l s0 r0 : offered l -> authenticated l s0 r0 -> zlen s0 <= 800.
Proof.
  intros Hof Ha. pose proof (hello_ok l Hof) as [_ Hl]. destruct Hof as [Hof _].
  destruct Ha as [i a Hi Hai|i ai Hi Hai [Hu Hp]]; [lia|].
  unfold password_msg. rewrite !length_app, Nat2Z.inj_add, Hl. simpl. lia.
Qed.

(** The client never sends more than this during the handshake. *)
Lemma sent_bound l u c : inv l u c -> offered l -> zlen (sent c) <= 900.
Proof.
  intros Hinv Hof. pose proof Hinv as [Ha _ _ _ Hd _ _ Hst]. pose proof (hello_ok l Hof) as [_ Hl].
  pose proof (proj1 Hof). pose proof (request_ok (udp (cl c)) _ Hd) as [_ Hrq].
  assert (Hrq' : zlen (request_msg (udp (cl c)) (dest_addr (cl c))) <= 22) by (rewrite Hrq; case_match; lia).
  assert (Hs0 : forall s0 r0, authenticated l s0 r0 -> zlen (s0 ++ request_msg (udp (cl c)) (dest_addr (cl c))) <= 900).
  { intros s0 r0 Hau. pose proof (authenticated_sent _ _ _ Hof Hau). rewrite length_app. lia. }
  unfold state_inv in Hst. rewrite Ha in Hst.
  assert (Hnil : sent c = [] -> zlen (sent c) <= 900) by (intros ->; simpl; lia).
  assert (Hh : sent c = hello_msg l -> zlen (sent c) <= 900) by (intros ->; lia).
  destruct (st (cl c)); try (by apply Hnil; apply Hst); try (by apply Hh; apply Hst).
  - destruct Hst as (i & ai & got & b & Hi & Hai & Hpw & -> & _). pose proof (authenticated_sent l _ _ Hof (auth_by_password l i ai Hi Hai Hpw)). lia.
  - destruct Hst as [Hau _]. pose proof (authenticated_sent l _ _ Hof Hau). lia.
  - destruct Hst as (s0 & r0 & got & b & Hau & -> & _). by eapply Hs0.
  - destruct Hst as (s0 & r0 & rsv & got & b & Hau & -> & _). by eapply Hs0.
  - destruct Hst as (_ & _ & _ & _ & _ & s0 & r0 & rsv & Hau & -> & _). by eapply Hs0.
Qed.

Definition rank (s : sstate) : Z :=
  match s with STATE_CONNECTING => 2 | STATE_CONNECTED_HANDLER => 1 | _ => 0 end.

Definition work (R : bytes) (c : config) : Z := 900 - zlen (sent c) + (zlen R - zlen (rcvd c)) + rank (st (cl c)).

Lemma rank_exchanged l u c : inv l u c -> sent c <> [] \/ rcvd c <> [] -> rank (st (cl c)) = 0.
Proof.
  intros [_ _ _ _ _ _ _ Hst] Hne. unfold state_inv in Hst. destruct (st (cl c)); try done; simpl; open_inv; congruence.
Qed.

Lemma continue_state mem o o' : continue_job_handler mem o = Ret (o', None) -> st o' = STATE_SENDING_HELLO.
Proof.
  unfold continue_job_handler. intros (? & _ & H)%bind_Ret_inv.
  destruct (_ || _); [done|]. destruct (reserve_buffer _ _ _) as [o1 []]; [|done].
  apply bind_Ret_inv in H as (o2 & _ & H). apply bind_Ret_inv in H as (o3 & _ & H).
  apply bind_Ret_inv in H as (o4 & _ & H). by simplify_eq.
Qed.

(** Some input advances the handshake. *)
Definition advances (l : list auth_info) (u : bool) (R : bytes) (c : config) : Prop :=
  exists c', sstep c c' /\ inv l u c' /\ rcvd c' `prefix_of` R /\ work R c' < work R c.

Lemma advance_by i l u R c :
  inv l u c -> enabled c i ->
  (forall c', handle c i = Ret c' ->
     rcvd c' `prefix_of` R /\ (reason l i c' -> False) /\ (inv l u c' -> work R c' < work R c)) ->
  advances l u R c.
Proof.
  intros Hinv Hen Hc. destruct (handle_ok l u c i Hinv Hen) as (c' & Hh & Hres). destruct (Hc _ Hh) as (Hp' & Hno & Hw).
  destruct Hres as [[_ Hr]|Hi]; [by destruct (Hno Hr)|]. exists c'. split_and!; auto. exists i.
  split_and!; [done|done|by eapply inv_alive].
Qed.

Lemma rank_nonneg s : 0 <= rank s.
Proof. destruct s; simpl; lia. Qed.

Lemma advance_sent l u R c : inv l u c -> rcvd c `prefix_of` R -> send_op (cl c) <> None -> advances l u R c.
Proof.
  intros Hinv Hp Hop. apply (advance_by (InSent (Some []))); [done| |].
  { split; [by eapply inv_alive|]. split; [done|constructor]. }
  intros c' Hh. cbn [handle] in Hh.
  apply bind_Ret_inv in Hh as (msg & Hg & Hh). apply bind_Ret_inv in Hh as ([o e] & _ & Hh). simplify_eq.
  cbn [report rcvd]. split; [done|]. split; [done|]. intros Hi. pose proof (iv_state _ _ _ Hinv) as Hst.
  assert (Hs : exists m, m <> [] /\ sending (cl c) m).
  { pose proof (sending_states _ _ _ Hst Hop) as Hcase. unfold state_inv in Hst.
    destruct Hcase as [E|[E|E]]; rewrite E in Hst; open_inv; eexists; (split; [|split; eassumption]); done. }
  destruct Hs as (m & Hm & Hs). rewrite (sn_op _ _ Hs) in Hg. simpl default in Hg.
  rewrite (buf_get_ok _ _ _ _ (sn_buf _ _ Hs)), slice_full in Hg by (done || lia). simplify_eq.
  unfold work. rewrite (rank_exchanged _ _ _ Hi) by (left; simpl; intros [_ ?]%app_nil; done).
  cbn [report sent rcvd]. rewrite length_app. destruct msg; [done|]. cbn [length].
  pose proof (rank_nonneg (st (cl c))). lia.
Qed.

Lemma advance_recv l u R c x :
  inv l u c -> accepting l R -> rcvd c `prefix_of` R -> recv_op (cl c) = Some x -> advances l u R c.
Proof.
  intros Hinv HR [k Hk] Hop. pose proof (iv_state _ _ _ Hinv) as Hst. destruct k as [|y k].
  { exfalso. eapply more_to_come; [done|done|by exists []|done|]. by rewrite Hk, app_nil_r. }
  pose proof (accepting_bytes _ _ HR) as Hby. rewrite Hk in Hby. apply Forall_app in Hby as [_ Hby].
  apply (advance_by (InRecv (Some []) [y])); [done| |].
  { split; [by eapply inv_alive|]. split_and!; [|constructor; [by inversion Hby|done]|constructor].
    destruct x as [off len]. exists off, len. split; [done|].
    pose proof (receiving_states _ _ _ _ Hst Hop) as Hcase. unfold state_inv in Hst. simpl.
    destruct Hcase as [E|[E|[E|E]]]; rewrite E in Hst; open_inv; simplify_eq; lia. }
  intros c' Hh. cbn [handle] in Hh.
  apply bind_Ret_inv in Hh as (o1 & _ & Hh). apply bind_Ret_inv in Hh as ([o e] & _ & Hh). injection Hh as <-.
  cbn [report rcvd]. assert (Hpre : (rcvd c ++ [y]) `prefix_of` R) by (exists k; by rewrite Hk, <- app_assoc).
  split; [done|]. split; [intros [?|Hbad]; [done|by eapply not_refused]|]. intros Hi.
  unfold work. rewrite (rank_exchanged _ _ _ Hi) by (right; simpl; intros [_ ?]%app_nil; done).
  cbn [report sent rcvd]. rewrite length_app. cbn [length]. pose proof (rank_nonneg (st (cl c))). lia.
Qed.

Lemma advance_start l u R c :
  inv l u c -> offered l -> rcvd c `prefix_of` R ->
  st (cl c) = STATE_CONNECTING \/ st (cl c) = STATE_CONNECTED_HANDLER -> advances l u R c.
Proof.
  intros Hinv Hof Hp [E|E].
  - apply (advance_by (InConnector false true)); [done|by split; [by eapply inv_alive|]|].
    intros c' Hh. cbn [handle] in Hh. apply bind_Ret_inv in Hh as ([o e] & Ho & Hh). simplify_eq.
    split; [done|]. split; [by intros [?|?]|]. intros _.
    unfold connector_handler in Ho. apply bind_Ret_inv in Ho as (? & _ & Ho). cbn [negb] in Ho.
    apply bind_Ret_inv in Ho as (o1 & _ & Ho). simplify_eq. unfold work. cbn. rewrite E. simpl. lia.
  - apply (advance_by (InContinue (Some []))); [done| |].
    { split; [by eapply inv_alive|]. split; [|constructor]. rewrite (iv_job _ _ _ Hinv). by apply bool_decide_eq_true_2. }
    intros c' Hh. cbn [handle] in Hh. apply bind_Ret_inv in Hh as ([o e] & Ho & Hh). simplify_eq.
    split; [done|]. split; [intros [?|Hn]; [done|]; apply Hn, Hof|]. intros Hi.
    unfold work. cbn. rewrite E. assert (rank (st o) = 0); [|simpl; lia].
    destruct e as [e|]; [|by rewrite (continue_state _ _ _ Ho)].
    pose proof (iv_events _ _ _ Hi) as He. simpl in He. rewrite (iv_events _ _ _ Hinv), E in He.
    destruct (st o); simplify_eq/=; done.
Qed.

Lemma not_waiting l u c :
  inv l u c -> send_op (cl c) = None -> recv_op (cl c) = None ->
  st (cl c) = STATE_CONNECTING \/ st (cl c) = STATE_CONNECTED_HANDLER \/ st (cl c) = STATE_UP.
Proof.
  intros [_ _ _ _ _ _ _ Hst] Hs Hr. unfold state_inv in Hst.
  destruct (st (cl c)); auto; open_inv; congruence.
Qed.

Lemma handshake_completes l u c R :
  inv l u c -> offered l -> accepting l R -> rcvd c `prefix_of` R ->
  exists c', rtc sstep c c' /\ st (cl c') = STATE_UP /\ rcvd c' = R /\ alive c' = true.
Proof.
  intros Hinv Hof HR. revert Hinv.
  remember (Z.to_nat (work R c)) as n eqn:En. revert c En.
  induction (lt_wf n) as [n _ IH]. intros c En Hinv Hp.
  destruct (decide (st (cl c) = STATE_UP)) as [Hup|Hup].
  - exists c. split_and!; [done|done| |by eapply inv_alive]. pose proof Hinv as [Ha _ _ _ _ _ _ Hst].
    unfold state_inv in Hst. rewrite Hup, Ha in Hst. destruct Hst as (_ & _ & _ & _ & Hwf & s0 & r0 & rsv & Hau & _ & Er).
    destruct HR as [s1 r1 x1 a Ha1 Hwfa _]. rewrite Er in Hp |- *.
    destruct (answer_prefix l _ _ _ _ _ _ _ _ _ _ Ha1 Hau Hp) as (-> & Hat & Hpt).
    apply prefix_length_eq; [done|]. pose proof (atyp_len _ Hwf). pose proof (atyp_len _ Hwfa). rewrite Hat in *.
    rewrite !length_app in *. simpl. lia.
  - assert (Hadv : advances l u R c).
    { destruct (send_op (cl c)) eqn:E1; [apply advance_sent; [done|done|by rewrite E1]|].
      destruct (recv_op (cl c)) eqn:E2; [by eapply advance_recv|].
      apply advance_start; [done..|]. destruct (not_waiting _ _ _ Hinv E1 E2) as [?|[?|?]]; auto. done. }
    destruct Hadv as (c1 & Hstep & Hi1 & Hp1 & Hw).
    assert (0 <= work R c1).
    { unfold work. pose proof (sent_bound _ _ _ Hi1 Hof). pose proof (rank_nonneg (st (cl c1))).
      apply prefix_length in Hp1. lia. }
    destruct (IH (Z.to_nat (work R c1)) ltac:(lia) c1 eq_refl Hi1 Hp1) as (c2 & Hrt & Hres).
    exists c2. split; [by eapply rtc_l|done].
Qed.

(** ** Theorems *)

(** C30. Safety.  Whatever the server sends, in pieces of any size, and whether or
    not allocations succeed, the handlers return: no assertion fires and no
    access leaves the buffer.  An error is reported only for a reason: the
    connection failed, memory ran out, the number of methods is invalid, or the
    server's answer is one the protocol requires to refuse. *)
Theorem socks_handlers_safe l u c i :
  reach l u c -> enabled c i ->
  exists c', handle c i = Ret c' /\ (alive c' = true \/ reason l i c').
Proof.
  intros Hr Hen. pose proof (reach_inv _ _ _ Hr (proj1 Hen)) as Hinv.
  destruct (handle_ok l u c i Hinv Hen) as (c' & Hh & [[_ Hre]|Hi]); exists c'; (split; [done|]); [by right|].
  left. by eapply inv_alive.
Qed.

(** C8. The tunnel is up only after a complete handshake: an offered method was
    chosen and its exchange succeeded, one request for the configured
    destination was sent, the server's reply was success, and the bytes taken
    from the stream are exactly its answers, so that what follows is payload;
    the bound address is the one the reply carried. *)
Theorem socks_up_after_handshake l u c :
  reach l u c -> alive c = true -> st (cl c) = STATE_UP ->
  exists s0 r0 rsv a, authenticated l s0 r0 /\
    sent c = s0 ++ request_msg u (dest_addr (cl c)) /\
    rcvd c = r0 ++ reply_head rsv a ++ ba_ip a ++ ba_port a /\
    addr_wf a /\ BSocksClient_GetBindAddr (cl c) = Ret a /\ reported c = [EVENT_CONNECTED; EVENT_UP].
Proof.
  intros Hr Hal Hup. pose proof (reach_inv _ _ _ Hr Hal) as [Ha _ _ Hu _ Hev _ Hst].
  unfold state_inv in Hst. rewrite Hup in Hst.
  destruct Hst as (_ & _ & _ & _ & Hwf & s0 & r0 & rsv & Hau & Hs & Hrc). rewrite Ha in Hau. rewrite Hu in Hs.
  exists s0, r0, rsv, (bind_addr (cl c)). unfold BSocksClient_GetBindAddr. rewrite ASSERT_true by (by rewrite bool_decide_eq_true).
  rewrite Hup in Hev. done.
Qed.

(** Completion.  From every configuration reached with a server that has so far
    sent a prefix of an accepting answer, the handshake can be completed, and
    the client has then read that answer and nothing else. *)
Theorem socks_completes l u c R :
  reach l u c -> alive c = true -> offered l -> accepting l R -> rcvd c `prefix_of` R ->
  exists c', rtc sstep c c' /\ st (cl c') = STATE_UP /\ rcvd c' = R /\ alive c' = true.
Proof. intros Hr Hal. apply handshake_completes with (u := u). by apply reach_inv. Qed.

(** Freeing the object in any reachable state releases what is set up. *)
Theorem socks_free_releases l u c :
  reach l u c -> alive c = true ->
  exists o, BSocksClient_Free (cl c) = Ret o /\ con o = NoIO /\ cbuf o = None /\ continue_job o = false /\
    send_op o = None /\ recv_op o = None.
Proof.
  intros Hr Hal. pose proof (reach_inv _ _ _ Hr Hal) as [_ _ _ _ _ _ _ Hst]. unfold state_inv in Hst.
  assert (Hcon : con (cl c) = match st (cl c) with STATE_CONNECTING => NoIO | STATE_UP => UpIO | _ => ControlIO end).
  { destruct (st (cl c)); open_inv; done. }
  unfold BSocksClient_Free. destruct (decide (st (cl c) = STATE_CONNECTING)) as [E|E].
  - rewrite E in *. cbn [mbind outcome_bind]. eexists. split; [done|]. simpl. open_inv. done.
  - destruct (decide (st (cl c) = STATE_UP)) as [E'|E'].
    + rewrite E' in Hcon. unfold free_up_io. rewrite ASSERT_true by (by rewrite bool_decide_eq_true). eexists. split; [done|]. done.
    + unfold free_control_io. rewrite ASSERT_true by (rewrite bool_decide_eq_true; destruct (st (cl c)); done).
      eexists. split; [done|]. done.
Qed.

(** ** Concrete runs *)

Definition demo_dest : BAddr := mkaddr 1 [10; 0; 0; 1] [31; 144].
Definition demo_auth : list auth_info := [BSocksClient_auth_none; BSocksClient_auth_password [117] [112; 119]].

Definition demo_init : config :=
  mkcfg (mkclient demo_auth demo_dest false (mkaddr BADDR_TYPE_NONE [] []) STATE_CONNECTING None 0 0 0 false NoIO None None) [] [] [].

Fixpoint run (ins : list input) (c : config) : outcome config :=
  match ins with [] => Ret c | i :: ins => c ← handle c i; run ins c end.

(** The server chooses the password method and binds 192.168.0.9, port 1080. *)
Definition demo_inputs : list input :=
  let m := Some [] in
  [InConnector false true; InContinue m; InSent m; InRecv m [5]; InRecv m [2]; InSent m; InRecv m [1; 0];
   InSent m; InRecv m [5; 0; 0; 1]; InRecv m [192; 168; 0]; InRecv m [9; 4; 56]].

Example demo_run :
  (c ← run demo_inputs demo_init; Ret (st (cl c), sent c, bind_addr (cl c), reported c)) =
  Ret (STATE_UP, [5; 2; 0; 2] ++ [1; 1; 117; 2; 112; 119] ++ [5; 1; 0; 1; 10; 0; 0; 1; 31; 144],
       mkaddr 1 [192; 168; 0; 9] [4; 56], [EVENT_CONNECTED; EVENT_UP]).
Proof. vm_compute. reflexivity. Qed.

Lemma demo_addr_wf : addr_wf demo_dest.
Proof. split; [by left|]. split; [done|]. split; by apply all_bytes_spec. Qed.

Lemma demo_reach_init : reach demo_auth false demo_init.
Proof.
  apply (reach_init demo_auth false demo_dest demo_dest); [apply demo_addr_wf| |reflexivity].
  repeat (apply Forall_cons; split); [by split; apply all_bytes_spec..|done].
Qed.

Lemma demo_offered : offered demo_auth.
Proof. split; [simpl; lia|]. repeat (apply Forall_cons; split); [by left|by right|done]. Qed.

Lemma socks_handlers_safe_witness :
  exists c', handle demo_init (InConnector false true) = Ret c' /\
    (alive c' = true \/ reason demo_auth (InConnector false true) c').
Proof. apply (socks_handlers_safe demo_auth false demo_init); [apply demo_reach_init|by split]. Defined.

Lemma reach_steps l u c c' : reach l u c -> rtc sstep c c' -> reach l u c'.
Proof. intros Hr Hs. induction Hs as [|x y z (i & Hen & Hh & _) _ IH]; [done|]. apply IH. by eapply reach_step. Qed.

Lemma demo_accepting : accepting demo_auth ([5; 0] ++ [5; 0; 0; 1; 10; 0; 0; 1; 31; 144]).
Proof.
  apply (accepting_intro demo_auth (hello_msg demo_auth) [5; 0] 0 demo_dest); [by eapply auth_by_none|apply demo_addr_wf|unfold is_byte; lia].
Qed.

Lemma socks_up_after_handshake_witness :
  exists c s0 r0 rsv a, rcvd c = [5; 0] ++ [5; 0; 0; 1; 10; 0; 0; 1; 31; 144] /\ authenticated demo_auth s0 r0 /\
    sent c = s0 ++ request_msg false (dest_addr (cl c)) /\
    rcvd c = r0 ++ reply_head rsv a ++ ba_ip a ++ ba_port a /\ BSocksClient_GetBindAddr (cl c) = Ret a.
Proof.
  pose proof (reach_inv _ _ _ demo_reach_init eq_refl) as Hinv.
  destruct (handshake_completes _ _ _ _ Hinv demo_offered demo_accepting ltac:(by eexists)) as (c & Hs & Hup & Hr & Hal).
  destruct (socks_up_after_handshake demo_auth false c (reach_steps _ _ _ _ demo_reach_init Hs) Hal Hup) as
    (s0 & r0 & rsv & a & H1 & H2 & H3 & _ & H5 & _).
  exists c, s0, r0, rsv, a. done.
Defined.

Lemma socks_completes_witness :
  exists c', rtc sstep demo_init c' /\ st (cl c') = STATE_UP /\ rcvd c' = [5; 0] ++ [5; 0; 0; 1; 10; 0; 0; 1; 31; 144] /\ alive c' = true.
Proof.
  apply (socks_completes demo_auth false); [apply demo_reach_init|done|apply demo_offered|apply demo_accepting|by eexists].
Defined.

Lemma socks_free_releases_witness :
  exists o, BSocksClient_Free (cl demo_init) = Ret o /\ con o = NoIO /\ cbuf o = None /\ continue_job o = false /\
    send_op o = None /\ recv_op o = None.
Proof. apply (socks_free_releases demo_auth false demo_init); [apply demo_reach_init|done]. Defined.
