(* ===== verification/UdpGw.v ===== *)
(** * The UDP gateway clients of tun2socks

    badvpn udpgw_client/UdpGwClient.c and tun2socks/SocksUdpGwClient.c: UDP
    datagrams of the device travel as numbered connections to a gateway behind
    the SOCKS server, DNS queries as datagrams to a DNS gateway.  Both keep
    their connections in trees and in a list in the order of use, whose nodes
    are part of the connection: the trees read their keys from the connections.
    Connections are therefore kept in a store, and trees and lists hold
    pointers into it.

    Parameters: whether memory and buffers are available.  A tree (BAVL) is the
    set of its nodes; its balance is not modelled. *)

From S2P Require Import Prelude Buffer Proto SocksClient.
From stdpp Require Import prelude gmap.
From Stdlib Require Import ZArith Lia ZifyBool.

Local Open Scope Z_scope.

Definition UDPGW_CLIENT_FLAG_KEEPALIVE : Z := 1.
Definition UDPGW_CLIENT_FLAG_REBIND : Z := 2.
Definition UDPGW_CLIENT_FLAG_DNS : Z := 4.
Definition UDPGW_CLIENT_FLAG_IPV6 : Z := 8.
Definition SIZEOF_udpgw_header : Z := 3.
Definition SIZEOF_socks_udp_header : Z := 4.
Definition SIZEOF_udpgw_addr_ipv4 : Z := 6.
Definition SIZEOF_udpgw_addr_ipv6 : Z := 18.

(** Sizes of ints (misc/bsize.h); the rest of bsize.h is with the SOCKS client. *)
Definition bsize_fromint (v : Z) : bsize_t := mkbsize ((v <? 0) || (SIZE_MAX <? u32 v)) (u32 v).
Definition bsize_toint (s : bsize_t) : option Z := if is_overflow s || (2 ^ 31 - 1 <? value s) then None else Some (value s).

(** The space for a packet; the header counted on Android is that of SOCKS. *)
Definition udpgw_compute_mtu (dgram_mtu : Z) : Z :=
  let bs := bsize_add (bsize_fromsize SIZEOF_socks_udp_header)
              (bsize_add (bsize_max (bsize_fromsize SIZEOF_udpgw_addr_ipv4) (bsize_fromsize SIZEOF_udpgw_addr_ipv6)) (bsize_fromint dgram_mtu)) in
  match bsize_toint bs with Some s => s | None => -1 end.

(** ** Addresses (system/BAddr.h) *)

Definition B_COMPARE (a b : Z) : Z := (if b <? a then 1 else 0) - (if a <? b then 1 else 0).

Definition BAddr_Assert (a : BAddr) : outcome unit :=
  ASSERT ((ba_type a =? BADDR_TYPE_NONE) || (ba_type a =? BADDR_TYPE_IPV4) || (ba_type a =? BADDR_TYPE_IPV6)).

Definition BAddr_CompareOrder (a1 a2 : BAddr) : outcome Z :=
  BAddr_Assert a1;; BAddr_Assert a2;;
  let cmp := B_COMPARE (ba_type a1) (ba_type a2) in
  if negb (cmp =? 0) then Ret cmp
  else if (ba_type a1 =? BADDR_TYPE_IPV4) || (ba_type a1 =? BADDR_TYPE_IPV6) then
    let cmp := B_COMPARE (be_val (ba_ip a1)) (be_val (ba_ip a2)) in
    Ret (if negb (cmp =? 0) then cmp else B_COMPARE (be_val (ba_port a1)) (be_val (ba_port a2)))
  else Ret 0.

Record conaddr := mkca { ca_local : BAddr; ca_remote : BAddr }.
#[global] Instance baddr_eq_dec : EqDecision BAddr.
Proof. solve_decision. Defined.
#[global] Instance conaddr_eq_dec : EqDecision conaddr.
Proof. solve_decision. Defined.

(** ** Connections and the structures that link them *)

Section tables.
Context {C : Type}.
Implicit Types h : gmap nat C.

(** BAVL_LookupExact; [cmp] compares the key with that of a node. *)
Fixpoint tree_lookup h (cmp : C -> outcome Z) (tree : list nat) : outcome (option nat) :=
  match tree with
  | [] => Ret None
  | p :: rest => c ← deref (h !! p); r ← cmp c; if r =? 0 then Ret (Some p) else tree_lookup h cmp rest
  end.
(** ASSERT_EXECUTE(BAVL_Insert(...)) *)
Definition tree_insert h (cmp : C -> outcome Z) (tree : list nat) (p : nat) : outcome (list nat) :=
  r ← tree_lookup h cmp tree; ASSERT (bool_decide (r = None));; Ret (p :: tree).

(** BAVL_Remove and LinkedList1_Remove. *)
Definition unlink (p : nat) (l : list nat) : list nat := filter (fun x => x <> p) l.
(** To the end of the list. *)
Definition used_last (p : nat) (l : list nat) : list nat := unlink p l ++ [p].

End tables.

(** ** UdpGwClient *)

(** [c_first_job]: the first packet waits to be sent.  Its bytes stay in the
    buffer of the caller ([first_data] is a pointer): only their number is part
    of the connection. *)
Record connection := mkcon {
  c_conaddr : conaddr;
  c_first_flags : Z;
  c_first_data_len : Z;
  c_first_job : bool;
  c_conid : Z
}.

Record UdpGwClient := mkug {
  u_udp_mtu : Z;
  u_max_connections : Z;
  u_udpgw_mtu : Z;
  u_heap : gmap nat connection;
  u_by_conaddr : list nat;
  u_by_conid : list nat;
  u_list : list nat;
  u_num_connections : Z;
  u_next_conid : Z;
  u_keepalive_sending : bool;
  u_have_server : bool
}.
Implicit Types o : UdpGwClient.

Definition u_set_table o (h : gmap nat connection) (t1 t2 l : list nat) (n : Z) : UdpGwClient :=
  mkug (u_udp_mtu o) (u_max_connections o) (u_udpgw_mtu o) h t1 t2 l n (u_next_conid o) (u_keepalive_sending o) (u_have_server o).
Definition u_set_heap o (h : gmap nat connection) : UdpGwClient := u_set_table o h (u_by_conaddr o) (u_by_conid o) (u_list o) (u_num_connections o).
Definition u_set_list o (l : list nat) : UdpGwClient := u_set_table o (u_heap o) (u_by_conaddr o) (u_by_conid o) l (u_num_connections o).
Definition u_set_next o (x : Z) : UdpGwClient :=
  mkug (u_udp_mtu o) (u_max_connections o) (u_udpgw_mtu o) (u_heap o) (u_by_conaddr o) (u_by_conid o) (u_list o) (u_num_connections o) x (u_keepalive_sending o) (u_have_server o).
Definition u_set_flags o (keepalive server : bool) : UdpGwClient :=
  mkug (u_udp_mtu o) (u_max_connections o) (u_udpgw_mtu o) (u_heap o) (u_by_conaddr o) (u_by_conid o) (u_list o) (u_num_connections o) (u_next_conid o) keepalive server.

Definition uint16_comparator (x : Z) (c : connection) : outcome Z := Ret (B_COMPARE x (c_conid c)).
Definition conaddr_comparator (a : conaddr) (c : connection) : outcome Z :=
  r ← BAddr_CompareOrder (ca_remote a) (ca_remote (c_conaddr c));
  if negb (r =? 0) then Ret r else BAddr_CompareOrder (ca_local a) (ca_local (c_conaddr c)).

Definition find_connection_by_conaddr o (a : conaddr) : outcome (option nat) := tree_lookup (u_heap o) (conaddr_comparator a) (u_by_conaddr o).
Definition find_connection_by_conid o (id : Z) : outcome (option nat) := tree_lookup (u_heap o) (uint16_comparator id) (u_by_conid o).

(** while (1); the ids in use are fewer than [max_connections], so as many
    rounds are enough. *)
Fixpoint find_unused_loop (fuel : nat) o : outcome (UdpGwClient * Z) :=
  match fuel with
  | O => Abort
  | S fuel' =>
      r ← find_connection_by_conid o (u16 (u_next_conid o));
      match r with
      | None => Ret (o, u16 (u_next_conid o))
      | Some _ => find_unused_loop fuel' (u_set_next o (if u_next_conid o =? u_max_connections o - 1 then 0 else u_next_conid o + 1))
      end
  end.
Definition find_unused_conid o : outcome (UdpGwClient * Z) :=
  ASSERT (u_num_connections o <? u_max_connections o);; find_unused_loop (Z.to_nat (u_max_connections o)) o.

(** [malloc] is the new structure, [flow] whether PacketProtoFlow_Init succeeds. *)
Definition connection_init o (a : conaddr) (flags : Z) (data : bytes) (malloc : option nat) (flow : bool) : outcome UdpGwClient :=
  ASSERT (u_num_connections o <? u_max_connections o);;
  r ← find_connection_by_conaddr o a; ASSERT (bool_decide (r = None));;
  ASSERT (zlen data <=? u_udp_mtu o);;
  match malloc with
  | None => Ret o
  | Some p =>
      '(o, conid) ← find_unused_conid o;
      if negb flow then Ret o
      else
        let c := mkcon a flags (zlen data) true conid in
        let h := <[p := c]> (u_heap o) in
        t1 ← tree_insert (u_heap o) (conaddr_comparator a) (u_by_conaddr o) p;
        t2 ← tree_insert (u_heap o) (uint16_comparator conid) (u_by_conid o) p;
        Ret (u_set_table o h t1 t2 (u_list o ++ [p]) (u_num_connections o + 1))
  end.

Definition connection_free o (p : nat) : outcome UdpGwClient :=
  _ ← deref (u_heap o !! p);
  Ret (u_set_table o (delete p (u_heap o)) (unlink p (u_by_conaddr o)) (unlink p (u_by_conid o)) (unlink p (u_list o)) (u_num_connections o - 1)).

(** [slot]: BufferWriter_StartPacket gives a buffer of [udpgw_mtu] bytes.  The
    result is the packet, [None] when it is dropped. *)
Definition connection_send o (p : nat) (flags : Z) (data : bytes) (slot : bool) : outcome (option bytes) :=
  c ← deref (u_heap o !! p);
  ASSERT (zlen data <=? u_udp_mtu o);;
  if negb slot then Ret None
  else
    let remote := ca_remote (c_conaddr c) in
    let flags := if ba_type remote =? BADDR_TYPE_IPV6 then Z.lor flags UDPGW_CLIENT_FLAG_IPV6 else flags in
    let addr := if (ba_type remote =? BADDR_TYPE_IPV4) || (ba_type remote =? BADDR_TYPE_IPV6) then ba_ip remote ++ ba_port remote else [] in
    let out := [u8 flags] ++ le_bytes 2 (c_conid c) ++ addr ++ data in
    if zlen out <=? u_udpgw_mtu o then Ret (Some out) else Fault.

(** [first_data]: what the caller's buffer holds when the job runs. *)
Definition connection_first_job_handler o (p : nat) (first_data : bytes) (slot : bool) : outcome (UdpGwClient * option bytes) :=
  c ← deref (u_heap o !! p);
  let o := u_set_heap o (<[p := mkcon (c_conaddr c) (c_first_flags c) (c_first_data_len c) false (c_conid c)]> (u_heap o)) in
  if zlen first_data <? c_first_data_len c then Fault
  else
    out ← connection_send o p (Z.lor UDPGW_CLIENT_FLAG_REBIND (c_first_flags c)) (take (Z.to_nat (c_first_data_len c)) first_data) slot;
    Ret (o, out).

Definition reuse_connection o (a : conaddr) : outcome (UdpGwClient * nat) :=
  r ← find_connection_by_conaddr o a; ASSERT (bool_decide (r = None));;
  ASSERT (0 <? u_num_connections o);;
  p ← deref (head (u_list o));
  c ← deref (u_heap o !! p);
  let t := unlink p (u_by_conaddr o) in
  let h := <[p := mkcon a (c_first_flags c) (c_first_data_len c) (c_first_job c) (c_conid c)]> (u_heap o) in
  t ← tree_insert h (conaddr_comparator a) t p;
  Ret (u_set_table o h t (u_by_conid o) (u_list o) (u_num_connections o), p).

(** [queue]: PacketPassFairQueue_Init succeeds. *)
Definition UdpGwClient_Init (udp_mtu max_connections send_buffer_size : Z) (queue : bool) : outcome (option UdpGwClient) :=
  ASSERT (0 <=? udp_mtu);; ASSERT (0 <=? udpgw_compute_mtu udp_mtu);; ASSERT (udpgw_compute_mtu udp_mtu <=? 65535);;
  ASSERT (0 <? max_connections);; ASSERT (0 <? send_buffer_size);;
  let max_connections := if 65536 <? max_connections then 65536 else max_connections in
  Ret (if queue then Some (mkug udp_mtu max_connections (udpgw_compute_mtu udp_mtu) ∅ [] [] [] 0 0 false false) else None).

(** The packet that is sent at once, with its connection; a new connection
    sends its first packet in its job. *)
Definition UdpGwClient_SubmitPacket o (local remote : BAddr) (is_dns : bool) (data : bytes) (malloc : option nat) (flow slot : bool)
  : outcome (UdpGwClient * option (nat * bytes)) :=
  ASSERT ((ba_type local =? BADDR_TYPE_IPV4) || (ba_type local =? BADDR_TYPE_IPV6));;
  ASSERT ((ba_type remote =? BADDR_TYPE_IPV4) || (ba_type remote =? BADDR_TYPE_IPV6));;
  ASSERT (zlen data <=? u_udp_mtu o);;
  let a := mkca local remote in
  con ← find_connection_by_conaddr o a;
  let flags := if is_dns then UDPGW_CLIENT_FLAG_DNS else 0 in
  '(o, con, flags) ← (if bool_decide (con = None) && (u_num_connections o =? u_max_connections o)
                      then '(o, p) ← reuse_connection o a; Ret (o, Some p, Z.lor flags UDPGW_CLIENT_FLAG_REBIND)
                      else Ret (o, con, flags));
  match con with
  | None => o ← connection_init o a flags data malloc flow; Ret (o, None)
  | Some p =>
      let o := u_set_list o (used_last p (u_list o)) in
      out ← connection_send o p flags data slot;
      Ret (o, match out with Some d => Some (p, d) | None => None end)
  end.

(** What is handed to the user: local address, remote address, data. *)
Definition recv_interface_handler_send o (data : bytes) : outcome (UdpGwClient * option (BAddr * BAddr * bytes)) :=
  ASSERT (u_have_server o);; ASSERT (zlen data <=? u_udpgw_mtu o);;
  if zlen data <? SIZEOF_udpgw_header then Ret (o, None)
  else
    let flags := be_val (slice data 0 1) in
    let conid := le_val (slice data 1 2) in
    let data := drop 3 data in
    let ipv6 := negb (Z.land flags UDPGW_CLIENT_FLAG_IPV6 =? 0) in
    let size := if ipv6 then SIZEOF_udpgw_addr_ipv6 else SIZEOF_udpgw_addr_ipv4 in
    if zlen data <? size then Ret (o, None)
    else
      let remote := mkaddr (if ipv6 then BADDR_TYPE_IPV6 else BADDR_TYPE_IPV4) (slice data 0 (size - 2)) (slice data (size - 2) 2) in
      let data := drop (Z.to_nat size) data in
      if u_udp_mtu o <? zlen data then Ret (o, None)
      else
        con ← find_connection_by_conid o conid;
        match con with
        | None => Ret (o, None)
        | Some p =>
            c ← deref (u_heap o !! p);
            r ← BAddr_CompareOrder (ca_remote (c_conaddr c)) remote;
            if negb (r =? 0) then Ret (o, None)
            else Ret (u_set_list o (used_last p (u_list o)), Some (ca_local (c_conaddr c), ca_remote (c_conaddr c), data))
        end.

(** The packet of the keepalive timer, if none is under way. *)
Definition send_monitor_handler o : UdpGwClient * option bytes :=
  if u_keepalive_sending o then (o, None)
  else (u_set_flags o true (u_have_server o), Some (le_bytes 2 SIZEOF_udpgw_header ++ [UDPGW_CLIENT_FLAG_KEEPALIVE; 0; 0])).
Definition keepalive_if_handler_done o : outcome UdpGwClient :=
  ASSERT (u_keepalive_sending o);; Ret (u_set_flags o false (u_have_server o)).

(** [decoder]: PacketProtoDecoder_Init succeeds. *)
Definition UdpGwClient_ConnectServer o (decoder : bool) : outcome (UdpGwClient * bool) :=
  ASSERT (negb (u_have_server o));; if decoder then Ret (u_set_flags o (u_keepalive_sending o) true, true) else Ret (o, false).
Definition UdpGwClient_DisconnectServer o : outcome UdpGwClient :=
  ASSERT (u_have_server o);; Ret (u_set_flags o (u_keepalive_sending o) false).

(** Freeing the connections, first to last. *)
Fixpoint free_connections (fuel : nat) o : outcome UdpGwClient :=
  match u_list o, fuel with
  | [], _ => Ret o
  | _, O => Abort
  | p :: _, S fuel' => o ← connection_free o p; free_connections fuel' o
  end.
Definition UdpGwClient_Free o : outcome UdpGwClient := free_connections (length (u_list o)) o.

(** ** What happens to a client *)

Inductive ug_event :=
| EvSubmit (local remote : BAddr) (is_dns : bool) (data : bytes) (malloc : option nat) (flow slot : bool)
| EvJob (p : nat) (first_data : bytes) (slot : bool)
| EvReceive (data : bytes)
| EvConnect (decoder : bool) | EvDisconnect | EvTimer | EvKeepaliveDone.

(** A packet for the queue of a connection, the keepalive packet, a datagram
    for the user. *)
Inductive ug_output := OutNone | OutSend (data : bytes) | OutKeepalive (data : bytes) | OutUser (local remote : BAddr) (data : bytes).

Definition ug_step o (e : ug_event) : outcome (UdpGwClient * ug_output) :=
  match e with
  | EvSubmit local remote is_dns data malloc flow slot =>
      '(o, r) ← UdpGwClient_SubmitPacket o local remote is_dns data malloc flow slot;
      Ret (o, match r with Some (_, d) => OutSend d | None => OutNone end)
  | EvJob p first_data slot =>
      '(o, r) ← connection_first_job_handler o p first_data slot; Ret (o, match r with Some d => OutSend d | None => OutNone end)
  | EvReceive data =>
      '(o, r) ← recv_interface_handler_send o data; Ret (o, match r with Some (l, r, d) => OutUser l r d | None => OutNone end)
  | EvConnect decoder => '(o, _) ← UdpGwClient_ConnectServer o decoder; Ret (o, OutNone)
  | EvDisconnect => o ← UdpGwClient_DisconnectServer o; Ret (o, OutNone)
  | EvTimer => let '(o, r) := send_monitor_handler o in Ret (o, match r with Some d => OutKeepalive d | None => OutNone end)
  | EvKeepaliveDone => o ← keepalive_if_handler_done o; Ret (o, OutNone)
  end.

(** What callers keep to: addresses and datagrams of the device, memory from
    malloc that is not in use, handlers only for what is under way. *)
Definition ug_event_ok o (e : ug_event) : Prop :=
  match e with
  | EvSubmit local remote _ data malloc _ _ =>
      addr_wf local /\ addr_wf remote /\ zlen data <= u_udp_mtu o /\ match malloc with Some p => u_heap o !! p = None | None => True end
  | EvJob p first_data _ => exists c, u_heap o !! p = Some c /\ c_first_job c = true /\ c_first_data_len c <= zlen first_data
  | EvReceive data => u_have_server o = true /\ zlen data <= u_udpgw_mtu o /\ Forall is_byte data
  | EvConnect _ => u_have_server o = false
  | EvDisconnect => u_have_server o = true
  | EvTimer => True
  | EvKeepaliveDone => u_keepalive_sending o = true
  end.

(** The clients a run can reach, with the events of the run, last first. *)
Inductive ug_reach : UdpGwClient -> list ug_event -> Prop :=
| reach_init udp_mtu max size o : udp_mtu < 2 ^ 31 -> UdpGwClient_Init udp_mtu max size true = Ret (Some o) -> ug_reach o []
| reach_step o tr e o' out : ug_reach o tr -> ug_event_ok o e -> ug_step o e = Ret (o', out) -> ug_reach o' (e :: tr).

(** ** The specification: a table of connections in the order of use *)

Definition entry : Type := conaddr * Z.
Implicit Types t : list entry.

Fixpoint lru_id (a : conaddr) t : option Z :=
  match t with [] => None | (b, id) :: t' => if decide (b = a) then Some id else lru_id a t' end.
Fixpoint lru_addr (id : Z) t : option conaddr :=
  match t with [] => None | (a, x) :: t' => if decide (x = id) then Some a else lru_addr id t' end.
Definition lru_touch (e : entry) t : list entry := filter (fun x => x.1 <> e.1) t ++ [e].

(** A datagram and its table: the entry of its addresses is used; without one,
    the oldest entry is taken over when the table is full; else there is a new
    one with the id [fresh], when there is memory for it. *)
Definition lru_submit (max : Z) (a : conaddr) (fresh : option Z) t : list entry :=
  match lru_id a t, t with
  | Some id, _ => lru_touch (a, id) t
  | None, (_, id) :: t' => if zlen t =? max then t' ++ [(a, id)] else match fresh with Some id => t ++ [(a, id)] | None => t end
  | None, [] => match fresh with Some id => [(a, id)] | None => [] end
  end.

(** Flags and id of the packet that a datagram is sent in at once. *)
Definition lru_sent (max : Z) (a : conaddr) (flags : Z) t : option (Z * Z) :=
  match lru_id a t, t with
  | Some id, _ => Some (flags, id)
  | None, (_, id) :: _ => if zlen t =? max then Some (Z.lor flags UDPGW_CLIENT_FLAG_REBIND, id) else None
  | None, [] => None
  end.

(** Packets of the gateway protocol. *)
Definition gw_size (remote : BAddr) : Z := if ba_type remote =? BADDR_TYPE_IPV6 then SIZEOF_udpgw_addr_ipv6 else SIZEOF_udpgw_addr_ipv4.
Definition gw_packet (flags id : Z) (remote : BAddr) (data : bytes) : bytes :=
  [u8 (if ba_type remote =? BADDR_TYPE_IPV6 then Z.lor flags UDPGW_CLIENT_FLAG_IPV6 else flags)] ++ le_bytes 2 id ++ (ba_ip remote ++ ba_port remote) ++ data.
Definition gw_parse (data : bytes) : option (Z * BAddr * bytes) :=
  if zlen data <? SIZEOF_udpgw_header then None
  else
    let ipv6 := negb (Z.land (be_val (slice data 0 1)) UDPGW_CLIENT_FLAG_IPV6 =? 0) in
    let size := if ipv6 then SIZEOF_udpgw_addr_ipv6 else SIZEOF_udpgw_addr_ipv4 in
    let rest := drop 3 data in
    if zlen rest <? size then None
    else Some (le_val (slice data 1 2), mkaddr (if ipv6 then BADDR_TYPE_IPV6 else BADDR_TYPE_IPV4) (slice rest 0 (size - 2)) (slice rest (size - 2) 2), drop (Z.to_nat size) rest).

(** What the table says of a packet of the gateway. *)
Definition lru_receive (mtu : Z) (data : bytes) t : option (entry * bytes) :=
  match gw_parse data with
  | Some (id, remote, payload) =>
      match lru_addr id t with
      | Some a => if bool_decide (ca_remote a = remote) && (zlen payload <=? mtu) then Some ((a, id), payload) else None
      | None => None
      end
  | None => None
  end.

(** The steps of the table; [fresh] is the id that a new connection gets. *)
Definition sends (slot : bool) (remote : BAddr) (data : bytes) (r : option (Z * Z)) : ug_output :=
  match r with Some (flags, id) => if slot then OutSend (gw_packet flags id remote data) else OutNone | None => OutNone end.
Definition fresh_ok (max : Z) t (malloc : option nat) (flow : bool) (fresh : option Z) : Prop :=
  match fresh with Some id => 0 <= id < max /\ forall a, (a, id) ∉ t | None => malloc = None \/ flow = false end.

Inductive lru_step (max mtu : Z) t : ug_event -> list entry -> ug_output -> Prop :=
| lru_st_submit local remote is_dns data malloc flow slot fresh :
    (lru_id (mkca local remote) t = None -> zlen t < max -> fresh_ok max t malloc flow fresh) ->
    lru_step max mtu t (EvSubmit local remote is_dns data malloc flow slot) (lru_submit max (mkca local remote) fresh t)
      (sends slot remote data (lru_sent max (mkca local remote) (if is_dns then UDPGW_CLIENT_FLAG_DNS else 0) t))
| lru_st_job p first_data slot a id flags n :
    (a, id) ∈ t -> 0 <= n <= mtu ->
    lru_step max mtu t (EvJob p first_data slot) t
      (sends slot (ca_remote a) (take (Z.to_nat n) first_data) (Some (Z.lor UDPGW_CLIENT_FLAG_REBIND flags, id)))
| lru_st_deliver data e payload :
    lru_receive mtu data t = Some (e, payload) ->
    lru_step max mtu t (EvReceive data) (lru_touch e t) (OutUser (ca_local e.1) (ca_remote e.1) payload)
| lru_st_ignore data : lru_receive mtu data t = None -> lru_step max mtu t (EvReceive data) t OutNone
| lru_st_connect b : lru_step max mtu t (EvConnect b) t OutNone
| lru_st_disconnect : lru_step max mtu t EvDisconnect t OutNone
| lru_st_busy : lru_step max mtu t EvTimer t OutNone
| lru_st_keepalive : lru_step max mtu t EvTimer t (OutKeepalive [3; 0; UDPGW_CLIENT_FLAG_KEEPALIVE; 0; 0])
| lru_st_done : lru_step max mtu t EvKeepaliveDone t OutNone.

Definition ent (c : connection) : entry := (c_conaddr c, c_conid c).
Definition view_of (h : gmap nat connection) (l : list nat) : list entry := omap (fun p => ent <$> h !! p) l.
Definition view o : list entry := view_of (u_heap o) (u_list o).

(** ** Lookups *)

Lemma length_omap_le {A B} (f : A -> option B) (l : list A) : (length (omap f l) <= length l)%nat.
Proof. induction l as [|x l IH]; [done|]. change (omap f (x :: l)) with (match f x with Some y => y :: omap f l | None => omap f l end). destruct (f x); cbn [length]; lia. Qed.

Lemma B_COMPARE_0 a b : B_COMPARE a b = 0 <-> a = b.
Proof. unfold B_COMPARE. destruct (b <? a) eqn:E1, (a <? b) eqn:E2; lia. Qed.

Lemma be_val_inj a b : length a = length b -> Forall is_byte a -> Forall is_byte b -> be_val a = be_val b -> a = b.
Proof. intros Hl Ha Hb E. rewrite <- (be_bytes_val a Ha), <- (be_bytes_val b Hb), Hl. by f_equal. Qed.

Lemma compare_order_spec a b : addr_wf a -> addr_wf b -> exists r, BAddr_CompareOrder a b = Ret r /\ (r = 0 <-> a = b).
Proof.
  destruct a as [ta ia pa], b as [tb ib pb]. unfold addr_wf. cbn [ba_type ba_ip ba_port]. intros (Ha & Hpa & Hia & Hfa) (Hb & Hpb & Hib & Hfb).
  assert (Hassert : forall (t : Z) i p, (t = BADDR_TYPE_IPV4 /\ length i = 4%nat \/ t = BADDR_TYPE_IPV6 /\ length i = 16%nat) -> BAddr_Assert (mkaddr t i p) = Ret tt) by (intros t i p [[-> _]|[-> _]]; done).
  unfold BAddr_CompareOrder. rewrite !Hassert by done. cbn [mbind outcome_bind ba_type ba_ip ba_port]. destruct (B_COMPARE ta tb =? 0) eqn:Et; cbn [negb].
  2:{ eexists. split; [done|]. apply Z.eqb_neq in Et. rewrite B_COMPARE_0 in *. split; [done|]. by intros [= -> _ _]. }
  apply Z.eqb_eq in Et. rewrite B_COMPARE_0 in Et. subst tb. replace ((ta =? BADDR_TYPE_IPV4) || (ta =? BADDR_TYPE_IPV6)) with true by (destruct Ha as [[-> _]|[-> _]]; done).
  assert (Hl : length ia = length ib) by (destruct Ha as [[-> ->]|[-> ->]], Hb as [[? ->]|[? ->]]; done).
  eexists. split; [done|]. destruct (B_COMPARE (be_val ia) (be_val ib) =? 0) eqn:Ei; cbn [negb].
  - apply Z.eqb_eq in Ei. rewrite B_COMPARE_0 in Ei. apply be_val_inj in Ei; [|done..]. subst ib. rewrite B_COMPARE_0. split; [intros Ep; apply be_val_inj in Ep; [by subst|congruence|done..]|by intros [= ->]].
  - apply Z.eqb_neq in Ei. rewrite B_COMPARE_0 in *. split; [done|]. by intros [= -> _].
Qed.

Section lookups.
Context {C : Type} (h : gmap nat C) (cmp : C -> outcome Z) (P : C -> Prop).

Lemma tree_lookup_spec tree :
  (forall p, p ∈ tree -> exists c r, h !! p = Some c /\ cmp c = Ret r /\ (r = 0 <-> P c)) ->
  exists r, tree_lookup h cmp tree = Ret r /\
    match r with Some p => p ∈ tree /\ exists c, h !! p = Some c /\ P c | None => forall p c, p ∈ tree -> h !! p = Some c -> ~ P c end.
Proof.
  induction tree as [|x tree IH]; intros H; simpl; [by eexists; split; [done|]; intros p c Hp; apply elem_of_nil in Hp|].
  destruct (H x) as (c & r & Hc & Hr & Hp); [set_solver|]. rewrite Hc. cbn [deref mbind outcome_bind]. rewrite Hr. cbn [mbind outcome_bind]. destruct (r =? 0) eqn:E.
  - exists (Some x). split; [done|]. split; [set_solver|]. exists c. split; [done|]. apply Hp. lia.
  - destruct IH as (r' & -> & Hr'); [intros p Hin; apply H; set_solver|]. exists r'. split; [done|]. destruct r' as [p|].
    + destruct Hr' as [Hin Hex]. split; [set_solver|done].
    + intros p c' Hin Hc'. apply elem_of_cons in Hin as [->|Hin]; [|by eapply Hr']. rewrite Hc in Hc'. injection Hc' as <-. rewrite <- Hp. lia.
Qed.

Lemma tree_insert_spec tree p :
  (forall x, x ∈ tree -> exists c r, h !! x = Some c /\ cmp c = Ret r /\ (r = 0 <-> P c)) -> (forall x c, x ∈ tree -> h !! x = Some c -> ~ P c) ->
  tree_insert h cmp tree p = Ret (p :: tree).
Proof.
  intros H Hno. unfold tree_insert. destruct (tree_lookup_spec tree H) as (r & -> & Hr). cbn [mbind outcome_bind]. destruct r as [x|]; [|done].
  destruct Hr as (Hin & c & Hc & Hp). by destruct (Hno x c Hin Hc).
Qed.
End lookups.

Lemma elem_of_unlink p x l : x ∈ unlink p l <-> x ∈ l /\ x <> p.
Proof. unfold unlink. rewrite list_elem_of_filter. naive_solver. Qed.
Lemma unlink_NoDup p l : NoDup l -> NoDup (unlink p l).
Proof. apply NoDup_filter. Qed.
Lemma unlink_perm p l l' : l ≡ₚ l' -> unlink p l ≡ₚ unlink p l'.
Proof. unfold unlink. by intros ->. Qed.
Lemma unlink_absent p l : p ∉ l -> unlink p l = l.
Proof. intros Hp. induction l as [|x l IH]; [done|]. unfold unlink in *. rewrite filter_cons_True by set_solver. rewrite IH; [done|set_solver]. Qed.
Lemma unlink_cons_perm p l : NoDup l -> p ∈ l -> p :: unlink p l ≡ₚ l.
Proof.
  intros Hn Hp. apply list_elem_of_split in Hp as (l1 & l2 & ->). apply NoDup_app in Hn as (H1 & H2 & H3). apply NoDup_cons in H3 as [H3 H4].
  unfold unlink. rewrite filter_app, filter_cons_False by naive_solver. fold (unlink p l1) (unlink p l2). rewrite !unlink_absent; [|done|intros Hp; apply (H2 p Hp); set_solver].
  by rewrite Permutation_middle.
Qed.
Lemma used_last_perm p l : NoDup l -> p ∈ l -> used_last p l ≡ₚ l.
Proof. intros Hn Hp. unfold used_last. rewrite <- (unlink_cons_perm p l Hn Hp) at 2. by rewrite Permutation_app_comm. Qed.

(** ** The invariant of the connection table *)

Definition conaddr_ok (a : conaddr) : Prop := addr_wf (ca_local a) /\ addr_wf (ca_remote a).

Record con_ok (max mtu : Z) (c : connection) : Prop := {
  co_addr : conaddr_ok (c_conaddr c);
  co_conid : 0 <= c_conid c < max;
  co_first : 0 <= c_first_data_len c <= mtu
}.

Record ug_inv (o : UdpGwClient) : Prop := {
  ui_mtu : u_udpgw_mtu o = u_udp_mtu o + 22;
  ui_max : 0 < u_max_connections o <= 65536;
  ui_next : 0 <= u_next_conid o < u_max_connections o;
  ui_nodup : NoDup (u_list o);
  ui_heap : forall p, p ∈ u_list o <-> is_Some (u_heap o !! p);
  ui_tree1 : u_by_conaddr o ≡ₚ u_list o;
  ui_tree2 : u_by_conid o ≡ₚ u_list o;
  ui_num : u_num_connections o = zlen (u_list o) /\ u_num_connections o <= u_max_connections o;
  ui_cons : forall p c, u_heap o !! p = Some c -> con_ok (u_max_connections o) (u_udp_mtu o) c;
  ui_conids : forall p p' c c', u_heap o !! p = Some c -> u_heap o !! p' = Some c' -> c_conid c = c_conid c' -> p = p';
  ui_conaddrs : forall p p' c c', u_heap o !! p = Some c -> u_heap o !! p' = Some c' -> c_conaddr c = c_conaddr c' -> p = p'
}.

Lemma conaddr_cmp_spec a c : conaddr_ok a -> conaddr_ok (c_conaddr c) -> exists r, conaddr_comparator a c = Ret r /\ (r = 0 <-> c_conaddr c = a).
Proof.
  intros [H1 H2] [H3 H4]. unfold conaddr_comparator. destruct (compare_order_spec _ _ H2 H4) as (r & -> & Hr). cbn [mbind outcome_bind]. destruct (r =? 0) eqn:E; cbn [negb].
  - destruct (compare_order_spec _ _ H1 H3) as (r' & -> & Hr'). exists r'. split; [done|]. rewrite Hr'. assert (ca_remote a = ca_remote (c_conaddr c)) by (apply Hr; lia).
    destruct a, (c_conaddr c). cbn [ca_local ca_remote] in *. split; [by intros ->; subst|by intros [= -> ->]].
  - exists r. split; [done|]. split; [lia|]. intros <-. apply Hr. done.
Qed.

Section table.
Context (o : UdpGwClient) (Hi : ug_inv o).

Lemma in_tree1 p : p ∈ u_by_conaddr o <-> is_Some (u_heap o !! p).
Proof using Hi. rewrite <- (ui_heap _ Hi). by rewrite (ui_tree1 _ Hi). Qed.
Lemma in_tree2 p : p ∈ u_by_conid o <-> is_Some (u_heap o !! p).
Proof using Hi. rewrite <- (ui_heap _ Hi). by rewrite (ui_tree2 _ Hi). Qed.

Lemma nodes_by_conaddr a : conaddr_ok a ->
  forall p, p ∈ u_by_conaddr o -> exists c r, u_heap o !! p = Some c /\ conaddr_comparator a c = Ret r /\ (r = 0 <-> c_conaddr c = a).
Proof using Hi.
  intros Ha p Hp. apply in_tree1 in Hp as (c & Hc). destruct (conaddr_cmp_spec a c Ha) as (r & Hr & H0); [apply (co_addr _ _ _ (ui_cons _ Hi p c Hc))|]. by exists c, r.
Qed.
Lemma nodes_by_conid id :
  forall p, p ∈ u_by_conid o -> exists c r, u_heap o !! p = Some c /\ uint16_comparator id c = Ret r /\ (r = 0 <-> c_conid c = id).
Proof using Hi.
  intros p Hp. apply in_tree2 in Hp as (c & Hc). eexists c, _. split; [done|]. split; [done|]. rewrite B_COMPARE_0. split; congruence.
Qed.

Lemma find_conaddr_spec a : conaddr_ok a ->
  exists r, find_connection_by_conaddr o a = Ret r /\
    match r with Some p => exists c, u_heap o !! p = Some c /\ c_conaddr c = a | None => forall p c, u_heap o !! p = Some c -> c_conaddr c <> a end.
Proof using Hi.
  intros Ha. destruct (tree_lookup_spec (u_heap o) (conaddr_comparator a) (fun c => c_conaddr c = a) _ (nodes_by_conaddr a Ha)) as (r & Hr & H).
  exists r. split; [done|]. destruct r as [p|]; [apply H|]. intros p c Hc. apply (H p c); [apply in_tree1; by eexists|done].
Qed.
Lemma find_conid_spec id :
  exists r, find_connection_by_conid o id = Ret r /\
    match r with Some p => exists c, u_heap o !! p = Some c /\ c_conid c = id | None => forall p c, u_heap o !! p = Some c -> c_conid c <> id end.
Proof using Hi.
  destruct (tree_lookup_spec (u_heap o) (uint16_comparator id) (fun c => c_conid c = id) _ (nodes_by_conid id)) as (r & Hr & H).
  exists r. split; [done|]. destruct r as [p|]; [apply H|]. intros p c Hc. apply (H p c); [apply in_tree2; by eexists|done].
Qed.

(** The ids in use, and one that is not. *)
Definition conid_used (x : Z) : Prop := exists p c, u_heap o !! p = Some c /\ c_conid c = x.

Lemma some_conid_free : u_num_connections o < u_max_connections o -> exists x, 0 <= x < u_max_connections o /\ ~ conid_used x.
Proof using Hi.
  intros Hlt. set (ids := omap (fun p => c_conid <$> u_heap o !! p) (u_list o)).
  assert (Hids : forall x, x ∈ ids <-> conid_used x).
  { intros x. unfold ids. rewrite list_elem_of_omap. split.
    - intros (p & _ & Hx). apply fmap_Some in Hx as (c & Hc & ->). by exists p, c.
    - intros (p & c & Hc & <-). exists p. split; [apply (ui_heap _ Hi); by eexists|]. by rewrite Hc. }
  assert (Hlen : (length ids <= length (u_list o))%nat) by apply length_omap_le.
  destruct (ui_num _ Hi) as [Hn _]. pose proof (ui_max _ Hi) as Hmax. set (all := map Z.of_nat (seq 0 (Z.to_nat (u_max_connections o)))).
  destruct (decide (Forall (fun x => x ∈ ids) all)) as [Hall|Hno].
  - exfalso. assert (Hsub : all ⊆+ ids).
    { apply NoDup_submseteq; [unfold all; apply NoDup_fmap_2; [apply _|apply NoDup_seq]|]. intros x Hx. by rewrite Forall_forall in Hall; apply Hall. }
    apply submseteq_length in Hsub. unfold all in Hsub. rewrite length_map, length_seq in Hsub. lia.
  - apply not_Forall_Exists in Hno; [|apply _]. apply Exists_exists in Hno as (x & Hx & Hno). exists x. rewrite <- Hids. split; [|done].
    unfold all in Hx. apply list_elem_of_fmap in Hx as (n & -> & Hn'). apply elem_of_seq in Hn'. clear - Hmax Hn'. lia.
Qed.

End table.

(** The id that the loop looks at in round [j]. *)
Lemma find_unused_loop_ok o j fuel :
  ug_inv o -> ~ conid_used o ((u_next_conid o + Z.of_nat j) mod u_max_connections o) -> (j < fuel)%nat ->
  exists x, find_unused_loop fuel o = Ret (u_set_next o x, x) /\ 0 <= x < u_max_connections o /\ ~ conid_used o x.
Proof.
  revert o fuel. induction j as [|j IH]; intros o fuel Hi Hfree Hf; (destruct fuel as [|fuel]; [lia|]); cbn [find_unused_loop]; pose proof (ui_next _ Hi) as Hx; pose proof (ui_max _ Hi) as Hmax;
    (rewrite u16_small by lia); destruct (find_conid_spec o Hi (u_next_conid o)) as (r & -> & Hr); cbn [mbind outcome_bind].
  - rewrite Z.add_0_r, Z.mod_small in Hfree by lia. destruct r as [p|]; [destruct Hfree, Hr as (c & ? & ?); by exists p, c|]. exists (u_next_conid o). split; [by destruct o|]. done.
  - destruct r as [p|].
    2:{ exists (u_next_conid o). split; [by destruct o|]. split; [done|]. intros (p & c & Hc & Ec). by apply (Hr p c). }
    set (x' := if u_next_conid o =? u_max_connections o - 1 then 0 else u_next_conid o + 1). assert (Hx' : 0 <= x' < u_max_connections o) by (unfold x'; destruct (u_next_conid o =? u_max_connections o - 1) eqn:E; lia).
    assert (Hi' : ug_inv (u_set_next o x')) by (destruct Hi; by split).
    destruct (IH (u_set_next o x') fuel Hi') as (x & Hl & Hr' & Hu); [|lia|].
    + cbn [u_next_conid u_max_connections u_set_next]. replace ((x' + Z.of_nat j) mod u_max_connections o) with ((u_next_conid o + Z.of_nat (S j)) mod u_max_connections o); [exact Hfree|].
      unfold x'. destruct (u_next_conid o =? u_max_connections o - 1) eqn:E; [|f_equal; lia]. apply Z.eqb_eq in E. replace (u_next_conid o + Z.of_nat (S j)) with (0 + Z.of_nat j + 1 * u_max_connections o) by lia. apply Z.mod_add. lia.
    + exists x. split; [exact Hl|]. done.
Qed.

Lemma find_unused_ok o :
  ug_inv o -> u_num_connections o < u_max_connections o -> exists x, find_unused_conid o = Ret (u_set_next o x, x) /\ 0 <= x < u_max_connections o /\ ~ conid_used o x.
Proof.
  intros Hi Hlt. unfold find_unused_conid. rewrite (proj2 (Z.ltb_lt _ _) Hlt). cbn [ASSERT mbind outcome_bind]. destruct (some_conid_free o Hi Hlt) as (y & Hy & Hfree).
  pose proof (ui_next _ Hi) as Hx. set (j := (y - u_next_conid o) mod u_max_connections o). pose proof (Z.mod_pos_bound (y - u_next_conid o) (u_max_connections o) ltac:(lia)) as Hj. fold j in Hj.
  apply (find_unused_loop_ok o (Z.to_nat j)); [done| |lia]. rewrite Z2Nat.id by lia. unfold j. rewrite Z.add_mod_idemp_r by lia.
  replace (u_next_conid o + (y - u_next_conid o)) with y by lia. by rewrite Z.mod_small by lia.
Qed.

(** ** The table as the list of its entries *)

Lemma view_cons h p l : view_of h (p :: l) = match h !! p with Some c => ent c :: view_of h l | None => view_of h l end.
Proof. unfold view_of. change (omap ?f (p :: l)) with (match f p with Some y => y :: omap f l | None => omap f l end). cbv beta. by destruct (h !! p). Qed.
Lemma view_app h l l' : view_of h (l ++ l') = view_of h l ++ view_of h l'.
Proof. apply omap_app. Qed.
Lemma view_insert h p c l : p ∉ l -> view_of (<[p := c]> h) l = view_of h l.
Proof. induction l as [|x l IH]; intros Hp; [done|]. rewrite !view_cons, lookup_insert_ne by set_solver. by rewrite IH by set_solver. Qed.
Lemma view_same h p c c' l : h !! p = Some c -> ent c' = ent c -> view_of (<[p := c']> h) l = view_of h l.
Proof.
  intros Hc He. induction l as [|x l IH]; [done|]. rewrite !view_cons. destruct (decide (x = p)) as [->|Hne]; [rewrite lookup_insert_eq, Hc, He|rewrite lookup_insert_ne by done]; by rewrite IH.
Qed.
Lemma elem_of_view h l e : e ∈ view_of h l <-> exists p c, p ∈ l /\ h !! p = Some c /\ ent c = e.
Proof.
  unfold view_of. rewrite list_elem_of_omap. split.
  - intros (p & Hp & He). apply fmap_Some in He as (c & Hc & ->). by exists p, c.
  - intros (p & c & Hp & Hc & <-). exists p. by rewrite Hc.
Qed.
Lemma view_unlink h p c l :
  h !! p = Some c -> (forall p' c', h !! p' = Some c' -> c_conaddr c' = c_conaddr c -> p' = p) ->
  view_of h (unlink p l) = filter (fun x => x.1 <> c_conaddr c) (view_of h l).
Proof.
  intros Hc Hu. induction l as [|x l IH]; [done|]. unfold unlink in *. rewrite filter_cons, view_cons. destruct (decide (x <> p)) as [Hne|He].
  - rewrite view_cons, IH. destruct (h !! x) as [c'|] eqn:Hx; [|done]. rewrite filter_cons_True; [done|]. simpl. intros E. by apply Hne, (Hu x c').
  - apply dec_stable in He. subst x. rewrite Hc, IH. by rewrite filter_cons_False; [|naive_solver].
Qed.
Lemma view_length h l : (forall p, p ∈ l -> is_Some (h !! p)) -> length (view_of h l) = length l.
Proof.
  induction l as [|x l IH]; intros H; [done|]. rewrite view_cons. destruct (H x ltac:(set_solver)) as [c ->]. cbn [length]. rewrite IH; [done|set_solver].
Qed.

Lemma lru_id_Some a id t : lru_id a t = Some id -> (a, id) ∈ t.
Proof. induction t as [|[b x] t IH]; simpl; [done|]. destruct (decide (b = a)) as [->|]; [intros [= ->]|]; set_solver. Qed.
Lemma lru_id_None a id t : lru_id a t = None -> (a, id) ∉ t.
Proof. induction t as [|[b x] t IH]; simpl; [set_solver|]. destruct (decide (b = a)) as [->|]; [done|]. set_solver. Qed.
Lemma lru_addr_Some a id t : lru_addr id t = Some a -> (a, id) ∈ t.
Proof. induction t as [|[b x] t IH]; simpl; [done|]. destruct (decide (x = id)) as [->|]; [intros [= ->]|]; set_solver. Qed.
Lemma lru_addr_None a id t : lru_addr id t = None -> (a, id) ∉ t.
Proof. induction t as [|[b x] t IH]; simpl; [set_solver|]. destruct (decide (x = id)) as [->|]; [done|]. set_solver. Qed.

Section views.
Context (o : UdpGwClient) (Hi : ug_inv o).

Lemma view_in e : e ∈ view o <-> exists p c, u_heap o !! p = Some c /\ ent c = e.
Proof using Hi.
  unfold view. rewrite elem_of_view. split; [naive_solver|]. intros (p & c & Hc & He). exists p, c. split; [apply (ui_heap _ Hi); by eexists|done].
Qed.
Lemma view_num : zlen (view o) = u_num_connections o.
Proof using Hi. unfold view. rewrite view_length; [symmetry; apply (ui_num _ Hi)|]. intros p. apply (ui_heap _ Hi). Qed.

Lemma lru_id_view p c : u_heap o !! p = Some c -> lru_id (c_conaddr c) (view o) = Some (c_conid c).
Proof using Hi.
  intros Hc. destruct (lru_id (c_conaddr c) (view o)) as [id|] eqn:E.
  - apply lru_id_Some, view_in in E as (p' & c' & Hc' & [= Ha <-]). rewrite (ui_conaddrs _ Hi p' p c' c) in Hc' by done. congruence.
  - destruct (lru_id_None _ (c_conid c) _ E). apply view_in. by exists p, c.
Qed.
Lemma lru_addr_view p c : u_heap o !! p = Some c -> lru_addr (c_conid c) (view o) = Some (c_conaddr c).
Proof using Hi.
  intros Hc. destruct (lru_addr (c_conid c) (view o)) as [a|] eqn:E.
  - apply lru_addr_Some, view_in in E as (p' & c' & Hc' & [= <- Hid]). rewrite (ui_conids _ Hi p' p c' c) in Hc' by done. congruence.
  - destruct (lru_addr_None (c_conaddr c) _ _ E). apply view_in. by exists p, c.
Qed.

Lemma find_conaddr_view a : conaddr_ok a ->
  exists r, find_connection_by_conaddr o a = Ret r /\
    match r with Some p => exists c, u_heap o !! p = Some c /\ c_conaddr c = a /\ lru_id a (view o) = Some (c_conid c)
               | None => lru_id a (view o) = None /\ forall p c, u_heap o !! p = Some c -> c_conaddr c <> a end.
Proof using Hi.
  intros Ha. destruct (find_conaddr_spec o Hi a Ha) as (r & Hr & H). exists r. split; [done|]. destruct r as [p|].
  - destruct H as (c & Hc & <-). exists c. by rewrite (lru_id_view p c Hc).
  - split; [|done]. destruct (lru_id a (view o)) as [id|] eqn:E; [|done]. apply lru_id_Some, view_in in E as (p & c & Hc & [= Hca _]). by destruct (H p c).
Qed.
Lemma find_conid_view id :
  exists r, find_connection_by_conid o id = Ret r /\
    match r with Some p => exists c, u_heap o !! p = Some c /\ c_conid c = id /\ lru_addr id (view o) = Some (c_conaddr c)
               | None => lru_addr id (view o) = None end.
Proof using Hi.
  destruct (find_conid_spec o Hi id) as (r & Hr & H). exists r. split; [done|]. destruct r as [p|].
  - destruct H as (c & Hc & <-). exists c. by rewrite (lru_addr_view p c Hc).
  - destruct (lru_addr id (view o)) as [a|] eqn:E; [|done]. apply lru_addr_Some, view_in in E as (p & c & Hc & [= _ Hca]). by destruct (H p c).
Qed.

(** Using a connection: it goes to the end of the list. *)
Lemma touch_inv p c : u_heap o !! p = Some c -> ug_inv (u_set_list o (used_last p (u_list o))).
Proof using Hi.
  intros Hc. pose proof Hi as [H1 H2 H3 H4 H5 H6 H7 H8 H9 H10 H11]. assert (Hp : used_last p (u_list o) ≡ₚ u_list o) by (apply used_last_perm; [done|]; apply H5; by eexists).
  split; cbn [u_set_list u_set_table u_list u_heap u_by_conaddr u_by_conid u_num_connections u_udpgw_mtu u_udp_mtu u_max_connections u_next_conid]; try done; try (by rewrite Hp). intros x. by rewrite Hp.
Qed.
Lemma touch_view p c : u_heap o !! p = Some c -> view (u_set_list o (used_last p (u_list o))) = lru_touch (ent c) (view o).
Proof using Hi.
  intros Hc. unfold view, used_last, lru_touch. cbn [u_set_list u_set_table u_list u_heap]. rewrite view_app, (view_unlink _ p c); [|done|].
  - rewrite view_cons, Hc. done.
  - intros p' c' Hc' He. by apply (ui_conaddrs _ Hi p' p c' c).
Qed.

Lemma gw_packet_length flags id remote data : addr_wf remote -> zlen (gw_packet flags id remote data) = 3 + gw_size remote + zlen data.
Proof.
  intros ([[Ht Hl]|[Ht Hl]] & Hp & _); unfold gw_packet, gw_size, le_bytes; rewrite !length_app, Hl, Hp, Ht, length_rev, length_be_bytes; cbn [length Z.eqb BADDR_TYPE_IPV4 BADDR_TYPE_IPV6]; unfold SIZEOF_udpgw_addr_ipv4, SIZEOF_udpgw_addr_ipv6; cbn [Pos.eqb]; lia.
Qed.

Lemma connection_send_ok p c flags data slot : u_heap o !! p = Some c -> zlen data <= u_udp_mtu o ->
  connection_send o p flags data slot = Ret (if slot then Some (gw_packet flags (c_conid c) (ca_remote (c_conaddr c)) data) else None) /\
  zlen (gw_packet flags (c_conid c) (ca_remote (c_conaddr c)) data) <= u_udpgw_mtu o.
Proof using Hi.
  intros Hc Hd. destruct (co_addr _ _ _ (ui_cons _ Hi p c Hc)) as [_ Hr]. pose proof (gw_packet_length flags (c_conid c) _ data Hr) as Hlen. pose proof (ui_mtu _ Hi) as Hm.
  assert (Hfit : zlen (gw_packet flags (c_conid c) (ca_remote (c_conaddr c)) data) <= u_udpgw_mtu o) by (rewrite Hlen; unfold gw_size, SIZEOF_udpgw_addr_ipv4, SIZEOF_udpgw_addr_ipv6; destruct (_ =? _); lia).
  split; [|done]. unfold connection_send. rewrite Hc, (proj2 (Z.leb_le _ _) Hd). cbn [deref mbind outcome_bind ASSERT]. destruct slot; cbn [negb]; [|done].
  replace ((ba_type _ =? BADDR_TYPE_IPV4) || _) with true by (destruct Hr as ([[-> _]|[-> _]] & _); done). cbv zeta. fold (gw_packet flags (c_conid c) (ca_remote (c_conaddr c)) data).
  by rewrite (proj2 (Z.leb_le _ _) Hfit).
Qed.
End views.

Lemma filter_no_addr a t : (forall id, (a, id) ∉ t) -> filter (fun x => x.1 <> a) t = t.
Proof.
  induction t as [|[b x] t IH]; intros H; [done|]. rewrite filter_cons_True; [f_equal; apply IH; set_solver|]. simpl. intros ->. apply (H x). set_solver.
Qed.

Ltac ug_simpl := cbn [u_set_list u_set_table u_set_next u_set_heap u_set_flags u_list u_heap u_by_conaddr u_by_conid u_num_connections u_udpgw_mtu u_udp_mtu u_max_connections u_next_conid u_have_server u_keepalive_sending] in *.

Lemma inv_ext o o' :
  ug_inv o -> u_udpgw_mtu o' = u_udpgw_mtu o -> u_udp_mtu o' = u_udp_mtu o -> u_max_connections o' = u_max_connections o -> 0 <= u_next_conid o' < u_max_connections o ->
  u_heap o' = u_heap o -> u_by_conaddr o' = u_by_conaddr o -> u_by_conid o' = u_by_conid o -> u_list o' = u_list o -> u_num_connections o' = u_num_connections o -> ug_inv o'.
Proof.
  intros [H1 H2 H3 H4 H5 H6 H7 H8 H9 H10 H11] E1 E2 E3 E4 E5 E6 E7 E8 E9. split; rewrite ?E1, ?E2, ?E3, ?E5, ?E6, ?E7, ?E8, ?E9; done.
Qed.

Lemma inv_flags o k b : ug_inv o -> ug_inv (u_set_flags o k b).
Proof. intros Hi. apply (inv_ext o); try done. apply (ui_next _ Hi). Qed.

Lemma udpgw_compute_mtu_eq m : 0 <= m -> udpgw_compute_mtu m <> -1 -> m < 2 ^ 31 -> udpgw_compute_mtu m = m + 22.
Proof.
  intros Hm. unfold udpgw_compute_mtu, bsize_fromint, bsize_toint, bsize_add, bsize_max, bsize_fromsize, SIZE_MAX, SIZEOF_socks_udp_header, SIZEOF_udpgw_addr_ipv4, SIZEOF_udpgw_addr_ipv6. cbn [is_overflow value].
  intros H Hlt. revert H. rewrite (u32_small m) by lia. replace (6 <? 18) with true by done. replace (18 <? 6) with false by done.
  rewrite !(u32_small (18 + m)), !(u32_small (4 + (18 + m))) by lia. destruct (_ || _); [done|]. intros _. lia.
Qed.

Lemma ug_init_inv udp_mtu max size queue o :
  udp_mtu < 2 ^ 31 -> UdpGwClient_Init udp_mtu max size queue = Ret (Some o) -> ug_inv o /\ view o = [] /\ u_have_server o = false /\ u_keepalive_sending o = false.
Proof.
  intros Hlt. unfold UdpGwClient_Init, ASSERT. destruct (0 <=? udp_mtu) eqn:E1; [|done]. destruct (0 <=? udpgw_compute_mtu udp_mtu) eqn:E2; [|done].
  destruct (udpgw_compute_mtu udp_mtu <=? 65535); [|done]. destruct (0 <? max) eqn:E3; [|done]. destruct (0 <? size); [|done]. cbn [mbind outcome_bind]. destruct queue; [|done]. intros [= <-].
  split; [|done]. split; ug_simpl; try done.
  - apply udpgw_compute_mtu_eq; lia.
  - destruct (65536 <? max) eqn:E; lia.
  - destruct (65536 <? max) eqn:E; lia.
  - constructor.
  - intros p. rewrite lookup_empty. split; [set_solver|]. by intros [? ?].
  - split; [done|]. cbn. destruct (65536 <? max) eqn:E; lia.
Qed.

(** A new connection in the tables. *)
Lemma insert_inv o p c :
  ug_inv o -> u_heap o !! p = None -> u_num_connections o < u_max_connections o -> con_ok (u_max_connections o) (u_udp_mtu o) c ->
  (forall q d, u_heap o !! q = Some d -> c_conaddr d <> c_conaddr c) -> ~ conid_used o (c_conid c) ->
  ug_inv (u_set_table o (<[p := c]> (u_heap o)) (p :: u_by_conaddr o) (p :: u_by_conid o) (u_list o ++ [p]) (u_num_connections o + 1)).
Proof.
  intros [H1 H2 H3 H4 H5 H6 H7 H8 H9 H10 H11] Hp Hn Hc Ha Hid. assert (Hnp : p ∉ u_list o) by (rewrite H5, Hp; by intros [? ?]).
  split; ug_simpl; try done.
  - apply NoDup_app. split; [done|]. split; [|apply NoDup_singleton]. intros x Hx Hx'. apply list_elem_of_singleton in Hx'. by subst x.
  - intros x. rewrite elem_of_app, list_elem_of_singleton, H5. destruct (decide (x = p)) as [->|Hne]; [rewrite lookup_insert_eq; naive_solver|rewrite lookup_insert_ne by done; naive_solver].
  - rewrite H6. apply Permutation_cons_append.
  - rewrite H7. apply Permutation_cons_append.
  - rewrite length_app. cbn [length]. lia.
  - intros q d. rewrite lookup_insert_Some. intros [[<- <-]|[_ Hd]]; [done|by eapply H9].
  - intros q q' d d'. rewrite !lookup_insert_Some. intros [[<- <-]|[Hq Hd]] [[<- <-]|[Hq' Hd']] E; [done|destruct Hid; by exists q', d'|destruct Hid; by exists q, d|by eapply H10].
  - intros q q' d d'. rewrite !lookup_insert_Some. intros [[<- <-]|[Hq Hd]] [[<- <-]|[Hq' Hd']] E; [done|by destruct (Ha q' d')|by destruct (Ha q d)|by eapply H11].
Qed.

(** ** The operations *)

Section operations.
Context (o : UdpGwClient) (Hi : ug_inv o).

Lemma connection_init_ok a flags data malloc flow :
  conaddr_ok a -> lru_id a (view o) = None -> u_num_connections o < u_max_connections o -> zlen data <= u_udp_mtu o ->
  match malloc with Some p => u_heap o !! p = None | None => True end ->
  exists o' fresh, connection_init o a flags data malloc flow = Ret o' /\ ug_inv o' /\ u_max_connections o' = u_max_connections o /\ u_udp_mtu o' = u_udp_mtu o /\
    (u_have_server o' = u_have_server o /\ u_keepalive_sending o' = u_keepalive_sending o) /\
    fresh_ok (u_max_connections o) (view o) malloc flow fresh /\
    view o' = match fresh with Some id => view o ++ [(a, id)] | None => view o end /\
    (forall p id, malloc = Some p -> fresh = Some id -> u_heap o' !! p = Some (mkcon a flags (zlen data) true id)).
Proof using Hi.
  intros Ha Hl Hn Hd Hm. destruct (find_conaddr_view o Hi a Ha) as (r & Hr & Hfind). destruct r as [p|]; [naive_solver congruence|]. destruct Hfind as [_ Hno].
  unfold connection_init. rewrite (proj2 (Z.ltb_lt _ _) Hn), Hr, (proj2 (Z.leb_le _ _) Hd). cbn [ASSERT mbind outcome_bind bool_decide].
  destruct malloc as [p|]; [|exists o, None; split_and!; [done..|by left|done|done]].
  destruct (find_unused_ok o Hi Hn) as (id & Hu & Hid & Hfree). rewrite Hu. cbn [mbind outcome_bind].
  assert (Hi' : ug_inv (u_set_next o id)) by (by apply (inv_ext o)). destruct flow; cbn [negb]; [|exists (u_set_next o id), None; split_and!; [done..|by right|done|done]].
  assert (Hfa : forall a', (a', id) ∉ view o) by (intros a' Hin; apply view_in in Hin as (q & c & Hc & [= _ Hq]); [|done]; apply Hfree; by exists q, c).
  ug_simpl. rewrite (tree_insert_spec (u_heap o) (conaddr_comparator a) (fun c => c_conaddr c = a)); [|apply (nodes_by_conaddr o Hi a Ha)|intros x c _; apply Hno]. cbn [mbind outcome_bind].
  rewrite (tree_insert_spec (u_heap o) (uint16_comparator id) (fun c => c_conid c = id)); [|apply (nodes_by_conid o Hi id)|intros x c _ Hc E; apply Hfree; by exists x, c]. cbn [mbind outcome_bind].
  eexists _, (Some id). split; [done|]. split; [|split_and!; [done..| |]].
  - apply (insert_inv (u_set_next o id) p (mkcon a flags (zlen data) true id)); [done..| |done|done]. split; cbn [c_conaddr c_conid c_first_data_len]; [done|done|ug_simpl; lia].
  - unfold view. ug_simpl. rewrite view_app, view_insert; [|rewrite (ui_heap _ Hi), Hm; by intros [? ?]]. by rewrite view_cons, lookup_insert_eq.
  - intros q x [= <-] [= <-]. ug_simpl. by rewrite lookup_insert_eq.
Qed.

Lemma reuse_connection_ok a :
  conaddr_ok a -> lru_id a (view o) = None -> u_num_connections o = u_max_connections o ->
  exists o' p c old id t, reuse_connection o a = Ret (o', p) /\ ug_inv o' /\ u_max_connections o' = u_max_connections o /\ u_udp_mtu o' = u_udp_mtu o /\ u_udpgw_mtu o' = u_udpgw_mtu o /\
    (u_have_server o' = u_have_server o /\ u_keepalive_sending o' = u_keepalive_sending o) /\
    u_heap o' !! p = Some c /\ ent c = (a, id) /\ view o = (old, id) :: t /\ view o' = (a, id) :: t.
Proof using Hi.
  intros Ha Hl Hn. destruct (find_conaddr_view o Hi a Ha) as (r & Hr & Hfind). destruct r as [p|]; [naive_solver congruence|]. destruct Hfind as [_ Hno].
  pose proof Hi as [H1 H2 H3 H4 H5 H6 H7 H8 H9 H10 H11]. unfold reuse_connection. rewrite Hr. cbn [ASSERT mbind outcome_bind bool_decide]. rewrite (proj2 (Z.ltb_lt 0 (u_num_connections o))) by lia.
  cbn [ASSERT mbind outcome_bind]. destruct (u_list o) as [|p l] eqn:El; [cbn in H8; lia|]. cbn [head deref mbind outcome_bind].
  destruct (proj1 (H5 p) ltac:(set_solver)) as [c Hc]. rewrite Hc. cbn [deref mbind outcome_bind]. set (c' := mkcon a _ _ _ _).
  assert (Hp1 : u_by_conaddr o ≡ₚ p :: l) by done. assert (Hpl : p ∉ l) by (by apply NoDup_cons in H4 as [? _]).
  assert (Hrest : forall x, x ∈ unlink p (u_by_conaddr o) -> x <> p /\ x ∈ l) by (intros x; rewrite elem_of_unlink, Hp1; set_solver).
  rewrite (tree_insert_spec _ _ (fun c => c_conaddr c = a)).
  2:{ intros x Hx. destruct (Hrest x Hx) as [Hne Hxl]. rewrite lookup_insert_ne by done. apply (nodes_by_conaddr o Hi a Ha). rewrite Hp1. set_solver. }
  2:{ intros x d Hx. destruct (Hrest x Hx) as [Hne Hxl]. rewrite lookup_insert_ne by done. apply Hno. }
  cbn [mbind outcome_bind]. eexists _, p, c', (c_conaddr c), (c_conid c), (view_of (u_heap o) l). split; [done|]. split; [|ug_simpl; split_and!; [done..| | | |]].
  - split; ug_simpl; rewrite ?El; try done.
    + intros x. rewrite H5. destruct (decide (x = p)) as [->|Hne]; [rewrite lookup_insert_eq, Hc; naive_solver|by rewrite lookup_insert_ne].
    + rewrite (unlink_perm p _ _ Hp1). unfold unlink. rewrite filter_cons_False by naive_solver. fold (unlink p l). by rewrite unlink_absent.
    + intros q d. rewrite lookup_insert_Some. intros [[<- <-]|[_ Hd]]; [destruct (H9 p c Hc); by split|by eapply H9].
    + intros q q' d d'. rewrite !lookup_insert_Some. intros [[<- <-]|[Hq Hd]] [[<- <-]|[Hq' Hd']] E; [done|by apply (H10 p q' c d')|by apply (H10 q p d c)|by eapply H10].
    + intros q q' d d'. rewrite !lookup_insert_Some. intros [[<- <-]|[Hq Hd]] [[<- <-]|[Hq' Hd']] E; [done|by destruct (Hno q' d')|by destruct (Hno q d)|by eapply H11].
  - by rewrite lookup_insert_eq.
  - done.
  - unfold view. by rewrite El, view_cons, Hc.
  - unfold view. ug_simpl. by rewrite view_cons, lookup_insert_eq, view_insert.
Qed.

Lemma ug_submit_ok local remote is_dns data malloc flow slot :
  ug_event_ok o (EvSubmit local remote is_dns data malloc flow slot) ->
  exists o' out, ug_step o (EvSubmit local remote is_dns data malloc flow slot) = Ret (o', out) /\ ug_inv o' /\
    (u_max_connections o' = u_max_connections o /\ u_udp_mtu o' = u_udp_mtu o /\ u_have_server o' = u_have_server o) /\
    (forall p, malloc = Some p -> flow = true -> slot = true -> out = OutNone -> exists flags id, u_heap o' !! p = Some (mkcon (mkca local remote) flags (zlen data) true id)) /\
    lru_step (u_max_connections o) (u_udp_mtu o) (view o) (EvSubmit local remote is_dns data malloc flow slot) (view o') out.
Proof using Hi.
  intros (Hl & Hr & Hd & Hm). set (a := mkca local remote). assert (Ha : conaddr_ok a) by done. unfold ug_step, UdpGwClient_SubmitPacket.
  replace ((ba_type local =? BADDR_TYPE_IPV4) || (ba_type local =? BADDR_TYPE_IPV6)) with true by (destruct Hl as ([[-> _]|[-> _]] & _); done).
  replace ((ba_type remote =? BADDR_TYPE_IPV4) || (ba_type remote =? BADDR_TYPE_IPV6)) with true by (destruct Hr as ([[-> _]|[-> _]] & _); done).
  rewrite (proj2 (Z.leb_le _ _) Hd). cbn [ASSERT mbind outcome_bind]. fold a. set (flags := if is_dns then UDPGW_CLIENT_FLAG_DNS else 0).
  destruct (find_conaddr_view o Hi a Ha) as (r & -> & Hfind). cbn [mbind outcome_bind]. destruct r as [p|].
  - destruct Hfind as (c & Hc & Hca & Hid). rewrite (bool_decide_eq_false_2 (Some p = None)) by done. cbn [andb mbind outcome_bind]. set (o1 := u_set_list o _).
    assert (Hi1 : ug_inv o1) by (by apply (touch_inv o Hi p c)).
    destruct (connection_send_ok o1 Hi1 p c flags data slot) as [-> _]; [done..|]. cbn [mbind outcome_bind]. eexists _, _. split; [done|]. split; [done|]. split; [done|]. split; [by intros q _ _ ->|].
    unfold o1. rewrite (touch_view o Hi p c Hc). replace (lru_touch (ent c) (view o)) with (lru_submit (u_max_connections o) a None (view o)) by (unfold lru_submit, ent; by rewrite Hid, Hca).
    replace (match _ with Some (_, d) => OutSend d | None => OutNone end) with (sends slot remote data (lru_sent (u_max_connections o) a flags (view o))).
    2:{ unfold lru_sent. rewrite Hid. unfold sends. destruct slot; [|done]. by rewrite Hca. }
    constructor. fold a. by rewrite Hid.
  - destruct Hfind as [Hid Hno]. replace (bool_decide (None = None)) with true by done. cbn [andb]. pose proof (view_num o Hi) as Hvn. destruct (u_num_connections o =? u_max_connections o) eqn:Efull.
    + apply Z.eqb_eq in Efull. destruct (reuse_connection_ok a Ha Hid Efull) as (o1 & p & c & old & id & t & -> & Hi1 & Hmax & Hmtu & Hmtu2 & [Hs _] & Hc & He & Hv & Hv1). cbn [mbind outcome_bind].
      set (o2 := u_set_list o1 _). assert (Hi2 : ug_inv o2) by (by apply (touch_inv o1 Hi1 p c)).
      destruct (connection_send_ok o2 Hi2 p c (Z.lor flags UDPGW_CLIENT_FLAG_REBIND) data slot) as [-> _]; [done|by unfold o2; ug_simpl; rewrite Hmtu|]. cbn [mbind outcome_bind].
      eexists _, _. split; [done|]. split; [done|]. split; [by unfold o2; ug_simpl|]. split; [by intros q _ _ ->|]. injection He as Hca Hcid.
      assert (Hnot : forall x, (a, x) ∉ t) by (intros x Hx; apply (lru_id_None a x _ Hid); rewrite Hv; set_solver).
      replace (view o2) with (lru_submit (u_max_connections o) a None (view o)).
      2:{ unfold o2. rewrite (touch_view o1 Hi1 p c Hc), Hv1. unfold lru_submit, lru_touch, ent. rewrite Hid, Hv. rewrite Hv in Hvn. rewrite Hvn, Efull, Z.eqb_refl. cbn [fst]. rewrite Hca, Hcid.
          rewrite filter_cons_False by naive_solver. by rewrite filter_no_addr. }
      replace (match _ with Some (_, d) => OutSend d | None => OutNone end) with (sends slot remote data (lru_sent (u_max_connections o) a flags (view o))).
      2:{ unfold lru_sent. rewrite Hid, Hv. rewrite Hv in Hvn. rewrite Hvn, Efull, Z.eqb_refl. unfold sends. destruct slot; [|done]. by rewrite Hca, Hcid. }
      constructor. intros _ Hlt. lia.
    + cbn [mbind outcome_bind]. apply Z.eqb_neq in Efull. pose proof (ui_num _ Hi) as [_ Hle].
      destruct (connection_init_ok a flags data malloc flow Ha Hid ltac:(lia) Hd Hm) as (o1 & fresh & -> & Hi1 & Hmax & Hmtu & [Hs _] & Hf & Hv & Hnew). cbn [mbind outcome_bind].
      eexists _, _. split; [done|]. split; [done|]. split; [done|].
      split; [intros p -> -> _ _; destruct fresh as [id|]; [by eauto|by destruct Hf]|].
      assert (Hnf : (zlen (view o) =? u_max_connections o) = false) by lia.
      replace (view o1) with (lru_submit (u_max_connections o) a fresh (view o)).
      2:{ rewrite Hv. unfold lru_submit. rewrite Hid. destruct (view o) as [|[old x] t] eqn:Ev; [by destruct fresh|]. by rewrite Hnf. }
      replace OutNone with (sends slot remote data (lru_sent (u_max_connections o) a flags (view o))); [by constructor|].
      unfold lru_sent. rewrite Hid. destruct (view o) as [|[old x] t]; [done|]. by rewrite Hnf.
Qed.

Lemma gw_remote_wf id remote payload data : Forall is_byte data -> gw_parse data = Some (id, remote, payload) -> addr_wf remote.
Proof.
  intros Hb. unfold gw_parse. destruct (zlen data <? _) eqn:E; [done|]. set (v6 := negb _). destruct (zlen (drop 3 data) <? _) eqn:E2; [done|]. intros [= <- <- <-].
  pose proof (Forall_drop _ 3 _ Hb) as Hb'. unfold addr_wf. cbn [ba_type ba_ip ba_port].
  split_and!; [destruct v6; [right|left]; (split; [done|]); apply Nat2Z.inj; rewrite zlen_slice; unfold SIZEOF_udpgw_addr_ipv4, SIZEOF_udpgw_addr_ipv6 in *; lia| |by apply Forall_slice..].
  apply Nat2Z.inj. rewrite zlen_slice; [done|destruct v6; done..|lia].
Qed.

Lemma receive_ok data :
  ug_event_ok o (EvReceive data) ->
  exists o' out, ug_step o (EvReceive data) = Ret (o', out) /\ ug_inv o' /\
    (u_max_connections o' = u_max_connections o /\ u_udp_mtu o' = u_udp_mtu o /\ u_have_server o' = u_have_server o) /\
    lru_step (u_max_connections o) (u_udp_mtu o) (view o) (EvReceive data) (view o') out.
Proof using Hi.
  intros (Hs & Hlen & Hb). unfold ug_step, recv_interface_handler_send. replace (ASSERT (u_have_server o)) with (Ret tt) by (by rewrite Hs). rewrite (proj2 (Z.leb_le _ _) Hlen). cbn [ASSERT mbind outcome_bind].
  assert (Hignore : lru_receive (u_udp_mtu o) data (view o) = None -> exists o' out, Ret (o, OutNone) = Ret (o', out) /\ ug_inv o' /\
    (u_max_connections o' = u_max_connections o /\ u_udp_mtu o' = u_udp_mtu o /\ u_have_server o' = u_have_server o) /\
    lru_step (u_max_connections o) (u_udp_mtu o) (view o) (EvReceive data) (view o') out) by (intros H; exists o, OutNone; split_and!; [done..|by constructor]).
  pose proof (gw_remote_wf) as Hwf. specialize (fun i r p => Hwf i r p data Hb). unfold lru_receive in *. unfold gw_parse in *.
  destruct (zlen data <? SIZEOF_udpgw_header) eqn:E1; [by apply Hignore|]. set (v6 := negb _) in *. set (size := if v6 then _ else _) in *.
  destruct (zlen (drop 3 data) <? size) eqn:E2; [by apply Hignore|]. specialize (Hwf _ _ _ eq_refl). set (remote := mkaddr _ _ _) in *. set (payload := drop (Z.to_nat size) _) in *. set (id := le_val _) in *.
  destruct (find_conid_view o Hi id) as (r & Hfind & Hr). destruct (u_udp_mtu o <? zlen payload) eqn:E3.
  { apply Hignore. destruct (lru_addr id (view o)) as [a|]; [|done]. rewrite (proj2 (Z.leb_gt _ _)) by lia. by rewrite andb_false_r. }
  rewrite Hfind. cbn [mbind outcome_bind]. destruct r as [p|]; [|apply Hignore; by rewrite Hr]. destruct Hr as (c & Hc & Hcid & Hla). rewrite Hc. cbn [deref mbind outcome_bind].
  destruct (co_addr _ _ _ (ui_cons _ Hi p c Hc)) as [_ Hrw]. destruct (compare_order_spec _ _ Hrw Hwf) as (x & -> & Hx). cbn [mbind outcome_bind]. rewrite Hla in Hignore.
  destruct (x =? 0) eqn:E0; cbn [negb].
  - apply Z.eqb_eq, Hx in E0. eexists _, _. split; [done|]. split; [by apply (touch_inv o Hi p c)|]. split; [done|]. rewrite (touch_view o Hi p c Hc), E0.
    unfold ent. rewrite Hcid. rewrite <- E0 at 1. apply (lru_st_deliver _ _ _ data (c_conaddr c, id) payload). unfold lru_receive, gw_parse. rewrite E1. fold v6. fold size. rewrite E2. fold remote payload id.
    rewrite Hla, (bool_decide_eq_true_2 _ E0), (proj2 (Z.leb_le _ _)) by lia. done.
  - apply Hignore. rewrite bool_decide_eq_false_2; [done|]. rewrite <- Hx. lia.
Qed.

Lemma job_sends p c first_data slot :
  u_heap o !! p = Some c -> c_first_data_len c <= zlen first_data ->
  exists o', ug_step o (EvJob p first_data slot) =
      Ret (o', sends slot (ca_remote (c_conaddr c)) (take (Z.to_nat (c_first_data_len c)) first_data) (Some (Z.lor UDPGW_CLIENT_FLAG_REBIND (c_first_flags c), c_conid c))) /\
    ug_inv o' /\ view o' = view o /\ (u_max_connections o' = u_max_connections o /\ u_udp_mtu o' = u_udp_mtu o /\ u_have_server o' = u_have_server o).
Proof using Hi.
  intros Hc Hlen. unfold ug_step, connection_first_job_handler. rewrite Hc. cbn [deref mbind outcome_bind]. rewrite (proj2 (Z.ltb_ge _ _) Hlen).
  set (c' := mkcon _ _ _ _ _). set (o1 := u_set_heap o _). pose proof (ui_cons _ Hi p c Hc) as [Ha Hid Hf].
  assert (Hi1 : ug_inv o1).
  { destruct Hi as [H1 H2 H3 H4 H5 H6 H7 H8 H9 H10 H11]. unfold o1. split; ug_simpl; try done.
    - intros x. rewrite H5. destruct (decide (x = p)) as [->|Hne]; [rewrite lookup_insert_eq, Hc; naive_solver|by rewrite lookup_insert_ne].
    - intros q d. rewrite lookup_insert_Some. intros [[<- <-]|[_ Hd]]; [by split|by eapply H9].
    - intros q q' d d'. rewrite !lookup_insert_Some. intros [[<- <-]|[Hq Hd]] [[<- <-]|[Hq' Hd']] E; [done|by apply (H10 p q' c d')|by apply (H10 q p d c)|by eapply H10].
    - intros q q' d d'. rewrite !lookup_insert_Some. intros [[<- <-]|[Hq Hd]] [[<- <-]|[Hq' Hd']] E; [done|by apply (H11 p q' c d')|by apply (H11 q p d c)|by eapply H11]. }
  destruct (connection_send_ok o1 Hi1 p c' (Z.lor UDPGW_CLIENT_FLAG_REBIND (c_first_flags c)) (take (Z.to_nat (c_first_data_len c)) first_data) slot) as [-> _].
  { unfold o1. ug_simpl. by rewrite lookup_insert_eq. }
  { rewrite length_take. unfold o1. ug_simpl. lia. }
  cbn [mbind outcome_bind]. exists o1. split; [by destruct slot|]. split; [done|]. split; [|done]. unfold view, o1. ug_simpl. by rewrite (view_same _ p c c').
Qed.

Lemma job_ok p first_data slot :
  ug_event_ok o (EvJob p first_data slot) ->
  exists o' out, ug_step o (EvJob p first_data slot) = Ret (o', out) /\ ug_inv o' /\
    (u_max_connections o' = u_max_connections o /\ u_udp_mtu o' = u_udp_mtu o /\ u_have_server o' = u_have_server o) /\
    lru_step (u_max_connections o) (u_udp_mtu o) (view o) (EvJob p first_data slot) (view o') out.
Proof using Hi.
  intros (c & Hc & _ & Hlen). destruct (job_sends p c first_data slot Hc Hlen) as (o' & Hs & Hi' & Hv & Hf). eexists o', _. split; [done|]. split; [done|]. split; [done|]. rewrite Hv.
  apply lru_st_job; [|apply (co_first _ _ _ (ui_cons _ Hi p c Hc))]. apply view_in; [done|]. by exists p, c.
Qed.

(** The packets of the table fit into the buffers. *)
Lemma lru_send_fits e t' d : ug_event_ok o e -> lru_step (u_max_connections o) (u_udp_mtu o) (view o) e t' (OutSend d) -> zlen d <= u_udpgw_mtu o.
Proof using Hi.
  intros He Hst. pose proof (ui_mtu _ Hi) as Hm.
  assert (Hfit : forall flags id remote data, addr_wf remote -> zlen data <= u_udp_mtu o -> zlen (gw_packet flags id remote data) <= u_udpgw_mtu o).
  { intros flags id remote data Hr Hd. rewrite (gw_packet_length flags id remote data Hr). unfold gw_size, SIZEOF_udpgw_addr_ipv4, SIZEOF_udpgw_addr_ipv6. destruct (_ =? _); lia. }
  inversion Hst as [local remote is_dns data malloc flow slot fresh Hf Ee Et Eo|p first_data slot a id flags n Hin Hn Ee Et Eo| | | | | | |]; subst.
  - destruct He as (_ & Hr & Hd & _). unfold sends in Eo. destruct (lru_sent _ _ _ _) as [[f x]|]; [|done]. destruct slot; [|done]. injection Eo as <-. by apply Hfit.
  - apply view_in in Hin as (q & c & Hc & [= <- _]); [|done]. destruct (co_addr _ _ _ (ui_cons _ Hi q c Hc)) as [_ Hr]. unfold sends in Eo. destruct slot; [|done]. injection Eo as <-.
    apply Hfit; [done|]. rewrite length_take. lia.
Qed.

(** Every call that is allowed returns, keeps the tables and does what the
    table of entries does. *)
Definition server_after e (b : bool) : bool := match e with EvConnect true => true | EvDisconnect => false | _ => b end.

Lemma ug_step_ok e :
  ug_event_ok o e ->
  exists o' out, ug_step o e = Ret (o', out) /\ ug_inv o' /\
    (u_max_connections o' = u_max_connections o /\ u_udp_mtu o' = u_udp_mtu o /\ u_have_server o' = server_after e (u_have_server o)) /\
    lru_step (u_max_connections o) (u_udp_mtu o) (view o) e (view o') out.
Proof using Hi.
  destruct e as [local remote is_dns data malloc flow slot|p first_data slot|data|b| | |]; intros He.
  - destruct (ug_submit_ok _ _ _ _ _ _ _ He) as (o' & out & ? & ? & ? & _ & ?). by exists o', out.
  - by apply job_ok.
  - by apply receive_ok.
  - cbn in He. unfold ug_step, UdpGwClient_ConnectServer. rewrite He. cbn [negb ASSERT mbind outcome_bind].
    destruct b; (eexists _, _; split; [done|]; split; [|split; [|constructor]]); try done. by apply inv_flags.
  - cbn in He. unfold ug_step, UdpGwClient_DisconnectServer. rewrite He. cbn [negb ASSERT mbind outcome_bind].
    eexists _, _; split; [done|]; split; [|split; [done|constructor]]. by apply inv_flags.
  - unfold ug_step, send_monitor_handler. destruct (u_keepalive_sending o); (eexists _, _; split; [done|]; split; [|split; [done|constructor]]); [done|]. by apply inv_flags.
  - cbn in He. unfold ug_step, keepalive_if_handler_done. rewrite He. cbn [negb ASSERT mbind outcome_bind].
    eexists _, _; split; [done|]; split; [|split; [done|constructor]]. by apply inv_flags.
Qed.
End operations.

(** ** Runs *)

Lemma ug_reach_inv o tr : ug_reach o tr -> ug_inv o.
Proof.
  induction 1 as [m max size o Hm Hinit|o tr e o' out _ IH He Hs]; [by eapply ug_init_inv|]. destruct (ug_step_ok o IH e He) as (o1 & out1 & Hs1 & Hi & _). rewrite Hs in Hs1. by injection Hs1 as <- <-.
Qed.

Lemma lru_touch_in x e t : e ∈ t -> x ∈ lru_touch e t -> x ∈ t.
Proof. unfold lru_touch. rewrite elem_of_app, list_elem_of_filter, list_elem_of_singleton. intros He [[_ Hx]| ->]; done. Qed.
Lemma lru_submit_in max a fresh t b id : (b, id) ∈ lru_submit max a fresh t -> (exists id', (b, id') ∈ t) \/ b = a.
Proof.
  unfold lru_submit. destruct (lru_id a t) as [x|] eqn:E.
  - intros H. left. exists id. by apply (lru_touch_in _ (a, x)); [apply lru_id_Some|].
  - destruct t as [|[c y] t]; [destruct fresh; set_solver|]. destruct (_ =? max); [|destruct fresh]; rewrite ?elem_of_app, ?elem_of_cons; set_solver.
Qed.

Lemma lru_receive_in mtu data t e payload : lru_receive mtu data t = Some (e, payload) -> e ∈ t.
Proof.
  unfold lru_receive. destruct (gw_parse data) as [[[id remote] d]|]; [|done]. destruct (lru_addr id t) as [a|] eqn:E; [|done]. destruct (_ && _); [|done]. intros [= <- <-]. by apply lru_addr_Some.
Qed.

(** The addresses in the table are those of datagrams of the run. *)
Definition submitted (tr : list ug_event) (a : conaddr) : Prop :=
  exists is_dns data malloc flow slot, EvSubmit (ca_local a) (ca_remote a) is_dns data malloc flow slot ∈ tr.

Lemma lru_receive_bytes mtu data t e payload : Forall is_byte data -> lru_receive mtu data t = Some (e, payload) -> Forall is_byte payload.
Proof.
  intros Hb. unfold lru_receive, gw_parse. destruct (zlen data <? _); [done|]. destruct (zlen (drop 3 data) <? _); [done|]. destruct (lru_addr _ t); [|done]. destruct (_ && _); [|done].
  intros [= _ <-]. by apply Forall_drop, Forall_drop.
Qed.

Lemma lru_step_in max mtu t e t' out a id :
  lru_step max mtu t e t' out -> (a, id) ∈ t' ->
  (exists id', (a, id') ∈ t) \/ exists is_dns data malloc flow slot, e = EvSubmit (ca_local a) (ca_remote a) is_dns data malloc flow slot.
Proof.
  destruct 1 as [local remote is_dns data malloc flow slot fresh| |data x payload Hrec| | | | | |]; intros Hin; try (left; by exists id).
  - apply lru_submit_in in Hin as [Hin| ->]; [by left|]. right. by exists is_dns, data, malloc, flow, slot.
  - left. exists id. by apply (lru_touch_in _ x); [eapply lru_receive_in|].
Qed.

Lemma view_submitted o tr : ug_reach o tr -> forall a id, (a, id) ∈ view o -> submitted tr a.
Proof.
  assert (Hmore : forall e tr a, submitted tr a -> submitted (e :: tr) a) by (intros e tr' a (d & x & m & f & sl & H); exists d, x, m, f, sl; set_solver).
  induction 1 as [m max size o Hm Hinit|o tr e o' out Hr IH He Hs]; intros a id Hin.
  { apply ug_init_inv in Hinit as (_ & Hv & _); [|done]. rewrite Hv in Hin. set_solver. }
  destruct (ug_step_ok o (ug_reach_inv _ _ Hr) e He) as (o1 & out1 & Hs1 & _ & _ & Hst). rewrite Hs in Hs1. injection Hs1 as <- <-.
  destruct (lru_step_in _ _ _ _ _ _ _ _ Hst Hin) as [[id' Hold]|(d & x & mm & f & sl & ->)]; [by eapply Hmore, IH|]. exists d, x, mm, f, sl. set_solver.
Qed.

Lemma byte_cases (P : Z -> bool) x : forallb P (seqZ 0 256) = true -> 0 <= x < 256 -> P x = true.
Proof. intros H Hx. rewrite forallb_forall in H. apply H, list_elem_of_In, elem_of_seqZ. lia. Qed.

Lemma flag_bit x : 0 <= x < 256 -> Z.land (u8 (Z.lor x UDPGW_CLIENT_FLAG_IPV6)) UDPGW_CLIENT_FLAG_IPV6 = 8.
Proof. intros Hx. apply Z.eqb_eq. by apply (byte_cases (fun x => Z.land (u8 (Z.lor x UDPGW_CLIENT_FLAG_IPV6)) UDPGW_CLIENT_FLAG_IPV6 =? 8)). Qed.

Lemma gw_parse_packet flags id remote payload :
  addr_wf remote -> 0 <= id < 65536 -> 0 <= flags < 256 -> Z.land flags UDPGW_CLIENT_FLAG_IPV6 = 0 ->
  gw_parse (gw_packet flags id remote payload) = Some (id, remote, payload).
Proof.
  intros Hr Hid Hf H8. pose proof (gw_packet_length flags id remote payload Hr) as Hlen. unfold gw_parse. rewrite (proj2 (Z.ltb_ge _ _)) by (rewrite Hlen; unfold SIZEOF_udpgw_header, gw_size, SIZEOF_udpgw_addr_ipv4, SIZEOF_udpgw_addr_ipv6; destruct (_ =? _); lia).
  unfold gw_packet. rewrite le_bytes_2. set (f := u8 _). change (slice ([f] ++ _) 0 1) with [f]. change (slice ([f] ++ _) 1 2) with [id mod 256; (id / 256) mod 256].
  change (drop 3 ([f] ++ _)) with ((ba_ip remote ++ ba_port remote) ++ payload). rewrite be_val_1, le_val_2.
  assert (Hv6 : negb (Z.land f UDPGW_CLIENT_FLAG_IPV6 =? 0) = (ba_type remote =? BADDR_TYPE_IPV6)).
  { unfold f. destruct (ba_type remote =? BADDR_TYPE_IPV6); [by rewrite flag_bit|]. unfold u8. by rewrite Z.mod_small, H8 by lia. }
  rewrite Hv6. cbv zeta. fold (gw_size remote). assert (Hip : zlen (ba_ip remote) = gw_size remote - 2 /\ zlen (ba_port remote) = 2).
  { destruct Hr as ([[Ht Hl]|[Ht Hl]] & Hp & _); unfold gw_size; rewrite Ht, Hl, Hp; done. }
  rewrite (proj2 (Z.ltb_ge _ _)) by (rewrite !length_app; lia). f_equal. f_equal; [f_equal|].
  - pose proof (Z.div_mod id 256). rewrite (Z.mod_small (id / 256)); [lia|]. split; [apply Z.div_pos; lia|apply Z.div_lt_upper_bound; lia].
  - rewrite <- app_assoc, slice_app_l by lia. rewrite slice_skip, (proj1 Hip), Z.sub_diag, slice_app_l by lia. destruct remote as [ty ip port]. unfold addr_wf in Hr. cbn [ba_type ba_ip ba_port] in *.
    f_equal. destruct Hr as ([[-> _]|[-> _]] & _); done.
  - rewrite drop_app_ge by (rewrite length_app; lia). by replace (Z.to_nat (gw_size remote) - length (ba_ip remote ++ ba_port remote))%nat with 0%nat by (rewrite length_app; lia).
Qed.

Lemma lru_id_app a id t : lru_id a t = None -> lru_id a (t ++ [(a, id)]) = Some id.
Proof. induction t as [|[b x] t IH]; simpl; [by rewrite decide_True|]. by destruct (decide (b = a)). Qed.
Lemma lru_id_filter a t : lru_id a (filter (fun x => x.1 <> a) t) = None.
Proof.
  induction t as [|[b x] t IH]; [done|]. rewrite filter_cons. destruct (decide (_ <> _)) as [H|H]; [|done]. simpl. destruct (decide (b = a)); [by destruct H|done].
Qed.

(** After a datagram its addresses are in the table, with the id of its packet. *)
Lemma lru_submit_has max a fresh t :
  (lru_id a t = None -> zlen t < max -> fresh <> None) -> zlen t <= max -> 0 < max ->
  exists id, lru_id a (lru_submit max a fresh t) = Some id /\ forall flags f id', lru_sent max a flags t = Some (f, id') -> id' = id.
Proof.
  intros Hf Hle Hm. unfold lru_submit, lru_sent, lru_touch. destruct (lru_id a t) as [id|] eqn:E.
  { exists id. split; [apply lru_id_app, lru_id_filter|]. by intros flags f id' [= _ <-]. }
  assert (Hnew : zlen t < max -> exists id, fresh = Some id) by (intros H; destruct fresh as [id|]; [by exists id|by destruct (Hf eq_refl H)]).
  destruct t as [|[b x] t]; [destruct (Hnew Hm) as [id ->]; exists id; simpl; by rewrite decide_True|]. destruct (_ =? max) eqn:Em.
  - exists x. split; [|by intros flags f id' [= _ <-]]. apply lru_id_app. simpl in E. by destruct (decide (b = a)).
  - destruct (Hnew ltac:(lia)) as [id ->]. exists id. split; [by apply lru_id_app|done].
Qed.

Lemma gw_packet_bytes flags id remote payload : addr_wf remote -> Forall is_byte payload -> Forall is_byte (gw_packet flags id remote payload).
Proof.
  intros (_ & _ & Hi & Hp) Hd. unfold gw_packet. rewrite !Forall_app. split_and!; try done; [|apply le_bytes_is_byte]. apply Forall_singleton. unfold u8, is_byte. apply Z.mod_pos_bound. lia.
Qed.

(** What the gateway returns for an entry of the table is handed over. *)
Lemma deliver_ok o a id flags payload :
  ug_inv o -> u_have_server o = true -> lru_id a (view o) = Some id -> 0 <= flags < 256 -> Z.land flags UDPGW_CLIENT_FLAG_IPV6 = 0 -> zlen payload <= u_udp_mtu o -> Forall is_byte payload ->
  exists o2, ug_step o (EvReceive (gw_packet flags id (ca_remote a) payload)) = Ret (o2, OutUser (ca_local a) (ca_remote a) payload).
Proof.
  intros Hi Hs Hid Hf H8 Hlen Hb. apply lru_id_Some, view_in in Hid as (p & c & Hc & [= <- <-]); [|done]. destruct (ui_cons _ Hi p c Hc) as [[_ Hr] Hcid _]. pose proof (ui_max _ Hi) as Hmax. pose proof (ui_mtu _ Hi) as Hmtu.
  destruct (receive_ok o Hi (gw_packet flags (c_conid c) (ca_remote (c_conaddr c)) payload)) as (o2 & out & Hst & _ & _ & Hlru).
  { split_and!; [done| |by apply gw_packet_bytes]. rewrite gw_packet_length by done. unfold gw_size, SIZEOF_udpgw_addr_ipv4, SIZEOF_udpgw_addr_ipv6. destruct (_ =? _); lia. }
  assert (Hrec : lru_receive (u_udp_mtu o) (gw_packet flags (c_conid c) (ca_remote (c_conaddr c)) payload) (view o) = Some (ent c, payload)).
  { unfold lru_receive. rewrite gw_parse_packet by (done || lia). rewrite (lru_addr_view o Hi p c Hc), bool_decide_eq_true_2, (proj2 (Z.leb_le _ _) Hlen) by done. done. }
  exists o2. rewrite Hst. inversion Hlru as [| |d e x Hrec' Ed Et Eo|d Hrec'| | | | |]; subst; rewrite Hrec in Hrec'; [|done]. by injection Hrec' as <- <-.
Qed.

(** C7. Every call that the callers of the gateway client may make returns:
    the search for an unused id ends, no assertion fails, no packet exceeds
    its buffer.  Tree, list and counter then still hold the same connections,
    and the client has done what a table of connections in the order of use
    does: a datagram uses the entry of its addresses, takes over the oldest
    when the table is full or gets a new one with an unused id; a packet of
    the gateway is handed over if the id and the remote address are those of
    an entry. *)
Theorem udpgw_refines_table o tr e :
  ug_reach o tr -> ug_event_ok o e ->
  exists o' out, ug_step o e = Ret (o', out) /\ ug_reach o' (e :: tr) /\ lru_step (u_max_connections o) (u_udp_mtu o) (view o) e (view o') out.
Proof.
  intros Hr He. destruct (ug_step_ok o (ug_reach_inv _ _ Hr) e He) as (o' & out & Hs & _ & _ & Hst). exists o', out. split; [done|]. split; [by eapply reach_step|done].
Qed.

(** Whatever the gateway sends, a datagram is handed only to a local
    address from which one was sent before to the remote address it names. *)
Theorem udpgw_only_to_senders o tr data o' local remote payload :
  ug_reach o tr -> ug_event_ok o (EvReceive data) -> ug_step o (EvReceive data) = Ret (o', OutUser local remote payload) ->
  submitted tr (mkca local remote) /\ zlen payload <= u_udp_mtu o.
Proof.
  intros Hr He Hs. destruct (ug_step_ok o (ug_reach_inv _ _ Hr) _ He) as (o1 & out1 & Hs1 & _ & _ & Hst). rewrite Hs in Hs1. injection Hs1 as <- <-.
  inversion Hst as [| |d e p Hrec Ed Et [El Er Ep]| | | | | |]. subst. split; [|].
  - destruct e as [[l r] id]. apply (view_submitted o tr Hr _ id). by eapply lru_receive_in.
  - unfold lru_receive in Hrec. destruct (gw_parse data) as [[[id remote] d]|]; [|done]. destruct (lru_addr id (view o)) as [a|]; [|done]. destruct (_ && _) eqn:Eb; [|done]. injection Hrec as <- <-. lia.
Qed.

(** Round trip: a datagram is sent to the gateway, at once or by the first
    job of its new connection, in a packet that names its remote address and an
    id; what the gateway returns with this id and this address is handed to
    the local address of the datagram. *)
Theorem udpgw_reply_roundtrip o tr local remote is_dns data p :
  ug_reach o tr -> u_have_server o = true -> ug_event_ok o (EvSubmit local remote is_dns data (Some p) true true) ->
  exists o1 out id, ug_step o (EvSubmit local remote is_dns data (Some p) true true) = Ret (o1, out) /\
    (exists flags, out = OutSend (gw_packet flags id remote data) \/
       out = OutNone /\ exists o2, ug_step o1 (EvJob p data true) = Ret (o2, OutSend (gw_packet flags id remote data))) /\
    forall flags payload, 0 <= flags < 256 -> Z.land flags UDPGW_CLIENT_FLAG_IPV6 = 0 -> zlen payload <= u_udp_mtu o -> Forall is_byte payload ->
      exists o2, ug_step o1 (EvReceive (gw_packet flags id remote payload)) = Ret (o2, OutUser local remote payload).
Proof.
  intros Hr Hsrv He. pose proof (ug_reach_inv _ _ Hr) as Hi. destruct (ug_submit_ok o Hi _ _ _ _ _ _ _ He) as (o1 & out & Hst & Hi1 & (Hmax1 & Hmtu1 & Hs1) & Hnew & Hlru).
  inversion Hlru as [l r d x m f sl fresh Hf El Ev Eo| | | | | | | |]. subst. clear Hlru. set (a := mkca local remote) in *. set (fl := if is_dns then _ else _) in *.
  pose proof (view_num o Hi) as Hn. pose proof (ui_num _ Hi) as [_ Hle]. pose proof (ui_max _ Hi) as Hmax.
  destruct (lru_submit_has (u_max_connections o) a fresh (view o)) as (id & Hid & Hsent); [|lia..|].
  { intros H1 H2. specialize (Hf H1 H2). destruct fresh; [done|]. by destruct Hf. }
  rewrite Ev in Hid. exists o1. eexists. exists id. split; [done|]. split.
  2:{ intros flags payload Hfl H8 Hp Hpb. apply (deliver_ok o1 a id flags payload Hi1); (done || congruence). }
  destruct (lru_sent (u_max_connections o) a fl (view o)) as [[f id']|] eqn:Es.
  { exists f. left. cbn. by rewrite (Hsent fl f id' Es). }
  destruct (Hnew p eq_refl eq_refl eq_refl eq_refl) as (fg & x & Hc). assert (x = id) as -> by (pose proof (lru_id_view o1 Hi1 p _ Hc) as H; cbn [c_conaddr c_conid] in H; fold a in H; congruence).
  exists (Z.lor UDPGW_CLIENT_FLAG_REBIND fg). right. split; [done|].
  destruct (job_sends o1 Hi1 p _ data true Hc) as (o2 & Hjob & _); [done|]. exists o2. rewrite Hjob. cbn [c_conaddr c_first_data_len c_first_flags c_conid sends ca_remote]. by rewrite Nat2Z.id, firstn_all.
Qed.

(** ** Freeing *)

Lemma connection_free_ok o p l : ug_inv o -> u_list o = p :: l -> exists o', connection_free o p = Ret o' /\ ug_inv o' /\ u_list o' = l.
Proof.
  intros [H1 H2 H3 H4 H5 H6 H7 H8 H9 H10 H11] El. destruct (proj1 (H5 p)) as [c Hc]; [rewrite El; set_solver|]. unfold connection_free. rewrite Hc. cbn [deref mbind outcome_bind].
  assert (Hl : unlink p (u_list o) = l).
  { rewrite El in *. apply NoDup_cons in H4 as [Hp _]. unfold unlink. rewrite filter_cons_False by naive_solver. fold (unlink p l). by apply unlink_absent. }
  eexists. split; [done|]. split; [|done]. split; ug_simpl; try done.
  - by apply unlink_NoDup.
  - intros x. rewrite elem_of_unlink, H5. destruct (decide (x = p)) as [->|Hne]; [rewrite lookup_delete_eq; split; [naive_solver|by intros [? ?]]|rewrite lookup_delete_ne by done; naive_solver].
  - by apply unlink_perm.
  - by apply unlink_perm.
  - rewrite Hl. rewrite El in H8. cbn [length] in H8. lia.
  - intros q d Hd. apply lookup_delete_Some in Hd as [_ Hd]. by eapply H9.
  - intros q q' d d' Hd Hd'. apply lookup_delete_Some in Hd as [_ Hd]. apply lookup_delete_Some in Hd' as [_ Hd']. by apply H10.
  - intros q q' d d' Hd Hd'. apply lookup_delete_Some in Hd as [_ Hd]. apply lookup_delete_Some in Hd' as [_ Hd']. by apply H11.
Qed.

(** Freeing the client releases every connection. *)
Lemma udpgw_free_ok o : ug_inv o -> exists o', UdpGwClient_Free o = Ret o' /\ u_heap o' = ∅ /\ u_num_connections o' = 0.
Proof.
  unfold UdpGwClient_Free. remember (u_list o) as l eqn:El. revert o El. induction l as [|p l IH]; intros o El Hi; cbn [length free_connections]; rewrite <- El.
  - exists o. split; [done|]. destruct (ui_num _ Hi) as [Hn _]. rewrite <- El in Hn. split; [|done]. apply map_empty. intros p. apply eq_None_not_Some. rewrite <- (ui_heap _ Hi), <- El. set_solver.
  - destruct (connection_free_ok o p l Hi (eq_sym El)) as (o' & -> & Hi' & El'). cbn [mbind outcome_bind]. by apply IH.
Qed.

(** ** A run *)

Definition ug_after o (e : ug_event) : UdpGwClient := match ug_step o e with Ret (o', _) => o' | _ => o end.
Lemma reach_after o tr e : ug_reach o tr -> ug_event_ok o e -> ug_reach (ug_after o e) (e :: tr).
Proof. intros Hr He. destruct (ug_step_ok o (ug_reach_inv _ _ Hr) e He) as (o' & out & Hs & _). unfold ug_after. rewrite Hs. by eapply reach_step. Qed.

(** Two local ports, a resolver and a gateway for two connections. *)
Definition host (port : Z) : BAddr := mkaddr BADDR_TYPE_IPV4 [10; 0; 0; 2] (be_bytes 2 port).
Definition peer (x : Z) : BAddr := mkaddr BADDR_TYPE_IPV4 [198; 51; 100; x] (be_bytes 2 4500).
Definition peer6 : BAddr := mkaddr BADDR_TYPE_IPV6 (be_bytes 16 1) (be_bytes 2 53).

Definition run_0 : UdpGwClient := mkug 1500 2 1522 ∅ [] [] [] 0 0 false false.
Definition run_1 : UdpGwClient := ug_after run_0 (EvConnect true).
Definition run_2 : UdpGwClient := ug_after run_1 (EvSubmit (host 1000) (peer 1) false [1; 2; 3] (Some 10%nat) true true).
Definition run_3 : UdpGwClient := ug_after run_2 (EvJob 10 [1; 2; 3] true).
Definition run_4 : UdpGwClient := ug_after run_3 (EvSubmit (host 1000) peer6 true [4; 5] (Some 11%nat) true true).
Definition run_trace : list ug_event :=
  [EvSubmit (host 1000) peer6 true [4; 5] (Some 11%nat) true true; EvJob 10 [1; 2; 3] true;
   EvSubmit (host 1000) (peer 1) false [1; 2; 3] (Some 10%nat) true true; EvConnect true].

Lemma host_wf port : addr_wf (host port).
Proof. split_and!; [by left|done| |apply be_bytes_is_byte]. repeat (apply Forall_cons; split); try (unfold is_byte in *; lia). constructor. Qed.
Lemma peer_wf x : is_byte x -> addr_wf (peer x).
Proof. intros Hx. split_and!; [by left|done| |apply be_bytes_is_byte]. repeat (apply Forall_cons; split); try (unfold is_byte in *; lia). constructor. Qed.
Lemma peer6_wf : addr_wf peer6.
Proof. split_and!; [by right|done|apply be_bytes_is_byte..]. Qed.

Lemma run_reach : ug_reach run_4 run_trace.
Proof.
  unfold run_trace, run_4, run_3, run_2, run_1. repeat apply reach_after; [by apply (reach_init 1500 2 1000)|done| | |].
  - split_and!; [apply host_wf|by apply peer_wf|done|done].
  - eexists. split; [by vm_compute|]. split; [done|]. by vm_compute.
  - split_and!; [apply host_wf|apply peer6_wf|done|by vm_compute].
Qed.
Lemma run_ok x : is_byte x -> ug_event_ok run_4 (EvSubmit (host 2000) (peer x) false [7] (Some 12%nat) true true).
Proof. intros Hx. split_and!; [apply host_wf|by apply peer_wf|by vm_compute|by vm_compute]. Qed.

(** The table is full: the third connection takes over the first. *)
Lemma udpgw_refines_table_witness :
  exists o' out, ug_step run_4 (EvSubmit (host 2000) (peer 7) false [7] (Some 12%nat) true true) = Ret (o', out) /\
    ug_reach o' (EvSubmit (host 2000) (peer 7) false [7] (Some 12%nat) true true :: run_trace) /\
    lru_step 2 1500 (view run_4) (EvSubmit (host 2000) (peer 7) false [7] (Some 12%nat) true true) (view o') out.
Proof. apply (udpgw_refines_table run_4 run_trace); [exact run_reach|apply run_ok; by unfold is_byte]. Defined.

Definition reply_1 : bytes := gw_packet 0 0 (peer 1) [9; 9].

Lemma udpgw_only_to_senders_witness :
  match ug_step run_4 (EvReceive reply_1) with
  | Ret (_, OutUser l r d) => (l, r, d) = (host 1000, peer 1, [9; 9]) /\ submitted run_trace (mkca l r) /\ zlen d <= 1500
  | _ => False
  end.
Proof.
  assert (Hok : ug_event_ok run_4 (EvReceive reply_1)).
  { split_and!; [by vm_compute|by vm_compute|]. apply gw_packet_bytes; [by apply peer_wf|]. repeat (apply Forall_cons; split); try (unfold is_byte in *; lia). constructor. }
  pose proof (fun o' l r d => udpgw_only_to_senders run_4 run_trace reply_1 o' l r d run_reach Hok) as H.
  destruct (ug_step run_4 (EvReceive reply_1)) as [[o' out]| |] eqn:E; [|by vm_compute in E..].
  assert (Ho : out = OutUser (host 1000) (peer 1) [9; 9]) by (vm_compute in E; by injection E as _ <-). rewrite Ho in *. split; [done|]. by apply (H o').
Defined.

Lemma udpgw_reply_roundtrip_witness :
  exists o1 out id, ug_step run_4 (EvSubmit (host 2000) (peer 7) false [7] (Some 12%nat) true true) = Ret (o1, out) /\
    (exists flags, out = OutSend (gw_packet flags id (peer 7) [7]) \/
       out = OutNone /\ exists o2, ug_step o1 (EvJob 12 [7] true) = Ret (o2, OutSend (gw_packet flags id (peer 7) [7]))) /\
    forall flags payload, 0 <= flags < 256 -> Z.land flags UDPGW_CLIENT_FLAG_IPV6 = 0 -> zlen payload <= 1500 -> Forall is_byte payload ->
      exists o2, ug_step o1 (EvReceive (gw_packet flags id (peer 7) payload)) = Ret (o2, OutUser (host 2000) (peer 7) payload).
Proof. apply (udpgw_reply_roundtrip run_4 run_trace); [exact run_reach|by vm_compute|apply run_ok; by unfold is_byte]. Defined.
