(* ===== verification/SocksUdpGw.v ===== *)
(** * The UDP gateway client behind a SOCKS server

    badvpn tun2socks/SocksUdpGwClient.c (the Android build): it keeps the SOCKS
    connection to the gateway up and passes datagrams to the UdpGwClient, but
    sends DNS queries itself, from one socket per local address, to the DNS
    gateway.

    Parameters: whether sockets, memory and buffers are available, the events
    of the SOCKS client.  The jobs of the reactor are kept as far as they are
    the first jobs of the DNS connections; [BPending_Set] puts a job first. *)

From S2P Require Import Prelude Buffer Proto SocksClient UdpGw.
From stdpp Require Import prelude gmap.
From Stdlib Require Import ZArith Lia ZifyBool.

Local Open Scope Z_scope.

(** ** Data *)

Record SocksUdpGwClient_connection := mkdc {
  d_conaddr : conaddr;
  d_first_data_len : Z;
  d_is_dns : bool;
  d_send_addr : BAddr
}.

(** [s_timer]: the reconnect timer runs; [s_jobs]: pending first jobs. *)
Record SocksUdpGwClient := mksg {
  s_udp_mtu : Z;
  s_socks_server_addr : BAddr;
  s_dnsgw : BAddr;
  s_udpgw_mtu : Z;
  s_num_connections : Z;
  s_max_connections : Z;
  s_heap : gmap nat SocksUdpGwClient_connection;
  s_tree : list nat;
  s_list : list nat;
  s_jobs : list nat;
  s_udpgw_client : UdpGwClient;
  s_timer : bool;
  s_have_socks : bool;
  s_socks_up : bool
}.
Implicit Types o : SocksUdpGwClient.

Definition s_set_table o (h : gmap nat SocksUdpGwClient_connection) (t l : list nat) (n : Z) (jobs : list nat) : SocksUdpGwClient :=
  mksg (s_udp_mtu o) (s_socks_server_addr o) (s_dnsgw o) (s_udpgw_mtu o) n (s_max_connections o) h t l jobs (s_udpgw_client o) (s_timer o) (s_have_socks o) (s_socks_up o).
Definition s_set_heap o (h : gmap nat SocksUdpGwClient_connection) : SocksUdpGwClient := s_set_table o h (s_tree o) (s_list o) (s_num_connections o) (s_jobs o).
Definition s_set_list o (l : list nat) : SocksUdpGwClient := s_set_table o (s_heap o) (s_tree o) l (s_num_connections o) (s_jobs o).
Definition s_set_jobs o (jobs : list nat) : SocksUdpGwClient := s_set_table o (s_heap o) (s_tree o) (s_list o) (s_num_connections o) jobs.
Definition s_set_socks o (u : UdpGwClient) (timer have up : bool) : SocksUdpGwClient :=
  mksg (s_udp_mtu o) (s_socks_server_addr o) (s_dnsgw o) (s_udpgw_mtu o) (s_num_connections o) (s_max_connections o) (s_heap o) (s_tree o) (s_list o) (s_jobs o) u timer have up.
Definition s_set_udpgw o (u : UdpGwClient) : SocksUdpGwClient := s_set_socks o u (s_timer o) (s_have_socks o) (s_socks_up o).

(** ** The DNS connections *)

Definition local_comparator (a : conaddr) (c : SocksUdpGwClient_connection) : outcome Z := BAddr_CompareOrder (ca_local a) (ca_local (d_conaddr c)).

(** The test of [is_dns] that follows the lookup needs a null connection and is
    never true. *)
Definition find_connection o (a : conaddr) : outcome (option nat) := tree_lookup (s_heap o) (local_comparator a) (s_tree o).

(** The first job is not freed. *)
Definition connection_free o (p : nat) : outcome SocksUdpGwClient :=
  _ ← deref (s_heap o !! p);
  Ret (s_set_table o (delete p (s_heap o)) (unlink p (s_tree o)) (unlink p (s_list o)) (s_num_connections o - 1) (s_jobs o)).

Definition remove_lru_connection o (a : conaddr) : outcome SocksUdpGwClient :=
  r ← find_connection o a; ASSERT (bool_decide (r = None));;
  ASSERT (0 <? s_num_connections o);;
  p ← deref (head (s_list o)); connection_free o p.

Definition reset_connection o (p : nat) (a : conaddr) (is_dns : bool) : outcome SocksUdpGwClient :=
  c ← deref (s_heap o !! p);
  Ret (s_set_heap o (<[p := mkdc a (d_first_data_len c) is_dns (d_send_addr c)]> (s_heap o))).

(** [slot]: BufferWriter_StartPacket gives a buffer of [udp_mtu] bytes.  The
    result: where the socket sends to, and the packet. *)
Definition connection_send o (p : nat) (data : bytes) (slot : bool) : outcome (option (BAddr * bytes)) :=
  c ← deref (s_heap o !! p);
  if negb slot then Ret None
  else
    let remote := ca_remote (d_conaddr c) in
    let header :=
      if d_is_dns c then []
      else [0; 0; 0; if ba_type remote =? BADDR_TYPE_IPV4 then SOCKS_ATYP_IPV4 else SOCKS_ATYP_IPV6] ++
           (if (ba_type remote =? BADDR_TYPE_IPV4) || (ba_type remote =? BADDR_TYPE_IPV6) then ba_ip remote ++ ba_port remote else []) in
    if zlen (header ++ data) <=? s_udp_mtu o then Ret (Some (d_send_addr c, header ++ data)) else Fault.

Definition connection_first_job_handler o (p : nat) (first_data : bytes) (slot : bool) : outcome (option (BAddr * bytes)) :=
  c ← deref (s_heap o !! p);
  if zlen first_data <? d_first_data_len c then Fault else connection_send o p (take (Z.to_nat (d_first_data_len c)) first_data) slot.

(** What malloc, BDatagram_Init, BDatagram_SetReuseAddr, PacketBuffer_Init and
    SinglePacketBuffer_Init return. *)
Record resources := mkres { r_malloc : option nat; r_dgram : bool; r_reuseaddr : bool; r_send_buffer : bool; r_recv_buffer : bool }.

Definition connection_init o (a : conaddr) (data : bytes) (is_dns : bool) (r : resources) : outcome SocksUdpGwClient :=
  match r_malloc r with
  | None => Ret o
  | Some p =>
      if negb (r_dgram r) then Ret o
      else if negb (r_reuseaddr r) then Ret o
      else
        let c := mkdc a (zlen data) is_dns (if is_dns then s_dnsgw o else s_socks_server_addr o) in
        if negb (r_send_buffer r) then Ret o
        else if negb (r_recv_buffer r) then Ret o
        else
          t ← tree_insert (s_heap o) (local_comparator a) (s_tree o) p;
          Ret (s_set_table o (<[p := c]> (s_heap o)) t (s_list o ++ [p]) (s_num_connections o + 1) (p :: s_jobs o))
  end.

(** A packet of the socket of [p]; what is handed to the user. *)
Definition dgram_handler_received o (p : nat) (data : bytes) : outcome (SocksUdpGwClient * option (BAddr * BAddr * bytes)) :=
  c ← deref (s_heap o !! p);
  ASSERT (zlen data <=? s_udpgw_mtu o);;
  let pass (o : SocksUdpGwClient) (a : conaddr) (data : bytes) :=
    if s_udp_mtu o <? zlen data then Ret (o, None) else Ret (o, Some (ca_local a, ca_remote a, data)) in
  if d_is_dns c then pass o (d_conaddr c) data
  else if zlen data <? SIZEOF_socks_udp_header then Ret (o, None)
  else
    let frag := be_val (slice data 2 1) in
    let atyp := be_val (slice data 3 1) in
    let data := drop 4 data in
    if negb (frag =? 0) then Ret (o, None)
    else
      let ipv6 := atyp =? SOCKS_ATYP_IPV6 in
      let size := if ipv6 then SIZEOF_udpgw_addr_ipv6 else SIZEOF_udpgw_addr_ipv4 in
      if zlen data <? size then Ret (o, None)
      else
        let remote := mkaddr (if ipv6 then BADDR_TYPE_IPV6 else BADDR_TYPE_IPV4) (slice data 0 (size - 2)) (slice data (size - 2) 2) in
        let a := mkca (ca_local (d_conaddr c)) remote in
        let o := s_set_heap o (<[p := mkdc a (d_first_data_len c) (d_is_dns c) (d_send_addr c)]> (s_heap o)) in
        pass o a (drop (Z.to_nat size) data).

(** ** The SOCKS connection to the gateway *)

Definition free_socks o : outcome SocksUdpGwClient :=
  ASSERT (s_have_socks o);;
  u ← (if s_socks_up o then UdpGwClient_DisconnectServer (s_udpgw_client o) else Ret (s_udpgw_client o));
  Ret (s_set_socks o u (s_timer o) false (s_socks_up o)).
Definition set_reconnect_timer o : SocksUdpGwClient := s_set_socks o (s_udpgw_client o) true (s_have_socks o) (s_socks_up o).

(** [init]: BSocksClient_Init succeeds. *)
Definition try_connect o (init : bool) : outcome SocksUdpGwClient :=
  ASSERT (negb (s_have_socks o));; ASSERT (negb (s_timer o));;
  Ret (if init then s_set_socks o (s_udpgw_client o) (s_timer o) true false else set_reconnect_timer o).

(** The timer has expired: it no longer runs. *)
Definition reconnect_timer_handler o (init : bool) : outcome SocksUdpGwClient :=
  let o := s_set_socks o (s_udpgw_client o) false (s_have_socks o) (s_socks_up o) in
  ASSERT (negb (s_have_socks o));; try_connect o init.

Definition socks_client_handler o (ev : event) (decoder : bool) : outcome SocksUdpGwClient :=
  ASSERT (s_have_socks o);;
  match ev with
  | EVENT_UP =>
      ASSERT (negb (s_socks_up o));;
      '(u, ok) ← UdpGwClient_ConnectServer (s_udpgw_client o) decoder;
      if (ok : bool) then Ret (s_set_socks o u (s_timer o) (s_have_socks o) true)
      else o ← free_socks (s_set_udpgw o u); Ret (set_reconnect_timer o)
  | EVENT_ERROR | EVENT_ERROR_CLOSED => o ← free_socks o; Ret (set_reconnect_timer o)
  | EVENT_CONNECTED => ASSERT_0 (build := NDEBUG) o
  end.

Definition udpgw_handler_servererror o : outcome SocksUdpGwClient :=
  ASSERT (s_have_socks o);; ASSERT (s_socks_up o);; o ← free_socks o; Ret (set_reconnect_timer o).

(** ** The interface *)

Definition BAddr_IsInvalid (a : BAddr) : bool := ba_type a =? BADDR_TYPE_NONE.

(** [num]: what [num_connections] holds; the field is not set. *)
Definition SocksUdpGwClient_Init (num udp_mtu max_connections send_buffer_size : Z) (socks_server_addr dnsgw remote_udpgw_addr : BAddr) (queue init : bool)
  : outcome (option SocksUdpGwClient) :=
  ASSERT (negb (BAddr_IsInvalid socks_server_addr));;
  ASSERT ((ba_type remote_udpgw_addr =? BADDR_TYPE_IPV4) || (ba_type remote_udpgw_addr =? BADDR_TYPE_IPV6));;
  let max := if 65536 <? max_connections then 65536 else max_connections in
  u ← UdpGwClient_Init udp_mtu max_connections send_buffer_size queue;
  match u with
  | None => Ret None
  | Some u =>
      o ← try_connect (mksg udp_mtu socks_server_addr dnsgw (udpgw_compute_mtu udp_mtu) num max ∅ [] [] [] u false false false) init;
      Ret (Some o)
  end.

Fixpoint free_dns_connections (fuel : nat) o : outcome SocksUdpGwClient :=
  match s_list o, fuel with
  | [], _ => Ret o
  | _, O => Abort
  | p :: _, S fuel' => o ← connection_free o p; free_dns_connections fuel' o
  end.
Definition SocksUdpGwClient_Free o : outcome SocksUdpGwClient :=
  o ← free_dns_connections (length (s_list o)) o;
  o ← (if s_have_socks o then free_socks o else Ret o);
  u ← UdpGwClient_Free (s_udpgw_client o);
  Ret (s_set_socks o u false (s_have_socks o) (s_socks_up o)).

Inductive submit_output := ToNobody | ToDnsGateway (dest : BAddr) (data : bytes) | ToGateway (data : bytes).

(** [malloc] and [flow] are for the gateway client, [r] for a DNS connection. *)
Definition SocksUdpGwClient_SubmitPacket o (local remote : BAddr) (is_dns : bool) (data : bytes) (r : resources) (malloc : option nat) (flow slot : bool)
  : outcome (SocksUdpGwClient * submit_output) :=
  if is_dns then
    ASSERT ((ba_type local =? BADDR_TYPE_IPV4) || (ba_type local =? BADDR_TYPE_IPV6));;
    ASSERT ((ba_type remote =? BADDR_TYPE_IPV4) || (ba_type remote =? BADDR_TYPE_IPV6));;
    ASSERT (zlen data <=? s_udp_mtu o);;
    let a := mkca local remote in
    con ← find_connection o a;
    o ← (if bool_decide (con = None) && (s_num_connections o =? s_max_connections o) then remove_lru_connection o a else Ret o);
    match con with
    | None => o ← connection_init o a data is_dns r; Ret (o, ToNobody)
    | Some p =>
        o ← reset_connection o p a is_dns;
        res ← connection_send o p data slot;
        Ret (match res with
             | None => (o, ToNobody)
             | Some (dest, d) => (s_set_list o (used_last p (s_list o)), ToDnsGateway dest d)
             end)
    end
  else
    '(u, res) ← UdpGwClient_SubmitPacket (s_udpgw_client o) local remote is_dns data malloc flow slot;
    Ret (s_set_udpgw o u, match res with Some (_, d) => ToGateway d | None => ToNobody end).

(** ** What happens to a client *)

Inductive sg_event :=
| SgSubmit (local remote : BAddr) (is_dns : bool) (data : bytes) (r : resources) (malloc : option nat) (flow slot : bool)
| SgJob (first_data : bytes) (slot : bool)
| SgDatagram (p : nat) (data : bytes)
| SgUdpgw (e : ug_event)
| SgSocks (ev : event) (decoder : bool)
| SgServerError
| SgReconnect (init : bool).

Inductive sg_output := SoNone | SoDns (dest : BAddr) (data : bytes) | SoGateway (data : bytes) | SoUser (local remote : BAddr) (data : bytes).

Definition sg_step o (e : sg_event) : outcome (SocksUdpGwClient * sg_output) :=
  match e with
  | SgSubmit local remote is_dns data r malloc flow slot =>
      '(o, out) ← SocksUdpGwClient_SubmitPacket o local remote is_dns data r malloc flow slot;
      Ret (o, match out with ToNobody => SoNone | ToDnsGateway dest d => SoDns dest d | ToGateway d => SoGateway d end)
  | SgJob first_data slot =>
      p ← deref (head (s_jobs o));
      let o := s_set_jobs o (tail (s_jobs o)) in
      res ← connection_first_job_handler o p first_data slot;
      Ret (o, match res with Some (dest, d) => SoDns dest d | None => SoNone end)
  | SgDatagram p data =>
      '(o, res) ← dgram_handler_received o p data; Ret (o, match res with Some (l, r, d) => SoUser l r d | None => SoNone end)
  | SgUdpgw e =>
      '(u, out) ← ug_step (s_udpgw_client o) e;
      Ret (s_set_udpgw o u, match out with OutNone => SoNone | OutSend d | OutKeepalive d => SoGateway d | OutUser l r d => SoUser l r d end)
  | SgSocks ev decoder => o ← socks_client_handler o ev decoder; Ret (o, SoNone)
  | SgServerError => o ← udpgw_handler_servererror o; Ret (o, SoNone)
  | SgReconnect init => o ← reconnect_timer_handler o init; Ret (o, SoNone)
  end.

(** What callers keep to.  A first job runs before the device gives the next
    packet: it is put first among the jobs, and the job that lets the device
    continue was set before it.  The socket passes on at most [udp_mtu] bytes. *)
Definition sg_event_ok o (e : sg_event) : Prop :=
  match e with
  | SgSubmit local remote is_dns data r malloc flow slot =>
      addr_wf local /\ addr_wf remote /\ zlen data <= s_udp_mtu o /\
      (if is_dns then s_jobs o = [] /\ match r_malloc r with Some p => s_heap o !! p = None | None => True end
       else match malloc with Some p => u_heap (s_udpgw_client o) !! p = None | None => True end)
  | SgJob first_data _ => exists p, head (s_jobs o) = Some p /\ forall c, s_heap o !! p = Some c -> d_first_data_len c <= zlen first_data
  | SgDatagram p data => is_Some (s_heap o !! p) /\ zlen data <= s_udp_mtu o
  | SgUdpgw e => match e with EvSubmit _ _ _ _ _ _ _ | EvConnect _ | EvDisconnect => False | _ => ug_event_ok (s_udpgw_client o) e end
  | SgSocks ev _ => s_have_socks o = true /\ match ev with EVENT_UP => s_socks_up o = false | _ => True end
  | SgServerError => u_have_server (s_udpgw_client o) = true
  | SgReconnect _ => s_timer o = true
  end.

Inductive sg_reach : SocksUdpGwClient -> list sg_event -> Prop :=
| sg_reach_init udp_mtu max size server dnsgw gw init o :
    udp_mtu < 2 ^ 31 -> SocksUdpGwClient_Init 0 udp_mtu max size server dnsgw gw true init = Ret (Some o) -> sg_reach o []
| sg_reach_step o tr e o' out : sg_reach o tr -> sg_event_ok o e -> sg_step o e = Ret (o', out) -> sg_reach o' (e :: tr).

(** The server that was last asked from a local address. *)
Fixpoint last_query (local : BAddr) (tr : list sg_event) : option BAddr :=
  match tr with
  | [] => None
  | SgSubmit l r true _ _ _ _ _ :: tr' => if decide (l = local) then Some r else last_query local tr'
  | _ :: tr' => last_query local tr'
  end.

(** What a step does with the DNS connections: only a query changes them, and
    only those of its local address and the least recently used. *)
Definition connections_after o (e : sg_event) (o' : SocksUdpGwClient) : Prop :=
  forall p c', s_heap o' !! p = Some c' ->
  let kept := exists c, s_heap o !! p = Some c /\ d_conaddr c = d_conaddr c' in
  match e with
  | SgSubmit local remote true _ _ _ _ _ => d_conaddr c' = mkca local remote \/ ca_local (d_conaddr c') <> local /\ kept
  | _ => kept
  end.

(** The entries of the gateway client are old or those of the datagram. *)
Definition gateway_after o (e : sg_event) (o' : SocksUdpGwClient) : Prop :=
  forall a id, (a, id) ∈ view (s_udpgw_client o') ->
  (exists id', (a, id') ∈ view (s_udpgw_client o)) \/ exists data r malloc flow slot, e = SgSubmit (ca_local a) (ca_remote a) false data r malloc flow slot.

(** Queries go to the DNS gateway as they are, other datagrams to the client of
    the gateway; what a DNS connection receives goes to the user. *)
Definition output_ok o (e : sg_event) (out : sg_output) : Prop :=
  match e, out with
  | _, SoNone => True
  | SgSubmit _ _ true data _ _ _ _, SoDns dest d => dest = s_dnsgw o /\ d = data
  | SgJob first_data _, SoDns dest d => dest = s_dnsgw o /\ exists n, d = take n first_data
  | SgSubmit _ _ false _ _ _ _ _, SoGateway d => zlen d <= u_udpgw_mtu (s_udpgw_client o)
  | SgDatagram p data, SoUser l r d => d = data /\ exists c, s_heap o !! p = Some c /\ d_conaddr c = mkca l r
  | SgUdpgw _, SoGateway _ => True
  | SgUdpgw _, SoUser l r d => Forall is_byte d /\ exists id, (mkca l r, id) ∈ view (s_udpgw_client o)
  | _, _ => False
  end.

(** ** The invariant *)

Record dcon_ok (mtu : Z) (dnsgw : BAddr) (c : SocksUdpGwClient_connection) : Prop := {
  do_addr : conaddr_ok (d_conaddr c);
  do_dns : d_is_dns c = true;
  do_dest : d_send_addr c = dnsgw;
  do_first : 0 <= d_first_data_len c <= mtu
}.

Record sg_inv (o : SocksUdpGwClient) : Prop := {
  si_ug : ug_inv (s_udpgw_client o);
  si_ug_mtu : u_udp_mtu (s_udpgw_client o) = s_udp_mtu o;
  si_mtu : s_udpgw_mtu o = s_udp_mtu o + 22;
  si_max : 0 < s_max_connections o;
  si_nodup : NoDup (s_list o);
  si_heap : forall p, p ∈ s_list o <-> is_Some (s_heap o !! p);
  si_tree : s_tree o ≡ₚ s_list o;
  si_num : s_num_connections o = zlen (s_list o) /\ s_num_connections o <= s_max_connections o;
  si_cons : forall p c, s_heap o !! p = Some c -> dcon_ok (s_udp_mtu o) (s_dnsgw o) c;
  si_locals : forall p p' c c', s_heap o !! p = Some c -> s_heap o !! p' = Some c' -> ca_local (d_conaddr c) = ca_local (d_conaddr c') -> p = p';
  si_jobs : forall p, p ∈ s_jobs o -> is_Some (s_heap o !! p);
  si_server : u_have_server (s_udpgw_client o) = s_have_socks o && s_socks_up o;
  si_timer : s_timer o = negb (s_have_socks o)
}.

Ltac sg_simpl := cbn [s_set_list s_set_table s_set_heap s_set_jobs s_set_socks s_set_udpgw set_reconnect_timer s_udp_mtu s_socks_server_addr s_dnsgw s_udpgw_mtu s_num_connections s_max_connections s_heap s_tree s_list s_jobs s_udpgw_client s_timer s_have_socks s_socks_up] in *.

Section table.
Context (o : SocksUdpGwClient) (Hi : sg_inv o).

Lemma sg_nodes a : conaddr_ok a ->
  forall p, p ∈ s_tree o -> exists c r, s_heap o !! p = Some c /\ local_comparator a c = Ret r /\ (r = 0 <-> ca_local (d_conaddr c) = ca_local a).
Proof using Hi.
  intros [Ha _] p Hp. rewrite (si_tree _ Hi), (si_heap _ Hi) in Hp. destruct Hp as [c Hc]. destruct (do_addr _ _ _ (si_cons _ Hi p c Hc)) as [Hl _].
  destruct (compare_order_spec _ _ Ha Hl) as (r & Hr & H0). exists c, r. split; [done|]. split; [done|]. rewrite H0. split; congruence.
Qed.

Lemma find_connection_ok a : conaddr_ok a ->
  exists r, find_connection o a = Ret r /\
    match r with Some p => exists c, s_heap o !! p = Some c /\ ca_local (d_conaddr c) = ca_local a
               | None => forall p c, s_heap o !! p = Some c -> ca_local (d_conaddr c) <> ca_local a end.
Proof using Hi.
  intros Ha. destruct (tree_lookup_spec (s_heap o) (local_comparator a) (fun c => ca_local (d_conaddr c) = ca_local a) _ (sg_nodes a Ha)) as (r & Hr & H).
  exists r. split; [done|]. destruct r as [p|]; [apply H|]. intros p c Hc. apply (H p c); [rewrite (si_tree _ Hi), (si_heap _ Hi); by eexists|done].
Qed.

Lemma sg_touch_inv p : p ∈ s_list o -> sg_inv (s_set_list o (used_last p (s_list o))).
Proof using Hi.
  intros Hp. pose proof Hi as [H1 H2 H3 H4 H5 H6 H7 H8 H9 H10 H11 H12 H13]. assert (Hu : used_last p (s_list o) ≡ₚ s_list o) by (by apply used_last_perm).
  split; sg_simpl; try done; try (by rewrite Hu). intros x. by rewrite Hu.
Qed.

(** Changing the remote address of a connection. *)
Lemma reset_ok p c a : conaddr_ok a -> s_heap o !! p = Some c -> ca_local (d_conaddr c) = ca_local a ->
  exists o', reset_connection o p a true = Ret o' /\ sg_inv o' /\ o' = s_set_heap o (<[p := mkdc a (d_first_data_len c) true (s_dnsgw o)]> (s_heap o)).
Proof using Hi.
  intros Ha Hc El. pose proof (si_cons _ Hi p c Hc) as [_ Hd Hs Hf]. unfold reset_connection. rewrite Hc. cbn [deref mbind outcome_bind]. rewrite Hs. eexists. split; [done|]. split; [|done].
  pose proof Hi as [H1 H2 H3 H4 H5 H6 H7 H8 H9 H10 H11 H12 H13]. assert (Hsome : forall x, is_Some (<[p := mkdc a (d_first_data_len c) true (s_dnsgw o)]> (s_heap o) !! x) <-> is_Some (s_heap o !! x)).
  { intros x. destruct (decide (x = p)) as [->|Hne]; [rewrite lookup_insert_eq, Hc; naive_solver|by rewrite lookup_insert_ne]. }
  split; sg_simpl; try done.
  - intros x. by rewrite Hsome.
  - intros q d. rewrite lookup_insert_Some. intros [[<- <-]|[_ Hq]]; [by split|by eapply H9].
  - intros q q' d d'. rewrite !lookup_insert_Some. intros [[<- <-]|[Hq Hd1]] [[<- <-]|[Hq' Hd2]] E; cbn [d_conaddr] in E; [done|apply (H10 p q' c d'); congruence|apply (H10 q p d c); congruence|by eapply H10].
  - intros x Hx. apply Hsome. by apply H11.
Qed.

Lemma remove_ok a : conaddr_ok a -> (forall p c, s_heap o !! p = Some c -> ca_local (d_conaddr c) <> ca_local a) -> s_jobs o = [] -> s_num_connections o = s_max_connections o ->
  exists o' p l, remove_lru_connection o a = Ret o' /\ sg_inv o' /\ s_list o = p :: l /\
    o' = s_set_table o (delete p (s_heap o)) (unlink p (s_tree o)) l (s_num_connections o - 1) [].
Proof using Hi.
  intros Ha Hno Hj Hn. pose proof Hi as [H1 H2 H3 H4 H5 H6 H7 H8 H9 H10 H11 H12 H13]. unfold remove_lru_connection. destruct (find_connection_ok a Ha) as (r & -> & Hr). cbn [mbind outcome_bind].
  destruct r as [q|]; [destruct Hr as (c & Hc & E); by destruct (Hno q c)|]. cbn [ASSERT bool_decide mbind outcome_bind]. rewrite (proj2 (Z.ltb_lt 0 (s_num_connections o))) by lia. cbn [ASSERT mbind outcome_bind].
  destruct (s_list o) as [|p l] eqn:El; [cbn in H8; lia|]. cbn [head deref mbind outcome_bind]. destruct (proj1 (H6 p) ltac:(set_solver)) as [c Hc]. unfold connection_free. rewrite Hc. cbn [deref mbind outcome_bind].
  assert (Hl : unlink p (s_list o) = l).
  { rewrite El. apply NoDup_cons in H5 as [Hp _]. unfold unlink. rewrite filter_cons_False by naive_solver. fold (unlink p l). by apply unlink_absent. }
  rewrite Hl, Hj. eexists _, p, l. split; [done|]. split; [|done]. apply NoDup_cons in H5 as [Hp Hnd].
  split; sg_simpl; try done.
  - intros x. destruct (decide (x = p)) as [->|Hne]; [rewrite lookup_delete_eq; split; [done|by intros [? ?]]|rewrite lookup_delete_ne by done; rewrite <- H6; set_solver].
  - rewrite (unlink_perm p _ _ H7). unfold unlink. rewrite filter_cons_False by naive_solver. fold (unlink p l). by rewrite unlink_absent.
  - cbn [length] in H8. lia.
  - intros q d Hd. apply lookup_delete_Some in Hd as [_ Hd]. by eapply H9.
  - intros q q' d d' Hd Hd'. apply lookup_delete_Some in Hd as [_ Hd]. apply lookup_delete_Some in Hd' as [_ Hd']. by apply H10.
  - intros x Hx. set_solver.
Qed.

Lemma sg_connection_init_ok a data r :
  conaddr_ok a -> (forall p c, s_heap o !! p = Some c -> ca_local (d_conaddr c) <> ca_local a) -> s_num_connections o < s_max_connections o -> zlen data <= s_udp_mtu o ->
  match r_malloc r with Some p => s_heap o !! p = None | None => True end ->
  exists o', connection_init o a data true r = Ret o' /\ sg_inv o' /\ (s_udp_mtu o' = s_udp_mtu o /\ s_dnsgw o' = s_dnsgw o /\ s_udpgw_client o' = s_udpgw_client o) /\
    forall p c, s_heap o' !! p = Some c -> s_heap o !! p = Some c \/ d_conaddr c = a.
Proof using Hi.
  intros Ha Hno Hn Hd Hm. unfold connection_init. destruct (r_malloc r) as [p|]; [|exists o; by eauto 10]. destruct (r_dgram r); cbn [negb]; [|exists o; by eauto 10]. destruct (r_reuseaddr r); cbn [negb]; [|exists o; by eauto 10].
  destruct (r_send_buffer r); cbn [negb]; [|exists o; by eauto 10]. destruct (r_recv_buffer r); cbn [negb]; [|exists o; by eauto 10].
  rewrite (tree_insert_spec (s_heap o) (local_comparator a) (fun c => ca_local (d_conaddr c) = ca_local a)); [|apply (sg_nodes a Ha)|intros x c _; apply Hno]. cbn [mbind outcome_bind].
  set (c := mkdc _ _ _ _). eexists. split; [done|]. pose proof Hi as [H1 H2 H3 H4 H5 H6 H7 H8 H9 H10 H11 H12 H13]. assert (Hnp : p ∉ s_list o) by (rewrite H6, Hm; by intros [? ?]).
  split; [|sg_simpl; split; [done|]; intros q d; rewrite lookup_insert_Some; naive_solver]. split; sg_simpl; try done.
  - apply NoDup_app. split; [done|]. split; [|apply NoDup_singleton]. intros x Hx Hx'. apply list_elem_of_singleton in Hx'. by subst x.
  - intros x. rewrite elem_of_app, list_elem_of_singleton, H6. destruct (decide (x = p)) as [->|Hne]; [rewrite lookup_insert_eq; naive_solver|rewrite lookup_insert_ne by done; naive_solver].
  - rewrite H7. apply Permutation_cons_append.
  - rewrite length_app. cbn [length]. lia.
  - intros q d. rewrite lookup_insert_Some. intros [[<- <-]|[_ Hq]]; [split; cbn; (done || lia)|by eapply H9].
  - intros q q' d d'. rewrite !lookup_insert_Some. intros [[<- <-]|[Hq Hd1]] [[<- <-]|[Hq' Hd2]] E; [done|by destruct (Hno q' d')|by destruct (Hno q d)|by eapply H10].
  - intros x Hx. apply elem_of_cons in Hx as [->|Hx]; [rewrite lookup_insert_eq; by eexists|]. destruct (decide (x = p)) as [->|Hne]; [rewrite lookup_insert_eq; by eexists|]. rewrite lookup_insert_ne by done. by apply H11.
Qed.

Lemma sg_send_ok p c data slot : s_heap o !! p = Some c -> zlen data <= s_udp_mtu o ->
  connection_send o p data slot = Ret (if slot then Some (s_dnsgw o, data) else None).
Proof using Hi.
  intros Hc Hd. destruct (si_cons _ Hi p c Hc) as [_ Hdns Hdest _]. unfold connection_send. rewrite Hc. cbn [deref mbind outcome_bind]. destruct slot; [|done]. cbn [negb]. rewrite Hdns, Hdest. cbn [app].
  by rewrite (proj2 (Z.leb_le _ _) Hd).
Qed.
End table.

(** ** The steps *)

Lemma same_connections o o' e : s_heap o' = s_heap o -> match e with SgSubmit _ _ true _ _ _ _ _ => False | _ => True end -> connections_after o e o'.
Proof. intros Hh He p c' Hc. rewrite Hh in Hc. destruct e as [l r dns d res m f sl| | | | | |]; [destruct dns; [done|]|..]; by exists c'. Qed.

Lemma inv_socks o u timer have up :
  sg_inv o -> ug_inv u -> u_udp_mtu u = s_udp_mtu o -> u_have_server u = have && up -> timer = negb have -> sg_inv (s_set_socks o u timer have up).
Proof. intros [H1 H2 H3 H4 H5 H6 H7 H8 H9 H10 H11 H12 H13] Hu Hm Hs Ht. by split. Qed.

Lemma same_gateway o o' e : view (s_udpgw_client o') = view (s_udpgw_client o) -> gateway_after o e o'.
Proof. intros Hv a id. rewrite Hv. intros Hin. left. by exists id. Qed.

(** What every step establishes. *)
Definition step_ok o (e : sg_event) (r : outcome (SocksUdpGwClient * sg_output)) : Prop :=
  exists o' out, r = Ret (o', out) /\ sg_inv o' /\ (s_dnsgw o' = s_dnsgw o /\ s_udp_mtu o' = s_udp_mtu o) /\ (connections_after o e o' /\ gateway_after o e o') /\ output_ok o e out.

Section steps.
Context (o : SocksUdpGwClient) (Hi : sg_inv o).

Lemma dns_submit_ok local remote data r malloc flow slot :
  let e := SgSubmit local remote true data r malloc flow slot in sg_event_ok o e -> step_ok o e (sg_step o e).
Proof using Hi.
  intros e (Hl & Hr & Hd & Hj & Hm). set (a := mkca local remote). assert (Ha : conaddr_ok a) by done. unfold step_ok, e, sg_step, SocksUdpGwClient_SubmitPacket.
  replace ((ba_type local =? BADDR_TYPE_IPV4) || (ba_type local =? BADDR_TYPE_IPV6)) with true by (destruct Hl as ([[-> _]|[-> _]] & _); done).
  replace ((ba_type remote =? BADDR_TYPE_IPV4) || (ba_type remote =? BADDR_TYPE_IPV6)) with true by (destruct Hr as ([[-> _]|[-> _]] & _); done).
  rewrite (proj2 (Z.leb_le _ _) Hd). cbn [ASSERT mbind outcome_bind]. fold a. destruct (find_connection_ok o Hi a Ha) as (x & -> & Hfind). cbn [mbind outcome_bind]. destruct x as [p|].
  - destruct Hfind as (c & Hc & El). rewrite (bool_decide_eq_false_2 (Some p = None)) by done. cbn [andb mbind outcome_bind].
    destruct (reset_ok o Hi p c a Ha Hc El) as (o1 & -> & Hi1 & Ho1). cbn [mbind outcome_bind]. set (c1 := mkdc a _ _ _) in Ho1.
    assert (Hc1 : s_heap o1 !! p = Some c1) by (rewrite Ho1; sg_simpl; by rewrite lookup_insert_eq).
    rewrite (sg_send_ok o1 Hi1 p c1 data slot Hc1) by (by rewrite Ho1).
    assert (Hp : p ∈ s_list o1) by (rewrite (si_heap _ Hi1), Hc1; by eexists).
    assert (Hafter : forall q d, s_heap o1 !! q = Some d -> d_conaddr d = a \/ ca_local (d_conaddr d) <> local /\ exists c, s_heap o !! q = Some c /\ d_conaddr c = d_conaddr d).
    { intros q d. rewrite Ho1. sg_simpl. rewrite lookup_insert_Some. intros [[<- <-]|[Hne Hq]]; [by left|]. right. split; [|by exists d]. intros E. apply Hne. apply (si_locals _ Hi p q c d); [done..|]. by rewrite El. }
    cbn [mbind outcome_bind]. destruct slot; eexists _, _; (split; [done|]); (split; [try done; by apply sg_touch_inv|]); (split; [by rewrite Ho1|]); (split; [split; [exact Hafter|apply same_gateway; by rewrite Ho1]|]); [|done]. by rewrite Ho1.
  - replace (bool_decide (None = None)) with true by done. cbn [andb].
    assert (Hgone : exists o1, (if s_num_connections o =? s_max_connections o then remove_lru_connection o a else Ret o) = Ret o1 /\ sg_inv o1 /\
        (s_dnsgw o1 = s_dnsgw o /\ s_udp_mtu o1 = s_udp_mtu o) /\ s_num_connections o1 < s_max_connections o1 /\ s_udpgw_client o1 = s_udpgw_client o /\ forall q, s_heap o1 !! q = s_heap o !! q \/ s_heap o1 !! q = None).
    { destruct (s_num_connections o =? s_max_connections o) eqn:E.
      - apply Z.eqb_eq in E. destruct (remove_ok o Hi a Ha Hfind Hj E) as (o1 & p & l & Hrm & Hi1 & _ & ->). eexists. split; [done|]. split; [done|]. split; [done|]. sg_simpl. split; [lia|]. split; [done|].
        intros q. destruct (decide (q = p)) as [->|Hne]; [right; by rewrite lookup_delete_eq|left; by rewrite lookup_delete_ne].
      - exists o. split; [done|]. split; [done|]. split; [done|]. split; [pose proof (si_num _ Hi); lia|]. split; [done|by left]. }
    destruct Hgone as (o1 & -> & Hi1 & [Hdns Hmtu] & Hn & Hug & Hq). cbn [mbind outcome_bind].
    destruct (sg_connection_init_ok o1 Hi1 a data r Ha) as (o2 & -> & Hi2 & (Hmtu2 & Hdns2 & Hug2) & Hh2); [|done|by rewrite Hmtu| |].
    { intros p c Hc. destruct (Hq p) as [E|E]; rewrite E in Hc; [by apply (Hfind p c)|done]. }
    { destruct (r_malloc r) as [p|]; [|done]. destruct (Hq p) as [-> | ->]; [exact Hm|done]. }
    cbn [mbind outcome_bind]. exists o2, SoNone. split; [done|]. split; [done|]. split; [|split; [split|done]].
    + split; congruence.
    + intros p c Hc. destruct (Hh2 p c Hc) as [Hc1|Hca]; [|by left]. right. destruct (Hq p) as [E|E]; rewrite E in Hc1; [|done]. split; [by apply (Hfind p c)|by exists c].
    + apply same_gateway. congruence.
Qed.

(** A call to the client of the gateway that leaves its connection alone. *)
Lemma udpgw_step_ok e :
  ug_event_ok (s_udpgw_client o) e -> match e with EvConnect _ | EvDisconnect => False | _ => True end ->
  exists u out, ug_step (s_udpgw_client o) e = Ret (u, out) /\ sg_inv (s_set_udpgw o u) /\ match out with OutSend d => zlen d <= u_udpgw_mtu (s_udpgw_client o) | _ => True end /\
    lru_step (u_max_connections (s_udpgw_client o)) (s_udp_mtu o) (view (s_udpgw_client o)) e (view u) out.
Proof using Hi.
  intros He Hne. destruct (ug_step_ok (s_udpgw_client o) (si_ug _ Hi) e He) as (u & out & Hs & Hu & (_ & Hm & Hsrv) & Hlru). exists u, out. split; [done|]. rewrite (si_ug_mtu _ Hi) in Hlru. split; [|split; [|done]].
  - apply inv_socks; [done..|by rewrite Hm, (si_ug_mtu _ Hi)| |by apply (si_timer _ Hi)]. rewrite Hsrv, <- (si_server _ Hi). by destruct e.
  - destruct out; try done. rewrite <- (si_ug_mtu _ Hi) in Hlru. by eapply (lru_send_fits _ (si_ug _ Hi) e).
Qed.

(** Closing the SOCKS connection and waiting for the next attempt. *)
Lemma close_ok o1 : sg_inv o1 -> s_have_socks o1 = true ->
  exists o', free_socks o1 = Ret o' /\ sg_inv (set_reconnect_timer o') /\ s_heap o' = s_heap o1 /\ s_dnsgw o' = s_dnsgw o1 /\ s_udp_mtu o' = s_udp_mtu o1 /\ view (s_udpgw_client o') = view (s_udpgw_client o1).
Proof.
  intros H1 Hhave. unfold free_socks. rewrite Hhave. cbn [ASSERT mbind outcome_bind]. pose proof (si_server _ H1) as Hs. rewrite Hhave in Hs. cbn [andb] in Hs. destruct (s_socks_up o1) eqn:Eup.
  - destruct (ug_step_ok (s_udpgw_client o1) (si_ug _ H1) EvDisconnect Hs) as (u & out & Hst & Hu & (_ & Hm & Hsrv) & _). unfold ug_step in Hst.
    destruct (UdpGwClient_DisconnectServer (s_udpgw_client o1)) as [u'| |] eqn:Ed; [|done..]. cbn [mbind outcome_bind] in *. injection Hst as -> <-. eexists. split; [done|].
    assert (Hv : view u = view (s_udpgw_client o1)) by (unfold UdpGwClient_DisconnectServer in Ed; rewrite Hs in Ed; by injection Ed as <-). split; [|done].
    sg_simpl. apply (inv_socks o1 u true false true); [done..|by rewrite Hm, (si_ug_mtu _ H1)|done|done].
  - cbn [mbind outcome_bind]. eexists. split; [done|]. split; [|done]. sg_simpl. apply (inv_socks o1 _ true false false); [done|apply (si_ug _ H1)|apply (si_ug_mtu _ H1)|done|done].
Qed.

Lemma socks_event_ok ev decoder : let e := SgSocks ev decoder in sg_event_ok o e -> step_ok o e (sg_step o e).
Proof using Hi.
  intros e (Hhave & Hev). unfold step_ok, e, sg_step, socks_client_handler. replace (ASSERT (s_have_socks o)) with (Ret tt) by (by rewrite Hhave). cbn [ASSERT mbind outcome_bind].
  assert (Hclose : exists o' out, ('o1 ← free_socks o; Ret (set_reconnect_timer o1)) ≫= (fun o => Ret (o, SoNone)) = Ret (o', out) /\ sg_inv o' /\
    (s_dnsgw o' = s_dnsgw o /\ s_udp_mtu o' = s_udp_mtu o) /\ (connections_after o (SgSocks ev decoder) o' /\ gateway_after o (SgSocks ev decoder) o') /\ output_ok o (SgSocks ev decoder) out).
  { destruct (close_ok o Hi Hhave) as (o1 & -> & Hi1 & Hh & Hd & Hm & Hv). cbn [mbind outcome_bind]. eexists _, _. split; [done|]. split; [done|]. split; [done|]. split; [split; [by apply same_connections|by apply same_gateway]|done]. }
  destruct ev; [exact Hclose| |exact Hclose|].
  2: { eexists _, _. split; [done|]. split; [done|]. split; [done|]. split; [split; [by apply same_connections|by apply same_gateway]|done]. }
  rewrite Hev. cbn [negb ASSERT mbind outcome_bind].
  assert (Hoff : u_have_server (s_udpgw_client o) = false) by (rewrite (si_server _ Hi), Hev; by rewrite andb_false_r).
  unfold UdpGwClient_ConnectServer. rewrite Hoff. cbn [negb ASSERT mbind outcome_bind]. destruct decoder; cbn [mbind outcome_bind].
  - eexists _, _. split; [done|]. split; [|split; [done|]; split; [split; [by apply same_connections|by apply same_gateway]|done]]. rewrite Hhave.
    apply (inv_socks o _ (s_timer o) true true); [done|by apply inv_flags, (si_ug _ Hi)|apply (si_ug_mtu _ Hi)|done|by rewrite (si_timer _ Hi), Hhave].
  - replace (s_set_udpgw o (s_udpgw_client o)) with o by (by destruct o). exact Hclose.
Qed.

Lemma server_error_ok : sg_event_ok o SgServerError -> step_ok o SgServerError (sg_step o SgServerError).
Proof using Hi.
  intros Hs. cbn in Hs. rewrite (si_server _ Hi) in Hs. apply andb_true_iff in Hs as [Hhave Hup]. unfold step_ok, sg_step, udpgw_handler_servererror. replace (ASSERT (s_have_socks o)) with (Ret tt) by (by rewrite Hhave). replace (ASSERT (s_socks_up o)) with (Ret tt) by (by rewrite Hup). cbn [ASSERT mbind outcome_bind].
  destruct (close_ok o Hi Hhave) as (o1 & -> & Hi1 & Hh & Hd & Hm & Hv). cbn [mbind outcome_bind]. eexists _, _. split; [done|]. split; [done|]. split; [done|]. split; [split; [by apply same_connections|by apply same_gateway]|done].
Qed.

Lemma reconnect_ok init : sg_event_ok o (SgReconnect init) -> step_ok o (SgReconnect init) (sg_step o (SgReconnect init)).
Proof using Hi.
  intros Ht. cbn in Ht. pose proof (si_timer _ Hi) as Hth. rewrite Ht in Hth. assert (Hhave : s_have_socks o = false) by (by destruct (s_have_socks o)).
  unfold step_ok, sg_step, reconnect_timer_handler, try_connect. sg_simpl. rewrite Hhave. cbn [negb ASSERT mbind outcome_bind].
  pose proof (si_server _ Hi) as Hs. rewrite Hhave in Hs. cbn [andb] in Hs.
  destruct init; eexists _, _; (split; [done|]); (split; [|split; [done|]; split; [split; [by apply same_connections|by apply same_gateway]|done]]); sg_simpl.
  - apply (inv_socks o _ false true false); [done|apply (si_ug _ Hi)|apply (si_ug_mtu _ Hi)|done|done].
  - apply (inv_socks o _ true false (s_socks_up o)); [done|apply (si_ug _ Hi)|apply (si_ug_mtu _ Hi)|done|done].
Qed.

Lemma datagram_ok p data : sg_event_ok o (SgDatagram p data) -> step_ok o (SgDatagram p data) (sg_step o (SgDatagram p data)).
Proof using Hi.
  intros ([c Hc] & Hlen). unfold step_ok, sg_step, dgram_handler_received. rewrite Hc. cbn [deref mbind outcome_bind]. rewrite (proj2 (Z.leb_le _ _)) by (rewrite (si_mtu _ Hi); lia).
  cbn [ASSERT mbind outcome_bind]. rewrite (do_dns _ _ _ (si_cons _ Hi p c Hc)), (proj2 (Z.ltb_ge _ _) Hlen). cbn [mbind outcome_bind]. eexists _, _. split; [done|]. split; [done|]. split; [done|].
  split; [split; [by apply same_connections|by apply same_gateway]|]. split; [done|]. exists c. split; [done|]. by destruct (d_conaddr c).
Qed.

Lemma dns_job_ok first_data slot : sg_event_ok o (SgJob first_data slot) -> step_ok o (SgJob first_data slot) (sg_step o (SgJob first_data slot)).
Proof using Hi.
  intros (p & Hp & Hlen). unfold step_ok, sg_step. rewrite Hp. cbn [deref mbind outcome_bind]. destruct (s_jobs o) as [|q jobs] eqn:Ej; [done|]. injection Hp as ->. cbn [tail].
  destruct (si_jobs _ Hi p) as [c Hc]; [rewrite Ej; set_solver|]. specialize (Hlen c Hc). set (o1 := s_set_jobs o jobs).
  assert (Hi1 : sg_inv o1).
  { pose proof Hi as [H1 H2 H3 H4 H5 H6 H7 H8 H9 H10 H11 H12 H13]. split; try done. intros x Hx. apply H11. rewrite Ej. set_solver. }
  unfold connection_first_job_handler. replace (s_heap o1 !! p) with (Some c) by done. cbn [deref mbind outcome_bind]. rewrite (proj2 (Z.ltb_ge _ _) Hlen).
  rewrite (sg_send_ok o1 Hi1 p c); [|done|rewrite length_take; pose proof (do_first _ _ _ (si_cons _ Hi p c Hc)); unfold o1; sg_simpl; lia].
  cbn [mbind outcome_bind]. eexists o1, _. split; [done|]. split; [done|]. split; [done|]. split; [split; [by apply same_connections|by apply same_gateway]|]. destruct slot; [|done]. split; [done|]. by eexists.
Qed.

Lemma sg_step_ok e : sg_event_ok o e -> step_ok o e (sg_step o e).
Proof using Hi.
  destruct e as [local remote is_dns data r malloc flow slot|first_data slot|p data|e|ev decoder| |init]; intros He.
  - destruct is_dns; [by apply dns_submit_ok|]. destruct He as (Hl & Hr & Hd & Hm).
    destruct (udpgw_step_ok (EvSubmit local remote false data malloc flow slot)) as (u & out & Hst & Hi' & Hfit & Hlru); [by rewrite <- (si_ug_mtu _ Hi) in Hd|done|].
    unfold ug_step in Hst. unfold step_ok, sg_step, SocksUdpGwClient_SubmitPacket. destruct (UdpGwClient_SubmitPacket _ _ _ _ _ _ _ _) as [[u' res]| |]; [|done..]. cbn [mbind outcome_bind] in *. injection Hst as -> Hout.
    eexists _, _. split; [done|]. split; [done|]. split; [done|]. split; [split; [by apply same_connections|]|].
    + intros a id Hin. destruct (lru_step_in _ _ _ _ _ _ _ _ Hlru Hin) as [Hold|(dns & d & m & f & sl & [= -> -> -> -> -> -> ->])]; [by left|]. right. by exists d, r, m, f, sl.
    + destruct res as [[q d]|]; [|done]. by rewrite <- Hout in Hfit.
  - by apply dns_job_ok.
  - by apply datagram_ok.
  - destruct (udpgw_step_ok e) as (u & out & Hst & Hi' & _ & Hlru); [by destruct e|by destruct e|]. unfold step_ok, sg_step. rewrite Hst. cbn [mbind outcome_bind].
    eexists _, _. split; [done|]. split; [done|]. split; [done|]. split; [split; [by apply same_connections|]|].
    + intros a id Hin. left. destruct (lru_step_in _ _ _ _ _ _ _ _ Hlru Hin) as [Hold|(dns & d & m & f & sl & ->)]; done.
    + destruct out as [| | |l r d]; try done. inversion Hlru as [| |x [[l' r'] id] y Hrec| | | | | |]; subst; [unfold sends in *; by repeat case_match..|]. destruct He as (_ & _ & Hb).
      split; [by eapply lru_receive_bytes|]. exists id. by eapply lru_receive_in.
  - by apply socks_event_ok.
  - by apply server_error_ok.
  - by apply reconnect_ok.
Qed.
End steps.

(** ** Runs *)

Lemma sg_init_inv udp_mtu max size server dnsgw gw init o :
  udp_mtu < 2 ^ 31 -> SocksUdpGwClient_Init 0 udp_mtu max size server dnsgw gw true init = Ret (Some o) -> sg_inv o /\ s_heap o = ∅.
Proof.
  intros Hlt. unfold SocksUdpGwClient_Init. destruct (negb (BAddr_IsInvalid server)); [|done]. cbn [ASSERT mbind outcome_bind]. destruct (_ || _); [|done]. cbn [ASSERT mbind outcome_bind].
  destruct (UdpGwClient_Init udp_mtu max size true) as [[u|]| |] eqn:Eu; try done. cbn [mbind outcome_bind].
  destruct (ug_init_inv _ _ _ _ _ Hlt Eu) as (Hu & _ & Hs & _).
  assert (Hmtu : u_udp_mtu u = udp_mtu /\ u_udpgw_mtu u = udpgw_compute_mtu udp_mtu /\ 0 < max).
  { revert Eu. unfold UdpGwClient_Init, ASSERT. destruct (0 <=? udp_mtu), (0 <=? udpgw_compute_mtu udp_mtu), (udpgw_compute_mtu udp_mtu <=? 65535), (0 <? max) eqn:E, (0 <? size); try done. intros [= <-]. cbn. lia. }
  destruct Hmtu as (Hm1 & Hm2 & Hmax).
  assert (Hinv : forall timer have, timer = negb have -> sg_inv (mksg udp_mtu server dnsgw (udpgw_compute_mtu udp_mtu) 0 (if 65536 <? max then 65536 else max) ∅ [] [] [] u timer have false)).
  { intros timer have Ht. split; sg_simpl; try done.
    - rewrite <- Hm2, (ui_mtu _ Hu). by rewrite Hm1.
    - destruct (65536 <? max); lia.
    - constructor.
    - intros p. rewrite lookup_empty. split; [set_solver|]. by intros [? ?].
    - split; [done|]. destruct (65536 <? max); lia.
    - intros p Hp. set_solver.
    - rewrite Hs. by rewrite andb_false_r. }
  destruct init; cbn; intros [= <-]; (split; [|done]); apply Hinv; done.
Qed.

Lemma sg_reach_inv o tr : sg_reach o tr -> sg_inv o.
Proof.
  induction 1 as [m max size server dnsgw gw init o Hm Hinit|o tr e o' out _ IH He Hs]; [by eapply sg_init_inv|]. destruct (sg_step_ok o IH e He) as (o1 & out1 & Hs1 & Hi & _). rewrite Hs in Hs1. by injection Hs1 as <- <-.
Qed.

Lemma reach_last_query o tr : sg_reach o tr -> forall p c, s_heap o !! p = Some c -> last_query (ca_local (d_conaddr c)) tr = Some (ca_remote (d_conaddr c)).
Proof.
  induction 1 as [m max size server dnsgw gw init o Hm Hinit|o tr e o' out Hr IH He Hs]; intros p c Hc.
  { apply sg_init_inv in Hinit as [_ Hh]; [|done]. by rewrite Hh in Hc. }
  destruct (sg_step_ok o (sg_reach_inv _ _ Hr) e He) as (o1 & out1 & Hs1 & _ & _ & [Hafter _] & _). rewrite Hs in Hs1. injection Hs1 as <- <-. specialize (Hafter p c Hc). cbv zeta in Hafter.
  destruct e as [local remote is_dns data r malloc flow slot| | | | | |]; [destruct is_dns|..]; cbn [last_query].
  { destruct Hafter as [->|(Hne & c0 & Hc0 & E)]; [by rewrite decide_True|]. rewrite decide_False by congruence. rewrite <- E. by apply (IH p). }
  all: destruct Hafter as (c0 & Hc0 & <-); by apply (IH p).
Qed.

(** What is handed to the user answers a datagram of the run. *)
Definition sg_submitted (tr : list sg_event) (local remote : BAddr) : Prop :=
  exists is_dns data r malloc flow slot, SgSubmit local remote is_dns data r malloc flow slot ∈ tr.

Lemma sg_submitted_more e tr local remote : sg_submitted tr local remote -> sg_submitted (e :: tr) local remote.
Proof. intros (d & x & r & m & f & sl & H). exists d, x, r, m, f, sl. set_solver. Qed.

Lemma last_query_submitted local remote tr : last_query local tr = Some remote -> sg_submitted tr local remote.
Proof.
  induction tr as [|e tr IH]; [done|]. cbn [last_query]. destruct e as [l r dns d res m f sl| | | | | |]; try (intros H; by apply sg_submitted_more, IH).
  destruct dns; [|intros H; by apply sg_submitted_more, IH]. destruct (decide (l = local)) as [->|]; [|intros H; by apply sg_submitted_more, IH].
  intros [= ->]. exists true, d, res, m, f, sl. set_solver.
Qed.

Lemma reach_gateway_submitted o tr : sg_reach o tr -> forall a id, (a, id) ∈ view (s_udpgw_client o) -> sg_submitted tr (ca_local a) (ca_remote a).
Proof.
  induction 1 as [m max size server dnsgw gw init o Hm Hinit|o tr e o' out Hr IH He Hs]; intros a id Hin.
  { revert Hinit. unfold SocksUdpGwClient_Init. destruct (negb _); [|done]. cbn [ASSERT mbind outcome_bind]. destruct (_ || _); [|done]. cbn [ASSERT mbind outcome_bind].
    destruct (UdpGwClient_Init m max size true) as [[u|]| |] eqn:Eu; try done. destruct (ug_init_inv _ _ _ _ _ Hm Eu) as (_ & Hv & _).
    destruct init; cbn; intros [= <-]; cbn in Hin; rewrite Hv in Hin; set_solver. }
  destruct (sg_step_ok o (sg_reach_inv _ _ Hr) e He) as (o1 & out1 & Hs1 & _ & _ & [_ Hafter] & _). rewrite Hs in Hs1. injection Hs1 as <- <-.
  destruct (Hafter a id Hin) as [[id' Hold]|(d & r & mm & f & sl & ->)]; [by eapply sg_submitted_more, IH|]. exists false, d, r, mm, f, sl. set_solver.
Qed.

Lemma sg_user_submitted o tr e o' local remote data :
  sg_reach o tr -> sg_event_ok o e -> sg_step o e = Ret (o', SoUser local remote data) -> sg_submitted tr local remote.
Proof.
  intros Hr He Hs. destruct (sg_step_ok o (sg_reach_inv _ _ Hr) e He) as (o1 & out1 & Hs1 & _ & _ & _ & Hout). rewrite Hs in Hs1. injection Hs1 as <- <-.
  destruct e as [l r dns d res m f sl| |p d|e| | |]; try done; [by destruct dns| |].
  - destruct Hout as (_ & c & Hc & Ea). pose proof (reach_last_query o tr Hr p c Hc) as Hq. rewrite Ea in Hq. by apply last_query_submitted.
  - destruct Hout as [_ [id Hin]]. by apply (reach_gateway_submitted o tr Hr _ id Hin).
Qed.

(** Every handler of the client returns in every reachable state, whatever
    memory, sockets and the gateway do: DNS queries leave unchanged for the DNS
    gateway, other datagrams for the UDP gateway in packets that fit.  The
    client of the gateway has a server exactly while the SOCKS connection is
    up, and without a SOCKS connection the timer for the next attempt runs. *)
Theorem socks_udpgw_total o tr e :
  sg_reach o tr -> sg_event_ok o e ->
  exists o' out, sg_step o e = Ret (o', out) /\ sg_reach o' (e :: tr) /\ output_ok o e out /\
    u_have_server (s_udpgw_client o') = s_have_socks o' && s_socks_up o' /\ s_timer o' = negb (s_have_socks o').
Proof.
  intros Hr He. destruct (sg_step_ok o (sg_reach_inv _ _ Hr) e He) as (o' & out & Hs & Hi & _ & _ & Hout). exists o', out.
  split; [done|]. split; [by eapply sg_reach_step|]. split; [done|]. split; [apply (si_server _ Hi)|apply (si_timer _ Hi)].
Qed.

(** C39. A datagram that arrives on a DNS connection is handed over whole, to the
    local address of the connection and as coming from the server that this
    address asked last, whichever of its queries it answers. *)
Theorem dns_reply_source o tr p data :
  sg_reach o tr -> sg_event_ok o (SgDatagram p data) ->
  exists o' c remote, sg_step o (SgDatagram p data) = Ret (o', SoUser (ca_local (d_conaddr c)) remote data) /\
    s_heap o !! p = Some c /\ last_query (ca_local (d_conaddr c)) tr = Some remote.
Proof.
  intros Hr [[c Hc] Hlen]. pose proof (sg_reach_inv _ _ Hr) as Hi. unfold sg_step, dgram_handler_received. rewrite Hc. cbn [deref mbind outcome_bind].
  rewrite (proj2 (Z.leb_le _ _)) by (rewrite (si_mtu _ Hi); lia). cbn [ASSERT mbind outcome_bind]. rewrite (do_dns _ _ _ (si_cons _ Hi p c Hc)), (proj2 (Z.ltb_ge _ _) Hlen). cbn [mbind outcome_bind].
  eexists _, c, _. split; [done|]. split; [done|]. by apply (reach_last_query o tr Hr p).
Qed.

(** ** Freeing *)

Lemma free_dns_ok o : sg_inv o -> exists o', free_dns_connections (length (s_list o)) o = Ret o' /\ s_heap o' = ∅ /\ s_num_connections o' = 0 /\
  s_udpgw_client o' = s_udpgw_client o /\ s_have_socks o' = s_have_socks o /\ s_socks_up o' = s_socks_up o.
Proof.
  intros Hi. pose proof (si_nodup _ Hi) as Hnd. pose proof (si_heap _ Hi) as Hh. pose proof (proj1 (si_num _ Hi)) as Hn. clear Hi.
  remember (s_list o) as l eqn:El. revert o El Hh Hn. induction l as [|p l IH]; intros o El Hh Hn; cbn [length free_dns_connections]; rewrite <- El.
  - exists o. split_and!; try done. apply map_empty. intros p. apply eq_None_not_Some. rewrite <- Hh. set_solver.
  - apply NoDup_cons in Hnd as [Hp Hnd]. destruct (proj1 (Hh p)) as [c Hc]; [set_solver|]. unfold connection_free. rewrite Hc. cbn [deref mbind outcome_bind].
    assert (Hl : unlink p (s_list o) = l) by (rewrite <- El; unfold unlink; rewrite filter_cons_False by naive_solver; fold (unlink p l); by apply unlink_absent).
    edestruct (IH Hnd (s_set_table o (delete p (s_heap o)) (unlink p (s_tree o)) (unlink p (s_list o)) (s_num_connections o - 1) (s_jobs o))) as (o' & Hf & Hrest).
    + by sg_simpl.
    + intros x. sg_simpl. destruct (decide (x = p)) as [->|Hne]; [rewrite lookup_delete_eq; split; [done|by intros [? ?]]|]. rewrite lookup_delete_ne, <- Hh by done. set_solver.
    + sg_simpl. cbn [length] in Hn. lia.
    + exists o'. done.
Qed.

(** Freeing releases all connections and leaves no timer; the counter is zero
    again, which the next [SocksUdpGwClient_Init] does not set. *)
Lemma socks_udpgw_free_ok o : sg_inv o ->
  exists o', SocksUdpGwClient_Free o = Ret o' /\ s_heap o' = ∅ /\ s_num_connections o' = 0 /\ u_heap (s_udpgw_client o') = ∅ /\ s_timer o' = false.
Proof.
  intros Hi. unfold SocksUdpGwClient_Free. destruct (free_dns_ok o Hi) as (o1 & -> & Hh & Hn & Hu & Hhave & Hup). cbn [mbind outcome_bind].
  assert (Hfs : exists o2, (if s_have_socks o1 then free_socks o1 else Ret o1) = Ret o2 /\ s_heap o2 = ∅ /\ s_num_connections o2 = 0 /\ ug_inv (s_udpgw_client o2)).
  { destruct (s_have_socks o1) eqn:E; [|exists o1; split_and!; try done; rewrite Hu; apply (si_ug _ Hi)]. unfold free_socks. rewrite E. cbn [ASSERT mbind outcome_bind]. rewrite Hup, Hu.
    destruct (s_socks_up o) eqn:Eup; cbn [mbind outcome_bind]; [|eexists; split; [done|]; split_and!; try done; apply (si_ug _ Hi)].
    unfold UdpGwClient_DisconnectServer. rewrite (si_server _ Hi), Eup, <- Hhave. cbn [andb ASSERT mbind outcome_bind]. eexists. split; [done|]. split_and!; try done. apply inv_flags, (si_ug _ Hi). }
  destruct Hfs as (o2 & -> & Hh2 & Hn2 & Hu2). cbn [mbind outcome_bind]. destruct (udpgw_free_ok _ Hu2) as (u & -> & Hfree & _). cbn [mbind outcome_bind]. by eexists.
Qed.

(** A connection that is freed while its first job is pending leaves the job
    behind, which then reads freed memory. *)
Lemma freed_first_job_faults o p jobs o' first_data slot :
  s_jobs o = p :: jobs -> connection_free o p = Ret o' -> sg_step o' (SgJob first_data slot) = Fault.
Proof.
  intros Hj. unfold connection_free. destruct (s_heap o !! p); [|done]. cbn [deref mbind outcome_bind]. intros [= <-]. unfold sg_step. sg_simpl. rewrite Hj. cbn [head tail deref mbind outcome_bind].
  unfold connection_first_job_handler. sg_simpl. by rewrite lookup_delete_eq.
Qed.

(** ** A run *)

Definition sg_after o (e : sg_event) : SocksUdpGwClient := match sg_step o e with Ret (o', _) => o' | _ => o end.
Lemma sg_reach_after o tr e : sg_reach o tr -> sg_event_ok o e -> sg_reach (sg_after o e) (e :: tr).
Proof. intros Hr He. destruct (sg_step_ok o (sg_reach_inv _ _ Hr) e He) as (o' & out & Hs & _). unfold sg_after. rewrite Hs. by eapply sg_reach_step. Qed.

Definition all_available (p : nat) : resources := mkres (Some p) true true true true.
Definition ask (x : Z) (p : nat) : sg_event := SgSubmit (host 1000) (peer x) true [x; 1] (all_available p) None true true.

(** The SOCKS connection comes up; a query is sent by the first job of its
    connection, a second one to another server at once. *)
Definition dns_0 : SocksUdpGwClient :=
  mksg 1500 (peer 9) (peer 8) 1522 0 2 ∅ [] [] [] (mkug 1500 2 1522 ∅ [] [] [] 0 0 false false) false true false.
Definition dns_1 : SocksUdpGwClient := sg_after dns_0 (SgSocks EVENT_UP true).
Definition dns_2 : SocksUdpGwClient := sg_after dns_1 (ask 1 20).
Definition dns_3 : SocksUdpGwClient := sg_after dns_2 (SgJob [1; 1] true).
Definition dns_4 : SocksUdpGwClient := sg_after dns_3 (ask 2 21).
Definition dns_trace : list sg_event := [ask 2 21; SgJob [1; 1] true; ask 1 20; SgSocks EVENT_UP true].

Lemma dns_reach : sg_reach dns_4 dns_trace.
Proof.
  unfold dns_trace, dns_4, dns_3, dns_2, dns_1. repeat apply sg_reach_after.
  - by apply (sg_reach_init 1500 2 1000 (peer 9) (peer 8) (peer 9) true).
  - done.
  - split_and!; [apply host_wf|by apply peer_wf|by vm_compute|by vm_compute|by vm_compute].
  - exists 20%nat. split; [by vm_compute|]. intros c Hc. vm_compute in Hc. by injection Hc as <-.
  - split_and!; [apply host_wf|by apply peer_wf|by vm_compute|by vm_compute|by vm_compute].
Qed.

Lemma socks_udpgw_total_witness :
  exists o' out, sg_step dns_4 SgServerError = Ret (o', out) /\ sg_reach o' (SgServerError :: dns_trace) /\ output_ok dns_4 SgServerError out /\
    u_have_server (s_udpgw_client o') = s_have_socks o' && s_socks_up o' /\ s_timer o' = negb (s_have_socks o').
Proof. apply (socks_udpgw_total dns_4 dns_trace SgServerError); [exact dns_reach|by vm_compute]. Defined.

(** The answer of the first server is handed over as one of the second. *)
Lemma dns_reply_source_witness :
  exists o' c remote, sg_step dns_4 (SgDatagram 20 [1; 1; 7]) = Ret (o', SoUser (ca_local (d_conaddr c)) remote [1; 1; 7]) /\
    s_heap dns_4 !! 20%nat = Some c /\ last_query (ca_local (d_conaddr c)) dns_trace = Some remote /\ remote = peer 2.
Proof.
  destruct (dns_reply_source dns_4 dns_trace 20 [1; 1; 7]) as (o' & c & remote & Hs & Hc & Hq); [exact dns_reach|split; [by vm_compute; eexists|by vm_compute]|].
  exists o', c, remote. split; [done|]. split; [done|]. split; [done|].
  assert (Hl : ca_local (d_conaddr c) = host 1000) by (vm_compute in Hc; by injection Hc as <-). rewrite Hl in Hq. vm_compute in Hq. by injection Hq as <-.
Defined.
