(* ===== verification/UdpDevice.v ===== *)
(** * UDP packets of the tunnel device

    badvpn tun2socks/tun2socks.c (process_device_udp_packet and
    udpgw_client_handler_received) with misc/ipv4_proto.h, misc/ipv6_proto.h and
    misc/udp_proto.h: UDP packets that the device delivers are checked, taken
    apart and submitted to the client of the UDP gateway, and what that client
    receives is put into packets for the device.

    A struct that is copied from or to a packet is a record whose multi-byte
    fields are the bytes in memory, which are in network order. *)

From S2P Require Import Prelude Buffer Proto SocksClient UdpGw SocksUdpGw.
From stdpp Require Import prelude gmap.
From Stdlib Require Import ZArith Lia ZifyBool.

Local Open Scope Z_scope.

(** ** Headers *)

Definition IPV4_PROTOCOL_UDP : Z := 17.
Definition IPV6_NEXT_UDP : Z := 17.
Definition SIZEOF_ipv4_header : Z := 20.
Definition SIZEOF_ipv6_header : Z := 40.
Definition SIZEOF_udp_header : Z := 8.
Definition SIZEOF_DnsHeader : Z := 12.

Record ipv4_header := mkip4 {
  version4_ihl4 : Z; ds : Z; total_length : bytes; identification : bytes; flags3_fragmentoffset13 : bytes;
  ttl : Z; protocol : Z; ip_check : bytes; ip_source : bytes; ip_destination : bytes }.
Record ipv6_header := mkip6 {
  version4_tc4 : Z; tc4_fl4 : Z; fl : bytes; payload_length : bytes; next_header : Z; hop_limit : Z; ip6_source : bytes; ip6_destination : bytes }.
Record udp_header := mkudp { source_port : bytes; dest_port : bytes; udp_len : bytes; udp_check_field : bytes }.

(** memcpy between packets and structs. *)
Definition byte_at (d : bytes) (p : Z) : Z := be_val (slice d p 1).
Definition ipv4_of (d : bytes) : ipv4_header :=
  mkip4 (byte_at d 0) (byte_at d 1) (slice d 2 2) (slice d 4 2) (slice d 6 2) (byte_at d 8) (byte_at d 9) (slice d 10 2) (slice d 12 4) (slice d 16 4).
Definition ipv4_mem (h : ipv4_header) : bytes :=
  [version4_ihl4 h; ds h] ++ total_length h ++ identification h ++ flags3_fragmentoffset13 h ++ [ttl h; protocol h] ++ ip_check h ++ ip_source h ++ ip_destination h.
Definition ipv6_of (d : bytes) : ipv6_header :=
  mkip6 (byte_at d 0) (byte_at d 1) (slice d 2 2) (slice d 4 2) (byte_at d 6) (byte_at d 7) (slice d 8 16) (slice d 24 16).
Definition ipv6_mem (h : ipv6_header) : bytes :=
  [version4_tc4 h; tc4_fl4 h] ++ fl h ++ payload_length h ++ [next_header h; hop_limit h] ++ ip6_source h ++ ip6_destination h.
Definition udp_of (d : bytes) : udp_header := mkudp (slice d 0 2) (slice d 2 2) (slice d 4 2) (slice d 6 2).
Definition udp_mem (h : udp_header) : bytes := source_port h ++ dest_port h ++ udp_len h ++ udp_check_field h.

Definition set_ip_check (h : ipv4_header) (c : bytes) : ipv4_header :=
  mkip4 (version4_ihl4 h) (ds h) (total_length h) (identification h) (flags3_fragmentoffset13 h) (ttl h) (protocol h) c (ip_source h) (ip_destination h).
Definition set_udp_check (h : udp_header) (c : bytes) : udp_header := mkudp (source_port h) (dest_port h) (udp_len h) c.

Definition IPV4_GET_VERSION (h : ipv4_header) : Z := Z.shiftr (Z.land (version4_ihl4 h) 0xF0) 4.
Definition IPV4_GET_IHL (h : ipv4_header) : Z := Z.land (version4_ihl4 h) 0x0F.
Definition IPV4_MAKE_VERSION_IHL (size : Z) : Z := size / 4 + Z.shiftl 4 4.

(** ** Checksums *)

Definition badvpn_read_be16 (a b : Z) : Z := Z.lor (Z.shiftl a 8) b.

(** The loops over the 16-bit words of a range of an even length. *)
Fixpoint add_words (l : bytes) (t : Z) : Z :=
  match l with
  | a :: b :: l' => add_words l' (u32 (t + badvpn_read_be16 a b))
  | _ => t
  end.

Definition hton16 (x : Z) : bytes := be_bytes 2 x.

(** [extra_len] is a uint16_t. *)
Definition ipv4_checksum (header : ipv4_header) (extra : bytes) : outcome bytes :=
  ASSERT (u16 (zlen extra) mod 2 =? 0);;
  let t := add_words (ipv4_mem header) 0 in
  let t := add_words extra t in
  t ← fold_carries 2 t;
  Ret (hton16 (u16 (Z.lnot t))).

Definition udp_checksum_summer (data : bytes) : outcome Z :=
  ASSERT (zlen data mod 2 =? 0);; Ret (add_words data 0).

(** [t += udp_checksum_summer(...)] *)
Definition add_summer (t : Z) (data : bytes) : outcome Z := s ← udp_checksum_summer data; Ret (u32 (t + s)).

(** The words of the payload, its length a uint16_t. *)
Definition add_payload (t : Z) (payload : bytes) : outcome Z :=
  let payload_len := u16 (zlen payload) in
  if payload_len mod 2 =? 0 then add_summer t (take (Z.to_nat payload_len) payload)
  else
    t ← add_summer t (take (Z.to_nat (payload_len - 1)) payload);
    x ← deref (payload !! Z.to_nat (payload_len - 1));
    add_summer t (hton16 (u16 (Z.shiftl x 8))).

(** From the sum to the checksum. *)
Definition udp_fold (t : Z) : outcome bytes :=
  t ← fold_carries 2 t;
  let t := u32 (Z.lnot t) in
  let t := if t =? 0 then 65535 else t in
  Ret (hton16 t).

Definition udp_checksum (header : udp_header) (payload source_addr dest_addr : bytes) : outcome bytes :=
  t ← add_summer 0 source_addr;
  t ← add_summer t dest_addr;
  t ← add_summer t (hton16 IPV4_PROTOCOL_UDP);
  t ← add_summer t (hton16 (u16 (SIZEOF_udp_header + u16 (zlen payload))));
  t ← add_summer t (udp_mem header);
  t ← add_payload t payload;
  udp_fold t.

Definition udp_ip6_checksum (header : udp_header) (payload source_addr dest_addr : bytes) : outcome bytes :=
  t ← add_summer 0 source_addr;
  t ← add_summer t dest_addr;
  t ← add_summer t (be_bytes 4 (SIZEOF_udp_header + u16 (zlen payload)));
  t ← add_summer t (be_bytes 4 IPV6_NEXT_UDP);
  t ← add_summer t (udp_mem header);
  t ← add_payload t payload;
  udp_fold t.

(** ** Taking packets apart *)

Definition ipv4_check (data : bytes) : outcome (option (ipv4_header * bytes)) :=
  if zlen data <? SIZEOF_ipv4_header then Ret None
  else
    let h := ipv4_of data in
    if negb (IPV4_GET_VERSION h =? 4) then Ret None
    else
      let header_len := IPV4_GET_IHL h * 4 in
      if header_len <? SIZEOF_ipv4_header then Ret None
      else if zlen data <? header_len then Ret None
      else
        let total := be_val (total_length h) in
        if total <? header_len then Ret None
        else if zlen data <? total then Ret None
        else
          computed ← ipv4_checksum (set_ip_check h (hton16 0)) (slice data SIZEOF_ipv4_header (header_len - SIZEOF_ipv4_header));
          if bool_decide (ip_check h <> computed) then Ret None
          else Ret (Some (h, slice data header_len (total - header_len))).

Definition ipv6_check (data : bytes) : option (ipv6_header * bytes) :=
  if zlen data <? SIZEOF_ipv6_header then None
  else
    let h := ipv6_of data in
    if negb (Z.shiftr (version4_tc4 h) 4 =? 6) then None
    else
      let len := be_val (payload_length h) in
      if zlen data - SIZEOF_ipv6_header <? len then None
      else Some (h, slice data SIZEOF_ipv6_header len).

Definition udp_check (data : bytes) : option (udp_header * bytes) :=
  if zlen data <? SIZEOF_udp_header then None
  else
    let h := udp_of data in
    let rest := drop 8 data in
    let udp_length := be_val (udp_len h) in
    if udp_length <? SIZEOF_udp_header then None
    else if SIZEOF_udp_header + zlen rest <? udp_length then None
    else Some (h, take (Z.to_nat (udp_length - SIZEOF_udp_header)) rest).

(** ** The main program *)

(** What it was started with: is there a UDP gateway, a DNS gateway, IPv6 on the
    interface; the MTU of the device and the largest UDP payload. *)
Record tun_options := mkopts { opt_udpgw : bool; opt_dnsgw : bool; opt_ip6 : bool; device_mtu : Z; udp_mtu : Z }.

(** The bits of DnsHeader: a query has QR and RCODE clear and no answers. *)
Definition dns_query (data : bytes) : bool :=
  if zlen data <? SIZEOF_DnsHeader then false
  else
    (Z.land (Z.shiftr (byte_at data 2) 7) 1 =? 0) && (Z.land (byte_at data 3) 15 =? 0) &&
    (be_val (slice data 6 2) =? 0) && (be_val (slice data 8 2) =? 0).

(** Addresses and payload of a packet of the device. *)
Definition udp_datagram (op : tun_options) (data : bytes) : outcome (option (BAddr * BAddr * bool * bytes)) :=
  if negb (opt_udpgw op) then Ret None
  else
    let ip_version := if 0 <? zlen data then Z.shiftr (byte_at data 0) 4 else 0 in
    if ip_version =? 4 then
      if (zlen data <? SIZEOF_ipv4_header) || negb (byte_at data 9 =? IPV4_PROTOCOL_UDP) then Ret None
      else
        r ← ipv4_check data;
        match r with
        | None => Ret None
        | Some (iph, data) =>
            match udp_check data with
            | None => Ret None
            | Some (udph, data) =>
                computed ← udp_checksum (set_udp_check udph (hton16 0)) data (ip_source iph) (ip_destination iph);
                if bool_decide (udp_check_field udph <> computed) then Ret None
                else
                  let is_dns := opt_dnsgw op && bool_decide (dest_port udph = hton16 53) in
                  Ret (Some (mkaddr BADDR_TYPE_IPV4 (ip_source iph) (source_port udph), mkaddr BADDR_TYPE_IPV4 (ip_destination iph) (dest_port udph),
                             is_dns && dns_query data, data))
            end
        end
    else if ip_version =? 6 then
      if negb (opt_ip6 op) then Ret None
      else if (zlen data <? SIZEOF_ipv6_header) || negb (byte_at data 6 =? IPV6_NEXT_UDP) then Ret None
      else
        match ipv6_check data with
        | None => Ret None
        | Some (iph, data) =>
            match udp_check data with
            | None => Ret None
            | Some (udph, data) =>
                computed ← udp_ip6_checksum (set_udp_check udph (hton16 0)) data (ip6_source iph) (ip6_destination iph);
                if bool_decide (udp_check_field udph <> computed) then Ret None
                else Ret (Some (mkaddr BADDR_TYPE_IPV6 (ip6_source iph) (source_port udph), mkaddr BADDR_TYPE_IPV6 (ip6_destination iph) (dest_port udph), false, data))
            end
        end
    else Ret None.

(** The result is whether the packet was taken. *)
Definition process_device_udp_packet (op : tun_options) (o : SocksUdpGwClient) (data : bytes) (r : resources) (malloc : option nat) (flow slot : bool)
  : outcome (SocksUdpGwClient * submit_output * bool) :=
  d ← udp_datagram op data;
  match d with
  | None => Ret (o, ToNobody, false)
  | Some (local, remote, is_dns, data) =>
      if udp_mtu op <? zlen data then Ret (o, ToNobody, false)
      else '(o, out) ← SocksUdpGwClient_SubmitPacket o local remote is_dns data r malloc flow slot; Ret (o, out, true)
  end.

(** The packet is written to a buffer of [device_mtu] bytes. *)
Definition write_packet (op : tun_options) (pkt : bytes) : outcome (option bytes) := if zlen pkt <=? device_mtu op then Ret (Some pkt) else Fault.

(** [None]: nothing is sent to the device. *)
Definition udpgw_client_handler_received (op : tun_options) (local remote : BAddr) (data : bytes) : outcome (option bytes) :=
  ASSERT (opt_udpgw op);;
  ASSERT ((ba_type local =? BADDR_TYPE_IPV4) || (ba_type local =? BADDR_TYPE_IPV6));;
  ASSERT (ba_type local =? ba_type remote);;
  if ba_type local =? BADDR_TYPE_IPV4 then
    if (65535 - (SIZEOF_ipv4_header + SIZEOF_udp_header) <? zlen data) || (device_mtu op - (SIZEOF_ipv4_header + SIZEOF_udp_header) <? zlen data) then Ret None
    else
      let iph := mkip4 (IPV4_MAKE_VERSION_IHL SIZEOF_ipv4_header) 0 (hton16 (SIZEOF_ipv4_header + SIZEOF_udp_header + zlen data)) (hton16 0) (hton16 0)
                   64 IPV4_PROTOCOL_UDP (hton16 0) (ba_ip remote) (ba_ip local) in
      c ← ipv4_checksum iph [];
      let iph := set_ip_check iph c in
      let udph := mkudp (ba_port remote) (ba_port local) (hton16 (SIZEOF_udp_header + zlen data)) (hton16 0) in
      c ← udp_checksum udph data (ip_source iph) (ip_destination iph);
      let udph := set_udp_check udph c in
      write_packet op (ipv4_mem iph ++ udp_mem udph ++ data)
  else
    if negb (opt_ip6 op) then Ret None
    else if (65535 - SIZEOF_udp_header <? zlen data) || (device_mtu op - (SIZEOF_ipv6_header + SIZEOF_udp_header) <? zlen data) then Ret None
    else
      let iph := mkip6 (Z.shiftl 6 4) 0 (hton16 0) (hton16 (SIZEOF_udp_header + zlen data)) IPV6_NEXT_UDP 64 (ba_ip remote) (ba_ip local) in
      let udph := mkudp (ba_port remote) (ba_port local) (hton16 (SIZEOF_udp_header + zlen data)) (hton16 0) in
      c ← udp_ip6_checksum udph data (ip6_source iph) (ip6_destination iph);
      let udph := set_udp_check udph c in
      write_packet op (ipv6_mem iph ++ udp_mem udph ++ data).

(** ** What the checksums are *)

Lemma read_be16_eq a b : is_byte a -> is_byte b -> badvpn_read_be16 a b = a * 256 + b.
Proof. unfold is_byte, badvpn_read_be16. intros Ha Hb. rewrite Z.lor_comm, lor_field by lia. lia. Qed.

Lemma add_words_eq l : forall t, Forall is_byte l -> Nat.even (length l) = true -> 0 <= t -> t + word_sum l < 2 ^ 32 -> add_words l t = t + word_sum l.
Proof.
  induction l as [|a|a b l IH] using pair_ind; intros t Hl He Ht Hb; simpl in *; [lia|done|].
  rewrite !Forall_cons in Hl. destruct Hl as (Ha & Hb' & Hl). pose proof (proj1 (word_sum_bounds l Hl)). rewrite read_be16_eq by done. unfold is_byte in *.
  rewrite u32_small by lia. rewrite IH by (done || lia). lia.
Qed.

Lemma even_zlen {A} (l : list A) : (zlen l mod 2 =? 0) = Nat.even (length l).
Proof.
  destruct (Nat.Even_or_Odd (length l)) as [[k Hk]|[k Hk]]; rewrite Hk.
  - rewrite Nat.even_even. apply Z.eqb_eq. mlia.
  - rewrite Nat.even_odd. apply Z.eqb_neq. mlia.
Qed.

Lemma add_summer_eq t l :
  Forall is_byte l -> Nat.even (length l) = true -> 0 <= t -> t + word_sum l < 2 ^ 32 -> add_summer t l = Ret (t + word_sum l).
Proof.
  intros Hl He Ht Hb. unfold add_summer, udp_checksum_summer. rewrite even_zlen, He. cbn [ASSERT mbind outcome_bind]. pose proof (proj1 (word_sum_bounds l Hl)).
  rewrite add_words_eq by (done || lia). rewrite Z.add_0_l, u32_small by lia. done.
Qed.

Lemma word_sum_be_bytes_2 v : 0 <= v < 65536 -> word_sum (be_bytes 2 v) = v.
Proof. intros Hv. rewrite be_bytes_2. cbn [word_sum]. mlia. Qed.
Lemma word_sum_be_bytes_4 v : 0 <= v < 65536 -> word_sum (be_bytes 4 v) = v.
Proof.
  intros Hv. replace (be_bytes 4 v) with ([0; 0] ++ be_bytes 2 v); [by rewrite word_sum_app, word_sum_be_bytes_2|]. change (be_bytes 4 v) with ((v / 256 ^ 3) mod 256 :: (v / 256 ^ 2) mod 256 :: be_bytes 2 v). by rewrite (Z.div_small v (256 ^ 3)), (Z.div_small v (256 ^ 2)) by lia.
Qed.

Lemma add_payload_eq t p : Forall is_byte p -> zlen p < 65536 -> 0 <= t -> t + word_sum p < 2 ^ 32 -> add_payload t p = Ret (t + word_sum p).
Proof.
  intros Hp Hlen Ht Hb. assert (Hu : u16 (zlen p) = zlen p) by (unfold u16; apply Z.mod_small; lia). unfold add_payload. cbv zeta. rewrite Hu, even_zlen. clear Hu. destruct (Nat.even (length p)) eqn:He.
  - rewrite take_ge by lia. by apply add_summer_eq.
  - destruct p as [|x p' _] using rev_ind; [done|]. rewrite length_app in *. cbn [length] in *. rewrite Nat.add_1_r, Nat.even_succ, <- Nat.negb_even in He. apply negb_false_iff in He.
    apply Forall_app in Hp as [Hp' Hx]. apply Forall_cons in Hx as [Hx _]. rewrite word_sum_app in Hb |- * by done. cbn [word_sum] in *. pose proof (proj1 (word_sum_bounds p' Hp')). unfold is_byte in Hx.
    replace (Z.to_nat (Z.of_nat (length p' + 1) - 1)) with (length p') by lia. rewrite take_app_length, add_summer_eq by (done || lia). cbn [mbind outcome_bind].
    rewrite lookup_app_r, Nat.sub_diag by lia. cbn [lookup list_lookup deref mbind outcome_bind]. rewrite Z.shiftl_mul_pow2 by lia. change (2 ^ 8) with 256.
    unfold u16. rewrite Z.mod_small by lia. assert (Hw : word_sum (hton16 (x * 256)) = x * 256) by (apply word_sum_be_bytes_2; lia).
    rewrite add_summer_eq; [rewrite Hw; f_equal; lia|apply be_bytes_is_byte|done|lia|rewrite Hw; lia].
Qed.

(** The complement is never 65535, and the test for zero, on 32 bits, never
    holds. *)
Lemma udp_fold_eq t : 0 < t < 2 ^ 32 -> exists c, udp_fold t = Ret (hton16 c) /\ 0 <= c < 65535 /\ eq1c (c + t) 0.
Proof.
  intros Ht. unfold udp_fold. destruct (fold_carries_spec t) as (r & -> & Hr & [k Hk] & Hpos); [lia|]. cbn [mbind outcome_bind]. specialize (Hpos ltac:(lia)).
  assert (Hn : u32 (Z.lnot r) = 2 ^ 32 - 1 - r) by (unfold u32, Z.lnot; change (2 ^ 32) with 4294967296; mlia). rewrite Hn. rewrite (proj2 (Z.eqb_neq _ 0)) by lia.
  exists (65535 - r). split; [|split; [lia|exists (1 - k); lia]]. f_equal. unfold hton16. rewrite !be_bytes_2. change (2 ^ 32) with 4294967296. f_equal; [mlia|f_equal; mlia].
Qed.

Definition udp_ok (h : udp_header) : Prop := length (udp_mem h) = 8%nat /\ Forall is_byte (udp_mem h).

Section sums.
Context (h : udp_header) (payload src dst : bytes).
Context (Hh : udp_ok h) (Hp : Forall is_byte payload) (Hlen : zlen payload <= 65527) (Hs : Forall is_byte src) (Hd : Forall is_byte dst).

Lemma udp_sum_parts : word_sum (udp_mem h ++ payload) = word_sum (udp_mem h) + word_sum payload /\ zlen (udp_mem h ++ payload) = 8 + zlen payload /\
  0 <= word_sum (udp_mem h) <= 65535 * 4 /\ 0 <= word_sum payload <= 65535 * 32768.
Proof using Hh Hp Hlen.
  destruct Hh as [Hl Hb]. rewrite word_sum_app by (by rewrite Hl). rewrite length_app, Hl. split; [done|]. split; [lia|]. pose proof (word_sum_bounds _ Hb) as B1. pose proof (word_sum_bounds _ Hp) as B2. rewrite Hl in B1. split; mlia.
Qed.

Lemma udp_checksum_eq : length src = 4%nat -> length dst = 4%nat ->
  exists c, udp_checksum h payload src dst = Ret (hton16 c) /\ 0 <= c < 65535 /\ eq1c (c + packet_sum (udp_mem h ++ payload) src dst 17) 0.
Proof using Hh Hp Hlen Hs Hd.
  intros Ls Ld. destruct udp_sum_parts as (Hw & Hz & Bh & Bp). destruct Hh as [Hl Hb]. pose proof (word_sum_bounds _ Hs) as Bs. pose proof (word_sum_bounds _ Hd) as Bd. rewrite Ls in Bs. rewrite Ld in Bd.
  assert (Bs' : 0 <= word_sum src <= 65535 * 2) by mlia. assert (Bd' : 0 <= word_sum dst <= 65535 * 2) by mlia. clear Bs Bd.
  unfold udp_checksum, SIZEOF_udp_header. rewrite !u16_small by (rewrite ?u16_small; lia).
  assert (W1 : word_sum (hton16 IPV4_PROTOCOL_UDP) = 17) by done. assert (W2 : word_sum (hton16 (8 + zlen payload)) = 8 + zlen payload) by (apply word_sum_be_bytes_2; lia).
  rewrite (add_summer_eq 0 src) by (done || (by rewrite Ls) || lia). cbn [mbind outcome_bind]. rewrite add_summer_eq by (done || (by rewrite Ld) || lia). cbn [mbind outcome_bind].
  rewrite add_summer_eq by (apply be_bytes_is_byte || done || lia). cbn [mbind outcome_bind]. rewrite add_summer_eq by (apply be_bytes_is_byte || done || lia). cbn [mbind outcome_bind].
  rewrite add_summer_eq by (done || (by rewrite Hl) || lia). cbn [mbind outcome_bind]. rewrite add_payload_eq by (done || lia). cbn [mbind outcome_bind]. rewrite W1, W2.
  destruct (udp_fold_eq (0 + word_sum src + word_sum dst + 17 + (8 + zlen payload) + word_sum (udp_mem h) + word_sum payload)) as (c & -> & Hc & Hq); [lia|].
  exists c. split; [done|]. split; [done|]. unfold packet_sum. rewrite Hw, Hz. destruct Hq as [k Hk]. exists k. lia.
Qed.

Lemma udp_ip6_checksum_eq : length src = 16%nat -> length dst = 16%nat ->
  exists c, udp_ip6_checksum h payload src dst = Ret (hton16 c) /\ 0 <= c < 65535 /\ eq1c (c + packet_sum (udp_mem h ++ payload) src dst 17) 0.
Proof using Hh Hp Hlen Hs Hd.
  intros Ls Ld. destruct udp_sum_parts as (Hw & Hz & Bh & Bp). destruct Hh as [Hl Hb]. pose proof (word_sum_bounds _ Hs) as Bs. pose proof (word_sum_bounds _ Hd) as Bd. rewrite Ls in Bs. rewrite Ld in Bd.
  assert (Bs' : 0 <= word_sum src <= 65535 * 8) by mlia. assert (Bd' : 0 <= word_sum dst <= 65535 * 8) by mlia. clear Bs Bd.
  unfold udp_ip6_checksum, SIZEOF_udp_header. rewrite !u16_small by (rewrite ?u16_small; lia).
  assert (W1 : word_sum (be_bytes 4 IPV6_NEXT_UDP) = 17) by done. assert (W2 : word_sum (be_bytes 4 (8 + zlen payload)) = 8 + zlen payload) by (apply word_sum_be_bytes_4; lia).
  rewrite (add_summer_eq 0 src) by (done || (by rewrite Ls) || lia). cbn [mbind outcome_bind]. rewrite add_summer_eq by (done || (by rewrite Ld) || lia). cbn [mbind outcome_bind].
  rewrite add_summer_eq by (apply be_bytes_is_byte || done || lia). cbn [mbind outcome_bind]. rewrite add_summer_eq by (apply be_bytes_is_byte || done || lia). cbn [mbind outcome_bind].
  rewrite add_summer_eq by (done || (by rewrite Hl) || lia). cbn [mbind outcome_bind]. rewrite add_payload_eq by (done || lia). cbn [mbind outcome_bind]. rewrite W1, W2.
  destruct (udp_fold_eq (0 + word_sum src + word_sum dst + (8 + zlen payload) + 17 + word_sum (udp_mem h) + word_sum payload)) as (c & -> & Hc & Hq); [lia|].
  exists c. split; [done|]. split; [done|]. unfold packet_sum. rewrite Hw, Hz. destruct Hq as [k Hk]. exists k. lia.
Qed.
End sums.

Lemma ipv4_checksum_eq h extra :
  length (ipv4_mem h) = 20%nat -> Forall is_byte (ipv4_mem h) -> Forall is_byte extra -> zlen extra <= 40 -> Nat.even (length extra) = true -> 0 < word_sum (ipv4_mem h) ->
  exists c, ipv4_checksum h extra = Ret (hton16 c) /\ 0 <= c < 65535 /\ eq1c (c + word_sum (ipv4_mem h) + word_sum extra) 0.
Proof.
  intros Hl Hb He Hle Hev Hpos. unfold ipv4_checksum. rewrite (u16_small (zlen extra)), even_zlen, Hev by lia. cbn [ASSERT mbind outcome_bind].
  pose proof (word_sum_bounds _ Hb) as B1. pose proof (word_sum_bounds _ He) as B2. rewrite Hl in B1. assert (word_sum extra <= 65535 * 21) by mlia. assert (word_sum (ipv4_mem h) <= 65535 * 10) by mlia.
  rewrite (add_words_eq (ipv4_mem h) 0) by (done || (by rewrite Hl) || lia). rewrite add_words_eq by (done || lia). destruct (fold_carries_spec (0 + word_sum (ipv4_mem h) + word_sum extra)) as (r & -> & Hr & [k Hk] & Hr0); [lia|].
  specialize (Hr0 ltac:(lia)). cbn [mbind outcome_bind]. assert (Hn : u16 (Z.lnot r) = 65535 - r) by (unfold u16, Z.lnot; change (2 ^ 16) with 65536; mlia). rewrite Hn.
  exists (65535 - r). split; [done|]. split; [lia|]. exists (1 - k). lia.
Qed.

(** ** Any packet of the device *)

Lemma byte_at_ok d p : Forall is_byte d -> is_byte (byte_at d p).
Proof.
  intros Hd. unfold byte_at. pose proof (be_val_range (slice d p 1) (Forall_slice _ _ _ _ Hd)) as H. unfold is_byte.
  assert (Hl : (length (slice d p 1) <= 1)%nat) by (unfold slice; rewrite length_take; lia). destruct (length (slice d p 1)) as [|[|n]]; [|done|lia]. simpl in H. lia.
Qed.

Lemma slice_len (d : bytes) p n : 0 <= p -> 0 <= n -> p + n <= zlen d -> length (slice d p n) = Z.to_nat n.
Proof. intros. apply Nat2Z.inj. rewrite zlen_slice by lia. lia. Qed.

Lemma ihl_range h : 0 <= IPV4_GET_IHL h <= 15.
Proof. unfold IPV4_GET_IHL. rewrite (land_low _ 4) by done. pose proof (Z.mod_pos_bound (version4_ihl4 h) (2 ^ 4) eq_refl). lia. Qed.

Lemma field_2_range (l : bytes) : Forall is_byte l -> length l = 2%nat -> 0 <= be_val l < 65536.
Proof. intros Hb Hl. pose proof (be_val_range l Hb) as H. by rewrite Hl in H. Qed.

Lemma hton16_ok x : length (hton16 x) = 2%nat /\ Forall is_byte (hton16 x).
Proof. split; [apply length_be_bytes|apply be_bytes_is_byte]. Qed.

(** Fields of their size. *)
Record ip4_ok (h : ipv4_header) : Prop := {
  i4_v : is_byte (version4_ihl4 h); i4_ds : is_byte (ds h); i4_ttl : is_byte (ttl h); i4_p : is_byte (protocol h);
  i4_tl : length (total_length h) = 2%nat /\ Forall is_byte (total_length h);
  i4_id : length (identification h) = 2%nat /\ Forall is_byte (identification h);
  i4_fl : length (flags3_fragmentoffset13 h) = 2%nat /\ Forall is_byte (flags3_fragmentoffset13 h);
  i4_ck : length (ip_check h) = 2%nat /\ Forall is_byte (ip_check h);
  i4_s : length (ip_source h) = 4%nat /\ Forall is_byte (ip_source h);
  i4_d : length (ip_destination h) = 4%nat /\ Forall is_byte (ip_destination h)
}.

Lemma ip4_mem_ok h : ip4_ok h -> length (ipv4_mem h) = 20%nat /\ Forall is_byte (ipv4_mem h).
Proof.
  intros [H1 H2 H3 H4 [L5 H5] [L6 H6] [L7 H7] [L8 H8] [L9 H9] [L10 H10]]. unfold ipv4_mem. rewrite !length_app, L5, L6, L7, L8, L9, L10. split; [done|].
  rewrite !Forall_app. split_and!; try done; by rewrite !Forall_cons.
Qed.
Lemma ip4_mem_pos h : ip4_ok h -> 0 < version4_ihl4 h -> 0 < word_sum (ipv4_mem h).
Proof.
  intros Hok Hv. destruct (ip4_mem_ok h Hok) as [_ Hb]. unfold ipv4_mem in *. rewrite word_sum_app by done. rewrite Forall_app in Hb. destruct Hb as [_ Hb]. pose proof (proj1 (word_sum_bounds _ Hb)).
  destruct Hok as [_ H2 _ _ _ _ _ _ _ _]. unfold is_byte in H2. cbn [word_sum]. lia.
Qed.
Lemma set_ip_check_ok h c : ip4_ok h -> length c = 2%nat /\ Forall is_byte c -> ip4_ok (set_ip_check h c).
Proof. intros [] Hc. by split. Qed.

Lemma ipv4_of_ok d : Forall is_byte d -> 20 <= zlen d -> ip4_ok (ipv4_of d).
Proof. intros Hd Hl. split; cbn [ipv4_of version4_ihl4 ds ttl protocol total_length identification flags3_fragmentoffset13 ip_check ip_source ip_destination]; try (by apply byte_at_ok); (split; [by rewrite slice_len by lia|by apply Forall_slice]). Qed.

Lemma version_pos h : IPV4_GET_VERSION h = 4 -> is_byte (version4_ihl4 h) -> 0 < version4_ihl4 h.
Proof. unfold IPV4_GET_VERSION, is_byte. intros H Hb. destruct (decide (version4_ihl4 h = 0)) as [E|]; [by rewrite E in H|lia]. Qed.

Lemma ipv4_check_ok data : Forall is_byte data ->
  exists r, ipv4_check data = Ret r /\ match r with Some (h, d) => ip4_ok h /\ Forall is_byte d | None => True end.
Proof.
  intros Hd. unfold ipv4_check. destruct (zlen data <? SIZEOF_ipv4_header) eqn:E1; [by exists None|]. unfold SIZEOF_ipv4_header in E1.
  pose proof (ipv4_of_ok data Hd ltac:(lia)) as Hok. set (h := ipv4_of data) in *. destruct (IPV4_GET_VERSION h =? 4) eqn:E2; cbn [negb]; [|by exists None].
  pose proof (ihl_range h) as Hih. destruct (IPV4_GET_IHL h * 4 <? SIZEOF_ipv4_header) eqn:E3; [by exists None|]. unfold SIZEOF_ipv4_header in *. destruct (zlen data <? IPV4_GET_IHL h * 4) eqn:E4; [by exists None|].
  destruct (be_val (total_length h) <? _); [by exists None|]. destruct (zlen data <? be_val (total_length h)); [by exists None|].
  assert (Hok' : ip4_ok (set_ip_check h (hton16 0))) by (apply set_ip_check_ok; [done|apply hton16_ok]). destruct (ip4_mem_ok _ Hok') as [Hl Hb].
  destruct (ipv4_checksum_eq (set_ip_check h (hton16 0)) (slice data 20 (IPV4_GET_IHL h * 4 - 20))) as (c & -> & _); try done.
  - by apply Forall_slice.
  - rewrite zlen_slice by lia. lia.
  - rewrite slice_len by lia. apply even_to_nat; [lia|]. rewrite Z.even_sub, Z.even_mul. by rewrite orb_true_r.
  - apply ip4_mem_pos; [done|]. apply version_pos; [by apply Z.eqb_eq in E2|apply (i4_v _ Hok)].
  - cbn [mbind outcome_bind]. destruct (bool_decide _); [by exists None|]. eexists. split; [done|]. split; [done|by apply Forall_slice].
Qed.

Lemma udp_of_ok d : Forall is_byte d -> 8 <= zlen d ->
  length (source_port (udp_of d)) = 2%nat /\ length (dest_port (udp_of d)) = 2%nat /\ length (udp_len (udp_of d)) = 2%nat /\ length (udp_check_field (udp_of d)) = 2%nat /\ Forall is_byte (udp_mem (udp_of d)).
Proof.
  intros Hd Hl. cbn [udp_of source_port dest_port udp_len udp_check_field]. rewrite !slice_len by lia. split_and!; try done. unfold udp_mem. cbn [source_port dest_port udp_len udp_check_field]. rewrite !Forall_app. split_and!; by apply Forall_slice.
Qed.

Lemma udp_check_ok data : Forall is_byte data ->
  match udp_check data with
  | Some (h, d) => udp_ok (set_udp_check h (hton16 0)) /\ Forall is_byte d /\ zlen d <= 65527 /\
      (length (source_port h) = 2%nat /\ Forall is_byte (source_port h)) /\ (length (dest_port h) = 2%nat /\ Forall is_byte (dest_port h))
  | None => True
  end.
Proof.
  intros Hd. unfold udp_check. destruct (zlen data <? SIZEOF_udp_header) eqn:E1; [done|]. unfold SIZEOF_udp_header in *. destruct (udp_of_ok data Hd ltac:(lia)) as (L1 & L2 & L3 & L4 & Hb). set (h := udp_of data) in *.
  unfold udp_mem in Hb. rewrite !Forall_app in Hb. destruct Hb as (B1 & B2 & B3 & B4). pose proof (field_2_range _ B3 L3) as Hr.
  destruct (be_val (udp_len h) <? 8) eqn:E2; [done|]. destruct (8 + zlen (drop 8 data) <? be_val (udp_len h)) eqn:E3; [done|]. destruct (hton16_ok 0) as [L5 B5]. unfold udp_ok. split_and!; try done.
  - unfold udp_mem, set_udp_check. cbn [source_port dest_port udp_len udp_check_field]. rewrite !length_app. lia.
  - unfold udp_mem, set_udp_check. cbn [source_port dest_port udp_len udp_check_field]. rewrite !Forall_app. done.
  - by apply Forall_take, Forall_drop.
  - rewrite length_take. lia.
Qed.

Lemma ipv6_check_ok data : Forall is_byte data ->
  match ipv6_check data with
  | Some (h, d) => (length (ip6_source h) = 16%nat /\ Forall is_byte (ip6_source h)) /\ (length (ip6_destination h) = 16%nat /\ Forall is_byte (ip6_destination h)) /\ Forall is_byte d
  | None => True
  end.
Proof.
  intros Hd. unfold ipv6_check. destruct (zlen data <? SIZEOF_ipv6_header) eqn:E1; [done|]. unfold SIZEOF_ipv6_header in *. destruct (negb _); [done|]. cbv zeta. destruct (zlen data - 40 <? _); [done|].
  unfold ipv6_of. cbn [ip6_source ip6_destination]. rewrite !slice_len by lia. split_and!; try done; by apply Forall_slice.
Qed.

Lemma addr4_wf ip port : length ip = 4%nat /\ Forall is_byte ip -> length port = 2%nat /\ Forall is_byte port -> addr_wf (mkaddr BADDR_TYPE_IPV4 ip port).
Proof. intros [? ?] [? ?]. split; [by left|done]. Qed.
Lemma addr6_wf ip port : length ip = 16%nat /\ Forall is_byte ip -> length port = 2%nat /\ Forall is_byte port -> addr_wf (mkaddr BADDR_TYPE_IPV6 ip port).
Proof. intros [? ?] [? ?]. split; [by right|done]. Qed.

Lemma udp_datagram_ok op data : Forall is_byte data ->
  exists r, udp_datagram op data = Ret r /\
    match r with Some (local, remote, _, d) => addr_wf local /\ addr_wf remote /\ ba_type local = ba_type remote /\ Forall is_byte d | None => True end.
Proof.
  intros Hd. unfold udp_datagram. destruct (negb (opt_udpgw op)); [by exists None|]. set (v := if 0 <? zlen data then _ else _). destruct (v =? 4).
  - destruct (_ || _); [by exists None|]. destruct (ipv4_check_ok data Hd) as (r & -> & Hr). cbn [mbind outcome_bind]. destruct r as [[iph d]|]; [|by exists None]. destruct Hr as [Hok Hdb].
    pose proof (udp_check_ok d Hdb) as Hu. destruct (udp_check d) as [[udph p]|]; [|by exists None]. destruct Hu as (Hu & Hpb & Hpl & Hsp & Hdp). destruct (i4_s _ Hok) as [Ls Bs]. destruct (i4_d _ Hok) as [Ld Bd].
    destruct (udp_checksum_eq _ p _ _ Hu Hpb Hpl Bs Bd Ls Ld) as (c & -> & _). cbn [mbind outcome_bind]. destruct (bool_decide _); [by exists None|]. eexists. split; [done|].
    split; [by apply addr4_wf|]. split; [by apply addr4_wf|]. done.
  - destruct (v =? 6); [|by exists None]. destruct (negb _); [by exists None|]. destruct (_ || _); [by exists None|]. pose proof (ipv6_check_ok data Hd) as Hr. destruct (ipv6_check data) as [[iph d]|]; [|by exists None].
    destruct Hr as ([Ls Bs] & [Ld Bd] & Hdb). pose proof (udp_check_ok d Hdb) as Hu. destruct (udp_check d) as [[udph p]|]; [|by exists None]. destruct Hu as (Hu & Hpb & Hpl & Hsp & Hdp).
    destruct (udp_ip6_checksum_eq _ p _ _ Hu Hpb Hpl Bs Bd Ls Ld) as (c & -> & _). cbn [mbind outcome_bind]. destruct (bool_decide _); [by exists None|]. eexists. split; [done|].
    split; [by apply addr6_wf|]. split; [by apply addr6_wf|]. done.
Qed.

(** ** Packets for the device *)

Ltac fixed_lists := repeat match goal with
  | H : length ?l = S _ |- _ => destruct l; [discriminate H|injection H as H]
  | H : length ?l = 0%nat |- _ => apply nil_length_inv in H; subst l
  end.

Ltac compute_to_nat := repeat match goal with |- context [Z.to_nat ?c] => let v := eval vm_compute in (Z.to_nat c) in change (Z.to_nat c) with v end.

Lemma ipv4_of_mem h rest : ip4_ok h -> ipv4_of (ipv4_mem h ++ rest) = h.
Proof.
  intros [_ _ _ _ [L5 _] [L6 _] [L7 _] [L8 _] [L9 _] [L10 _]]. destruct h as [v s tl id fg t p ck sr de]. cbn [total_length identification flags3_fragmentoffset13 ip_check ip_source ip_destination] in *. fixed_lists.
  unfold ipv4_of, byte_at, ipv4_mem, slice. compute_to_nat. cbn -[be_val]. by rewrite !be_val_1.
Qed.

Lemma udp_of_mem h rest : length (source_port h) = 2%nat -> length (dest_port h) = 2%nat -> length (udp_len h) = 2%nat -> length (udp_check_field h) = 2%nat -> udp_of (udp_mem h ++ rest) = h.
Proof. destruct h as [a b c d]. cbn [source_port dest_port udp_len udp_check_field]. intros. fixed_lists. done. Qed.

Lemma ipv6_of_mem h rest : length (fl h) = 2%nat -> length (payload_length h) = 2%nat -> length (ip6_source h) = 16%nat -> length (ip6_destination h) = 16%nat -> ipv6_of (ipv6_mem h ++ rest) = h.
Proof.
  destruct h as [v t f pl n hl sr de]. cbn [fl payload_length ip6_source ip6_destination]. intros L1 L2 L3 L4. fixed_lists. unfold ipv6_of, byte_at, ipv6_mem, slice. compute_to_nat. cbn -[be_val]. by rewrite !be_val_1.
Qed.

(** Setting a checksum field adds it to the sum. *)
Lemma ip_check_sum h c : ip4_ok h -> length c = 2%nat -> word_sum (ipv4_mem (set_ip_check h c)) = word_sum (ipv4_mem (set_ip_check h (hton16 0))) + word_sum c.
Proof.
  intros [_ _ _ _ [L5 _] [L6 _] [L7 _] [L8 _] [L9 _] [L10 _]] Lc. unfold set_ip_check, ipv4_mem. cbn [version4_ihl4 ds total_length identification flags3_fragmentoffset13 ttl protocol ip_check ip_source ip_destination].
  assert (W0 : word_sum (hton16 0) = 0) by done.
  rewrite !word_sum_app; rewrite ?length_app, ?L5, ?L6, ?L7, ?Lc, ?(proj1 (hton16_ok 0)), ?L9; try done. rewrite W0. lia.
Qed.
Lemma udp_check_sum h c payload : length (source_port h) = 2%nat -> length (dest_port h) = 2%nat -> length (udp_len h) = 2%nat -> length c = 2%nat ->
  word_sum (udp_mem (set_udp_check h c) ++ payload) = word_sum (udp_mem (set_udp_check h (hton16 0)) ++ payload) + word_sum c.
Proof.
  intros L1 L2 L3 Lc. unfold udp_mem, set_udp_check. cbn [source_port dest_port udp_len udp_check_field]. assert (W0 : word_sum (hton16 0) = 0) by done.
  rewrite <- !app_assoc. rewrite !word_sum_app; rewrite ?L1, ?L2, ?L3, ?Lc, ?(proj1 (hton16_ok 0)); try done. rewrite W0. lia.
Qed.

(** A packet as it has to be on the wire: the words of an IPv4 header and those
    of the datagram with its pseudo header sum to minus zero. *)
Definition wire_ok (v6 : bool) (pkt src dst : bytes) : Prop :=
  (if v6 then True else eq1c (word_sum (take 20 pkt)) 0) /\ checksum_ok (drop (if v6 then 40 else 20) pkt) src dst 17.

Lemma udp_parts_parse sp dp ck data :
  length sp = 2%nat -> length dp = 2%nat -> length ck = 2%nat -> zlen data <= 65527 ->
  let h := mkudp sp dp (hton16 (8 + zlen data)) ck in udp_check (udp_mem h ++ data) = Some (h, data).
Proof.
  intros L1 L2 L3 Hd h. destruct (hton16_ok (8 + zlen data)) as [L4 _]. assert (Hl : length (udp_mem h) = 8%nat) by (unfold udp_mem, h; cbn [source_port dest_port udp_len udp_check_field]; rewrite !length_app; lia).
  unfold udp_check, SIZEOF_udp_header. rewrite length_app, (proj2 (Z.ltb_ge _ _)) by lia. rewrite udp_of_mem by done. rewrite drop_app_length' by done.
  assert (Hul : be_val (udp_len h) = 8 + zlen data) by (apply be_val_u16; lia). cbv zeta. rewrite Hul, !(proj2 (Z.ltb_ge _ _)) by lia.
  f_equal. f_equal. replace (Z.to_nat (8 + zlen data - 8)) with (length data) by lia. apply firstn_all.
Qed.

Section reply.
Context (local remote : BAddr) (data : bytes).
Context (Hl : addr_wf local) (Hr : addr_wf remote) (Hd : Forall is_byte data).

Let udph : udp_header := mkudp (ba_port remote) (ba_port local) (hton16 (8 + zlen data)) (hton16 0).

Lemma reply_udp_ok : udp_ok udph.
Proof using Hl Hr.
  destruct Hl as (_ & L1 & _ & B1), Hr as (_ & L2 & _ & B2). destruct (hton16_ok (8 + zlen data)) as [L3 B3]. destruct (hton16_ok 0) as [L4 B4].
  unfold udp_ok, udp_mem. cbn [udph source_port dest_port udp_len udp_check_field]. rewrite !length_app, !Forall_app. split; [lia|done].
Qed.

Lemma reply_udp_parse c : length c = 2%nat -> zlen data <= 65527 -> udp_check (udp_mem (set_udp_check udph c) ++ data) = Some (set_udp_check udph c, data).
Proof using Hl Hr. intros Hc Hlen. destruct Hl as (_ & L1 & _), Hr as (_ & L2 & _). by apply udp_parts_parse. Qed.

Lemma reply_udp_sum c src dst : zlen data <= 65527 -> 0 <= c < 65535 ->
  eq1c (c + packet_sum (udp_mem udph ++ data) src dst 17) 0 -> checksum_ok (udp_mem (set_udp_check udph (hton16 c)) ++ data) src dst 17.
Proof using Hl Hr.
  intros Hlen Hc [k Hk]. destruct Hl as (_ & L1 & _), Hr as (_ & L2 & _). exists k. unfold packet_sum in *.
  rewrite udp_check_sum; [|done|done|apply hton16_ok|apply hton16_ok]. unfold hton16 at 2. rewrite word_sum_be_bytes_2 by lia. change (set_udp_check udph (hton16 0)) with udph.
  assert (Hz : zlen (udp_mem (set_udp_check udph (hton16 c)) ++ data) = zlen (udp_mem udph ++ data)) by (unfold udp_mem; cbn [source_port dest_port udp_len udp_check_field set_udp_check]; by rewrite !length_app). rewrite Hz. lia.
Qed.

Lemma reply4 op : opt_udpgw op = true -> ba_type local = BADDR_TYPE_IPV4 -> ba_type remote = BADDR_TYPE_IPV4 -> zlen data <= 65507 -> zlen data <= device_mtu op - 28 ->
  exists pkt dns, udpgw_client_handler_received op local remote data = Ret (Some pkt) /\ zlen pkt <= device_mtu op /\
    udp_datagram op pkt = Ret (Some (remote, local, dns, data)) /\ wire_ok false pkt (ba_ip remote) (ba_ip local).
Proof using Hl Hr Hd.
  intros Hgw Tl Tr Hlen Hmtu. pose proof reply_udp_ok as Hu. unfold udpgw_client_handler_received. rewrite Hgw, Tl, Tr. cbn [ASSERT mbind outcome_bind Z.eqb orb BADDR_TYPE_IPV4 Pos.eqb].
  unfold SIZEOF_ipv4_header, SIZEOF_udp_header. rewrite !(proj2 (Z.ltb_ge _ _)) by lia. cbn [orb]. set (iph := mkip4 _ _ _ _ _ _ _ _ _ _). fold udph.
  assert (A1 : length (ba_ip remote) = 4%nat /\ Forall is_byte (ba_ip remote)) by (destruct Hr as ([[_ ?]|[T _]] & _ & ? & _); [done|by rewrite Tr in T]).
  assert (A2 : length (ba_ip local) = 4%nat /\ Forall is_byte (ba_ip local)) by (destruct Hl as ([[_ ?]|[T _]] & _ & ? & _); [done|by rewrite Tl in T]).
  assert (Hok : ip4_ok iph) by (split; try (by unfold is_byte); try apply hton16_ok; done). destruct (ip4_mem_ok _ Hok) as [Lm Bm].
  destruct (ipv4_checksum_eq iph [] Lm Bm) as (c1 & Hc1 & Rc1 & Sc1); [by constructor|done|done|by apply ip4_mem_pos|]. rewrite Hc1. cbn [mbind outcome_bind].
  destruct (udp_checksum_eq udph data (ba_ip remote) (ba_ip local) Hu Hd ltac:(lia) (proj2 A1) (proj2 A2) (proj1 A1) (proj1 A2)) as (c2 & Hc2 & Rc2 & Sc2).
  cbn [ip_source ip_destination set_ip_check iph]. rewrite Hc2. cbn [mbind outcome_bind]. set (iph1 := set_ip_check iph (hton16 c1)). set (udph1 := set_udp_check udph (hton16 c2)).
  assert (Hok1 : ip4_ok iph1) by (apply set_ip_check_ok; [done|apply hton16_ok]). destruct (ip4_mem_ok _ Hok1) as [Lm1 Bm1].
  assert (Lu1 : length (udp_mem udph1) = 8%nat) by (unfold udph1; rewrite <- (proj1 Hu); unfold udp_mem; cbn [source_port dest_port udp_len udp_check_field set_udp_check]; rewrite !length_app; done).
  set (pkt := ipv4_mem iph1 ++ udp_mem udph1 ++ data). assert (Lp : zlen pkt = 28 + zlen data) by (unfold pkt; rewrite !length_app; lia).
  assert (Hof : ipv4_of pkt = iph1) by (by apply ipv4_of_mem). unfold write_packet. rewrite (proj2 (Z.leb_le _ _)) by lia.
  exists pkt. eexists. split; [done|]. split; [lia|]. split.
  - unfold udp_datagram. rewrite Hgw. cbn [negb]. change (byte_at pkt 0) with (version4_ihl4 (ipv4_of pkt)). change (byte_at pkt 9) with (protocol (ipv4_of pkt)). rewrite Hof. rewrite (proj2 (Z.ltb_lt 0 _)) by lia.
    replace (Z.shiftr (version4_ihl4 iph1) 4 =? 4) with true by done. unfold SIZEOF_ipv4_header at 1. rewrite (proj2 (Z.ltb_ge _ _)) by lia. replace (protocol iph1 =? IPV4_PROTOCOL_UDP) with true by done. cbn [negb orb].
    assert (Hchk : ipv4_check pkt = Ret (Some (iph1, udp_mem udph1 ++ data))).
    { unfold ipv4_check. rewrite Hof. unfold SIZEOF_ipv4_header. rewrite (proj2 (Z.ltb_ge (zlen pkt) 20)) by lia. replace (IPV4_GET_VERSION iph1 =? 4) with true by done. cbn [negb]. replace (IPV4_GET_IHL iph1 * 4) with 20 by done.
      replace (20 <? 20) with false by done. rewrite (proj2 (Z.ltb_ge (zlen pkt) 20)) by lia. assert (Htl : be_val (total_length iph1) = 28 + zlen data) by (apply be_val_u16; lia). cbv zeta. rewrite Htl, !(proj2 (Z.ltb_ge _ _)) by lia.
      change (set_ip_check iph1 (hton16 0)) with iph. replace (slice pkt 20 (20 - 20)) with (@nil Z) by (symmetry; apply slice_0). rewrite Hc1. cbn [mbind outcome_bind]. rewrite bool_decide_eq_false_2 by (intros H; by apply H).
      f_equal. f_equal. f_equal. unfold pkt. rewrite slice_skip by lia. rewrite Lm1. apply slice_full. rewrite length_app. lia. }
    rewrite Hchk. cbn [mbind outcome_bind]. unfold udph1. rewrite reply_udp_parse by (apply hton16_ok || lia). change (set_udp_check (set_udp_check udph (hton16 c2)) (hton16 0)) with udph.
    cbn [iph1 iph set_ip_check ip_source ip_destination]. rewrite Hc2. cbn [mbind outcome_bind]. rewrite bool_decide_eq_false_2 by (intros H; by apply H). cbn [udph set_udp_check source_port dest_port].
    assert (Er : mkaddr BADDR_TYPE_IPV4 (ba_ip remote) (ba_port remote) = remote) by (rewrite <- Tr; by destruct remote).
    assert (El : mkaddr BADDR_TYPE_IPV4 (ba_ip local) (ba_port local) = local) by (rewrite <- Tl; by destruct local). by rewrite Er, El.
  - unfold wire_ok. cbv iota. unfold pkt. split; [|rewrite (drop_app_length' _ _ _ (eq_sym Lm1)); apply reply_udp_sum; [lia|done|exact Sc2]].
    rewrite (take_app_length' _ _ _ (eq_sym Lm1)). unfold iph1. rewrite ip_check_sum by (done || apply hton16_ok). change (set_ip_check iph (hton16 0)) with iph. unfold hton16. rewrite word_sum_be_bytes_2 by lia.
    destruct Sc1 as [k Hk]. exists k. cbn [word_sum] in Hk. lia.
Qed.

Lemma reply6 op : opt_udpgw op = true -> opt_ip6 op = true -> ba_type local = BADDR_TYPE_IPV6 -> ba_type remote = BADDR_TYPE_IPV6 -> zlen data <= 65527 -> zlen data <= device_mtu op - 48 ->
  exists pkt, udpgw_client_handler_received op local remote data = Ret (Some pkt) /\ zlen pkt <= device_mtu op /\
    udp_datagram op pkt = Ret (Some (remote, local, false, data)) /\ wire_ok true pkt (ba_ip remote) (ba_ip local).
Proof using Hl Hr Hd.
  intros Hgw H6 Tl Tr Hlen Hmtu. pose proof reply_udp_ok as Hu. unfold udpgw_client_handler_received. rewrite Hgw, H6, Tl, Tr. cbn [ASSERT mbind outcome_bind Z.eqb orb BADDR_TYPE_IPV4 BADDR_TYPE_IPV6 Pos.eqb negb].
  unfold SIZEOF_ipv6_header, SIZEOF_udp_header. rewrite !(proj2 (Z.ltb_ge _ _)) by lia. cbn [orb]. set (iph := mkip6 _ _ _ _ _ _ _ _). fold udph.
  assert (A1 : length (ba_ip remote) = 16%nat /\ Forall is_byte (ba_ip remote)) by (destruct Hr as ([[T _]|[_ ?]] & _ & ? & _); [by rewrite Tr in T|done]).
  assert (A2 : length (ba_ip local) = 16%nat /\ Forall is_byte (ba_ip local)) by (destruct Hl as ([[T _]|[_ ?]] & _ & ? & _); [by rewrite Tl in T|done]).
  destruct (udp_ip6_checksum_eq udph data (ba_ip remote) (ba_ip local) Hu Hd ltac:(lia) (proj2 A1) (proj2 A2) (proj1 A1) (proj1 A2)) as (c2 & Hc2 & Rc2 & Sc2).
  cbn [ip6_source ip6_destination iph]. rewrite Hc2. cbn [mbind outcome_bind]. set (udph1 := set_udp_check udph (hton16 c2)).
  destruct (hton16_ok (8 + zlen data)) as [L3 _]. destruct (hton16_ok 0) as [L4 _].
  assert (Lm : length (ipv6_mem iph) = 40%nat) by (unfold ipv6_mem; cbn [iph version4_tc4 tc4_fl4 fl payload_length next_header hop_limit ip6_source ip6_destination]; rewrite !length_app, L3, L4, (proj1 A1), (proj1 A2); done).
  assert (Lu1 : length (udp_mem udph1) = 8%nat) by (unfold udph1; rewrite <- (proj1 Hu); unfold udp_mem; cbn [source_port dest_port udp_len udp_check_field set_udp_check]; rewrite !length_app; done).
  set (pkt := ipv6_mem iph ++ udp_mem udph1 ++ data). assert (Lp : zlen pkt = 48 + zlen data) by (unfold pkt; rewrite !length_app; lia).
  assert (Hof : ipv6_of pkt = iph) by (apply ipv6_of_mem; [done|done|apply A1|apply A2]). unfold write_packet. rewrite (proj2 (Z.leb_le _ _)) by lia.
  exists pkt. split; [done|]. split; [lia|]. split.
  - unfold udp_datagram. rewrite Hgw, H6. cbn [negb]. change (byte_at pkt 0) with (version4_tc4 (ipv6_of pkt)). change (byte_at pkt 6) with (next_header (ipv6_of pkt)). rewrite Hof. rewrite (proj2 (Z.ltb_lt 0 _)) by lia.
    replace (Z.shiftr (version4_tc4 iph) 4) with 6 by done. replace (6 =? 4) with false by done. replace (6 =? 6) with true by done. unfold SIZEOF_ipv6_header. rewrite (proj2 (Z.ltb_ge _ _)) by lia.
    replace (next_header iph =? IPV6_NEXT_UDP) with true by done. cbn [negb orb].
    assert (Hchk : ipv6_check pkt = Some (iph, udp_mem udph1 ++ data)).
    { unfold ipv6_check. rewrite Hof. unfold SIZEOF_ipv6_header. rewrite (proj2 (Z.ltb_ge (zlen pkt) 40)) by lia. replace (Z.shiftr (version4_tc4 iph) 4 =? 6) with true by done. cbn [negb].
      assert (Hpl : be_val (payload_length iph) = 8 + zlen data) by (apply be_val_u16; lia). cbv zeta. rewrite Hpl, (proj2 (Z.ltb_ge _ _)) by lia.
      f_equal. f_equal. unfold pkt. rewrite slice_skip by lia. rewrite Lm. apply slice_full. rewrite length_app. lia. }
    rewrite Hchk. unfold udph1. rewrite reply_udp_parse by (apply hton16_ok || lia). change (set_udp_check (set_udp_check udph (hton16 c2)) (hton16 0)) with udph.
    cbn [iph ip6_source ip6_destination]. rewrite Hc2. cbn [mbind outcome_bind]. rewrite bool_decide_eq_false_2 by (intros H; by apply H). cbn [udph set_udp_check source_port dest_port].
    assert (Er : mkaddr BADDR_TYPE_IPV6 (ba_ip remote) (ba_port remote) = remote) by (rewrite <- Tr; by destruct remote).
    assert (El : mkaddr BADDR_TYPE_IPV6 (ba_ip local) (ba_port local) = local) by (rewrite <- Tl; by destruct local). by rewrite Er, El.
  - unfold wire_ok. cbv iota. unfold pkt. split; [done|]. rewrite (drop_app_length' _ _ _ (eq_sym Lm)). apply reply_udp_sum; [lia|done|exact Sc2].
Qed.

(** Whatever is handed over: the handler returns, and a packet that it writes is
    a datagram from [remote] to [local]. *)
Lemma reply_any op : opt_udpgw op = true -> ba_type local = ba_type remote ->
  exists w, udpgw_client_handler_received op local remote data = Ret w /\
    match w with
    | Some pkt => zlen pkt <= device_mtu op /\ (exists dns, udp_datagram op pkt = Ret (Some (remote, local, dns, data))) /\ wire_ok (ba_type local =? BADDR_TYPE_IPV6) pkt (ba_ip remote) (ba_ip local)
    | None => True
    end.
Proof using Hl Hr Hd.
  intros Hgw Ht. destruct Hl as ([[Tl _]|[Tl _]] & _); rewrite Tl in Ht; symmetry in Ht.
  - destruct (decide (zlen data <= 65507 /\ zlen data <= device_mtu op - 28)) as [[H1 H2]|Hbig].
    + destruct (reply4 op Hgw Tl Ht H1 H2) as (pkt & dns & Hs & Hp & Hdg & Hw). exists (Some pkt). rewrite Tl. split; [done|]. split; [done|]. split; [by exists dns|done].
    + exists None. split; [|done]. unfold udpgw_client_handler_received. rewrite Hgw, Tl, Ht. cbn [ASSERT mbind outcome_bind Z.eqb orb BADDR_TYPE_IPV4 Pos.eqb]. unfold SIZEOF_ipv4_header, SIZEOF_udp_header.
      destruct (_ || _) eqn:E; [done|]. apply orb_false_iff in E as [E1 E2]. lia.
  - destruct (opt_ip6 op) eqn:E6; [|exists None; split; [|done]; unfold udpgw_client_handler_received; by rewrite Hgw, Tl, Ht, E6].
    destruct (decide (zlen data <= 65527 /\ zlen data <= device_mtu op - 48)) as [[H1 H2]|Hbig].
    + destruct (reply6 op Hgw E6 Tl Ht H1 H2) as (pkt & Hs & Hp & Hdg & Hw). exists (Some pkt). rewrite Tl. split; [done|]. split; [done|]. split; [by exists false|done].
    + exists None. split; [|done]. unfold udpgw_client_handler_received. rewrite Hgw, E6, Tl, Ht. cbn [ASSERT mbind outcome_bind Z.eqb orb BADDR_TYPE_IPV4 BADDR_TYPE_IPV6 Pos.eqb negb]. unfold SIZEOF_ipv6_header, SIZEOF_udp_header.
      destruct (_ || _) eqn:E; [done|]. apply orb_false_iff in E as [E1 E2]. lia.
Qed.
End reply.

(** ** The device and the gateway together *)

Inductive tun_event :=
| TunPacket (data : bytes) (r : resources) (malloc : option nat) (flow slot : bool)
| TunOther (e : sg_event).

(** The result: what is written to the device. *)
Definition tun_step (op : tun_options) (o : SocksUdpGwClient) (e : tun_event) : outcome (SocksUdpGwClient * option bytes) :=
  match e with
  | TunPacket data r malloc flow slot => '(o, _, _) ← process_device_udp_packet op o data r malloc flow slot; Ret (o, None)
  | TunOther e =>
      '(o, out) ← sg_step o e;
      match out with
      | SoUser local remote data => w ← udpgw_client_handler_received op local remote data; Ret (o, w)
      | _ => Ret (o, None)
      end
  end.

Definition tun_event_ok (o : SocksUdpGwClient) (e : tun_event) : Prop :=
  match e with
  | TunPacket data r malloc _ _ =>
      Forall is_byte data /\ s_jobs o = [] /\ match r_malloc r with Some p => s_heap o !! p = None | None => True end /\
      match malloc with Some p => u_heap (s_udpgw_client o) !! p = None | None => True end
  | TunOther e =>
      sg_event_ok o e /\ match e with SgSubmit _ _ _ _ _ _ _ _ => False | SgDatagram _ data => Forall is_byte data | _ => True end
  end.

(** The states of a run of the program, with the packets the device has
    delivered. *)
Inductive tun_reach (op : tun_options) : SocksUdpGwClient -> list bytes -> Prop :=
| tun_init max size server dnsgw gw init o :
    opt_udpgw op = true -> udp_mtu op < 2 ^ 31 -> SocksUdpGwClient_Init 0 (udp_mtu op) max size server dnsgw gw true init = Ret (Some o) -> tun_reach op o []
| tun_next o pkts e o' w :
    tun_reach op o pkts -> tun_event_ok o e -> tun_step op o e = Ret (o', w) ->
    tun_reach op o' (match e with TunPacket data _ _ _ _ => data :: pkts | TunOther _ => pkts end).

(** [q] is a packet from [local] to [remote]. *)
Definition from_to (op : tun_options) (q : bytes) (local remote : BAddr) : Prop := exists dns d, udp_datagram op q = Ret (Some (local, remote, dns, d)).

Lemma from_to_wf op q local remote : Forall is_byte q -> from_to op q local remote -> addr_wf local /\ addr_wf remote /\ ba_type local = ba_type remote.
Proof. intros Hq (dns & d & Hd). destruct (udp_datagram_ok op q Hq) as (r & Hr & H). rewrite Hd in Hr. injection Hr as <-. naive_solver. Qed.

(** A packet of the device is a datagram for the client, or nothing happens. *)
Lemma packet_step op o data r malloc flow slot :
  udp_mtu op = s_udp_mtu o -> tun_event_ok o (TunPacket data r malloc flow slot) -> sg_inv o ->
  exists o' out b, process_device_udp_packet op o data r malloc flow slot = Ret (o', out, b) /\
    (o' = o \/ exists local remote dns d out', from_to op data local remote /\ sg_event_ok o (SgSubmit local remote dns d r malloc flow slot) /\
                 sg_step o (SgSubmit local remote dns d r malloc flow slot) = Ret (o', out')).
Proof.
  intros Hm (Hd & Hj & Hr & Hml) Hi. unfold process_device_udp_packet. destruct (udp_datagram_ok op data Hd) as (x & Hx & Hok). rewrite Hx. cbn [mbind outcome_bind].
  destruct x as [[[[local remote] dns] d]|]; [|eexists _, _, _; split; [done|by left]]. destruct (udp_mtu op <? zlen d) eqn:E; [eexists _, _, _; split; [done|by left]|].
  destruct Hok as (Hl & Hrm & _ & _). assert (He : sg_event_ok o (SgSubmit local remote dns d r malloc flow slot)) by (split_and!; [done|done|lia|by destruct dns]).
  destruct (sg_step_ok o Hi _ He) as (o' & out' & Hs & _). pose proof Hs as Hs'. unfold sg_step in Hs. destruct (SocksUdpGwClient_SubmitPacket _ _ _ _ _ _ _ _ _) as [[o1 out1]| |]; [|done..]. cbn [mbind outcome_bind] in *. injection Hs as -> _.
  eexists _, _, _. split; [done|]. right. exists local, remote, dns, d, out'. split; [by exists dns, d|done].
Qed.

(** A run of the program is a run of the client whose datagrams came from the
    device. *)
Lemma tun_reach_run op o pkts : tun_reach op o pkts ->
  opt_udpgw op = true /\ udp_mtu op = s_udp_mtu o /\ Forall (Forall is_byte) pkts /\
  exists tr, sg_reach o tr /\ forall local remote, sg_submitted tr local remote -> exists q, q ∈ pkts /\ from_to op q local remote.
Proof.
  induction 1 as [max size server dnsgw gw init o Hgw Hm Hinit|o pkts e o' w Hr (Hgw & Hm & Hb & tr & Htr & Hsub) He Hs].
  { split; [done|]. split; [|split; [constructor|]; exists []; split; [by eapply sg_reach_init|]; intros l r (d & x & rr & m & f & sl & H); set_solver].
    revert Hinit. unfold SocksUdpGwClient_Init. destruct (negb _); [|done]. cbn [ASSERT mbind outcome_bind]. destruct (_ || _); [|done]. cbn [ASSERT mbind outcome_bind].
    destruct (UdpGwClient_Init _ max size true) as [[u|]| |]; try done. destruct init; cbn; by intros [= <-]. }
  pose proof (sg_reach_inv _ _ Htr) as Hi. split; [done|]. destruct e as [data r malloc flow slot|e]; unfold tun_step in Hs.
  - destruct (packet_step op o data r malloc flow slot Hm He Hi) as (o1 & out & b & Hp & Hcase). rewrite Hp in Hs. cbn [mbind outcome_bind] in Hs. injection Hs as <- _.
    destruct Hcase as [->|(local & remote & dns & d & out' & Hft & Hok & Hst)].
    + split; [done|]. split; [by constructor; [apply He|]|]. exists tr. split; [done|]. intros l rm H. destruct (Hsub l rm H) as (q & Hq & Hf). exists q. split; [set_solver|done].
    + destruct (sg_step_ok o Hi _ Hok) as (o2 & out2 & Hst2 & _ & [_ Hmtu] & _). rewrite Hst in Hst2. injection Hst2 as <- <-.
      split; [congruence|]. split; [by constructor; [apply He|]|]. exists (SgSubmit local remote dns d r malloc flow slot :: tr). split; [by eapply sg_reach_step|].
      intros l rm (dns' & x & rr & mm & f & sl & Hin). apply elem_of_cons in Hin as [[= -> -> _ _ _ _ _ _]|Hin]; [exists data; split; [set_solver|done]|].
      destruct (Hsub l rm) as (q & Hq & Hf); [by exists dns', x, rr, mm, f, sl|]. exists q. split; [set_solver|done].
  - destruct He as [Hok Hne]. destruct (sg_step_ok o Hi e Hok) as (o2 & out2 & Hst & _ & [_ Hmtu] & _). rewrite Hst in Hs. cbn [mbind outcome_bind] in Hs.
    assert (o2 = o') as -> by (destruct out2; try (by injection Hs as <- _); destruct (udpgw_client_handler_received _ _ _ _); [|done..]; cbn [mbind outcome_bind] in Hs; by injection Hs as <- _).
    split; [congruence|]. split; [done|]. exists (e :: tr). split; [by eapply sg_reach_step|]. intros l rm (dns' & x & rr & mm & f & sl & Hin).
    apply elem_of_cons in Hin as [<-|Hin]; [done|]. apply Hsub. by exists dns', x, rr, mm, f, sl.
Qed.

(** C6. On any packets of the device, any answers of the gateways and any lack
    of resources the program goes on: no assertion fails and no buffer is
    exceeded.  What it writes to the device are UDP packets that fit the
    device, with right checksums, and answer a packet that the device
    delivered: from the address that one went to, to the address it came
    from. *)
Theorem tun_udp_answers op o pkts e :
  tun_reach op o pkts -> tun_event_ok o e ->
  exists o' w, tun_step op o e = Ret (o', w) /\
    forall pkt, w = Some pkt -> zlen pkt <= device_mtu op /\
      exists q local remote, q ∈ pkts /\ from_to op q local remote /\ from_to op pkt remote local /\ wire_ok (ba_type local =? BADDR_TYPE_IPV6) pkt (ba_ip remote) (ba_ip local).
Proof.
  intros Hr He. destruct (tun_reach_run _ _ _ Hr) as (Hgw & Hm & Hb & tr & Htr & Hsub). pose proof (sg_reach_inv _ _ Htr) as Hi. destruct e as [data r malloc flow slot|e]; unfold tun_step.
  - destruct (packet_step op o data r malloc flow slot Hm He Hi) as (o1 & out & b & -> & _). by eexists _, None.
  - destruct He as [Hok Hne]. destruct (sg_step_ok o Hi e Hok) as (o2 & out2 & Hst & _ & _ & _ & Hout). rewrite Hst. cbn [mbind outcome_bind]. destruct out2 as [| | |local remote d]; try (by eexists _, None).
    destruct (Hsub local remote) as (q & Hq & Hf); [by eapply (sg_user_submitted o tr e)|]. rewrite Forall_forall in Hb. destruct (from_to_wf op q local remote (Hb q Hq) Hf) as (Hl & Hrm & Ht).
    assert (Hd : Forall is_byte d) by (destruct e as [? ? [] ? ? ? ? ?| |p x|e| | |]; try done; [by destruct Hout as [-> _]|by destruct Hout as [? _]]).
    destruct (reply_any local remote d Hl Hrm Hd op Hgw Ht) as (w & -> & Hw). cbn [mbind outcome_bind]. exists o2, w. split; [done|]. intros pkt ->. destruct Hw as (Hp & [dns Hdg] & Hwire).
    split; [done|]. exists q, local, remote. split; [done|]. split; [done|]. split; [by exists dns, d|done].
Qed.

(** C26. Round trip: what is handed over for a local address and fits the device
    becomes a packet which the checks of the program take for a datagram with
    this payload, from the remote to the local address, and whose checksums
    are right. *)
Theorem device_reply_roundtrip op local remote data :
  opt_udpgw op = true -> addr_wf local -> addr_wf remote -> ba_type local = ba_type remote -> (ba_type local = BADDR_TYPE_IPV6 -> opt_ip6 op = true) ->
  Forall is_byte data -> zlen data + (if ba_type local =? BADDR_TYPE_IPV6 then 48 else 28) <= device_mtu op -> zlen data <= 65507 ->
  exists pkt dns, udpgw_client_handler_received op local remote data = Ret (Some pkt) /\ zlen pkt <= device_mtu op /\
    udp_datagram op pkt = Ret (Some (remote, local, dns, data)) /\ wire_ok (ba_type local =? BADDR_TYPE_IPV6) pkt (ba_ip remote) (ba_ip local).
Proof.
  intros Hgw Hl Hr Ht H6 Hd Hm Hlen. destruct Hl as ([[Tl ?]|[Tl ?]] & ?); rewrite Tl in Ht, Hm |- *; symmetry in Ht; cbn in Hm.
  - apply reply4; try done; [by split; [left|]|lia].
  - destruct (reply6 local remote data) with (op := op) as (pkt & Hs & Hp & Hdg & Hw); try done; [by split; [right|]|by apply H6|lia|lia|]. by exists pkt, false.
Qed.

(** *** Packets whose UDP checksum is 65535 *)

(** Where the UDP header of an IPv4 or IPv6 packet begins. *)
Definition udp_offset (pkt : bytes) : Z := if Z.shiftr (byte_at pkt 0) 4 =? 4 then Z.land (byte_at pkt 0) 15 * 4 else SIZEOF_ipv6_header.

Lemma ipv4_check_payload data h d : ipv4_check data = Ret (Some (h, d)) -> exists n, d = slice data (Z.land (byte_at data 0) 15 * 4) n.
Proof.
  unfold ipv4_check, IPV4_GET_IHL. cbn [version4_ihl4 ipv4_of]. destruct (_ <? _); [done|]. destruct (negb _); [done|]. destruct (_ <? _); [done|]. destruct (_ <? _); [done|].
  destruct (_ <? _); [done|]. destruct (_ <? _); [done|]. intros H. apply bind_Ret_inv in H as (c & _ & H). destruct (bool_decide _); [done|]. injection H as <- <-. eauto.
Qed.
Lemma ipv6_check_payload data h d : ipv6_check data = Some (h, d) -> exists n, d = slice data SIZEOF_ipv6_header n.
Proof. unfold ipv6_check. destruct (_ <? _); [done|]. destruct (negb _); [done|]. destruct (_ - _ <? _); [done|]. intros H. injection H as <- <-. eauto. Qed.

Lemma udp_check_field_at data o n h d : 0 <= o -> udp_check (slice data o n) = Some (h, d) -> udp_check_field h = slice data (o + 6) 2.
Proof.
  intros Ho. unfold udp_check. destruct (zlen (slice data o n) <? SIZEOF_udp_header) eqn:E; [done|]. destruct (be_val _ <? _); [done|]. destruct (SIZEOF_udp_header + _ <? _); [done|].
  intros H. injection H as <- <-. cbn [udp_check_field udp_of]. unfold SIZEOF_udp_header in E.
  assert (8 <= n) by (unfold slice in E; rewrite length_take in E; lia). by rewrite slice_slice by lia.
Qed.

Lemma not_ffff c f : 0 <= c < 65535 -> be_val f = 65535 -> f <> hton16 c.
Proof. intros Hc Hf ->. unfold hton16 in Hf. rewrite be_val_u16 in Hf by lia. lia. Qed.

(** C40. The sum is complemented as a 32-bit number, so the test for zero that
    follows never holds: neither for IPv4 nor for IPv6 is a UDP checksum computed
    as 65535, which stands for zero, and every packet of the device that carries
    it is refused, also when its checksums are right. *)
Theorem udp_checksum_ffff_refused op pkt :
  Forall is_byte pkt -> field16 pkt (udp_offset pkt + 6) = 65535 ->
  udp_datagram op pkt = Ret None /\
  (forall h payload src dst, udp_ok h -> Forall is_byte payload -> zlen payload <= 65527 -> Forall is_byte src -> Forall is_byte dst ->
     (length src = 4%nat -> length dst = 4%nat -> udp_checksum h payload src dst <> Ret (hton16 65535)) /\
     (length src = 16%nat -> length dst = 16%nat -> udp_ip6_checksum h payload src dst <> Ret (hton16 65535))).
Proof.
  intros Hby Hf. split.
  - unfold udp_datagram, udp_offset in *. destruct (negb (opt_udpgw op)); [done|]. destruct (0 <? zlen pkt); [|done].
    assert (Hn : 0 <= Z.land (byte_at pkt 0) 15 * 4) by (pose proof (proj2 (Z.land_nonneg (byte_at pkt 0) 15) ltac:(lia)); lia). destruct (Z.shiftr (byte_at pkt 0) 4 =? 4).
    + destruct (_ || _); [done|]. destruct (ipv4_check_ok pkt Hby) as (r & Er & Hr). rewrite Er. cbn [mbind outcome_bind]. destruct r as [[iph d]|]; [|done]. destruct Hr as [Hok Hdb].
      destruct (ipv4_check_payload _ _ _ Er) as [n ->]. pose proof (udp_check_ok _ Hdb) as Hu. destruct (udp_check _) as [[udph p]|] eqn:Eu; [|done]. destruct Hu as (Hu & Hpb & Hpl & _).
      destruct (i4_s _ Hok) as [Ls Bs]. destruct (i4_d _ Hok) as [Ld Bd]. destruct (udp_checksum_eq _ p _ _ Hu Hpb Hpl Bs Bd Ls Ld) as (c & -> & Hc & _). cbn [mbind outcome_bind].
      rewrite bool_decide_true; [done|]. apply not_ffff; [done|]. rewrite (udp_check_field_at _ _ _ _ _ Hn Eu). exact Hf.
    + destruct (_ =? 6); [|done]. destruct (negb _); [done|]. destruct (_ || _); [done|]. pose proof (ipv6_check_ok pkt Hby) as Hr. destruct (ipv6_check pkt) as [[iph d]|] eqn:Er; [|done].
      destruct Hr as ([Ls Bs] & [Ld Bd] & Hdb). destruct (ipv6_check_payload _ _ _ Er) as [n ->]. pose proof (udp_check_ok _ Hdb) as Hu. destruct (udp_check _) as [[udph p]|] eqn:Eu; [|done].
      destruct Hu as (Hu & Hpb & Hpl & _). destruct (udp_ip6_checksum_eq _ p _ _ Hu Hpb Hpl Bs Bd Ls Ld) as (c & -> & Hc & _). cbn [mbind outcome_bind].
      rewrite bool_decide_true; [done|]. apply not_ffff; [done|]. rewrite (udp_check_field_at _ SIZEOF_ipv6_header n udph p ltac:(done) Eu). exact Hf.
  - intros h payload src dst Hh Hp Hlen Hs Hd. assert (H1 : forall c, 0 <= c < 65535 -> hton16 65535 <> hton16 c) by (intros c Hc; by apply not_ffff).
    split; intros Ls Ld E; [destruct (udp_checksum_eq h payload src dst Hh Hp Hlen Hs Hd Ls Ld) as (c & Hc & Rc & _)|destruct (udp_ip6_checksum_eq h payload src dst Hh Hp Hlen Hs Hd Ls Ld) as (c & Hc & Rc & _)];
      apply (H1 c Rc); congruence.
Qed.

(** ** A run *)

Definition run_options : tun_options := mkopts true true true 1528 1500.
(** A query from port 1000 to 198.51.100.1, port 53. *)
Definition query_payload : bytes := [0; 7; 1; 0; 0; 1; 0; 0; 0; 0; 0; 0].
Definition resolver : BAddr := mkaddr BADDR_TYPE_IPV4 [198; 51; 100; 1] (be_bytes 2 53).
Definition query_packet : bytes :=
  match udpgw_client_handler_received run_options resolver (host 1000) query_payload with Ret (Some pkt) => pkt | _ => [] end.

Definition tun_after (o : SocksUdpGwClient) (e : tun_event) : SocksUdpGwClient := match tun_step run_options o e with Ret (o', _) => o' | _ => o end.
Definition tun_0 : SocksUdpGwClient := dns_0.
Definition tun_1 : SocksUdpGwClient := tun_after tun_0 (TunPacket query_packet (all_available 20) None true true).
Definition tun_2 : SocksUdpGwClient := tun_after tun_1 (TunOther (SgJob query_payload true)).

Lemma tun_2_reach : tun_reach run_options tun_2 [query_packet].
Proof.
  change [query_packet] with (match TunOther (SgJob query_payload true) with TunPacket data _ _ _ _ => data :: [query_packet] | TunOther _ => [query_packet] end).
  eapply (tun_next _ tun_1); [|split; [|done]; exists 20%nat; split; [by vm_compute|]; intros c Hc; vm_compute in Hc; injection Hc as <-; by vm_compute|by vm_compute].
  change [query_packet] with (match TunPacket query_packet (all_available 20) None true true with TunPacket data _ _ _ _ => data :: [] | TunOther _ => [] end).
  eapply (tun_next _ tun_0); [by apply (tun_init _ 2 1000 (peer 9) (peer 8) (peer 9) true)| |by vm_compute].
  split_and!; try done. vm_compute. repeat (apply Forall_cons; split; [done|]). constructor.
Qed.

(** The answer to the query is written to the device. *)
Lemma tun_udp_answers_witness :
  exists o' w, tun_step run_options tun_2 (TunOther (SgDatagram 20 [0; 7; 0x81; 0x80])) = Ret (o', w) /\
    forall pkt, w = Some pkt -> zlen pkt <= 1528 /\
      exists q local remote, q ∈ [query_packet] /\ from_to run_options q local remote /\ from_to run_options pkt remote local /\ wire_ok (ba_type local =? BADDR_TYPE_IPV6) pkt (ba_ip remote) (ba_ip local).
Proof.
  apply (tun_udp_answers run_options tun_2 [query_packet]); [exact tun_2_reach|]. split; [split; [vm_compute; by eexists|by vm_compute]|].
  repeat (apply Forall_cons; split; [unfold is_byte; lia|]). constructor.
Defined.

Lemma device_reply_roundtrip_witness :
  exists pkt dns, udpgw_client_handler_received run_options peer6 peer6 [1; 2; 3] = Ret (Some pkt) /\ zlen pkt <= 1528 /\
    udp_datagram run_options pkt = Ret (Some (peer6, peer6, dns, [1; 2; 3])) /\ wire_ok true pkt (ba_ip peer6) (ba_ip peer6).
Proof.
  apply (device_reply_roundtrip run_options peer6 peer6 [1; 2; 3]); try done; [apply peer6_wf|apply peer6_wf|].
  repeat (apply Forall_cons; split; [unfold is_byte; lia|]). constructor.
Defined.

(** Both kinds of packets, with checksums that are right. *)
Definition ffff_packet4 : bytes :=
  [0x45; 0; 0; 30; 0; 0; 0; 0; 64; 17; 0x46; 0x99; 10; 0; 0; 2; 198; 51; 100; 1] ++ [0; 1; 0; 53; 0; 10; 0xff; 0xff] ++ [203; 109].
Definition ffff_packet6 : bytes :=
  [0x60; 0; 0; 0; 0; 10; 17; 64] ++ replicate 15 0 ++ [1] ++ replicate 15 0 ++ [1] ++ [0; 1; 0; 53; 0; 10; 0xff; 0xff] ++ [255; 162].

Lemma udp_checksum_ffff_refused_witness :
  wire_ok false ffff_packet4 [10; 0; 0; 2] [198; 51; 100; 1] /\ udp_datagram run_options ffff_packet4 = Ret None /\
  wire_ok true ffff_packet6 (replicate 15 0 ++ [1]) (replicate 15 0 ++ [1]) /\ udp_datagram run_options ffff_packet6 = Ret None.
Proof.
  split; [split; [by exists 2|by exists 3]|]. split; [apply udp_checksum_ffff_refused; [by apply all_bytes_spec|done]|].
  split; [split; [done|by exists 2]|]. apply udp_checksum_ffff_refused; [by apply all_bytes_spec|done].
Defined.
