(* ===== verification/TcpClient.v ===== *)
(** * TCP clients

    badvpn tun2socks/tun2socks.c, struct tcp_client: a TCP connection that lwIP
    has accepted from the device is relayed over a SOCKS connection.  Either
    side can close or fail while data for the other is still buffered.

    lwIP and the SOCKS client are the environment: events of the model are their
    callbacks, what their functions return are parameters.  A client keeps what
    the environment knows of it: the state of the pcb, the callbacks that are
    set, operations on the SOCKS streams that are under way, and the data that
    was given to either side.  Logging and the user name are left out. *)

From S2P Require Import Prelude Buffer SocksClient.
From stdpp Require Import prelude gmap.
From Stdlib Require Import ZArith Lia ZifyBool.

Local Open Scope Z_scope.

Definition CLIENT_SOCKS_RECV_BUF_SIZE : Z := 8192.

(** A pcb is open until it is closed, aborted or freed by lwIP after an error. *)
Inductive pcb_state := PcbOpen | PcbClosed | PcbAborted | PcbGone.
#[global] Instance pcb_state_eq_dec : EqDecision pcb_state.
Proof. solve_decision. Defined.

(** dead_t (misc/dead.h): no pointer, a pointer to a variable of a running
    function and its value, a pointer to one that has returned. *)
Inductive dead_t := DeadNull | DeadAt (v : Z) | DeadDangling.

(** [t_sending]: the number of bytes of [buf] that are being sent to SOCKS,
    [t_receiving]: a receive from SOCKS into [socks_recv_buf] is under way;
    [t_to_tcp], [t_to_socks], [t_recved]: what was given to tcp_write, what SOCKS
    has taken, how much was confirmed with tcp_recved; [t_from_tcp],
    [t_from_socks]: what was received; [t_tcp_ended]: lwIP has reported the end or
    an error, [t_socks_ended]: so has SOCKS, or the program stops. *)
Record tcp_client := mktc {
  t_aborted : bool;
  t_dead : dead_t;
  t_pcb : pcb_state;
  t_on_err : bool;
  t_on_recv : bool;
  t_on_sent : bool;
  t_client_closed : bool;
  t_buf : bytes;
  t_socks_up : bool;
  t_socks_closed : bool;
  t_sending : option Z;
  t_receiving : bool;
  t_rbuf : bytes;
  t_rbuf_used : Z;
  t_rbuf_sent : Z;
  t_rwaiting : bool;
  t_tcp_pending : Z;
  t_freed : bool;
  t_to_tcp : bytes;
  t_to_socks : bytes;
  t_recved : Z;
  t_from_tcp : bytes;
  t_from_socks : bytes;
  t_tcp_ended : bool;
  t_socks_ended : bool
}.
Implicit Types c : tcp_client.

Definition set_aborted c (v : bool) : tcp_client :=
  mktc v (t_dead c) (t_pcb c) (t_on_err c) (t_on_recv c) (t_on_sent c) (t_client_closed c) (t_buf c) (t_socks_up c) (t_socks_closed c) (t_sending c) (t_receiving c) (t_rbuf c) (t_rbuf_used c) (t_rbuf_sent c) (t_rwaiting c) (t_tcp_pending c) (t_freed c) (t_to_tcp c) (t_to_socks c) (t_recved c) (t_from_tcp c) (t_from_socks c) (t_tcp_ended c) (t_socks_ended c).
Definition set_dead c (v : dead_t) : tcp_client :=
  mktc (t_aborted c) v (t_pcb c) (t_on_err c) (t_on_recv c) (t_on_sent c) (t_client_closed c) (t_buf c) (t_socks_up c) (t_socks_closed c) (t_sending c) (t_receiving c) (t_rbuf c) (t_rbuf_used c) (t_rbuf_sent c) (t_rwaiting c) (t_tcp_pending c) (t_freed c) (t_to_tcp c) (t_to_socks c) (t_recved c) (t_from_tcp c) (t_from_socks c) (t_tcp_ended c) (t_socks_ended c).
Definition set_pcb c (v : pcb_state) : tcp_client :=
  mktc (t_aborted c) (t_dead c) v (t_on_err c) (t_on_recv c) (t_on_sent c) (t_client_closed c) (t_buf c) (t_socks_up c) (t_socks_closed c) (t_sending c) (t_receiving c) (t_rbuf c) (t_rbuf_used c) (t_rbuf_sent c) (t_rwaiting c) (t_tcp_pending c) (t_freed c) (t_to_tcp c) (t_to_socks c) (t_recved c) (t_from_tcp c) (t_from_socks c) (t_tcp_ended c) (t_socks_ended c).
Definition set_on_err c (v : bool) : tcp_client :=
  mktc (t_aborted c) (t_dead c) (t_pcb c) v (t_on_recv c) (t_on_sent c) (t_client_closed c) (t_buf c) (t_socks_up c) (t_socks_closed c) (t_sending c) (t_receiving c) (t_rbuf c) (t_rbuf_used c) (t_rbuf_sent c) (t_rwaiting c) (t_tcp_pending c) (t_freed c) (t_to_tcp c) (t_to_socks c) (t_recved c) (t_from_tcp c) (t_from_socks c) (t_tcp_ended c) (t_socks_ended c).
Definition set_on_recv c (v : bool) : tcp_client :=
  mktc (t_aborted c) (t_dead c) (t_pcb c) (t_on_err c) v (t_on_sent c) (t_client_closed c) (t_buf c) (t_socks_up c) (t_socks_closed c) (t_sending c) (t_receiving c) (t_rbuf c) (t_rbuf_used c) (t_rbuf_sent c) (t_rwaiting c) (t_tcp_pending c) (t_freed c) (t_to_tcp c) (t_to_socks c) (t_recved c) (t_from_tcp c) (t_from_socks c) (t_tcp_ended c) (t_socks_ended c).
Definition set_on_sent c (v : bool) : tcp_client :=
  mktc (t_aborted c) (t_dead c) (t_pcb c) (t_on_err c) (t_on_recv c) v (t_client_closed c) (t_buf c) (t_socks_up c) (t_socks_closed c) (t_sending c) (t_receiving c) (t_rbuf c) (t_rbuf_used c) (t_rbuf_sent c) (t_rwaiting c) (t_tcp_pending c) (t_freed c) (t_to_tcp c) (t_to_socks c) (t_recved c) (t_from_tcp c) (t_from_socks c) (t_tcp_ended c) (t_socks_ended c).
Definition set_client_closed c (v : bool) : tcp_client :=
  mktc (t_aborted c) (t_dead c) (t_pcb c) (t_on_err c) (t_on_recv c) (t_on_sent c) v (t_buf c) (t_socks_up c) (t_socks_closed c) (t_sending c) (t_receiving c) (t_rbuf c) (t_rbuf_used c) (t_rbuf_sent c) (t_rwaiting c) (t_tcp_pending c) (t_freed c) (t_to_tcp c) (t_to_socks c) (t_recved c) (t_from_tcp c) (t_from_socks c) (t_tcp_ended c) (t_socks_ended c).
Definition set_buf c (v : bytes) : tcp_client :=
  mktc (t_aborted c) (t_dead c) (t_pcb c) (t_on_err c) (t_on_recv c) (t_on_sent c) (t_client_closed c) v (t_socks_up c) (t_socks_closed c) (t_sending c) (t_receiving c) (t_rbuf c) (t_rbuf_used c) (t_rbuf_sent c) (t_rwaiting c) (t_tcp_pending c) (t_freed c) (t_to_tcp c) (t_to_socks c) (t_recved c) (t_from_tcp c) (t_from_socks c) (t_tcp_ended c) (t_socks_ended c).
Definition set_socks_up c (v : bool) : tcp_client :=
  mktc (t_aborted c) (t_dead c) (t_pcb c) (t_on_err c) (t_on_recv c) (t_on_sent c) (t_client_closed c) (t_buf c) v (t_socks_closed c) (t_sending c) (t_receiving c) (t_rbuf c) (t_rbuf_used c) (t_rbuf_sent c) (t_rwaiting c) (t_tcp_pending c) (t_freed c) (t_to_tcp c) (t_to_socks c) (t_recved c) (t_from_tcp c) (t_from_socks c) (t_tcp_ended c) (t_socks_ended c).
Definition set_socks_closed c (v : bool) : tcp_client :=
  mktc (t_aborted c) (t_dead c) (t_pcb c) (t_on_err c) (t_on_recv c) (t_on_sent c) (t_client_closed c) (t_buf c) (t_socks_up c) v (t_sending c) (t_receiving c) (t_rbuf c) (t_rbuf_used c) (t_rbuf_sent c) (t_rwaiting c) (t_tcp_pending c) (t_freed c) (t_to_tcp c) (t_to_socks c) (t_recved c) (t_from_tcp c) (t_from_socks c) (t_tcp_ended c) (t_socks_ended c).
Definition set_sending c (v : option Z) : tcp_client :=
  mktc (t_aborted c) (t_dead c) (t_pcb c) (t_on_err c) (t_on_recv c) (t_on_sent c) (t_client_closed c) (t_buf c) (t_socks_up c) (t_socks_closed c) v (t_receiving c) (t_rbuf c) (t_rbuf_used c) (t_rbuf_sent c) (t_rwaiting c) (t_tcp_pending c) (t_freed c) (t_to_tcp c) (t_to_socks c) (t_recved c) (t_from_tcp c) (t_from_socks c) (t_tcp_ended c) (t_socks_ended c).
Definition set_receiving c (v : bool) : tcp_client :=
  mktc (t_aborted c) (t_dead c) (t_pcb c) (t_on_err c) (t_on_recv c) (t_on_sent c) (t_client_closed c) (t_buf c) (t_socks_up c) (t_socks_closed c) (t_sending c) v (t_rbuf c) (t_rbuf_used c) (t_rbuf_sent c) (t_rwaiting c) (t_tcp_pending c) (t_freed c) (t_to_tcp c) (t_to_socks c) (t_recved c) (t_from_tcp c) (t_from_socks c) (t_tcp_ended c) (t_socks_ended c).
Definition set_rbuf c (v : bytes) : tcp_client :=
  mktc (t_aborted c) (t_dead c) (t_pcb c) (t_on_err c) (t_on_recv c) (t_on_sent c) (t_client_closed c) (t_buf c) (t_socks_up c) (t_socks_closed c) (t_sending c) (t_receiving c) v (t_rbuf_used c) (t_rbuf_sent c) (t_rwaiting c) (t_tcp_pending c) (t_freed c) (t_to_tcp c) (t_to_socks c) (t_recved c) (t_from_tcp c) (t_from_socks c) (t_tcp_ended c) (t_socks_ended c).
Definition set_rbuf_used c (v : Z) : tcp_client :=
  mktc (t_aborted c) (t_dead c) (t_pcb c) (t_on_err c) (t_on_recv c) (t_on_sent c) (t_client_closed c) (t_buf c) (t_socks_up c) (t_socks_closed c) (t_sending c) (t_receiving c) (t_rbuf c) v (t_rbuf_sent c) (t_rwaiting c) (t_tcp_pending c) (t_freed c) (t_to_tcp c) (t_to_socks c) (t_recved c) (t_from_tcp c) (t_from_socks c) (t_tcp_ended c) (t_socks_ended c).
Definition set_rbuf_sent c (v : Z) : tcp_client :=
  mktc (t_aborted c) (t_dead c) (t_pcb c) (t_on_err c) (t_on_recv c) (t_on_sent c) (t_client_closed c) (t_buf c) (t_socks_up c) (t_socks_closed c) (t_sending c) (t_receiving c) (t_rbuf c) (t_rbuf_used c) v (t_rwaiting c) (t_tcp_pending c) (t_freed c) (t_to_tcp c) (t_to_socks c) (t_recved c) (t_from_tcp c) (t_from_socks c) (t_tcp_ended c) (t_socks_ended c).
Definition set_rwaiting c (v : bool) : tcp_client :=
  mktc (t_aborted c) (t_dead c) (t_pcb c) (t_on_err c) (t_on_recv c) (t_on_sent c) (t_client_closed c) (t_buf c) (t_socks_up c) (t_socks_closed c) (t_sending c) (t_receiving c) (t_rbuf c) (t_rbuf_used c) (t_rbuf_sent c) v (t_tcp_pending c) (t_freed c) (t_to_tcp c) (t_to_socks c) (t_recved c) (t_from_tcp c) (t_from_socks c) (t_tcp_ended c) (t_socks_ended c).
Definition set_tcp_pending c (v : Z) : tcp_client :=
  mktc (t_aborted c) (t_dead c) (t_pcb c) (t_on_err c) (t_on_recv c) (t_on_sent c) (t_client_closed c) (t_buf c) (t_socks_up c) (t_socks_closed c) (t_sending c) (t_receiving c) (t_rbuf c) (t_rbuf_used c) (t_rbuf_sent c) (t_rwaiting c) v (t_freed c) (t_to_tcp c) (t_to_socks c) (t_recved c) (t_from_tcp c) (t_from_socks c) (t_tcp_ended c) (t_socks_ended c).
Definition set_freed c (v : bool) : tcp_client :=
  mktc (t_aborted c) (t_dead c) (t_pcb c) (t_on_err c) (t_on_recv c) (t_on_sent c) (t_client_closed c) (t_buf c) (t_socks_up c) (t_socks_closed c) (t_sending c) (t_receiving c) (t_rbuf c) (t_rbuf_used c) (t_rbuf_sent c) (t_rwaiting c) (t_tcp_pending c) v (t_to_tcp c) (t_to_socks c) (t_recved c) (t_from_tcp c) (t_from_socks c) (t_tcp_ended c) (t_socks_ended c).
Definition set_to_tcp c (v : bytes) : tcp_client :=
  mktc (t_aborted c) (t_dead c) (t_pcb c) (t_on_err c) (t_on_recv c) (t_on_sent c) (t_client_closed c) (t_buf c) (t_socks_up c) (t_socks_closed c) (t_sending c) (t_receiving c) (t_rbuf c) (t_rbuf_used c) (t_rbuf_sent c) (t_rwaiting c) (t_tcp_pending c) (t_freed c) v (t_to_socks c) (t_recved c) (t_from_tcp c) (t_from_socks c) (t_tcp_ended c) (t_socks_ended c).
Definition set_to_socks c (v : bytes) : tcp_client :=
  mktc (t_aborted c) (t_dead c) (t_pcb c) (t_on_err c) (t_on_recv c) (t_on_sent c) (t_client_closed c) (t_buf c) (t_socks_up c) (t_socks_closed c) (t_sending c) (t_receiving c) (t_rbuf c) (t_rbuf_used c) (t_rbuf_sent c) (t_rwaiting c) (t_tcp_pending c) (t_freed c) (t_to_tcp c) v (t_recved c) (t_from_tcp c) (t_from_socks c) (t_tcp_ended c) (t_socks_ended c).
Definition set_recved c (v : Z) : tcp_client :=
  mktc (t_aborted c) (t_dead c) (t_pcb c) (t_on_err c) (t_on_recv c) (t_on_sent c) (t_client_closed c) (t_buf c) (t_socks_up c) (t_socks_closed c) (t_sending c) (t_receiving c) (t_rbuf c) (t_rbuf_used c) (t_rbuf_sent c) (t_rwaiting c) (t_tcp_pending c) (t_freed c) (t_to_tcp c) (t_to_socks c) v (t_from_tcp c) (t_from_socks c) (t_tcp_ended c) (t_socks_ended c).
Definition set_from_tcp c (v : bytes) : tcp_client :=
  mktc (t_aborted c) (t_dead c) (t_pcb c) (t_on_err c) (t_on_recv c) (t_on_sent c) (t_client_closed c) (t_buf c) (t_socks_up c) (t_socks_closed c) (t_sending c) (t_receiving c) (t_rbuf c) (t_rbuf_used c) (t_rbuf_sent c) (t_rwaiting c) (t_tcp_pending c) (t_freed c) (t_to_tcp c) (t_to_socks c) (t_recved c) v (t_from_socks c) (t_tcp_ended c) (t_socks_ended c).
Definition set_from_socks c (v : bytes) : tcp_client :=
  mktc (t_aborted c) (t_dead c) (t_pcb c) (t_on_err c) (t_on_recv c) (t_on_sent c) (t_client_closed c) (t_buf c) (t_socks_up c) (t_socks_closed c) (t_sending c) (t_receiving c) (t_rbuf c) (t_rbuf_used c) (t_rbuf_sent c) (t_rwaiting c) (t_tcp_pending c) (t_freed c) (t_to_tcp c) (t_to_socks c) (t_recved c) (t_from_tcp c) v (t_tcp_ended c) (t_socks_ended c).
Definition set_tcp_ended c (v : bool) : tcp_client :=
  mktc (t_aborted c) (t_dead c) (t_pcb c) (t_on_err c) (t_on_recv c) (t_on_sent c) (t_client_closed c) (t_buf c) (t_socks_up c) (t_socks_closed c) (t_sending c) (t_receiving c) (t_rbuf c) (t_rbuf_used c) (t_rbuf_sent c) (t_rwaiting c) (t_tcp_pending c) (t_freed c) (t_to_tcp c) (t_to_socks c) (t_recved c) (t_from_tcp c) (t_from_socks c) v (t_socks_ended c).
Definition set_socks_ended c (v : bool) : tcp_client :=
  mktc (t_aborted c) (t_dead c) (t_pcb c) (t_on_err c) (t_on_recv c) (t_on_sent c) (t_client_closed c) (t_buf c) (t_socks_up c) (t_socks_closed c) (t_sending c) (t_receiving c) (t_rbuf c) (t_rbuf_used c) (t_rbuf_sent c) (t_rwaiting c) (t_tcp_pending c) (t_freed c) (t_to_tcp c) (t_to_socks c) (t_recved c) (t_from_tcp c) (t_from_socks c) (t_tcp_ended c) v.

(** ** Calls *)

(** A function of lwIP on the pcb of the client. *)
Definition pcb_call {A} c (r : A) : outcome A := if bool_decide (t_pcb c = PcbOpen) then Ret r else Fault.

Definition tcp_err c (b : bool) : outcome tcp_client := pcb_call c (set_on_err c b).
Definition tcp_recv c (b : bool) : outcome tcp_client := pcb_call c (set_on_recv c b).
Definition tcp_sent c (b : bool) : outcome tcp_client := pcb_call c (set_on_sent c b).
Definition tcp_abort c : outcome tcp_client := pcb_call c (set_pcb c PcbAborted).
Definition tcp_recved c (n : Z) : outcome tcp_client := pcb_call c (set_recved c (t_recved c + n)).

(** DEAD_KILL_WITH *)
Definition dead_kill (d : dead_t) (v : Z) : outcome dead_t :=
  match d with DeadNull => Ret DeadNull | DeadAt _ => Ret (DeadAt v) | DeadDangling => Fault end.

Definition StreamPassInterface_Sender_Send c (n : Z) : outcome tcp_client :=
  ASSERT (0 <? n);; ASSERT (bool_decide (t_sending c = None));; Ret (set_sending c (Some n)).
Definition StreamRecvInterface_Receiver_Recv c : outcome tcp_client :=
  ASSERT (negb (t_receiving c));; Ret (set_receiving c true).

(** Freeing stops the operations on the streams. *)
Definition BSocksClient_Free c : tcp_client := set_receiving (set_sending c None) false.

(** What lwIP answers: for each round of the loop in client_socks_recv_send_out
    the space in the send buffer and the result of tcp_write; the results of
    tcp_output and tcp_close. *)
Inductive werr := WOk | WMem | WErr.
Record lwip := mklw { lw_sndbuf : nat -> nat; lw_write : nat -> werr; lw_output : bool; lw_close : bool }.
Implicit Types lw : lwip.

(** ** Closing *)

Definition client_dealloc c : outcome tcp_client :=
  ASSERT (t_client_closed c);; ASSERT (t_socks_closed c);;
  c ← (if negb (t_aborted c) then d ← dead_kill (t_dead c) (-1); Ret (set_dead c d) else Ret c);
  Ret (set_freed c true).

Definition client_abort_pcb c : outcome tcp_client :=
  ASSERT (negb (t_aborted c));;
  c ← tcp_abort c;
  let c := set_aborted c true in
  d ← dead_kill (t_dead c) 1; Ret (set_dead c d).

Definition remove_callbacks c : outcome tcp_client := c ← tcp_err c false; c ← tcp_recv c false; tcp_sent c false.

(** The functions call each other; the calls nest at most three deep. *)
Fixpoint client_handle_freed_client (fuel : nat) lw c : outcome tcp_client :=
  match fuel with
  | O => Abort
  | S fuel =>
      ASSERT (negb (t_client_closed c));;
      let c := set_client_closed c true in
      if (0 <? zlen (t_buf c)) && negb (t_socks_closed c) then Ret c
      else if negb (t_socks_closed c) then client_free_socks fuel lw c
      else client_dealloc c
  end
with client_free_client (fuel : nat) lw c : outcome tcp_client :=
  match fuel with
  | O => Abort
  | S fuel =>
      ASSERT (negb (t_client_closed c));;
      c ← remove_callbacks c;
      c ← (if lw_close lw then pcb_call c (set_pcb c PcbClosed) else client_abort_pcb c);
      client_handle_freed_client fuel lw c
  end
with client_free_socks (fuel : nat) lw c : outcome tcp_client :=
  match fuel with
  | O => Abort
  | S fuel =>
      ASSERT (negb (t_socks_closed c));;
      c ← (if t_socks_up c && negb (t_client_closed c) then tcp_recv c false else Ret c);
      let c := set_socks_closed (BSocksClient_Free c) true in
      if t_socks_up c && ((0 <=? t_rbuf_used c) || (0 <? t_tcp_pending c)) && negb (t_client_closed c) then Ret c
      else if negb (t_client_closed c) then client_free_client fuel lw c
      else client_dealloc c
  end.

Definition client_abort_client lw c : outcome tcp_client :=
  ASSERT (negb (t_client_closed c));;
  c ← remove_callbacks c;
  c ← client_abort_pcb c;
  client_handle_freed_client 4 lw c.

Definition client_murder c : outcome tcp_client :=
  let c := set_socks_ended (set_tcp_ended c true) true in
  c ← (if negb (t_client_closed c) then c ← remove_callbacks c; c ← client_abort_pcb c; Ret (set_client_closed c true) else Ret c);
  let c := if negb (t_socks_closed c) then set_socks_closed (BSocksClient_Free c) true else c in
  client_dealloc c.

(** ** Data *)

Definition client_send_to_socks c : outcome tcp_client :=
  ASSERT (negb (t_socks_closed c));; ASSERT (t_socks_up c);; ASSERT (0 <? zlen (t_buf c));;
  StreamPassInterface_Sender_Send c (zlen (t_buf c)).

Definition client_socks_send_handler_done lw c (data_len : Z) : outcome tcp_client :=
  ASSERT (negb (t_socks_closed c));; ASSERT (t_socks_up c);; ASSERT (0 <? zlen (t_buf c));;
  ASSERT (0 <? data_len);; ASSERT (data_len <=? zlen (t_buf c));;
  let c := set_sending (set_to_socks c (t_to_socks c ++ take (Z.to_nat data_len) (t_buf c))) None in
  let c := set_buf c (drop (Z.to_nat data_len) (t_buf c)) in
  c ← (if negb (t_client_closed c) then tcp_recved c data_len else Ret c);
  if 0 <? zlen (t_buf c) then StreamPassInterface_Sender_Send c (zlen (t_buf c))
  else if t_client_closed c then client_free_socks 4 lw c
  else Ret c.

Definition client_socks_recv_initiate c : outcome tcp_client :=
  ASSERT (negb (t_client_closed c));; ASSERT (negb (t_socks_closed c));; ASSERT (t_socks_up c);; ASSERT (t_rbuf_used c =? -1);;
  StreamRecvInterface_Receiver_Recv c.

(** do ... while: false after an error that is not ERR_MEM; [round] counts the
    rounds, each of which queues at least one byte. *)
Fixpoint send_out_loop (fuel round : nat) lw c : outcome (tcp_client * bool) :=
  match fuel with
  | O => Abort
  | S fuel =>
      sndbuf ← pcb_call c (Z.of_nat (lw_sndbuf lw round));
      let to_write := Z.min (t_rbuf_used c - t_rbuf_sent c) sndbuf in
      if to_write =? 0 then Ret (c, true)
      else
        match lw_write lw round with
        | WMem => Ret (c, true)
        | WErr => Ret (c, false)
        | WOk =>
            let c := set_to_tcp c (t_to_tcp c ++ slice (t_rbuf c) (t_rbuf_sent c) to_write) in
            let c := set_tcp_pending (set_rbuf_sent c (t_rbuf_sent c + to_write)) (t_tcp_pending c + to_write) in
            if t_rbuf_sent c <? t_rbuf_used c then send_out_loop fuel (S round) lw c else Ret (c, true)
        end
  end.

(** The result: false for -1. *)
Definition client_socks_recv_send_out lw c : outcome (tcp_client * bool) :=
  ASSERT (negb (t_client_closed c));; ASSERT (t_socks_up c);; ASSERT (0 <? t_rbuf_used c);; ASSERT (t_rbuf_sent c <? t_rbuf_used c);; ASSERT (negb (t_rwaiting c));;
  '(c, ok) ← send_out_loop (Z.to_nat (t_rbuf_used c - t_rbuf_sent c)) 0 lw c;
  let fail := c ← client_abort_client lw c; Ret (c, false) in
  if negb ok then fail
  else
    ok ← pcb_call c (lw_output lw);
    if negb ok then fail
    else if t_rbuf_sent c <? t_rbuf_used c then
      if t_tcp_pending c =? 0 then fail else Ret (set_rwaiting c true, true)
    else Ret (set_rbuf_used c (-1), true).

(** [data]: what was received into [socks_recv_buf]. *)
Definition client_socks_recv_handler_done lw c (data : bytes) : outcome tcp_client :=
  ASSERT (0 <? zlen data);; ASSERT (zlen data <=? CLIENT_SOCKS_RECV_BUF_SIZE);;
  ASSERT (negb (t_socks_closed c));; ASSERT (t_socks_up c);; ASSERT (t_rbuf_used c =? -1);;
  let c := set_from_socks (set_receiving c false) (t_from_socks c ++ data) in
  if t_client_closed c then Ret c
  else
    let c := set_rbuf (set_rwaiting (set_rbuf_sent (set_rbuf_used c (zlen data)) 0) false) data in
    '(c, ok) ← client_socks_recv_send_out lw c;
    if negb ok then Ret c
    else if t_rbuf_used c =? -1 then client_socks_recv_initiate c else Ret c.

(** What the reactor runs for the SOCKS connection, also inside SYNC_COMMIT. *)
Inductive job := JobSocks (ev : event) | JobSent (n : Z) | JobReceived (data : bytes).

(** The handlers, in a build with or without NDEBUG. *)
Section build.
Context {build : Build}.

Definition client_socks_handler lw c (ev : event) : outcome tcp_client :=
  ASSERT (negb (t_socks_closed c));;
  match ev with
  | EVENT_ERROR => client_free_socks 4 lw (set_socks_ended c true)
  | EVENT_UP =>
      ASSERT (negb (t_socks_up c));;
      let c := set_tcp_pending (set_rbuf_used c (-1)) 0 in
      c ← (if negb (t_client_closed c) then tcp_sent c true else Ret c);
      let c := set_socks_up c true in
      c ← (if 0 <? zlen (t_buf c) then client_send_to_socks c else Ret c);
      if negb (t_client_closed c) then client_socks_recv_initiate c else Ret c
  | EVENT_ERROR_CLOSED => ASSERT (t_socks_up c);; client_free_socks 4 lw (set_socks_ended c true)
  | EVENT_CONNECTED => ASSERT_0 c
  end.

(** ** Callbacks *)

Definition run_job lw c (j : job) : outcome tcp_client :=
  if t_freed c then Fault
  else match j with
  | JobSocks ev => client_socks_handler lw c ev
  | JobSent n => client_socks_send_handler_done lw c n
  | JobReceived data => client_socks_recv_handler_done lw c data
  end.

(** A job that is set: the events and operations of the SOCKS connection. *)
Definition job_ready c (j : job) : bool :=
  negb (t_freed c) &&
  match j with
  | JobSocks ev =>
      negb (t_socks_closed c) && match ev with EVENT_UP | EVENT_CONNECTED => negb (t_socks_up c) | EVENT_ERROR_CLOSED => t_socks_up c | EVENT_ERROR => true end
  | JobSent n => match t_sending c with Some m => (0 <? n) && (n <=? m) | None => false end
  | JobReceived data => t_receiving c && (0 <? zlen data) && (zlen data <=? CLIENT_SOCKS_RECV_BUF_SIZE)
  end.

(** SYNC_COMMIT: jobs of the client that run before the callback goes on; one
    that is not set does not run. *)
Fixpoint run_jobs (jobs : list (lwip * job)) c : outcome tcp_client :=
  match jobs with
  | [] => Ret c
  | (lw, j) :: jobs => c ← (if job_ready c j then run_job lw c j else Ret c); run_jobs jobs c
  end.

Inductive err_t := ERR_OK | ERR_MEM | ERR_ABRT.
#[global] Instance err_t_eq_dec : EqDecision err_t.
Proof. solve_decision. Defined.

(** DEAD_ENTER; no other callback of the client is running. *)
Definition dead_enter c : tcp_client := set_dead c (DeadAt 0).
(** DEAD_LEAVE2 and the value of the variable: only a variable that was not
    killed lets the pointer be reset. *)
Definition dead_leave c : outcome (tcp_client * Z) :=
  match t_dead c with
  | DeadAt 0 => if t_freed c then Fault else Ret (set_dead c DeadNull, 0)
  | DeadAt v => Ret (set_dead c DeadDangling, v)
  | _ => Fault
  end.
Definition finish c : outcome (tcp_client * err_t) := '(c, v) ← dead_leave c; Ret (c, if 0 <? v then ERR_ABRT else ERR_OK).

Section callbacks.
Context (TCP_WND : Z).

(** [p]: the data of the pbuf, [None] when the peer has closed; [jobs]: what runs
    in SYNC_COMMIT. *)
Definition client_recv_func lw c (p : option bytes) (jobs : list (lwip * job)) : outcome (tcp_client * err_t) :=
  ASSERT (negb (t_client_closed c));;
  let c := dead_enter c in
  match p with
  | None => c ← client_free_client 4 lw (set_tcp_ended c true); finish c
  | Some data =>
      ASSERT (0 <? zlen data);;
      if TCP_WND - zlen (t_buf c) <? zlen data then '(c, _) ← dead_leave c; Ret (c, ERR_MEM)
      else
        let c := set_buf (set_from_tcp c (t_from_tcp c ++ data)) (t_buf c ++ data) in
        if (zlen (t_buf c) =? zlen data) && t_socks_up c then
          ASSERT (negb (t_socks_closed c));;
          c ← client_send_to_socks c; c ← run_jobs jobs c; finish c
        else finish c
  end.

Definition client_sent_func lw c (len : Z) (jobs : list (lwip * job)) : outcome (tcp_client * err_t) :=
  ASSERT (negb (t_client_closed c));; ASSERT (t_socks_up c);; ASSERT (0 <? len);; ASSERT (len <=? t_tcp_pending c);;
  let c := dead_enter c in
  let c := set_tcp_pending c (t_tcp_pending c - len) in
  if 0 <? t_rbuf_used c then
    ASSERT (t_rwaiting c);; ASSERT (t_rbuf_sent c <? t_rbuf_used c);;
    let c := set_rwaiting c false in
    '(c, ok) ← client_socks_recv_send_out lw c;
    if negb ok then finish c
    else
      ASSERT (0 <? t_tcp_pending c);;
      if (t_rbuf_used c =? -1) && negb (t_socks_closed c) then
        c ← client_socks_recv_initiate c; c ← run_jobs jobs c; finish c
      else finish c
  else
    c ← (if t_socks_closed c && (t_tcp_pending c =? 0) then client_free_client 4 lw c else Ret c);
    finish c.

Definition client_err_func lw c : outcome tcp_client :=
  ASSERT (negb (t_client_closed c));; client_handle_freed_client 4 lw (set_tcp_ended (set_pcb c PcbGone) true).

(** [alloc], [username], [socks]: malloc, concat_strings and BSocksClient_Init
    succeed; [used], [sent], [waiting], [pending]: what malloc left in the fields
    that are set later.  lwIP takes the pcb back after ERR_MEM. *)
Definition listener_accept_func (alloc username socks : bool) (content : bytes) (used sent : Z) (waiting : bool) (pending : Z) (jobs : list (lwip * job)) :
    outcome (option tcp_client * err_t) :=
  if negb alloc then Ret (None, ERR_MEM)
  else if negb username then Ret (None, ERR_MEM)
  else if negb socks then Ret (None, ERR_MEM)
  else
    let c := mktc false DeadNull PcbOpen false false false false [] false false None false content used sent waiting pending false [] [] 0 [] [] false false in
    c ← tcp_err c true; c ← tcp_recv c true;
    let c := dead_enter c in
    c ← run_jobs jobs c; '(c, e) ← finish c; Ret (Some c, e).

End callbacks.

(** A job that does not run into the ASSERT(0) of [client_socks_handler]: all of
    them in a build with NDEBUG, all but the event that it does not expect in a
    build without. *)
Definition job_quiet (j : job) : bool := ndebug || match j with JobSocks EVENT_CONNECTED => false | _ => true end.
Definition jobs_quiet (jobs : list (lwip * job)) : bool := forallb (fun lj => job_quiet (snd lj)) jobs.
End build.

(** ** The invariant of a client *)

(** What the pointer for aborts is, in a callback and outside. *)
Definition dead_ok (inside : bool) c : Prop :=
  (t_aborted c = false -> t_dead c = if inside then DeadAt 0 else DeadNull) /\ (t_aborted c = true -> inside = true -> t_dead c = DeadAt 1).

(** The send operation: data that SOCKS can take is being sent. *)
Definition sending_ok c : Prop :=
  match t_sending c with
  | Some n => t_socks_up c = true /\ t_socks_closed c = false /\ 0 < n <= zlen (t_buf c)
  | None => t_socks_up c = true -> t_socks_closed c = false -> t_buf c = []
  end.

(** The data of SOCKS that was not given to lwIP yet. *)
Definition unsent c : bytes :=
  if t_socks_up c && (0 <? t_rbuf_used c) then drop (Z.to_nat (t_rbuf_sent c)) (t_rbuf c) else [].

(** A client in use.  One side may be closed: the client only while there is
    data for SOCKS, SOCKS only while there is data that the client has not
    confirmed. *)
Record live (inside : bool) c : Prop := {
  lv_freed : t_freed c = false;
  lv_dead : dead_ok inside c;
  lv_aborted : t_aborted c = true <-> t_pcb c = PcbAborted;
  lv_pcb : t_client_closed c = false <-> t_pcb c = PcbOpen;
  lv_callbacks : t_client_closed c = false -> t_on_err c = true /\ t_on_recv c = negb (t_socks_closed c) /\ t_on_sent c = t_socks_up c /\ t_recved c = zlen (t_to_socks c);
  lv_client_closed : t_client_closed c = true -> t_socks_closed c = false /\ t_buf c <> [];
  lv_socks_closed : t_socks_closed c = true -> t_socks_up c = true /\ 0 < t_tcp_pending c;
  lv_sending : sending_ok c;
  lv_rbuf : t_socks_up c = true -> t_client_closed c = false -> 0 <= t_tcp_pending c /\
              (t_rbuf_used c = -1 \/ 0 <= t_rbuf_sent c < t_rbuf_used c /\ zlen (t_rbuf c) = t_rbuf_used c /\ t_rwaiting c = true /\ 0 < t_tcp_pending c);
  lv_receiving : if t_receiving c then t_socks_up c = true /\ t_socks_closed c = false /\ t_rbuf_used c = -1
                 else t_socks_up c = true -> t_socks_closed c = false -> t_client_closed c = false -> t_rbuf_used c <> -1
}.

(** A client that was freed. *)
Record gone (inside : bool) c : Prop := {
  gn_freed : t_freed c = true;
  gn_closed : t_client_closed c = true /\ t_socks_closed c = true;
  gn_aborted : t_aborted c = true <-> t_pcb c = PcbAborted;
  gn_pcb : t_pcb c <> PcbOpen;
  gn_dead : inside = true -> t_dead c = if t_aborted c then DeadAt 1 else DeadAt (-1)
}.
Definition fine (inside : bool) c : Prop := if t_freed c then gone inside c else live inside c.

(** What closing leaves as it is. *)
Definition same_data c c' : Prop :=
  t_buf c' = t_buf c /\ t_to_socks c' = t_to_socks c /\ t_to_tcp c' = t_to_tcp c /\ unsent c' = unsent c /\ t_socks_up c' = t_socks_up c /\
  t_from_tcp c' = t_from_tcp c /\ t_from_socks c' = t_from_socks c /\ t_tcp_ended c' = t_tcp_ended c /\ t_socks_ended c' = t_socks_ended c.

Ltac tc_simpl := cbn [t_aborted t_dead t_pcb t_on_err t_on_recv t_on_sent t_client_closed t_buf t_socks_up t_socks_closed t_sending t_receiving t_rbuf t_rbuf_used t_rbuf_sent t_rwaiting t_tcp_pending t_freed t_to_tcp t_to_socks t_recved t_from_tcp t_from_socks t_tcp_ended t_socks_ended set_aborted set_dead set_pcb set_on_err set_on_recv set_on_sent set_client_closed set_buf set_socks_up set_socks_closed set_sending set_receiving set_rbuf set_rbuf_used set_rbuf_sent set_rwaiting set_tcp_pending set_freed set_to_tcp set_to_socks set_recved set_from_tcp set_from_socks set_tcp_ended set_socks_ended] in *.
Ltac tc_goal := cbn [t_aborted t_dead t_pcb t_on_err t_on_recv t_on_sent t_client_closed t_buf t_socks_up t_socks_closed t_sending t_receiving t_rbuf t_rbuf_used t_rbuf_sent t_rwaiting t_tcp_pending t_freed t_to_tcp t_to_socks t_recved t_from_tcp t_from_socks t_tcp_ended t_socks_ended set_aborted set_dead set_pcb set_on_err set_on_recv set_on_sent set_client_closed set_buf set_socks_up set_socks_closed set_sending set_receiving set_rbuf set_rbuf_used set_rbuf_sent set_rwaiting set_tcp_pending set_freed set_to_tcp set_to_socks set_recved set_from_tcp set_from_socks set_tcp_ended set_socks_ended].
Ltac mret := cbn [negb ASSERT mbind outcome_bind].

#[global] Instance same_data_trans : Transitive same_data.
Proof. unfold same_data. intros c1 c2 c3. naive_solver congruence. Qed.

(** ** Closing *)

Lemma dealloc_ok (ins : bool) c : t_client_closed c = true -> t_socks_closed c = true -> t_pcb c <> PcbOpen -> (t_aborted c = true <-> t_pcb c = PcbAborted) -> dead_ok ins c ->
  exists c', client_dealloc c = Ret c' /\ gone ins c' /\ same_data c c' /\ t_aborted c' = t_aborted c.
Proof.
  intros H1 H2 H3 Ha [D1 D2]. unfold client_dealloc. rewrite H1, H2. mret. destruct (t_aborted c) eqn:E; mret.
  - eexists. split; [done|]. split; [|done]. split; tc_simpl; try done; [by rewrite E|]. rewrite E. by apply D2.
  - rewrite (D1 eq_refl). destruct ins; cbn [dead_kill]; mret; eexists; (split; [done|]); (split; [|done]); (split; tc_simpl; [done|done|by rewrite E|done|]); rewrite E; done.
Qed.

Lemma free_socks_closed (ins : bool) fuel lw c : t_client_closed c = true -> t_socks_closed c = false -> t_pcb c <> PcbOpen -> (t_aborted c = true <-> t_pcb c = PcbAborted) -> dead_ok ins c ->
  exists c', client_free_socks (S fuel) lw c = Ret c' /\ gone ins c' /\ same_data c c' /\ t_aborted c' = t_aborted c.
Proof.
  intros H1 H2 H3 Ha H4. cbn [client_free_socks]. rewrite H2, H1. mret. rewrite andb_false_r. mret.
  cbv zeta. unfold BSocksClient_Free. tc_simpl. rewrite H1. cbn [negb]. rewrite andb_false_r. apply (dealloc_ok ins (set_socks_closed (set_receiving (set_sending c None) false) true)); by tc_simpl.
Qed.

Lemma gone_fine (ins : bool) c : gone ins c -> fine ins c.
Proof. intros H. unfold fine. by rewrite (gn_freed _ _ H). Qed.
Lemma live_fine (ins : bool) c : live ins c -> fine ins c.
Proof. intros H. unfold fine. by rewrite (lv_freed _ _ H). Qed.
Lemma zlen_pos {A} (l : list A) : (0 <? zlen l) = true <-> l <> [].
Proof. rewrite Z.ltb_lt. destruct l; cbn [length]; split; intros; (done || lia). Qed.
Lemma zlen_zero {A} (l : list A) : (0 <? zlen l) = false -> l = [].
Proof. destruct l; [done|]. cbn [length]. lia. Qed.

(** The connection of lwIP is taken from the client: SOCKS goes with it unless it
    has data to take. *)
Record client_down ins c c' : Prop := {
  cd_fine : fine ins c';
  cd_same : same_data c c';
  cd_closed : t_client_closed c' = true;
  cd_socks : t_socks_closed c' = true -> t_socks_closed c = true \/ t_buf c = [];
  cd_socks_kept : t_socks_closed c = true -> t_socks_closed c' = true
}.

Lemma handle_freed_ok (ins : bool) fuel lw c :
  (2 <= fuel)%nat -> t_freed c = false -> t_client_closed c = false -> t_pcb c <> PcbOpen -> (t_aborted c = true <-> t_pcb c = PcbAborted) -> dead_ok ins c ->
  sending_ok c -> (t_receiving c = true -> t_socks_up c = true /\ t_socks_closed c = false /\ t_rbuf_used c = -1) ->
  exists c', client_handle_freed_client fuel lw c = Ret c' /\ client_down ins c c' /\ t_aborted c' = t_aborted c.
Proof.
  intros Hf Hfree H1 H3 Ha H4 Hs Hrc. destruct fuel as [|[|fuel]]; [lia|lia|]. cbn [client_handle_freed_client]. rewrite H1. mret. cbv zeta. tc_simpl.
  destruct (t_socks_closed c) eqn:Esc; cbn [negb]; rewrite ?andb_false_r, ?andb_true_r.
  - destruct (dealloc_ok ins (set_client_closed c true)) as (c' & -> & Hg & Hd & Hab); [by tc_simpl..|]. exists c'. split; [done|]. split; [|done].
    pose proof (gn_closed _ _ Hg). split; [by apply gone_fine|done|naive_solver..].
  - destruct (0 <? zlen (t_buf c)) eqn:Eb.
    + eexists. split; [done|]. split; [|done]. split; [|done|done|tc_simpl; congruence..].
      apply live_fine. split; tc_simpl; try done; try (by rewrite Esc).
      * intros _. split; [done|]. by apply zlen_pos.
      * destruct (t_receiving c); naive_solver.
    + destruct (free_socks_closed ins fuel lw (set_client_closed c true)) as (c' & -> & Hg & Hd & Hab); [by tc_simpl..|]. exists c'. split; [done|]. split; [|done].
      pose proof (gn_closed _ _ Hg). split; [by apply gone_fine|done|naive_solver| |congruence]. intros _. right. destruct (t_buf c) eqn:E; [done|]. exfalso. assert (t_buf c <> []) as Hn%zlen_pos by (by rewrite E). congruence.
Qed.

(** A client whose pcb is open. *)
Record upright (ins : bool) c : Prop := {
  ur_freed : t_freed c = false;
  ur_closed : t_client_closed c = false;
  ur_pcb : t_pcb c = PcbOpen;
  ur_aborted : t_aborted c = false;
  ur_dead : t_dead c = if ins then DeadAt 0 else DeadNull;
  ur_sending : sending_ok c;
  ur_receiving : t_receiving c = true -> t_socks_up c = true /\ t_socks_closed c = false /\ t_rbuf_used c = -1
}.
Lemma live_upright (ins : bool) c : live ins c -> t_client_closed c = false -> upright ins c.
Proof.
  intros H Hc. assert (Ha : t_aborted c = false) by (destruct (t_aborted c) eqn:E; [|done]; pose proof (proj1 (lv_aborted _ _ H) E); pose proof (proj1 (lv_pcb _ _ H) Hc); congruence).
  split; [apply H|done|by apply (lv_pcb _ _ H)|done|by apply (proj1 (lv_dead _ _ H))|apply H|]. intros Hr. pose proof (lv_receiving _ _ H) as Hx. by rewrite Hr in Hx.
Qed.

Lemma remove_callbacks_ok c : t_pcb c = PcbOpen -> remove_callbacks c = Ret (set_on_sent (set_on_recv (set_on_err c false) false) false).
Proof. intros H. unfold remove_callbacks, tcp_err, tcp_recv, tcp_sent, pcb_call. do 3 (rewrite bool_decide_eq_true_2 by (tc_simpl; done); mret). done. Qed.

Lemma abort_pcb_ok (ins : bool) c : t_pcb c = PcbOpen -> t_aborted c = false -> t_dead c = (if ins then DeadAt 0 else DeadNull) ->
  client_abort_pcb c = Ret (set_dead (set_aborted (set_pcb c PcbAborted) true) (if ins then DeadAt 1 else DeadNull)).
Proof.
  intros H1 H2 H3. unfold client_abort_pcb, tcp_abort, pcb_call. rewrite H2, bool_decide_eq_true_2 by done. mret. tc_simpl. rewrite H3. by destruct ins.
Qed.

Lemma down_via (ins : bool) c0 c1 c' : client_down ins c1 c' -> same_data c0 c1 -> t_socks_closed c1 = t_socks_closed c0 -> client_down ins c0 c'.
Proof. intros [H1 H2 H3 H4 H5] Hs Hc. split; [done|by etrans|done| |by rewrite <- Hc]. rewrite <- Hc. destruct Hs as (<- & _). done. Qed.

Lemma abort_client_ok (ins : bool) lw c : upright ins c -> exists c', client_abort_client lw c = Ret c' /\ client_down ins c c' /\ t_aborted c' = true.
Proof.
  intros [U1 U2 U3 U4 U5 U6 U7]. unfold client_abort_client. rewrite U2. mret. rewrite remove_callbacks_ok by done. mret. rewrite (abort_pcb_ok ins) by (by tc_simpl). mret.
  edestruct (handle_freed_ok ins 4 lw) as (c' & -> & Hd & Ha); cycle -1; [|tc_simpl..].
  - exists c'. split; [done|]. split; [|done]. by eapply down_via.
  - lia.
  - done.
  - done.
  - done.
  - done.
  - split; tc_simpl; [done|by intros _ ->].
  - done.
  - done.
Qed.

Lemma free_client_ok (ins : bool) fuel lw c : (3 <= fuel)%nat -> upright ins c ->
  exists c', client_free_client fuel lw c = Ret c' /\ client_down ins c c' /\ t_aborted c' = negb (lw_close lw).
Proof.
  intros Hf [U1 U2 U3 U4 U5 U6 U7]. destruct fuel as [|fuel]; [lia|]. cbn [client_free_client]. rewrite U2. mret. rewrite remove_callbacks_ok by done. mret. destruct (lw_close lw).
  - unfold pcb_call. rewrite bool_decide_eq_true_2 by (by tc_simpl). mret. edestruct (handle_freed_ok ins fuel lw) as (c' & -> & Hd & Ha); cycle -1; [|tc_simpl..].
    + exists c'. split; [done|]. split; [|by rewrite Ha; tc_simpl]. by eapply down_via.
    + lia.
    + done.
    + done.
    + done.
    + by rewrite U4.
    + split; tc_simpl; [by rewrite U5|congruence].
    + done.
    + done.
  - rewrite (abort_pcb_ok ins) by (by tc_simpl). mret. edestruct (handle_freed_ok ins fuel lw) as (c' & -> & Hd & Ha); cycle -1; [|tc_simpl..].
    + exists c'. split; [done|]. split; [|done]. by eapply down_via.
    + lia.
    + done.
    + done.
    + done.
    + done.
    + split; tc_simpl; [done|by intros _ ->].
    + done.
    + done.
Qed.

(** The SOCKS connection is freed: the client goes with it unless lwIP has data
    that is not confirmed. *)
Record socks_down (ins : bool) c c' : Prop := {
  sd_fine : fine ins c';
  sd_same : same_data c c';
  sd_closed : t_socks_closed c' = true;
  sd_client : t_client_closed c' = true -> t_client_closed c = true \/ unsent c = [];
  sd_client_kept : t_client_closed c = true -> t_client_closed c' = true;
  sd_aborted : t_aborted c = true -> t_aborted c' = true
}.

Lemma free_socks_ok (ins : bool) lw c : live ins c -> t_socks_closed c = false -> exists c', client_free_socks 4 lw c = Ret c' /\ socks_down ins c c'.
Proof.
  intros Hl Hs. destruct (t_client_closed c) eqn:Hc.
  - destruct (free_socks_closed ins 3 lw c) as (c' & -> & Hg & Hd & Ha); [done|done| |apply Hl|apply Hl|].
    { intros Ho. apply (lv_pcb _ _ Hl) in Ho. congruence. }
    exists c'. split; [done|]. pose proof (gn_closed _ _ Hg). split; [by apply gone_fine|done|naive_solver|naive_solver|naive_solver|by rewrite Ha].
  - pose proof (live_upright _ _ Hl Hc) as U. cbn [client_free_socks]. rewrite Hs, Hc. mret. rewrite andb_true_r.
    set (r := if t_socks_up c then _ else _). assert (Hr : exists b, r = Ret (set_on_recv c b) /\ (t_socks_up c = true -> b = false)).
    { unfold r, tcp_recv, pcb_call. rewrite (bool_decide_eq_true_2 _ (ur_pcb _ _ U)). destruct (t_socks_up c); [by eexists|]. exists (t_on_recv c). split; [by destruct c|done]. }
    destruct Hr as (b & -> & Hb). mret. cbv zeta. unfold BSocksClient_Free. tc_simpl. rewrite Hc. cbn [negb]. rewrite andb_true_r.
    set (c1 := set_socks_closed (set_receiving (set_sending (set_on_recv c b) None) false) true).
    assert (Hd1 : same_data c c1) by done. assert (U1 : upright ins c1) by (destruct U; split; unfold sending_ok; tc_simpl; done).
    destruct (t_socks_up c && ((0 <=? t_rbuf_used c) || (0 <? t_tcp_pending c))) eqn:Ew.
    + apply andb_true_iff in Ew as [Eu Ew]. exists c1. split; [done|]. split; [|done|done|by left|by rewrite Hc|done]. destruct (lv_rbuf _ _ Hl Eu Hc) as [Hp Hrb]. destruct (lv_callbacks _ _ Hl Hc) as (Hk1 & Hk2 & Hk3 & Hk4).
      apply live_fine. split; unfold c1, sending_ok; tc_simpl; try done; try apply Hl; try congruence.
      * intros _. split; [done|]. split; [by apply Hb|]. done.
      * intros _. split; [done|]. destruct Hrb as [E|?]; lia.
    + destruct (free_client_ok ins 3 lw c1) as (c' & Hfc & Hcd & Ha); [lia|done|]. change (client_free_client 3 lw c1) with (client_free_client 3 lw c1) in Hfc. exists c'. split; [exact Hfc|].
      split; [apply Hcd|by etrans; [|apply Hcd]|by apply (cd_socks_kept _ _ _ Hcd)| |by rewrite Hc|by rewrite (ur_aborted _ _ U)].
      intros _. right. unfold unsent. destruct (t_socks_up c); [|done]. cbn [andb] in Ew |- *. apply orb_false_iff in Ew as [E _]. replace (0 <? t_rbuf_used c) with false by lia. done.
Qed.

(** ** What is relayed *)

(** Data from either side is kept in order: SOCKS has taken all but what is in
    the buffer, lwIP was given all but what is waiting.  A side that was closed
    has all of it unless it was the one that ended. *)
Record relay (ins : bool) c : Prop := {
  rl_fine : fine ins c;
  rl_socks : t_from_tcp c = t_to_socks c ++ t_buf c;
  rl_tcp : t_client_closed c = false -> t_from_socks c = t_to_tcp c ++ unsent c;
  rl_prefix : t_to_tcp c `prefix_of` t_from_socks c;
  rl_socks_down : t_socks_closed c = true -> t_socks_ended c = true \/ t_buf c = [];
  rl_tcp_down : t_client_closed c = true -> t_tcp_ended c = true \/ t_aborted c = true \/ t_socks_closed c = true /\ t_from_socks c = t_to_tcp c
}.

Lemma relay_client_down (ins : bool) c c' :
  t_from_tcp c = t_to_socks c ++ t_buf c -> t_from_socks c = t_to_tcp c ++ unsent c -> (t_socks_closed c = true -> t_socks_ended c = true \/ t_buf c = []) ->
  client_down ins c c' -> t_tcp_ended c = true \/ t_aborted c' = true \/ t_socks_closed c = true /\ unsent c = [] -> relay ins c'.
Proof.
  intros H1 H2 H3 [D1 (S1 & S2 & S3 & S4 & S5 & S6 & S7 & S8 & S9) D3 D4 D5] H4. split.
  - done.
  - congruence.
  - rewrite D3. done.
  - rewrite S7, S3, H2. by apply prefix_app_r.
  - intros Hc. rewrite S9, S1. destruct (D4 Hc) as [?|?]; auto.
  - intros _. rewrite S8, S7, S3. destruct H4 as [?|[?|[? Hu]]]; [by left|by right; left|]. right; right. split; [by apply D5|]. by rewrite H2, Hu, app_nil_r.
Qed.

Lemma relay_socks_down (ins : bool) c c' : relay ins c -> socks_down ins c c' -> t_socks_ended c = true \/ t_buf c = [] -> relay ins c'.
Proof.
  intros [R1 R2 R3 R4 R5 R6] [D1 (S1 & S2 & S3 & S4 & S5 & S6 & S7 & S8 & S9) D3 D4 D5 D6] H. split.
  - done.
  - congruence.
  - rewrite S7, S3, S4. intros Hc. apply R3. destruct (t_client_closed c) eqn:E; [|done]. by rewrite D5 in Hc.
  - by rewrite S7, S3.
  - by rewrite S9, S1.
  - rewrite S8, S7, S3. intros Hc. destruct (t_client_closed c) eqn:E.
    + destruct (R6 eq_refl) as [?|[?|[? ?]]]; [by left|by right; left; apply D6|by right; right].
    + destruct (D4 Hc) as [?|Hu]; [done|]. right; right. split; [done|]. by rewrite (R3 eq_refl), Hu, app_nil_r.
Qed.

(** ** Giving data to lwIP *)

Definition moved c (s p : Z) (d : bytes) : tcp_client := set_to_tcp (set_tcp_pending (set_rbuf_sent c s) p) d.

Lemma slice_drop_step (l : bytes) (s k : Z) : 0 <= s -> 0 <= k -> slice l s k ++ drop (Z.to_nat (s + k)) l = drop (Z.to_nat s) l.
Proof. intros Hs Hk. unfold slice. rewrite Z2Nat.inj_add, <- drop_drop by lia. apply take_drop. Qed.

Lemma send_loop_ok lw fuel : forall round c, t_pcb c = PcbOpen -> 0 <= t_rbuf_sent c < t_rbuf_used c -> (Z.to_nat (t_rbuf_used c - t_rbuf_sent c) <= fuel)%nat -> 0 <= t_tcp_pending c ->
  exists k ok d, send_out_loop fuel round lw c = Ret (moved c (t_rbuf_sent c + k) (t_tcp_pending c + k) d, ok) /\ 0 <= k <= t_rbuf_used c - t_rbuf_sent c /\
    d ++ drop (Z.to_nat (t_rbuf_sent c + k)) (t_rbuf c) = t_to_tcp c ++ drop (Z.to_nat (t_rbuf_sent c)) (t_rbuf c).
Proof.
  induction fuel as [|fuel IH]; intros round c Ho Hr Hf Hp; [lia|]. cbn [send_out_loop]. unfold pcb_call. rewrite bool_decide_eq_true_2 by done. mret. cbv zeta.
  assert (H0 : moved c (t_rbuf_sent c + 0) (t_tcp_pending c + 0) (t_to_tcp c) = c) by (rewrite !Z.add_0_r; by destruct c).
  set (w := Z.min _ _). destruct (w =? 0) eqn:Ew.
  { exists 0, true, (t_to_tcp c). rewrite H0, Z.add_0_r. split; [done|]. split; [lia|done]. }
  destruct (lw_write lw round).
  2: { exists 0, true, (t_to_tcp c). rewrite H0, Z.add_0_r. split; [done|]. split; [lia|done]. }
  2: { exists 0, false, (t_to_tcp c). rewrite H0, Z.add_0_r. split; [done|]. split; [lia|done]. }
  tc_simpl. destruct (t_rbuf_sent c + w <? t_rbuf_used c) eqn:El.
  - edestruct (IH (S round)) as (k & ok & d & -> & Hk & Hd); cycle -1; [|tc_simpl; (done || lia)..]. tc_simpl. exists (w + k), ok, d. split; [|split].
    + unfold moved. tc_simpl. by rewrite !Z.add_assoc.
    + lia.
    + rewrite Z.add_assoc, Hd, <- app_assoc. f_equal. apply slice_drop_step; lia.
  - exists w, true, (t_to_tcp c ++ slice (t_rbuf c) (t_rbuf_sent c) w). split; [done|]. split; [lia|]. rewrite <- app_assoc. f_equal. apply slice_drop_step; lia.
Qed.


(** A client whose pcb is open, without what is known of the data from SOCKS. *)
Record open_relay (ins : bool) c : Prop := {
  or_upright : upright ins c;
  or_callbacks : t_on_err c = true /\ t_on_recv c = negb (t_socks_closed c) /\ t_on_sent c = t_socks_up c /\ t_recved c = zlen (t_to_socks c);
  or_socks : t_from_tcp c = t_to_socks c ++ t_buf c;
  or_tcp : t_from_socks c = t_to_tcp c ++ unsent c;
  or_socks_down : t_socks_closed c = true -> t_socks_ended c = true \/ t_buf c = []
}.

Lemma relay_live (ins : bool) c : relay ins c -> t_freed c = false -> live ins c.
Proof. intros R Hf. pose proof (rl_fine _ _ R) as L. unfold fine in L. by rewrite Hf in L. Qed.

Lemma relay_open (ins : bool) c : relay ins c -> t_freed c = false -> t_client_closed c = false -> open_relay ins c.
Proof. intros R Hf Hc. pose proof (relay_live _ _ R Hf) as L. split; [by apply live_upright|by apply (lv_callbacks _ _ L)|apply R|by apply R|apply R]. Qed.

(** The data from SOCKS: nothing is waiting, or lwIP has data to confirm. *)
Definition rbuf_ok c : Prop :=
  0 <= t_tcp_pending c /\ (t_rbuf_used c = -1 \/ 0 <= t_rbuf_sent c < t_rbuf_used c /\ zlen (t_rbuf c) = t_rbuf_used c /\ t_rwaiting c = true /\ 0 < t_tcp_pending c).

Lemma open_live (ins : bool) c : open_relay ins c -> t_socks_up c = true -> rbuf_ok c -> (t_socks_closed c = true -> 0 < t_tcp_pending c) ->
  t_receiving c = (t_rbuf_used c =? -1) && negb (t_socks_closed c) -> relay ins c.
Proof.
  intros [U K Hft Hfs Hsd] Hup Hrb Hp Hrv. pose proof (ur_closed _ _ U) as Hc. pose proof (ur_pcb _ _ U) as Ho. pose proof (ur_aborted _ _ U) as Ha. split; [|done|done| |done|by rewrite Hc].
  - apply live_fine. split; [apply U| | | |done|by rewrite Hc|by auto|apply U|done|].
    + split; [intros _; apply U|by rewrite Ha].
    + by rewrite Ha, Ho.
    + by rewrite Hc, Ho.
    + destruct (t_receiving c) eqn:E; [by apply U|]. intros _ Hsc _ Hu. by rewrite Hsc, Hu in Hrv.
  - rewrite Hfs. by apply prefix_app_r.
Qed.

Lemma send_out_ok (ins : bool) lw c :
  open_relay ins c -> t_socks_up c = true -> 0 <= t_rbuf_sent c < t_rbuf_used c -> zlen (t_rbuf c) = t_rbuf_used c -> t_rwaiting c = false -> t_receiving c = false -> 0 <= t_tcp_pending c ->
  exists c' ok, client_socks_recv_send_out lw c = Ret (c', ok) /\
    if (ok : bool) then open_relay ins c' /\ t_socks_up c' = true /\ rbuf_ok c' /\ 0 < t_tcp_pending c' /\ t_receiving c' = false /\ t_socks_closed c' = t_socks_closed c
    else relay ins c'.
Proof.
  intros O Hup Hr Hz Hw Hrv Hp. pose proof (or_upright _ _ O) as U. unfold client_socks_recv_send_out. rewrite (ur_closed _ _ U), Hup, Hw. replace (0 <? t_rbuf_used c) with true by lia. replace (t_rbuf_sent c <? t_rbuf_used c) with true by lia. mret.
  destruct (send_loop_ok lw (Z.to_nat (t_rbuf_used c - t_rbuf_sent c)) 0 c (ur_pcb _ _ U) Hr (Nat.le_refl _) Hp) as (k & ok & d & -> & Hk & Hd). mret. cbv zeta.
  set (c1 := moved c _ _ _).
  assert (Hun : unsent c = drop (Z.to_nat (t_rbuf_sent c)) (t_rbuf c)) by (unfold unsent; rewrite Hup; by replace (0 <? t_rbuf_used c) with true by lia).
  assert (Hun1 : unsent c1 = drop (Z.to_nat (t_rbuf_sent c + k)) (t_rbuf c)) by (unfold unsent, c1, moved; tc_goal; rewrite Hup; by replace (0 <? t_rbuf_used c) with true by lia).
  assert (O1 : open_relay ins c1).
  { destruct O as [U' K Hft Hfs Hsd]. split; [|done|done| |done]; [destruct U; split; done|]. rewrite Hun1. unfold c1, moved. tc_goal. by rewrite Hd, Hfs, Hun. }
  assert (Hs1 : t_rbuf_sent c1 = t_rbuf_sent c + k /\ t_rbuf_used c1 = t_rbuf_used c /\ t_rbuf c1 = t_rbuf c /\ t_tcp_pending c1 = t_tcp_pending c + k /\ t_socks_up c1 = true /\ t_receiving c1 = false /\ t_socks_closed c1 = t_socks_closed c) by done.
  clearbody c1. destruct Hs1 as (F1 & F2 & F3 & F4 & F5 & F6 & F7). pose proof (or_upright _ _ O1) as U1.
  assert (Hfail : exists c' ok, (c ← client_abort_client lw c1; Ret (c, false)) = Ret (c', ok) /\ if (ok : bool) then open_relay ins c' /\ t_socks_up c' = true /\ rbuf_ok c' /\ 0 < t_tcp_pending c' /\ t_receiving c' = false /\ t_socks_closed c' = t_socks_closed c else relay ins c').
  { destruct (abort_client_ok ins lw c1 U1) as (c' & -> & Hcd & Ha). exists c', false. split; [done|]. apply (relay_client_down ins c1); [apply O1|apply O1|apply O1|done|by right; left]. }
  destruct ok; cbn [negb]; [|exact Hfail]. unfold pcb_call. rewrite bool_decide_eq_true_2 by apply U1. mret. destruct (lw_output lw); cbn [negb]; [|exact Hfail].
  destruct (t_rbuf_sent c1 <? t_rbuf_used c1) eqn:El.
  - destruct (t_tcp_pending c1 =? 0) eqn:Ep; [exact Hfail|]. exists (set_rwaiting c1 true), true. split; [done|]. unfold rbuf_ok. tc_goal. rewrite F3. split; [|split; [done|]; split; [|split; [|done]]].
    + destruct O1 as [U' K Hft Hfs Hsd]. split; [|done..]. destruct U'; split; done.
    + split; [lia|]. right. split; [lia|]. split; [lia|]. split; [done|]. lia.
    + lia.
  - exists (set_rbuf_used c1 (-1)), true. split; [done|]. unfold rbuf_ok. tc_goal. split; [|split; [done|]; split; [|split; [|done]]].
    + destruct O1 as [U' K Hft Hfs Hsd]. split; [|done|done| |done]; [destruct U' as [V1 V2 V3 V4 V5 V6 V7]; split; try done; tc_goal; by rewrite F6|]. unfold unsent at 1. tc_goal. rewrite andb_false_r, app_nil_r, Hfs, Hun1. rewrite drop_ge by (clear - F1 F2 F3 Hk Hz El; lia). by rewrite app_nil_r.
    + split; [lia|by left].
    + lia.
Qed.

Lemma recv_initiate_ok (ins : bool) c : open_relay ins c -> t_socks_up c = true -> t_socks_closed c = false -> t_receiving c = false -> t_rbuf_used c = -1 -> 0 <= t_tcp_pending c ->
  exists c', client_socks_recv_initiate c = Ret c' /\ relay ins c'.
Proof.
  intros O Hup Hsc Hrv Hu Hp. unfold client_socks_recv_initiate, StreamRecvInterface_Receiver_Recv. rewrite (ur_closed _ _ (or_upright _ _ O)), Hsc, Hup, Hu, Hrv. change (-1 =? -1) with true. mret. eexists. split; [done|].
  apply open_live; [|done|split; [done|by left]|tc_goal; by rewrite Hsc|tc_goal; by rewrite Hu, Hsc]. destruct O as [[V1 V2 V3 V4 V5 V6 V7] K Hft Hfs Hsd]. split; [|done..]. split; try done.
Qed.

(** ** Jobs *)

Section jobs.
Context {build : Build}.

Ltac live_of H := apply live_fine; split; unfold sending_ok, dead_ok, unsent; tc_simpl; try done; try apply H; try (rewrite ?orb_false_r; done).

Lemma recv_done_ok (ins : bool) lw c data : relay ins c -> job_ready c (JobReceived data) = true ->
  exists c', client_socks_recv_handler_done lw c data = Ret c' /\ relay ins c'.
Proof.
  intros R Hj. unfold job_ready in Hj. apply andb_true_iff in Hj as [Hfree Hj]. apply andb_true_iff in Hj as [Hj Hd2]. apply andb_true_iff in Hj as [Hrv Hd1]. apply negb_true_iff in Hfree.
  pose proof (relay_live _ _ R Hfree) as L. pose proof (lv_receiving _ _ L) as Hx. rewrite Hrv in Hx. destruct Hx as (Hup & Hsc & Hu).
  unfold client_socks_recv_handler_done. rewrite Hd1, Hd2, Hsc, Hup, Hu. change (-1 =? -1) with true. mret. cbv zeta. change (t_client_closed (set_from_socks _ _)) with (t_client_closed c). destruct (t_client_closed c) eqn:Hc.
  - eexists. split; [done|]. destruct R as [R1 R2 R3 R4 R5 R6]. split; tc_goal.
    + live_of L. rewrite Hc. done.
    + done.
    + congruence.
    + by apply prefix_app_r.
    + congruence.
    + intros _. destruct (R6 Hc) as [?|[?|[? _]]]; [by left|by right; left|congruence].
  - destruct (relay_open _ _ R Hfree Hc) as [U K Hft Hfs Hsd]. destruct (lv_rbuf _ _ L Hup Hc) as [Hp _]. set (c1 := set_rbuf _ data).
    assert (O1 : open_relay ins c1).
    { split; [destruct U; split; done|done|done| |done]. assert (Hun : unsent c = []) by (unfold unsent; rewrite Hu; by rewrite andb_false_r). unfold unsent, c1. tc_goal. rewrite Hup, Hd1, Hfs, Hun, app_nil_r. done. }
    destruct (send_out_ok ins lw c1 O1) as (c' & ok & -> & Hok); [done|unfold c1; tc_goal; lia|done|done|done|done|]. mret. destruct ok; mret; [|by eexists]. destruct Hok as (O' & Hup' & Hrb' & Hp' & Hrv' & Hsc'). change (t_socks_closed c1) with (t_socks_closed c) in Hsc'. rewrite Hsc in Hsc'.
    destruct (t_rbuf_used c' =? -1) eqn:Eu.
    + apply recv_initiate_ok; [done|done|done|done|by apply Z.eqb_eq|by apply Z.lt_le_incl].
    + eexists. split; [done|]. apply open_live; try done. by rewrite Hrv', Eu.
Qed.

Lemma sent_done_ok (ins : bool) lw c n : relay ins c -> job_ready c (JobSent n) = true -> exists c', client_socks_send_handler_done lw c n = Ret c' /\ relay ins c'.
Proof.
  intros R Hj. unfold job_ready in Hj. apply andb_true_iff in Hj as [Hfree Hj]. apply negb_true_iff in Hfree. destruct (t_sending c) as [m|] eqn:Hs; [|done].
  pose proof (rl_fine _ _ R) as L. unfold fine in L. rewrite Hfree in L. pose proof (lv_sending _ _ L) as Hx. unfold sending_ok in Hx. rewrite Hs in Hx. destruct Hx as (Hup & Hsc & Hm).
  unfold client_socks_send_handler_done. rewrite Hsc, Hup. replace (0 <? zlen (t_buf c)) with true by lia. replace (0 <? n) with true by lia. replace (n <=? zlen (t_buf c)) with true by lia. mret. cbv zeta. tc_simpl.
  set (left := drop (Z.to_nat n) (t_buf c)). assert (Hleft : t_from_tcp c = (t_to_socks c ++ take (Z.to_nat n) (t_buf c)) ++ left) by (rewrite <- app_assoc; unfold left; rewrite take_drop; apply R).
  assert (Hlen : zlen (t_to_socks c ++ take (Z.to_nat n) (t_buf c)) = zlen (t_to_socks c) + n) by (rewrite length_app, length_take; lia).
  destruct R as [R1 R2 R3 R4 R5 R6]. destruct (t_client_closed c) eqn:Hc; cbn [negb]; mret; tc_simpl.
  - destruct (0 <? zlen left) eqn:El.
    + unfold StreamPassInterface_Sender_Send. tc_simpl. rewrite El. mret. eexists. split; [done|]. split; tc_simpl; [|done|by rewrite Hc|done|by rewrite Hsc|intros _; by apply R6].
      live_of L; [by rewrite Hc|intros _; split; [done|]; by apply zlen_pos|lia].
    + assert (left = []) as Hl by (by apply zlen_zero). rewrite Hc. edestruct (free_socks_closed ins 3 lw) as (c' & -> & Hg & Hd & Ha); cycle -1; [|tc_simpl..].
      * exists c'. split; [done|]. destruct Hd as (S1 & S2 & S3 & S4 & S5 & S6 & S7 & S8 & S9). tc_simpl. pose proof (gn_closed _ _ Hg) as [G1 G2]. split; [by apply gone_fine|congruence|by rewrite G1|by rewrite S7, S3|by rewrite S1; right|].
        intros _. rewrite S8, Ha. destruct (R6 eq_refl) as [?|[?|[? _]]]; [by left|by right; left|by rewrite Hsc in *].
      * done.
      * done.
      * intros Ho. apply (lv_pcb _ _ L) in Ho. by rewrite Hc in Ho.
      * apply L.
      * apply L.
  - pose proof (live_upright _ _ L Hc) as U. unfold tcp_recved, pcb_call. tc_simpl. rewrite (bool_decide_eq_true_2 _ (ur_pcb _ _ U)). mret. tc_simpl. destruct (lv_callbacks _ _ L Hc) as (Hk1 & Hk2 & Hk3 & Hk4).
    destruct (0 <? zlen left) eqn:El.
    + unfold StreamPassInterface_Sender_Send. tc_simpl. rewrite El. mret. eexists. split; [done|]. split; tc_simpl; [|done|intros _; exact (R3 eq_refl)|done|by rewrite Hsc|by rewrite Hc].
      live_of L; [rewrite Hlen, <- Hk4; done|by rewrite Hc|lia].
    + assert (left = []) as Hl by (by apply zlen_zero). rewrite Hc. eexists. split; [done|]. split; tc_simpl; [|done|intros _; exact (R3 eq_refl)|done|by rewrite Hsc|by rewrite Hc].
      live_of L; [rewrite Hlen, <- Hk4; done|by rewrite Hc].
Qed.

Lemma relay_ended (ins : bool) c : relay ins c -> relay ins (set_socks_ended c true).
Proof.
  intros [R1 R2 R3 R4 R5 R6]. split; tc_simpl; try done; [|by left]. unfold fine in *. tc_simpl. destruct (t_freed c); destruct R1; split; unfold sending_ok, dead_ok in *; tc_simpl; done.
Qed.

Lemma socks_ended_ok (ins : bool) lw c : relay ins c -> t_freed c = false -> t_socks_closed c = false ->
  exists c', client_free_socks 4 lw (set_socks_ended c true) = Ret c' /\ relay ins c'.
Proof.
  intros R Hf Hs. pose proof (relay_ended _ _ R) as R'. destruct (free_socks_ok ins lw (set_socks_ended c true)) as (c' & -> & Hd); [by apply relay_live|done|]. exists c'. split; [done|]. eapply relay_socks_down; [done|done|by left].
Qed.

Lemma socks_up_ok (ins : bool) lw c : relay ins c -> job_ready c (JobSocks EVENT_UP) = true -> exists c', client_socks_handler lw c EVENT_UP = Ret c' /\ relay ins c'.
Proof.
  intros R Hj. unfold job_ready in Hj. apply andb_true_iff in Hj as [Hfree Hj]. apply andb_true_iff in Hj as [Hsc Hup]. rewrite negb_true_iff in Hfree, Hsc, Hup. pose proof (relay_live _ _ R Hfree) as L.
  assert (Hs : t_sending c = None) by (pose proof (lv_sending _ _ L) as Hx; unfold sending_ok in Hx; destruct (t_sending c); [|done]; destruct Hx; congruence).
  assert (Hrv : t_receiving c = false) by (pose proof (lv_receiving _ _ L) as Hx; destruct (t_receiving c); [|done]; destruct Hx; congruence).
  assert (Hun : unsent c = []) by (unfold unsent; by rewrite Hup). unfold client_socks_handler. rewrite Hsc, Hup. mret. cbv zeta. tc_simpl. pose proof (relay_open _ _ R Hfree) as HO. destruct R as [R1 R2 R3 R4 R5 R6]. rewrite Hun, app_nil_r in R3. destruct (t_client_closed c) eqn:Hc; cbn [negb]; mret; tc_simpl.
  - destruct (lv_client_closed _ _ L Hc) as [_ Hb]. rewrite (proj2 (zlen_pos _) Hb). unfold client_send_to_socks, StreamPassInterface_Sender_Send. tc_simpl. rewrite Hsc, (proj2 (zlen_pos _) Hb), Hs. mret. rewrite bool_decide_eq_true_2 by done. mret. tc_simpl. rewrite Hc. mret.
    eexists. split; [done|]. split; tc_simpl; [|done|by rewrite Hc|done|by rewrite Hsc|intros _; by apply R6]. apply zlen_pos in Hb. live_of L; [by rewrite Hc|by rewrite Hsc|split; [done|]; split; [done|lia]|by rewrite Hc|by rewrite Hrv, Hc].
  - destruct (HO eq_refl) as [U K Hft Hfs Hsd]. unfold tcp_sent, pcb_call. rewrite bool_decide_eq_true_2 by apply U. mret.
    set (c1 := set_socks_up _ true). assert (Hc1 : t_receiving c1 = false /\ t_socks_closed c1 = false /\ t_buf c1 = t_buf c /\ t_sending c1 = None /\ t_rbuf_used c1 = -1 /\ t_tcp_pending c1 = 0 /\ t_socks_up c1 = true) by done.
    assert (O1 : forall s : bool, (if s then t_buf c <> [] else t_buf c = []) -> open_relay ins (set_sending c1 (if s then Some (zlen (t_buf c)) else None))).
    { intros s Hb. split; [|destruct s; tauto|by destruct s| |by destruct s].
      - destruct U as [V1 V2 V3 V4 V5 V6 V7]. destruct s; split; unfold sending_ok, c1; tc_goal; try done; try (by rewrite Hrv). split; [done|]. split; [done|]. apply zlen_pos, Z.ltb_lt in Hb. by split.
      - transitivity (t_to_tcp c); [by rewrite <- R3|]. by destruct s; unfold unsent; tc_goal; rewrite andb_false_r, app_nil_r. }
    assert (Hid : set_sending c1 (t_sending c1) = c1) by done.
    clearbody c1. destruct Hc1 as (F1 & F2 & F3 & F4 & F5 & F6 & F7). change (t_buf (set_on_sent _ true)) with (t_buf c). destruct (0 <? zlen (t_buf c)) eqn:Eb.
    + unfold client_send_to_socks, StreamPassInterface_Sender_Send. rewrite F2, F3, F4, F7, Eb. mret. rewrite bool_decide_eq_true_2 by done. mret. specialize (O1 true (proj1 (zlen_pos _) Eb)). cbv iota in O1.
      change (t_client_closed (set_sending c1 (Some (zlen (t_buf c))))) with (t_client_closed c1). pose proof (ur_closed _ _ (or_upright _ _ O1)) as Hx. tc_simpl. rewrite Hx. cbn [negb]. apply recv_initiate_ok; try done. tc_goal. by rewrite F6.
    + specialize (O1 false (zlen_zero _ Eb)). cbv iota in O1. rewrite <- F4, Hid in O1. mret. rewrite (ur_closed _ _ (or_upright _ _ O1)). cbn [negb]. apply recv_initiate_ok; try done. by rewrite F6.
Qed.

Lemma run_job_ok (ins : bool) lw c j : relay ins c -> job_ready c j = true -> job_quiet j = true -> exists c', run_job lw c j = Ret c' /\ relay ins c'.
Proof.
  intros R Hj Hq. pose proof Hj as Hj'. unfold job_ready in Hj'. apply andb_true_iff in Hj' as [Hf Hj']. apply negb_true_iff in Hf. unfold run_job. rewrite Hf. destruct j as [ev|n|data].
  - apply andb_true_iff in Hj' as [Hsc Hev]. apply negb_true_iff in Hsc. destruct ev; [|by apply socks_up_ok|..]; unfold client_socks_handler; rewrite Hsc; mret; [by apply socks_ended_ok|rewrite Hev; mret; by apply socks_ended_ok|].
    unfold job_quiet in Hq. rewrite orb_false_r in Hq. unfold ASSERT_0. rewrite Hq. by exists c.
  - by apply sent_done_ok.
  - by apply recv_done_ok.
Qed.

Lemma run_jobs_ok (ins : bool) jobs : jobs_quiet jobs = true -> forall c, relay ins c -> exists c', run_jobs jobs c = Ret c' /\ relay ins c'.
Proof.
  unfold jobs_quiet. induction jobs as [|[lw j] jobs IH]; cbn [forallb snd]; intros Hq c R; cbn [run_jobs]; [by exists c|]. apply andb_true_iff in Hq as [Hq1 Hq2]. destruct (job_ready c j) eqn:Hj; mret; [|by apply IH].
  destruct (run_job_ok ins lw c j R Hj Hq1) as (c1 & -> & R1). mret. by apply IH.
Qed.

(** Without NDEBUG the event stops the program. *)
Lemma connected_aborts lw c : ndebug = false -> job_ready c (JobSocks EVENT_CONNECTED) = true -> run_job lw c (JobSocks EVENT_CONNECTED) = Abort.
Proof.
  intros Hn Hj. unfold job_ready in Hj. apply andb_true_iff in Hj as [Hf Hj]. apply andb_true_iff in Hj as [Hsc _]. apply negb_true_iff in Hf, Hsc. unfold run_job, client_socks_handler, ASSERT_0. by rewrite Hf, Hsc, Hn.
Qed.
End jobs.
