(* ===== verification/TcpRelay.v ===== *)
(** * Runs of a TCP client

    The callbacks that lwIP makes for a client of [TcpClient], the events of a
    run, and what holds in every run: no assertion fails, no freed memory is
    used, lwIP is told when its pcb was aborted, and data is relayed in order
    and, unless the other side has ended, completely. *)

From S2P Require Import Prelude Buffer SocksClient TcpClient.
From stdpp Require Import prelude gmap.
From Stdlib Require Import ZArith Lia ZifyBool.

Local Open Scope Z_scope.
Implicit Types (c : tcp_client) (lw : lwip).

(** ** Callbacks *)

Lemma relay_dead (ins ins' : bool) c d : relay ins c -> fine ins' (set_dead c d) -> relay ins' (set_dead c d).
Proof. intros [R1 R2 R3 R4 R5 R6] H. split; tc_simpl; done. Qed.

Lemma live_dead (ins ins' : bool) c d : live ins c -> dead_ok ins' (set_dead c d) -> live ins' (set_dead c d).
Proof. intros [] H. split; unfold sending_ok in *; tc_simpl; done. Qed.

Lemma enter_ok c : relay false c -> t_freed c = false -> t_client_closed c = false -> relay true (dead_enter c).
Proof.
  intros R Hf Hc. pose proof (relay_live _ _ R Hf) as L. apply (relay_dead false); [done|]. apply live_fine, (live_dead false); [done|]. pose proof (ur_aborted _ _ (live_upright _ _ L Hc)) as Ha. split; tc_simpl; [done|by rewrite Ha].
Qed.

(** The end of a callback.  The result tells lwIP whether the pcb was aborted. *)
Lemma finish_ok c : relay true c -> exists d e, finish c = Ret (set_dead c d, e) /\ relay false (set_dead c d) /\ e <> ERR_MEM /\ (e = ERR_ABRT <-> t_pcb c = PcbAborted).
Proof.
  intros R. pose proof (rl_fine _ _ R) as F. unfold fine in F. unfold finish, dead_leave. destruct (t_freed c) eqn:Hf.
  - rewrite (gn_dead _ _ F eq_refl). pose proof (gn_aborted _ _ F) as Ha. assert (Hr : relay false (set_dead c DeadDangling)).
    { apply (relay_dead true); [done|]. apply gone_fine. destruct F. split; tc_simpl; done. }
    destruct (t_aborted c); mret; eexists _, _; (split; [done|]); (split; [done|]); (split; [done|]); cbn; naive_solver.
  - destruct (lv_dead _ _ F) as [D1 D2]. pose proof (lv_aborted _ _ F) as Ha. destruct (t_aborted c) eqn:Ea.
    + rewrite (D2 eq_refl eq_refl). mret. eexists _, _. split; [done|]. split; [|split; [done|cbn; naive_solver]]. apply (relay_dead true); [done|]. apply live_fine, (live_dead true); [done|]. split; tc_simpl; [by rewrite Ea|done].
    + rewrite (D1 eq_refl). mret. eexists _, _. split; [done|]. split; [|split; [done|cbn; naive_solver]]. apply (relay_dead true); [done|]. apply live_fine, (live_dead true); [done|]. split; tc_simpl; done.
Qed.

(** What the callbacks return to lwIP. *)
Definition told c' (e : err_t) (refused : Prop) : Prop := relay false c' /\ (e = ERR_ABRT <-> t_pcb c' = PcbAborted) /\ (e = ERR_MEM <-> refused).

Lemma finish_told c (P : Prop) : relay true c -> ~ P -> exists c' e, finish c = Ret (c', e) /\ told c' e P.
Proof. intros R HP. destruct (finish_ok c R) as (d & e & -> & R' & He & Ha). eexists _, _. split; [done|]. split; [done|]. split; [done|]. naive_solver. Qed.

Lemma jobs_told {build : Build} jobs c (P : Prop) : jobs_quiet jobs = true -> relay true c -> ~ P -> exists c' e, (c ← run_jobs jobs c; finish c) = Ret (c', e) /\ told c' e P.
Proof. intros Hq R HP. destruct (run_jobs_ok true jobs Hq c R) as (c1 & -> & R1). mret. by apply finish_told. Qed.

Section ready.
Context {build : Build} (TCP_WND : Z).

Inductive relay_event :=
| EvRecv (lw : lwip) (p : option bytes) (jobs : list (lwip * job))
| EvSent (lw : lwip) (len : Z) (jobs : list (lwip * job))
| EvErr (lw : lwip)
| EvJob (lw : lwip) (j : job)
| EvMurder.

(** lwIP calls a callback that is set on a pcb that is open, and confirms only
    what it was given. *)
Definition event_ready c (e : relay_event) : bool :=
  negb (t_freed c) &&
  match e with
  | EvRecv _ p _ => bool_decide (t_pcb c = PcbOpen) && t_on_recv c && match p with Some data => 0 <? zlen data | None => true end
  | EvSent _ len _ => bool_decide (t_pcb c = PcbOpen) && t_on_sent c && (0 <? len) && (len <=? t_tcp_pending c)
  | EvErr _ => bool_decide (t_pcb c = PcbOpen) && t_on_err c
  | EvJob _ j => job_ready c j
  | EvMurder => true
  end.

Definition relay_step c (e : relay_event) : outcome (tcp_client * option err_t) :=
  match e with
  | EvRecv lw p jobs => '(c, r) ← client_recv_func TCP_WND lw c p jobs; Ret (c, Some r)
  | EvSent lw len jobs => '(c, r) ← client_sent_func lw c len jobs; Ret (c, Some r)
  | EvErr lw => c ← client_err_func lw c; Ret (c, None)
  | EvJob lw j => c ← run_job lw c j; Ret (c, None)
  | EvMurder => c ← client_murder c; Ret (c, None)
  end.

(** What the jobs of an event do is expected by the client, or the build has
    NDEBUG. *)
Definition event_quiet (e : relay_event) : bool :=
  match e with
  | EvRecv _ _ jobs | EvSent _ _ jobs => jobs_quiet jobs
  | EvJob _ j => job_quiet j
  | EvErr _ | EvMurder => true
  end.

(** The data that lwIP passes on exceeds the window it was left with. *)
Definition beyond_window c (p : option bytes) : Prop :=
  match p with Some data => TCP_WND < zlen (t_from_tcp c) - t_recved c + zlen data | None => False end.

Lemma recv_func_ok lw c p jobs : jobs_quiet jobs = true -> relay false c -> event_ready c (EvRecv lw p jobs) = true ->
  exists c' e, client_recv_func TCP_WND lw c p jobs = Ret (c', e) /\ told c' e (beyond_window c p).
Proof using.
  intros Hq R He. unfold event_ready in He. apply andb_true_iff in He as [Hf He]. apply andb_true_iff in He as [He Hd]. apply andb_true_iff in He as [Ho Hrc]. apply negb_true_iff in Hf. apply bool_decide_eq_true in Ho.
  pose proof (relay_live _ _ R Hf) as L. assert (Hc : t_client_closed c = false) by (by apply (lv_pcb _ _ L)). destruct (lv_callbacks _ _ L Hc) as (Hk1 & Hk2 & Hk3 & Hk4). rewrite Hrc in Hk2. symmetry in Hk2. apply negb_true_iff in Hk2 as Hsc.
  pose proof (enter_ok c R Hf Hc) as R1. pose proof (relay_live _ _ R1 Hf) as L1. unfold client_recv_func. rewrite Hc. mret. cbv zeta. destruct p as [data|].
  - rewrite Hd. mret. assert (Hlen : zlen (t_from_tcp c) - t_recved c = zlen (t_buf c)) by (rewrite (rl_socks _ _ R), length_app, Hk4; lia). unfold beyond_window. rewrite Hlen. change (t_buf (dead_enter c)) with (t_buf c).
    destruct (TCP_WND - zlen (t_buf c) <? zlen data) eqn:Ew.
    + change (dead_leave (dead_enter c)) with (if t_freed c then Fault else Ret (set_dead (dead_enter c) DeadNull, 0)). rewrite Hf. mret. eexists _, _. split; [done|]. split; [|split].
      * apply (relay_dead true); [done|]. apply live_fine, (live_dead true); [done|]. split; unfold dead_enter; tc_simpl; done.
      * unfold dead_enter. tc_simpl. by rewrite Ho.
      * split; [lia|done].
    + assert (HP : ~ TCP_WND < zlen (t_buf c) + zlen data) by lia. set (c1 := set_buf _ _).
      assert (Hlen1 : zlen (t_buf c ++ data) = zlen (t_buf c) + zlen data) by (rewrite length_app; lia).
      assert (Hrel : sending_ok c1 -> relay true c1).
      { intros Hs. destruct R1 as [Q1 Q2 Q3 Q4 Q5 Q6]. unfold c1, dead_enter in *. split; tc_simpl; [|rewrite (rl_socks _ _ R); by rewrite app_assoc|exact Q3|done|by rewrite Hsc|by rewrite Hc].
        apply live_fine. destruct L1. split; tc_simpl; try done; by rewrite Hc. }
      change (t_buf c1) with (t_buf c ++ data). change (t_socks_up c1) with (t_socks_up c). rewrite Hlen1. pose proof (lv_sending _ _ L) as Hs.
      destruct ((zlen (t_buf c) + zlen data =? zlen data) && t_socks_up c) eqn:Ef.
      * apply andb_true_iff in Ef as [Eb Hup]. assert (Hb : t_buf c = []) by (destruct (t_buf c); [done|]; cbn [length] in Eb; lia).
        assert (Hns : t_sending c = None) by (unfold sending_ok in Hs; destruct (t_sending c); [|done]; rewrite Hb in Hs; cbn in Hs; lia).
        unfold client_send_to_socks, StreamPassInterface_Sender_Send. unfold c1, dead_enter in *. tc_simpl. rewrite Hsc, Hup, Hns, Hb. cbn [app]. rewrite Hd. mret. rewrite bool_decide_eq_true_2 by done. mret.
        rewrite Hb in HP. apply jobs_told; [done| |done]. destruct R1 as [Q1 Q2 Q3 Q4 Q5 Q6]. split; tc_simpl; [|by rewrite (rl_socks _ _ R), Hb, app_nil_r|exact Q3|done|by rewrite Hsc|by rewrite Hc].
        apply live_fine. destruct L1. split; unfold sending_ok; tc_simpl; try done; try (by rewrite Hc). split; [done|]. split; [done|]. split; [by apply Z.ltb_lt|done].
      * apply finish_told; [|done]. apply Hrel. unfold sending_ok, c1, dead_enter in *. tc_simpl. destruct (t_sending c) as [n|]; [rewrite Hlen1; naive_solver lia|]. intros Hup _. rewrite (Hs Hup Hsc), Hup in Ef. cbn in Ef. lia.
  - edestruct (free_client_ok true 4 lw (set_tcp_ended (dead_enter c) true)) as (c' & -> & Hcd & Ha); [lia| |].
    + apply live_upright; [|done]. destruct L1. split; unfold sending_ok in *; tc_simpl; done.
    + mret. apply finish_told; [|by intros []]. destruct R1 as [Q1 Q2 Q3 Q4 Q5 Q6]. eapply relay_client_down; [| | |done|by left]; tc_simpl; [done|by apply Q3|done].
Qed.

Lemma sent_func_ok lw c len jobs : jobs_quiet jobs = true -> relay false c -> event_ready c (EvSent lw len jobs) = true -> exists c' e, client_sent_func lw c len jobs = Ret (c', e) /\ told c' e False.
Proof using.
  intros Hq R He. unfold event_ready in He. apply andb_true_iff in He as [Hf He]. apply andb_true_iff in He as [He Hl2]. apply andb_true_iff in He as [He Hl1]. apply andb_true_iff in He as [Ho Hsn]. apply negb_true_iff in Hf. apply bool_decide_eq_true in Ho.
  pose proof (relay_live _ _ R Hf) as L. assert (Hc : t_client_closed c = false) by (by apply (lv_pcb _ _ L)). destruct (lv_callbacks _ _ L Hc) as (_ & _ & Hk3 & _). rewrite Hsn in Hk3. symmetry in Hk3. rename Hk3 into Hup.
  pose proof (relay_open _ _ (enter_ok c R Hf Hc) Hf Hc) as O. unfold client_sent_func. rewrite Hc, Hup, Hl1, Hl2. mret. cbv zeta.
  pose proof (lv_rbuf _ _ L Hup Hc) as [_ Hrb]. pose proof (lv_receiving _ _ L) as Hrv. set (c1 := set_tcp_pending _ _).
  assert (O1 : open_relay true c1) by (destruct O as [[V1 V2 V3 V4 V5 V6 V7] K Hft Hfs Hsd]; split; [split; done|done..]).
  assert (Hc1 : t_socks_up c1 = true /\ 0 <= t_tcp_pending c1 /\ t_rbuf_used c1 = t_rbuf_used c /\ t_rbuf_sent c1 = t_rbuf_sent c /\ t_rbuf c1 = t_rbuf c /\ t_socks_closed c1 = t_socks_closed c /\ t_receiving c1 = t_receiving c /\ t_rwaiting c1 = t_rwaiting c).
  { split; [done|]. split; [|done]. unfold c1. tc_goal. clear - Hl2. change (t_tcp_pending (dead_enter c)) with (t_tcp_pending c). lia. }
  clearbody c1. destruct Hc1 as (F1 & F2 & F3 & F4 & F5 & F6 & F7 & F8). clear O Hl1 Hl2 R Ho. rewrite <- F3, <- F4, <- F5, <- F8 in Hrb. rewrite <- F3, <- F6, <- F7, Hup, Hc in Hrv. clear L F3 F4 F5 F6 F7 F8.
  destruct Hrb as [Hu|(Hs & Hz & Hw & _)].
  - rewrite Hu in *. change (0 <? -1) with false. cbv iota. destruct (t_socks_closed c1 && (t_tcp_pending c1 =? 0)) eqn:Ef.
    + apply andb_true_iff in Ef as [Hsc _]. destruct (free_client_ok true 4 lw c1) as (c' & -> & Hcd & _); [lia|apply O1|]. mret. apply finish_told; [|by intros []].
      eapply relay_client_down; [| | |done|right; right]; [apply O1..|]. split; [done|]. unfold unsent. by rewrite Hu, andb_false_r.
    + mret. apply finish_told; [|by intros []]. apply open_live; [done|done|by split; [|left]| |].
      * intros Hsc. rewrite Hsc in Ef. clear - Ef F2. cbn [andb] in Ef. lia.
      * rewrite Hu. change (-1 =? -1) with true. cbn [andb]. destruct (t_receiving c1); [by destruct Hrv as (_ & -> & _)|]. destruct (t_socks_closed c1); [done|]. by specialize (Hrv eq_refl eq_refl eq_refl).
  - replace (0 <? t_rbuf_used c1) with true by (clear - Hs; lia). rewrite Hw. replace (t_rbuf_sent c1 <? t_rbuf_used c1) with true by (clear - Hs; lia). mret. cbv zeta.
    assert (Hrv1 : t_receiving c1 = false) by (destruct (t_receiving c1); [|done]; destruct Hrv as (_ & _ & Hrv); rewrite Hrv in Hs; clear - Hs; lia).
    destruct (send_out_ok true lw (set_rwaiting c1 false)) as (c' & ok & -> & Hok); [|done..|].
    { destruct O1 as [[V1 V2 V3 V4 V5 V6 V7] K Hft Hfs Hsd]; split; [split; done|done..]. }
    mret. destruct ok; mret; [|by apply finish_told; [|intros []]]. destruct Hok as (O' & Hup' & Hrb' & Hp' & Hrv' & Hsc'). rewrite (proj2 (Z.ltb_lt _ _) Hp'). mret.
    destruct ((t_rbuf_used c' =? -1) && negb (t_socks_closed c')) eqn:Ef.
    + apply andb_true_iff in Ef as [Eu Es]. apply negb_true_iff in Es. destruct (recv_initiate_ok true c') as (c2 & -> & R2); [done|done|done|done|by apply Z.eqb_eq|by apply Z.lt_le_incl|]. mret. by apply jobs_told; [done| |intros []].
    + apply finish_told; [|by intros []]. apply open_live; try done. by rewrite Ef.
Qed.

Lemma err_func_ok lw c : relay false c -> event_ready c (EvErr lw) = true -> exists c', client_err_func lw c = Ret c' /\ relay false c'.
Proof using.
  intros R He. unfold event_ready in He. apply andb_true_iff in He as [Hf He]. apply andb_true_iff in He as [Ho Her]. apply negb_true_iff in Hf. apply bool_decide_eq_true in Ho.
  pose proof (relay_live _ _ R Hf) as L. assert (Hc : t_client_closed c = false) by (by apply (lv_pcb _ _ L)). pose proof (live_upright _ _ L Hc) as [V1 V2 V3 V4 V5 V6 V7]. unfold client_err_func. rewrite Hc. mret.
  edestruct (handle_freed_ok false 4 lw) as (c' & -> & Hcd & Ha); cycle -1; [|tc_simpl..].
  - exists c'. split; [done|]. eapply relay_client_down; [| | |done|by left]; tc_simpl; [apply R|exact (rl_tcp _ _ R Hc)|apply R].
  - lia.
  - done.
  - done.
  - done.
  - by rewrite V4.
  - split; tc_simpl; [done|by rewrite V4].
  - done.
  - done.
Qed.

Lemma murder_ok c : relay false c -> t_freed c = false -> exists c', client_murder c = Ret c' /\ relay false c'.
Proof using.
  intros R Hf. pose proof (relay_live _ _ R Hf) as L. set (c0 := set_socks_ended (set_tcp_ended c true) true).
  assert (H1 : exists c1, (if negb (t_client_closed c0) then c ← remove_callbacks c0; c ← client_abort_pcb c; Ret (set_client_closed c true) else Ret c0) = Ret c1 /\ same_data c0 c1 /\
    t_client_closed c1 = true /\ t_pcb c1 <> PcbOpen /\ (t_aborted c1 = true <-> t_pcb c1 = PcbAborted) /\ dead_ok false c1 /\ t_socks_closed c1 = t_socks_closed c0).
  { destruct (t_client_closed c0) eqn:Hc; cbn [negb].
    - exists c0. split; [done|]. split; [done|]. split; [done|]. split; [|split; [apply L|split; [apply L|done]]]. intros Ho. apply (lv_pcb _ _ L) in Ho. unfold c0 in Hc. tc_simpl. congruence.
    - pose proof (live_upright _ _ L Hc) as [V1 V2 V3 V4 V5 V6 V7]. rewrite remove_callbacks_ok by done. mret. rewrite (abort_pcb_ok false) by done. mret. eexists. split; [done|]. unfold c0. split; [done|]. split; [done|]. split; [done|]. split; [done|]. split; [|done]. split; tc_simpl; done. }
  destruct H1 as (c1 & E1 & Hs & Hc1 & Hp1 & Ha1 & Hd1 & Hsc1). unfold client_murder. cbv zeta. fold c0. rewrite E1. mret. set (c2 := if negb (t_socks_closed c1) then _ else _).
  assert (H2 : same_data c1 c2 /\ t_client_closed c2 = true /\ t_pcb c2 <> PcbOpen /\ (t_aborted c2 = true <-> t_pcb c2 = PcbAborted) /\ dead_ok false c2 /\ t_socks_closed c2 = true).
  { unfold c2. destruct (t_socks_closed c1) eqn:E; done. }
  destruct H2 as (Hs2 & Hc2 & Hp2 & Ha2 & Hd2 & Hsc2). destruct (dealloc_ok false c2) as (c' & -> & Hg & Hs3 & _); [done..|]. exists c'. split; [done|].
  assert (Hsame : same_data c0 c') by (etrans; [done|]; by etrans). destruct Hsame as (S1 & S2 & S3 & S4 & S5 & S6 & S7 & S8 & S9). unfold c0 in *. tc_simpl. pose proof (gn_closed _ _ Hg) as [G1 G2].
  destruct R as [R1 R2 R3 R4 R5 R6]. split; [by apply gone_fine|congruence|by rewrite G1|by rewrite S3, S7|by rewrite S9; left|by rewrite S8; left].
Qed.

Lemma accept_ok alloc username socks content used sent waiting pending jobs : jobs_quiet jobs = true ->
  exists r e, listener_accept_func alloc username socks content used sent waiting pending jobs = Ret (r, e) /\ match r with Some c => told c e False | None => e = ERR_MEM end.
Proof using.
  intros Hq. unfold listener_accept_func. destruct alloc; [|by eexists _, _]. destruct username; [|by eexists _, _]. destruct socks; [|by eexists _, _]. cbn [negb]. cbv zeta.
  unfold tcp_err, tcp_recv, pcb_call. tc_simpl. rewrite bool_decide_eq_true_2 by done. mret. tc_simpl. rewrite bool_decide_eq_true_2 by done. mret. unfold dead_enter. tc_simpl.
  edestruct (run_jobs_ok true jobs Hq) as (c1 & -> & R1); cycle 1.
  - mret. destruct (finish_told c1 False R1) as (c' & e & -> & Ht); [by intros []|]. mret. by eexists _, _.
  - split; tc_simpl; done.
Qed.

Lemma relay_step_ok c e : relay false c -> event_ready c e = true -> event_quiet e = true ->
  exists c' r, relay_step c e = Ret (c', r) /\ relay false c' /\
    match r with Some r => (r = ERR_ABRT <-> t_pcb c' = PcbAborted) /\ (r = ERR_MEM <-> match e with EvRecv _ p _ => beyond_window c p | _ => False end) | None => True end.
Proof using.
  intros R He Hq. destruct e as [lw p jobs|lw len jobs|lw|lw j|]; unfold relay_step.
  - destruct (recv_func_ok lw c p jobs Hq R He) as (c' & r & -> & Ht & Hrest). mret. by eexists _, _.
  - destruct (sent_func_ok lw c len jobs Hq R He) as (c' & r & -> & Ht & Hrest). mret. by eexists _, _.
  - destruct (err_func_ok lw c R He) as (c' & -> & Ht). mret. by eexists _, _.
  - unfold event_ready in He. apply andb_true_iff in He as [_ He]. destruct (run_job_ok false lw c j R He Hq) as (c' & -> & Ht). mret. by eexists _, _.
  - unfold event_ready in He. apply andb_true_iff in He as [Hf _]. apply negb_true_iff in Hf. destruct (murder_ok c R Hf) as (c' & -> & Ht). mret. by eexists _, _.
Qed.

(** ** Runs *)

Inductive relay_reach : tcp_client -> Prop :=
| reach_accept alloc username socks content used sent waiting pending jobs c e :
    jobs_quiet jobs = true ->
    listener_accept_func alloc username socks content used sent waiting pending jobs = Ret (Some c, e) -> relay_reach c
| reach_event c e c' r : relay_reach c -> event_ready c e = true -> event_quiet e = true -> relay_step c e = Ret (c', r) -> relay_reach c'.

Fixpoint relay_run (evs : list relay_event) c : outcome tcp_client :=
  match evs with
  | [] => Ret c
  | e :: evs => ASSERT (event_ready c e);; '(c, _) ← relay_step c e; relay_run evs c
  end.

Lemma relay_reach_inv c : relay_reach c -> relay false c.
Proof using.
  induction 1 as [alloc username socks content used sent waiting pending jobs c e Hq Ha|c e c' r _ IH He Hq Hs].
  - destruct (accept_ok alloc username socks content used sent waiting pending jobs Hq) as (r & e' & Hr & Ht). rewrite Ha in Hr. injection Hr as <- <-. apply Ht.
  - destruct (relay_step_ok c e IH He Hq) as (c1 & r1 & Hs1 & R1 & _). rewrite Hs in Hs1. injection Hs1 as <- <-. done.
Qed.

Lemma relay_reach_run evs : forallb event_quiet evs = true -> forall c c', relay_reach c -> relay_run evs c = Ret c' -> relay_reach c'.
Proof using.
  induction evs as [|e evs IH]; cbn [forallb]; intros Hq c c' Hr; cbn [relay_run]; [by intros [= <-]|]. apply andb_true_iff in Hq as [Hq1 Hq2]. destruct (event_ready c e) eqn:He; mret; [|done]. destruct (relay_step_ok c e (relay_reach_inv c Hr) He Hq1) as (c1 & r & Hs & _). rewrite Hs. mret. apply IH; [done|]. by eapply reach_event.
Qed.

(** ** Draining *)

(** One side is closed, the other one is still to get data. *)
Definition half_closed c : Prop := t_freed c = false /\ t_socks_up c = true /\ (t_client_closed c = true \/ t_socks_closed c = true).

(** The bytes that SOCKS has not taken, or that lwIP was not given or has not
    confirmed. *)
Definition to_pass_on c : Z := if t_client_closed c then zlen (t_buf c) else t_tcp_pending c + zlen (unsent c).

(** SOCKS has taken data, lwIP confirms data. *)
Definition completion (e : relay_event) : Prop := match e with EvJob _ (JobSent _) | EvSent _ _ [] => True | _ => False end.

(** What a completion leaves of a client that is half closed. *)
Definition drained_by c c' : Prop :=
  relay false c' /\ t_from_tcp c' = t_from_tcp c /\ t_from_socks c' = t_from_socks c /\
  if t_freed c' then (t_client_closed c = true -> t_to_socks c' = t_from_tcp c) /\ (t_socks_closed c = true -> t_to_tcp c' = t_from_socks c \/ t_aborted c' = true)
  else half_closed c' /\ t_client_closed c' = t_client_closed c /\ t_socks_closed c' = t_socks_closed c /\ to_pass_on c' < to_pass_on c.

Lemma completion_quiet e : completion e -> event_quiet e = true.
Proof using. destruct e as [| lw len [|] | | lw [| |] |]; intros H; try done. unfold event_quiet, job_quiet. apply orb_true_r. Qed.

Lemma down_freed (ins : bool) c' : fine ins c' -> t_client_closed c' = true -> t_socks_closed c' = true -> t_freed c' = true.
Proof using. intros F H1 H2. unfold fine in F. destruct (t_freed c'); [done|]. destruct (lv_client_closed _ _ F H1). congruence. Qed.

Lemma finish_same c c' e : finish c = Ret (c', e) -> exists d, c' = set_dead c d.
Proof using.
  unfold finish, dead_leave. destruct (t_dead c) as [|v|]; try done. destruct v; [destruct (t_freed c); [done|]|..]; mret; intros [= <- _]; by eexists.
Qed.

Lemma half_closed_left c : relay false c -> half_closed c -> 0 < to_pass_on c.
Proof using.
  intros R (Hf & _ & Hside). pose proof (relay_live _ _ R Hf) as L. unfold to_pass_on. destruct (t_client_closed c) eqn:Hc.
  - destruct (lv_client_closed _ _ L Hc) as [_ Hb]. apply zlen_pos in Hb. lia.
  - destruct Hside as [?|Hsc]; [done|]. destruct (lv_socks_closed _ _ L Hsc) as [_ Hp]. lia.
Qed.

(** SOCKS takes a part of what is being sent, or all of it. *)
Lemma taken_ok lw c n : relay false c -> half_closed c -> event_ready c (EvJob lw (JobSent n)) = true ->
  exists c', relay_step c (EvJob lw (JobSent n)) = Ret (c', None) /\ drained_by c c'.
Proof using.
  intros R (Hf & Hup & Hside) He. pose proof (relay_live _ _ R Hf) as L. destruct (relay_step_ok c _ R He) as (c' & r & Hst & R' & _); [by apply completion_quiet|].
  unfold event_ready, job_ready in He. rewrite Hf in He. cbn [negb andb] in He. pose proof (lv_sending _ _ L) as Hx. unfold sending_ok in Hx. destruct (t_sending c) as [m|] eqn:Hs; [|done]. destruct Hx as (_ & Hsc & Hm).
  assert (Hc : t_client_closed c = true) by (destruct Hside; [done|congruence]). apply andb_true_iff in He as [He1 He2]. pose proof (rl_socks _ _ R) as Hrs.
  assert (Hn : 0 < n <= zlen (t_buf c)) by lia. revert Hst. unfold relay_step, run_job. rewrite Hf. unfold client_socks_send_handler_done.
  rewrite Hsc, Hup, (proj2 (Z.ltb_lt 0 (zlen (t_buf c)))), He1, (proj2 (Z.leb_le n (zlen (t_buf c)))) by lia. mret. cbv zeta. tc_goal. rewrite Hc. cbn [negb]. mret. tc_goal.
  set (left := drop (Z.to_nat n) (t_buf c)). assert (Hlen : zlen left = zlen (t_buf c) - n) by (unfold left; rewrite length_drop; lia). rewrite Hc. destruct (0 <? zlen left) eqn:El.
  - unfold StreamPassInterface_Sender_Send. tc_goal. rewrite El. mret. intros [= <- <-]. eexists. split; [done|]. split; [done|]. unfold half_closed, to_pass_on. tc_goal. rewrite Hf, Hc, Hsc, Hup. repeat (split; [by auto|]). lia.
  - apply zlen_zero in El. edestruct (free_socks_closed false 3 lw) as (c1 & -> & Hg & (S1 & S2 & S3 & S4 & S5 & S6 & S7 & S8 & S9) & _); cycle -1; [|tc_goal..].
    + mret. intros [= -> <-]. tc_simpl. exists c'. split; [done|]. split; [done|]. rewrite (gn_freed _ _ Hg). repeat (split; [done|]). split; [|by rewrite Hsc]. intros _. rewrite S2. rewrite <- (take_drop (Z.to_nat n) (t_buf c)) in Hrs. fold left in Hrs. by rewrite Hrs, El, app_nil_r.
    + done.
    + done.
    + intros Ho. apply (lv_pcb _ _ L) in Ho. by rewrite Hc in Ho.
    + apply L.
    + apply L.
Qed.

(** What is given to lwIP is waiting no more, and is to be confirmed. *)
Lemma send_out_keeps (ins : bool) lw c c' ok : upright ins c -> t_socks_up c = true -> t_socks_closed c = true -> 0 <= t_rbuf_sent c < t_rbuf_used c -> zlen (t_rbuf c) = t_rbuf_used c -> t_rwaiting c = false -> 0 <= t_tcp_pending c ->
  client_socks_recv_send_out lw c = Ret (c', ok) ->
  t_from_tcp c' = t_from_tcp c /\ t_from_socks c' = t_from_socks c /\ t_socks_closed c' = true /\ t_socks_up c' = true /\
  if (ok : bool) then t_client_closed c' = false /\ t_freed c' = false /\ zlen (t_to_tcp c') - t_tcp_pending c' = zlen (t_to_tcp c) - t_tcp_pending c
  else t_client_closed c' = true /\ t_aborted c' = true.
Proof using.
  intros U Hup Hsc Hs Hz Hw Hp. unfold client_socks_recv_send_out. rewrite (ur_closed _ _ U), Hup, Hw, (proj2 (Z.ltb_lt 0 (t_rbuf_used c))), (proj2 (Z.ltb_lt (t_rbuf_sent c) (t_rbuf_used c))) by (clear - Hs; lia). mret.
  destruct (send_loop_ok lw (Z.to_nat (t_rbuf_used c - t_rbuf_sent c)) 0 c (ur_pcb _ _ U) Hs (Nat.le_refl _) Hp) as (k & b & d & -> & Hk & Hd). mret. cbv zeta.
  assert (Hl : zlen d = zlen (t_to_tcp c) + k) by (apply (f_equal length) in Hd; rewrite !length_app, !length_drop in Hd; clear - Hd Hk Hs Hz; lia). clear Hd. set (c1 := moved c _ _ _).
  assert (U1 : upright ins c1) by (destruct U; split; done).
  match goal with |- _ -> ?P => set (G := P) end. assert (Hfail : (c ← client_abort_client lw c1; Ret (c, false)) = Ret (c', ok) -> G).
  { destruct (abort_client_ok ins lw c1 U1) as (c2 & -> & [D1 (S1 & S2 & S3 & S4 & S5 & S6 & S7 & S8 & S9) D3 D4 D5] & Ha). mret. intros [= <- <-]. unfold G. rewrite S5, S6, S7. repeat (split; [done|]). split; [by apply D5|]. done. }
  assert (Hgood : forall c2, (exists w u, c2 = set_rwaiting c1 w \/ c2 = set_rbuf_used c1 u) -> Ret (c2, true) = Ret (c', ok) -> G).
  { intros c2 (w & u & Hc2) [= <- <-]. pose proof (ur_closed _ _ U) as H1. pose proof (ur_freed _ _ U) as H2. unfold G. destruct Hc2 as [-> | ->]; unfold c1, moved; tc_goal; repeat (split; [done|]); clear - Hl; lia. }
  destruct b; cbn [negb]; [|exact Hfail]. unfold pcb_call. rewrite bool_decide_eq_true_2 by apply U1. mret. destruct (lw_output lw); cbn [negb]; [|exact Hfail].
  destruct (t_rbuf_sent c1 <? t_rbuf_used c1); [destruct (t_tcp_pending c1 =? 0); [exact Hfail|]|]; apply Hgood; exists true, (-1); [by left|by right].
Qed.

(** lwIP confirms a part of what it was given, or all of it. *)
Lemma confirmed_keeps lw c len c' r : relay false c -> half_closed c -> t_socks_closed c = true -> event_ready c (EvSent lw len []) = true -> relay_step c (EvSent lw len []) = Ret (c', r) ->
  t_from_tcp c' = t_from_tcp c /\ t_from_socks c' = t_from_socks c /\ t_socks_closed c' = true /\ t_socks_up c' = true /\
  if t_client_closed c' then t_aborted c' = true \/ t_to_tcp c' = t_from_socks c
  else t_client_closed c = false /\ t_freed c' = false /\ zlen (t_to_tcp c') - t_tcp_pending c' = zlen (t_to_tcp c) - t_tcp_pending c + len /\ 0 < len.
Proof using.
  intros R (Hf & Hup & _) Hsc He. unfold event_ready in He. apply andb_true_iff in He as [_ He]. apply andb_true_iff in He as [He Hl2]. apply andb_true_iff in He as [He Hl1]. apply andb_true_iff in He as [Ho _]. apply bool_decide_eq_true in Ho.
  pose proof (relay_live _ _ R Hf) as L. assert (Hc : t_client_closed c = false) by (by apply (lv_pcb _ _ L)). destruct (lv_rbuf _ _ L Hup Hc) as [_ Hrb].
  pose proof (or_upright _ _ (relay_open _ _ (enter_ok c R Hf Hc) Hf Hc)) as U. pose proof (rl_tcp _ _ R Hc) as Hfs. unfold relay_step, client_sent_func. rewrite Hc, Hup, Hl1, Hl2. mret. cbv zeta. set (c1 := set_tcp_pending _ _).
  assert (U1 : upright true c1) by (destruct U; split; done).
  assert (Hc1 : t_from_tcp c1 = t_from_tcp c /\ t_from_socks c1 = t_from_socks c /\ t_to_tcp c1 = t_to_tcp c /\ t_socks_up c1 = true /\ 0 <= t_tcp_pending c1 /\ t_tcp_pending c1 = t_tcp_pending c - len /\ t_rbuf_used c1 = t_rbuf_used c /\ t_rbuf_sent c1 = t_rbuf_sent c /\ t_rbuf c1 = t_rbuf c /\ t_socks_closed c1 = true /\ t_rwaiting c1 = t_rwaiting c /\ unsent c1 = unsent c).
  { unfold c1, dead_enter. tc_goal. repeat (split; [done|]). split; [clear - Hl2; lia|done]. }
  clearbody c1. destruct Hc1 as (F1 & F2 & F3 & F4 & F5 & F6 & F7 & F8 & F9 & F10 & F11 & F12). rewrite <- F1, <- F2, <- F3. rewrite <- F7, <- F8, <- F9, <- F11 in Hrb.
  assert (Hl : 0 < len) by (clear - Hl1; lia). clear - Hrb F2 F3 F4 F5 F6 F10 F12 U1 Hfs Hl. destruct Hrb as [Hu|(Hs & Hz & Hw & _)].
  - rewrite Hu. change (0 <? -1) with false. cbv iota. rewrite F10. cbn [andb]. destruct (t_tcp_pending c1 =? 0).
    + destruct (free_client_ok true 4 lw c1) as (c2 & -> & [D1 (S1 & S2 & S3 & S4 & S5 & S6 & S7 & S8 & S9) D3 D4 D5] & _); [lia|done|]. mret. destruct (finish c2) as [[c3 e]| |] eqn:Hfin; [|done|done]. mret. intros [= <- _]. apply finish_same in Hfin as (d & ->). tc_goal. rewrite S5, S6, S7, D3. repeat (split; [by auto|]). right.
      rewrite S3, F2, F3, Hfs, <- F12. unfold unsent. by rewrite Hu, andb_false_r, app_nil_r.
    + mret. destruct (finish c1) as [[c3 e]| |] eqn:Hfin; [|done|done]. mret. intros [= <- _]. apply finish_same in Hfin as (d & ->). tc_goal. rewrite (ur_closed _ _ U1), (ur_freed _ _ U1). repeat (split; [done|]). rewrite F3. clear - F6 Hl. lia.
  - rewrite (proj2 (Z.ltb_lt 0 (t_rbuf_used c1))), (proj2 (Z.ltb_lt (t_rbuf_sent c1) (t_rbuf_used c1))) by (clear - Hs; lia). rewrite Hw. mret. cbv zeta.
    destruct (client_socks_recv_send_out lw (set_rwaiting c1 false)) as [[c2 ok]| |] eqn:Hso; [|done|done]. mret. apply (send_out_keeps true) in Hso; [|destruct U1; split; done|done..]. tc_simpl. destruct Hso as (G1 & G2 & G3 & G4 & G5). destruct ok; mret.
    + destruct (0 <? t_tcp_pending c2); [|done]. mret. rewrite G3, andb_false_r. destruct (finish c2) as [[c3 e]| |] eqn:Hfin; [|done|done]. mret. intros [= <- _]. apply finish_same in Hfin as (d & ->). tc_goal. destruct G5 as (G5 & G6 & G7). rewrite G1, G2, G5. repeat (split; [done|]). rewrite F3 in *. clear - G7 F6 Hl. lia.
    + destruct (finish c2) as [[c3 e]| |] eqn:Hfin; [|done|done]. mret. intros [= <- _]. apply finish_same in Hfin as (d & ->). tc_goal. destruct G5 as (G5 & G6). rewrite G1, G2, G5. repeat (split; [done|]). by left.
Qed.

Lemma confirmed_ok lw c len : relay false c -> half_closed c -> event_ready c (EvSent lw len []) = true -> exists c' r, relay_step c (EvSent lw len []) = Ret (c', r) /\ drained_by c c'.
Proof using.
  intros R H He. destruct (relay_step_ok c _ R He) as (c' & r & Hst & R' & _); [done|]. exists c', r. split; [done|]. split; [done|]. destruct H as (Hf & Hup & Hside) eqn:EH. pose proof (relay_live _ _ R Hf) as L.
  assert (Hc : t_client_closed c = false). { apply (lv_pcb _ _ L). unfold event_ready in He. apply andb_true_iff in He as [_ He]. do 3 apply andb_true_iff in He as [He _]. by apply bool_decide_eq_true in He. }
  assert (Hsc : t_socks_closed c = true) by (destruct Hside; [congruence|done]). destruct (confirmed_keeps lw c len c' r R (conj Hf (conj Hup Hside)) Hsc He Hst) as (K1 & K2 & K3 & K4 & K5). split; [done|]. split; [done|]. clear EH. destruct (t_client_closed c') eqn:Hc'.
  - rewrite (down_freed false c' (rl_fine _ _ R') Hc' K3), Hc. split; [done|]. intros _. destruct K5; auto.
  - destruct K5 as (_ & Hf' & K5 & Hl). rewrite Hf', Hc, Hsc. split; [by split; [|split; [|right]]|]. repeat (split; [done|]). unfold to_pass_on. rewrite Hc, Hc'.
    pose proof (f_equal length (rl_tcp _ _ R Hc)) as E1. pose proof (f_equal length (rl_tcp _ _ R' Hc')) as E2. rewrite length_app in E1, E2. rewrite K2 in E2. clear - E1 E2 K5 Hl. lia.
Qed.

Lemma completion_ok c e : relay false c -> half_closed c -> completion e -> event_ready c e = true -> exists c' r, relay_step c e = Ret (c', r) /\ drained_by c c'.
Proof using.
  intros R H Hcm He. destruct e as [|lw len [|]| |lw [|n|]|]; try done; [by apply confirmed_ok|]. destruct (taken_ok lw c n R H He) as (c' & ? & ?). by exists c', None.
Qed.


(** A completion is due: SOCKS takes what it is sent, or lwIP confirms. *)
Lemma completion_due c : relay false c -> half_closed c -> exists e, completion e /\ event_ready c e = true.
Proof using.
  intros R (Hf & Hup & Hside). pose proof (relay_live _ _ R Hf) as L. set (lw := mklw (fun _ => O) (fun _ => WOk) true true). destruct (t_client_closed c) eqn:Hc.
  - destruct (lv_client_closed _ _ L Hc) as [Hsc Hb]. pose proof (lv_sending _ _ L) as Hs. unfold sending_ok in Hs. destruct (t_sending c) as [m|] eqn:Es; [|by rewrite Hs in Hb].
    exists (EvJob lw (JobSent m)). split; [done|]. unfold event_ready, job_ready. rewrite Hf, Es. cbn [negb andb]. lia.
  - destruct Hside as [?|Hsc]; [done|]. destruct (lv_socks_closed _ _ L Hsc) as [_ Hp]. destruct (lv_callbacks _ _ L Hc) as (_ & _ & Hk & _). exists (EvSent lw (t_tcp_pending c) []). split; [done|].
    unfold event_ready. rewrite Hf, Hk, Hup, (bool_decide_eq_true_2 _ (proj1 (lv_pcb _ _ L) Hc)). cbn [negb andb]. lia.
Qed.

Lemma completions_ok evs : forall c c', relay false c -> half_closed c -> Forall completion evs -> relay_run evs c = Ret c' ->
  Z.of_nat (length evs) <= to_pass_on c /\ relay false c' /\
  if t_freed c' then (t_client_closed c = true -> t_to_socks c' = t_from_tcp c) /\ (t_socks_closed c = true -> t_to_tcp c' = t_from_socks c \/ t_aborted c' = true)
  else half_closed c'.
Proof using.
  induction evs as [|e evs IH]; intros c c' R H Hcm; cbn [relay_run].
  - intros [= <-]. pose proof (half_closed_left c R H). destruct H as (Hf & H). rewrite Hf. split; [cbn [length]; lia|]. by split.
  - apply Forall_cons in Hcm as [He Hcm]. destruct (event_ready c e) eqn:Hr; [|done]. mret. destruct (completion_ok c e R H He Hr) as (c1 & r & -> & R1 & D1 & D2 & D3). mret. pose proof (half_closed_left c R H) as Hl. intros Hrun. destruct (t_freed c1) eqn:Hf1.
    + destruct evs as [|e2 evs]; cbn [relay_run] in Hrun; [|unfold event_ready in Hrun; by rewrite Hf1 in Hrun]. injection Hrun as <-. rewrite Hf1. cbn [length]. split; [lia|]. by split.
    + destruct D3 as (H1 & K1 & K2 & K3). destruct (IH c1 c' R1 H1 Hcm Hrun) as (N1 & N2 & N3). rewrite K1, K2, D1, D2 in N3. split; [cbn [length]; lia|]. by split.
Qed.

Lemma relay_run_app evs evs' : forall c, relay_run (evs ++ evs') c = (c ← relay_run evs c; relay_run evs' c).
Proof using. induction evs as [|e evs IH]; intros c; cbn [app relay_run]; [done|]. destruct (event_ready c e); [|done]. mret. destruct (relay_step c e) as [[c1 r]| |]; [|done|done]. mret. apply IH. Qed.

(** C5. A client never fails.  In every run from listener_accept_func, whatever
    lwIP answers and whatever the peers send, every callback, job and the end of
    the program return: no assertion fails, no function of lwIP is called on a
    pcb that was closed, aborted or freed, and no freed client or variable of a
    callback that has returned is used.  A callback returns ERR_ABRT exactly when
    the pcb was aborted, and refuses data exactly when it exceeds the window that
    was announced.  This holds for the build with NDEBUG.  In a build without, it
    holds for the runs in which the SOCKS connection does not report
    EVENT_CONNECTED: the handler of that event always ends in ASSERT(0). *)
Theorem tcp_client_never_fails c e : relay_reach c -> event_ready c e = true ->
  (event_quiet e = true -> exists c' r, relay_step c e = Ret (c', r) /\
     match r with
     | Some r => (r = ERR_ABRT <-> t_pcb c' = PcbAborted) /\ (r = ERR_MEM <-> match e with EvRecv _ p _ => beyond_window c p | _ => False end)
     | None => True
     end) /\
  (forall lw, ndebug = false -> e = EvJob lw (JobSocks EVENT_CONNECTED) -> relay_step c e = Abort).
Proof using.
  intros Hr He. split.
  - intros Hq. destruct (relay_step_ok c e (relay_reach_inv c Hr) He Hq) as (c' & r & Hs & _ & Hx). by exists c', r.
  - intros lw Hn ->. unfold event_ready in He. apply andb_true_iff in He as [_ He]. unfold relay_step. by rewrite connected_aborts.
Qed.

(** C4. Data is relayed in order and not lost.  What was received from TCP is
    what SOCKS has taken followed by the buffer; lwIP was given a beginning of
    what was received from SOCKS, and while the client is open all of it but what
    is waiting.  When the client is freed, SOCKS has taken everything unless it
    has ended itself, and lwIP was given everything unless its connection has
    ended or was aborted. *)
Theorem tcp_relay_in_order c : relay_reach c ->
  t_from_tcp c = t_to_socks c ++ t_buf c /\ t_to_tcp c `prefix_of` t_from_socks c /\
  (t_client_closed c = false -> t_from_socks c = t_to_tcp c ++ unsent c /\ t_recved c = zlen (t_to_socks c)) /\
  (t_freed c = true -> (t_socks_ended c = true \/ t_to_socks c = t_from_tcp c) /\ (t_tcp_ended c = true \/ t_aborted c = true \/ t_to_tcp c = t_from_socks c)).
Proof using.
  intros Hr. destruct (relay_reach_inv c Hr) as [R1 R2 R3 R4 R5 R6]. split; [done|]. split; [done|]. unfold fine in R1. destruct (t_freed c) eqn:Hf.
  - destruct (gn_closed _ _ R1) as [G1 G2]. split; [by rewrite G1|]. intros _. split.
    + destruct (R5 G2) as [?|E]; [by left|right]. by rewrite R2, E, app_nil_r.
    + destruct (R6 G1) as [?|[?|[_ ?]]]; auto.
  - split; [|done]. intros Hc. split; [by apply R3|]. by destruct (lv_callbacks _ _ R1 Hc) as (_ & _ & _ & ?).
Qed.

(** C12. A client of which one side is closed is not left over.  Once SOCKS is up,
    let SOCKS take parts of what is sent to it, or lwIP confirm parts of what it
    was given and answer whatever it likes.  There are at most as many of these
    completions as there are bytes left to pass on, and as long as the client is
    not freed another one is due and can be handled, so that the client is freed.
    Then SOCKS has taken all that TCP has sent before it closed; lwIP was given
    all that SOCKS has sent before it closed, unless the connection was aborted
    because lwIP could not take it. *)
Theorem half_closed_client_drains c evs c' : relay_reach c -> half_closed c -> Forall completion evs -> relay_run evs c = Ret c' ->
  Z.of_nat (length evs) <= to_pass_on c /\
  if t_freed c' then (t_client_closed c = true -> t_to_socks c' = t_from_tcp c) /\ (t_socks_closed c = true -> t_to_tcp c' = t_from_socks c \/ t_aborted c' = true)
  else exists e c'', completion e /\ relay_run (evs ++ [e]) c = Ret c''.
Proof using.
  intros Hr H Hcm Hrun. destruct (completions_ok evs c c' (relay_reach_inv c Hr) H Hcm Hrun) as (N1 & R' & N2). split; [done|]. destruct (t_freed c'); [done|]. destruct (completion_due c' R' N2) as (e & He & Hrd). destruct (completion_ok c' e R' N2 He Hrd) as (c'' & r & Hs & _).
  exists e, c''. split; [done|]. rewrite relay_run_app, Hrun. mret. cbn [relay_run]. by rewrite Hrd, Hs.
Qed.
End ready.

(** ** A run *)

(** A client that has sent three bytes and closed before SOCKS is up: they are
    sent in two parts while SOCKS sends one byte that nobody wants.  And one
    where SOCKS closes while lwIP has room for two of the four bytes only. *)
Definition room (n : nat) : lwip := mklw (fun r => if Nat.eqb r 0 then n else O) (fun _ => WOk) true true.
Definition accepted : tcp_client := match listener_accept_func (build := NDEBUG) true true true [] 0 0 false 0 [] with Ret (Some c, _) => c | _ => mktc true DeadNull PcbGone false false false true [] false true None false [] 0 0 false 0 true [] [] 0 [] [] true true end.
Definition closed_early : list relay_event :=
  [EvRecv (room 2) (Some [1; 2; 3]) []; EvRecv (room 2) None []; EvJob (room 2) (JobSocks EVENT_CONNECTED); EvJob (room 2) (JobSocks EVENT_UP); EvJob (room 2) (JobSent 2)].
Definition closed_late : list relay_event :=
  [EvJob (room 2) (JobSocks EVENT_CONNECTED); EvJob (room 2) (JobSocks EVENT_UP); EvRecv (room 2) (Some [7]) [(room 2, JobReceived [4; 5; 6; 7]); (room 2, JobSent 1)]; EvJob (room 2) (JobSocks EVENT_ERROR_CLOSED)].
Definition state_after (evs : list relay_event) : tcp_client := match relay_run (build := NDEBUG) 100 evs accepted with Ret c => c | _ => accepted end.

Lemma accepted_reach : relay_reach (build := NDEBUG) 100 accepted.
Proof. eapply (reach_accept (build := NDEBUG) 100 true true true [] 0 0 false 0 []); reflexivity. Qed.
Lemma quiet_run (evs : list relay_event) : forallb (event_quiet (build := NDEBUG)) evs = true.
Proof. apply forallb_forall. intros [lw p jobs|lw len jobs| | |] _; try done; apply forallb_forall; done. Qed.
Lemma state_after_reach evs : match relay_run (build := NDEBUG) 100 evs accepted with Ret _ => true | _ => false end = true -> relay_reach (build := NDEBUG) 100 (state_after evs).
Proof.
  intros H. unfold state_after. destruct (relay_run 100 evs accepted) as [c| |] eqn:E; [|done|done]. eapply relay_reach_run; [apply quiet_run|apply accepted_reach|exact E].
Qed.

(** The same client in a build without NDEBUG. *)
Lemma accepted_debug : relay_reach (build := false) 100 accepted.
Proof. eapply (reach_accept (build := false) 100 true true true [] 0 0 false 0 []); reflexivity. Qed.

Lemma tcp_client_never_fails_witness :
  (exists c' r, relay_step (build := NDEBUG) 100 (state_after closed_late) (EvSent (room 2) 2 []) = Ret (c', r) /\ match r with Some r => (r = ERR_ABRT <-> t_pcb c' = PcbAborted) /\ (r = ERR_MEM <-> False) | None => True end) /\
  (exists c' r, relay_step (build := NDEBUG) 100 accepted (EvJob (room 2) (JobSocks EVENT_CONNECTED)) = Ret (c', r)) /\
  relay_step (build := false) 100 accepted (EvJob (room 2) (JobSocks EVENT_CONNECTED)) = Abort.
Proof.
  split; [|split].
  - apply (tcp_client_never_fails (build := NDEBUG) 100 (state_after closed_late) (EvSent (room 2) 2 [])); [by apply state_after_reach|reflexivity|reflexivity].
  - destruct (tcp_client_never_fails (build := NDEBUG) 100 accepted (EvJob (room 2) (JobSocks EVENT_CONNECTED))) as [(c' & r & H & _) _]; [apply accepted_reach|reflexivity|reflexivity|by exists c', r].
  - eapply (tcp_client_never_fails (build := false) 100 accepted); [apply accepted_debug|reflexivity|reflexivity|reflexivity].
Defined.

Lemma tcp_relay_in_order_witness : t_to_tcp (state_after closed_late) `prefix_of` [4; 5; 6; 7] /\ t_from_socks (state_after closed_late) = t_to_tcp (state_after closed_late) ++ [6; 7].
Proof.
  destruct (tcp_relay_in_order (build := NDEBUG) 100 (state_after closed_late)) as (_ & H1 & H2 & _); [by apply state_after_reach|]. split; [exact H1|]. by apply H2.
Defined.

(** SOCKS takes the byte that is left.  lwIP confirms the two bytes it was given
    one by one, takes a byte, and then the last one. *)
Definition taken_last : list relay_event := [EvJob (room 2) (JobSent 1)].
Definition confirmed_slowly : list relay_event :=
  [EvSent (room 1) 1 []; EvSent (room 1) 1 []; EvSent (room 1) 1 []; EvSent (room 1) 1 []].

Lemma half_closed_client_drains_witness :
  (exists c', relay_run (build := NDEBUG) 100 taken_last (state_after closed_early) = Ret c' /\ t_freed c' = true /\ t_to_socks c' = [1; 2; 3]) /\
  (exists c', relay_run (build := NDEBUG) 100 confirmed_slowly (state_after closed_late) = Ret c' /\ t_freed c' = true /\ 4 <= to_pass_on (state_after closed_late) /\ t_to_tcp c' = [4; 5; 6; 7]).
Proof.
  split.
  - set (c' := state_after (closed_early ++ taken_last)). assert (Hrun : relay_run (build := NDEBUG) 100 taken_last (state_after closed_early) = Ret c') by (vm_compute; reflexivity). exists c'. split; [exact Hrun|]. split; [reflexivity|].
    destruct (half_closed_client_drains (build := NDEBUG) 100 (state_after closed_early) taken_last c') as [_ Hd]; [by apply state_after_reach|by split; [|split; [|left]]|by repeat constructor|exact Hrun|].
    change (t_freed c') with true in Hd. by apply Hd.
  - set (c' := state_after (closed_late ++ confirmed_slowly)). assert (Hrun : relay_run (build := NDEBUG) 100 confirmed_slowly (state_after closed_late) = Ret c') by (vm_compute; reflexivity). exists c'. split; [exact Hrun|]. split; [reflexivity|].
    destruct (half_closed_client_drains (build := NDEBUG) 100 (state_after closed_late) confirmed_slowly c') as [Hb Hd]; [by apply state_after_reach|by split; [|split; [|right]]|by repeat constructor|exact Hrun|].
    split; [exact Hb|]. change (t_freed c') with true in Hd. destruct Hd as [_ Hd]. destruct (Hd eq_refl) as [H|H]; [rewrite H; vm_compute; reflexivity|vm_compute in H; discriminate H].
Defined.
