(* ===== verification/ControlWrap.v ===== *)
(** * Control packets on the wire (openvpn ssl_pkt.c, tls_crypt.c, crypto.c)

    [write_control_auth] gives a control packet its acknowledgements, opcode and
    session id, and protects it with an HMAC (tls-auth) or by encryption
    (tls-crypt); [read_control_auth] undoes this on the other side, after
    [tls_crypt_v2_extract_client_key] if the packet brings its key along.
    [tls_pre_decrypt_lite], [tls_reset_standalone] and the session id cookies
    are the stateless first answers of a server.

    Creating a cipher or HMAC context from a key belongs to the crypto library:
    the class [KeyInit].  [verify] is the result of the metadata script, if one
    is configured.  Addresses are the bytes of their [sockaddr]. *)

From S2P Require Import Prelude Buffer CircList PacketId ReplayFilter DataChannel DataTunnel TlsCrypt Reliable ReliableAck ReliableStore ControlChannel.
From stdpp Require Import prelude.
From Stdlib Require Import ZArith Lia ZifyBool.

Local Open Scope Z_scope.

Definition SWAP_BUF_SIZE : Z := 256.
Definition P_OPCODE_SHIFT : Z := 3.
Definition P_KEY_ID_MASK : Z := 7.
Definition TLS_CRYPT_V2_MAX_METADATA_LEN : Z := TLS_CRYPT_V2_MAX_WKC_LEN - (TLS_CRYPT_V2_CLIENT_KEY_LEN + TLS_CRYPT_TAG_SIZE + 2).
Definition SHA256_DIGEST_LENGTH : Z := 32.

Inductive wrap_mode := WRAP_NONE | WRAP_AUTH | WRAP_CRYPT.
#[global] Instance wrap_mode_eq_dec : EqDecision wrap_mode.
Proof. solve_decision. Defined.

(** Contexts from key material; [true] is OPENVPN_OP_ENCRYPT. *)
Class KeyInit (K M : Type) := {
  cipher_ctx_init : bytes -> bool -> K;
  hmac_ctx_init : bytes -> M
}.

Inductive key_direction := KEY_DIRECTION_NORMAL | KEY_DIRECTION_INVERSE | KEY_DIRECTION_BIDIRECTIONAL.

(** out_key, in_key and need_keys *)
Definition key_direction_state_init (d : key_direction) : Z * Z * Z :=
  match d with
  | KEY_DIRECTION_NORMAL => (0, 1, 2)
  | KEY_DIRECTION_INVERSE => (1, 0, 2)
  | KEY_DIRECTION_BIDIRECTIONAL => (0, 0, 1)
  end.

Inductive openvpn_sockaddr := AF_INET (in4 : bytes) | AF_INET6 (in6 : bytes) | AF_OTHER.

Inductive first_packet_verdict :=
| VERDICT_VALID_RESET_V2 | VERDICT_VALID_RESET_V3 | VERDICT_VALID_CONTROL_V1 | VERDICT_VALID_ACK_V1 | VERDICT_VALID_WKC_V1 | VERDICT_INVALID.

Section control_wrap.
Context {K M : Type} `{!CipherOps K} `{!HmacOps M} `{!KeyInit K M}.
Implicit Types opt ropt : co K M.

Record tls_wrap_ctx := mkwrap {
  tw_mode : wrap_mode;
  tw_opt : co K M;
  tw_work : buffer;
  tw_server_key : key_ctx K M;         (** tls_crypt_v2_server_key *)
  tw_wkc : option buffer;              (** tls_crypt_v2_wkc *)
  tw_metadata : buffer;
  tw_keydata : bytes                   (** original_wrap_keydata.keys *)
}.
Implicit Types ctx : tls_wrap_ctx.

Definition tw_set_opt ctx opt : tls_wrap_ctx :=
  mkwrap (tw_mode ctx) opt (tw_work ctx) (tw_server_key ctx) (tw_wkc ctx) (tw_metadata ctx) (tw_keydata ctx).
Definition tw_set_work ctx (w : buffer) : tls_wrap_ctx :=
  mkwrap (tw_mode ctx) (tw_opt ctx) w (tw_server_key ctx) (tw_wkc ctx) (tw_metadata ctx) (tw_keydata ctx).
Definition tw_set_client_key ctx (md : buffer) (keys : bytes) : tls_wrap_ctx :=
  mkwrap (tw_mode ctx) (tw_opt ctx) (tw_work ctx) (tw_server_key ctx) (tw_wkc ctx) md keys.

(** ** Keys (crypto.c, tls_crypt.c) *)

(** [key] is a struct key: 64 bytes for the cipher, 64 for the HMAC. *)
Definition init_key_ctx (key : bytes) (cipher digest enc : bool) : key_ctx K M :=
  mkkey (if cipher then Some (cipher_ctx_init (take 64 key) enc) else None)
        (if digest then Some (hmac_ctx_init (drop 64 key)) else None) [].

(** The contexts for sending and receiving. *)
Definition init_key_ctx_bi (keys : bytes) (d : key_direction) (cipher digest : bool) : key_ctx K M * key_ctx K M :=
  let '(out_key, in_key, _) := key_direction_state_init d in
  (init_key_ctx (slice keys (128 * out_key) 128) cipher digest true, init_key_ctx (slice keys (128 * in_key) 128) cipher digest false).

Definition tls_crypt_v2_load_client_key (keys : bytes) (tls_server : bool) : key_ctx K M * key_ctx K M :=
  init_key_ctx_bi keys (if tls_server then KEY_DIRECTION_NORMAL else KEY_DIRECTION_INVERSE) true true.

(** ** Sending *)

Definition swap_hmac (buf : buffer) opt (incoming : bool) : outcome (buffer * bool) :=
  let ctx := if incoming then co_decrypt opt else co_encrypt opt in
  m ← must (kc_hmac ctx);
  let hmac_size := hmac_ctx_size m + packet_id_size true in
  let osid_size := 1 + SID_SIZE in
  let e1 := if incoming then osid_size else hmac_size in
  let e2 := if incoming then hmac_size else osid_size in
  ASSERT ((e1 <=? SWAP_BUF_SIZE) && (e2 <=? SWAP_BUF_SIZE));;
  if e1 + e2 <=? blen buf then
    buf1 ← peek buf (boffset buf) e1;
    buf2 ← peek buf (boffset buf + e1) e2;
    buf ← poke buf (boffset buf) buf2;
    buf ← poke buf (boffset buf + e2) buf1;
    Ret (buf, true)
  else Ret (buf, false).

Definition has_wkc (op : Z) : bool := (op =? P_CONTROL_HARD_RESET_CLIENT_V3) || (op =? P_CONTROL_WKC_V1).

(** The new context and [*buf]; [rnd] is for [openvpn_encrypt]. *)
Definition tls_wrap_control (now : Z) (rnd : bytes) ctx (header : Z) (buf : buffer) (session_id : bytes)
  : outcome (tls_wrap_ctx * buffer) :=
  buf ← match tw_mode ctx with
        | WRAP_CRYPT => Ret buf
        | _ =>
            r ← session_id_write_prepend session_id buf;
            buf ← ASSERT_ok r;
            r ← buf_write_prepend buf [header];
            ASSERT_ok r
        end;
  match tw_mode ctx with
  | WRAP_NONE => Ret (ctx, buf)
  | WRAP_AUTH =>
      '(buf, o) ← openvpn_encrypt now rnd buf clear_buf (Some (tw_opt ctx));
      opt ← must o;
      r ← swap_hmac buf opt false;
      buf ← ASSERT_ok r;
      Ret (tw_set_opt ctx opt, buf)
  | WRAP_CRYPT =>
      work ← ASSERT_ok (buf_init (tw_work ctx) (boffset buf));
      r ← buf_write work [header];
      work ← ASSERT_ok r;
      r ← session_id_write session_id work;
      work ← ASSERT_ok r;
      '(work, opt, ok) ← tls_crypt_wrap now buf work (tw_opt ctx);
      let ctx := tw_set_work (tw_set_opt ctx opt) work in
      if negb ok then Ret (ctx, set_len buf 0)
      else if has_wkc (Z.shiftr header P_OPCODE_SHIFT) then
        wkc ← deref (tw_wkc ctx);
        '(work, ok) ← buf_copy work wkc;
        let ctx := tw_set_work ctx work in
        if (ok : bool) then Ret (ctx, work) else Ret (ctx, set_len buf 0)
      else Ret (ctx, work)
  end.

(** The parts of struct tls_session that matter here; [s_server] is
    opt->server, [s_key_export] the flag CO_USE_TLS_KEY_MATERIAL_EXPORT. *)
Record tls_session := mksession {
  s_tls_wrap : tls_wrap_ctx;
  s_tls_wrap_reneg : tls_wrap_ctx;
  s_session_id : bytes;
  s_server : bool;
  s_key_export : bool
}.

Definition tls_session_get_tls_wrap (s : tls_session) (key_id : Z) : tls_wrap_ctx :=
  if (0 <? key_id) && bool_decide (tw_mode (s_tls_wrap_reneg s) = WRAP_CRYPT) then s_tls_wrap_reneg s else s_tls_wrap s.
Definition tls_session_set_tls_wrap (s : tls_session) (key_id : Z) ctx : tls_session :=
  if (0 <? key_id) && bool_decide (tw_mode (s_tls_wrap_reneg s) = WRAP_CRYPT)
  then mksession (s_tls_wrap s) ctx (s_session_id s) (s_server s) (s_key_export s)
  else mksession ctx (s_tls_wrap_reneg s) (s_session_id s) (s_server s) (s_key_export s).

(** The session, the pending and the recent acknowledgements and [*buf];
    [remote] is session_id_remote, [remote_defined] says that the address of the
    peer is known. *)
Definition write_control_auth (now : Z) (rnd : bytes) (s : tls_session) (key_id : Z) (rec_ack lru_acks : reliable_ack) (remote : bytes)
  (remote_defined : bool) (buf : buffer) (opcode max_ack : Z) (prepend_ack : bool)
  : outcome (tls_session * reliable_ack * reliable_ack * buffer) :=
  let header := u8 (Z.lor key_id (Z.shiftl opcode P_OPCODE_SHIFT)) in
  let max_ack := if bool_decide (tw_mode (s_tls_wrap s) = WRAP_NONE) && negb (s_server s) && negb (s_key_export s) then min_int max_ack 4 else max_ack in
  ASSERT remote_defined;;
  '(rec_ack, lru_acks, buf, ok) ← reliable_ack_write rec_ack lru_acks buf remote max_ack prepend_ack;
  ASSERT ok;;
  '(ctx, buf) ← tls_wrap_control now rnd (tls_session_get_tls_wrap s key_id) header buf (s_session_id s);
  Ret (tls_session_set_tls_wrap s key_id ctx, rec_ack, lru_acks, buf).

(** ** Receiving *)

(** The packet without the key, the context and the result. *)
Definition tls_crypt_v2_extract_client_key (verify : option bool) (buf : buffer) ctx : outcome (buffer * tls_wrap_ctx * bool) :=
  match kc_cipher (tw_server_key ctx) with
  | None => Ret (buf, ctx, false)
  | Some _ =>
      if buf_len buf <? 2 then Ret (buf, ctx, false)
      else
        net_len ← peek buf (buf_bend buf - 2) 2;
        match buf_advance buf (buf_len buf - be_val net_len) with
        | (_, false) => Ret (buf, ctx, false)
        | (w, true) =>
            md ← alloc_buf TLS_CRYPT_V2_MAX_METADATA_LEN;
            '(keys, md) ← tls_crypt_v2_unwrap_client_key md w (tw_server_key ctx);
            match keys with
            | None => Ret (buf, tw_set_client_key ctx md (replicate (Z.to_nat TLS_CRYPT_V2_CLIENT_KEY_LEN) 0), false)
            | Some keys =>
                let o := tw_opt ctx in
                let r := co_replay o in
                let '(enc, dec) := tls_crypt_v2_load_client_key keys true in
                let o := mkco enc dec (mkopt (opt_packet_id r) (opt_pid_persist r) true) (co_ignore_packet_id o) in
                let ctx := mkwrap WRAP_CRYPT o (tw_work ctx) (tw_server_key ctx) (tw_wkc ctx) md keys in
                buf ← ASSERT_ok (buf_inc_len buf (- buf_len w));
                Ret (buf, ctx, default true verify)
            end
        end
  end.

(** [read_control_auth] from the mode on; [junk] is what [malloc] left in the
    temporary buffer, the head room is not used without a cipher. *)
Definition read_mode (now : Z) (junk : bytes) (buf : buffer) ctx : outcome (buffer * tls_wrap_ctx * bool) :=
  match tw_mode ctx with
  | WRAP_AUTH =>
      '(buf, ok) ← swap_hmac buf (tw_opt ctx) true;
      if negb (ok : bool) then Ret (buf, ctx, false)
      else
        '(buf, o, _) ← openvpn_decrypt now 0 buf clear_buf (Some (tw_opt ctx)) (boffset buf);
        opt ← must o;
        let ctx := tw_set_opt ctx opt in
        if blen buf =? 0 then Ret (buf, ctx, false) else Ret ((buf_advance buf (SID_SIZE + 1)).1, ctx, true)
  | WRAP_CRYPT =>
      tmp ← alloc_buf_gc (take (Z.to_nat (buf_forward_capacity_total buf)) junk) (buf_forward_capacity_total buf);
      '(tmp, opt, ok) ← tls_crypt_unwrap now buf tmp (tw_opt ctx);
      let ctx := tw_set_opt ctx opt in
      if negb (ok : bool) then Ret (buf, ctx, false)
      else
        buf ← ASSERT_ok (buf_init buf (boffset buf));
        r ← buf_copy buf tmp;
        buf ← ASSERT_ok r;
        _ ← buf_clear tmp;
        Ret (buf, ctx, true)
  | WRAP_NONE =>
      match kc_cipher (tw_server_key ctx) with
      | Some _ => Ret (buf, ctx, false)
      | None => Ret ((buf_advance buf (SID_SIZE + 1)).1, ctx, true)
      end
  end.

(** The buffer, the context and the result. *)
Definition read_control_auth (now : Z) (junk : bytes) (verify : option bool) (buf : buffer) ctx
  : outcome (buffer * tls_wrap_ctx * bool) :=
  op ← peek buf (boffset buf) 1;
  '(buf, ctx, ok) ← (if has_wkc (Z.shiftr (be_val op) P_OPCODE_SHIFT) then tls_crypt_v2_extract_client_key verify buf ctx
                     else Ret (buf, ctx, true));
  if negb ok then Ret (buf, ctx, false) else read_mode now junk buf ctx.

(** ** Stateless answers of a server *)

Record tls_pre_decrypt_state := mkpre {
  ps_wrap : option tls_wrap_ctx;
  ps_newbuf : buffer;
  ps_peer_session_id : bytes;
  ps_server_session_id : bytes
}.

(** [clone] is what [malloc] left in the block of the copy. *)
Definition tls_pre_decrypt_lite (now : Z) (junk clone : bytes) (tas_wrap : tls_wrap_ctx) (state : tls_pre_decrypt_state) (buf : buffer)
  : outcome (tls_pre_decrypt_state * first_packet_verdict) :=
  if blen buf <? 1 + SID_SIZE then Ret (state, VERDICT_INVALID)
  else
    b ← peek buf (boffset buf) 1;
    let op := Z.shiftr (be_val b) P_OPCODE_SHIFT in
    let key_id := Z.land (be_val b) P_KEY_ID_MASK in
    if negb (bool_decide (op ∈ [P_CONTROL_HARD_RESET_CLIENT_V2; P_CONTROL_HARD_RESET_CLIENT_V3; P_CONTROL_V1; P_CONTROL_WKC_V1; P_ACK_V1]))
    then Ret (state, VERDICT_INVALID)
    else if negb (key_id =? 0) then Ret (state, VERDICT_INVALID)
    else
      '(_, sid) ← session_id_read (buf_advance buf 1).1;
      match sid with
      | None => Ret (state, VERDICT_INVALID)
      | Some sid =>
          let state := mkpre (ps_wrap state) (ps_newbuf state) sid (ps_server_session_id state) in
          if negb (session_id_defined sid) then Ret (state, VERDICT_INVALID)
          else
            newbuf ← clone_buf clone buf;
            '(newbuf, ctx, ok) ← read_control_auth now junk None newbuf tas_wrap;
            let state := mkpre (Some ctx) newbuf sid (ps_server_session_id state) in
            Ret (state,
              if negb ok then VERDICT_INVALID
              else if op =? P_CONTROL_V1 then VERDICT_VALID_CONTROL_V1
              else if op =? P_ACK_V1 then VERDICT_VALID_ACK_V1
              else if op =? P_CONTROL_HARD_RESET_CLIENT_V3 then VERDICT_VALID_RESET_V3
              else if op =? P_CONTROL_WKC_V1 then VERDICT_VALID_WKC_V1
              else VERDICT_VALID_RESET_V2)
      end.

Definition tls_reset_standalone (now : Z) (rnd : bytes) ctx (workbuf : buffer) (headroom : Z) (own_sid remote_sid : bytes) (header : Z)
  (request_resend_wkc : bool) : outcome (tls_wrap_ctx * buffer) :=
  buf ← ASSERT_ok (buf_init workbuf headroom);
  '(buf, _) ← buf_write_u8 buf 1;
  '(buf, _) ← buf_write_u32 buf 0;
  '(buf, _) ← buf_write buf remote_sid;
  r ← buf_write buf (be_bytes 4 0);
  buf ← ASSERT_ok r;
  buf ← (if request_resend_wkc then
           '(buf, _) ← buf_write_u16 buf 1;
           '(buf, _) ← buf_write_u16 buf 2;
           '(buf, _) ← buf_write_u16 buf 1;
           Ret buf
         else Ret buf);
  tls_wrap_control now rnd ctx header buf own_sid.

(** The cookie for a client: the first bytes of the digest.  A handshake window
    of 0 divides by zero. *)
Definition calculate_session_id_hmac (now : Z) (client_sid : bytes) (from : openvpn_sockaddr) (hmac : M) (handwindow offset : Z) : outcome bytes :=
  let quantum := (handwindow + 1) ÷ 2 in
  if quantum =? 0 then Fault else
  let session_id_time := be_bytes 4 (u32 (now ÷ quantum + offset)) in
  let addr := match from with AF_INET a => a | AF_INET6 a => a | AF_OTHER => [] end in
  result ← mem_write (replicate (Z.to_nat SHA256_DIGEST_LENGTH) 0) 0 (hmac_ctx_digest hmac (session_id_time ++ addr ++ client_sid));
  Ret (take (Z.to_nat SID_SIZE) result).

(** [memcmp_constant_time] returns 0 when the data is equal. *)
Definition memcmp_constant_time (a b : bytes) : Z := if decide (a = b) then 0 else 1.

Fixpoint check_offsets (offsets : list Z) (now : Z) (state : tls_pre_decrypt_state) (from : openvpn_sockaddr) (hmac : M) (handwindow : Z) : outcome bool :=
  match offsets with
  | [] => Ret false
  | offset :: rest =>
      expected_id ← calculate_session_id_hmac now (ps_peer_session_id state) from hmac handwindow offset;
      if negb (memcmp_constant_time expected_id (ps_server_session_id state) =? 0) then Ret true
      else check_offsets rest now state from hmac handwindow
  end.

(** The state and the result; [ack] is an uninitialised local. *)
Definition check_session_id_hmac (now : Z) (ack : reliable_ack) (state : tls_pre_decrypt_state) (from : option openvpn_sockaddr) (hmac : M)
  (handwindow : Z) : outcome (tls_pre_decrypt_state * bool) :=
  match from with
  | None => Ret (state, false)
  | Some from =>
      '(_, _, sid, ok) ← reliable_ack_parse (ps_newbuf state) ack (ps_server_session_id state);
      let state := mkpre (ps_wrap state) (ps_newbuf state) (ps_peer_session_id state) sid in
      if negb (ok : bool) then Ret (state, false)
      else ok ← check_offsets [-2; -1; 0; 1] now state from hmac handwindow; Ret (state, ok)
  end.

(** ** What reading a packet computes *)

Lemma swap_pokes b hd x y r tl :
  holds b hd (x ++ y ++ r) tl ->
  exists b1 b2, poke b hd y = Ret b1 /\ boffset b1 = hd /\ poke b1 (hd + zlen y) x = Ret b2 /\ holds b2 hd (y ++ x ++ r) tl.
Proof.
  intros Hh. pose proof (holds_bytes _ _ _ _ Hh) as Hb. apply Forall_app in Hb as [Hx Hb]. apply Forall_app in Hb as [Hy _].
  rewrite app_assoc in Hh. rewrite <- (take_drop (length y) (x ++ y)), <- app_assoc in Hh.
  destruct (poke_content _ _ [] _ _ _ y Hh) as (b1 & Hp1 & Hb1); [rewrite length_take, length_app; lia|done|].
  change (zlen []) with 0 in Hp1. rewrite Z.add_0_r in Hp1. cbn [app] in Hb1.
  destruct (poke_content _ _ _ _ _ _ x Hb1) as (b2 & Hp2 & Hb2); [rewrite length_drop, length_app; lia|done|].
  exists b1, b2. split_and!; try done. by destruct (holds_bounds _ _ _ _ Hb1) as (_ & _ & _ & Ho & _).
Qed.

Lemma swap_hmac_spec opt m (incoming : bool) buf hd x y r tl :
  kc_hmac (if incoming then co_decrypt opt else co_encrypt opt) = Some m -> 0 <= hmac_ctx_size m <= MAX_HMAC_KEY_LENGTH ->
  holds buf hd (x ++ y ++ r) tl ->
  (if incoming then zlen x = 9 /\ zlen y = hmac_ctx_size m + 8 else zlen x = hmac_ctx_size m + 8 /\ zlen y = 9) ->
  exists buf', swap_hmac buf opt incoming = Ret (buf', true) /\ holds buf' hd (y ++ x ++ r) tl.
Proof.
  intros Hm Hsz Hh Hl. unfold swap_hmac, MAX_HMAC_KEY_LENGTH in *. rewrite Hm. cbn [must mbind outcome_bind]. change (1 + SID_SIZE) with 9. change (packet_id_size true) with 8.
  set (e1 := if incoming then 9 else hmac_ctx_size m + 8). set (e2 := if incoming then hmac_ctx_size m + 8 else 9).
  assert (He : e1 = zlen x /\ e2 = zlen y) by (unfold e1, e2; destruct incoming; lia). clearbody e1 e2. destruct He as [-> ->].
  unfold SWAP_BUF_SIZE. rewrite ASSERT_true by (destruct incoming; lia). cbn [mbind outcome_bind].
  destruct (buf_len_holds _ _ _ _ Hh) as [_ ->]. destruct (holds_bounds _ _ _ _ Hh) as (_ & _ & _ & -> & _). rewrite !length_app.
  rewrite (proj2 (Z.leb_le _ _)) by lia. rewrite (peek_part buf hd [] x (y ++ r) tl hd (zlen x) Hh), (peek_part buf hd x y r tl (hd + zlen x) (zlen y) Hh) by (cbn [length]; lia).
  cbn [mbind outcome_bind]. destruct (swap_pokes _ _ _ _ _ _ Hh) as (b1 & b2 & -> & Ho & Hp2 & Hb2). cbn [mbind outcome_bind].
  rewrite Ho, Hp2. cbn [mbind outcome_bind]. by exists b2.
Qed.

Lemma swap_hmac_short opt m (incoming : bool) buf hd c tl :
  kc_hmac (if incoming then co_decrypt opt else co_encrypt opt) = Some m -> 0 <= hmac_ctx_size m <= MAX_HMAC_KEY_LENGTH ->
  holds buf hd c tl -> zlen c < 17 + hmac_ctx_size m -> swap_hmac buf opt incoming = Ret (buf, false).
Proof.
  intros Hm Hsz Hh Hl. unfold swap_hmac, MAX_HMAC_KEY_LENGTH in *. rewrite Hm. cbn [must mbind outcome_bind]. change (1 + SID_SIZE) with 9. change (packet_id_size true) with 8.
  unfold SWAP_BUF_SIZE. rewrite ASSERT_true by (destruct incoming; lia). cbn [mbind outcome_bind].
  destruct (buf_len_holds _ _ _ _ Hh) as [_ ->]. rewrite (proj2 (Z.leb_gt _ _)) by (destruct incoming; lia). done.
Qed.

(** The payload of a packet and its packet id, in each mode; the packet is
    opcode, session id and what the mode adds. *)
Definition auth_swapped (m : M) (pkt : bytes) : bytes :=
  let n := Z.to_nat (hmac_ctx_size m + 8) in take n (drop 9 pkt) ++ take 9 pkt ++ drop n (drop 9 pkt).

Definition control_open ctx (pkt : bytes) : option (bytes * option packet_id_net) :=
  let opt := tw_opt ctx in
  match tw_mode ctx with
  | WRAP_NONE =>
      match kc_cipher (tw_server_key ctx) with
      | Some _ => None
      | None => Some (if 9 <=? zlen pkt then drop 9 pkt else pkt, None)
      end
  | WRAP_AUTH =>
      match kc_hmac (co_decrypt opt) with
      | None => None
      | Some m => if zlen pkt <? 17 + hmac_ctx_size m then None
                  else '(pt, pin) ← v1_open opt (auth_swapped m pkt) 0; Some (drop 9 pt, pin)
      end
  | WRAP_CRYPT =>
      match kc_cipher (co_decrypt opt), kc_hmac (co_decrypt opt) with Some k, Some m => tls_opened opt k m pkt | _, _ => None end
  end.

(** What is known of a context that receives: [H] are the packet ids seen. *)
Definition wrap_ready ctx (H : list packet_id_net) : Prop :=
  let opt := tw_opt ctx in
  match tw_mode ctx with
  | WRAP_NONE => True
  | WRAP_AUTH => dec_ready opt H /\ kc_cipher (co_decrypt opt) = None /\ opt_long_form (co_replay opt) = true /\
                 is_Some (kc_hmac (co_decrypt opt))
  | WRAP_CRYPT => exists k m, tls_ready opt H k m
  end.

(** What a call of [read_control_auth] returns, given what the packet contains. *)
Definition reads (now : Z) ctx (res : option (bytes * option packet_id_net)) (r : outcome (buffer * tls_wrap_ctx * bool)) : Prop :=
  match res with
  | None => exists b, r = Ret (b, ctx, false)
  | Some (pt, None) => exists b hd tl, r = Ret (b, ctx, true) /\ holds b hd pt tl
  | Some (pt, Some pin) =>
      forall opt' ok, check_replay now (tw_opt ctx) pin = Ret (opt', ok) ->
      if (ok : bool) then exists b hd tl, r = Ret (b, tw_set_opt ctx opt', true) /\ holds b hd pt tl
      else exists b, r = Ret (b, tw_set_opt ctx opt', false)
  end.

Lemma tw_set_opt_same ctx : tw_set_opt ctx (tw_opt ctx) = ctx.
Proof. by destruct ctx. Qed.

(** Opcode and session id follow the packet id of an authentic packet. *)
Lemma auth_opened opt m pkt pt pin :
  kc_cipher (co_decrypt opt) = None -> kc_hmac (co_decrypt opt) = Some m -> 0 <= hmac_ctx_size m -> opt_long_form (co_replay opt) = true ->
  17 + hmac_ctx_size m <= zlen pkt -> v1_open opt (auth_swapped m pkt) 0 = Some (pt, pin) -> 9 <= zlen pt.
Proof.
  intros Hc Hm Hsz Hlf Hl Ho. unfold v1_open in Ho. rewrite Hc, Hm, Hlf in Ho. apply bind_Some in Ho as (rest & Ha & Ho).
  unfold v1_auth in Ha. destruct (_ <? _) in Ha; [done|]. case_decide; [|done]. injection Ha as <-.
  apply bind_Some in Ho as ([c q] & Ht & Ho). injection Ho as <- _. unfold take_pin in Ht. destruct (_ <? _) in Ht; [done|].
  injection Ht as <- _. rewrite !length_drop. unfold auth_swapped. rewrite !length_app, !length_take, !length_drop. lia.
Qed.

Lemma advance_9 b hd c tl : holds b hd c tl ->
  exists hd', holds (buf_advance b (SID_SIZE + 1)).1 hd' (if 9 <=? zlen c then drop 9 c else c) tl.
Proof.
  intros Hh. change (SID_SIZE + 1) with 9. destruct (9 <=? zlen c) eqn:E.
  - destruct (behind_advance _ _ _ _ _ 9 (holds_behind _ _ _ _ Hh) ltac:(lia)) as (b1 & -> & _ & Hb1). apply behind_holds in Hb1. by eexists.
  - destruct (buf_len_holds _ _ _ _ Hh) as [_ Hl]. unfold buf_advance. rewrite (proj2 (Z.ltb_lt (blen b) 9)) by lia. rewrite !orb_true_r.
    by exists hd.
Qed.

Lemma read_auth_spec now junk buf ctx H hd pkt tl :
  wrap_ready ctx H -> tw_mode ctx = WRAP_AUTH -> holds buf hd pkt tl -> reads now ctx (control_open ctx pkt) (read_mode now junk buf ctx).
Proof.
  intros Hready Em Hb. unfold wrap_ready, read_mode, control_open in *. rewrite Em in *. destruct Hready as (Hr & Hc & Hlf & m & Hm). rewrite Hm.
  pose proof (dr_hmac _ _ Hr) as Hsz. rewrite Hm in Hsz. destruct Hsz as [Hsz Hdl].
  destruct (zlen pkt <? 17 + hmac_ctx_size m) eqn:E.
  { rewrite (swap_hmac_short _ m true _ _ _ _ Hm Hsz Hb) by lia. cbn [mbind outcome_bind negb]. by eexists. }
  pose proof (fun n => take_drop n (drop 9 pkt)) as Hsplit. specialize (Hsplit (Z.to_nat (hmac_ctx_size m + 8))).
  assert (Hb' : holds buf hd (take 9 pkt ++ take (Z.to_nat (hmac_ctx_size m + 8)) (drop 9 pkt) ++ drop (Z.to_nat (hmac_ctx_size m + 8)) (drop 9 pkt)) tl)
    by by rewrite Hsplit, take_drop.
  destruct (swap_hmac_spec (tw_opt ctx) m true buf hd _ _ _ tl Hm Hsz Hb') as (b1 & -> & Hb1); [rewrite !length_take, length_drop; lia|].
  cbn [mbind outcome_bind negb]. fold (auth_swapped m pkt) in Hb1. change (take (Z.to_nat (hmac_ctx_size m + 8)) _ ++ _) with (auth_swapped m pkt) in Hb1.
  assert (Hne : auth_swapped m pkt <> []).
  { intros En. apply (f_equal length) in En. unfold auth_swapped in En. rewrite !length_app, !length_take, !length_drop in En. simpl in En. lia. }
  unfold openvpn_decrypt. rewrite Hc. cbn [cipher_ctx_mode_is]. destruct (buf_len_holds _ _ _ _ Hb1) as [_ Hl1].
  rewrite (proj2 (Z.ltb_lt 0 (blen b1))) by (destruct (auth_swapped m pkt); [done|cbn [length] in Hl1; lia]).
  pose proof (decrypt_v1_spec now 0 b1 clear_buf (tw_opt ctx) H hd [] _ tl Hr ltac:(by rewrite Hc) (holds_behind _ _ _ _ Hb1) Hne ltac:(by rewrite Hc)) as Hd.
  assert (Hroom : v1_open (tw_opt ctx) (auth_swapped m pkt) (bcapacity clear_buf - 0) = v1_open (tw_opt ctx) (auth_swapped m pkt) 0) by done.
  rewrite Hroom in Hd. destruct (v1_open _ _ 0) as [[pt pin]|] eqn:Eo; cbn [mbind option_bind].
  - assert (Hpt : 9 <= zlen pt) by (eapply (auth_opened (tw_opt ctx) m pkt); [done|done|lia|done|lia|exact Eo]).
    assert (Hfin : forall w whd wtl, holds w whd pt wtl -> exists hd', holds (buf_advance w (SID_SIZE + 1)).1 hd' (drop 9 pt) wtl /\ (blen w =? 0) = false).
    { intros w whd wtl Hw. destruct (advance_9 _ _ _ _ Hw) as (hd' & Hadv). rewrite (proj2 (Z.leb_le _ _)) in Hadv by lia.
      exists hd'. split; [done|]. destruct (buf_len_holds _ _ _ _ Hw) as [_ ->]. lia. }
    destruct pin as [pin|].
    + intros opt' ok Hchk. specialize (Hd opt' ok Hchk). destruct ok.
      * destruct Hd as (w & whd & wtl & -> & Hw). cbn [must mbind outcome_bind]. destruct (Hfin _ _ _ Hw) as (hd' & Hadv & ->). by eexists _, _, _.
      * destruct Hd as (w & -> & Hw0 & _). cbn [must mbind outcome_bind]. rewrite Hw0. by eexists.
    + destruct Hd as (w & whd & wtl & -> & Hw). cbn [must mbind outcome_bind]. destruct (Hfin _ _ _ Hw) as (hd' & Hadv & ->).
      rewrite tw_set_opt_same. by eexists _, _, _.
  - destruct Hd as (w & -> & Hw0 & _). cbn [must mbind outcome_bind]. rewrite Hw0, tw_set_opt_same. by eexists.
Qed.

Lemma read_crypt_spec now junk buf ctx H hd pkt tl :
  wrap_ready ctx H -> tw_mode ctx = WRAP_CRYPT -> holds buf hd pkt tl -> pkt <> [] -> Forall is_byte junk -> zlen pkt + tl <= zlen junk ->
  reads now ctx (control_open ctx pkt) (read_mode now junk buf ctx).
Proof.
  intros Hready Em Hb Hne Hjb Hjl. unfold wrap_ready, read_mode, control_open in *. rewrite Em in *. destruct Hready as (k & m & Hr).
  rewrite (tr_cipher _ _ _ _ Hr), (tr_hmac _ _ _ _ Hr).
  assert (Hpk : 0 < zlen pkt) by (destruct pkt; [done|cbn [length]; lia]).
  assert (Hcap : buf_forward_capacity_total buf = zlen pkt + tl).
  { unfold buf_forward_capacity_total. holds_facts Hb. rewrite Hval. cbv zeta. destruct (_ <? 0) eqn:E; lia. }
  rewrite Hcap. holds_facts Hb.
  destruct (alloc_buf_gc_spec (take (Z.to_nat (zlen pkt + tl)) junk) (zlen pkt + tl)) as (tmp & -> & Htmp);
    [lia|rewrite length_take; lia|by apply Forall_take|]. cbn [mbind outcome_bind].
  pose proof (tls_crypt_unwrap_spec now buf tmp (tw_opt ctx) H k m hd pkt tl 0 _ Hr Hb Hne Htmp ltac:(lia)) as Hd.
  assert (Hfin : forall t thd pt ttl, tls_open k m pkt = Some pt -> holds t thd pt ttl ->
    exists r, (buf ← ASSERT_ok (buf_init buf (boffset buf)); r ← buf_copy buf t; buf ← ASSERT_ok r; _ ← buf_clear t; Ret buf) = Ret r /\
      holds r hd pt (zlen pkt + tl - zlen pt)).
  { intros t thd pt ttl Ho Ht. pose proof Hb as (blk & Hok & _). pose proof (buf_init_spec buf hd pkt tl (boffset buf) Hb) as (b0 & -> & Hb0); [lia|].
    unfold ASSERT_ok. cbn [fst snd ASSERT mbind outcome_bind].
    assert (Hpl : zlen pt <= zlen pkt).
    { unfold tls_open in Ho. destruct (_ <? 49) eqn:E49 in Ho; [done|]. apply bind_Some in Ho as (s & Hrs & Ho).
      apply bind_Some in Ho as ([s1 p1] & Hu & Ho). apply bind_Some in Ho as ([s2 o2] & Hf & Ho). case_decide; [|done]. injection Ho as <-.
      destruct (st_out _ (tr_stream _ _ _ _ Hr) _ _ _ _ _ Hrs (Forall_drop _ _ _ Hbytes) Hu) as (_ & Hl & _). rewrite length_drop in Hl. lia. }
    destruct (proj1 (buf_copy_spec _ _ _ _ _ _ _ _ Hb0 Ht)) as (b1 & -> & Hb1); [lia|].
    cbn [fst snd ASSERT mbind outcome_bind].
    assert (Hclr : exists c, buf_clear t = Ret c).
    { unfold buf_clear. destruct Ht as (tb & Htk & _). pose proof Htk as []. rewrite ok_data. destruct (0 <? bcapacity t) eqn:E; [|by eexists].
      rewrite mem_write_Ret by (rewrite ?length_replicate; lia). by eexists. }
    destruct Hclr as (c & ->). cbn [mbind outcome_bind]. exists b1. split; [done|]. cbn [app] in Hb1. eapply holds_eq; [exact Hb1|lia|done|lia]. }
  assert (Hbind : forall t ctx', (buf ← ASSERT_ok (buf_init buf (boffset buf)); r ← buf_copy buf t; buf ← ASSERT_ok r; _ ← buf_clear t; Ret (buf, ctx', true)) =
    (r ← (buf ← ASSERT_ok (buf_init buf (boffset buf)); r ← buf_copy buf t; buf ← ASSERT_ok r; _ ← buf_clear t; Ret buf); Ret (r, ctx' : tls_wrap_ctx, true))).
  { intros t ctx'. destruct (ASSERT_ok (buf_init buf _)) as [x| |]; cbn [mbind outcome_bind]; [|done..].
    destruct (buf_copy x t) as [y| |]; cbn [mbind outcome_bind]; [|done..]. destruct (ASSERT_ok y); cbn [mbind outcome_bind]; [|done..].
    by destruct (buf_clear t). }
  unfold tls_opened in *. destruct (tls_open k m pkt) as [pt|] eqn:Eo; cbn [mbind option_bind] in *.
  - destruct (co_ignore_packet_id (tw_opt ctx)).
    + destruct Hd as (t & thd & ttl & -> & Ht). cbn [mbind outcome_bind negb]. rewrite tw_set_opt_same. setoid_rewrite Hbind.
      destruct (Hfin _ _ _ _ eq_refl Ht) as (r & -> & Hrh). cbn [mbind outcome_bind]. by eexists _, _, _.
    + intros opt' ok Hchk. specialize (Hd _ _ Hchk). destruct ok.
      * destruct Hd as (t & thd & ttl & -> & Ht). cbn [mbind outcome_bind negb]. setoid_rewrite Hbind.
        destruct (Hfin _ _ _ _ eq_refl Ht) as (r & -> & Hrh). cbn [mbind outcome_bind]. by eexists _, _, _.
      * destruct Hd as (t & -> & _). cbn [mbind outcome_bind negb]. by eexists.
  - destruct Hd as (t & -> & _). cbn [mbind outcome_bind negb]. rewrite tw_set_opt_same. by eexists.
Qed.

Definition opcode_of (pkt : bytes) : Z := Z.shiftr (be_val (take 1 pkt)) P_OPCODE_SHIFT.

Lemma peek_first buf hd pkt tl : holds buf hd pkt tl -> pkt <> [] -> peek buf (boffset buf) 1 = Ret (take 1 pkt).
Proof.
  intros Hb Hne. pose proof (peek_content _ _ _ _ 0 1 Hb) as Hp. rewrite Z.add_0_r in Hp. rewrite Hp; [done|lia|lia|].
  destruct pkt; [done|cbn [length]; lia].
Qed.

Lemma read_mode_spec now junk buf ctx H hd pkt tl :
  wrap_ready ctx H -> holds buf hd pkt tl -> pkt <> [] -> Forall is_byte junk -> zlen pkt + tl <= zlen junk ->
  reads now ctx (control_open ctx pkt) (read_mode now junk buf ctx).
Proof.
  intros Hready Hb Hne Hjb Hjl. destruct (tw_mode ctx) eqn:Em.
  - unfold read_mode, control_open. rewrite Em. destruct (kc_cipher (tw_server_key ctx)); [by eexists|].
    destruct (advance_9 _ _ _ _ Hb) as (hd' & Hadv). by eexists _, _, _.
  - by eapply read_auth_spec.
  - by eapply read_crypt_spec.
Qed.

Lemma read_control_auth_mode now junk verify buf ctx hd pkt tl :
  holds buf hd pkt tl -> pkt <> [] -> has_wkc (opcode_of pkt) = false ->
  read_control_auth now junk verify buf ctx = read_mode now junk buf ctx.
Proof.
  intros Hb Hne Hop. unfold read_control_auth, opcode_of in *. rewrite (peek_first _ _ _ _ Hb Hne). cbn [mbind outcome_bind].
  rewrite Hop. done.
Qed.

(** ** What sending a packet produces *)

(** The keys and formats of the two ends fit together. *)
Definition wrap_peers ctx rctx : Prop :=
  let opt := tw_opt ctx in
  let ropt := tw_opt rctx in
  tw_mode rctx = tw_mode ctx /\
  match tw_mode ctx with
  | WRAP_NONE => kc_cipher (tw_server_key rctx) = None
  | WRAP_AUTH =>
      enc_ready opt /\ kc_cipher (co_encrypt opt) = None /\ is_Some (kc_hmac (co_encrypt opt)) /\
      opt_long_form (co_replay opt) = true /\ hmac_pair (kc_hmac (co_encrypt opt)) (kc_hmac (co_decrypt ropt)) /\
      co_ignore_packet_id ropt = false
  | WRAP_CRYPT =>
      exists ek dk m m', tls_send opt ek m /\ kc_cipher (co_decrypt ropt) = Some dk /\ kc_hmac (co_decrypt ropt) = Some m' /\
        stream_pair ek dk /\ (forall x, hmac_ctx_digest m' x = hmac_ctx_digest m x) /\ co_ignore_packet_id ropt = false
  end.

(** Space in front of the packet, or in the work buffer. *)
Definition wrap_room ctx (hd n : Z) : Prop :=
  match tw_mode ctx with
  | WRAP_NONE => 9 <= hd
  | WRAP_AUTH => 9 + mac_size (kc_hmac (co_encrypt (tw_opt ctx))) + 8 <= hd
  | WRAP_CRYPT => (exists blk, buf_ok (tw_work ctx) blk) /\ hd + 9 + tls_crypt_buf_overhead + n <= bcapacity (tw_work ctx)
  end.

Definition wrap_pin ctx (p : packet_id_send) : option packet_id_net :=
  match tw_mode ctx with WRAP_NONE => None | _ => Some (wire_id p true) end.

Lemma prepend_opcode buf hd pt tl header sid :
  holds buf hd pt tl -> is_byte header -> zlen sid = 8 -> Forall is_byte sid -> 9 <= hd ->
  exists b, (r ← session_id_write_prepend sid buf; buf ← ASSERT_ok r; r ← buf_write_prepend buf [header]; ASSERT_ok r) = Ret b /\
    holds b (hd - 9) ((header :: sid) ++ pt) tl.
Proof.
  intros Hb Hh Hsl Hsb Hhd. unfold session_id_write_prepend. destruct (buf_write_prepend_spec _ _ _ _ sid Hb Hsb ltac:(lia)) as (b1 & -> & Hb1).
  unfold ASSERT_ok. cbn [fst snd ASSERT mbind outcome_bind].
  destruct (buf_write_prepend_spec _ _ _ _ [header] Hb1) as (b2 & -> & Hb2); [by constructor|simpl; lia|].
  cbn [fst snd ASSERT mbind outcome_bind]. exists b2. split; [done|]. eapply holds_eq; [exact Hb2|simpl; lia|done|done].
Qed.

Lemma wrap_auth_spec now rnd ctx rctx H header sid p' buf hd pt tl :
  wrap_peers ctx rctx -> wrap_ready rctx H -> tw_mode ctx = WRAP_AUTH -> is_byte header -> zlen sid = 8 -> Forall is_byte sid -> u32_ok now ->
  packet_id_send_update now (pid_send (pid_of (tw_opt ctx))) true = (p', true) -> holds buf hd pt tl -> wrap_room ctx hd (zlen pt) ->
  exists b hd' tl' rest, tls_wrap_control now rnd ctx header buf sid = Ret (tw_set_opt ctx (set_pid_send (tw_opt ctx) p'), b) /\
    holds b hd' ((header :: sid) ++ rest) tl' /\ control_open rctx ((header :: sid) ++ rest) = Some (pt, Some (wire_id p' true)).
Proof.
  intros [Em' Hp] Hr Em Hh Hsl Hsb Hnow Hupd Hb Hroom. unfold wrap_ready in Hr. rewrite Em' in Hr. unfold wrap_room in Hroom. rewrite Em in *.
  destruct Hp as (Hready & Hek & (m & Hm) & Hlf & Hpair & Hign), Hr as (Hdr & Hdk & Hrlf & (m' & Hm')).
  rewrite Hm in Hroom, Hpair. rewrite Hm' in Hpair. destruct Hpair as [Hsz Hdg]. cbn [mac_size] in Hroom.
  destruct (er_hmac _ Hready m Hm) as [Hmsz Hmd].
  unfold tls_wrap_control. rewrite Em. destruct (prepend_opcode _ _ _ _ header sid Hb Hh Hsl Hsb ltac:(lia)) as (b1 & -> & Hb1). cbn [mbind outcome_bind].
  set (osid := header :: sid) in *. assert (Hol : zlen osid = 9) by (unfold osid; cbn [length]; lia).
  unfold openvpn_encrypt, openvpn_encrypt_v1. rewrite Hek. cbn [cipher_ctx_mode_is]. destruct (buf_len_holds _ _ _ _ Hb1) as [_ Hl1]. rewrite length_app in Hl1.
  rewrite (proj2 (Z.ltb_lt 0 (blen b1))) by lia.
  destruct (encrypt_v1_plain_spec now (tw_opt ctx) (tw_opt rctx) p' b1 (hd - 9) (osid ++ pt) tl clear_buf [])
    as (w & pkt & -> & Hw & _ & (mac & -> & Hmac) & Hopen); try done.
  { by rewrite Hm, Hm'. } { by rewrite Hrlf, Hlf. } { by rewrite Hlf. } { rewrite Hm. simpl. lia. }
  cbn [must mbind outcome_bind]. rewrite Hlf, Hm in *. cbn [app mac_size] in *. pose proof (zlen_pid_bytes p' true) as Hpl. change (packet_id_size true) with 8 in Hpl.
  replace (mac ++ pid_bytes p' true ++ osid ++ pt) with ((mac ++ pid_bytes p' true) ++ osid ++ pt) in Hw by by rewrite <- app_assoc.
  destruct (swap_hmac_spec (set_pid_send (tw_opt ctx) p') m false w _ _ _ _ _ Hm Hmsz Hw) as (b2 & -> & Hb2); [rewrite length_app; lia|].
  unfold ASSERT_ok. cbn [fst snd ASSERT mbind outcome_bind].
  eexists b2, _, _, _. split; [done|]. split; [exact Hb2|]. unfold control_open. rewrite Em', Hm', <- Hsz.
  rewrite (proj2 (Z.ltb_ge _ _)) by (rewrite !length_app; lia).
  assert (Hsw : auth_swapped m' (osid ++ (mac ++ pid_bytes p' true) ++ pt) = mac ++ pid_bytes p' true ++ osid ++ pt).
  { unfold auth_swapped. rewrite <- Hsz. rewrite (drop_app_length' osid) by lia. rewrite (take_app_length' osid) by lia.
    rewrite take_app_length', drop_app_length' by (rewrite length_app; lia). by rewrite <- app_assoc. }
  rewrite Hsw, Hopen. cbn [mbind option_bind]. by rewrite drop_app_length' by lia.
Qed.

(** Encryption; a packet that starts a session is followed by the client key. *)
Lemma wrap_crypt_spec now rnd ctx ek dk m m' header sid p' buf hd pt tl hdk wkc tlk :
  tls_send (tw_opt ctx) ek m -> stream_pair ek dk -> (forall x, hmac_ctx_digest m' x = hmac_ctx_digest m x) ->
  tw_mode ctx = WRAP_CRYPT -> is_byte header -> zlen sid = 8 -> Forall is_byte sid -> u32_ok now ->
  packet_id_send_update now (pid_send (pid_of (tw_opt ctx))) true = (p', true) -> holds buf hd pt tl -> wrap_room ctx hd (zlen pt + zlen wkc) ->
  (if has_wkc (Z.shiftr header P_OPCODE_SHIFT) then exists wb, tw_wkc ctx = Some wb /\ holds wb hdk wkc tlk else wkc = []) ->
  exists ctx' b rest tl', tls_wrap_control now rnd ctx header buf sid = Ret (ctx', b) /\
    ctx' = tw_set_work (tw_set_opt ctx (set_pid_send (tw_opt ctx) p')) b /\ bcapacity b = bcapacity (tw_work ctx) /\
    holds b hd (((header :: sid) ++ rest) ++ wkc) tl' /\ tls_open dk m' ((header :: sid) ++ rest) = Some pt /\
    tls_pin ((header :: sid) ++ rest) = wire_id p' true.
Proof.
  intros Hsend Hpair Hsame Em Hh Hsl Hsb Hnow Hupd Hb Hroom Hwkc. unfold wrap_room in Hroom. rewrite Em in Hroom.
  destruct Hroom as ((wblk & Hwok) & Hroom). unfold tls_crypt_buf_overhead, TLS_CRYPT_TAG_SIZE, TLS_CRYPT_BLOCK_SIZE in Hroom. change (packet_id_size true) with 8 in Hroom.
  pose proof (packet_id_send_update_spec now _ true (tsn_send _ _ _ Hsend) Hnow) as Hspec. rewrite Hupd in Hspec. destruct Hspec as (Hp' & _).
  unfold tls_wrap_control. rewrite Em. cbn [mbind outcome_bind]. holds_facts Hb.
  destruct (work_init _ _ (boffset buf) Hwok) as (w0 & -> & Hw0); [lia|]. cbn [mbind outcome_bind].
  destruct (buf_write_spec _ _ _ _ [header] Hw0) as (w1 & -> & Hw1); [by constructor|simpl; lia|]. unfold ASSERT_ok. cbn [fst snd ASSERT mbind outcome_bind].
  unfold session_id_write. destruct (buf_write_spec _ _ _ _ sid Hw1 Hsb) as (w2 & -> & Hw2); [simpl; lia|]. cbn [fst snd ASSERT mbind outcome_bind].
  change (([] ++ [header]) ++ sid) with (header :: sid) in Hw2. change (zlen [header]) with 1 in Hw2. set (osid := header :: sid) in *.
  assert (Hol : zlen osid = 9) by (unfold osid; cbn [length]; lia).
  destruct (tls_crypt_wrap_spec now buf w2 (tw_opt ctx) ek dk m p' _ _ _ _ osid _ Hsend Hpair Hnow Hupd Hb Hw2 ltac:(lia))
    as (w3 & ct & -> & Hw3 & Hcl & iv & d & d1 & d2 & -> & Hdr & Hdu & Hdf). cbn [mbind outcome_bind negb].
  pose proof (fun x => proj1 (tsn_mac _ _ _ Hsend x)) as Hmac.
  assert (Hres : exists rest, tls_packet m osid (pid_bytes p' true) pt ct = osid ++ rest) by by eexists. destruct Hres as (rest & Hrest).
  pose proof (tls_open_packet dk m m' osid p' pt ct d d1 d2 Hmac Hsame Hp' Hol Hdr Hdu Hdf) as Hopen.
  destruct (tls_packet_parts m osid p' pt ct Hmac Hp' Hol) as (Hpl & _ & _ & _ & Hpin & _). rewrite Hrest in Hw3, Hopen, Hpin, Hpl.
  destruct (has_wkc (Z.shiftr header P_OPCODE_SHIFT)).
  - destruct Hwkc as (wb & Hwb & Hwkc). cbn [tw_wkc tw_set_work tw_set_opt]. rewrite Hwb. cbn [deref mbind outcome_bind].
    destruct (proj1 (buf_copy_spec _ _ _ _ _ _ _ _ Hw3 Hwkc)) as (w4 & -> & Hw4); [lia|].
    cbn [mbind outcome_bind]. eexists _, w4, rest, _. split; [done|]. split; [done|].
    split; [holds_facts Hw4; rewrite !length_app in *; lia|]. split; [eapply holds_eq; [exact Hw4|lia|done|done]|done].
  - subst wkc. eexists _, w3, rest, _. split; [done|]. split; [done|]. rewrite app_nil_r.
    split; [holds_facts Hw3; rewrite !length_app in *; lia|]. split; [eapply holds_eq; [exact Hw3|lia|done|done]|done].
Qed.

Lemma opcode_of_cons header l : opcode_of (header :: l) = Z.shiftr header P_OPCODE_SHIFT.
Proof. unfold opcode_of. simpl. by rewrite be_val_1. Qed.

Lemma tls_wrap_control_spec now rnd ctx rctx H header sid p' buf hd pt tl :
  wrap_peers ctx rctx -> wrap_ready rctx H -> is_byte header -> zlen sid = 8 -> Forall is_byte sid -> u32_ok now ->
  has_wkc (Z.shiftr header P_OPCODE_SHIFT) = false ->
  packet_id_send_update now (pid_send (pid_of (tw_opt ctx))) true = (p', true) -> holds buf hd pt tl -> wrap_room ctx hd (zlen pt) ->
  exists ctx' b hd' tl' rest, tls_wrap_control now rnd ctx header buf sid = Ret (ctx', b) /\
    tw_opt ctx' = (match tw_mode ctx with WRAP_NONE => tw_opt ctx | _ => set_pid_send (tw_opt ctx) p' end) /\
    holds b hd' ((header :: sid) ++ rest) tl' /\ control_open rctx ((header :: sid) ++ rest) = Some (pt, wrap_pin ctx p').
Proof.
  intros Hp Hr Hh Hsl Hsb Hnow Hnw Hupd Hb Hroom. unfold wrap_pin. destruct (tw_mode ctx) eqn:Em.
  - destruct Hp as [Em' Hp]. unfold wrap_room in Hroom. rewrite Em in *. unfold tls_wrap_control. rewrite Em.
    destruct (prepend_opcode _ _ _ _ header sid Hb Hh Hsl Hsb Hroom) as (b & -> & Hb'). cbn [mbind outcome_bind].
    exists ctx, b, (hd - 9), tl, pt. split_and!; try done. unfold control_open. rewrite Em', Hp.
    rewrite (proj2 (Z.leb_le _ _)) by (rewrite length_app; cbn [length]; lia). by rewrite drop_app_length' by (cbn [length]; lia).
  - destruct (wrap_auth_spec now rnd ctx rctx H header sid p' buf hd pt tl Hp Hr Em Hh Hsl Hsb Hnow Hupd Hb Hroom)
      as (b & hd' & tl' & rest & Hw & Hb' & Ho). by eexists _, b, hd', tl', rest.
  - destruct Hp as [Em' Hp]. rewrite Em in Em', Hp. destruct Hp as (ek & dk & m & m' & Hsend & Hdk & Hm' & Hpair & Hsame & Hign).
    destruct (wrap_crypt_spec now rnd ctx ek dk m m' header sid p' buf hd pt tl 0 [] 0) as (ctx' & b & rest & tl' & Hw & -> & _ & Hb' & Ho & Hpin);
      try done; [by rewrite Z.add_0_r|by rewrite Hnw|].
    rewrite app_nil_r in Hb'. eexists _, b, hd, tl', rest. split_and!; try done. unfold control_open. rewrite Em', Hdk, Hm'.
    unfold tls_opened. rewrite Ho, Hign. cbn [mbind option_bind]. by rewrite Hpin.
Qed.

(** ** The replay check of control packets *)

Lemma slice_u32 pkt p : Forall is_byte pkt -> u32_ok (be_val (slice pkt p 4)).
Proof. intros Hb. unfold slice. change (Z.to_nat 4) with 4%nat. apply be_val_take4. by apply Forall_drop. Qed.

Lemma control_open_pin ctx H pkt pt pin :
  wrap_ready ctx H -> Forall is_byte pkt -> control_open ctx pkt = Some (pt, Some pin) -> u32_ok (net_id pin).
Proof.
  intros Hr Hb Ho. unfold wrap_ready, control_open in *. destruct (tw_mode ctx).
  - by destruct (kc_cipher (tw_server_key ctx)).
  - destruct Hr as (Hd & Hc & _ & m & Hm). rewrite Hm in Ho. destruct (_ <? _) in Ho; [done|]. apply bind_Some in Ho as ([c q] & Hv & Ho).
    injection Ho as <- ->. eapply (open_packet_pin _ _ [] (auth_swapped m pkt) 0 c pin Hd); [|unfold open_packet; by rewrite Hc].
    unfold auth_swapped. repeat (apply Forall_app; split); auto using Forall_take, Forall_drop.
  - destruct Hr as (k & m & Hr). rewrite (tr_cipher _ _ _ _ Hr), (tr_hmac _ _ _ _ Hr) in Ho. unfold tls_opened in Ho.
    apply bind_Some in Ho as (c & _ & Ho). destruct (co_ignore_packet_id _); [done|]. injection Ho as <- <-. by apply slice_u32.
Qed.

Lemma control_check_step now ctx H pin :
  wrap_ready ctx H -> tw_mode ctx <> WRAP_NONE -> arrival_ok (now, pin) ->
  exists opt' ok, check_replay now (tw_opt ctx) pin = Ret (opt', ok) /\ wrap_ready (tw_set_opt ctx opt') (if (ok : bool) then pin :: H else H) /\
    (ok = true -> pin ∉ H).
Proof.
  intros Hr Hm Ha. unfold wrap_ready in *. cbn [tw_set_opt tw_mode tw_opt]. destruct (tw_mode ctx); [done| |].
  - destruct Hr as (Hd & Hc & Hlf & Hmac). destruct (check_replay_step now _ H pin Hd Ha) as (opt' & ok & Hchk & Hd' & (Hk1 & _ & Hk3) & Hnew).
    exists opt', ok. rewrite Hk1, Hk3. by split_and!.
  - destruct Hr as (k & m & [Hrec Hc Hh Hst Hmac]). destruct (crypto_check_replay_step _ _ now pin Hrec Ha) as (r & ok & Hrun & Hinv & _ & _ & Hok & _).
    exists (set_replay (tw_opt ctx) r), ok. unfold check_replay. rewrite Hrun. split_and!; [done| |intros; by apply Hok]. by exists k, m.
Qed.

(** ** Client keys in packets *)

(** What the crypto library promises of new contexts. *)
Record key_init_ok : Prop := {
  ki_stream : forall key enc, stream_cipher (cipher_ctx_init key enc : K);
  ki_pair : forall key, stream_pair (cipher_ctx_init key true : K) (cipher_ctx_init key false);
  ki_size : forall key, hmac_ctx_size (hmac_ctx_init key : M) = 32;
  ki_mac : forall key d, zlen (hmac_ctx_digest (hmac_ctx_init key : M) d) = 32 /\ Forall is_byte (hmac_ctx_digest (hmac_ctx_init key : M) d)
}.

(** The options of a server that has taken the keys from a packet. *)
Definition client_key_opt opt (keys : bytes) : co K M :=
  let r := co_replay opt in
  mkco (tls_crypt_v2_load_client_key keys true).1 (tls_crypt_v2_load_client_key keys true).2 (mkopt (opt_packet_id r) (opt_pid_persist r) true)
    (co_ignore_packet_id opt).

Lemma wkc_open_length (k : K) (m : M) w keys md :
  wkc_open k m w = Some (keys, md) -> 34 <= zlen w <= 1024 /\ be_val (drop (length w - 2) w) = zlen w.
Proof. unfold wkc_open. intros Ho. destruct (_ || _) eqn:E in Ho; [done|]. lia. Qed.

Lemma extract_client_key_spec verify buf ctx k m hd p w tl keys md :
  kc_cipher (tw_server_key ctx) = Some k -> kc_hmac (tw_server_key ctx) = Some m -> stream_cipher k ->
  (forall d, zlen (hmac_ctx_digest m d) = 32) -> holds buf hd (p ++ w) tl -> wkc_open k m w = Some (keys, md) -> zlen md <= 734 ->
  exists buf' mb mtl, tls_crypt_v2_extract_client_key verify buf ctx =
      Ret (buf', mkwrap WRAP_CRYPT (client_key_opt (tw_opt ctx) keys) (tw_work ctx) (tw_server_key ctx) (tw_wkc ctx) mb keys, default true verify) /\
    holds buf' hd p (tl + zlen w) /\ holds mb 0 md mtl.
Proof.
  intros Hk Hm Hst Hmac Hb Ho Hmd. destruct (wkc_open_length _ _ _ _ _ Ho) as [Hwl Hnl]. unfold tls_crypt_v2_extract_client_key. rewrite Hk.
  destruct (buf_len_holds _ _ _ _ Hb) as [Hbl Hl]. rewrite Hbl, length_app. rewrite (proj2 (Z.ltb_ge _ _)) by lia.
  unfold buf_bend. rewrite Hl, length_app. replace (boffset buf + Z.of_nat (length p + length w) - 2) with (boffset buf + (zlen (p ++ w) - 2)) by (rewrite length_app; lia).
  rewrite (peek_content _ _ _ _ (zlen (p ++ w) - 2) 2 Hb) by (rewrite ?length_app; lia). cbn [mbind outcome_bind].
  assert (Hlast : slice (p ++ w) (zlen (p ++ w) - 2) 2 = drop (length w - 2) w).
  { rewrite slice_skip by (rewrite length_app; lia). rewrite length_app. unfold slice.
    replace (Z.to_nat (Z.of_nat (length p + length w) - 2 - zlen p)) with (length w - 2)%nat by lia. rewrite take_ge; [done|rewrite length_drop; lia]. }
  rewrite Hlast, Hnl. replace (Z.of_nat (length p + length w) - zlen w) with (zlen p) by lia.
  destruct (behind_advance _ _ _ _ _ (zlen p) (holds_behind _ _ _ _ Hb)) as (b1 & -> & _ & Hb1); [rewrite length_app; lia|].
  rewrite Nat2Z.id, drop_app_length in Hb1. apply behind_holds in Hb1.
  destruct (alloc_buf_spec TLS_CRYPT_V2_MAX_METADATA_LEN) as (md0 & -> & Hmd0); [done|]. cbn [mbind outcome_bind].
  pose proof (unwrap_client_key_spec md0 b1 (tw_server_key ctx) k m _ _ _ _ _ Hk Hm Hst Hmac Hb1 Hmd0) as Hun. rewrite Ho in Hun.
  change TLS_CRYPT_V2_MAX_METADATA_LEN with 734 in Hun. rewrite (proj2 (Z.leb_le _ _)) in Hun by lia. destruct Hun as (mb & -> & Hmb). cbn [mbind outcome_bind].
  destruct (buf_len_holds _ _ _ _ Hb1) as [-> _].
  pose proof (buf_inc_len_shrink _ _ _ _ (zlen w) Hb ltac:(rewrite length_app; lia)) as Hsh. rewrite length_app in Hsh.
  replace (Z.to_nat (Z.of_nat (length p + length w) - zlen w)) with (length p) in Hsh by lia. rewrite take_app_length in Hsh.
  assert (Hok : (buf_inc_len buf (- zlen w)).2 = true).
  { unfold buf_inc_len in *. destruct (buf_safe_bidir buf (- zlen w)); [done|]. cbn [negb fst] in Hsh.
    destruct (buf_len_holds _ _ _ _ Hsh) as [_ Hl']. rewrite Hl' in Hl. rewrite length_app in Hl. lia. }
  unfold ASSERT_ok. rewrite Hok. cbn [ASSERT mbind outcome_bind]. by eexists _, mb, _.
Qed.

(** ** Whole control packets *)

(** What [tls_wrap_control] makes of a packet, [read_control_auth] turns back. *)
Lemma wrap_then_read now rnd ctx rctx header sid p' buf hd pt tl now' s :
  wrap_peers ctx rctx -> wrap_ready rctx (sp_seen s) -> is_byte header -> zlen sid = 8 -> Forall is_byte sid -> u32_ok now ->
  has_wkc (Z.shiftr header P_OPCODE_SHIFT) = false ->
  packet_id_send_update now (pid_send (pid_of (tw_opt ctx))) true = (p', true) -> holds buf hd pt tl -> wrap_room ctx hd (zlen pt) ->
  1 < now' -> (tw_mode ctx <> WRAP_NONE -> replay_sim (co_replay (tw_opt rctx)) s /\ spec_accepts now' s (wire_id p' true) = true) ->
  exists ctx' b hd' tl' pkt, tls_wrap_control now rnd ctx header buf sid = Ret (ctx', b) /\ holds b hd' pkt tl' /\ take 9 pkt = header :: sid /\
    forall junk verify rbuf rhd rtl, holds rbuf rhd pkt rtl -> Forall is_byte junk -> zlen pkt + rtl <= zlen junk ->
      exists r rctx' rhd' rtl', read_control_auth now' junk verify rbuf rctx = Ret (r, rctx', true) /\ holds r rhd' pt rtl' /\
        (tw_mode ctx <> WRAP_NONE -> replay_sim (co_replay (tw_opt rctx')) (spec_step now' s (wire_id p' true))).
Proof.
  intros Hp Hr Hh Hsl Hsb Hnow Hnw Hupd Hb Hroom Hnow' Hacc.
  destruct (tls_wrap_control_spec now rnd ctx rctx _ header sid p' buf hd pt tl Hp Hr Hh Hsl Hsb Hnow Hnw Hupd Hb Hroom)
    as (ctx' & b & hd' & tl' & rest & Hw & _ & Hb' & Ho). set (pkt := (header :: sid) ++ rest) in *.
  exists ctx', b, hd', tl', pkt. split_and!; [done|done|apply take_app_length'; cbn [length]; lia|].
  intros junk verify rbuf rhd rtl Hrb Hjb Hjl.
  rewrite (read_control_auth_mode now' junk verify rbuf rctx rhd pkt rtl Hrb ltac:(done) ltac:(unfold pkt; cbn [app]; by rewrite opcode_of_cons)).
  pose proof (read_mode_spec now' junk rbuf rctx _ rhd pkt rtl Hr Hrb ltac:(done) Hjb Hjl) as Hd. rewrite Ho in Hd.
  assert (Hrep : tw_mode ctx <> WRAP_NONE -> wrap_pin ctx p' = Some (wire_id p' true) -> exists ro, check_replay now' (tw_opt rctx) (wire_id p' true) = Ret (set_replay (tw_opt rctx) ro, true) /\
    replay_sim ro (spec_step now' s (wire_id p' true))).
  { intros Ewm Ewp. destruct (Hacc Ewm) as [Hsim Hid]. rewrite Ewp in Ho. destruct (replay_sim_step _ s now' (wire_id p' true) Hsim) as (ro & Hrun & Hsim1).
    - split; [done|]. eapply control_open_pin; [exact Hr| |exact Ho]. by eapply holds_bytes.
    - exists ro. split; [|done]. unfold check_replay. by rewrite Hrun, Hid. }
  unfold wrap_pin in *. destruct (tw_mode ctx) eqn:Em; simpl in Hd;
    [destruct Hd as (r & rhd' & rtl' & -> & Hrh); by exists r, rctx, rhd', rtl'|destruct (Hrep ltac:(done) eq_refl) as (ro & Hchk & Hsim1)..];
    destruct (Hd _ _ Hchk) as (r & rhd' & rtl' & -> & Hrh); by eexists r, _, rhd', rtl'.
Qed.

Lemma header_byte key_id opcode :
  0 <= key_id < 8 -> 0 <= opcode < 32 ->
  let header := u8 (Z.lor key_id (Z.shiftl opcode P_OPCODE_SHIFT)) in is_byte header /\ Z.shiftr header P_OPCODE_SHIFT = opcode.
Proof.
  intros Hk Ho. unfold P_OPCODE_SHIFT. rewrite (lor_field key_id opcode 3) by lia. rewrite u8_small by lia. split; [unfold is_byte; lia|].
  rewrite Z.shiftr_div_pow2 by lia. change (2 ^ 3) with 8. mlia.
Qed.

(** *** One packet, whatever it contains *)

Lemma same_keys_control_open ctx opt' pkt : same_keys (tw_opt ctx) opt' -> control_open (tw_set_opt ctx opt') pkt = control_open ctx pkt.
Proof.
  intros (Hd & Hi & Hf). unfold control_open, v1_open, tls_opened. cbn [tw_set_opt tw_opt tw_mode tw_server_key]. by rewrite Hd, Hi, Hf.
Qed.

Lemma read_any_packet now junk verify buf ctx H hd pkt tl :
  wrap_ready ctx H -> holds buf hd pkt tl -> pkt <> [] -> Forall is_byte junk -> zlen pkt + tl <= zlen junk -> 1 < now ->
  has_wkc (opcode_of pkt) = false \/ kc_cipher (tw_server_key ctx) = None ->
  exists b ctx' ok H', read_control_auth now junk verify buf ctx = Ret (b, ctx', ok) /\ wrap_ready ctx' H' /\
    (forall p, control_open ctx' p = control_open ctx p) /\ tw_server_key ctx' = tw_server_key ctx /\
    (ctx' = ctx \/ exists opt' pin r, check_replay now (tw_opt ctx) pin = Ret (opt', r) /\ ctx' = tw_set_opt ctx opt') /\
    if (ok : bool) then exists pt pin hd' tl', control_open ctx pkt = Some (pt, pin) /\ holds b hd' pt tl' /\
       match pin with None => H' = H | Some pin => (pin ∉ H) /\ H' = pin :: H end
    else H' = H /\ (control_open ctx pkt = None -> ctx' = ctx).
Proof.
  intros Hr Hb Hne Hjb Hjl Hnow Hop. destruct (has_wkc (opcode_of pkt)) eqn:Ew.
  { destruct Hop as [|Hk]; [done|]. unfold read_control_auth, opcode_of in *. rewrite (peek_first _ _ _ _ Hb Hne). cbn [mbind outcome_bind].
    rewrite Ew. unfold tls_crypt_v2_extract_client_key. rewrite Hk. cbn [mbind outcome_bind negb]. exists buf, ctx, false, H. split_and!; auto. }
  rewrite (read_control_auth_mode now junk verify buf ctx hd pkt tl Hb Hne Ew).
  pose proof (read_mode_spec now junk buf ctx H hd pkt tl Hr Hb Hne Hjb Hjl) as Hd.
  destruct (control_open ctx pkt) as [[pt [pin|]]|] eqn:Eo; simpl in Hd.
  - assert (Hm : tw_mode ctx <> WRAP_NONE).
    { intros Em. unfold control_open in Eo. rewrite Em in Eo. by destruct (kc_cipher (tw_server_key ctx)). }
    assert (Ha : arrival_ok (now, pin)) by (split; [done|]; eapply control_open_pin; [done| |done]; by eapply holds_bytes).
    destruct (control_check_step now ctx H pin Hr Hm Ha) as (opt' & ok & Hchk & Hr' & Hnew). specialize (Hd _ _ Hchk).
    pose proof (fun p => same_keys_control_open ctx opt' p (check_replay_keys _ _ _ _ _ Hchk)) as Hsame. destruct ok.
    + destruct Hd as (b & hd' & tl' & -> & Hbh). exists b, (tw_set_opt ctx opt'), true, (pin :: H). split_and!; try done; [right; by eexists _, _, _|].
      exists pt, (Some pin), hd', tl'. split_and!; auto.
    + destruct Hd as (b & ->). exists b, (tw_set_opt ctx opt'), false, H. split_and!; try done. right. by eexists _, _, _.
  - destruct Hd as (b & hd' & tl' & -> & Hbh). exists b, ctx, true, H. split_and!; try done; [by left|]. by exists pt, None, hd', tl'.
  - destruct Hd as (b & ->). exists b, ctx, false, H. split_and!; try done. by left.
Qed.

(** *** Any sequence of packets: the payloads that are accepted *)

Fixpoint control_run (junk : bytes) ctx (arrivals : list (Z * bytes)) : outcome (tls_wrap_ctx * list bytes) :=
  match arrivals with
  | [] => Ret (ctx, [])
  | (now, pkt) :: rest =>
      '(b, ctx, ok) ← read_control_auth now junk None (buf_of pkt) ctx;
      if (ok : bool) then
        d ← buf_bytes b;
        '(ctx, out) ← control_run junk ctx rest;
        Ret (ctx, d :: out)
      else control_run junk ctx rest
  end.

Definition control_packet_ok (junk : bytes) (a : Z * bytes) : Prop :=
  1 < a.1 /\ Forall is_byte a.2 /\ a.2 <> [] /\ zlen a.2 < BUF_SIZE_MAX /\ zlen a.2 <= zlen junk.

Lemma buf_of_bytes_holds d : Forall is_byte d -> zlen d < BUF_SIZE_MAX -> holds (buf_of d) 0 d 0.
Proof. intros Hb Hl. apply buf_of_holds; [by apply all_bytes_complete|lia]. Qed.

(** No packet that claims to bring its key, unless there is no key to open it with. *)
Definition no_client_key ctx (a : Z * bytes) : Prop := has_wkc (opcode_of a.2) = false \/ kc_cipher (tw_server_key ctx) = None.

Lemma control_run_safe junk arrivals : Forall is_byte junk -> forall ctx H,
  wrap_ready ctx H -> Forall (no_client_key ctx) arrivals -> Forall (control_packet_ok junk) arrivals ->
  exists ctx' acc, control_run junk ctx arrivals = Ret (ctx', fst <$> acc) /\ NoDup (omap snd acc) /\
    (forall pin, pin ∈ omap snd acc -> pin ∉ H) /\
    Forall (fun d => exists now pkt, (now, pkt) ∈ arrivals /\ control_open ctx pkt = Some d) acc.
Proof.
  intros Hjb. induction arrivals as [|[now pkt] rest IH]; intros ctx H Hr Hsk Hall.
  { exists ctx, []. split_and!; [done|constructor| |constructor]. intros pin []%elem_of_nil. }
  apply Forall_cons in Hsk as [Hsk1 Hsk]. apply Forall_cons in Hall as [(Hnow & Hb & Hne & Hmax & Hjl) Hall]. cbn [control_run fst snd] in *.
  destruct (read_any_packet now junk None (buf_of pkt) ctx H 0 pkt 0 Hr (buf_of_bytes_holds _ Hb Hmax) Hne Hjb ltac:(lia) Hnow Hsk1)
    as (b & ctx1 & ok & H1 & -> & Hr1 & Hsame & Hskey & _ & Hok). cbn [mbind outcome_bind].
  destruct (IH ctx1 H1 Hr1 ltac:(unfold no_client_key in *; by rewrite Hskey) Hall) as (ctx' & acc & Hrun & Hnd & Hnew & Hacc).
  assert (Hmono : Forall (fun d => exists now0 pkt0, (now0, pkt0) ∈ (now, pkt) :: rest /\ control_open ctx pkt0 = Some d) acc).
  { eapply Forall_impl; [exact Hacc|]. intros d (n & p & Hin & Ho). exists n, p. rewrite <- Hsame. split; [by right|done]. }
  destruct ok.
  - destruct Hok as (pt & pin & hd' & tl' & Ho & Hbh & HH). rewrite (buf_bytes_spec _ _ _ _ Hbh). cbn [mbind outcome_bind]. rewrite Hrun.
    cbn [mbind outcome_bind]. exists ctx', ((pt, pin) :: acc). split; [done|]. destruct pin as [pin|]; cbn [omap list_omap snd].
    + destruct HH as [Hp ->]. split_and!; [constructor; [|done]| |].
      * intros Hin. apply (Hnew _ Hin). by left.
      * intros q [->|Hin]%elem_of_cons; [done|]. intros Hq. apply (Hnew _ Hin). by right.
      * constructor; [|done]. exists now, pkt. split; [by left|done].
    + subst H1. split_and!; [done|done|]. constructor; [|done]. exists now, pkt. split; [by left|done].
  - rewrite Hrun. destruct Hok as [-> _]. by exists ctx', acc.
Qed.

(** ** Properties *)

(** C16. Receiving control packets, any sequence of them in which, at a server with
    a tls-crypt-v2 key, none claims to bring a client key: no assertion fires and
    no memory is touched out of bounds; every accepted payload is what a packet
    of the sequence contains for the holder of the keys, and no packet id is
    accepted twice. *)
Theorem control_read_any_sequence junk ctx arrivals :
  Forall is_byte junk -> wrap_ready ctx [] -> Forall (no_client_key ctx) arrivals -> Forall (control_packet_ok junk) arrivals ->
  exists ctx' acc, control_run junk ctx arrivals = Ret (ctx', fst <$> acc) /\ NoDup (omap snd acc) /\
    Forall (fun d => exists now pkt, (now, pkt) ∈ arrivals /\ control_open ctx pkt = Some d) acc.
Proof.
  intros Hjb Hr Hsk Hall. destruct (control_run_safe junk arrivals Hjb ctx [] Hr Hsk Hall) as (ctx' & acc & Hrun & Hnd & _ & Hacc). eauto.
Qed.

(** The first packet of a session, as a server without state sees it: the call
    returns, and a verdict other than invalid means that the packet opens with
    the keys, carries a session id other than zero and key id 0; the copy in the
    state holds the payload. *)
Theorem first_packet_checked now junk clone tas state buf H hd pkt tl :
  wrap_ready tas H -> holds buf hd pkt tl -> Forall is_byte junk -> zlen pkt + tl <= zlen junk -> 1 < now ->
  Forall is_byte clone -> zlen clone = bcapacity buf -> has_wkc (opcode_of pkt) = false \/ kc_cipher (tw_server_key tas) = None ->
  exists state' v, tls_pre_decrypt_lite now junk clone tas state buf = Ret (state', v) /\
    (v <> VERDICT_INVALID -> exists pt pin hd' tl', control_open tas pkt = Some (pt, pin) /\ holds (ps_newbuf state') hd' pt tl' /\
       ps_peer_session_id state' = slice pkt 1 8 /\ session_id_defined (slice pkt 1 8) = true /\ Z.land (be_val (take 1 pkt)) P_KEY_ID_MASK = 0 /\
       match pin with None => True | Some pin => pin ∉ H end).
Proof.
  intros Hr Hb Hjb Hjl Hnow Hcb Hcl Hop. unfold tls_pre_decrypt_lite. change (1 + SID_SIZE) with 9. destruct (buf_len_holds _ _ _ _ Hb) as [_ ->].
  destruct (zlen pkt <? 9) eqn:E9; [by eexists _, _|]. assert (Hne : pkt <> []) by (intros ->; simpl in E9; lia).
  rewrite (peek_first _ _ _ _ Hb Hne). cbn [mbind outcome_bind]. fold (opcode_of pkt).
  destruct (negb (bool_decide _)); [by eexists _, _|]. destruct (negb (_ =? 0)) eqn:Ek; [by eexists _, _|].
  destruct (behind_advance _ _ _ _ _ 1 (holds_behind _ _ _ _ Hb) ltac:(lia)) as (b1 & E1 & _ & Hb1). rewrite E1. apply behind_holds in Hb1.
  unfold session_id_read. change SID_SIZE with 8. cbn [fst].
  destruct (buf_read_spec _ _ _ _ 8 Hb1) as (b2 & -> & _); [rewrite length_drop; lia|]. cbn [mbind outcome_bind].
  change (take (Z.to_nat 8) (drop (Z.to_nat 1) pkt)) with (slice pkt 1 8).
  destruct (session_id_defined (slice pkt 1 8)) eqn:Es; cbn [negb]; [|by eexists _, _].
  pose proof Hb as (blk & Hok & Hoff & Hcont & Hcap). destruct (clone_buf_ok clone buf blk Hok Hcl Hcb) as (nb & -> & Hnb). cbn [mbind outcome_bind].
  rewrite Hoff, Hcont in Hnb.
  destruct (read_any_packet now junk None nb tas H hd pkt _ Hr Hnb Hne Hjb ltac:(lia) Hnow Hop) as (r & ctx' & ok & H' & -> & _ & _ & _ & _ & Hres).
  cbn [mbind outcome_bind]. eexists _, _. split; [done|]. destruct ok; cbn [negb]; [|done]. intros _.
  destruct Hres as (pt & pin & hd' & tl' & Ho & Hh & HH). exists pt, pin, hd', tl'. split_and!; try done; [lia|]. destruct pin; [by destruct HH|done].
Qed.

(** C15. Round trip of whole control packets without an appended client key,
    without protection, with tls-auth and with tls-crypt: the packet starts with
    opcode, key id and session id; if, in the protected modes, the replay window
    of the peer accepts its packet id, the peer authenticates it and finds the
    acknowledgements and the payload; every pending acknowledgement is either
    still pending or with the peer. *)
Theorem control_packet_roundtrip now rnd ses key_id rctx a mru remote buf hd c tl opcode max p' now' s a0 :
  let ctx := tls_session_get_tls_wrap ses key_id in
  wrap_peers ctx rctx -> wrap_ready rctx (sp_seen s) -> 0 <= key_id < 8 -> 0 <= opcode < 32 -> has_wkc opcode = false ->
  zlen (s_session_id ses) = 8 -> Forall is_byte (s_session_id ses) -> u32_ok now ->
  packet_id_send_update now (pid_send (pid_of (tw_opt ctx))) true = (p', true) ->
  ack_wf a -> ack_wf mru -> ack_wf a0 -> NoDup (ids a) -> NoDup (ids mru) -> Forall (λ x, 0 <= x < 2 ^ 32) (ids a ++ ids mru) ->
  0 <= max < 256 -> sid_ok remote -> holds buf hd c tl -> ACK_SIZE RELIABLE_ACK_SIZE + 81 <= hd ->
  (tw_mode ctx = WRAP_CRYPT -> (exists blk, buf_ok (tw_work ctx) blk) /\ hd + zlen c + 65 <= bcapacity (tw_work ctx)) ->
  1 < now' -> (tw_mode ctx <> WRAP_NONE -> replay_sim (co_replay (tw_opt rctx)) s /\ spec_accepts now' s (wire_id p' true) = true) ->
  exists ses' a' mru' b hd' tl' pkt,
    write_control_auth now rnd ses key_id a mru remote true buf opcode max true = Ret (ses', a', mru', b) /\ holds b hd' pkt tl' /\
    take 9 pkt = u8 (Z.lor key_id (Z.shiftl opcode P_OPCODE_SHIFT)) :: s_session_id ses /\
    forall junk verify rbuf rhd rtl, holds rbuf rhd pkt rtl -> Forall is_byte junk -> zlen pkt + rtl <= zlen junk ->
      exists r rctx' r' got sid, read_control_auth now' junk verify rbuf rctx = Ret (r, rctx', true) /\
        reliable_ack_parse r a0 remote = Ret (r', got, sid, true) /\ sid = remote /\ content r' = c /\
        (forall x, x ∈ ids a -> x ∈ ids a' \/ x ∈ ids got) /\ (forall x, x ∈ ids got -> x ∈ ids a \/ x ∈ ids mru).
Proof.
  intros ctx Hp Hr Hk Hop Hnw Hsl Hsb Hnow Hupd Ha Hm Ha0 Hnda Hndm Hrng Hmax Hsid Hb Hfit Hwork Hnow' Hacc.
  destruct (header_byte key_id opcode Hk Hop) as [Hhb Hho]. unfold write_control_auth. set (header := u8 _) in *.
  set (max' := if bool_decide (tw_mode (s_tls_wrap ses) = WRAP_NONE) && negb (s_server ses) && negb (s_key_export ses) then min_int max 4 else max).
  assert (Hmax' : 0 <= max' < 256) by (unfold max', min_int; destruct (_ && _); [destruct (_ <? _) eqn:E|]; lia). clearbody max'.
  pose proof (zlen_ack_sent a mru max' Hm) as Hsl'. set (sz := ACK_SIZE (zlen (ack_sent a mru max'))).
  assert (HS : 0 <= sz <= ACK_SIZE RELIABLE_ACK_SIZE).
  { unfold sz, ACK_SIZE, SID_SIZE, RELIABLE_ACK_SIZE. simpl. destruct (_ =? 0); lia. }
  destruct (reliable_ack_write_spec a mru buf hd tl c remote max' true Ha Hm Hndm Hmax' Hb Hsid) as (a' & mru' & b1 & -> & _ & Hia & _ & _ & _ & Hb1);
    [unfold sz in HS; lia|]. fold sz in Hb1. cbn [ASSERT mbind outcome_bind].
  pose proof (holds_bounds _ _ _ _ Hb) as (_ & _ & _ & _ & Hcap & _). pose proof (holds_bounds _ _ _ _ Hb1) as (_ & _ & _ & _ & Hcap1 & _).
  set (rcd := ack_record (ack_sent a mru max') remote) in *. assert (Hrl : zlen rcd = sz).
  { unfold rcd, sz. by apply zlen_ack_record, Hsid. }
  assert (Hroom : wrap_room ctx (hd - sz) (zlen (rcd ++ c))).
  { unfold wrap_room. destruct (tw_mode ctx) eqn:Em; [lia| |].
    - destruct Hp as [_ Hp]. rewrite Em in Hp. destruct Hp as (He & _ & (m & Hmm) & _). rewrite Hmm. destruct (er_hmac _ He m Hmm) as [Hms _].
      unfold mac_size, MAX_HMAC_KEY_LENGTH in *. lia.
    - destruct (Hwork eq_refl) as [Hblk Hc]. split; [done|]. unfold tls_crypt_buf_overhead, TLS_CRYPT_TAG_SIZE, TLS_CRYPT_BLOCK_SIZE.
      change (packet_id_size true) with 8. rewrite length_app. lia. }
  destruct (wrap_then_read now rnd ctx rctx header (s_session_id ses) p' b1 (hd - sz) (rcd ++ c) tl now' s Hp Hr Hhb Hsl Hsb Hnow
              ltac:(by rewrite Hho) Hupd Hb1 Hroom Hnow' Hacc) as (ctx' & b & hd' & tl' & pkt & Hw & Hbh & H9 & Hread).
  fold ctx. rewrite Hw. cbn [mbind outcome_bind]. eexists _, a', mru', b, hd', tl', pkt. split; [done|]. split; [done|]. split; [done|].
  intros junk verify rbuf rhd rtl Hrb Hjb Hjl. destruct (Hread junk verify rbuf rhd rtl Hrb Hjb Hjl) as (r & rctx' & rhd' & rtl' & Hrd & Hrh & _).
  destruct (reliable_ack_parse_record a0 r rhd' (ack_sent a mru max') remote remote c rtl' Ha0 Hsl') as (r' & got & Hpr & _ & Hig & Hr'); [|done|exact Hrh|].
  { apply Forall_forall. intros x Hx%elem_of_ack_sent. rewrite Forall_forall in Hrng. apply Hrng. set_solver. }
  exists r, rctx', r', got, remote. split; [done|]. split; [by destruct (zlen (ack_sent a mru max') =? 0)|]. split; [done|].
  split; [by destruct Hr' as (? & ? & ? & ? & ?)|]. rewrite Hia, Hig. split.
  - intros x Hx. destruct (ack_sent_covers a mru max' Ha Hmax' Hnda) as (rest & ->).
    rewrite <- (take_drop (Z.to_nat (ack_n a max')) (ids a)) in Hx. set_solver.
  - intros x Hx. by eapply elem_of_ack_sent.
Qed.

(** C17. tls-crypt-v2: a client that starts a session sends its wrapped key along; a
    server that knows only the server key takes the client key out of the
    packet, unwraps it, and with it the payload, provided the metadata script,
    if there is one, agrees and the server either ignores packet ids, as it does
    before it keeps state, or its window accepts this one. *)
Theorem tls_crypt_v2_first_packet now rnd verify ctx rctx header sid p' buf hd pt tl wb hdk wkc tlk sk sm keys md now' s :
  key_init_ok -> tw_mode ctx = WRAP_CRYPT -> (co_encrypt (tw_opt ctx), co_decrypt (tw_opt ctx)) = tls_crypt_v2_load_client_key keys false ->
  packet_id_initialized (pid_of (tw_opt ctx)) = true -> send_ok (pid_send (pid_of (tw_opt ctx))) -> u32_ok now ->
  packet_id_send_update now (pid_send (pid_of (tw_opt ctx))) true = (p', true) ->
  is_byte header -> has_wkc (Z.shiftr header P_OPCODE_SHIFT) = true -> zlen sid = 8 -> Forall is_byte sid ->
  holds buf hd pt tl -> tw_wkc ctx = Some wb -> holds wb hdk wkc tlk -> wrap_room ctx hd (zlen pt + zlen wkc) ->
  kc_cipher (tw_server_key rctx) = Some sk -> kc_hmac (tw_server_key rctx) = Some sm -> stream_cipher sk -> (forall d, zlen (hmac_ctx_digest sm d) = 32) ->
  wkc_open sk sm wkc = Some (keys, md) -> zlen md <= 734 -> default true verify = true ->
  replay_sim (co_replay (tw_opt rctx)) s -> 1 < now' ->
  co_ignore_packet_id (tw_opt rctx) = true \/ spec_accepts now' s (wire_id p' true) = true ->
  exists ctx' b hd' tl' pkt, tls_wrap_control now rnd ctx header buf sid = Ret (ctx', b) /\ holds b hd' pkt tl' /\
    forall junk rbuf rhd rtl, holds rbuf rhd pkt rtl -> Forall is_byte junk -> zlen pkt + rtl <= zlen junk ->
      exists r rctx' rhd' rtl' mtl, read_control_auth now' junk verify rbuf rctx = Ret (r, rctx', true) /\ holds r rhd' pt rtl' /\
        tw_mode rctx' = WRAP_CRYPT /\ tw_keydata rctx' = keys /\ holds (tw_metadata rctx') 0 md mtl.
Proof.
  intros [Hks Hkp Hksz Hkm] Em Hload Hpid Hsend Hnow Hupd Hh Hw Hsl Hsb Hb Hwb Hwkc Hroom Hsk Hsm Hst Hsmac Hopen Hmd Hver Hsim Hnow' Hacc.
  unfold tls_crypt_v2_load_client_key, init_key_ctx_bi, key_direction_state_init in Hload. injection Hload as Henc _.
  set (ek := cipher_ctx_init (take 64 (slice keys 128 128)) true : K). set (dk := cipher_ctx_init (take 64 (slice keys 128 128)) false : K).
  set (m := hmac_ctx_init (drop 64 (slice keys 128 128)) : M).
  assert (Hts : tls_send (tw_opt ctx) ek m) by (split; [done|done|by rewrite Henc|by rewrite Henc|apply Hks|apply Hksz|intros; apply Hkm]).
  destruct (wrap_crypt_spec now rnd ctx ek dk m m header sid p' buf hd pt tl hdk wkc tlk Hts (Hkp _) ltac:(done) Em Hh Hsl Hsb Hnow Hupd Hb Hroom)
    as (ctx' & b & rest & tl' & Hwr & _ & _ & Hb' & Ho & Hpin); [rewrite Hw; by exists wb|].
  eexists ctx', b, hd, tl', _. split; [done|]. split; [exact Hb'|]. intros junk rbuf rhd rtl Hrb Hjb Hjl.
  unfold read_control_auth. rewrite (peek_first _ _ _ _ Hrb ltac:(done)). cbn [mbind outcome_bind].
  assert (Hop : has_wkc (Z.shiftr (be_val (take 1 (((header :: sid) ++ rest) ++ wkc))) P_OPCODE_SHIFT) = true).
  { cbn [app take]. rewrite be_val_1. done. }
  rewrite Hop. set (pkt := (header :: sid) ++ rest) in *.
  destruct (extract_client_key_spec verify rbuf rctx sk sm rhd pkt wkc rtl keys md Hsk Hsm Hst Hsmac Hrb Hopen Hmd) as (b1 & mb & mtl & -> & Hb1 & Hmb).
  rewrite Hver. cbn [mbind outcome_bind negb]. set (sctx := mkwrap _ _ _ _ _ _ _). rewrite length_app in Hjl.
  assert (Hready : wrap_ready sctx (sp_seen s)).
  { exists dk, m. split; [exact (rs_inv _ _ Hsim)|done|done|apply Hks|intros d; apply Hkm]. }
  pose proof (read_mode_spec now' junk b1 sctx _ rhd pkt _ Hready Hb1 ltac:(done) Hjb ltac:(lia)) as Hd.
  assert (Hco : control_open sctx pkt = Some (pt, if co_ignore_packet_id (tw_opt rctx) then None else Some (wire_id p' true))).
  { change (control_open sctx pkt) with (tls_opened (tw_opt sctx) dk m pkt). unfold tls_opened. rewrite Ho. cbn [mbind option_bind].
    change (co_ignore_packet_id (tw_opt sctx)) with (co_ignore_packet_id (tw_opt rctx)). by rewrite Hpin. }
  rewrite Hco in Hd. destruct (co_ignore_packet_id (tw_opt rctx)) eqn:Eign.
  { destruct Hd as (r & rhd' & rtl' & -> & Hrh). by eexists r, _, rhd', rtl', mtl. }
  destruct Hacc as [|Hacc]; [done|]. destruct (replay_sim_step (co_replay (tw_opt sctx)) s now' (wire_id p' true) Hsim) as (ro & Hrun & _).
  { split; [done|]. eapply control_open_pin; [exact Hready| |exact Hco]. by eapply holds_bytes. }
  destruct (Hd (set_replay (tw_opt sctx) ro) true) as (r & rhd' & rtl' & -> & Hrh).
  { unfold check_replay. by rewrite Hrun, Hacc. }
  by eexists r, _, rhd', rtl', mtl.
Qed.


(** The session id cookie of a server (finding): [memcmp_constant_time] is 0 for
    equal ids, so the check accepts an id as soon as it differs from one of the
    four cookies it computes; an id that is no cookie at all is accepted. *)
Theorem session_id_cookie_inverted now ack state from hmac handwindow hd l sid c tl :
  ack_wf ack -> 0 < zlen l <= 8 -> Forall (λ x, 0 <= x < 2 ^ 32) l -> sid_ok sid -> holds (ps_newbuf state) hd (ack_record l sid ++ c) tl ->
  (forall d, zlen (hmac_ctx_digest hmac d) = 32) -> 0 < handwindow ->
  exists state' ok, check_session_id_hmac now ack state (Some from) hmac handwindow = Ret (state', ok) /\ ps_server_session_id state' = sid /\
    (ok = true <-> exists offset, offset ∈ [-2; -1; 0; 1] /\
       calculate_session_id_hmac now (ps_peer_session_id state) from hmac handwindow offset <> Ret sid).
Proof.
  intros Hack Hl Hr Hsid Hb Hmac Hwin. unfold check_session_id_hmac.
  assert (Hq : ((handwindow + 1) ÷ 2 =? 0) = false) by (apply Z.eqb_neq; pose proof (Z.quot_le_mono 2 (handwindow + 1) 2); change (2 ÷ 2) with 1 in *; lia).
  destruct (reliable_ack_parse_record ack _ _ l (ps_server_session_id state) sid c tl Hack ltac:(lia) Hr Hsid Hb) as (b' & a' & -> & _).
  rewrite (proj2 (Z.eqb_neq _ _)) by lia. cbn [mbind outcome_bind negb]. set (st := mkpre _ _ _ _).
  assert (Hchk : forall offs, exists ok, check_offsets offs now st from hmac handwindow = Ret ok /\
    (ok = true <-> exists offset, offset ∈ offs /\ calculate_session_id_hmac now (ps_peer_session_id state) from hmac handwindow offset <> Ret sid)).
  { induction offs as [|o offs IH]; cbn [check_offsets].
    - exists false. split; [done|]. split; [done|]. intros (x & Hx%elem_of_nil & _). done.
    - unfold calculate_session_id_hmac at 1. rewrite Hq, mem_write_Ret by (rewrite ?length_replicate, ?Hmac; unfold SHA256_DIGEST_LENGTH; lia).
      cbn [mbind outcome_bind]. cbn [ps_peer_session_id ps_server_session_id st].
      set (e := take (Z.to_nat SID_SIZE) _).
      assert (He : calculate_session_id_hmac now (ps_peer_session_id state) from hmac handwindow o = Ret e).
      { unfold calculate_session_id_hmac. rewrite Hq, mem_write_Ret by (rewrite ?length_replicate, ?Hmac; unfold SHA256_DIGEST_LENGTH; lia). done. }
      unfold memcmp_constant_time. destruct (decide (e = sid)) as [E|E]; cbn [Z.eqb negb].
      + destruct IH as (ok & -> & IH). exists ok. split; [done|]. rewrite IH. split.
        * intros (x & Hx & Hne). exists x. split; [by right|done].
        * intros (x & [->|Hx]%elem_of_cons & Hne); [congruence|eauto].
      + exists true. split; [done|]. split; [|done]. intros _. exists o. split; [by left|]. rewrite He. congruence. }
  destruct (Hchk [-2; -1; 0; 1]) as (ok & -> & Hiff). cbn [mbind outcome_bind]. by exists st, ok.
Qed.

End control_wrap.

(** ** A client and a server *)

#[global] Instance sum_key_init : KeyInit shift_key Z := {|
  cipher_ctx_init key enc := ctr_key (byte_sum key) enc;
  hmac_ctx_init key := byte_sum key
|}.

Lemma sum_key_init_ok : @key_init_ok shift_key Z _ _ _.
Proof. split; intros; [apply ctr_stream|apply ctr_pair|done|apply sum_hmac_32]. Qed.

Definition demo_opt (cipher : bool) : co shift_key Z :=
  mkco (mkkey (if cipher then Some (ctr_key 7 true) else None) (Some 99) []) (mkkey (if cipher then Some (ctr_key 7 false) else None) (Some 99) [])
    (mkopt (demo_pid 64 15) None true) false.
Definition demo_wkc : bytes :=
  match tls_crypt_v2_wrap_client_key (replicate 1040 9) demo_rwork demo_keys (buf_of [1; 5]) (demo_server_key true) with
  | Ret (b, _) => content b
  | _ => []
  end.
Definition demo_big : buffer := mkbuf 900 0 0 (Some (replicate 900 0)).
Definition demo_ctx (mode : wrap_mode) : tls_wrap_ctx :=
  mkwrap mode (demo_opt (bool_decide (mode = WRAP_CRYPT))) demo_big (mkkey None None []) (Some (buf_of demo_wkc)) clear_buf [].
Definition demo_client : tls_wrap_ctx :=
  let '(enc, dec) := tls_crypt_v2_load_client_key demo_keys false in
  mkwrap WRAP_CRYPT (mkco enc dec (mkopt (demo_pid 64 15) None true) false) demo_big (mkkey None None []) (Some (buf_of demo_wkc)) clear_buf [].
Definition demo_server : tls_wrap_ctx :=
  mkwrap WRAP_NONE (demo_opt false) demo_big (demo_server_key false) None clear_buf [].
Definition demo_sid : bytes := [1; 2; 3; 4; 5; 6; 7; 8].

Lemma demo_rec_inv : rec_inv (pid_rec (demo_pid 64 15)) [].
Proof.
  destruct (packet_id_init_inv 64 15) as (pid & Hp & Hinv & _); [vm_compute; split; congruence..|].
  assert (pid = demo_pid 64 15) as -> by (injection Hp as <-; done). done.
Qed.

Lemma demo_replay_sim per lf : replay_sim (mkopt (demo_pid 64 15) per lf) (spec_init 64 15).
Proof.
  destruct (init_sim 64 15) as (pid & Hp & Hsim); [vm_compute; split; congruence..|].
  assert (pid = demo_pid 64 15) as -> by (injection Hp as <-; done). exact Hsim.
Qed.

Lemma demo_hmac_ok : forall m, Some 99 = Some m -> 0 <= hmac_ctx_size m <= MAX_HMAC_KEY_LENGTH /\
  forall d, zlen (hmac_ctx_digest m d) = hmac_ctx_size m /\ Forall is_byte (hmac_ctx_digest m d).
Proof. intros m _. split; [unfold MAX_HMAC_KEY_LENGTH; simpl; lia|]. intros d. apply (sum_hmac_32 m d). Qed.

Lemma demo_wrap_ready mode : wrap_ready (demo_ctx mode) [].
Proof.
  destruct mode; [done| |].
  - split; [|by split; [|split; [|eexists]]]. split; [apply demo_rec_inv|done|constructor|].
    destruct (demo_hmac_ok 99 eq_refl) as [Hs Hd]. split; [done|]. intros d. apply Hd.
  - exists (ctr_key 7 false), 99. split; [apply demo_rec_inv|done|done|apply ctr_stream|]. intros d. apply (sum_hmac_32 99 d).
Qed.

Lemma demo_peers mode : wrap_peers (demo_ctx mode) (demo_ctx mode).
Proof.
  split; [done|]. destruct mode; [done| |]; simpl.
  - split; [split; [done|by split|constructor|done|apply demo_hmac_ok]|]. split; [done|]. split; [by eexists|]. done.
  - exists (ctr_key 7 true), (ctr_key 7 false), 99, 99. split; [split; try done; [apply ctr_stream|apply sum_hmac_32]|].
    split; [done|]. split; [done|]. split; [apply ctr_pair|]. done.
Qed.

Lemma demo_big_ok : buf_ok demo_big (replicate 900 0).
Proof. by apply demo_buf_ok. Qed.

Definition demo_session (mode : wrap_mode) : tls_session := mksession (demo_ctx mode) (demo_ctx WRAP_NONE) demo_sid false false.

(** The packet a session writes, with the acknowledgements 3 and 4. *)
Definition demo_control (mode : wrap_mode) : bytes :=
  match write_control_auth 1000 [] (demo_session mode) 0 (demo_ack [3; 4]) (demo_ack [2]) demo_sid true (ReliableAck.demo_buf 400 200 [7; 7]) 4 4 true with
  | Ret (_, _, _, b) => content b
  | _ => []
  end.

Lemma control_packet_roundtrip_witness :
  exists ses' a' mru' b r rctx' r' got sid,
    write_control_auth 1000 [] (demo_session WRAP_AUTH) 0 (demo_ack [3; 4]) (demo_ack [2]) demo_sid true (ReliableAck.demo_buf 400 200 [7; 7]) 4 4 true
      = Ret (ses', a', mru', b) /\
    read_control_auth 1001 (replicate 900 0) None (buf_of (content b)) (demo_ctx WRAP_AUTH) = Ret (r, rctx', true) /\
    reliable_ack_parse r ack_clear demo_sid = Ret (r', got, sid, true) /\ content r' = [7; 7].
Proof.
  destruct (control_packet_roundtrip 1000 [] (demo_session WRAP_AUTH) 0 (demo_ctx WRAP_AUTH) (demo_ack [3; 4]) (demo_ack [2]) demo_sid
    (ReliableAck.demo_buf 400 200 [7; 7]) 200 [7; 7] 198 4 4 (mksend 1 1000) 1001 (spec_init 64 15) ack_clear)
    as (ses' & a' & mru' & b & hd' & tl' & pkt & Hw & Hb & _ & Hread).
  - apply demo_peers.
  - apply demo_wrap_ready.
  - lia.
  - lia.
  - done.
  - done.
  - by apply all_bytes_spec.
  - unfold u32_ok. lia.
  - done.
  - by split.
  - by split.
  - by split.
  - by apply (bool_decide_unpack _); vm_compute.
  - by apply (bool_decide_unpack _); vm_compute.
  - simpl. repeat constructor; lia.
  - lia.
  - split_and!; [done| |done]. by apply all_bytes_spec.
  - eapply holds_intro; [by apply demo_buf_ok|done|done|done].
  - vm_compute. congruence.
  - done.
  - lia.
  - intros _. split; [apply demo_replay_sim|by vm_compute].
  - assert (Hc : content b = pkt) by (by destruct Hb as (? & ? & ? & ? & ?)).
    assert (Hd : demo_control WRAP_AUTH = pkt) by (unfold demo_control; rewrite Hw; exact Hc).
    destruct (Hread (replicate 900 0) None (buf_of pkt) 0 0) as (r & rctx' & r' & got & sid & Hrd & Hp & _ & Hcont & _).
    + rewrite <- Hd. by apply buf_of_holds.
    + by apply all_bytes_spec.
    + rewrite <- Hd. vm_compute. congruence.
    + exists ses', a', mru', b, r, rctx', r', got, sid. split; [exact Hw|]. split; [rewrite Hc; exact Hrd|]. split; [exact Hp|exact Hcont].
Defined.

Definition control_packet_okb (junk : bytes) (a : Z * bytes) : bool :=
  (1 <? a.1) && all_bytes a.2 && (1 <=? zlen a.2) && (zlen a.2 <? BUF_SIZE_MAX) && (zlen a.2 <=? zlen junk).

Lemma control_packets_complete junk l : forallb (control_packet_okb junk) l = true -> Forall (control_packet_ok junk) l.
Proof.
  rewrite forallb_forall. intros H. apply Forall_forall. intros [now d] Hx%list_elem_of_In%H. unfold control_packet_okb in Hx.
  unfold control_packet_ok. simpl in *. rewrite !andb_true_iff in Hx. destruct Hx as [[[[? ?] ?] ?] ?].
  split_and!; [lia|by apply all_bytes_spec| |lia|lia]. by intros ->.
Qed.

Lemma control_read_any_sequence_witness :
  exists ctx' acc, control_run (replicate 900 0) (demo_ctx WRAP_CRYPT) [(1001, demo_control WRAP_CRYPT); (1001, [32; 1]); (1002, demo_control WRAP_CRYPT)]
      = Ret (ctx', (fst <$> acc : list bytes)) /\ NoDup (omap snd (acc : list (bytes * option packet_id_net))).
Proof.
  destruct (control_read_any_sequence (replicate 900 0) (demo_ctx WRAP_CRYPT) [(1001, demo_control WRAP_CRYPT); (1001, [32; 1]); (1002, demo_control WRAP_CRYPT)])
    as (ctx' & acc & Hrun & Hnd & _).
  - by apply all_bytes_spec.
  - apply demo_wrap_ready.
  - repeat constructor; by right.
  - apply control_packets_complete. vm_compute. reflexivity.
  - exists ctx', acc. exact (conj Hrun Hnd).
Defined.

Lemma first_packet_checked_witness :
  exists state' v, tls_pre_decrypt_lite 1001 (replicate 900 0) (replicate (length (demo_control WRAP_AUTH)) 3) (demo_ctx WRAP_AUTH)
    (mkpre None clear_buf [] []) (buf_of (demo_control WRAP_AUTH)) = Ret (state', v).
Proof.
  destruct (first_packet_checked 1001 (replicate 900 0) (replicate (length (demo_control WRAP_AUTH)) 3) (demo_ctx WRAP_AUTH)
    (mkpre None clear_buf [] []) (buf_of (demo_control WRAP_AUTH)) [] 0 (demo_control WRAP_AUTH) 0) as (state' & v & Hrun & _).
  - apply demo_wrap_ready.
  - by apply buf_of_holds.
  - by apply all_bytes_spec.
  - vm_compute. congruence.
  - lia.
  - by apply all_bytes_spec.
  - by vm_compute.
  - by right.
  - exists state', v. exact Hrun.
Defined.

Lemma tls_crypt_v2_first_packet_witness :
  exists ctx' b hd' tl' pkt, tls_wrap_control 1000 [] demo_client 80 (ReliableAck.demo_buf 400 200 [7; 7]) demo_sid = Ret (ctx', b) /\ holds b hd' pkt tl' /\
    forall junk rbuf rhd rtl, holds rbuf rhd pkt rtl -> Forall is_byte junk -> zlen pkt + rtl <= zlen junk ->
      exists r rctx' rhd' rtl' mtl, read_control_auth 1001 junk (Some true) rbuf demo_server = Ret (r, rctx', true) /\ holds r rhd' [7; 7] rtl' /\
        tw_mode rctx' = WRAP_CRYPT /\ tw_keydata rctx' = demo_keys /\ holds (tw_metadata rctx') 0 [1; 5] mtl.
Proof.
  apply (tls_crypt_v2_first_packet 1000 [] (Some true) demo_client demo_server 80 demo_sid (mksend 1 1000) (ReliableAck.demo_buf 400 200 [7; 7]) 200 [7; 7] 198
    (buf_of demo_wkc) 0 demo_wkc 0 (ctr_key 11 false) 42 demo_keys [1; 5] 1001 (spec_init 64 15)).
  - apply sum_key_init_ok.
  - done.
  - done.
  - done.
  - by split.
  - unfold u32_ok. lia.
  - done.
  - unfold is_byte. lia.
  - done.
  - done.
  - by apply all_bytes_spec.
  - eapply holds_intro; [by apply demo_buf_ok|done|done|done].
  - done.
  - by apply buf_of_holds.
  - split; [exists (replicate 900 0); apply demo_big_ok|]. vm_compute. congruence.
  - done.
  - done.
  - apply ctr_stream.
  - intros d. apply (sum_hmac_32 42 d).
  - by vm_compute.
  - simpl. lia.
  - done.
  - apply demo_replay_sim.
  - lia.
  - right. by vm_compute.
Defined.

(** A server whose HMAC starts the tag of this key with 80, the opcode of a packet
    with a key, and key id 0. *)
Definition unlucky_mac : Z := 80 * 256 ^ 31 + 7 * 256 ^ 28.
Definition unlucky_server : tls_wrap_ctx :=
  mkwrap WRAP_NONE (demo_opt false) demo_big (mkkey (Some (ctr_key 11 false)) (Some unlucky_mac) []) None clear_buf [].
Definition unlucky_wkc : bytes :=
  match tls_crypt_v2_wrap_client_key (replicate 1040 9) demo_rwork demo_keys (buf_of [1; 5]) (mkkey (Some (ctr_key 11 true)) (Some unlucky_mac) []) with
  | Ret (b, _) => content b
  | _ => []
  end.


Definition demo_pre : @tls_pre_decrypt_state shift_key Z := mkpre None (buf_of (ack_record [0] demo_sid)) demo_sid [].

(** A session id that is no cookie, in an acknowledgement of packet 0. *)
Lemma session_id_cookie_inverted_witness :
  exists state' ok, check_session_id_hmac 1000 ack_clear demo_pre (Some (AF_INET [9; 9])) 42 60 = Ret (state', ok) /\
    ps_server_session_id state' = demo_sid /\
    (ok = true <-> exists offset, offset ∈ [-2; -1; 0; 1] /\ calculate_session_id_hmac 1000 demo_sid (AF_INET [9; 9]) 42 60 offset <> Ret demo_sid).
Proof.
  apply (session_id_cookie_inverted 1000 ack_clear demo_pre (AF_INET [9; 9]) 42 60 0 [0] demo_sid [] 0).
  - by split.
  - simpl. lia.
  - repeat constructor; lia.
  - split_and!; [done| |done]. by apply all_bytes_spec.
  - by apply buf_of_holds.
  - intros d. apply (sum_hmac_32 42 d).
  - lia.
Defined.
