(* ===== verification/KeyExchange.v ===== *)
(** * Key exchange over the control channel (openvpn ssl.c, crypto.c)

    Key method 2: each end sends random material, its options, user name and
    password and what it knows of itself over the TLS channel
    ([key_method_2_write]) and takes the other's ([key_method_2_read]); both then
    derive the data channel keys ([generate_key_expansion]), with the PRF of TLS
    1.0 or the exporter of the TLS library.

    Parameters: the PRF, the exported key material, and in [auth_env] the
    results of scripts, plugins and the management interface that decide about
    user name and password.  Texts are C strings without the final NUL.  The
    negotiation of point-to-point options ([p2p_mode_ncp]) and environment
    variables for scripts are left out. *)

From S2P Require Import Prelude Buffer CircList PacketId DataChannel DataTunnel TlsCrypt Reliable ReliableAck ReliableStore ControlChannel ControlWrap.
From stdpp Require Import prelude.
From Stdlib Require Import ZArith Lia ZifyBool.
From Stdlib Require Import String Ascii.

Local Open Scope Z_scope.

Definition text (s : string) : bytes := List.map (fun c => Z.of_N (N_of_ascii c)) (list_ascii_of_string s).

Definition KEY_METHOD_2 : Z := 2.
Definition KEY_METHOD_MASK : Z := 15.
Definition TLS_OPTIONS_LEN : Z := 512.
Definition USER_PASS_LEN : Z := 128.

(** ** Key material *)

Record key_source := mksrc { src_pre_master : bytes; src_random1 : bytes; src_random2 : bytes }.
Record key_source2 := mksrc2 { src_client : key_source; src_server : key_source }.

Definition src_clear : key_source := mksrc (replicate 48 0) (replicate 32 0) (replicate 32 0).
Definition src2_clear : key_source2 := mksrc2 src_clear src_clear.
Definition set_source (k2 : key_source2) (server : bool) (k : key_source) : key_source2 :=
  if server then mksrc2 (src_client k2) k else mksrc2 k (src_server k2).

(** [rnd] is what [rand_bytes] returns. *)
Definition random_bytes_to_buf (buf : buffer) (rnd : bytes) : outcome (buffer * bool) := buf_write buf rnd.

Definition key_source2_randomize_write (k2 : key_source2) (rnd : key_source) (buf : buffer) (server : bool) : outcome (key_source2 * buffer * bool) :=
  let k := src_clear in
  '(k, buf, ok) ← (if server then Ret (k, buf, true)
                   else '(buf, ok) ← random_bytes_to_buf buf (src_pre_master rnd); Ret (mksrc (src_pre_master rnd) (src_random1 k) (src_random2 k), buf, ok));
  if negb ok then Ret (set_source k2 server k, buf, false)
  else
    '(buf, ok) ← random_bytes_to_buf buf (src_random1 rnd);
    let k := mksrc (src_pre_master k) (src_random1 rnd) (src_random2 k) in
    if negb ok then Ret (set_source k2 server k, buf, false)
    else
      '(buf, ok) ← random_bytes_to_buf buf (src_random2 rnd);
      let k := mksrc (src_pre_master k) (src_random1 k) (src_random2 rnd) in
      Ret (set_source k2 server k, buf, ok).

(** The material of the other end. *)
Definition key_source2_read (k2 : key_source2) (buf : buffer) (server : bool) : outcome (key_source2 * buffer * bool) :=
  let put := set_source k2 (negb server) in
  '(buf, pm) ← (if server then buf_read buf 48 else Ret (buf, Some (src_pre_master src_clear)));
  match pm with
  | None => Ret (put src_clear, buf, false)
  | Some pm =>
      '(buf, r1) ← buf_read buf 32;
      match r1 with
      | None => Ret (put (mksrc pm (src_random1 src_clear) (src_random2 src_clear)), buf, false)
      | Some r1 =>
          '(buf, r2) ← buf_read buf 32;
          match r2 with
          | None => Ret (put (mksrc pm r1 (src_random2 src_clear)), buf, false)
          | Some r2 => Ret (put (mksrc pm r1 r2), buf, true)
          end
      end
  end.

(** ** Strings with a 16-bit length *)

Definition write_empty_string (buf : buffer) : outcome (buffer * bool) := buf_write_u16 buf 0.

Definition write_string (buf : buffer) (str : bytes) (maxlen : Z) : outcome (buffer * bool) :=
  let len := zlen str + 1 in
  if (len <? 1) || ((0 <=? maxlen) && (maxlen <? len)) then Ret (buf, false)
  else
    '(buf, ok) ← buf_write_u16 buf len;
    if negb ok then Ret (buf, false) else buf_write buf (str ++ [0]).

(** The bytes in front of the NUL the code puts at the end. *)
Definition read_string (buf : buffer) (capacity : Z) : outcome (buffer * option bytes) :=
  '(buf, len) ← buf_read_u16 buf;
  if (len <? 1) || (capacity <? len) then Ret (buf, None)
  else
    '(buf, d) ← buf_read buf len;
    Ret (buf, option_map (take (Z.to_nat (len - 1))) d).

Definition read_string_alloc (buf : buffer) : outcome (buffer * option bytes) :=
  '(buf, len) ← buf_read_u16 buf;
  if len <? 1 then Ret (buf, None)
  else
    '(buf, d) ← buf_read buf len;
    Ret (buf, option_map (take (Z.to_nat (len - 1))) d).

(** ** The messages *)

(** What goes into a message besides the key material: [me_user] are user name
    and password, [me_peer_info] the text of [push_peer_info]. *)
Record message := mkmsg { me_options : bytes; me_user : option (bytes * bytes); me_peer_info : option bytes }.

(** Steps of [if (!f(buf, ...)) goto error;]. *)
Definition and_then (r : outcome (buffer * bool)) (f : buffer -> outcome (buffer * bool)) : outcome (buffer * bool) :=
  '(buf, ok) ← r; if (ok : bool) then f buf else Ret (buf, false).

Definition write_fields (msg : message) (buf : buffer) : outcome (buffer * bool) :=
  and_then (write_string buf (me_options msg) TLS_OPTIONS_LEN) (fun buf =>
  and_then (match me_user msg with
            | Some (username, password) => and_then (write_string buf username (-1)) (fun buf => write_string buf password (-1))
            | None => and_then (write_empty_string buf) write_empty_string
            end) (fun buf =>
  match me_peer_info msg with
  | Some out => write_string buf out (-1)
  | None => write_empty_string buf
  end)).

(** The buffer, the key source and the result. *)
Definition key_method_2_write (buf : buffer) (k2 : key_source2) (rnd : key_source) (server : bool) (msg : message) : outcome (buffer * key_source2 * bool) :=
  buf ← ASSERT_ok (buf_init buf 0);
  '(buf, ok) ← and_then (buf_write_u32 buf 0) (fun buf => buf_write_u8 buf KEY_METHOD_2);
  if negb ok then Ret (buf, src2_clear, false)
  else
    '(k2, buf, ok) ← key_source2_randomize_write k2 rnd buf server;
    if negb ok then Ret (buf, src2_clear, false)
    else
      '(buf, ok) ← write_fields msg buf;
      if (ok : bool) then Ret (buf, k2, true) else Ret (buf, src2_clear, false).

Inductive ks_auth_state := KS_AUTH_FALSE | KS_AUTH_DEFERRED | KS_AUTH_TRUE.
#[global] Instance ks_auth_state_eq_dec : EqDecision ks_auth_state.
Proof. solve_decision. Defined.
Definition auth_above_false (a : ks_auth_state) : bool := match a with KS_AUTH_FALSE => false | _ => true end.

Record auth_env := mkauth {
  ae_user_pass_enabled : bool;                               (** tls_session_user_pass_enabled *)
  ae_user_pass_optional : bool;                              (** SSLF_AUTH_USER_PASS_OPTIONAL *)
  ae_verify_user_pass : bytes -> bytes -> ks_auth_state;     (** verify_user_pass *)
  ae_verified : bool;                                        (** session->verified *)
  ae_final_auth_checks : ks_auth_state -> ks_auth_state;     (** verify_final_auth_checks *)
  ae_options_equal : bytes -> bool;                          (** options_cmp_equal with remote_options *)
  ae_opt_verify : bool;                                      (** SSLF_OPT_VERIFY *)
  ae_tls_final : option bool                                 (** OPENVPN_PLUGIN_TLS_FINAL, if defined, succeeds *)
}.

(** The decision about the peer; [None] on [goto error]. *)
Definition key_method_2_auth (env : auth_env) (options : bytes) (username password : option bytes) : option ks_auth_state :=
  a ← (if ae_user_pass_enabled env then
         match username, password with
         | Some u, Some p => Some (ae_verify_user_pass env u p)
         | _, _ => if ae_user_pass_optional env then Some (ae_verify_user_pass env [] []) else None
         end
       else if ae_verified env then Some KS_AUTH_TRUE else None);
  let a := if auth_above_false a then ae_final_auth_checks env a else a in
  let a := if negb (ae_options_equal env options) && ae_opt_verify env then KS_AUTH_FALSE else a in
  Some (match ae_tls_final env with
        | Some ok => if auth_above_false a && negb ok then KS_AUTH_FALSE else a
        | None => a
        end).

(** What a message brings: buffer, key source, authentication state, options,
    user name, password, peer info and the result. *)
Record received := mkrcv {
  rc_buf : buffer;
  rc_key_src : key_source2;
  rc_authenticated : ks_auth_state;
  rc_options : bytes;
  rc_username : option bytes;
  rc_password : option bytes;
  rc_peer_info : option bytes;
  rc_ok : bool
}.

Definition read_error (buf : buffer) : outcome received :=
  buf ← buf_clear buf; Ret (mkrcv buf src2_clear KS_AUTH_FALSE [] None None None false).

Definition key_method_2_read (env : auth_env) (buf : buffer) (k2 : key_source2) (server : bool) : outcome received :=
  match buf_advance buf 4 with
  | (buf, false) => read_error buf
  | (buf, true) =>
      '(buf, flags) ← buf_read_u8 buf;
      if negb (Z.land flags KEY_METHOD_MASK =? 2) then read_error buf
      else
        '(k2, buf, ok) ← key_source2_read k2 buf server;
        if negb ok then read_error buf
        else
          '(buf, options) ← read_string buf TLS_OPTIONS_LEN;
          match options with
          | None => read_error buf
          | Some options =>
              '(buf, username) ← read_string buf USER_PASS_LEN;
              '(buf, password) ← read_string buf USER_PASS_LEN;
              '(buf, peer_info) ← read_string_alloc buf;
              match key_method_2_auth env options username password with
              | None => read_error buf
              | Some a => buf ← buf_clear buf; Ret (mkrcv buf k2 a options username password peer_info true)
              end
          end
  end.

(** ** Deriving the data channel keys *)

(** A key type: the length of the cipher's key, if there is a cipher, and
    whether there is a digest. *)
Record key_type := mkkt { kt_cipher : option Z; kt_digest : bool }.

Definition key_is_zero (key : bytes) (cipher_length : Z) : bool := forallb (fun b => b =? 0) (take (Z.to_nat cipher_length) key).
Definition check_key (key : bytes) (kt : key_type) : bool :=
  match kt_cipher kt with Some n => negb (key_is_zero key n) | None => true end.

Section expansion.
Context {K M : Type} `{!CipherOps K} `{!HmacOps M} `{!KeyInit K M}.
(** [ssl_tls1_PRF]: seed, secret and output length. *)
Context (ssl_tls1_PRF : bytes -> bytes -> Z -> option bytes).

Definition write_must (buf : buffer) (d : bytes) : outcome buffer := r ← buf_write buf d; ASSERT_ok r.

Definition openvpn_PRF (secret label client_seed server_seed : bytes) (sids : option (bytes * bytes)) (output_len : Z) : outcome (option bytes) :=
  seed ← alloc_buf (zlen label + zlen client_seed + zlen server_seed + SID_SIZE * 2);
  seed ← write_must seed label;
  seed ← write_must seed client_seed;
  seed ← write_must seed server_seed;
  seed ← (match sids with
          | Some (client_sid, server_sid) => seed ← write_must seed client_sid; write_must seed server_sid
          | None => Ret seed
          end);
  d ← buf_bytes seed;
  Ret (ssl_tls1_PRF d secret output_len).

(** The bytes of key2.keys. *)
Definition generate_key_expansion_openvpn_prf (server : bool) (k2 : key_source2) (session_id session_id_remote : bytes) : outcome (option bytes) :=
  let client_sid := if server then session_id_remote else session_id in
  let server_sid := if negb server then session_id_remote else session_id in
  master ← openvpn_PRF (src_pre_master (src_client k2)) (text "OpenVPN master secret") (src_random1 (src_client k2)) (src_random1 (src_server k2)) None 48;
  match master with
  | None => Ret None
  | Some master =>
      openvpn_PRF master (text "OpenVPN key expansion") (src_random2 (src_client k2)) (src_random2 (src_server k2)) (Some (client_sid, server_sid)) 256
  end.

Definition key_ctx_update_implicit_iv (ctx : key_ctx K M) (key : bytes) : outcome (key_ctx K M) :=
  match kc_cipher ctx with
  | Some k =>
      if decide (cipher_ctx_mode k = MODE_AEAD) then
        ASSERT (OPENVPN_AEAD_MIN_IV_LEN <=? cipher_ctx_iv_length k);;
        let impl_iv_len := cipher_ctx_iv_length k - 4 in
        ASSERT (impl_iv_len <=? OPENVPN_MAX_IV_LENGTH);;
        ASSERT (impl_iv_len <=? zlen key);;
        Ret (mkkey (kc_cipher ctx) (kc_hmac ctx) (take (Z.to_nat impl_iv_len) key))
      else Ret ctx
  | None => Ret ctx
  end.

Definition key_hmac (keys : bytes) (i : Z) : bytes := slice keys (128 * i + 64) MAX_HMAC_KEY_LENGTH.

(** The contexts for sending and receiving. *)
Definition init_key_contexts (kt : key_type) (server : bool) (keys : bytes) : outcome (key_ctx K M * key_ctx K M) :=
  let dir := if server then KEY_DIRECTION_INVERSE else KEY_DIRECTION_NORMAL in
  let '(encrypt, decrypt) := init_key_ctx_bi keys dir (bool_decide (is_Some (kt_cipher kt))) (kt_digest kt) in
  let s := if server then 1 else 0 in
  encrypt ← key_ctx_update_implicit_iv encrypt (key_hmac keys s);
  decrypt ← key_ctx_update_implicit_iv decrypt (key_hmac keys (1 - s));
  Ret (encrypt, decrypt).

(** [exported] is the result of [key_state_export_keying_material], used when
    CO_USE_TLS_KEY_MATERIAL_EXPORT is set; [None] when the function returns
    false. *)
Definition generate_key_expansion (initialized key_export server : bool) (exported : option bytes) (kt : key_type) (k2 : key_source2)
  (session_id session_id_remote : bytes) : outcome (option (key_ctx K M * key_ctx K M)) :=
  if initialized then Ret None
  else
    keys ← (if key_export then Ret exported else generate_key_expansion_openvpn_prf server k2 session_id session_id_remote);
    match keys with
    | None => Ret None
    | Some keys =>
        if negb (check_key (slice keys 0 128) kt) then Ret None
        else if negb (check_key (slice keys 128 128) kt) then Ret None
        else ctx ← init_key_contexts kt server keys; Ret (Some ctx)
    end.

(** ** Both ends derive the same keys *)

Definition source_ok (k : key_source) : Prop :=
  zlen (src_pre_master k) = 48 /\ zlen (src_random1 k) = 32 /\ zlen (src_random2 k) = 32 /\
  Forall is_byte (src_pre_master k) /\ Forall is_byte (src_random1 k) /\ Forall is_byte (src_random2 k).

Lemma write_must_spec b hd c tl s :
  holds b hd c tl -> Forall is_byte s -> zlen s <= tl -> exists b', write_must b s = Ret b' /\ holds b' hd (c ++ s) (tl - zlen s).
Proof.
  intros Hb Hs Hl. unfold write_must. destruct (buf_write_spec _ _ _ _ s Hb Hs Hl) as (b' & -> & Hb'). cbn [mbind outcome_bind].
  rewrite ASSERT_ok_true. eauto.
Qed.

Definition sids_bytes (sids : option (bytes * bytes)) : bytes := match sids with Some (a, b) => a ++ b | None => [] end.

Lemma openvpn_PRF_spec secret label cs ss sids n :
  Forall is_byte label -> Forall is_byte cs -> Forall is_byte ss -> Forall is_byte (sids_bytes sids) ->
  zlen (sids_bytes sids) <= 16 -> zlen label + zlen cs + zlen ss < 1000 ->
  openvpn_PRF secret label cs ss sids n = Ret (ssl_tls1_PRF (label ++ cs ++ ss ++ sids_bytes sids) secret n).
Proof.
  intros Hl Hc Hs Hx Hn Hsz. unfold openvpn_PRF. change (SID_SIZE * 2) with 16.
  destruct (alloc_buf_spec (zlen label + zlen cs + zlen ss + 16)) as (b0 & -> & H0); [unfold buf_size_valid, BUF_SIZE_MAX; lia|]. cbn [mbind outcome_bind].
  destruct (write_must_spec _ _ _ _ label H0 Hl) as (b1 & -> & H1); [lia|]. cbn [mbind outcome_bind].
  destruct (write_must_spec _ _ _ _ cs H1 Hc) as (b2 & -> & H2); [lia|]. cbn [mbind outcome_bind].
  destruct (write_must_spec _ _ _ _ ss H2 Hs) as (b3 & -> & H3); [lia|]. cbn [mbind outcome_bind].
  assert (Hgo : forall b hd tl, holds b hd ((([] ++ label) ++ cs) ++ ss ++ sids_bytes sids) tl ->
    (d ← buf_bytes b; Ret (ssl_tls1_PRF d secret n)) = Ret (ssl_tls1_PRF (label ++ cs ++ ss ++ sids_bytes sids) secret n)).
  { intros b hd tl Hb. rewrite (buf_bytes_spec _ _ _ _ Hb). cbn [mbind outcome_bind]. cbn [app]. by rewrite <- app_assoc. }
  destruct sids as [[a b]|]; cbn [sids_bytes] in *.
  - apply Forall_app in Hx as [Ha Hb]. rewrite length_app in Hn.
    destruct (write_must_spec _ _ _ _ a H3 Ha) as (b4 & -> & H4); [lia|]. cbn [mbind outcome_bind].
    destruct (write_must_spec _ _ _ _ b H4 Hb) as (b5 & -> & H5); [lia|]. cbn [mbind outcome_bind].
    eapply Hgo. eapply holds_eq; [exact H5|done| |done]. by rewrite !app_assoc.
  - cbn [mbind outcome_bind]. eapply Hgo. eapply holds_eq; [exact H3|done| |done]. by rewrite app_nil_r.
Qed.

(** The key bytes as a function of what both ends know. *)
Definition expansion (k2 : key_source2) (client_sid server_sid : bytes) : option bytes :=
  master ← ssl_tls1_PRF (text "OpenVPN master secret" ++ src_random1 (src_client k2) ++ src_random1 (src_server k2) ++ [])
             (src_pre_master (src_client k2)) 48;
  ssl_tls1_PRF (text "OpenVPN key expansion" ++ src_random2 (src_client k2) ++ src_random2 (src_server k2) ++ client_sid ++ server_sid) master 256.

Definition sid_octets (sid : bytes) : Prop := zlen sid = SID_SIZE /\ Forall is_byte sid.

Lemma sid_ok_octets sid : sid_ok sid -> sid_octets sid.
Proof. intros (H1 & H2 & _). by split. Qed.

Lemma prf_expansion server k2 sid sid' :
  source_ok (src_client k2) -> source_ok (src_server k2) -> sid_octets sid -> sid_octets sid' ->
  generate_key_expansion_openvpn_prf server k2 sid sid' =
    Ret (if server then expansion k2 sid' sid else expansion k2 sid sid').
Proof.
  intros (_ & Hc1 & Hc2 & _ & Hb1 & Hb2) (_ & Hs1 & Hs2 & _ & Hb3 & Hb4) [Hz Hsb] [Hz' Hsb'].
  unfold generate_key_expansion_openvpn_prf, expansion.
  assert (Ht : forall s, Forall is_byte (text s)).
  { intros s. unfold text. apply Forall_forall. intros x Hx. apply list_elem_of_In, in_map_iff in Hx as (c & <- & _).
    unfold is_byte. pose proof (N_ascii_bounded c). lia. }
  rewrite openvpn_PRF_spec; [|apply Ht|done|done|constructor|simpl; lia|].
  2:{ rewrite Hc1, Hs1. unfold text. rewrite length_map. simpl. lia. }
  cbn [mbind outcome_bind sids_bytes]. destruct (ssl_tls1_PRF _ _ 48) as [master|]; cbn [mbind option_bind]; [|by destruct server].
  rewrite openvpn_PRF_spec; [by destruct server|apply Ht|done|done| | |].
  - cbn [sids_bytes]. apply Forall_app. by destruct server.
  - cbn [sids_bytes]. rewrite length_app. unfold SID_SIZE in *. destruct server; simpl; lia.
  - rewrite Hc2, Hs2. unfold text. rewrite length_map. simpl. lia.
Qed.

(** What the crypto library promises of the cipher and digest of a data channel
    with keys of [n] bytes. *)
Record data_init_ok : Prop := {
  di_pair : forall key, cipher_pair (cipher_ctx_init key true : K) (cipher_ctx_init key false);
  di_mode : forall key enc, match cipher_ctx_mode (cipher_ctx_init key enc : K) with
                            | MODE_AEAD => 12 <= cipher_ctx_iv_length (cipher_ctx_init key enc : K) <= 16
                            | MODE_OTHER => False
                            | _ => 8 <= cipher_ctx_iv_length (cipher_ctx_init key enc : K)
                            end
}.

(** The crypto options with new contexts. *)
Definition with_keys (o : co K M) (ctx : key_ctx K M * key_ctx K M) : co K M := mkco ctx.1 ctx.2 (co_replay o) (co_ignore_packet_id o).

(** The implicit part of the IV. *)
Definition implicit_of (c : option K) (key : bytes) : bytes :=
  match c with
  | Some k => if decide (cipher_ctx_mode k = MODE_AEAD) then take (Z.to_nat (cipher_ctx_iv_length k - 4)) key else []
  | None => []
  end.

Lemma update_implicit_iv_spec c h key :
  data_init_ok -> (forall k, c = Some k -> exists kb enc, k = cipher_ctx_init kb enc) -> zlen key = 64 ->
  key_ctx_update_implicit_iv (mkkey c h []) key = Ret (mkkey c h (implicit_of c key)).
Proof.
  intros Hd Hc Hk. unfold key_ctx_update_implicit_iv, implicit_of. cbn [kc_cipher kc_hmac]. destruct c as [k|]; [|done].
  destruct (Hc k eq_refl) as (kb & enc & ->). pose proof (di_mode Hd kb enc) as Hm.
  destruct (decide (cipher_ctx_mode _ = MODE_AEAD)) as [E|E]; [|done]. rewrite E in Hm.
  rewrite !(proj2 (Z.leb_le _ _)) by (unfold OPENVPN_AEAD_MIN_IV_LEN, OPENVPN_MAX_IV_LENGTH; lia). done.
Qed.

Definition end_key (kt : key_type) (keys : bytes) (i : Z) (enc : bool) : key_ctx K M :=
  let c := if bool_decide (is_Some (kt_cipher kt)) then Some (cipher_ctx_init (take 64 (slice keys (128 * i) 128)) enc) else None in
  mkkey c (if kt_digest kt then Some (hmac_ctx_init (drop 64 (slice keys (128 * i) 128))) else None) (implicit_of c (key_hmac keys i)).

Lemma init_key_contexts_spec kt (server : bool) keys :
  data_init_ok -> zlen keys = 256 ->
  init_key_contexts kt server keys = Ret (end_key kt keys (if server then 1 else 0) true, end_key kt keys (if server then 0 else 1) false).
Proof.
  intros Hd Hk. unfold init_key_contexts, init_key_ctx_bi, end_key.
  assert (Hh : forall i, 0 <= i <= 1 -> zlen (key_hmac keys i) = 64) by (intros i Hi; unfold key_hmac, MAX_HMAC_KEY_LENGTH; apply zlen_slice; lia).
  destruct server; cbn [key_direction_state_init]; unfold init_key_ctx;
    (rewrite update_implicit_iv_spec; [|done|intros k Hx; destruct (bool_decide _); simplify_eq; eauto|apply Hh; lia]); cbn [mbind outcome_bind];
    (rewrite update_implicit_iv_spec; [|done|intros k Hx; destruct (bool_decide _); simplify_eq; eauto|apply Hh; lia]); done.
Qed.

(** The contexts that belong together fit together. *)
Lemma end_keys_tunnel kt keys i (oc os : co K M) dec enc :
  data_init_ok -> zlen keys = 256 -> 0 <= i <= 1 -> opt_long_form (co_replay oc) = opt_long_form (co_replay os) -> co_ignore_packet_id os = false ->
  tunnel (with_keys oc (end_key kt keys i true, dec)) (with_keys os (enc, end_key kt keys i false)).
Proof.
  intros Hd Hk Hi Hlf Hig. unfold tunnel, with_keys, end_key. cbn [co_encrypt co_decrypt co_replay co_ignore_packet_id fst snd kc_cipher kc_hmac kc_implicit_iv].
  split; [destruct (kt_digest kt); [by split|done]|]. split; [done|]. split; [done|].
  assert (Hh : zlen (key_hmac keys i) = 64) by (unfold key_hmac, MAX_HMAC_KEY_LENGTH; apply zlen_slice; lia).
  set (kb := take 64 (slice keys (128 * i) 128)). pose proof (di_pair Hd kb) as Hp.
  destruct (bool_decide (is_Some (kt_cipher kt))); [|done]. cbn [implicit_of]. rewrite (cp_mode _ _ Hp), (cp_iv _ _ Hp). split; [done|]. split; [done|].
  pose proof (di_mode Hd kb true) as Hm. destruct (cipher_ctx_mode (cipher_ctx_init kb true)) eqn:E; try done; try lia.
  rewrite decide_True by done. split; [lia|]. rewrite length_take. lia.
Qed.

(** From the same material both ends get keys that fit, or both get none. *)
Lemma expansion_agrees (key_export : bool) exported kt k2 csid ssid (oc os : co K M) :
  data_init_ok -> source_ok (src_client k2) -> source_ok (src_server k2) -> sid_ok csid -> sid_ok ssid ->
  (forall s m keys, ssl_tls1_PRF s m 256 = Some keys -> zlen keys = 256) -> (forall keys, exported = Some keys -> zlen keys = 256) ->
  opt_long_form (co_replay oc) = opt_long_form (co_replay os) -> co_ignore_packet_id oc = false -> co_ignore_packet_id os = false ->
  exists rc rs, generate_key_expansion false key_export false exported kt k2 csid ssid = Ret rc /\
    generate_key_expansion false key_export true exported kt k2 ssid csid = Ret rs /\
    match rc, rs with
    | Some c, Some s => tunnel (with_keys oc c) (with_keys os s) /\ tunnel (with_keys os s) (with_keys oc c)
    | None, None => True
    | _, _ => False
    end.
Proof.
  intros Hd Hsc Hss Hcs%sid_ok_octets Hssid%sid_ok_octets Hprf Hexp Hlf Hic His. unfold generate_key_expansion.
  rewrite !prf_expansion by done. set (keys := if key_export then exported else expansion k2 csid ssid).
  assert (Hk : forall server : bool, (if key_export then Ret exported else Ret (if server then expansion k2 csid ssid else expansion k2 csid ssid)) = Ret keys).
  { intros []; unfold keys; by destruct key_export. }
  rewrite (Hk false : (if key_export then Ret exported else Ret (expansion k2 csid ssid)) = Ret keys). cbn [mbind outcome_bind].
  destruct keys as [kb|] eqn:E; [|by eexists None, None].
  assert (Hl : zlen kb = 256).
  { unfold keys in E. destruct key_export; [by apply Hexp|]. unfold expansion in E.
    destruct (ssl_tls1_PRF _ _ 48); cbn [mbind option_bind] in E; [by eapply Hprf|done]. }
  destruct (check_key (slice kb 0 128) kt); cbn [negb]; [|by eexists None, None].
  destruct (check_key (slice kb 128 128) kt); cbn [negb]; [|by eexists None, None].
  rewrite !init_key_contexts_spec by done. cbn [mbind outcome_bind]. eexists (Some _), (Some _). split; [done|]. split; [done|].
  split; apply end_keys_tunnel; try done; lia.
Qed.

(** Keys or an error, from any material. *)
Lemma expansion_total (initialized key_export server : bool) exported kt k2 sid sid' :
  data_init_ok -> source_ok (src_client k2) -> source_ok (src_server k2) -> sid_octets sid -> sid_octets sid' ->
  (forall s m keys, ssl_tls1_PRF s m 256 = Some keys -> zlen keys = 256) -> (forall keys, exported = Some keys -> zlen keys = 256) ->
  exists r, generate_key_expansion initialized key_export server exported kt k2 sid sid' = Ret r.
Proof.
  intros Hd Hsc Hss Hs Hs' Hprf Hexp. unfold generate_key_expansion. destruct initialized; [eauto|]. rewrite prf_expansion by done.
  set (keys := if key_export then exported else if server then expansion k2 sid' sid else expansion k2 sid sid').
  replace (if key_export then Ret exported else Ret (if server then expansion k2 sid' sid else expansion k2 sid sid')) with (Ret keys) by (unfold keys; by destruct key_export).
  cbn [mbind outcome_bind]. destruct keys as [kb|] eqn:E; [|eauto].
  assert (Hl : zlen kb = 256).
  { unfold keys in E. destruct key_export; [by apply Hexp|]. unfold expansion in E.
    destruct server, (ssl_tls1_PRF _ _ 48) in E; cbn [mbind option_bind] in E; try done; eapply Hprf; exact E. }
  destruct (negb (check_key (slice kb 0 128) kt)); [eauto|]. destruct (negb (check_key (slice kb 128 128) kt)); [eauto|].
  rewrite init_key_contexts_spec by done. cbn [mbind outcome_bind]. eauto.
Qed.

End expansion.

(** ** Messages *)

Definition lstr (s : bytes) : bytes := be_bytes 2 (zlen s + 1) ++ s ++ [0].
Definition lempty : bytes := be_bytes 2 0.

(** A text that fits the 16-bit length. *)
Definition str_ok (s : bytes) : Prop := Forall is_byte s /\ zlen s + 1 < 2 ^ 16.

Lemma zlen_lstr s : zlen (lstr s) = zlen s + 3.
Proof. unfold lstr. rewrite !length_app, length_be_bytes. simpl. lia. Qed.

Lemma write_u16_spec b hd c tl v :
  holds b hd c tl -> 0 <= v < 2 ^ 16 -> 2 <= tl -> exists b', buf_write_u16 b v = Ret (b', true) /\ holds b' hd (c ++ be_bytes 2 v) (tl - 2).
Proof.
  intros Hb Hv Ht. unfold buf_write_u16. rewrite u16_small by done.
  destruct (buf_write_spec _ _ _ _ (be_bytes 2 v) Hb) as (b' & -> & Hb'); [apply be_bytes_is_byte|rewrite length_be_bytes; lia|].
  rewrite length_be_bytes in Hb'. eauto.
Qed.

Lemma write_empty_spec b hd c tl : holds b hd c tl -> 2 <= tl -> exists b', write_empty_string b = Ret (b', true) /\ holds b' hd (c ++ lempty) (tl - 2).
Proof. intros Hb Ht. by apply write_u16_spec. Qed.

Lemma write_string_spec b hd c tl s maxlen :
  holds b hd c tl -> str_ok s -> zlen s + 3 <= tl -> maxlen < 0 \/ zlen s + 1 <= maxlen ->
  exists b', write_string b s maxlen = Ret (b', true) /\ holds b' hd (c ++ lstr s) (tl - (zlen s + 3)).
Proof.
  intros Hb [Hs Hl] Ht Hm. unfold write_string.
  replace ((zlen s + 1 <? 1) || _) with false by lia.
  destruct (write_u16_spec _ _ _ _ (zlen s + 1) Hb) as (b1 & -> & H1); [lia|lia|]. cbn [mbind outcome_bind negb].
  destruct (buf_write_spec _ _ _ _ (s ++ [0]) H1) as (b2 & -> & H2).
  { apply Forall_app. split; [done|]. constructor; [unfold is_byte; lia|constructor]. }
  { rewrite length_app. simpl. lia. }
  exists b2. split; [done|]. eapply holds_eq; [exact H2|done|by rewrite <- app_assoc|]. rewrite length_app. simpl. lia.
Qed.

Lemma read_u16_app b hd v c tl :
  holds b hd (be_bytes 2 v ++ c) tl -> 0 <= v < 2 ^ 16 -> exists b', buf_read_u16 b = Ret (b', v) /\ holds b' (hd + 2) c tl.
Proof.
  intros Hb Hv. destruct (buf_read_u16_spec _ _ _ _ Hb) as (b' & v' & Hrd & Hb' & ->); [rewrite length_app, length_be_bytes; lia|].
  exists b'. rewrite take_app_length' in Hrd by (by rewrite length_be_bytes). rewrite drop_app_length' in Hb' by (by rewrite length_be_bytes).
  by rewrite be_val_u16 in Hrd.
Qed.

Lemma read_lstr_body b hd s c tl :
  holds b hd (s ++ [0] ++ c) tl ->
  exists b', buf_read b (zlen s + 1) = Ret (b', Some (s ++ [0])) /\ holds b' (hd + (zlen s + 1)) c tl /\
    option_map (take (Z.to_nat (zlen s + 1 - 1))) (Some (s ++ [0])) = Some s.
Proof.
  intros Hb. rewrite app_assoc in Hb. destruct (buf_read_app _ _ _ _ _ (zlen s + 1) Hb) as (b' & Hrd & Hb'); [rewrite length_app; simpl; lia|].
  exists b'. split; [done|]. split; [done|]. simpl. f_equal. rewrite take_app_length'; [done|lia].
Qed.

Lemma read_string_spec b hd s c tl cap :
  holds b hd (lstr s ++ c) tl -> str_ok s -> zlen s + 1 <= cap -> exists b', read_string b cap = Ret (b', Some s) /\ holds b' (hd + (zlen s + 3)) c tl.
Proof.
  intros Hb [_ Hl] Hc. unfold lstr in Hb. rewrite <- !app_assoc in Hb. unfold read_string.
  destruct (read_u16_app _ _ _ _ _ Hb) as (b1 & -> & H1); [lia|]. cbn [mbind outcome_bind]. replace ((zlen s + 1 <? 1) || _) with false by lia.
  destruct (read_lstr_body _ _ _ _ _ H1) as (b2 & -> & H2 & E). cbn [mbind outcome_bind]. rewrite E. exists b2. split; [done|].
  eapply holds_eq; [exact H2|lia|done|done].
Qed.

Lemma read_string_alloc_spec b hd s c tl :
  holds b hd (lstr s ++ c) tl -> str_ok s -> exists b', read_string_alloc b = Ret (b', Some s) /\ holds b' (hd + (zlen s + 3)) c tl.
Proof.
  intros Hb [_ Hl]. unfold lstr in Hb. rewrite <- !app_assoc in Hb. unfold read_string_alloc.
  destruct (read_u16_app _ _ _ _ _ Hb) as (b1 & -> & H1); [lia|]. cbn [mbind outcome_bind]. rewrite (proj2 (Z.ltb_ge _ _)) by lia.
  destruct (read_lstr_body _ _ _ _ _ H1) as (b2 & -> & H2 & E). cbn [mbind outcome_bind]. rewrite E. exists b2. split; [done|].
  eapply holds_eq; [exact H2|lia|done|done].
Qed.

Lemma read_string_empty b hd c tl cap : holds b hd (lempty ++ c) tl -> exists b', read_string b cap = Ret (b', None) /\ holds b' (hd + 2) c tl.
Proof. intros Hb. unfold read_string. destruct (read_u16_app _ _ _ _ _ Hb) as (b1 & -> & H1); [lia|]. cbn [mbind outcome_bind]. eauto. Qed.

Lemma read_string_alloc_empty b hd c tl : holds b hd (lempty ++ c) tl -> exists b', read_string_alloc b = Ret (b', None) /\ holds b' (hd + 2) c tl.
Proof. intros Hb. unfold read_string_alloc. destruct (read_u16_app _ _ _ _ _ Hb) as (b1 & -> & H1); [lia|]. cbn [mbind outcome_bind]. eauto. Qed.

Definition user_bytes (u : option (bytes * bytes)) : bytes := match u with Some (n, p) => lstr n ++ lstr p | None => lempty ++ lempty end.
Definition info_bytes (i : option bytes) : bytes := match i with Some s => lstr s | None => lempty end.
Definition field_bytes (msg : message) : bytes := lstr (me_options msg) ++ user_bytes (me_user msg) ++ info_bytes (me_peer_info msg).

Record message_ok (msg : message) : Prop := {
  mo_options : str_ok (me_options msg) /\ zlen (me_options msg) < TLS_OPTIONS_LEN;
  mo_user : forall u p, me_user msg = Some (u, p) -> str_ok u /\ str_ok p /\ zlen u < USER_PASS_LEN /\ zlen p < USER_PASS_LEN;
  mo_info : forall i, me_peer_info msg = Some i -> str_ok i
}.

Lemma write_fields_spec msg b hd c tl :
  message_ok msg -> holds b hd c tl -> zlen (field_bytes msg) <= tl ->
  exists b', write_fields msg b = Ret (b', true) /\ holds b' hd (c ++ field_bytes msg) (tl - zlen (field_bytes msg)).
Proof.
  intros [[Ho Hol] Hu Hi] Hb Hl. unfold write_fields, field_bytes in *. rewrite !length_app in Hl. rewrite zlen_lstr || rewrite Nat2Z.inj_add, zlen_lstr in Hl.
  destruct (write_string_spec _ _ _ _ (me_options msg) TLS_OPTIONS_LEN Hb Ho) as (b1 & -> & H1); [lia|lia|]. cbn [and_then mbind outcome_bind].
  assert (Huser : exists b2, match me_user msg with
      | Some (username, password) => and_then (write_string b1 username (-1)) (fun buf => write_string buf password (-1))
      | None => and_then (write_empty_string b1) write_empty_string
      end = Ret (b2, true) /\ holds b2 hd ((c ++ lstr (me_options msg)) ++ user_bytes (me_user msg)) (tl - (zlen (me_options msg) + 3) - zlen (user_bytes (me_user msg)))).
  { destruct (me_user msg) as [[u p]|]; cbn [user_bytes] in *; rewrite length_app in *.
    - destruct (Hu u p eq_refl) as (Hus & Hps & _). pose proof (zlen_lstr u) as Zu. pose proof (zlen_lstr p) as Zp.
      destruct (write_string_spec _ _ _ _ u (-1) H1 Hus) as (b2 & -> & H2); [lia|lia|]. cbn [and_then mbind outcome_bind].
      destruct (write_string_spec _ _ _ _ p (-1) H2 Hps) as (b3 & -> & H3); [lia|lia|]. exists b3. split; [done|].
      eapply holds_eq; [exact H3|done|by rewrite <- !app_assoc|lia].
    - unfold lempty in *. rewrite !length_be_bytes in *.
      destruct (write_empty_spec _ _ _ _ H1) as (b2 & -> & H2); [lia|]. cbn [and_then mbind outcome_bind].
      destruct (write_empty_spec _ _ _ _ H2) as (b3 & -> & H3); [lia|]. exists b3. split; [done|].
      eapply holds_eq; [exact H3|done|by rewrite <- !app_assoc|lia]. }
  destruct Huser as (b2 & -> & H2). cbn [and_then mbind outcome_bind].
  destruct (me_peer_info msg) as [i|]; cbn [info_bytes] in *.
  - pose proof (zlen_lstr i) as Zi. destruct (write_string_spec _ _ _ _ i (-1) H2 (Hi i eq_refl)) as (b3 & -> & H3); [lia|lia|]. exists b3. split; [done|].
    eapply holds_eq; [exact H3|done|by rewrite <- !app_assoc|]. rewrite !length_app. pose proof (zlen_lstr (me_options msg)). lia.
  - unfold lempty in *. rewrite length_be_bytes in *. destruct (write_empty_spec _ _ _ _ H2) as (b3 & -> & H3); [lia|]. exists b3. split; [done|].
    eapply holds_eq; [exact H3|done|by rewrite <- !app_assoc|]. rewrite !length_app, length_be_bytes. pose proof (zlen_lstr (me_options msg)). lia.
Qed.

(** The material an end sends: a server sends no pre-master secret. *)
Definition sent_source (server : bool) (rnd : key_source) : key_source :=
  if server then mksrc (src_pre_master src_clear) (src_random1 rnd) (src_random2 rnd) else rnd.
Definition source_bytes (server : bool) (rnd : key_source) : bytes :=
  (if server then [] else src_pre_master rnd) ++ src_random1 rnd ++ src_random2 rnd.
Definition message_bytes (server : bool) (rnd : key_source) (msg : message) : bytes :=
  be_bytes 4 0 ++ [2] ++ source_bytes server rnd ++ field_bytes msg.

Lemma randomize_write_spec k2 rnd b hd c tl server :
  source_ok rnd -> holds b hd c tl -> zlen (source_bytes server rnd) <= tl ->
  exists b', key_source2_randomize_write k2 rnd b server = Ret (set_source k2 server (sent_source server rnd), b', true) /\
    holds b' hd (c ++ source_bytes server rnd) (tl - zlen (source_bytes server rnd)).
Proof.
  intros (Hpm & H1 & H2 & Bpm & B1 & B2) Hb Hl. unfold key_source2_randomize_write, random_bytes_to_buf, source_bytes in *. rewrite !length_app in Hl.
  destruct server; cbn [mbind outcome_bind negb].
  - destruct (buf_write_spec _ _ _ _ (src_random1 rnd) Hb B1) as (b1 & -> & Hb1); [simpl in Hl; lia|]. cbn [mbind outcome_bind negb].
    destruct (buf_write_spec _ _ _ _ (src_random2 rnd) Hb1 B2) as (b2 & -> & Hb2); [simpl in Hl; lia|]. cbn [mbind outcome_bind]. exists b2.
    split; [done|]. eapply holds_eq; [exact Hb2|done|by rewrite <- app_assoc|]. rewrite !length_app. simpl. lia.
  - destruct (buf_write_spec _ _ _ _ (src_pre_master rnd) Hb Bpm) as (b0 & -> & Hb0); [lia|]. cbn [mbind outcome_bind negb].
    destruct (buf_write_spec _ _ _ _ (src_random1 rnd) Hb0 B1) as (b1 & -> & Hb1); [lia|]. cbn [mbind outcome_bind negb].
    destruct (buf_write_spec _ _ _ _ (src_random2 rnd) Hb1 B2) as (b2 & -> & Hb2); [lia|]. cbn [mbind outcome_bind]. exists b2.
    split; [by destruct rnd|]. eapply holds_eq; [exact Hb2|done|by rewrite <- !app_assoc|]. rewrite !length_app. lia.
Qed.

Lemma write_message_spec buf k2 rnd server msg hd c tl :
  source_ok rnd -> message_ok msg -> holds buf hd c tl -> zlen (message_bytes server rnd msg) <= hd + zlen c + tl ->
  exists b, key_method_2_write buf k2 rnd server msg = Ret (b, set_source k2 server (sent_source server rnd), true) /\
    holds b 0 (message_bytes server rnd msg) (hd + zlen c + tl - zlen (message_bytes server rnd msg)).
Proof.
  intros Hs Hm Hb Hl. unfold key_method_2_write. destruct (buf_init_spec _ _ _ _ 0 Hb) as (b0 & -> & H0); [holds_facts Hb; lia|].
  rewrite ASSERT_ok_true. cbn [mbind outcome_bind]. unfold message_bytes in Hl. rewrite !length_app, length_be_bytes in Hl. simpl in Hl.
  destruct (buf_write_spec _ _ _ _ (be_bytes 4 0) H0) as (b1 & Hw1 & H1); [apply be_bytes_is_byte|rewrite length_be_bytes; lia|].
  unfold buf_write_u32. change (u32 0) with 0. rewrite Hw1. cbn [and_then mbind outcome_bind]. rewrite length_be_bytes in H1.
  destruct (buf_write_spec _ _ _ _ [2] H1) as (b2 & Hw2 & H2); [constructor; [unfold is_byte; lia|constructor]|simpl; lia|].
  unfold buf_write_u8. change [u8 KEY_METHOD_2] with [2]. rewrite Hw2. cbn [mbind outcome_bind negb].
  destruct (randomize_write_spec k2 rnd _ _ _ _ server Hs H2) as (b3 & -> & H3); [simpl; lia|]. cbn [mbind outcome_bind negb].
  destruct (write_fields_spec msg _ _ _ _ Hm H3) as (b4 & -> & H4); [simpl; lia|]. cbn [mbind outcome_bind]. exists b4. split; [done|].
  unfold message_bytes. eapply holds_eq; [exact H4|done|by rewrite <- !app_assoc|]. rewrite !length_app, length_be_bytes. simpl. lia.
Qed.

Lemma source_read_spec k2 rnd b hd c tl server :
  source_ok rnd -> holds b hd (source_bytes server rnd ++ c) tl ->
  exists b' hd', key_source2_read k2 b (negb server) = Ret (set_source k2 server (sent_source server rnd), b', true) /\ holds b' hd' c tl.
Proof.
  intros (Hpm & H1 & H2 & _) Hb. unfold key_source2_read, source_bytes in *. rewrite <- !app_assoc in Hb. rewrite negb_involutive.
  destruct server; cbn [negb mbind outcome_bind].
  - simpl app in Hb. destruct (buf_read_app _ _ _ _ _ 32 Hb) as (b1 & -> & Hb1); [lia|]. cbn [mbind outcome_bind].
    destruct (buf_read_app _ _ _ _ _ 32 Hb1) as (b2 & -> & Hb2); [lia|]. cbn [mbind outcome_bind]. by eexists _, _.
  - destruct (buf_read_app _ _ _ _ _ 48 Hb) as (b0 & -> & Hb0); [lia|]. cbn [mbind outcome_bind].
    destruct (buf_read_app _ _ _ _ _ 32 Hb0) as (b1 & -> & Hb1); [lia|]. cbn [mbind outcome_bind].
    destruct (buf_read_app _ _ _ _ _ 32 Hb1) as (b2 & -> & Hb2); [lia|]. cbn [mbind outcome_bind]. destruct rnd. by eexists _, _.
Qed.

Lemma buf_clear_holds b hd c tl : holds b hd c tl -> exists b', buf_clear b = Ret b' /\ holds b' 0 [] (hd + zlen c + tl).
Proof.
  intros Hb. holds_facts Hb. destruct Hb as (blk & Hok & _). pose proof Hok as [Hd Ho Hln Hc Hbl Hm Hby]. unfold buf_clear.
  destruct (0 <? bcapacity b) eqn:E.
  - rewrite Hd, mem_write_Ret by (rewrite ?length_replicate; lia). cbn [mbind outcome_bind]. eexists. split; [done|].
    eapply holds_intro with (blk := splice blk 0 (replicate (Z.to_nat (bcapacity b)) 0)); simpl; [|done|done|lia].
    split; simpl; try done; try lia; [rewrite length_splice; rewrite ?length_replicate; lia|].
    apply Forall_splice; [done|]. apply Forall_replicate. unfold is_byte. lia.
  - eexists. split; [done|]. eapply holds_intro with (blk := blk); simpl; [|done|done|lia]. split; simpl; try done; lia.
Qed.

(** Reading what the other end wrote. *)
Lemma read_message_spec env b k2 rnd server msg hd tl a :
  source_ok rnd -> message_ok msg -> holds b hd (message_bytes server rnd msg) tl ->
  key_method_2_auth env (me_options msg) (option_map fst (me_user msg)) (option_map snd (me_user msg)) = Some a ->
  exists b' hd' tl', key_method_2_read env b k2 (negb server) =
      Ret (mkrcv b' (set_source k2 server (sent_source server rnd)) a (me_options msg) (option_map fst (me_user msg)) (option_map snd (me_user msg))
             (me_peer_info msg) true) /\ holds b' hd' [] tl'.
Proof.
  intros Hs Hm Hb Ha. unfold key_method_2_read, message_bytes in *.
  destruct (buf_advance_spec _ _ _ _ 4 Hb) as (b1 & -> & H1); [rewrite length_app, length_be_bytes; lia|].
  rewrite drop_app_length' in H1 by (by rewrite length_be_bytes).
  destruct (buf_read_u8_spec _ _ 2 _ _ H1) as (b2 & -> & H2). cbn [mbind outcome_bind].
  change (Z.land 2 KEY_METHOD_MASK =? 2) with true. cbn [negb].
  destruct (source_read_spec k2 rnd _ _ _ _ server Hs H2) as (b3 & h3 & -> & H3). cbn [mbind outcome_bind negb].
  destruct Hm as [[Ho Hol] Hu Hi]. unfold field_bytes in H3.
  destruct (read_string_spec _ _ _ _ _ TLS_OPTIONS_LEN H3 Ho) as (b4 & -> & H4); [lia|]. cbn [mbind outcome_bind].
  assert (Huser : exists b5 b6 h6, read_string b4 USER_PASS_LEN = Ret (b5, option_map fst (me_user msg)) /\
     read_string b5 USER_PASS_LEN = Ret (b6, option_map snd (me_user msg)) /\ holds b6 h6 (info_bytes (me_peer_info msg)) tl).
  { destruct (me_user msg) as [[u p]|]; cbn [user_bytes] in H4; rewrite <- app_assoc in H4.
    - destruct (Hu u p eq_refl) as (Hus & Hps & Hul & Hpl).
      destruct (read_string_spec _ _ _ _ _ USER_PASS_LEN H4 Hus) as (b5 & -> & H5); [lia|].
      destruct (read_string_spec _ _ _ _ _ USER_PASS_LEN H5 Hps) as (b6 & Hr6 & H6); [lia|]. by eexists b5, b6, _.
    - destruct (read_string_empty _ _ _ _ USER_PASS_LEN H4) as (b5 & -> & H5).
      destruct (read_string_empty _ _ _ _ USER_PASS_LEN H5) as (b6 & Hr6 & H6). by eexists b5, b6, _. }
  destruct Huser as (b5 & b6 & h6 & -> & Hr6 & H6). cbn [mbind outcome_bind]. rewrite Hr6. cbn [mbind outcome_bind].
  assert (Hinfo : exists b7 h7, read_string_alloc b6 = Ret (b7, me_peer_info msg) /\ holds b7 h7 [] tl).
  { rewrite <- (app_nil_r (info_bytes _)) in H6. destruct (me_peer_info msg) as [i|]; cbn [info_bytes] in H6.
    - destruct (read_string_alloc_spec _ _ _ _ _ H6 (Hi i eq_refl)) as (b7 & -> & H7). eauto.
    - destruct (read_string_alloc_empty _ _ _ _ H6) as (b7 & -> & H7). eauto. }
  destruct Hinfo as (b7 & h7 & -> & H7). cbn [mbind outcome_bind]. rewrite Ha. destruct (buf_clear_holds _ _ _ _ H7) as (b8 & -> & H8).
  cbn [mbind outcome_bind]. by eexists b8, _, _.
Qed.

(** *** Any message

    Reading and writing stay inside a buffer of [n] bytes. *)

Definition buf_total (b : buffer) (n : Z) : Prop := exists hd c tl, holds b hd c tl /\ hd + zlen c + tl = n.

Lemma buf_total_intro b n hd c tl : holds b hd c tl -> hd + zlen c + tl = n -> buf_total b n.
Proof. intros. by exists hd, c, tl. Qed.

Lemma buf_read_total b n k : buf_total b n -> 0 <= k ->
  exists b' o, buf_read b k = Ret (b', o) /\ buf_total b' n /\ forall d, o = Some d -> zlen d = k /\ Forall is_byte d.
Proof.
  intros (hd & c & tl & Hb & Hn) Hk. destruct (decide (k <= zlen c)).
  - destruct (buf_read_spec _ _ _ _ k Hb) as (b1 & -> & H1); [lia|]. eexists _, _. split; [done|]. split.
    + eapply buf_total_intro; [exact H1|]. rewrite length_drop. lia.
    + intros d [= <-]. split; [rewrite length_take; lia|]. apply Forall_take. by eapply holds_bytes.
  - rewrite (buf_read_short _ _ _ _ k Hb) by lia. eexists _, None. split; [done|]. split; [by exists hd, c, tl|done].
Qed.

Lemma buf_read_u16_total b n : buf_total b n -> exists b' v, buf_read_u16 b = Ret (b', v) /\ buf_total b' n.
Proof.
  intros Hb. unfold buf_read_u16. destruct (buf_read_total b n 2 Hb) as (b' & o & -> & Hb' & _); [lia|]. cbn [mbind outcome_bind].
  destruct o; eauto.
Qed.

Lemma buf_read_u8_total b n : buf_total b n -> exists b' v, buf_read_u8 b = Ret (b', v) /\ buf_total b' n.
Proof.
  intros (hd & c & tl & Hb & Hn). destruct c as [|x c].
  - unfold buf_read_u8. destruct (buf_len_holds _ _ _ _ Hb) as [-> _]. simpl. eexists _, _. split; [done|]. by exists hd, [], tl.
  - destruct (buf_read_u8_spec _ _ _ _ _ Hb) as (b' & -> & Hb'). eexists _, _. split; [done|]. eapply buf_total_intro; [exact Hb'|]. simpl in *. lia.
Qed.

Lemma buf_advance_total b n k : buf_total b n -> 0 <= k -> exists b' ok, buf_advance b k = (b', ok) /\ buf_total b' n.
Proof.
  intros (hd & c & tl & Hb & Hn) Hk. destruct (decide (k <= zlen c)).
  - destruct (buf_advance_spec _ _ _ _ k Hb) as (b' & -> & Hb'); [lia|]. eexists _, _. split; [done|]. eapply buf_total_intro; [exact Hb'|].
    rewrite length_drop. lia.
  - exists b, false. split; [|by exists hd, c, tl]. holds_facts Hb. unfold buf_advance. rewrite Hval, Hlen, (proj2 (Z.ltb_lt _ k)) by lia.
    cbn [negb orb]. by rewrite orb_true_r.
Qed.

Lemma buf_write_total b n d : buf_total b n -> Forall is_byte d -> exists b' ok, buf_write b d = Ret (b', ok) /\ buf_total b' n.
Proof.
  intros (hd & c & tl & Hb & Hn) Hd. destruct (decide (zlen d <= tl)).
  - destruct (buf_write_spec _ _ _ _ d Hb Hd) as (b' & -> & Hb'); [lia|]. eexists _, _. split; [done|]. eapply buf_total_intro; [exact Hb'|].
    rewrite length_app. lia.
  - rewrite (buf_write_full _ _ _ _ d Hb) by lia. eexists _, _. split; [done|]. by exists hd, c, tl.
Qed.

Lemma buf_clear_total b n : buf_total b n -> exists b', buf_clear b = Ret b' /\ holds b' 0 [] n.
Proof. intros (hd & c & tl & Hb & <-). exact (buf_clear_holds _ _ _ _ Hb). Qed.

Lemma read_string_total b n cap : buf_total b n -> exists b' o, read_string b cap = Ret (b', o) /\ buf_total b' n.
Proof.
  intros Hb. unfold read_string. destruct (buf_read_u16_total b n Hb) as (b1 & len & -> & H1). cbn [mbind outcome_bind].
  destruct ((len <? 1) || (cap <? len)) eqn:E; [by eexists _, None|].
  destruct (buf_read_total b1 n len H1) as (b2 & o & -> & H2 & _); [lia|]. cbn [mbind outcome_bind]. eauto.
Qed.

Lemma read_string_alloc_total b n : buf_total b n -> exists b' o, read_string_alloc b = Ret (b', o) /\ buf_total b' n.
Proof.
  intros Hb. unfold read_string_alloc. destruct (buf_read_u16_total b n Hb) as (b1 & len & -> & H1). cbn [mbind outcome_bind].
  destruct (len <? 1) eqn:E; [by eexists _, None|].
  destruct (buf_read_total b1 n len H1) as (b2 & o & -> & H2 & _); [lia|]. cbn [mbind outcome_bind]. eauto.
Qed.

Lemma source_read_total k2 b n server : buf_total b n ->
  exists k b' ok, key_source2_read k2 b server = Ret (set_source k2 (negb server) k, b', ok) /\ buf_total b' n /\ (ok = true -> source_ok k).
Proof.
  intros Hb. unfold key_source2_read.
  assert (H0 : exists b0 pm, (if server then buf_read b 48 else Ret (b, Some (src_pre_master src_clear))) = Ret (b0, pm) /\ buf_total b0 n /\
    forall d, pm = Some d -> zlen d = 48 /\ Forall is_byte d).
  { destruct server; [by apply buf_read_total|]. eexists b, _. split; [done|]. split; [done|]. intros d [= <-]. by split; [|apply all_bytes_spec]. }
  destruct H0 as (b0 & pm & -> & H0 & Hpm). cbn [mbind outcome_bind]. destruct pm as [pm|]; [|by eexists src_clear, b0, false].
  destruct (buf_read_total b0 n 32 H0) as (b1 & r1 & -> & H1 & Hr1); [lia|]. cbn [mbind outcome_bind].
  destruct r1 as [r1|]; [|by eexists _, b1, false].
  destruct (buf_read_total b1 n 32 H1) as (b2 & r2 & -> & H2 & Hr2); [lia|]. cbn [mbind outcome_bind].
  destruct r2 as [r2|]; [|by eexists _, b2, false]. eexists _, b2, true. split; [done|]. split; [done|]. intros _.
  destruct (Hpm _ eq_refl), (Hr1 _ eq_refl), (Hr2 _ eq_refl). done.
Qed.

(** What reading any plaintext comes to. *)
Definition read_post (env : auth_env) (n : Z) (k2 : key_source2) (server : bool) (r : received) : Prop :=
  holds (rc_buf r) 0 [] n /\
  if rc_ok r then
    key_method_2_auth env (rc_options r) (rc_username r) (rc_password r) = Some (rc_authenticated r) /\
    exists k, source_ok k /\ rc_key_src r = set_source k2 (negb server) k
  else rc_authenticated r = KS_AUTH_FALSE /\ rc_key_src r = src2_clear.

Lemma read_error_post env n k2 server b : buf_total b n -> exists r, read_error b = Ret r /\ read_post env n k2 server r.
Proof. intros Hb. unfold read_error. destruct (buf_clear_total b n Hb) as (b' & -> & Hb'). by eexists. Qed.

Lemma read_any_message env b k2 server n :
  buf_total b n -> exists r, key_method_2_read env b k2 server = Ret r /\ read_post env n k2 server r.
Proof.
  intros Hb. unfold key_method_2_read. destruct (buf_advance_total b n 4 Hb) as (b1 & ok & -> & H1); [lia|].
  destruct ok; [|by apply read_error_post].
  destruct (buf_read_u8_total b1 n H1) as (b2 & flags & -> & H2). cbn [mbind outcome_bind].
  destruct (negb (Z.land flags KEY_METHOD_MASK =? 2)); [by apply read_error_post|].
  destruct (source_read_total k2 b2 n server H2) as (k & b3 & ok & -> & H3 & Hk). cbn [mbind outcome_bind].
  destruct ok; cbn [negb]; [|by apply read_error_post].
  destruct (read_string_total b3 n TLS_OPTIONS_LEN H3) as (b4 & options & -> & H4). cbn [mbind outcome_bind].
  destruct options as [options|]; [|by apply read_error_post].
  destruct (read_string_total b4 n USER_PASS_LEN H4) as (b5 & username & -> & H5). cbn [mbind outcome_bind].
  destruct (read_string_total b5 n USER_PASS_LEN H5) as (b6 & password & -> & H6). cbn [mbind outcome_bind].
  destruct (read_string_alloc_total b6 n H6) as (b7 & info & -> & H7). cbn [mbind outcome_bind].
  destruct (key_method_2_auth env options username password) as [a|] eqn:Ea; [|by apply read_error_post].
  destruct (buf_clear_total b7 n H7) as (b8 & -> & H8). cbn [mbind outcome_bind]. eexists. split; [done|]. split; [done|].
  cbn [rc_ok]. split; [done|]. exists k. split; [by apply Hk|done].
Qed.

(** A message of any size is written or refused. *)
Definition message_octets (msg : message) : Prop :=
  Forall is_byte (me_options msg) /\ (forall u p, me_user msg = Some (u, p) -> Forall is_byte u /\ Forall is_byte p) /\
  (forall i, me_peer_info msg = Some i -> Forall is_byte i).

Lemma and_then_total (r : outcome (buffer * bool)) f n :
  (exists b ok, r = Ret (b, ok) /\ buf_total b n) -> (forall b, buf_total b n -> exists b' ok, f b = Ret (b', ok) /\ buf_total b' n) ->
  exists b ok, and_then r f = Ret (b, ok) /\ buf_total b n.
Proof. intros (b & ok & -> & Hb) Hf. cbn [and_then mbind outcome_bind]. destruct ok; [by apply Hf|by exists b, false]. Qed.

Lemma write_string_total b n s maxlen : buf_total b n -> Forall is_byte s -> exists b' ok, write_string b s maxlen = Ret (b', ok) /\ buf_total b' n.
Proof.
  intros Hb Hs. unfold write_string. destruct (_ || _); [by exists b, false|]. unfold buf_write_u16.
  destruct (buf_write_total b n (be_bytes 2 (u16 (zlen s + 1))) Hb) as (b1 & ok & -> & H1); [apply be_bytes_is_byte|]. cbn [mbind outcome_bind].
  destruct ok; cbn [negb]; [|by exists b1, false]. apply buf_write_total; [done|]. apply Forall_app. split; [done|].
  constructor; [unfold is_byte; lia|constructor].
Qed.

Lemma write_empty_total b n : buf_total b n -> exists b' ok, write_empty_string b = Ret (b', ok) /\ buf_total b' n.
Proof. intros Hb. apply buf_write_total; [done|apply be_bytes_is_byte]. Qed.

Lemma write_fields_total msg b n : message_octets msg -> buf_total b n -> exists b' ok, write_fields msg b = Ret (b', ok) /\ buf_total b' n.
Proof.
  intros (Ho & Hu & Hi) Hb. unfold write_fields. apply and_then_total; [by apply write_string_total|]. intros b1 H1.
  apply and_then_total.
  - destruct (me_user msg) as [[u p]|]; apply and_then_total.
    + apply write_string_total; [done|]. by apply (Hu u p).
    + intros b2 H2. apply write_string_total; [done|]. by apply (Hu u p).
    + by apply write_empty_total.
    + intros b2 H2. by apply write_empty_total.
  - intros b2 H2. destruct (me_peer_info msg) as [i|]; [|by apply write_empty_total]. apply write_string_total; [done|]. by apply Hi.
Qed.

Definition sources_ok (k2 : key_source2) : Prop := source_ok (src_client k2) /\ source_ok (src_server k2).

Lemma src_clear_ok : source_ok src_clear.
Proof. unfold source_ok, src_clear. cbn [src_pre_master src_random1 src_random2]. split_and!; try done; apply Forall_replicate; unfold is_byte; lia. Qed.

Lemma set_source_ok k2 server k : sources_ok k2 -> source_ok k -> sources_ok (set_source k2 server k).
Proof. intros [] Hk. by destruct server. Qed.

Lemma randomize_write_total k2 rnd b n server :
  sources_ok k2 -> source_ok rnd -> buf_total b n ->
  exists k2' b' ok, key_source2_randomize_write k2 rnd b server = Ret (k2', b', ok) /\ sources_ok k2' /\ buf_total b' n.
Proof.
  intros Hk2 Hr Hb. pose proof Hr as (Hpm & H1 & H2 & Bpm & B1 & B2). pose proof src_clear_ok as (Cpm & C1 & C2 & Dpm & D1 & D2).
  unfold key_source2_randomize_write, random_bytes_to_buf.
  assert (H0 : exists k b0 ok, (if server then Ret (src_clear, b, true) else '(buf, ok) ← buf_write b (src_pre_master rnd);
      Ret (mksrc (src_pre_master rnd) (src_random1 src_clear) (src_random2 src_clear), buf, ok)) = Ret (k, b0, ok) /\ source_ok k /\ buf_total b0 n).
  { destruct server; [by eexists _, _, _|]. destruct (buf_write_total b n _ Hb Bpm) as (b0 & ok & -> & Hb0). by eexists _, _, _. }
  destruct H0 as (k & b0 & ok & -> & (Kpm & K1 & K2 & Lpm & L1 & L2) & Hb0). cbn [mbind outcome_bind].
  destruct ok; cbn [negb]; [|eexists _, _, _; split; [done|]; split; [by apply set_source_ok|done]].
  destruct (buf_write_total b0 n _ Hb0 B1) as (b1 & ok & -> & Hb1). cbn [mbind outcome_bind].
  destruct ok; cbn [negb]; [|eexists _, _, _; split; [done|]; split; [by apply set_source_ok|done]].
  destruct (buf_write_total b1 n _ Hb1 B2) as (b2 & ok & -> & Hb2). cbn [mbind outcome_bind].
  eexists _, _, _. split; [done|]. split; [by apply set_source_ok|done].
Qed.

Lemma write_any_message b k2 rnd server msg n :
  sources_ok k2 -> source_ok rnd -> message_octets msg -> buf_total b n ->
  exists b' k2' ok, key_method_2_write b k2 rnd server msg = Ret (b', k2', ok) /\ buf_total b' n /\ sources_ok k2'.
Proof.
  intros Hk2 Hr Hm (hd & c & tl & Hb & Hn). unfold key_method_2_write.
  destruct (buf_init_spec _ _ _ _ 0 Hb) as (b0 & -> & H0); [holds_facts Hb; lia|]. rewrite ASSERT_ok_true. cbn [mbind outcome_bind].
  assert (Hc : sources_ok src2_clear) by (split; apply src_clear_ok).
  assert (H0' : buf_total b0 n) by (eapply buf_total_intro; [exact H0|simpl; lia]).
  assert (H1 : exists b1 ok, and_then (buf_write_u32 b0 0) (fun buf => buf_write_u8 buf KEY_METHOD_2) = Ret (b1, ok) /\ buf_total b1 n).
  { apply and_then_total; [apply buf_write_total; [done|apply be_bytes_is_byte]|]. intros b1 H1. apply buf_write_total; [done|].
    constructor; [vm_compute; split; congruence|constructor]. }
  destruct H1 as (b1 & ok & -> & H1). cbn [mbind outcome_bind]. destruct ok; cbn [negb]; [|by eexists _, _, _].
  destruct (randomize_write_total k2 rnd b1 n server Hk2 Hr H1) as (k2' & b2 & ok & -> & Hk2' & H2). cbn [mbind outcome_bind].
  destruct ok; cbn [negb]; [|by eexists _, _, _].
  destruct (write_fields_total msg b2 n Hm H2) as (b3 & ok & -> & H3). cbn [mbind outcome_bind]. destruct ok; by eexists _, _, _.
Qed.

(** ** Properties *)

(** Whatever plaintext the peer sends, it is read without leaving the buffer; a
    message that is taken brings key material of full size, and its sender is
    authenticated only by the checks of [key_method_2_auth]; otherwise the key
    material is erased and nobody is authenticated. *)
Theorem key_method_2_any_message env b k2 server hd c tl :
  holds b hd c tl ->
  exists r, key_method_2_read env b k2 server = Ret r /\
    if rc_ok r then
      key_method_2_auth env (rc_options r) (rc_username r) (rc_password r) = Some (rc_authenticated r) /\
      exists k, source_ok k /\ rc_key_src r = set_source k2 (negb server) k
    else rc_authenticated r = KS_AUTH_FALSE /\ rc_key_src r = src2_clear.
Proof.
  intros Hb. destruct (read_any_message env b k2 server (hd + zlen c + tl)) as (r & -> & _ & Hr); [by exists hd, c, tl|]. by exists r.
Qed.

Section exchange.
Context {K M : Type} `{!CipherOps K} `{!HmacOps M} `{!KeyInit K M}.
Context (ssl_tls1_PRF : bytes -> bytes -> Z -> option bytes).

(** C18. A complete key exchange: the server reads the client's message and answers,
    the client reads the answer; both ends then hold the same material and
    derive keys with which each can read what the other sends, or neither gets
    any.  The messages have to fit the plaintext buffers. *)
Theorem key_exchange_tunnel cenv senv crnd srnd cmsg smsg cbuf sbuf ch cc ct sh sc st ca sa key_export exported kt csid ssid (oc os : co K M) :
  source_ok crnd -> source_ok srnd -> message_ok cmsg -> message_ok smsg -> holds cbuf ch cc ct -> holds sbuf sh sc st ->
  zlen (message_bytes false crnd cmsg) <= ch + zlen cc + ct -> zlen (message_bytes true srnd smsg) <= sh + zlen sc + st ->
  key_method_2_auth senv (me_options cmsg) (option_map fst (me_user cmsg)) (option_map snd (me_user cmsg)) = Some sa ->
  key_method_2_auth cenv (me_options smsg) (option_map fst (me_user smsg)) (option_map snd (me_user smsg)) = Some ca ->
  data_init_ok (K := K) (M := M) -> sid_ok csid -> sid_ok ssid ->
  (forall s m keys, ssl_tls1_PRF s m 256 = Some keys -> zlen keys = 256) -> (forall keys, exported = Some keys -> zlen keys = 256) ->
  opt_long_form (co_replay oc) = opt_long_form (co_replay os) -> co_ignore_packet_id oc = false -> co_ignore_packet_id os = false ->
  exists cb ck sb sk c_hd c_tl s_hd s_tl, key_method_2_write cbuf src2_clear crnd false cmsg = Ret (cb, ck, true) /\
    holds cb c_hd (message_bytes false crnd cmsg) c_tl /\ holds sb s_hd (message_bytes true srnd smsg) s_tl /\
    forall sr shd stl cr chd ctl, holds sr shd (message_bytes false crnd cmsg) stl -> holds cr chd (message_bytes true srnd smsg) ctl ->
      exists sread cread rc rs, key_method_2_read senv sr src2_clear true = Ret sread /\ rc_ok sread = true /\ rc_authenticated sread = sa /\
        key_method_2_write sbuf (rc_key_src sread) srnd true smsg = Ret (sb, sk, true) /\
        key_method_2_read cenv cr ck false = Ret cread /\ rc_ok cread = true /\ rc_authenticated cread = ca /\ rc_key_src cread = sk /\
        generate_key_expansion ssl_tls1_PRF false key_export false exported kt (rc_key_src cread) csid ssid = Ret rc /\
        generate_key_expansion ssl_tls1_PRF false key_export true exported kt sk ssid csid = Ret rs /\
        match rc, rs with
        | Some c, Some s => tunnel (with_keys oc c) (with_keys os s) /\ tunnel (with_keys os s) (with_keys oc c)
        | None, None => True
        | _, _ => False
        end.
Proof.
  intros Hcr Hsr Hcm Hsm Hcb Hsb Hcl Hsl Hsa Hca Hd Hcs Hss Hprf Hexp Hlf Hic His.
  destruct (write_message_spec cbuf src2_clear crnd false cmsg _ _ _ Hcr Hcm Hcb Hcl) as (cb & Hcw & Hcb').
  destruct (write_message_spec sbuf (set_source src2_clear false (sent_source false crnd)) srnd true smsg _ _ _ Hsr Hsm Hsb Hsl) as (sb & Hsw & Hsb').
  eexists cb, _, sb, _, _, _, _, _. split; [exact Hcw|]. split; [exact Hcb'|]. split; [exact Hsb'|].
  intros sr shd stl cr chd ctl Hread_s Hread_c.
  destruct (read_message_spec senv sr src2_clear crnd false cmsg _ _ sa Hcr Hcm Hread_s Hsa) as (sb2 & ? & ? & Hsread & _).
  destruct (read_message_spec cenv cr (set_source src2_clear false (sent_source false crnd)) srnd true smsg _ _ ca Hsr Hsm Hread_c Hca) as (cb2 & ? & ? & Hcread & _).
  set (k2 := mksrc2 crnd (sent_source true srnd)).
  assert (Hss' : source_ok (src_server k2)).
  { destruct Hsr as (? & ? & ? & ? & ? & ?). split_and!; try done. by apply all_bytes_spec. }
  destruct (expansion_agrees ssl_tls1_PRF key_export exported kt k2 csid ssid oc os Hd Hcr Hss' Hcs Hss Hprf Hexp Hlf Hic His) as (rc & rs & Hgc & Hgs & Hfit).
  eexists _, _, rc, rs. split; [exact Hsread|]. split; [done|]. split; [done|]. split; [exact Hsw|]. split; [exact Hcread|].
  split; [done|]. split; [done|]. split; [done|]. split; [exact Hgc|]. split; [exact Hgs|exact Hfit].
Qed.

End exchange.

(** ** A client and a server with an AEAD cipher *)

Definition data_key_init : KeyInit shift_key Z := {|
  cipher_ctx_init key enc := mkshift MODE_AEAD enc (byte_sum key);
  hmac_ctx_init key := byte_sum key
|}.

Lemma data_key_init_ok : @data_init_ok shift_key Z _ data_key_init.
Proof. split; intros; [apply shift_pair|]. simpl. unfold shift_iv_length. simpl. lia. Qed.

Definition demo_prf (seed secret : bytes) (n : Z) : option bytes := Some (replicate (Z.to_nat n) (byte_sum (seed ++ secret) mod 255 + 1)).
Definition demo_source (x : Z) : key_source := mksrc (replicate 48 x) (replicate 32 (x + 1)) (replicate 32 (x + 2)).
Definition demo_message : message := mkmsg (text "V4,dev-type tun") (Some (text "user", text "secret")) (Some (text "IV_VER=2.6")).
Definition demo_answer : message := mkmsg (text "V4,dev-type tun") None None.
(** Password checked against a constant; a client without password check trusts
    the certificate. *)
Definition demo_auth (check : bool) : auth_env :=
  mkauth check false (fun u p => if decide (p = text "secret") then KS_AUTH_TRUE else KS_AUTH_FALSE) true id (fun _ => true) false None.
Definition demo_plain : buffer := mkbuf 2048 0 0 (Some (replicate 2048 0)).

Lemma demo_source_ok x : 0 <= x < 250 -> source_ok (demo_source x).
Proof.
  intros Hx. split_and!; simpl; try done; apply Forall_forall; intros y Hy; unfold is_byte;
    repeat (apply elem_of_cons in Hy as [->|Hy]; [lia|]); by apply elem_of_nil in Hy.
Qed.

Lemma demo_message_ok : message_ok demo_message.
Proof.
  split.
  - split; [split; [by apply all_bytes_spec|done]|done].
  - intros u p [= <- <-]. split; [split; [by apply all_bytes_spec|done]|]. split; [split; [by apply all_bytes_spec|done]|done].
  - intros i [= <-]. split; [by apply all_bytes_spec|done].
Qed.

Lemma demo_answer_ok : message_ok demo_answer.
Proof. split; [split; [split; [by apply all_bytes_spec|done]|done]|done|done]. Qed.

Lemma demo_plain_holds : holds demo_plain 0 [] 2048.
Proof. eapply holds_intro; [by apply demo_buf_ok|done|done|done]. Qed.

Lemma key_method_2_any_message_witness :
  exists r, key_method_2_read (demo_auth true) (buf_of [0; 0; 0; 0; 2; 1]) src2_clear true = Ret r /\
    if rc_ok r then
      key_method_2_auth (demo_auth true) (rc_options r) (rc_username r) (rc_password r) = Some (rc_authenticated r) /\
      exists k, source_ok k /\ rc_key_src r = set_source src2_clear (negb true) k
    else rc_authenticated r = KS_AUTH_FALSE /\ rc_key_src r = src2_clear.
Proof. apply (key_method_2_any_message (demo_auth true) _ src2_clear true 0 [0; 0; 0; 0; 2; 1] 0). by apply buf_of_holds. Defined.

Lemma key_exchange_tunnel_witness :
  exists cb ck sread cread rc rs, key_method_2_write demo_plain src2_clear (demo_source 3) false demo_message = Ret (cb, ck, true) /\
    key_method_2_read (demo_auth true) (buf_of (message_bytes false (demo_source 3) demo_message)) src2_clear true = Ret sread /\
    rc_authenticated sread = KS_AUTH_TRUE /\
    key_method_2_read (demo_auth false) (buf_of (message_bytes true (demo_source 9) demo_answer)) ck false = Ret cread /\
    @generate_key_expansion shift_key Z _ data_key_init demo_prf false false false None (mkkt (Some 32) false) (rc_key_src cread) demo_sid demo_sid = Ret rc /\
    match rc, rs with
    | Some c, Some s => tunnel (with_keys (demo_opt true) c) (with_keys (demo_opt true) s) /\ tunnel (with_keys (demo_opt true) s) (with_keys (demo_opt true) c)
    | None, None => True
    | _, _ => False
    end.
Proof.
  destruct (@key_exchange_tunnel shift_key Z _ _ data_key_init demo_prf (demo_auth false) (demo_auth true) (demo_source 3) (demo_source 9) demo_message demo_answer
    demo_plain demo_plain 0 [] 2048 0 [] 2048 KS_AUTH_TRUE KS_AUTH_TRUE false None (mkkt (Some 32) false) demo_sid demo_sid (demo_opt true) (demo_opt true))
    as (cb & ck & sb & sk & c_hd & c_tl & s_hd & s_tl & Hcw & _ & _ & Hrest).
  - by apply demo_source_ok.
  - by apply demo_source_ok.
  - apply demo_message_ok.
  - apply demo_answer_ok.
  - apply demo_plain_holds.
  - apply demo_plain_holds.
  - vm_compute. congruence.
  - vm_compute. congruence.
  - done.
  - done.
  - apply data_key_init_ok.
  - split_and!; [done| |done]. by apply all_bytes_spec.
  - split_and!; [done| |done]. by apply all_bytes_spec.
  - intros s m keys [= <-]. done.
  - done.
  - done.
  - done.
  - done.
  - destruct (Hrest (buf_of (message_bytes false (demo_source 3) demo_message)) 0 0 (buf_of (message_bytes true (demo_source 9) demo_answer)) 0 0)
      as (sread & cread & rc & rs & Hsr & _ & Ha & _ & Hcr & _ & _ & _ & Hgc & _ & Hfit); [by apply buf_of_holds..|].
    exists cb, ck, sread, cread, rc, rs. exact (conj Hcw (conj Hsr (conj Ha (conj Hcr (conj Hgc Hfit))))).
Defined.
