(* ===== verification/TlsSessions.v ===== *)
(** * Keys and sessions of a TLS tunnel (openvpn ssl.c, ssl_common.h, socket.h)

    A tunnel has three sessions, a session two keys: the primary key, which the
    peers negotiate or use, and the lame duck, an older key that still decrypts
    for a while.  This file has the data structures, their initialisation and
    the operations that move keys and sessions; [TlsProcess] is the state
    machine of one session, [TlsMulti] the tunnel.

    An address is the bytes of the union in struct openvpn_sockaddr.  Fields of
    structures that were freed are not reachable: pointers are [None] then.
    [k_ssl_in] is what the TLS library was given to encrypt.  The configurations
    are those without a replay file, so that no packet id state is shared
    between sessions. *)

From S2P Require Import Prelude Buffer CircList PacketId DataChannel DataTunnel TlsCrypt Reliable ReliableAck ReliableStore ControlChannel ControlWrap KeyExchange.
From stdpp Require Import prelude.
From Stdlib Require Import ZArith Lia ZifyBool.

Local Open Scope Z_scope.

(** ** Addresses (socket.h) *)

Definition FAMILY_INET : Z := 2.
Definition FAMILY_INET6 : Z := 10.
Definition SOCKADDR_SIZE : Z := 28.

Definition sa_family (a : bytes) : Z := be_val (rev (take 2 a)).
Definition sin_port (a : bytes) : bytes := slice a 2 2.
Definition sin_addr (a : bytes) : bytes := slice a 4 4.
Definition sin6_addr (a : bytes) : bytes := slice a 8 16.
Definition addr_clear : bytes := replicate (Z.to_nat SOCKADDR_SIZE) 0.

Definition addr_defined (a : bytes) : bool :=
  if sa_family a =? FAMILY_INET then negb (bool_decide (sin_addr a = replicate 4 0))
  else if sa_family a =? FAMILY_INET6 then negb (bool_decide (sin6_addr a = replicate 16 0))
  else false.
Definition link_socket_actual_defined (a : bytes) : bool := addr_defined a.

(** The family of the second address is not compared. *)
Definition addr_match (a1 a2 : bytes) : outcome bool :=
  if sa_family a1 =? FAMILY_INET then Ret (bool_decide (sin_addr a1 = sin_addr a2))
  else if sa_family a1 =? FAMILY_INET6 then Ret (bool_decide (sin6_addr a1 = sin6_addr a2))
  else Abort.
Definition addr_port_match (a1 a2 : bytes) : outcome bool :=
  if sa_family a1 =? FAMILY_INET then Ret (bool_decide (sin_addr a1 = sin_addr a2) && bool_decide (sin_port a1 = sin_port a2))
  else if sa_family a1 =? FAMILY_INET6 then Ret (bool_decide (sin6_addr a1 = sin6_addr a2) && bool_decide (sin_port a1 = sin_port a2))
  else Abort.
Definition link_socket_actual_match (a1 a2 : bytes) : outcome bool := addr_port_match a1 a2.
Definition addr_match_proto (a1 a2 : bytes) (connection_oriented : bool) : outcome bool :=
  if connection_oriented then addr_match a1 a2 else addr_port_match a1 a2.

(** A list of struct addrinfo: ai_family and the bytes of ai_addr. *)
Fixpoint addrlist_match (a1 : bytes) (l : list (Z * bytes)) : outcome bool :=
  match l with
  | [] => Ret false
  | (_, a2) :: rest =>
      if sa_family a1 =? FAMILY_INET then
        if bool_decide (sin_addr a1 = sin_addr a2) then Ret true else addrlist_match a1 rest
      else if sa_family a1 =? FAMILY_INET6 then
        if bool_decide (sin6_addr a1 = sin6_addr a2) then Ret true else addrlist_match a1 rest
      else Abort
  end.
Fixpoint addrlist_port_match (a1 : bytes) (l : list (Z * bytes)) : outcome bool :=
  match l with
  | [] => Ret false
  | (family, a2) :: rest =>
      if sa_family a1 =? FAMILY_INET then
        if (family =? FAMILY_INET) && bool_decide (sin_addr a1 = sin_addr a2) && bool_decide (sin_port a1 = sin_port a2)
        then Ret true else addrlist_port_match a1 rest
      else if sa_family a1 =? FAMILY_INET6 then
        if (family =? FAMILY_INET6) && bool_decide (sin6_addr a1 = sin6_addr a2) && bool_decide (sin_port a1 = sin_port a2)
        then Ret true else addrlist_port_match a1 rest
      else Abort
  end.
Definition addrlist_match_proto (a1 : bytes) (l : list (Z * bytes)) (connection_oriented : bool) : outcome bool :=
  if connection_oriented then addrlist_match a1 l else addrlist_port_match a1 l.

(** struct link_socket_info with the part of struct link_socket_addr it points
    to; [li_connection_oriented] follows from proto. *)
Record link_socket_info := mklsi {
  li_actual : bytes;
  li_connection_established : bool;
  li_remote_float : bool;
  li_connection_oriented : bool;
  li_remote_list : option (list (Z * bytes))
}.

(** Without the scripts and plugins that are told about the connection. *)
Definition link_socket_connection_initiated (info : link_socket_info) (act : bytes) : link_socket_info :=
  mklsi act true (li_remote_float info) (li_connection_oriented info) (li_remote_list info).

Definition link_socket_set_outgoing_addr (info : link_socket_info) (act : bytes) : outcome link_socket_info :=
  changed ← (if negb (li_connection_established info) then Ret true
             else same ← addr_match_proto act (li_actual info) (li_connection_oriented info); Ret (negb same));
  allowed ← (if negb changed then Ret false
             else if li_remote_float info then Ret true
             else match li_remote_list info with
                  | None => Ret true
                  | Some l => addrlist_match_proto act l (li_connection_oriented info)
                  end);
  if (allowed : bool) then Ret (link_socket_connection_initiated info act) else Ret info.

(** The test of incoming packets, in front of everything else. *)
Definition link_socket_verify_incoming_addr (buf : buffer) (info : link_socket_info) (from : bytes) : outcome bool :=
  if 0 <? blen buf then
    if (sa_family from =? FAMILY_INET6) || (sa_family from =? FAMILY_INET) then
      if negb (link_socket_actual_defined from) then Ret false
      else if li_remote_float info then Ret true
      else match li_remote_list info with
           | None => Ret true
           | Some l => addrlist_match_proto from l (li_connection_oriented info)
           end
    else Ret false
  else Ret false.

Definition link_socket_get_outgoing_addr (buf : buffer) (info : link_socket_info) (act : option bytes) : buffer * option bytes :=
  if 0 <? blen buf then
    if link_socket_actual_defined (li_actual info) then (buf, Some (li_actual info)) else (set_len buf 0, None)
  else (buf, act).

(** ** Key states *)

Definition S_ERROR : Z := -1.
Definition S_UNDEF : Z := 0.
Definition S_INITIAL : Z := 1.
Definition S_PRE_START : Z := 2.
Definition S_START : Z := 3.
Definition S_SENT_KEY : Z := 4.
Definition S_GOT_KEY : Z := 5.
Definition S_ACTIVE : Z := 6.
Definition S_GENERATED_KEYS : Z := 7.

Definition P_CONTROL_SOFT_RESET_V1 : Z := 3.
Definition P_DATA_V1 : Z := 6.
Definition P_DATA_V2 : Z := 9.
Definition P_FIRST_OPCODE : Z := 3.
Definition P_LAST_OPCODE : Z := 11.
Definition P_CONTROL_HARD_RESET_CLIENT_V1 : Z := 1.
Definition P_CONTROL_HARD_RESET_SERVER_V1 : Z := 2.
Definition EARLY_NEG_START : Z := 0x0f000000.

(** The times of a key: 0 is unset. *)
Record key_times := mktimes {
  t_initial : Z;
  t_established : Z;
  t_must_negotiate : Z;
  t_must_die : Z;
  t_peer_last_packet : Z;
  t_auth_deferred_expire : Z
}.
Definition times_clear : key_times := mktimes 0 0 0 0 0 0.

(** The flags of struct crypto_options that matter for sessions. *)
Record crypto_flags := mkflags {
  cf_packet_id_long_form : bool;
  cf_ignore_packet_id : bool;
  cf_key_material_export : bool;
  cf_resend_wkc : bool;
  cf_dynamic_tls_crypt : bool
}.

Definition pid_clear : packet_id := mkpid (mksend 0 0) (mkrec 0 0 0 0 0 0 false None).

Section sessions.
Context {K M : Type} `{!CipherOps K} `{!HmacOps M} `{!KeyInit K M}.

Definition key_ctx_clear : key_ctx K M := mkkey None None [].
Definition co_clear : co K M := mkco key_ctx_clear key_ctx_clear (mkopt pid_clear None false) false.
Definition wrap_clear : @tls_wrap_ctx K M := mkwrap WRAP_NONE co_clear clear_buf key_ctx_clear None clear_buf [].

(** struct key_state.  [k_opt] is crypto_options, [k_initialized] its
    key_ctx_bi.initialized; [k_chan] holds the reliability structures and the
    flag CO_RESEND_WKC. *)
Record key_state := mkkeyst {
  k_state : Z;
  k_key_id : Z;
  k_times : key_times;
  k_initial_opcode : Z;
  k_session_id_remote : bytes;
  k_remote_addr : bytes;
  k_opt : co K M;
  k_initialized : bool;
  k_key_src : option key_source2;
  k_plaintext_read_buf : buffer;
  k_plaintext_write_buf : buffer;
  k_ack_write_buf : buffer;
  k_chan : option ControlChannel.key_state;
  k_paybuf : list bytes;
  k_n_bytes : Z;
  k_n_packets : Z;
  k_authenticated : ks_auth_state;
  k_ssl_in : list bytes
}.
Implicit Types ks : key_state.

Definition sid_clear : bytes := replicate 8 0.
Definition key_clear : key_state :=
  mkkeyst S_UNDEF 0 times_clear 0 sid_clear addr_clear co_clear false None clear_buf clear_buf clear_buf None [] 0 0 KS_AUTH_FALSE [].

Definition k_set_state ks (x : Z) : key_state :=
  mkkeyst x (k_key_id ks) (k_times ks) (k_initial_opcode ks) (k_session_id_remote ks) (k_remote_addr ks) (k_opt ks) (k_initialized ks)
    (k_key_src ks) (k_plaintext_read_buf ks) (k_plaintext_write_buf ks) (k_ack_write_buf ks) (k_chan ks) (k_paybuf ks) (k_n_bytes ks)
    (k_n_packets ks) (k_authenticated ks) (k_ssl_in ks).
Definition k_set_times ks (x : key_times) : key_state :=
  mkkeyst (k_state ks) (k_key_id ks) x (k_initial_opcode ks) (k_session_id_remote ks) (k_remote_addr ks) (k_opt ks) (k_initialized ks)
    (k_key_src ks) (k_plaintext_read_buf ks) (k_plaintext_write_buf ks) (k_ack_write_buf ks) (k_chan ks) (k_paybuf ks) (k_n_bytes ks)
    (k_n_packets ks) (k_authenticated ks) (k_ssl_in ks).
Definition k_set_remote ks (sid addr : bytes) : key_state :=
  mkkeyst (k_state ks) (k_key_id ks) (k_times ks) (k_initial_opcode ks) sid addr (k_opt ks) (k_initialized ks)
    (k_key_src ks) (k_plaintext_read_buf ks) (k_plaintext_write_buf ks) (k_ack_write_buf ks) (k_chan ks) (k_paybuf ks) (k_n_bytes ks)
    (k_n_packets ks) (k_authenticated ks) (k_ssl_in ks).
Definition k_set_opt ks (o : co K M) (init : bool) : key_state :=
  mkkeyst (k_state ks) (k_key_id ks) (k_times ks) (k_initial_opcode ks) (k_session_id_remote ks) (k_remote_addr ks) o init
    (k_key_src ks) (k_plaintext_read_buf ks) (k_plaintext_write_buf ks) (k_ack_write_buf ks) (k_chan ks) (k_paybuf ks) (k_n_bytes ks)
    (k_n_packets ks) (k_authenticated ks) (k_ssl_in ks).
Definition k_set_key_src ks (x : option key_source2) : key_state :=
  mkkeyst (k_state ks) (k_key_id ks) (k_times ks) (k_initial_opcode ks) (k_session_id_remote ks) (k_remote_addr ks) (k_opt ks) (k_initialized ks)
    x (k_plaintext_read_buf ks) (k_plaintext_write_buf ks) (k_ack_write_buf ks) (k_chan ks) (k_paybuf ks) (k_n_bytes ks)
    (k_n_packets ks) (k_authenticated ks) (k_ssl_in ks).
Definition k_set_bufs ks (read write : buffer) : key_state :=
  mkkeyst (k_state ks) (k_key_id ks) (k_times ks) (k_initial_opcode ks) (k_session_id_remote ks) (k_remote_addr ks) (k_opt ks) (k_initialized ks)
    (k_key_src ks) read write (k_ack_write_buf ks) (k_chan ks) (k_paybuf ks) (k_n_bytes ks)
    (k_n_packets ks) (k_authenticated ks) (k_ssl_in ks).
Definition k_set_chan ks (x : ControlChannel.key_state) : key_state :=
  mkkeyst (k_state ks) (k_key_id ks) (k_times ks) (k_initial_opcode ks) (k_session_id_remote ks) (k_remote_addr ks) (k_opt ks) (k_initialized ks)
    (k_key_src ks) (k_plaintext_read_buf ks) (k_plaintext_write_buf ks) (k_ack_write_buf ks) (Some x) (k_paybuf ks) (k_n_bytes ks)
    (k_n_packets ks) (k_authenticated ks) (k_ssl_in ks).
Definition k_set_payload ks (pay ssl : list bytes) : key_state :=
  mkkeyst (k_state ks) (k_key_id ks) (k_times ks) (k_initial_opcode ks) (k_session_id_remote ks) (k_remote_addr ks) (k_opt ks) (k_initialized ks)
    (k_key_src ks) (k_plaintext_read_buf ks) (k_plaintext_write_buf ks) (k_ack_write_buf ks) (k_chan ks) pay (k_n_bytes ks)
    (k_n_packets ks) (k_authenticated ks) ssl.
Definition k_set_counters ks (n_bytes n_packets : Z) : key_state :=
  mkkeyst (k_state ks) (k_key_id ks) (k_times ks) (k_initial_opcode ks) (k_session_id_remote ks) (k_remote_addr ks) (k_opt ks) (k_initialized ks)
    (k_key_src ks) (k_plaintext_read_buf ks) (k_plaintext_write_buf ks) (k_ack_write_buf ks) (k_chan ks) (k_paybuf ks) n_bytes
    n_packets (k_authenticated ks) (k_ssl_in ks).
Definition k_set_authenticated ks (a : ks_auth_state) : key_state :=
  mkkeyst (k_state ks) (k_key_id ks) (k_times ks) (k_initial_opcode ks) (k_session_id_remote ks) (k_remote_addr ks) (k_opt ks) (k_initialized ks)
    (k_key_src ks) (k_plaintext_read_buf ks) (k_plaintext_write_buf ks) (k_ack_write_buf ks) (k_chan ks) (k_paybuf ks) (k_n_bytes ks)
    (k_n_packets ks) a (k_ssl_in ks).

Definition t_set_must_die (t : key_times) (x : Z) : key_times :=
  mktimes (t_initial t) (t_established t) (t_must_negotiate t) x (t_peer_last_packet t) (t_auth_deferred_expire t).
Definition t_set_peer_last (t : key_times) (x : Z) : key_times :=
  mktimes (t_initial t) (t_established t) (t_must_negotiate t) (t_must_die t) x (t_auth_deferred_expire t).

(** ** Options and sessions *)

(** The members of struct tls_options that the session code reads.
    [o_cipher_insecure] is cipher_kt_insecure of the data cipher. *)
Record tls_options := mkopts {
  o_server : bool;
  o_mode_server : bool;                 (** mode == MODE_SERVER *)
  o_tls_crypt_v2 : bool;
  o_xmit_hold : bool;
  o_replay : bool;
  o_replay_window : Z;
  o_replay_time : Z;
  o_single_session : bool;
  o_transition_window : Z;
  o_handshake_window : Z;
  o_packet_timeout : Z;
  o_renegotiate_bytes : Z;
  o_renegotiate_packets : Z;
  o_renegotiate_seconds : Z;
  o_frame : frame;
  o_tls_wrap : @tls_wrap_ctx K M;
  o_key_type : key_type;
  o_cipher_insecure : bool;
  o_crypto_flags : crypto_flags
}.
Implicit Types o : tls_options.

(** struct tls_session; [ts_primary] is key[KS_PRIMARY], [ts_lame]
    key[KS_LAME_DUCK]. *)
Record tls_session := mksess {
  ts_burst : bool;
  ts_tls_wrap : @tls_wrap_ctx K M;
  ts_tls_wrap_reneg : @tls_wrap_ctx K M;
  ts_initial_opcode : Z;
  ts_session_id : bytes;
  ts_key_id : Z;
  ts_untrusted_addr : bytes;
  ts_primary : key_state;
  ts_lame : key_state
}.
Implicit Types s : tls_session.

Definition session_clear : tls_session :=
  mksess false wrap_clear wrap_clear 0 sid_clear 0 addr_clear key_clear key_clear.

Definition ts_set_primary s ks : tls_session :=
  mksess (ts_burst s) (ts_tls_wrap s) (ts_tls_wrap_reneg s) (ts_initial_opcode s) (ts_session_id s) (ts_key_id s) (ts_untrusted_addr s) ks (ts_lame s).
Definition ts_set_lame s ks : tls_session :=
  mksess (ts_burst s) (ts_tls_wrap s) (ts_tls_wrap_reneg s) (ts_initial_opcode s) (ts_session_id s) (ts_key_id s) (ts_untrusted_addr s) (ts_primary s) ks.
Definition ts_set_wraps s (w r : @tls_wrap_ctx K M) : tls_session :=
  mksess (ts_burst s) w r (ts_initial_opcode s) (ts_session_id s) (ts_key_id s) (ts_untrusted_addr s) (ts_primary s) (ts_lame s).
Definition ts_set_burst s (b : bool) : tls_session :=
  mksess b (ts_tls_wrap s) (ts_tls_wrap_reneg s) (ts_initial_opcode s) (ts_session_id s) (ts_key_id s) (ts_untrusted_addr s) (ts_primary s) (ts_lame s).
Definition ts_set_untrusted s (a : bytes) : tls_session :=
  mksess (ts_burst s) (ts_tls_wrap s) (ts_tls_wrap_reneg s) (ts_initial_opcode s) (ts_session_id s) (ts_key_id s) a (ts_primary s) (ts_lame s).
Definition ts_set_session_id s (sid : bytes) : tls_session :=
  mksess (ts_burst s) (ts_tls_wrap s) (ts_tls_wrap_reneg s) (ts_initial_opcode s) sid (ts_key_id s) (ts_untrusted_addr s) (ts_primary s) (ts_lame s).

(** The key id after [key_id]: 0 is only the first key's. *)
Definition next_key_id (key_id : Z) : Z :=
  let k := Z.land (key_id + 1) P_KEY_ID_MASK in if k =? 0 then 1 else k.

(** The session and the new key. *)
Definition key_state_init o s : outcome (tls_session * key_state) :=
  let key_id := ts_key_id s in
  let f := o_frame o in
  read_buf ← alloc_buf TLS_CHANNEL_BUF_SIZE;
  write_buf ← alloc_buf TLS_CHANNEL_BUF_SIZE;
  ack_buf ← alloc_buf (BUF_SIZE f);
  send ← reliable_init (BUF_SIZE f) (f_headroom f) TLS_RELIABLE_N_SEND_BUFFERS (if negb (key_id =? 0) then false else o_xmit_hold o);
  rec ← reliable_init (BUF_SIZE f) (f_headroom f) TLS_RELIABLE_N_REC_BUFFERS false;
  let send := reliable_set_timeout send (o_packet_timeout o) in
  pid ← (if o_replay o then packet_id_init (o_replay_window o) (o_replay_time o) else Ret pid_clear);
  let opt := mkco key_ctx_clear key_ctx_clear (mkopt pid None false) false in
  let ks := mkkeyst S_INITIAL key_id times_clear (ts_initial_opcode s) sid_clear addr_clear opt false (Some src2_clear) read_buf write_buf
              ack_buf (Some (mkks send rec ack_clear ack_clear false)) [] 0 0 KS_AUTH_FALSE [] in
  Ret (mksess (ts_burst s) (ts_tls_wrap s) (ts_tls_wrap_reneg s) P_CONTROL_SOFT_RESET_V1 (ts_session_id s) (next_key_id key_id)
         (ts_untrusted_addr s) (ts_primary s) (ts_lame s), ks).

Definition key_state_free ks (clear : bool) : key_state :=
  if clear then key_clear
  else mkkeyst S_UNDEF (k_key_id ks) (k_times ks) (k_initial_opcode ks) (k_session_id_remote ks) (k_remote_addr ks)
         (mkco key_ctx_clear key_ctx_clear (mkopt pid_clear (opt_pid_persist (co_replay (k_opt ks))) (opt_long_form (co_replay (k_opt ks))))
            (co_ignore_packet_id (k_opt ks))) false None clear_buf clear_buf clear_buf None [] (k_n_bytes ks) (k_n_packets ks)
         (k_authenticated ks) [].

(** [sid] is what the loop around [session_id_random] ends with. *)
Definition tls_session_init o (now : Z) (sid : bytes) : outcome tls_session :=
  let initial_opcode := if o_server o then P_CONTROL_HARD_RESET_SERVER_V2
                        else if o_tls_crypt_v2 o then P_CONTROL_HARD_RESET_CLIENT_V3 else P_CONTROL_HARD_RESET_CLIENT_V2 in
  work ← alloc_buf (BUF_SIZE (o_frame o));
  pid ← packet_id_init (o_replay_window o) (o_replay_time o);
  let pid := if o_tls_crypt_v2 o then mkpid (mksend EARLY_NEG_START now) (pid_rec pid) else pid in
  let w := o_tls_wrap o in
  let r := co_replay (tw_opt w) in
  let pid := match opt_pid_persist r with Some p => packet_id_persist_load_obj p pid | None => pid end in
  let wopt := mkco (co_encrypt (tw_opt w)) (co_decrypt (tw_opt w)) (mkopt pid (opt_pid_persist r) (opt_long_form r)) (co_ignore_packet_id (tw_opt w)) in
  let s := mksess false (tw_set_work (tw_set_opt w wopt) work) wrap_clear initial_opcode sid 0 addr_clear key_clear key_clear in
  '(s, ks) ← key_state_init o s;
  Ret (ts_set_primary s ks).

(** With clear = true; the callers that pass false overwrite the session. *)
Definition tls_session_free s : tls_session := session_clear.

(** The lame duck is freed and overwritten. *)
Definition key_state_soft_reset o (now : Z) s : outcome tls_session :=
  let ks := ts_primary s in
  let ks := k_set_times ks (t_set_must_die (k_times ks) (now + o_transition_window o)) in
  let s := ts_set_lame s ks in
  '(s, new) ← key_state_init o s;
  Ret (ts_set_primary s (k_set_remote new (k_session_id_remote ks) (k_remote_addr ks))).

Definition compute_earliest_wakeup (earliest seconds_from_now : Z) : Z :=
  let earliest := if seconds_from_now <? earliest then seconds_from_now else earliest in
  if earliest <? 0 then 0 else earliest.

(** The result and [*wakeup]. *)
Definition lame_duck_must_die (now : Z) s (wakeup : Z) : outcome (bool * Z) :=
  let lame := ts_lame s in
  if S_INITIAL <=? k_state lame then
    ASSERT (negb (t_must_die (k_times lame) =? 0));;
    if now <? t_must_die (k_times lame) then Ret (false, compute_earliest_wakeup wakeup (t_must_die (k_times lame) - now))
    else Ret (true, wakeup)
  else Ret (k_state lame =? S_ERROR, wakeup).

(** ** The first packet *)

Definition auth_deferred_expire_window o : Z :=
  let ret := o_handshake_window o in
  let r2 := o_renegotiate_seconds o ÷ 2 in
  if negb (o_renegotiate_seconds o =? 0) && (r2 <? ret) then r2 else ret.

Definition session_move_pre_start o (now : Z) ks (skip_initial_send : bool) : outcome (key_state * bool) :=
  ch ← deref (k_chan ks);
  '(send, ok) ← ControlChannel.session_move_pre_start (ks_send_reliable ch) (k_initial_opcode ks) skip_initial_send;
  let ks := k_set_chan ks (ks_set_send ch send) in
  if negb ok then Ret (ks, false)
  else
    let t := k_times ks in
    let ks := k_set_times ks (mktimes now (t_established t) (now + o_handshake_window o) (t_must_die t) (t_peer_last_packet t)
                                (now + auth_deferred_expire_window o)) in
    Ret (k_set_state ks S_PRE_START, true).

Definition session_skip_to_pre_start o (now : Z) s (peer_session_id server_session_id from : bytes) : outcome (tls_session * bool) :=
  let ks := k_set_remote (ts_primary s) peer_session_id from in
  let s := ts_set_burst (ts_set_untrusted (ts_set_session_id s server_session_id) from) true in
  ch ← deref (k_chan ks);
  let ks := k_set_chan ks (mkks (ks_send_reliable ch) (rel_set_packet_id (ks_rec_reliable ch) 1) (ks_rec_ack ch) (ks_lru_acks ch) (ks_resend_wkc ch)) in
  let w := ts_tls_wrap s in
  let p := pid_send (pid_of (tw_opt w)) in
  let s := ts_set_wraps s (tw_set_opt w (set_pid_send (tw_opt w) (mksend 1 (send_time p)))) (ts_tls_wrap_reneg s) in
  '(ks, ok) ← session_move_pre_start o now ks true;
  Ret (ts_set_primary s ks, ok).

(** ** Wrapping contexts that can send and receive

    [b] bounds the packet ids that were used, so that none of the counters can
    wrap. *)

Definition id_base : Z := 2 ^ 28.

Record wrap_inv (f : frame) (b : Z) (ctx : @tls_wrap_ctx K M) : Prop := {
  wi_recv : exists H, wrap_ready ctx H;
  wi_send : exists rctx H, wrap_peers ctx rctx /\ wrap_ready rctx H;
  wi_server_key : kc_cipher (tw_server_key ctx) = None;
  wi_work : tw_mode ctx = WRAP_CRYPT -> (exists blk, buf_ok (tw_work ctx) blk) /\ bcapacity (tw_work ctx) = BUF_SIZE f;
  wi_mac : tw_mode ctx = WRAP_AUTH -> 0 <= mac_size (kc_hmac (co_encrypt (tw_opt ctx))) <= f_headroom f - 62;
  wi_wkc : forall wb, tw_wkc ctx = Some wb -> exists hd c tl, holds wb hd c tl /\ zlen c <= TLS_CRYPT_V2_MAX_WKC_LEN;
  wi_id : 0 <= send_id (pid_send (pid_of (tw_opt ctx))) <= id_base + b
}.

Definition wkc_length (ctx : @tls_wrap_ctx K M) : Z := match tw_wkc ctx with Some wb => buf_len wb | None => 0 end.

Lemma wkc_length_range f b ctx : wrap_inv f b ctx -> 0 <= wkc_length ctx <= TLS_CRYPT_V2_MAX_WKC_LEN.
Proof.
  intros Hi. unfold wkc_length. destruct (tw_wkc ctx) as [wb|] eqn:E; [|unfold TLS_CRYPT_V2_MAX_WKC_LEN; lia].
  destruct (wi_wkc _ _ _ Hi wb E) as (hd & c & tl & Hh & Hl). destruct (buf_len_holds _ _ _ _ Hh) as [-> _]. lia.
Qed.

Lemma wrap_inv_mono f b b' ctx : wrap_inv f b ctx -> b <= b' -> wrap_inv f b' ctx.
Proof. intros [] Hb. split; try done. lia. Qed.

Lemma wrap_clear_inv f b : 0 <= b -> wrap_inv f b wrap_clear.
Proof. intros Hb. split; try done; [by exists []|exists wrap_clear, []; done|unfold id_base; simpl; lia]. Qed.

(** The next id of the sender. *)
Lemma wrap_next_id f b ctx now :
  wrap_inv f b ctx -> b <= 2 ^ 31 -> exists p', packet_id_send_update now (pid_send (pid_of (tw_opt ctx))) true = (p', true) /\
    0 <= send_id p' <= id_base + (b + 1).
Proof.
  intros Hi Hb. pose proof (wi_id _ _ _ Hi) as Hid. unfold packet_id_send_update, PACKET_ID_MAX, id_base in *.
  rewrite (proj2 (Z.eqb_neq _ _)) by lia. eexists. split; [done|]. simpl. rewrite u32_small; lia.
Qed.

Lemma set_pid_send_ready ctx H p' w :
  wrap_ready ctx H -> wrap_ready (tw_set_work (tw_set_opt ctx (set_pid_send (tw_opt ctx) p')) w) H /\
                      wrap_ready (tw_set_opt ctx (set_pid_send (tw_opt ctx) p')) H.
Proof.
  unfold wrap_ready. cbn [tw_mode tw_opt tw_set_work tw_set_opt]. destruct (tw_mode ctx); [done| |].
  - intros ([H1 H2 H3 H4] & H5 & H6 & H7). by split.
  - intros (k & m & [H1 H2 H3 H4 H5]). split; by exists k, m.
Qed.

Lemma set_pid_send_peers ctx rctx p' w :
  send_ok p' -> wrap_peers ctx rctx -> wrap_peers (tw_set_work (tw_set_opt ctx (set_pid_send (tw_opt ctx) p')) w) rctx /\
                          wrap_peers (tw_set_opt ctx (set_pid_send (tw_opt ctx) p')) rctx.
Proof.
  intros Hp. unfold wrap_peers. cbn [tw_mode tw_opt tw_set_work tw_set_opt]. intros [Hm Hc]. destruct (tw_mode ctx); [done| |].
  - destruct Hc as ([H1 H2 H3 H4 H5] & H6 & H7 & H8 & H9 & H10). split; (split; [done|]); split_and!; done.
  - destruct Hc as (ek & dk & m & m' & [H1 H2 H3 H4 H5 H6 H7] & Hc). split; (split; [done|]); exists ek, dk, m, m'; by split.
Qed.

(** The invariant after a packet was sent. *)
Lemma wrap_inv_sent f b ctx p' :
  wrap_inv f b ctx -> send_ok p' -> 0 <= send_id p' <= id_base + (b + 1) ->
  wrap_inv f (b + 1) (tw_set_opt ctx (set_pid_send (tw_opt ctx) p')) /\
  forall w, (exists blk, buf_ok w blk) -> bcapacity w = bcapacity (tw_work ctx) ->
    wrap_inv f (b + 1) (tw_set_work (tw_set_opt ctx (set_pid_send (tw_opt ctx) p')) w).
Proof.
  intros [(H & Hr) (rctx & H' & Hp & Hr') Hsk Hw Hm Hk Hid] Hok Hid'.
  split; [|intros w Hwok Hcap]; (split; [| |done| |done|done|done]).
  - exists H. by apply (set_pid_send_ready ctx H p' clear_buf).
  - exists rctx, H'. split; [by apply (set_pid_send_peers ctx rctx p' clear_buf)|done].
  - done.
  - exists H. by apply set_pid_send_ready.
  - exists rctx, H'. split; [by apply set_pid_send_peers|done].
  - intros E. destruct (Hw E) as [_ <-]. done.
Qed.

(** Sending never fails: in every mode, with room for what the mode adds. *)
Lemma wrap_control_total f b ctx now rnd header sid buf hd pt tl :
  wrap_inv f b ctx -> b <= 2 ^ 31 -> u32_ok now -> is_byte header -> zlen sid = 8 -> Forall is_byte sid -> holds buf hd pt tl ->
  17 + (if decide (tw_mode ctx = WRAP_AUTH) then mac_size (kc_hmac (co_encrypt (tw_opt ctx))) else 0) <= hd ->
  hd + 65 + zlen pt + (if has_wkc (Z.shiftr header P_OPCODE_SHIFT) then wkc_length ctx else 0) <= BUF_SIZE f ->
  (has_wkc (Z.shiftr header P_OPCODE_SHIFT) = true -> is_Some (tw_wkc ctx)) ->
  exists ctx' b', tls_wrap_control now rnd ctx header buf sid = Ret (ctx', b') /\ 0 < blen b' /\ buf_valid b' = true /\
    wrap_inv f (b + 1) ctx' /\ tw_mode ctx' = tw_mode ctx /\ tw_wkc ctx' = tw_wkc ctx.
Proof.
  intros Hi Hb Hnow Hh Hsl Hsb Hbuf Hroom Hwork Hwkc. destruct (wrap_next_id f b ctx now Hi Hb) as (p' & Hupd & Hid').
  pose proof (wi_send _ _ _ Hi) as (rctx & H & Hp & Hr).
  assert (Hpos : forall (w : buffer) h c t, holds w h ((header :: sid) ++ c) t -> 0 < blen w /\ buf_valid w = true).
  { intros w h c t Hw. holds_facts Hw. rewrite length_app in *. simpl in *. split; [lia|done]. }
  destruct (tw_mode ctx) eqn:Em.
  - rewrite decide_False in Hroom by done. unfold tls_wrap_control. rewrite Em. destruct (prepend_opcode _ _ _ _ header sid Hbuf Hh Hsl Hsb ltac:(lia)) as (b1 & -> & Hb1).
    cbn [mbind outcome_bind]. exists ctx, b1. destruct (Hpos _ _ _ _ Hb1). split_and!; try done. by eapply wrap_inv_mono; [exact Hi|lia].
  - assert (Hpid : send_ok p').
    { pose proof Hp as [_ Hp2]. rewrite Em in Hp2. destruct Hp2 as (Hready & _).
      pose proof (packet_id_send_update_spec now _ true (er_send _ Hready) Hnow) as Hspec. rewrite Hupd in Hspec. apply Hspec. }
    destruct (wrap_auth_spec now rnd ctx rctx H header sid p' buf hd pt tl Hp Hr Em Hh Hsl Hsb Hnow Hupd Hbuf) as (b1 & hd' & tl' & rest & -> & Hb1 & _).
    { unfold wrap_room. rewrite Em. rewrite decide_True in Hroom by done. lia. }
    eexists _, b1. split; [done|]. destruct (Hpos _ _ _ _ Hb1). split_and!; try done; try exact Em. exact (proj1 (wrap_inv_sent f b ctx p' Hi Hpid Hid')).
  - pose proof Hp as [_ Hp2]. rewrite Em in Hp2. destruct Hp2 as (ek & dk & m & m' & Hsend & _ & _ & Hpair & Hsame & _).
    assert (Hpid : send_ok p').
    { pose proof (packet_id_send_update_spec now _ true (tsn_send _ _ _ Hsend) Hnow) as Hspec. rewrite Hupd in Hspec. apply Hspec. }
    destruct (wi_work _ _ _ Hi Em) as [Hwok Hcap].
    assert (Hk : exists hdk wkc tlk, zlen wkc = (if has_wkc (Z.shiftr header P_OPCODE_SHIFT) then wkc_length ctx else 0) /\
      if has_wkc (Z.shiftr header P_OPCODE_SHIFT) then exists wb, tw_wkc ctx = Some wb /\ holds wb hdk wkc tlk else wkc = []).
    { destruct (has_wkc _); [|by exists 0, [], 0]. destruct (Hwkc eq_refl) as [wb Ewb]. destruct (wi_wkc _ _ _ Hi wb Ewb) as (hdk & c & tlk & Hh' & _).
      exists hdk, c, tlk. unfold wkc_length. rewrite Ewb. destruct (buf_len_holds _ _ _ _ Hh') as [-> _]. split; [done|]. by exists wb. }
    destruct Hk as (hdk & wkc & tlk & Hkl & Hk).
    destruct (wrap_crypt_spec now rnd ctx ek dk m m' header sid p' buf hd pt tl hdk wkc tlk Hsend Hpair Hsame Em Hh Hsl Hsb Hnow Hupd Hbuf)
      as (ctx' & b1 & rest & tl' & -> & -> & Hcap' & Hb1 & _); [|done|].
    { unfold wrap_room. rewrite Em, Hcap. split; [done|]. change tls_crypt_buf_overhead with 56. lia. }
    rewrite <- app_assoc in Hb1. eexists _, b1. split; [done|]. destruct (Hpos _ _ _ _ Hb1). split_and!; try done; try exact Em.
    apply (proj2 (wrap_inv_sent f b ctx p' Hi Hpid Hid')); [|done]. destruct Hb1 as (blk & Hok & _). by exists blk.
Qed.

(** Receiving never fails, whatever the packet is. *)
Lemma check_replay_sender now (opt opt' : co K M) pin ok :
  check_replay now opt pin = Ret (opt', ok) -> co_encrypt opt' = co_encrypt opt /\ pid_send (pid_of opt') = pid_send (pid_of opt) /\
    opt_long_form (co_replay opt') = opt_long_form (co_replay opt).
Proof.
  unfold check_replay, crypto_check_replay, set_replay, pid_of. intros H. apply bind_Ret_inv in H as ([r ok'] & H & [= <- <-]).
  apply bind_Ret_inv in H as (q & _ & H). apply bind_Ret_inv in H as ([q' b] & _ & H).
  destruct b; [apply bind_Ret_inv in H as (q'' & _ & H)|]; by injection H as <- <-.
Qed.

Lemma wrap_ready_initialized ctx H : wrap_ready ctx H -> tw_mode ctx <> WRAP_NONE -> packet_id_initialized (pid_of (tw_opt ctx)) = true.
Proof.
  unfold wrap_ready, packet_id_initialized, pid_of. destruct (tw_mode ctx); [done| |]; intros Hr _.
  - destruct Hr as ([Hr _ _ _] & _). apply Hr.
  - destruct Hr as (k & m & [Hr _ _ _ _]). apply Hr.
Qed.

Lemma wrap_read_total f b ctx now junk verify buf hd pkt tl :
  wrap_inv f b ctx -> holds buf hd pkt tl -> pkt <> [] -> Forall is_byte junk -> zlen pkt + tl <= zlen junk -> 1 < now ->
  exists b' ctx' ok, read_control_auth now junk verify buf ctx = Ret (b', ctx', ok) /\ wrap_inv f b ctx' /\
    tw_mode ctx' = tw_mode ctx /\ tw_wkc ctx' = tw_wkc ctx /\ (ok = true -> exists hd' c tl', holds b' hd' c tl').
Proof.
  intros Hi Hb Hne Hj Hjl Hnow. destruct (wi_recv _ _ _ Hi) as (H & Hr).
  destruct (read_any_packet now junk verify buf ctx H hd pkt tl Hr Hb Hne Hj Hjl Hnow (or_intror (wi_server_key _ _ _ Hi)))
    as (b' & ctx' & ok & H' & -> & Hr' & _ & _ & Hctx & Hres).
  exists b', ctx', ok. split; [done|].
  assert (Hok : ok = true -> exists hd' c tl', holds b' hd' c tl').
  { intros ->. destruct Hres as (pt & _ & hd' & tl' & _ & Hh & _). eauto. }
  destruct Hctx as [->|(opt' & pin & r & Hchk & ->)]; [by split_and!|]. split; [|by split_and!].
  destruct (check_replay_sender _ _ _ _ _ Hchk) as (He & Hp & Hlf). destruct Hi as [_ (rctx & H2 & Hpeer & Hr2) Hsk Hw Hm Hk Hid].
  split; cbn [tw_mode tw_opt tw_set_opt tw_work tw_server_key tw_wkc]; try done.
  - by exists H'.
  - exists rctx, H2. split; [|done]. unfold wrap_peers in *. cbn [tw_mode tw_opt tw_set_opt]. rewrite He, Hlf.
    destruct Hpeer as [Hm' Hpeer]. split; [done|]. pose proof (wrap_ready_initialized _ _ Hr') as Hini. cbn [tw_mode tw_opt tw_set_opt] in Hini.
    destruct (tw_mode ctx); [done| |].
    + destruct Hpeer as ([P1 P2 P3 P4 P5] & P). split; [|done]. split; rewrite ?He, ?Hp; try done. by apply Hini.
    + destruct Hpeer as (ek & dk & m & m' & [P1 P2 P3 P4 P5 P6 P7] & P). exists ek, dk, m, m'. split; [|done].
      split; rewrite ?He, ?Hp; try done. by apply Hini.
  - by rewrite He.
  - by rewrite Hp.
Qed.

(** ** Writing a control packet *)

(** The session in the form [ControlWrap.write_control_auth] takes it. *)
Definition wire o s : @ControlWrap.tls_session K M :=
  mksession (ts_tls_wrap s) (ts_tls_wrap_reneg s) (ts_session_id s) (o_server o) (cf_key_material_export (o_crypto_flags o)).

(** [write_control_auth]: session, key and packet; the packet goes to the
    remote address of the key. *)
Definition write_control_auth o (now : Z) (rnd : bytes) s ks (buf : buffer) (opcode max_ack : Z) (prepend_ack : bool)
  : outcome (tls_session * key_state * buffer) :=
  ch ← deref (k_chan ks);
  '(w, rec_ack, lru_acks, buf) ← ControlWrap.write_control_auth now rnd (wire o s) (k_key_id ks) (ks_rec_ack ch) (ks_lru_acks ch)
       (k_session_id_remote ks) (link_socket_actual_defined (k_remote_addr ks)) buf opcode max_ack prepend_ack;
  Ret (ts_set_wraps s (s_tls_wrap w) (s_tls_wrap_reneg w),
       k_set_chan ks (mkks (ks_send_reliable ch) (ks_rec_reliable ch) rec_ack lru_acks (ks_resend_wkc ch)), buf).

(** The context that a key's packets use. *)
Definition uses_reneg s (key_id : Z) : bool := (0 <? key_id) && bool_decide (tw_mode (ts_tls_wrap_reneg s) = WRAP_CRYPT).
Definition key_wrap s (key_id : Z) : @tls_wrap_ctx K M := if uses_reneg s key_id then ts_tls_wrap_reneg s else ts_tls_wrap s.

Record acks_ok (rec_ack lru_acks : reliable_ack) (remote : bytes) : Prop := {
  ao_rec : ack_wf rec_ack /\ NoDup (ids rec_ack);
  ao_lru : ack_wf lru_acks /\ NoDup (ids lru_acks);
  ao_sid : sid_ok remote \/ (ids rec_ack = [] /\ ids lru_acks = [])
}.

(** Without acknowledgements the session id of the peer is not looked at. *)
Lemma ack_write_no_sid a mru buf sid sid' max prepend :
  ack_wf a -> ack_wf mru -> ids a = [] -> ids mru = [] -> 0 <= max ->
  reliable_ack_write a mru buf sid max prepend = reliable_ack_write a mru buf sid' max prepend.
Proof.
  intros Ha Hm Hia Him Hmax. pose proof (zlen_ids _ Ha) as Hla. pose proof (zlen_ids _ Hm) as Hlm. rewrite Hia in Hla. rewrite Him in Hlm. simpl in Hla, Hlm.
  destruct a as [la pa], mru as [lm pm]. cbn [ack_len ack_pid] in Hla, Hlm. subst la lm.
  unfold reliable_ack_write, copy_acks_to_mru. cbn [ack_len ack_pid length]. change (Z.of_nat 0) with 0. change (u8 0) with 0.
  assert (Hn : (if max <? 0 then u8 max else 0) = 0) by (destruct (max <? 0) eqn:E; [lia|done]). cbv zeta. rewrite Hn.
  change (ASSERT (0 <=? 0)) with (Ret ()). change (Z.to_nat 0) with 0%nat. cbn [copy_acks_loop mbind outcome_bind ack_len].
  assert (Et : u8 (min_int max 0) = 0) by (unfold min_int; destruct (max <? 0) eqn:E; [lia|done]). by rewrite Et.
Qed.

Lemma demo_session_id_ok : sid_ok [1; 2; 3; 4; 5; 6; 7; 8].
Proof. split; [done|]. split; [|done]. by apply all_bytes_spec. Qed.

Lemma ack_write_total a mru remote buf hd (c : bytes) tl max (prepend : bool) :
  acks_ok a mru remote -> 0 <= max <= 8 -> holds buf hd c tl -> 41 <= (if prepend then hd else tl) ->
  exists a' mru' b' (c' : bytes), reliable_ack_write a mru buf remote max prepend = Ret (a', mru', b', true) /\ acks_ok a' mru' remote /\
    holds b' (if prepend then hd - (zlen c' - zlen c) else hd) c' (if prepend then tl else tl - (zlen c' - zlen c)) /\
    0 <= zlen c' - zlen c <= 41.
Proof.
  intros [[Ha Hda] [Hm Hdm] Hsid] Hmax Hb Hroom.
  assert (Hgo : forall sid, sid_ok sid -> exists a' mru' b' (c' : bytes), reliable_ack_write a mru buf sid max prepend = Ret (a', mru', b', true) /\
    (ack_wf a' /\ NoDup (ids a')) /\ (ack_wf mru' /\ NoDup (ids mru')) /\ (ids a = [] /\ ids mru = [] -> ids a' = [] /\ ids mru' = []) /\
    holds b' (if prepend then hd - (zlen c' - zlen c) else hd) c' (if prepend then tl else tl - (zlen c' - zlen c)) /\ 0 <= zlen c' - zlen c <= 41).
  { intros sid Hs. pose proof (zlen_ack_sent a mru max Hm) as Hl.
    assert (Hsz : 0 <= ACK_SIZE (zlen (ack_sent a mru max)) <= 41) by (unfold ACK_SIZE, SID_SIZE; destruct (_ =? 0); lia).
    destruct (reliable_ack_write_spec a mru buf hd tl c sid max prepend Ha Hm Hdm ltac:(lia) Hb Hs) as (a' & mru' & b' & -> & Ha' & Hia & Hm' & Hdm' & Him & Hb');
      [lia|]. pose proof (zlen_ack_record (ack_sent a mru max) sid Hs) as Hrl.
    exists a', mru', b', (if prepend then ack_record (ack_sent a mru max) sid ++ c else c ++ ack_record (ack_sent a mru max) sid).
    assert (Hcl : zlen (if prepend then ack_record (ack_sent a mru max) sid ++ c else c ++ ack_record (ack_sent a mru max) sid) - zlen c
                  = ACK_SIZE (zlen (ack_sent a mru max))) by (destruct prepend; rewrite length_app; lia).
    rewrite Hcl. split_and!; try done; try lia.
    - rewrite Hia. eapply sublist_NoDup; [exact Hda|apply sublist_drop].
    - intros [E1 E2]. rewrite Hia, Him, E1. split; [by rewrite drop_nil|]. unfold ack_mru. by rewrite E1, take_nil, E2. }
  destruct Hsid as [Hs|[E1 E2]].
  - destruct (Hgo remote Hs) as (a' & mru' & b' & c' & Hw & H1 & H2 & _ & H3 & H4). exists a', mru', b', c'. split_and!; try done; try lia. split; auto.
  - destruct (Hgo _ demo_session_id_ok) as (a' & mru' & b' & c' & Hw & H1 & H2 & Hnil & H3 & H4).
    rewrite (ack_write_no_sid a mru buf remote [1; 2; 3; 4; 5; 6; 7; 8] max prepend Ha Hm E1 E2 ltac:(lia)), Hw. exists a', mru', b', c'. split_and!; try done; try lia. split; auto.
Qed.

Lemma wire_get o s key_id : tls_session_get_tls_wrap (wire o s) key_id = key_wrap s key_id.
Proof. done. Qed.

Lemma wire_set o s key_id ctx :
  let w := tls_session_set_tls_wrap (wire o s) key_id ctx in
  ts_set_wraps s (s_tls_wrap w) (s_tls_wrap_reneg w) =
    if uses_reneg s key_id then ts_set_wraps s (ts_tls_wrap s) ctx else ts_set_wraps s ctx (ts_tls_wrap_reneg s).
Proof. unfold tls_session_set_tls_wrap, uses_reneg, wire. cbn [s_tls_wrap_reneg s_tls_wrap]. by destruct (_ && _). Qed.

(** Both contexts of a session. *)
Definition wraps_inv (f : frame) (b : Z) s : Prop := wrap_inv f b (ts_tls_wrap s) /\ wrap_inv f b (ts_tls_wrap_reneg s).

(** What a packet sent or received may change of a session. *)
Record same_session s s' : Prop := {
  ss_burst : ts_burst s' = ts_burst s;
  ss_modes : tw_mode (ts_tls_wrap s') = tw_mode (ts_tls_wrap s) /\ tw_mode (ts_tls_wrap_reneg s') = tw_mode (ts_tls_wrap_reneg s);
  ss_wkc : tw_wkc (ts_tls_wrap s') = tw_wkc (ts_tls_wrap s) /\ tw_wkc (ts_tls_wrap_reneg s') = tw_wkc (ts_tls_wrap_reneg s);
  ss_opcode : ts_initial_opcode s' = ts_initial_opcode s;
  ss_sid : ts_session_id s' = ts_session_id s;
  ss_key_id : ts_key_id s' = ts_key_id s;
  ss_addr : ts_untrusted_addr s' = ts_untrusted_addr s
}.

(** A packet of a key whose wrapped client key, if it goes along, is there. *)
Definition wkc_ready s (key_id : Z) : Prop := is_Some (tw_wkc (ts_tls_wrap s)) /\ uses_reneg s key_id = false.

Lemma write_control_auth_total o f b now rnd s ks (ch : ControlChannel.key_state) buf hd (c : bytes) tl opcode max (prepend : bool) :
  frame_ok f -> wraps_inv f b s -> b <= 2 ^ 31 -> u32_ok now -> sid_ok (ts_session_id s) ->
  k_chan ks = Some ch -> acks_ok (ks_rec_ack ch) (ks_lru_acks ch) (k_session_id_remote ks) -> 0 <= k_key_id ks < 8 ->
  link_socket_actual_defined (k_remote_addr ks) = true ->
  0 <= opcode < 32 -> 0 <= max <= 8 -> holds buf hd c tl -> hd <= f_headroom f <= hd + 4 -> (prepend = false -> 41 <= tl /\ hd = f_headroom f) ->
  zlen c + wkc_part opcode (wkc_length (ts_tls_wrap s)) <= 4 + f_payload_size f ->
  (has_wkc opcode = true -> wkc_ready s (k_key_id ks)) ->
  exists s' (ch' : ControlChannel.key_state) b', write_control_auth o now rnd s ks buf opcode max prepend = Ret (s', k_set_chan ks ch', b') /\ 0 < blen b' /\ buf_valid b' = true /\
    wraps_inv f (b + 1) s' /\ same_session s s' /\ ts_primary s' = ts_primary s /\ ts_lame s' = ts_lame s /\
    acks_ok (ks_rec_ack ch') (ks_lru_acks ch') (k_session_id_remote ks) /\ ks_send_reliable ch' = ks_send_reliable ch /\
    ks_rec_reliable ch' = ks_rec_reliable ch /\ ks_resend_wkc ch' = ks_resend_wkc ch.
Proof.
  intros Hf [Hi1 Hi2] Hb Hnow (Hsl & Hsb & _) Hch Hacks Hkid Hdef Hop Hmax Hbuf Hhd Hpre Hfit Hwkc.
  unfold write_control_auth. rewrite Hch. cbn [deref mbind outcome_bind]. unfold ControlWrap.write_control_auth. rewrite Hdef.
  cbn [ASSERT mbind outcome_bind]. match goal with |- context [reliable_ack_write _ _ _ _ ?m _] => set (max' := m) end.
  assert (Hmax' : 0 <= max' <= 8) by (unfold max', min_int; repeat case_match; lia). clearbody max'. destruct Hf as (Hh1 & Hh2 & _).
  destruct (ack_write_total _ _ _ buf hd c tl max' prepend Hacks Hmax' Hbuf) as (a' & mru' & b1 & c1 & -> & Hacks' & Hb1 & Hgrow).
  { destruct prepend; [lia|]. by apply Hpre. }
  cbn [ASSERT mbind outcome_bind]. rewrite wire_get. change (s_session_id (wire o s)) with (ts_session_id s). set (ctx := key_wrap s (k_key_id ks)).
  assert (Hctx : wrap_inv f b ctx) by (unfold ctx, key_wrap; by destruct (uses_reneg _ _)).
  destruct (header_byte (k_key_id ks) opcode Hkid Hop) as (Hhb & Hho). set (header := u8 _) in *.
  destruct (wrap_control_total f b ctx now rnd header (ts_session_id s) b1 _ c1 _ Hctx Hb Hnow Hhb Hsl Hsb Hb1) as (ctx' & b' & -> & Hpos & Hval & Hi' & Hm' & Hk').
  { destruct (decide (tw_mode ctx = WRAP_AUTH)) as [E|E]; [pose proof (wi_mac _ _ _ Hctx E)|]; destruct prepend; try lia; destruct (Hpre eq_refl); lia. }
  { rewrite Hho. fold (has_wkc opcode) in Hfit. unfold wkc_part in Hfit. unfold BUF_SIZE. rewrite Hh2. change (has_wkc opcode) with ((opcode =? P_CONTROL_HARD_RESET_CLIENT_V3) || (opcode =? P_CONTROL_WKC_V1)) in *.
    destruct (_ || _) eqn:E; [|destruct prepend; try lia; destruct (Hpre eq_refl); lia].
    destruct (Hwkc eq_refl) as [_ Hr]. unfold ctx, key_wrap. rewrite Hr. destruct prepend; try lia; destruct (Hpre eq_refl); lia. }
  { rewrite Hho. intros E. destruct (Hwkc E) as [Hs Hr]. unfold ctx, key_wrap. by rewrite Hr. }
  cbn [mbind outcome_bind]. rewrite (wire_set o s (k_key_id ks) ctx').
  eexists _, _, b'. split; [done|]. split; [done|]. split; [done|]. unfold ctx, key_wrap in Hm', Hk'.
  split_and!; try done; destruct (uses_reneg s (k_key_id ks)); try done.
  - split; [|done]. by eapply wrap_inv_mono; [exact Hi1|lia].
  - split; [done|]. by eapply wrap_inv_mono; [exact Hi2|lia].
Qed.

(** ** Invariants of keys and sessions *)

(** The stores of a key; [n] packets were numbered so far. *)
Record chan_inv (f : frame) (b wl : Z) (remote : bytes) (ch : ControlChannel.key_state) (n : Z) : Prop := {
  ci_send : rel_wf (BUF_SIZE f) (ks_send_reliable ch);
  ci_offset : r_offset (ks_send_reliable ch) = f_headroom f;
  ci_size : r_size (ks_send_reliable ch) = TLS_RELIABLE_N_SEND_BUFFERS;
  ci_window : send_window (ks_send_reliable ch) n;
  ci_count : 0 <= n /\ n + avail (ks_send_reliable ch) <= b;
  ci_sendable : forall i e, act (ks_send_reliable ch) i e -> sendable f wl e;
  ci_rec : rel_wf (BUF_SIZE f) (ks_rec_reliable ch);
  ci_acks : acks_ok (ks_rec_ack ch) (ks_lru_acks ch) remote
}.

(** The wrapped client key is there when it is to be sent. *)
Definition wkc_inv s (key_id : Z) (ch : ControlChannel.key_state) : Prop :=
  ks_resend_wkc ch = true \/ (exists i e, act (ks_send_reliable ch) i e /\ has_wkc (e_opcode e) = true) -> wkc_ready s key_id.

(** The peer does not ask for a wrapped client key that is not there: the only
    request is a TLV in the first packet of a session. *)
Definition early_ok s (key_id : Z) (ch : ControlChannel.key_state) : Prop :=
  wkc_ready s key_id \/
  forall i e, act (ks_rec_reliable ch) i e -> is_hard_reset_method2 (e_opcode e) = true -> content (e_buf e) = [].

Definition addr_ok (a : bytes) : Prop := sa_family a = FAMILY_INET \/ sa_family a = FAMILY_INET6.

Record live_key (f : frame) (b : Z) s ks : Prop := {
  lk_state : S_INITIAL <= k_state ks <= S_GENERATED_KEYS;
  lk_key_id : 0 <= k_key_id ks < 8;
  lk_chan : exists ch n, k_chan ks = Some ch /\ chan_inv f b (wkc_length (ts_tls_wrap s)) (k_session_id_remote ks) ch n /\
              (S_PRE_START <= k_state ks -> 0 < n) /\ wkc_inv s (k_key_id ks) ch /\
              (k_state ks = S_INITIAL -> (forall i e, ~ act (ks_send_reliable ch) i e));
  lk_opcode : 0 <= k_initial_opcode ks < 32 /\ (k_state ks = S_INITIAL -> has_wkc (k_initial_opcode ks) = true -> wkc_ready s (k_key_id ks));
  lk_read : buf_total (k_plaintext_read_buf ks) TLS_CHANNEL_BUF_SIZE;
  lk_write : buf_total (k_plaintext_write_buf ks) TLS_CHANNEL_BUF_SIZE;
  lk_ack : buf_total (k_ack_write_buf ks) (BUF_SIZE f);
  lk_src : exists k2, k_key_src ks = Some k2 /\ source_ok (src_client k2) /\ source_ok (src_server k2);
  lk_keys : k_initialized ks = true <-> k_state ks = S_GENERATED_KEYS;
  lk_remote : k_session_id_remote ks = sid_clear \/ (sid_ok (k_session_id_remote ks) /\ addr_ok (k_remote_addr ks))
}.

(** A lame duck, if there is one, has keys and a time to die. *)
Definition lame_ok ks : Prop :=
  k_state ks = S_UNDEF \/
  (k_state ks = S_GENERATED_KEYS /\ k_initialized ks = true /\ t_must_die (k_times ks) <> 0 /\ 0 <= k_key_id ks < 8).

(** The keys of a session have different ids. *)
Record ids_ok s : Prop := {
  io_next : ts_key_id s = next_key_id (k_key_id (ts_primary s));
  io_lame : k_state (ts_lame s) = S_GENERATED_KEYS -> k_key_id (ts_primary s) = next_key_id (k_key_id (ts_lame s))
}.

Record sess_inv (f : frame) (b : Z) s : Prop := {
  si_sid : sid_ok (ts_session_id s);
  si_wraps : wraps_inv f b s;
  si_primary : live_key f b s (ts_primary s);
  si_lame : lame_ok (ts_lame s);
  si_ids : ids_ok s;
  si_opcode : ts_initial_opcode s = P_CONTROL_SOFT_RESET_V1
}.

(** The context of a new session: the configured keys, fresh packet ids and a
    work buffer. *)
Definition with_pid (w : @tls_wrap_ctx K M) (pid : packet_id) (work : buffer) : @tls_wrap_ctx K M :=
  let opt := tw_opt w in
  tw_set_work (tw_set_opt w (mkco (co_encrypt opt) (co_decrypt opt) (mkopt pid (opt_pid_persist (co_replay opt)) (opt_long_form (co_replay opt)))
                               (co_ignore_packet_id opt))) work.

(** Options that option parsing and init.c produce. *)
Record opts_ok o : Prop := {
  oo_frame : frame_ok (o_frame o);
  oo_window : 0 <= o_replay_window o <= MAX_SEQ_BACKTRACK /\ 0 <= o_replay_time o <= MAX_TIME_BACKTRACK;
  oo_transition : 0 <= o_transition_window o;
  oo_persist : opt_pid_persist (co_replay (tw_opt (o_tls_wrap o))) = None;
  oo_wrap : exists pid work, wrap_inv (o_frame o) 0 (with_pid (o_tls_wrap o) pid work);
  oo_wkc : o_tls_crypt_v2 o = true -> o_server o = false -> is_Some (tw_wkc (o_tls_wrap o));
  oo_flags : cf_resend_wkc (o_crypto_flags o) = false
}.

(** The parts of a session that the invariant of a key refers to. *)
Definition wkc_same s s' : Prop :=
  tw_wkc (ts_tls_wrap s') = tw_wkc (ts_tls_wrap s) /\ tw_mode (ts_tls_wrap_reneg s') = tw_mode (ts_tls_wrap_reneg s).

Lemma same_session_wkc s s' : same_session s s' -> wkc_same s s'.
Proof. intros []. split; [apply ss_wkc0|apply ss_modes0]. Qed.

Lemma wkc_same_ready s s' k : wkc_same s s' -> wkc_ready s k <-> wkc_ready s' k.
Proof. intros [H1 H2]. unfold wkc_ready, uses_reneg. by rewrite H1, H2. Qed.

Lemma wkc_same_length s s' : wkc_same s s' -> wkc_length (ts_tls_wrap s') = wkc_length (ts_tls_wrap s).
Proof. intros [H1 _]. unfold wkc_length. by rewrite H1. Qed.

Lemma live_key_same f b s s' ks : wkc_same s s' -> live_key f b s ks -> live_key f b s' ks.
Proof.
  intros Hs []. split; try done.
  - destruct lk_chan0 as (ch & n & H1 & H2 & H3 & H4 & H5). exists ch, n. rewrite (wkc_same_length _ _ Hs). split_and!; try done.
    intros Hw. apply (wkc_same_ready _ _ _ Hs). by apply H4.
  - destruct lk_opcode0 as [H1 H2]. split; [done|]. intros. apply (wkc_same_ready _ _ _ Hs). by apply H2.
Qed.

Lemma early_ok_same s s' k ch : wkc_same s s' -> early_ok s k ch -> early_ok s' k ch.
Proof. intros Hs [H|H]; [left; by apply (wkc_same_ready _ _ _ Hs)|by right]. Qed.

Lemma live_key_mono f b b' s ks : live_key f b s ks -> b <= b' -> live_key f b' s ks.
Proof.
  intros [] Hb. split; try done. destruct lk_chan0 as (ch & n & H1 & [] & H3). exists ch, n. split_and!; try done; try apply H3. split; try done. lia.
Qed.

Lemma sess_inv_mono f b b' s : sess_inv f b s -> b <= b' -> sess_inv f b' s.
Proof.
  intros [H1 [H2 H2'] H3 H4 H5 H6] Hb. split; try done; [split; by eapply wrap_inv_mono|by eapply live_key_mono].
Qed.

Lemma next_key_id_range k : 0 <= k < 8 -> 0 < next_key_id k < 8 /\ next_key_id k <> k.
Proof.
  intros Hk. unfold next_key_id, P_KEY_ID_MASK.
  assert (k = 0 \/ k = 1 \/ k = 2 \/ k = 3 \/ k = 4 \/ k = 5 \/ k = 6 \/ k = 7) as H by lia.
  destruct H as [->|[->|[->|[->|[->|[->|[->| ->]]]]]]]; vm_compute; done.
Qed.

(** *** New keys *)

Lemma packet_id_init_send sb tb pid : packet_id_init sb tb = Ret pid -> pid_send pid = mksend 0 0.
Proof.
  unfold packet_id_init. destruct (negb (sb =? 0)); [|by intros [= <-]].
  intros H. apply bind_Ret_inv in H as (_ & _ & H). apply bind_Ret_inv in H as (_ & _ & H). by injection H as <-.
Qed.

Lemma frame_buf_size f : frame_ok f -> buf_size_valid (BUF_SIZE f) = true /\ 0 <= f_headroom f <= BUF_SIZE f.
Proof. intros (H1 & H2 & H3 & H4 & H5). unfold BUF_SIZE, buf_size_valid, BUF_SIZE_MAX. lia. Qed.

Lemma alloc_total n : buf_size_valid n = true -> exists b, alloc_buf n = Ret b /\ buf_total b n.
Proof. intros Hn. destruct (alloc_buf_spec n Hn) as (b & -> & Hb). exists b. split; [done|]. exists 0, [], n. split; [done|]. simpl. lia. Qed.

Lemma init_pid_total o : opts_ok o -> exists pid, packet_id_init (o_replay_window o) (o_replay_time o) = Ret pid.
Proof. intros Ho. destruct (oo_window _ Ho) as [H1 H2]. destruct (packet_id_init_inv _ _ H1 H2) as (pid & -> & _). by exists pid. Qed.

Definition session_after_init s : tls_session :=
  mksess (ts_burst s) (ts_tls_wrap s) (ts_tls_wrap_reneg s) P_CONTROL_SOFT_RESET_V1 (ts_session_id s) (next_key_id (ts_key_id s))
    (ts_untrusted_addr s) (ts_primary s) (ts_lame s).

Lemma avail_idle r : (forall i e, ~ act r i e) -> avail r = r_size r.
Proof.
  intros Hno. unfold avail, reliable_get_num_output_sequenced_available.
  assert (Hn : forall l, (forall j e, l !! j = Some e -> e_active e = false) -> min_active_id l None = None).
  { induction l as [|e l IH]; intros Hl; [done|]. simpl. rewrite (Hl 0%nat e eq_refl). apply IH. intros j x Hj. exact (Hl (S j) x Hj). }
  rewrite Hn; [done|]. intros j e Hj. destruct (e_active e) eqn:E; [|done]. by destruct (Hno j e).
Qed.

Lemma key_state_init_ok o b s :
  opts_ok o -> TLS_RELIABLE_N_SEND_BUFFERS <= b -> 0 <= ts_key_id s < 8 -> 0 <= ts_initial_opcode s < 32 ->
  (has_wkc (ts_initial_opcode s) = true -> wkc_ready s (ts_key_id s)) ->
  exists ks, key_state_init o s = Ret (session_after_init s, ks) /\ live_key (o_frame o) b s ks /\ k_state ks = S_INITIAL /\
    k_key_id ks = ts_key_id s /\ k_session_id_remote ks = sid_clear /\ k_remote_addr ks = addr_clear /\
    (exists ch, k_chan ks = Some ch /\ ks_resend_wkc ch = false /\ (forall i e, ~ act (ks_rec_reliable ch) i e)) /\
    (forall ch, k_chan ks = Some ch -> early_ok s (ts_key_id s) ch).
Proof.
  intros Ho Hb Hid Hop Hwk. destruct (frame_buf_size _ (oo_frame _ Ho)) as [Hbs Hhr]. unfold key_state_init.
  destruct (alloc_total TLS_CHANNEL_BUF_SIZE eq_refl) as (rb & Erb & Hrb). destruct (alloc_total (BUF_SIZE (o_frame o)) Hbs) as (ab & Eab & Hab).
  rewrite Erb. cbn [mbind outcome_bind]. rewrite Eab. cbn [mbind outcome_bind].
  destruct (reliable_init_spec (BUF_SIZE (o_frame o)) (f_headroom (o_frame o)) TLS_RELIABLE_N_SEND_BUFFERS (if negb (ts_key_id s =? 0) then false else o_xmit_hold o) Hbs Hhr)
    as (send & -> & Hsw & Hss & Hso & Hsp & _ & Hsn); [unfold TLS_RELIABLE_N_SEND_BUFFERS, RELIABLE_CAPACITY; lia|]. cbn [mbind outcome_bind].
  destruct (reliable_init_spec (BUF_SIZE (o_frame o)) (f_headroom (o_frame o)) TLS_RELIABLE_N_REC_BUFFERS false Hbs Hhr)
    as (rec & -> & Hrw & _ & _ & _ & _ & Hrn); [unfold TLS_RELIABLE_N_REC_BUFFERS, RELIABLE_CAPACITY; lia|]. cbn [mbind outcome_bind].
  assert (Hpid : exists pid, (if o_replay o then packet_id_init (o_replay_window o) (o_replay_time o) else Ret pid_clear) = Ret pid).
  { destruct (o_replay o); [by apply init_pid_total|eauto]. }
  destruct Hpid as (pid & ->). cbn [mbind outcome_bind].
  set (send' := reliable_set_timeout send (o_packet_timeout o)).
  assert (Hno : forall i e, ~ act send' i e) by (intros i e; exact (Hsn i e)).
  eexists. split; [done|]. split_and!; try done.
  - split; cbn [k_state k_key_id k_chan k_initial_opcode k_plaintext_read_buf k_plaintext_write_buf k_ack_write_buf k_key_src k_initialized k_session_id_remote k_remote_addr];
      try done; try (by left).
    + eexists _, 0. split; [done|]. split_and!; try done.
      * split; cbn [ks_send_reliable ks_rec_reliable ks_rec_ack ks_lru_acks]; try done.
        -- destruct Hsw. by split.
        -- split; [exact Hsp|]. intros i e Ha. by destruct (Hno i e).
        -- rewrite (avail_idle _ Hno). unfold send'. cbn [r_size reliable_set_timeout]. rewrite Hss. lia.
        -- intros i e Ha. by destruct (Hno i e).
        -- destruct ack_clear_wf as [Hw Hi]. split; [split; [done|rewrite Hi; constructor]..|by right].
      * intros [|(i & e & Ha & _)]; [done|]. by destruct (Hno i e).
    + eexists. split; [done|]. split; apply src_clear_ok.
  - eexists. split; [done|]. by split.
  - intros ch [= <-]. right. intros i e Ha. by destruct (Hrn i e).
Qed.

Lemma acks_ok_remote a l r : acks_ok a l sid_clear -> acks_ok a l r.
Proof. intros [H1 H2 H3]. split; [done|done|]. right. destruct H3 as [(_ & _ & H3)|]; [done|done]. Qed.

(** A new key gets the peer of the old one. *)
Lemma live_key_set_remote f b s ks sid addr :
  live_key f b s ks -> k_session_id_remote ks = sid_clear -> sid = sid_clear \/ (sid_ok sid /\ addr_ok addr) ->
  live_key f b s (k_set_remote ks sid addr).
Proof.
  intros [] Hr Hs. split; try done. destruct lk_chan0 as (ch & n & H1 & [] & H3). exists ch, n. split; [done|]. split; [|done].
  split; try done. rewrite Hr in ci_acks0. by apply acks_ok_remote.
Qed.

(** *** New sessions *)

Lemma with_pid_inv f b w pid0 work0 pid work :
  wrap_inv f 0 (with_pid w pid0 work0) -> rec_inv (pid_rec pid) [] -> send_ok (pid_send pid) ->
  0 <= send_id (pid_send pid) <= id_base + b -> buf_total work (BUF_SIZE f) -> wrap_inv f b (with_pid w pid work).
Proof.
  intros [(H & Hr) (rctx & H' & Hp & Hr') Hsk Hw Hm Hk Hid] Hrec Hsend Hid' (hd & c & tl & Hwork & Hcap).
  assert (Hini : rec_initialized (pid_rec pid) = true) by apply Hrec. split; try done.
  - exists []. unfold wrap_ready in *. cbn [with_pid tw_mode tw_opt tw_set_work tw_set_opt co_replay co_decrypt] in *. destruct (tw_mode w); [done| |].
    + destruct Hr as ([D1 D2 D3 D4] & Hr). by split.
    + destruct Hr as (k & m & [T1 T2 T3 T4 T5]). by exists k, m.
  - exists rctx, H'. split; [|done]. unfold wrap_peers in *. cbn [with_pid tw_mode tw_opt tw_set_work tw_set_opt co_replay co_encrypt] in *.
    destruct Hp as [Hm' Hp]. split; [done|]. destruct (tw_mode w); [done| |].
    + destruct Hp as ([E1 E2 E3 E4 E5] & Hp). by split.
    + destruct Hp as (ek & dk & m & m' & [S1 S2 S3 S4 S5 S6 S7] & Hp). exists ek, dk, m, m'. by split.
  - intros _. destruct Hwork as (blk & Hok & Hrest). split; [by exists blk|]. pose proof (zlen_content _ _ Hok) as Hl.
    destruct Hrest as (? & Hc & ?). cbn [with_pid tw_work tw_set_work]. rewrite Hc in Hl. lia.
Qed.

Lemma tls_session_init_ok o b now sid :
  opts_ok o -> TLS_RELIABLE_N_SEND_BUFFERS <= b -> u32_ok now -> sid_ok sid ->
  exists s, tls_session_init o now sid = Ret s /\ sess_inv (o_frame o) b s /\ k_state (ts_primary s) = S_INITIAL /\
    k_session_id_remote (ts_primary s) = sid_clear /\ k_remote_addr (ts_primary s) = addr_clear /\ ts_lame s = key_clear /\
    (forall ch, k_chan (ts_primary s) = Some ch -> early_ok s (k_key_id (ts_primary s)) ch).
Proof.
  intros Ho Hb Hnow Hsid. unfold tls_session_init. destruct (frame_buf_size _ (oo_frame _ Ho)) as [Hbs Hhr].
  destruct (alloc_total _ Hbs) as (work & -> & Hwork). cbn [mbind outcome_bind]. destruct (oo_window _ Ho) as [Hw1 Hw2].
  destruct (packet_id_init_inv _ _ Hw1 Hw2) as (pid & Epid & Hrec & _). pose proof (packet_id_init_send _ _ _ Epid) as Hsend.
  rewrite Epid. cbn [mbind outcome_bind]. rewrite (oo_persist _ Ho).
  set (pid' := if o_tls_crypt_v2 o then mkpid (mksend EARLY_NEG_START now) (pid_rec pid) else pid).
  set (op := if o_server o then _ else _). set (s0 := mksess _ _ _ op _ _ _ _ _).
  assert (Hwi : wrap_inv (o_frame o) b (ts_tls_wrap s0)).
  { pose proof (oo_wrap _ Ho) as (pid0 & work0 & Hi).
    assert (H : wrap_inv (o_frame o) b (with_pid (o_tls_wrap o) pid' work)).
    { eapply with_pid_inv; [exact Hi| | | |done].
      - unfold pid'. by destruct (o_tls_crypt_v2 o).
      - unfold pid'. destruct (o_tls_crypt_v2 o); [split; [unfold u32_ok, EARLY_NEG_START; cbn; lia|done]|rewrite Hsend; split; unfold u32_ok; cbn; lia].
      - unfold pid', id_base, TLS_RELIABLE_N_SEND_BUFFERS in *. destruct (o_tls_crypt_v2 o); [unfold EARLY_NEG_START; cbn; lia|rewrite Hsend; cbn; lia]. }
    unfold with_pid in H. cbn zeta in H. rewrite (oo_persist _ Ho) in H. exact H. }
  assert (Hop : 0 <= op < 32) by (unfold op; repeat case_match; done).
  assert (Hwk : has_wkc op = true -> wkc_ready s0 0).
  { unfold op. intros Hh. destruct (o_server o) eqn:Es; [done|]. destruct (o_tls_crypt_v2 o) eqn:Ev; [|done]. split; [|done].
    exact (oo_wkc _ Ho Ev Es). }
  destruct (key_state_init_ok o b s0 Ho Hb) as (ks & -> & Hlk & Hst & Hkid & Hrem & Haddr & _ & Hearly); [cbn; lia|done|done|].
  cbn [mbind outcome_bind]. eexists. split; [done|].
  assert (Hsame : wkc_same s0 (ts_set_primary (session_after_init s0) ks)) by by split.
  split_and!; try done.
  - split; try done.
    + split; [exact Hwi|]. apply wrap_clear_inv. unfold TLS_RELIABLE_N_SEND_BUFFERS in Hb. lia.
    + by eapply live_key_same.
    + by left.
    + split; cbn [ts_primary ts_set_primary ts_key_id session_after_init ts_lame]; [by rewrite Hkid|done].
  - cbn [ts_primary ts_set_primary]. intros ch Hch. rewrite Hkid. eapply early_ok_same; [exact Hsame|]. by apply Hearly.
Qed.

(** *** Renegotiation *)

Lemma soft_reset_ok o b now s :
  opts_ok o -> sess_inv (o_frame o) b s -> TLS_RELIABLE_N_SEND_BUFFERS <= b -> k_state (ts_primary s) = S_GENERATED_KEYS -> 0 < now ->
  exists s', key_state_soft_reset o now s = Ret s' /\ sess_inv (o_frame o) b s' /\ k_state (ts_primary s') = S_INITIAL /\
    ts_session_id s' = ts_session_id s /\ wkc_same s s' /\
    k_session_id_remote (ts_primary s') = k_session_id_remote (ts_primary s) /\ k_remote_addr (ts_primary s') = k_remote_addr (ts_primary s) /\
    k_key_id (ts_primary s') = ts_key_id s /\ ts_burst s' = ts_burst s /\
    ts_lame s' = k_set_times (ts_primary s) (t_set_must_die (k_times (ts_primary s)) (now + o_transition_window o)) /\
    (forall ch, k_chan (ts_primary s') = Some ch -> early_ok s' (k_key_id (ts_primary s')) ch).
Proof.
  intros Ho [Hsid [Hw1 Hw2] Hp Hl [Hn Hnl] Hop] Hb Hst Hnow. unfold key_state_soft_reset.
  set (ks := k_set_times (ts_primary s) _). set (s0 := ts_set_lame s ks).
  pose proof (lk_key_id _ _ _ _ Hp) as Hkid. destruct (next_key_id_range _ Hkid) as [Hnr Hne].
  destruct (key_state_init_ok o b s0 Ho Hb) as (new & -> & Hlk & Hst' & Hkid' & Hrem & Haddr & _ & Hearly).
  { cbn. rewrite Hn. lia. } { cbn. rewrite Hop. done. } { cbn. rewrite Hop. done. }
  cbn [mbind outcome_bind]. eexists. split; [done|]. set (new' := k_set_remote new _ _).
  assert (Hsame : wkc_same s0 (ts_set_primary (session_after_init s0) new')) by by split.
  assert (Hlive : live_key (o_frame o) b s0 new') by (apply live_key_set_remote; [done|done|apply Hp]).
  split_and!; try done.
  - split; try done.
    + by eapply live_key_same.
    + right. cbn [ts_lame ts_set_primary session_after_init s0 ts_set_lame ks k_set_times k_state k_initialized k_times k_key_id t_must_die t_set_must_die].
      pose proof (oo_transition _ Ho). split_and!; try done; try lia. by apply (lk_keys _ _ _ _ Hp).
    + split; cbn [ts_key_id ts_primary ts_set_primary session_after_init ts_lame s0 ts_set_lame new' k_set_remote k_key_id ks k_set_times].
      * by rewrite Hkid'.
      * intros _. rewrite Hkid'. exact Hn.
  - cbn [ts_primary ts_set_primary new' k_set_remote k_chan k_key_id]. intros ch Hch. rewrite Hkid'.
    eapply early_ok_same; [exact Hsame|]. by apply Hearly.
Qed.

End sessions.
