(* ===== verification/TlsProcess.v ===== *)
(** * The state machine of a TLS session (openvpn ssl.c, tls_process)

    [tls_process_state] makes the steps that are possible now: start the
    handshake, take packets from the reliability layer to the TLS library and
    back, exchange key material, become active; [tls_process] repeats it until
    nothing changes, then sends acknowledgements and computes when to run again.

    The TLS library, the clock, random numbers and the decision about the peer
    are in [tls_env], one for each round.  A packet that was sent shares its
    block with the stored one, which keeps its own header and content; only
    head room differs. *)

From S2P Require Import Prelude Buffer CircList PacketId DataChannel DataTunnel TlsCrypt Reliable ReliableAck ReliableStore ControlChannel ControlWrap KeyExchange TlsSessions.
From stdpp Require Import prelude.
From Stdlib Require Import ZArith Lia ZifyBool.

Local Open Scope Z_scope.

Inductive multi_status :=
| CAS_NOT_CONNECTED | CAS_WAITING_AUTH | CAS_PENDING | CAS_PENDING_DEFERRED | CAS_PENDING_DEFERRED_PARTIAL | CAS_FAILED
| CAS_WAITING_OPTIONS_IMPORT | CAS_RECONNECT_PENDING | CAS_CONNECT_DONE.
#[global] Instance multi_status_eq_dec : EqDecision multi_status.
Proof. solve_decision. Defined.

(** One round's environment: the time, what the TLS library answers
    ([te_accept] and [te_write_plain] are the status of taking data, 1, 0 or
    -1), random bytes, the message to send and the checks of the peer's. *)
Record tls_env := mkenv {
  te_now : Z;
  te_rnd : bytes;
  te_accept : bytes -> Z;
  te_read_plain : Z -> cipher_read;
  te_write_plain : bytes -> Z;
  te_read_cipher : Z -> cipher_read;
  te_key_rnd : key_source;
  te_message : message;
  te_auth : auth_env
}.

Section process.
Context {K M : Type} `{!CipherOps K} `{!HmacOps M} `{!KeyInit K M}.
Abbreviation tls_session := (@tls_session K M).
Abbreviation tls_options := (@tls_options K M).
Abbreviation key_state := (@key_state K M).

(** The variables of tls_process: the session, what it changes of the tunnel,
    the packet to send, [*to_link_addr], [*wakeup] and state_change. *)
Record proc := mkproc {
  p_session : tls_session;
  p_multi_state : multi_status;
  p_info : link_socket_info;
  p_to_link : buffer;
  p_to_link_addr : option bytes;
  p_wakeup : Z;
  p_change : bool
}.
Implicit Types p : proc.

Definition primary p : key_state := ts_primary (p_session p).
Definition p_set_session p (s : tls_session) : proc :=
  mkproc s (p_multi_state p) (p_info p) (p_to_link p) (p_to_link_addr p) (p_wakeup p) (p_change p).
Definition p_set_primary p (ks : key_state) : proc := p_set_session p (ts_set_primary (p_session p) ks).
Definition p_set_change p (c : bool) : proc :=
  mkproc (p_session p) (p_multi_state p) (p_info p) (p_to_link p) (p_to_link_addr p) (p_wakeup p) c.
Definition p_set_wakeup p (w : Z) : proc :=
  mkproc (p_session p) (p_multi_state p) (p_info p) (p_to_link p) (p_to_link_addr p) w (p_change p).
Definition p_set_out p (s : tls_session) (b : buffer) (a : option bytes) : proc :=
  mkproc s (p_multi_state p) (p_info p) b a (p_wakeup p) (p_change p).

(** [goto error] *)
Definition process_error p : proc := p_set_change (p_set_primary p (k_set_state (primary p) S_ERROR)) false.

(** A step, and what follows unless it went to error. *)
Definition or_error (r : outcome (proc * bool)) (f : proc -> outcome proc) : outcome proc :=
  '(p, ok) ← r; if (ok : bool) then f p else Ret (process_error p).

(** ** The steps, in the order of the code *)

Section steps.
Context (o : tls_options) (env : tls_env).
Abbreviation now := (te_now env).

Definition step_initial p : outcome proc :=
  if k_state (primary p) =? S_INITIAL then
    '(ks, ok) ← session_move_pre_start o now (primary p) false;
    Ret (p_set_change (p_set_primary p ks) ok)
  else Ret p.

Definition negotiation_timed_out (ks : key_state) : bool :=
  (t_must_negotiate (k_times ks) <=? now) && (k_state ks <? S_ACTIVE).

Definition step_start p : outcome proc :=
  ch ← deref (k_chan (primary p));
  if (k_state (primary p) =? S_PRE_START) && reliable_empty (ks_send_reliable ch)
  then Ret (p_set_change (p_set_primary p (k_set_state (primary p) S_START)) true)
  else Ret p.

(** [flush_payload_buffer]: the messages are given to the library; its answer
    is not looked at. *)
Fixpoint flush_payload_buffer (l : list bytes) (ssl : list bytes) : list bytes :=
  match l with
  | [] => ssl
  | d :: rest => flush_payload_buffer rest (if te_write_plain env d =? 1 then ssl ++ [d] else ssl)
  end.

Definition session_move_active p : outcome proc :=
  let ks := primary p in
  let t := k_times ks in
  let ks := k_set_times ks (mktimes (t_initial t) now 0 (t_must_die t) (t_peer_last_packet t) (t_auth_deferred_expire t)) in
  let ks := k_set_state ks S_ACTIVE in
  info ← link_socket_set_outgoing_addr (p_info p) (k_remote_addr ks);
  let st := if decide (p_multi_state p = CAS_NOT_CONNECTED)
            then (if o_mode_server o then CAS_WAITING_AUTH else CAS_WAITING_OPTIONS_IMPORT) else p_multi_state p in
  let ks := k_set_payload ks [] (flush_payload_buffer (k_paybuf ks) (k_ssl_in ks)) in
  Ret (mkproc (ts_set_primary (p_session p) ks) st info (p_to_link p) (p_to_link_addr p) (p_wakeup p) (p_change p)).

Definition step_active p : outcome proc :=
  let ks := primary p in
  ch ← deref (k_chan ks);
  if (((k_state ks =? S_GOT_KEY) && negb (o_server o)) || ((k_state ks =? S_SENT_KEY) && o_server o))
     && reliable_empty (ks_send_reliable ch)
  then p ← session_move_active p; Ret (p_set_change p true)
  else Ret p.

(** A stored packet goes to the network; true when the round ends here. *)
Definition step_send p : outcome (proc * bool) :=
  let ks := primary p in
  ch ← deref (k_chan ks);
  if (blen (p_to_link p) =? 0) && reliable_can_send now (ks_send_reliable ch) then
    '(send, r) ← reliable_send now (ks_send_reliable ch);
    '(i, opcode) ← must r;
    e ← rel_entry send i;
    let ks := k_set_chan ks (ks_set_send ch send) in
    '(s, ks, b) ← write_control_auth o now (te_rnd env) (p_session p) ks (e_buf e) opcode CONTROL_SEND_ACK_MAX true;
    Ret (p_set_change (p_set_out p (ts_set_primary s ks) b (Some (k_remote_addr ks))) true, true)
  else Ret (p, false).

Definition step_incoming p : outcome (proc * bool) :=
  let ks := primary p in
  ch ← deref (k_chan ks);
  '(rec, wkc, taken, ok) ← deliver_next (te_accept env) (ks_rec_reliable ch) (ks_resend_wkc ch);
  (* only ciphertext counts as a change *)
  let reset := match reliable_get_entry_sequenced (ks_rec_reliable ch) with
               | Some i => match r_array (ks_rec_reliable ch) !! i with
                           | Some e => (e_packet_id e =? 0) && is_hard_reset_method2 (e_opcode e)
                           | None => false
                           end
               | None => false
               end in
  let p := p_set_primary p (k_set_chan ks (mkks (ks_send_reliable ch) rec (ks_rec_ack ch) (ks_lru_acks ch) wkc)) in
  match taken with
  | Some _ => Ret (if reset then p else p_set_change p true, ok)
  | None => Ret (p, ok)
  end.

(** [read_incoming_tls_plaintext] and its guard. *)
Definition step_read_plain p : outcome (proc * bool) :=
  let ks := primary p in
  if blen (k_plaintext_read_buf ks) =? 0 then
    buf ← ASSERT_ok (buf_init (k_plaintext_read_buf ks) 0);
    match te_read_plain env (buf_forward_capacity buf) with
    | ReadError => Ret (p_set_primary p (k_set_bufs ks (set_len buf 0) (k_plaintext_write_buf ks)), false)
    | ReadNothing => Ret (p_set_primary p (k_set_bufs ks (set_len buf 0) (k_plaintext_write_buf ks)), true)
    | ReadData d =>
        buf ← poke buf (boffset buf) d;
        let p := p_set_primary p (k_set_bufs ks (set_len buf (zlen d)) (k_plaintext_write_buf ks)) in
        Ret (p_set_wakeup (p_set_change p true) 0, true)
    end
  else Ret (p, true).

Definition step_send_key p : outcome (proc * bool) :=
  let ks := primary p in
  if (blen (k_plaintext_write_buf ks) =? 0)
     && (((k_state ks =? S_START) && negb (o_server o)) || ((k_state ks =? S_GOT_KEY) && o_server o)) then
    k2 ← deref (k_key_src ks);
    '(buf, k2, ok) ← key_method_2_write (k_plaintext_write_buf ks) k2 (te_key_rnd env) (o_server o) (te_message env);
    let ks := k_set_key_src (k_set_bufs ks (k_plaintext_read_buf ks) buf) (Some k2) in
    if (ok : bool) then Ret (p_set_change (p_set_primary p (k_set_state ks S_SENT_KEY)) true, true)
    else Ret (p_set_primary p ks, false)
  else Ret (p, true).

Definition step_got_key p : outcome (proc * bool) :=
  let ks := primary p in
  if negb (blen (k_plaintext_read_buf ks) =? 0)
     && (((k_state ks =? S_SENT_KEY) && negb (o_server o)) || ((k_state ks =? S_START) && o_server o)) then
    k2 ← deref (k_key_src ks);
    r ← key_method_2_read (te_auth env) (k_plaintext_read_buf ks) k2 (o_server o);
    let ks := k_set_authenticated (k_set_key_src (k_set_bufs ks (rc_buf r) (k_plaintext_write_buf ks)) (Some (rc_key_src r))) (rc_authenticated r) in
    if rc_ok r then Ret (p_set_change (p_set_primary p (k_set_state ks S_GOT_KEY)) true, true)
    else Ret (p_set_primary p ks, false)
  else Ret (p, true).

Definition step_write_plain p : outcome (proc * bool) :=
  let ks := primary p in
  if negb (blen (k_plaintext_write_buf ks) =? 0) then
    d ← buf_bytes (k_plaintext_write_buf ks);
    let status := te_write_plain env d in
    buf ← bio_write_post status (k_plaintext_write_buf ks);
    let ks := k_set_bufs ks (k_plaintext_read_buf ks) buf in
    if status =? -1 then Ret (p_set_primary p ks, false)
    else if status =? 1 then Ret (p_set_change (p_set_primary p (k_set_payload ks (k_paybuf ks) (k_ssl_in ks ++ [d]))) true, true)
    else Ret (p_set_primary p ks, true)
  else Ret (p, true).

(** The wrapping mode as [calc_control_channel_frame_overhead] sees it. *)
Definition overhead_mode (s : tls_session) : outcome tls_wrap_mode :=
  match tw_mode (ts_tls_wrap s) with
  | WRAP_NONE => Ret TLS_WRAP_NONE
  | WRAP_CRYPT => Ret TLS_WRAP_CRYPT
  | WRAP_AUTH => m ← must (kc_hmac (co_encrypt (tw_opt (ts_tls_wrap s)))); Ret (TLS_WRAP_AUTH (hmac_ctx_size m))
  end.

Definition step_write_cipher p : outcome (proc * bool) :=
  let ks := primary p in
  let s := p_session p in
  ch ← deref (k_chan ks);
  if S_START <=? k_state ks then
    '(send, slot) ← reliable_get_buf_output_sequenced (ks_send_reliable ch);
    let ch := ks_set_send ch send in
    let p := p_set_primary p (k_set_chan ks ch) in
    match slot with
    | None => Ret (p, true)
    | Some _ =>
        mode ← overhead_mode s;
        '(ch, ok, change) ← write_outgoing_tls_ciphertext (o_frame o) mode (sa_family (ts_untrusted_addr s) =? FAMILY_INET)
             (option_map buf_len (tw_wkc (ts_tls_wrap s))) (te_read_cipher env) ch;
        let p := p_set_primary p (k_set_chan ks ch) in
        Ret (if (change : bool) then p_set_change p true else p, ok)
    end
  else Ret (p, true).

(** ** A round *)

Definition tls_process_state p : outcome proc :=
  let p := p_set_change p false in
  p ← step_initial p;
  if negotiation_timed_out (primary p) then Ret (process_error p)
  else
    p ← step_start p;
    p ← step_active p;
    '(p, sent) ← step_send p;
    if (sent : bool) then Ret p
    else
      or_error (step_incoming p) (fun p =>
      or_error (step_read_plain p) (fun p =>
      or_error (step_send_key p) (fun p =>
      or_error (step_got_key p) (fun p =>
      or_error (step_write_plain p) (fun p =>
      or_error (step_write_cipher p) (fun p => Ret p)))))).

End steps.

(** ** The loop *)

(** [while (state_change)], round [i] in the environment [env i]; the result
    is [None] if [fuel] rounds were not enough. *)
Fixpoint process_loop (fuel : nat) (o : tls_options) (env : nat -> tls_env) (i : nat) p : outcome (option (proc * nat)) :=
  match fuel with
  | O => Ret None
  | S fuel' =>
      p ← tls_process_state o (env i) p;
      if k_state (primary p) =? S_ERROR then Ret (Some (p, S i))
      else if p_change p then process_loop fuel' o env (S i) p
      else Ret (Some (p, S i))
  end.

Definition needs_soft_reset (o : tls_options) (now : Z) (ks : key_state) : bool :=
  (S_GENERATED_KEYS <=? k_state ks)
  && ((negb (o_renegotiate_seconds o =? 0) && (t_established (k_times ks) + o_renegotiate_seconds o <=? now))
      || ((0 <? o_renegotiate_bytes o) && (o_renegotiate_bytes o <=? k_n_bytes ks))
      || (negb (o_renegotiate_packets o =? 0) && (o_renegotiate_packets o <=? k_n_packets ks))
      || packet_id_close_to_wrapping (pid_send (pid_of (k_opt ks)))).

(** Acknowledgements that no packet carries; false on an early return. *)
Definition send_acks (o : tls_options) (env : tls_env) p : outcome (proc * bool) :=
  let ks := primary p in
  ch ← deref (k_chan ks);
  if (blen (p_to_link p) =? 0) && negb (reliable_ack_empty (ks_rec_ack ch)) then
    if control_packet_needs_wkc (ks_resend_wkc ch) (ks_send_reliable ch) then
      '(send, slot) ← reliable_get_buf_output_sequenced (ks_send_reliable ch);
      match slot with
      | None => Ret (p_set_primary p (k_set_chan ks (ks_set_send ch send)), false)
      | Some i =>
          send ← reliable_mark_active_outgoing send i P_CONTROL_WKC_V1;
          Ret (p_set_primary p (k_set_chan ks (ks_set_send ch send)), true)
      end
    else
      buf ← ASSERT_ok (buf_init (k_ack_write_buf ks) (f_headroom (o_frame o)));
      '(s, ks, b) ← write_control_auth o (te_now env) (te_rnd env) (p_session p) ks buf P_ACK_V1 RELIABLE_ACK_SIZE false;
      Ret (p_set_out p (ts_set_primary s ks) b (Some (k_remote_addr ks)), true)
  else Ret (p, true).

(** [*wakeup] and the return value. *)
Definition next_wakeup (o : tls_options) (now : Z) p : outcome (Z * bool) :=
  let ks := primary p in
  ch ← deref (k_chan ks);
  let w := p_wakeup p in
  let w := if S_INITIAL <=? k_state ks then
             let w := compute_earliest_wakeup w (reliable_send_timeout now (ks_send_reliable ch)) in
             if negb (t_must_negotiate (k_times ks) =? 0) then compute_earliest_wakeup w (t_must_negotiate (k_times ks) - now) else w
           else w in
  let w := if negb (t_established (k_times ks) =? 0) && negb (o_renegotiate_seconds o =? 0)
           then compute_earliest_wakeup w (t_established (k_times ks) + o_renegotiate_seconds o - now) else w in
  if w <=? 0 then Ret (1, true) else Ret (w, negb (blen (p_to_link p) =? 0)).

(** The variables and the return value; [None] if the rounds of the loop were
    more than [fuel]. *)
Definition tls_process (fuel : nat) (o : tls_options) (env : nat -> tls_env) p : outcome (option (proc * bool)) :=
  let ks := primary p in
  let now := te_now (env 0%nat) in
  ASSERT (negb (k_state ks =? S_UNDEF));;
  ASSERT (negb (k_state ks =? S_ERROR));;
  ASSERT (session_id_defined (ts_session_id (p_session p)));;
  p ← (if needs_soft_reset o now ks then s ← key_state_soft_reset o now (p_session p); Ret (p_set_session p s) else Ret p);
  '(die, w) ← lame_duck_must_die now (p_session p) (p_wakeup p);
  let p := p_set_wakeup p w in
  let p := if (die : bool) then p_set_session p (ts_set_lame (p_session p) (key_state_free (ts_lame (p_session p)) true)) else p in
  r ← process_loop fuel o env 1 p;
  match r with
  | None => Ret None
  | Some (p, i) =>
      if k_state (primary p) =? S_ERROR then Ret (Some (p, false))
      else
        '(p, ok) ← send_acks o (env i) p;
        if negb ok then Ret (Some (p, false))
        else '(w, r) ← next_wakeup o (te_now (env i)) p; Ret (Some (p_set_wakeup p w, r))
  end.

(** ** The stores of a key *)

Section stores.
Context (f : frame) (b wl : Z) (remote : bytes).
Abbreviation chan_inv := (chan_inv f b wl remote).
Implicit Types ch : ControlChannel.key_state.

Lemma chan_set_send ch n r n' :
  chan_inv ch n -> rel_wf (BUF_SIZE f) r -> r_offset r = r_offset (ks_send_reliable ch) -> r_size r = r_size (ks_send_reliable ch) ->
  send_window r n' -> n <= n' -> n' + avail r <= b -> (forall i e, act r i e -> sendable f wl e) -> chan_inv (ks_set_send ch r) n'.
Proof. intros [Cs Co Cz Cw Cn Cd Cr Ca] Hw Ho Hs Hwin Hn Hav Hsend. split; cbn [ks_send_reliable ks_set_send ks_rec_reliable ks_rec_ack ks_lru_acks]; try done; [congruence..|lia]. Qed.

(** A buffer is prepared for the next packet. *)
Lemma chan_idle ch n i e e' hd c tl :
  chan_inv ch n -> slot (ks_send_reliable ch) i e -> e_active e = false -> e_active e' = false ->
  holds (e_buf e') hd c tl -> hd + zlen c + tl = BUF_SIZE f ->
  let r := rel_set_entry (ks_send_reliable ch) i e' in
  chan_inv (ks_set_send ch r) n /\ (forall j g, act r j g <-> act (ks_send_reliable ch) j g) /\ avail r = avail (ks_send_reliable ch).
Proof.
  intros Hc Hs He He' Hb Hcap r. pose proof Hc as [Cs Co Cz Cw Cn Cd Cr Ca]. assert (Hact : forall j g, act r j g <-> act (ks_send_reliable ch) j g) by (intros j g; by eapply act_set_idle).
  assert (Hw : rel_wf (BUF_SIZE f) r) by (by eapply rel_wf_set_idle).
  assert (Hav : avail r = avail (ks_send_reliable ch)) by (by eapply avail_same). split_and!; try done.
  apply (chan_set_send ch n); try (done || lia).
  - split; [apply Cw|]. intros j g Hj. apply (proj2 Cw j g), Hact, Hj.
  - intros j g Hj. apply (Cd j g), Hact, Hj.
Qed.

(** A packet was sent. *)
Lemma chan_resent ch n i e now :
  chan_inv ch n -> act (ks_send_reliable ch) i e ->
  let r := rel_set_entry (ks_send_reliable ch) i (resent now e) in
  chan_inv (ks_set_send ch r) n /\ avail r = avail (ks_send_reliable ch) /\
  (forall j g, act r j g -> exists g0, act (ks_send_reliable ch) j g0 /\ same_packet g g0).
Proof.
  intros Hc Ha r. pose proof Hc as [Cs Co Cz Cw Cn Cd Cr Ca]. pose proof (fun j g => resent_act _ i e now j g Ha) as Hact. fold r in Hact.
  assert (Hw : rel_wf (BUF_SIZE f) r) by (by apply resent_wf).
  assert (Hwin : send_window r n).
  { split; [apply Cw|]. intros j g Hj. destruct (Hact j g Hj) as (g0 & Hg & Hp & _). rewrite Hp. by apply (proj2 Cw j g0). }
  assert (Hav : avail r = avail (ks_send_reliable ch)).
  { eapply avail_pids; try done. intros k. split.
    - intros (j & g & Hj & <-). destruct (Hact j g Hj) as (g0 & Hg & Hp & _). by exists j, g0.
    - intros (j & g & [Hj Hja] & <-). destruct Ha as [Hs Hia]. destruct (decide (j = i)) as [->|Hne].
      + exists i, (resent now e). split; [by split; [eapply slot_set_eq|]|]. unfold slot in *. rewrite Hs in Hj. by injection Hj as <-.
      + exists j, g. split; [|done]. apply (act_set _ _ _ _ _ _ Hs). right. by split. }
  split_and!; try done. apply (chan_set_send ch n); try (done || lia). intros j g Hj. destruct (Hact j g Hj) as (g0 & Hg & H1 & H2 & H3).
  specialize (Cd j g0 Hg). unfold sendable in *. by rewrite H2, H3.
Qed.

(** An empty packet is stored: the first one of a key, and the one that carries
    the wrapped client key. *)
Lemma chan_empty_packet ch n op :
  frame_ok f -> chan_inv ch n -> 0 < avail (ks_send_reliable ch) -> 0 <= op < 32 -> 0 <= wl <= TLS_CRYPT_V2_MAX_WKC_LEN ->
  exists r i e, ControlChannel.session_move_pre_start (ks_send_reliable ch) op false = Ret (r, true) /\ chan_inv (ks_set_send ch r) (n + 1) /\
    avail r = avail (ks_send_reliable ch) - 1 /\ e_opcode e = op /\ (forall j g, act r j g <-> (j = i /\ g = e) \/ act (ks_send_reliable ch) j g).
Proof.
  intros Hf Hc Hav Hop Hwl. pose proof Hc as [Cs Co Cz Cw Cn Cd Cr Ca]. destruct Hf as (Hh & _ & _ & _ & Hp). unfold TLS_CRYPT_V2_MAX_WKC_LEN in *.
  destruct (session_move_pre_start_spec _ _ n op Cs Cw Hav) as (r & i & e & Hr & Hw & Hwin & Ho & Hs & Hav' & _ & Ha & Hpid & Hcont & Hoff & Heop & Hact); [lia|].
  exists r, i, e. split_and!; try done. apply (chan_set_send ch n); try (done || lia).
  intros j g Hj. apply Hact in Hj as [[-> ->]|Hj]; [|by apply (Cd j g)].
  unfold sendable, wkc_part. rewrite Hcont, length_be_bytes, Heop, Hoff, Co. split_and!; try lia; destruct (_ || _); lia.
Qed.

Lemma chan_acks ch n a l : chan_inv ch n -> acks_ok a l remote -> chan_inv (mkks (ks_send_reliable ch) (ks_rec_reliable ch) a l (ks_resend_wkc ch)) n.
Proof. intros [] Ha. by split. Qed.

Lemma chan_rec ch n r w : chan_inv ch n -> rel_wf (BUF_SIZE f) r -> chan_inv (mkks (ks_send_reliable ch) r (ks_rec_ack ch) (ks_lru_acks ch) w) n.
Proof. intros [] Ha. by split. Qed.

End stores.

(** ** Updates of a key *)

Section updates.
Context (f : frame) (b : Z) (s : tls_session) (ks : key_state) (H : live_key f b s ks).

Lemma live_key_chan ch n :
  chan_inv f b (wkc_length (ts_tls_wrap s)) (k_session_id_remote ks) ch n -> S_PRE_START <= k_state ks -> 0 < n -> wkc_inv s (k_key_id ks) ch ->
  live_key f b s (k_set_chan ks ch).
Proof using H. destruct H as [L1 L2 L3 L4 L5 L6 L7 L8 L9 L10]. intros Hc Hst Hn Hw. split; try done. exists ch, n. split_and!; try done. unfold S_INITIAL, S_PRE_START in *. cbn [k_state k_set_chan]. lia. Qed.

Lemma live_key_bufs r w : buf_total r TLS_CHANNEL_BUF_SIZE -> buf_total w TLS_CHANNEL_BUF_SIZE -> live_key f b s (k_set_bufs ks r w).
Proof using H. destruct H as [L1 L2 L3 L4 L5 L6 L7 L8 L9 L10]. intros Hr Hw. by split. Qed.

Lemma live_key_src k2 : sources_ok k2 -> live_key f b s (k_set_key_src ks (Some k2)).
Proof using H. destruct H as [L1 L2 L3 L4 L5 L6 L7 L8 L9 L10]. intros Hk. split; try done. by exists k2. Qed.

Lemma live_key_times t : live_key f b s (k_set_times ks t).
Proof using H. destruct H as [L1 L2 L3 L4 L5 L6 L7 L8 L9 L10]. by split. Qed.

Lemma live_key_payload pay ssl : live_key f b s (k_set_payload ks pay ssl).
Proof using H. destruct H as [L1 L2 L3 L4 L5 L6 L7 L8 L9 L10]. by split. Qed.

Lemma live_key_authenticated a : live_key f b s (k_set_authenticated ks a).
Proof using H. destruct H as [L1 L2 L3 L4 L5 L6 L7 L8 L9 L10]. by split. Qed.

Lemma live_key_state x :
  S_PRE_START <= k_state ks < S_GENERATED_KEYS -> S_PRE_START <= x < S_GENERATED_KEYS -> live_key f b s (k_set_state ks x).
Proof using H.
  destruct H as [L1 L2 (ch & n & C1 & C2 & C3 & C4 & C5) [L4 L4'] L5 L6 L7 L8 L9 L10]. unfold S_INITIAL, S_PRE_START, S_GENERATED_KEYS in *. intros Hst Hx.
  split; cbn [k_state k_key_id k_set_state k_initial_opcode k_initialized]; unfold S_INITIAL, S_PRE_START, S_GENERATED_KEYS; try done; try lia.
  - exists ch, n. split_and!; try done; [intros _; apply C3; lia|lia].
Qed.

End updates.

Lemma sess_inv_primary f b s ks :
  sess_inv f b s -> live_key f b s ks -> k_key_id ks = k_key_id (ts_primary s) -> sess_inv f b (ts_set_primary s ks).
Proof.
  intros [H1 H2 H3 H4 [H5 H5'] H6] Hl Hk. split; try done.
  - eapply live_key_same; [|exact Hl]. by split.
  - split; cbn [ts_key_id ts_primary ts_set_primary ts_lame]; by rewrite Hk.
Qed.

(** ** Progress

    Every change of a round comes with a step towards the end: the key
    advances, a received packet is given to the TLS library, a slot for
    outgoing packets is filled, or a buffer changes from empty to full. *)

(** The position of a state on the way to [S_GENERATED_KEYS]: a server gets the
    other's key before it sends its own. *)
Definition rank (server : bool) (st : Z) : Z :=
  if server then (if st =? S_GOT_KEY then S_SENT_KEY else if st =? S_SENT_KEY then S_GOT_KEY else st) else st.

Definition chan_work (c : option ControlChannel.key_state) : Z :=
  match c with Some ch => stored_count (ks_rec_reliable ch) + avail (ks_send_reliable ch) | None => 0 end.
Definition key_work (server : bool) (ks : key_state) : Z :=
  32 * (8 - rank server (k_state ks)) + chan_work (k_chan ks)
  + (if blen (k_plaintext_read_buf ks) =? 0 then 1 else 0) + (if blen (k_plaintext_write_buf ks) =? 0 then 0 else 1).
Definition work (server : bool) p : Z := key_work server (primary p) + (if blen (p_to_link p) =? 0 then 1 else 0).

(** What the library and the configuration give. *)
Record env_ok (env : tls_env) : Prop := {
  ev_now : 0 < te_now env /\ u32_ok (te_now env);
  ev_plain : forall n d, te_read_plain env n = ReadData d -> 0 < zlen d <= n /\ Forall is_byte d;
  ev_cipher : forall n d, te_read_cipher env n = ReadData d -> zlen d <= n /\ Forall is_byte d;
  ev_key : source_ok (te_key_rnd env);
  ev_message : message_octets (te_message env)
}.

Section rounds.
Context (o : tls_options) (b : Z).
Hypotheses (Ho : opts_ok o) (Hb : TLS_RELIABLE_N_SEND_BUFFERS <= b < 2 ^ 31 - 2).
Abbreviation f := (o_frame o).

(** [b] bounds the packets before the call; one more may be sent. *)
Definition budget p : Z := b + (if blen (p_to_link p) =? 0 then 0 else 1).
Record proc_inv p : Prop := {
  pv_session : sess_inv f (budget p) (p_session p);
  pv_remote : link_socket_actual_defined (k_remote_addr (primary p)) = true;
  pv_early : forall ch, k_chan (primary p) = Some ch -> early_ok (p_session p) (k_key_id (primary p)) ch
}.

(** What does not change. *)
Record kept p p' : Prop := {
  kp_lame : ts_lame (p_session p') = ts_lame (p_session p);
  kp_sid : ts_session_id (p_session p') = ts_session_id (p_session p);
  kp_burst : ts_burst (p_session p') = ts_burst (p_session p);
  kp_addr : ts_untrusted_addr (p_session p') = ts_untrusted_addr (p_session p);
  kp_id : k_key_id (primary p') = k_key_id (primary p);
  kp_remote : k_session_id_remote (primary p') = k_session_id_remote (primary p) /\ k_remote_addr (primary p') = k_remote_addr (primary p)
}.

Record follows p p' : Prop := {
  fo_inv : proc_inv p';
  fo_kept : kept p p';
  fo_state : S_PRE_START <= k_state (primary p) -> S_PRE_START <= k_state (primary p');
  fo_work : work (o_server o) p' <= work (o_server o) p;
  fo_change : p_change p' = true -> p_change p = true \/ work (o_server o) p' < work (o_server o) p
}.

Lemma kept_refl p : kept p p.
Proof using. by split. Qed.
Lemma kept_trans p p1 p2 : kept p p1 -> kept p1 p2 -> kept p p2.
Proof using. intros [A1 A2 A3 A4 A5 [A6 A7]] [B1 B2 B3 B4 B5 [B6 B7]]. split; try congruence. split; congruence. Qed.

Lemma follows_refl p : proc_inv p -> follows p p.
Proof using. intros Hp. split; [done|apply kept_refl|done|lia|by left]. Qed.
Lemma follows_trans p p1 p2 : follows p p1 -> follows p1 p2 -> follows p p2.
Proof using.
  intros [G1 G2 G0 G3 G4] [F1 F2 F0 F3 F4]. split; [done|by eapply kept_trans|by auto|lia|]. intros H. destruct (F4 H) as [H'|]; [|right; lia].
  destruct (G4 H'); [by left|right; lia].
Qed.

(** Most steps change the primary key. *)
Lemma follows_primary p p' ks :
  proc_inv p -> p_session p' = ts_set_primary (p_session p) ks -> p_to_link p' = p_to_link p ->
  live_key f (budget p) (p_session p) ks -> k_key_id ks = k_key_id (primary p) ->
  k_session_id_remote ks = k_session_id_remote (primary p) -> k_remote_addr ks = k_remote_addr (primary p) ->
  (forall ch, k_chan ks = Some ch -> early_ok (p_session p) (k_key_id ks) ch) ->
  (S_PRE_START <= k_state (primary p) -> S_PRE_START <= k_state ks) ->
  key_work (o_server o) ks <= key_work (o_server o) (primary p) ->
  (p_change p' = true -> p_change p = true \/ key_work (o_server o) ks < key_work (o_server o) (primary p)) -> follows p p'.
Proof using.
  intros [H1 H2 H3] Es Et Hl Hk Hr Ha He Hst Hw Hch. split.
  - split; unfold budget, primary in *; rewrite ?Es, ?Et; cbn [ts_primary ts_set_primary].
    + by apply sess_inv_primary.
    + by rewrite Ha.
    + intros ch Hc. eapply early_ok_same; [|by apply He]. by split.
  - split; unfold primary in *; by rewrite Es.
  - unfold primary in *. by rewrite Es.
  - unfold work, primary in *. rewrite Es, Et. cbn [ts_primary ts_set_primary]. lia.
  - intros Hc. destruct (Hch Hc) as [|Hlt]; [by left|right]. unfold work, primary in *. rewrite Es, Et. cbn [ts_primary ts_set_primary]. lia.
Qed.

Lemma kept_primary p ks :
  k_key_id ks = k_key_id (primary p) -> k_session_id_remote ks = k_session_id_remote (primary p) -> k_remote_addr ks = k_remote_addr (primary p) ->
  kept p (p_set_primary p ks).
Proof using. intros. by split. Qed.

(** *** Steps and rounds *)

Definition step_ok p (r : outcome (proc * bool)) : Prop :=
  exists p' ok, r = Ret (p', ok) /\ if (ok : bool) then follows p p' else kept p p'.
Definition round_ok p (r : outcome proc) : Prop :=
  exists p', r = Ret p' /\ ((k_state (primary p') = S_ERROR /\ kept p p') \/ follows p p').

Lemma round_ok_error p p' : kept p p' -> round_ok p (Ret (process_error p')).
Proof using. intros H. eexists. split; [done|]. left. split; [done|]. eapply kept_trans; [exact H|]. by split. Qed.

Lemma round_ok_trans p p' r : follows p p' -> round_ok p' r -> round_ok p r.
Proof using.
  intros Hp (p2 & -> & H). exists p2. split; [done|]. destruct H as [[H1 H2]|H]; [left|right; by eapply follows_trans].
  split; [done|]. eapply kept_trans; [apply Hp|done].
Qed.

Lemma or_error_ok p r g : step_ok p r -> (forall p', follows p p' -> round_ok p' (g p')) -> round_ok p (or_error r g).
Proof using.
  intros (p' & ok & -> & H) Hg. unfold or_error. cbn [mbind outcome_bind]. destruct ok; [|by apply round_ok_error].
  eapply round_ok_trans; [exact H|]. by apply Hg.
Qed.

Context (env : tls_env) (Henv : env_ok env).

Lemma proc_live p : proc_inv p -> live_key f (budget p) (p_session p) (primary p).
Proof using. intros [[] _ _]. done. Qed.

Lemma proc_wkc_range p : proc_inv p -> 0 <= wkc_length (ts_tls_wrap (p_session p)) <= TLS_CRYPT_V2_MAX_WKC_LEN.
Proof using. intros [[_ [Hw _] _ _ _ _] _ _]. by eapply wkc_length_range. Qed.

Lemma step_initial_ok p : proc_inv p -> exists p', step_initial o env p = Ret p' /\ follows p p' /\ S_PRE_START <= k_state (primary p').
Proof using Ho Hb.
  intros Hp. pose proof (proc_live p Hp) as Hl. unfold step_initial. destruct (k_state (primary p) =? S_INITIAL) eqn:E.
  2:{ exists p. split; [done|]. split; [by apply follows_refl|]. pose proof (lk_state _ _ _ _ Hl). unfold S_INITIAL, S_PRE_START in *. lia. }
  apply Z.eqb_eq in E. destruct Hl as [L1 L2 (ch & n & C1 & C2 & C3 & C4 & C5) [L4 L4'] L5 L6 L7 L8 L9 L10].
  assert (Hav : avail (ks_send_reliable ch) = 6) by (rewrite (avail_idle _ (C5 E)); apply (ci_size _ _ _ _ _ _ C2)).
  destruct (chan_empty_packet f (budget p) _ _ ch n (k_initial_opcode (primary p)) (oo_frame _ Ho) C2 ltac:(lia) L4 (proc_wkc_range p Hp))
    as (r & i & e & Hr & Hc & Hav' & Hop & Hact).
  unfold session_move_pre_start. rewrite C1. cbn [deref mbind outcome_bind]. rewrite Hr. cbn [mbind outcome_bind negb].
  set (ks := k_set_state _ S_PRE_START). eexists. split; [done|]. split; [|done].
  apply (follows_primary _ _ ks Hp); try done.
  - split; try done; cbn [k_state ks k_set_state k_set_times k_set_chan k_key_id k_chan k_session_id_remote k_initial_opcode k_initialized].
    + exists (ks_set_send ch r), (n + 1). pose proof (ci_count _ _ _ _ _ _ C2). split_and!; try done; [lia|].
      intros [Hw|(j & g & Hj & Hg)]; [by apply C4; left|]. apply Hact in Hj as [[-> ->]|Hj]; [|by destruct (C5 E j g)].
      rewrite Hop in Hg. by apply L4'.
    + rewrite L9, E. done.
  - intros c [= <-]. by apply (early_ok_same (p_session p) (p_session p) _ (ks_set_send ch r)), (pv_early _ Hp ch C1).
  - unfold key_work, ks. rewrite C1, E. cbn [k_state k_set_state k_set_times k_set_chan k_chan chan_work ks_set_send ks_rec_reliable ks_send_reliable k_plaintext_read_buf k_plaintext_write_buf].
    rewrite Hav', Hav. assert (rank (o_server o) S_PRE_START = 2 /\ rank (o_server o) S_INITIAL = 1) as [-> ->] by (by destruct (o_server o)). lia.
  - intros _. right. unfold key_work, ks. rewrite C1, E. cbn [k_state k_set_state k_set_times k_set_chan k_chan chan_work ks_set_send ks_rec_reliable ks_send_reliable k_plaintext_read_buf k_plaintext_write_buf].
    rewrite Hav', Hav. assert (rank (o_server o) S_PRE_START = 2 /\ rank (o_server o) S_INITIAL = 1) as [-> ->] by (by destruct (o_server o)). lia.
Qed.

(** A step to a later state is progress. *)
Lemma key_work_state ks x : rank (o_server o) (k_state ks) < rank (o_server o) x -> key_work (o_server o) (k_set_state ks x) < key_work (o_server o) ks.
Proof using. unfold key_work. cbn [k_state k_set_state k_chan k_plaintext_read_buf k_plaintext_write_buf]. lia. Qed.

Lemma step_start_ok p : proc_inv p -> S_PRE_START <= k_state (primary p) ->
  exists p', step_start p = Ret p' /\ follows p p' /\ S_PRE_START <= k_state (primary p').
Proof using.
  intros Hp Hst. pose proof (proc_live p Hp) as Hl. destruct (lk_chan _ _ _ _ Hl) as (ch & n & C1 & _). unfold step_start.
  rewrite C1. cbn [deref mbind outcome_bind]. destruct (_ && _) eqn:E; [|exists p; split; [done|]; split; [by apply follows_refl|done]].
  apply andb_true_iff in E as [E _]. apply Z.eqb_eq in E. eexists. split; [done|]. split; [|done].
  assert (key_work (o_server o) (k_set_state (primary p) S_START) < key_work (o_server o) (primary p)) by (apply key_work_state; rewrite E; destruct (o_server o); vm_compute; done).
  apply (follows_primary _ _ (k_set_state (primary p) S_START) Hp); try done; [|exact (pv_early _ Hp)|lia|by right].
  apply live_key_state; [done|by rewrite E|done].
Qed.

Lemma addr_defined_family a : link_socket_actual_defined a = true -> addr_ok a.
Proof using. unfold link_socket_actual_defined, addr_defined, addr_ok. destruct (sa_family a =? FAMILY_INET) eqn:E1; [lia|]. destruct (sa_family a =? FAMILY_INET6) eqn:E2; [lia|done]. Qed.

Lemma set_outgoing_addr_total info a : addr_ok a -> exists info', link_socket_set_outgoing_addr info a = Ret info'.
Proof using.
  intros Ha. unfold link_socket_set_outgoing_addr.
  assert (Hm : forall x co, exists r, addr_match_proto a x co = Ret r).
  { intros x co. unfold addr_match_proto, addr_match, addr_port_match. destruct Ha as [-> | ->]; destruct co; simpl; eauto. }
  assert (Hl : forall l co, exists r, addrlist_match_proto a l co = Ret r).
  { intros l co. unfold addrlist_match_proto. destruct co; induction l as [|[fm x] l IH]; cbn [addrlist_match addrlist_port_match]; eauto;
      destruct Ha as [Ha|Ha]; rewrite Ha; cbn; case_match; eauto. }
  destruct (li_connection_established info); cbn [negb mbind outcome_bind].
  - destruct (Hm (li_actual info) (li_connection_oriented info)) as (r & ->). cbn [mbind outcome_bind]. destruct (negb (negb r)); cbn [mbind outcome_bind]; [eauto|].
    destruct (li_remote_float info); cbn [mbind outcome_bind]; [eauto|]. destruct (li_remote_list info) as [l|]; cbn [mbind outcome_bind]; [|eauto].
    destruct (Hl l (li_connection_oriented info)) as (r' & ->). cbn [mbind outcome_bind]. destruct r'; eauto.
  - destruct (li_remote_float info); cbn [mbind outcome_bind]; [eauto|]. destruct (li_remote_list info) as [l|]; cbn [mbind outcome_bind]; [|eauto].
    destruct (Hl l (li_connection_oriented info)) as (r' & ->). cbn [mbind outcome_bind]. destruct r'; eauto.
Qed.

Lemma step_active_ok p : proc_inv p -> S_PRE_START <= k_state (primary p) ->
  exists p', step_active o env p = Ret p' /\ follows p p' /\ S_PRE_START <= k_state (primary p').
Proof using.
  intros Hp Hst. pose proof (proc_live p Hp) as Hl. destruct (lk_chan _ _ _ _ Hl) as (ch & n & C1 & _). unfold step_active.
  rewrite C1. cbn [deref mbind outcome_bind]. destruct (_ && reliable_empty _) eqn:E; [|exists p; split; [done|]; split; [by apply follows_refl|done]].
  apply andb_true_iff in E as [E _].
  assert (Hr : S_PRE_START <= k_state (primary p) < S_GENERATED_KEYS /\ rank (o_server o) (k_state (primary p)) < rank (o_server o) S_ACTIVE).
  { unfold rank, S_PRE_START, S_GENERATED_KEYS, S_SENT_KEY, S_GOT_KEY, S_ACTIVE in *. destruct (o_server o); cbn; repeat case_match; lia. }
  unfold session_move_active. cbn [k_remote_addr k_set_state k_set_times].
  destruct (set_outgoing_addr_total (p_info p) (k_remote_addr (primary p))) as (info & ->); [apply addr_defined_family, Hp|]. cbn [mbind outcome_bind].
  set (ks := k_set_payload _ _ _). eexists. split; [done|]. split; [|done].
  assert (Hwk : key_work (o_server o) ks < key_work (o_server o) (primary p)) by (apply (key_work_state (primary p) S_ACTIVE), Hr).
  apply (follows_primary _ _ ks Hp); try done; [|exact (pv_early _ Hp)|lia|by right].
  apply live_key_payload, live_key_state; [by apply live_key_times|apply Hr|done].
Qed.

(** A packet goes out with the session and the key as [write_control_auth]
    leaves them. *)
Lemma sess_inv_sent x s s' ks ch n :
  sess_inv f x s -> wraps_inv f (x + 1) s' -> same_session s s' -> ts_lame s' = ts_lame s ->
  live_key f x s (k_set_chan ks ch) -> chan_inv f (x + 1) (wkc_length (ts_tls_wrap s)) (k_session_id_remote ks) ch n ->
  k_key_id ks = k_key_id (ts_primary s) -> sess_inv f (x + 1) (ts_set_primary s' (k_set_chan ks ch)).
Proof using.
  intros [H1 H2 H3 H4 [H5 H5'] H6] Hw Hs El Hl _ Hk. pose proof (same_session_wkc _ _ Hs) as Hwk. destruct Hs as [S1 S2 S3 S4 S5 S6 S7]. split.
  - cbn. by rewrite S5.
  - exact Hw.
  - eapply live_key_same; [|apply live_key_mono with (b := x); [exact Hl|lia]]. destruct Hwk as [W1 W2]. by split.
  - cbn. by rewrite El.
  - split; cbn [ts_key_id ts_primary ts_set_primary ts_lame k_set_chan k_key_id]; rewrite ?S6, ?El, ?Hk; done.
  - cbn. by rewrite S4.
Qed.

Lemma packet_out p ch n buf hd c tl opcode max (prepend : bool) :
  proc_inv p -> (blen (p_to_link p) =? 0) = true -> S_PRE_START <= k_state (primary p) ->
  chan_inv f b (wkc_length (ts_tls_wrap (p_session p))) (k_session_id_remote (primary p)) ch n -> 0 < n ->
  wkc_inv (p_session p) (k_key_id (primary p)) ch -> early_ok (p_session p) (k_key_id (primary p)) ch ->
  0 <= opcode < 32 -> 0 <= max <= 8 -> holds buf hd c tl -> hd <= f_headroom f <= hd + 4 -> (prepend = false -> 41 <= tl /\ hd = f_headroom f) ->
  zlen c + wkc_part opcode (wkc_length (ts_tls_wrap (p_session p))) <= 4 + f_payload_size f ->
  (has_wkc opcode = true -> wkc_ready (p_session p) (k_key_id (primary p))) ->
  exists s' (ch' : ControlChannel.key_state) b',
    write_control_auth o (te_now env) (te_rnd env) (p_session p) (k_set_chan (primary p) ch) buf opcode max prepend =
      Ret (s', k_set_chan (primary p) ch', b') /\ 0 < blen b' /\
    ks_send_reliable ch' = ks_send_reliable ch /\ ks_rec_reliable ch' = ks_rec_reliable ch /\
    forall p', p_session p' = ts_set_primary s' (k_set_chan (primary p) ch') -> p_to_link p' = b' -> proc_inv p' /\ kept p p'.
Proof using Ho Hb Henv.
  intros Hp Et Hst Hc Hn Hwk He Hop Hmax Hbuf Hhd Hpre Hfit Hready. assert (Hbud : budget p = b) by (unfold budget; rewrite Et; lia).
  pose proof (proc_live p Hp) as Hl. rewrite Hbud in Hl. pose proof Hp as [S Hrem _]. rewrite Hbud in S. pose proof S as [S1 S2 S3 S4 S5 S6].
  destruct (write_control_auth_total o f b (te_now env) (te_rnd env) (p_session p) (k_set_chan (primary p) ch) ch buf hd c tl opcode max prepend (oo_frame _ Ho))
    as (s' & ch' & b' & -> & Hpos & _ & Hw' & Hsame & _ & Hlame & Hacks & Es & Er & Ek); try done; [lia|apply Henv|apply Hc|apply Hl|].
  exists s', ch', b'. split_and!; try done.
  assert (Hc' : chan_inv f b (wkc_length (ts_tls_wrap (p_session p))) (k_session_id_remote (primary p)) ch' n).
  { destruct ch' as [x1 x2 x3 x4 x5]. cbn [ks_send_reliable ks_rec_reliable ks_rec_ack ks_lru_acks ks_resend_wkc] in *. subst x1 x2 x5.
    by apply (chan_acks _ _ _ _ ch n x3 x4). }
  assert (Hl' : live_key f b (p_session p) (k_set_chan (primary p) ch')).
  { apply (live_key_chan _ _ _ _ Hl _ n); try done. intros Hw. apply Hwk. by rewrite Es, Ek in Hw. }
  pose proof (same_session_wkc _ _ Hsame) as [W1 W2]. intros p' Es' Et'. assert (Hb0 : (blen b' =? 0) = false) by lia. split; split;
    unfold budget, primary in *; rewrite ?Es', ?Et', ?Hb0; cbn [ts_primary ts_set_primary k_set_chan k_chan k_remote_addr k_key_id]; try done; try (by apply Hsame).
  - eapply (sess_inv_sent b (p_session p) s' (primary p) ch' n); try done. destruct Hc'. split; try done. lia.
  - intros c' [= <-]. apply (early_ok_same (p_session p)); [by split|]. unfold early_ok in *. by rewrite Er.
Qed.

Lemma step_send_ok p : proc_inv p -> S_PRE_START <= k_state (primary p) ->
  exists p' sent, step_send o env p = Ret (p', sent) /\ follows p p' /\ S_PRE_START <= k_state (primary p').
Proof using Ho Hb Henv.
  intros Hp Hst. pose proof (proc_live p Hp) as Hl. destruct (lk_chan _ _ _ _ Hl) as (ch & n & C1 & C2 & C3 & C4 & C5). unfold step_send.
  rewrite C1. cbn [deref mbind outcome_bind]. destruct (_ && _) eqn:E; [|exists p, false; split; [done|]; split; [by apply follows_refl|done]].
  apply andb_true_iff in E as [Et Ecan]. assert (Hbud : budget p = b) by (unfold budget; rewrite Et; lia). rewrite Hbud in C2. pose proof C2 as [Cs Co Cz Cw Cn Cd Cr Ca].
  destruct (reliable_send_spec _ _ n (te_now env) Cs Cw) as [[_ Hno]|(i & e & -> & Ha & _)].
  { apply can_send_due in Ecan as [_ (i & e & Hs & Hd)]. by rewrite (Hno i e Hs) in Hd. }
  cbn [must mbind outcome_bind]. rewrite (rel_entry_slot _ i (resent (te_now env) e)) by (destruct Ha as [Hs _]; by eapply slot_set_eq).
  cbn [mbind outcome_bind]. change (e_buf (resent (te_now env) e)) with (e_buf e).
  destruct (chan_resent _ _ _ _ ch n i e (te_now env) C2 Ha) as (Hc & Hav & Hact). set (send := rel_set_entry _ i _) in *.
  destruct (rw_bufs _ _ Cs i e (proj1 Ha)) as (hd & c & tl & Hbuf & Hcap). destruct (Cd i e Ha) as (D1 & D2 & D3 & D4).
  assert (Hcont : content (e_buf e) = c) by (by destruct Hbuf as (? & ? & ? & ? & ?)). rewrite Hcont in *. holds_facts Hbuf.
  destruct (packet_out p (ks_set_send ch send) n (e_buf e) hd c tl (e_opcode e) CONTROL_SEND_ACK_MAX true) as (s' & ch' & b' & -> & Hpos & Es & Er & Hout);
    try done; [by apply C3| |exact (pv_early _ Hp ch C1)|lia| |].
  { intros [Hw|(j & g & Hj & Hg)]; apply C4; [by left|right]. destruct (Hact j g Hj) as (g0 & Hg0 & _ & _ & Hop). exists j, g0. by rewrite <- Hop. }
  { intros Hh. apply C4. right. by exists i, e. }
  cbn [mbind outcome_bind]. set (p' := p_set_change _ true). destruct (Hout p' eq_refl eq_refl) as [Hp' Hk']. eexists _, true. split; [done|]. split; [|exact Hst].
  assert (Hwork : work (o_server o) p' = work (o_server o) p - 1); [|split; [done|done|done|lia|right; lia]].
  unfold work, primary, key_work, p'. cbn [p_set_change p_set_out p_to_link p_session ts_set_primary ts_primary k_set_chan k_state k_chan k_plaintext_read_buf k_plaintext_write_buf chan_work].
  unfold primary in C1. rewrite C1, Es, Er, Et. cbn [chan_work ks_set_send ks_send_reliable ks_rec_reliable]. rewrite Hav, (proj2 (Z.eqb_neq (blen b') 0)) by lia. unfold primary. lia.
Qed.

(** A step that does nothing. *)
Lemma step_idle p : proc_inv p -> step_ok p (Ret (p, true)).
Proof using. intros Hp. exists p, true. split; [done|]. by apply follows_refl. Qed.

Lemma step_incoming_ok p : proc_inv p -> S_PRE_START <= k_state (primary p) -> step_ok p (step_incoming env p).
Proof using Ho Hb Henv.
  intros Hp Hst. pose proof (proc_live p Hp) as Hl. destruct (lk_chan _ _ _ _ Hl) as (ch & n & C1 & C2 & C3 & C4 & C5). unfold step_incoming.
  rewrite C1. cbn [deref mbind outcome_bind]. pose proof (ci_rec _ _ _ _ _ _ C2) as Hw.
  destruct (deliver_next_spec _ _ (ks_resend_wkc ch) (te_accept env) Hw) as (rec & wkc & taken & ok & Hd & Hw' & Hsz & _ & Hres).
  pose proof (pv_early _ Hp ch C1) as He. pose proof (fun He' => deliver_next_flag _ _ _ _ _ _ _ _ Hw He' Hd) as Hflag.
  rewrite Hd. cbn [mbind outcome_bind]. set (reset := match reliable_get_entry_sequenced _ with Some _ => _ | None => false end). clearbody reset.
  set (ch' := mkks _ rec _ _ wkc). set (ks := k_set_chan (primary p) ch').
  assert (Hk : kept p (p_set_primary p ks)) by done.
  destruct ok.
  2:{ destruct taken as [d|]; [by destruct Hres|]. eexists _, false. split; [done|]. exact Hk. }
  assert (Hsub : forall j e, act rec j e -> act (ks_rec_reliable ch) j e).
  { destruct taken as [d|]; [|by intros j e Hj; apply Hres]. destruct Hres as (_ & i & e0 & _ & _ & _ & _ & Hact). intros j e Hj. by apply Hact. }
  destruct (stored_count_le _ _ _ Hw Hw' Hsz) as [Hle Hlt]; [intros j e Hj; by exists e; apply Hsub|].
  assert (Hwk : wkc_inv (p_session p) (k_key_id (primary p)) ch').
  { intros Hn. destruct He as [He|He]; [done|]. apply C4. rewrite <- (Hflag He). exact Hn. }
  assert (Hlive : live_key f (budget p) (p_session p) ks).
  { apply (live_key_chan _ _ _ _ Hl _ n); [by apply chan_rec|done|by apply C3|done]. }
  assert (He' : forall c, k_chan ks = Some c -> early_ok (p_session p) (k_key_id ks) c).
  { intros c [= <-]. destruct He as [He|He]; [by left|right]. intros i e Hi. apply (He i e), Hsub, Hi. }
  assert (Hwork : key_work (o_server o) ks <= key_work (o_server o) (primary p)).
  { unfold key_work, ks. rewrite C1. cbn [k_set_chan k_state k_chan k_plaintext_read_buf k_plaintext_write_buf chan_work ch' ks_rec_reliable ks_send_reliable]. lia. }
  destruct taken as [d|]; (eexists _, true; split; [done|]).
  - assert (Hworks : key_work (o_server o) ks < key_work (o_server o) (primary p)).
    { destruct Hres as (_ & i & e0 & Ha & _ & _ & _ & Hact). specialize (Hlt i e0 Ha). unfold key_work, ks. rewrite C1.
      cbn [k_set_chan k_state k_chan k_plaintext_read_buf k_plaintext_write_buf chan_work ch' ks_rec_reliable ks_send_reliable].
      assert (stored_count rec < stored_count (ks_rec_reliable ch)); [|lia]. apply Hlt. intros g Hg. by apply Hact in Hg as [? _]. }
    destruct reset; apply (follows_primary _ _ ks Hp); try done; by right.
  - apply (follows_primary _ _ ks Hp); try done. by left.
Qed.

Lemma buf_ok_total x blk : buf_ok x blk -> buf_total x (bcapacity x).
Proof using. intros Hx. pose proof (zlen_content _ _ Hx). exists (boffset x), (content x), (bcapacity x - boffset x - blen x). split; [by exists blk|lia]. Qed.

Lemma step_read_plain_ok p : proc_inv p -> step_ok p (step_read_plain env p).
Proof using Henv.
  intros Hp. pose proof (proc_live p Hp) as Hl. unfold step_read_plain. destruct (blen (k_plaintext_read_buf (primary p)) =? 0) eqn:E; [|by apply step_idle].
  destruct (lk_read _ _ _ _ Hl) as (hd & c & tl & Hbuf & Hcap). destruct (buf_init_spec _ _ _ _ 0 Hbuf) as (x & -> & Hx); [holds_facts Hbuf; lia|].
  rewrite ASSERT_ok_true. cbn [mbind outcome_bind]. rewrite Hcap, Z.sub_0_r in Hx. holds_facts Hx.
  assert (Hfwd : buf_forward_capacity x = TLS_CHANNEL_BUF_SIZE).
  { unfold buf_forward_capacity. rewrite Hval, Hlen, Hoff, Hcap0. simpl. lia. }
  assert (Hx0 : set_len x 0 = x) by (destruct x; cbn in *; by subst). rewrite Hx0.
  assert (Hone : buf_total x TLS_CHANNEL_BUF_SIZE) by (exists 0, [], TLS_CHANNEL_BUF_SIZE; done).
  rewrite Hfwd. destruct (te_read_plain env TLS_CHANNEL_BUF_SIZE) as [| |d] eqn:Er.
  - eexists _, false. split; [done|]. by apply kept_primary.
  - eexists _, true. split; [done|]. apply (follows_primary _ _ (k_set_bufs (primary p) x (k_plaintext_write_buf (primary p))) Hp); try done.
    + apply live_key_bufs; [done|done|apply Hl].
    + exact (pv_early _ Hp).
    + unfold key_work. cbn [k_set_bufs k_state k_chan k_plaintext_read_buf k_plaintext_write_buf]. rewrite E, Hlen. simpl. lia.
    + by left.
  - destruct (ev_plain _ Henv _ _ Er) as [Hd Hdb]. destruct Hx as (blk & Hok & _).
    destruct (poke_ok x blk (boffset x) d Hok) as [-> Hok']; [lia|rewrite Hoff, Hcap0; simpl; lia|done|]. cbn [mbind outcome_bind].
    set (y := set_len _ (zlen d)). assert (Hy : buf_total y TLS_CHANNEL_BUF_SIZE).
    { assert (bcapacity y = TLS_CHANNEL_BUF_SIZE) as <- by (cbn; simpl in Hcap0; lia). eapply buf_ok_total with (blk := splice blk (boffset x) d).
      destruct Hok' as [K1 K2 K3 K4 K5 K6 K7]. split; cbn in *; try done; try lia. }
    eexists _, true. split; [done|]. assert (Hwork : key_work (o_server o) (k_set_bufs (primary p) y (k_plaintext_write_buf (primary p))) < key_work (o_server o) (primary p)).
    { unfold key_work. cbn [k_set_bufs k_state k_chan k_plaintext_read_buf k_plaintext_write_buf]. rewrite E. change (blen y) with (zlen d).
      rewrite (proj2 (Z.eqb_neq (zlen d) 0)) by lia. lia. }
    apply (follows_primary _ _ (k_set_bufs (primary p) y (k_plaintext_write_buf (primary p))) Hp); try done; [|exact (pv_early _ Hp)|lia|by right].
    apply live_key_bufs; [done|done|apply Hl].
Qed.

(** Sending or getting a key moves the state forward by more than the buffers
    can count. *)
Lemma key_work_jump ks ks' :
  k_chan ks' = k_chan ks -> rank (o_server o) (k_state ks) < rank (o_server o) (k_state ks') -> key_work (o_server o) ks' < key_work (o_server o) ks.
Proof using. intros Hc Hr. unfold key_work. rewrite Hc. repeat case_match; lia. Qed.

Lemma step_send_key_ok p : proc_inv p -> step_ok p (step_send_key o env p).
Proof using Henv.
  intros Hp. pose proof (proc_live p Hp) as Hl. unfold step_send_key. destruct (_ && _) eqn:E; [|by apply step_idle]. apply andb_true_iff in E as [_ E].
  destruct (lk_src _ _ _ _ Hl) as (k2 & -> & Hk2). cbn [deref mbind outcome_bind].
  destruct (write_any_message (k_plaintext_write_buf (primary p)) k2 (te_key_rnd env) (o_server o) (te_message env) TLS_CHANNEL_BUF_SIZE)
    as (x & k2' & ok & -> & Hx & Hk2'); [done|apply Henv|apply Henv|apply Hl|]. cbn [mbind outcome_bind].
  destruct ok; [|eexists _, false; split; [done|]; by apply kept_primary]. eexists _, true. split; [done|].
  assert (Hst : S_PRE_START <= k_state (primary p) < S_GENERATED_KEYS /\ rank (o_server o) (k_state (primary p)) < rank (o_server o) S_SENT_KEY).
  { unfold rank, S_PRE_START, S_GENERATED_KEYS, S_START, S_SENT_KEY, S_GOT_KEY in *. destruct (o_server o); cbn; repeat case_match; lia. }
  set (ks := k_set_state _ S_SENT_KEY). assert (Hwork : key_work (o_server o) ks < key_work (o_server o) (primary p)) by (apply key_work_jump; [done|apply Hst]).
  apply (follows_primary _ _ ks Hp); try done; [|exact (pv_early _ Hp)|lia|by right].
  apply live_key_state; [apply live_key_src; [apply live_key_bufs; [done|apply Hl|done]|done]|apply Hst|done].
Qed.

Lemma step_got_key_ok p : proc_inv p -> step_ok p (step_got_key o env p).
Proof using.
  intros Hp. pose proof (proc_live p Hp) as Hl. unfold step_got_key. destruct (_ && _) eqn:E; [|by apply step_idle]. apply andb_true_iff in E as [_ E].
  destruct (lk_src _ _ _ _ Hl) as (k2 & -> & Hk2). cbn [deref mbind outcome_bind].
  destruct (read_any_message (te_auth env) (k_plaintext_read_buf (primary p)) k2 (o_server o) TLS_CHANNEL_BUF_SIZE) as (r & -> & Hbuf & Hr); [apply Hl|].
  cbn [mbind outcome_bind]. destruct (rc_ok r); [|eexists _, false; split; [done|]; by apply kept_primary]. eexists _, true. split; [done|].
  assert (Hst : S_PRE_START <= k_state (primary p) < S_GENERATED_KEYS /\ rank (o_server o) (k_state (primary p)) < rank (o_server o) S_GOT_KEY).
  { unfold rank, S_PRE_START, S_GENERATED_KEYS, S_START, S_SENT_KEY, S_GOT_KEY in *. destruct (o_server o); cbn; repeat case_match; lia. }
  set (ks := k_set_state _ S_GOT_KEY). assert (Hwork : key_work (o_server o) ks < key_work (o_server o) (primary p)) by (apply key_work_jump; [done|apply Hst]).
  apply (follows_primary _ _ ks Hp); try done; [|exact (pv_early _ Hp)|lia|by right]. destruct Hr as (_ & k & Hk & Er).
  apply live_key_state; [apply live_key_authenticated, live_key_src; [apply live_key_bufs; [done| |apply Hl]|rewrite Er; by apply set_source_ok]|apply Hst|done].
  exists 0, [], TLS_CHANNEL_BUF_SIZE. done.
Qed.

Lemma step_write_plain_ok p : proc_inv p -> step_ok p (step_write_plain env p).
Proof using.
  intros Hp. pose proof (proc_live p Hp) as Hl. unfold step_write_plain. destruct (blen (k_plaintext_write_buf (primary p)) =? 0) eqn:E; cbn [negb]; [by apply step_idle|].
  destruct (lk_write _ _ _ _ Hl) as (hd & c & tl & Hbuf & Hcap). rewrite (buf_bytes_spec _ _ _ _ Hbuf). cbn [mbind outcome_bind]. set (status := te_write_plain env c).
  destruct (bio_write_post_spec status _ _ _ _ Hbuf) as (x & c' & tl' & Hpost & Hx & Hsum & Hsame). rewrite Hpost. cbn [mbind outcome_bind].
  assert (Hx' : buf_total x TLS_CHANNEL_BUF_SIZE) by (exists hd, c', tl'; split; [done|lia]).
  assert (Hlive : live_key f (budget p) (p_session p) (k_set_bufs (primary p) (k_plaintext_read_buf (primary p)) x)) by (apply live_key_bufs; [done|apply Hl|done]).
  destruct (status =? -1); [eexists _, false; split; [done|]; by apply kept_primary|]. destruct (status =? 1) eqn:E1.
  - apply Z.eqb_eq in E1. rewrite E1 in Hpost. pose proof (bio_write_post_empty _ _ Hpost) as Hx0. eexists _, true. split; [done|].
    set (ks := k_set_payload _ _ _). assert (Hwork : key_work (o_server o) ks < key_work (o_server o) (primary p)).
    { unfold key_work, ks. cbn [k_set_payload k_set_bufs k_state k_chan k_plaintext_read_buf k_plaintext_write_buf]. rewrite Hx0, E. simpl. lia. }
    apply (follows_primary _ _ ks Hp); try done; [by apply live_key_payload|exact (pv_early _ Hp)|lia|by right].
  - rewrite Hsame in * by lia. eexists _, true. split; [done|].
    apply (follows_primary _ _ (k_set_bufs (primary p) (k_plaintext_read_buf (primary p)) (k_plaintext_write_buf (primary p))) Hp); try done; [exact (pv_early _ Hp)|by left].
Qed.

Lemma overhead_mode_total x s : sess_inv f x s ->
  exists mode, overhead_mode s = Ret mode /\ match mode with TLS_WRAP_AUTH h => 0 <= h | _ => True end.
Proof using.
  intros [_ [Hw _] _ _ _ _]. unfold overhead_mode. destruct (wi_send _ _ _ Hw) as (rctx & H & [_ Hp] & _). pose proof (wi_mac _ _ _ Hw) as Hm.
  destruct (tw_mode (ts_tls_wrap s)) eqn:E; [by eexists| |by eexists]. destruct Hp as (_ & _ & [m Em] & _). specialize (Hm eq_refl).
  rewrite Em in *. cbn [must mbind outcome_bind mac_size] in *. eexists. split; [done|]. cbn. lia.
Qed.

Lemma budget_range p : b <= budget p <= b + 1.
Proof using. unfold budget. case_match; lia. Qed.

Lemma step_write_cipher_ok p : proc_inv p -> S_PRE_START <= k_state (primary p) -> step_ok p (step_write_cipher o env p).
Proof using Ho Hb Henv.
  intros Hp Hst. pose proof (proc_live p Hp) as Hl. destruct (lk_chan _ _ _ _ Hl) as (ch & n & C1 & C2 & C3 & C4 & C5). unfold step_write_cipher.
  rewrite C1. cbn [deref mbind outcome_bind]. destruct (S_START <=? k_state (primary p)); [|by apply step_idle].
  pose proof C2 as [Cs Co Cz Cw Cn Cd Cr Ca]. pose proof (avail_range _ _ _ Cs Cw) as Hrng. pose proof (budget_range p) as Hbud. pose proof (pv_early _ Hp ch C1) as He.
  destruct (get_buf_output_spec _ _ n Cs Cw) as [Hsome Hnone]. destruct (decide (avail (ks_send_reliable ch) = 0)) as [Ha|Ha].
  { rewrite (Hnone Ha). cbn [mbind outcome_bind]. eexists _, true. split; [done|].
    assert (Hks : k_set_chan (primary p) (ks_set_send ch (ks_send_reliable ch)) = primary p).
    { assert (ks_set_send ch (ks_send_reliable ch) = ch) as -> by (by destruct ch). unfold k_set_chan. rewrite <- C1. by destruct (primary p). }
    rewrite Hks. apply (follows_primary _ _ (primary p) Hp); try done; [exact (pv_early _ Hp)|by left]. }
  destruct (Hsome ltac:(lia)) as (i & e & e' & -> & Hs & Hei & Hei' & Hbuf). cbn [mbind outcome_bind].
  destruct (chan_idle _ _ _ _ ch n i e e' _ _ _ C2 Hs Hei Hei' Hbuf ltac:(simpl; lia)) as (Hc & Hact & Hav).
  set (r := rel_set_entry _ i e') in *. clearbody r. destruct (overhead_mode_total _ _ (pv_session _ Hp)) as (mode & -> & Hmode). cbn [mbind outcome_bind].
  pose proof Hc as [Ds Do Dz Dw Dn Dd Dr Da].
  destruct (write_outgoing_spec f mode (sa_family (ts_untrusted_addr (p_session p)) =? FAMILY_INET) (option_map buf_len (tw_wkc (ts_tls_wrap (p_session p))))
    (wkc_length (ts_tls_wrap (p_session p))) (te_read_cipher env) (ks_set_send ch r) n (oo_frame _ Ho) (proc_wkc_range p Hp)) as
    (r' & ret & change & -> & cs & W1 & W2 & _ & W3 & W4 & W5 & W6 & _ & W7 & _); try done.
  { intros Hr. destruct (C4 (or_introl Hr)) as [[wb Hwb] _]. unfold wkc_length. by rewrite Hwb. }
  { apply (ao_rec _ _ _ Da). } { apply (ao_lru _ _ _ Da). } { specialize (C3 Hst). cbn [ks_send_reliable ks_set_send] in *. lia. } { apply Henv. }
  cbn [mbind outcome_bind]. cbn [ks_send_reliable ks_set_send] in *. set (ch' := ks_set_send (ks_set_send ch r) r'). set (ks := k_set_chan (primary p) ch').
  destruct ret; [|destruct change; eexists _, false; (split; [done|]); by split].
  assert (Hc' : chan_inv f (budget p) (wkc_length (ts_tls_wrap (p_session p))) (k_session_id_remote (primary p)) ch' (n + zlen cs)).
  { apply (chan_set_send _ _ _ _ (ks_set_send ch r) n); try (done || lia). intros j g Hj. destruct (W7 j g Hj) as [Hold|[Hg _]]; [|done]. by apply (Dd j g). }
  assert (Hlive : live_key f (budget p) (p_session p) ks).
  { apply (live_key_chan _ _ _ _ Hl _ (n + zlen cs)); [done|done|specialize (C3 Hst); lia|].
    intros [Hr|(j & g & Hj & Hg)]; [by apply C4; left|]. destruct (W7 j g Hj) as [Hold|[_ [Hop|Hr]]].
    - apply C4. right. exists j, g. split; [by apply Hact|done].
    - by rewrite Hop in Hg.
    - by apply C4; left. }
  assert (Hwk : key_work (o_server o) ks = key_work (o_server o) (primary p) - zlen cs).
  { unfold key_work, ks. rewrite C1. cbn [k_set_chan k_state k_chan k_plaintext_read_buf k_plaintext_write_buf chan_work ch' ks_rec_reliable ks_send_reliable ks_set_send].
    rewrite W5, Hav. lia. }
  assert (He' : forall c, k_chan ks = Some c -> early_ok (p_session p) (k_key_id ks) c) by (intros c [= <-]; exact He).
  eexists _, true. split; [done|]. destruct change; apply (follows_primary _ _ ks Hp); try (done || lia).
  - intros _. right. destruct cs; [by destruct (W6 eq_refl)|]. simpl in *. lia.
  - by left.
Qed.

(** *** A round *)

Lemma tls_process_state_ok p :
  proc_inv p ->
  exists p', tls_process_state o env p = Ret p' /\ kept p p' /\
    (k_state (primary p') = S_ERROR \/
     (proc_inv p' /\ S_PRE_START <= k_state (primary p') /\ work (o_server o) p' <= work (o_server o) p /\ (p_change p' = true -> work (o_server o) p' < work (o_server o) p))).
Proof using Ho Hb Henv.
  intros Hp. set (p0 := p_set_change p false). assert (Hp0 : proc_inv p0) by (destruct Hp; by split).
  enough (Hr : exists p1, follows p0 p1 /\ S_PRE_START <= k_state (primary p1) /\ round_ok p1 (tls_process_state o env p)).
  { destruct Hr as (p1 & H1 & Hs1 & p' & -> & H2). exists p'. split; [done|].
    assert (Hk : forall q, kept p0 q -> kept p q) by (intros q []; by split).
    destruct H2 as [[He H2]|H2]; [split; [|by left]|].
    - apply Hk. eapply kept_trans; [apply H1|done].
    - pose proof (follows_trans _ _ _ H1 H2) as [F1 F2 F0 F3 F4]. split; [by apply Hk|]. right. split_and!; try done; [by apply H2|].
      intros Hc. by destruct (F4 Hc). }
  unfold tls_process_state. fold p0. destruct (step_initial_ok p0 Hp0) as (p1 & -> & H1 & Hs1). cbn [mbind outcome_bind].
  exists p1. split; [done|]. split; [done|]. destruct (negotiation_timed_out env (primary p1)); [apply round_ok_error, kept_refl|].
  destruct (step_start_ok p1 (fo_inv _ _ H1) Hs1) as (p2 & -> & H2 & Hs2). cbn [mbind outcome_bind]. eapply round_ok_trans; [exact H2|].
  destruct (step_active_ok p2 (fo_inv _ _ H2) Hs2) as (p3 & -> & H3 & Hs3). cbn [mbind outcome_bind]. eapply round_ok_trans; [exact H3|].
  destruct (step_send_ok p3 (fo_inv _ _ H3) Hs3) as (p4 & sent & -> & H4 & Hs4). cbn [mbind outcome_bind]. eapply round_ok_trans; [exact H4|].
  pose proof (fo_inv _ _ H4) as Hp4. destruct sent; [exists p4; split; [done|]; right; by apply follows_refl|].
  apply or_error_ok; [by apply step_incoming_ok|]. intros p5 H5. pose proof (fo_state _ _ H5 Hs4) as Hs5.
  apply or_error_ok; [by apply step_read_plain_ok, H5|]. intros p6 H6. pose proof (fo_state _ _ H6 Hs5) as Hs6.
  apply or_error_ok; [by apply step_send_key_ok, H6|]. intros p7 H7. pose proof (fo_state _ _ H7 Hs6) as Hs7.
  apply or_error_ok; [by apply step_got_key_ok, H7|]. intros p8 H8. pose proof (fo_state _ _ H8 Hs7) as Hs8.
  apply or_error_ok; [by apply step_write_plain_ok, H8|]. intros p9 H9. pose proof (fo_state _ _ H9 Hs8) as Hs9.
  apply or_error_ok; [by apply step_write_cipher_ok; [apply H9|]|]. intros p10 H10. exists p10. split; [done|]. right. by apply follows_refl, H10.
Qed.

(** *** Acknowledgements *)

Lemma send_acks_ok p : proc_inv p -> S_PRE_START <= k_state (primary p) -> exists p' ok, send_acks o env p = Ret (p', ok) /\ kept p p' /\ proc_inv p' /\ k_state (primary p') = k_state (primary p).
Proof using Ho Hb Henv.
  intros Hp Hst. pose proof (proc_live p Hp) as Hl. destruct (lk_chan _ _ _ _ Hl) as (ch & n & C1 & C2 & C3 & C4 & C5). unfold send_acks.
  rewrite C1. cbn [deref mbind outcome_bind]. destruct (_ && _) eqn:E; [|exists p, true; split; [done|]; split; [apply kept_refl|done]].
  apply andb_true_iff in E as [Et _]. assert (Hbud : budget p = b) by (unfold budget; rewrite Et; lia). rewrite Hbud in C2, Hl. pose proof C2 as [Cs Co Cz Cw Cn Cd Cr Ca].
  pose proof (avail_range _ _ _ Cs Cw) as Hrng.
  assert (Hset : forall r m, chan_inv f b (wkc_length (ts_tls_wrap (p_session p))) (k_session_id_remote (primary p)) (ks_set_send ch r) m -> 0 < m ->
    wkc_inv (p_session p) (k_key_id (primary p)) (ks_set_send ch r) -> proc_inv (p_set_primary p (k_set_chan (primary p) (ks_set_send ch r)))).
  { intros r m Hc Hm Hw. pose proof Hp as [S Hrem He]. split; [|done|].
    - change (budget (p_set_primary _ _)) with (budget p). apply sess_inv_primary; [done| |done]. rewrite Hbud. by apply (live_key_chan _ _ _ _ Hl _ m).
    - intros c [= <-]. apply (early_ok_same (p_session p)); [by split|]. exact (He ch C1). }
  destruct (control_packet_needs_wkc _ _) eqn:En.
  - unfold control_packet_needs_wkc in En. apply andb_true_iff in En as [En _]. pose proof (C4 (or_introl En)) as Hready.
    destruct (get_buf_output_spec _ _ n Cs Cw) as [Hsome Hnone]. destruct (decide (avail (ks_send_reliable ch) = 0)) as [Ha|Ha].
    + rewrite (Hnone Ha). cbn [mbind outcome_bind]. eexists _, false. split; [done|]. split; [by apply kept_primary|]. split; [|done]. apply (Hset _ n); try (by destruct ch). by apply C3.
    + destruct (chan_empty_packet f b _ _ ch n P_CONTROL_WKC_V1 (oo_frame _ Ho) C2 ltac:(lia) ltac:(done) (proc_wkc_range p Hp)) as (r & i & e & Hr & Hc & _).
      destruct (Hsome ltac:(lia)) as (i' & e1 & e2 & Hg & _). unfold ControlChannel.session_move_pre_start in Hr. rewrite Hg in Hr. cbn [mbind outcome_bind] in Hr.
      rewrite Hg. cbn [mbind outcome_bind]. apply bind_Ret_inv in Hr as (r' & -> & [= ->]). cbn [mbind outcome_bind].
      eexists _, true. split; [done|]. split; [by apply kept_primary|]. split; [|done]. apply (Hset _ (n + 1)); [done|specialize (C3 Hst); lia|]. by intros _.
  - destruct (lk_ack _ _ _ _ Hl) as (hd & c & tl & Hbuf & Hcap). pose proof (oo_frame _ Ho) as (F1 & F2 & F3 & F4 & F5). unfold BUF_SIZE in Hcap.
    destruct (buf_init_spec _ _ _ _ (f_headroom f) Hbuf) as (x & -> & Hx); [lia|]. rewrite ASSERT_ok_true. cbn [mbind outcome_bind].
    destruct (packet_out p ch n x (f_headroom f) [] (hd + zlen c + tl - f_headroom f) P_ACK_V1 RELIABLE_ACK_SIZE false) as (s' & ch' & b' & Hout & Hpos & Es & Er & Hres);
      try done; [by apply C3|exact (pv_early _ Hp ch C1)|lia|lia|change (wkc_part P_ACK_V1 _) with 0; simpl; lia|].
    assert (Hks : k_set_chan (primary p) ch = primary p) by (unfold k_set_chan; rewrite <- C1; by destruct (primary p)). rewrite Hks in Hout. rewrite Hout.
    cbn [mbind outcome_bind]. eexists _, true. split; [done|]. destruct (Hres (p_set_out p (ts_set_primary s' (k_set_chan (primary p) ch')) b' (Some (k_remote_addr (k_set_chan (primary p) ch'))))); [done|done|].
    by split_and!.
Qed.

End rounds.

(** ** The whole routine *)

Section run.
Context (o : tls_options) (b : Z) (env : nat -> tls_env).
Hypotheses (Ho : opts_ok o) (Hb : TLS_RELIABLE_N_SEND_BUFFERS <= b < 2 ^ 31 - 2) (Henv : forall i, env_ok (env i)).
Abbreviation f := (o_frame o).
Abbreviation proc_inv := (proc_inv o b).

Definition max_rounds : nat := 256.

Lemma work_range p : proc_inv p -> 0 <= work (o_server o) p < Z.of_nat max_rounds.
Proof using.
  intros Hp. pose proof (proc_live o b p Hp) as Hl. destruct (lk_chan _ _ _ _ Hl) as (ch & n & C1 & C2 & _). pose proof C2 as [Cs Co Cz Cw Cn Cd Cr Ca].
  pose proof (stored_count_range _ _ Cr) as H1. pose proof (avail_range _ _ _ Cs Cw) as H2. pose proof (rw_size _ _ Cr) as H3.
  pose proof (lk_state _ _ _ _ Hl) as H4. assert (H5 : 1 <= rank (o_server o) (k_state (primary p)) <= 7).
  { unfold rank, S_GOT_KEY, S_SENT_KEY, S_INITIAL, S_GENERATED_KEYS in *. repeat case_match; lia. }
  unfold TLS_RELIABLE_N_SEND_BUFFERS, RELIABLE_CAPACITY in *. unfold work, key_work. rewrite C1. cbn [chan_work].
  assert (H6 : forall (c : bool), 0 <= (if c then 1 else 0) <= 1) by (by intros []). assert (H7 : forall (c : bool), 0 <= (if c then 0 else 1) <= 1) by (by intros []).
  pose proof (H6 (blen (k_plaintext_read_buf (primary p)) =? 0)). pose proof (H7 (blen (k_plaintext_write_buf (primary p)) =? 0)). pose proof (H6 (blen (p_to_link p) =? 0)).
  change (Z.of_nat max_rounds) with 256. lia.
Qed.

Lemma process_loop_ok fuel : forall p i, proc_inv p -> work (o_server o) p < Z.of_nat fuel ->
  exists p' j, process_loop fuel o env i p = Ret (Some (p', j)) /\ kept p p' /\
    (k_state (primary p') = S_ERROR \/ (proc_inv p' /\ S_PRE_START <= k_state (primary p'))).
Proof using Ho Hb Henv.
  induction fuel as [|fuel IH]; intros p i Hp Hw; [pose proof (work_range p Hp); lia|]. cbn [process_loop].
  destruct (tls_process_state_ok o b Ho Hb (env i) (Henv i) p Hp) as (p1 & -> & Hk & Hres). cbn [mbind outcome_bind].
  destruct (k_state (primary p1) =? S_ERROR) eqn:E; [exists p1, (S i); split_and!; try done; left; lia|].
  destruct Hres as [Hres|(Hp1 & Hst & Hle & Hlt)]; [unfold S_ERROR in *; lia|]. destruct (p_change p1) eqn:Ec; [|exists p1, (S i); split_and!; auto].
  destruct (IH p1 (S i) Hp1) as (p2 & j & Hr & Hk2 & H2); [specialize (Hlt eq_refl); lia|]. exists p2, j. split_and!; try done. by eapply kept_trans.
Qed.

Lemma lame_duck_total now (s : tls_session) w : lame_ok (ts_lame s) -> exists die w', lame_duck_must_die now s w = Ret (die, w').
Proof using.
  intros Hl. unfold lame_duck_must_die. destruct Hl as [Hs|(Hs & _ & Hd & _)]; rewrite Hs; cbn; [by eexists _, _|].
  rewrite (proj2 (Z.eqb_neq (t_must_die (k_times (ts_lame s))) 0)) by done. cbn [negb ASSERT mbind outcome_bind]. destruct (_ <? _); by eexists _, _.
Qed.

Lemma sess_inv_lame x (s : tls_session) : sess_inv f x s -> sess_inv f x (ts_set_lame s key_clear).
Proof using.
  intros [H1 H2 H3 H4 [H5 H5'] H6]. split; try done; [by eapply live_key_same; [|exact H3]|by left].
Qed.

(** Before the rounds: the renegotiation, and the end of the lame duck. *)
Lemma process_start p :
  proc_inv p ->
  exists p1 die w, (if needs_soft_reset o (te_now (env 0%nat)) (primary p) then s ← key_state_soft_reset o (te_now (env 0%nat)) (p_session p); Ret (p_set_session p s) else Ret p) = Ret p1 /\
    lame_duck_must_die (te_now (env 0%nat)) (p_session p1) (p_wakeup p1) = Ret (die, w) /\ proc_inv p1 /\
    (needs_soft_reset o (te_now (env 0%nat)) (primary p) = false -> p1 = p) /\
    (needs_soft_reset o (te_now (env 0%nat)) (primary p) = true ->
       k_state (ts_lame (p_session p1)) = S_GENERATED_KEYS /\ k_key_id (ts_lame (p_session p1)) = k_key_id (primary p) /\ k_state (primary p1) = S_INITIAL).
Proof using Ho Hb Henv.
  intros Hp. set (now := te_now (env 0%nat)). pose proof (proc_live o b p Hp) as Hl. pose proof (lk_state _ _ _ _ Hl) as Hst. pose proof (budget_range b p) as Hbud.
  destruct (needs_soft_reset o now (primary p)) eqn:E.
  - unfold needs_soft_reset in E. apply andb_true_iff in E as [E _]. assert (Hg : k_state (primary p) = S_GENERATED_KEYS) by (unfold S_GENERATED_KEYS in *; lia).
    destruct (soft_reset_ok o (budget b p) now (p_session p) Ho (pv_session _ _ _ Hp) ltac:(lia) Hg) as (s' & -> & Hs' & Hst' & _ & _ & _ & Haddr & _ & _ & Hlame & He'); [apply Henv|].
    cbn [mbind outcome_bind]. destruct (lame_duck_total now s' (p_wakeup p) (si_lame _ _ _ Hs')) as (die & w & Hd). exists (p_set_session p s'), die, w.
    split; [done|]. split; [done|]. split; [|split; [done|]].
    + split; [exact Hs'| |exact He']. unfold primary. cbn [p_session p_set_session]. rewrite Haddr. apply Hp.
    + intros _. cbn [p_session p_set_session primary]. rewrite Hlame. unfold primary. by split_and!.
  - destruct (lame_duck_total now (p_session p) (p_wakeup p) (si_lame _ _ _ (pv_session _ _ _ Hp))) as (die & w & Hd). exists p, die, w. by split_and!.
Qed.

Lemma next_wakeup_total now p : proc_inv p -> exists w r, next_wakeup o now p = Ret (w, r) /\ 1 <= w.
Proof using.
  intros Hp. destruct (lk_chan _ _ _ _ (proc_live o b p Hp)) as (ch & n & C1 & _). unfold next_wakeup. rewrite C1. cbn [deref mbind outcome_bind].
  set (w := if _ && _ then _ else _). destruct (w <=? 0) eqn:E; [by eexists _, _|]. eexists _, _. split; [done|]. lia.
Qed.

(** The state in which the rounds start. *)
Definition process_entry (p p1 : proc) (die : bool) (w : Z) : proc :=
  let p2 := p_set_wakeup p1 w in
  if die then p_set_session p2 (ts_set_lame (p_session p2) (key_state_free (ts_lame (p_session p2)) true)) else p2.

Lemma process_entry_inv p p1 die w : proc_inv p1 -> proc_inv (process_entry p p1 die w).
Proof using.
  intros [H1 H2 H3]. unfold process_entry. destruct die; [|by split]. split; [by apply sess_inv_lame|done|].
  intros ch Hc. eapply early_ok_same; [|by apply H3]. by split.
Qed.

Lemma tls_process_spec p fuel :
  proc_inv p -> (max_rounds <= fuel)%nat ->
  exists p' r, tls_process fuel o env p = Ret (Some (p', r)) /\ lame_ok (ts_lame (p_session p')) /\
    (k_state (primary p') = S_ERROR \/ (proc_inv p' /\ S_PRE_START <= k_state (primary p'))) /\
    (ts_lame (p_session p') = key_clear \/ ts_lame (p_session p') = ts_lame (p_session p) \/
     needs_soft_reset o (te_now (env 0%nat)) (primary p) = true /\ k_key_id (ts_lame (p_session p')) = k_key_id (primary p)).
Proof using Ho Hb Henv.
  intros Hp Hfuel. pose proof (proc_live o b p Hp) as Hl. pose proof (lk_state _ _ _ _ Hl) as Hst. unfold tls_process.
  rewrite (proj2 (Z.eqb_neq (k_state (primary p)) S_UNDEF)) by (unfold S_UNDEF, S_INITIAL in *; lia).
  rewrite (proj2 (Z.eqb_neq (k_state (primary p)) S_ERROR)) by (unfold S_ERROR, S_INITIAL in *; lia).
  destruct (si_sid _ _ _ (pv_session _ _ _ Hp)) as (_ & _ & Hsid). rewrite Hsid. cbn [negb ASSERT mbind outcome_bind].
  destruct (process_start p Hp) as (p1 & die & w & -> & Hd & Hp1 & Hno & Hyes). cbn [mbind outcome_bind]. rewrite Hd. cbn [mbind outcome_bind].
  change (if die then p_set_session (p_set_wakeup p1 w) _ else p_set_wakeup p1 w) with (process_entry p p1 die w).
  pose proof (process_entry_inv p p1 die w Hp1) as Hp2. set (p2 := process_entry p p1 die w) in *.
  assert (Hlame : forall q, kept p2 q -> lame_ok (ts_lame (p_session q)) /\ (ts_lame (p_session q) = key_clear \/ ts_lame (p_session q) = ts_lame (p_session p) \/
     needs_soft_reset o (te_now (env 0%nat)) (primary p) = true /\ k_key_id (ts_lame (p_session q)) = k_key_id (primary p))).
  { intros q Hk. rewrite (kp_lame _ _ Hk). split; [apply (si_lame _ _ _ (pv_session _ _ _ Hp2))|]. unfold p2, process_entry. destruct die; [by left|right].
    cbn [p_session p_set_wakeup]. destruct (needs_soft_reset o _ (primary p)) eqn:E; [right; split; [done|]; by apply Hyes|left]. by rewrite Hno. }
  destruct (process_loop_ok fuel p2 1 Hp2) as (p3 & j & -> & Hk3 & H3); [pose proof (work_range p2 Hp2); lia|]. cbn [mbind outcome_bind].
  destruct (k_state (primary p3) =? S_ERROR) eqn:E; [apply Z.eqb_eq in E; exists p3, false; split; [done|]; destruct (Hlame p3 Hk3); by split_and!; [|left|]|].
  destruct H3 as [H3|[Hp3 Hst3]]; [unfold S_ERROR in *; lia|].
  destruct (send_acks_ok o b Ho Hb (env j) (Henv j) p3 Hp3 Hst3) as (p4 & ok & -> & Hk4 & Hp4 & Hst4). cbn [mbind outcome_bind].
  destruct (Hlame p4 (kept_trans _ _ _ Hk3 Hk4)) as [L1 L2]. destruct ok; cbn [negb].
  - destruct (next_wakeup_total (te_now (env j)) p4 Hp4) as (w' & r & -> & _). cbn [mbind outcome_bind]. eexists _, _. split; [done|]. split_and!; try done.
    right. split; [destruct Hp4; by split|]. change (k_state (primary (p_set_wakeup p4 w'))) with (k_state (primary p4)). lia.
  - exists p4, false. split_and!; try done. right. split; [done|lia].
Qed.

End run.

(** ** Properties *)

(** C19. [tls_process] returns for whatever the TLS library answers: no assertion
    fails, no pointer is NULL and no buffer is left, [max_rounds] rounds of its
    loop are enough, and the session is in a good state again or in S_ERROR,
    with a lame duck that has keys and a time to die.  The packets sent so far
    are fewer than 2^31, and the peer does not ask for a wrapped client key
    that the session does not have. *)
Theorem tls_process_returns (o : tls_options) b env p fuel :
  opts_ok o -> TLS_RELIABLE_N_SEND_BUFFERS <= b < 2 ^ 31 - 2 -> (forall i, env_ok (env i)) -> proc_inv o b p -> (max_rounds <= fuel)%nat ->
  exists p' r, tls_process fuel o env p = Ret (Some (p', r)) /\ lame_ok (ts_lame (p_session p')) /\
    (k_state (primary p') = S_ERROR \/ (proc_inv o b p' /\ S_PRE_START <= k_state (primary p'))).
Proof.
  intros Ho Hb Henv Hp Hf. destruct (tls_process_spec o b env Ho Hb Henv p fuel Hp Hf) as (p' & r & H1 & H2 & H3 & _). by exists p', r.
Qed.

End process.

(** A client that starts: the first packet is sent. *)
Definition demo_flags : crypto_flags := mkflags true false false false false.
Definition demo_options (server : bool) : @tls_options shift_key Z :=
  mkopts server server false false true 64 15 false 3600 60 2 0 0 3600 ControlChannel.demo_frame wrap_clear (mkkt (Some 16) true) false demo_flags.
Definition demo_env : tls_env :=
  mkenv 1000 (replicate 32 7) (fun _ => 1) (fun _ => ReadNothing) (fun _ => 1) (fun _ => ReadNothing) (demo_source 3) KeyExchange.demo_message (demo_auth true).
(** AF_INET, port 1194, 10.0.0.1 *)
Definition demo_addr : bytes := [2; 0; 4; 170; 10; 0; 0; 1] ++ replicate 20 0.

Lemma demo_options_ok server : opts_ok (demo_options server).
Proof.
  destruct (init_frame_ok 64 1250 ltac:(lia) ltac:(lia)) as [Hf _]. split; [exact Hf| | |done| |done|done].
  - unfold MAX_SEQ_BACKTRACK, MAX_TIME_BACKTRACK. cbn [o_replay_window o_replay_time demo_options]. lia.
  - cbn [o_transition_window demo_options]. lia.
  - exists pid_clear, clear_buf. exact (wrap_clear_inv _ 0 ltac:(lia)).
Qed.

Lemma demo_env_ok : env_ok demo_env.
Proof.
  split; try done.
  - unfold source_ok, demo_env, demo_source. cbn [te_key_rnd src_pre_master src_random1 src_random2]. split_and!; try done; apply Forall_replicate; unfold is_byte; lia.
  - split_and!.
    + by apply all_bytes_spec.
    + intros u q [= <- <-]. split; by apply all_bytes_spec.
    + intros i [= <-]. by apply all_bytes_spec.
Qed.

Definition demo_proc (s : @tls_session shift_key Z) : proc :=
  mkproc (ts_set_primary s (k_set_remote (ts_primary s) (k_session_id_remote (ts_primary s)) demo_addr)) CAS_NOT_CONNECTED
    (mklsi addr_clear false false false None) clear_buf None 3600 false.

Lemma demo_proc_inv server : exists s, tls_session_init (demo_options server) 1000 ControlWrap.demo_sid = Ret s /\ proc_inv (demo_options server) 6 (demo_proc s).
Proof.
  destruct (tls_session_init_ok (demo_options server) 6 1000 ControlWrap.demo_sid (demo_options_ok server)) as (s & Hs & Hinv & Hst & Hrem & _ & _ & He);
    [done|done|exact demo_session_id_ok|]. exists s. split; [done|]. split.
  - unfold demo_proc, budget. cbn [p_to_link p_session clear_buf blen]. apply sess_inv_primary; [done| |done]. apply live_key_set_remote; [apply Hinv|done|by left].
  - done.
  - intros ch Hc. eapply early_ok_same; [|by apply He]. by split.
Qed.

Lemma tls_process_returns_witness : exists s, tls_session_init (demo_options false) 1000 ControlWrap.demo_sid = Ret s /\
  exists p' r, tls_process max_rounds (demo_options false) (fun _ => demo_env) (demo_proc s) = Ret (Some (p', r)) /\ lame_ok (ts_lame (p_session p')) /\
    (k_state (primary p') = S_ERROR \/ (proc_inv (demo_options false) 6 p' /\ S_PRE_START <= k_state (primary p'))).
Proof.
  destruct (demo_proc_inv false) as (s & Hs & Hp). exists s. split; [done|].
  apply (tls_process_returns (demo_options false) 6 (fun _ => demo_env) (demo_proc s) max_rounds); [apply demo_options_ok|done|intros _; apply demo_env_ok|done|done].
Defined.
