(* ===== verification/TlsMulti.v ===== *)
(** * A TLS tunnel: sessions, keys and packets (openvpn ssl.c, ssl_verify.c)

    struct tls_multi with its three sessions: the active one, one that is not
    trusted yet and one whose last key still decrypts.  [tls_multi_process] runs
    the state machines and moves sessions, [tls_pre_decrypt] takes packets from
    the network, [tls_pre_encrypt] and its companions pick keys for data packets.

    Parameters besides those of [TlsProcess]: the results of plugins, scripts
    and the management interface for a key, the TLS exporter and PRF, session
    ids.  The configurations are those without auth-token. *)

From S2P Require Import Prelude Buffer CircList PacketId DataChannel DataTunnel TlsCrypt Reliable ReliableAck ReliableStore ControlChannel ControlWrap KeyExchange TlsSessions TlsProcess.
From stdpp Require Import prelude.
From Stdlib Require Import ZArith Lia ZifyBool.

Local Open Scope Z_scope.

Inductive tm := TM_ACTIVE | TM_INITIAL | TM_LAME_DUCK.
#[global] Instance tm_eq_dec : EqDecision tm.
Proof. solve_decision. Defined.

Inductive auth_deferred_result := ACF_PENDING | ACF_SUCCEEDED | ACF_DISABLED | ACF_FAILED.
#[global] Instance acf_eq_dec : EqDecision auth_deferred_result.
Proof. solve_decision. Defined.

Inductive tls_auth_status := TLS_AUTHENTICATION_SUCCEEDED | TLS_AUTHENTICATION_FAILED | TLS_AUTHENTICATION_DEFERRED.
#[global] Instance tas_eq_dec : EqDecision tls_auth_status.
Proof. solve_decision. Defined.

Inductive tlsmp := TLSMP_INACTIVE | TLSMP_ACTIVE | TLSMP_KILL | TLSMP_RECONNECT.
#[global] Instance tlsmp_eq_dec : EqDecision tlsmp.
Proof. solve_decision. Defined.

(** The ciphers and digests of tls-crypt, which are not those of the data
    channel. *)
Record crypt_lib (K M : Type) := mkcrypt { crypt_init : KeyInit K M }.
Arguments mkcrypt {K M}.
Arguments crypt_init {K M}.

Section multi.
Context {K M : Type} `{!CipherOps K} `{!HmacOps M} `{!KeyInit K M} (crypt : crypt_lib K M).
Abbreviation tls_session := (@tls_session K M).
Abbreviation tls_options := (@tls_options K M).
Abbreviation key_state := (@key_state K M).

(** The keys in the order of [get_key_scan]. *)
Inductive scan := SCAN_PRIMARY | SCAN_LAME | SCAN_OLD.
Definition scans : list scan := [SCAN_PRIMARY; SCAN_LAME; SCAN_OLD].

(** [m_save_ks] is the key that save_ks points to. *)
Record tls_multi := mkmulti {
  m_opt : tls_options;
  m_active : tls_session;
  m_initial : tls_session;
  m_lame : tls_session;
  m_multi_state : multi_status;
  m_n_sessions : Z;
  m_n_soft_errors : Z;
  m_n_hard_errors : Z;
  m_to_link_addr : bytes;
  m_save_ks : option scan;
  m_peer_id : Z;
  m_tas_last_update : Z;
  m_tas_num_updates : Z
}.
Implicit Types m : tls_multi.

Definition m_get m (i : tm) : tls_session :=
  match i with TM_ACTIVE => m_active m | TM_INITIAL => m_initial m | TM_LAME_DUCK => m_lame m end.
Definition m_set_sessions m (a i l : tls_session) : tls_multi :=
  mkmulti (m_opt m) a i l (m_multi_state m) (m_n_sessions m) (m_n_soft_errors m) (m_n_hard_errors m) (m_to_link_addr m) (m_save_ks m)
    (m_peer_id m) (m_tas_last_update m) (m_tas_num_updates m).
Definition m_set m (i : tm) (s : tls_session) : tls_multi :=
  match i with
  | TM_ACTIVE => m_set_sessions m s (m_initial m) (m_lame m)
  | TM_INITIAL => m_set_sessions m (m_active m) s (m_lame m)
  | TM_LAME_DUCK => m_set_sessions m (m_active m) (m_initial m) s
  end.
Definition m_set_opt m (o : tls_options) : tls_multi :=
  mkmulti o (m_active m) (m_initial m) (m_lame m) (m_multi_state m) (m_n_sessions m) (m_n_soft_errors m) (m_n_hard_errors m) (m_to_link_addr m)
    (m_save_ks m) (m_peer_id m) (m_tas_last_update m) (m_tas_num_updates m).
Definition m_set_state m (st : multi_status) : tls_multi :=
  mkmulti (m_opt m) (m_active m) (m_initial m) (m_lame m) st (m_n_sessions m) (m_n_soft_errors m) (m_n_hard_errors m) (m_to_link_addr m)
    (m_save_ks m) (m_peer_id m) (m_tas_last_update m) (m_tas_num_updates m).
Definition m_set_counts m (n_sessions soft hard : Z) : tls_multi :=
  mkmulti (m_opt m) (m_active m) (m_initial m) (m_lame m) (m_multi_state m) n_sessions soft hard (m_to_link_addr m)
    (m_save_ks m) (m_peer_id m) (m_tas_last_update m) (m_tas_num_updates m).
Definition m_soft_error m : tls_multi := m_set_counts m (m_n_sessions m) (to_int (m_n_soft_errors m + 1)) (m_n_hard_errors m).
Definition m_set_addr m (a : bytes) : tls_multi :=
  mkmulti (m_opt m) (m_active m) (m_initial m) (m_lame m) (m_multi_state m) (m_n_sessions m) (m_n_soft_errors m) (m_n_hard_errors m) a
    (m_save_ks m) (m_peer_id m) (m_tas_last_update m) (m_tas_num_updates m).
Definition m_set_save m (k : option scan) : tls_multi :=
  mkmulti (m_opt m) (m_active m) (m_initial m) (m_lame m) (m_multi_state m) (m_n_sessions m) (m_n_soft_errors m) (m_n_hard_errors m) (m_to_link_addr m)
    k (m_peer_id m) (m_tas_last_update m) (m_tas_num_updates m).
Definition m_set_tas m (last num : Z) : tls_multi :=
  mkmulti (m_opt m) (m_active m) (m_initial m) (m_lame m) (m_multi_state m) (m_n_sessions m) (m_n_soft_errors m) (m_n_hard_errors m) (m_to_link_addr m)
    (m_save_ks m) (m_peer_id m) last num.

Definition get_key_scan m (i : scan) : key_state :=
  match i with SCAN_PRIMARY => ts_primary (m_active m) | SCAN_LAME => ts_lame (m_active m) | SCAN_OLD => ts_lame (m_lame m) end.
Definition set_key_scan m (i : scan) (ks : key_state) : tls_multi :=
  match i with
  | SCAN_PRIMARY => m_set m TM_ACTIVE (ts_set_primary (m_active m) ks)
  | SCAN_LAME => m_set m TM_ACTIVE (ts_set_lame (m_active m) ks)
  | SCAN_OLD => m_set m TM_LAME_DUCK (ts_set_lame (m_lame m) ks)
  end.
Definition get_primary_key m : key_state := ts_primary (m_active m).

(** ** Start *)

(** [sids] are the session ids that [tls_session_init] finds. *)
Definition tls_multi_init (o : tls_options) : tls_multi :=
  mkmulti o session_clear session_clear session_clear CAS_NOT_CONNECTED 0 0 0 addr_clear None 0 0 0.

Definition o_set_frame (o : tls_options) (f : frame) : tls_options :=
  mkopts (o_server o) (o_mode_server o) (o_tls_crypt_v2 o) (o_xmit_hold o) (o_replay o) (o_replay_window o) (o_replay_time o) (o_single_session o)
    (o_transition_window o) (o_handshake_window o) (o_packet_timeout o) (o_renegotiate_bytes o) (o_renegotiate_packets o) (o_renegotiate_seconds o)
    f (o_tls_wrap o) (o_key_type o) (o_cipher_insecure o) (o_crypto_flags o).
Definition o_set_crypto (o : tls_options) (reneg_bytes : Z) (kt : key_type) (insecure : bool) (fl : crypto_flags) : tls_options :=
  mkopts (o_server o) (o_mode_server o) (o_tls_crypt_v2 o) (o_xmit_hold o) (o_replay o) (o_replay_window o) (o_replay_time o) (o_single_session o)
    (o_transition_window o) (o_handshake_window o) (o_packet_timeout o) reneg_bytes (o_renegotiate_packets o) (o_renegotiate_seconds o)
    (o_frame o) (o_tls_wrap o) kt insecure fl.

Definition tls_multi_init_finalize m (now max_hmac tls_mtu : Z) (sid_active sid_initial : bytes) : outcome tls_multi :=
  let m := m_set_opt m (o_set_frame (m_opt m) (tls_init_control_channel_frame_parameters max_hmac tls_mtu)) in
  a ← tls_session_init (m_opt m) now sid_active;
  let m := m_set m TM_ACTIVE a in
  i ← tls_session_init (m_opt m) now sid_initial;
  Ret (m_set m TM_INITIAL i).

(** ** Moving sessions *)

Definition move_session m (now : Z) (sid : bytes) (dest src : tm) (reinit_src : bool) : outcome tls_multi :=
  ASSERT (negb (bool_decide (src = dest)));;
  let m := m_set m dest (m_get m src) in
  s ← (if reinit_src then tls_session_init (m_opt m) now sid else Ret session_clear);
  Ret (m_set m src s).

Definition reset_session m (now : Z) (sid : bytes) (i : tm) : outcome tls_multi :=
  s ← tls_session_init (m_opt m) now sid; Ret (m_set m i s).

(** ** Authentication (ssl_verify.c) *)

Definition TLS_AUTHENTICATED m (ks : key_state) : bool := S_GOT_KEY - (if o_server (m_opt m) then 1 else 0) <=? k_state ks.

(** What plugin, script and management interface say about a key; whether a
    cached answer may be used. *)
Definition auth_answers : Type := scan -> bool -> auth_deferred_result * auth_deferred_result * auth_deferred_result.

Definition update_key_auth_status (now : Z) (answers : auth_answers) (cached : bool) (i : scan) (ks : key_state) : key_state :=
  if decide (k_authenticated ks = KS_AUTH_FALSE) then ks
  else
    let '(auth_plugin, auth_script, auth_man) := answers i cached in
    if decide (auth_plugin = ACF_FAILED \/ auth_script = ACF_FAILED \/ auth_man = ACF_FAILED) then k_set_authenticated ks KS_AUTH_FALSE
    else if decide (auth_plugin = ACF_PENDING \/ auth_script = ACF_PENDING \/ auth_man = ACF_PENDING) then
      if t_auth_deferred_expire (k_times ks) <=? now then k_set_authenticated ks KS_AUTH_FALSE else ks
    else k_set_authenticated ks KS_AUTH_TRUE.

Definition cache_intervals : list Z := [0; 0; 0; 0; 0; 1; 1; 2; 2; 4; 8].

Definition tls_authentication_status_use_cache m (now : Z) : bool :=
  let idx := Z.min (m_tas_num_updates m) (zlen cache_intervals - 1) in
  now <=? m_tas_last_update m + default 0 (cache_intervals !! Z.to_nat idx).

(** The flags active, success, deferred and failed_auth of the scan. *)
Fixpoint auth_scan (now : Z) (answers : auth_answers) (cached : bool) (l : list scan) m (active success deferred failed : bool)
  : tls_multi * (bool * bool * bool * bool) :=
  match l with
  | [] => (m, (active, success, deferred, failed))
  | i :: rest =>
      if TLS_AUTHENTICATED m (get_key_scan m i) then
        let ks := update_key_auth_status now answers cached i (get_key_scan m i) in
        let a := k_authenticated ks in
        auth_scan now answers cached rest (set_key_scan m i ks) true (success || bool_decide (a = KS_AUTH_TRUE))
          (deferred || bool_decide (a = KS_AUTH_DEFERRED)) (failed || bool_decide (a = KS_AUTH_FALSE))
      else auth_scan now answers cached rest m active success deferred failed
  end.

Definition tls_authentication_status m (now : Z) (answers : auth_answers) : tls_multi * tls_auth_status :=
  let cached := tls_authentication_status_use_cache m now in
  let '(m, (active, success, deferred, failed)) := auth_scan now answers cached scans m false false false false in
  let m := if negb cached then m_set_tas m now (u32 (m_tas_num_updates m + 1)) else m in
  (m, if (failed : bool) then TLS_AUTHENTICATION_FAILED
      else if (success : bool) then TLS_AUTHENTICATION_SUCCEEDED
      else if negb active || deferred then TLS_AUTHENTICATION_DEFERRED else TLS_AUTHENTICATION_FAILED).

(** ** Data channel keys *)

(** [Context] of the crypto library: the TLS PRF; the keys that the exporter
    derives, for the data channel and for renegotiations. *)
Record exporter := mkexp { ex_prf : bytes -> bytes -> Z -> option bytes; ex_data : option bytes; ex_dynamic : option bytes }.

Definition tls_limit_reneg_bytes (insecure : bool) (reneg_bytes : Z) : Z :=
  if insecure && (reneg_bytes =? -1) then 64 * 1024 * 1024 else reneg_bytes.

(** Options, session and result. *)
Definition tls_session_generate_data_channel_keys (o : tls_options) (ex : exporter) (s : tls_session) : outcome (tls_options * tls_session * bool) :=
  let ks := ts_primary s in
  k2 ← deref (k_key_src ks);
  if negb (auth_above_false (k_authenticated ks)) then Ret (o, ts_set_primary s (k_set_key_src ks (Some src2_clear)), false)
  else
    let fl := o_crypto_flags o in
    let opt := k_opt ks in
    let opt := mkco (co_encrypt opt) (co_decrypt opt) (mkopt (opt_packet_id (co_replay opt)) (opt_pid_persist (co_replay opt)) (cf_packet_id_long_form fl))
                 (cf_ignore_packet_id fl) in
    ch ← deref (k_chan ks);
    let ks := k_set_chan (k_set_opt ks opt (k_initialized ks)) (mkks (ks_send_reliable ch) (ks_rec_reliable ch) (ks_rec_ack ch) (ks_lru_acks ch) (cf_resend_wkc fl)) in
    r ← generate_key_expansion (ex_prf ex) (k_initialized ks) (cf_key_material_export fl) (o_server o) (ex_data ex) (o_key_type o) k2 (ts_session_id s) (k_session_id_remote ks);
    match r with
    | None => Ret (o, ts_set_primary s (k_set_key_src ks (Some src2_clear)), false)
    | Some ctx =>
        let ks := k_set_opt ks (with_keys opt ctx) true in
        let o := o_set_crypto o (tls_limit_reneg_bytes (o_cipher_insecure o) (o_renegotiate_bytes o)) (o_key_type o) (o_cipher_insecure o) fl in
        Ret (o, ts_set_primary s (k_set_key_src (k_set_state ks S_GENERATED_KEYS) (Some src2_clear)), true)
    end.

(** ** One call of the event loop *)

(** Random numbers, times and answers of one call. *)
Record multi_env := mkmenv {
  me_process : tm -> nat -> tls_env;
  me_sid : tm -> bytes;            (** the id of a session that is initialised again, *)
  me_reset_now : tm -> Z;          (** and when *)
  me_now : Z;                      (** after the sessions were processed *)
  me_answers : auth_answers;
  me_promoted : auth_answers;      (** after the untrusted session was promoted *)
  me_sid_promoted : bytes;
  me_exporter : exporter
}.

(** The variables of [tls_multi_process]. *)
Record mproc := mkmproc {
  mp_multi : tls_multi;
  mp_to_link : buffer;
  mp_to_link_addr : option bytes;
  mp_info : link_socket_info;
  mp_wakeup : Z;
  mp_active : tlsmp;
  mp_error : bool
}.
Definition mp_set_multi (x : mproc) m : mproc :=
  mkmproc m (mp_to_link x) (mp_to_link_addr x) (mp_info x) (mp_wakeup x) (mp_active x) (mp_error x).
Definition mp_set_active (x : mproc) (a : tlsmp) : mproc :=
  mkmproc (mp_multi x) (mp_to_link x) (mp_to_link_addr x) (mp_info x) (mp_wakeup x) a (mp_error x).
Definition mp_set_error (x : mproc) (e : bool) : mproc :=
  mkmproc (mp_multi x) (mp_to_link x) (mp_to_link_addr x) (mp_info x) (mp_wakeup x) (mp_active x) e.
Definition mp_set_wakeup (x : mproc) (w : Z) : mproc :=
  mkmproc (mp_multi x) (mp_to_link x) (mp_to_link_addr x) (mp_info x) w (mp_active x) (mp_error x).

(** "set initial remote address" *)
Definition initial_remote (x : mproc) (i : tm) : mproc :=
  let m := mp_multi x in
  let s := m_get m i in
  let ks := ts_primary s in
  if bool_decide (i = TM_INITIAL) && (k_state ks =? S_INITIAL) && (k_state (get_primary_key m) <=? S_INITIAL)
     && link_socket_actual_defined (li_actual (mp_info x))
  then mp_set_multi x (m_set m i (ts_set_primary s (k_set_remote ks (k_session_id_remote ks) (li_actual (mp_info x)))))
  else x.

(** A session in S_ERROR. *)
Definition session_failed (env : multi_env) (x : mproc) (i : tm) : outcome mproc :=
  let m := m_soft_error (mp_multi x) in
  let s := m_get m i in
  let now := me_reset_now env i in
  let x := if bool_decide (i = TM_ACTIVE) || (bool_decide (i = TM_INITIAL) && (k_state (get_primary_key m) <? S_ACTIVE)) then mp_set_error x true else x in
  m ← (if bool_decide (i = TM_ACTIVE) && (S_GENERATED_KEYS <=? k_state (ts_lame s)) && negb (o_single_session (m_opt m))
       then move_session m now (me_sid env i) TM_LAME_DUCK TM_ACTIVE true
       else reset_session m now (me_sid env i) i);
  Ret (mp_set_multi x m).

(** The body of the loop over the sessions; [Abort] if [fuel] was not enough
    for [tls_process]. *)
Definition multi_session (fuel : nat) (env : multi_env) (x : mproc) (i : tm) : outcome mproc :=
  let x := initial_remote x i in
  let m := mp_multi x in
  let ks := ts_primary (m_get m i) in
  if (S_INITIAL <=? k_state ks) && link_socket_actual_defined (k_remote_addr ks) then
    r ← tls_process fuel (m_opt m) (me_process env i) (mkproc (m_get m i) (m_multi_state m) (mp_info x) (mp_to_link x) None (mp_wakeup x) true);
    '(p, active) ← must r;
    let m := m_set_state (m_set m i (p_session p)) (p_multi_state p) in
    let m := match p_to_link_addr p with Some a => m_set_addr m a | None => m end in
    let x := mkmproc m (p_to_link p) (match p_to_link_addr p with Some a => Some a | None => mp_to_link_addr x end) (p_info p) (p_wakeup p)
               (if (active : bool) then TLSMP_ACTIVE else mp_active x) (mp_error x) in
    if k_state (primary p) =? S_ERROR then session_failed env x i else Ret x
  else Ret x.

(** Keys for an active session that is authenticated. *)
Definition multi_generate_keys (ex : exporter) m : outcome tls_multi :=
  if decide (m_multi_state m = CAS_CONNECT_DONE) then
    let s := m_active m in
    if (k_state (ts_primary s) =? S_ACTIVE) && bool_decide (k_authenticated (ts_primary s) = KS_AUTH_TRUE) then
      '(o, s, ok) ← tls_session_generate_data_channel_keys (m_opt m) ex s;
      let s := if (ok : bool) then s else ts_set_primary s (k_set_state (k_set_authenticated (ts_primary s) KS_AUTH_FALSE) S_ERROR) in
      Ret (m_set (m_set_opt m o) TM_ACTIVE s)
    else Ret m
  else Ret m.

(** The end of a lame duck session; the untrusted session is promoted. *)
Definition multi_retire (now : Z) (x : mproc) : outcome mproc :=
  let m := mp_multi x in
  '(die, w) ← lame_duck_must_die now (m_lame m) (mp_wakeup x);
  let x := mp_set_wakeup x w in
  Ret (if (die : bool) then mp_set_multi x (m_set m TM_LAME_DUCK (tls_session_free (m_lame m))) else x).

Definition multi_promote (env : multi_env) (x : mproc) (tas : tls_auth_status) : outcome (mproc * tls_auth_status) :=
  let m := mp_multi x in
  if TLS_AUTHENTICATED m (ts_primary (m_initial m)) then
    m ← move_session m (me_now env) (me_sid_promoted env) TM_ACTIVE TM_INITIAL true;
    let '(m, tas) := tls_authentication_status m (me_now env) (me_promoted env) in
    if decide (m_multi_state m = CAS_CONNECT_DONE)
    then Ret (mp_set_active (mp_set_multi x (m_set_state m CAS_RECONNECT_PENDING)) TLSMP_RECONNECT, tas)
    else Ret (mp_set_multi x m, tas)
  else Ret (x, tas).

Definition multi_hard_error (x : mproc) : tls_multi :=
  let m := mp_multi x in
  if mp_error x && negb (existsb (fun i => S_ACTIVE <=? k_state (get_key_scan m i)) scans)
  then m_set_counts m (m_n_sessions m) (m_n_soft_errors m) (to_int (m_n_hard_errors m + 1)) else m.

Definition tls_multi_process (fuel : nat) (env : multi_env) m (to_link : buffer) (to_link_addr : option bytes) (info : link_socket_info) (wakeup : Z)
  : outcome (mproc * tlsmp) :=
  let x := mkmproc m to_link to_link_addr info wakeup TLSMP_INACTIVE false in
  x ← multi_session fuel env x TM_ACTIVE;
  x ← multi_session fuel env x TM_INITIAL;
  x ← multi_session fuel env x TM_LAME_DUCK;
  let '(m, tas) := tls_authentication_status (mp_multi x) (me_now env) (me_answers env) in
  m ← multi_generate_keys (me_exporter env) m;
  let m := if decide (m_multi_state m = CAS_WAITING_AUTH /\ tas = TLS_AUTHENTICATION_SUCCEEDED) then m_set_state m CAS_PENDING else m in
  x ← multi_retire (me_now env) (mp_set_multi x m);
  '(x, tas) ← multi_promote env x tas;
  let x := mp_set_multi x (multi_hard_error x) in
  Ret (x, if decide (tas = TLS_AUTHENTICATION_FAILED) then TLSMP_KILL else mp_active x).

(** ** Packets from the network *)

(** [handle_data_channel_packet]: the tunnel, the packet, the key whose crypto
    options are returned and [*ad_start], an offset. *)
Fixpoint data_scan (from : bytes) (op key_id : Z) (floated : bool) (l : list scan) m (buf : buffer)
  : outcome (tls_multi * buffer * option scan * option Z) :=
  match l with
  | [] => Ret (m, set_len buf 0, None, None)
  | i :: rest =>
      let ks := get_key_scan m i in
      found ← (if (S_GENERATED_KEYS <=? k_state ks) && (key_id =? k_key_id ks) && bool_decide (k_authenticated ks = KS_AUTH_TRUE)
               then (if floated then Ret true else link_socket_actual_match from (k_remote_addr ks)) else Ret false);
      if (found : bool) then
        ASSERT (k_initialized ks);;
        let ad := boffset buf in
        buf ← ASSERT_ok (buf_advance buf 1);
        let done buf ad := Ret (set_key_scan m i (k_set_counters ks ((k_n_bytes ks + blen buf) mod 2 ^ 64) ((k_n_packets ks + 1) mod 2 ^ 64)), buf, Some i, ad) in
        if op =? P_DATA_V1 then done buf (Some (boffset buf))
        else if op =? P_DATA_V2 then
          if blen buf <? 4 then Ret (m_soft_error m, set_len buf 0, None, Some ad)
          else buf ← ASSERT_ok (buf_advance buf 3); done buf (Some ad)
        else done buf None
      else data_scan from op key_id floated rest m buf
  end.
Definition handle_data_channel_packet (from : bytes) (floated : bool) m (buf : buffer) : outcome (tls_multi * buffer * option scan * option Z) :=
  c ← peek buf (boffset buf) 1;
  data_scan from (Z.shiftr (be_val c) P_OPCODE_SHIFT) (Z.land (be_val c) P_KEY_ID_MASK) floated scans m buf.

(** What the code around [read_control_auth] does with the session. *)
Definition set_key_wrap (s : tls_session) (key_id : Z) (ctx : tls_wrap_ctx) : tls_session :=
  if uses_reneg s key_id then ts_set_wraps s (ts_tls_wrap s) ctx else ts_set_wraps s ctx (ts_tls_wrap_reneg s).

(** [pk_junk] is uninitialised memory (see [reliable_ack_read] and
    [read_control_auth]), [pk_verify] the result of the tls-crypt-v2 script. *)
Record packet_env := mkpkt { pk_now : Z; pk_junk : bytes; pk_verify : option bool }.

Definition read_auth (e : packet_env) (s : tls_session) (key_id : Z) (buf : buffer) : outcome (buffer * tls_session * bool) :=
  '(buf, ctx, ok) ← @ControlWrap.read_control_auth K M _ _ (crypt_init crypt) (pk_now e) (pk_junk e) (pk_verify e) buf (key_wrap s key_id);
  Ret (buf, set_key_wrap s key_id ctx, ok).

(** The session whose peer has the id. *)
Definition find_session m (sid : bytes) : option tm :=
  if session_id_equal (k_session_id_remote (ts_primary (m_active m))) sid then Some TM_ACTIVE
  else if session_id_equal (k_session_id_remote (ts_primary (m_initial m))) sid then Some TM_INITIAL
  else if session_id_equal (k_session_id_remote (ts_primary (m_lame m))) sid then Some TM_LAME_DUCK
  else None.

(** Where a packet goes and whether the peers start anew: the session's index,
    do_burst and new_link; [None] on [goto error]. *)
Definition route_control (e : packet_env) (op key_id : Z) (sid from : bytes) m (buf : buffer)
  : outcome (tls_multi * buffer * option (tm * bool * bool)) :=
  match find_session m sid with
  | Some TM_LAME_DUCK => Ret (m, buf, None)
  | None =>
      if is_hard_reset_method2 op then
        if o_single_session (m_opt m) && negb (m_n_sessions m =? 0) then Ret (m, buf, None)
        else
          '(buf, s, ok) ← read_auth e (m_initial m) key_id buf;
          let m := m_set m TM_INITIAL s in
          if (ok : bool) then Ret (m_set m TM_INITIAL (ts_set_untrusted s from), buf, Some (TM_INITIAL, true, true)) else Ret (m, buf, None)
      else Ret (m, buf, None)
  | Some i =>
      let ks := ts_primary (m_get m i) in
      same ← link_socket_actual_match (k_remote_addr ks) from;
      if negb same then Ret (m, buf, None)
      else
        '(buf, s, ok) ← read_auth e (m_get m i) key_id buf;
        if negb ok then Ret (m_set m i s, buf, None)
        else if (op =? P_CONTROL_SOFT_RESET_V1) && (S_GENERATED_KEYS <=? k_state ks) then
          s ← key_state_soft_reset (m_opt m) (pk_now e) s; Ret (m_set m i s, buf, Some (i, false, false))
        else Ret (m_set m i s, buf, Some (i, op =? P_CONTROL_SOFT_RESET_V1, false))
  end.

(** The rest, for an authenticated packet; false on [goto error]. *)
Definition accept_control (e : packet_env) (op key_id : Z) (sid from : bytes) m (i : tm) (do_burst new_link : bool) (buf : buffer) : outcome (tls_multi * bool) :=
  let s := m_get m i in
  let ks := ts_primary s in
  ASSERT (negb (k_state ks =? S_UNDEF));;
  ASSERT (negb (k_state ks =? S_ERROR));;
  ASSERT (session_id_defined (ts_session_id s));;
  let m := if new_link then m_set_counts m (to_int (m_n_sessions m + 1)) (m_n_soft_errors m) (m_n_hard_errors m) else m in
  let ks := if new_link then k_set_remote ks sid from else ks in
  known ← (if new_link then Ret true else link_socket_actual_match (k_remote_addr ks) from);
  if negb known then Ret (m, false)
  else
    ch ← deref (k_chan ks);
    let burst := do_burst && negb (ts_burst s) in
    let ch := if burst then ks_set_send ch (reliable_schedule_now (pk_now e) (ks_send_reliable ch)) else ch in
    let s := if burst then ts_set_burst s true else s in
    let ks := k_set_chan ks ch in
    if negb (k_key_id ks =? key_id) then Ret (m_set m i (ts_set_primary s ks), false)
    else
      '(ch, ok) ← receive_control (pk_junk e) op (ts_session_id s) ch buf;
      let ks := k_set_chan ks ch in
      let ks := if (ok : bool) then k_set_times ks (t_set_peer_last (k_times ks) (pk_now e)) else ks in
      Ret (m_set m i (ts_set_primary s ks), ok).

(** The packet's first byte was looked at: [op] and [key_id].  The caller gets
    an empty packet. *)
Definition control_packet (e : packet_env) (op key_id : Z) (from : bytes) m (buf : buffer) : outcome (tls_multi * bool) :=
  if (op <? P_FIRST_OPCODE) || (P_LAST_OPCODE <? op) then Ret (m_soft_error m, false)
  else if ((op =? P_CONTROL_HARD_RESET_CLIENT_V2) || (op =? P_CONTROL_HARD_RESET_CLIENT_V3)) && negb (o_server (m_opt m))
          || (op =? P_CONTROL_HARD_RESET_SERVER_V2) && o_server (m_opt m) then Ret (m_soft_error m, false)
  else
    '(_, sid) ← session_id_read (fst (buf_advance buf 1));
    match sid with
    | None => Ret (m_soft_error m, false)
    | Some sid =>
        if negb (session_id_defined sid) then Ret (m_soft_error m, false)
        else
          '(m, buf, r) ← route_control e op key_id sid from m buf;
          match r with
          | None => Ret (m_soft_error m, false)
          | Some (i, do_burst, new_link) =>
              '(m, ok) ← accept_control e op key_id sid from m i do_burst new_link buf;
              Ret (if (ok : bool) then m else m_soft_error m, true)
          end
    end.

(** The tunnel, the packet, the key for it, [*ad_start] and the result. *)
Definition tls_pre_decrypt (e : packet_env) (from : bytes) (floated : bool) m (buf : buffer) : outcome (tls_multi * buffer * option scan * option Z * bool) :=
  if blen buf <=? 0 then Ret (m, set_len buf 0, None, None, false)
  else
    c ← peek buf (boffset buf) 1;
    let op := Z.shiftr (be_val c) P_OPCODE_SHIFT in
    if (op =? P_DATA_V1) || (op =? P_DATA_V2) then
      '(m, buf, opt, ad) ← handle_data_channel_packet from floated m buf; Ret (m, buf, opt, ad, false)
    else
      '(m, ret) ← control_packet e op (Z.land (be_val c) P_KEY_ID_MASK) from m buf;
      Ret (m, set_len buf 0, None, None, ret).

(** ** Packets from the tunnel *)

Fixpoint select_scan (now : Z) m (l : list scan) (sel : option scan) : outcome (option scan) :=
  match l with
  | [] => Ret sel
  | i :: rest =>
      let ks := get_key_scan m i in
      if (S_GENERATED_KEYS <=? k_state ks) && bool_decide (k_authenticated ks = KS_AUTH_TRUE) then
        ASSERT (k_initialized ks);;
        let sel := match sel with None => Some i | Some j => Some j end in
        if t_auth_deferred_expire (k_times ks) <=? now then Ret (Some i) else select_scan now m rest sel
      else select_scan now m rest sel
  end.
Definition tls_select_encryption_key (now : Z) m : outcome (option scan) := select_scan now m scans None.

(** The tunnel, the packet and the key whose crypto options are returned. *)
Definition tls_pre_encrypt (now : Z) m (buf : buffer) : outcome (tls_multi * buffer * option scan) :=
  let m := m_set_save m None in
  if blen buf <=? 0 then Ret (m, set_len buf 0, None)
  else
    sel ← tls_select_encryption_key now m;
    match sel with
    | Some i => Ret (m_set_save m (Some i), buf, Some i)
    | None => Ret (m, set_len buf 0, None)
    end.

Definition tls_prepend_opcode_v1 m (buf : buffer) : outcome buffer :=
  i ← must (m_save_ks m);
  let op := u8 (Z.lor (Z.shiftl P_DATA_V1 P_OPCODE_SHIFT) (k_key_id (get_key_scan m i))) in
  r ← buf_write_prepend buf [op]; ASSERT_ok r.

Definition tls_prepend_opcode_v2 m (buf : buffer) : outcome buffer :=
  i ← must (m_save_ks m);
  let peer := u32 (Z.lor (Z.shiftl (Z.lor (Z.shiftl P_DATA_V2 P_OPCODE_SHIFT) (k_key_id (get_key_scan m i))) 24) (Z.land (m_peer_id m) 0xFFFFFF)) in
  r ← buf_write_prepend buf (be_bytes 4 peer); ASSERT_ok r.

Definition tls_post_encrypt m (buf : buffer) : outcome tls_multi :=
  let save := m_save_ks m in
  let m := m_set_save m None in
  if 0 <? blen buf then
    i ← must save;
    let ks := get_key_scan m i in
    Ret (set_key_scan m i (k_set_counters ks ((k_n_bytes ks + blen buf) mod 2 ^ 64) ((k_n_packets ks + 1) mod 2 ^ 64)))
  else Ret m.

(** ** Payload of the control channel *)

(** [write] is the library's answer; [None] is a NULL key. *)
Definition tls_send_payload (write : bytes -> Z) (ks : option key_state) (data : bytes) : outcome (key_state * bool) :=
  ks ← must ks;
  if S_ACTIVE <=? k_state ks then
    if write data =? 1 then Ret (k_set_payload ks (k_paybuf ks) (k_ssl_in ks ++ [data]), true) else Ret (ks, false)
  else Ret (k_set_payload ks (k_paybuf ks ++ [data]) (k_ssl_in ks), true).

Definition tls_rec_payload m (buf : buffer) : outcome (tls_multi * buffer * bool) :=
  let ks := get_key_scan m SCAN_PRIMARY in
  if (S_ACTIVE <=? k_state ks) && negb (buf_len (k_plaintext_read_buf ks) =? 0) then
    '(buf, ok) ← buf_copy buf (k_plaintext_read_buf ks);
    Ret (set_key_scan m SCAN_PRIMARY (k_set_bufs ks (set_len (k_plaintext_read_buf ks) 0) (k_plaintext_write_buf ks)), buf, ok)
  else Ret (m, buf, false).

(** ** A peer that moved *)

Definition update_key_addr (addr : bytes) (ks : key_state) : outcome key_state :=
  if negb (link_socket_actual_defined (k_remote_addr ks)) then Ret ks
  else
    same ← link_socket_actual_match addr (k_remote_addr ks);
    Ret (if (same : bool) then ks else k_set_remote ks (k_session_id_remote ks) addr).
Definition update_session_addr (addr : bytes) (s : tls_session) : outcome tls_session :=
  p ← update_key_addr addr (ts_primary s);
  l ← update_key_addr addr (ts_lame s);
  Ret (ts_set_lame (ts_set_primary s p) l).
Definition tls_update_remote_addr (addr : bytes) m : outcome tls_multi :=
  a ← update_session_addr addr (m_active m);
  i ← update_session_addr addr (m_initial m);
  l ← update_session_addr addr (m_lame m);
  Ret (m_set_sessions m a i l).

(** ** Crypto parameters after the options are known *)

(** Keys for renegotiations (tls_crypt.c). *)
Fixpoint xor_bytes (a b : bytes) : bytes :=
  match a, b with x :: a', y :: b' => Z.lxor x y :: xor_bytes a' b' | _, _ => a end.
(** Two keys of cipher and HMAC material each; n counts them. *)
Definition xor_key2 (key other : bytes) : outcome bytes :=
  ASSERT ((zlen key =? 256) && (zlen other =? 256));; Ret (xor_bytes key other).

Definition tls_session_generate_dynamic_tls_crypt_key (o : tls_options) (exported : option bytes) (s : tls_session) : outcome (tls_session * bool) :=
  let w := ts_tls_wrap s in
  let r := ts_tls_wrap_reneg s in
  work ← alloc_buf (BUF_SIZE (o_frame o));
  pid ← packet_id_init (o_replay_window o) (o_replay_time o);
  let opt := tw_opt w in
  let opt := mkco (co_encrypt opt) (co_decrypt opt) (mkopt pid None (opt_long_form (co_replay opt))) (co_ignore_packet_id opt) in
  let r := mkwrap WRAP_CRYPT opt work (tw_server_key r) (tw_wkc r) (tw_metadata r) (tw_keydata r) in
  match exported with
  | None => Ret (ts_set_wraps s w r, false)
  | Some keys =>
      keys ← match tw_mode w with WRAP_NONE => Ret keys | _ => xor_key2 keys (tw_keydata w) end;
      let '(enc, dec) := @init_key_ctx_bi K M (crypt_init crypt) keys (if o_server o then KEY_DIRECTION_NORMAL else KEY_DIRECTION_INVERSE) true true in
      Ret (ts_set_wraps s w (tw_set_opt r (mkco enc dec (co_replay opt) (co_ignore_packet_id opt))), true)
  end.

(** [kt], [insecure] and [long_form] follow from the negotiated cipher. *)
Definition tls_session_update_crypto_params_do_work (ex : exporter) (kt : key_type) (insecure long_form : bool) m (i : tm) : outcome (tls_multi * bool) :=
  let s := m_get m i in
  if k_initialized (ts_primary s) then Ret (m, true)
  else
    let o := m_opt m in
    let fl := o_crypto_flags o in
    let fl := mkflags long_form (cf_ignore_packet_id fl) (cf_key_material_export fl) (cf_resend_wkc fl) (cf_dynamic_tls_crypt fl) in
    let o := o_set_crypto o (o_renegotiate_bytes o) kt insecure fl in
    '(s, ok) ← (if (k_key_id (ts_primary s) =? 0) && cf_dynamic_tls_crypt fl then tls_session_generate_dynamic_tls_crypt_key o (ex_dynamic ex) s
                else Ret (s, true));
    if negb ok then Ret (m_set (m_set_opt m o) i s, false)
    else
      '(o, s, ok) ← tls_session_generate_data_channel_keys o ex s;
      Ret (m_set (m_set_opt m o) i s, ok).

(** [cipher_ok] is the result of [check_session_cipher], [imported] the flags
    that were pushed. *)
Definition tls_session_update_crypto_params (ex : exporter) (kt : key_type) (insecure long_form cipher_ok : bool) (imported : crypto_flags) m (i : tm)
  : outcome (tls_multi * bool) :=
  if negb cipher_ok then Ret (m, false)
  else
    let o := m_opt m in
    let fl := o_crypto_flags o in
    let fl := mkflags (cf_packet_id_long_form fl || cf_packet_id_long_form imported) (cf_ignore_packet_id fl || cf_ignore_packet_id imported)
                (cf_key_material_export fl || cf_key_material_export imported) (cf_resend_wkc fl || cf_resend_wkc imported)
                (cf_dynamic_tls_crypt fl || cf_dynamic_tls_crypt imported) in
    tls_session_update_crypto_params_do_work ex kt insecure long_form (m_set_opt m (o_set_crypto o (o_renegotiate_bytes o) (o_key_type o) (o_cipher_insecure o) fl)) i.

(** ** The invariant of a tunnel *)

Implicit Types (ks : key_state) (s : tls_session) (o : tls_options).

(** A session that failed can only decrypt, with its lame duck. *)
Definition dead (s : tls_session) : Prop := k_state (ts_primary s) = S_ERROR /\ lame_ok (ts_lame s).

Definition slot_ok (f : frame) (b : Z) (i : tm) (s : tls_session) : Prop :=
  match i with
  | TM_ACTIVE => sess_inv f b s \/ dead s
  | TM_INITIAL => sess_inv f b s
  | TM_LAME_DUCK => k_state (ts_primary s) < S_INITIAL /\ lame_ok (ts_lame s)
  end.

(** [b] bounds the packets sent so far. *)
Record multi_inv (b : Z) m : Prop := {
  mi_opts : opts_ok (m_opt m);
  mi_slots : forall i, slot_ok (o_frame (m_opt m)) b i (m_get m i)
}.

(** No session was asked for a wrapped client key that it does not have. *)
Definition early (s : tls_session) : Prop := forall ch, k_chan (ts_primary s) = Some ch -> early_ok s (k_key_id (ts_primary s)) ch.
Definition polite m : Prop := forall i, i <> TM_LAME_DUCK -> S_INITIAL <= k_state (ts_primary (m_get m i)) -> early (m_get m i).

Lemma slot_ok_mono f b b' i s : slot_ok f b i s -> b <= b' -> slot_ok f b' i s.
Proof. intros H Hb. destruct i; [destruct H; [left|by right]| |done]; by eapply sess_inv_mono. Qed.

Lemma multi_inv_mono b b' m : multi_inv b m -> b <= b' -> multi_inv b' m.
Proof. intros [H1 H2] Hb. split; [done|]. intros i. by eapply slot_ok_mono. Qed.

Lemma m_get_set m i j s : m_get (m_set m i s) j = if decide (i = j) then s else m_get m j.
Proof. by destruct i, j. Qed.

Lemma m_set_opt_same m i s : m_opt (m_set m i s) = m_opt m.
Proof. by destruct i. Qed.

Lemma multi_inv_set b m i s : multi_inv b m -> slot_ok (o_frame (m_opt m)) b i s -> multi_inv b (m_set m i s).
Proof.
  intros [H1 H2] Hs. split; [by rewrite m_set_opt_same|]. intros j. rewrite m_set_opt_same, m_get_set. destruct (decide (i = j)) as [<-|]; [done|apply H2].
Qed.

Lemma polite_set m i s : polite m -> (i <> TM_LAME_DUCK -> S_INITIAL <= k_state (ts_primary s) -> early s) -> polite (m_set m i s).
Proof. intros H Hs j Hj. rewrite m_get_set. destruct (decide (i = j)) as [<-|]; [by apply Hs|by apply H]. Qed.

(** The counters and times of a tunnel do not matter. *)
Definition same_sessions m m' : Prop := m_opt m' = m_opt m /\ forall i, m_get m' i = m_get m i.

Lemma multi_inv_same b m m' : same_sessions m m' -> multi_inv b m -> multi_inv b m'.
Proof. intros [H1 H2] [H3 H4]. split; [by rewrite H1|]. intros i. rewrite H1, H2. apply H4. Qed.

Lemma polite_same m m' : same_sessions m m' -> polite m -> polite m'.
Proof. intros [_ H2] H i. rewrite H2. apply H. Qed.

Lemma same_sessions_trans m m1 m2 : same_sessions m m1 -> same_sessions m1 m2 -> same_sessions m m2.
Proof. intros [H1 H2] [H3 H4]. split; [congruence|]. intros i. by rewrite H4, H2. Qed.

Ltac same_sessions := by split; [|intros []].

(** Options after [tls_session_generate_data_channel_keys]. *)
Lemma opts_ok_crypto o bytes kt insecure fl : opts_ok o -> cf_resend_wkc fl = false -> opts_ok (o_set_crypto o bytes kt insecure fl).
Proof. intros []. by split. Qed.

Lemma multi_inv_opt b m o : multi_inv b m -> opts_ok o -> o_frame o = o_frame (m_opt m) -> multi_inv b (m_set_opt m o).
Proof. intros [H1 H2] Ho Hf. split; [done|]. intros i. cbn [m_opt m_set_opt]. rewrite Hf. specialize (H2 i). by destruct i. Qed.

(** ** Processing the sessions *)

Lemma live_key_set_addr f b s ks a : live_key f b s ks -> addr_ok a -> live_key f b s (k_set_remote ks (k_session_id_remote ks) a).
Proof. intros [L1 L2 L3 L4 L5 L6 L7 L8 L9 L10] Ha. split; try done. destruct L10 as [|[Hs _]]; [by left|by right]. Qed.

Lemma early_primary (s : tls_session) ks : early s -> k_chan ks = k_chan (ts_primary s) -> k_key_id ks = k_key_id (ts_primary s) -> early (ts_set_primary s ks).
Proof. intros He Hc Hk ch Hch. cbn [ts_primary ts_set_primary] in *. rewrite Hk. apply (early_ok_same s); [by split|]. apply He. by rewrite <- Hc. Qed.

Record menv_ok (env : multi_env) : Prop := {
  mv_process : forall i n, env_ok (me_process env i n);
  mv_sids : (forall i, sid_ok (me_sid env i)) /\ sid_ok (me_sid_promoted env);
  mv_now : u32_ok (me_now env) /\ forall i, u32_ok (me_reset_now env i);
  mv_prf : forall seed secret keys, ex_prf (me_exporter env) seed secret 256 = Some keys -> zlen keys = 256;
  mv_data : forall keys, ex_data (me_exporter env) = Some keys -> zlen keys = 256
}.

(** *** Updates that do not touch the state of a key *)

Record harmless ks ks' : Prop := {
  hl_live : forall f b s, live_key f b s ks -> live_key f b s ks';
  hl_lame : lame_ok ks -> lame_ok ks';
  hl_state : k_state ks' = k_state ks;
  hl_chan : k_chan ks' = k_chan ks;
  hl_id : k_key_id ks' = k_key_id ks
}.

Lemma harmless_refl ks : harmless ks ks.
Proof. by split. Qed.

Lemma harmless_authenticated ks a : harmless ks (k_set_authenticated ks a).
Proof. split; try done. intros f b s H. by apply live_key_authenticated. Qed.

Lemma harmless_counters ks x y : harmless ks (k_set_counters ks x y).
Proof. split; try done. intros f b s [L1 L2 L3 L4 L5 L6 L7 L8 L9 L10]. by split. Qed.

Lemma harmless_payload ks x y : harmless ks (k_set_payload ks x y).
Proof. split; try done. intros f b s H. by apply live_key_payload. Qed.

Lemma harmless_addr ks a : addr_ok a -> harmless ks (k_set_remote ks (k_session_id_remote ks) a).
Proof. intros Ha. split; try done. intros f b s H. by apply live_key_set_addr. Qed.

Lemma sess_inv_primary_harmless f b s ks : sess_inv f b s -> harmless (ts_primary s) ks -> sess_inv f b (ts_set_primary s ks).
Proof. intros Hs Hh. apply sess_inv_primary; [done|apply Hh, Hs|apply Hh]. Qed.

Lemma sess_inv_lame_harmless f b s ks : sess_inv f b s -> harmless (ts_lame s) ks -> sess_inv f b (ts_set_lame s ks).
Proof.
  intros [H1 H2 H3 H4 [H5 H6] H7] [G1 G2 G3 G4 G5]. split; try done; [by eapply live_key_same; [|exact H3]|by apply G2|]. split; [done|].
  cbn [ts_lame ts_primary ts_set_lame]. rewrite G3, G5. done.
Qed.

Lemma early_lame s ks : early s -> early (ts_set_lame s ks).
Proof. intros He ch Hc. apply (early_ok_same s); [by split|]. by apply He. Qed.

Lemma set_key_scan_ok b m i ks :
  multi_inv b m -> polite m -> harmless (get_key_scan m i) ks -> multi_inv b (set_key_scan m i ks) /\ polite (set_key_scan m i ks).
Proof.
  intros Hm Hp Hh. pose proof (mi_slots _ _ Hm TM_ACTIVE) as Ha. pose proof (mi_slots _ _ Hm TM_LAME_DUCK) as [Hl1 Hl2]. cbn [m_get] in *.
  destruct i; cbn [get_key_scan set_key_scan] in *; (split; [apply multi_inv_set; [done|]|apply polite_set; [done|]]).
  - destruct Ha as [Ha|[Ha1 Ha2]]; [left; by apply sess_inv_primary_harmless|right]. split; [|done]. cbn [ts_primary ts_set_primary]. by rewrite (hl_state _ _ Hh).
  - intros _ Hst. cbn [ts_primary ts_set_primary] in Hst. rewrite (hl_state _ _ Hh) in Hst. apply early_primary; [by apply (Hp TM_ACTIVE)|apply Hh|apply Hh].
  - destruct Ha as [Ha|[Ha1 Ha2]]; [left; by apply sess_inv_lame_harmless|right]. split; [done|]. by apply Hh.
  - intros _ Hst. apply early_lame. by apply (Hp TM_ACTIVE).
  - split; [done|]. by apply Hh.
  - done.
Qed.

Lemma set_key_scan_opt m i ks : m_opt (set_key_scan m i ks) = m_opt m.
Proof. by destruct i. Qed.

(** *** Authentication *)

Lemma update_auth_harmless now answers cached i ks : harmless ks (update_key_auth_status now answers cached i ks).
Proof.
  unfold update_key_auth_status. destruct (decide _); [apply harmless_refl|]. destruct (answers i cached) as [[pl sc] ma].
  repeat case_match; apply harmless_refl || apply harmless_authenticated.
Qed.

Lemma auth_scan_ok now answers cached l b : forall m ac su de fa,
  multi_inv b m -> polite m -> let m' := (auth_scan now answers cached l m ac su de fa).1 in multi_inv b m' /\ polite m' /\ m_opt m' = m_opt m.
Proof.
  induction l as [|i l IH]; intros m ac su de fa Hm Hp; [done|]. cbn [auth_scan]. destruct (TLS_AUTHENTICATED m (get_key_scan m i)); [|by apply IH].
  destruct (set_key_scan_ok b m i _ Hm Hp (update_auth_harmless now answers cached i (get_key_scan m i))) as [Hm' Hp'].
  destruct (IH _ true (su || bool_decide (k_authenticated (update_key_auth_status now answers cached i (get_key_scan m i)) = KS_AUTH_TRUE))
    (de || bool_decide (k_authenticated (update_key_auth_status now answers cached i (get_key_scan m i)) = KS_AUTH_DEFERRED))
    (fa || bool_decide (k_authenticated (update_key_auth_status now answers cached i (get_key_scan m i)) = KS_AUTH_FALSE)) Hm' Hp') as (H1 & H2 & H3).
  split_and!; [done|done|]. etrans; [exact H3|apply set_key_scan_opt].
Qed.

Lemma authentication_status_ok now answers b m :
  multi_inv b m -> polite m -> let m' := (tls_authentication_status m now answers).1 in multi_inv b m' /\ polite m' /\ m_opt m' = m_opt m.
Proof.
  intros Hm Hp. unfold tls_authentication_status. set (cached := tls_authentication_status_use_cache m now).
  destruct (auth_scan_ok now answers cached scans b m false false false false Hm Hp) as (H1 & H2 & H3).
  destruct (auth_scan _ _ _ _ _ _ _ _ _) as [m1 [[[ac su] de] fa]]. cbn [fst] in *. destruct cached; cbn [negb]; [done|].
  split_and!; [|by apply (polite_same m1); [same_sessions|]|done]. by apply (multi_inv_same _ m1); [same_sessions|].
Qed.

(** *** Data channel keys *)

Lemma sid_clear_octets : sid_octets sid_clear.
Proof. split; [done|]. apply Forall_replicate. unfold is_byte. lia. Qed.

Lemma generate_keys_ok b o ex s :
  data_init_ok (K := K) (M := M) -> opts_ok o -> sess_inv (o_frame o) b s -> early s -> S_PRE_START <= k_state (ts_primary s) < S_GENERATED_KEYS ->
  (forall seed secret keys, ex_prf ex seed secret 256 = Some keys -> zlen keys = 256) -> (forall keys, ex_data ex = Some keys -> zlen keys = 256) ->
  exists o' s' ok, tls_session_generate_data_channel_keys o ex s = Ret (o', s', ok) /\ opts_ok o' /\ o_frame o' = o_frame o /\
    sess_inv (o_frame o) b s' /\ early s' /\ ts_lame s' = ts_lame s /\
    k_state (ts_primary s') = (if ok then S_GENERATED_KEYS else k_state (ts_primary s)).
Proof.
  intros Hd Ho Hs He Hst Hprf Hexp. unfold tls_session_generate_data_channel_keys. pose proof (si_primary _ _ _ Hs) as Hl.
  assert (Hc : sources_ok src2_clear) by (split; apply src_clear_ok).
  destruct (lk_src _ _ _ _ Hl) as (k2 & E2 & Hk2). rewrite E2. cbn [deref mbind outcome_bind].
  destruct (negb (auth_above_false _)).
  { eexists _, _, false. split; [done|]. split_and!; try done. apply sess_inv_primary; [done|by apply live_key_src|done]. }
  destruct (lk_chan _ _ _ _ Hl) as (ch & n & C1 & C2 & C3 & C4 & C5). rewrite C1. cbn [deref mbind outcome_bind]. rewrite (oo_flags _ Ho).
  set (ch' := mkks _ _ _ _ false). set (opt := mkco _ _ _ _). set (ks := k_set_chan _ ch').
  assert (Hlk : live_key (o_frame o) b s (k_set_chan (ts_primary s) ch')).
  { apply (live_key_chan _ _ _ _ Hl _ n); [by apply chan_rec; [|apply C2]|lia|apply C3; lia|]. intros [|Hx]; [done|]. apply C4. by right. }
  assert (Hkeys : k_initialized (ts_primary s) = false).
  { pose proof (lk_keys _ _ _ _ Hl) as Hk. destruct (k_initialized _); [|done]. destruct Hk as [Hk _]. specialize (Hk eq_refl). lia. }
  assert (Hlk' : live_key (o_frame o) b s ks) by (destruct Hlk as [L1 L2 L3 L4 L5 L6 L7 L8 L9 L10]; by split).
  assert (Heks : forall ks', k_chan ks' = Some ch' -> k_key_id ks' = k_key_id (ts_primary s) -> early (ts_set_primary s ks')).
  { intros ks' Hc' Hk' c Hcc. cbn [ts_primary ts_set_primary] in *. rewrite Hc' in Hcc. injection Hcc as <-. rewrite Hk'. apply (early_ok_same s); [by split|].
    exact (He ch C1). }
  destruct (expansion_total (ex_prf ex) (k_initialized ks) (cf_key_material_export (o_crypto_flags o)) (o_server o) (ex_data ex) (o_key_type o) k2
    (ts_session_id s) (k_session_id_remote ks) Hd) as (r & ->); try done; try apply Hk2.
  { apply sid_ok_octets, Hs. } { destruct (lk_remote _ _ _ _ Hl) as [Hr|[Hr _]]; [change (sid_octets (k_session_id_remote (ts_primary s))); rewrite Hr; apply sid_clear_octets|by apply sid_ok_octets]. }
  cbn [mbind outcome_bind]. destruct r as [ctx|].
  - eexists _, _, true. split; [done|]. split_and!; try done; [by apply opts_ok_crypto; [|apply Ho]| |by apply Heks].
    apply sess_inv_primary; [done| |done]. destruct Hlk' as [L1 L2 (ch1 & n1 & D1 & D2 & D3 & D4 & D5) [L4 L4'] L5 L6 L7 L8 L9 L10].
    split; try done; [|by eexists]. exists ch1, n1. split_and!; try done. intros _. apply D3. cbn [ks k_set_chan k_set_opt k_state]. lia.
  - eexists _, _, false. split; [done|]. split_and!; try done; [apply sess_inv_primary; [done|by apply live_key_src|done]|by apply Heks].
Qed.

Section run.
Context (fuel : nat) (env : multi_env) (Hfuel : (max_rounds <= fuel)%nat) (Henv : menv_ok env).

Lemma initial_remote_ok b x i : multi_inv b (mp_multi x) -> polite (mp_multi x) -> multi_inv b (mp_multi (initial_remote x i)) /\ polite (mp_multi (initial_remote x i)).
Proof using.
  intros Hm Hp. unfold initial_remote. destruct (_ && link_socket_actual_defined _) eqn:E; [|done]. apply andb_true_iff in E as [E Ed].
  apply andb_true_iff in E as [E _]. apply andb_true_iff in E as [E Es]. apply bool_decide_eq_true in E. subst i. cbn [mp_multi mp_set_multi].
  pose proof (mi_slots _ _ Hm TM_INITIAL) as Hs. split.
  - apply multi_inv_set; [done|]. apply sess_inv_primary; [done| |done]. apply live_key_set_addr; [apply Hs|]. by apply addr_defined_family.
  - apply polite_set; [done|]. intros Hi Hst. apply early_primary; [|done|done]. by apply (Hp TM_INITIAL).
Qed.

Lemma new_session_ok b (o : tls_options) now sid : opts_ok o -> TLS_RELIABLE_N_SEND_BUFFERS <= b -> u32_ok now -> sid_ok sid ->
  exists s, tls_session_init o now sid = Ret s /\ sess_inv (o_frame o) b s /\ early s.
Proof using. intros Ho Hb Hn Hs. destruct (tls_session_init_ok o b now sid Ho Hb Hn Hs) as (s & H1 & H2 & _ & _ & _ & _ & H3). by exists s. Qed.

Lemma session_failed_ok b x i :
  (forall j, j <> i -> slot_ok (o_frame (m_opt (mp_multi x))) b j (m_get (mp_multi x) j)) ->
  opts_ok (m_opt (mp_multi x)) -> i <> TM_LAME_DUCK -> k_state (ts_primary (m_get (mp_multi x) i)) = S_ERROR -> lame_ok (ts_lame (m_get (mp_multi x) i)) ->
  TLS_RELIABLE_N_SEND_BUFFERS <= b -> polite (mp_multi x) ->
  exists x', session_failed env x i = Ret x' /\ multi_inv b (mp_multi x') /\ polite (mp_multi x').
Proof using Henv.
  intros Hothers Ho Hi Herr Hlame Hb Hp. unfold session_failed. set (m := m_soft_error (mp_multi x)). set (x0 := if _ || _ then mp_set_error x true else x). clearbody x0.
  destruct Henv as [_ [Hsids _] [_ Hnow] _ _]. destruct (new_session_ok b (m_opt (mp_multi x)) (me_reset_now env i) (me_sid env i) Ho Hb (Hnow i) (Hsids i)) as (s & Hs & Hsi & He).
  destruct (_ && negb (o_single_session _)) eqn:E.
  - apply andb_true_iff in E as [E _]. apply andb_true_iff in E as [E _]. apply bool_decide_eq_true in E. subst i. unfold move_session.
    rewrite bool_decide_eq_false_2 by done. cbn [negb ASSERT mbind outcome_bind]. change (m_opt (m_set m TM_LAME_DUCK (m_get m TM_ACTIVE))) with (m_opt (mp_multi x)). rewrite Hs.
    cbn [mbind outcome_bind]. eexists. split; [done|]. cbn [mp_multi mp_set_multi]. split.
    + split; [done|]. intros [].
      * by left.
      * by apply (Hothers TM_INITIAL).
      * split; [|done]. change (k_state (ts_primary (m_get (mp_multi x) TM_ACTIVE)) < S_INITIAL). by rewrite Herr.
    + intros [] Hj Hst; [done| |done]. by apply (Hp TM_INITIAL).
  - unfold reset_session. change (m_opt m) with (m_opt (mp_multi x)). rewrite Hs. cbn [mbind outcome_bind]. eexists. split; [done|]. cbn [mp_multi mp_set_multi]. split.
    + split; [by rewrite m_set_opt_same|]. intros j. rewrite m_set_opt_same, m_get_set. change (m_opt m) with (m_opt (mp_multi x)). destruct (decide (i = j)) as [<-|Hne].
      * destruct i; [by left|done|done].
      * assert (m_get m j = m_get (mp_multi x) j) as -> by (by destruct j). by apply Hothers.
    + apply polite_set; [|done]. apply (polite_same (mp_multi x)); [same_sessions|done].
Qed.

Lemma multi_session_ok b x i :
  multi_inv b (mp_multi x) -> polite (mp_multi x) -> TLS_RELIABLE_N_SEND_BUFFERS <= b < 2 ^ 31 - 2 ->
  exists x', multi_session fuel env x i = Ret x' /\ multi_inv (b + 1) (mp_multi x') /\ polite (mp_multi x').
Proof using Hfuel Henv.
  intros Hm0 Hp0 Hb. destruct (initial_remote_ok b x i Hm0 Hp0) as [Hm Hp]. unfold multi_session. clear Hm0 Hp0. generalize dependent (initial_remote x i). clear x. intros x Hm Hp.
  destruct (_ && _) eqn:E; [|exists x; split; [done|]; split; [eapply multi_inv_mono; [done|lia]|done]].
  apply andb_true_iff in E as [Est Eaddr]. pose proof (mi_slots _ _ Hm i) as Hslot. pose proof (mi_opts _ _ Hm) as Ho.
  assert (Hi : i <> TM_LAME_DUCK) by (intros ->; destruct Hslot as [Hslot _]; lia).
  assert (Hs : sess_inv (o_frame (m_opt (mp_multi x))) b (m_get (mp_multi x) i)).
  { destruct i; [destruct Hslot as [|[Hd _]]; [done|rewrite Hd in Est; done]|done|done]. }
  set (p := mkproc _ _ _ _ _ _ _). assert (Hpi : proc_inv (m_opt (mp_multi x)) b p).
  { split; [|done|apply Hp; [done|lia]]. eapply sess_inv_mono; [exact Hs|]. apply budget_range. }
  destruct (tls_process_spec (m_opt (mp_multi x)) b (me_process env i) Ho Hb (mv_process _ Henv i) p fuel Hpi Hfuel) as (p' & r & -> & Hlame & Hres & _). cbn [must mbind outcome_bind].
  set (m1 := m_set_state _ _). set (m2 := match p_to_link_addr p' with Some a => m_set_addr m1 a | None => m1 end).
  assert (Hsame : same_sessions (m_set (mp_multi x) i (p_session p')) m2) by (unfold m2; destruct (p_to_link_addr p'); same_sessions).
  assert (Ho2 : m_opt m2 = m_opt (mp_multi x)) by (rewrite (proj1 Hsame); apply m_set_opt_same).
  assert (Hget : m_get m2 i = p_session p') by (rewrite (proj2 Hsame), m_get_set; by rewrite decide_True).
  assert (Hothers : forall j, j <> i -> m_get m2 j = m_get (mp_multi x) j) by (intros j Hj; rewrite (proj2 Hsame), m_get_set; by rewrite decide_False).
  destruct (k_state (primary p') =? S_ERROR) eqn:Ee.
  - apply Z.eqb_eq in Ee. apply session_failed_ok; cbn [mp_multi]; rewrite ?Ho2, ?Hget; try done; [|lia|].
    + intros j Hj. rewrite Hothers by done. eapply slot_ok_mono; [apply Hm|lia].
    + intros j Hj Hst. destruct (decide (j = i)) as [->|Hne]; [rewrite Hget in Hst; unfold primary in Ee; rewrite Ee in Hst; done|].
      rewrite Hothers in * by done. by apply Hp.
  - destruct Hres as [Hres|[[H1 H2 H3] _]]; [rewrite Hres in Ee; done|]. eexists. split; [done|]. cbn [mp_multi].
    pose proof (budget_range b p') as Hbud. apply sess_inv_mono with (b' := b + 1) in H1; [|lia]. split.
    + apply (multi_inv_same _ _ _ Hsame), multi_inv_set; [eapply multi_inv_mono; [done|lia]|]. destruct i; [by left|done|done].
    + apply (polite_same _ _ Hsame), polite_set; [done|]. intros _ _ ch Hc. exact (H3 ch Hc).
Qed.

Hypothesis Hinit : data_init_ok (K := K) (M := M).

Lemma multi_generate_keys_ok b m :
  multi_inv b m -> polite m -> exists m', multi_generate_keys (me_exporter env) m = Ret m' /\ multi_inv b m' /\ polite m'.
Proof using Henv Hinit.
  intros Hm Hp. unfold multi_generate_keys. destruct (decide _); [|by exists m]. destruct (_ && _) eqn:E; [|by exists m].
  apply andb_true_iff in E as [E _]. apply Z.eqb_eq in E. pose proof (mi_opts _ _ Hm) as Ho. pose proof (mi_slots _ _ Hm TM_ACTIVE) as Ha. cbn [m_get slot_ok] in Ha.
  destruct Ha as [Ha|[Ha _]]; [|rewrite E in Ha; done].
  destruct (generate_keys_ok b (m_opt m) (me_exporter env) (m_active m) Hinit Ho Ha) as (o & s & ok & -> & Ho' & Hf & Hs & He & Hl & Hst).
  { apply (Hp TM_ACTIVE); [done|]. cbn [m_get]. by rewrite E. } { by rewrite E. } { apply Henv. } { apply Henv. }
  cbn [mbind outcome_bind]. eexists. split; [done|]. pose proof (multi_inv_opt b m o Hm Ho' Hf) as Hm'.
  assert (Hp' : polite (m_set_opt m o)) by (intros [] Hj Hx; [by apply (Hp TM_ACTIVE)|by apply (Hp TM_INITIAL)|done]).
  destruct ok; (split; [apply multi_inv_set; [done|]|apply polite_set; [done|]]).
  - left. cbn [m_opt m_set_opt]. by rewrite Hf.
  - done.
  - right. split; [done|]. cbn [ts_lame ts_set_primary]. apply Hs.
  - done.
Qed.

Lemma multi_retire_ok b x now :
  multi_inv b (mp_multi x) -> polite (mp_multi x) -> exists x', multi_retire now x = Ret x' /\ multi_inv b (mp_multi x') /\ polite (mp_multi x').
Proof using.
  intros Hm Hp. unfold multi_retire. destruct (mi_slots _ _ Hm TM_LAME_DUCK) as [Hl1 Hl2]. cbn [m_get] in *.
  destruct (lame_duck_total now (m_lame (mp_multi x)) (mp_wakeup x) Hl2) as (die & w & ->). cbn [mbind outcome_bind]. eexists. split; [done|].
  destruct die; cbn [mp_multi mp_set_multi mp_set_wakeup]; [|done]. split; [apply multi_inv_set; [done|]|by apply polite_set]. split; [done|]. by left.
Qed.

Lemma multi_promote_ok b x tas :
  multi_inv b (mp_multi x) -> polite (mp_multi x) -> TLS_RELIABLE_N_SEND_BUFFERS <= b ->
  exists x' tas', multi_promote env x tas = Ret (x', tas') /\ multi_inv b (mp_multi x') /\ polite (mp_multi x').
Proof using Henv.
  intros Hm Hp Hb. unfold multi_promote. destruct (TLS_AUTHENTICATED _ _) eqn:E; [|by exists x, tas].
  pose proof (mi_opts _ _ Hm) as Ho. unfold move_session. rewrite bool_decide_eq_false_2 by done. cbn [negb ASSERT mbind outcome_bind].
  destruct Henv as [_ [_ Hsid] [Hnow _] _ _]. destruct (new_session_ok b (m_opt (mp_multi x)) (me_now env) (me_sid_promoted env) Ho Hb Hnow Hsid) as (s & Hs & Hsi & He).
  change (m_opt (m_set (mp_multi x) TM_ACTIVE (m_get (mp_multi x) TM_INITIAL))) with (m_opt (mp_multi x)). rewrite Hs. cbn [mbind outcome_bind].
  set (m := m_set (m_set (mp_multi x) TM_ACTIVE (m_get (mp_multi x) TM_INITIAL)) TM_INITIAL s).
  assert (Hm' : multi_inv b m).
  { apply multi_inv_set; [apply multi_inv_set; [done|left; apply (mi_slots _ _ Hm TM_INITIAL)]|done]. }
  assert (Hp' : polite m).
  { apply polite_set; [apply polite_set; [done|]|done]. intros _ Hst. by apply (Hp TM_INITIAL). }
  destruct (authentication_status_ok (me_now env) (me_promoted env) b m Hm' Hp') as (H1 & H2 & _). destruct (tls_authentication_status _ _ _) as [m1 tas']. cbn [fst] in *.
  destruct (decide _); (eexists _, _; split; [done|]); [|done]. cbn [mp_multi mp_set_multi mp_set_active].
  split; [by apply (multi_inv_same _ m1); [same_sessions|]|by apply (polite_same m1); [same_sessions|]].
Qed.

(** One call of the event loop sends at most one packet for each session. *)
Lemma tls_multi_process_ok b m to_link to_link_addr info wakeup :
  multi_inv b m -> polite m -> TLS_RELIABLE_N_SEND_BUFFERS <= b < 2 ^ 31 - 5 ->
  exists x r, tls_multi_process fuel env m to_link to_link_addr info wakeup = Ret (x, r) /\ multi_inv (b + 3) (mp_multi x) /\ polite (mp_multi x).
Proof using Hfuel Henv Hinit.
  intros Hm Hp Hb. unfold tls_multi_process. set (x0 := mkmproc m _ _ _ _ _ _).
  destruct (multi_session_ok b x0 TM_ACTIVE Hm Hp ltac:(lia)) as (x1 & -> & H1 & P1). cbn [mbind outcome_bind].
  destruct (multi_session_ok _ x1 TM_INITIAL H1 P1 ltac:(lia)) as (x2 & -> & H2 & P2). cbn [mbind outcome_bind].
  destruct (multi_session_ok _ x2 TM_LAME_DUCK H2 P2 ltac:(lia)) as (x3 & -> & H3 & P3). cbn [mbind outcome_bind].
  replace (b + 1 + 1 + 1) with (b + 3) in H3 by lia.
  destruct (authentication_status_ok (me_now env) (me_answers env) _ _ H3 P3) as (H4 & P4 & _). destruct (tls_authentication_status _ _ _) as [m4 tas]. cbn [fst] in *.
  destruct (multi_generate_keys_ok _ _ H4 P4) as (m5 & -> & H5 & P5). cbn [mbind outcome_bind]. set (m6 := if decide _ then m_set_state m5 CAS_PENDING else m5).
  assert (Hs6 : same_sessions m5 m6) by (unfold m6; case_decide; same_sessions).
  destruct (multi_retire_ok (b + 3) (mp_set_multi x3 m6) (me_now env)) as (x7 & -> & H7 & P7); [by apply (multi_inv_same _ m5)|by apply (polite_same m5)|]. cbn [mbind outcome_bind].
  destruct (multi_promote_ok (b + 3) x7 tas H7 P7 ltac:(lia)) as (x8 & tas' & -> & H8 & P8). cbn [mbind outcome_bind]. eexists _, _. split; [done|].
  assert (Hs8 : same_sessions (mp_multi x8) (multi_hard_error x8)) by (unfold multi_hard_error; case_match; same_sessions).
  cbn [mp_multi mp_set_multi]. split; [by apply (multi_inv_same _ _ _ Hs8)|by apply (polite_same _ _ Hs8)].
Qed.

End run.

(** ** Data packets *)

(** A key that decrypts packets with this id from this address. *)
Definition usable m (from : bytes) (floated : bool) (key_id : Z) (i : scan) : Prop :=
  let ks := get_key_scan m i in
  S_GENERATED_KEYS <= k_state ks /\ k_key_id ks = key_id /\ k_authenticated ks = KS_AUTH_TRUE /\
  (floated = true \/ link_socket_actual_match from (k_remote_addr ks) = Ret true).

Lemma scan_initialized b m i : multi_inv b m -> S_GENERATED_KEYS <= k_state (get_key_scan m i) -> k_initialized (get_key_scan m i) = true.
Proof.
  intros Hm Hst. pose proof (mi_slots _ _ Hm TM_ACTIVE) as Ha. destruct (mi_slots _ _ Hm TM_LAME_DUCK) as [_ Hl]. cbn [m_get slot_ok] in *.
  assert (Hlame : forall ks, lame_ok ks -> S_GENERATED_KEYS <= k_state ks -> k_initialized ks = true).
  { intros ks [Hk|(_ & Hk & _)]; [rewrite Hk; done|done]. }
  destruct i; cbn [get_key_scan] in *; [|destruct Ha as [Ha|[_ Ha]]; apply Hlame; try done; apply Ha|by apply Hlame].
  destruct Ha as [Ha|[Ha _]]; [|rewrite Ha in Hst; done]. pose proof (lk_state _ _ _ _ (si_primary _ _ _ Ha)) as Hs. apply (lk_keys _ _ _ _ (si_primary _ _ _ Ha)). lia.
Qed.

Lemma match_total a a' : addr_ok a -> exists r, link_socket_actual_match a a' = Ret r.
Proof. intros [H|H]; unfold link_socket_actual_match, addr_port_match; rewrite H; cbn; eauto. Qed.

(** The payload and the start of the associated data, given the packet. *)
Definition data_part (op hd : Z) (rest : bytes) : Z * bytes * Z :=
  if op =? P_DATA_V2 then (hd + 4, drop 3 rest, hd) else (hd + 1, rest, hd + 1).

Section data.
Context (b : Z) (from : bytes) (op key_id : Z) (floated : bool) (buf : buffer) (hd x tl : Z) (rest : bytes).
Hypotheses (Hfrom : addr_ok from) (Hop : op = P_DATA_V1 \/ op = P_DATA_V2) (Hbuf : holds buf hd (x :: rest) tl).

Lemma data_scan_spec l : forall m, multi_inv b m -> polite m ->
  exists m' buf' sel ad, data_scan from op key_id floated l m buf = Ret (m', buf', sel, ad) /\ multi_inv b m' /\ polite m' /\
    match sel with
    | Some i => exists before after, l = before ++ i :: after /\ usable m from floated key_id i /\ Forall (fun j => ~ usable m from floated key_id j) before /\
        ad = Some (data_part op hd rest).2 /\ holds buf' (data_part op hd rest).1.1 (data_part op hd rest).1.2 tl /\
        m' = set_key_scan m i (k_set_counters (get_key_scan m i) ((k_n_bytes (get_key_scan m i) + zlen (data_part op hd rest).1.2) mod 2 ^ 64)
                                 ((k_n_packets (get_key_scan m i) + 1) mod 2 ^ 64))
    | None => blen buf' = 0 /\ (Forall (fun j => ~ usable m from floated key_id j) l \/ (op = P_DATA_V2 /\ zlen rest < 4))
    end.
Proof using Hfrom Hop Hbuf.
  induction l as [|i l IH]; intros m Hm Hp; cbn [data_scan].
  { eexists _, _, None, None. split; [done|]. split_and!; try done. left. constructor. }
  set (ks := get_key_scan m i).
  assert (Hfound : exists found, (if (S_GENERATED_KEYS <=? k_state ks) && (key_id =? k_key_id ks) && bool_decide (k_authenticated ks = KS_AUTH_TRUE)
     then (if floated then Ret true else link_socket_actual_match from (k_remote_addr ks)) else Ret false) = Ret found /\ (found = true <-> usable m from floated key_id i)).
  { unfold usable. fold ks. destruct (_ && bool_decide _) eqn:E.
    - apply andb_true_iff in E as [E E3]. apply andb_true_iff in E as [E1 E2]. apply bool_decide_eq_true in E3. destruct floated.
      + exists true. split; [done|]. split; [|done]. intros _. split_and!; try lia; auto.
      + destruct (match_total from (k_remote_addr ks) Hfrom) as (r & Hr). rewrite Hr. exists r. split; [done|]. split.
        * intros ->. split_and!; try lia; auto.
        * intros (_ & _ & _ & [|H]); [done|]. by injection H.
    - exists false. split; [done|]. split; [done|]. intros (H1 & H2 & H3 & _). rewrite bool_decide_eq_true_2 in E by done. lia. }
  destruct Hfound as (found & -> & Hf). cbn [mbind outcome_bind]. destruct found.
  - pose proof (proj1 Hf eq_refl) as Hu. assert (Hini : k_initialized ks = true) by (apply (scan_initialized b m i Hm), Hu). rewrite Hini. cbn [ASSERT mbind outcome_bind].
    destruct (buf_advance_spec _ _ _ _ 1 Hbuf) as (b1 & -> & Hb1); [simpl; lia|]. rewrite ASSERT_ok_true. cbn [mbind outcome_bind]. change (drop (Z.to_nat 1) (x :: rest)) with rest in Hb1.
    destruct (set_key_scan_ok b m i _ Hm Hp (harmless_counters (get_key_scan m i) ((k_n_bytes ks + zlen (data_part op hd rest).1.2) mod 2 ^ 64) ((k_n_packets ks + 1) mod 2 ^ 64))) as [Hm' Hp'].
    assert (Hone : exists before after, i :: l = before ++ i :: after /\ usable m from floated key_id i /\ Forall (fun j => ~ usable m from floated key_id j) before)
      by (by exists [], l). destruct Hone as (before & after & Hone & Hone' & Hone'').
    destruct Hop as [Eop|Eop]; rewrite Eop in *; cbn [Z.eqb Pos.eqb P_DATA_V1 P_DATA_V2].
    + destruct (buf_len_holds _ _ _ _ Hb1) as [_ Hl1]. rewrite Hl1. holds_facts Hb1. eexists _, _, (Some i), _. split; [done|]. split; [done|]. split; [done|].
      exists before, after. split_and!; try done. cbn. by rewrite Hoff.
    + destruct (buf_len_holds _ _ _ _ Hb1) as [_ Hl1]. rewrite Hl1. destruct (zlen rest <? 4) eqn:E4.
      { eexists _, _, None, _. split; [done|]. split; [by apply (multi_inv_same _ m); [same_sessions|]|]. split; [by apply (polite_same m); [same_sessions|]|].
        split; [done|]. right. split; [done|lia]. }
      destruct (buf_advance_spec _ _ _ _ 3 Hb1) as (b2 & -> & Hb2); [lia|]. rewrite ASSERT_ok_true. cbn [mbind outcome_bind].
      change (drop (Z.to_nat 3) rest) with (drop 3 rest) in Hb2. destruct (buf_len_holds _ _ _ _ Hb2) as [_ Hl2]. rewrite Hl2. holds_facts Hbuf.
      eexists _, _, (Some i), _. split; [done|]. split; [done|]. split; [done|]. exists before, after. split_and!; try done; [cbn; by rewrite Hoff|].
      cbn. by replace (hd + 4) with (hd + 1 + 3) by lia.
  - assert (Hnu : ~ usable m from floated key_id i) by (intros Hu; by apply Hf in Hu).
    destruct (IH m Hm Hp) as (m' & buf' & sel & ad & -> & H1 & H2 & H3). eexists _, _, sel, ad. split; [done|]. split_and!; try done. destruct sel as [j|].
    + destruct H3 as (before & after & -> & Hu & Hno & Hrest). exists (i :: before), after. split_and!; try done; try apply Hrest. by constructor.
    + destruct H3 as [H3 [H4|H4]]; (split; [done|]); [left; by constructor|by right].
Qed.

End data.

(** ** Control packets *)

(** Packets leave the send store, or are scheduled again. *)
Definition shrinks (f : frame) (n : Z) (r r' : reliable) : Prop :=
  rel_wf (BUF_SIZE f) r' /\ r_offset r' = r_offset r /\ r_size r' = r_size r /\ send_window r' n /\
  forall i e, act r' i e -> exists e0, act r i e0 /\ same_packet e e0.

Lemma shrinks_refl f n r : rel_wf (BUF_SIZE f) r -> send_window r n -> shrinks f n r r.
Proof. intros Hw Hwin. do 3 (split; [done|]). split; [exact Hwin|]. intros i e He. by exists e. Qed.

Lemma shrinks_trans f n r r1 r2 : shrinks f n r r1 -> shrinks f n r1 r2 -> shrinks f n r r2.
Proof.
  intros (A1 & A2 & A3 & A4 & A5) (B1 & B2 & B3 & B4 & B5). split; [done|]. split; [congruence|]. split; [congruence|]. split; [exact B4|].
  intros i e He. destruct (B5 i e He) as (e1 & He1 & P1 & P2 & P3). destruct (A5 i e1 He1) as (e0 & He0 & Q1 & Q2 & Q3). exists e0. split; [done|]. split_and!; congruence.
Qed.

Lemma schedule_shrinks f n r now : rel_wf (BUF_SIZE f) r -> send_window r n -> shrinks f n r (reliable_schedule_now now r).
Proof.
  intros Hw Hwin. destruct (schedule_now_spec _ r now Hw) as (H1 & H2 & H3 & H4 & H5 & _). do 3 (split; [done|]). split; [|done]. split; [rewrite H3; apply Hwin|].
  intros i e He. destruct (H5 i e He) as (e0 & He0 & Hp & _). rewrite Hp, H2. by apply (proj2 Hwin i e0).
Qed.

(** The stores of a key after a packet was received. *)
Lemma live_key_received f b s ks ch ch' :
  live_key f b s ks -> k_chan ks = Some ch -> (forall n, rel_wf (BUF_SIZE f) (ks_send_reliable ch) -> send_window (ks_send_reliable ch) n -> shrinks f n (ks_send_reliable ch) (ks_send_reliable ch')) ->
  rel_wf (BUF_SIZE f) (ks_rec_reliable ch') -> acks_ok (ks_rec_ack ch') (ks_lru_acks ch') (k_session_id_remote ks) -> ks_resend_wkc ch' = ks_resend_wkc ch ->
  live_key f (b + 6) s (k_set_chan ks ch').
Proof.
  intros [L1 L2 (ch0 & n & C1 & [Cs Co Cz Cw Cn Cd Cr Ca] & C3 & C4 & C5) L4 L5 L6 L7 L8 L9 L10] Hc Hsh Hr Ha Hw. rewrite C1 in Hc. injection Hc as ->.
  destruct (Hsh n Cs Cw) as (S1 & S2 & S3 & S4 & S5). pose proof (avail_range _ _ _ Cs Cw) as Hav. pose proof (avail_range _ _ _ S1 S4) as Hav'.
  split; try done. exists ch', n. split; [done|]. split; [|split; [done|]; split].
  - split; try done; [congruence|congruence| |].
    + rewrite S3, Cz in Hav'. unfold TLS_RELIABLE_N_SEND_BUFFERS in Hav'. lia.
    + intros i e He. destruct (S5 i e He) as (e0 & He0 & P1 & P2 & P3). specialize (Cd i e0 He0). unfold sendable in *. by rewrite P2, P3.
  - intros [Hx|(i & e & He & Hh)]; apply C4; [left; congruence|right]. destruct (S5 i e He) as (e0 & He0 & P1 & P2 & P3). exists i, e0. by rewrite <- P3.
  - intros Hst i e He. destruct (S5 i e He) as (e0 & He0 & _). by apply (C5 Hst i e0).
Qed.

Lemma acks_ok_new a l r r' : acks_ok a l r -> sid_ok r' -> acks_ok a l r'.
Proof. intros [H1 H2 _] Hr. split; [done|done|by left]. Qed.

Lemma live_key_new_peer f b s ks sid from : live_key f b s ks -> sid_ok sid -> addr_ok from -> live_key f b s (k_set_remote ks sid from).
Proof.
  intros [L1 L2 (ch0 & n & C1 & [Cs Co Cz Cw Cn Cd Cr Ca] & C3 & C4 & C5) L4 L5 L6 L7 L8 L9 L10] Hs Hf. split; try done; [|by right].
  exists ch0, n. split_and!; try done. split; try done. by eapply acks_ok_new.
Qed.

Section control.
Context (e : packet_env) (op key_id : Z) (sid from : bytes) (b : Z).
Hypotheses (Hsid : sid_ok sid) (Hfrom : addr_ok from) (Hb : TLS_RELIABLE_N_SEND_BUFFERS <= b) (Hnow : 1 < pk_now e) (Hjunk : Forall is_byte (pk_junk e)).

Lemma set_key_wrap_same f s ctx : sess_inv f b s -> wrap_inv f b ctx -> tw_mode ctx = tw_mode (key_wrap s key_id) -> tw_wkc ctx = tw_wkc (key_wrap s key_id) ->
  sess_inv f b (set_key_wrap s key_id ctx).
Proof using.
  intros [H1 [H2 H2'] H3 H4 [H5 H6] H7] Hc Hm Hw. unfold set_key_wrap, key_wrap in *. destruct (uses_reneg s key_id); split; try done; eapply live_key_same; try exact H3; by split.
Qed.

(** What [read_auth] leaves alone. *)
Definition read_kept s s' : Prop :=
  ts_primary s' = ts_primary s /\ ts_lame s' = ts_lame s /\ ts_session_id s' = ts_session_id s /\ ts_burst s' = ts_burst s.

Lemma read_auth_ok f s buf hd (c : bytes) tl :
  sess_inv f b s -> holds buf hd c tl -> c <> [] -> zlen c + tl <= zlen (pk_junk e) ->
  exists buf' s' ok, read_auth e s key_id buf = Ret (buf', s', ok) /\ sess_inv f b s' /\ read_kept s s' /\ (ok = true -> exists hd' c' tl', holds buf' hd' c' tl').
Proof using Hnow Hjunk.
  intros Hs Hbuf Hne Hl. unfold read_auth. assert (Hi : wrap_inv f b (key_wrap s key_id)) by (unfold key_wrap; destruct (uses_reneg s key_id); apply Hs).
  destruct (@wrap_read_total K M _ _ (crypt_init crypt) f b (key_wrap s key_id) (pk_now e) (pk_junk e) (pk_verify e) buf hd c tl Hi Hbuf Hne Hjunk Hl Hnow) as (b' & ctx & ok & -> & Hc & Hm & Hw & Hok).
  cbn [mbind outcome_bind]. eexists _, _, ok. split; [done|]. split; [by apply set_key_wrap_same|]. split; [|done].
  unfold read_kept, set_key_wrap. by destruct (uses_reneg s key_id).
Qed.

Definition routed m (buf : buffer) (r : option (tm * bool * bool)) : Prop :=
  match r with
  | None => True
  | Some (i, do_burst, new_link) =>
      i <> TM_LAME_DUCK /\ sess_inv (o_frame (m_opt m)) b (m_get m i) /\ (new_link = false -> k_session_id_remote (ts_primary (m_get m i)) = sid) /\
      exists hd c tl, holds buf hd c tl
  end.

Lemma route_existing m buf hd (c : bytes) tl i :
  multi_inv b m -> sess_inv (o_frame (m_opt m)) b (m_get m i) -> i <> TM_LAME_DUCK -> k_session_id_remote (ts_primary (m_get m i)) = sid ->
  holds buf hd c tl -> c <> [] -> zlen c + tl <= zlen (pk_junk e) ->
  exists m' buf' r, (same ← link_socket_actual_match (k_remote_addr (ts_primary (m_get m i))) from;
      if negb same then Ret (m, buf, None)
      else
        '(buf, s, ok) ← read_auth e (m_get m i) key_id buf;
        if negb ok then Ret (m_set m i s, buf, None)
        else if (op =? P_CONTROL_SOFT_RESET_V1) && (S_GENERATED_KEYS <=? k_state (ts_primary (m_get m i))) then
          s ← key_state_soft_reset (m_opt m) (pk_now e) s; Ret (m_set m i s, buf, Some (i, false, false))
        else Ret (m_set m i s, buf, Some (i, op =? P_CONTROL_SOFT_RESET_V1, false))) = Ret (m', buf', r) /\ multi_inv b m' /\ routed m' buf' r.
Proof using Hnow Hjunk Hsid Hb.
  intros Hm Hs Hi Hr Hbuf Hne Hl. pose proof (si_primary _ _ _ Hs) as Hlk. pose proof (mi_opts _ _ Hm) as Ho.
  assert (Haddr : addr_ok (k_remote_addr (ts_primary (m_get m i)))).
  { destruct (lk_remote _ _ _ _ Hlk) as [Hx|[_ Hx]]; [|done]. rewrite Hr in Hx. destruct Hsid as (_ & _ & Hd). rewrite Hx in Hd. done. }
  destruct (match_total _ from Haddr) as (same & ->). cbn [mbind outcome_bind]. destruct same; cbn [negb]; [|by eexists _, _, None].
  destruct (read_auth_ok (o_frame (m_opt m)) (m_get m i) buf hd c tl Hs Hbuf Hne Hl) as (buf' & s' & ok & -> & Hs' & (K1 & K2 & K3 & K4) & Hok). cbn [mbind outcome_bind].
  assert (Hset : forall s2, sess_inv (o_frame (m_opt m)) b s2 -> multi_inv b (m_set m i s2)) by (intros s2 H2; apply multi_inv_set; [done|]; destruct i; [by left|done|done]).
  assert (Hrt : forall s2 db, sess_inv (o_frame (m_opt m)) b s2 -> k_session_id_remote (ts_primary s2) = sid -> ok = true -> routed (m_set m i s2) buf' (Some (i, db, false))).
  { intros s2 db H2 H3 ->. unfold routed. rewrite m_set_opt_same, m_get_set, decide_True by done. split_and!; try done. by apply Hok. }
  destruct ok; cbn [negb]; [|eexists _, _, None; split; [done|]; split; [by apply Hset|done]].
  destruct (_ && _) eqn:E.
  - apply andb_true_iff in E as [_ E]. pose proof (lk_state _ _ _ _ Hlk) as Hst.
    destruct (soft_reset_ok (m_opt m) b (pk_now e) s' Ho Hs' Hb) as (s2 & -> & Hs2 & _ & _ & _ & Hsr & _); [rewrite K1; unfold S_GENERATED_KEYS in *; lia|lia|].
    cbn [mbind outcome_bind]. eexists _, _, _. split; [done|]. split; [by apply Hset|]. apply Hrt; [done|congruence|done].
  - eexists _, _, _. split; [done|]. split; [by apply Hset|]. apply Hrt; [done|congruence|done].
Qed.

Lemma route_control_ok m buf hd (c : bytes) tl :
  multi_inv b m -> k_state (ts_primary (m_active m)) <> S_ERROR -> holds buf hd c tl -> c <> [] -> zlen c + tl <= zlen (pk_junk e) ->
  exists m' buf' r, route_control e op key_id sid from m buf = Ret (m', buf', r) /\ multi_inv b m' /\ routed m' buf' r.
Proof using Hnow Hjunk Hsid Hb Hfrom.
  intros Hm Hdead Hbuf Hne Hl. unfold route_control, find_session. pose proof (mi_slots _ _ Hm TM_ACTIVE) as Ha. pose proof (mi_slots _ _ Hm TM_INITIAL) as Hi.
  cbn [m_get slot_ok] in Ha, Hi. destruct Ha as [Ha|[Ha _]]; [|done]. unfold session_id_equal.
  destruct (bool_decide (k_session_id_remote (ts_primary (m_active m)) = sid)) eqn:E1; [apply bool_decide_eq_true in E1; by eapply (route_existing m buf hd c tl TM_ACTIVE)|].
  destruct (bool_decide (k_session_id_remote (ts_primary (m_initial m)) = sid)) eqn:E2; [apply bool_decide_eq_true in E2; by eapply (route_existing m buf hd c tl TM_INITIAL)|].
  destruct (bool_decide (k_session_id_remote (ts_primary (m_lame m)) = sid)); [by eexists _, _, None|]. destruct (is_hard_reset_method2 op); [|by eexists _, _, None].
  destruct (_ && negb _); [by eexists _, _, None|].
  destruct (read_auth_ok (o_frame (m_opt m)) (m_initial m) buf hd c tl Hi Hbuf Hne Hl) as (buf' & s' & ok & -> & Hs' & (K1 & K2 & K3 & K4) & Hok). cbn [mbind outcome_bind].
  pose proof (multi_inv_set b m TM_INITIAL s' Hm Hs') as Hm'. destruct ok; [|by eexists _, _, None]. eexists _, _, _. split; [done|].
  assert (Hu : sess_inv (o_frame (m_opt m)) b (ts_set_untrusted s' from)).
  { destruct Hs' as [H1 H2 H3 H4 [H5 H6] H7]. split; try done. by eapply live_key_same; [|exact H3]. }
  split; [by apply multi_inv_set|]. split_and!; try done. by apply Hok.
Qed.

Lemma accept_control_ok m i (do_burst new_link : bool) buf :
  multi_inv b m -> routed m buf (Some (i, do_burst, new_link)) ->
  exists m' ok, accept_control e op key_id sid from m i do_burst new_link buf = Ret (m', ok) /\ multi_inv (b + 6) m'.
Proof using Hsid Hfrom Hb.
  intros Hm (Hi & Hs & Hrem & hd & c & tl & Hbuf). unfold accept_control. pose proof (si_primary _ _ _ Hs) as Hlk. pose proof (lk_state _ _ _ _ Hlk) as Hst.
  rewrite (proj2 (Z.eqb_neq (k_state (ts_primary (m_get m i))) S_UNDEF)) by (unfold S_UNDEF, S_INITIAL in *; lia).
  rewrite (proj2 (Z.eqb_neq (k_state (ts_primary (m_get m i))) S_ERROR)) by (unfold S_ERROR, S_INITIAL in *; lia).
  destruct (si_sid _ _ _ Hs) as (_ & _ & Hdef). rewrite Hdef. cbn [negb ASSERT mbind outcome_bind].
  set (m1 := if new_link then m_set_counts m _ _ _ else m). assert (Hsame : same_sessions m m1) by (unfold m1; destruct new_link; same_sessions).
  assert (Hm1 : multi_inv (b + 6) m1) by (apply (multi_inv_same _ m); [done|]; eapply multi_inv_mono; [done|lia]). destruct Hsame as [So Sg].
  set (ks := if new_link then k_set_remote _ sid from else _).
  assert (Hks : live_key (o_frame (m_opt m)) b (m_get m i) ks /\ k_session_id_remote ks = sid /\ k_key_id ks = k_key_id (ts_primary (m_get m i)) /\ addr_ok (k_remote_addr ks)).
  { unfold ks. destruct new_link; [by split; [apply live_key_new_peer|]|]. specialize (Hrem eq_refl). split_and!; try done.
    destruct (lk_remote _ _ _ _ Hlk) as [Hx|[_ Hx]]; [|done]. rewrite Hrem in Hx. destruct Hsid as (_ & _ & Hd). rewrite Hx in Hd. done. }
  destruct Hks as (Hlks & Hksid & Hkid & Hkaddr). clearbody ks.
  assert (Hknown : exists known, (if new_link then Ret true else link_socket_actual_match (k_remote_addr ks) from) = Ret known) by (destruct new_link; [eauto|by apply match_total]).
  destruct Hknown as (known & ->). cbn [mbind outcome_bind]. destruct known; cbn [negb]; [|by eexists _, _].
  destruct (lk_chan _ _ _ _ Hlks) as (ch & n & C1 & C2 & _). rewrite C1. cbn [deref mbind outcome_bind]. pose proof C2 as [Cs Co Cz Cw Cn Cd Cr Ca].
  set (burst := do_burst && negb (ts_burst (m_get m i))). set (s1 := if burst then ts_set_burst (m_get m i) true else m_get m i).
  set (ch1 := if burst then ks_set_send ch _ else ch).
  assert (Hch1 : shrinks (o_frame (m_opt m)) n (ks_send_reliable ch) (ks_send_reliable ch1) /\ ks_rec_reliable ch1 = ks_rec_reliable ch /\ ks_rec_ack ch1 = ks_rec_ack ch /\
     ks_lru_acks ch1 = ks_lru_acks ch /\ ks_resend_wkc ch1 = ks_resend_wkc ch).
  { unfold ch1. destruct burst; [split; [by apply schedule_shrinks|done]|]. split; [by apply shrinks_refl|done]. }
  destruct Hch1 as (Hsh1 & Er & Ea & El & Ew).
  assert (Hput : forall ch' (g : key_state -> key_state), (forall k, harmless k (g k)) -> shrinks (o_frame (m_opt m)) n (ks_send_reliable ch) (ks_send_reliable ch') ->
    rel_wf (BUF_SIZE (o_frame (m_opt m))) (ks_rec_reliable ch') -> acks_ok (ks_rec_ack ch') (ks_lru_acks ch') sid -> ks_resend_wkc ch' = ks_resend_wkc ch ->
    multi_inv (b + 6) (m_set m1 i (ts_set_primary s1 (g (k_set_chan ks ch'))))).
  { intros ch' g Hg Hsh Hr' Ha' Hw'. assert (Hlk' : live_key (o_frame (m_opt m)) (b + 6) (m_get m i) (k_set_chan ks ch')).
    { destruct Hlks as [L1 L2 (ch0 & n0 & D1 & D2 & D3) L4 L5 L6 L7 L8 L9 L10]. rewrite C1 in D1. injection D1 as <-.
      eapply (live_key_received _ b _ ks ch ch'); try done; [split; try done; by exists ch, n0| |by rewrite Hksid].
      intros n1 Hw1 Hwin1. destruct Hsh as (S1 & S2 & S3 & S4 & S5). do 3 (split; [done|]). split; [|done]. split; [rewrite (proj1 S4), <- (proj1 Cw); apply Hwin1|].
      intros j x Hx. destruct (S5 j x Hx) as (x0 & Hx0 & P1 & _). rewrite P1, S3. by apply (proj2 Hwin1 j x0). }
    assert (Hss : sess_inv (o_frame (m_opt m)) (b + 6) s1).
    { apply sess_inv_mono with (b' := b + 6) in Hs; [|lia]. unfold s1. destruct burst; [|done]. destruct Hs as [H1 H2 H3 H4 [H5 H6] H7]. split; try done. by eapply live_key_same; [|exact H3]. }
    apply multi_inv_set; [done|]. rewrite So. assert (Hfin : sess_inv (o_frame (m_opt m)) (b + 6) (ts_set_primary s1 (g (k_set_chan ks ch')))).
    { apply sess_inv_primary; [done| |rewrite (hl_id _ _ (Hg _)); unfold s1; by destruct burst]. apply Hg. eapply live_key_same; [|exact Hlk']. unfold s1. by destruct burst. }
    destruct i; [by left|done|done]. }
  destruct (negb (k_key_id (k_set_chan ks ch1) =? key_id)).
  { eexists _, false. split; [reflexivity|]. apply (Hput ch1 (fun k => k)); [intros k; apply harmless_refl|done|by rewrite Er|rewrite Ea, El; by rewrite Hksid in Ca|done]. }
  rewrite Hksid in Ca. destruct Ca as [[A1 A2] A3 _]. destruct Hsh1 as (S1 & S2 & S3 & S4 & S5).
  destruct (receive_control_safe _ (pk_junk e) op (ts_session_id s1) ch1 buf hd c tl n S1 S4) as (ch2 & ok & -> & (R1 & R2 & R3 & R4 & R5) & R6 & R7 & R8 & R9 & R10);
    [by rewrite Er|by rewrite Ea|by rewrite Ea|done|]. cbn [mbind outcome_bind]. eexists _, ok. split; [done|].
  apply (Hput ch2 (fun k => if ok then k_set_times k (t_set_peer_last (k_times k) (pk_now e)) else k)); try done.
  - intros k. destruct ok; [|apply harmless_refl]. split; try done. intros f b0 s0 H. by apply live_key_times.
  - apply (shrinks_trans _ _ _ (ks_send_reliable ch1)); [exact (conj S1 (conj S2 (conj S3 (conj S4 S5))))|exact (conj R1 (conj R3 (conj R4 (conj R2 R5))))].
  - split; [done|rewrite R9, El; done|by left].
  - congruence.
Qed.

End control.

(** Whatever arrives from an address that [link_socket_verify_incoming_addr]
    lets through. *)
Lemma tls_pre_decrypt_ok e b from floated m buf hd (c : bytes) tl :
  multi_inv b m -> polite m -> k_state (ts_primary (m_active m)) <> S_ERROR -> TLS_RELIABLE_N_SEND_BUFFERS <= b -> addr_ok from -> holds buf hd c tl ->
  1 < pk_now e -> Forall is_byte (pk_junk e) -> zlen c + tl <= zlen (pk_junk e) ->
  exists m' buf' sel ad ret, tls_pre_decrypt e from floated m buf = Ret (m', buf', sel, ad, ret) /\ multi_inv (b + 6) m' /\ (sel = None -> blen buf' = 0).
Proof.
  intros Hm Hp Hdead Hb Hfrom Hbuf Hnow Hjunk Hl. unfold tls_pre_decrypt. destruct (buf_len_holds _ _ _ _ Hbuf) as [_ ->].
  assert (Hm6 : multi_inv (b + 6) m) by (eapply multi_inv_mono; [done|lia]).
  destruct c as [|x c]; [by eexists _, _, None, None, false|]. rewrite (proj2 (Z.leb_gt (zlen (x :: c)) 0)) by (simpl; lia).
  destruct Hbuf as (blk & Hok & Ho & Hc & Ht). rewrite (peek_ok _ _ _ _ Hok); [|destruct Hok; lia|lia|pose proof (zlen_content _ _ Hok) as Hz; rewrite Hc in Hz; simpl in Hz; destruct Hok; lia].
  cbn [mbind outcome_bind]. assert (Hbuf : holds buf hd (x :: c) tl) by (by exists blk). set (v := be_val _). set (op := Z.shiftr v P_OPCODE_SHIFT).
  destruct (_ || _) eqn:Eop.
  - assert (Hop : op = P_DATA_V1 \/ op = P_DATA_V2) by lia. unfold handle_data_channel_packet. rewrite (peek_ok _ _ _ _ Hok); [|destruct Hok; lia|lia|pose proof (zlen_content _ _ Hok) as Hz; rewrite Hc in Hz; simpl in Hz; destruct Hok; lia].
    cbn [mbind outcome_bind]. fold v op.
    destruct (data_scan_spec b from op (Z.land v P_KEY_ID_MASK) floated buf hd x tl c Hfrom Hop Hbuf scans m Hm Hp) as (m' & buf' & sel & ad & -> & Hm' & _ & Hsel).
    cbn [mbind outcome_bind]. eexists _, _, sel, ad, false. split; [done|]. split; [eapply multi_inv_mono; [done|lia]|]. intros ->. apply Hsel.
  - enough (Hctl : exists m' ret, control_packet e op (Z.land v P_KEY_ID_MASK) from m buf = Ret (m', ret) /\ multi_inv (b + 6) m').
    { destruct Hctl as (m' & ret & -> & Hm'). cbn [mbind outcome_bind]. by eexists _, _, None, None, ret. }
    assert (Hsoft : forall m0, multi_inv (b + 6) m0 -> multi_inv (b + 6) (m_soft_error m0)) by (intros m0 H0; apply (multi_inv_same _ m0); [same_sessions|done]).
    unfold control_packet. destruct (_ || (P_LAST_OPCODE <? op)); [by eexists _, _; split; [done|]; apply Hsoft|].
    destruct (_ || _ && o_server _); [by eexists _, _; split; [done|]; apply Hsoft|].
    destruct (buf_advance_spec _ _ _ _ 1 Hbuf) as (b1 & Eadv & Hb1); [simpl; lia|]. rewrite Eadv. cbn [fst]. unfold session_id_read.
    destruct (buf_read_total b1 (hd + 1 + zlen c + tl) SID_SIZE) as (b2 & sid & -> & _ & Hsid); [by exists (hd + 1), c, tl|done|]. cbn [mbind outcome_bind].
    destruct sid as [sid|]; [|by eexists _, _; split; [done|]; apply Hsoft]. destruct (session_id_defined sid) eqn:Edef; cbn [negb]; [|by eexists _, _; split; [done|]; apply Hsoft].
    destruct (Hsid sid eq_refl) as [Hz Hbytes]. assert (Hsidok : sid_ok sid) by done.
    destruct (route_control_ok e op (Z.land v P_KEY_ID_MASK) sid from b Hsidok Hfrom Hb Hnow Hjunk m buf hd (x :: c) tl Hm Hdead Hbuf ltac:(done) Hl) as (m1 & buf1 & r & -> & Hm1 & Hr).
    cbn [mbind outcome_bind]. destruct r as [[[i db] nl]|]; [|eexists _, _; split; [done|]; apply Hsoft; eapply multi_inv_mono; [done|lia]].
    destruct (accept_control_ok e op (Z.land v P_KEY_ID_MASK) sid from b Hsidok Hfrom Hb m1 i db nl buf1 Hm1 Hr) as (m2 & ok & -> & Hm2). cbn [mbind outcome_bind].
    eexists _, _. split; [done|]. destruct ok; [done|by apply Hsoft].
Qed.

(** ** Keys for outgoing packets *)

Definition sending m (i : scan) : Prop := S_GENERATED_KEYS <= k_state (get_key_scan m i) /\ k_authenticated (get_key_scan m i) = KS_AUTH_TRUE.

Lemma select_scan_ok b now m l : forall sel, multi_inv b m -> (forall i, sel = Some i -> sending m i) ->
  exists r, select_scan now m l sel = Ret r /\ (forall i, r = Some i -> sending m i) /\ (r = None -> Forall (fun i => ~ sending m i) l /\ sel = None).
Proof.
  induction l as [|i l IH]; intros sel Hm Hsel; cbn [select_scan]; [by exists sel|]. destruct (_ && bool_decide _) eqn:E.
  - apply andb_true_iff in E as [E1 E2]. apply bool_decide_eq_true in E2. assert (Hi : sending m i) by (split; [lia|done]).
    rewrite (scan_initialized b m i Hm (proj1 Hi)). cbn [ASSERT mbind outcome_bind]. destruct (_ <=? now); [exists (Some i); split_and!; try done; by intros j [= <-]|].
    destruct (IH (match sel with None => Some i | Some j => Some j end) Hm) as (r & Hr & H1 & H2); [destruct sel as [j|]; [by apply Hsel|by intros j [= <-]]|].
    exists r. split_and!; try done. intros Hn. destruct (H2 Hn) as [_ H3]. by destruct sel.
  - destruct (IH sel Hm Hsel) as (r & Hr & H1 & H2). exists r. split_and!; try done. intros Hn. destruct (H2 Hn) as [H3 H4]. split; [|done]. constructor; [|done].
    intros [S1 S2]. rewrite bool_decide_eq_true_2 in E by done. lia.
Qed.

Lemma tls_pre_encrypt_ok b now m buf :
  multi_inv b m -> polite m ->
  exists m' buf' sel, tls_pre_encrypt now m buf = Ret (m', buf', sel) /\ multi_inv b m' /\ polite m' /\ m_save_ks m' = sel /\
    match sel with Some i => buf' = buf /\ sending m' i | None => blen buf' = 0 end.
Proof.
  intros Hm Hp. unfold tls_pre_encrypt. set (m1 := m_set_save m None).
  assert (Hm1 : forall k, multi_inv b (m_set_save m k) /\ polite (m_set_save m k)).
  { intros k. split; [apply (multi_inv_same _ m)|apply (polite_same m)]; try done; same_sessions. }
  destruct (blen buf <=? 0) eqn:E.
  - eexists _, _, None. split; [done|]. destruct (Hm1 None). by split_and!.
  - unfold tls_select_encryption_key. destruct (select_scan_ok b now m1 scans None) as (r & -> & H1 & _); [apply Hm1|done|]. cbn [mbind outcome_bind].
    destruct r as [i|]; [|eexists _, _, None; split; [done|]; destruct (Hm1 None); by split_and!].
    eexists _, _, (Some i). split; [done|]. destruct (Hm1 (Some i)). split_and!; try done. by apply (H1 i).
Qed.

Lemma tls_post_encrypt_ok b m buf :
  multi_inv b m -> polite m -> (m_save_ks m = None -> blen buf <= 0) -> exists m', tls_post_encrypt m buf = Ret m' /\ multi_inv b m' /\ polite m'.
Proof.
  intros Hm Hp Hs. unfold tls_post_encrypt. set (m1 := m_set_save m None).
  assert (Hm1 : multi_inv b m1 /\ polite m1) by (split; [apply (multi_inv_same _ m)|apply (polite_same m)]; try done; same_sessions).
  destruct (0 <? blen buf) eqn:E; [|by exists m1]. destruct (m_save_ks m) as [i|]; [|specialize (Hs eq_refl); lia]. cbn [must mbind outcome_bind].
  eexists. split; [done|]. destruct Hm1. by apply set_key_scan_ok; [| |apply harmless_counters].
Qed.

(** ** Payload and addresses *)

Lemma tls_send_payload_ok b write m i data :
  multi_inv b m -> polite m -> exists ks ok, tls_send_payload write (Some (get_key_scan m i)) data = Ret (ks, ok) /\
    multi_inv b (set_key_scan m i ks) /\ polite (set_key_scan m i ks).
Proof.
  intros Hm Hp. unfold tls_send_payload. cbn [must mbind outcome_bind].
  assert (Hg : forall ks, harmless (get_key_scan m i) ks -> multi_inv b (set_key_scan m i ks) /\ polite (set_key_scan m i ks)) by (intros; by apply set_key_scan_ok).
  destruct (S_ACTIVE <=? _); [destruct (write data =? 1)|]; (eexists _, _; split; [done|]); apply Hg; apply harmless_payload || apply harmless_refl.
Qed.

Lemma tls_rec_payload_ok b m buf hd (c : bytes) tl :
  multi_inv b m -> polite m -> holds buf hd c tl -> exists m' buf' ok, tls_rec_payload m buf = Ret (m', buf', ok) /\ multi_inv b m' /\ polite m'.
Proof.
  intros Hm Hp Hbuf. unfold tls_rec_payload. destruct (_ && _) eqn:E; [|by eexists _, _, _]. apply andb_true_iff in E as [E _].
  pose proof (mi_slots _ _ Hm TM_ACTIVE) as Ha. cbn [m_get slot_ok get_key_scan] in *. destruct Ha as [Ha|[Ha _]]; [|rewrite Ha in E; done].
  pose proof (si_primary _ _ _ Ha) as Hl. destruct (lk_read _ _ _ _ Hl) as (h2 & c2 & t2 & Hrd & Hcap).
  assert (Hcopy : exists b' ok, buf_copy buf (k_plaintext_read_buf (ts_primary (m_active m))) = Ret (b', ok)).
  { destruct (buf_copy_spec _ _ _ _ _ _ _ _ Hbuf Hrd) as [H1 H2]. destruct (decide (zlen c2 <= tl)); [destruct (H1 ltac:(lia)) as (b' & -> & _); eauto|rewrite H2 by lia; eauto]. }
  destruct Hcopy as (b' & ok & ->). cbn [mbind outcome_bind]. eexists _, _, _. split; [done|]. set (ks := k_set_bufs _ _ _).
  assert (Hlive : live_key (o_frame (m_opt m)) b (m_active m) ks).
  { apply live_key_bufs; [done| |apply Hl]. destruct Hrd as (blk & Hok & Ho & Hc & Ht). exists h2, [], (zlen c2 + t2). split; [|simpl; lia]. pose proof (zlen_content _ _ Hok) as Hz. rewrite Hc in Hz.
    eapply holds_intro with (blk := blk); [|done|done|simpl; lia]. destruct Hok. split; simpl; try done; lia. }
  split; [apply multi_inv_set; [done|left; by apply sess_inv_primary]|]. apply polite_set; [done|]. intros _ Hst. apply early_primary; [|done|done]. by apply (Hp TM_ACTIVE).
Qed.

Lemma update_key_addr_ok addr ks : addr_ok addr -> exists ks', update_key_addr addr ks = Ret ks' /\ harmless ks ks'.
Proof.
  intros Ha. unfold update_key_addr. destruct (negb _); [exists ks; split; [done|apply harmless_refl]|]. destruct (match_total addr (k_remote_addr ks) Ha) as (r & ->).
  cbn [mbind outcome_bind]. eexists. split; [done|]. destruct r; [apply harmless_refl|by apply harmless_addr].
Qed.

Lemma tls_update_remote_addr_ok b addr m : multi_inv b m -> polite m -> addr_ok addr -> exists m', tls_update_remote_addr addr m = Ret m' /\ multi_inv b m' /\ polite m'.
Proof.
  intros Hm Hp Ha. unfold tls_update_remote_addr.
  assert (Hs : forall s, exists s', update_session_addr addr s = Ret s' /\ harmless (ts_primary s) (ts_primary s') /\ harmless (ts_lame s) (ts_lame s') /\
    s' = ts_set_lame (ts_set_primary s (ts_primary s')) (ts_lame s')).
  { intros s. unfold update_session_addr. destruct (update_key_addr_ok addr (ts_primary s) Ha) as (k1 & -> & H1). cbn [mbind outcome_bind].
    destruct (update_key_addr_ok addr (ts_lame s) Ha) as (k2 & -> & H2). cbn [mbind outcome_bind]. eexists. by split_and!. }
  destruct (Hs (m_active m)) as (a & -> & A1 & A2 & Ea). cbn [mbind outcome_bind]. destruct (Hs (m_initial m)) as (i & -> & I1 & I2 & Ei). cbn [mbind outcome_bind].
  destruct (Hs (m_lame m)) as (l & -> & L1 & L2 & El). cbn [mbind outcome_bind]. eexists. split; [done|].
  assert (Hinv : forall s s', sess_inv (o_frame (m_opt m)) b s -> harmless (ts_primary s) (ts_primary s') -> harmless (ts_lame s) (ts_lame s') ->
    s' = ts_set_lame (ts_set_primary s (ts_primary s')) (ts_lame s') -> sess_inv (o_frame (m_opt m)) b s').
  { intros s s' H H1 H2 E. rewrite E. apply sess_inv_lame_harmless; [by apply sess_inv_primary_harmless|done]. }
  assert (Hearly : forall s s', early s -> harmless (ts_primary s) (ts_primary s') -> s' = ts_set_lame (ts_set_primary s (ts_primary s')) (ts_lame s') -> early s').
  { intros s s' H H1 E. rewrite E. apply early_lame, early_primary; [done|apply H1|apply H1]. }
  pose proof (mi_slots _ _ Hm TM_ACTIVE) as Sa. pose proof (mi_slots _ _ Hm TM_INITIAL) as Si. destruct (mi_slots _ _ Hm TM_LAME_DUCK) as [Sl1 Sl2]. cbn [m_get slot_ok] in *. split.
  - split; [apply Hm|]. intros []; cbn [m_get m_set_sessions slot_ok m_opt m_active m_initial m_lame].
    + destruct Sa as [Sa|[Sa1 Sa2]]; [left; by apply (Hinv (m_active m))|right]. unfold dead. rewrite (hl_state _ _ A1). split; [done|by apply A2].
    + by apply (Hinv (m_initial m)).
    + split; [by rewrite (hl_state _ _ L1)|by apply L2].
  - intros [] Hj Hst; cbn [m_get m_set_sessions m_active m_initial m_lame] in *; [| |done].
    + rewrite (hl_state _ _ A1) in Hst. apply (Hearly (m_active m)); [by apply (Hp TM_ACTIVE)|done|done].
    + rewrite (hl_state _ _ I1) in Hst. apply (Hearly (m_initial m)); [by apply (Hp TM_INITIAL)|done|done].
Qed.

End multi.
