(* ===== verification/TlsTunnel.v ===== *)
(** * Runs of a TLS tunnel

    The states that a tunnel reaches by processing its sessions, receiving and
    sending packets and installing keys, as a step relation; all of them satisfy
    the invariant of [TlsMulti], so that no assertion fails and no pointer is
    NULL on the way.  Then the choice of keys for data packets, end to end, and
    the two ways in which the code does fail. *)

From S2P Require Import Prelude Buffer CircList PacketId DataChannel DataTunnel TlsCrypt Reliable ReliableAck ReliableStore ControlChannel ControlWrap KeyExchange TlsSessions TlsProcess TlsMulti.
From stdpp Require Import prelude.
From Stdlib Require Import ZArith Lia ZifyBool.

Local Open Scope Z_scope.

Section tunnel.
Context {K M : Type} `{!CipherOps K} `{!HmacOps M} `{!KeyInit K M} (crypt : crypt_lib K M).
Abbreviation tls_session := (@tls_session K M).
Abbreviation tls_options := (@tls_options K M).
Abbreviation key_state := (@key_state K M).
Abbreviation tls_multi := (@tls_multi K M).
Implicit Types (m : tls_multi) (ks : key_state) (s : tls_session) (o : tls_options).

(** ** Keys for renegotiations *)

Section dynamic.
Context (Hcrypt : @key_init_ok K M _ _ (crypt_init crypt)).

(** Both ends of a context with keys from [keys]. *)
Lemma dynamic_wrap_inv f b work pid (server : bool) keys (r : @tls_wrap_ctx K M) lf ig :
  let '(enc, dec) := @init_key_ctx_bi K M (crypt_init crypt) keys (if server then KEY_DIRECTION_NORMAL else KEY_DIRECTION_INVERSE) true true in
  rec_inv (pid_rec pid) [] -> pid_send pid = mksend 0 0 -> buf_total work (BUF_SIZE f) -> 0 <= b ->
  kc_cipher (tw_server_key r) = None -> (forall wb, tw_wkc r = Some wb -> exists hd c tl, holds wb hd c tl /\ zlen c <= TLS_CRYPT_V2_MAX_WKC_LEN) ->
  wrap_inv f b (mkwrap WRAP_CRYPT (mkco enc dec (mkopt pid None lf) ig) work (tw_server_key r) (tw_wkc r) (tw_metadata r) (tw_keydata r)).
Proof using Hcrypt.
  destruct (@init_key_ctx_bi K M (crypt_init crypt) keys _ true true) as [enc dec] eqn:E. intros Hrec Hsend (hd & c & tl & Hwork & Hcap) Hb Hsk Hwkc.
  destruct Hcrypt as [Ks Kp Kz Km]. assert (Hk : exists ko ki ho hi, enc = mkkey (Some (@cipher_ctx_init K M (crypt_init crypt) ko true)) (Some (@hmac_ctx_init K M (crypt_init crypt) ho)) [] /\
    dec = mkkey (Some (@cipher_ctx_init K M (crypt_init crypt) ki false)) (Some (@hmac_ctx_init K M (crypt_init crypt) hi)) []).
  { unfold init_key_ctx_bi, init_key_ctx in E. destruct server; cbn in E; injection E as <- <-; by eexists _, _, _, _. }
  destruct Hk as (ko & ki & ho & hi & -> & ->). split; try done.
  - exists []. eexists _, _. split; [done|done|done|apply Ks|]. intros d. apply Km.
  - exists (mkwrap WRAP_CRYPT (mkco (mkkey None None []) (mkkey (Some (@cipher_ctx_init K M (crypt_init crypt) ko false)) (Some (@hmac_ctx_init K M (crypt_init crypt) ho)) []) (mkopt pid None lf) false) clear_buf
      (mkkey None None []) None clear_buf []), []. split.
    + split; [done|]. eexists _, _, _, _. split; [|split_and!; try done].
      split; try done; [unfold packet_id_initialized; cbn; apply Hrec|]. cbn [tw_opt]. unfold pid_of. cbn [co_replay opt_packet_id]. rewrite Hsend. by vm_compute.
    + eexists _, _. split; [done|done|done|apply Ks|]. intros d. apply Km.
  - intros _. holds_facts Hwork. destruct Hwork as (blk & Hok & _). split; [by exists blk|]. cbn [tw_work]. lia.
  - cbn. rewrite Hsend. unfold id_base. cbn. lia.
Qed.

(** The first key keeps using the first context. *)
Lemma live_key_reneg f b s s' ks : tw_wkc (ts_tls_wrap s') = tw_wkc (ts_tls_wrap s) -> k_key_id ks = 0 -> live_key f b s ks -> live_key f b s' ks.
Proof using.
  intros Hw H0 []. assert (Hr : wkc_ready s (k_key_id ks) <-> wkc_ready s' (k_key_id ks)) by (rewrite H0; unfold wkc_ready, uses_reneg; cbn; by rewrite Hw). split; try done.
  - destruct lk_chan as (ch & n & C1 & C2 & C3 & C4 & C5). exists ch, n. unfold wkc_length. rewrite Hw. split_and!; try done. intros Hx. by apply Hr, C4.
  - destruct lk_opcode as [O1 O2]. split; [done|]. intros. by apply Hr, O2.
Qed.

Lemma dynamic_key_ok b o exported s s' :
  opts_ok o -> 0 <= b -> sess_inv (o_frame o) b s -> early s -> k_key_id (ts_primary s) = 0 ->
  tls_session_generate_dynamic_tls_crypt_key crypt o exported s = Ret (s', true) -> sess_inv (o_frame o) b s' /\ early s' /\ ts_primary s' = ts_primary s.
Proof using Hcrypt.
  intros Ho Hb Hs He H0. unfold tls_session_generate_dynamic_tls_crypt_key. destruct (frame_buf_size _ (oo_frame _ Ho)) as [Hbs _].
  destruct (alloc_total _ Hbs) as (work & -> & Hwork). cbn [mbind outcome_bind]. destruct (oo_window _ Ho) as [Hw1 Hw2].
  destruct (packet_id_init_inv _ _ Hw1 Hw2) as (pid & Epid & Hrec & _). pose proof (packet_id_init_send _ _ _ Epid) as Hsend. rewrite Epid. cbn [mbind outcome_bind].
  destruct exported as [keys|]; [|done]. intros Hr. apply bind_Ret_inv in Hr as (keys' & _ & Hr). revert Hr.
  pose proof (dynamic_wrap_inv (o_frame o) b work pid (o_server o) keys' (ts_tls_wrap_reneg s) (opt_long_form (co_replay (tw_opt (ts_tls_wrap s))))
    (co_ignore_packet_id (tw_opt (ts_tls_wrap s)))) as Hd. destruct (@init_key_ctx_bi K M (crypt_init crypt) keys' _ true true) as [enc dec]. intros [= <-].
  destruct Hs as [H1 [H2 H2'] H3 H4 [H5 H6] H7]. destruct H2' as [R1 R2 R3 R4 R5 R6 R7]. specialize (Hd Hrec Hsend Hwork Hb R3 R6). split; [|split; [|done]].
  - split; try done. by apply (live_key_reneg _ _ s).
  - intros ch Hc. specialize (He ch Hc). cbn [ts_primary ts_set_wraps] in *. destruct He as [[E1 E2]|He]; [left|by right]. split; [done|]. by rewrite H0.
Qed.

End dynamic.

(** ** Installing keys *)

Definition exporter_ok (ex : exporter) : Prop :=
  (forall seed secret keys, ex_prf ex seed secret 256 = Some keys -> zlen keys = 256) /\ (forall keys, ex_data ex = Some keys -> zlen keys = 256).

Section runs.
Context (Hinit : data_init_ok (K := K) (M := M)) (Hcrypt : @key_init_ok K M _ _ (crypt_init crypt)).

Lemma do_work_ok b ex kt (insecure long_form : bool) m m' :
  multi_inv b m -> polite m -> 0 <= b -> exporter_ok ex -> k_state (ts_primary (m_active m)) = S_ACTIVE ->
  tls_session_update_crypto_params_do_work crypt ex kt insecure long_form m TM_ACTIVE = Ret (m', true) -> multi_inv b m' /\ polite m'.
Proof using Hinit Hcrypt.
  intros Hm Hp Hb [Hprf Hdata] Hst. unfold tls_session_update_crypto_params_do_work. cbn [m_get]. destruct (k_initialized _); [by intros [= <-]|].
  pose proof (mi_opts _ _ Hm) as Ho. set (fl := mkflags long_form _ _ _ _). set (o1 := o_set_crypto _ _ kt insecure fl). assert (Ho1 : opts_ok o1) by (apply opts_ok_crypto; [done|apply Ho]).
  pose proof (mi_slots _ _ Hm TM_ACTIVE) as Ha. cbn [m_get slot_ok] in Ha. destruct Ha as [Ha|[Ha _]]; [|rewrite Hst in Ha; done].
  assert (He : early (m_active m)) by (apply (Hp TM_ACTIVE); [done|]; cbn [m_get]; by rewrite Hst).
  intros H. apply bind_Ret_inv in H as ([s1 ok1] & H1 & H).
  assert (Hs1 : ok1 = true -> sess_inv (o_frame o1) b s1 /\ early s1 /\ ts_primary s1 = ts_primary (m_active m)).
  { intros ->. destruct (_ && _) eqn:E in H1; [|by injection H1 as <-]. apply andb_true_iff in E as [E _]. apply (dynamic_key_ok Hcrypt b o1 (ex_dynamic ex) (m_active m)); try done. lia. }
  destruct ok1; cbn [negb] in H; [|done]. destruct (Hs1 eq_refl) as (Hs & He1 & Hpr). apply bind_Ret_inv in H as ([[o2 s2] ok2] & H2 & [= <- ->]).
  destruct (generate_keys_ok b o1 ex s1 Hinit Ho1 Hs He1) as (o2' & s2' & ok2' & H2' & Ho2 & Hf2 & Hs2 & He2 & _); [rewrite Hpr, Hst; done|done|done|]. rewrite H2 in H2'.
  injection H2' as <- <- <-. split.
  - apply (multi_inv_set b (m_set_opt m o2) TM_ACTIVE); [by apply multi_inv_opt; [| |rewrite Hf2]|]. left. cbn [m_opt m_set_opt]. by rewrite Hf2.
  - apply (polite_set (m_set_opt m o2) TM_ACTIVE); [|done]. intros [] Hj Hx; [by apply (Hp TM_ACTIVE)|by apply (Hp TM_INITIAL)|done].
Qed.

(** The exporter gives two keys, and so does the key file if there is one. *)
Definition renegotiation_ok (ex : exporter) s : Prop :=
  forall keys, ex_dynamic ex = Some keys -> zlen keys = 256 /\ (tw_mode (ts_tls_wrap s) <> WRAP_NONE -> zlen (tw_keydata (ts_tls_wrap s)) = 256).

Lemma dynamic_key_total o ex s : opts_ok o -> renegotiation_ok ex s -> exists s' ok, tls_session_generate_dynamic_tls_crypt_key crypt o (ex_dynamic ex) s = Ret (s', ok).
Proof using.
  intros Ho Hex. unfold tls_session_generate_dynamic_tls_crypt_key. destruct (frame_buf_size _ (oo_frame _ Ho)) as [Hbs _]. destruct (alloc_total _ Hbs) as (work & -> & _). cbn [mbind outcome_bind].
  destruct (oo_window _ Ho) as [Hw1 Hw2]. destruct (packet_id_init_inv _ _ Hw1 Hw2) as (pid & -> & _). cbn [mbind outcome_bind]. destruct (ex_dynamic ex) as [keys|] eqn:E; [|eauto].
  destruct (Hex keys E) as [Hk Hd]. assert (Hx : tw_mode (ts_tls_wrap s) <> WRAP_NONE -> exists k, xor_key2 keys (tw_keydata (ts_tls_wrap s)) = Ret k).
  { intros Hm. unfold xor_key2. rewrite ASSERT_true by (rewrite (Hd Hm), Hk; done). eauto. }
  destruct (tw_mode (ts_tls_wrap s)); [|destruct (Hx ltac:(done)) as (k & ->)..]; cbn [mbind outcome_bind];
    destruct (@init_key_ctx_bi K M (crypt_init crypt) _ _ true true); eauto.
Qed.

Lemma update_crypto_params_total b ex kt (insecure long_form cipher_ok : bool) imported m :
  multi_inv b m -> polite m -> exporter_ok ex -> renegotiation_ok ex (m_active m) -> cf_resend_wkc imported = false -> k_state (ts_primary (m_active m)) = S_ACTIVE ->
  0 <= b -> exists m' ok, tls_session_update_crypto_params crypt ex kt insecure long_form cipher_ok imported m TM_ACTIVE = Ret (m', ok).
Proof using Hinit Hcrypt.
  intros Hm Hp [Hprf Hdata] Hreneg Hw Hst Hb. unfold tls_session_update_crypto_params. destruct cipher_ok; cbn [negb]; [|eauto]. set (o0 := o_set_crypto _ _ _ _ _).
  assert (Ho0 : opts_ok o0) by (apply opts_ok_crypto; [apply Hm|cbn; by rewrite (oo_flags _ (mi_opts _ _ Hm)), Hw]).
  assert (Hf0 : o_frame o0 = o_frame (m_opt m)) by done. clearbody o0. unfold tls_session_update_crypto_params_do_work. cbn [m_get m_set_opt m_active m_opt]. destruct (k_initialized _); [eauto|].
  set (fl := mkflags long_form _ _ _ _). set (o1 := o_set_crypto _ _ kt insecure fl). assert (Ho1 : opts_ok o1) by (apply opts_ok_crypto; [done|apply Ho0]).
  assert (Hf1 : o_frame o1 = o_frame (m_opt m)) by exact Hf0. clearbody o1.
  pose proof (mi_slots _ _ Hm TM_ACTIVE) as Ha. cbn [m_get slot_ok] in Ha. destruct Ha as [Ha|[Ha _]]; [|rewrite Hst in Ha; done].
  assert (He : early (m_active m)) by (apply (Hp TM_ACTIVE); [done|]; cbn [m_get]; by rewrite Hst).
  assert (H1 : exists s1 ok1, (if (k_key_id (ts_primary (m_active m)) =? 0) && cf_dynamic_tls_crypt fl then tls_session_generate_dynamic_tls_crypt_key crypt o1 (ex_dynamic ex) (m_active m)
                else Ret (m_active m, true)) = Ret (s1, ok1) /\ (ok1 = true -> sess_inv (o_frame o1) b s1 /\ early s1 /\ ts_primary s1 = ts_primary (m_active m))).
  { assert (Ha1 : sess_inv (o_frame o1) b (m_active m)) by (by rewrite Hf1). destruct (_ && _) eqn:E; [|by eexists _, true]. destruct (dynamic_key_total o1 ex (m_active m) Ho1 Hreneg) as (s1 & ok1 & Hd). exists s1, ok1. split; [done|]. intros ->.
    apply andb_true_iff in E as [E _]. apply Z.eqb_eq in E. by apply (dynamic_key_ok Hcrypt b o1 (ex_dynamic ex) (m_active m)). }
  destruct H1 as (s1 & ok1 & -> & Hs1). cbn [mbind outcome_bind]. destruct ok1; cbn [negb]; [|eauto]. destruct (Hs1 eq_refl) as (Hs & He1 & Hpr).
  destruct (generate_keys_ok b o1 ex s1 Hinit Ho1 Hs He1) as (o2 & s2 & ok2 & -> & _); [rewrite Hpr, Hst; done|done|done|]. cbn [mbind outcome_bind]. eauto.
Qed.

Lemma update_crypto_params_ok b ex kt (insecure long_form cipher_ok : bool) imported m m' :
  multi_inv b m -> polite m -> 0 <= b -> exporter_ok ex -> cf_resend_wkc imported = false -> k_state (ts_primary (m_active m)) = S_ACTIVE ->
  tls_session_update_crypto_params crypt ex kt insecure long_form cipher_ok imported m TM_ACTIVE = Ret (m', true) -> multi_inv b m' /\ polite m'.
Proof using Hinit Hcrypt.
  intros Hm Hp Hb Hex Hw Hst. unfold tls_session_update_crypto_params. destruct cipher_ok; cbn [negb]; [|done]. set (o1 := o_set_crypto _ _ _ _ _).
  assert (Ho1 : opts_ok o1) by (apply opts_ok_crypto; [apply Hm|cbn; by rewrite (oo_flags _ (mi_opts _ _ Hm)), Hw]).
  intros Hr. refine (do_work_ok b ex kt insecure long_form (m_set_opt m o1) m' _ _ Hb Hex Hst Hr); [by apply multi_inv_opt|]. intros [] Hj Hx; [by apply (Hp TM_ACTIVE)|by apply (Hp TM_INITIAL)|done].
Qed.

(** ** Reachable states *)

Record packet_ok (e : packet_env) (buf : buffer) : Prop := {
  po_now : 1 < pk_now e;
  po_junk : Forall is_byte (pk_junk e);
  po_buf : exists hd c tl, holds buf hd c tl /\ zlen c + tl <= zlen (pk_junk e)
}.

(** [reach n m]: [m] after [n] operations.  The peer never asks for a wrapped
    client key that a session does not have ([polite]), and the tunnel receives
    nothing while its active session is in S_ERROR.  The program around the
    tunnel moves [multi_state] on. *)
Inductive reach : nat -> tls_multi -> Prop :=
| reach_start o now max_hmac tls_mtu sa si m :
    opts_ok (o_set_frame o (tls_init_control_channel_frame_parameters max_hmac tls_mtu)) -> u32_ok now -> sid_ok sa -> sid_ok si ->
    tls_multi_init_finalize (tls_multi_init o) now max_hmac tls_mtu sa si = Ret m -> reach 0 m
| reach_process n m fuel env to_link to_link_addr info wakeup x r :
    reach n m -> (max_rounds <= fuel)%nat -> menv_ok env ->
    tls_multi_process fuel env m to_link to_link_addr info wakeup = Ret (x, r) -> reach (S n) (mp_multi x)
| reach_receive n m e from floated buf m' buf' sel ad ret :
    reach n m -> k_state (ts_primary (m_active m)) <> S_ERROR -> addr_ok from -> packet_ok e buf ->
    tls_pre_decrypt crypt e from floated m buf = Ret (m', buf', sel, ad, ret) -> polite m' -> reach (S n) m'
| reach_encrypt n m now buf m' buf' sel packet m'' :
    reach n m -> tls_pre_encrypt now m buf = Ret (m', buf', sel) -> (sel = None -> blen packet <= 0) -> tls_post_encrypt m' packet = Ret m'' -> reach (S n) m''
| reach_send_payload n m write i data ks ok :
    reach n m -> tls_send_payload write (Some (get_key_scan m i)) data = Ret (ks, ok) -> reach (S n) (set_key_scan m i ks)
| reach_rec_payload n m buf hd c tl m' buf' ok :
    reach n m -> holds buf hd c tl -> tls_rec_payload m buf = Ret (m', buf', ok) -> reach (S n) m'
| reach_status n m st : reach n m -> reach (S n) (m_set_state m st)
| reach_addr n m addr m' : reach n m -> addr_ok addr -> tls_update_remote_addr addr m = Ret m' -> reach (S n) m'
| reach_params n m ex kt insecure long_form cipher_ok imported m' :
    reach n m -> exporter_ok ex -> cf_resend_wkc imported = false -> k_state (ts_primary (m_active m)) = S_ACTIVE ->
    tls_session_update_crypto_params crypt ex kt insecure long_form cipher_ok imported m TM_ACTIVE = Ret (m', true) -> reach (S n) m'.

Lemma init_finalize_ok o now max_hmac tls_mtu sa si :
  opts_ok (o_set_frame o (tls_init_control_channel_frame_parameters max_hmac tls_mtu)) -> u32_ok now -> sid_ok sa -> sid_ok si ->
  exists m, tls_multi_init_finalize (tls_multi_init o) now max_hmac tls_mtu sa si = Ret m /\ multi_inv 6 m /\ polite m.
Proof using.
  intros Ho Hnow Hsa Hsi. unfold tls_multi_init_finalize. cbn [m_opt m_set_opt tls_multi_init m_set m_set_sessions]. set (o1 := o_set_frame _ _) in *.
  destruct (new_session_ok 6 o1 now sa Ho) as (a & -> & Ha & Ea); [done|done|done|]. cbn [mbind outcome_bind]. cbn [m_opt m_set m_set_opt m_set_sessions].
  destruct (new_session_ok 6 o1 now si Ho) as (i & -> & Hi & Ei); [done|done|done|]. cbn [mbind outcome_bind]. eexists. split; [done|]. split.
  - split; [done|]. intros []; [by left|done|]. split; [done|]. by left.
  - intros [] Hj _; [exact Ea|exact Ei|done].
Qed.

Lemma tunnel_inv n m : reach n m -> Z.of_nat n < 2 ^ 27 -> multi_inv (6 + 6 * Z.of_nat n) m /\ polite m.
Proof using Hinit Hcrypt.
  assert (Hstep : forall (k : nat) b, b = 6 + 6 * Z.of_nat k -> forall m', multi_inv b m' -> multi_inv (6 + 6 * Z.of_nat (S k)) m') by (intros k b -> m' H; eapply multi_inv_mono; [done|lia]).
  induction 1 as [o now max_hmac tls_mtu sa si m Ho Hnow Hsa Hsi Hr|n m fuel env tl ta info w x r _ IH Hf Henv Hr|n m e from floated buf m' buf' sel ad ret _ IH Hd Hfrom Hpk Hr Hpol
    |n m now buf m' buf' sel packet m'' _ IH Hr Hsel Hpost|n m write i data ks ok _ IH Hr|n m buf hd c tl m' buf' ok _ IH Hb Hr|n m st _ IH|n m addr m' _ IH Ha Hr|n m ex kt ins lf cok imp m' _ IH Hex Hw Hst Hr]; intros Hn.
  { destruct (init_finalize_ok o now max_hmac tls_mtu sa si Ho Hnow Hsa Hsi) as (m0 & Hr0 & H0). rewrite Hr in Hr0. injection Hr0 as <-. done. }
  all: destruct (IH ltac:(lia)) as [Hm Hp].
  - destruct (tls_multi_process_ok fuel env Hf Henv Hinit _ m tl ta info w Hm Hp) as (x0 & r0 & Hr0 & Hm0 & Hp0); [unfold TLS_RELIABLE_N_SEND_BUFFERS; lia|].
    rewrite Hr in Hr0. injection Hr0 as <- <-. split; [eapply multi_inv_mono; [done|lia]|done].
  - destruct Hpk as [P1 P2 (hd & c & tl & P3 & P4)].
    destruct (tls_pre_decrypt_ok crypt e _ from floated m buf hd c tl Hm Hp Hd) as (m0 & b0 & s0 & a0 & r0 & Hr0 & Hm0 & _); try done; [unfold TLS_RELIABLE_N_SEND_BUFFERS; lia|].
    rewrite Hr in Hr0. injection Hr0 as <- <- <- <- <-. split; [|done]. eapply multi_inv_mono; [done|lia].
  - destruct (tls_pre_encrypt_ok _ now m buf Hm Hp) as (m0 & b0 & s0 & Hr0 & Hm0 & Hp0 & Hsv & _). rewrite Hr in Hr0. injection Hr0 as <- <- <-.
    destruct (tls_post_encrypt_ok _ m' packet Hm0 Hp0) as (m1 & Hr1 & Hm1 & Hp1); [by rewrite Hsv|]. rewrite Hpost in Hr1. injection Hr1 as <-. split; [by eapply Hstep|done].
  - destruct (tls_send_payload_ok _ write m i data Hm Hp) as (k0 & ok0 & Hr0 & Hm0 & Hp0). rewrite Hr in Hr0. injection Hr0 as <- <-. split; [by eapply Hstep|done].
  - destruct (tls_rec_payload_ok _ m buf hd c tl Hm Hp Hb) as (m0 & b0 & ok0 & Hr0 & Hm0 & Hp0). rewrite Hr in Hr0. injection Hr0 as <- <- <-. split; [by eapply Hstep|done].
  - assert (Hsame : same_sessions m (m_set_state m st)) by (by split; [|intros []]). split; [eapply Hstep; [done|]; by apply (multi_inv_same _ m)|by apply (polite_same m)].
  - destruct (tls_update_remote_addr_ok _ addr m Hm Hp Ha) as (m0 & Hr0 & Hm0 & Hp0). rewrite Hr in Hr0. injection Hr0 as <-. split; [by eapply Hstep|done].
  - destruct (update_crypto_params_ok _ ex kt ins lf cok imp m m' Hm Hp) as [Hm0 Hp0]; try done; [lia|]. split; [by eapply Hstep|done].
Qed.

End runs.

(** ** Headers of data packets *)

Lemma scan_key_id b m i : multi_inv b m -> S_GENERATED_KEYS <= k_state (get_key_scan m i) -> 0 <= k_key_id (get_key_scan m i) < 8.
Proof.
  intros Hm Hst. pose proof (mi_slots _ _ Hm TM_ACTIVE) as Ha. destruct (mi_slots _ _ Hm TM_LAME_DUCK) as [_ Hl]. cbn [m_get slot_ok] in *.
  assert (Hlame : forall ks, lame_ok ks -> S_GENERATED_KEYS <= k_state ks -> 0 <= k_key_id ks < 8) by (intros ks [Hk|(_ & _ & _ & Hk)]; [rewrite Hk; done|done]).
  destruct i; cbn [get_key_scan] in *; [|destruct Ha as [Ha|[_ Ha]]; apply Hlame; try done; apply Ha|by apply Hlame].
  destruct Ha as [Ha|[Ha _]]; [|rewrite Ha in Hst; done]. apply (lk_key_id _ _ _ _ (si_primary _ _ _ Ha)).
Qed.

(** The first byte of a data packet. *)
Lemma data_header op k : op = P_DATA_V1 \/ op = P_DATA_V2 -> 0 <= k < 8 ->
  let h := Z.lor (Z.shiftl op P_OPCODE_SHIFT) k in 0 <= h < 2 ^ 8 /\ Z.shiftr h P_OPCODE_SHIFT = op /\ Z.land h P_KEY_ID_MASK = k.
Proof.
  intros Hop Hk. unfold P_OPCODE_SHIFT, P_KEY_ID_MASK. rewrite Z.lor_comm, lor_field by lia. change 7 with (Z.ones 3). rewrite Z.land_ones, Z.shiftr_div_pow2 by lia.
  unfold P_DATA_V1, P_DATA_V2 in Hop. change (2 ^ 3) with 8. change (2 ^ 8) with 256. destruct Hop as [-> | ->]; split_and!; mlia.
Qed.

Lemma data_header_v2 k peer : 0 <= k < 8 ->
  exists t, be_bytes 4 (u32 (Z.lor (Z.shiftl (Z.lor (Z.shiftl P_DATA_V2 P_OPCODE_SHIFT) k) 24) (Z.land peer 0xFFFFFF))) = Z.lor (Z.shiftl P_DATA_V2 P_OPCODE_SHIFT) k :: t /\ zlen t = 3.
Proof.
  intros Hk. destruct (data_header P_DATA_V2 k ltac:(by right) Hk) as (Hh & _ & _). cbv zeta in Hh. set (h := Z.lor _ k) in *. clearbody h.
  change 0xFFFFFF with (Z.ones 24). rewrite Z.land_ones by lia. rewrite Z.lor_comm. pose proof (Z.mod_pos_bound peer (2 ^ 24) ltac:(lia)) as Hp. rewrite lor_field by lia.
  set (y := peer mod 2 ^ 24) in *. clearbody y. rewrite u32_small by lia. exists (be_bytes 3 (y + h * 2 ^ 24)). split; [|by rewrite length_be_bytes].
  change (be_bytes 4 ?w) with ((w / 256 ^ Z.of_nat 3) mod 256 :: be_bytes 3 w). f_equal. change (256 ^ Z.of_nat 3) with (2 ^ 24). mlia.
Qed.

(** The packet as the receiver has it in its buffer. *)
Section routing.
Context (b : Z) (e : packet_env) (from : bytes) (floated : bool) (m : tls_multi).
Hypotheses (Hm : multi_inv b m) (Hp : polite m) (Hfrom : addr_ok from).

Lemma receive_data op k rest buf hd tl :
  op = P_DATA_V1 \/ op = P_DATA_V2 -> 0 <= k < 8 -> holds buf hd (Z.lor (Z.shiftl op P_OPCODE_SHIFT) k :: rest) tl -> (op = P_DATA_V2 -> 4 <= zlen rest) ->
  (exists i, usable m from floated k i) ->
  exists m' buf' j, tls_pre_decrypt crypt e from floated m buf = Ret (m', buf', Some j, Some (data_part op hd rest).2, false) /\ usable m from floated k j /\
    holds buf' (data_part op hd rest).1.1 (data_part op hd rest).1.2 tl.
Proof using Hm Hp Hfrom.
  intros Hop Hk Hbuf Hlen (i & Hi). destruct (data_header op k Hop Hk) as (Hh & Hsh & Hld). cbv zeta in *. set (h := Z.lor _ k) in *. clearbody h. unfold tls_pre_decrypt.
  destruct (buf_len_holds _ _ _ _ Hbuf) as [_ ->]. rewrite (proj2 (Z.leb_gt (zlen (h :: rest)) 0)) by (simpl; lia).
  assert (Hpk : peek buf (boffset buf) 1 = Ret [h]).
  { destruct Hbuf as (blk & Hok & Ho & Hc & Ht). pose proof (zlen_content _ _ Hok) as Hz. rewrite Hc in Hz. simpl in Hz. rewrite (peek_ok _ _ _ _ Hok); [|destruct Hok; lia|lia|destruct Hok; lia].
    f_equal. rewrite (buf_ok_content _ _ Hok) in Hc. rewrite <- (Z.add_0_r (boffset buf)), <- (slice_slice blk (boffset buf) (blen buf)) by (destruct Hok; lia). by rewrite Hc. }
  rewrite Hpk. cbn [mbind outcome_bind]. rewrite be_val_1, Hsh. replace ((op =? P_DATA_V1) || (op =? P_DATA_V2)) with true by lia.
  unfold handle_data_channel_packet. rewrite Hpk. cbn [mbind outcome_bind]. rewrite be_val_1, Hsh, Hld.
  destruct (data_scan_spec b from op k floated buf hd h tl rest Hfrom Hop Hbuf scans m Hm Hp) as (m' & buf' & sel & ad & -> & _ & _ & Hsel). cbn [mbind outcome_bind].
  destruct sel as [j|].
  - destruct Hsel as (before & after & _ & Hu & _ & -> & Hb' & _). by eexists _, _, j.
  - destruct Hsel as [_ [Hno|[E Hs]]]; [|specialize (Hlen E); lia]. rewrite Forall_forall in Hno. destruct (Hno i); [|done]. unfold scans. destruct i; set_solver.
Qed.
End routing.

(** ** Properties *)


(** C20. The keys of a tunnel: whatever was received and whoever was promoted, a key
    that may be used for data has its ciphers, a key that is only kept for
    decryption has a time to die, and the two keys of the active session have
    different ids, so that the id in a packet's header tells them apart. *)
Theorem tunnel_keys n (m : tls_multi) :
  data_init_ok (K := K) (M := M) -> @key_init_ok K M _ _ (crypt_init crypt) -> reach n m -> Z.of_nat n < 2 ^ 27 ->
  (forall i, S_GENERATED_KEYS <= k_state (get_key_scan m i) -> k_initialized (get_key_scan m i) = true /\ 0 <= k_key_id (get_key_scan m i) < 8) /\
  (forall i, i <> SCAN_PRIMARY -> S_INITIAL <= k_state (get_key_scan m i) -> t_must_die (k_times (get_key_scan m i)) <> 0) /\
  (S_INITIAL <= k_state (get_key_scan m SCAN_PRIMARY) -> S_INITIAL <= k_state (get_key_scan m SCAN_LAME) ->
     k_key_id (get_key_scan m SCAN_PRIMARY) <> k_key_id (get_key_scan m SCAN_LAME)).
Proof using.
  intros Hd Hc Hr Hn. destruct (tunnel_inv Hd Hc n m Hr Hn) as [Hm _]. pose proof (mi_slots _ _ Hm TM_ACTIVE) as Ha. destruct (mi_slots _ _ Hm TM_LAME_DUCK) as [_ Hl]. cbn [m_get slot_ok] in *.
  assert (Hlame : forall ks, lame_ok ks -> S_INITIAL <= k_state ks -> k_state ks = S_GENERATED_KEYS /\ t_must_die (k_times ks) <> 0).
  { intros ks [Hk|(H1 & _ & H2 & _)] Hs; [rewrite Hk in Hs; done|done]. }
  assert (Hl2 : lame_ok (ts_lame (m_active m))) by (destruct Ha as [Ha|[_ Ha]]; apply Ha). split_and!.
  - intros i Hi. split; [by eapply scan_initialized|by eapply scan_key_id].
  - intros [] Hi Hs; [done|by apply Hlame|by apply Hlame].
  - intros H1 H2. cbn [get_key_scan] in *. destruct Ha as [Ha|[Ha _]]; [|rewrite Ha in H1; done]. destruct (Hlame _ Hl2 H2) as [Hg _].
    rewrite (io_lame _ (si_ids _ _ _ Ha) Hg). apply next_key_id_range. apply (scan_key_id _ m SCAN_LAME Hm). cbn [get_key_scan]. by rewrite Hg.
Qed.

(** C22. Which key decrypts a packet: of the keys with the id in the packet's header,
    generated and authenticated, and negotiated with the sender's address
    unless the peer has floated, the first one in the order primary, lame duck,
    old session; its counters grow and the header is removed.  Without such a
    key, or when the packet is too short, the packet is dropped. *)
Theorem data_packet_key b from op key_id floated buf hd x tl rest (m : tls_multi) :
  multi_inv b m -> polite m -> addr_ok from -> op = P_DATA_V1 \/ op = P_DATA_V2 -> holds buf hd (x :: rest) tl ->
  exists m' buf' sel ad, data_scan from op key_id floated scans m buf = Ret (m', buf', sel, ad) /\
    match sel with
    | Some i => usable m from floated key_id i /\ (i = SCAN_PRIMARY \/ ~ usable m from floated key_id SCAN_PRIMARY) /\
        (i <> SCAN_OLD \/ ~ usable m from floated key_id SCAN_LAME) /\
        ad = Some (data_part op hd rest).2 /\ holds buf' (data_part op hd rest).1.1 (data_part op hd rest).1.2 tl /\
        m' = set_key_scan m i (k_set_counters (get_key_scan m i) ((k_n_bytes (get_key_scan m i) + zlen (data_part op hd rest).1.2) mod 2 ^ 64)
                                 ((k_n_packets (get_key_scan m i) + 1) mod 2 ^ 64))
    | None => blen buf' = 0 /\ ((forall i, ~ usable m from floated key_id i) \/ (op = P_DATA_V2 /\ zlen rest < 4))
    end.
Proof.
  intros Hm Hp Hf Hop Hb. destruct (data_scan_spec b from op key_id floated buf hd x tl rest Hf Hop Hb scans m Hm Hp) as (m' & buf' & sel & ad & -> & _ & _ & Hsel).
  eexists _, _, sel, ad. split; [done|]. destruct sel as [i|].
  - destruct Hsel as (before & after & Hl & Hu & Hno & Had & Hh & Hm'). unfold scans in Hl. split; [done|].
    destruct before as [|b1 [|b2 [|b3 before]]]; simplify_list_eq; rewrite ?Forall_cons in Hno; split_and!; try done; try (by left); right; naive_solver.
  - destruct Hsel as [H0 [Hno|Hs]]; (split; [done|]); [left|by right]. unfold scans in Hno. rewrite !Forall_cons in Hno. intros []; naive_solver.
Qed.

(** C21. A data packet finds its key at the other end: the header that
    [tls_prepend_opcode_v1] or [_v2] writes for the key the sender selected
    leads the receiver to a usable key with the same id, if it has one, and the
    receiver gets back exactly the bytes behind the header. *)
Theorem data_header_roundtrip b e from floated (v2 : bool) (m1 m2 : tls_multi) i buf hd c tl :
  multi_inv b m1 -> m_save_ks m1 = Some i -> sending m1 i -> holds buf hd c tl -> 4 <= hd -> c <> [] ->
  multi_inv b m2 -> polite m2 -> addr_ok from -> (exists j, usable m2 from floated (k_key_id (get_key_scan m1 i)) j) ->
  exists packet, (if v2 then tls_prepend_opcode_v2 m1 buf else tls_prepend_opcode_v1 m1 buf) = Ret packet /\
    forall rbuf rhd rtl, holds rbuf rhd (content packet) rtl ->
      exists m2' buf' j ad, tls_pre_decrypt crypt e from floated m2 rbuf = Ret (m2', buf', Some j, Some ad, false) /\
        usable m2 from floated (k_key_id (get_key_scan m1 i)) j /\ exists hd', holds buf' hd' c rtl.
Proof.
  intros H1 Hsave [Hst _] Hbuf Hhd Hne H2 Hp2 Hfrom Hex. pose proof (scan_key_id b m1 i H1 Hst) as Hk. set (k := k_key_id (get_key_scan m1 i)) in *.
  unfold tls_prepend_opcode_v1, tls_prepend_opcode_v2. rewrite Hsave. cbn [must mbind outcome_bind]. fold k. destruct v2.
  - destruct (data_header_v2 k (m_peer_id m1) Hk) as (t & Et & Ht). set (w := be_bytes 4 _) in *.
    destruct (buf_write_prepend_spec _ _ _ _ w Hbuf) as (packet & -> & Hpk); [apply be_bytes_is_byte|by rewrite Et; simpl; lia|]. cbn [mbind outcome_bind]. rewrite ASSERT_ok_true.
    exists packet. split; [done|]. intros rbuf rhd rtl Hr. assert (content packet = w ++ c) as Hc by (by destruct Hpk as (? & ? & ? & ? & ?)). rewrite Hc, Et in Hr. cbn [app] in Hr.
    destruct (receive_data b e from floated m2 H2 Hp2 Hfrom P_DATA_V2 k (t ++ c) rbuf rhd rtl ltac:(by right) Hk Hr) as (m2' & buf' & j & -> & Hu & Hb'); [|done|].
    { intros _. rewrite length_app. destruct c; [done|]. simpl. lia. }
    eexists _, _, j, _. split; [done|]. split; [done|]. cbn in Hb'. rewrite drop_app_length' in Hb' by lia. eauto.
  - destruct (data_header P_DATA_V1 k ltac:(by left) Hk) as (Hh & _ & _). cbv zeta in Hh. rewrite u8_small by done.
    destruct (buf_write_prepend_spec _ _ _ _ [Z.lor (Z.shiftl P_DATA_V1 P_OPCODE_SHIFT) k] Hbuf) as (packet & -> & Hpk); [constructor; [done|constructor]|simpl; lia|].
    cbn [mbind outcome_bind]. rewrite ASSERT_ok_true. exists packet. split; [done|]. intros rbuf rhd rtl Hr. assert (content packet = [Z.lor (Z.shiftl P_DATA_V1 P_OPCODE_SHIFT) k] ++ c) as Hc by (by destruct Hpk as (? & ? & ? & ? & ?)).
    rewrite Hc in Hr. cbn [app] in Hr.
    destruct (receive_data b e from floated m2 H2 Hp2 Hfrom P_DATA_V1 k c rbuf rhd rtl ltac:(by left) Hk Hr) as (m2' & buf' & j & -> & Hu & Hb'); [done|done|].
    eexists _, _, j, _. split; [done|]. split; [done|]. eauto.
Qed.

(** ** Where the code fails *)

(** *** A session without keys

    [multi_generate_keys] puts the active session into S_ERROR when its keys
    cannot be generated, after the code that resets such sessions has run. *)
Definition active_key (m : tls_multi) : key_state := ts_primary (m_active m).

Lemma auth_scan_active now answers cached l : forall (m : tls_multi) ac su de fa,
  let m' := (auth_scan now answers cached l m ac su de fa).1 in
  m_opt m' = m_opt m /\ k_state (active_key m') = k_state (active_key m) /\ (k_state (active_key m) = S_ERROR -> active_key m' = active_key m).
Proof.
  induction l as [|i l IH]; intros m ac su de fa; [done|]. cbn [auth_scan]. destruct (TLS_AUTHENTICATED m (get_key_scan m i)) eqn:E; [|apply IH].
  set (ks := update_key_auth_status now answers cached i (get_key_scan m i)). destruct (IH (set_key_scan m i ks) true (su || bool_decide (k_authenticated ks = KS_AUTH_TRUE))
    (de || bool_decide (k_authenticated ks = KS_AUTH_DEFERRED)) (fa || bool_decide (k_authenticated ks = KS_AUTH_FALSE))) as (I1 & I2 & I3).
  assert (Hk : k_state (active_key (set_key_scan m i ks)) = k_state (active_key m)).
  { destruct i; try done. exact (hl_state _ _ (update_auth_harmless now answers cached SCAN_PRIMARY (active_key m))). }
  split_and!; [by rewrite I1, set_key_scan_opt|by rewrite I2|]. intros He. rewrite I3 by (by rewrite Hk). destruct i; try done.
  unfold TLS_AUTHENTICATED in E. cbn [get_key_scan] in E. fold (active_key m) in E. rewrite He in E. destruct (o_server _); done.
Qed.

Lemma auth_status_active now answers (m : tls_multi) : let m' := (tls_authentication_status m now answers).1 in
  m_opt m' = m_opt m /\ k_state (active_key m') = k_state (active_key m) /\ (k_state (active_key m) = S_ERROR -> active_key m' = active_key m).
Proof.
  unfold tls_authentication_status. set (cached := tls_authentication_status_use_cache m now). pose proof (auth_scan_active now answers cached scans m false false false false) as H.
  destruct (auth_scan _ _ _ _ _ _ _ _ _) as [m1 [[[ac su] de] fa]]. by destruct cached.
Qed.

Lemma multi_session_active fuel env (x x' : mproc) i : k_state (active_key (mp_multi x)) = S_ERROR -> multi_session fuel env x i = Ret x' -> active_key (mp_multi x') = active_key (mp_multi x).
Proof.
  intros He. assert (H0 : active_key (mp_multi (initial_remote x i)) = active_key (mp_multi x)) by (unfold initial_remote; destruct i; try done; cbn [bool_decide]; by destruct (_ && link_socket_actual_defined _)).
  unfold multi_session. rewrite <- H0 in *. clear H0. generalize dependent (initial_remote x i). clear x. intros x He. destruct (_ && _) eqn:E; [|by intros [= <-]].
  assert (Hi : i <> TM_ACTIVE) by (intros ->; cbn [m_get] in E; fold (active_key (mp_multi x)) in E; rewrite He in E; done).
  intros H. apply bind_Ret_inv in H as (r & _ & H). apply bind_Ret_inv in H as ([p active] & _ & H). set (m1 := m_set_state _ _) in H.
  assert (H1 : active_key m1 = active_key (mp_multi x)) by (by destruct i). set (m2 := match p_to_link_addr p with Some a => m_set_addr m1 a | None => m1 end) in H.
  assert (H2 : active_key m2 = active_key (mp_multi x)) by (rewrite <- H1; unfold m2; by destruct (p_to_link_addr p)). clearbody m2. destruct (_ =? S_ERROR); [|by injection H as <-].
  unfold session_failed in H. rewrite bool_decide_eq_false_2 in H by done. cbn [orb andb] in H. apply bind_Ret_inv in H as (m3 & H3 & H). injection H as <-. cbn [mp_multi mp_set_multi].
  unfold reset_session in H3. apply bind_Ret_inv in H3 as (s3 & _ & H3). injection H3 as <-. rewrite <- H2. by destruct i.
Qed.

Lemma process_active fuel env (m : tls_multi) tl ta info w x r : k_state (active_key m) = S_ERROR -> tls_multi_process fuel env m tl ta info w = Ret (x, r) ->
  active_key (mp_multi x) = active_key m \/ TLS_AUTHENTICATED (mp_multi x) (active_key (mp_multi x)) = true.
Proof.
  intros He H. unfold tls_multi_process in H. apply bind_Ret_inv in H as (x1 & H1 & H). apply bind_Ret_inv in H as (x2 & H2 & H). apply bind_Ret_inv in H as (x3 & H3 & H).
  apply multi_session_active in H1; [|done]. cbn [mp_multi] in H1. apply multi_session_active in H2; [|by rewrite H1]. apply multi_session_active in H3; [|by rewrite H2, H1]. rewrite H2, H1 in H3. clear H1 H2 x1 x2.
  destruct (auth_status_active (me_now env) (me_answers env) (mp_multi x3)) as (_ & _ & H4). destruct (tls_authentication_status _ _ _) as [m4 tas]. cbn [fst] in H4. specialize (H4 ltac:(by rewrite H3)). rewrite H3 in H4.
  apply bind_Ret_inv in H as (m5 & H5 & H). assert (E5 : active_key m5 = active_key m).
  { unfold multi_generate_keys in H5. fold (active_key m4) in H5. rewrite H4, He in H5. cbn [S_ERROR S_ACTIVE Z.eqb andb] in H5. destruct (decide _); injection H5 as <-; done. }
  set (m6 := if decide _ then m_set_state m5 CAS_PENDING else m5) in H. assert (E6 : active_key m6 = active_key m) by (unfold m6; by case_decide). clearbody m6.
  apply bind_Ret_inv in H as (x7 & H7 & H). assert (E7 : active_key (mp_multi x7) = active_key m).
  { unfold multi_retire in H7. apply bind_Ret_inv in H7 as ([die w7] & _ & H7). injection H7 as <-. by destruct die. }
  apply bind_Ret_inv in H as ([x8 tas'] & H8 & H). injection H as <- _. cbn [mp_multi mp_set_multi].
  assert (Eh : active_key (multi_hard_error x8) = active_key (mp_multi x8) /\ m_opt (multi_hard_error x8) = m_opt (mp_multi x8)) by (unfold multi_hard_error; by destruct (_ && _)).
  destruct Eh as [Eh1 Eh2]. unfold TLS_AUTHENTICATED. rewrite Eh1, Eh2. clear Eh1 Eh2. unfold multi_promote in H8. destruct (TLS_AUTHENTICATED (mp_multi x7) _) eqn:Ea; [|by injection H8 as <- _; left].
  right. apply bind_Ret_inv in H8 as (m8 & H8m & H8). unfold move_session in H8m. rewrite bool_decide_eq_false_2 in H8m by done. cbn [negb ASSERT mbind outcome_bind] in H8m.
  apply bind_Ret_inv in H8m as (s8 & _ & H8m). injection H8m as E8.
  assert (Ha8 : TLS_AUTHENTICATED m8 (active_key m8) = true) by (rewrite <- E8; exact Ea). clear E8.
  destruct (auth_status_active (me_now env) (me_promoted env) m8) as (O9 & K9 & _). destruct (tls_authentication_status _ _ _) as [m9 tas9]. cbn [fst] in *.
  destruct (decide _); injection H8 as <- _; cbn [mp_multi mp_set_multi mp_set_active]; [change (m_opt (m_set_state m9 CAS_RECONNECT_PENDING)) with (m_opt m9); change (active_key (m_set_state m9 CAS_RECONNECT_PENDING)) with (active_key m9)|];
    rewrite O9, K9; exact Ha8.
Qed.


End tunnel.

(** ** A client and a server

    The tunnels of a client and a server from their first packet to the first
    data: what the model computes when each side takes the packets that the
    other side sent.  The TLS library hands over the peer's key message, as it
    does at the end of a handshake. *)

Abbreviation demo_multi := (@tls_multi shift_key Z).

Definition demo_peer_env (server : bool) (heard : option bytes) (now : Z) : tls_env :=
  mkenv now (replicate 32 7) (fun _ => 1)
    (fun n => match heard with Some d => if zlen d <=? n then ReadData d else ReadNothing | None => ReadNothing end)
    (fun _ => 1) (fun _ => ReadNothing) (demo_source (if server then 9 else 3)) (if server then demo_answer else KeyExchange.demo_message) (demo_auth server).
Definition demo_exporter : exporter := mkexp demo_prf None None.
Definition demo_multi_env (server : bool) (heard : option bytes) (now : Z) : multi_env :=
  mkmenv (fun _ _ => demo_peer_env server heard now) (fun _ => replicate 8 77) (fun _ => now) now
    (fun _ _ => (ACF_DISABLED, ACF_DISABLED, ACF_SUCCEEDED)) (fun _ _ => (ACF_DISABLED, ACF_DISABLED, ACF_SUCCEEDED)) (replicate 8 78) demo_exporter.
Definition demo_crypt : crypt_lib shift_key Z := mkcrypt sum_key_init.
Definition demo_packet_env (now : Z) : packet_env := mkpkt now (replicate 3000 0) None.

(** The tunnel and the packet after a call of the event loop, the tunnel after
    a packet, the tunnel with keys. *)
Definition demo_start (server : bool) : outcome demo_multi :=
  tls_multi_init_finalize (tls_multi_init (demo_options server)) 1000 64 1250 (replicate 8 (if server then 11 else 21)) (replicate 8 (if server then 12 else 22)).
Definition demo_process (server : bool) (heard : option bytes) (now : Z) (m : demo_multi) : outcome (mproc * tlsmp) :=
  @tls_multi_process shift_key Z _ _ data_key_init max_rounds (demo_multi_env server heard now) m clear_buf None (mklsi demo_addr false false false None) 3600.
Definition demo_receive (now : Z) (m : demo_multi) (c : bytes) := tls_pre_decrypt demo_crypt (demo_packet_env now) demo_addr false m (buf_of c).
Definition demo_params (m : demo_multi) : outcome (demo_multi * bool) :=
  @tls_session_update_crypto_params shift_key Z _ data_key_init demo_crypt demo_exporter (mkkt (Some 32) false) false false true demo_flags m TM_ACTIVE.

(** The value of a call that returns. *)
Definition got {A} (d : A) (r : outcome A) : A := match r with Ret a => a | _ => d end.
Definition returns {A} (r : outcome A) : bool := match r with Ret _ => true | _ => false end.

Lemma got_ret {A} (d : A) r : returns r = true -> r = Ret (got d r).
Proof. by destruct r. Qed.

Definition no_multi : demo_multi := tls_multi_init (demo_options false).
Definition no_mproc : mproc * tlsmp := (mkmproc no_multi clear_buf None (mklsi [] false false false None) 0 TLSMP_INACTIVE false, TLSMP_KILL).
Definition no_packet : demo_multi * buffer * option scan * option Z * bool := (no_multi, clear_buf, None, None, false).

(** The client sends its reset packet, the server answers, the client
    acknowledges and sends its key, the server sends its own. *)
Definition client_0 : demo_multi := got no_multi (demo_start false).
Definition server_0 : demo_multi := got no_multi (demo_start true).
Definition client_1 : mproc := fst (got no_mproc (demo_process false None 1000 client_0)).
Definition server_1 : demo_multi := (got no_packet (demo_receive 1001 server_0 (content (mp_to_link client_1)))).1.1.1.1.
Definition server_2 : mproc := fst (got no_mproc (demo_process true None 1001 server_1)).
Definition client_2 : demo_multi := (got no_packet (demo_receive 1002 (mp_multi client_1) (content (mp_to_link server_2)))).1.1.1.1.
Definition client_3 : mproc := fst (got no_mproc (demo_process false (Some (message_bytes true (demo_source 9) demo_answer)) 1002 client_2)).
Definition server_3 : demo_multi := (got no_packet (demo_receive 1003 (mp_multi server_2) (content (mp_to_link client_3)))).1.1.1.1.
Definition server_4 : mproc := fst (got no_mproc (demo_process true (Some (message_bytes false (demo_source 3) KeyExchange.demo_message)) 1003 server_3)).
Definition client_4 : demo_multi := fst (got (no_multi, false) (demo_params (mp_multi client_3))).
Definition server_5 : demo_multi := fst (got (no_multi, false) (demo_params (mp_multi server_4))).

(** A sufficient condition for [polite] that can be computed. *)
Definition quiet (m : demo_multi) (i : tm) : bool :=
  match k_chan (ts_primary (m_get m i)) with
  | Some ch => forallb (fun e => negb (e_active e) || negb (is_hard_reset_method2 (e_opcode e)) || bool_decide (content (e_buf e) = [])) (entries (ks_rec_reliable ch))
  | None => true
  end.

Lemma quiet_polite m : quiet m TM_ACTIVE && quiet m TM_INITIAL = true -> polite m.
Proof.
  intros H i Hi _ ch Hch. right. intros j e [Hj Ha] Hop.
  assert (Hq : quiet m i = true) by (destruct i; [|by apply andb_true_iff in H as [_ H]|done]; by apply andb_true_iff in H as [H _]).
  unfold quiet in Hq. rewrite Hch, forallb_forall in Hq. specialize (Hq e). rewrite Ha, Hop in Hq. cbn [negb orb] in Hq. apply (bool_decide_eq_true_1 _), Hq.
  unfold slot in Hj. apply list_elem_of_In. by eapply list_elem_of_lookup_2.
Qed.

Lemma demo_peer_env_ok server heard now : 0 < now -> u32_ok now -> (forall d, heard = Some d -> 0 < zlen d /\ Forall is_byte d) -> env_ok (demo_peer_env server heard now).
Proof.
  intros H0 Hn Hh. split; [done| | | |]; cbn [demo_peer_env te_read_plain te_read_cipher te_key_rnd te_message].
  - intros n d. destruct heard as [h|]; [|done]. destruct (zlen h <=? n) eqn:E; [|done]. intros [= <-]. destruct (Hh h eq_refl). split; [lia|done].
  - done.
  - destruct server; by apply demo_source_ok.
  - destruct server; (split_and!; [by apply all_bytes_spec|..]); [done..|intros u q [= <- <-]; split; by apply all_bytes_spec|intros i [= <-]; by apply all_bytes_spec].
Qed.

Lemma repeated_sid_ok x : 0 < x < 256 -> sid_ok (replicate 8 x).
Proof.
  intros Hx. split; [done|]. split; [apply Forall_replicate; unfold is_byte; lia|]. unfold session_id_defined. rewrite bool_decide_eq_false_2; [done|]. cbn. intros [=]. lia.
Qed.

Lemma demo_multi_env_ok server heard now : 0 < now -> u32_ok now -> (forall d, heard = Some d -> 0 < zlen d /\ Forall is_byte d) -> menv_ok (demo_multi_env server heard now).
Proof.
  intros H0 Hn Hh.
  split; try done.
  - intros i n. by apply demo_peer_env_ok.
  - split; [intros i|]; by apply repeated_sid_ok.
  - intros seed secret keys [= <-]. done.
Qed.

Lemma heard_ok c : all_bytes c && (0 <? zlen c) = true -> forall d, Some c = Some d -> 0 < zlen d /\ Forall is_byte d.
Proof. intros H d [= <-]. apply andb_true_iff in H as [H1 H2]. split; [lia|by apply all_bytes_spec]. Qed.

Abbreviation demo_reach := (@reach shift_key Z _ _ data_key_init demo_crypt).

Lemma demo_start_reach server m : demo_start server = Ret m -> demo_reach 0 m.
Proof.
  assert (Hs : forall x y, 0 < x < 256 -> 0 < y < 256 -> sid_ok (replicate 8 (if server then x else y))) by (intros; destruct server; by apply repeated_sid_ok).
  unfold demo_start. apply reach_start; [apply demo_options_ok|done|apply Hs; lia|apply Hs; lia].
Qed.

Lemma demo_process_reach n server heard now m :
  demo_reach n m -> menv_ok (demo_multi_env server heard now) -> returns (demo_process server heard now m) = true ->
  demo_reach (S n) (mp_multi (fst (got no_mproc (demo_process server heard now m)))).
Proof.
  intros Hr He H. destruct (got no_mproc _) as [x r] eqn:E. eapply (reach_process _ n m max_rounds (demo_multi_env server heard now) clear_buf None _ 3600 x r Hr); [done|done|].
  rewrite <- E. by apply got_ret.
Qed.

Lemma demo_receive_reach n now m c :
  let m' := (got no_packet (demo_receive now m c)).1.1.1.1 in
  demo_reach n m -> (1 <? now) && all_bytes c && (zlen c <=? 3000) && negb (k_state (ts_primary (m_active m)) =? S_ERROR) && returns (demo_receive now m c) = true ->
  quiet m' TM_ACTIVE && quiet m' TM_INITIAL = true -> demo_reach (S n) m'.
Proof.
  intros m' Hr H Hq. unfold m' in *. clear m'. rewrite !andb_true_iff in H. destruct H as [[[[H1 H2] H3] H4] H5]. apply negb_true_iff, Z.eqb_neq in H4.
  destruct (got no_packet _) as [[[[m1 buf'] sel] ad] ret] eqn:E. cbn [fst] in *.
  apply (reach_receive _ n m (demo_packet_env now) demo_addr false (buf_of c) m1 buf' sel ad ret Hr H4); [by left| |rewrite <- E; by apply got_ret|by apply quiet_polite].
  split; cbn [pk_now pk_junk demo_packet_env]; [lia|apply Forall_replicate; unfold is_byte; lia|]. exists 0, c, 0. split; [apply buf_of_holds; [done|unfold BUF_SIZE_MAX; lia]|].
  rewrite length_replicate. lia.
Qed.

Lemma demo_params_reach n m :
  demo_reach n m -> (k_state (ts_primary (m_active m)) =? S_ACTIVE) && returns (demo_params m) && snd (got (no_multi, false) (demo_params m)) = true ->
  demo_reach (S n) (fst (got (no_multi, false) (demo_params m))).
Proof.
  intros Hr H. rewrite !andb_true_iff in H. destruct H as [[H1 H2] H3]. apply Z.eqb_eq in H1. destruct (got _ _) as [m' ok] eqn:E. cbn [fst snd] in *. subst ok.
  apply (reach_params _ n m demo_exporter (mkkt (Some 32) false) false false true demo_flags m' Hr); try done; [|rewrite <- E; by apply got_ret].
  split; [by intros seed secret keys [= <-]|done].
Qed.

Lemma client_reach : demo_reach 4 client_4.
Proof.
  apply demo_params_reach; [|by vm_compute]. apply demo_process_reach; [|apply demo_multi_env_ok; [done|done|apply heard_ok; by vm_compute]|by vm_compute].
  apply demo_receive_reach; [|by vm_compute|by vm_compute]. apply demo_process_reach; [|by apply demo_multi_env_ok|by vm_compute].
  apply (demo_start_reach false), got_ret. by vm_compute.
Qed.

Lemma server_reach : demo_reach 5 server_5.
Proof.
  apply demo_params_reach; [|by vm_compute]. apply demo_process_reach; [|apply demo_multi_env_ok; [done|done|apply heard_ok; by vm_compute]|by vm_compute].
  apply demo_receive_reach; [|by vm_compute|by vm_compute]. apply demo_process_reach; [|by apply demo_multi_env_ok|by vm_compute].
  apply demo_receive_reach; [|by vm_compute|by vm_compute]. apply (demo_start_reach true), got_ret. by vm_compute.
Qed.

(** The two ends with an unlimited number of further operations. *)
Lemma client_inv : multi_inv 100 client_4 /\ polite client_4.
Proof. destruct (tunnel_inv demo_crypt data_key_init_ok sum_key_init_ok 4 client_4 client_reach) as [H1 H2]; [lia|]. split; [eapply multi_inv_mono; [exact H1|lia]|done]. Qed.
Lemma server_inv : multi_inv 100 server_5 /\ polite server_5.
Proof. destruct (tunnel_inv demo_crypt data_key_init_ok sum_key_init_ok 5 server_5 server_reach) as [H1 H2]; [lia|]. split; [eapply multi_inv_mono; [exact H1|lia]|done]. Qed.

Lemma demo_addr_ok : addr_ok demo_addr.
Proof. by left. Qed.

(** The key of the server decrypts what the client sends. *)
Lemma server_usable : usable server_5 demo_addr false 0 SCAN_PRIMARY.
Proof. unfold usable. cbv zeta. assert (H : k_state (get_key_scan server_5 SCAN_PRIMARY) = S_GENERATED_KEYS) by (by vm_compute). rewrite H. split; [done|]. split_and!; [by vm_compute..|right; by vm_compute]. Qed.


Lemma tunnel_keys_witness : k_initialized (get_key_scan client_4 SCAN_PRIMARY) = true /\ 0 <= k_key_id (get_key_scan client_4 SCAN_PRIMARY) < 8.
Proof.
  destruct (tunnel_keys demo_crypt 4 client_4 data_key_init_ok sum_key_init_ok client_reach ltac:(lia)) as (H1 & _). apply H1. vm_compute. discriminate.
Defined.

(** A packet of the client with opcode P_DATA_V1. *)
Lemma data_packet_key_witness : exists m' buf' sel ad, data_scan demo_addr P_DATA_V1 0 false scans server_5 (buf_of [48; 1; 2; 3]) = Ret (m', buf', sel, ad) /\
  match sel with
  | Some i => usable server_5 demo_addr false 0 i /\ ad = Some 1 /\ holds buf' 1 [1; 2; 3] 0
  | None => False
  end.
Proof.
  destruct server_inv as [H1 H2].
  destruct (data_packet_key 100 demo_addr P_DATA_V1 0 false (buf_of [48; 1; 2; 3]) 0 48 0 [1; 2; 3] server_5 H1 H2 demo_addr_ok) as (m' & buf' & sel & ad & Hr & Hs);
    [by left|by apply buf_of_holds|]. exists m', buf', sel, ad. split; [exact Hr|]. destruct sel as [i|]; [destruct Hs as (U & _ & _ & A & B & _); split; [exact U|split; [exact A|exact B]]|].
  destruct Hs as (_ & [Hno|[He _]]); [exact (Hno _ server_usable)|discriminate He].
Defined.

Lemma multi_inv_save b (m : demo_multi) k : multi_inv b m -> multi_inv b (m_set_save m k).
Proof. intros [H1 H2]. split; [exact H1|]. intros i. specialize (H2 i). by destruct i. Qed.

Definition demo_data : buffer := mkbuf 32 8 3 (Some (replicate 8 0 ++ [7; 8; 9] ++ replicate 21 0)).

Lemma data_header_roundtrip_witness :
  exists packet, tls_prepend_opcode_v2 (m_set_save client_4 (Some SCAN_PRIMARY)) demo_data = Ret packet /\
    forall rbuf rhd rtl, holds rbuf rhd (content packet) rtl ->
      exists m2' buf' j ad, tls_pre_decrypt demo_crypt (demo_packet_env 1020) demo_addr false server_5 rbuf = Ret (m2', buf', Some j, Some ad, false) /\
        usable server_5 demo_addr false 0 j /\ exists hd', holds buf' hd' [7; 8; 9] rtl.
Proof.
  set (m1 := m_set_save client_4 (Some SCAN_PRIMARY)). assert (Hk : k_key_id (get_key_scan m1 SCAN_PRIMARY) = 0) by (vm_compute; reflexivity).
  pose proof (multi_inv_save 100 client_4 (Some SCAN_PRIMARY) (proj1 client_inv)) as H1. fold m1 in H1. assert (Hs : sending m1 SCAN_PRIMARY) by (split; [vm_compute; discriminate|vm_compute; reflexivity]).
  assert (Hd : holds demo_data 8 [7; 8; 9] 21) by (eapply holds_intro; [by apply demo_buf_ok|done|done|done]).
  destruct (data_header_roundtrip demo_crypt 100 (demo_packet_env 1020) demo_addr false true m1 server_5 SCAN_PRIMARY demo_data 8 [7; 8; 9] 21 H1 eq_refl Hs Hd ltac:(lia) ltac:(discriminate)
    (proj1 server_inv) (proj2 server_inv) demo_addr_ok) as (packet & Hp & Hr); [rewrite Hk; exists SCAN_PRIMARY; exact server_usable|].
  rewrite Hk in Hr. exists packet. exact (conj Hp Hr).
Defined.

(** The server's tunnel when the options are known and the PRF fails. *)
Definition server_done : demo_multi := m_set_state (mp_multi server_4) CAS_CONNECT_DONE.
Definition failing_env (now : Z) : multi_env :=
  let e := demo_multi_env true None now in
  mkmenv (me_process e) (me_sid e) (me_reset_now e) (me_now e) (me_answers e) (me_promoted e) (me_sid_promoted e) (mkexp (fun _ _ _ => None) None None).
Definition failing_process (now : Z) (m : demo_multi) : outcome (mproc * tlsmp) :=
  @tls_multi_process shift_key Z _ _ data_key_init max_rounds (failing_env now) m clear_buf None (mklsi demo_addr false false false None) 3600.
Definition server_failed : demo_multi := mp_multi (fst (got no_mproc (failing_process 1010 server_done))).
Definition client_ack : bytes := content (mp_to_link client_3).

Lemma failing_env_ok now : 0 < now -> u32_ok now -> menv_ok (failing_env now).
Proof. intros H0 Hn. destruct (demo_multi_env_ok true None now H0 Hn ltac:(done)) as [E1 E2 E3 E4 E5]. by split. Qed.

Lemma server_4_reach : demo_reach 4 (mp_multi server_4).
Proof.
  apply demo_process_reach; [|apply demo_multi_env_ok; [done|done|apply heard_ok; by vm_compute]|by vm_compute].
  apply demo_receive_reach; [|by vm_compute|by vm_compute]. apply demo_process_reach; [|by apply demo_multi_env_ok|by vm_compute].
  apply demo_receive_reach; [|by vm_compute|by vm_compute]. apply (demo_start_reach true), got_ret. by vm_compute.
Qed.

Lemma failing_process_reach n now m :
  demo_reach n m -> menv_ok (failing_env now) -> returns (failing_process now m) = true -> demo_reach (S n) (mp_multi (fst (got no_mproc (failing_process now m)))).
Proof.
  intros Hr He H. destruct (got no_mproc _) as [x r] eqn:E. eapply (reach_process _ n m max_rounds (failing_env now) clear_buf None _ 3600 x r Hr); [done|done|].
  rewrite <- E. by apply got_ret.
Qed.

Lemma server_failed_reach : demo_reach 6 server_failed.
Proof. apply failing_process_reach; [apply reach_status, server_4_reach|by apply failing_env_ok|by vm_compute]. Qed.

Lemma server_failed_state : k_state (active_key server_failed) = S_ERROR.
Proof. by vm_compute. Qed.

Lemma not_promoted x r : demo_process true None 1020 server_failed = Ret (x, r) -> TLS_AUTHENTICATED (mp_multi x) (active_key (mp_multi x)) = true -> False.
Proof.
  intros Hx Hk. assert (Ht : match demo_process true None 1020 server_failed with Ret (x, _) => TLS_AUTHENTICATED (mp_multi x) (active_key (mp_multi x)) | _ => false end = false) by (by vm_compute).
  rewrite Hx in Ht. congruence.
Qed.
Lemma now_u32 : u32_ok 1020.
Proof. done. Qed.
Lemma no_message : forall d : bytes, None = Some d -> 0 < zlen d /\ Forall is_byte d.
Proof. done. Qed.


(** *** A request that no client can satisfy

    What the client's reset packet gets in answer, with a request for the wrapped
    client key (CO_RESEND_WKC): a client without tls-crypt-v2 looks for the
    length of a key that it does not have.  Without the request it goes on. *)
Definition wkc_request : bytes := [0; 1; 0; 2; 0; 1].
Definition client_asked : demo_multi := (got no_packet (demo_receive 1002 (mp_multi client_1) (content (mp_to_link server_2) ++ wkc_request))).1.1.1.1.

Example wkc_request_faults : demo_process false None 1002 client_asked = Fault /\ returns (demo_process false None 1002 client_2) = true.
Proof. split; by vm_compute. Qed.
